(* ===== verification/_CoqProject ===== *)
-Q . S2P
Prelude.v
CppBase.v
BaseRef.v
PathUnit.v
DownloadTypes.v
ErrorDesc.v
TaskInfo.v
InfoStore.v
SystemConfig.v
SavePathQueue.v
ServerWorld.v
TaskRefCount.v
TaskObj.v
TaskSpec.v
TaskFactory.v
UserInfo.v
UserSelfMgr.v
UserSelfMgrSpec.v
UserSelfMgrOps.v
UserSelfMgrCreate.v
DownloadMgr.v
DownloadMgrSpec.v
RefEnv.v
ServerClaims.v
MgrClaims.v
TaskClaims.v
Base64Tables.v
Base64.v
BlowfishTables.v
Blowfish.v
EncryptText.v
RedisReply.v
RedisResp.v
RedisConn.v
RedisSentinel.v
RedisClient.v
RedisClientSpec.v
RedisClaims.v
RedisSubscriber.v
RedisSubscriberSpec.v
RedisSubClaims.v
DlnaTypes.v
ScreenCasting.v
ScreenCastingSpec.v
ScreenCastingClaims.v
RedisCmdTypes.v
RedisKeyCmds.v
RedisSetCmds.v
RedisStreamCmds.v
RedisFutures.v
RedisCmdClaims.v
RedisStreamReply.v
DispatchQueue.v
RedisConsumer.v
ThreadPool.v
IoService.v
IoServiceSpec.v
IoServiceClaims.v
MediaStruct.v
MediaParse.v
MediaClaims.v
MediaSchema.v
GrpcCall.v
GrpcCallSpec.v
GrpcCallClaims.v
DownloadRpc.v
DownloadRpcClaims.v
NetCurl.v
NetCurlSpec.v
NetCurlClaims.v
NetEnv.v
NasConfig.v
ProtectedPaths.v
EngineLoader.v
NasThread.v
StoreLife.v
GrpcStubTables.v
GrpcClient.v
GrpcClientClaims.v
MessageCenter.v
