(* ===== verification/Prelude.v ===== *)
(** * nas-third-party: a verification library

    The subjects are the remote download service of a NAS,
    [src/download_service/download_server/src], with its engine for http
    downloads, [third_party/netcurl], and the parts of [src/common] it rests on, the
    text encryption of [src/common/encrypt], the Redis client of [src/cpp_redis] with its I/O library [src/cpp_redis/tacopie], the screen
    casting of [src/dlna_server/src] and the media analysis of
    [src/media_server/src].

    ** The parts and how they interact

    In the download service clients create, pause, resume, retry, delete, clean
    and restore download tasks; the server runs them on three dynamically loaded
    engines (netcurl, netmule, netbt), bounds how many of a user's tasks download
    at the same time, shares engine tasks between users by hash, and persists
    every task in SQLite so that a restart can resume it.
    [DownloadManager] ([download_mgr.cc]) owns one [UserSelfMgr] per user and
    dispatches each request to it.  A [UserSelfMgr] ([user_self_mgr.cc]) owns the
    user's tasks, runs every request on the user's sequence and runs a timer that
    enforces the limit, polls progress and publishes it.  A task is an object of
    one of four classes ([task/]) made by [TaskFactory] ([task_factory.cc]); it
    calls its engine through [DownloadTaskInterface], counts references to the
    engine's hash in [TaskRefCount], posts its state to [DownloadInfoStore]
    ([db/download_info_store.cc]), whose closures run in order on a database
    thread, and notifies the client ([utils::Notify]).  [UserInfo] and
    [SystemCloudConfig] hold settings that change while the server runs.  Requests
    arrive as rpc calls: an object per call ([common/grpc_server_call_data.h])
    registers its successor, is processed by the method of its class
    ([grpc_call_data/]), which posts the request to the manager's thread or parses
    or uploads elsewhere ([parse_mgr.cc]), and is deleted when it is answered.  The
    manager's thread finds or adds the user and posts the request once more, to
    the thread of the user, of which there are at most twenty.
    The http engine is a [CurlDownloadTaskImpl] per download
    ([curl_download_task_impl.cc]), which names the files, and an
    [HttpDownloadTask] ([http_download_task.cc], [network_task.cc]) whose thread
    transfers into a temporary file and resumes it.

    Text encryption ([common/encrypt]) is Blowfish in ECB mode
    ([blowfish/blowfish.cc]) composed with Base64 ([base64/base64.cc]) by
    [encrypt_blowfish_base64.cc].

    The Redis client ([cpp_redis]) is a stack: the [io_service] of [tacopie]
    polls the sockets and gives their callbacks to a [thread_pool];
    [tacopie::tcp_client] queues read and write requests of a socket;
    [redis_connection] buffers commands in the wire format, and feeds what it
    reads to a [reply_builder], an incremental parser made of one builder per
    kind of reply; [client] queues the callback of every command, gives each
    reply to the oldest one, and reconnects; [subscriber] routes the messages of
    channels and patterns; [sentinel] finds the address of the master for both;
    [consumer] reads a stream with two clients and a [dispatch_queue] of workers.

    Screen casting ([dlna_server]): [ScreenCastingMgr] keeps the devices a UPnP
    library found and the tasks that play a url on one, answers the requests of
    [grpc_call_data/] when the device has answered, and two timers query and
    publish the state of the tasks.  The media server runs [FFmpegHelper] in a
    process of its own, which loads the ffmpeg libraries, reads the streams of a
    file into the structures of [media_struct.h] and prints them as JSON.

    When the download service starts, [DownloadInterfaceHelper] loads the engines
    ([download_helper/]) and [DownloadStoreHelper] opens the store; when it stops,
    what is queued is written and the store closed.  The services find their
    installation and keep settings in JSON files ([nas_config.cc], [json_cfg/]), run
    on named threads ([nas_thread.cc]) and call each other through stubs
    ([grpc_stub/]): [GrpcStubEnv] keeps a watched channel per service, and a call is
    an object that lives until it is answered.  [SendToMessageCenter] publishes
    messages through such a stub.

    ** Files

    - [Prelude]: the program monad [ST] (state and undefined behaviour), its
      weakest precondition [wp], loops and their rules.
    - [CppBase]: machine integers with their wrap-around, IEEE doubles
      ([SpecFloat]), strings, [std::sort] and Chromium's [base] as interfaces
      ([StdSort], [BaseLib]) with their documented laws; [BaseRef] implements
      these interfaces, so the laws are satisfiable.
    - [PathUnit]: [common/path/file_path_unit.cc], [path_protected.cc].
    - [DownloadTypes]: [download_public_define.h], [task_common_define.h],
      [context_field.h].
    - [ErrorDesc]: [download_error_desc.cc], [general_error_code.cc],
      [call_result.cc].
    - [TaskInfo]: [task/task_info.cc].
    - [InfoStore]: [db/download_info_store.cc]; a posted closure is a value of
      [StoreTask], its body is [<name>_closure], the database thread is [drain].
    - [SystemConfig]: [config/system_cloud_config.cc].
    - [SavePathQueue]: [utils/save_path_queue.cc].
    - [ServerWorld]: the state shared by all objects, and the engines, file
      system, clock and random numbers as the interface [Env].
    - [TaskRefCount]: [task_ref_count.cc].
    - [TaskObj]: [task/task_base.cc], [link_task.cc], [curl_task.cc],
      [mule_task.cc], [bt_task_base.cc], [bt_torrent_task.cc],
      [bt_magnet_task.cc]; an override is named [<Class>_<function>] and the
      virtual call has the plain name.
    - [TaskSpec]: the invariant of a task and what every member function keeps.
    - [TaskFactory]: [task_factory.cc], with the laws [EnvLaws] of the engines.
    - [UserInfo]: [user_info.cc].
    - [UserSelfMgr]: [user_self_mgr.cc]; [UserSelfMgrSpec] (invariant of the task
      list, the limit), [UserSelfMgrOps] (control and deletion) and
      [UserSelfMgrCreate] (creation, parsing, restore) prove its operations.
    - [DownloadMgr]: [download_mgr.cc] and the events of the running server;
      [DownloadMgrSpec]: the server's invariant, each request's contract,
      reachability.
    - [RefEnv]: a concrete environment that satisfies [EnvLaws], and
      demonstration states.
    - [ServerClaims], [MgrClaims], [TaskClaims]: the theorems about the whole
      server, about one user's manager, and about task objects, with witnesses.
    - [GrpcCall]: [common/grpc_server_call_data.h] and [.cc]; [GrpcCallSpec]: the
      places of the objects; [GrpcCallClaims]: its theorems.
    - [DownloadRpc]: [parse_mgr.cc], the uploads of [download_mgr.cc], the methods
      of [grpc_call_data/], [download_grpc_server.cc]; [DownloadRpcClaims]: the
      theorems about them and about the front end over [DownloadMgr].
    - [NetCurl]: [netcurl/src/network_task.cc], [http_download_task.cc],
      [curl_download_task_impl.cc], [parse_task.cc]; [NetCurlSpec]: a transfer, a
      server that delivers, names not in use; [NetCurlClaims]: its theorems.
    - [NetEnv]: the server's environment with [NetCurl] as its http engine;
      [EngineLoader]: [download_helper/]; [StoreLife]:
      [common/db/sqlite_store_base.cc], [db/download_store_helper.cc]; [NasConfig]:
      [common/json_cfg/json_cfg.cc], [common/nas_config.cc]; [NasThread]:
      [common/nas_thread.cc]; each with its theorems.
    - [ProtectedPaths]: the objects of [path_protected.cc], names that are not in use,
      the directories of [utils/utils.cc] and what a reset deletes.
    - [GrpcStubTables]: [common/grpc_stub/request_handler_id.hpp] and the [Dispatch]
      of the thirteen stubs; [GrpcClient]: [grpc_stub_env.cc], [grpc_stub_base.h],
      [grpc_hold_state_channel.cc], [grpc_client_context.hpp], [common/call_result.cc];
      [GrpcClientClaims]: its theorems.
    - [MessageCenter]: [common/send_to_message_center.cc],
      [common/auth_service_client.cc].
    - [Base64Tables], [Base64]: [encrypt/base64/], tables and code, with a
      reference decoder.
    - [BlowfishTables], [Blowfish]: [encrypt/blowfish/].
    - [EncryptText]: [encrypt/encrypt_blowfish_base64.cc].
    - [RedisReply]: [core/reply.cpp] and [builders/]; [RedisResp]: the wire format
      as a printer, [redis_connection::build_command], and the parser's theorems.
    - [RedisConn]: [tacopie/.../tcp_client.cpp], [network/redis_connection.cpp].
    - [RedisSentinel]: [core/sentinel.cpp].
    - [RedisClient]: the engine of [core/client.cpp] (send, commit, receive, fail,
      reconnect); [RedisClientSpec]: its ghost history and invariants;
      [RedisClaims]: its theorems.
    - [RedisSubscriber]: [core/subscriber.cpp]; [RedisSubscriberSpec]: its
      invariants; [RedisSubClaims]: its theorems.
    - [RedisCmdTypes], [RedisKeyCmds], [RedisSetCmds], [RedisStreamCmds],
      [RedisFutures]: the command functions of [core/client.cpp], every overload
      (an overload has a number); [RedisCmdClaims]: what they send.
    - [RedisStreamReply]: [core/types.cpp], [impl/types.hpp]; [DispatchQueue]:
      [misc/dispatch_queue.cpp], with its theorems; [RedisConsumer]:
      [core/consumer.cpp], with its theorems.
    - [ThreadPool]: [tacopie/.../thread_pool.cpp], with its theorems.
    - [IoService]: [tacopie/.../io_service.cpp] and [unix_self_pipe.cpp];
      [IoServiceSpec]: its invariants; [IoServiceClaims]: its theorems.
    - [DlnaTypes]: [public_define.h], [error_desc.cc], [utils.cc] of the screen
      casting service; [ScreenCasting]: [screen_casting/], [grpc_call_data/];
      [ScreenCastingSpec]: its invariants; [ScreenCastingClaims]: its theorems.
    - [MediaStruct]: [media_info/media_struct.h]; [MediaParse]:
      [ffmpeg_tools/ffmpeg_helper.cc]; [MediaClaims]: JSON round trips, the
      streams reported, probing; [MediaSchema]: the type of what is printed.

    ** How the code is read

    A member function of the download server is a function of type [ST S A], from
    the state it can reach to a result and a new state; [None] is undefined
    behaviour (null dereference, out-of-bounds copy, wrong downcast, signed
    overflow, stale iterator).  Hence [wp m Q s] says that the call returns and
    establishes [Q].  Errors the code reports are ordinary results.  The server's
    loops run over finite containers and are structural recursions ([for_each],
    [fold_each]): no fuel is needed, and every theorem about a call includes its
    termination.  Where C++ exceptions cross calls (the Redis parser) the result
    type has a constructor for them.  The other components pass their state
    explicitly; where undefined behaviour is reachable the result is an option.

    Fuel appears in these loops, with a bound that is proved enough: the number of
    replies in a buffer is at most its length ([reply_builder_terminates]), as is
    the depth of nested arrays; Base64 encoding consumes three bytes a round, its
    fuel is the length; Blowfish decodes [lSize / 8] blocks; a number of at most 64
    bits has at most 20 decimal digits; of one more number than there are files one
    is not in use ([renaming_gets_free_name]).  Engine and file-system calls
    may answer anything and change the environment arbitrarily, save for the four
    laws of [EnvLaws].  Each public operation re-posts itself to the user's
    sequence; a definition is the body that runs there, and the interleaving of
    users, timers, engine callbacks, posted closures, settings, restores and resets
    is the event sequence of [DownloadMgrSpec.step]; the two posts on the way
    there are in [DownloadRpc].  A [CurlTask] posts [ReStart] with its raw pointer:
    the closure is in [w_posts] and its turn is an event, and the end of the task
    turns it into one whose turn is undefined ([TaskObj.drop_task]).  A task parameter is shared by pointer
    between its creator and the task: constructors return it as the caller then
    sees it.

    Threads are event sequences.  What a socket call returns, when a read or a
    write completes and when a connection drops are arguments of the events of
    the Redis client and subscriber; a handler that holds a mutex is one event.
    The sentinel's lookup waits over a list of such events; a list too short is a
    wait that does not end.  In the thread pool and the I/O service every section
    under a mutex is an event, [None] is an event that is not enabled, and a
    callback is a number whose effects are the events that happen while it runs.
    The pipe of the I/O service has a capacity ([pipe_capacity]); a thread that
    writes to it when it is full is [blocked], with the mutex, and no event that
    takes the mutex is enabled.  Writes to sockets take the whole request: the
    rest of a short write is lost by the code.  The threads
    of the screen casting service post to one sequence; the results of the UPnP
    library and the timers are its events.  In [GrpcCall] the library's queue
    delivers its tags in any order and each thread runs its closures in order;
    [Off] is an event that is not enabled, [Freed] the use of a deleted object.
    In [DownloadRpc] the closures of the manager's thread, of the threads of the
    users and of the thread pool are data, and their turns are events.  In
    [NetCurl] the events are what libcurl does with a transfer, with how much of
    the stream's buffer reaches the disk; a call that joins the thread takes the
    events until it ends, and too few of them are a call that does not return.
    [curl_easy_pause] on a transfer that another thread runs is forbidden by
    libcurl: whether the process withstands it is an argument; in [NetEnv] that
    and the events until a join are parts of the state ([ne_race], [ne_join])
    that events set arbitrarily.  The memory behind a [string_ref], which the grpc
    client reads as a C string, is an argument too ([Behind]).  The two threads of the store run what was posted
    to them in any interleaving; in [GrpcClient] grpc completes operations, and
    addresses are found, in any order; in [DispatchQueue] and [NasThread] a section
    under a lock is an event.

    Code outside the repository is a parameter: [BaseLib] (Chromium's [base]),
    [StdSort], [Env] (engines, files, clock), [RpcEnv] (the files an upload
    writes), [SqlBackend], [IoLib] (the read end of the pipe and its capacity,
    the order of a hash table), [FFmpegLib] (the ffmpeg libraries
    and the file system), [NumberOutput] (what a failed number conversion leaves
    behind), [JsonLib] (the reader and writer of JSON texts), [MetaCodec] (the
    Base64 of [base]), [Place] (the platform's directories), [Installation]
    (the engine libraries), [Opening] (what opening the database does).  Each has a concrete instance, used by the witnesses.

    ** What is proved

    - Safety: from the initial state no sequence of valid events reaches undefined
      behaviour, and every event terminates ([server_safe]).
    - Contracts: each request refines an abstract contract on its user's tasks
      ([request_meets_contract]), which leaves other users alone, and respects the
      limit ([request_respects_limit]); restoring is the one exception
      ([restore_can_exceed_limit]).
    - Rpc: every call is answered once and no deleted object is used
      ([calls_answered_once]), each method is always attended
      ([every_method_attended]), pending calls get answered
      ([calls_get_answered]); the requests of a user take effect in the order
      received, and listings are those of that order
      ([requests_take_effect_in_order]), while requests of different users may
      overtake each other ([users_overtake]); no call is lost
      ([rpc_calls_conserved]); the front end keeps the server safe ([front_safe]).  Parsing leaves no trace ([parsing_leaves_no_trace]) and is
      survived exactly in the cases of [ParseLink_defined_iff] and
      [ParseTorrent_defined_iff]; an upload stores what was sent
      ([upload_stores_content]).
    - Restart: whatever the interleaving of its threads, stopping the service writes
      every posted change and a restart reads the tasks back
      ([restart_keeps_tasks]); a store that could not be opened ends the server at the
      first download ([unopened_store_kills_server]).
    - Engines: an engine counts as loaded exactly when its library has every function,
      and is then initialised before anything else ([engines_loaded]); one that does
      not count can still make tasks ([uninitialised_engine_used]).
    - Server over the http engine: a call of the server is survived by a download
      that has its parameters, save starting a thread over another one and a pause
      that races with the transfer ([engine_calls_survive],
      [pause_of_running_kills]); the server starts one over another for a download
      it restored
      ([restored_download_kills_server]), and waits for ever for one it queued to retry
      ([queued_retry_stalls]); a download runs from the request to the finished file
      ([http_download_delivered]).
    - Http engine: a download from a server that delivers what it is asked for ends
      with the content ([download_exact]) under a name that was not in use
      ([renaming_gets_free_name]), and the thread changes no other file
      ([download_keeps_files]); a retry repeats what waited in the buffer
      ([retry_repeats_buffer]), error pages stay ([error_answer_stays]), an early
      close stalls ([partial_file_stalls]), and cancelling deletes an older file of
      the same name ([cancel_deletes_namesake]).
    - Scheduling: the periodic check enforces the limit, wastes no free slot and
      walks the tasks in the user's order.
    - Operations of a manager on every branch: creation is all or nothing and
      answers every source, deletion, pausing, resuming, rejection.
    - Tasks: shared engine data survives until the last reference, recycle-bin
      round trip, progress, failure, seeding limits, bounds of the copied arrays.
    - Persistence: the write-behind queue refines a map of maps, and stored rows
      read back as restorable tasks.
    - Encryption: decrypting an encrypted text gives it back
      ([encrypt_decrypt_roundtrip]), from the round trips of Blowfish and of
      Base64; the decoder with its word-sized loads, lookup tables and four tails is
      equivalent to a byte-wise reference ([decode_is_reference]).
    - Redis parser: how the stream is cut into packets does not matter
      ([packets_do_not_matter]), printed replies and commands parse back
      ([stream_roundtrip], [commands_roundtrip]), parsing terminates.
    - Redis client: replies reach the callbacks of their commands in order
      ([pipeline_fifo]), no callback is lost or called twice
      ([callbacks_conserved]), a reconnection resends what was pending
      ([reconnect_resumes_pipeline]) but loses step when it also selects a database
      ([reconnect_select_out_of_step]), and a malformed reply stalls the client
      ([malformed_reply_stalls]).  The arguments of the commands with options are
      recovered from what is sent ([sort_roundtrip], [scan_roundtrip],
      [read_streams_roundtrip], [eval_splits]).
    - Redis subscriber: the server is subscribed to exactly the channels and
      patterns asked for, across reconnections ([subscriptions_survive]); every
      message reaches the callback of its channel ([pushes_routed]).  Sentinel:
      the master's address is found with the first sentinel that knows it
      ([master_lookup]).
    - Redis streams: a reply is taken apart as the server made it
      ([streams_taken_apart]); a consumer reads pending messages until a reply has
      none, an error included, then new ones for every group ([reading_mode]), and
      hands nothing to its callbacks ([nothing_is_handled]).  Dispatch queue: in order,
      no wake-up lost ([dispatch_fifo_and_wakes]), destruction ends
      ([destructor_joins]).
    - I/O service: a callback of a socket never runs twice at a time as long as a
      descriptor is not tracked again while it runs ([callbacks_exclusive]), the
      polling thread never sleeps on an outdated table ([no_lost_wakeup]), every
      socket that is ready is served whatever is ready with it
      ([ready_socket_served]), unless a full pipe stops the service
      ([full_pipe_deadlocks], [blocked_forever]).  Thread pool: tasks are taken in
      order ([tasks_fifo]), none waits while all workers sleep
      ([tasks_are_fetched]), and stopping ends unless it races with a worker about
      to sleep ([stop_terminates], [stop_can_hang]).
    - Screen casting: every creation request is answered at most once and is
      answered or held by a task ([create_calls_conserved]), tasks end as the
      device reports ([push_ends_tasks]), the timers run while there are tasks
      ([started_tasks_polled]).
    - Media analysis: descriptions survive their JSON form
      ([media_json_roundtrip]) but for the metadata
      ([metadata_written_not_found]); every stream is reported once
      ([streams_reported]); what is printed is well typed and its readers find
      every field but the metadata ([output_well_typed]); probing without the encoder is undefined
      ([init_without_encoder_undefined]).
    - Calls between services: a call is in one place at a time and its handler runs at
      most once ([calls_settled_once]), the channel in use is watched or being replaced
      ([channels_stay_watched]), a result crosses the metadata unchanged unless a
      digit lies behind it in memory ([results_cross_the_wire],
      [digit_behind_changes_error]) while no header does ([no_header_copied]).  Messages
      are published or kept ([messages_kept]), a failed one behind the later ones
      ([failed_message_overtaken]).
    - Configuration: writing a setting is an insertion into the map of its file
      ([config_refines_map]), the installation is the nearest above the executable
      ([install_dir_nearest]), a stored setting acts as a received one
      ([stored_is_received]).  The server protects its four directories, and every path
      if one was not found ([protected_after_start]); a reset deletes the torrent files
      only if their directory can be made ([reset_deletes]).
    - Named threads: an object is found by its name while its thread runs
      ([threads_found_by_name]), but not safely while it ends
      ([search_during_Uninit]).
    - Supporting code: recently-used paths refine an abstract bounded list, path
      protection, slash normalisation, error-number packing, settings.

    ** What the theorems assume, and what is not modelled

    [admissible] requests exclude what the code does not survive: a BitTorrent
    source sent as a plain link ([magnet_link_request_undefined]) and strings
    longer than the engine's arrays ([SetDownloadParam_defined_iff]); and a task
    id equal to the user's id, because [BtMagnetTask::Parse] passes the user id
    where a task id is expected.  Valid events exclude the turn of a restart
    whose task is gone ([posted_restart_dangles]).  [cfg_ok] excludes a seeding limit whose
    conversion to seconds overflows.  A SQL statement into which a quote was
    interpolated has an unspecified effect ([SqlBackend]); ids and names with a NUL,
    at which the statements are cut, are excluded from [drain_refines]
    ([cut_id_deletes_other]).

    [front_valid] excludes the sources that parsing does not survive and listings
    with a remaining time that does not fit its field.

    Not modelled: setting grpc up and shutting it down on the server's side
    ([RunServer], [Stop]); a second [Init] of the store's helper; the ed2k and
    BitTorrent engines (vendored programs); the options [netcurl] sets on a handle of
    libcurl; the sockets and the server of tacopie (system calls); start-up of the
    screen casting service and the sample player next to it; crash reporting, logging,
    process and http-fetching helpers of [src/common], which are platform calls; the
    parts for Windows; the vendored libraries.  What the thread of [GrpcStubEnv]
    does with one completion is one event: the watch that is lost when [End] comes
    between two of its tests is not seen.
    Data races inside one object are outside the model of the download server: the
    code confines each user's objects to one sequence.

    Next would be the whole server across a restart, [StoreLife] composed with
    [DownloadMgr], and the screen casting service over the UPnP library's own rules. *)

From Stdlib Require Export Ascii ZArith Lia.
From stdpp Require Export base tactics numbers list gmap strings pretty sorting relations.

#[global] Open Scope Z_scope.
#[global] Set Default Goal Selector "!".

(** ** The program monad

    A C++ member function is a state transformer over the object graph it can
    reach.  [None] stands for undefined behaviour or a failed CHECK (null
    dereference, out-of-bounds memcpy, bad downcast): proving [wp m Q s]
    therefore proves that the call returns normally and establishes [Q]. *)
Definition ST (S A : Type) : Type := S → option (A * S).

Definition ret {S A} (a : A) : ST S A := λ s, Some (a, s).
Definition bind {S A B} (m : ST S A) (f : A → ST S B) : ST S B := λ s,
  match m s with Some (a, s') => f a s' | None => None end.

Declare Scope prog_scope.
Delimit Scope prog_scope with prog.
Notation "x ← m ; k" := (bind m (λ x, k)) : prog_scope.
Notation "' p ← m ; k" := (bind m (λ p, k)) : prog_scope.
Notation "m ;; k" := (bind m (λ _, k)) : prog_scope.
#[local] Open Scope prog_scope.

Section Monad.
  Context {S : Type}.

Definition crash {A} : ST S A := λ _, None.
Definition get : ST S S := λ s, Some (s, s).
Definition gets {A} (f : S → A) : ST S A := λ s, Some (f s, s).
Definition modify (f : S → S) : ST S unit := λ s, Some (tt, f s).
Definition of_option {A} (o : option A) : ST S A :=
  match o with Some a => ret a | None => crash end.

(** A range-based [for] loop whose body cannot leave early. *)
Fixpoint for_each {A} (l : list A) (body : A → ST S unit) : ST S unit :=
  match l with
  | [] => ret tt
  | x :: l => body x ;; for_each l body
  end.

(** The same loop threading local variables of the enclosing function. *)
Fixpoint fold_each {A B} (l : list A) (acc : B) (body : B → A → ST S B) : ST S B :=
  match l with
  | [] => ret acc
  | x :: l => acc' ← body acc x; fold_each l acc' body
  end.

(** [if (c) { ... }] without an [else]. *)
Definition when (c : bool) (m : ST S unit) : ST S unit :=
  if c then m else ret tt.
End Monad.

(** ** Weakest preconditions *)
Definition wp {S A} (m : ST S A) (Q : A → S → Prop) (s : S) : Prop :=
  match m s with Some (a, s') => Q a s' | None => False end.

Section Wp.
  Context {S : Type}.
  Implicit Types s : S.

Lemma wp_mono {A} (m : ST S A) (Q Q' : A → S → Prop) s :
  wp m Q s → (∀ a s', Q a s' → Q' a s') → wp m Q' s.
Proof. unfold wp. destruct (m s) as [[a s']|]; naive_solver. Qed.

Lemma wp_and {A} (m : ST S A) (Q Q' : A → S → Prop) s :
  wp m Q s → wp m Q' s → wp m (λ a s', Q a s' ∧ Q' a s') s.
Proof. unfold wp. destruct (m s) as [[a s']|]; naive_solver. Qed.

Lemma wp_ret {A} (a : A) (Q : A → S → Prop) s : Q a s → wp (ret a) Q s.
Proof. done. Qed.

Lemma wp_bind {A B} (m : ST S A) (f : A → ST S B) (Q : B → S → Prop) s :
  wp m (λ a s', wp (f a) Q s') s → wp (bind m f) Q s.
Proof. unfold wp, bind. by destruct (m s) as [[a s']|]. Qed.

Lemma wp_run_eq {A} (m m' : ST S A) (Q : A → S → Prop) s : m s = m' s → wp m' Q s → wp m Q s.
Proof. unfold wp. by intros ->. Qed.

Lemma wp_unbind {A B} (m : ST S A) (f : A → ST S B) (Q : B → S → Prop) s :
  wp (bind m f) Q s → wp m (λ a s', wp (f a) Q s') s.
Proof. unfold wp, bind. by destruct (m s) as [[a s']|]. Qed.

Lemma wp_assoc {A B C} (m : ST S A) (f : A → ST S B) (g : B → ST S C) (Q : C → S → Prop) s :
  wp (bind (bind m f) g) Q s → wp (bind m (λ a, bind (f a) g)) Q s.
Proof. unfold wp, bind. by destruct (m s) as [[a s']|]. Qed.

Lemma wp_get (Q : S → S → Prop) s : Q s s → wp get Q s.
Proof. done. Qed.

Lemma wp_gets {A} (f : S → A) (Q : A → S → Prop) s : Q (f s) s → wp (gets f) Q s.
Proof. done. Qed.

Lemma wp_modify (f : S → S) (Q : unit → S → Prop) s : Q tt (f s) → wp (modify f) Q s.
Proof. done. Qed.

Lemma wp_of_option {A} (o : option A) (Q : A → S → Prop) s a :
  o = Some a → Q a s → wp (of_option o) Q s.
Proof. by intros ->. Qed.

Lemma wp_when (c : bool) (m : ST S unit) (Q : unit → S → Prop) s :
  (c = true → wp m Q s) → (c = false → Q tt s) → wp (when c m) Q s.
Proof. unfold when. intros. destruct c; [auto | apply wp_ret; auto]. Qed.

(** Loop rule: [I] is indexed by the elements still to be visited. *)
Lemma wp_for_each {A} (I : list A → S → Prop) (l : list A) body (Q : unit → S → Prop) s :
  I l s →
  (∀ x l' s', I (x :: l') s' → wp (body x) (λ _ s'', I l' s'') s') →
  (∀ s', I [] s' → Q tt s') →
  wp (for_each l body) Q s.
Proof.
  intros HI Hstep HQ. revert s HI. induction l as [|x l IH]; intros s HI; simpl.
  - apply wp_ret, HQ, HI.
  - apply wp_bind. eapply wp_mono; [by apply Hstep|]. eauto.
Qed.

Lemma wp_fold_each {A B} (I : B → list A → S → Prop) (l : list A) acc body
    (Q : B → S → Prop) s :
  I acc l s →
  (∀ acc' x l' s', I acc' (x :: l') s' → wp (body acc' x) (λ b s'', I b l' s'') s') →
  (∀ acc' s', I acc' [] s' → Q acc' s') →
  wp (fold_each l acc body) Q s.
Proof.
  intros HI Hstep HQ. revert acc s HI. induction l as [|x l IH]; intros acc s HI; simpl.
  - apply wp_ret, HQ, HI.
  - apply wp_bind. eapply wp_mono; [by apply Hstep|]. eauto.
Qed.

Lemma fold_each_map {A B C} (f : A → B) (l : list A) (acc : C) (body : C → B → ST S C) s :
  fold_each (f <$> l) acc body s = fold_each l acc (λ c a, body c (f a)) s.
Proof.
  revert acc s. induction l as [|x l IH]; intros acc s; [done|]. cbn. unfold bind.
  destruct (body acc (f x) s) as [[c s']|]; [apply IH|done].
Qed.

Lemma fold_each_snoc {A B} (body : B → A → ST S B) (l : list A) x acc s b s' r :
  fold_each l acc body s = Some (b, s') → body b x s' = r → fold_each (l ++ [x]) acc body s = r.
Proof.
  revert acc s. induction l as [|a l IH]; intros acc s; cbn; unfold bind.
  - intros [= <- <-] <-. by destruct (body acc x s) as [[? ?]|].
  - destruct (body acc a s) as [[acc' s1]|]; [apply IH|done].
Qed.

Lemma wp_run {A} (m : ST S A) (Q : A → S → Prop) s :
  wp m Q s → ∃ a s', m s = Some (a, s') ∧ Q a s'.
Proof. unfold wp. destruct (m s) as [[a s']|]; naive_solver. Qed.

Lemma wp_intro {A} (m : ST S A) (Q : A → S → Prop) s a s' :
  m s = Some (a, s') → Q a s' → wp m Q s.
Proof. unfold wp. by intros ->. Qed.
End Wp.

(** Specifications of the development's operations, applied by [wp_call]. *)
Create HintDb wp_specs discriminated.

(** One step of symbolic execution. *)
Ltac wp_step :=
  lazymatch goal with
  | |- wp (ret _) _ _ => apply wp_ret
  | |- wp (bind _ _) _ _ => apply wp_bind
  | |- wp get _ _ => apply wp_get
  | |- wp (gets _) _ _ => apply wp_gets
  | |- wp (modify _) _ _ => apply wp_modify
  | |- wp (when _ _) _ _ => apply wp_when; intros ?
  | |- wp (if ?b then _ else _) _ _ => destruct b eqn:?
  end.
Ltac wp_steps := repeat (wp_step; cbn beta iota).

(** Use a specification whose postcondition is weaker than needed. *)
Ltac wp_call lem := eapply wp_mono; [eapply lem | cbn beta; intros].

(** ** Finite maps *)
Section Maps.
  Context {K : Type} `{Countable K} {A : Type}.
  Implicit Types m : gmap K A.

Lemma alter_Some_insert (f : A → A) k m x :
  m !! k = Some x → alter f k m = <[k := f x]> m.
Proof.
  intros Hx. apply map_eq. intros j. destruct (decide (k = j)) as [->|Hne].
  - by rewrite lookup_alter_eq, lookup_insert_eq, Hx.
  - by rewrite lookup_alter_ne, lookup_insert_ne.
Qed.

Lemma alter_None_id (f : A → A) k m : m !! k = None → alter f k m = m.
Proof.
  intros Hx. apply map_eq. intros j. destruct (decide (k = j)) as [->|Hne].
  - by rewrite lookup_alter_eq, Hx.
  - by rewrite lookup_alter_ne.
Qed.
End Maps.
