(* ===== verification/CppBase.v ===== *)
(** * The C++ and Chromium vocabulary of the sources

    Machine integers, IEEE doubles, byte strings, [std::map] iteration,
    [std::sort], fixed-size C buffers, JSON values, and the interface of the
    Chromium [base] helpers the server calls. *)

From S2P Require Import Prelude.
From Stdlib Require Import SpecFloat.

(** ** Machine integers *)
Definition int64_min : Z := - 2 ^ 63.
Definition int64_max : Z := 2 ^ 63 - 1.
Definition int32_min : Z := - 2 ^ 31.
Definition int32_max : Z := 2 ^ 31 - 1.

Definition in_int64 (z : Z) : bool := (int64_min <=? z) && (z <=? int64_max).
Definition in_int32 (z : Z) : bool := (int32_min <=? z) && (z <=? int32_max).

(** Conversion of an integer to a [w]-bit signed type: two's complement wrap. *)
Definition wrap_signed (w z : Z) : Z :=
  let m := z mod 2 ^ w in if m <? 2 ^ (w - 1) then m else m - 2 ^ w.
Definition to_int64 (z : Z) : Z := wrap_signed 64 z.
Definition to_int32 (z : Z) : Z := wrap_signed 32 z.
Definition to_uint32 (z : Z) : Z := z mod 2 ^ 32.
Definition to_uint64 (z : Z) : Z := z mod 2 ^ 64.

(** ** Doubles: IEEE binary64 with round-to-nearest-even *)
Definition double : Type := spec_float.
Definition d_prec : Z := 53.
Definition d_emax : Z := 1024.
Definition d_of_Z (z : Z) : double := binary_normalize d_prec d_emax z 0 false.
Definition d_zero : double := S754_zero false.
Definition d_minus_one : double := d_of_Z (-1).
Definition d_hundred : double := d_of_Z 100.
Definition d_add : double → double → double := SFadd d_prec d_emax.
Definition d_sub : double → double → double := SFsub d_prec d_emax.
Definition d_mul : double → double → double := SFmul d_prec d_emax.
Definition d_div : double → double → double := SFdiv d_prec d_emax.
Definition d_ltb : double → double → bool := SFltb.
Definition d_leb : double → double → bool := SFleb.
Definition d_eqb : double → double → bool := SFeqb.

(** Conversion of a double to an integer type truncates toward zero; the
    result is undefined outside the target range and for NaN or infinity. *)
Definition d_trunc (d : double) : option Z :=
  match d with
  | S754_zero _ => Some 0
  | S754_finite s m e =>
      let a := if 0 <=? e then Z.pos m * 2 ^ e else Z.pos m / 2 ^ (- e) in
      Some (if s then - a else a)
  | _ => None
  end.
Definition d_to_int64 (d : double) : option Z :=
  z ← d_trunc d; if in_int64 z then Some z else None.

(** ** Byte strings *)
Definition string_map (f : ascii → ascii) (s : string) : string :=
  String.string_of_list_ascii (f <$> String.list_ascii_of_string s).

Definition ascii_lower (c : ascii) : ascii :=
  let n := nat_of_ascii c in
  if (65 <=? n)%nat && (n <=? 90)%nat then ascii_of_nat (n + 32) else c.

Definition str_chars (s : string) : list ascii := String.list_ascii_of_string s.
Definition str_of (l : list ascii) : string := String.string_of_list_ascii l.

(** [s.find(sub) != npos] *)
Fixpoint str_contains (sub s : string) : bool :=
  String.prefix sub s ||
  match s with EmptyString => false | String _ s' => str_contains sub s' end.

(** [s.empty()] *)
Definition str_empty (s : string) : bool := bool_decide (s = EmptyString).

(** [s.c_str()] as a C string: the bytes before the first NUL. *)
Fixpoint c_str (s : string) : string :=
  match s with
  | EmptyString => EmptyString
  | String c s' => if bool_decide (c = "000"%char) then EmptyString else String c (c_str s')
  end.

(** [s.substr(pos, n)] and [s.substr(pos)] for [pos <= s.length()]. *)
Definition substr (pos n : nat) (s : string) : string := String.substring pos n s.
Definition substr_from (pos : nat) (s : string) : string :=
  String.substring pos (String.length s - pos) s.

(** Signed [int] multiplication: overflow is undefined. *)
Definition int_mul (a b : Z) : option Z := if in_int32 (a * b) then Some (a * b) else None.

Definition to_string_Z (z : Z) : string := pretty z.

(** ** [std::map] iteration: ascending keys *)
Definition str_le (a b : string) : Prop := String.leb a b = true.
#[global] Instance str_le_dec : RelDecision str_le.
Proof. intros a b. unfold str_le. apply _. Defined.

Definition map_keys {V} (m : gmap string V) : list string :=
  merge_sort str_le (elements (dom m)).

(** ** [std::sort]

    The standard leaves the order of equivalent elements unspecified: the
    model is any function that, when the comparator is a strict weak ordering
    (anything else is undefined), permutes its input and leaves no inversion. *)
Class StdSort := {
  std_sort : ∀ {A : Type}, (A → A → bool) → list A → list A
}.

Definition strict_weak_order {A} (lt : A → A → bool) : Prop :=
  (∀ x, lt x x = false) ∧
  (∀ x y z, lt x y = true → lt y z = true → lt x z = true) ∧
  (∀ x y z, lt x y = false → lt y z = false → lt x z = false).

Definition sorted_by {A} (lt : A → A → bool) (l : list A) : Prop :=
  ∀ i j x y, (i < j)%nat → l !! i = Some x → l !! j = Some y → lt y x = false.

Class StdSortLaws (ss : StdSort) : Prop := {
  std_sort_perm : ∀ {A} (lt : A → A → bool) l,
    strict_weak_order lt → std_sort lt l ≡ₚ l;
  std_sort_sorted : ∀ {A} (lt : A → A → bool) l,
    strict_weak_order lt → sorted_by lt (std_sort lt l)
}.

(** ** JSON values

    A [base::Value::Dict] under construction is the list of its [Set] calls,
    in program order (no dictionary of the server sets a key twice). *)
Inductive Value :=
  | VBool (b : bool)
  | VInt (z : Z)
  | VDouble (d : double)
  | VString (s : string)
  | VDoubleString (d : double)   (** [std::to_string(double)] *)
  | VList (l : list Value)
  | VDict (d : list (string * Value)).

Definition Dict : Type := list (string * Value).

(** JSON has no NaN and no infinity: [base::Value(double)] stores 0.0 for them. *)
Definition d_finite (d : double) : bool :=
  match d with S754_zero _ | S754_finite _ _ _ => true | _ => false end.
Definition d_stored (d : double) : double := if d_finite d then d else d_zero.
Lemma d_stored_finite d : d_finite (d_stored d) = true.
Proof. unfold d_stored. by destruct (d_finite d) eqn:E. Qed.
Definition ValueDouble (d : double) : Value := VDouble (d_stored d).

Fixpoint dict_get (k : string) (d : Dict) : option Value :=
  match d with
  | [] => None
  | (k', v) :: d => if bool_decide (k' = k) then Some v else dict_get k d
  end.

(** ** Chromium [base] helpers

    Library code outside the repository: an interface with its documented
    behaviour as laws. *)
Class BaseLib := {
  ReplaceChars : string → string → string → string;
  ToLowerASCII : string → string;
  StartsWith : string → string → bool;
  base_StringToInt64 : string → option Z;
  base_StringToInt : string → option Z;
  (** [GURL(url).is_valid()], [GURL(url).path()] *)
  gurl_is_valid : string → bool;
  gurl_path : string → string;
  (** [base::UnescapeURLComponent(path, UnescapeRule::NORMAL)] *)
  UnescapeURLComponent : string → string;
  (** [base::FilePath::Append] *)
  FilePath_Append : string → string → string;
  (** [base::JSONReader::Read(text)->GetIfDict()] *)
  JSONReadDict : string → option Dict
}.

(** Replace every character of [input] that occurs in [chars] by [w]. *)
Definition replace_chars_spec (input chars w : string) : string :=
  str_of (str_chars input ≫= λ c,
    if bool_decide (c ∈ str_chars chars) then str_chars w else [c]).

Class BaseLibLaws (bl : BaseLib) : Prop := {
  ReplaceChars_ok : ∀ input chars w,
    ReplaceChars input chars w = replace_chars_spec input chars w;
  ToLowerASCII_ok : ∀ s, ToLowerASCII s = string_map ascii_lower s;
  StartsWith_ok : ∀ s p, StartsWith s p = String.prefix p s;
  StringToInt64_range : ∀ s z, base_StringToInt64 s = Some z → in_int64 z = true;
  StringToInt64_print : ∀ z, in_int64 z = true → base_StringToInt64 (to_string_Z z) = Some z;
  StringToInt_range : ∀ s z, base_StringToInt s = Some z → in_int32 z = true;
  StringToInt_print : ∀ z, in_int32 z = true → base_StringToInt (to_string_Z z) = Some z
}.

(** ** Lemmas *)
Lemma str_chars_of l : str_chars (str_of l) = l.
Proof. apply String.list_ascii_of_string_of_list_ascii. Qed.

Lemma str_of_chars s : str_of (str_chars s) = s.
Proof. apply String.string_of_list_ascii_of_string. Qed.

Lemma str_chars_app a b : str_chars (a +:+ b) = str_chars a ++ str_chars b.
Proof. induction a as [|c a IH]; simpl; [done|]. f_equal. apply IH. Qed.
Lemma str_chars_inj a b : str_chars a = str_chars b → a = b.
Proof. intros H. by rewrite <-(str_of_chars a), H, str_of_chars. Qed.

Lemma str_empty_true s : str_empty s = true ↔ s = EmptyString.
Proof. unfold str_empty. apply bool_decide_eq_true. Qed.

Lemma map_keys_perm {V} (m : gmap string V) : map_keys m ≡ₚ elements (dom m).
Proof. apply merge_sort_Permutation. Qed.

Lemma elem_of_map_keys {V} (m : gmap string V) k : k ∈ map_keys m ↔ is_Some (m !! k).
Proof. rewrite map_keys_perm, elem_of_elements. apply elem_of_dom. Qed.

Lemma NoDup_map_keys {V} (m : gmap string V) : NoDup (map_keys m).
Proof. rewrite map_keys_perm. apply NoDup_elements. Qed.

Lemma in_int64_spec z : in_int64 z = true ↔ - 2 ^ 63 <= z <= 2 ^ 63 - 1.
Proof. unfold in_int64, int64_min, int64_max. rewrite andb_true_iff, !Z.leb_le. lia. Qed.

Lemma in_int32_spec z : in_int32 z = true ↔ - 2 ^ 31 <= z <= 2 ^ 31 - 1.
Proof. unfold in_int32, int32_min, int32_max. rewrite andb_true_iff, !Z.leb_le. lia. Qed.

Lemma to_int64_id z : in_int64 z = true → to_int64 z = z.
Proof.
  rewrite in_int64_spec. intros H. unfold to_int64, wrap_signed.
  change (2 ^ (64 - 1)) with 9223372036854775808.
  change (2 ^ 64) with 18446744073709551616.
  destruct (Z_le_gt_dec 0 z) as [Hz|Hz].
  - rewrite Z.mod_small by lia. destruct (Z.ltb_spec z 9223372036854775808); lia.
  - rewrite <-(Z.mod_unique z 18446744073709551616 (-1) (z + 18446744073709551616)) by lia.
    destruct (Z.ltb_spec (z + 18446744073709551616) 9223372036854775808); lia.
Qed.

Lemma to_int32_id z : in_int32 z = true → to_int32 z = z.
Proof.
  rewrite in_int32_spec. intros H. unfold to_int32, wrap_signed.
  change (2 ^ (32 - 1)) with 2147483648. change (2 ^ 32) with 4294967296.
  destruct (Z_le_gt_dec 0 z) as [Hz|Hz].
  - rewrite Z.mod_small by lia. destruct (Z.ltb_spec z 2147483648); lia.
  - rewrite <-(Z.mod_unique z 4294967296 (-1) (z + 4294967296)) by lia.
    destruct (Z.ltb_spec (z + 4294967296) 2147483648); lia.
Qed.
