(* ===== verification/BaseRef.v ===== *)
(** * A reference implementation of the Chromium helpers and of [std::sort]

    Concrete instances of [BaseLib] and [StdSort] that satisfy the documented
    laws: they show the laws are consistent and let closed examples run. *)

From S2P Require Import Prelude CppBase.

Definition digit_of (c : ascii) : option Z :=
  let n := Z.of_nat (nat_of_ascii c) in
  if (48 <=? n) && (n <=? 57) then Some (n - 48) else None.

(** Decimal digits accumulated on the left, as the library does. *)
Fixpoint parse_digits (acc : Z) (s : string) : option Z :=
  match s with
  | EmptyString => Some acc
  | String c s' => d ← digit_of c; parse_digits (10 * acc + d) s'
  end.

Definition parse_nonempty (s : string) : option Z :=
  match s with EmptyString => None | _ => parse_digits 0 s end.

Definition parse_int (s : string) : option Z :=
  match s with
  | String "-" s' => Z.opp <$> parse_nonempty s'
  | String "+" s' => parse_nonempty s'
  | _ => parse_nonempty s
  end.

Definition parse_int64 (s : string) : option Z :=
  z ← parse_int s; if in_int64 z then Some z else None.
Definition parse_int32 (s : string) : option Z :=
  z ← parse_int s; if in_int32 z then Some z else None.

#[global] Instance base_ref : BaseLib := {|
  ReplaceChars := replace_chars_spec;
  ToLowerASCII := string_map ascii_lower;
  StartsWith s p := String.prefix p s;
  base_StringToInt64 := parse_int64;
  base_StringToInt := parse_int32;
  gurl_is_valid u := str_contains "://" u;
  gurl_path u := u;
  UnescapeURLComponent u := u;
  FilePath_Append a b := a +:+ "/" +:+ b;
  JSONReadDict _ := Some []
|}.

(** ** Printing then parsing an integer *)
Lemma digit_of_pretty (x : N) :
  (x < 10)%N → digit_of (pretty_N_char x) = Some (Z.of_N x).
Proof.
  intros H.
  assert (x = 0 ∨ x = 1 ∨ x = 2 ∨ x = 3 ∨ x = 4 ∨ x = 5 ∨ x = 6 ∨ x = 7 ∨ x = 8 ∨ x = 9)%N
    as Hx by lia.
  by destruct_or! Hx; subst.
Qed.

Lemma parse_digits_pretty (x : N) s :
  parse_digits 0 (pretty_N_go x s) = parse_digits (Z.of_N x) s.
Proof.
  revert s. induction (N.lt_wf_0 x) as [x _ IH]; intros s.
  destruct (decide (x = 0%N)) as [->|Hx]; [done|].
  rewrite pretty_N_go_step by lia. rewrite IH by (apply N.div_lt; lia). simpl.
  rewrite digit_of_pretty by (apply N.mod_lt; lia). simpl. f_equal.
  pose proof (N.div_mod x 10). lia.
Qed.

Lemma pretty_N_go_nonempty (x : N) s : s ≠ EmptyString → pretty_N_go x s ≠ EmptyString.
Proof.
  revert s. induction (N.lt_wf_0 x) as [x _ IH]; intros s Hs.
  destruct (decide (x = 0%N)) as [->|Hx]; [done|].
  rewrite pretty_N_go_step by lia. apply IH; [apply N.div_lt; lia | done].
Qed.

Lemma parse_nonempty_pretty (x : N) : parse_nonempty (pretty x) = Some (Z.of_N x).
Proof.
  unfold pretty, pretty_N. destruct (decide (x = 0%N)) as [->|Hx]; [done|].
  assert (pretty_N_go x EmptyString ≠ EmptyString) as Hne.
  { rewrite pretty_N_go_step by lia. by apply pretty_N_go_nonempty. }
  unfold parse_nonempty. destruct (pretty_N_go x EmptyString) eqn:E; [done|].
  rewrite <-E. by rewrite parse_digits_pretty.
Qed.

Lemma digit_head (x : N) c s : pretty x = String c s → digit_of c ≠ None.
Proof.
  intros H. pose proof (parse_nonempty_pretty x) as Hp. rewrite H in Hp. simpl in Hp.
  by destruct (digit_of c).
Qed.

Lemma parse_int_pretty (z : Z) : parse_int (to_string_Z z) = Some z.
Proof.
  unfold to_string_Z. destruct z as [|p|p]; [done| |].
  - change (pretty (Z.pos p)) with (pretty (N.pos p)).
    destruct (pretty (N.pos p)) as [|c s] eqn:E.
    { pose proof (parse_nonempty_pretty (N.pos p)) as Hp. by rewrite E in Hp. }
    assert (parse_int (String c s) = parse_nonempty (String c s)) as ->.
    { apply digit_head in E. unfold parse_int.
      by destruct c as [[] [] [] [] [] [] [] []]. }
    rewrite <-E. by rewrite parse_nonempty_pretty.
  - change (pretty (Z.neg p)) with (String "-" (pretty (N.pos p))).
    simpl. by rewrite parse_nonempty_pretty.
Qed.

#[global] Instance base_ref_laws : BaseLibLaws base_ref.
Proof.
  split; try done.
  - intros s z H. simpl in H. unfold parse_int64 in H.
    destruct (parse_int s); simpl in H; [case_match|]; naive_solver.
  - intros z H. simpl. unfold parse_int64. rewrite parse_int_pretty. simpl. by rewrite H.
  - intros s z H. simpl in H. unfold parse_int32 in H.
    destruct (parse_int s); simpl in H; [case_match|]; naive_solver.
  - intros z H. simpl. unfold parse_int32. rewrite parse_int_pretty. simpl. by rewrite H.
Qed.

(** ** Insertion sort *)
Fixpoint insert_by {A} (lt : A → A → bool) (x : A) (l : list A) : list A :=
  match l with
  | [] => [x]
  | y :: l => if lt y x then y :: insert_by lt x l else x :: y :: l
  end.

#[global] Instance sort_ref : StdSort := {|
  std_sort A lt l := foldr (insert_by lt) [] l
|}.

Section InsertBy.
  Context {A : Type} (lt : A → A → bool).

Lemma insert_by_perm x l : insert_by lt x l ≡ₚ x :: l.
Proof.
  induction l as [|y l IH]; simpl; [done|]. case_match; [|done].
  rewrite IH. apply Permutation_swap.
Qed.

Lemma sort_by_perm l : foldr (insert_by lt) [] l ≡ₚ l.
Proof. induction l as [|x l IH]; simpl; [done|]. by rewrite insert_by_perm, IH. Qed.

Definition le_by (x y : A) : Prop := lt y x = false.

Lemma insert_by_sorted x l :
  strict_weak_order lt → StronglySorted le_by l → StronglySorted le_by (insert_by lt x l).
Proof.
  intros (Hirr & Htr & Hneg) Hs. induction Hs as [|y l Hs IH Hall]; simpl.
  { repeat constructor. }
  destruct (lt y x) eqn:E.
  - constructor; [done|]. rewrite insert_by_perm. constructor; [|done].
    unfold le_by. destruct (lt x y) eqn:E'; [|done].
    pose proof (Hirr x) as Hx. by rewrite (Htr x y x) in Hx.
  - constructor; [by constructor|]. constructor; [done|].
    eapply Forall_impl; [done|]. intros z Hz. unfold le_by in *. eauto.
Qed.

Lemma StronglySorted_lookup (R : A → A → Prop) l :
  StronglySorted R l → ∀ i j x y, (i < j)%nat → l !! i = Some x → l !! j = Some y → R x y.
Proof.
  induction 1 as [|z l Hs IH Hall]; intros i j x y Hij Hi Hj; [done|].
  destruct j as [|j]; [lia|]. simpl in Hj. destruct i as [|i]; simpl in Hi.
  - simplify_eq. rewrite Forall_lookup in Hall. eauto.
  - eapply IH; [|done..]. lia.
Qed.
End InsertBy.

#[global] Instance sort_ref_laws : StdSortLaws sort_ref.
Proof.
  split.
  - intros A lt l _. apply sort_by_perm.
  - intros A lt l Hswo. unfold sorted_by. simpl.
    apply (StronglySorted_lookup (le_by lt)).
    induction l as [|x l IH]; simpl; [constructor|]. by apply insert_by_sorted.
Qed.
