(* ===== verification/PathUnit.v ===== *)
(** * [common/path]: path spelling, file types and protected paths

    [file_path_unit.cc] and [path_protected.cc] in their POSIX build (the
    branches under [BUILDFLAG(IS_WIN)] are not taken). *)

From S2P Require Import Prelude CppBase BaseRef.

Module FileType.
Inductive FileType :=
  | KUnknown | kAll | kUndefine | kDriver | kDirectory | kTxt | kPdf | kWord | kPPT
  | kXlxs | kHtml | kCompress | kPicture | kVideo | kMusic | kApk | kExe | kBt.

Definition FileType_value (t : FileType) : Z :=
  match t with
  | KUnknown => 0 | kAll => 1 | kUndefine => Z.shiftl 1 1 | kDriver => Z.shiftl 1 2
  | kDirectory => Z.shiftl 1 3 | kTxt => Z.shiftl 1 4 | kPdf => Z.shiftl 1 5
  | kWord => Z.shiftl 1 6 | kPPT => Z.shiftl 1 7 | kXlxs => Z.shiftl 1 8
  | kHtml => Z.shiftl 1 9 | kCompress => Z.shiftl 1 10 | kPicture => Z.shiftl 1 11
  | kVideo => Z.shiftl 1 12 | kMusic => Z.shiftl 1 13 | kApk => Z.shiftl 1 14
  | kExe => Z.shiftl 1 15 | kBt => Z.shiftl 1 16
  end.

Definition FileTypeMap : list (string * FileType) := [
  ("txt", kTxt); ("pdf", kPdf); ("docx", kWord); ("doc", kWord); ("docm", kWord);
  ("dotm", kWord); ("dotx", kWord); ("pptx", kPPT); ("ppsx", kPPT); ("ppt", kPPT);
  ("pps", kPPT); ("pptm", kPPT); ("potm", kPPT); ("ppam", kPPT); ("potx", kPPT);
  ("ppsm", kPPT); ("xlsx", kXlxs); ("xlsb", kXlxs); ("xls", kXlxs); ("xlsm", kXlxs);
  ("html", kHtml); ("7z", kCompress); ("zip", kCompress); ("rar", kCompress);
  ("gz", kCompress); ("xz", kCompress); ("tar", kCompress); ("3fr", kPicture);
  ("ai", kPicture); ("apng", kPicture); ("arw", kPicture); ("avif", kPicture);
  ("bmp", kPicture); ("cr2", kPicture); ("crw", kPicture); ("dcr", kPicture);
  ("erf", kPicture); ("gif", kPicture); ("heic", kPicture); ("ico", kPicture);
  ("jp2", kPicture); ("jpeg", kPicture); ("jpe", kPicture); ("jpg", kPicture);
  ("jpx", kPicture); ("jxr", kPicture); ("k25", kPicture); ("kdc", kPicture);
  ("mos", kPicture); ("mrw", kPicture); ("nef", kPicture); ("orf", kPicture);
  ("pef", kPicture); ("png", kPicture); ("psd", kPicture); ("ptx", kPicture);
  ("raf", kPicture); ("raw", kPicture); ("rw2", kPicture); ("sr2", kPicture);
  ("srf", kPicture); ("svg", kPicture); ("tga", kPicture); ("tif", kPicture);
  ("tiff", kPicture); ("webp", kPicture); ("mp4", kVideo); ("flv", kVideo); ("webm", kVideo);
  ("mov", kVideo); ("3gp", kVideo); ("3g2", kVideo); ("rm", kVideo); ("rmvb", kVideo);
  ("wmv", kVideo); ("avi", kVideo); ("asf", kVideo); ("mpg", kVideo); ("mpeg", kVideo);
  ("ts", kVideo); ("tp", kVideo); ("tpr", kVideo); ("div", kVideo); ("divx", kVideo);
  ("dvr-ms", kVideo); ("vob", kVideo); ("mkv", kVideo); ("mts", kVideo); ("m2ts", kVideo);
  ("m2t", kVideo); ("m4v", kVideo); ("qt", kVideo); ("swf", kVideo); ("xvvid", kVideo);
  ("trp", kVideo); ("mp3", kMusic); ("m4a", kMusic); ("m4b", kMusic); ("aac", kMusic);
  ("ogg", kMusic); ("wav", kMusic); ("flac", kMusic); ("ape", kMusic); ("aiff", kMusic);
  ("aif", kMusic); ("wma", kMusic); ("apk", kApk); ("exe", kExe); ("torrent", kBt)].
End FileType.
Abbreviation FileType := FileType.FileType.

Section PathUnit.
  Context `{bl : BaseLib}.

(** The literal characters of the sources: backslash and slash. *)
Definition backslash : ascii := "092"%char.
Definition backslash_str : string := String backslash EmptyString.

Definition UnifiedSlash (src_path : string) : string :=
  ReplaceChars src_path backslash_str "/".

Definition RemoveDoubleSlash (src_path : string) : string :=
  ReplaceChars src_path "//" "/".

Definition ToWindowsSlash (src_path : string) : string :=
  ReplaceChars src_path "/" backslash_str.

Definition RemoveLastSlash (path : string) : string :=
  if (1 <? String.length path)%nat then
    match last (str_chars path) with
    | Some c =>
        if bool_decide (c = "/"%char) || bool_decide (c = backslash)
        then str_of (removelast (str_chars path)) else path
    | None => path
    end
  else path.

(** [BaseFilePathFromU8] with its default [convert_slash = true]; a POSIX
    [base::FilePath] is its byte string. *)
Definition BaseFilePathFromU8 (path : string) : string := UnifiedSlash path.
Definition BaseFilePathToU8 (path : string) : string := path.

(** [s.substr(s.find_last_of('.') + 1)], or [None] when there is no dot. *)
Fixpoint after_last_dot (l : list ascii) : option (list ascii) :=
  match l with
  | [] => None
  | c :: l' =>
      match after_last_dot l' with
      | Some r => Some r
      | None => if bool_decide (c = "."%char) then Some l' else None
      end
  end.

Definition GetFileType (file_name : string) (convert_to_lower : bool) : FileType :=
  match after_last_dot (str_chars file_name) with
  | None => FileType.kUndefine
  | Some suffix =>
      let suffix := str_of suffix in
      let lower_suffix := if convert_to_lower then ToLowerASCII suffix else suffix in
      match List.find (λ kv, bool_decide (kv.1 = lower_suffix)) FileType.FileTypeMap with
      | Some kv => kv.2
      | None => FileType.kUndefine
      end
  end.

Definition MatchPath (path1 path2 : string) (full_equal : bool) : bool :=
  if (String.length path1 <? String.length path2)%nat then false
  else if full_equal && negb (String.length path1 =? String.length path2)%nat then false
  else StartsWith path1 path2.

(** ** [path_protected.cc] *)
Definition IsStartWith (path start : string) : bool :=
  if (String.length path =? String.length start)%nat
  then MatchPath path start false
  else MatchPath path (start +:+ "/") false.

Definition IsProfilePath (path_u8 : string) (profile_path_list : list string) : bool :=
  existsb (λ path, MatchPath path_u8 path true) profile_path_list.

Definition IsStartProfilePath (path_u8 : string) (profile_path_list : list string) : bool :=
  existsb (λ path, IsStartWith path_u8 path) profile_path_list.

(** [ProtectedPath::IsProtected]; [protected_paths] is the singleton's list. *)
Definition IsProtected (protected_paths : list string) (path_u8 : string)
    (profile_path_list : list string) : bool :=
  if IsProfilePath path_u8 profile_path_list then true
  else if IsStartProfilePath path_u8 profile_path_list then false
  else existsb (λ path, IsStartWith path_u8 path) protected_paths.

Definition IsProtectedEx (protected_paths : list string) (path_u8 : string)
    (profile_path_list : list string) : bool :=
  IsProtected protected_paths path_u8 profile_path_list ||
  existsb (λ path, IsStartWith path path_u8) protected_paths.

(** [ProtectedPathCheck::IsProtectedInPath]; in the POSIX build the check
    object's profile list stays empty. *)
Definition IsProtectedInPath (protected_paths : list string) (path_u8 : string)
    (profile_path_list : list string) : bool :=
  if IsProfilePath path_u8 profile_path_list then false
  else IsProtected protected_paths path_u8 profile_path_list.

(** ** Lemmas *)
  Context {bll : BaseLibLaws bl}.

Lemma UnifiedSlash_chars s :
  str_chars (UnifiedSlash s) =
    (λ c, if bool_decide (c = backslash) then "/"%char else c) <$> str_chars s.
Proof.
  unfold UnifiedSlash. rewrite ReplaceChars_ok. unfold replace_chars_spec.
  rewrite str_chars_of. induction (str_chars s) as [|c l IH]; [done|].
  rewrite bind_cons, IH, fmap_cons. simpl (str_chars backslash_str).
  repeat case_bool_decide; set_solver.
Qed.

Lemma UnifiedSlash_id t : backslash ∉ str_chars t → UnifiedSlash t = t.
Proof.
  intros Hno. transitivity (str_of (str_chars t)); [|apply str_of_chars].
  rewrite <-(str_of_chars (UnifiedSlash t)), UnifiedSlash_chars. f_equal.
  induction (str_chars t) as [|c l IH]; [done|]. rewrite fmap_cons, IH by set_solver.
  case_bool_decide; [set_solver | done].
Qed.

(** [RemoveDoubleSlash] is the identity: [ReplaceChars] treats its second
    argument as a set of characters, so each slash is replaced by a slash. *)
Lemma RemoveDoubleSlash_id s : RemoveDoubleSlash s = s.
Proof.
  unfold RemoveDoubleSlash. rewrite ReplaceChars_ok. unfold replace_chars_spec.
  rewrite <-(str_of_chars s) at 2. f_equal.
  induction (str_chars s) as [|c l IH]; [done|]. rewrite bind_cons, IH. simpl (str_chars "//").
  case_bool_decide as Hc; [|done]. by assert (c = "/"%char) as -> by set_solver.
Qed.

Lemma prefix_app p s : String.prefix p s = true ↔ ∃ r, s = p +:+ r.
Proof.
  revert s. induction p as [|c p IH]; intros s; simpl.
  { split; [|by destruct s]. intros _. by exists s. }
  destruct s as [|c' s]; simpl.
  { split; [done|]. intros [r Hr]. done. }
  destruct (ascii_dec c c') as [->|Hne].
  - rewrite IH. split; intros [r Hr]; exists r; [by subst | by injection Hr].
  - split; [done|]. intros [r Hr]. by injection Hr.
Qed.

Lemma string_length_app a b :
  String.length (a +:+ b) = (String.length a + String.length b)%nat.
Proof. induction a as [|c a IH]; simpl; [done|]. by rewrite IH. Qed.

Lemma string_app_nil_r a : a +:+ EmptyString = a.
Proof. induction a as [|c a IH]; [done|]. change (String c (a +:+ EmptyString) = String c a). by rewrite IH. Qed.

Lemma MatchPath_prefix p q : MatchPath p q false = true ↔ ∃ r, p = q +:+ r.
Proof.
  unfold MatchPath. simpl. destruct (Nat.ltb_spec (String.length p) (String.length q)).
  - split; [done|]. intros [r ->]. rewrite string_length_app in *. lia.
  - rewrite StartsWith_ok. apply prefix_app.
Qed.

Lemma MatchPath_equal p q : MatchPath p q true = true ↔ p = q.
Proof.
  unfold MatchPath. simpl.
  destruct (Nat.ltb_spec (String.length p) (String.length q)) as [Hl|Hl].
  { split; [done|]. intros ->. lia. }
  destruct (Nat.eqb_spec (String.length p) (String.length q)) as [He|He]; simpl.
  - rewrite StartsWith_ok, prefix_app. split.
    + intros [r ->]. rewrite string_length_app in He.
      destruct r; [apply string_app_nil_r | simpl in *; lia].
    + intros ->. exists EmptyString. by rewrite string_app_nil_r.
  - split; [done|]. intros ->. done.
Qed.

(** [path] is [start] itself or lies below it. *)
Definition below_or_at (start path : string) : Prop :=
  path = start ∨ ∃ r, path = (start +:+ "/") +:+ r.

Lemma IsStartWith_spec path start :
  IsStartWith path start = true ↔ below_or_at start path.
Proof.
  unfold IsStartWith, below_or_at.
  destruct (Nat.eqb_spec (String.length path) (String.length start)) as [He|He];
    rewrite MatchPath_prefix.
  - split.
    + intros [r ->]. rewrite string_length_app in He. left.
      destruct r; [apply string_app_nil_r | simpl in *; lia].
    + intros [->|[r ->]]; [exists EmptyString; by rewrite string_app_nil_r|].
      rewrite !string_length_app in He. simpl in He. lia.
  - split; [by right|]. intros [->|H]; done.
Qed.

Lemma existsb_elem {A} (f : A → bool) l :
  existsb f l = true ↔ ∃ x, x ∈ l ∧ f x = true.
Proof. rewrite existsb_exists. by setoid_rewrite <-list_elem_of_In. Qed.

Lemma existsb_below path l :
  existsb (λ q, IsStartWith path q) l = true ↔ ∃ q, q ∈ l ∧ below_or_at q path.
Proof. rewrite existsb_elem. by setoid_rewrite IsStartWith_spec. Qed.
End PathUnit.

(** [ProtectedPathCheck::IsProtectedInPath], the test that guards the
    download directory, answers true exactly for paths that are one of the
    protected directories or lie below one, component-wise, and are neither a
    profile directory nor below a profile directory. *)
Theorem IsProtectedInPath_spec `{bl : BaseLib} (Hbase : BaseLibLaws bl)
    (protected_paths : list string) (path : string) (profiles : list string) :
  IsProtectedInPath protected_paths path profiles = true ↔
  (∀ q, q ∈ profiles → ¬ below_or_at q path) ∧
  (∃ q, q ∈ protected_paths ∧ below_or_at q path).
Proof.
  unfold IsProtectedInPath, IsProtected, IsProfilePath, IsStartProfilePath.
  destruct (existsb (λ q, MatchPath path q true) profiles) eqn:Eq.
  { apply existsb_elem in Eq as (q & Hq & Hm). apply MatchPath_equal in Hm as ->.
    split; [done|]. intros [Hno _]. destruct (Hno q Hq). by left. }
  destruct (existsb (λ q, IsStartWith path q) profiles) eqn:Es.
  - apply existsb_below in Es as (q & Hq & Hb). split; [done|].
    intros [Hno _]. by destruct (Hno q Hq).
  - rewrite existsb_below. split; [|by intros [_ ?]]. intros He. split; [|done].
    intros q Hq Hb. rewrite (proj2 (existsb_below path profiles)) in Es; [done|]. eauto.
Qed.

Lemma IsProtectedInPath_spec_witness :
  IsProtectedInPath ["/opt/nas"] "/opt/nas/cfg" [] = true ∧
  IsProtectedInPath ["/opt/nas"] "/opt/nasty" [] = false ∧
  (∃ q, q ∈ ["/opt/nas"] ∧ below_or_at q "/opt/nas/cfg").
Proof.
  split; [vm_compute; reflexivity|]. split; [vm_compute; reflexivity|].
  exact (proj2 (proj1 (IsProtectedInPath_spec base_ref_laws ["/opt/nas"] "/opt/nas/cfg" [])
                  eq_refl)).
Defined.

(** [UnifiedSlash] changes only backslashes: the result has the same
    length, contains no backslash, keeps every other character in place, and
    applying it again changes nothing. *)
Theorem UnifiedSlash_normalises `{bl : BaseLib} (Hbase : BaseLibLaws bl) (s : string) :
  (backslash ∉ str_chars (UnifiedSlash s)) ∧
  (length (str_chars (UnifiedSlash s)) = length (str_chars s)) ∧
  (∀ i c, str_chars s !! i = Some c → c ≠ backslash →
     str_chars (UnifiedSlash s) !! i = Some c) ∧
  UnifiedSlash (UnifiedSlash s) = UnifiedSlash s.
Proof.
  assert (backslash ∉ str_chars (UnifiedSlash s)) as Hno.
  { rewrite UnifiedSlash_chars. intros Hin. apply list_elem_of_fmap in Hin as (c & Hc & _).
    case_bool_decide; [by vm_compute in Hc | congruence]. }
  split; [done|]. split; [by rewrite UnifiedSlash_chars, length_fmap|]. split.
  - intros i c Hi Hc. rewrite UnifiedSlash_chars, list_lookup_fmap, Hi. simpl.
    by case_bool_decide.
  - by apply UnifiedSlash_id.
Qed.

Lemma UnifiedSlash_normalises_witness :
  UnifiedSlash (UnifiedSlash "a/b") = UnifiedSlash "a/b".
Proof. apply (UnifiedSlash_normalises base_ref_laws "a/b"). Defined.
