(* ===== verification/DownloadTypes.v ===== *)
(** * Enumerations and plain structures

    The types of [download_public_define.h], [task_common_define.h] and
    [context_field.h], one module per C++ enumeration so that constants read as
    in the sources. *)

From S2P Require Import Prelude CppBase.

(** [enum DownloadErrorCode]: an unscoped enumeration that the code also
    builds by casting integers (database columns, HTTP and curl results), so
    its values are integers and the enumerators are named constants. *)
Module DownloadErrorCode.
Definition kNormal : Z := 0.
Definition kUserIdIsNotExist : Z := 1.
Definition kTaskIdIsNotExist : Z := 2.
Definition kTaskIdExisted : Z := 3.
Definition kCreateTaskFailed : Z := 4.
Definition kAddTaskFailed : Z := 5.
Definition kCreateDirFailed : Z := 6.
Definition kPerformFailed : Z := 7.
Definition kFileMissing : Z := 8.
Definition kExistSameTask : Z := 9.
Definition kCreateFileFailed : Z := 10.
Definition kRenameTempFileFailed : Z := 11.
Definition kUploadFileFailed : Z := 12.
Definition kFileNameExisted : Z := 13.
Definition kPathExceedLimit : Z := 14.
Definition kFileIoError : Z := 15.
Definition kProtectedPath : Z := 16.
Definition kInvalidFileName : Z := 17.
Definition kCreateCurlTaskFailed : Z := 1000.
Definition kCurlUrlInvalid : Z := 1001.
Definition kParseCurlUrlFailed : Z := 1002.
Definition kPerformCurlFailed : Z := 1003.
Definition kPerformCurlStartErrorCode : Z := 1100.
Definition kCurleUnsupportedProtocol : Z := 1101.
Definition kCurleFailedInit : Z := 1102.
Definition kCurleUrlMalformat : Z := 1103.
Definition kCurleNotBuiltIn : Z := 1104.
Definition kCurleCouldntResolveProxy : Z := 1105.
Definition kCurleCouldntResolveHost : Z := 1106.
Definition kCurleCouldntConnect : Z := 1107.
Definition kCurleWeirdServerReply : Z := 1108.
Definition kCurleRemoteAccessDenied : Z := 1109.
Definition kCurleFtpAcceptFailed : Z := 1110.
Definition kCurleFtpWeirdPassReply : Z := 1111.
Definition kCurleFtpAcceptTimeout : Z := 1112.
Definition kCurleFtpWeirdPasvReply : Z := 1113.
Definition kCurleFtpWeird227Format : Z := 1114.
Definition kCurleFtpCantGetHost : Z := 1115.
Definition kCurleHttp2 : Z := 1116.
Definition kCurleFtpCouldntSetType : Z := 1117.
Definition kCurlePartialFile : Z := 1118.
Definition kCurleFtpCouldntRetrFile : Z := 1119.
Definition kCurleObsolete20 : Z := 1120.
Definition kCurleQuoteError : Z := 1121.
Definition kCurleHttpReturnedError : Z := 1122.
Definition kCurleWriteError : Z := 1123.
Definition kCurleObsolete24 : Z := 1124.
Definition kCurleUploadFailed : Z := 1125.
Definition kCurleReadError : Z := 1126.
Definition kCurleOutOfMemory : Z := 1127.
Definition kCurleOperationTimedout : Z := 1128.
Definition kCurleObsolete29 : Z := 1129.
Definition kCurleFtpPortFailed : Z := 1130.
Definition kCurleFtpCouldntUseRest : Z := 1131.
Definition kCurleObsolete32 : Z := 1132.
Definition kCurleRangeError : Z := 1133.
Definition kCurleHttpPostError : Z := 1134.
Definition kCurleSslConnectError : Z := 1135.
Definition kCurleBadDownloadResume : Z := 1136.
Definition kCurleFileCouldntReadFile : Z := 1137.
Definition kCurleLdapCannotBind : Z := 1138.
Definition kCurleLdapSearchFailed : Z := 1139.
Definition kCurleObsolete40 : Z := 1140.
Definition kCurleFunctionNotFound : Z := 1141.
Definition kCurleAbortedByCallback : Z := 1142.
Definition kCurleBadFunctionArgument : Z := 1143.
Definition kCurleObsolete44 : Z := 1144.
Definition kCurleInterfaceFailed : Z := 1145.
Definition kCurleObsolete46 : Z := 1146.
Definition kCurleTooManyRedirects : Z := 1147.
Definition kCurleUnknownOption : Z := 1148.
Definition kCurleSetoptOptionSyntax : Z := 1149.
Definition kCurleObsolete50 : Z := 1150.
Definition kCurleObsolete51 : Z := 1151.
Definition kCurleGotNothing : Z := 1152.
Definition kCurleSslEngineNotfound : Z := 1153.
Definition kCurleSslEngineSetfailed : Z := 1154.
Definition kCurleSendError : Z := 1155.
Definition kCurleRecvError : Z := 1156.
Definition kCurleObsolete57 : Z := 1157.
Definition kCurleSslCertproblem : Z := 1158.
Definition kCurleSslCipher : Z := 1159.
Definition kCurlePeerFailedVerification : Z := 1160.
Definition kCurleBadContentEncoding : Z := 1161.
Definition kCurleLdapInvalidUrl : Z := 1162.
Definition kCurleFilesizeExceeded : Z := 1163.
Definition kCurleUseSslFailed : Z := 1164.
Definition kCurleSendFailRewind : Z := 1165.
Definition kCurleSslEngineInitfailed : Z := 1166.
Definition kCurleLoginDenied : Z := 1167.
Definition kCurleTftpNotfound : Z := 1168.
Definition kCurleTftpPerm : Z := 1169.
Definition kCurleRemoteDiskFull : Z := 1170.
Definition kCurleTftpIllegal : Z := 1171.
Definition kCurleTftpUnknownid : Z := 1172.
Definition kCurleRemoteFileExists : Z := 1173.
Definition kCurleTftpNosuchUser : Z := 1174.
Definition kCurleConvFailed : Z := 1175.
Definition kCurleConvReqd : Z := 1176.
Definition kCurleSslCacertBadfile : Z := 1177.
Definition kCurleRemoteFileNotFound : Z := 1178.
Definition kCurleSsh : Z := 1179.
Definition kCurleSslShutdownFailed : Z := 1180.
Definition kCurleAgain : Z := 1181.
Definition kCurleSslCrlBadfile : Z := 1182.
Definition kCurleSslIssuerError : Z := 1183.
Definition kCurleFtpPretFailed : Z := 1184.
Definition kCurleRtspCseqError : Z := 1185.
Definition kCurleRtspSessionError : Z := 1186.
Definition kCurleFtpBadFileList : Z := 1187.
Definition kCurleChunkFailed : Z := 1188.
Definition kCurleNoConnectionAvailable : Z := 1189.
Definition kCurleSslPinnedpubkeynotmatch : Z := 1190.
Definition kCurleSslInvalidcertstatus : Z := 1191.
Definition kCurleHttp2Stream : Z := 1192.
Definition kCurleRecursiveApiCall : Z := 1193.
Definition kCurleAuthError : Z := 1194.
Definition kCurleHttp3 : Z := 1195.
Definition kCurleQuicConnectError : Z := 1196.
Definition kCurleProxy : Z := 1197.
Definition kCurleSslClientCert : Z := 1198.
Definition kEd2kTaskExisted : Z := 2000.
Definition kEd2kLinkInvalid : Z := 2001.
Definition kWriteEd2kFileFailed : Z := 2002.
Definition kMagnetTaskExisted : Z := 3000.
Definition kMagnetLinkInvalid : Z := 3001.
Definition kAddMagnetTaskFailed : Z := 3002.
Definition kMagnetParseFailed : Z := 3003.
Definition kTorrentFileTaskExisted : Z := 4000.
Definition kTorrentFileInvalid : Z := 4001.
Definition kAddTorrentTaskFailed : Z := 4002.
Definition kTorrentFileParseFailed : Z := 4003.
Definition kPauseTaskFailed : Z := 5000.
Definition kResumeTaskFailed : Z := 5100.
Definition kDeleteTaskFailed : Z := 5200.
Definition kDeleteLocalFileFailed : Z := 5201.
Definition kRetryTaskFailed : Z := 5300.
Definition kCleanTaskFailed : Z := 5400.
Definition kRestoreTaskFailed : Z := 5500.
Definition kDbFailed : Z := 6000.
Definition kHttpStartErrorCode : Z := 10000.
Definition kHttpError400 : Z := 10400.
Definition kHttpError401 : Z := 10401.
Definition kHttpError403 : Z := 10403.
Definition kHttpError404 : Z := 10404.
Definition kHttpError408 : Z := 10408.
Definition kHttpError500 : Z := 10500.
Definition kHttpError501 : Z := 10501.
Definition kHttpError502 : Z := 10502.
Definition kHttpError503 : Z := 10503.
Definition kHttpError504 : Z := 10504.
End DownloadErrorCode.

Module DownloadType.
Inductive DownloadType :=
  | kUnknown | kEd2k | kTorrent | kMagnet | kHttp | kHttps | kFtp | kFtps | kSftp.

Definition DownloadType_value (t : DownloadType) : Z :=
  match t with
  | kUnknown => 0 | kEd2k => 1 | kTorrent => 2 | kMagnet => 3 | kHttp => 4
  | kHttps => 5 | kFtp => 6 | kFtps => 7 | kSftp => 8
  end.

Definition DownloadType_all : list DownloadType :=
  [kUnknown; kEd2k; kTorrent; kMagnet; kHttp; kHttps; kFtp; kFtps; kSftp].

#[global] Instance DownloadType_eq_dec : EqDecision DownloadType.
Proof. solve_decision. Defined.
End DownloadType.

Module TaskStatus.
Inductive TaskStatus :=
  | kDownloading | kWaitting | kPaused | kFailed | kFinished | kDeleted
  | kCompletedDeleted | kParsing | kSeeding | kChecking.

Definition TaskStatus_value (s : TaskStatus) : Z :=
  match s with
  | kDownloading => 0 | kWaitting => 1 | kPaused => 2 | kFailed => 3 | kFinished => 4
  | kDeleted => 5 | kCompletedDeleted => 6 | kParsing => 7 | kSeeding => 8 | kChecking => 9
  end.

Definition TaskStatus_all : list TaskStatus :=
  [kDownloading; kWaitting; kPaused; kFailed; kFinished; kDeleted;
   kCompletedDeleted; kParsing; kSeeding; kChecking].

#[global] Instance TaskStatus_eq_dec : EqDecision TaskStatus.
Proof. solve_decision. Defined.
End TaskStatus.

Module TaskCategory.
Inductive TaskCategory :=
  | kAll | kUnkownnTask | kDownloadingTask | kFinishedTask | kRecyclebinTask | kSeedingTask.

Definition TaskCategory_value (c : TaskCategory) : Z :=
  match c with
  | kAll => -2 | kUnkownnTask => -1 | kDownloadingTask => 0 | kFinishedTask => 1
  | kRecyclebinTask => 2 | kSeedingTask => 3
  end.

#[global] Instance TaskCategory_eq_dec : EqDecision TaskCategory.
Proof. solve_decision. Defined.
End TaskCategory.

Module SortStyle.
Inductive SortStyle :=
  | kUnknown | kCreateTime | kFinishedTime | kDeletedTime | kTaskName | kTaskSize.
End SortStyle.

Module TaskOperation.
Inductive TaskOperation :=
  | kCreate | kParse | kPause | kPauseAll | kResume | kResumeAll | kDelete
  | kDeleteCategory | kRetry | kRetryAll | kClean | kCleanCategory | kRestore
  | kRestoreAll.
End TaskOperation.

Export (hints) DownloadType TaskStatus TaskCategory.
Abbreviation DownloadType := DownloadType.DownloadType.
Abbreviation TaskStatus := TaskStatus.TaskStatus.
Abbreviation TaskCategory := TaskCategory.TaskCategory.
Abbreviation SortStyle := SortStyle.SortStyle.
Abbreviation TaskOperation := TaskOperation.TaskOperation.

(** Casting an integer to an enumeration: defined on the enumerators. *)
Definition DownloadType_of_Z (z : Z) : option DownloadType :=
  List.find (λ t, DownloadType.DownloadType_value t =? z) DownloadType.DownloadType_all.
Definition TaskStatus_of_Z (z : Z) : option TaskStatus :=
  List.find (λ t, TaskStatus.TaskStatus_value t =? z) TaskStatus.TaskStatus_all.

(** Capacities of the character arrays of [DownloadParam]. *)
Definition kIdLength : nat := 64.
Definition kUrlLength : nat := 4096.
Definition kMaxPath : nat := 260 * 4.

(** [struct TorrenFileItemSelect] *)
Record TorrenFileItemSelect := mkItemSelect { is_index : Z; is_is_selected : Z }.

(** The members [struct TorrentTaskParam] adds to [struct TaskParam]. *)
Record TorrentTaskParam := mkTorrentTaskParam {
  tp_torrent_item_select_list : list TorrenFileItemSelect;
  tp_selected_count : Z;
  tp_is_private_cloud_source : bool;
  tp_is_download_now : bool;
  tp_front_trans_url : string
}.

(** [struct TaskParam]; [p_torrent] is the derived part, present when the
    object was allocated as a [TorrentTaskParam]. *)
Record TaskParam := mkTaskParam {
  p_id : string;
  p_url : string;
  p_save_path : string;
  p_file_name : string;
  p_file_size : Z;
  p_type : DownloadType;
  p_converted_url : string;
  p_hash : string;
  p_is_from_db_resume : bool;
  p_is_parse_task : bool;
  p_torrent : option TorrentTaskParam
}.

Definition TaskParam_init : TaskParam :=
  mkTaskParam EmptyString EmptyString EmptyString EmptyString 0 DownloadType.kUnknown
    EmptyString EmptyString false false None.

Definition TorrentTaskParam_init : TorrentTaskParam :=
  mkTorrentTaskParam [] 0 false false EmptyString.

Definition set_p_url v p := mkTaskParam (p_id p) v (p_save_path p) (p_file_name p)
  (p_file_size p) (p_type p) (p_converted_url p) (p_hash p) (p_is_from_db_resume p)
  (p_is_parse_task p) (p_torrent p).
Definition set_p_type v p := mkTaskParam (p_id p) (p_url p) (p_save_path p) (p_file_name p)
  (p_file_size p) v (p_converted_url p) (p_hash p) (p_is_from_db_resume p)
  (p_is_parse_task p) (p_torrent p).
Definition set_p_converted_url v p := mkTaskParam (p_id p) (p_url p) (p_save_path p)
  (p_file_name p) (p_file_size p) (p_type p) v (p_hash p) (p_is_from_db_resume p)
  (p_is_parse_task p) (p_torrent p).
Definition set_p_hash v p := mkTaskParam (p_id p) (p_url p) (p_save_path p)
  (p_file_name p) (p_file_size p) (p_type p) (p_converted_url p) v (p_is_from_db_resume p)
  (p_is_parse_task p) (p_torrent p).
Definition set_p_torrent v p := mkTaskParam (p_id p) (p_url p) (p_save_path p)
  (p_file_name p) (p_file_size p) (p_type p) (p_converted_url p) (p_hash p)
  (p_is_from_db_resume p) (p_is_parse_task p) v.
Definition set_tp_is_download_now v x := mkTorrentTaskParam (tp_torrent_item_select_list x)
  (tp_selected_count x) (tp_is_private_cloud_source x) v (tp_front_trans_url x).

(** [TaskParam(const TaskParam&)]: the derived part is sliced off and
    [is_parse_task] keeps its default. *)
Definition TaskParam_copy (p : TaskParam) : TaskParam :=
  mkTaskParam (p_id p) (p_url p) (p_save_path p) (p_file_name p) (p_file_size p)
    (p_type p) (p_converted_url p) (p_hash p) (p_is_from_db_resume p) false None.

(** [struct FileBaseInfo] and [struct ParseResult], as the engines fill them. *)
Record FileBaseInfo := mkFileBaseInfo { fb_file_name : string; fb_file_size : Z }.
Definition FileBaseInfo_init : FileBaseInfo := mkFileBaseInfo EmptyString 0.

(** [struct DownloadParam] / [struct TorrentDownloadParam]: the bytes copied
    into each zero-initialised array, and the torrent selection. *)
Record DownloadParam := mkDownloadParam {
  dp_id : string; dp_url : string; dp_save_path : string; dp_file_name : string
}.
Record TorrentDownloadParam := mkTorrentDownloadParam {
  tdp_base : DownloadParam;
  tdp_item_select_list : list TorrenFileItemSelect;
  tdp_file_count : Z;
  tdp_is_download_now : bool
}.

(** [struct DownloadProgressInfo] (with [is_seed] of the torrent variant). *)
Record DownloadProgressInfo := mkDownloadProgressInfo {
  dpi_file_name : string;
  dpi_total_progress : double;
  dpi_download_speed : double;
  dpi_upload_speed : double;
  dpi_err_code : Z;
  dpi_is_seed : bool
}.
Definition DownloadProgressInfo_init (total : double) : DownloadProgressInfo :=
  mkDownloadProgressInfo EmptyString total d_zero d_zero DownloadErrorCode.kNormal false.

(** [struct DownloadStatisticsInfo] *)
Record DownloadStatisticsInfo := mkStatistics {
  si_download_rate : double; si_upload_rate : double;
  si_accumulate_download : Z; si_accumulate_upload : Z
}.
Definition DownloadStatisticsInfo_init : DownloadStatisticsInfo :=
  mkStatistics d_zero d_zero 0 0.

(** [class ContextField], the fields the download server reads. *)
Record ContextField := mkContextField {
  cf_nas_token : string; cf_user_id : string; cf_call_id : string
}.
Definition ContextField_init : ContextField :=
  mkContextField EmptyString EmptyString EmptyString.

(** ** Facts about the enumerations *)
Lemma TaskStatus_of_Z_value s : TaskStatus_of_Z (TaskStatus.TaskStatus_value s) = Some s.
Proof. by destruct s. Qed.

Lemma DownloadType_of_Z_value t :
  DownloadType_of_Z (DownloadType.DownloadType_value t) = Some t.
Proof. by destruct t. Qed.
