(* ===== verification/ErrorDesc.v ===== *)
(** * Error descriptions and outward error numbers

    [download_error_desc.cc] and the error-number translation of
    [common/error_code/general_error_code.cc]. *)

From S2P Require Import Prelude CppBase DownloadTypes.
Import DownloadErrorCode.

Definition desc_common : list (Z * string) := [
  (kNormal, "成功");
  (kUserIdIsNotExist, "用户不存在");
  (kTaskIdIsNotExist, "任务不存在");
  (kTaskIdExisted, "任务id已存在");
  (kCreateTaskFailed, "任务创建失败");
  (kAddTaskFailed, "添加任务失败");
  (kCreateDirFailed, "创建下载目录失败，当前下载目录无法被创建，请尝试下载到其他目录");
  (kPerformFailed, "下载过程中失败");
  (kFileMissing, "文件丢失");
  (kExistSameTask, "存在相同的任务");
  (kCreateFileFailed, "创建下载文件失败，当前下载目录无法写入数据，请尝试下载到其他目录");
  (kRenameTempFileFailed, "重命名临时文件失败");
  (kUploadFileFailed, "上传文件失败");
  (kFileNameExisted, "存在相同的任务名称");
  (kPathExceedLimit, "路径超出了255字符限制");
  (kFileIoError, "文件写入失败或文件已损坏");
  (kProtectedPath, "该下载目录为受保护目录，请尝试下载到其他目录");
  (kInvalidFileName, "无效的文件名称")].

Definition desc_curl : list (Z * string) := [
  (kCreateCurlTaskFailed, "创建curl任务失败");
  (kCurlUrlInvalid, "链接无效");
  (kParseCurlUrlFailed, "解析curl失败");
  (kPerformCurlFailed, "执行curl错误,下载失败");
  (kCurleUnsupportedProtocol, "不支持的协议");
  (kCurleFailedInit, "初始化失败");
  (kCurleUrlMalformat, "URL 格式不正确");
  (kCurleNotBuiltIn, "已废弃,不再使用");
  (kCurleCouldntResolveProxy, "无法解析代理服务器");
  (kCurleCouldntResolveHost, "无法解析主机名");
  (kCurleCouldntConnect, "无法连接到主机或代理");
  (kCurleWeirdServerReply, "服务器返回了异常的响应");
  (kCurleRemoteAccessDenied, "远程服务器拒绝访问(例如,登录失败)");
  (kCurleFtpAcceptFailed, "FTP 服务器无法接受连接");
  (kCurleFtpWeirdPassReply, "FTP 服务器返回了异常的 PASS(密码)响应");
  (kCurleFtpAcceptTimeout, "FTP 服务器接受连接超时");
  (kCurleFtpWeirdPasvReply, "FTP 服务器返回了异常的 PASV(被动模式)响应");
  (kCurleFtpWeird227Format, "FTP 服务器返回了异常的 227 响应(表示被动模式)");
  (kCurleFtpCantGetHost, "无法获取 FTP 主机信息");
  (kCurleHttp2, "HTTP/2 协议层面的问题");
  (kCurleFtpCouldntSetType, "无法设置 FTP 传输类型(例如ASCII 或二进制)");
  (kCurlePartialFile, "文件只部分传输完成");
  (kCurleFtpCouldntRetrFile, "FTP 服务器无法检索文件");
  (kCurleObsolete20, "已废弃,不再使用");
  (kCurleQuoteError, "引用命令失败");
  (kCurleHttpReturnedError, "HTTP 服务器返回了错误状态码");
  (kCurleWriteError, "写入本地文件时发生错误, 可能磁盘空间不足");
  (kCurleObsolete24, "已废弃,不再使用");
  (kCurleUploadFailed, "上传文件失败");
  (kCurleReadError, "无法打开或读取文件");
  (kCurleOutOfMemory, "内存不足(如果启用了 CURL_DOES_CONVERSIONS,可能表示转换错误)");
  (kCurleOperationTimedout, "操作超时");
  (kCurleObsolete29, "已废弃,不再使用");
  (kCurleFtpPortFailed, "FTP PORT 命令失败");
  (kCurleFtpCouldntUseRest, "FTP REST 命令失败");
  (kCurleObsolete32, "已废弃,不再使用");
  (kCurleRangeError, "RANGE 命令无效");
  (kCurleHttpPostError, "HTTP POST 操作失败");
  (kCurleSslConnectError, "使用 SSL 连接时出错");
  (kCurleBadDownloadResume, "无法恢复下载");
  (kCurleFileCouldntReadFile, "无法读取文件");
  (kCurleLdapCannotBind, "LDAP 无法绑定");
  (kCurleLdapSearchFailed, "LDAP 搜索失败");
  (kCurleObsolete40, "已废弃,不再使用");
  (kCurleFunctionNotFound, "从 7.53.0 版本开始已废弃,不再使用");
  (kCurleAbortedByCallback, "操作被回调函数中止");
  (kCurleBadFunctionArgument, "函数参数错误");
  (kCurleObsolete44, "已废弃,不再使用");
  (kCurleInterfaceFailed, "CURLOPT_INTERFACE 设置失败");
  (kCurleObsolete46, "已废弃,不再使用");
  (kCurleTooManyRedirects, "重定向次数过多");
  (kCurleUnknownOption, "用户指定了未知选项");
  (kCurleSetoptOptionSyntax, "setopt 选项语法错误");
  (kCurleObsolete50, "已废弃,不再使用");
  (kCurleObsolete51, "已废弃,不再使用");
  (kCurleGotNothing, "没有收到任何数据");
  (kCurleSslEngineNotfound, "找不到 SSL 加密引擎");
  (kCurleSslEngineSetfailed, "无法将 SSL 加密引擎设置为默认");
  (kCurleSendError, "发送网络数据失败");
  (kCurleRecvError, "接收网络数据失败");
  (kCurleObsolete57, "已废弃,不再使用");
  (kCurleSslCertproblem, "本地证书问题");
  (kCurleSslCipher, "无法使用指定的加密算法");
  (kCurlePeerFailedVerification, "对等方的证书或指纹未通过验证");
  (kCurleBadContentEncoding, "无法识别或错误的内容编码");
  (kCurleLdapInvalidUrl, "无效的 LDAP URL");
  (kCurleFilesizeExceeded, "超过最大文件大小限制");
  (kCurleUseSslFailed, "请求的 FTP SSL 级别失败");
  (kCurleSendFailRewind, "发送数据需要回滚,但回滚失败");
  (kCurleSslEngineInitfailed, "初始化 SSL 引擎失败");
  (kCurleLoginDenied, "用户、密码或类似凭据未被接受,登录失败");
  (kCurleTftpNotfound, "服务器上找不到文件");
  (kCurleTftpPerm, "服务器上的权限问题");
  (kCurleRemoteDiskFull, "服务器磁盘空间不足");
  (kCurleTftpIllegal, "非法的 TFTP 操作");
  (kCurleTftpUnknownid, "未知的传输 ID");
  (kCurleRemoteFileExists, "文件已存在");
  (kCurleTftpNosuchUser, "无此用户");
  (kCurleConvFailed, "转换失败");
  (kCurleConvReqd, "调用者必须使用 curl_easy_setopt 选项注册转换回调函数");
  (kCurleSslCacertBadfile, "无法加载 CACERT 文件,文件丢失或格式错误");
  (kCurleRemoteFileNotFound, "未找到远程文件");
  (kCurleSsh, "SSH 层面的错误,具体错误信息需查看错误消息");
  (kCurleSslShutdownFailed, "无法关闭 SSL 连接");
  (kCurleAgain, "套接字未准备好发送/接收数据,等待准备好后重试");
  (kCurleSslCrlBadfile, "无法加载 CRL 文件,文件丢失或格式错误");
  (kCurleSslIssuerError, "发行人检查失败");
  (kCurleFtpPretFailed, "FTP PRET 命令失败");
  (kCurleRtspCseqError, "RTSP CSeq 数字不匹配");
  (kCurleRtspSessionError, "RTSP 会话 ID 不匹配");
  (kCurleFtpBadFileList, "无法解析 FTP 文件列表");
  (kCurleChunkFailed, "块回调报告错误");
  (kCurleNoConnectionAvailable, "没有可用的连接,会话将排队等待");
  (kCurleSslPinnedpubkeynotmatch, "指定的固定公钥不匹配");
  (kCurleSslInvalidcertstatus, "证书状态无效");
  (kCurleHttp2Stream, "HTTP/2 协议帧层面的流错误");
  (kCurleRecursiveApiCall, "回调函数中调用了 API 函数");
  (kCurleAuthError, "认证问题");
  (kCurleHttp3, "HTTP/3 层面的问题");
  (kCurleQuicConnectError, "QUIC 连接层面的问题");
  (kCurleProxy, "代理服务器错误");
  (kCurleSslClientCert, "SSL 客户端证书问题")].

Definition desc_ed2k : list (Z * string) := [
  (kEd2kTaskExisted, "ed2k任务已存在");
  (kEd2kLinkInvalid, "ed2k链接无效");
  (kWriteEd2kFileFailed, "写ed2k文件失败")].

Definition desc_magnet : list (Z * string) := [
  (kMagnetTaskExisted, "magnet任务已存在");
  (kMagnetLinkInvalid, "magnet链接无效");
  (kAddMagnetTaskFailed, "添加magnet失败");
  (kMagnetParseFailed, "magnet解析失败")].

Definition desc_torrent : list (Z * string) := [
  (kTorrentFileTaskExisted, "bt种子文件任务已存在");
  (kTorrentFileInvalid, "bt种子文件无效");
  (kAddTorrentTaskFailed, "添加bt种子文件失败");
  (kTorrentFileParseFailed, "bt种子解析失败");
  (kPauseTaskFailed, "暂停任务失败");
  (kResumeTaskFailed, "恢复任务失败");
  (kDeleteTaskFailed, "删除任务失败");
  (kDeleteLocalFileFailed, "删除本地文件失败");
  (kRetryTaskFailed, "重试任务失败");
  (kCleanTaskFailed, "清理失效任务失败");
  (kRestoreTaskFailed, "还原回收站任务失败");
  (kDbFailed, "操作db失败")].

Definition desc_http : list (Z * string) := [
  (kHttpError400, "请求无效");
  (kHttpError401, "无法进行身份验证");
  (kHttpError403, "没有访问权限");
  (kHttpError404, "找不到页面");
  (kHttpError408, "请求超时");
  (kHttpError500, "服务器错误");
  (kHttpError501, "不支持的操作");
  (kHttpError502, "网关错误");
  (kHttpError503, "服务不可用");
  (kHttpError504, "网关超时")].

(** [static std::map download_error_list] *)
Definition download_error_list : list (Z * string) :=
  desc_common ++ desc_curl ++ desc_ed2k ++ desc_magnet ++ desc_torrent ++ desc_http.

Definition kUnknownErrorDesc : string := "未知异常".

Definition GetDownloadErrorDesc (error_no : Z) : string :=
  match List.find (λ kv, kv.1 =? error_no) download_error_list with
  | Some kv => kv.2
  | None => kUnknownErrorDesc
  end.

(** ** [class ErrorHandle] *)
Module ErrorSource.
Inductive ErrorSource :=
  | kOk | kGateway | kServicesManager | kAuthService | kFileService | kMessageCenter
  | kMediaService | kImageService | kDownloadService | kUpdateService | kSystemService
  | kGrpcProxyService | kDlnaService.

Definition ErrorSource_value (s : ErrorSource) : Z :=
  match s with
  | kOk => 0 | kGateway => 16 | kServicesManager => 17 | kAuthService => 18
  | kFileService => 19 | kMessageCenter => 20 | kMediaService => 21 | kImageService => 22
  | kDownloadService => 23 | kUpdateService => 24 | kSystemService => 25
  | kGrpcProxyService => 26 | kDlnaService => 27
  end.
End ErrorSource.
Abbreviation ErrorSource := ErrorSource.ErrorSource.

Definition kRequestSuccess : Z := 0.
Definition kErrorSourceMaskCode : Z := 4294901760.

Record ErrorHandle := mkErrorHandle {
  eh_final_error_no : Z;
  eh_error_source : ErrorSource;
  eh_module_msg_desc : string
}.

Definition ErrorHandle_new (source : ErrorSource) : ErrorHandle :=
  mkErrorHandle kRequestSuccess source EmptyString.

Definition HasErrorSource (error_no : Z) : bool :=
  0 <? Z.land error_no kErrorSourceMaskCode.

Definition SetErrorNo (err_no : Z) (h : ErrorHandle) : ErrorHandle :=
  if negb (err_no =? kRequestSuccess) && negb (HasErrorSource err_no) then
    let source := to_uint32 (ErrorSource.ErrorSource_value (eh_error_source h)) in
    mkErrorHandle
      (to_uint32 (Z.land (to_uint32 (Z.shiftl source 16)) kErrorSourceMaskCode + err_no))
      (eh_error_source h) (eh_module_msg_desc h)
  else mkErrorHandle err_no (eh_error_source h) (eh_module_msg_desc h).

Definition SetErrorMsg (msg : string) (h : ErrorHandle) : ErrorHandle :=
  mkErrorHandle (eh_final_error_no h) (eh_error_source h) msg.

(** [nas::GetTransErrorNo], with the process-wide [CallResult::error_source]
    as an argument; the result is returned as an [int]. *)
Definition GetTransErrorNo (source : ErrorSource) (err : Z) : Z :=
  to_int32 (eh_final_error_no (SetErrorNo (to_uint32 err) (ErrorHandle_new source))).

(** [main.cc] sets [CallResult::error_source] to [kDownloadService]. *)
Definition DownloadErrNoToOutErrNo (err_no : Z) : Z :=
  GetTransErrorNo ErrorSource.kDownloadService err_no.

(** [struct CallResult] and [utils::ErrNoToCallResult]. *)
Record CallResult := mkCallResult { cr_errcode : Z; cr_msg : string }.
Definition ErrNoToCallResult (err_no : Z) : CallResult :=
  mkCallResult (to_uint32 err_no) (GetDownloadErrorDesc err_no).

(** ** Properties *)
Lemma HasErrorSource_small e : 0 <= e < 65536 → HasErrorSource e = false.
Proof.
  intros H. unfold HasErrorSource, kErrorSourceMaskCode.
  apply Z.ltb_ge. replace (Z.land e 4294901760) with 0; [lia|].
  symmetry. apply Z.bits_inj'. intros n Hn. rewrite Z.land_spec, Z.bits_0.
  destruct (Z_lt_ge_dec n 16) as [Hl|Hl].
  - replace 4294901760 with (Z.shiftl 65535 16) by reflexivity.
    rewrite (Z.shiftl_spec_low 65535 16 n) by lia. apply andb_false_r.
  - rewrite <-(Z.mod_small e (2 ^ 16)) by (simpl; lia).
    rewrite Z.mod_pow2_bits_high by lia. done.
Qed.

Lemma SetErrorNo_tagged source e :
  0 < e < 65536 →
  eh_final_error_no (SetErrorNo e (ErrorHandle_new source)) =
    65536 * ErrorSource.ErrorSource_value source + e.
Proof.
  intros H. unfold SetErrorNo. rewrite (HasErrorSource_small e) by lia.
  replace (e =? kRequestSuccess) with false by (symmetry; apply Z.eqb_neq; unfold kRequestSuccess; lia).
  simpl negb. cbn [andb eh_final_error_no].
  assert (Hs : Z.land (to_uint32 (Z.shiftl (to_uint32 (ErrorSource.ErrorSource_value source)) 16))
                 kErrorSourceMaskCode = 65536 * ErrorSource.ErrorSource_value source)
    by (destruct source; reflexivity).
  simpl eh_error_source. rewrite Hs. unfold to_uint32.
  rewrite Z.mod_small; [done|]. destruct source; simpl; lia.
Qed.

(** [GetTransErrorNo] packs the service in the upper and the module error
    in the lower sixteen bits: for every service and every non-zero 16-bit
    error the outward number splits back into exactly that service and that
    error, and success stays 0. *)
Theorem GetTransErrorNo_roundtrip source e :
  GetTransErrorNo source kRequestSuccess = 0 ∧
  (0 < e < 65536 →
   GetTransErrorNo source e / 65536 = ErrorSource.ErrorSource_value source ∧
   GetTransErrorNo source e mod 65536 = e).
Proof.
  split; [by destruct source|]. intros H. unfold GetTransErrorNo.
  unfold to_uint32 at 1 2. rewrite !(Z.mod_small e) by (simpl; lia).
  rewrite !SetErrorNo_tagged by lia.
  assert (0 <= ErrorSource.ErrorSource_value source <= 27) by (destruct source; simpl; lia).
  unfold to_int32, wrap_signed. rewrite Z.mod_small by (simpl; lia).
  replace (_ <? _) with true by (symmetry; apply Z.ltb_lt; simpl; lia).
  split.
  - symmetry. apply (Z.div_unique_pos _ _ _ e); lia.
  - symmetry. apply (Z.mod_unique_pos _ _ (ErrorSource.ErrorSource_value source)); lia.
Qed.

Lemma GetTransErrorNo_roundtrip_witness :
  GetTransErrorNo ErrorSource.kDownloadService DownloadErrorCode.kExistSameTask / 65536 = 23 ∧
  GetTransErrorNo ErrorSource.kDownloadService DownloadErrorCode.kExistSameTask mod 65536 = 9.
Proof.
  destruct (GetTransErrorNo_roundtrip ErrorSource.kDownloadService
              DownloadErrorCode.kExistSameTask) as [_ H].
  apply H. unfold DownloadErrorCode.kExistSameTask. lia.
Defined.
