(* ===== verification/TaskInfo.v ===== *)
(** * [task/task_info.cc]: what the server knows about one task

    Progress, base information, time stamps, status and category.  The C++
    classes reach their parts through shared pointers that are never re-seated
    while the task lives, so the parts are nested records. *)

From S2P Require Import Prelude CppBase DownloadTypes.

(** ** [class TaskProgressInfo] *)
Record TaskProgressInfo := mkProgress {
  pi_task_name : string;
  pi_total_progress : double;
  pi_download_speed : double;
  pi_upload_speed : double;
  pi_file_list_progress : gmap string double;
  pi_err_code : Z
}.

Definition TaskProgressInfo_new : TaskProgressInfo :=
  mkProgress EmptyString d_zero d_zero d_zero ∅ DownloadErrorCode.kNormal.

Module Progress.
Definition SetTaskName (v : string) (p : TaskProgressInfo) : TaskProgressInfo :=
  mkProgress v (pi_total_progress p) (pi_download_speed p) (pi_upload_speed p)
    (pi_file_list_progress p) (pi_err_code p).
Definition SetTotalProgress (v : double) (p : TaskProgressInfo) : TaskProgressInfo :=
  mkProgress (pi_task_name p) v (pi_download_speed p) (pi_upload_speed p)
    (pi_file_list_progress p) (pi_err_code p).
Definition SetDownloadSpeed (v : double) (p : TaskProgressInfo) : TaskProgressInfo :=
  mkProgress (pi_task_name p) (pi_total_progress p) v (pi_upload_speed p)
    (pi_file_list_progress p) (pi_err_code p).
Definition SetUploadSpeed (v : double) (p : TaskProgressInfo) : TaskProgressInfo :=
  mkProgress (pi_task_name p) (pi_total_progress p) (pi_download_speed p) v
    (pi_file_list_progress p) (pi_err_code p).
Definition SetFileListProgress (file_name : string) (progress : double)
    (p : TaskProgressInfo) : TaskProgressInfo :=
  mkProgress (pi_task_name p) (pi_total_progress p) (pi_download_speed p)
    (pi_upload_speed p) (<[file_name := progress]> (pi_file_list_progress p)) (pi_err_code p).
Definition SetErrorCode (v : Z) (p : TaskProgressInfo) : TaskProgressInfo :=
  mkProgress (pi_task_name p) (pi_total_progress p) (pi_download_speed p)
    (pi_upload_speed p) (pi_file_list_progress p) v.
(** [TaskProgressInfo::Reset]: the name and the per-file progress survive. *)
Definition Reset (p : TaskProgressInfo) : TaskProgressInfo :=
  mkProgress (pi_task_name p) d_zero d_zero d_zero (pi_file_list_progress p)
    DownloadErrorCode.kNormal.
End Progress.

(** ** [struct FileAttribute] and [class TaskBaseInfo] *)
Record FileAttribute := mkFileAttribute {
  fa_file_name : string;
  fa_file_size : Z;
  fa_file_type : string;
  fa_local_land_file_name : string
}.

Record TaskBaseInfo := mkBaseInfo {
  bi_task_attribute : FileAttribute;
  bi_file_list : string
}.

Definition TaskBaseInfo_new : TaskBaseInfo :=
  mkBaseInfo (mkFileAttribute EmptyString 0 EmptyString EmptyString) EmptyString.

Module BaseInfo.
Definition upd_attr (f : FileAttribute → FileAttribute) (b : TaskBaseInfo) : TaskBaseInfo :=
  mkBaseInfo (f (bi_task_attribute b)) (bi_file_list b).
Definition SetTaskName (v : string) : TaskBaseInfo → TaskBaseInfo := upd_attr (λ a,
  mkFileAttribute v (fa_file_size a) (fa_file_type a) (fa_local_land_file_name a)).
Definition SetTaskFileSize (v : Z) : TaskBaseInfo → TaskBaseInfo := upd_attr (λ a,
  mkFileAttribute (fa_file_name a) v (fa_file_type a) (fa_local_land_file_name a)).
Definition SetTaskFileType (v : string) : TaskBaseInfo → TaskBaseInfo := upd_attr (λ a,
  mkFileAttribute (fa_file_name a) (fa_file_size a) v (fa_local_land_file_name a)).
Definition SetTaskLandFileName (v : string) : TaskBaseInfo → TaskBaseInfo := upd_attr (λ a,
  mkFileAttribute (fa_file_name a) (fa_file_size a) (fa_file_type a) v).
Definition SetFileList (v : string) (b : TaskBaseInfo) : TaskBaseInfo :=
  mkBaseInfo (bi_task_attribute b) v.
End BaseInfo.

(** ** [struct TaskTimeStamp] *)
Record TaskTimeStamp := mkTimeStamp {
  ts_create_time : Z; ts_finish_time : Z; ts_delete_time : Z
}.
Definition TaskTimeStamp_new : TaskTimeStamp := mkTimeStamp 0 0 0.
Definition set_create_time v t := mkTimeStamp v (ts_finish_time t) (ts_delete_time t).
Definition set_finish_time v t := mkTimeStamp (ts_create_time t) v (ts_delete_time t).
Definition set_delete_time v t := mkTimeStamp (ts_create_time t) (ts_finish_time t) v.

(** ** [class TaskInfo] *)
Record TaskInfo := mkTaskInfo {
  ti_param : TaskParam;
  ti_base : TaskBaseInfo;
  ti_progress : TaskProgressInfo;
  ti_status : TaskStatus;
  ti_category : TaskCategory;
  ti_time : TaskTimeStamp;
  ti_is_valid : bool;
  ti_is_started : bool;
  ti_is_retry : bool
}.

(** [TaskInfo::TaskInfo()] followed by [SetTaskParam(param)]. *)
Definition TaskInfo_new (param : TaskParam) : TaskInfo :=
  mkTaskInfo param TaskBaseInfo_new TaskProgressInfo_new TaskStatus.kWaitting
    TaskCategory.kDownloadingTask TaskTimeStamp_new true false false.

(** [TaskInfo(const TaskInfo&)]: a deep copy whose parameter is sliced. *)
Definition TaskInfo_copy (i : TaskInfo) : TaskInfo :=
  mkTaskInfo (TaskParam_copy (ti_param i)) (ti_base i) (ti_progress i) (ti_status i)
    (ti_category i) (ti_time i) (ti_is_valid i) (ti_is_started i) (ti_is_retry i).

Module Info.
Definition SetTaskParam v i := mkTaskInfo v (ti_base i) (ti_progress i) (ti_status i)
  (ti_category i) (ti_time i) (ti_is_valid i) (ti_is_started i) (ti_is_retry i).
Definition upd_param f i := SetTaskParam (f (ti_param i)) i.
Definition SetTaskBaseInfo v i := mkTaskInfo (ti_param i) v (ti_progress i) (ti_status i)
  (ti_category i) (ti_time i) (ti_is_valid i) (ti_is_started i) (ti_is_retry i).
Definition upd_base f i := SetTaskBaseInfo (f (ti_base i)) i.
Definition SetProgressInfo v i := mkTaskInfo (ti_param i) (ti_base i) v (ti_status i)
  (ti_category i) (ti_time i) (ti_is_valid i) (ti_is_started i) (ti_is_retry i).
Definition upd_progress f i := SetProgressInfo (f (ti_progress i)) i.
Definition SetTaskTimeStamp v i := mkTaskInfo (ti_param i) (ti_base i) (ti_progress i)
  (ti_status i) (ti_category i) v (ti_is_valid i) (ti_is_started i) (ti_is_retry i).
Definition upd_time f i := SetTaskTimeStamp (f (ti_time i)) i.
Definition SetIsValid v i := mkTaskInfo (ti_param i) (ti_base i) (ti_progress i)
  (ti_status i) (ti_category i) (ti_time i) v (ti_is_started i) (ti_is_retry i).
Definition SetIsStarted v i := mkTaskInfo (ti_param i) (ti_base i) (ti_progress i)
  (ti_status i) (ti_category i) (ti_time i) (ti_is_valid i) v (ti_is_retry i).
Definition SetIsRetry v i := mkTaskInfo (ti_param i) (ti_base i) (ti_progress i)
  (ti_status i) (ti_category i) (ti_time i) (ti_is_valid i) (ti_is_started i) v.

(** [SetTaskCategory(const TaskCategory&)] *)
Definition SetTaskCategory v i := mkTaskInfo (ti_param i) (ti_base i) (ti_progress i)
  (ti_status i) v (ti_time i) (ti_is_valid i) (ti_is_started i) (ti_is_retry i).

(** [SetTaskCategory(TaskStatus)]: a failed task keeps its category. *)
Definition category_of (status : TaskStatus) (old : TaskCategory) : TaskCategory :=
  match status with
  | TaskStatus.kFinished => TaskCategory.kFinishedTask
  | TaskStatus.kDeleted => TaskCategory.kRecyclebinTask
  | TaskStatus.kCompletedDeleted => TaskCategory.kUnkownnTask
  | TaskStatus.kSeeding => TaskCategory.kSeedingTask
  | TaskStatus.kFailed => old
  | _ => TaskCategory.kDownloadingTask
  end.

(** [TaskInfo::SetTaskStatus] *)
Definition SetTaskStatus (status : TaskStatus) (i : TaskInfo) : TaskInfo :=
  mkTaskInfo (ti_param i) (ti_base i) (ti_progress i) status
    (category_of status (ti_category i)) (ti_time i) (ti_is_valid i) (ti_is_started i)
    (ti_is_retry i).
End Info.

(** ** The status/category invariant

    Every status but [kFailed] determines the category; a failed task stays in
    the category it was in when it failed. *)
Definition category_ok (i : TaskInfo) : Prop :=
  ti_category i = Info.category_of (ti_status i) (ti_category i).

Lemma category_ok_new p : category_ok (TaskInfo_new p).
Proof. done. Qed.

Lemma category_ok_SetTaskStatus s i : category_ok (Info.SetTaskStatus s i).
Proof. unfold category_ok. by destruct s. Qed.
