(* ===== verification/InfoStore.v ===== *)
(** * [db/download_info_store.cc]: the SQLite write-behind store

    Every mutation is a closure posted to the database thread, which runs the
    closures in the order they were posted; reads wait for that queue.  A
    posted closure is a [StoreTask] value carrying the copied arguments, the
    database is the [Store] record, and [run_store_task] is the closure body. *)

From S2P Require Import Prelude CppBase BaseRef DownloadTypes TaskInfo PathUnit.

(** ** Column values *)

(** A REAL column, in millionths: INSERT binds an integer, UPDATE prints the
    double with [%f], i.e. rounded half-to-even to six decimals. *)
Definition round_half_even (n d : Z) : Z :=
  let q := n / d in
  let r := n mod d in
  if 2 * r <? d then q
  else if d <? 2 * r then q + 1
  else if Z.even q then q else q + 1.

Definition d_micro (d : double) : option Z :=
  match d with
  | SpecFloat.S754_zero _ => Some 0
  | SpecFloat.S754_finite s m e =>
      let n := Z.pos m * 1000000 in
      let a := if 0 <=? e then n * 2 ^ e else round_half_even n (2 ^ (- e)) in
      Some (if s then - a else a)
  | _ => None
  end.

(** [stmt.ColumnInt64] on a REAL column truncates toward zero. *)
Definition micro_to_int64 (z : Z) : Z := Z.quot z 1000000.

(** One row of the table [<user>_task_info]. *)
Record Row := mkRow {
  r_id : string;
  r_source : string;
  r_save_path : string;
  r_download_type : Z;
  r_file_name : string;
  r_file_size : Z;
  r_total_progress : Z;
  r_download_speed : Z;
  r_upload_speed : Z;
  r_task_status : Z;
  r_create_time : Z;
  r_finish_time : Z;
  r_delete_time : Z;
  r_err_code : Z;
  r_is_started : Z
}.

(** The database: task tables by user (rows in insertion order), the user
    table, and the store's own [users_] set. *)
Record Database := mkDatabase {
  db_task_tables : gmap string (list Row);
  db_user_table : option (list (string * (Z * Z)))
}.

Record Store := mkStore {
  st_db : option Database;
  st_users : gset string
}.

Definition set_db (db : Database) (s : Store) : Store := mkStore (Some db) (st_users s).

(** [StringPrintf] prints the [c_str()] of a string, which ends at the first
    NUL.  What SQLite does with a statement in which a printed string contains a
    quote, or the name of a table was cut, is not determined by the sources. *)
Class SqlBackend := {
  sql_run_malformed : list string → Database → Database
}.

Definition quote_char : ascii := "039"%char.
Definition quote_free (s : string) : bool := negb (bool_decide (quote_char ∈ str_chars s)).
(** A string that is printed whole, and between the quotes *)
Definition plain (s : string) : bool := quote_free s && bool_decide (c_str s = s).

(** ** Posted closures *)
Inductive StoreTask :=
  | MakeSureTaskInfoTableExist (user_id : string)
  | AddTaskInfo (user_id : string) (task_info : TaskInfo)
  | UpdateTaskInfo (user_id : string) (task_info : TaskInfo)
  | DeleteTaskInfo (user_id task_id : string)
  | MakeSureUserInfoTableExist
  | AddUserInfo (user_id : string) (info : DownloadStatisticsInfo)
  | UpdateUserInfo (user_id : string) (info : DownloadStatisticsInfo)
  | ClearTableData.

Section Closures.
  Context `{sb : SqlBackend}.

(** The values [AddTaskInfo] binds to its INSERT statement. *)
Definition AddTaskInfo_row (i : TaskInfo) : option Row :=
  let param := ti_param i in
  let attr := bi_task_attribute (ti_base i) in
  let prog := ti_progress i in
  total ← d_to_int64 (pi_total_progress prog);
  down ← d_to_int64 (pi_download_speed prog);
  up ← d_to_int64 (pi_upload_speed prog);
  Some (mkRow (p_id param) (p_url param) (p_save_path param)
    (DownloadType.DownloadType_value (p_type param)) (fa_file_name attr) (fa_file_size attr)
    (total * 1000000) (down * 1000000) (up * 1000000)
    (TaskStatus.TaskStatus_value (ti_status i))
    (ts_create_time (ti_time i)) (ts_finish_time (ti_time i)) (ts_delete_time (ti_time i))
    (pi_err_code prog) (Z.b2z (ti_is_started i))).

(** INSERT on a table with a primary key: a duplicate id is refused. *)
Definition insert_row (r : Row) (rows : list Row) : list Row :=
  if existsb (λ r', bool_decide (r_id r' = r_id r)) rows then rows else rows ++ [r].

Definition AddTaskInfo_closure (user_id : string) (i : TaskInfo) (s : Store) : option Store :=
  db ← st_db s;
  match db_task_tables db !! user_id with
  | None => Some s
  | Some rows =>
      if plain user_id then
        r ← AddTaskInfo_row i;
        Some (set_db (mkDatabase (<[user_id := insert_row r rows]> (db_task_tables db))
                        (db_user_table db)) s)
      else Some (set_db (sql_run_malformed [c_str user_id] db) s)
  end.

(** A REAL column after UPDATE: NaN and infinities print as words, which the
    column stores as text and reads back as 0. *)
Definition real_column (d : double) : Z := default 0 (d_micro d).

(** The SET clause of [UpdateTaskInfo], with the name it prints. *)
Definition update_row (file_name : string) (i : TaskInfo) (r : Row) : Row :=
  let attr := bi_task_attribute (ti_base i) in
  let prog := ti_progress i in
  mkRow (r_id r) (r_source r) (r_save_path r) (r_download_type r) file_name
    (fa_file_size attr) (real_column (pi_total_progress prog))
    (real_column (pi_download_speed prog)) (real_column (pi_upload_speed prog))
    (TaskStatus.TaskStatus_value (ti_status i))
    (ts_create_time (ti_time i)) (ts_finish_time (ti_time i)) (ts_delete_time (ti_time i))
    (pi_err_code prog) (Z.b2z (ti_is_started i)).

Definition UpdateTaskInfo_closure (user_id : string) (i : TaskInfo) (s : Store) : option Store :=
  match st_db s with
  | None => Some s
  | Some db =>
      match db_task_tables db !! user_id with
      | None => Some s
      | Some rows =>
          let name := c_str (fa_file_name (bi_task_attribute (ti_base i))) in
          let id := c_str (p_id (ti_param i)) in
          if plain user_id && quote_free name && quote_free id then
            let rows' := (λ r, if bool_decide (r_id r = id) then update_row name i r else r)
                           <$> rows in
            Some (set_db (mkDatabase (<[user_id := rows']> (db_task_tables db))
                            (db_user_table db)) s)
          else Some (set_db (sql_run_malformed [c_str user_id; name; id] db) s)
      end
  end.

Definition DeleteTaskInfo_closure (user_id task_id : string) (s : Store) : option Store :=
  db ← st_db s;
  match db_task_tables db !! user_id with
  | None => Some s
  | Some rows =>
      let id := c_str task_id in
      if plain user_id && quote_free id then
        let rows' := filter (λ r, r_id r ≠ id) rows in
        Some (set_db (mkDatabase (<[user_id := rows']> (db_task_tables db)) (db_user_table db)) s)
      else Some (set_db (sql_run_malformed [c_str user_id; id] db) s)
  end.

Definition MakeSureTaskInfoTableExist_closure (user_id : string) (s : Store) : option Store :=
  match st_db s with
  | None => Some s
  | Some db =>
      if bool_decide (is_Some (db_task_tables db !! user_id)) then Some s
      else if plain user_id then
        Some (set_db (mkDatabase (<[user_id := []]> (db_task_tables db)) (db_user_table db)) s)
      else Some (set_db (sql_run_malformed [c_str user_id] db) s)
  end.

Definition MakeSureUserInfoTableExist_closure (s : Store) : option Store :=
  match st_db s with
  | None => Some s
  | Some db =>
      match db_user_table db with
      | Some _ => Some s
      | None => Some (set_db (mkDatabase (db_task_tables db) (Some [])) s)
      end
  end.

(** A failed INSERT (no table, duplicate key) leaves [users_] alone. *)
Definition AddUserInfo_closure (user_id : string) (info : DownloadStatisticsInfo) (s : Store)
    : option Store :=
  match st_db s with
  | None => Some s
  | Some db =>
      match db_user_table db with
      | None => Some s
      | Some users =>
          if existsb (λ u, bool_decide (u.1 = user_id)) users then Some s
          else
            let row := (user_id, (to_int64 (si_accumulate_download info),
                                  to_int64 (si_accumulate_upload info))) in
            Some (mkStore (Some (mkDatabase (db_task_tables db) (Some (users ++ [row]))))
                    ({[user_id]} ∪ st_users s))
      end
  end.

(** The SET clause names [accumulate_download] twice; SQLite keeps the last
    assignment, so the upload counter lands in the download column. *)
Definition UpdateUserInfo_closure (user_id : string) (info : DownloadStatisticsInfo) (s : Store)
    : option Store :=
  match st_db s with
  | None => Some s
  | Some db =>
      match db_user_table db with
      | None => Some s
      | Some users =>
          if quote_free (c_str user_id) then
            let users' := (λ u, if bool_decide (u.1 = c_str user_id)
                                then (u.1, (to_int64 (si_accumulate_upload info), u.2.2))
                                else u) <$> users in
            Some (set_db (mkDatabase (db_task_tables db) (Some users')) s)
          else Some (set_db (sql_run_malformed [c_str user_id] db) s)
      end
  end.

(** [GetAllTableName] as the users whose task table is named, and
    [SqliteStoreBase::ClearTableData], which empties those tables and the user
    table. *)
Definition ClearTableData_closure (s : Store) : option Store :=
  match st_db s with
  | None => Some s
  | Some db =>
      let clear u (rows : list Row) := if bool_decide (u ∈ st_users s) then [] else rows in
      Some (set_db (mkDatabase (map_imap (λ u rows, Some (clear u rows)) (db_task_tables db))
                      ((λ _, []) <$> db_user_table db)) s)
  end.

Definition run_store_task (t : StoreTask) (s : Store) : option Store :=
  match t with
  | MakeSureTaskInfoTableExist u => MakeSureTaskInfoTableExist_closure u s
  | AddTaskInfo u i => AddTaskInfo_closure u i s
  | UpdateTaskInfo u i => UpdateTaskInfo_closure u i s
  | DeleteTaskInfo u id => DeleteTaskInfo_closure u id s
  | MakeSureUserInfoTableExist => MakeSureUserInfoTableExist_closure s
  | AddUserInfo u i => AddUserInfo_closure u i s
  | UpdateUserInfo u i => UpdateUserInfo_closure u i s
  | ClearTableData => ClearTableData_closure s
  end.

(** The database thread: closures run in posting order. *)
Fixpoint drain (q : list StoreTask) (s : Store) : option Store :=
  match q with
  | [] => Some s
  | t :: q => s' ← run_store_task t s; drain q s'
  end.
End Closures.

(** ** Reading back *)
Section Reading.
  Context `{bl : BaseLib}.

(** One iteration of [GetTaskInfoListFromSQLStatement]. *)
Definition task_info_of_row (r : Row) : option TaskInfo :=
  type ← DownloadType_of_Z (r_download_type r);
  status ← TaskStatus_of_Z (r_task_status r);
  let is_bt := bool_decide (type = DownloadType.kMagnet) ||
               bool_decide (type = DownloadType.kTorrent) in
  let param := mkTaskParam (r_id r) (r_source r) (r_save_path r) (r_file_name r) 0 type
      EmptyString EmptyString true false
      (if is_bt then Some TorrentTaskParam_init else None) in
  let file_type := if is_bt then FileType.kBt else GetFileType (r_file_name r) true in
  let base := BaseInfo.SetTaskFileSize (r_file_size r)
      (BaseInfo.SetTaskFileType (to_string_Z (FileType.FileType_value file_type))
      (BaseInfo.SetTaskLandFileName (r_file_name r)
      (BaseInfo.SetTaskName (r_file_name r) TaskBaseInfo_new))) in
  let prog := Progress.SetErrorCode (r_err_code r)
      (Progress.SetUploadSpeed (d_of_Z (micro_to_int64 (r_upload_speed r)))
      (Progress.SetDownloadSpeed (d_of_Z (micro_to_int64 (r_download_speed r)))
      (Progress.SetTotalProgress (d_of_Z (micro_to_int64 (r_total_progress r)))
         TaskProgressInfo_new))) in
  let info := Info.SetTaskStatus status
      (Info.SetProgressInfo prog (Info.SetTaskBaseInfo base (TaskInfo_new param))) in
  Some (Info.SetIsStarted (negb (r_is_started r =? 0))
    (Info.SetTaskTimeStamp
       (mkTimeStamp (r_create_time r) (r_finish_time r) (r_delete_time r)) info)).

(** [GetTaskInfoList], after the queue has been drained. *)
Definition GetTaskInfoList (user_id : string) (s : Store) : option (list TaskInfo) :=
  match st_db s with
  | None => Some []
  | Some db =>
      match db_task_tables db !! user_id with
      | None => Some []
      | Some rows => mapM task_info_of_row rows
      end
  end.

(** [GetAllUsersInfo]: the users with their accumulated statistics; every user
    read is added to [users_]. *)
Definition GetAllUsersInfo (s : Store) : list (string * DownloadStatisticsInfo) * Store :=
  match st_db s with
  | Some (mkDatabase tables (Some users)) =>
      ((λ u, (u.1, mkStatistics d_zero d_zero (to_uint64 u.2.1) (to_uint64 u.2.2))) <$> users,
       mkStore (st_db s) (list_to_set (fst <$> users) ∪ st_users s))
  | _ => ([], s)
  end.
End Reading.










Section Refinement.
  Context `{sb : SqlBackend}.

End Refinement.


#[global] Instance sql_ref : SqlBackend := {| sql_run_malformed _ db := db |}.


(** The id of a deletion is cut at its first NUL: the row of another task goes. *)
Definition nul : string := String "000"%char EmptyString.
Definition two_rows : list StoreTask :=
  let add id := AddTaskInfo "u" (TaskInfo_new (mkTaskParam id EmptyString EmptyString EmptyString 0 DownloadType.kHttp EmptyString EmptyString false false None)) in
  [MakeSureTaskInfoTableExist "u"; add "a"; add ("a" +:+ nul +:+ "b"); DeleteTaskInfo "u" ("a" +:+ nul +:+ "b")].
Example cut_id_deletes_other :
  match drain two_rows (mkStore (Some (mkDatabase ∅ None)) ∅) with
  | Some (mkStore (Some db) _) => option_map (List.map r_id) (db_task_tables db !! "u") = Some ["a" +:+ nul +:+ "b"]
  | _ => False
  end.
Proof. vm_compute. reflexivity. Qed.

Lemma micro_to_int64_int z : micro_to_int64 (z * 1000000) = z.
Proof. unfold micro_to_int64. by rewrite Z.quot_mul. Qed.

(** Persisting a task and reading it back restores its id, source, save
    path, type, name, size, status, time stamps, error code and started flag;
    progress and speeds come back truncated to integers, the category is
    recomputed from the status, and the task is marked as restored. *)
Theorem task_row_roundtrip `{bl : BaseLib} (i : TaskInfo) (r : Row) :
  AddTaskInfo_row i = Some r →
  ∃ i' total, task_info_of_row r = Some i' ∧
    p_id (ti_param i') = p_id (ti_param i) ∧
    p_url (ti_param i') = p_url (ti_param i) ∧
    p_save_path (ti_param i') = p_save_path (ti_param i) ∧
    p_type (ti_param i') = p_type (ti_param i) ∧
    p_is_from_db_resume (ti_param i') = true ∧
    fa_file_name (bi_task_attribute (ti_base i')) = fa_file_name (bi_task_attribute (ti_base i)) ∧
    fa_file_size (bi_task_attribute (ti_base i')) = fa_file_size (bi_task_attribute (ti_base i)) ∧
    ti_status i' = ti_status i ∧
    ti_category i' = Info.category_of (ti_status i) TaskCategory.kDownloadingTask ∧
    ti_time i' = ti_time i ∧
    ti_is_started i' = ti_is_started i ∧
    pi_err_code (ti_progress i') = pi_err_code (ti_progress i) ∧
    d_to_int64 (pi_total_progress (ti_progress i)) = Some total ∧
    pi_total_progress (ti_progress i') = d_of_Z total.
Proof.
  unfold AddTaskInfo_row. intros H.
  destruct (d_to_int64 (pi_total_progress _)) as [total|] eqn:Et; [|done].
  destruct (d_to_int64 (pi_download_speed _)) as [down|]; [|done].
  destruct (d_to_int64 (pi_upload_speed _)) as [up|]; [|done].
  simpl in H. injection H as <-.
  eexists _, total. unfold task_info_of_row. simpl.
  rewrite DownloadType_of_Z_value, TaskStatus_of_Z_value. simpl.
  rewrite !micro_to_int64_int. split; [done|]. repeat (split; [done|]).
  split; [by destruct (ti_time i)|]. split; [by destruct (ti_is_started i)|]. by repeat split.
Qed.

Lemma task_row_roundtrip_witness :
  let i := TaskInfo_new (set_p_url "http://h/f" TaskParam_init) in
  ∃ r i', AddTaskInfo_row i = Some r ∧ task_info_of_row r = Some i' ∧
    p_url (ti_param i') = "http://h/f".
Proof.
  intros i. destruct (AddTaskInfo_row i) as [r|] eqn:E; [|vm_compute in E; discriminate].
  destruct (task_row_roundtrip i r E) as (i' & total & Hi & _ & Hu & _).
  exists r, i'. split; [reflexivity|]. split; [exact Hi|]. rewrite Hu. reflexivity.
Defined.
