(* ===== verification/SystemConfig.v ===== *)
(** * [config/system_cloud_config.cc]: system-wide download settings

    The singleton's fields and the handler that a settings change runs.  The
    engine settings interfaces ([BtSettingInterface], [AmuleSettingInterface])
    are called, never read: their calls are recorded in order. *)

From S2P Require Import Prelude CppBase BaseRef.

Record SystemCloudConfig := mkSystemConfig {
  sc_curl_max_download_speed : Z;
  sc_bt_task_create_subdir_switch : bool;
  sc_bt_task_auto_download_switch : bool;
  sc_bt_tcp_listen_port : Z;
  sc_bt_max_upload_speed : Z;
  sc_bt_max_download_speed : Z;
  sc_bt_encryption_mode : Z;
  sc_bt_max_connections : Z;
  sc_bt_torrent_max_connections : Z;
  sc_bt_enable_dht_switch : bool;
  sc_bt_enable_upnp_or_nat_port_switch : bool;
  sc_bt_share_ratio_limit_value : Z;
  sc_bt_seeding_time_limit_value : Z;
  sc_mule_tcp_listen_port : Z;
  sc_mule_udp_listen_port : Z;
  sc_mule_max_connections : Z;
  sc_mule_max_upload_speed : Z;
  sc_mule_max_download_speed : Z
}.

Definition SystemCloudConfig_init : SystemCloudConfig :=
  mkSystemConfig 0 true true 35226 0 0 0 500 500 true true 0 0 4662 4672 480 0 0.

(** Calls on [bt_settings_] and [amule_settings_]. *)
Inductive SettingCall :=
  | EnableCreateSubdir (b : bool) | EnableAutoDownload (b : bool) | BtSetTcpListenPort (z : Z)
  | BtSetMaxDownloadSpeed (z : Z) | BtSetMaxUploadSpeed (z : Z) | SetEncryptionMode (z : Z)
  | BtSetMaxConnections (z : Z) | SetTorrentMaxConnections (z : Z) | EnableDHT (b : bool)
  | EnableUPnPAndNat (b : bool) | SetPreallocationEnabled (b : bool)
  | MuleSetTcpListenPort (z : Z) | MuleSetUdpListenPort (z : Z) | MuleSetMaxConnections (z : Z)
  | MuleSetMaxUploadSpeed (z : Z) | MuleSetMaxDownloadSpeed (z : Z).

Definition IsShareRatioLimit (c : SystemCloudConfig) : bool :=
  negb (sc_bt_share_ratio_limit_value c =? 0).
Definition GetShareRatioLimitValue (c : SystemCloudConfig) : Z :=
  sc_bt_share_ratio_limit_value c.
Definition IsSeedingTimeLimit (c : SystemCloudConfig) : bool :=
  negb (sc_bt_seeding_time_limit_value c =? 0).
Definition GetSeedingTimeLimitValue (c : SystemCloudConfig) : Z :=
  sc_bt_seeding_time_limit_value c.
Definition IsBtAutoDownload (c : SystemCloudConfig) : bool :=
  sc_bt_task_auto_download_switch c.
Definition GetCurlMaxDownloadSpeed (c : SystemCloudConfig) : Z :=
  sc_curl_max_download_speed c.

(** [SystemCloudConfig::SetValue] with both settings interfaces present. *)
Definition SetValue (c : SystemCloudConfig) : list SettingCall :=
  [EnableCreateSubdir (sc_bt_task_create_subdir_switch c);
   EnableAutoDownload (sc_bt_task_auto_download_switch c);
   BtSetTcpListenPort (sc_bt_tcp_listen_port c);
   BtSetMaxDownloadSpeed (sc_bt_max_download_speed c);
   BtSetMaxUploadSpeed (sc_bt_max_upload_speed c);
   SetEncryptionMode (sc_bt_encryption_mode c);
   BtSetMaxConnections (sc_bt_max_connections c);
   SetTorrentMaxConnections (sc_bt_torrent_max_connections c);
   EnableDHT (sc_bt_enable_dht_switch c);
   EnableUPnPAndNat (sc_bt_enable_upnp_or_nat_port_switch c);
   SetPreallocationEnabled false;
   MuleSetTcpListenPort (sc_mule_tcp_listen_port c);
   MuleSetUdpListenPort (sc_mule_udp_listen_port c);
   MuleSetMaxConnections (sc_mule_max_connections c);
   MuleSetMaxUploadSpeed (sc_mule_max_upload_speed c);
   MuleSetMaxDownloadSpeed (sc_mule_max_download_speed c)].

Section Subscribe.
  Context `{bl : BaseLib}.

(** [utils::StringToInt64], [utils::StringToInt]: 0 on a malformed number. *)
Definition StringToInt64 (str : string) : Z := default 0 (base_StringToInt64 str).
Definition StringToInt (str : string) : Z := default 0 (base_StringToInt str).

(** [SystemCloudConfig::OnSubscribeCallbackResult]: the tests on the key run
    in the order of the source, and each is a substring search. *)
Definition OnSubscribeCallbackResult (key value : string) (c : SystemCloudConfig)
    : SystemCloudConfig * list SettingCall :=
  let '(mkSystemConfig curl subdir auto port up down enc conns tconns dht upnp ratio seed
          mtcp mudp mconns mup mdown) := c in
  let n := StringToInt value in
  let on := bool_decide (value = "1") in
  if str_contains "curl_max_download_speed" key then
    (mkSystemConfig n subdir auto port up down enc conns tconns dht upnp ratio seed
       mtcp mudp mconns mup mdown, [])
  else if str_contains "bt_task_create_subdir_switch" key then
    (mkSystemConfig curl on auto port up down enc conns tconns dht upnp ratio seed
       mtcp mudp mconns mup mdown, [EnableCreateSubdir on])
  else if str_contains "bt_task_auto_download_switch" key then
    (mkSystemConfig curl subdir on port up down enc conns tconns dht upnp ratio seed
       mtcp mudp mconns mup mdown, [EnableAutoDownload on])
  else if str_contains "bt_tcp_listen_port" key then
    (mkSystemConfig curl subdir auto n up down enc conns tconns dht upnp ratio seed
       mtcp mudp mconns mup mdown, [BtSetTcpListenPort n])
  else if str_contains "bt_max_download_speed" key then
    (mkSystemConfig curl subdir auto port up n enc conns tconns dht upnp ratio seed
       mtcp mudp mconns mup mdown, [BtSetMaxDownloadSpeed n])
  else if str_contains "bt_max_upload_speed" key then
    (mkSystemConfig curl subdir auto port n down enc conns tconns dht upnp ratio seed
       mtcp mudp mconns mup mdown, [BtSetMaxUploadSpeed n])
  else if str_contains "bt_encryption_mode" key then
    (mkSystemConfig curl subdir auto port up down n conns tconns dht upnp ratio seed
       mtcp mudp mconns mup mdown, [SetEncryptionMode n])
  else if str_contains "bt_max_connections" key then
    (mkSystemConfig curl subdir auto port up down enc n tconns dht upnp ratio seed
       mtcp mudp mconns mup mdown, [BtSetMaxConnections n])
  else if str_contains "bt_task_max_connections" key then
    (mkSystemConfig curl subdir auto port up down enc conns n dht upnp ratio seed
       mtcp mudp mconns mup mdown, [SetTorrentMaxConnections n])
  else if str_contains "bt_enable_dht_switch" key then
    (mkSystemConfig curl subdir auto port up down enc conns tconns on upnp ratio seed
       mtcp mudp mconns mup mdown, [EnableDHT on])
  else if str_contains "bt_enable_upnp_or_nat_port_switch" key then
    (mkSystemConfig curl subdir auto port up down enc conns tconns dht on ratio seed
       mtcp mudp mconns mup mdown, [EnableUPnPAndNat on])
  else if str_contains "bt_share_ratio_limit_value" key then
    (mkSystemConfig curl subdir auto port up down enc conns tconns dht upnp n seed
       mtcp mudp mconns mup mdown, [])
  else if str_contains "bt_seeding_time_limit_value" key then
    (mkSystemConfig curl subdir auto port up down enc conns tconns dht upnp ratio n
       mtcp mudp mconns mup mdown, [])
  else if str_contains "mule_tcp_listen_port" key then
    (mkSystemConfig curl subdir auto port up down enc conns tconns dht upnp ratio seed
       n mudp mconns mup mdown, [MuleSetTcpListenPort n])
  else if str_contains "mule_udp_listen_port" key then
    (mkSystemConfig curl subdir auto port up down enc conns tconns dht upnp ratio seed
       mtcp n mconns mup mdown, [MuleSetUdpListenPort n])
  else if str_contains "mule_max_connections" key then
    (mkSystemConfig curl subdir auto port up down enc conns tconns dht upnp ratio seed
       mtcp mudp n mup mdown, [MuleSetMaxConnections n])
  else if str_contains "mule_max_upload_speed" key then
    (mkSystemConfig curl subdir auto port up down enc conns tconns dht upnp ratio seed
       mtcp mudp mconns n mdown, [MuleSetMaxUploadSpeed n])
  else if str_contains "mule_max_download_speed" key then
    (mkSystemConfig curl subdir auto port up down enc conns tconns dht upnp ratio seed
       mtcp mudp mconns mup n, [MuleSetMaxDownloadSpeed n])
  else (c, []).
End Subscribe.

(** ** Properties *)

(** The engines agree with the configuration when replaying the recorded
    calls on top of [SetValue] gives [SetValue] of the new configuration. *)
Definition setting_slot (s : SettingCall) : nat :=
  match s with
  | EnableCreateSubdir _ => 0 | EnableAutoDownload _ => 1 | BtSetTcpListenPort _ => 2
  | BtSetMaxDownloadSpeed _ => 3 | BtSetMaxUploadSpeed _ => 4 | SetEncryptionMode _ => 5
  | BtSetMaxConnections _ => 6 | SetTorrentMaxConnections _ => 7 | EnableDHT _ => 8
  | EnableUPnPAndNat _ => 9 | SetPreallocationEnabled _ => 10 | MuleSetTcpListenPort _ => 11
  | MuleSetUdpListenPort _ => 12 | MuleSetMaxConnections _ => 13
  | MuleSetMaxUploadSpeed _ => 14 | MuleSetMaxDownloadSpeed _ => 15
  end.

Definition engine_settings (calls : list SettingCall) : gmap nat SettingCall :=
  foldl (λ m s, <[setting_slot s := s]> m) ∅ calls.

Lemma engine_settings_snoc calls s :
  engine_settings (calls ++ [s]) = <[setting_slot s := s]> (engine_settings calls).
Proof. unfold engine_settings. by rewrite foldl_app. Qed.

(** Whatever key and value arrive, the settings the engines were last told
    are exactly those of the stored configuration: applying the calls that
    [OnSubscribeCallbackResult] makes, after the initial [SetValue], leaves the
    engines with [SetValue] of the updated configuration. *)
Theorem OnSubscribe_keeps_engines_in_sync `{bl : BaseLib} (key value : string)
    (c : SystemCloudConfig) :
  let '(c', calls) := OnSubscribeCallbackResult key value c in
  engine_settings (SetValue c ++ calls) = engine_settings (SetValue c').
Proof.
  destruct c. unfold OnSubscribeCallbackResult.
  repeat (match goal with |- context [if ?b then _ else _] => destruct b end;
    [rewrite ?engine_settings_snoc, ?app_nil_r;
     first [reflexivity | apply map_eq; intros k;
       do 16 (destruct k as [|k]; [reflexivity|]); reflexivity] |]).
  by rewrite app_nil_r.
Qed.

(** ** [config/system_cloud_config.cc]: the settings at the start

    [Init] reads the stored settings, subscribes to their changes and, when there is
    a dictionary of them, tells the engines.  The dictionary of a name space is its
    texts by key; [SubcribeRedis] has an empty body. *)
(** [SetValue]: an engine whose settings interface is null is told nothing. *)
Definition bt_call (s : SettingCall) : bool :=
  match s with
  | MuleSetTcpListenPort _ | MuleSetUdpListenPort _ | MuleSetMaxConnections _
  | MuleSetMaxUploadSpeed _ | MuleSetMaxDownloadSpeed _ => false
  | _ => true
  end.
Definition SetValue_of (bt_settings_ amule_settings_ : bool) (c : SystemCloudConfig) : list SettingCall :=
  filter (λ s, is_true (if bt_call s then bt_settings_ else amule_settings_)) (SetValue c).

Section Settings.
Context `{bl : BaseLib}.
Implicit Type data_dict : gmap string string.

(** The fields of [ParseSystemSettings]: a number, and a switch that is on for any
    number but zero; what is missing stays. *)
Definition parsed_int (key : string) (old : Z) data_dict : Z :=
  match data_dict !! key with Some v => StringToInt v | None => old end.
Definition parsed_switch (key : string) (old : bool) data_dict : bool :=
  match data_dict !! key with Some v => negb (StringToInt v =? 0) | None => old end.
Definition parse_dict data_dict (c : SystemCloudConfig) : SystemCloudConfig :=
  let int key old := parsed_int key old data_dict in
  let switch key old := parsed_switch key old data_dict in
  mkSystemConfig
    (int "curl_max_download_speed" (sc_curl_max_download_speed c))
    (switch "bt_task_create_subdir_switch" (sc_bt_task_create_subdir_switch c))
    (switch "bt_task_auto_download_switch" (sc_bt_task_auto_download_switch c))
    (int "bt_tcp_listen_port" (sc_bt_tcp_listen_port c))
    (int "bt_max_upload_speed" (sc_bt_max_upload_speed c))
    (int "bt_max_download_speed" (sc_bt_max_download_speed c))
    (int "bt_encryption_mode" (sc_bt_encryption_mode c))
    (int "bt_max_connections" (sc_bt_max_connections c))
    (int "bt_task_max_connections" (sc_bt_torrent_max_connections c))
    (switch "bt_enable_dht_switch" (sc_bt_enable_dht_switch c))
    (switch "bt_enable_upnp_or_nat_port_switch" (sc_bt_enable_upnp_or_nat_port_switch c))
    (int "bt_share_ratio_limit_value" (sc_bt_share_ratio_limit_value c))
    (int "bt_seeding_time_limit_value" (sc_bt_seeding_time_limit_value c))
    (int "mule_tcp_listen_port" (sc_mule_tcp_listen_port c))
    (int "mule_udp_listen_port" (sc_mule_udp_listen_port c))
    (int "mule_max_connections" (sc_mule_max_connections c))
    (int "mule_max_upload_speed" (sc_mule_max_upload_speed c))
    (int "mule_max_download_speed" (sc_mule_max_download_speed c)).

(** The part of [ParseSystemSettings] after the look-up of the name space: [None]
    has no such key, [Some None] has a value that is not a dictionary. *)
Definition parse_data (data : option (option (gmap string string))) (bt_settings_ amule_settings_ : bool)
    (c : SystemCloudConfig) : SystemCloudConfig * list SettingCall :=
  match data with
  | None => (c, [])
  | Some dict =>
      let c := match dict with Some data_dict => parse_dict data_dict c | None => c end in
      (c, SetValue_of bt_settings_ amule_settings_ c)
  end.
(** The dictionary it looks into was just made. *)
Definition kNameSpace : string := "download".
Definition ParseSystemSettings (bt_settings_ amule_settings_ : bool) (c : SystemCloudConfig)
    : SystemCloudConfig * list SettingCall :=
  let root_dict : gmap string (option (gmap string string)) := ∅ in
  parse_data (root_dict !! kNameSpace) bt_settings_ amule_settings_ c.
Definition SubcribeRedis (c : SystemCloudConfig) : SystemCloudConfig := c.
(** [Init] with the engines that were loaded. *)
Definition SystemCloudConfig_Init (bt_settings_ amule_settings_ : bool) (c : SystemCloudConfig)
    : SystemCloudConfig * list SettingCall :=
  let '(c, calls) := ParseSystemSettings bt_settings_ amule_settings_ c in (SubcribeRedis c, calls).
(** [OnSubscribeComplete]: the delay in ms after which [SubcribeRedis] is called again. *)
Definition OnSubscribeComplete (success : bool) : option Z := if success then None else Some 2000.
End Settings.

Definition int_keys : list string :=
  ["curl_max_download_speed"; "bt_tcp_listen_port"; "bt_max_upload_speed"; "bt_max_download_speed";
   "bt_encryption_mode"; "bt_max_connections"; "bt_task_max_connections"; "bt_share_ratio_limit_value";
   "bt_seeding_time_limit_value"; "mule_tcp_listen_port"; "mule_udp_listen_port"; "mule_max_connections";
   "mule_max_upload_speed"; "mule_max_download_speed"].
Definition switch_keys : list string :=
  ["bt_task_create_subdir_switch"; "bt_task_auto_download_switch"; "bt_enable_dht_switch";
   "bt_enable_upnp_or_nat_port_switch"].

(** A stored setting has the same effect as the same setting received later: of
    every key that is a number, and of a switch that is stored as 0 or 1; what the
    engines are told in the one case and in the other leaves them with the same. *)
Theorem stored_is_received `{bl : BaseLib} (Hbase : BaseLibLaws bl) key value c :
  key ∈ int_keys ∨ key ∈ switch_keys ∧ (value = "0" ∨ value = "1") →
  let '(c1, calls1) := parse_data (Some (Some {[key := value]})) true true c in
  let '(c2, calls2) := OnSubscribeCallbackResult key value c in
  c1 = c2 ∧ engine_settings calls1 = engine_settings (SetValue c ++ calls2).
Proof.
  intros H. destruct (OnSubscribeCallbackResult key value c) as [c2 calls2] eqn:Ho.
  pose proof (OnSubscribe_keeps_engines_in_sync key value c) as Hsync. rewrite Ho in Hsync.
  cbn [parse_data]. enough (parse_dict {[key := value]} c = c2) as -> by (split; [done|by rewrite Hsync]).
  assert (StringToInt "0" = 0 ∧ StringToInt "1" = 1) as [H0 H1].
  { unfold StringToInt. change "0" with (to_string_Z 0). change "1" with (to_string_Z 1).
    by rewrite !(StringToInt_print (BaseLibLaws := Hbase)). }
  destruct c. destruct H as [Hk|[Hk Hv]].
  - unfold int_keys in Hk. repeat (apply elem_of_cons in Hk as [->|Hk]; [by injection Ho as <- _|]).
    by apply not_elem_of_nil in Hk.
  - unfold switch_keys in Hk.
    repeat (apply elem_of_cons in Hk as [->|Hk];
      [injection Ho as <- _; destruct Hv as [-> | ->]; unfold parse_dict; f_equal;
       first [reflexivity | change (negb (StringToInt "0" =? 0) = false); by rewrite H0
             | change (negb (StringToInt "1" =? 0) = true); by rewrite H1]|]).
    by apply not_elem_of_nil in Hk.
Qed.
Lemma stored_is_received_witness :
  (parse_data (Some (Some {["bt_max_connections" := "7"]})) true true SystemCloudConfig_init).1 =
  (OnSubscribeCallbackResult "bt_max_connections" "7" SystemCloudConfig_init).1.
Proof.
  pose proof (stored_is_received base_ref_laws "bt_max_connections" "7" SystemCloudConfig_init
    ltac:(left; unfold int_keys; set_solver)) as H.
  exact (proj1 H).
Defined.

(** Another number switches on when it is stored, and off when it is received. *)
Example switch_stored_and_received :
  sc_bt_enable_dht_switch (parse_data (Some (Some {["bt_enable_dht_switch" := "2"]})) true true SystemCloudConfig_init).1 = true ∧
  sc_bt_enable_dht_switch (OnSubscribeCallbackResult "bt_enable_dht_switch" "2" SystemCloudConfig_init).1 = false.
Proof. split; vm_compute; reflexivity. Qed.
(** The start reads nothing and tells the engines nothing, so they keep their own
    defaults, and nothing subscribes to changes. *)
Example start_tells_nothing `{bl : BaseLib} bt mule c : SystemCloudConfig_Init bt mule c = (c, []).
Proof. reflexivity. Qed.
