(* ===== verification/SavePathQueue.v ===== *)
(** * [utils/save_path_queue.cc]: the recently used save paths

    A bounded queue of distinct paths, most recent last: a [std::list] and a
    table from each path to its list node.  Nodes carry an identity, so that
    erasing through a stale iterator would be undefined behaviour; the
    refinement theorem shows it never happens. *)

From S2P Require Import Prelude CppBase.
#[local] Open Scope prog_scope.

(** A list node: the iterator that denotes it, and its element. *)
Definition Node : Type := nat * string.

Record SavePathQueue := mkQueue {
  q_user_id : string;
  q_max_size : nat;
  q_queue : list Node;
  q_lookup_table : gmap string nat;
  q_next : nat                        (** the next node to be allocated *)
}.

Definition set_queue v q := mkQueue (q_user_id q) (q_max_size q) v (q_lookup_table q) (q_next q).
Definition set_lookup v q := mkQueue (q_user_id q) (q_max_size q) (q_queue q) v (q_next q).

(** [queue_.erase(it)]: undefined unless [it] denotes a node of the list. *)
Definition list_erase (it : nat) (l : list Node) : option (list Node) :=
  if bool_decide (it ∈ l.*1) then Some (filter (λ n, n.1 ≠ it) l) else None.

(** [queue_.push_back(element); lookup_table_[element] = std::prev(queue_.end())] *)
Definition push_back (element : string) (q : SavePathQueue) : SavePathQueue :=
  mkQueue (q_user_id q) (q_max_size q) (q_queue q ++ [(q_next q, element)])
    (<[element := q_next q]> (q_lookup_table q)) (S (q_next q)).

(** [SavePathQueue::Add]: [front()] of an empty list is undefined. *)
Definition Add (element : string) : ST SavePathQueue unit :=
  q ← get;
  (match q_lookup_table q !! element with
   | Some it => l ← of_option (list_erase it (q_queue q)); modify (set_queue l)
   | None => ret tt
   end) ;;
  q ← get;
  (if (length (q_queue q) =? q_max_size q)%nat then
     match q_queue q with
     | [] => crash
     | (_, front) :: rest =>
         modify (set_lookup (delete front (q_lookup_table q))) ;; modify (set_queue rest)
     end
   else ret tt) ;;
  modify (push_back element).

(** [SavePathQueue::SavePathQueue]: [Init] reads a dictionary that is empty. *)
Definition SavePathQueue_new (user_id : string) (max_size : nat) : SavePathQueue :=
  mkQueue user_id max_size [] ∅ 0.

(** [SavePathQueue::GetElementsString] *)
Fixpoint join_elements (l : list string) : string :=
  match l with
  | [] => EmptyString
  | [x] => x
  | x :: l => x +:+ " | " +:+ join_elements l
  end.
Definition GetElementsString (q : SavePathQueue) : string := join_elements (q_queue q).*2.

(** ** The abstract queue: a list of distinct paths *)
Definition elements_of (q : SavePathQueue) : list string := (q_queue q).*2.

Definition lru_add (max_size : nat) (element : string) (l : list string) : list string :=
  let l := filter (λ x, x ≠ element) l in
  (if (length l =? max_size)%nat then tail l else l) ++ [element].

(** Distinct, allocated nodes with distinct elements, within the capacity. *)
Definition nodes_ok (next max_size : nat) (l : list Node) : Prop :=
  NoDup l.*1 ∧ NoDup l.*2 ∧ Forall (λ n : Node, (n.1 < next)%nat) l ∧ (length l ≤ max_size)%nat.

(** The table holds exactly the nodes of the list. *)
Definition queue_ok (q : SavePathQueue) : Prop :=
  (∀ element it, q_lookup_table q !! element = Some it ↔ (it, element) ∈ q_queue q) ∧
  nodes_ok (q_next q) (q_max_size q) (q_queue q).

Lemma queue_ok_new user_id max_size : queue_ok (SavePathQueue_new user_id max_size).
Proof.
  split; [|split_and!; simpl; constructor || lia].
  intros element it. simpl. rewrite lookup_empty. split; [done|]. by intros ?%elem_of_nil.
Qed.

Lemma nodes_ok_sublist next max_size l l' :
  nodes_ok next max_size l → l' `sublist_of` l → nodes_ok next max_size l'.
Proof.
  intros (H1 & H2 & H3 & H4) Hs. split_and!.
  - eapply sublist_NoDup; [done|]. by apply fmap_sublist.
  - eapply sublist_NoDup; [done|]. by apply fmap_sublist.
  - rewrite Forall_forall in *. intros n Hn. apply H3. by eapply elem_of_sublist.
  - apply sublist_length in Hs. lia.
Qed.

(** A node is determined by its identity and by its element. *)
Lemma node_unique next max_size l it element n :
  nodes_ok next max_size l → (it, element) ∈ l → n ∈ l → n.1 = it ↔ n.2 = element.
Proof.
  intros (H1 & H2 & _) Hin Hn. destruct n as [i x]. simpl.
  apply list_elem_of_lookup in Hin as [a Ha], Hn as [b Hb].
  split; intros ->; (assert (a = b) as ->; [|congruence]).
  - eapply (NoDup_lookup l.*1 a b it); [done|by rewrite list_lookup_fmap, ?Ha, ?Hb..].
  - eapply (NoDup_lookup l.*2 a b element); [done|by rewrite list_lookup_fmap, ?Ha, ?Hb..].
Qed.

(** Erasing the node of an element removes exactly that element. *)
Lemma erase_element l (P : Node → Prop) (Q : string → Prop)
    `{!∀ n, Decision (P n)} `{!∀ x, Decision (Q x)} :
  (∀ n, n ∈ l → P n ↔ Q n.2) → (filter P l).*2 = filter Q l.*2.
Proof.
  induction l as [|n l IH]; intros Hiff; [done|]. rewrite !fmap_cons, !filter_cons.
  specialize (IH ltac:(set_solver)). destruct (Hiff n) as [Hf Hb]; [set_solver|].
  destruct (decide (P n)), (decide (Q n.2)); [simpl; by f_equal|tauto..|done].
Qed.

Lemma filter_all {A} (P : A → Prop) `{!∀ x, Decision (P x)} (l : list A) :
  (∀ x, x ∈ l → P x) → filter P l = l.
Proof.
  induction l as [|x l IH]; intros Hall; [done|]. rewrite filter_cons_True by (apply Hall; set_solver).
  f_equal. apply IH. set_solver.
Qed.

(** The state in the middle of [Add]: the table may still hold the erased node
    of [element], which is not in the list. *)
Definition mid_ok (element : string) (q : SavePathQueue) : Prop :=
  (∀ x it, x ≠ element → q_lookup_table q !! x = Some it ↔ (it, x) ∈ q_queue q) ∧
  element ∉ elements_of q ∧ nodes_ok (q_next q) (q_max_size q) (q_queue q).

Lemma wp_erase_old element q :
  queue_ok q →
  wp (match q_lookup_table q !! element with
      | Some it => l ← of_option (list_erase it (q_queue q)); modify (set_queue l)
      | None => ret tt
      end)
    (λ _ q1, mid_ok element q1 ∧ q_max_size q1 = q_max_size q ∧
       elements_of q1 = filter (λ x, x ≠ element) (elements_of q)) q.
Proof.
  intros [Ht Hn]. destruct (q_lookup_table q !! element) as [it|] eqn:Hl.
  - apply Ht in Hl as Hin. wp_step. unfold list_erase. rewrite bool_decide_eq_true_2.
    2: { apply list_elem_of_fmap. by exists (it, element). }
    eapply wp_of_option; [done|]. apply wp_modify.
    pose proof (λ n, node_unique _ _ _ it element n Hn Hin) as Hu.
    assert (He : elements_of (set_queue (filter (λ n, n.1 ≠ it) (q_queue q)) q) =
      filter (λ x, x ≠ element) (elements_of q)).
    { apply erase_element. intros n Hin'. by rewrite (Hu n Hin'). }
    split_and!; [|done|done]. unfold mid_ok. rewrite He. split_and!; simpl.
    + intros x i Hx. rewrite list_elem_of_filter, Ht. split; [|tauto]. intros Hx'.
      split; [|done]. simpl. intros ->. by destruct Hx; apply (Hu (it, x) Hx').
    + rewrite list_elem_of_filter. tauto.
    + eapply nodes_ok_sublist; [done|apply sublist_filter].
  - apply wp_ret.
    assert (Hni : element ∉ elements_of q).
    { intros ([it x] & -> & Hx)%list_elem_of_fmap. apply Ht in Hx. simpl in Hl. congruence. }
    split_and!; [split_and!; auto|done|]. symmetry. apply filter_all.
    intros x Hx ->. done.
Qed.

Lemma mid_ok_push element q :
  mid_ok element q → (length (q_queue q) < q_max_size q)%nat → queue_ok (push_back element q).
Proof.
  intros (Ht & Hn & H1 & H2 & Hall & _) Hlt. split; simpl.
  - intros x it. rewrite elem_of_app, list_elem_of_singleton, lookup_insert_Some.
    destruct (decide (x = element)) as [->|Hx].
    + split; [intros [[_ <-]|[? _]]; [by right|done]|]. intros [Hin|[= ->]]; [|by left].
      destruct Hn. apply list_elem_of_fmap. by exists (it, element).
    + rewrite <-(Ht x it) by done. split; [intros [[? _]|[_ ?]]; [done|by left]|].
      intros [?|[= _ ?]]; [by right|done].
  - unfold nodes_ok. rewrite !fmap_app, length_app, !NoDup_app. simpl. split_and!; try done.
    + intros i Hi ->%list_elem_of_singleton.
      apply list_elem_of_fmap in Hi as ([j x] & Heq & Hj). rewrite Forall_forall in Hall.
      specialize (Hall _ Hj). simpl in *. lia.
    + apply NoDup_singleton.
    + by intros x Hx ->%list_elem_of_singleton.
    + apply NoDup_singleton.
    + apply Forall_app. split; [|repeat constructor; simpl; lia].
      eapply Forall_impl; [done|]. simpl. lia.
    + lia.
Qed.

(** C10. The queue of save paths refines the abstract list of distinct recently
    used paths, for any positive capacity: adding a path never goes through a
    stale iterator or an empty list, moves the path to the end if it was there,
    evicts the oldest path only when the queue is full, and keeps the queue
    within its capacity and the table in step with the list. *)
Theorem Add_refines_lru element q :
  queue_ok q → (0 < q_max_size q)%nat →
  wp (Add element) (λ _ q', queue_ok q' ∧ q_max_size q' = q_max_size q ∧
    elements_of q' = lru_add (q_max_size q) element (elements_of q)) q.
Proof.
  intros Hq Hmax. unfold Add. wp_step. apply wp_get. wp_step.
  eapply wp_mono; [by apply wp_erase_old|]. cbn beta. intros _ q1 (Hm & Hs & He).
  wp_step. apply wp_get. wp_step. pose proof Hm as (Ht & Hni & Hn).
  unfold lru_add. rewrite <-He, <-Hs.
  destruct (Nat.eqb_spec (length (q_queue q1)) (q_max_size q1)) as [Hl|Hl].
  - destruct (q_queue q1) as [|[it front] rest] eqn:Hqq; [simpl in Hl; lia|].
    wp_step. apply wp_modify, wp_modify, wp_modify. simpl.
    assert (Hni' : front ≠ element ∧ element ∉ rest.*2).
    { unfold elements_of in Hni. rewrite Hqq in Hni. set_solver. }
    destruct Hn as (H1 & H2 & H3 & H4). simpl in *.
    apply NoDup_cons in H2 as [Hf H2]. apply NoDup_cons in H1 as [Hit H1].
    apply Forall_cons in H3 as [_ H3].
    split; [|split; [done|]].
    2: { unfold elements_of. simpl. rewrite fmap_app, Hqq, <-Hl. simpl.
         by rewrite length_fmap, Nat.eqb_refl. }
    apply (mid_ok_push element (mkQueue _ _ rest (delete front (q_lookup_table q1)) _)); simpl; [|lia].
    split_and!; simpl; [|tauto|by split_and!; [..|lia]].
    intros x i Hx. rewrite lookup_delete_Some, Ht by done. rewrite elem_of_cons. split.
    + intros [? [[= _ ?]|?]]; [congruence|done].
    + intros Hin. split; [|by right]. intros ->. destruct Hf. apply list_elem_of_fmap.
      by exists (i, x).
  - apply wp_ret, wp_modify. destruct Hn as (?&?&?&?).
    split; [apply mid_ok_push; [done|lia]|split; [done|]].
    unfold elements_of. simpl. rewrite fmap_app, length_fmap.
    match goal with |- context [if ?b then _ else _] =>
      replace b with false by (symmetry; by apply Nat.eqb_neq) end. done.
Qed.

(** A full queue of two, adding a known and then a new path. *)
Definition queue_example : SavePathQueue :=
  mkQueue "alice" 2 [(0%nat, "/a"); (1%nat, "/b")] {["/a" := 0%nat; "/b" := 1%nat]} 2.

Lemma Add_refines_lru_witness :
  wp (Add "/c") (λ _ q', queue_ok q' ∧ q_max_size q' = q_max_size queue_example ∧
    elements_of q' = lru_add 2 "/c" (elements_of queue_example)) queue_example ∧
  lru_add 2 "/c" (elements_of queue_example) = ["/b"; "/c"].
Proof.
  split; [|vm_compute; reflexivity]. apply (Add_refines_lru "/c" queue_example); [|simpl; lia].
  split.
  - intros x it. simpl. rewrite lookup_insert_Some, lookup_singleton_Some, !elem_of_cons, elem_of_nil.
    split; intros H; destruct_and?; destruct_or! H; destruct_and?; simplify_eq; auto.
  - split_and!; simpl; [apply (bool_decide_eq_true_1 (NoDup _)); vm_compute; reflexivity..| |lia].
    repeat constructor.
Defined.

(** A queue of capacity zero is undefined behaviour on the first path. *)
Lemma Add_zero_capacity_undefined user_id element :
  Add element (SavePathQueue_new user_id 0) = None.
Proof. reflexivity. Qed.
