(* ===== verification/ServerWorld.v ===== *)
(** * The world a task operates in

    The download engines behind [DownloadTaskInterface] and its subclasses
    (netcurl, netmule, netbt: dynamically loaded libraries), the file system,
    clock and GUID generator form an abstract environment [Env]; the server's
    own global state is [World]: the reference counts, the posted database
    closures, the closures posted to other threads, the notifications, and the
    system configuration. *)

From S2P Require Import Prelude CppBase PathUnit DownloadTypes TaskInfo InfoStore SystemConfig.

(** A [DownloadTaskInterface*]. *)
Definition Handle : Type := N.

Class Env := {
  env : Type;
  (** [class DownloadTaskInterface] *)
  i_Start : Handle → env → Z * env;
  i_Pause : Handle → env → bool * env;
  i_Resume : Handle → bool → env → bool * env;
  i_Cancel : Handle → bool → env → bool * env;
  i_GetProgressInfo : Handle → DownloadProgressInfo → env → DownloadProgressInfo * env;
  i_Valid : Handle → bool → env → bool * env;
  i_GetTaskHash : Handle → env → option string * env;
  (** [class CurlDownloadTask] *)
  c_SetParam : Handle → DownloadParam → env → unit * env;
  c_ParseLink : Handle → string → env → (Z * FileBaseInfo) * env;
  c_ResumeBreakPoint : Handle → env → bool * env;
  c_SetMaxDownloadSpeed : Handle → Z → env → unit * env;
  c_Reset : Handle → env → unit * env;
  c_TryReStart : Handle → env → unit * env;
  (** [class MuleDownloadTask] *)
  m_SetParam : Handle → DownloadParam → env → unit * env;
  m_ParseLink : Handle → string → env → (bool * FileBaseInfo) * env;
  m_CheckCondition : Handle → string → env → Z * env;
  (** [class BtDownloadTask], [TorrentFileDownloadTask], [MagnetDownloadTask] *)
  b_SetParam : Handle → TorrentDownloadParam → env → unit * env;
  b_SetTorrentAddedCallback : Handle → env → unit * env;
  b_GetTorrentFileBaseInfo : Handle → env → FileBaseInfo * env;
  b_CheckCondition : Handle → string → env → Z * env;
  b_IsValid : Handle → string → env → bool * env;
  b_GetSeedingInfo : Handle → env → option string * env;
  b_GetTorrentList : Handle → env → option string * env;
  b_GetTorrentShareRatio : Handle → env → Z * env;
  b_GetSeedingTime : Handle → env → Z * env;
  b_GetUploadRate : Handle → env → Z * env;
  b_IsChecking : Handle → env → bool * env;
  b_IsDownloading : Handle → env → bool * env;
  t_CreateMagnetUri : Handle → env → option string * env;
  g_SetParseCallback : Handle → env → unit * env;
  (** [class DownloadInterfaceHelper]: the loaded libraries' factories *)
  IsLoadedNetMule : env → bool;
  IsLoadedNetBt : env → bool;
  IsLoadedNetCurl : env → bool;
  CreateCurlDownloadTask : env → option Handle * env;
  CreateMuleDownloadTask : env → option Handle * env;
  CreateTorrentFileDownloadTask : env → option Handle * env;
  CreateMagnetDownloadTask : env → option Handle * env;
  (** [ReleaseCurlTask], [ReleaseMuleTask], [ReleaseTorrentTask] *)
  ReleaseTask : Handle → env → unit * env;
  (** file system, clock, GUIDs *)
  PathExists : string → env → bool;
  DirectoryExists : string → env → bool;
  CreateDirectory : string → env → bool * env;
  base_DeleteFile : string → env → bool * env;
  DeletePathRecursively : string → env → bool * env;
  base_CopyFile : string → string → env → bool * env;
  GetFileSize : string → env → Z;
  OpenForWrite : string → env → bool * env;
  GenerateRandomV4 : env → string * env;
  TimeNow : env → Z * env;
  GetTorrentFileSavePath : env → string * env;
  (** [nas::GetUserSourceDataDir(user_id, true)], [base::RandInt] *)
  GetUserSourceDataDir : string → env → string * env;
  RandInt : Z → Z → env → Z * env;
  (** [ProtectedPath::Init]: the server's own directories *)
  ProtectedPaths : list string
}.

(** A call of [utils::Notify]: the operation id, the JSON text's dictionary
    and the user the context names. *)
Record Note := mkNote { n_operate_id : string; n_user_id : string; n_msg : Dict }.

(** Closures posted to a task runner by a task: [CurlTask::ReStart] of the task
    of engine [h] on the user's runner, through [base::Unretained(this)]; the
    same after that task was destroyed; the list of a torrent's files on the
    thread pool, replying with [SetFileList], which keeps its task alive. *)
Inductive Post :=
  | PostReStart (h : Handle)
  | PostDangling
  | PostGetTorrentList (task_id : string).

#[local] Open Scope prog_scope.

Section World.
  Context `{E : Env}.

Record World := mkWorld {
  w_env : env;
  w_refs : gmap string Z;
  w_db : list StoreTask;
  w_notes : list Note;
  w_posts : list Post;
  w_cfg : SystemCloudConfig
}.

Definition set_w_env v w := mkWorld v (w_refs w) (w_db w) (w_notes w) (w_posts w) (w_cfg w).
Definition set_w_refs v w := mkWorld (w_env w) v (w_db w) (w_notes w) (w_posts w) (w_cfg w).
Definition set_w_db v w := mkWorld (w_env w) (w_refs w) v (w_notes w) (w_posts w) (w_cfg w).
Definition set_w_notes v w := mkWorld (w_env w) (w_refs w) (w_db w) v (w_posts w) (w_cfg w).
Definition set_w_posts v w := mkWorld (w_env w) (w_refs w) (w_db w) (w_notes w) v (w_cfg w).

(** Lifting an environment call, reading the environment. *)
Definition env_call {A} (f : env → A * env) : ST World A := λ w,
  let '(a, e) := f (w_env w) in Some (a, set_w_env e w).
Definition env_read {A} (f : env → A) : ST World A := gets (λ w, f (w_env w)).

(** [DownloadStoreHelper]: the helper forwards to the store, which posts. *)
Definition post_db (t : StoreTask) : ST World unit := modify (λ w, set_w_db (w_db w ++ [t]) w).
Definition post (p : Post) : ST World unit := modify (λ w, set_w_posts (w_posts w ++ [p]) w).

(** [utils::Notify] *)
Definition Notify (operate_id : string) (msg : Dict) (context_field : ContextField)
    : ST World unit :=
  modify (λ w, set_w_notes (w_notes w ++ [mkNote operate_id (cf_user_id context_field) msg]) w).

(** [utils::DeleteFile] *)
Definition DeleteFile `{bl : BaseLib} (path : string) : ST World bool :=
  let file_path := BaseFilePathFromU8 path in
  found ← env_read (PathExists file_path);
  if found then env_call (base_DeleteFile file_path) else ret true.

(** [utils::GetCurrnetTime] *)
Definition GetCurrnetTime : ST World Z := env_call TimeNow.

Lemma wp_env_call {A} (f : env → A * env) (Q : A → World → Prop) w :
  (∀ a e, Q a (set_w_env e w)) → wp (env_call f) Q w.
Proof. intros H. unfold wp, env_call. destruct (f (w_env w)). apply H. Qed.

Lemma wp_env_call_exact {A} (f : env → A * env) (Q : A → World → Prop) w :
  Q (f (w_env w)).1 (set_w_env (f (w_env w)).2 w) → wp (env_call f) Q w.
Proof. intros H. unfold wp, env_call. by destruct (f (w_env w)). Qed.
End World.
