(* ===== verification/TaskRefCount.v ===== *)
(** * [task_ref_count.cc]: shared engine tasks

    Tasks of different users may denote the same engine task (equal hashes);
    the engine is told to delete it only when its last task goes. *)

From S2P Require Import Prelude CppBase.
#[local] Open Scope prog_scope.

Section TaskRefCount.
  (** Any state that contains [task_ref_]: the callback of [Release] runs under
      the lock and may change the rest of the state. *)
  Context {S : Type} (refs : S → gmap string Z) (set_refs : gmap string Z → S → S).

Definition AddRef (task_hash : string) : ST S unit :=
  r ← gets refs;
  match r !! task_hash with
  | Some n => modify (set_refs (<[task_hash := n + 1]> r))
  | None => modify (set_refs (<[task_hash := 1]> r))
  end.

Definition Release (task_hash : string) (callback : bool → ST S bool) : ST S bool :=
  r ← gets refs;
  match r !! task_hash with
  | Some n =>
      modify (set_refs (<[task_hash := n - 1]> r)) ;;
      if n - 1 <=? 0 then
        ok ← callback true;
        (if ok then
           r' ← gets refs;
           modify (set_refs (delete task_hash r')) ;; ret ok
         else ret ok)
      else callback false
  | None => callback false
  end.

(** The laws of the two accessors. *)
Class RefsLens : Prop := {
  refs_set : ∀ r s, refs (set_refs r s) = r;
  set_refs_id : ∀ s, set_refs (refs s) s = s;
  set_refs_twice : ∀ r r' s, set_refs r (set_refs r' s) = set_refs r s
}.
  Context {lens : RefsLens}.

Lemma wp_AddRef h Q s :
  Q tt (set_refs (<[h := default 0 (refs s !! h) + 1]> (refs s)) s) → wp (AddRef h) Q s.
Proof.
  intros HQ. unfold AddRef. wp_steps. by destruct (refs s !! h).
Qed.

(** Callbacks that leave the table alone, as [ExceCancel] does. *)
Definition keeps_refs {A} (m : ST S A) : Prop :=
  ∀ s a s', m s = Some (a, s') → refs s' = refs s.

(** The table after [Release], given what the callback answered. *)
Definition release_refs (h : string) (ok : bool) (r : gmap string Z) : gmap string Z :=
  match r !! h with
  | Some n => if (n - 1 <=? 0) && ok then delete h r else <[h := n - 1]> r
  | None => r
  end.

(** Whether [Release] asks for a real deletion. *)
Definition last_ref (h : string) (r : gmap string Z) : bool :=
  match r !! h with Some n => n - 1 <=? 0 | None => false end.

Definition dec_refs (h : string) (r : gmap string Z) : gmap string Z :=
  match r !! h with Some n => <[h := n - 1]> r | None => r end.

Lemma wp_Release h cb (Q : bool → S → Prop) s :
  wp (cb (last_ref h (refs s)))
     (λ ok s', Q ok (if last_ref h (refs s) && ok
                     then set_refs (delete h (refs s')) s' else s'))
     (set_refs (dec_refs h (refs s)) s) →
  wp (Release h cb) Q s.
Proof.
  unfold Release, last_ref, dec_refs. intros H. wp_steps.
  destruct (refs s !! h) as [n|] eqn:E.
  - wp_steps.
    + wp_call H. destruct a; wp_steps; done.
    + done.
  - by rewrite set_refs_id in H.
Qed.

Lemma Release_run h cb s ok s' :
  (∀ b, keeps_refs (cb b)) →
  Release h cb s = Some (ok, s') → refs s' = release_refs h ok (refs s).
Proof.
  intros Hk. unfold Release, bind, gets, modify, ret, release_refs.
  destruct (refs s !! h) as [n|] eqn:E; [|apply Hk].
  destruct (n - 1 <=? 0) eqn:En; simpl.
  - destruct (cb true _) as [[ok1 s1]|] eqn:Ec; [|done]. apply Hk in Ec. rewrite refs_set in Ec.
    destruct ok1; intros [= <- <-].
    + rewrite refs_set, Ec. apply delete_insert_eq.
    + done.
  - intros Hc. apply Hk in Hc. by rewrite refs_set in Hc.
Qed.
End TaskRefCount.
Arguments RefsLens {S} refs set_refs.
