(* ===== verification/TaskObj.v ===== *)
(** * [task/]: task objects

    [TaskBase] and its four concrete classes.  A task object is a [Task]
    record whose [t_kind] is the dynamic class; a virtual call dispatches on
    it.  A member function runs in the state [TS]: the object and the world. *)

From S2P Require Import Prelude CppBase PathUnit DownloadTypes ErrorDesc TaskInfo InfoStore.
From S2P Require Import SystemConfig ServerWorld TaskRefCount.
#[local] Open Scope prog_scope.

Inductive TaskKind := KCurl | KMule | KTorrent | KMagnet.

#[global] Instance TaskKind_eq_dec : EqDecision TaskKind.
Proof. solve_decision. Defined.

Record Task := mkTask {
  t_kind : TaskKind;
  t_impl : option Handle;              (** [task_impl_] *)
  t_info : option TaskInfo;            (** [task_info_] *)
  t_context_field : ContextField;
  t_converted_source : string;
  t_parse_finished : bool;
  t_pre_status : TaskStatus;
  t_has_runner : bool;                 (** [task_runner_] is set *)
  t_parse_callback : bool              (** [parse_callback_] is set *)
}.

Definition set_t_info v t := mkTask (t_kind t) (t_impl t) v (t_context_field t)
  (t_converted_source t) (t_parse_finished t) (t_pre_status t) (t_has_runner t)
  (t_parse_callback t).
Definition set_t_context_field v t := mkTask (t_kind t) (t_impl t) (t_info t) v
  (t_converted_source t) (t_parse_finished t) (t_pre_status t) (t_has_runner t)
  (t_parse_callback t).
Definition set_t_converted_source v t := mkTask (t_kind t) (t_impl t) (t_info t)
  (t_context_field t) v (t_parse_finished t) (t_pre_status t) (t_has_runner t)
  (t_parse_callback t).
Definition set_t_parse_finished v t := mkTask (t_kind t) (t_impl t) (t_info t)
  (t_context_field t) (t_converted_source t) v (t_pre_status t) (t_has_runner t)
  (t_parse_callback t).
Definition set_t_pre_status v t := mkTask (t_kind t) (t_impl t) (t_info t)
  (t_context_field t) (t_converted_source t) (t_parse_finished t) v (t_has_runner t)
  (t_parse_callback t).
Definition set_t_parse_callback v t := mkTask (t_kind t) (t_impl t) (t_info t)
  (t_context_field t) (t_converted_source t) (t_parse_finished t) (t_pre_status t)
  (t_has_runner t) v.

(** [kDValue]: the double nearest to 0.0001. *)
Definition kDValue : double := SpecFloat.S754_finite false 7378697629483821 (-66).

Section Task.
  Context `{E : Env} `{bl : BaseLib}.

Record TS := mkTS { ts_t : Task; ts_w : World }.

Definition set_ts_refs (r : gmap string Z) (s : TS) : TS := mkTS (ts_t s) (set_w_refs r (ts_w s)).

#[global] Instance ts_refs_lens : RefsLens (λ s : TS, w_refs (ts_w s)) set_ts_refs.
Proof. split; [done| by intros [? []] | done]. Qed.

Definition task : ST TS Task := gets ts_t.
Definition upd_task (f : Task → Task) : ST TS unit := modify (λ s, mkTS (f (ts_t s)) (ts_w s)).
Definition world {A} (m : ST World A) : ST TS A := λ s,
  match m (ts_w s) with Some (a, w) => Some (a, mkTS (ts_t s) w) | None => None end.
Definition cfg : ST TS SystemCloudConfig := gets (λ s, w_cfg (ts_w s)).

(** Dereferencing [task_info_] and [task_impl_]. *)
Definition info : ST TS TaskInfo := t ← task; of_option (t_info t).
Definition upd_info (f : TaskInfo → TaskInfo) : ST TS unit :=
  i ← info; upd_task (set_t_info (Some (f i))).
Definition impl : ST TS Handle := t ← task; of_option (t_impl t).
Definition eng {A} (f : Handle → env → A * env) : ST TS A :=
  h ← impl; world (env_call (f h)).

(** ** [class TaskBase] *)

(** Publishing the current [task_info_] to the database thread. *)
Definition UpdateTaskInfo_db : ST TS unit :=
  t ← task; i ← info;
  world (post_db (UpdateTaskInfo (cf_user_id (t_context_field t)) (TaskInfo_copy i))).

Definition SetTaskStatus (status : TaskStatus) : ST TS unit :=
  t ← task;
  match t_info t with
  | None => ret tt
  | Some i =>
      upd_task (set_t_pre_status (ti_status i)) ;;
      upd_info (Info.SetTaskStatus status) ;;
      UpdateTaskInfo_db
  end.

Definition GetTaskStatus : ST TS TaskStatus :=
  t ← task; ret (match t_info t with Some i => ti_status i | None => TaskStatus.kFailed end).

Definition GetTaskCategory : ST TS TaskCategory :=
  t ← task;
  ret (match t_info t with Some i => ti_category i | None => TaskCategory.kDownloadingTask end).

Definition SetContextField (c : ContextField) : ST TS unit := upd_task (set_t_context_field c).

Definition SetCreateTimeStamp : ST TS unit :=
  now ← world GetCurrnetTime; upd_info (Info.upd_time (set_create_time now)).

Definition IsStarted : ST TS bool := i ← info; ret (ti_is_started i).
Definition GetDownloadType : ST TS DownloadType := i ← info; ret (p_type (ti_param i)).

Definition progress_finished (p : double) : bool := d_ltb (d_sub d_hundred p) kDValue.
Definition IsDownloadFinished : ST TS bool :=
  i ← info; ret (progress_finished (pi_total_progress (ti_progress i))).

Definition IsParseFinish : ST TS bool :=
  t ← task;
  if t_parse_finished t then ret true
  else i ← info; ret (negb (str_empty (bi_file_list (ti_base i)))).

Definition IsResumeFromDb (param : TaskParam) : bool := p_is_from_db_resume param.

Definition GetTaskHash : ST TS string :=
  buf ← eng i_GetTaskHash;
  t ← task;
  ret (match buf, t_info t with Some h, Some _ => h | _, _ => EmptyString end).

Definition DeleteLocalFile : ST TS bool :=
  i ← info;
  let name := fa_file_name (bi_task_attribute (ti_base i)) in
  if str_empty name then ret true
  else
    let path := FilePath_Append (BaseFilePathFromU8 (p_save_path (ti_param i)))
                  (BaseFilePathFromU8 name) in
    found ← world (env_read (PathExists path));
    if found then world (env_call (DeletePathRecursively path)) else ret true.

Definition status_value (s : TaskStatus) : Value := VInt (TaskStatus.TaskStatus_value s).
Definition category_value (c : TaskCategory) : Value := VInt (TaskCategory.TaskCategory_value c).
Definition type_value (t : DownloadType) : Value := VInt (DownloadType.DownloadType_value t).

Definition notify (operate_id : string) (msg : Dict) : ST TS unit :=
  t ← task; world (Notify operate_id msg (t_context_field t)).

Definition PublishTaskBaseInfo : ST TS unit :=
  t ← task; i ← info; status ← GetTaskStatus; category ← GetTaskCategory;
  let param := ti_param i in
  let attr := bi_task_attribute (ti_base i) in
  notify "task_base_info"
    [("task_id", VString (p_id param)); ("save_path", VString (p_save_path param));
     ("source", VString (p_url param)); ("converted_source", VString (t_converted_source t));
     ("file_list_info", VString (bi_file_list (ti_base i)));
     ("name", VString (fa_file_name attr));
     ("local_land_name", VString (fa_local_land_file_name attr));
     ("total_size", VString (to_string_Z (fa_file_size attr)));
     ("task_status", status_value status); ("task_category", category_value category);
     ("create_timestamp", VString (to_string_Z (ts_create_time (ti_time i))));
     ("file_type", VString (fa_file_type attr)); ("download_type", type_value (p_type param));
     ("task_is_valid", VBool (ti_is_valid i))].

(** [file_size * progress / 100.0] *)
Definition completed_size (i : TaskInfo) : double :=
  d_div (d_mul (d_of_Z (fa_file_size (bi_task_attribute (ti_base i))))
           (pi_total_progress (ti_progress i))) d_hundred.

Definition time_remaining (i : TaskInfo) : double :=
  let speed := pi_download_speed (ti_progress i) in
  if d_eqb speed d_zero then d_minus_one
  else d_div (d_sub (d_of_Z (fa_file_size (bi_task_attribute (ti_base i)))) (completed_size i))
         speed.

Definition BuildDownloadingData : ST TS Dict :=
  status ← GetTaskStatus;
  when (bool_decide (status = TaskStatus.kPaused))
    (upd_info (Info.upd_progress (λ p,
       Progress.SetUploadSpeed d_zero (Progress.SetDownloadSpeed d_zero p)))) ;;
  t ← task; i ← info; category ← GetTaskCategory;
  let param := ti_param i in
  let attr := bi_task_attribute (ti_base i) in
  let prog := ti_progress i in
  UpdateTaskInfo_db ;;
  ret
    [("task_id", VString (p_id param)); ("converted_source", VString (t_converted_source t));
     ("file_list_info", VString (bi_file_list (ti_base i)));
     ("save_path", VString (p_save_path param)); ("name", VString (fa_file_name attr));
     ("local_land_name", VString (fa_local_land_file_name attr));
     ("total_size", VString (to_string_Z (fa_file_size attr)));
     ("total_progress", ValueDouble (pi_total_progress prog));
     ("download_speed", ValueDouble (pi_download_speed prog));
     ("upload_speed", ValueDouble (pi_upload_speed prog));
     ("completed_size", VDoubleString (completed_size i));
     ("time_remaining", ValueDouble (time_remaining i));
     ("task_status", status_value status); ("task_category", category_value category);
     ("download_type", type_value (p_type param));
     ("err_code", VInt (DownloadErrNoToOutErrNo (pi_err_code prog)));
     ("msg", VString (cr_msg (ErrNoToCallResult (pi_err_code prog))))].

Definition PublishInvalidTaskInfo : ST TS unit :=
  i ← info; status ← GetTaskStatus; category ← GetTaskCategory;
  notify "invalid_task_info"
    [("task_id", VString (p_id (ti_param i))); ("task_status", status_value status);
     ("task_category", category_value category); ("task_is_valid", VBool false);
     ("err_code", VInt (DownloadErrNoToOutErrNo (pi_err_code (ti_progress i))));
     ("msg", VString (cr_msg (ErrNoToCallResult (pi_err_code (ti_progress i)))))].

Definition PublishFailedTaskInfo : ST TS unit :=
  i ← info; status ← GetTaskStatus; category ← GetTaskCategory;
  notify "failed_task_info"
    [("task_id", VString (p_id (ti_param i)));
     ("name", VString (fa_file_name (bi_task_attribute (ti_base i))));
     ("task_status", status_value status); ("task_category", category_value category);
     ("create_timestamp", VString (to_string_Z (ts_create_time (ti_time i))));
     ("err_code", VInt (DownloadErrNoToOutErrNo (pi_err_code (ti_progress i))));
     ("msg", VString (cr_msg (ErrNoToCallResult (pi_err_code (ti_progress i)))))].

(** [total_size] is taken from the attribute copied before the size on disk
    replaces a zero size. *)
Definition PublishFinishedTaskInfo : ST TS unit :=
  i ← info;
  let param := ti_param i in
  let attr := bi_task_attribute (ti_base i) in
  upd_info (Info.upd_base (BaseInfo.SetTaskLandFileName (fa_file_name attr))) ;;
  status ← GetTaskStatus; category ← GetTaskCategory;
  (if fa_file_size attr =? 0 then
     let path := BaseFilePathFromU8 (p_save_path param +:+ "/" +:+ fa_file_name attr) in
     size ← world (env_read (GetFileSize path));
     upd_info (Info.upd_base (BaseInfo.SetTaskFileSize size))
   else ret tt) ;;
  now ← world GetCurrnetTime;
  upd_info (Info.upd_time (set_finish_time now)) ;;
  notify "finished_task_info"
    [("task_id", VString (p_id param)); ("save_path", VString (p_save_path param));
     ("name", VString (fa_file_name attr)); ("local_land_name", VString (fa_file_name attr));
     ("task_status", status_value status); ("task_category", category_value category);
     ("task_is_valid", VBool (ti_is_valid i));
     ("total_size", VString (to_string_Z (fa_file_size attr)));
     ("finish_timestamp", VString (to_string_Z now)); ("download_type", type_value (p_type param));
     ("err_code", VInt 0); ("msg", VString EmptyString)].

(** [TaskBase::BuildMessageData] *)
Definition BuildMessageData (operation : TaskOperation) : ST TS Dict :=
  i ← info; status ← GetTaskStatus; category ← GetTaskCategory;
  let common :=
    [("task_id", VString (p_id (ti_param i))); ("task_status", status_value status);
     ("task_category", category_value category); ("task_is_valid", VBool (ti_is_valid i));
     ("create_timestamp", VString (to_string_Z (ts_create_time (ti_time i))))] in
  ret (match operation with
       | TaskOperation.kDelete | TaskOperation.kDeleteCategory =>
           common ++ [("delete_timestamp", VString (to_string_Z (ts_delete_time (ti_time i))))]
       | TaskOperation.kRetry | TaskOperation.kRetryAll =>
           common ++ [("total_progress", ValueDouble (pi_total_progress (ti_progress i)));
                      ("download_speed", ValueDouble (pi_download_speed (ti_progress i)));
                      ("completed_size", VDoubleString (completed_size i))]
       | _ => common
       end).

(** [TaskBase::UpdateAndPublishFailedInfo] *)
Definition UpdateAndPublishFailedInfo : ST TS unit :=
  SetTaskStatus TaskStatus.kFailed ;; PublishFailedTaskInfo ;; UpdateTaskInfo_db.

(** [TaskBase::CheckTaskIsFailed]: false when the task is, or just became,
    failed. *)
Definition CheckTaskIsFailed : ST TS bool :=
  i ← info; status ← GetTaskStatus;
  if negb (bool_decide (status = TaskStatus.kFailed)) &&
     negb (bool_decide (status = TaskStatus.kDeleted)) &&
     negb (bool_decide (status = TaskStatus.kFinished)) &&
     negb (pi_err_code (ti_progress i) =? DownloadErrorCode.kNormal)
  then UpdateAndPublishFailedInfo ;; ret false
  else if bool_decide (status = TaskStatus.kFailed) then ret false
  else ret true.

(** [TaskBase::Valid] *)
Definition Valid : ST TS bool :=
  is_finished ← IsDownloadFinished; eng (λ h, i_Valid h is_finished).

(** [TaskBase::Pause] *)
Definition Pause : ST TS bool :=
  ok ← eng i_Pause;
  if ok then
    SetTaskStatus TaskStatus.kPaused ;;
    upd_info (Info.upd_progress (Progress.SetDownloadSpeed d_zero)) ;;
    ret true
  else ret false.

(** The common tail of [TaskBase::Resume] and [BtTaskBase::Resume]. *)
Definition resume_engine (status : TaskStatus) : ST TS bool :=
  i ← info;
  let is_failed := bool_decide (status = TaskStatus.kFailed) || negb (ti_is_valid i) in
  ok ← eng (λ h, i_Resume h is_failed);
  if ok then
    SetTaskStatus TaskStatus.kDownloading ;; upd_info (Info.SetIsValid true) ;; ret true
  else ret false.

(** [TaskBase::Resume] *)
Definition TaskBase_Resume : ST TS bool := status ← GetTaskStatus; resume_engine status.

(** [BtTaskBase::Resume] *)
Definition BtTaskBase_Resume : ST TS bool :=
  status ← GetTaskStatus; c ← cfg;
  if bool_decide (status = TaskStatus.kWaitting) && negb (IsBtAutoDownload c)
  then SetTaskStatus TaskStatus.kPaused ;; ret true
  else resume_engine status.

(** [LinkTask::SetLocalLandFileName] *)
Definition SetLocalLandFileName : ST TS unit :=
  t ← task;
  match t_info t with
  | None => ret tt
  | Some i =>
      let task_name := fa_file_name (bi_task_attribute (ti_base i)) in
      let land := if bool_decide (ti_status i = TaskStatus.kFinished) then task_name
                  else c_str task_name +:+ "." +:+ c_str (p_id (ti_param i)) +:+ ".nas.tmp" in
      upd_info (Info.upd_base (BaseInfo.SetTaskLandFileName land))
  end.

(** [CurlTask::Resume] *)
Definition CurlTask_Resume : ST TS bool :=
  ok ← TaskBase_Resume;
  t ← task;
  (if t_has_runner t then h ← impl; world (post (PostReStart h)) else ret tt) ;;
  SetLocalLandFileName ;; ret ok.

(** [MuleTask::Resume] *)
Definition MuleTask_Resume : ST TS bool :=
  ok ← TaskBase_Resume; SetLocalLandFileName ;; ret ok.

(** The virtual [Resume]. *)
Definition Resume : ST TS bool :=
  t ← task;
  match t_kind t with
  | KCurl => CurlTask_Resume
  | KMule => MuleTask_Resume
  | KTorrent | KMagnet => BtTaskBase_Resume
  end.

(** [TaskBase::Retry] *)
Definition TaskBase_Retry : ST TS bool :=
  t ← task;
  match t_impl t with
  | None => ret false
  | Some _ =>
      SetCreateTimeStamp ;;
      upd_info (Info.upd_progress Progress.Reset) ;;
      upd_info (Info.SetIsRetry true) ;;
      ret true
  end.

(** The virtual [Retry]; [CurlTask::Retry] resets the engine task first. *)
Definition Retry : ST TS bool :=
  t ← task;
  match t_kind t, t_impl t with
  | KCurl, Some h => world (env_call (c_Reset h)) ;; TaskBase_Retry
  | _, _ => TaskBase_Retry
  end.

(** [BtTorrentTask::DeleteTorrentFile] *)
Definition DeleteTorrentFile : ST TS unit :=
  i ← info;
  ext ← of_option (p_torrent (ti_param i));
  world (DeleteFile (p_url (ti_param i))) ;;
  when (negb (tp_is_private_cloud_source ext))
    (world (DeleteFile (tp_front_trans_url ext)) ;; ret tt).

(** [TaskBase::ExceCancel] *)
Definition TaskBase_ExceCancel (is_delete_local_file real_delete : bool) : ST TS bool :=
  i ← info;
  if negb (ti_is_started i) then SetTaskStatus TaskStatus.kCompletedDeleted ;; ret true
  else if real_delete then
    ok ← eng (λ h, i_Cancel h is_delete_local_file);
    if ok then SetTaskStatus TaskStatus.kCompletedDeleted ;; ret true else ret false
  else ret true.

(** [BtTorrentTask::ExceCancel] *)
Definition BtTorrentTask_ExceCancel (is_delete_local_file real_delete : bool) : ST TS bool :=
  if real_delete then
    ok ← eng (λ h, i_Cancel h is_delete_local_file);
    if ok then SetTaskStatus TaskStatus.kCompletedDeleted ;; DeleteTorrentFile ;; ret true
    else ret false
  else ret true.

(** The virtual [ExceCancel]. *)
Definition ExceCancel (is_delete_local_file real_delete : bool) : ST TS bool :=
  t ← task;
  match t_kind t with
  | KTorrent => BtTorrentTask_ExceCancel is_delete_local_file real_delete
  | _ => TaskBase_ExceCancel is_delete_local_file real_delete
  end.

(** [TaskBase::Cancel] *)
Definition Cancel (is_delete_local_file : bool) : ST TS bool :=
  hash ← GetTaskHash;
  Release (λ s, w_refs (ts_w s)) set_ts_refs hash (ExceCancel is_delete_local_file).

(** [TaskBase::DeleteToRecycleBin] *)
Definition DeleteToRecycleBin : ST TS bool :=
  t ← task;
  match t_impl t with
  | None => ret false
  | Some _ =>
      status ← GetTaskStatus;
      ok ← (if bool_decide (status = TaskStatus.kFailed) then ret true else eng i_Pause);
      (if ok then
         SetTaskStatus TaskStatus.kDeleted ;;
         now ← world GetCurrnetTime;
         upd_info (Info.upd_time (set_delete_time now)) ;;
         UpdateTaskInfo_db
       else ret tt) ;;
      ret true
  end.

(** [TaskBase::Restore]: resume from the status held before the deletion. *)
Definition Restore : ST TS bool :=
  t ← task;
  match t_impl t with
  | None => ret false
  | Some _ =>
      (match t_pre_status t with
       | TaskStatus.kFinished => SetTaskStatus TaskStatus.kFinished
       | TaskStatus.kParsing => SetTaskStatus TaskStatus.kParsing ;; SetCreateTimeStamp
       | TaskStatus.kPaused => SetTaskStatus TaskStatus.kPaused ;; SetCreateTimeStamp
       | TaskStatus.kSeeding => Resume ;; SetTaskStatus TaskStatus.kSeeding
       | TaskStatus.kFailed =>
           SetTaskStatus TaskStatus.kFailed ;;
           upd_info (Info.SetTaskCategory TaskCategory.kDownloadingTask) ;;
           Resume ;; SetCreateTimeStamp
       | TaskStatus.kWaitting => SetTaskStatus TaskStatus.kWaitting ;; SetCreateTimeStamp
       | TaskStatus.kDownloading => SetTaskStatus TaskStatus.kWaitting ;; SetCreateTimeStamp
       | _ =>
           finished ← IsDownloadFinished;
           if finished then SetTaskStatus TaskStatus.kFinished
           else SetTaskStatus TaskStatus.kPaused
       end) ;;
      ret true
  end.

(** ** Link tasks: [LinkTask], [CurlTask], [MuleTask] *)

(** [memcpy] into a zeroed array only when the string fits. *)
Definition copy_if_fits (cap : nat) (s : string) : string :=
  if (String.length s <=? cap)%nat then s else EmptyString.

(** [LinkTask::AssembleDownloadParam] *)
Definition AssembleDownloadParam (param : TaskParam) : DownloadParam :=
  mkDownloadParam (copy_if_fits kIdLength (p_id param)) (copy_if_fits kUrlLength (p_url param))
    (copy_if_fits kMaxPath (p_save_path param)) (copy_if_fits kMaxPath (p_file_name param)).

(** [utils::IsValid]: the verdict and the possibly rewritten URL. *)
Definition utils_IsValid (url : string) : bool * string :=
  match url with
  | EmptyString => (false, url)
  | String c _ =>
      if bool_decide (c = "000"%char) then (false, url)
      else if negb (gurl_is_valid url) then (false, url)
      else
        let path := gurl_path url in
        let decoded_path := UnescapeURLComponent path in
        if bool_decide (path = decoded_path) then (true, url)
        else
          let url' :=
            match String.index 0 path url with
            | Some path_start =>
                substr 0 path_start url +:+ decoded_path +:+
                substr_from (path_start + String.length path) url
            | None => url
            end in
          (gurl_is_valid url', url')
  end.

(** [LinkTask::CheckCondition]: the URL of the shared parameter is rewritten. *)
Definition LinkTask_CheckCondition : ST TS Z :=
  i ← info;
  let '(ok, url) := utils_IsValid (p_url (ti_param i)) in
  upd_info (Info.upd_param (set_p_url url)) ;;
  ret (if ok then DownloadErrorCode.kNormal else DownloadErrorCode.kCurlUrlInvalid).

(** [LinkTask::Start] *)
Definition LinkTask_Start : ST TS Z :=
  t ← task;
  if match t_info t with Some i => ti_is_started i | None => false end
  then ret DownloadErrorCode.kNormal
  else
    SetTaskStatus TaskStatus.kDownloading ;;
    err ← eng i_Start;
    (if err =? DownloadErrorCode.kNormal then
       upd_info (Info.SetIsStarted true) ;; upd_info (Info.SetIsValid true)
     else ret tt) ;;
    ret err.

(** [CurlTask::SyncParse], [MuleTask::SyncParse] *)
Definition LinkTask_SyncParse : ST TS (Z * FileBaseInfo) :=
  t ← task; i ← info;
  match t_kind t with
  | KCurl => eng (λ h, c_ParseLink h (c_str (p_url (ti_param i))))
  | _ =>
      '(ok, fb) ← eng (λ h, m_ParseLink h (c_str (p_url (ti_param i))));
      ret (if ok : bool then 0 else 1, fb)
  end.

Definition file_type_string (name : string) : string :=
  to_string_Z (FileType.FileType_value (GetFileType name true)).

(** [LinkTask::Parse] *)
Definition LinkTask_Parse : ST TS bool :=
  i ← info;
  ok ← (if p_file_size (ti_param i) =? 0 then
          '(err, fb) ← LinkTask_SyncParse;
          upd_info (Info.upd_base (λ b,
            BaseInfo.SetTaskFileType (file_type_string (fb_file_name fb))
              (BaseInfo.SetTaskFileSize (to_int64 (fb_file_size fb))
                 (BaseInfo.SetTaskName (fb_file_name fb) b)))) ;;
          (if err =? 0 then ret true
           else
             upd_info (Info.upd_progress (Progress.SetErrorCode err)) ;;
             SetTaskStatus TaskStatus.kFailed ;;
             PublishFailedTaskInfo ;; ret false)
        else
          let name := p_file_name (ti_param i) in
          upd_info (Info.upd_base (λ b,
            BaseInfo.SetTaskFileType (file_type_string name)
              (BaseInfo.SetTaskFileSize (p_file_size (ti_param i))
                 (BaseInfo.SetTaskName name b)))) ;;
          ret true);
  (if ok then
     i' ← info;
     if negb (ti_is_retry i') then PublishTaskBaseInfo else ret tt
   else ret tt) ;;
  SetLocalLandFileName ;;
  ret ok.

(** What both [UpdateProgressInfo] overrides store of the engine's report. *)
Definition store_progress (d : DownloadProgressInfo) (p : TaskProgressInfo) : TaskProgressInfo :=
  Progress.SetErrorCode (dpi_err_code d) (Progress.SetUploadSpeed (dpi_upload_speed d)
    (Progress.SetDownloadSpeed (dpi_download_speed d)
       (Progress.SetTotalProgress (dpi_total_progress d) p))).

Definition engine_progress : ST TS DownloadProgressInfo :=
  i ← info;
  eng (λ h, i_GetProgressInfo h
              (DownloadProgressInfo_init (pi_total_progress (ti_progress i)))).

(** [LinkTask::UpdateProgressInfo] *)
Definition LinkTask_UpdateProgressInfo : ST TS Dict :=
  d ← engine_progress;
  (if str_empty (dpi_file_name d) then ret tt
   else upd_info (Info.upd_base (BaseInfo.SetTaskName (dpi_file_name d)))) ;;
  upd_info (Info.upd_progress (λ p, store_progress d (Progress.SetTaskName (dpi_file_name d) p))) ;;
  finished ← IsDownloadFinished;
  (if finished then SetTaskStatus TaskStatus.kFinished ;; PublishFinishedTaskInfo else ret tt) ;;
  UpdateTaskInfo_db ;;
  BuildDownloadingData.

(** [CurlTask::ResumeFromDb] *)
Definition CurlTask_ResumeFromDb : ST TS bool :=
  t ← task;
  match t_impl t with
  | None => ret false
  | Some h =>
      ok ← world (env_call (c_ResumeBreakPoint h));
      (if ok then upd_info (Info.SetIsStarted true)
       else upd_info (Info.upd_progress (Progress.SetErrorCode DownloadErrorCode.kFileMissing))) ;;
      ret ok
  end.

(** [LinkTask::ResumeDataFromDb] *)
Definition LinkTask_ResumeDataFromDb (task_info : TaskInfo) : ST TS unit :=
  upd_task (set_t_info (Some task_info)) ;;
  t ← task;
  (if bool_decide (ti_status task_info = TaskStatus.kDownloading) &&
      bool_decide (t_kind t = KCurl)
   then CurlTask_ResumeFromDb ;; ret tt else ret tt) ;;
  SetLocalLandFileName.

(** ** BitTorrent tasks: [BtTaskBase], [BtTorrentTask], [BtMagnetTask] *)

(** [memcpy(dst, s.c_str(), s.size())] into an array of [cap] bytes. *)
Definition memcpy_array (cap : nat) (s : string) : option string :=
  if (String.length s <=? cap)%nat then Some s else None.

(** [BtTaskBase::SetDownloadParam]: the parameter is used as a
    [TorrentTaskParam] and every string is copied unconditionally. *)
Definition BtTaskBase_SetDownloadParam : ST TS unit :=
  i ← info;
  let param := ti_param i in
  ext ← of_option (p_torrent param);
  id ← of_option (memcpy_array kIdLength (p_id param));
  url ← of_option (memcpy_array kUrlLength (p_url param));
  save_path ← of_option (memcpy_array kMaxPath (p_save_path param));
  file_name ← of_option (memcpy_array kMaxPath (p_file_name param));
  let items := tp_torrent_item_select_list ext in
  eng (λ h, b_SetParam h (mkTorrentDownloadParam (mkDownloadParam id url save_path file_name)
                            items (Z.of_nat (length items)) (tp_is_download_now ext))) ;;
  hash ← GetTaskHash;
  upd_info (Info.upd_param (set_p_hash hash)).

(** [BtTorrentTask::CreateMagnetUri], [BtMagnetTask::CreateMagnetUri] *)
Definition CreateMagnetUri : ST TS unit :=
  t ← task;
  match t_kind t with
  | KTorrent =>
      match t_impl t with
      | None => ret tt
      | Some h =>
          if negb (str_empty (t_converted_source t)) then ret tt
          else
            uri ← world (env_call (t_CreateMagnetUri h));
            match uri with
            | None => ret tt
            | Some u =>
                upd_task (set_t_converted_source u) ;;
                upd_info (Info.upd_param (set_p_converted_url u))
            end
      end
  | _ => upd_info (Info.upd_param (λ p, set_p_converted_url (p_url p) p))
  end.

(** [BtTaskBase::SetFileList] *)
Definition SetFileList (torrent_list : option string) : ST TS unit :=
  match torrent_list with
  | Some l => upd_info (Info.upd_base (BaseInfo.SetFileList l))
  | None => ret tt
  end.

Definition bt_base_info (fb : FileBaseInfo) (b : TaskBaseInfo) : TaskBaseInfo :=
  BaseInfo.SetTaskLandFileName (fb_file_name fb)
    (BaseInfo.SetTaskFileType (to_string_Z (FileType.FileType_value FileType.kBt))
       (BaseInfo.SetTaskFileSize (to_int64 (fb_file_size fb))
          (BaseInfo.SetTaskName (fb_file_name fb) b))).

(** [BtTaskBase::ParseTorrent] *)
Definition ParseTorrent : ST TS bool :=
  fb ← eng b_GetTorrentFileBaseInfo;
  upd_info (Info.upd_base (bt_base_info fb)) ;;
  CreateMagnetUri ;;
  l ← eng b_GetTorrentList;
  match l with
  | None => ret false
  | Some _ => SetFileList l ;; ret true
  end.

(** [BtTaskBase::Start]: the engine's error is dropped. *)
Definition BtTaskBase_Start : ST TS Z :=
  t ← task;
  if match t_info t with Some i => ti_is_started i | None => false end
  then ret DownloadErrorCode.kNormal
  else
    BtTaskBase_SetDownloadParam ;;
    eng b_SetTorrentAddedCallback ;;
    err ← eng i_Start;
    (if err =? DownloadErrorCode.kNormal then
       upd_info (Info.SetIsStarted true) ;; upd_info (Info.SetIsValid true)
     else ret tt) ;;
    ret DownloadErrorCode.kNormal.

(** [BtTaskBase::UpdateProgressInfo] *)
Definition BtTaskBase_UpdateProgressInfo : ST TS Dict :=
  d ← engine_progress;
  upd_info (Info.upd_progress (store_progress d)) ;;
  i ← info;
  (if str_empty (bi_file_list (ti_base i))
   then world (post (PostGetTorrentList (p_id (ti_param i)))) else ret tt) ;;
  finished ← IsDownloadFinished; status ← GetTaskStatus;
  (if finished && negb (bool_decide (status = TaskStatus.kSeeding))
   then SetTaskStatus TaskStatus.kFinished ;; PublishFinishedTaskInfo else ret tt) ;;
  checking ← eng b_IsChecking;
  (if checking then SetTaskStatus TaskStatus.kChecking
   else
     downloading ← eng b_IsDownloading;
     if downloading then SetTaskStatus TaskStatus.kDownloading else ret tt) ;;
  status' ← GetTaskStatus;
  (if dpi_is_seed d || bool_decide (status' = TaskStatus.kFinished)
   then SetTaskStatus TaskStatus.kSeeding else ret tt) ;;
  BuildDownloadingData.

(** [BtTaskBase::UpdateSeedingInfo] *)
Definition UpdateSeedingInfo : ST TS Dict :=
  text ← eng b_GetSeedingInfo;
  ret (match text with
       | None => []
       | Some s => default [] (JSONReadDict s)
       end).

(** [BtTaskBase::CheckSeedingLimits] *)
Definition CheckSeedingLimits : ST TS bool :=
  c ← cfg;
  ratio_reached ←
    (if IsShareRatioLimit c then
       real ← eng b_GetTorrentShareRatio; ret (GetShareRatioLimitValue c <=? real)
     else ret false);
  time_reached ←
    (if IsSeedingTimeLimit c then
       seeding_time ← eng b_GetSeedingTime;
       limit ← of_option (int_mul (GetSeedingTimeLimitValue c) 60);
       ret (limit <=? seeding_time)
     else ret false);
  let reach_limit := ratio_reached || time_reached in
  (if reach_limit then
     ok ← eng i_Pause;
     if ok then SetTaskStatus TaskStatus.kFinished ;; PublishFinishedTaskInfo else ret tt
   else ret tt) ;;
  ret reach_limit.

(** [BtTaskBase::ResumeDataFromDb] *)
Definition BtTaskBase_ResumeDataFromDb (task_info : TaskInfo) : ST TS unit :=
  upd_task (set_t_info (Some task_info)) ;;
  BtTaskBase_SetDownloadParam ;;
  ParseTorrent ;; ret tt.

(** [BtTaskBase::UpdateAndPublishTorrentInfo] *)
Definition UpdateAndPublishTorrentInfo : ST TS unit := ParseTorrent ;; PublishTaskBaseInfo.

(** [BtMagnetTask::Parse].  The second component is the call of the
    completion callback, which the owner runs: it receives the user id and the
    task id. *)
Definition BtMagnetTask_Parse : ST TS (bool * option (string * string)) :=
  t ← task;
  match t_impl t with
  | None => ret (false, None)
  | Some h =>
      parsed ← ParseTorrent;
      if negb parsed then
        SetTaskStatus TaskStatus.kParsing ;;
        world (env_call (g_SetParseCallback h)) ;;
        ret (false, None)
      else
        t' ← task; i ← info;
        if t_parse_callback t' then
          upd_task (set_t_parse_callback false) ;;
          ret (true, Some (cf_user_id (t_context_field t'), p_id (ti_param i)))
        else crash
  end.

(** [BtMagnetTask::UpdateFileBaseInfo] *)
Definition UpdateFileBaseInfo (result : string) : ST TS unit :=
  upd_info (Info.upd_base (BaseInfo.SetFileList result)) ;;
  fb ← eng b_GetTorrentFileBaseInfo;
  upd_info (Info.upd_base (bt_base_info fb)).

(** [BtTaskBase::SyncParse] *)
Definition BtTaskBase_SyncParse : ST TS Z :=
  i ← info;
  ok ← eng (λ h, b_IsValid h (c_str (p_url (ti_param i))));
  if ok then ParseTorrent ;; ret DownloadErrorCode.kNormal
  else ret (if bool_decide (p_type (ti_param i) = DownloadType.kTorrent)
            then DownloadErrorCode.kTorrentFileInvalid
            else DownloadErrorCode.kMagnetLinkInvalid).

(** [BtTaskBase::GetUploadRate] *)
Definition GetUploadRate : ST TS Z := eng b_GetUploadRate.

(** ** Virtual dispatch *)
Definition is_link (k : TaskKind) : bool :=
  match k with KCurl | KMule => true | KTorrent | KMagnet => false end.

(** [MuleTask::CheckCondition] and [BtTaskBase::CheckCondition] *)
Definition engine_CheckCondition (f : Handle → string → env → Z * env) : ST TS Z :=
  t ← task;
  match t_impl t with
  | None => ret DownloadErrorCode.kCreateTaskFailed
  | Some h => i ← info; world (env_call (f h (c_str (p_url (ti_param i)))))
  end.

Definition CheckCondition : ST TS Z :=
  t ← task;
  match t_kind t with
  | KCurl => LinkTask_CheckCondition
  | KMule => engine_CheckCondition m_CheckCondition
  | KTorrent | KMagnet => engine_CheckCondition b_CheckCondition
  end.

Definition Start : ST TS Z :=
  t ← task; if is_link (t_kind t) then LinkTask_Start else BtTaskBase_Start.

(** [BtTorrentTask::Parse] *)
Definition BtTorrentTask_Parse : ST TS bool :=
  t ← task; ret (match t_impl t with Some _ => true | None => false end).

(** The virtual [Parse], with the completion callback of a magnet. *)
Definition Parse : ST TS (bool * option (string * string)) :=
  t ← task;
  match t_kind t with
  | KCurl | KMule => ok ← LinkTask_Parse; ret (ok, None)
  | KTorrent => ok ← BtTorrentTask_Parse; ret (ok, None)
  | KMagnet => BtMagnetTask_Parse
  end.

Definition UpdateProgressInfo : ST TS Dict :=
  t ← task;
  if is_link (t_kind t) then LinkTask_UpdateProgressInfo else BtTaskBase_UpdateProgressInfo.

Definition ResumeDataFromDb (task_info : TaskInfo) : ST TS unit :=
  t ← task;
  if is_link (t_kind t) then LinkTask_ResumeDataFromDb task_info
  else BtTaskBase_ResumeDataFromDb task_info.

(** ** Construction and destruction

    A constructor receives a [TaskParamPtr] that the caller keeps: it returns
    the parameter as the caller then sees it, and [task_info_], when present,
    holds the same object. *)

(** [TaskBase::TaskBase] *)
Definition TaskBase_new (kind : TaskKind) (param : TaskParam) (context_field : ContextField)
    : ST World Task :=
  let make i := mkTask kind None i context_field EmptyString false TaskStatus.kWaitting
                  (negb (p_is_parse_task param)) false in
  if IsResumeFromDb param then ret (make None)
  else
    now ← GetCurrnetTime;
    ret (make (Some (Info.upd_time (set_create_time now)
                       (Info.SetTaskStatus TaskStatus.kWaitting (TaskInfo_new param))))).

Definition set_t_impl v t := mkTask (t_kind t) v (t_info t) (t_context_field t)
  (t_converted_source t) (t_parse_finished t) (t_pre_status t) (t_has_runner t)
  (t_parse_callback t).

(** A write through the shared parameter. *)
Definition share_param (param : TaskParam) : ST TS unit :=
  t ← task;
  match t_info t with
  | Some _ => upd_info (Info.SetTaskParam param)
  | None => ret tt
  end.

(** The bodies of [CurlTask::CurlTask] and [MuleTask::MuleTask]. *)
Definition LinkTask_ctor (param : TaskParam) : ST TS TaskParam :=
  t ← task; c ← cfg;
  h ← world (env_call (if bool_decide (t_kind t = KCurl) then CreateCurlDownloadTask
                       else CreateMuleDownloadTask));
  upd_task (set_t_impl h) ;;
  (if bool_decide (t_kind t = KCurl) then
     eng (λ h, c_SetParam h (AssembleDownloadParam param)) ;;
     eng (λ h, c_SetMaxDownloadSpeed h (GetCurlMaxDownloadSpeed c))
   else eng (λ h, m_SetParam h (AssembleDownloadParam param))) ;;
  hash ← GetTaskHash;
  share_param (set_p_hash hash param) ;;
  ret (set_p_hash hash param).

(** [BtTaskBase::ModifyTorrentPath] *)
Definition ModifyTorrentPath (param : TaskParam) : ST TS TaskParam :=
  if bool_decide (p_type param = DownloadType.kTorrent) && negb (p_is_parse_task param) then
    let src_path := BaseFilePathFromU8 (p_url param) in
    dir ← world (env_call GetTorrentFileSavePath);
    guid ← world (env_call GenerateRandomV4);
    let dest_path := FilePath_Append dir (BaseFilePathFromU8 (c_str guid +:+ ".torrent")) in
    ok ← world (env_call (base_CopyFile src_path dest_path));
    ret (if ok : bool then set_p_url (BaseFilePathToU8 dest_path) param else param)
  else ret param.

(** [BtTaskBase::GetBtDownloadTaskImpl] *)
Definition GetBtDownloadTaskImpl (type : DownloadType) : ST World (option Handle) :=
  match type with
  | DownloadType.kTorrent => env_call CreateTorrentFileDownloadTask
  | DownloadType.kMagnet => env_call CreateMagnetDownloadTask
  | _ => ret None
  end.

(** [BtTaskBase::BtTaskBase] *)
Definition BtTaskBase_ctor (param : TaskParam) : ST TS TaskParam :=
  h ← world (GetBtDownloadTaskImpl (p_type param));
  upd_task (set_t_impl h) ;;
  match h with
  | Some _ =>
      if negb (IsResumeFromDb param) then
        param' ← ModifyTorrentPath param;
        upd_info (Info.SetTaskParam param') ;;
        BtTaskBase_SetDownloadParam ;;
        i ← info; ret (ti_param i)
      else ret param
  | None => ret param
  end.

(** Run a member function on an object held by the caller. *)
Definition run_on {A} (t : Task) (m : ST TS A) : ST World (A * Task) := λ w,
  match m (mkTS t w) with
  | Some (a, s) => Some ((a, ts_t s), ts_w s)
  | None => None
  end.

(** [std::make_shared<...Task>(param, context_field)] *)
Definition make_task (kind : TaskKind) (param : TaskParam) (context_field : ContextField)
    : ST World (Task * TaskParam) :=
  t ← TaskBase_new kind param context_field;
  '(param', t') ← run_on t (if is_link kind then LinkTask_ctor param else BtTaskBase_ctor param);
  ret (t', param').

(** [~CurlTask], [~MuleTask], [~BtTaskBase] *)
Definition destroy_task (t : Task) : ST World unit :=
  match t_impl t with
  | Some h => env_call (ReleaseTask h)
  | None => ret tt
  end.

(** The end of a task that was resumed: the [CurlTask::ReStart] it may have
    posted keeps the raw pointer. *)
Definition orphan (h : Handle) (p : Post) : Post :=
  match p with PostReStart h' => if bool_decide (h' = h) then PostDangling else p | _ => p end.
Definition drop_task (t : Task) : ST World unit :=
  match t_impl t with
  | Some h => modify (λ w, set_w_posts (orphan h <$> w_posts w) w)
  | None => ret tt
  end ;;
  destroy_task t.
End Task.
