(* ===== verification/TaskSpec.v ===== *)
(** * The task invariant and what every task operation preserves

    [task_ok] is the well-formedness of a task object; [pres R m] says that
    [m] runs without undefined behaviour from any well-formed state, keeps the
    object well formed and identical (class, engine task, id, context), and
    moves the state along the preorder [R].  The [pres] database composes these
    facts along the program text. *)

From S2P Require Import Prelude CppBase PathUnit DownloadTypes ErrorDesc TaskInfo InfoStore.
From S2P Require Import SystemConfig ServerWorld TaskRefCount TaskObj.
#[local] Open Scope prog_scope.

(** The members of a parameter that a BitTorrent task copies into fixed-size
    arrays fit, and the object really is a [TorrentTaskParam]. *)
Definition bt_param_ok (p : TaskParam) : Prop :=
  is_Some (p_torrent p) ∧ (String.length (p_id p) ≤ kIdLength)%nat ∧
  (String.length (p_url p) ≤ kUrlLength)%nat ∧ (String.length (p_save_path p) ≤ kMaxPath)%nat ∧
  (String.length (p_file_name p) ≤ kMaxPath)%nat.

(** The dynamic class agrees with the download type the server casts by. *)
Definition kind_of_type (k : TaskKind) (ty : DownloadType) : Prop :=
  match k with
  | KTorrent => ty = DownloadType.kTorrent
  | KMagnet => ty = DownloadType.kMagnet
  | _ => ty ≠ DownloadType.kTorrent ∧ ty ≠ DownloadType.kMagnet
  end.

Definition info_ok (k : TaskKind) (i : TaskInfo) : Prop :=
  category_ok i ∧ kind_of_type k (p_type (ti_param i)) ∧
  (is_link k = false → bt_param_ok (ti_param i)).

Definition task_ok (t : Task) : Prop :=
  is_Some (t_impl t) ∧ ∃ i, t_info t = Some i ∧ info_ok (t_kind t) i.

(** The seeding limit, in minutes, is converted to seconds in an [int]. *)
Definition cfg_ok (c : SystemCloudConfig) : Prop :=
  in_int32 (GetSeedingTimeLimitValue c * 60) = true.

Definition task_id (t : Task) : string :=
  match t_info t with Some i => p_id (ti_param i) | None => EmptyString end.
Definition task_hash (t : Task) : string :=
  match t_info t with Some i => p_hash (ti_param i) | None => EmptyString end.
Definition status_of (t : Task) : TaskStatus :=
  match t_info t with Some i => ti_status i | None => TaskStatus.kFailed end.
Definition started (t : Task) : bool :=
  match t_info t with Some i => ti_is_started i | None => false end.

(** Updates of [task_info_] that every task operation may make. *)
Definition info_step (i j : TaskInfo) : Prop :=
  (category_ok i → category_ok j) ∧ p_id (ti_param j) = p_id (ti_param i) ∧
  p_type (ti_param j) = p_type (ti_param i) ∧
  (bt_param_ok (ti_param i) → bt_param_ok (ti_param j)).

Section Spec.
  Context `{E : Env} `{bl : BaseLib}.
  Implicit Types s : TS.

Definition ok (s : TS) : Prop := task_ok (ts_t s) ∧ cfg_ok (w_cfg (ts_w s)).

(** The configuration is fixed and the database queue only grows. *)
Definition world_step (w w' : World) : Prop :=
  w_cfg w' = w_cfg w ∧ w_db w `prefix_of` w_db w'.

#[global] Instance world_step_preorder : PreOrder world_step.
Proof. split; [done|]. intros ??? [] []. split; [congruence|by etrans]. Qed.

Definition ext (s s' : TS) : Prop :=
  t_kind (ts_t s') = t_kind (ts_t s) ∧ t_impl (ts_t s') = t_impl (ts_t s) ∧
  task_id (ts_t s') = task_id (ts_t s) ∧
  t_context_field (ts_t s') = t_context_field (ts_t s) ∧
  world_step (ts_w s) (ts_w s').

#[global] Instance ext_preorder : PreOrder ext.
Proof.
  split; [by repeat split|]. intros ??? (?&?&?&?&?) (?&?&?&?&?).
  split_and!; [congruence..|by etrans].
Qed.

Definition pres {A} (R : TS → TS → Prop) (m : ST TS A) : Prop :=
  ∀ s, ok s → wp m (λ _ s', ok s' ∧ ext s s' ∧ R s s') s.

Lemma pres_apply {A} R (m : ST TS A) s :
  ok s → pres R m → wp m (λ _ s', ok s' ∧ ext s s' ∧ R s s') s.
Proof. auto. Qed.

Lemma pres_use {A} R (m : ST TS A) (Q : A → TS → Prop) s :
  ok s → pres R m → (∀ a s', ok s' → ext s s' → R s s' → Q a s') → wp m Q s.
Proof. intros Hs Hm HQ. wp_call Hm; naive_solver. Qed.

(** The relations used: anything, and an unchanged status and callback. *)
Definition any (s s' : TS) : Prop := True.
Definition keeps_status (s s' : TS) : Prop :=
  status_of (ts_t s') = status_of (ts_t s) ∧
  t_parse_callback (ts_t s') = t_parse_callback (ts_t s).

#[global] Instance any_preorder : PreOrder any.
Proof. by split. Qed.
#[global] Instance keeps_status_preorder : PreOrder keeps_status.
Proof. unfold keeps_status. split; [by split|]. intros ??? [] []. split; congruence. Qed.

Lemma ok_info s : ok s → ∃ h i, t_impl (ts_t s) = Some h ∧ t_info (ts_t s) = Some i ∧
  info_ok (t_kind (ts_t s)) i.
Proof. intros [([h ?]&i&?&?) ?]. eauto. Qed.

Lemma wp_task (Q : Task → TS → Prop) s : Q (ts_t s) s → wp task Q s.
Proof. done. Qed.

Lemma wp_info Q s i : t_info (ts_t s) = Some i → Q i s → wp info Q s.
Proof. intros Hi HQ. unfold info. wp_steps. apply wp_task. by rewrite Hi. Qed.

Lemma wp_impl Q s h : t_impl (ts_t s) = Some h → Q h s → wp impl Q s.
Proof. intros Hi HQ. unfold impl. wp_steps. apply wp_task. by rewrite Hi. Qed.

Lemma wp_upd_info f Q s i :
  t_info (ts_t s) = Some i → Q tt (mkTS (set_t_info (Some (f i)) (ts_t s)) (ts_w s)) →
  wp (upd_info f) Q s.
Proof. intros Hi HQ. unfold upd_info. wp_step. by eapply wp_info. Qed.

Lemma wp_upd_task f Q s : Q tt (mkTS (f (ts_t s)) (ts_w s)) → wp (upd_task f) Q s.
Proof. done. Qed.

Lemma wp_world {A} (m : ST World A) Q s :
  wp m (λ a w, Q a (mkTS (ts_t s) w)) (ts_w s) → wp (world m) Q s.
Proof. unfold wp, world. by destruct (m (ts_w s)) as [[a w]|]. Qed.

(** ** Composition *)
Section Compose.
  Context (R : TS → TS → Prop) `{!PreOrder R}.

Lemma pres_ret {A} (a : A) : pres R (ret a).
Proof. intros s Hs. apply wp_ret. split_and!; [done|reflexivity..]. Qed.

Lemma pres_bind {A B} (m : ST TS A) (k : A → ST TS B) :
  pres R m → (∀ a, pres R (k a)) → pres R (bind m k).
Proof.
  intros Hm Hk s Hs. wp_step. wp_call Hm; [done|]. destruct H as (Hs' & He & HR).
  wp_call Hk; [done|]. destruct H as (? & ? & ?). split_and!; [done|by etrans..].
Qed.

Lemma pres_when c (m : ST TS unit) : pres R m → pres R (when c m).
Proof. intros Hm. destruct c; [done|apply pres_ret]. Qed.

Lemma pres_gets {A} (f : TS → A) : pres R (gets f).
Proof. intros s Hs. apply wp_gets. split_and!; [done|reflexivity..]. Qed.

Lemma pres_task : pres R task.
Proof. apply pres_gets. Qed.

Lemma pres_cfg : pres R cfg.
Proof. apply pres_gets. Qed.

Lemma pres_info : pres R info.
Proof.
  intros s Hs. destruct (ok_info s Hs) as (h & i & _ & Hi & _).
  eapply wp_info; [done|]. split_and!; [done|reflexivity..].
Qed.

Lemma pres_impl : pres R impl.
Proof.
  intros s Hs. destruct (ok_info s Hs) as (h & i & Hh & _).
  eapply wp_impl; [done|]. split_and!; [done|reflexivity..].
Qed.

(** Binding [task] or [info] makes their values available. *)
Lemma pres_bind_task {B} (k : Task → ST TS B) :
  (∀ s, ok s → wp (k (ts_t s)) (λ _ s', ok s' ∧ ext s s' ∧ R s s') s) →
  pres R (bind task k).
Proof. intros Hk s Hs. wp_step. apply wp_task. auto. Qed.

Lemma pres_bind_info {B} (k : TaskInfo → ST TS B) :
  (∀ s i, ok s → t_info (ts_t s) = Some i → info_ok (t_kind (ts_t s)) i →
     wp (k i) (λ _ s', ok s' ∧ ext s s' ∧ R s s') s) →
  pres R (bind info k).
Proof.
  intros Hk s Hs. destruct (ok_info s Hs) as (h & i & _ & Hi & Ho).
  wp_step. eapply wp_info; eauto.
Qed.
End Compose.

(** ** Leaves *)

(** Operations on the world alone that keep the configuration. *)
Definition world_pres {A} (m : ST World A) : Prop :=
  ∀ w, wp m (λ _ w', world_step w w') w.

Lemma world_pres_bind {A B} (m : ST World A) (k : A → ST World B) :
  world_pres m → (∀ a, world_pres (k a)) → world_pres (bind m k).
Proof.
  intros Hm Hk w. wp_step. wp_call Hm. wp_call Hk. by etrans.
Qed.

Lemma world_pres_env_call {A} (f : env → A * env) : world_pres (env_call f).
Proof. intros w. by apply wp_env_call. Qed.
Lemma world_pres_env_read {A} (f : env → A) : world_pres (env_read f).
Proof. intros w. by apply wp_gets. Qed.
Lemma world_pres_post_db t : world_pres (post_db t).
Proof. intros w. apply wp_modify. split; [done|]. by apply prefix_app_r. Qed.
Lemma world_pres_post p : world_pres (post p).
Proof. intros w. by apply wp_modify. Qed.
Lemma world_pres_Notify o m c : world_pres (Notify o m c).
Proof. intros w. by apply wp_modify. Qed.
Lemma world_pres_DeleteFile p : world_pres (DeleteFile p).
Proof.
  apply world_pres_bind; [apply world_pres_env_read|intros []];
    [apply world_pres_env_call|by intros w].
Qed.
Lemma world_pres_GetCurrnetTime : world_pres GetCurrnetTime.
Proof. apply world_pres_env_call. Qed.

Lemma pres_world_any {A} (m : ST World A) : world_pres m → pres any (world m).
Proof.
  intros Hm [t w] [Ht Hc]. apply wp_world. wp_call Hm. destruct H as [H1 H2].
  unfold ok, ext. simpl in *. by rewrite H1.
Qed.

Lemma pres_world_status {A} (m : ST World A) : world_pres m → pres keeps_status (world m).
Proof.
  intros Hm [t w] [Ht Hc]. apply wp_world. wp_call Hm. destruct H as [H1 H2].
  unfold ok, ext, keeps_status. simpl in *. by rewrite H1.
Qed.

Lemma pres_weaken {A} R (m : ST TS A) : pres R m → pres any m.
Proof. intros Hm s Hs. wp_call Hm; [done|]. naive_solver. Qed.

Lemma ok_set_info s i j :
  ok s → t_info (ts_t s) = Some i → info_step i j →
  let s' := mkTS (set_t_info (Some j) (ts_t s)) (ts_w s) in
  ok s' ∧ ext s s'.
Proof.
  intros [([h Hh]&i'&Hi'&Hc&Hk&Hb) Hcfg] Hi (H1&H2&H3&H4).
  assert (i' = i) as -> by congruence.
  split.
  - split; [|done]. split; [by eexists|]. exists j. split; [done|]. split_and!; simpl; [auto| |auto].
    by rewrite H3.
  - unfold ext, task_id. simpl. rewrite Hi. by rewrite H2.
Qed.

Lemma pres_upd_info f : (∀ i, info_step i (f i)) → pres any (upd_info f).
Proof.
  intros Hf s Hs. destruct (ok_info s Hs) as (h & i & _ & Hi & _).
  eapply wp_upd_info; [done|]. by destruct (ok_set_info s i (f i) Hs Hi (Hf i)).
Qed.

Lemma pres_upd_info_status f :
  (∀ i, info_step i (f i)) → (∀ i, ti_status (f i) = ti_status i) →
  pres keeps_status (upd_info f).
Proof.
  intros Hf Hst s Hs. destruct (ok_info s Hs) as (h & i & _ & Hi & _).
  eapply wp_upd_info; [done|]. destruct (ok_set_info s i (f i) Hs Hi (Hf i)).
  split_and!; [done..|]. unfold keeps_status, status_of. simpl. by rewrite Hi.
Qed.
(** Bookkeeping members of the object that no invariant mentions. *)
Definition inert (f : Task → Task) : Prop := ∀ t,
  t_kind (f t) = t_kind t ∧ t_impl (f t) = t_impl t ∧ t_info (f t) = t_info t ∧
  t_context_field (f t) = t_context_field t ∧ t_parse_callback (f t) = t_parse_callback t.

Lemma pres_upd_task_status f : inert f → pres keeps_status (upd_task f).
Proof.
  intros Hf s [Ht Hc]. apply wp_modify. destruct (Hf (ts_t s)) as (H1&H2&H3&H4&H5).
  unfold ok, ext, keeps_status, task_ok, task_id, status_of in *. simpl.
  by rewrite H1, H2, H3, H4, H5.
Qed.

Lemma pres_upd_task f : inert f → pres any (upd_task f).
Proof. intros Hf. by eapply pres_weaken, pres_upd_task_status. Qed.

Lemma eng_pres {A} R `{!PreOrder R} (f : Handle → env → A * env) :
  (∀ h, pres R (world (env_call (f h)))) → pres R (eng f).
Proof. intros Hf. apply pres_bind; [done|by apply pres_impl|done]. Qed.

Lemma pres_eng_status {A} (f : Handle → env → A * env) : pres keeps_status (eng f).
Proof. apply (eng_pres _). intros h. apply pres_world_status, world_pres_env_call. Qed.

Lemma pres_eng_any {A} (f : Handle → env → A * env) : pres any (eng f).
Proof. eapply pres_weaken, pres_eng_status. Qed.
End Spec.

(** ** Automation *)
Create HintDb pres discriminated.
#[export] Hint Resolve pres_ret pres_when pres_gets pres_task pres_cfg pres_info pres_impl
  pres_world_any pres_world_status pres_eng_any pres_eng_status
  world_pres_env_call world_pres_env_read world_pres_post_db
  world_pres_post world_pres_Notify world_pres_DeleteFile world_pres_GetCurrnetTime
  any_preorder keeps_status_preorder : pres.
#[export] Hint Extern 1 (PreOrder _) => typeclasses eauto : pres.
#[export] Hint Extern 2 (info_step _ _) => (unfold info_step; split_and!; done) : pres.
#[export] Hint Extern 2 (inert _) => by (repeat split) : pres.
#[export] Hint Extern 3 (pres any (upd_info _)) => apply pres_upd_info; intros ? : pres.
#[export] Hint Extern 3 (pres keeps_status (upd_info _)) =>
  apply pres_upd_info_status; intros ?; [|by idtac] : pres.
#[export] Hint Extern 3 (pres any (upd_task _)) => apply pres_upd_task : pres.
#[export] Hint Extern 3 (pres keeps_status (upd_task _)) => apply pres_upd_task_status : pres.

(** Walk along the program text of the goal. *)
Ltac pres_step :=
  cbn beta iota zeta;
  lazymatch goal with
  | |- pres _ (bind _ _) => apply pres_bind; [typeclasses eauto | | intros ?]
  | |- pres _ (when _ _) => apply pres_when; [typeclasses eauto|]
  | |- pres _ (let '(_, _) := ?p in _) => destruct p
  | |- pres _ (if ?b then _ else _) => destruct b
  | |- pres _ (match ?x with _ => _ end) => destruct x
  end.
Ltac pres_auto := repeat (pres_step || (solve [eauto 4 with pres])).

Section Methods.
  Context `{E : Env} `{bl : BaseLib}.
  Implicit Types s : TS.

Lemma pres_UpdateTaskInfo_db : pres keeps_status UpdateTaskInfo_db.
Proof. unfold UpdateTaskInfo_db. pres_auto. Qed.

Lemma wp_SetTaskStatus x s (Q : unit → TS → Prop) :
  ok s →
  (∀ s', ok s' → ext s s' → status_of (ts_t s') = x →
     t_pre_status (ts_t s') = status_of (ts_t s) →
     t_parse_callback (ts_t s') = t_parse_callback (ts_t s) → Q tt s') →
  wp (SetTaskStatus x) Q s.
Proof.
  intros Hs HQ. destruct (ok_info s Hs) as (h & i & Hh & Hi & Ho & Hk & Hb).
  unfold SetTaskStatus. wp_step. apply wp_task. rewrite Hi. wp_step.
  apply wp_upd_task. wp_step. eapply wp_upd_info; [done|].
  unfold UpdateTaskInfo_db. wp_step. apply wp_task.
  wp_step. eapply wp_info; [done|]. apply wp_world, wp_modify. apply HQ; simpl.
  - destruct Hs as [Ht Hc]. split; [|done]. split; [by eexists|]. eexists.
    split; [done|]. split_and!; [apply category_ok_SetTaskStatus|done..].
  - unfold ext, task_id. simpl. rewrite Hi. split_and!; try done.
    split; [done|by apply prefix_app_r].
  - done.
  - unfold status_of. by rewrite Hi.
  - done.
Qed.

Lemma pres_SetTaskStatus x : pres any (SetTaskStatus x).
Proof. intros s Hs. by apply wp_SetTaskStatus. Qed.
End Methods.
#[export] Hint Resolve pres_UpdateTaskInfo_db pres_SetTaskStatus : pres.
#[export] Hint Extern 5 (pres any _) => eapply pres_weaken; solve [eauto 3 with pres] : pres.

Section Readers.
  Context `{E : Env} `{bl : BaseLib}.
  Implicit Types s : TS.

(** Operations that never change the status. *)
Lemma pres_GetTaskStatus R `{!PreOrder R} : pres R GetTaskStatus.
Proof. unfold GetTaskStatus. pres_auto. Qed.
Lemma pres_GetTaskCategory R `{!PreOrder R} : pres R GetTaskCategory.
Proof. unfold GetTaskCategory. pres_auto. Qed.
Lemma pres_IsStarted R `{!PreOrder R} : pres R IsStarted.
Proof. unfold IsStarted. pres_auto. Qed.
Lemma pres_GetDownloadType R `{!PreOrder R} : pres R GetDownloadType.
Proof. unfold GetDownloadType. pres_auto. Qed.
Lemma pres_IsDownloadFinished R `{!PreOrder R} : pres R IsDownloadFinished.
Proof. unfold IsDownloadFinished. pres_auto. Qed.
Lemma pres_IsParseFinish R `{!PreOrder R} : pres R IsParseFinish.
Proof. unfold IsParseFinish. pres_auto. Qed.
Lemma pres_SetCreateTimeStamp : pres keeps_status SetCreateTimeStamp.
Proof. unfold SetCreateTimeStamp. pres_auto. Qed.
Lemma pres_GetTaskHash : pres keeps_status GetTaskHash.
Proof. unfold GetTaskHash. pres_auto. Qed.
Lemma pres_DeleteLocalFile : pres keeps_status DeleteLocalFile.
Proof. unfold DeleteLocalFile. pres_auto. Qed.
Lemma pres_notify o d : pres keeps_status (notify o d).
Proof. unfold notify. pres_auto. Qed.
Lemma pres_SetLocalLandFileName : pres keeps_status SetLocalLandFileName.
Proof. unfold SetLocalLandFileName. pres_auto. Qed.
End Readers.
#[export] Hint Resolve pres_GetTaskStatus pres_GetTaskCategory pres_IsStarted
  pres_GetDownloadType pres_IsDownloadFinished pres_IsParseFinish pres_SetCreateTimeStamp
  pres_GetTaskHash pres_DeleteLocalFile pres_notify pres_SetLocalLandFileName : pres.

Section Publishers.
  Context `{E : Env} `{bl : BaseLib}.
  Implicit Types s : TS.

Lemma pres_PublishTaskBaseInfo : pres keeps_status PublishTaskBaseInfo.
Proof. unfold PublishTaskBaseInfo. pres_auto. Qed.
Lemma pres_BuildDownloadingData : pres keeps_status BuildDownloadingData.
Proof. unfold BuildDownloadingData. pres_auto. Qed.
Lemma pres_PublishInvalidTaskInfo : pres keeps_status PublishInvalidTaskInfo.
Proof. unfold PublishInvalidTaskInfo. pres_auto. Qed.
Lemma pres_PublishFailedTaskInfo : pres keeps_status PublishFailedTaskInfo.
Proof. unfold PublishFailedTaskInfo. pres_auto. Qed.
Lemma pres_PublishFinishedTaskInfo : pres keeps_status PublishFinishedTaskInfo.
Proof. unfold PublishFinishedTaskInfo. pres_auto. Qed.
Lemma pres_BuildMessageData op : pres keeps_status (BuildMessageData op).
Proof. unfold BuildMessageData. pres_auto. Qed.
Lemma pres_Valid : pres keeps_status Valid.
Proof. unfold Valid. pres_auto. Qed.
Lemma pres_Retry : pres keeps_status Retry.
Proof. unfold Retry, TaskBase_Retry. pres_auto. Qed.
Lemma pres_engine_progress : pres keeps_status engine_progress.
Proof. unfold engine_progress. pres_auto. Qed.
Lemma pres_LinkTask_SyncParse : pres keeps_status LinkTask_SyncParse.
Proof. unfold LinkTask_SyncParse. pres_auto. Qed.
Lemma pres_CreateMagnetUri : pres keeps_status CreateMagnetUri.
Proof. unfold CreateMagnetUri. pres_auto. Qed.
Lemma pres_SetFileList l : pres keeps_status (SetFileList l).
Proof. unfold SetFileList. pres_auto. Qed.
End Publishers.
#[export] Hint Resolve pres_PublishTaskBaseInfo pres_BuildDownloadingData
  pres_PublishInvalidTaskInfo pres_PublishFailedTaskInfo pres_PublishFinishedTaskInfo
  pres_BuildMessageData pres_Valid pres_Retry pres_engine_progress pres_LinkTask_SyncParse
  pres_CreateMagnetUri pres_SetFileList : pres.

Section Operations.
  Context `{E : Env} `{bl : BaseLib}.
  Implicit Types s : TS.

Lemma pres_ParseTorrent : pres keeps_status ParseTorrent.
Proof. unfold ParseTorrent. pres_auto. Qed.
Lemma pres_UpdateSeedingInfo : pres keeps_status UpdateSeedingInfo.
Proof. unfold UpdateSeedingInfo. pres_auto. Qed.
Lemma pres_UpdateFileBaseInfo r : pres keeps_status (UpdateFileBaseInfo r).
Proof. unfold UpdateFileBaseInfo. pres_auto. Qed.

(** Operations of one branch of the class hierarchy. *)
Definition pres_kind {A} (link : bool) (R : TS → TS → Prop) (m : ST TS A) : Prop :=
  ∀ s, ok s → is_link (t_kind (ts_t s)) = link → wp m (λ _ s', ok s' ∧ ext s s' ∧ R s s') s.

Lemma pres_kind_of {A} b R (m : ST TS A) : pres R m → pres_kind b R m.
Proof. intros Hm s Hs _. by apply Hm. Qed.

Lemma pres_kind_bind {A B} b R `{!PreOrder R} (m : ST TS A) (k : A → ST TS B) :
  pres_kind b R m → (∀ a, pres_kind b R (k a)) → pres_kind b R (bind m k).
Proof.
  intros Hm Hk s Hs Hb. wp_step. wp_call Hm; [done..|]. destruct H as (Hs' & He & HR).
  wp_call Hk; [done|by rewrite (proj1 He)|]. destruct H as (? & ? & ?).
  split_and!; [done|by etrans..].
Qed.

(** Dispatch on the class. *)
Lemma pres_dispatch {A} R `{!PreOrder R} (m m' : ST TS A) :
  pres_kind true R m → pres_kind false R m' →
  pres R (t ← task; if is_link (t_kind t) then m else m').
Proof.
  intros Hm Hm' s Hs. wp_step. apply wp_task. destruct (is_link (t_kind (ts_t s))) eqn:Hk.
  - by apply Hm.
  - by apply Hm'.
Qed.

Lemma memcpy_array_fits cap (x : string) :
  (String.length x ≤ cap)%nat → memcpy_array cap x = Some x.
Proof. intros H. unfold memcpy_array. by rewrite (proj2 (Nat.leb_le _ _) H). Qed.

Lemma pres_BtTaskBase_SetDownloadParam :
  pres_kind false keeps_status BtTaskBase_SetDownloadParam.
Proof.
  intros s Hs Hk. destruct (ok_info s Hs) as (h & i & Hh & Hi & _ & _ & Hb).
  destruct (Hb Hk) as ([x Hx] & H1 & H2 & H3 & H4).
  unfold BtTaskBase_SetDownloadParam. wp_step. eapply wp_info; [done|].
  rewrite Hx, !memcpy_array_fits by done. do 5 (wp_step; eapply wp_of_option; [done|]).
  apply (pres_apply keeps_status); [done|]. pres_auto.
Qed.

Lemma pres_BtTaskBase_Start : pres_kind false keeps_status BtTaskBase_Start.
Proof.
  unfold BtTaskBase_Start.
  apply pres_kind_bind; [apply _|apply pres_kind_of; pres_auto|intros t].
  destruct (match t_info t with Some i => _ | None => _ end); [apply pres_kind_of; pres_auto|].
  apply pres_kind_bind; [apply _|apply pres_BtTaskBase_SetDownloadParam|intros _].
  apply pres_kind_of. pres_auto.
Qed.

Lemma pres_LinkTask_CheckCondition : pres_kind true keeps_status LinkTask_CheckCondition.
Proof.
  intros s Hs Hk. destruct (ok_info s Hs) as (h & i & Hh & Hi & Hc & Hty & Hb).
  unfold LinkTask_CheckCondition. wp_step. eapply wp_info; [done|].
  destruct (utils_IsValid _) as [b url]. wp_step. eapply wp_upd_info; [done|]. wp_step.
  split_and!.
  - destruct Hs as [_ Hcfg]. split; [|done]. split; [by eexists|]. eexists.
    split; [done|]. split_and!; [done..|]. simpl. congruence.
  - unfold ext, task_id. simpl. by rewrite Hi.
  - unfold keeps_status, status_of. simpl. by rewrite Hi.
Qed.

Lemma pres_engine_CheckCondition f : pres keeps_status (engine_CheckCondition f).
Proof. unfold engine_CheckCondition. pres_auto. Qed.

Lemma pres_CheckCondition : pres keeps_status CheckCondition.
Proof.
  intros s Hs. unfold CheckCondition. wp_step. apply wp_task.
  destruct (t_kind (ts_t s)) eqn:Hk; try by apply pres_engine_CheckCondition.
  apply pres_LinkTask_CheckCondition; [done|by rewrite Hk].
Qed.

(** ** Operations that move the status *)
Lemma wp_LinkTask_Start s (Q : Z → TS → Prop) :
  ok s →
  (∀ e s', ok s' → ext s s' →
     status_of (ts_t s') = (if started (ts_t s) then status_of (ts_t s)
                            else TaskStatus.kDownloading) →
     t_parse_callback (ts_t s') = t_parse_callback (ts_t s) → Q e s') →
  wp LinkTask_Start Q s.
Proof.
  intros Hs HQ. unfold LinkTask_Start. wp_step. apply wp_task.
  fold (started (ts_t s)). destruct (started (ts_t s)).
  - apply wp_ret, HQ; [done|reflexivity|done..].
  - wp_step. apply wp_SetTaskStatus; [done|]. intros s1 H1 He1 Hst1 _ Hcb.
    apply (pres_use keeps_status); [done|pres_auto|].
    intros e s2 H2 He2 [Hst2 Hcb2]. apply HQ; [done|by etrans|congruence..].
Qed.

(** [Start] leaves the status alone or makes it [kDownloading]. *)
Lemma wp_Start s (Q : Z → TS → Prop) :
  ok s →
  (∀ e s', ok s' → ext s s' →
     status_of (ts_t s') = status_of (ts_t s) ∨ status_of (ts_t s') = TaskStatus.kDownloading →
     t_parse_callback (ts_t s') = t_parse_callback (ts_t s) → Q e s') →
  wp Start Q s.
Proof.
  intros Hs HQ. unfold Start. wp_step. apply wp_task.
  destruct (is_link (t_kind (ts_t s))) eqn:Hk.
  - apply wp_LinkTask_Start; [done|]. intros e s' ?? Hst ?. apply HQ; [done..| |done].
    destruct (started (ts_t s)); auto.
  - wp_call pres_BtTaskBase_Start; [done..|]. destruct H as (?&?&[??]). apply HQ; auto.
Qed.

Lemma wp_Pause s (Q : bool → TS → Prop) :
  ok s →
  (∀ (b : bool) s', ok s' → ext s s' →
     status_of (ts_t s') = (if b then TaskStatus.kPaused else status_of (ts_t s)) → Q b s') →
  wp Pause Q s.
Proof.
  intros Hs HQ. unfold Pause. wp_step. apply (pres_use keeps_status); [done|pres_auto|].
  intros b s1 H1 He1 [Hst1 _]. destruct b; [|by apply wp_ret, HQ].
  wp_step. apply wp_SetTaskStatus; [done|]. intros s2 H2 He2 Hst2 _ _.
  wp_step. apply (pres_use keeps_status); [done|pres_auto|]. intros _ s3 H3 He3 [Hst3 _].
  apply wp_ret, HQ; [done|by do 2 (etrans; [done|])|congruence].
Qed.

(** A failing resume leaves the status alone; a successful one downloads, or
    pauses a torrent that must not start by itself. *)
Definition resumed (b : bool) (old new : TaskStatus) : Prop :=
  if b then new = TaskStatus.kDownloading ∨ (new = TaskStatus.kPaused ∧ old = TaskStatus.kWaitting)
  else new = old.

Lemma wp_resume_engine st s (Q : bool → TS → Prop) :
  ok s →
  (∀ (b : bool) s', ok s' → ext s s' →
     status_of (ts_t s') = (if b then TaskStatus.kDownloading else status_of (ts_t s)) → Q b s') →
  wp (resume_engine st) Q s.
Proof.
  intros Hs HQ. unfold resume_engine. wp_step. apply (pres_use keeps_status); [done|pres_auto|].
  intros i s1 H1 He1 [Hst1 _]. wp_step. apply (pres_use keeps_status); [done|pres_auto|].
  intros b s2 H2 He2 [Hst2 _]. destruct b.
  - wp_step. apply wp_SetTaskStatus; [done|]. intros s3 H3 He3 Hst3 _ _.
    wp_step. apply (pres_use keeps_status); [done|pres_auto|]. intros _ s4 H4 He4 [Hst4 _].
    apply wp_ret, HQ; [done|by do 3 (etrans; [done|])|congruence].
  - apply wp_ret, HQ; [done|by etrans|congruence].
Qed.

Lemma wp_TaskBase_Resume s (Q : bool → TS → Prop) :
  ok s →
  (∀ b s', ok s' → ext s s' → resumed b (status_of (ts_t s)) (status_of (ts_t s')) → Q b s') →
  wp TaskBase_Resume Q s.
Proof.
  intros Hs HQ. unfold TaskBase_Resume, GetTaskStatus. wp_steps. apply wp_task, wp_ret.
  apply wp_resume_engine; [done|]. intros b s' ?? Hst. apply HQ; [done..|].
  destruct b; simpl; auto.
Qed.

Lemma wp_BtTaskBase_Resume s (Q : bool → TS → Prop) :
  ok s →
  (∀ b s', ok s' → ext s s' → resumed b (status_of (ts_t s)) (status_of (ts_t s')) → Q b s') →
  wp BtTaskBase_Resume Q s.
Proof.
  intros Hs HQ. unfold BtTaskBase_Resume, GetTaskStatus. wp_step. wp_step. apply wp_task, wp_ret.
  wp_step. apply wp_gets. fold (status_of (ts_t s)).
  destruct (bool_decide_reflect (status_of (ts_t s) = TaskStatus.kWaitting)); simpl.
  1: destruct (negb _).
  - wp_step. apply wp_SetTaskStatus; [done|]. intros s' ?? Hst _ _. apply wp_ret, HQ; [done..|].
    simpl. auto.
  - apply wp_resume_engine; [done|]. intros [] s' ?? Hst; apply HQ; simpl; auto.
  - apply wp_resume_engine; [done|]. intros [] s' ?? Hst; apply HQ; simpl; auto.
Qed.

Lemma wp_Resume s (Q : bool → TS → Prop) :
  ok s →
  (∀ b s', ok s' → ext s s' → resumed b (status_of (ts_t s)) (status_of (ts_t s')) → Q b s') →
  wp Resume Q s.
Proof.
  intros Hs HQ. unfold Resume. wp_step. apply wp_task.
  destruct (t_kind (ts_t s)) eqn:Hk.
  - unfold CurlTask_Resume. wp_step. apply wp_TaskBase_Resume; [done|]. intros b s1 H1 He1 Hst1.
    wp_step. apply wp_task. wp_step. apply (pres_use keeps_status); [done|pres_auto|].
    intros _ s2 H2 He2 [Hst2 _]. wp_step. apply (pres_use keeps_status); [done|pres_auto|].
    intros _ s3 H3 He3 [Hst3 _].
    apply wp_ret, HQ; [done|by do 2 (etrans; [done|])|by rewrite Hst3, Hst2].
  - unfold MuleTask_Resume. wp_step. apply wp_TaskBase_Resume; [done|]. intros b s1 H1 He1 Hst1.
    wp_step. apply (pres_use keeps_status); [done|pres_auto|]. intros _ s2 H2 He2 [Hst2 _].
    apply wp_ret, HQ; [done|by etrans|by rewrite Hst2].
  - by apply wp_BtTaskBase_Resume.
  - by apply wp_BtTaskBase_Resume.
Qed.

Lemma pres_of_wp {A} (m : ST TS A) :
  (∀ s (Q : A → TS → Prop), ok s → (∀ a s', ok s' → ext s s' → Q a s') → wp m Q s) → pres any m.
Proof. intros Hm s Hs. by apply Hm. Qed.

Lemma pres_Start : pres any Start.
Proof. apply pres_of_wp. intros s Q Hs HQ. apply wp_Start; auto. Qed.
Lemma pres_Pause : pres any Pause.
Proof. apply pres_of_wp. intros s Q Hs HQ. apply wp_Pause; auto. Qed.
Lemma pres_Resume : pres any Resume.
Proof. apply pres_of_wp. intros s Q Hs HQ. apply wp_Resume; auto. Qed.
End Operations.
#[export] Hint Resolve pres_ParseTorrent pres_UpdateSeedingInfo pres_UpdateFileBaseInfo
  pres_CheckCondition pres_Start pres_Pause pres_Resume : pres.

Section MoreOperations.
  Context `{E : Env} `{bl : BaseLib}.
  Implicit Types s : TS.

Lemma pres_UpdateAndPublishFailedInfo : pres any UpdateAndPublishFailedInfo.
Proof. unfold UpdateAndPublishFailedInfo. pres_auto. Qed.
Lemma pres_DeleteTorrentFile : pres_kind false keeps_status DeleteTorrentFile.
Proof.
  intros s Hs Hk. destruct (ok_info s Hs) as (h & i & Hh & Hi & _ & _ & Hb).
  destruct (Hb Hk) as ([x Hx] & _). unfold DeleteTorrentFile.
  wp_step. eapply wp_info; [done|]. wp_step. eapply wp_of_option; [done|].
  apply (pres_apply keeps_status); [done|]. pres_auto.
Qed.
Lemma pres_TaskBase_ExceCancel b r : pres any (TaskBase_ExceCancel b r).
Proof. unfold TaskBase_ExceCancel. pres_auto. Qed.
Lemma pres_BtTorrentTask_ExceCancel b r : pres_kind false any (BtTorrentTask_ExceCancel b r).
Proof.
  unfold BtTorrentTask_ExceCancel. destruct r; [|apply pres_kind_of; pres_auto].
  apply pres_kind_bind; [apply _|apply pres_kind_of; pres_auto|intros []];
    [|apply pres_kind_of; pres_auto].
  apply pres_kind_bind; [apply _|apply pres_kind_of; pres_auto|intros _].
  apply pres_kind_bind; [apply _| |intros _; apply pres_kind_of; pres_auto].
  intros s Hs Hk. wp_call pres_DeleteTorrentFile; [done..|]. naive_solver.
Qed.
Lemma pres_ExceCancel b r : pres any (ExceCancel b r).
Proof.
  intros s Hs. unfold ExceCancel. wp_step. apply wp_task.
  destruct (t_kind (ts_t s)) eqn:Hk; try by apply pres_TaskBase_ExceCancel.
  apply pres_BtTorrentTask_ExceCancel; [done|by rewrite Hk].
Qed.

Lemma ok_set_refs r s : ok s → ok (set_ts_refs r s) ∧ ext s (set_ts_refs r s).
Proof. done. Qed.

Lemma pres_Cancel b : pres any (Cancel b).
Proof.
  intros s Hs. unfold Cancel. wp_step. apply (pres_use any); [done|pres_auto|].
  intros hash s1 H1 He1 _. apply (wp_Release _ _).
  apply (pres_use any); [done|apply pres_ExceCancel|]. intros ok2 s2 H2 He2 _.
  assert (ext s s2) by (etrans; done).
  by destruct (last_ref _ _ && ok2).
Qed.

Lemma pres_CheckTaskIsFailed : pres any CheckTaskIsFailed.
Proof. unfold CheckTaskIsFailed, UpdateAndPublishFailedInfo. pres_auto. Qed.

(** [DeleteToRecycleBin] always answers true; the status moves to [kDeleted]
    unless the engine refused to pause. *)
Lemma wp_DeleteToRecycleBin s (Q : bool → TS → Prop) :
  ok s →
  (∀ s', ok s' → ext s s' →
     (status_of (ts_t s') = TaskStatus.kDeleted ∧ t_pre_status (ts_t s') = status_of (ts_t s)) ∨
     (status_of (ts_t s') = status_of (ts_t s) ∧ status_of (ts_t s) ≠ TaskStatus.kFailed) →
     Q true s') →
  wp DeleteToRecycleBin Q s.
Proof.
  intros Hs HQ. destruct (ok_info s Hs) as (h & i & Hh & _). unfold DeleteToRecycleBin.
  wp_step. apply wp_task. rewrite Hh. unfold GetTaskStatus. wp_step. wp_step. apply wp_task, wp_ret.
  fold (status_of (ts_t s)). wp_step.
  eapply (wp_mono _ (λ b s1, ok s1 ∧ ext s s1 ∧ keeps_status s s1 ∧
    (b = false → status_of (ts_t s) ≠ TaskStatus.kFailed))).
  - destruct (bool_decide_reflect (status_of (ts_t s) = TaskStatus.kFailed)).
    + by apply wp_ret.
    + apply (pres_use keeps_status); [done|pres_auto|]. auto.
  - intros b s1 (H1 & He1 & [Hst1 _] & Hb). destruct b; wp_step.
    + wp_step. apply wp_SetTaskStatus; [done|]. intros s2 H2 He2 Hst2 Hpre _.
      eapply (wp_mono _ (λ _ s3, ok s3 ∧ ext s2 s3 ∧ status_of (ts_t s3) = status_of (ts_t s2) ∧
        t_pre_status (ts_t s3) = t_pre_status (ts_t s2))).
      * destruct (ok_info s2 H2) as (h' & j & _ & Hj & _).
        unfold UpdateTaskInfo_db, GetCurrnetTime. wp_step. apply wp_world, wp_env_call.
        intros now e. wp_step. eapply wp_upd_info; [done|].
        wp_step. apply wp_task. wp_step. eapply wp_info; [done|]. apply wp_world, wp_modify.
        pose (w2 := set_w_env e (ts_w s2)). destruct (ok_set_info (mkTS (ts_t s2) w2) j
          (Info.upd_time (set_delete_time now) j)) as [Ho He]; [done..|split_and!; done|].
        split_and!; [done| | |done].
        -- unfold ext, task_id. simpl. rewrite Hj. split_and!; try done.
           split; [done|by apply prefix_app_r].
        -- unfold status_of. simpl. by rewrite Hj.
      * intros _ s3 (H3 & He3 & Hst3 & Hp3). apply wp_ret, HQ; [done|by do 2 (etrans; [done|])|].
        left. split; congruence.
    + apply wp_ret. wp_step. apply HQ; [done..|]. right. split; [done|auto].
Qed.

Lemma pres_DeleteToRecycleBin : pres any DeleteToRecycleBin.
Proof. apply pres_of_wp. intros s Q Hs HQ. apply wp_DeleteToRecycleBin; auto. Qed.

(** Where [Restore] may take a task that was [old] before its deletion. *)
Definition restored (old new : TaskStatus) : Prop :=
  match old with
  | TaskStatus.kFinished => new = TaskStatus.kFinished
  | TaskStatus.kParsing => new = TaskStatus.kParsing
  | TaskStatus.kPaused => new = TaskStatus.kPaused
  | TaskStatus.kSeeding => new = TaskStatus.kSeeding
  | TaskStatus.kWaitting | TaskStatus.kDownloading => new = TaskStatus.kWaitting
  | TaskStatus.kFailed => new = TaskStatus.kFailed ∨ new = TaskStatus.kDownloading
  | _ => new = TaskStatus.kFinished ∨ new = TaskStatus.kPaused
  end.

Lemma pres_SetDownloadingCategory s (Q : unit → TS → Prop) :
  ok s → status_of (ts_t s) = TaskStatus.kFailed →
  (∀ s', ok s' → ext s s' → status_of (ts_t s') = TaskStatus.kFailed → Q tt s') →
  wp (upd_info (Info.SetTaskCategory TaskCategory.kDownloadingTask)) Q s.
Proof.
  intros Hs Hst HQ. destruct (ok_info s Hs) as (h & i & Hh & Hi & Hc & Hk & Hb).
  unfold status_of in Hst. rewrite Hi in Hst. eapply wp_upd_info; [done|].
  destruct (ok_set_info s i (Info.SetTaskCategory TaskCategory.kDownloadingTask i)) as [Ho He];
    [done..| |by apply HQ].
  split_and!; [|done..]. intros _. unfold category_ok. simpl. by rewrite Hst.
Qed.

Ltac set_status := apply wp_SetTaskStatus; [done|];
  let s' := fresh "s" in intros s' ?? ? _ _.
Ltac keep := apply (pres_use keeps_status); [done|pres_auto|];
  let s' := fresh "s" in intros ? s' ?? [? _].

Lemma wp_Restore s (Q : bool → TS → Prop) :
  ok s →
  (∀ s', ok s' → ext s s' → restored (t_pre_status (ts_t s)) (status_of (ts_t s')) → Q true s') →
  wp Restore Q s.
Proof.
  intros Hs HQ. destruct (ok_info s Hs) as (h & i & Hh & _). unfold Restore.
  wp_step. apply wp_task. rewrite Hh. wp_step.
  eapply (wp_mono _ (λ _ s', ok s' ∧ ext s s' ∧
    restored (t_pre_status (ts_t s)) (status_of (ts_t s')))).
  2: { intros _ s' (?&?&?). by apply wp_ret, HQ. }
  assert (Hset : ∀ x, wp (SetTaskStatus x)
    (λ _ s', ok s' ∧ ext s s' ∧ status_of (ts_t s') = x) s) by (intros x; by set_status).
  assert (Hstamp : ∀ x, wp (SetTaskStatus x ;; SetCreateTimeStamp)
    (λ _ s', ok s' ∧ ext s s' ∧ status_of (ts_t s') = x) s).
  { intros x. wp_step. set_status. keep. split_and!; [done|by etrans|congruence]. }
  destruct (t_pre_status (ts_t s)); simpl; try first [apply Hset|apply Hstamp].
  - wp_step. set_status. wp_step. apply pres_SetDownloadingCategory; [done..|]. intros s1 ???.
    wp_step. apply wp_Resume; [done|]. intros b s2 ?? Hr. keep.
    split_and!; [done|by do 3 (etrans; [done|])|].
    destruct b; simpl in Hr; [|left; congruence]. destruct Hr as [?|[??]]; [|congruence].
    right. congruence.
  - wp_step. keep. destruct a.
    + set_status. split_and!; [done|by etrans|by left].
    + set_status. split_and!; [done|by etrans|by right].
  - wp_step. keep. destruct a.
    + set_status. split_and!; [done|by etrans|by left].
    + set_status. split_and!; [done|by etrans|by right].
  - wp_step. apply (pres_use any); [done|pres_auto|]. intros b s1 ?? _.
    set_status. split_and!; [done|by etrans|done].
  - wp_step. keep. destruct a.
    + set_status. split_and!; [done|by etrans|by left].
    + set_status. split_and!; [done|by etrans|by right].
Qed.

Lemma pres_Restore : pres any Restore.
Proof. apply pres_of_wp. intros s Q Hs HQ. apply wp_Restore; auto. Qed.

Lemma pres_LinkTask_Parse : pres any LinkTask_Parse.
Proof. unfold LinkTask_Parse. pres_auto. Qed.
Lemma pres_LinkTask_UpdateProgressInfo : pres any LinkTask_UpdateProgressInfo.
Proof. unfold LinkTask_UpdateProgressInfo. pres_auto. Qed.
Lemma pres_BtTaskBase_UpdateProgressInfo : pres any BtTaskBase_UpdateProgressInfo.
Proof. unfold BtTaskBase_UpdateProgressInfo. pres_auto. Qed.
Lemma pres_UpdateProgressInfo : pres any UpdateProgressInfo.
Proof.
  apply pres_dispatch; [apply _|apply pres_kind_of..];
    auto using pres_LinkTask_UpdateProgressInfo, pres_BtTaskBase_UpdateProgressInfo.
Qed.
Lemma pres_UpdateAndPublishTorrentInfo : pres keeps_status UpdateAndPublishTorrentInfo.
Proof. unfold UpdateAndPublishTorrentInfo. pres_auto. Qed.
Lemma pres_BtTaskBase_SyncParse : pres keeps_status BtTaskBase_SyncParse.
Proof. unfold BtTaskBase_SyncParse. pres_auto. Qed.
Lemma pres_SetParseFinish b : pres keeps_status (upd_task (set_t_parse_finished b)).
Proof. pres_auto. Qed.
Lemma pres_GetUploadRate : pres keeps_status GetUploadRate.
Proof. unfold GetUploadRate. pres_auto. Qed.

(** The product of the limit fits an [int] by [cfg_ok]. *)
Lemma pres_CheckSeedingLimits : pres any CheckSeedingLimits.
Proof.
  unfold CheckSeedingLimits. intros s Hs. wp_step. apply wp_gets.
  assert (Hlim : int_mul (GetSeedingTimeLimitValue (w_cfg (ts_w s))) 60 =
    Some (GetSeedingTimeLimitValue (w_cfg (ts_w s)) * 60)).
  { destruct Hs as [_ Hc]. unfold int_mul. unfold cfg_ok in Hc. by rewrite Hc. }
  rewrite Hlim. apply (pres_apply any); [done|]. simpl. pres_auto.
Qed.

End MoreOperations.
#[export] Hint Resolve pres_Cancel pres_CheckTaskIsFailed pres_DeleteToRecycleBin pres_Restore
  pres_UpdateProgressInfo pres_UpdateAndPublishTorrentInfo pres_BtTaskBase_SyncParse
  pres_GetUploadRate pres_CheckSeedingLimits : pres.

(** ** Operations that never start a download *)
Section NoStart.
  Context `{E : Env} `{bl : BaseLib}.
  Implicit Types s : TS.

Definition no_start s s' : Prop :=
  status_of (ts_t s') = TaskStatus.kDownloading → status_of (ts_t s) = TaskStatus.kDownloading.

#[global] Instance no_start_preorder : PreOrder no_start.
Proof. unfold no_start. split; [by intros ?|]. intros x y z ??. auto. Qed.

Lemma pres_no_start {A} (m : ST TS A) : pres keeps_status m → pres no_start m.
Proof.
  intros Hm s Hs. apply (pres_use keeps_status); [done..|]. intros a s' ?? [Hst _].
  split_and!; [done..|]. unfold no_start. congruence.
Qed.

Lemma pres_SetTaskStatus_no_start x :
  bool_decide (x = TaskStatus.kDownloading) = false → pres no_start (SetTaskStatus x).
Proof.
  intros Hx%bool_decide_eq_false s Hs. apply wp_SetTaskStatus; [done|]. intros s' ?? Hst _ _.
  split_and!; [done..|]. unfold no_start. congruence.
Qed.

Lemma pres_Pause_no_start : pres no_start Pause.
Proof.
  intros s Hs. apply wp_Pause; [done|]. intros b s' ?? Hst. split_and!; [done..|].
  unfold no_start. rewrite Hst. by destruct b.
Qed.
End NoStart.
#[export] Hint Resolve pres_SetTaskStatus_no_start pres_Pause_no_start : pres.
#[export] Hint Extern 6 (pres no_start _) =>
  apply pres_no_start; solve [eauto 3 with pres] : pres.
#[export] Hint Extern 1 (bool_decide _ = false) => reflexivity : pres.

Section NoStartOperations.
  Context `{E : Env} `{bl : BaseLib}.

Lemma pres_DeleteToRecycleBin_no_start : pres no_start DeleteToRecycleBin.
Proof. unfold DeleteToRecycleBin. pres_auto. Qed.

Lemma pres_CheckTaskIsFailed_no_start : pres no_start CheckTaskIsFailed.
Proof. unfold CheckTaskIsFailed, UpdateAndPublishFailedInfo. pres_auto. Qed.

Lemma pres_ExceCancel_no_start b r : pres no_start (ExceCancel b r).
Proof.
  intros s Hs. unfold ExceCancel. wp_step. apply wp_task.
  assert (Hbase : pres no_start (TaskBase_ExceCancel b r))
    by (unfold TaskBase_ExceCancel; pres_auto).
  destruct (t_kind (ts_t s)) eqn:Hk; try by apply Hbase.
  unfold BtTorrentTask_ExceCancel. destruct r; [|apply wp_ret; split_and!; [done|reflexivity..]].
  wp_step. apply (pres_use no_start); [done|pres_auto|]. intros [] s1 H1 He1 Hn1;
    [|apply wp_ret; by split_and!].
  wp_step. apply (pres_use no_start); [done|pres_auto|]. intros _ s2 H2 He2 Hn2. wp_step.
  assert (He : ext s s2) by (by etrans).
  wp_call pres_DeleteTorrentFile; [done|by rewrite (proj1 He), Hk|].
  destruct H as (H3 & He3 & Hst3 & _). apply wp_ret. split_and!; [done|by etrans|].
  intros Hd. apply Hn1, Hn2. congruence.
Qed.

Lemma pres_Cancel_no_start b : pres no_start (Cancel b).
Proof.
  intros s Hs. unfold Cancel. wp_step. apply (pres_use no_start); [done|pres_auto|].
  intros hash s1 H1 He1 Hn1. apply (wp_Release _ _).
  apply (pres_use no_start); [done|apply pres_ExceCancel_no_start|]. intros ok2 s2 H2 He2 Hn2.
  assert (ext s s2) by (etrans; done).
  assert (no_start s s2) by (etrans; done).
  by destruct (last_ref _ _ && ok2).
Qed.
End NoStartOperations.
#[export] Hint Resolve pres_DeleteToRecycleBin_no_start pres_CheckTaskIsFailed_no_start
  pres_Cancel_no_start : pres.

Section ParseSpec.
  Context `{E : Env} `{bl : BaseLib}.
  Implicit Types s : TS.

(** A magnet whose metadata is already there runs its callback, which must be
    set; the callback's arguments are the user and the task. *)
Lemma wp_Parse s (Q : bool * option (string * string) → TS → Prop) :
  ok s → (t_kind (ts_t s) = KMagnet → t_parse_callback (ts_t s) = true) →
  (∀ r s', ok s' → ext s s' → no_start s s' →
     (∀ a b, r.2 = Some (a, b) → t_kind (ts_t s) = KMagnet ∧
        a = cf_user_id (t_context_field (ts_t s)) ∧ b = task_id (ts_t s)) → Q r s') →
  wp Parse Q s.
Proof.
  intros Hs Hcb HQ. unfold Parse. wp_step. apply wp_task.
  destruct (t_kind (ts_t s)) eqn:Hk.
  1,2: wp_step; apply (pres_use no_start); [done|unfold LinkTask_Parse; pres_auto|];
    intros b s1 H1 He1 Hn1; apply wp_ret, HQ; [done..|]; intros ?? [=].
  - unfold BtTorrentTask_Parse. wp_step. wp_step. apply wp_task, wp_ret.
    apply wp_ret, HQ; [done|reflexivity..|]. intros ?? [=].
  - destruct (ok_info s Hs) as (h & i & Hh & _). unfold BtMagnetTask_Parse.
    wp_step. apply wp_task. rewrite Hh. wp_step.
    apply (pres_use keeps_status); [done|pres_auto|]. intros [] s1 H1 He1 [Hst1 Hcb1]; simpl.
    + destruct (ok_info s1 H1) as (h1 & i1 & Hh1 & Hi1 & Ho1).
      wp_step. apply wp_task. wp_step. eapply wp_info; [done|].
      rewrite Hcb1, Hcb by done. wp_step. apply wp_upd_task, wp_ret.
      destruct He1 as (E1&E2&E3&E4&E5). apply HQ.
      * destruct H1 as [(?&?&?&?) ?]. split; [|done]. split; [done|]. by eexists.
      * unfold ext, task_id in *. simpl. by rewrite E1, E2, E3, E4.
      * unfold no_start. simpl. fold (status_of (ts_t s1)).
        change (status_of (set_t_parse_callback false (ts_t s1))) with (status_of (ts_t s1)).
        congruence.
      * simpl. intros a b [= <- <-]. split_and!; [done|by rewrite E4|].
        rewrite <-E3. unfold task_id. by rewrite Hi1.
    + wp_step. apply (pres_use no_start); [done|pres_auto|]. intros _ s2 H2 He2 Hn2.
      wp_step. apply (pres_use no_start); [done|pres_auto|]. intros _ s3 H3 He3 Hn3.
      apply wp_ret, HQ; [done|by do 2 (etrans; [done|])| |intros ?? [=]].
      intros Hd. apply Hn3, Hn2 in Hd. congruence.
Qed.
End ParseSpec.
