(* ===== verification/TaskFactory.v ===== *)
(** * [task_factory.cc]: choosing and constructing a task

    [GetDownloadType] classifies a source by its scheme (or as an existing
    torrent file), [CreateTask] constructs the matching class when its engine
    library is loaded. *)

From S2P Require Import Prelude CppBase PathUnit DownloadTypes ErrorDesc TaskInfo InfoStore.
From S2P Require Import SystemConfig ServerWorld TaskRefCount TaskObj TaskSpec.
#[local] Open Scope prog_scope.

(** The loaded library of a class and its factory function. *)
Definition IsLoaded `{Env} (k : TaskKind) : env → bool :=
  match k with
  | KCurl => IsLoadedNetCurl
  | KMule => IsLoadedNetMule
  | KTorrent | KMagnet => IsLoadedNetBt
  end.

Definition factory `{Env} (k : TaskKind) : env → option Handle * env :=
  match k with
  | KCurl => CreateCurlDownloadTask
  | KMule => CreateMuleDownloadTask
  | KTorrent => CreateTorrentFileDownloadTask
  | KMagnet => CreateMagnetDownloadTask
  end.

(** ** Laws of the loaded engine libraries and of the torrent directory *)
Class EnvLaws `{BaseLib} (E : Env) : Prop := {
  (** a loaded library's factory returns an object *)
  factory_loaded : ∀ k e, IsLoaded k e = true → is_Some (factory k e).1;
  (** reading the clock does not unload a library *)
  clock_keeps_loaded : ∀ k e, IsLoaded k (TimeNow e).2 = IsLoaded k e;
  (** the private copy of a torrent file has a path that fits the engine's buffer *)
  torrent_path_fits : ∀ e e',
    (String.length (FilePath_Append (GetTorrentFileSavePath e).1
       (BaseFilePathFromU8 (c_str (GenerateRandomV4 e').1 +:+ ".torrent"))) ≤ kUrlLength)%nat;
  (** [base::RandInt(min, max)] is inclusive *)
  RandInt_range : ∀ a b e, a <= b → a <= (RandInt a b e).1 <= b
}.

Definition str_eqb (a b : string) : bool := bool_decide (a = b).

Section Factory.
  Context `{E : Env} `{bl : BaseLib}.

(** [TaskFactory::GetDownloadType] *)
Definition url_type (exists_ : bool) (url : string) : DownloadType :=
  let str := ToLowerASCII (c_str url) in
  if str_eqb (substr 0 7 str) "ed2k://" then DownloadType.kEd2k
  else if exists_ && str_contains ".torrent" url then DownloadType.kTorrent
  else if str_eqb (substr 0 20 str) "magnet:?xt=urn:btih:" then DownloadType.kMagnet
  else if str_eqb (substr 0 7 str) "http://" then DownloadType.kHttp
  else if str_eqb (substr 0 8 str) "https://" then DownloadType.kHttps
  else if str_eqb (substr 0 6 str) "ftp://" then DownloadType.kFtp
  else if str_eqb (substr 0 7 str) "ftps://" then DownloadType.kFtps
  else if str_eqb (substr 0 7 str) "sftp://" then DownloadType.kSftp
  else DownloadType.kUnknown.

Definition GetDownloadType (url : string) : ST World DownloadType :=
  exists_ ← env_read (PathExists (BaseFilePathFromU8 url));
  ret (url_type exists_ url).

(** The class that handles a type. *)
Definition class_of (type : DownloadType) : option TaskKind :=
  match type with
  | DownloadType.kEd2k => Some KMule
  | DownloadType.kTorrent => Some KTorrent
  | DownloadType.kMagnet => Some KMagnet
  | DownloadType.kHttp | DownloadType.kHttps | DownloadType.kFtp | DownloadType.kFtps
  | DownloadType.kSftp => Some KCurl
  | DownloadType.kUnknown => None
  end.

(** [TaskFactory::CreateTask]: the task, and the caller's parameter after it. *)
Definition CreateTask (task_param : TaskParam) (context_field : ContextField)
    : ST World (option Task * TaskParam) :=
  type ← GetDownloadType (p_url task_param);
  let task_param := set_p_type type task_param in
  match class_of type with
  | None => ret (None, task_param)
  | Some k =>
      loaded ← env_read (IsLoaded k);
      if loaded then
        '(t, task_param) ← make_task k task_param context_field;
        ret (Some t, task_param)
      else ret (None, task_param)
  end.

(** ** Sources that may become a BitTorrent task *)
Definition may_be_bt (url : string) : bool :=
  str_contains ".torrent" url ||
  str_eqb (substr 0 20 (ToLowerASCII (c_str url))) "magnet:?xt=urn:btih:".

(** A parameter the factory can be given: if its source may be a torrent or a
    magnet, it was allocated as a [TorrentTaskParam] and fits the buffers. *)
Definition param_safe (p : TaskParam) : Prop :=
  may_be_bt (p_url p) = true → bt_param_ok p.

Lemma class_of_kind b url k :
  class_of (url_type b url) = Some k → kind_of_type k (url_type b url).
Proof. by destruct (url_type b url); intros [= <-]. Qed.

Lemma class_of_bt b url k :
  class_of (url_type b url) = Some k → is_link k = false → may_be_bt url = true.
Proof.
  unfold url_type, may_be_bt.
  destruct (str_eqb (substr 0 7 _) "ed2k://"); [by intros [= <-]|].
  destruct (str_contains ".torrent" url); [done|]. rewrite andb_false_r.
  destruct (str_eqb (substr 0 20 _) "magnet:?xt=urn:btih:"); [done|].
  repeat match goal with |- context [if ?b then _ else _] => destruct b end;
    simpl; by intros [= <-].
Qed.

(** ** What construction establishes *)

(** A fresh task: waiting, never started, holding the caller's parameter. *)
Definition fresh_task (k : TaskKind) (p : TaskParam) (cf : ContextField) (t : Task)
    (p' : TaskParam) : Prop :=
  t_kind t = k ∧ t_context_field t = cf ∧ status_of t = TaskStatus.kWaitting ∧
  started t = false ∧ (∃ i, t_info t = Some i ∧ ti_param i = p' ∧ ti_is_valid i = true) ∧
  p_id p' = p_id p ∧ p_save_path p' = p_save_path p ∧ p_file_name p' = p_file_name p ∧
  p_is_from_db_resume p' = p_is_from_db_resume p ∧
  p_torrent p' = p_torrent p ∧ task_ok t ∧ (is_link k = true → ∃ h, p' = set_p_hash h p).

Context {laws : EnvLaws E}.

Lemma wp_run_on {A} t (m : ST TS A) (Q : A * Task → World → Prop) w :
  wp m (λ a s, Q (a, ts_t s) (ts_w s)) (mkTS t w) → wp (run_on t m) Q w.
Proof. unfold wp, run_on. by destruct (m _) as [[a s]|]. Qed.

Lemma wp_eng {A} (f : Handle → env → A * env) (Q : A → TS → Prop) s h :
  t_impl (ts_t s) = Some h →
  (∀ a e, Q a (mkTS (ts_t s) (set_w_env e (ts_w s)))) → wp (eng f) Q s.
Proof.
  intros Hh HQ. unfold eng. wp_step. eapply wp_impl; [done|]. by apply wp_world, wp_env_call.
Qed.

Lemma wp_GetTaskHash (Q : string → TS → Prop) s h :
  t_impl (ts_t s) = Some h →
  (∀ hash e, Q hash (mkTS (ts_t s) (set_w_env e (ts_w s)))) → wp GetTaskHash Q s.
Proof.
  intros Hh HQ. unfold GetTaskHash. wp_step. eapply wp_eng; [done|]. intros a e.
  wp_step. apply wp_task, wp_ret, HQ.
Qed.

Lemma wp_BtTaskBase_SetDownloadParam (Q : unit → TS → Prop) s h i :
  t_impl (ts_t s) = Some h → t_info (ts_t s) = Some i → bt_param_ok (ti_param i) →
  (∀ hash e, Q tt (mkTS (set_t_info (Some (Info.upd_param (set_p_hash hash) i)) (ts_t s))
                     (set_w_env e (ts_w s)))) →
  wp BtTaskBase_SetDownloadParam Q s.
Proof.
  intros Hh Hi ([x Hx] & H1 & H2 & H3 & H4) HQ. unfold BtTaskBase_SetDownloadParam.
  wp_step. eapply wp_info; [done|]. rewrite Hx, !memcpy_array_fits by done.
  do 5 (wp_step; eapply wp_of_option; [done|]).
  wp_step. eapply wp_eng; [done|]. intros _ e. wp_step. eapply wp_GetTaskHash; [done|].
  intros hash e'. eapply wp_upd_info; [done|]. apply HQ.
Qed.

(** ** Constructors *)
Section Ctor.
  Context (param : TaskParam) (cf : ContextField).

Lemma wp_LinkTask_ctor k i w0 (Q : TaskParam → TS → Prop) :
  is_link k = true → ti_param i = param → is_Some (factory k (w_env w0)).1 →
  (∀ h hash e, Q (set_p_hash hash param)
     (mkTS (mkTask k (Some h) (Some (Info.SetTaskParam (set_p_hash hash param) i)) cf EmptyString
              false TaskStatus.kWaitting (negb (p_is_parse_task param)) false)
           (set_w_env e w0))) →
  wp (LinkTask_ctor param) Q
    (mkTS (mkTask k None (Some i) cf EmptyString false TaskStatus.kWaitting
             (negb (p_is_parse_task param)) false) w0).
Proof.
  intros Hk Hp [h Hh] HQ. unfold LinkTask_ctor. wp_step. apply wp_task. wp_step. apply wp_gets.
  wp_step. apply wp_world, wp_env_call_exact. simpl.
  assert (Hc : ((if bool_decide (k = KCurl) then CreateCurlDownloadTask
                 else CreateMuleDownloadTask) (w_env w0)).1 = Some h) by (by destruct k).
  rewrite Hc. wp_step. apply wp_upd_task. simpl. wp_step.
  eapply (wp_mono _ (λ _ s', ∃ e, s' = mkTS (mkTask k (Some h) (Some i) cf EmptyString false
    TaskStatus.kWaitting (negb (p_is_parse_task param)) false) (set_w_env e w0))).
  - case_bool_decide.
    + wp_step. eapply wp_eng; [done|]. intros _ e. eapply wp_eng; [done|]. intros _ e'.
      by exists e'.
    + eapply wp_eng; [done|]. intros _ e. by exists e.
  - intros _ s' [e ->]. wp_step. eapply wp_GetTaskHash; [done|]. intros hash e'.
    wp_step. unfold share_param. wp_step. apply wp_task. simpl.
    eapply wp_upd_info; [done|]. apply wp_ret, HQ.
Qed.

Lemma wp_ModifyTorrentPath s (Q : TaskParam → TS → Prop) :
  (∀ url e, ((String.length (p_url param) ≤ kUrlLength → String.length url ≤ kUrlLength)%nat) →
     Q (set_p_url url param) (mkTS (ts_t s) (set_w_env e (ts_w s)))) →
  wp (ModifyTorrentPath param) Q s.
Proof.
  intros HQ. assert (Hid : set_p_url (p_url param) param = param) by by destruct param.
  assert (Hs : mkTS (ts_t s) (set_w_env (w_env (ts_w s)) (ts_w s)) = s) by by destruct s as [? []].
  unfold ModifyTorrentPath. destruct (_ && _).
  - wp_step. apply wp_world, wp_env_call_exact. wp_step. apply wp_world, wp_env_call_exact.
    wp_step. apply wp_world, wp_env_call. intros [] e; apply wp_ret.
    + apply HQ. intros _. apply torrent_path_fits.
    + rewrite <-Hid. by apply HQ.
  - apply wp_ret. rewrite <-Hid at 1. rewrite <-Hs. by apply HQ.
Qed.
End Ctor.

Lemma bt_param_ok_url p url :
  bt_param_ok p → ((String.length (p_url p) ≤ kUrlLength → String.length url ≤ kUrlLength)%nat) →
  bt_param_ok (set_p_url url p).
Proof. intros (?&?&?&?&?) Hu. split_and!; simpl; auto. Qed.

Lemma wp_GetBtDownloadTaskImpl k ty w0 (Q : option Handle → World → Prop) :
  kind_of_type k ty → is_link k = false → is_Some (factory k (w_env w0)).1 →
  (∀ h e, Q (Some h) (set_w_env e w0)) → wp (GetBtDownloadTaskImpl ty) Q w0.
Proof.
  intros Hty Hk [h Hh] HQ.
  destruct k; try done; simpl in Hty; subst ty; simpl in Hh;
    apply wp_env_call_exact; rewrite Hh; apply HQ.
Qed.

Lemma wp_make_task k param cf w (Q : Task * TaskParam → World → Prop) :
  p_is_from_db_resume param = false → kind_of_type k (p_type param) →
  (is_link k = false → bt_param_ok param) → IsLoaded k (w_env w) = true →
  (∀ t p' e, fresh_task k param cf t p' → Q (t, p') (set_w_env e w)) →
  wp (make_task k param cf) Q w.
Proof.
  intros Hdb Hty Hbt Hl HQ. unfold make_task, TaskBase_new, IsResumeFromDb. rewrite Hdb. cbn zeta.
  assert (is_Some (factory k (TimeNow (w_env w)).2).1)
    by (apply factory_loaded; by rewrite clock_keeps_loaded).
  wp_step. unfold GetCurrnetTime. wp_step. apply wp_env_call_exact, wp_ret.
  wp_step. apply wp_run_on. destruct (is_link k) eqn:Hk.
  - eapply (wp_LinkTask_ctor param cf); [done..|]. intros h hash e. apply wp_ret, HQ. simpl.
    split_and!; try done; [by eexists| |by eexists]. split; [done|]. eexists. split; [done|].
    split_and!; [done..|]. simpl. congruence.
  - unfold BtTaskBase_ctor. wp_step. apply wp_world.
    eapply wp_GetBtDownloadTaskImpl; [done..|]. intros h e.
    wp_step. apply wp_upd_task. unfold IsResumeFromDb. rewrite Hdb. simpl.
    wp_step. apply wp_ModifyTorrentPath. intros url e1 Hurl. simpl.
    pose proof (bt_param_ok_url _ _ (Hbt eq_refl) Hurl) as Hok.
    wp_step. eapply wp_upd_info; [done|]. wp_step.
    eapply wp_BtTaskBase_SetDownloadParam; [done..|]. intros hash e2.
    wp_step. eapply wp_info; [done|]. apply wp_ret. wp_step. apply HQ. simpl.
    split_and!; try done; [by eexists| |congruence]. split; [done|]. eexists. split; [done|].
    split_and!; done.
Qed.

(** [CreateTask] on a new parameter: an unknown source or an absent library
    gives no task; otherwise a fresh one of the class its source selects. *)
Lemma wp_CreateTask param cf w (Q : option Task * TaskParam → World → Prop) :
  p_is_from_db_resume param = false → param_safe param →
  (∀ p', p_id p' = p_id param → p_url p' = p_url param → Q (None, p') w) →
  (∀ k ty t p' e, fresh_task k (set_p_type ty param) cf t p' →
     Q (Some t, p') (set_w_env e w)) →
  wp (CreateTask param cf) Q w.
Proof.
  intros Hdb Hsafe HN HS. unfold CreateTask, GetDownloadType. wp_step. wp_step.
  apply wp_gets, wp_ret. destruct (class_of _) as [k|] eqn:Hc; [|by apply wp_ret, HN].
  wp_step. apply wp_gets. destruct (IsLoaded k (w_env w)) eqn:Hl; [|by apply wp_ret, HN].
  wp_step. apply wp_make_task; [done|by eapply class_of_kind| |done|].
  - intros Hk. apply Hsafe. by eapply class_of_bt.
  - intros t p' e Hf. apply wp_ret. by eapply (HS k).
Qed.

(** ** Restoring a task from the database *)

(** An object constructed for a stored task: no [task_info_] yet. *)
Definition blank_task (k : TaskKind) (p : TaskParam) (cf : ContextField) (t : Task)
    (p' : TaskParam) : Prop :=
  t_kind t = k ∧ t_context_field t = cf ∧ is_Some (t_impl t) ∧ t_info t = None ∧
  kind_of_type k (p_type p') ∧ (is_link k = false → bt_param_ok p') ∧
  p_id p' = p_id p ∧ p_is_from_db_resume p' = true.

Lemma wp_make_task_db k param cf w (Q : Task * TaskParam → World → Prop) :
  p_is_from_db_resume param = true → kind_of_type k (p_type param) →
  (is_link k = false → bt_param_ok param) → IsLoaded k (w_env w) = true →
  (∀ t p' e, blank_task k param cf t p' → Q (t, p') (set_w_env e w)) →
  wp (make_task k param cf) Q w.
Proof.
  intros Hdb Hty Hbt Hl HQ. unfold make_task, TaskBase_new, IsResumeFromDb. rewrite Hdb.
  pose proof (factory_loaded k _ Hl) as Hf.
  wp_step. apply wp_ret. wp_step. apply wp_run_on. destruct (is_link k) eqn:Hk.
  - destruct Hf as [h Hh].
    unfold LinkTask_ctor. wp_step. apply wp_task. wp_step. apply wp_gets.
    wp_step. apply wp_world, wp_env_call_exact. simpl.
    assert (Hc : ((if bool_decide (k = KCurl) then CreateCurlDownloadTask
                   else CreateMuleDownloadTask) (w_env w)).1 = Some h) by (by destruct k).
    rewrite Hc. wp_step. apply wp_upd_task. simpl. wp_step.
    eapply (wp_mono _ (λ _ s', ∃ e, s' = mkTS (mkTask k (Some h) None cf EmptyString false
      TaskStatus.kWaitting (negb (p_is_parse_task param)) false) (set_w_env e w))).
    + case_bool_decide.
      * wp_step. eapply wp_eng; [done|]. intros _ e. eapply wp_eng; [done|]. intros _ e'.
        by exists e'.
      * eapply wp_eng; [done|]. intros _ e. by exists e.
    + intros _ s' [e ->]. wp_step. eapply wp_GetTaskHash; [done|]. intros hash e'.
      wp_step. unfold share_param. wp_step. apply wp_task. simpl. wp_step. wp_step. wp_step.
      apply HQ. split_and!; try done. congruence.
  - unfold BtTaskBase_ctor. wp_step. apply wp_world.
    eapply wp_GetBtDownloadTaskImpl; [done..|]. intros h e.
    wp_step. apply wp_upd_task. unfold IsResumeFromDb. rewrite Hdb. simpl.
    wp_step. wp_step. apply HQ. split_and!; try done. auto.
Qed.

Lemma wp_CreateTask_db param cf w (Q : option Task * TaskParam → World → Prop) :
  p_is_from_db_resume param = true → param_safe param →
  (∀ p', p_id p' = p_id param → Q (None, p') w) →
  (∀ k t p' e, blank_task k param cf t p' → Q (Some t, p') (set_w_env e w)) →
  wp (CreateTask param cf) Q w.
Proof.
  intros Hdb Hsafe HN HS. unfold CreateTask, GetDownloadType. wp_step. wp_step.
  apply wp_gets, wp_ret. destruct (class_of _) as [k|] eqn:Hc; [|by apply wp_ret, HN].
  wp_step. apply wp_gets. destruct (IsLoaded k (w_env w)) eqn:Hl; [|by apply wp_ret, HN].
  wp_step. apply wp_make_task_db; [done|by eapply class_of_kind| |done|].
  - intros Hk. apply Hsafe. by eapply class_of_bt.
  - intros t p' e Hf. apply wp_ret. by apply (HS k).
Qed.

(** [ResumeDataFromDb] turns a blank object into a well-formed task. *)
Lemma wp_ResumeDataFromDb k param cf t p' i w (Q : unit → TS → Prop) :
  blank_task k param cf t p' → category_ok i → ti_param i = p' → cfg_ok (w_cfg w) →
  (∀ s', ok s' → t_kind (ts_t s') = k → t_context_field (ts_t s') = cf →
     task_id (ts_t s') = p_id param → world_step w (ts_w s') → Q tt s') →
  wp (ResumeDataFromDb i) Q (mkTS t w).
Proof.
  intros (Hk & Hcf & [h Hh] & Hi & Hty & Hbt & Hid & Hdb) Hcat Hp Hcfg HQ.
  pose (s1 := mkTS (set_t_info (Some i) t) w).
  assert (H1 : ok s1).
  { split; [|done]. split; [by eexists|]. exists i. split; [done|].
    split_and!; [done|simpl; by rewrite Hk, Hp|simpl; by rewrite Hk, Hp]. }
  assert (HQ' : ∀ s', ok s' → ext s1 s' → Q tt s').
  { intros s' Hs' (E1&E2&E3&E4&E5). unfold task_id in E3 at 2. simpl in *.
    apply HQ; [done|congruence..|done]. }
  unfold ResumeDataFromDb. wp_step. apply wp_task. simpl.
  destruct (is_link (t_kind t)) eqn:Hl.
  - unfold LinkTask_ResumeDataFromDb. wp_step. apply wp_upd_task. fold s1.
    apply (pres_use any); [done| |by intros [] ???; auto].
    unfold CurlTask_ResumeFromDb. pres_auto.
  - unfold BtTaskBase_ResumeDataFromDb. wp_step. apply wp_upd_task. fold s1. wp_step.
    wp_call pres_BtTaskBase_SetDownloadParam; [done..|]. destruct H as (H2 & He2 & _).
    apply (pres_use any); [done|pres_auto|]. intros [] s3 H3 He3 _. apply HQ'; [done|by etrans].
Qed.
End Factory.
