(* ===== verification/UserInfo.v ===== *)
(** * [user_info.cc]: one user's settings and statistics

    The settings that bound what a user's tasks may do, and the handler that a
    settings change runs. *)

From S2P Require Import Prelude CppBase BaseRef DownloadTypes SystemConfig.

Record UserInfo := mkUserInfo {
  ui_statistics_info : DownloadStatisticsInfo;
  ui_context_field : ContextField;
  ui_task_limit_count : Z;              (** [std::atomic<uint32_t>] *)
  ui_priority_small_task_switch : bool;
  ui_small_task_size : Z;               (** [std::atomic<int64_t>], in KB *)
  ui_user_id : string
}.

Definition set_ui_statistics v u := mkUserInfo v (ui_context_field u) (ui_task_limit_count u)
  (ui_priority_small_task_switch u) (ui_small_task_size u) (ui_user_id u).
Definition set_ui_context_field v u := mkUserInfo (ui_statistics_info u) v
  (ui_task_limit_count u) (ui_priority_small_task_switch u) (ui_small_task_size u) (ui_user_id u).
Definition set_ui_task_limit_count v u := mkUserInfo (ui_statistics_info u)
  (ui_context_field u) v (ui_priority_small_task_switch u) (ui_small_task_size u) (ui_user_id u).
Definition set_ui_priority v u := mkUserInfo (ui_statistics_info u) (ui_context_field u)
  (ui_task_limit_count u) v (ui_small_task_size u) (ui_user_id u).
Definition set_ui_small_task_size v u := mkUserInfo (ui_statistics_info u)
  (ui_context_field u) (ui_task_limit_count u) (ui_priority_small_task_switch u) v (ui_user_id u).

Definition GetTaskLimitCount (u : UserInfo) : Z := ui_task_limit_count u.
Definition IsPrioritySmallLimitTask (u : UserInfo) : bool := ui_priority_small_task_switch u.
Definition GetSmallTaskSize (u : UserInfo) : Z := ui_small_task_size u.

Section UserSettings.
  Context `{bl : BaseLib}.

Definition store_limit_count (value : string) (u : UserInfo) : UserInfo :=
  let count := StringToInt value in
  if 0 <? count then set_ui_task_limit_count (to_uint32 count) u else u.
Definition store_priority (value : string) (u : UserInfo) : UserInfo :=
  set_ui_priority (negb (StringToInt value =? 0)) u.
Definition store_small_size (value : string) (u : UserInfo) : UserInfo :=
  set_ui_small_task_size (StringToInt value) u.

(** [dict->FindString(key)] *)
Definition FindString (key : string) (d : Dict) : option string :=
  match dict_get key d with Some (VString s) => Some s | _ => None end.

Definition on_found (o : option string) (f : string → UserInfo → UserInfo) (u : UserInfo) :=
  match o with Some s => f s u | None => u end.

(** [UserInfo::ParseUserSettings], given the settings dictionary. *)
Definition ParseUserSettings (root_dict : Dict) (u : UserInfo) : UserInfo :=
  match dict_get "download" root_dict with
  | Some (VDict data_dict) =>
      on_found (FindString "small_task_size" data_dict) store_small_size
        (on_found (FindString "priority_small_task_switch" data_dict) store_priority
           (on_found (FindString "task_limit_count" data_dict) store_limit_count u))
  | _ => u
  end.

(** [UserInfo::UserInfo(user_id)]: the settings dictionary it parses is a
    fresh, empty one, and the subscription is empty too. *)
Definition UserInfo_new (user_id : string) : UserInfo :=
  ParseUserSettings []
    (mkUserInfo DownloadStatisticsInfo_init ContextField_init 5 false (1024 * 30) user_id).

(** [UserInfo::OnSubscribeCallbackResult] *)
Definition UserInfo_OnSubscribeCallbackResult (key value : string) (u : UserInfo) : UserInfo :=
  if str_contains "task_limit_count" key then store_limit_count value u
  else if str_contains "priority_small_task_switch" key then store_priority value u
  else if str_contains "small_task_size" key then store_small_size value u
  else u.

(** ** The settings stay in range *)
Definition user_ok (u : UserInfo) : Prop :=
  1 <= ui_task_limit_count u <= int32_max ∧ in_int32 (ui_small_task_size u) = true.

Lemma user_ok_new id : user_ok (UserInfo_new id).
Proof. split; [|done]. unfold int32_max. simpl. lia. Qed.

Lemma StringToInt_in_int32 `{!BaseLibLaws bl} v : in_int32 (StringToInt v) = true.
Proof.
  unfold StringToInt. destruct (base_StringToInt v) eqn:Hv; [|done].
  by eapply StringToInt_range.
Qed.

Lemma user_ok_OnSubscribe `{!BaseLibLaws bl} key value u :
  user_ok u → user_ok (UserInfo_OnSubscribeCallbackResult key value u).
Proof.
  intros [Hl Hs]. pose proof (StringToInt_in_int32 value) as Hv.
  unfold UserInfo_OnSubscribeCallbackResult, store_limit_count, store_priority, store_small_size.
  repeat case_match; try done.
  apply in_int32_spec in Hv. split; [|done]. unfold to_uint32. simpl.
  unfold int32_max. rewrite Z.mod_small; lia.
Qed.

(** Whatever key and value a settings change carries, the task limit stays
    a positive [int] and the small-task size stays in range: a malformed, zero
    or negative limit is ignored instead of stopping every download. *)
Theorem OnSubscribe_limit_positive `{!BaseLibLaws bl} key value u :
  user_ok u → user_ok (UserInfo_OnSubscribeCallbackResult key value u).
Proof. apply user_ok_OnSubscribe. Qed.
End UserSettings.

Lemma OnSubscribe_limit_positive_witness :
  user_ok (UserInfo_OnSubscribeCallbackResult "user/u1/task_limit_count" "-3" (UserInfo_new "u1")).
Proof. apply OnSubscribe_limit_positive, user_ok_new. Defined.
