(* ===== verification/UserSelfMgr.v ===== *)
(** * [user_self_mgr.cc]: one user's tasks

    The state of a [UserSelfMgr] object and every operation that runs on the
    user's sequence.  (Each public operation of the source starts by re-posting
    itself to that sequence when called from another one; the definitions are
    the bodies that then run.)  A task held by [task_list_] is denoted by its
    key; a task under construction is a local object. *)

From S2P Require Import Prelude CppBase PathUnit DownloadTypes ErrorDesc TaskInfo InfoStore.
From S2P Require Import SystemConfig ServerWorld TaskRefCount TaskObj TaskFactory UserInfo.
#[local] Open Scope prog_scope.

Record UserSelfMgr := mkMgr {
  m_user_id : string;
  m_task_list : gmap string Task;
  m_user_info : option UserInfo;
  m_publish_timer : bool;                (** the repeating timer exists and runs *)
  m_threshold : Z                        (** [comparator_.threshold_] *)
}.

Definition set_m_task_list v m :=
  mkMgr (m_user_id m) v (m_user_info m) (m_publish_timer m) (m_threshold m).
Definition set_m_user_info v m :=
  mkMgr (m_user_id m) (m_task_list m) v (m_publish_timer m) (m_threshold m).
Definition set_m_publish_timer v m :=
  mkMgr (m_user_id m) (m_task_list m) (m_user_info m) v (m_threshold m).
Definition set_m_threshold v m :=
  mkMgr (m_user_id m) (m_task_list m) (m_user_info m) (m_publish_timer m) v.

(** ** Orders on tasks *)
Definition create_time (i : TaskInfo) : Z := ts_create_time (ti_time i).
Definition file_size (i : TaskInfo) : Z := fa_file_size (bi_task_attribute (ti_base i)).

Definition AscendingByCreateTime (left right : TaskInfo) : bool :=
  create_time left <? create_time right.
Definition DecendingByCreateTime (left right : TaskInfo) : bool :=
  create_time right <? create_time left.
Definition AscendingByTaskSise (left right : TaskInfo) : bool :=
  if negb (file_size left =? file_size right) then file_size left <? file_size right
  else create_time left <? create_time right.

(** [TaskComparator::operator()] *)
Definition TaskComparator (threshold : Z) (left right : TaskInfo) : bool :=
  if (file_size left <? threshold) && (file_size right <? threshold)
  then file_size left <? file_size right
  else if (threshold <=? file_size left) && (threshold <=? file_size right)
  then create_time left <? create_time right
  else file_size left <? file_size right.

(** [UserSelfMgr::GetOrderFunc] *)
Definition GetOrderFunc (style : SortStyle) (asc : bool) : TaskInfo → TaskInfo → bool :=
  match asc, style with
  | true, SortStyle.kTaskSize => AscendingByTaskSise
  | false, SortStyle.kCreateTime => DecendingByCreateTime
  | _, _ => AscendingByCreateTime
  end.

(** [UserSelfMgr::GetAction] *)
Definition GetAction (operation : TaskOperation) : string :=
  match operation with
  | TaskOperation.kCreate => "create"
  | TaskOperation.kPause => "pause"
  | TaskOperation.kPauseAll => "pause_all"
  | TaskOperation.kResume => "resume"
  | TaskOperation.kResumeAll => "resume_all"
  | TaskOperation.kDelete => "delete"
  | TaskOperation.kDeleteCategory => "delete_category"
  | TaskOperation.kRetry => "retry"
  | TaskOperation.kRetryAll => "retry_all"
  | TaskOperation.kClean => "clean"
  | TaskOperation.kCleanCategory => "clean_category"
  | TaskOperation.kRestore => "restore"
  | TaskOperation.kRestoreAll => "restore_all"
  | TaskOperation.kParse => EmptyString
  end.

(** The [success_list] and [failed_list] under construction. *)
Definition Lists : Type := list Value * list Value.
Definition no_lists : Lists := ([], []).
Definition Append_success (v : Value) (l : Lists) : Lists := (l.1 ++ [v], l.2).
Definition Append_failed (v : Value) (l : Lists) : Lists := (l.1, l.2 ++ [v]).

(** The error of [UserSelfMgr::AssembleMessage]'s switch. *)
Definition operation_error (operation : TaskOperation) (error : Z) : Z :=
  match operation with
  | TaskOperation.kCreate =>
      if error =? DownloadErrorCode.kNormal then DownloadErrorCode.kCreateTaskFailed else error
  | TaskOperation.kPause | TaskOperation.kPauseAll => DownloadErrorCode.kPauseTaskFailed
  | TaskOperation.kResume | TaskOperation.kResumeAll => DownloadErrorCode.kResumeTaskFailed
  | TaskOperation.kDelete | TaskOperation.kDeleteCategory => DownloadErrorCode.kDeleteTaskFailed
  | TaskOperation.kRetry | TaskOperation.kRetryAll => DownloadErrorCode.kRetryTaskFailed
  | TaskOperation.kClean | TaskOperation.kCleanCategory => DownloadErrorCode.kCleanTaskFailed
  | TaskOperation.kRestore | TaskOperation.kRestoreAll => DownloadErrorCode.kRestoreTaskFailed
  | TaskOperation.kParse => error
  end.

(** [UserSelfMgr::AssembleMessage] *)
Definition AssembleMessage (operation : TaskOperation) (context_field : ContextField)
    (l : Lists) (error : Z) : Dict :=
  let error := match l.2 with [] => error | _ => operation_error operation error end in
  [("data", VDict
      [("action", VString (GetAction operation)); ("success_list", VList l.1);
       ("failed_list", VList l.2); ("operation_id", VString (cf_call_id context_field))]);
   ("errno", VInt (DownloadErrNoToOutErrNo error));
   ("msg", VString (GetDownloadErrorDesc error))].

(** [UserSelfMgr::BuildCreateMessage] *)
Definition BuildCreateMessage (error : Z) (task_id same_task_id : string) (l : Lists) : Lists :=
  if negb (error =? 0) then
    Append_failed (VDict
      [("task_id", VString task_id); ("same_task_id", VString same_task_id);
       ("err_code", VInt (DownloadErrNoToOutErrNo error));
       ("msg", VString (GetDownloadErrorDesc error))]) l
  else Append_success (VString task_id) l.

(** [utils::IsValidFilename], POSIX: no slash, NUL, space, tab or newline. *)
Definition invalid_chars : list ascii :=
  ["/"%char; "000"%char; "032"%char; "009"%char; "010"%char].
Definition IsValidFilename (file_name : string) : bool :=
  negb (existsb (λ c, bool_decide (c ∈ invalid_chars)) (str_chars file_name)).

(** ** Requests *)
Record SourceData := mkSourceData {
  sd_task_id : string; sd_source : string; sd_save_path : string; sd_file_name : string;
  sd_file_size : string
}.
Record CreateTorrentRequest := mkTorrentRequest {
  tr_task_id : string; tr_source : string; tr_save_path : string; tr_task_name : string;
  tr_is_private_cloud_source : bool; tr_torrent_item_select_list : list TorrenFileItemSelect
}.

Section Mgr.
  Context `{E : Env} `{bl : BaseLib} `{ss : StdSort}.

Record US := mkUS { us_m : UserSelfMgr; us_w : World }.

Definition set_us_refs (r : gmap string Z) (s : US) : US := mkUS (us_m s) (set_w_refs r (us_w s)).

#[global] Instance us_refs_lens : RefsLens (λ s : US, w_refs (us_w s)) set_us_refs.
Proof. split; [done| by intros [? []] | done]. Qed.

Definition mgr : ST US UserSelfMgr := gets us_m.
Definition task_list : ST US (gmap string Task) := gets (λ s, m_task_list (us_m s)).
Definition upd_mgr (f : UserSelfMgr → UserSelfMgr) : ST US unit :=
  modify (λ s, mkUS (f (us_m s)) (us_w s)).
Definition on_world {A} (m : ST World A) : ST US A := λ s,
  match m (us_w s) with Some (a, w) => Some (a, mkUS (us_m s) w) | None => None end.

(** A member call on the task that [task_list_] holds under [id]. *)
Definition on_task {A} (id : string) (m : ST TS A) : ST US A := λ s,
  match m_task_list (us_m s) !! id with
  | None => None
  | Some t =>
      match m (mkTS t (us_w s)) with
      | Some (a, s') =>
          Some (a, mkUS (set_m_task_list (<[id := ts_t s']> (m_task_list (us_m s))) (us_m s))
                        (ts_w s'))
      | None => None
      end
  end.

(** A member call on a task not yet in the list. *)
Definition on_local {A} (t : Task) (m : ST TS A) : ST US (A * Task) := on_world (run_on t m).

(** [task_list_.erase(id)] while a local pointer keeps the task until the end
    of the block: the destructor runs last. *)
Definition erase (id : string) : ST US unit :=
  l ← task_list;
  t ← of_option (l !! id);
  upd_mgr (set_m_task_list (delete id l)) ;;
  on_world (drop_task t).

Definition FindTask (task_id : string) : ST US bool :=
  l ← task_list; ret (match l !! task_id with Some _ => true | None => false end).

(** [UserSelfMgr::SetTaskContextField] *)
Definition SetTaskContextField (id : string) : ST US unit :=
  m ← mgr;
  match m_user_info m with
  | Some u => on_task id (SetContextField (ui_context_field u))
  | None => ret tt
  end.

(** [UserSelfMgr::IsCanStart] *)
Definition is_downloading (t : Task) : bool :=
  match t_info t with
  | Some i => bool_decide (ti_status i = TaskStatus.kDownloading)
  | None => false
  end.
Definition downloading_num (l : gmap string Task) : Z :=
  Z.of_nat (size (filter (λ kt, is_downloading kt.2 = true) l)).
Definition task_limit (m : UserSelfMgr) : Z :=
  match m_user_info m with Some u => to_int32 (GetTaskLimitCount u) | None => 5 end.
Definition IsCanStart : ST US bool :=
  m ← mgr; ret (negb (task_limit m <=? downloading_num (m_task_list m))).

(** The tasks in map order with their [task_info_], when none is null. *)
Definition task_entries (l : gmap string Task) : option (list (string * TaskInfo)) :=
  mapM (λ id, match l !! id with
              | Some t => match t_info t with Some i => Some (id, i) | None => None end
              | None => None
              end) (map_keys l).

(** [UserSelfMgr::SortTask]: the queue as keys.  The comparators dereference
    every [task_info_]. *)
Definition SortTask (sort_style : SortStyle) (is_ascending : bool) : ST US (list string) :=
  m ← mgr;
  entries ← of_option (task_entries (m_task_list m));
  match m_user_info m with
  | Some u =>
      if IsPrioritySmallLimitTask u then
        let threshold := to_int64 (GetSmallTaskSize u * 1024) in
        upd_mgr (set_m_threshold threshold) ;;
        ret (fst <$> std_sort (λ x y, TaskComparator threshold x.2 y.2) entries)
      else ret (fst <$> std_sort (λ x y, GetOrderFunc sort_style is_ascending x.2 y.2) entries)
  | None => ret (fst <$> std_sort (λ x y, GetOrderFunc sort_style is_ascending x.2 y.2) entries)
  end.

(** [UserSelfMgr::BuildMessageData] *)
Definition BuildMessageData (task_id : string) (err : Z) (operation : TaskOperation) (l : Lists)
    : ST US Lists :=
  found ← FindTask task_id;
  if negb found then ret l
  else if negb (err =? 0) then
    status ← on_task task_id GetTaskStatus; category ← on_task task_id GetTaskCategory;
    let call_result := ErrNoToCallResult err in
    ret (Append_failed (VDict
      [("task_id", VString task_id); ("task_status", status_value status);
       ("task_category", category_value category);
       ("err_code", VInt (to_int32 (cr_errcode call_result)));
       ("msg", VString (cr_msg call_result))]) l)
  else
    d ← on_task task_id (TaskObj.BuildMessageData operation);
    ret (Append_success (VDict d) l).

(** ** Creation *)

(** [UserSelfMgr::CreateSavePath] *)
Definition CreateSavePath (save_path : string) : ST US Z :=
  let file_path := BaseFilePathFromU8 save_path in
  found ← on_world (env_read (DirectoryExists file_path));
  if negb found then
    ok ← on_world (env_call (CreateDirectory file_path));
    ret (if ok : bool then DownloadErrorCode.kNormal else DownloadErrorCode.kCreateDirFailed)
  else ret DownloadErrorCode.kNormal.

(** [UserSelfMgr::IsProtectedPath] *)
Definition IsProtectedPath (save_path : string) : Z :=
  let convert_temp_path := RemoveLastSlash (UnifiedSlash save_path) in
  if IsProtectedInPath ProtectedPaths convert_temp_path [] then DownloadErrorCode.kProtectedPath
  else DownloadErrorCode.kNormal.

(** [UserSelfMgr::HasWriteAccess] *)
Definition HasWriteAccess (save_path : string) : ST US Z :=
  guid ← on_world (env_call GenerateRandomV4);
  let guid_file := c_str save_path +:+ "/" +:+ c_str guid +:+ ".tmp" in
  ok ← on_world (env_call (OpenForWrite (BaseFilePathFromU8 guid_file)));
  on_world (DeleteFile guid_file) ;;
  ret (if ok : bool then DownloadErrorCode.kNormal else DownloadErrorCode.kCreateFileFailed).

(** [UserSelfMgr::IsTaskExisted] *)
Definition same_task (task_param param : TaskParam) : bool :=
  bool_decide (p_url param = p_url task_param) ||
  (negb (str_empty (p_hash task_param)) && negb (str_empty (p_hash param)) &&
   bool_decide (p_hash task_param = p_hash param)).
Definition IsTaskExisted (task_param : TaskParam) : ST US string :=
  l ← task_list;
  entries ← of_option (task_entries l);
  ret (match List.find (λ e, same_task task_param (ti_param e.2)) entries with
       | Some e => p_id (ti_param e.2)
       | None => EmptyString
       end).

(** The parameter shared between the caller and the task. *)
Definition shared_param (task : option Task) (param : TaskParam) : TaskParam :=
  match task with
  | Some t => match t_info t with Some i => ti_param i | None => param end
  | None => param
  end.

(** [UserSelfMgr::CreateTask]: the error, the task, the caller's parameter and
    [same_task_id]. *)
Definition Created : Type := Z * option Task * TaskParam * string.

(** The checks on a freshly constructed task. *)
Definition CreateTask_checks (t : Task) (task_param : TaskParam) (context_field : ContextField)
    : ST US Created :=
  same_task_id ← IsTaskExisted task_param;
  if negb (str_empty same_task_id) then
    ret (DownloadErrorCode.kExistSameTask, Some t, task_param, same_task_id)
  else
    '(err_code, t) ← on_local t CheckCondition;
    let task_param := shared_param (Some t) task_param in
    if negb (err_code =? DownloadErrorCode.kNormal) then
      ret (err_code, Some t, task_param, EmptyString)
    else
      download_type ← on_world (GetDownloadType (p_url task_param));
      existed ←
        (if (bool_decide (download_type = DownloadType.kTorrent) ||
             bool_decide (download_type = DownloadType.kMagnet)) &&
            negb (str_empty (p_file_name task_param))
         then on_world (env_read (PathExists (BaseFilePathFromU8
                (p_save_path task_param +:+ "/" +:+ p_file_name task_param))))
         else ret false);
      if existed : bool then
        ret (DownloadErrorCode.kFileNameExisted, Some t, task_param, EmptyString)
      else
        upd_mgr (λ m, set_m_user_info (set_ui_context_field context_field <$> m_user_info m) m) ;;
        ret (DownloadErrorCode.kNormal, Some t, task_param, EmptyString).

Definition CreateTask (task_param : TaskParam) (context_field : ContextField) : ST US Created :=
  let fail err := ret (err, None, task_param, EmptyString) in
  if negb (IsValidFilename (p_file_name task_param)) then
    fail DownloadErrorCode.kInvalidFileName
  else
    err_code ← CreateSavePath (p_save_path task_param);
    if negb (err_code =? DownloadErrorCode.kNormal) then fail err_code
    else if negb (IsProtectedPath (p_save_path task_param) =? DownloadErrorCode.kNormal) then
      fail (IsProtectedPath (p_save_path task_param))
    else
      err_code ← HasWriteAccess (p_save_path task_param);
      if negb (err_code =? DownloadErrorCode.kNormal) then fail err_code
      else
        found ← FindTask (p_id task_param);
        if found : bool then fail DownloadErrorCode.kTaskIdExisted
        else
          '(task, task_param) ← on_world (TaskFactory.CreateTask task_param context_field);
          match task with
          | None => ret (DownloadErrorCode.kCreateTaskFailed, None, task_param, EmptyString)
          | Some t => CreateTask_checks t task_param context_field
          end.

(** [UserSelfMgr::AddTask] *)
Definition AddTask (task_id : string) (t : Task) : ST US bool :=
  l ← task_list;
  match l !! task_id with
  | Some _ => ret false
  | None =>
      upd_mgr (set_m_task_list (<[task_id := t]> l)) ;;
      m ← mgr;
      match m_user_info m with
      | Some u =>
          i ← of_option (t_info t);
          if negb (IsResumeFromDb (ti_param i)) then
            on_world (post_db (MakeSureTaskInfoTableExist (cf_user_id (ui_context_field u)))) ;;
            on_world (post_db (AddTaskInfo (cf_user_id (ui_context_field u)) (TaskInfo_copy i)))
          else ret tt
      | None => ret tt
      end ;;
      hash ← on_task task_id GetTaskHash;
      AddRef (λ s : US, w_refs (us_w s)) set_us_refs hash ;;
      ret true
  end.

(** [UserSelfMgr::ExecMagnet] *)
Definition ExecMagnet (t : Task) : ST US (Z * Task) :=
  on_local (set_t_parse_callback true t) Start.

(** [UserSelfMgr::ExecTorrent] *)
Definition ExecTorrent (t : Task) : ST US (Z * Task) :=
  can_start ← IsCanStart;
  c ← gets (λ s, w_cfg (us_w s));
  let set_download_now b :=
    i ← info;
    ext ← of_option (p_torrent (ti_param i));
    upd_info (Info.upd_param (set_p_torrent (Some (set_tp_is_download_now b ext)))) in
  on_local t
    ((if can_start : bool then
        set_download_now true ;;
        if negb (IsBtAutoDownload c) then
          set_download_now false ;; SetTaskStatus TaskStatus.kPaused
        else SetTaskStatus TaskStatus.kDownloading
      else SetTaskStatus TaskStatus.kWaitting) ;;
     Start).

(** [UserSelfMgr::ExecNoneBt] *)
Definition ExecNoneBt (t : Task) : ST US (Z * Task) :=
  can_start ← IsCanStart;
  if can_start : bool then on_local t Start else ret (DownloadErrorCode.kNormal, t).

(** The [switch] of [UserSelfMgr::ExecCreate]: [kTorrent] falls through. *)
Definition ExecStart (t : Task) : ST US (Z * Task) :=
  '(download_type, t) ← on_local t TaskObj.GetDownloadType;
  match download_type with
  | DownloadType.kMagnet => ExecMagnet t
  | DownloadType.kTorrent => '(_, t) ← ExecTorrent t; ExecNoneBt t
  | _ => ExecNoneBt t
  end.

(** The first block of [UserSelfMgr::ExecCreate], once [CreateTask] succeeded;
    the flag says whether [task_list_] now holds the task. *)
Definition ExecAdd (t : Task) (id : string) : ST US (Z * Task * bool) :=
  '(err_code, t) ← ExecStart t;
  if negb (err_code =? DownloadErrorCode.kNormal) then ret (err_code, t, false)
  else
    added ← AddTask id t;
    if added : bool then ret (DownloadErrorCode.kNormal, t, true)
    else
      '(_, t) ← on_local t (Cancel true);
      ret (DownloadErrorCode.kAddTaskFailed, t, false).

(** Removing the torrent files of a task that could not be created. *)
Definition DeleteTorrentFiles (err_code : Z) (task : option Task) (task_param : TaskParam)
    : ST US unit :=
  if negb (err_code =? DownloadErrorCode.kNormal) then
    type ← on_world (GetDownloadType (p_url task_param));
    match type, task with
    | DownloadType.kTorrent, Some _ =>
        on_world (DeleteFile (p_url task_param)) ;;
        if err_code =? DownloadErrorCode.kFileNameExisted then ret tt
        else
          ext ← of_option (p_torrent task_param);
          if negb (tp_is_private_cloud_source ext) then
            on_world (DeleteFile (tp_front_trans_url ext)) ;; ret tt
          else ret tt
    | _, _ => ret tt
    end
  else ret tt.

(** [UserSelfMgr::ExecCreate]: the tasks to parse and the lists, extended. *)
Definition ExecCreate (task_param : TaskParam) (context_field : ContextField)
    (acc : list string * Lists) : ST US (list string * Lists) :=
  '(err_code, task, task_param, same_task_id) ← CreateTask task_param context_field;
  match task with
  | Some t =>
      '(err_code, t, added) ←
        (if err_code =? DownloadErrorCode.kNormal then ExecAdd t (p_id task_param)
         else ret (err_code, t, false));
      let task_param := shared_param (Some t) task_param in
      DeleteTorrentFiles err_code (Some t) task_param ;;
      (if added : bool then ret tt else on_world (destroy_task t)) ;;
      ret (if added then acc.1 ++ [p_id task_param] else acc.1,
           BuildCreateMessage err_code (p_id task_param) same_task_id acc.2)
  | None =>
      DeleteTorrentFiles err_code None task_param ;;
      ret (acc.1, BuildCreateMessage err_code (p_id task_param) same_task_id acc.2)
  end.

(** ** Control of existing tasks *)
Definition err_of (ok : bool) (err : Z) : Z := if ok then DownloadErrorCode.kNormal else err.
Definition is_status (x : TaskStatus) (id : string) : ST US bool :=
  status ← on_task id GetTaskStatus; ret (bool_decide (status = x)).

(** [UserSelfMgr::PauseTask] *)
Definition PauseTask (id : string) : ST US Z :=
  status ← on_task id GetTaskStatus;
  ok ← match status with
       | TaskStatus.kDownloading => on_task id TaskObj.Pause
       | TaskStatus.kWaitting | TaskStatus.kParsing =>
           on_task id (SetTaskStatus TaskStatus.kPaused) ;; ret true
       | TaskStatus.kSeeding =>
           ok ← on_task id TaskObj.Pause;
           when ok (on_task id (SetTaskStatus TaskStatus.kFinished)) ;; ret ok
       | _ => ret false
       end;
  ret (err_of ok DownloadErrorCode.kPauseTaskFailed).

(** [UserSelfMgr::TryResume] *)
Definition TryResume (id : string) : ST US Z :=
  can_start ← IsCanStart;
  if can_start : bool then
    is_started ← on_task id IsStarted;
    if is_started : bool then
      ok ← on_task id TaskObj.Resume; ret (err_of ok DownloadErrorCode.kResumeTaskFailed)
    else on_task id Start
  else on_task id (SetTaskStatus TaskStatus.kWaitting) ;; ret DownloadErrorCode.kNormal.

(** A task found by its id, or [kTaskIdIsNotExist]. *)
Definition with_task (task_id : string) (k : ST US Z) : ST US Z :=
  found ← FindTask task_id;
  if negb found then ret DownloadErrorCode.kTaskIdIsNotExist
  else SetTaskContextField task_id ;; k.

(** [UserSelfMgr::ExecPauseOperate] *)
Definition ExecPauseOperate (task_id : string) : ST US Z := with_task task_id (PauseTask task_id).

(** [UserSelfMgr::ExecResumeOperate] *)
Definition ExecResumeOperate (task_id : string) : ST US Z :=
  with_task task_id
    (type ← on_task task_id TaskObj.GetDownloadType;
     status ← on_task task_id GetTaskStatus;
     if bool_decide (status = TaskStatus.kPaused) then
       is_parsing ←
         (if bool_decide (type = DownloadType.kMagnet) then
            finished ← on_task task_id IsParseFinish;
            if finished : bool then on_task task_id PublishTaskBaseInfo ;; ret false
            else on_task task_id (SetTaskStatus TaskStatus.kParsing) ;; ret true
          else ret false);
       if is_parsing : bool then ret DownloadErrorCode.kNormal else TryResume task_id
     else if bool_decide (status = TaskStatus.kFailed) then
       ok ← on_task task_id TaskObj.Retry;
       if negb ok then ret DownloadErrorCode.kNormal else TryResume task_id
     else if (bool_decide (type = DownloadType.kTorrent) ||
              bool_decide (type = DownloadType.kMagnet)) &&
             bool_decide (status = TaskStatus.kFinished) then
       ok ← on_task task_id TaskObj.Resume;
       when ok (on_task task_id (SetTaskStatus TaskStatus.kSeeding)) ;;
       ret (err_of ok DownloadErrorCode.kResumeTaskFailed)
     else ret DownloadErrorCode.kResumeTaskFailed).

(** [GetTaskInfo()->IsValid()], [GetTaskInfo()->SetIsValid(b)] *)
Definition task_IsValid (id : string) : ST US bool :=
  on_task id (i ← info; ret (ti_is_valid i)).
Definition task_SetIsValid (id : string) (b : bool) : ST US unit :=
  on_task id (upd_info (Info.SetIsValid b)).

(** [UserSelfMgr::ExecRetryOperate] *)
Definition ExecRetryOperate (task_id : string) : ST US Z :=
  with_task task_id
    (failed ← is_status TaskStatus.kFailed task_id;
     valid ← (if failed : bool then ret true else task_IsValid task_id);
     if failed || negb valid then
       ok ← on_task task_id TaskObj.Retry;
       err ← (if negb ok then ret DownloadErrorCode.kNormal else TryResume task_id);
       task_SetIsValid task_id true ;; ret err
     else ret DownloadErrorCode.kNormal).

(** [UserSelfMgr::ExecRestoreOperate] *)
Definition ExecRestoreOperate (task_id : string) : ST US Z :=
  with_task task_id
    (valid ← task_IsValid task_id;
     if valid : bool then
       ok ← on_task task_id TaskObj.Restore;
       let err := err_of ok DownloadErrorCode.kRestoreTaskFailed in
       waiting ← is_status TaskStatus.kWaitting task_id;
       can_start ← (if waiting : bool then IsCanStart else ret false);
       if can_start : bool then
         is_started ← on_task task_id IsStarted;
         if is_started : bool then on_task task_id TaskObj.Resume ;; ret err
         else on_task task_id Start
       else ret err
     else ExecRetryOperate task_id).

(** The removal of a recycled task for good: [Cancel], the database row, the
    list entry. *)
Definition DeleteForGood (task_id : string) (is_delete_local_file check_finished : bool)
    (on_success : ST US Lists) (on_failure : Z → ST US Lists) : ST US (Z * Lists) :=
  finished ← (if is_delete_local_file && check_finished
              then on_task task_id IsDownloadFinished else ret false);
  deleted ← (if finished : bool then on_task task_id DeleteLocalFile else ret true);
  if negb deleted then
    l ← on_failure DownloadErrorCode.kDeleteLocalFileFailed;
    ret (DownloadErrorCode.kDeleteLocalFileFailed, l)
  else
    ok ← on_task task_id (Cancel is_delete_local_file);
    if negb ok then
      l ← on_failure DownloadErrorCode.kDeleteTaskFailed;
      ret (DownloadErrorCode.kDeleteTaskFailed, l)
    else
      m ← mgr;
      on_world (post_db (DeleteTaskInfo (m_user_id m) task_id)) ;;
      l ← on_success;
      erase task_id ;;
      ret (DownloadErrorCode.kNormal, l).

(** The failure entry of [UserSelfMgr::ExecDeleteOperate]. *)
Definition delete_failure (task_id : string) (err : Z) (l : Lists) : Lists :=
  let call_result := ErrNoToCallResult err in
  Append_failed (VDict
    [("task_id", VString task_id); ("err_code", VInt (to_int32 (cr_errcode call_result)));
     ("msg", VString (cr_msg call_result))]) l.

(** [UserSelfMgr::ExecDeleteOperate] *)
Definition ExecDeleteOperate (task_id : string) (is_delete_local_file is_judge_task_valid : bool)
    (l : Lists) : ST US (Z * Lists) :=
  let fail err := ret (err, delete_failure task_id err l) in
  let succeed :=
    d ← on_task task_id (TaskObj.BuildMessageData TaskOperation.kDelete);
    ret (Append_success (VDict d) l) in
  found ← FindTask task_id;
  if negb found then fail DownloadErrorCode.kTaskIdIsNotExist
  else
    SetTaskContextField task_id ;;
    valid ← (if is_judge_task_valid then task_IsValid task_id else ret false);
    if valid : bool then fail DownloadErrorCode.kCleanTaskFailed
    else
      category ← on_task task_id GetTaskCategory;
      if bool_decide (category = TaskCategory.kRecyclebinTask) then
        DeleteForGood task_id is_delete_local_file true succeed
          (λ err, ret (delete_failure task_id err l))
      else
        ok ← on_task task_id DeleteToRecycleBin;
        if negb ok then fail DownloadErrorCode.kDeleteTaskFailed
        else l' ← succeed; ret (DownloadErrorCode.kNormal, l').

(** One turn of the loop of [UserSelfMgr::ExecDeleteCategoryOperate]. *)
Definition DeleteCategory_step (task_category : TaskCategory) (is_delete_local_file : bool)
    (l : Lists) (task_id : string) : ST US Lists :=
  let message err := BuildMessageData task_id err TaskOperation.kDeleteCategory l in
  SetTaskContextField task_id ;;
  if bool_decide (task_category = TaskCategory.kAll) then
    '(_, l) ← DeleteForGood task_id true false (message DownloadErrorCode.kNormal) message;
    ret l
  else
    current_category ← on_task task_id GetTaskCategory;
    if negb (bool_decide (current_category = task_category)) then ret l
    else if bool_decide (task_category = TaskCategory.kRecyclebinTask) then
      '(_, l) ← DeleteForGood task_id is_delete_local_file true
                  (message DownloadErrorCode.kNormal) message;
      ret l
    else
      on_task task_id DeleteToRecycleBin ;;
      message DownloadErrorCode.kNormal.

(** [UserSelfMgr::ExecDeleteCategoryOperate]: erasing the visited element does
    not disturb the iteration over the remaining keys. *)
Definition ExecDeleteCategoryOperate (task_category : TaskCategory) (is_delete_local_file : bool)
    (l : Lists) : ST US Lists :=
  tasks ← task_list;
  fold_each (map_keys tasks) l (DeleteCategory_step task_category is_delete_local_file).

(** One turn of the loop of [UserSelfMgr::ExecCleanCategoryOperate]. *)
Definition CleanCategory_step (task_category : TaskCategory) (l : Lists) (task_id : string)
    : ST US Lists :=
  let message err := BuildMessageData task_id err TaskOperation.kCleanCategory l in
  SetTaskContextField task_id ;;
  category ← on_task task_id GetTaskCategory;
  valid ← task_IsValid task_id;
  if negb (bool_decide (category = task_category)) || valid then ret l
  else if bool_decide (task_category = TaskCategory.kRecyclebinTask) then
    '(_, l) ← DeleteForGood task_id true false (message DownloadErrorCode.kNormal) message;
    ret l
  else
    on_task task_id DeleteToRecycleBin ;;
    message DownloadErrorCode.kNormal.

(** [UserSelfMgr::ExecCleanCategoryOperate] *)
Definition ExecCleanCategoryOperate (task_category : TaskCategory) (l : Lists) : ST US Lists :=
  tasks ← task_list;
  fold_each (map_keys tasks) l (CleanCategory_step task_category).

(** ** The periodic check *)

(** One turn of the loop of [UserSelfMgr::CheckTaskCountLimit]; the locals are
    [downloading_count] and [is_reach]. *)
Definition CheckTaskCountLimit_step (task_limit_count : Z) (acc : Z * bool) (id : string)
    : ST US (Z * bool) :=
  let '(downloading_count, is_reach) := acc in
  status ← on_task id GetTaskStatus;
  if bool_decide (status = TaskStatus.kDownloading) then
    if task_limit_count <? downloading_count + 1 then
      on_task id TaskObj.Pause ;;
      on_task id (SetTaskStatus TaskStatus.kWaitting) ;;
      ret (downloading_count + 1, true)
    else ret (downloading_count + 1, is_reach)
  else
    can_start ← (if bool_decide (status = TaskStatus.kWaitting) then IsCanStart else ret false);
    if can_start : bool then
      is_started ← on_task id IsStarted;
      err ← (if is_started : bool then on_task id TaskObj.Resume ;; ret DownloadErrorCode.kNormal
             else on_task id Start);
      when (negb (err =? DownloadErrorCode.kNormal))
        (on_task id (upd_info (Info.upd_progress (Progress.SetErrorCode err)))) ;;
      ret (downloading_count, true)
    else ret acc.

(** [UserSelfMgr::CheckTaskCountLimit] *)
Definition CheckTaskCountLimit (task_queue : list string) : ST US bool :=
  m ← mgr;
  '(_, is_reach) ← fold_each task_queue (0, false) (CheckTaskCountLimit_step (task_limit m));
  ret is_reach.

(** [UserSelfMgr::CheckInvalidTask] *)
Definition CheckInvalidTask (id : string) : ST US unit :=
  is_started ← on_task id IsStarted;
  if negb is_started then ret tt
  else
    valid ← task_IsValid id;
    really ← (if valid : bool then on_task id Valid else ret true);
    if negb really then on_task id PublishInvalidTaskInfo ;; task_SetIsValid id false
    else ret tt.

(** [std::static_pointer_cast<BtTaskBase>(task)], used as such. *)
Definition as_bt {A} (m : ST TS A) : ST TS A :=
  t ← task; if is_link (t_kind t) then crash else m.

(** The [kSeeding] case: whether the limits were reached, and the seeding entry. *)
Definition CheckSeeding (id : string) (seeding : list Value) : ST US (bool * list Value) :=
  type ← on_task id TaskObj.GetDownloadType;
  if bool_decide (type = DownloadType.kMagnet) || bool_decide (type = DownloadType.kTorrent) then
    rate ← on_task id (as_bt GetUploadRate);
    on_task id (upd_info (Info.upd_progress (Progress.SetUploadSpeed (d_of_Z rate)))) ;;
    reached ← on_task id (as_bt CheckSeedingLimits);
    if reached : bool then ret (true, seeding)
    else
      seeding_json ← on_task id (as_bt UpdateSeedingInfo);
      ret (false, match seeding_json with [] => seeding | _ => seeding ++ [VDict seeding_json] end)
  else ret (false, seeding).

(** The locals of [UserSelfMgr::CheckTaskAndGetTaskInfo]. *)
Record TickAcc := mkTickAcc {
  ta_downloading : list Value; ta_seeding : list Value; ta_statistics : DownloadStatisticsInfo
}.
Definition add_download_rate (d : double) (i : DownloadStatisticsInfo) :=
  mkStatistics (d_add (si_download_rate i) d) (si_upload_rate i) (si_accumulate_download i)
    (si_accumulate_upload i).
Definition add_upload_rate (d : double) (i : DownloadStatisticsInfo) :=
  mkStatistics (si_download_rate i) (d_add (si_upload_rate i) d) (si_accumulate_download i)
    (si_accumulate_upload i).

Definition task_progress (id : string) : ST US TaskProgressInfo :=
  on_task id (i ← info; ret (ti_progress i)).

(** One turn of its loop. *)
Definition CheckTask_step (acc : TickAcc) (id : string) : ST US TickAcc :=
  alive ← on_task id CheckTaskIsFailed;
  if negb alive then ret acc
  else
    status ← on_task id GetTaskStatus;
    acc ← match status with
          | TaskStatus.kPaused | TaskStatus.kWaitting =>
              d ← on_task id BuildDownloadingData;
              ret (mkTickAcc (ta_downloading acc ++ [VDict d]) (ta_seeding acc)
                     (ta_statistics acc))
          | TaskStatus.kChecking | TaskStatus.kDownloading =>
              d ← on_task id UpdateProgressInfo;
              p ← task_progress id;
              ret (mkTickAcc (ta_downloading acc ++ [VDict d]) (ta_seeding acc)
                     (add_download_rate (pi_download_speed p) (ta_statistics acc)))
          | TaskStatus.kSeeding =>
              '(reached, seeding) ← CheckSeeding id (ta_seeding acc);
              (if reached : bool then ret tt else CheckInvalidTask id) ;;
              ret (mkTickAcc (ta_downloading acc) seeding (ta_statistics acc))
          | TaskStatus.kFinished | TaskStatus.kDeleted => CheckInvalidTask id ;; ret acc
          | _ => ret acc
          end;
    p ← task_progress id;
    ret (mkTickAcc (ta_downloading acc) (ta_seeding acc)
           (add_upload_rate (pi_upload_speed p) (ta_statistics acc))).

(** Whether the tick is worth a message. *)
Definition should_publish (is_reach : bool) (acc : TickAcc) (stored : DownloadStatisticsInfo)
    : bool :=
  let now := ta_statistics acc in
  is_reach || negb (bool_decide (length (ta_seeding acc) = 0%nat)) ||
  d_ltb d_zero (si_download_rate now) || d_ltb d_zero (si_upload_rate now) ||
  (d_ltb d_zero (si_download_rate stored) && d_leb (si_download_rate now) d_zero) ||
  (d_ltb d_zero (si_upload_rate stored) && d_leb (si_upload_rate now) d_zero).

(** [UserSelfMgr::CheckTaskAndGetTaskInfo] *)
Definition CheckTaskAndGetTaskInfo : ST US Dict :=
  task_queue ← SortTask SortStyle.kCreateTime true;
  is_reach ← CheckTaskCountLimit task_queue;
  acc ← fold_each task_queue (mkTickAcc [] [] DownloadStatisticsInfo_init) CheckTask_step;
  m ← mgr;
  u ← of_option (m_user_info m);
  if should_publish is_reach acc (ui_statistics_info u) then
    upd_mgr (set_m_user_info (Some (set_ui_statistics (ta_statistics acc) u))) ;;
    ret [("data", VDict
      [("downloading", VList (ta_downloading acc)); ("seeding", VList (ta_seeding acc));
       ("statistics", VDict
          [("download_speed", ValueDouble (si_download_rate (ta_statistics acc)));
           ("upload_speed", ValueDouble (si_upload_rate (ta_statistics acc)))])])]
  else ret [].

(** [UserSelfMgr::TimerChcek] *)
Definition TimerChcek : ST US unit :=
  m ← mgr;
  match m_user_info m with
  | None => ret tt
  | Some _ =>
      tasks_json_data ← CheckTaskAndGetTaskInfo;
      m' ← mgr;
      u ← of_option (m_user_info m');
      let context_field := ui_context_field u in
      if str_empty (cf_nas_token context_field) || str_empty (cf_user_id context_field) then ret tt
      else
        match tasks_json_data with
        | [] => ret tt
        | _ => on_world (Notify "task_progress_info" tasks_json_data context_field)
        end
  end.

(** [UserSelfMgr::StartTimer], [StopTimer] (and [Stop]) *)
Definition StartTimer : ST US unit := upd_mgr (set_m_publish_timer true).
Definition StopTimer : ST US unit := upd_mgr (set_m_publish_timer false).

(** ** Parsing *)

(** [UserSelfMgr::OnParseComplete]; whatever task has the id is used as a
    [BtMagnetTask]. *)
Definition OnParseComplete (task_id result : string) : ST US unit :=
  l ← task_list;
  match l !! task_id with
  | None => ret tt
  | Some t =>
      if negb (bool_decide (t_kind t = KMagnet)) then crash
      else
        on_task task_id (upd_task (set_t_parse_finished true)) ;;
        on_task task_id (UpdateFileBaseInfo result) ;;
        on_task task_id PublishTaskBaseInfo ;;
        can_start ← IsCanStart;
        c ← gets (λ s, w_cfg (us_w s));
        if can_start : bool then
          if negb (IsBtAutoDownload c) then
            on_task task_id TaskObj.Pause ;; on_task task_id (SetTaskStatus TaskStatus.kPaused)
          else on_task task_id (SetTaskStatus TaskStatus.kDownloading)
        else
          on_task task_id TaskObj.Pause ;; on_task task_id (SetTaskStatus TaskStatus.kWaitting)
  end.

(** [UserSelfMgr::ParseTasks]: a magnet's callback is [OnParseComplete]. *)
Definition ParseTasks (tasks : list string) : ST US unit :=
  for_each tasks (λ id,
    '(_, callback) ← on_task id Parse;
    match callback with
    | Some (a, b) => OnParseComplete a b
    | None => ret tt
    end).

(** ** Public operations *)
Definition notify_lists (operate_id : string) (operation : TaskOperation)
    (context_field : ContextField) (l : Lists) : ST US unit :=
  on_world (Notify operate_id
    (AssembleMessage operation context_field l DownloadErrorCode.kNormal) context_field).

(** [UserSelfMgr::CreateLinkTask] *)
Definition link_param (d : SourceData) : TaskParam :=
  mkTaskParam (sd_task_id d) (sd_source d) (UnifiedSlash (sd_save_path d)) (sd_file_name d)
    (StringToInt64 (sd_file_size d)) DownloadType.kUnknown EmptyString EmptyString false false
    None.
Definition CreateLinkTask (source_list : list SourceData) (context_field : ContextField)
    : ST US unit :=
  '(need_parse_tasks, l) ← fold_each source_list ([], no_lists)
      (λ acc d, ExecCreate (link_param d) context_field acc);
  notify_lists "task_create" TaskOperation.kCreate context_field l ;;
  ParseTasks need_parse_tasks.

(** [UserSelfMgr::CreateTorrentTask] *)
Definition torrent_param (r : CreateTorrentRequest) : TaskParam :=
  let items := tr_torrent_item_select_list r in
  mkTaskParam (tr_task_id r) (tr_source r) (UnifiedSlash (tr_save_path r)) (tr_task_name r) 0
    DownloadType.kUnknown EmptyString EmptyString false false
    (Some (mkTorrentTaskParam items
       (Z.of_nat (length (List.filter (λ x, negb (is_is_selected x =? 0)) items)))
       (tr_is_private_cloud_source r) false (tr_source r))).
Definition CreateTorrentTask (request : CreateTorrentRequest) (context_field : ContextField)
    : ST US unit :=
  '(need_parse_tasks, l) ← ExecCreate (torrent_param request) context_field ([], no_lists);
  notify_lists "task_create" TaskOperation.kCreate context_field l ;;
  ParseTasks need_parse_tasks.

(** [UserSelfMgr::Pause], [UserSelfMgr::PauseAll] *)
Definition Pause (task_ids : list string) (context_field : ContextField) : ST US unit :=
  l ← fold_each task_ids no_lists (λ l id,
        err ← ExecPauseOperate id; BuildMessageData id err TaskOperation.kPause l);
  notify_lists "task_control" TaskOperation.kPause context_field l.

Definition PauseAll (context_field : ContextField) : ST US unit :=
  tasks ← task_list;
  l ← fold_each (map_keys tasks) no_lists (λ l id,
        status ← on_task id GetTaskStatus;
        match status with
        | TaskStatus.kDownloading | TaskStatus.kWaitting | TaskStatus.kParsing =>
            err ← ExecPauseOperate id; BuildMessageData id err TaskOperation.kPauseAll l
        | _ => ret l
        end);
  notify_lists "task_control" TaskOperation.kPauseAll context_field l.

(** The double loop of [Resume], [Retry] and [Restore]: for each task of the
    queue, once per occurrence of its id in the request. *)
Definition for_requested (queue task_ids : list string) (l : Lists)
    (body : string → Lists → string → ST US Lists) : ST US Lists :=
  fold_each queue l (λ l key,
    task_id ← on_task key (i ← info; ret (p_id (ti_param i)));
    fold_each (List.filter (λ x, bool_decide (x = task_id)) task_ids) l (body key)).

(** [UserSelfMgr::Resume], [UserSelfMgr::ResumeAll] *)
Definition Resume (task_ids : list string) (context_field : ContextField) : ST US unit :=
  queue ← SortTask SortStyle.kCreateTime true;
  l ← for_requested queue task_ids no_lists (λ _ l id,
        err ← ExecResumeOperate id; BuildMessageData id err TaskOperation.kResume l);
  notify_lists "task_control" TaskOperation.kResume context_field l.

(** The id of a queued task, as its parameter has it. *)
Definition param_id (id : string) : ST US string := on_task id (i ← info; ret (p_id (ti_param i))).

Definition ResumeAll (context_field : ContextField) : ST US unit :=
  queue ← SortTask SortStyle.kCreateTime true;
  l ← fold_each queue no_lists (λ l id,
        status ← on_task id GetTaskStatus;
        match status with
        | TaskStatus.kPaused | TaskStatus.kFailed =>
            task_id ← param_id id;
            err ← ExecResumeOperate task_id;
            BuildMessageData task_id err TaskOperation.kResumeAll l
        | _ => ret l
        end);
  notify_lists "task_control" TaskOperation.kResumeAll context_field l.

(** [UserSelfMgr::Delete], [UserSelfMgr::Clean] *)
Definition Delete (task_ids : list string) (is_delete_local_file : bool)
    (context_field : ContextField) : ST US unit :=
  l ← fold_each task_ids no_lists (λ l id,
        '(_, l) ← ExecDeleteOperate id is_delete_local_file false l; ret l);
  notify_lists "task_control" TaskOperation.kDelete context_field l.

Definition Clean (task_ids : list string) (context_field : ContextField) : ST US unit :=
  l ← fold_each task_ids no_lists (λ l id,
        '(_, l) ← ExecDeleteOperate id false true l; ret l);
  notify_lists "task_control" TaskOperation.kClean context_field l.

(** [UserSelfMgr::DeleteCategory], [UserSelfMgr::CleanCategory] *)
Definition DeleteCategory (task_category : TaskCategory) (is_delete_local_file : bool)
    (context_field : ContextField) : ST US unit :=
  l ← ExecDeleteCategoryOperate task_category is_delete_local_file no_lists;
  notify_lists "task_control" TaskOperation.kDeleteCategory context_field l.

Definition CleanCategory (task_category : TaskCategory) (context_field : ContextField)
    : ST US unit :=
  l ← ExecCleanCategoryOperate task_category no_lists;
  notify_lists "task_control" TaskOperation.kCleanCategory context_field l.

(** [UserSelfMgr::Retry], [UserSelfMgr::RetryAll] *)
Definition Retry (task_ids : list string) (context_field : ContextField) : ST US unit :=
  queue ← SortTask SortStyle.kCreateTime true;
  l ← for_requested queue task_ids no_lists (λ _ l id,
        err ← ExecRetryOperate id; BuildMessageData id err TaskOperation.kRetry l);
  notify_lists "task_control" TaskOperation.kRetry context_field l.

Definition RetryAll (context_field : ContextField) : ST US unit :=
  queue ← SortTask SortStyle.kCreateTime true;
  l ← fold_each queue no_lists (λ l id,
        failed ← is_status TaskStatus.kFailed id;
        valid ← (if failed : bool then ret true else task_IsValid id);
        if failed || negb valid then
          task_id ← param_id id;
          err ← ExecRetryOperate task_id;
          BuildMessageData task_id err TaskOperation.kRetryAll l
        else ret l);
  notify_lists "task_control" TaskOperation.kRetryAll context_field l.

(** [UserSelfMgr::Restore], [UserSelfMgr::RestoreAll] *)
Definition Restore (task_ids : list string) (context_field : ContextField) : ST US unit :=
  queue ← SortTask SortStyle.kCreateTime true;
  l ← for_requested queue task_ids no_lists (λ key l id,
        deleted ← is_status TaskStatus.kDeleted key;
        if negb deleted then ret l
        else err ← ExecRestoreOperate id; BuildMessageData id err TaskOperation.kRestore l);
  notify_lists "task_control" TaskOperation.kRestore context_field l.

Definition RestoreAll (context_field : ContextField) : ST US unit :=
  queue ← SortTask SortStyle.kCreateTime true;
  l ← fold_each queue no_lists (λ l id,
        deleted ← is_status TaskStatus.kDeleted id;
        if negb deleted then ret l
        else
          task_id ← param_id id;
          err ← ExecRestoreOperate task_id;
          BuildMessageData task_id err TaskOperation.kRestoreAll l);
  notify_lists "task_control" TaskOperation.kRestoreAll context_field l.

(** [UserSelfMgr::GetTaskInfoList]: what the callback receives. *)
Definition GetTaskInfoList (context_field : ContextField) : ST US (list (option TaskInfo)) :=
  upd_mgr (λ m, set_m_user_info (set_ui_context_field context_field <$> m_user_info m) m) ;;
  tasks ← task_list;
  fold_each (map_keys tasks) [] (λ l id,
    i ← on_task id (t ← task; ret (t_info t));
    on_task id (SetContextField context_field) ;;
    ret (l ++ [i])).

(** [UserSelfMgr::UpdateUserInfo], [UserSelfMgr::SetUserInfo] *)
Definition UpdateUserInfo (context_field : ContextField) : ST US unit :=
  upd_mgr (λ m, set_m_user_info (set_ui_context_field context_field <$> m_user_info m) m).
Definition SetUserInfo (user_info : option UserInfo) : ST US unit :=
  upd_mgr (set_m_user_info user_info).

(** [UserSelfMgr::ResumeFromDb] *)
Definition ResumeFromDb_step (context_field : ContextField) (task_info : option TaskInfo)
    : ST US unit :=
  match task_info with
  | None => ret tt
  | Some i =>
      '(task, param) ← on_world (TaskFactory.CreateTask (ti_param i) context_field);
      match task with
      | None => ret tt
      | Some t =>
          '(_, t) ← on_local t (ResumeDataFromDb (Info.SetTaskParam param i));
          added ← AddTask (p_id param) t;
          if added : bool then ret tt else on_world (destroy_task t)
      end
  end.
Definition ResumeFromDb (task_info_list : list (option TaskInfo)) (context_field : ContextField)
    : ST US unit :=
  for_each task_info_list (ResumeFromDb_step context_field).

(** [UserSelfMgr::Reset]: pause and cancel everything, then drop the list. *)
Definition Reset : ST US unit :=
  tasks ← task_list;
  for_each (map_keys tasks) (λ id, on_task id TaskObj.Pause ;; on_task id (Cancel false) ;; ret tt) ;;
  tasks' ← task_list;
  upd_mgr (set_m_task_list ∅) ;;
  for_each (map_keys tasks') (λ id,
    t ← of_option (tasks' !! id); on_world (drop_task t)).

(** [UserSelfMgr::UserSelfMgr] *)
Definition UserSelfMgr_new (context_field : ContextField) : ST World UserSelfMgr :=
  let user_id := cf_user_id context_field in
  if negb (str_empty (cf_nas_token context_field)) then
    let u := UserInfo_new user_id in
    post_db MakeSureUserInfoTableExist ;;
    post_db (AddUserInfo user_id (ui_statistics_info u)) ;;
    ret (mkMgr user_id ∅ (Some u) false 0)
  else ret (mkMgr user_id ∅ None false 0).
End Mgr.
