(* ===== verification/UserSelfMgrSpec.v ===== *)
(** * The invariant of a user's task list, and what every operation preserves

    [mok] is the well-formedness of a [UserSelfMgr]: every listed task is well
    formed and filed under its own id.  [steady P R m] says that [m], run when
    the keys in [P] are listed, has no undefined behaviour, keeps [mok], the
    set of listed tasks and the user's limit, and moves along [R]. *)

From S2P Require Import Prelude CppBase BaseRef PathUnit DownloadTypes ErrorDesc TaskInfo.
From S2P Require Import InfoStore SystemConfig ServerWorld TaskRefCount TaskObj TaskSpec.
From S2P Require Import TaskFactory UserInfo UserSelfMgr.
#[local] Open Scope prog_scope.

Abbreviation tasks s := (m_task_list (us_m s)).

Section MgrSpec.
  Context `{E : Env} `{bl : BaseLib} `{ss : StdSort}.
  Implicit Types s : US.

Definition listed_ok (l : gmap string Task) : Prop :=
  ∀ id t, l !! id = Some t → task_ok t ∧ task_id t = id.

Definition mok s : Prop :=
  cfg_ok (w_cfg (us_w s)) ∧ listed_ok (tasks s) ∧ tasks s !! m_user_id (us_m s) = None ∧
  (∀ u, m_user_info (us_m s) = Some u → user_ok u).

Definition uext s s' : Prop :=
  m_user_id (us_m s') = m_user_id (us_m s) ∧ world_step (us_w s) (us_w s') ∧
  task_limit (us_m s') = task_limit (us_m s) ∧
  (is_Some (m_user_info (us_m s')) ↔ is_Some (m_user_info (us_m s))).

#[global] Instance uext_preorder : PreOrder uext.
Proof.
  split; [by intros ?; split_and!|]. intros ??? (?&?&?&?) (?&?&?&?).
  split_and!; [congruence|by etrans|congruence|tauto].
Qed.

(** The tasks on which the two states agree up to what a task operation may do. *)
Definition same_dom s s' : Prop := dom (tasks s') = dom (tasks s).
#[global] Instance same_dom_preorder : PreOrder same_dom.
Proof. unfold same_dom. split; congruence. Qed.

Definition steady {A} (P : string → Prop) (R : US → US → Prop) (m : ST US A) : Prop :=
  ∀ s, mok s → (∀ x, P x → is_Some (tasks s !! x)) →
    wp m (λ _ s', mok s' ∧ uext s s' ∧ same_dom s s' ∧ R s s') s.

(** Anything; the number of downloads unchanged; no download beyond the limit. *)
Definition uany s s' : Prop := True.
Definition keeps_count s s' : Prop := downloading_num (tasks s') = downloading_num (tasks s).
Definition admits s s' : Prop :=
  task_limit (us_m s') = task_limit (us_m s) ∧
  downloading_num (tasks s') <= Z.max (downloading_num (tasks s)) (task_limit (us_m s)).

#[global] Instance uany_preorder : PreOrder uany.
Proof. by split. Qed.
#[global] Instance keeps_count_preorder : PreOrder keeps_count.
Proof. unfold keeps_count. split; congruence. Qed.
#[global] Instance admits_preorder : PreOrder admits.
Proof. unfold admits. split; [split; lia|]. intros x y z [] []. split; [congruence|lia]. Qed.

Lemma same_dom_listed s s' x : same_dom s s' → is_Some (tasks s !! x) → is_Some (tasks s' !! x).
Proof. intros Hd. rewrite <-!elem_of_dom, Hd. done. Qed.

(** ** Composition *)
Section Compose.
  Context (P : string → Prop) (R : US → US → Prop) `{!PreOrder R}.

Lemma steady_ret {A} (a : A) : steady P R (ret a).
Proof. intros s Hs Hd. apply wp_ret. split_and!; [done|reflexivity..]. Qed.

Lemma steady_gets {A} (f : US → A) : steady P R (gets f).
Proof. intros s Hs Hd. apply wp_gets. split_and!; [done|reflexivity..]. Qed.

Lemma steady_bind {A B} (m : ST US A) (k : A → ST US B) :
  steady P R m → (∀ a, steady P R (k a)) → steady P R (bind m k).
Proof.
  intros Hm Hk s Hs Hd. wp_step. wp_call Hm; [done..|]. destruct H as (Hs' & He & Hd' & HR).
  wp_call Hk; [done|by eauto using same_dom_listed|]. destruct H as (?&?&?&?).
  split_and!; [done|by etrans..].
Qed.

Lemma steady_when c (m : ST US unit) : steady P R m → steady P R (when c m).
Proof. intros Hm. destruct c; [done|apply steady_ret]. Qed.

Lemma steady_fold_each {A B} (l : list A) (acc : B) body :
  (∀ b x, x ∈ l → steady P R (body b x)) → steady P R (fold_each l acc body).
Proof.
  revert acc. induction l as [|x l IH]; intros acc Hb; simpl; [apply steady_ret|].
  apply steady_bind; [apply Hb; set_solver|]. intros b. apply IH. set_solver.
Qed.

Lemma steady_for_each {A} (l : list A) body :
  (∀ x, x ∈ l → steady P R (body x)) → steady P R (for_each l body).
Proof.
  induction l as [|x l IH]; intros Hb; simpl; [apply steady_ret|].
  apply steady_bind; [apply Hb; set_solver|]. intros _. apply IH. set_solver.
Qed.
End Compose.

Lemma steady_use {A} P R (m : ST US A) (Q : A → US → Prop) s :
  mok s → (∀ x, P x → is_Some (tasks s !! x)) → steady P R m →
  (∀ a s', mok s' → uext s s' → same_dom s s' → R s s' → Q a s') → wp m Q s.
Proof. intros Hs HP Hm HQ. wp_call Hm; naive_solver. Qed.

Lemma steady_weaken {A} (P P' : string → Prop) (R R' : US → US → Prop) (m : ST US A) :
  steady P R m → (∀ x, P x → P' x) → (∀ s s', uext s s' → R s s' → R' s s') → steady P' R' m.
Proof. intros Hm HP HR s Hs Hd. apply (steady_use P R); [done|auto|done|]. auto. Qed.

(** Counting does not change, hence no download is added beyond the limit. *)
Lemma steady_admits {A} P (m : ST US A) : steady P keeps_count m → steady P admits m.
Proof.
  intros Hm. eapply steady_weaken; [done|done|]. unfold keeps_count, admits.
  intros s s' (_&_&Hl&_) ->. split; [done|lia].
Qed.

Lemma steady_uany {A} P R (m : ST US A) : steady P R m → steady P uany m.
Proof. intros Hm. by eapply steady_weaken. Qed.

(** ** Leaves *)
Lemma wp_on_task {A} id (m : ST TS A) (Q : A → US → Prop) s t :
  tasks s !! id = Some t →
  wp m (λ a (s' : TS), Q a (mkUS (set_m_task_list (<[id := ts_t s']> (tasks s)) (us_m s)) (ts_w s')))
    (mkTS t (us_w s)) →
  wp (on_task id m) Q s.
Proof. intros Ht. unfold wp, on_task. rewrite Ht. by destruct (m _) as [[a s']|]. Qed.

Lemma wp_on_world {A} (m : ST World A) (Q : A → US → Prop) s :
  wp m (λ a w, Q a (mkUS (us_m s) w)) (us_w s) → wp (on_world m) Q s.
Proof. unfold wp, on_world. by destruct (m _) as [[a w]|]. Qed.

(** A task operation that only reads. *)
Lemma wp_on_task_read {A} id (m : ST TS A) (Q : A → US → Prop) s t a :
  tasks s !! id = Some t → m (mkTS t (us_w s)) = Some (a, mkTS t (us_w s)) → Q a s →
  wp (on_task id m) Q s.
Proof.
  intros Ht Hm HQ. eapply wp_on_task; [done|]. eapply wp_intro; [done|]. simpl.
  rewrite insert_id by done. by destruct s as [[] ?].
Qed.

Lemma listed_ok_insert l id t : listed_ok l → task_ok t → task_id t = id → listed_ok (<[id := t]> l).
Proof. intros Hl Ht Hi k x. rewrite lookup_insert_Some. intros [[<- <-]|[_ ?]]; auto. Qed.

(** The state after a task operation under [id]. *)
Definition put id (t : Task) (w : World) s : US :=
  mkUS (set_m_task_list (<[id := t]> (tasks s)) (us_m s)) w.

Lemma mok_put id t t' w s :
  mok s → tasks s !! id = Some t → task_ok t' → task_id t' = task_id t →
  world_step (us_w s) w →
  mok (put id t' w s) ∧ uext s (put id t' w s) ∧ same_dom s (put id t' w s).
Proof.
  intros (Hc & Hl & Hu & Hui) Ht Hok Hid Hw. destruct (Hl id t Ht) as [_ Hidt].
  split_and!.
  - split_and!; simpl; [by rewrite (proj1 Hw)| |by rewrite lookup_insert_ne by congruence|done].
    apply listed_ok_insert; [done..|congruence].
  - by split_and!.
  - unfold same_dom. simpl. rewrite dom_insert_L. apply elem_of_dom_2 in Ht. set_solver.
Qed.

Lemma ok_of_listed s id t : mok s → tasks s !! id = Some t → ok (mkTS t (us_w s)).
Proof. intros (Hc & Hl & _) Ht. split; [|done]. by apply (Hl id). Qed.

(** A task operation, by its [pres] fact. *)
Lemma wp_on_task_pres {A} R id (m : ST TS A) (Q : A → US → Prop) s t :
  mok s → tasks s !! id = Some t → pres R m →
  (∀ a t' w, let s' := put id t' w s in
     ok (mkTS t' w) → ext (mkTS t (us_w s)) (mkTS t' w) → R (mkTS t (us_w s)) (mkTS t' w) →
     mok s' → uext s s' → same_dom s s' → Q a s') →
  wp (on_task id m) Q s.
Proof.
  intros Hs Ht Hm HQ. eapply wp_on_task; [done|].
  apply (pres_use R); [by eapply ok_of_listed|done|].
  intros a [t' w] Hok He HR. pose proof He as (_&_&Hid&_&Hcfg). simpl in *.
  destruct (mok_put id t t' w s) as (?&?&?); [done|done|by apply Hok|done|done|]. by apply HQ.
Qed.

(** ** Counting the downloads *)
Lemma is_downloading_status t :
  is_downloading t = bool_decide (status_of t = TaskStatus.kDownloading).
Proof. unfold is_downloading, status_of. by destruct (t_info t). Qed.

Lemma downloading_num_insert id t (l : gmap string Task) :
  downloading_num (<[id := t]> l) =
  Z.b2z (is_downloading t) + downloading_num (delete id l).
Proof.
  rewrite <-insert_delete_eq. unfold downloading_num.
  destruct (is_downloading t) eqn:Hd; simpl.
  - rewrite map_filter_insert_True by done. rewrite map_size_insert_None; [lia|].
    apply map_lookup_filter_None. left. apply lookup_delete_eq.
  - rewrite map_filter_insert_False by (simpl; congruence). by rewrite delete_delete_eq.
Qed.

Lemma downloading_num_lookup id t (l : gmap string Task) :
  l !! id = Some t →
  downloading_num l = Z.b2z (is_downloading t) + downloading_num (delete id l).
Proof. intros Ht. rewrite <-(insert_id l id t) at 1 by done. apply downloading_num_insert. Qed.

Lemma downloading_num_nonneg l : 0 <= downloading_num l.
Proof. unfold downloading_num. lia. Qed.

Lemma downloading_num_delete id l : downloading_num (delete id l) <= downloading_num l.
Proof.
  destruct (l !! id) as [t|] eqn:Ht.
  - rewrite (downloading_num_lookup id t l) by done. destruct (is_downloading t); simpl; lia.
  - by rewrite delete_id.
Qed.

(** How the count moves when the task under [id] changes status. *)
Lemma downloading_num_put id t t' w s :
  tasks s !! id = Some t →
  downloading_num (tasks (put id t' w s)) =
  downloading_num (tasks s) - Z.b2z (is_downloading t) + Z.b2z (is_downloading t').
Proof.
  intros Ht. simpl. rewrite downloading_num_insert, (downloading_num_lookup id t (tasks s)) by done.
  lia.
Qed.

Lemma steady_on_task_any {A} (P : string → Prop) R id (m : ST TS A) :
  P id → pres R m → steady P uany (on_task id m).
Proof.
  intros HP Hm s Hs Hd. destruct (Hd id HP) as [t Ht].
  eapply wp_on_task_pres; [done..|]. intros a t' w s' _ _ _ ???. by split_and!.
Qed.

Lemma steady_on_task {A} (P : string → Prop) id (m : ST TS A) :
  P id → pres keeps_status m → steady P keeps_count (on_task id m).
Proof.
  intros HP Hm s Hs Hd. destruct (Hd id HP) as [t Ht].
  eapply wp_on_task_pres; [done..|]. intros a t' w s' _ _ [Hst _] ???. split_and!; [done..|].
  unfold keeps_count, s'. rewrite (downloading_num_put id t) by done.
  rewrite !is_downloading_status. simpl in Hst. rewrite Hst. lia.
Qed.

Lemma steady_SetContextField (P : string → Prop) id c :
  P id → steady P keeps_count (on_task id (SetContextField c)).
Proof.
  intros HP s Hs Hd. destruct (Hd id HP) as [t Ht].
  eapply wp_on_task; [done|]. apply wp_upd_task. simpl.
  destruct (mok_put id t (set_t_context_field c t) (us_w s) s) as (?&?&?);
    [done|done|by apply (ok_of_listed s id t)|done|done|].
  split_and!; [done..|]. unfold keeps_count.
  change (downloading_num (tasks (put id (set_t_context_field c t) (us_w s) s)) =
          downloading_num (tasks s)).
  rewrite (downloading_num_put id t) by done. simpl.
  unfold is_downloading. simpl. lia.
Qed.

Lemma steady_on_world {A} P (m : ST World A) :
  world_pres m → steady P keeps_count (on_world m).
Proof.
  intros Hm s (Hc & Hl & Hu & Hui) Hd. apply wp_on_world. wp_call Hm.
  split_and!; try done.
  split_and!; try done. simpl. by rewrite (proj1 H).
Qed.

(** The number of downloads does not grow. *)
Definition sheds s s' : Prop := downloading_num (tasks s') <= downloading_num (tasks s).
#[global] Instance sheds_preorder : PreOrder sheds.
Proof. unfold sheds. split; [intros ?; lia|]. intros x y z ??. lia. Qed.

Lemma steady_sheds_admits {A} P (m : ST US A) : steady P sheds m → steady P admits m.
Proof.
  intros Hm. eapply steady_weaken; [done|done|]. unfold sheds, admits.
  intros s s' (_&_&Hl&_) ?. split; [done|lia].
Qed.

Lemma steady_count_sheds {A} P (m : ST US A) : steady P keeps_count m → steady P sheds m.
Proof.
  intros Hm. eapply steady_weaken; [done|done|]. unfold sheds, keeps_count. intros s s' _ ->. lia.
Qed.

Lemma steady_on_task_sheds {A} (P : string → Prop) id (m : ST TS A) :
  P id → pres no_start m → steady P sheds (on_task id m).
Proof.
  intros HP Hm s Hs Hd. destruct (Hd id HP) as [t Ht].
  eapply wp_on_task_pres; [done..|]. intros a t' w s' _ _ Hn ???. split_and!; [done..|].
  unfold sheds, s'. rewrite (downloading_num_put id t) by done.
  rewrite !is_downloading_status. unfold no_start in Hn. simpl in Hn.
  case_bool_decide; case_bool_decide; simpl; try lia. naive_solver.
Qed.

(** One task operation adds at most one download. *)
Lemma wp_on_task_bump {A} R id (m : ST TS A) (Q : A → US → Prop) s :
  mok s → is_Some (tasks s !! id) → pres R m →
  (∀ a s', mok s' → uext s s' → same_dom s s' →
     downloading_num (tasks s') <= downloading_num (tasks s) + 1 → Q a s') →
  wp (on_task id m) Q s.
Proof.
  intros Hs [t Ht] Hm HQ. eapply wp_on_task_pres; [done..|]. intros a t' w s' _ _ _ ???.
  apply HQ; [done..|]. unfold s'. rewrite (downloading_num_put id t) by done.
  destruct (is_downloading t), (is_downloading t'); simpl; lia.
Qed.
End MgrSpec.

(** ** Automation *)
Create HintDb steady discriminated.
#[export] Hint Resolve steady_ret steady_gets steady_on_task steady_on_task_sheds
  steady_SetContextField steady_on_world : steady.
#[export] Hint Extern 1 (pres _ _) => solve [pres_auto] : steady.
#[export] Hint Extern 1 (world_pres _) => solve [eauto 3 with pres] : steady.
#[export] Hint Extern 1 (PreOrder _) => typeclasses eauto : steady.
#[export] Hint Extern 4 (steady _ uany (on_task _ _)) =>
  apply (steady_on_task_any _ any); [assumption|solve [eauto 4 with pres]] : steady.
#[export] Hint Extern 6 (steady _ sheds _) =>
  apply steady_count_sheds; solve [eauto 4 with steady] : steady.
#[export] Hint Extern 7 (steady _ admits _) =>
  first [apply steady_admits; solve [eauto 4 with steady] |
         apply steady_sheds_admits; solve [eauto 4 with steady]] : steady.
#[export] Hint Extern 8 (steady _ uany _) =>
  first [apply (steady_uany _ keeps_count); solve [eauto 4 with steady] |
         apply (steady_uany _ sheds); solve [eauto 4 with steady] |
         apply (steady_uany _ admits); solve [eauto 4 with steady]] : steady.

Ltac steady_step :=
  cbn beta iota zeta;
  lazymatch goal with
  | |- steady _ _ (bind _ _) => apply steady_bind; [typeclasses eauto | | intros ?]
  | |- steady _ _ (when _ _) => apply steady_when; [typeclasses eauto|]
  | |- steady _ _ (let '(_, _) := ?p in _) => destruct p
  | |- steady _ _ (if ?b then _ else _) => destruct b
  | |- steady _ _ (match ?x with _ => _ end) => destruct x
  end.
Ltac steady_auto := repeat (steady_step || (solve [eauto 5 with steady])).

Section MgrOps.
  Context `{E : Env} `{bl : BaseLib} `{ss : StdSort}.
  Implicit Types s : US.

Lemma steady_mgr P : steady P keeps_count mgr.
Proof. apply (steady_gets _ _). Qed.
Lemma steady_task_list P : steady P keeps_count task_list.
Proof. apply (steady_gets _ _). Qed.
Lemma steady_FindTask P id : steady P keeps_count (FindTask id).
Proof. unfold FindTask, task_list. steady_auto. Qed.
Lemma steady_IsCanStart P : steady P keeps_count IsCanStart.
Proof. unfold IsCanStart, mgr. steady_auto. Qed.
Lemma steady_SetTaskContextField (P : string → Prop) id :
  P id → steady P keeps_count (SetTaskContextField id).
Proof. intros. unfold SetTaskContextField, mgr. steady_auto. Qed.
Lemma steady_is_status (P : string → Prop) x id : P id → steady P keeps_count (is_status x id).
Proof. intros. unfold is_status. steady_auto. Qed.
Lemma steady_task_IsValid (P : string → Prop) id : P id → steady P keeps_count (task_IsValid id).
Proof. intros. unfold task_IsValid. steady_auto. Qed.
Lemma steady_task_SetIsValid (P : string → Prop) id b :
  P id → steady P keeps_count (task_SetIsValid id b).
Proof. intros. unfold task_SetIsValid. steady_auto. Qed.
Lemma steady_task_progress (P : string → Prop) id : P id → steady P keeps_count (task_progress id).
Proof. intros. unfold task_progress. steady_auto. Qed.
Lemma steady_param_id (P : string → Prop) id : P id → steady P keeps_count (param_id id).
Proof. intros. unfold param_id. steady_auto. Qed.
Lemma steady_notify P o op c l : steady P keeps_count (notify_lists o op c l).
Proof. unfold notify_lists. steady_auto. Qed.

Lemma wp_FindTask id (Q : bool → US → Prop) s :
  Q (bool_decide (is_Some (tasks s !! id))) s → wp (FindTask id) Q s.
Proof.
  intros HQ. unfold FindTask, task_list. wp_step. apply wp_gets, wp_ret.
  case_bool_decide as Hb; destruct (tasks s !! id); try done; by destruct Hb.
Qed.
End MgrOps.
#[export] Hint Resolve steady_mgr steady_task_list steady_FindTask steady_IsCanStart
  steady_SetTaskContextField steady_is_status steady_task_IsValid steady_task_SetIsValid
  steady_task_progress steady_param_id steady_notify : steady.

Section MgrControl.
  Context `{E : Env} `{bl : BaseLib} `{ss : StdSort}.
  Implicit Types s : US.

(** Looking a task up first: the body may rely on the task being listed. *)
Lemma steady_with_task P R `{!PreOrder R} id (k : ST US Z) :
  steady (eq id) R (SetTaskContextField id) → steady (eq id) R k → steady P R (with_task id k).
Proof.
  intros Hc Hk s Hs Hd. unfold with_task. wp_step. apply wp_FindTask.
  case_bool_decide as Hf; simpl.
  - apply (steady_use (eq id) R); [done|by intros ? <-|by apply steady_bind|auto].
  - apply wp_ret. split_and!; [done|reflexivity..].
Qed.

Lemma steady_BuildMessageData P id err op l :
  steady P keeps_count (BuildMessageData id err op l).
Proof.
  intros s Hs Hd. unfold BuildMessageData. wp_step. apply wp_FindTask.
  case_bool_decide as Hf; simpl.
  - apply (steady_use (eq id) keeps_count); [done|by intros ? <-| |auto].
    assert (id = id) by done. steady_auto.
  - apply wp_ret. split_and!; [done|reflexivity..].
Qed.

Lemma steady_PauseTask (P : string → Prop) id : P id → steady P sheds (PauseTask id).
Proof. intros HP. unfold PauseTask. steady_auto. Qed.

Lemma steady_ExecPauseOperate P id : steady P sheds (ExecPauseOperate id).
Proof.
  apply (steady_with_task _ _); [steady_auto|by apply steady_PauseTask].
Qed.

(** [IsCanStart] compares with the limit. *)
Lemma wp_IsCanStart (Q : bool → US → Prop) s :
  (∀ b, (b = true → downloading_num (tasks s) < task_limit (us_m s)) → Q b s) →
  wp IsCanStart Q s.
Proof.
  intros HQ. unfold IsCanStart, mgr. wp_step. apply wp_gets, wp_ret, HQ.
  intros Hb%negb_true_iff%Z.leb_gt. lia.
Qed.

Lemma admits_bump s s' :
  uext s s' → downloading_num (tasks s) < task_limit (us_m s) →
  downloading_num (tasks s') <= downloading_num (tasks s) + 1 → admits s s'.
Proof. intros (_&_&Hl&_) ??. split; [done|lia]. Qed.

(** Starting or resuming a listed task while the limit is not reached. *)
Lemma wp_start_allowed (P : string → Prop) id (k : bool → ST US Z) (m : ST US Z) s :
  mok s → (∀ x, P x → is_Some (tasks s !! x)) → P id →
  downloading_num (tasks s) < task_limit (us_m s) →
  m = (is_started ← on_task id IsStarted;
       if is_started : bool then ok ← on_task id TaskObj.Resume; k ok
       else on_task id Start) →
  (∀ ok, steady P keeps_count (k ok)) →
  wp m (λ _ s', mok s' ∧ uext s s' ∧ same_dom s s' ∧ admits s s') s.
Proof.
  intros Hs HP Hid Hlt -> Hk. wp_step.
  apply (steady_use P keeps_count); [done..|steady_auto|]. intros b s1 H1 He1 Hd1 Hc1.
  pose proof (HP id Hid) as Hl. pose proof (same_dom_listed _ _ _ Hd1 Hl) as Hl1.
  unfold keeps_count in Hc1. destruct b.
  - wp_step. eapply wp_on_task_bump; [done..|apply pres_Resume|].
    intros ok s2 H2 He2 Hd2 Hc2.
    apply (steady_use P keeps_count); [done| |done|].
    { intros x Hx. eapply same_dom_listed, same_dom_listed; eauto. }
    intros a s3 H3 He3 Hd3 Hc3. unfold keeps_count in Hc3.
    assert (uext s s3) by (do 2 (etrans; [done|]); done).
    split_and!; [done..|do 2 (etrans; [done|]); done|]. apply admits_bump; [done..|lia].
  - eapply wp_on_task_bump; [done..|apply pres_Start|]. intros a s2 H2 He2 Hd2 Hc2.
    assert (uext s s2) by (by etrans).
    split_and!; [done..|by etrans|]. apply admits_bump; [done..|lia].
Qed.

Lemma steady_TryResume (P : string → Prop) id : P id → steady P admits (TryResume id).
Proof.
  intros HP s Hs Hd. unfold TryResume. wp_step. apply wp_IsCanStart. intros [] Hb.
  - eapply (wp_start_allowed P id (λ ok, ret (err_of ok DownloadErrorCode.kResumeTaskFailed)));
      [done..|by apply Hb|done|]. intros ok. steady_auto.
  - apply (steady_use P admits); [done..|steady_auto|auto].
Qed.
End MgrControl.
#[export] Hint Resolve steady_BuildMessageData steady_ExecPauseOperate steady_TryResume : steady.

Section MgrOperate.
  Context `{E : Env} `{bl : BaseLib} `{ss : StdSort}.
  Implicit Types s : US.

(** Resuming a finished torrent ends up seeding, or changes nothing. *)
Lemma steady_resume_seeding (P : string → Prop) id :
  P id →
  steady P sheds (ok ← on_task id TaskObj.Resume;
                  when ok (on_task id (SetTaskStatus TaskStatus.kSeeding)) ;;
                  ret (err_of ok DownloadErrorCode.kResumeTaskFailed)).
Proof.
  intros HP s Hs Hd. destruct (Hd id HP) as [t Ht]. wp_step. eapply wp_on_task; [done|].
  apply wp_Resume; [by eapply ok_of_listed|]. intros ok [t1 w1] Hok1 He1 Hst1. simpl in *.
  pose proof He1 as (_&_&Hid1&_&Hcfg1). simpl in *.
  destruct (mok_put id t t1 w1 s) as (H1&Hu1&Hd1); [done|done|by apply Hok1|done|done|].
  fold (put id t1 w1 s). wp_step. destruct ok; simpl.
  - assert (Ht1 : tasks (put id t1 w1 s) !! id = Some t1) by apply lookup_insert_eq.
    eapply wp_on_task; [done|]. apply wp_SetTaskStatus; [done|]. intros [t2 w2] Hok2 He2 Hst2 _ _.
    pose proof He2 as (_&_&Hid2&_&Hcfg2). simpl in *.
    destruct (mok_put id t1 t2 w2 (put id t1 w1 s)) as (H2&Hu2&Hd2);
      [done|done|by apply Hok2|done|done|].
    fold (put id t2 w2 (put id t1 w1 s)). apply wp_ret.
    split_and!; [done|by etrans|by etrans|].
    pose proof (downloading_num_put id t1 t2 w2 (put id t1 w1 s) Ht1) as Hn2.
    pose proof (downloading_num_put id t t1 w1 s Ht) as Hn1.
    rewrite (is_downloading_status t2), Hst2 in Hn2. unfold sheds. simpl in *. rewrite Hn2.
    destruct (is_downloading t); simpl in *; lia.
  - apply wp_ret. apply wp_ret. split_and!; [done..|].
    pose proof (downloading_num_put id t t1 w1 s Ht) as Hn1.
    rewrite !is_downloading_status, Hst1 in Hn1. unfold sheds. simpl in *. lia.
Qed.

Lemma steady_ExecResumeOperate P id : steady P admits (ExecResumeOperate id).
Proof.
  apply (steady_with_task _ _); [assert (id = id) by done; steady_auto|].
  assert (Hid : id = id) by done. apply (steady_bind _ _); [steady_auto|intros ty].
  apply (steady_bind _ _); [steady_auto|intros st].
  destruct (bool_decide (st = TaskStatus.kPaused)); [steady_auto|].
  destruct (bool_decide (st = TaskStatus.kFailed)); [steady_auto|].
  destruct (_ && _); [|steady_auto].
  by apply steady_sheds_admits, steady_resume_seeding.
Qed.

Lemma steady_ExecRetryOperate P id : steady P admits (ExecRetryOperate id).
Proof.
  apply (steady_with_task _ _); assert (id = id) by done; steady_auto.
Qed.

(** Restoring may resume a failed task without asking the limit. *)
Lemma steady_ExecRestoreOperate P id : steady P uany (ExecRestoreOperate id).
Proof.
  apply (steady_with_task _ _); assert (Hid : id = id) by done; [steady_auto|].
  apply (steady_bind _ _); [steady_auto|intros []].
  - steady_auto.
  - eapply steady_uany, steady_ExecRetryOperate.
Qed.

Lemma steady_CheckInvalidTask (P : string → Prop) id :
  P id → steady P keeps_count (CheckInvalidTask id).
Proof. intros HP. unfold CheckInvalidTask. steady_auto. Qed.

(** ** Seeding tasks: the casts to [BtTaskBase] *)
Definition bt_listed id s : Prop := ∃ t, tasks s !! id = Some t ∧ is_link (t_kind t) = false.

Lemma wp_on_bt {A} R id (m m' : ST TS A) (Q : A → US → Prop) s :
  mok s → bt_listed id s → pres R m → m' = m ∨ m' = as_bt m →
  (∀ a s', mok s' → uext s s' → same_dom s s' → bt_listed id s' → Q a s') →
  wp (on_task id m') Q s.
Proof.
  intros Hs (t & Ht & Hk) Hm Hm' HQ.
  assert (wp (on_task id m) Q s) as Hwp.
  { eapply wp_on_task_pres; [done..|]. intros a t' w s' _ He _ ???. apply HQ; [done..|].
    exists t'. split; [apply lookup_insert_eq|].
    destruct He as (Hk' & _). simpl in Hk'. by rewrite Hk'. }
  destruct Hm' as [->| ->]; [done|]. revert Hwp. unfold wp, on_task, as_bt, task, bind, gets.
  rewrite Ht. simpl. by rewrite Hk.
Qed.

Lemma steady_CheckSeeding (P : string → Prop) id l :
  P id → steady P uany (CheckSeeding id l).
Proof.
  intros HP s Hs Hd. destruct (Hd id HP) as [t Ht]. unfold CheckSeeding. wp_step.
  pose proof Hs as (_&Hl&_). destruct (Hl id t Ht) as [(_&i&Hi&Hio) _].
  eapply (wp_on_task_read _ _ _ _ t (p_type (ti_param i))); [done| |].
  { unfold TaskObj.GetDownloadType, info, task, bind, gets. simpl. by rewrite Hi. }
  destruct (_ || _) eqn:Hty; [|apply wp_ret; split_and!; [done|reflexivity..]].
  assert (Hb : bt_listed id s).
  { exists t. split; [done|]. destruct Hio as (_&Hk&_).
    apply orb_true_iff in Hty. rewrite !bool_decide_eq_true in Hty.
    destruct (t_kind t); simpl in *; naive_solver. }
  wp_step. eapply wp_on_bt; [done|done|apply pres_GetUploadRate|by right|].
  intros r s1 H1 He1 Hd1 Hb1. wp_step. eapply (wp_on_bt keeps_status); [done|done| |by left|].
  { pres_auto. }
  intros _ s2 H2 He2 Hd2 Hb2.
  wp_step. eapply wp_on_bt; [done|done|apply pres_CheckSeedingLimits|by right|].
  intros b s3 H3 He3 Hd3 Hb3.
  assert (uext s s3) by (do 2 (etrans; [done|]); done).
  assert (same_dom s s3) by (do 2 (etrans; [done|]); done).
  destruct b; [by apply wp_ret; split_and!|].
  wp_step. eapply wp_on_bt; [done|done|apply pres_UpdateSeedingInfo|by right|].
  intros d s4 H4 He4 Hd4 Hb4. apply wp_ret. split_and!; [done|by etrans|by etrans|done].
Qed.
End MgrOperate.
#[export] Hint Resolve steady_ExecResumeOperate steady_ExecRetryOperate steady_ExecRestoreOperate
  steady_CheckInvalidTask steady_CheckSeeding : steady.

Section MgrTick.
  Context `{E : Env} `{bl : BaseLib} `{ss : StdSort}.
  Implicit Types s : US.

Lemma steady_CheckTask_step (P : string → Prop) acc id :
  P id → steady P uany (CheckTask_step acc id).
Proof. intros HP. unfold CheckTask_step. steady_auto. Qed.

Lemma steady_upd_mgr P f :
  (∀ m, m_task_list (f m) = m_task_list m ∧ m_user_id (f m) = m_user_id m ∧
     task_limit (f m) = task_limit m ∧ (is_Some (m_user_info (f m)) ↔ is_Some (m_user_info m)) ∧
     ((∀ u, m_user_info m = Some u → user_ok u) → ∀ u, m_user_info (f m) = Some u → user_ok u)) →
  steady P keeps_count (upd_mgr f).
Proof.
  intros Hf s (Hc&Hl&Hu&Hui) Hd. apply wp_modify. destruct (Hf (us_m s)) as (H1&H2&H3&H4&H5).
  unfold mok, uext, same_dom, keeps_count. simpl. rewrite H1, H2, H3.
  split_and!; auto; reflexivity.
Qed.

(** ** The order of the queue

    [std::sort] needs a strict weak order; every comparator of the manager is
    one. *)
Definition queue_order (m : UserSelfMgr) (style : SortStyle) (asc : bool)
    : TaskInfo → TaskInfo → bool :=
  match m_user_info m with
  | Some u => if IsPrioritySmallLimitTask u
              then TaskComparator (to_int64 (GetSmallTaskSize u * 1024))
              else GetOrderFunc style asc
  | None => GetOrderFunc style asc
  end.

Ltac solve_order := intros; repeat match goal with
  | H : context [?a <? ?b] |- _ => destruct (Z.ltb_spec a b)
  | H : context [?a <=? ?b] |- _ => destruct (Z.leb_spec a b)
  | H : context [?a =? ?b] |- _ => destruct (Z.eqb_spec a b)
  | |- context [?a <? ?b] => destruct (Z.ltb_spec a b)
  | |- context [?a <=? ?b] => destruct (Z.leb_spec a b)
  | |- context [?a =? ?b] => destruct (Z.eqb_spec a b)
  end; simpl in *; try done; lia.

Lemma TaskComparator_swo threshold : strict_weak_order (TaskComparator threshold).
Proof. unfold TaskComparator. split_and!; solve_order. Qed.

Lemma GetOrderFunc_swo style asc : strict_weak_order (GetOrderFunc style asc).
Proof.
  unfold GetOrderFunc, AscendingByCreateTime, DecendingByCreateTime, AscendingByTaskSise.
  destruct asc, style; split_and!; solve_order.
Qed.

Lemma queue_order_swo m style asc : strict_weak_order (queue_order m style asc).
Proof.
  unfold queue_order. destruct (m_user_info m) as [u|]; [destruct (IsPrioritySmallLimitTask u)|];
    auto using TaskComparator_swo, GetOrderFunc_swo.
Qed.

Lemma swo_on {A B} (f : A → B) (lt : B → B → bool) :
  strict_weak_order lt → strict_weak_order (λ x y, lt (f x) (f y)).
Proof. intros (?&?&?). split_and!; eauto. Qed.

(** The queue is a permutation of the listed keys, in that order. *)
Context {sl : StdSortLaws ss}.

Lemma task_entries_Some s :
  mok s → ∃ es, task_entries (tasks s) = Some es ∧ fst <$> es = map_keys (tasks s) ∧
    Forall (λ e, ∃ t, tasks s !! e.1 = Some t ∧ t_info t = Some e.2) es.
Proof.
  intros (_ & Hl & _). unfold task_entries.
  assert (Hk : ∀ id, id ∈ map_keys (tasks s) → is_Some (tasks s !! id))
    by (intros id; by rewrite elem_of_map_keys).
  induction (map_keys (tasks s)) as [|id ids IH]; [by exists []|].
  destruct IH as (es & Hes & Hfst & Hall); [set_solver|].
  destruct (Hk id) as [t Ht]; [set_solver|]. destruct (Hl id t Ht) as [(_ & i & Hi & _) _].
  exists ((id, i) :: es). simpl. rewrite Ht, Hi. simpl. rewrite Hes. simpl.
  split_and!; [done|by f_equal|]. constructor; [|done]. by exists t.
Qed.

Lemma wp_SortTask_exact st asc (Q : list string → US → Prop) s es :
  task_entries (tasks s) = Some es → mok s →
  (∀ s', mok s' → uext s s' → tasks s' = tasks s → us_w s' = us_w s →
     Q (fst <$> std_sort (λ x y, queue_order (us_m s) st asc x.2 y.2) es) s') →
  wp (SortTask st asc) Q s.
Proof.
  intros Hes Hs. unfold queue_order. intros HQ. unfold SortTask, mgr. wp_step. apply wp_gets.
  rewrite Hes. wp_step. eapply wp_of_option; [done|].
  destruct (m_user_info (us_m s)) as [u|] eqn:Hu.
  - destruct (IsPrioritySmallLimitTask u).
    + wp_step. apply wp_modify, wp_ret. by apply HQ.
    + apply wp_ret. apply HQ; [done|reflexivity|done|done].
  - apply wp_ret. apply HQ; [done|reflexivity|done|done].
Qed.

Lemma wp_SortTask st asc (Q : list string → US → Prop) s :
  mok s →
  (∀ q s', q ≡ₚ map_keys (tasks s) → mok s' → uext s s' → tasks s' = tasks s →
     us_w s' = us_w s → Q q s') →
  wp (SortTask st asc) Q s.
Proof.
  intros Hs HQ. destruct (task_entries_Some s Hs) as (es & Hes & Hfst & _).
  eapply wp_SortTask_exact; [done..|]. intros s' ????. apply HQ; try done.
  rewrite <-Hfst. apply fmap_Permutation, std_sort_perm. apply (swo_on snd), queue_order_swo.
Qed.

(** ** The limit on simultaneous downloads *)

(** The downloads among the tasks already visited. *)
Definition visited_num (rest : list string) (l : gmap string Task) : Z :=
  downloading_num (filter (λ kt : string * Task, kt.1 ∉ rest) l).

Lemma visited_num_nil l : visited_num [] l = downloading_num l.
Proof. unfold visited_num. rewrite map_filter_id; [done|]. set_solver. Qed.

Lemma visited_num_all rest (l : gmap string Task) :
  (∀ k, is_Some (l !! k) → k ∈ rest) → visited_num rest l = 0.
Proof.
  intros H. unfold visited_num. replace (filter _ l) with (∅ : gmap string Task); [done|].
  symmetry. apply map_empty_filter. intros k t Ht Hk. simpl in Hk. destruct Hk. apply H. by eexists.
Qed.

Lemma visited_num_cons id rest t (l : gmap string Task) :
  l !! id = Some t → id ∉ rest →
  visited_num rest l = Z.b2z (is_downloading t) + visited_num (id :: rest) l.
Proof.
  intros Ht Hid. unfold visited_num.
  rewrite (downloading_num_lookup id t) by (by apply map_lookup_filter_Some).
  do 2 f_equal. apply map_eq. intros k. destruct (decide (k = id)) as [->|Hne].
  - rewrite lookup_delete_eq. symmetry. apply map_lookup_filter_None. right. set_solver.
  - rewrite lookup_delete_ne by done. apply option_eq. intros x.
    rewrite !map_lookup_filter_Some. simpl. set_solver.
Qed.

Lemma visited_num_put id rest t' w s :
  visited_num (id :: rest) (tasks (put id t' w s)) = visited_num (id :: rest) (tasks s).
Proof.
  unfold visited_num. simpl. rewrite map_filter_insert_not; [done|]. intros y. set_solver.
Qed.

Lemma wp_on_task_fuse {A B} id (m : ST TS A) (k : A → ST TS B) (Q : B → US → Prop) s :
  wp (on_task id (bind m k)) Q s → wp (bind (on_task id m) (λ a, on_task id (k a))) Q s.
Proof.
  unfold wp, on_task, bind. destruct (tasks s !! id) as [t|] eqn:Ht; [|done].
  destruct (m _) as [[a s1]|]; [|done]. simpl. rewrite lookup_insert_eq.
  destruct s1 as [t1 w1]. simpl. destruct (k a _) as [[b s2]|]; [|done].
  by rewrite insert_insert_eq.
Qed.

(** The loop invariant: either the total is within the limit, or the downloads
    visited so far are, and [downloading_count] bounds them. *)
Definition limit_inv (s : US) (acc : Z * bool) (rest : list string) (s' : US) : Prop :=
  mok s' ∧ uext s s' ∧ same_dom s s' ∧ NoDup rest ∧
  (∀ x, x ∈ rest → is_Some (tasks s' !! x)) ∧ 0 <= acc.1 ∧
  (downloading_num (tasks s') <= task_limit (us_m s) ∨
   (visited_num rest (tasks s') <= acc.1 ∧
    visited_num rest (tasks s') <= task_limit (us_m s))).

Lemma pres_pause_and_wait :
  pres (λ (_ s' : TS), status_of (ts_t s') = TaskStatus.kWaitting)
    (TaskObj.Pause ;; SetTaskStatus TaskStatus.kWaitting).
Proof.
  intros s Hs. wp_step. apply wp_Pause; [done|]. intros b s1 H1 He1 _.
  apply wp_SetTaskStatus; [done|]. intros s2 H2 He2 Hst _ _. split_and!; [done|by etrans|done].
Qed.

(** What one turn leaves to the next. *)
Lemma limit_inv_step s acc id rest s' c b s'' :
  limit_inv s acc (id :: rest) s' → mok s'' → uext s' s'' → same_dom s' s'' → 0 <= c →
  (downloading_num (tasks s'') <= task_limit (us_m s) ∨
   (visited_num rest (tasks s'') <= c ∧ visited_num rest (tasks s'') <= task_limit (us_m s))) →
  limit_inv s (c, b) rest s''.
Proof.
  intros (H1&H2&H3&H4&H5&H6&H7) Hs'' Hu Hd Hc HD. apply NoDup_cons in H4 as [_ H4].
  split_and!; [done|by etrans|by etrans|done| |done|done].
  intros x Hx. eapply same_dom_listed; [done|]. apply H5. set_solver.
Qed.

Lemma limit_step_downloading s acc id rest s' t :
  limit_inv s acc (id :: rest) s' → tasks s' !! id = Some t → is_downloading t = true →
  wp (if task_limit (us_m s) <? acc.1 + 1 then
        on_task id TaskObj.Pause ;; on_task id (SetTaskStatus TaskStatus.kWaitting) ;;
        ret (acc.1 + 1, true)
      else ret (acc.1 + 1, acc.2))
    (λ acc' s'', limit_inv s acc' rest s'') s'.
Proof.
  intros HI Ht Htd. pose proof HI as (H1&H2&H3&H4&H5&H6&H7).
  pose proof H4 as [Hid _]%NoDup_cons.
  pose proof (visited_num_cons id rest t (tasks s') Ht Hid) as Hv. rewrite Htd in Hv. simpl in Hv.
  destruct (Z.ltb_spec (task_limit (us_m s)) (acc.1 + 1)).
  - apply wp_assoc. wp_step. apply wp_on_task_fuse.
    eapply wp_on_task_pres; [done..|apply pres_pause_and_wait|].
    intros _ t' w s'' _ _ Hst Hm'' Hu'' Hd''. apply wp_ret.
    assert (Htd' : is_downloading t' = false) by (rewrite is_downloading_status; simpl in Hst; by rewrite Hst).
    assert (Ht' : tasks s'' !! id = Some t') by apply lookup_insert_eq.
    pose proof (visited_num_cons id rest t' (tasks s'') Ht' Hid) as Hv'.
    pose proof (downloading_num_put id t t' w s' Ht) as Hn.
    pose proof (visited_num_put id rest t' w s') as Hp. rewrite Htd' in Hv', Hn. rewrite Htd in Hn.
    fold s'' in Hp, Hn. unfold Z.b2z in Hv', Hn. eapply limit_inv_step; [done..|lia|].
    destruct H7; [left|right]; lia.
  - apply wp_ret. eapply limit_inv_step; [done|done|reflexivity|reflexivity|lia|].
    destruct H7; [left|right]; lia.
Qed.

Lemma limit_step_other s acc id rest s' t st :
  limit_inv s acc (id :: rest) s' → tasks s' !! id = Some t → is_downloading t = false →
  wp (can_start ← (if bool_decide (st = TaskStatus.kWaitting) then IsCanStart else ret false);
      if can_start : bool then
        is_started ← on_task id IsStarted;
        err ← (if is_started : bool then on_task id TaskObj.Resume ;; ret DownloadErrorCode.kNormal
               else on_task id Start);
        when (negb (err =? DownloadErrorCode.kNormal))
          (on_task id (upd_info (Info.upd_progress (Progress.SetErrorCode err)))) ;;
        ret (acc.1, true)
      else ret acc)
    (λ acc' s'', limit_inv s acc' rest s'') s'.
Proof.
  intros HI Ht Htd. pose proof HI as (H1&H2&H3&H4&H5&H6&H7).
  pose proof H4 as [Hid _]%NoDup_cons.
  pose proof (visited_num_cons id rest t (tasks s') Ht Hid) as Hv. rewrite Htd in Hv. simpl in Hv.
  assert (Hskip : limit_inv s acc rest s').
  { destruct acc as [c b]. eapply limit_inv_step; [done|done|reflexivity|reflexivity|done|].
    destruct H7; [left|right]; simpl in *; lia. }
  wp_step. destruct (bool_decide (st = TaskStatus.kWaitting)); [|by apply wp_ret, wp_ret].
  apply wp_IsCanStart. intros [] Hb; [|by apply wp_ret]. specialize (Hb eq_refl).
  pose proof H2 as (_&_&Hlim&_).
  assert (HP : ∀ x, id = x → is_Some (tasks s' !! x)) by (intros ? <-; by eexists).
  wp_step. apply (steady_use (eq id) keeps_count); [done..|steady_auto|].
  intros b s1 Hm1 Hu1 Hd1 Hc1. wp_step. unfold keeps_count in Hc1.
  eapply (wp_mono _ (λ _ s2, mok s2 ∧ uext s1 s2 ∧ same_dom s1 s2 ∧
    downloading_num (tasks s2) <= downloading_num (tasks s1) + 1)).
  - assert (is_Some (tasks s1 !! id)) by (eapply same_dom_listed; [done|by eexists]).
    destruct b.
    + wp_step. eapply wp_on_task_bump; [done..|apply pres_Resume|]. intros. by apply wp_ret.
    + eapply wp_on_task_bump; [done..|apply pres_Start|]. auto.
  - intros err s2 (Hm2&Hu2&Hd2&Hc2). wp_step.
    apply (steady_use (eq id) keeps_count); [done| |steady_auto|].
    { intros x <-. eapply same_dom_listed; [done|]. eapply same_dom_listed; [done|]. by eexists. }
    intros _ s3 Hm3 Hu3 Hd3 Hc3. unfold keeps_count in Hc3. apply wp_ret.
    eapply limit_inv_step; [done|done|by do 2 (etrans; [done|])|by do 2 (etrans; [done|])|done|].
    left. lia.
Qed.

Lemma mok_limit s : mok s → 0 <= task_limit (us_m s).
Proof.
  intros (_&_&_&Hu). unfold task_limit. destruct (m_user_info (us_m s)) as [u|]; [|lia].
  destruct (Hu u eq_refl) as [Hl _]. unfold GetTaskLimitCount, to_int32, wrap_signed.
  unfold int32_max in Hl. rewrite Z.mod_small by lia.
  destruct (Z.ltb_spec (ui_task_limit_count u) (2 ^ (32 - 1))); lia.
Qed.

Lemma wp_CheckTaskCountLimit q (Q : bool → US → Prop) s :
  mok s → q ≡ₚ map_keys (tasks s) →
  (∀ b s', mok s' → uext s s' → same_dom s s' →
     downloading_num (tasks s') <= task_limit (us_m s) → Q b s') →
  wp (CheckTaskCountLimit q) Q s.
Proof.
  intros Hs Hq HQ. unfold CheckTaskCountLimit, mgr. wp_step. apply wp_gets. wp_step.
  apply (wp_fold_each (limit_inv s)).
  - split_and!; try done.
    + by rewrite Hq; apply NoDup_map_keys.
    + intros x. by rewrite Hq, elem_of_map_keys.
    + right. rewrite visited_num_all by (intros k; by rewrite Hq, elem_of_map_keys).
      split; [done|]. by apply mok_limit.
  - intros [c b] id rest s' HI. unfold CheckTaskCountLimit_step. wp_step.
    pose proof HI as (Hm&_&_&_&Hl&_). destruct (Hl id) as [t Ht]; [set_solver|].
    eapply (wp_on_task_read _ _ _ _ t (status_of t)); [done..|].
    rewrite <-is_downloading_status. destruct (is_downloading t) eqn:Htd.
    + by apply (limit_step_downloading s (c, b) id rest s' t).
    + by apply (limit_step_other s (c, b) id rest s' t).
  - intros [c b] s' (Hm&Hu&Hd&_&_&_&HD). apply wp_ret. apply HQ; [done..|].
    rewrite visited_num_nil in HD. destruct HD; lia.
Qed.
End MgrTick.
