(* ===== verification/UserSelfMgrOps.v ===== *)
(** * What the operations of a [UserSelfMgr] guarantee

    For each public operation: it runs without undefined behaviour from a
    well-formed state, keeps the state well formed, and moves the number of
    simultaneous downloads and the set of listed tasks as it should. *)

From S2P Require Import Prelude CppBase BaseRef PathUnit DownloadTypes ErrorDesc TaskInfo.
From S2P Require Import InfoStore SystemConfig ServerWorld TaskRefCount TaskObj TaskSpec.
From S2P Require Import TaskFactory UserInfo UserSelfMgr UserSelfMgrSpec.
#[local] Open Scope prog_scope.

(** ** Operations on one task leave the others alone *)
Section Only.
  Context `{E : Env} `{bl : BaseLib} `{ss : StdSort}.
  Implicit Types s : US.

Definition only (id : string) s s' : Prop := delete id (tasks s') = delete id (tasks s).

#[global] Instance only_preorder id : PreOrder (only id).
Proof. unfold only. split; congruence. Qed.

Lemma only_lookup id s s' k : only id s s' → k ≠ id → tasks s' !! k = tasks s !! k.
Proof.
  intros Ho Hk. rewrite <-(lookup_delete_ne (tasks s') id k), Ho by done.
  by apply lookup_delete_ne.
Qed.

Lemma steady_on_task_only {A} R id (m : ST TS A) :
  pres R m → steady (eq id) (only id) (on_task id m).
Proof.
  intros Hm s Hs Hd. destruct (Hd id eq_refl) as [t Ht].
  eapply wp_on_task_pres; [done..|]. intros a t' w s' _ _ _ ???. split_and!; [done..|].
  unfold only. simpl. apply delete_insert_eq.
Qed.

Lemma steady_SetContextField_only id c : steady (eq id) (only id) (on_task id (SetContextField c)).
Proof.
  intros s Hs Hd. destruct (Hd id eq_refl) as [t Ht].
  eapply wp_on_task; [done|]. apply wp_upd_task. simpl.
  destruct (mok_put id t (set_t_context_field c t) (us_w s) s) as (?&?&?);
    [done|done|by apply (ok_of_listed s id t)|done|done|].
  split_and!; [done..|]. unfold only. simpl. apply delete_insert_eq.
Qed.

Lemma steady_on_world_only {A} P id (m : ST World A) :
  world_pres m → steady P (only id) (on_world m).
Proof.
  intros Hm s (Hc & Hl & Hu & Hui) Hd. apply wp_on_world. wp_call Hm.
  split_and!; try done. split_and!; try done. simpl. by rewrite (proj1 H).
Qed.
End Only.
#[export] Hint Resolve steady_SetContextField_only steady_on_world_only : steady.
#[export] Hint Extern 4 (steady _ (only _) (on_task _ _)) =>
  apply (steady_on_task_only any); solve [eauto 4 with pres | pres_auto] : steady.

Section OnlyOps.
  Context `{E : Env} `{bl : BaseLib} `{ss : StdSort}.
  Implicit Types s : US.

Lemma steady_SetTaskContextField_only id : steady (eq id) (only id) (SetTaskContextField id).
Proof. unfold SetTaskContextField, mgr. steady_auto. Qed.

Lemma steady_with_task_only id (k : ST US Z) :
  steady (eq id) (only id) k → steady (λ _, False) (only id) (with_task id k).
Proof. apply (steady_with_task _ _), steady_SetTaskContextField_only. Qed.

Lemma steady_PauseTask_only id : steady (eq id) (only id) (PauseTask id).
Proof. unfold PauseTask. steady_auto. Qed.

Lemma steady_TryResume_only id : steady (eq id) (only id) (TryResume id).
Proof. unfold TryResume, IsCanStart, mgr. steady_auto. Qed.
End OnlyOps.
#[export] Hint Resolve steady_SetTaskContextField_only steady_PauseTask_only steady_TryResume_only
  : steady.

Section OnlyExec.
  Context `{E : Env} `{bl : BaseLib} `{ss : StdSort}.
  Implicit Types s : US.

Lemma steady_ExecPauseOperate_only id : steady (λ _, False) (only id) (ExecPauseOperate id).
Proof. apply steady_with_task_only. steady_auto. Qed.

Lemma steady_ExecResumeOperate_only id : steady (λ _, False) (only id) (ExecResumeOperate id).
Proof. apply steady_with_task_only. steady_auto. Qed.

Lemma steady_ExecRetryOperate_only id : steady (λ _, False) (only id) (ExecRetryOperate id).
Proof.
  apply steady_with_task_only. unfold is_status, task_IsValid, task_SetIsValid. steady_auto.
Qed.

Lemma steady_ExecRestoreOperate_only id : steady (λ _, False) (only id) (ExecRestoreOperate id).
Proof.
  apply steady_with_task_only. unfold is_status, task_IsValid, IsCanStart, mgr.
  apply (steady_bind _ _); [steady_auto|intros []]; [steady_auto|].
  eapply steady_weaken; [apply steady_ExecRetryOperate_only|done|done].
Qed.
End OnlyExec.

(** ** Requests that keep the set of tasks *)
Section Control.
  Context `{E : Env} `{bl : BaseLib} `{ss : StdSort} {sl : StdSortLaws ss}.
  Implicit Types s : US.

(** The conclusion shared by the requests: well-formedness, the task set, and
    the movement of the number of downloads. *)
Definition keeps_tasks (R : US → US → Prop) (s s' : US) : Prop :=
  mok s' ∧ uext s s' ∧ same_dom s s' ∧ R s s'.

(** A request that walks the sorted queue. *)
Lemma wp_queue R `{!PreOrder R} (body : list string → ST US unit) s :
  mok s → (∀ s s', tasks s' = tasks s → uext s s' → R s s') →
  (∀ q, steady (λ x, x ∈ q) R (body q)) →
  wp (q ← SortTask SortStyle.kCreateTime true; body q) (λ _, keeps_tasks R s) s.
Proof.
  intros Hs HR Hb. wp_step. apply wp_SortTask; [done|]. intros q s1 Hq H1 Hu1 Ht1 _.
  assert (Hd1 : same_dom s s1) by (unfold same_dom; by rewrite Ht1).
  eapply steady_use; [done| |apply Hb|].
  - intros x Hx. rewrite Ht1. apply elem_of_map_keys. by rewrite <-Hq.
  - intros _ s2 H2 Hu2 Hd2 HR2. split_and!; [done|by etrans|by etrans|].
    etrans; [by apply HR|done].
Qed.

Lemma admits_same s s' : tasks s' = tasks s → uext s s' → admits s s'.
Proof. intros Ht (_&_&Hl&_). split; [done|]. rewrite Ht. lia. Qed.

Lemma steady_for_requested R `{!PreOrder R} q ids l body :
  (∀ P m, steady P keeps_count m → steady P R (m : ST US string)) →
  (∀ key l id, key ∈ q → steady (λ x, x ∈ q) R (body key l id)) →
  steady (λ x, x ∈ q) R (for_requested q ids l body).
Proof.
  intros HR Hb. unfold for_requested. apply (steady_fold_each _ _). intros l' key Hk.
  apply (steady_bind _ _); [apply HR; steady_auto|]. intros task_id.
  apply (steady_fold_each _ _). intros l'' x _. by apply Hb.
Qed.

Lemma Pause_keeps ids cf s : mok s → wp (UserSelfMgr.Pause ids cf) (λ _, keeps_tasks sheds s) s.
Proof.
  intros Hs. apply (steady_use (λ _, False) sheds); [done..| |by intros; split_and!].
  unfold UserSelfMgr.Pause. apply (steady_bind _ _); [|intros; steady_auto].
  apply (steady_fold_each _ _). intros. steady_auto.
Qed.

Lemma PauseAll_keeps cf s : mok s → wp (PauseAll cf) (λ _, keeps_tasks sheds s) s.
Proof.
  intros Hs. unfold PauseAll, task_list. wp_step. apply wp_gets.
  apply (steady_use (λ x, x ∈ map_keys (tasks s)) sheds); [done| | |by intros; split_and!].
  { intros x. apply elem_of_map_keys. }
  apply (steady_bind _ _); [|intros; steady_auto].
  apply (steady_fold_each _ _). intros l id Hid. steady_auto.
Qed.

Lemma Resume_keeps ids cf s : mok s → wp (UserSelfMgr.Resume ids cf) (λ _, keeps_tasks admits s) s.
Proof.
  intros Hs. apply (wp_queue _); [done|apply admits_same|]. intros q.
  apply (steady_bind _ _); [|intros; steady_auto].
  apply (steady_for_requested _); [intros; by apply steady_admits|]. intros. steady_auto.
Qed.

Lemma ResumeAll_keeps cf s : mok s → wp (ResumeAll cf) (λ _, keeps_tasks admits s) s.
Proof.
  intros Hs. apply (wp_queue _); [done|apply admits_same|]. intros q.
  apply (steady_bind _ _); [|intros; steady_auto].
  apply (steady_fold_each _ _). intros l id Hid. steady_auto.
Qed.

Lemma Retry_keeps ids cf s : mok s → wp (UserSelfMgr.Retry ids cf) (λ _, keeps_tasks admits s) s.
Proof.
  intros Hs. apply (wp_queue _); [done|apply admits_same|]. intros q.
  apply (steady_bind _ _); [|intros; steady_auto].
  apply (steady_for_requested _); [intros; by apply steady_admits|]. intros. steady_auto.
Qed.

Lemma RetryAll_keeps cf s : mok s → wp (RetryAll cf) (λ _, keeps_tasks admits s) s.
Proof.
  intros Hs. apply (wp_queue _); [done|apply admits_same|]. intros q.
  apply (steady_bind _ _); [|intros; steady_auto].
  apply (steady_fold_each _ _). intros l id Hid. steady_auto.
Qed.

Lemma Restore_keeps ids cf s : mok s → wp (UserSelfMgr.Restore ids cf) (λ _, keeps_tasks uany s) s.
Proof.
  intros Hs. apply (wp_queue _); [done|done|]. intros q.
  apply (steady_bind _ _); [|intros; steady_auto].
  apply (steady_for_requested _); [intros; by eapply steady_uany|]. intros. steady_auto.
Qed.

Lemma RestoreAll_keeps cf s : mok s → wp (RestoreAll cf) (λ _, keeps_tasks uany s) s.
Proof.
  intros Hs. apply (wp_queue _); [done|done|]. intros q.
  apply (steady_bind _ _); [|intros; steady_auto].
  apply (steady_fold_each _ _). intros l id Hid. steady_auto.
Qed.

Lemma steady_set_context P cf :
  steady P keeps_count
    (upd_mgr (λ m, set_m_user_info (set_ui_context_field cf <$> m_user_info m) m)).
Proof.
  apply steady_upd_mgr. intros m. unfold task_limit. simpl.
  destruct (m_user_info m) as [u|]; simpl; split_and!; try done.
  intros Hall u' [= <-]. by apply (Hall u).
Qed.

Lemma GetTaskInfoList_keeps cf s :
  mok s → wp (UserSelfMgr.GetTaskInfoList cf) (λ _, keeps_tasks keeps_count s) s.
Proof.
  intros Hs. unfold UserSelfMgr.GetTaskInfoList. wp_step.
  apply (steady_use (λ _, False) keeps_count); [done..|apply steady_set_context|].
  intros _ s1 H1 Hu1 Hd1 Hc1. wp_step. apply wp_gets.
  apply (steady_use (λ x, x ∈ map_keys (tasks s1)) keeps_count); [done| | |].
  - intros x. apply elem_of_map_keys.
  - apply (steady_fold_each _ _). intros l id Hid. steady_auto.
  - intros _ s2 H2 Hu2 Hd2 Hc2. split_and!; [done|by etrans|by etrans|]. unfold keeps_count in *.
    congruence.
Qed.
End Control.

(** ** The periodic check *)
Section Tick.
  Context `{E : Env} `{bl : BaseLib} `{ss : StdSort} {sl : StdSortLaws ss}.
  Implicit Types s : US.

Lemma wp_CheckTaskAndGetTaskInfo (Q : Dict → US → Prop) s :
  mok s → is_Some (m_user_info (us_m s)) →
  (∀ d s', keeps_tasks uany s s' → Q d s') →
  wp CheckTaskAndGetTaskInfo Q s.
Proof.
  intros Hs Hu HQ. unfold CheckTaskAndGetTaskInfo. wp_step. apply wp_SortTask; [done|].
  intros q s1 Hq H1 Hu1 Ht1 _. wp_step.
  assert (Hd1 : same_dom s s1) by (unfold same_dom; by rewrite Ht1).
  apply wp_CheckTaskCountLimit; [done|by rewrite Ht1|]. intros b s2 H2 Hu2 Hd2 _. wp_step.
  apply (steady_use (λ x, x ∈ q) uany); [done| | |].
  - intros x Hx. eapply same_dom_listed; [done|]. rewrite Ht1. apply elem_of_map_keys.
    by rewrite <-Hq.
  - apply (steady_fold_each _ _). intros acc id Hid. by apply steady_CheckTask_step.
  - intros acc s3 H3 Hu3 Hd3 _. wp_step. apply wp_gets.
    assert (Hus : uext s s3) by (do 2 (etrans; [done|]); done).
    assert (Hds : same_dom s s3) by (do 2 (etrans; [done|]); done).
    pose proof Hus as (_&_&_&Hiff). apply Hiff in Hu as [u Hu]. wp_step.
    eapply wp_of_option; [done|]. destruct (should_publish b acc (ui_statistics_info u)).
    + wp_step. apply wp_modify, wp_ret, HQ. destruct H3 as (Hc&Hl&Hn&Hok).
      split_and!; [split_and!; try done| |done|done].
      * simpl. intros u' [= <-]. by apply (Hok u).
      * etrans; [done|]. split_and!; [done|reflexivity| |].
        -- unfold task_limit. simpl. by rewrite Hu.
        -- simpl. rewrite Hu. done.
    + apply wp_ret, HQ. by split_and!.
Qed.

Lemma TimerChcek_keeps s : mok s → wp TimerChcek (λ _, keeps_tasks uany s) s.
Proof.
  intros Hs. unfold TimerChcek. wp_step. apply wp_gets.
  destruct (m_user_info (us_m s)) as [u|] eqn:Hu.
  - wp_step. apply wp_CheckTaskAndGetTaskInfo; [done|by rewrite Hu|]. intros d s1 Hk.
    pose proof Hk as (H1 & (_&_&_&Hiff) & _). rewrite Hu in Hiff.
    destruct (proj2 Hiff) as [u' Hu']; [done|]. wp_step. apply wp_gets. wp_step.
    eapply wp_of_option; [done|]. destruct (_ || _); [by apply wp_ret|].
    destruct d; [by apply wp_ret|].
    apply (steady_use (λ _, False) uany); [done..|steady_auto|].
    destruct Hk as (_&Hu1&Hd1&_). intros _ s2 H2 Hu2 Hd2 _. split_and!; [done|by etrans..].
  - apply wp_ret. split_and!; [done|reflexivity..].
Qed.

End Tick.

(** ** Deletion *)
Section Deletion.
  Context `{E : Env} `{bl : BaseLib} `{ss : StdSort} {sl : StdSortLaws ss}.
  Implicit Types s : US.

Lemma wp_destroy_task t (Q : unit → World → Prop) w :
  (∀ e, Q tt (set_w_env e w)) → wp (destroy_task t) Q w.
Proof.
  intros HQ. unfold destroy_task. destruct (t_impl t); [apply wp_env_call; intros []; apply HQ|].
  apply wp_ret. assert (Hw : set_w_env (w_env w) w = w) by (by destruct w). rewrite <-Hw. apply HQ.
Qed.

Lemma wp_drop_task t (Q : unit → World → Prop) w :
  (∀ w', world_step w w' → Q tt w') → wp (drop_task t) Q w.
Proof.
  intros HQ. unfold drop_task. wp_step.
  assert (∀ l, wp (destroy_task t) Q (set_w_posts l w)) as Hl by (intros l; apply wp_destroy_task; intros e; by apply HQ).
  destruct (t_impl t); [by apply wp_modify|]. apply wp_ret.
  assert (Hw : set_w_posts (w_posts w) w = w) by (by destruct w). rewrite <-Hw. apply Hl.
Qed.

Lemma wp_erase id (Q : unit → US → Prop) s t :
  tasks s !! id = Some t →
  (∀ w, world_step (us_w s) w → Q tt (mkUS (set_m_task_list (delete id (tasks s)) (us_m s)) w)) →
  wp (erase id) Q s.
Proof.
  intros Ht HQ. unfold erase, task_list. wp_step. apply wp_gets. wp_step.
  eapply wp_of_option; [done|]. wp_step. apply wp_modify, wp_on_world, wp_drop_task.
  intros w Hw. by apply HQ.
Qed.

Lemma mok_delete id w s :
  mok s → world_step (us_w s) w → mok (mkUS (set_m_task_list (delete id (tasks s)) (us_m s)) w).
Proof.
  intros (Hc&Hl&Hn&Hu) [Hw _]. split_and!; try done; simpl; [by rewrite Hw|..].
  - intros k t. rewrite lookup_delete_Some. intros [_ ?]. by apply Hl.
  - apply lookup_delete_None. by right.
Qed.

(** The outcome of removing [id] for good: removed with its row deletion
    posted, or an error with the task still listed; other tasks untouched. *)
Definition removal (id : string) (err : Z) s s' : Prop :=
  only id s s' ∧ mok s' ∧ uext s s' ∧ sheds s s' ∧
  ((err = DownloadErrorCode.kNormal ∧ tasks s' !! id = None ∧
    DeleteTaskInfo (m_user_id (us_m s)) id ∈ w_db (us_w s')) ∨
   (err ≠ DownloadErrorCode.kNormal ∧ is_Some (tasks s' !! id))).

(** Both families of facts about a block that keeps the task. *)
Lemma wp_both {A} id (m : ST US A) (Q : A → US → Prop) s :
  mok s → is_Some (tasks s !! id) → steady (eq id) sheds m → steady (eq id) (only id) m →
  (∀ a s', mok s' → uext s s' → same_dom s s' → sheds s s' → only id s s' → Q a s') → wp m Q s.
Proof.
  intros Hs Hl Hm Ho HQ.
  eapply wp_mono; [apply wp_and; [apply Hm|apply Ho]; (done || by intros ? <-)|].
  intros a s' [(?&?&?&?) (_&_&_&?)]. auto.
Qed.

Lemma wp_DeleteForGood id b c ks kf (Q : Z * Lists → US → Prop) s :
  mok s → is_Some (tasks s !! id) →
  steady (eq id) sheds ks → steady (eq id) (only id) ks →
  (∀ e, steady (eq id) sheds (kf e)) → (∀ e, steady (eq id) (only id) (kf e)) →
  (∀ r s', removal id r.1 s s' → Q r s') →
  wp (DeleteForGood id b c ks kf) Q s.
Proof.
  intros Hs Hl Hks Hks' Hkf Hkf' HQ. unfold DeleteForGood. assert (Hid : id = id) by done.
  wp_step. apply (wp_both id); [done|done|steady_auto..|]. intros fin s1 H1 Hu1 Hd1 Hs1 Ho1.
  pose proof (same_dom_listed _ _ _ Hd1 Hl) as Hl1.
  wp_step. apply (wp_both id); [done|done|steady_auto..|]. intros del s2 H2 Hu2 Hd2 Hs2 Ho2.
  pose proof (same_dom_listed _ _ _ Hd2 Hl1) as Hl2.
  assert (Hfail : ∀ e, e ≠ DownloadErrorCode.kNormal → ∀ s3, mok s3 → uext s2 s3 →
    same_dom s2 s3 → sheds s2 s3 → only id s2 s3 →
    wp (l ← kf e; ret (e, l)) Q s3).
  { intros e He s3 H3 Hu3 Hd3 Hs3 Ho3. pose proof (same_dom_listed _ _ _ Hd3 Hl2) as Hl3.
    wp_step. apply (wp_both id); [done|done|done|done|]. intros l s4 H4 Hu4 Hd4 Hs4 Ho4.
    apply wp_ret, HQ. split_and!; [by do 3 (etrans; [done|])|done|by do 3 (etrans; [done|])
      |by do 3 (etrans; [done|])|]. right. split; [done|]. by eapply same_dom_listed. }
  destruct del; simpl; [|by apply Hfail].
  wp_step. apply (wp_both id); [done|done|steady_auto..|]. intros ok s3 H3 Hu3 Hd3 Hs3 Ho3.
  pose proof (same_dom_listed _ _ _ Hd3 Hl2) as Hl3.
  destruct ok; simpl; [|by apply Hfail].
  wp_step. apply wp_gets. wp_step. apply wp_on_world, wp_modify.
  set (s4 := mkUS _ _).
  assert (H4 : mok s4) by (destruct H3 as (?&?&?&?); by split_and!).
  assert (Hu4 : uext s3 s4)
    by (split_and!; try done; split; [done|by apply prefix_app_r]).
  wp_step. apply (wp_both id); [done|done|done|done|]. intros l s5 H5 Hu5 Hd5 Hs5 Ho5.
  destruct (same_dom_listed s4 s5 id Hd5 Hl3) as [t5 Ht5].
  wp_step. eapply wp_erase; [done|]. intros w Hw. apply wp_ret, HQ.
  assert (Hus : uext s s5) by (do 4 (etrans; [done|]); done).
  split_and!.
  - unfold only in *. simpl in *. rewrite delete_delete_eq. congruence.
  - by apply mok_delete.
  - etrans; [done|]. split_and!; try done.
  - unfold sheds in *. simpl in *. pose proof (downloading_num_delete id (tasks s5)). lia.
  - left. split_and!; [done|simpl; apply lookup_delete_eq|]. simpl.
    destruct Hu5 as (_&(_&Hdb)&_). eapply elem_of_prefix; [|exact (proj2 Hw)]. eapply elem_of_prefix; [|done]. simpl.
    apply elem_of_app. right. apply list_elem_of_singleton. f_equal.
    destruct Hu1 as (E1&_), Hu2 as (E2&_), Hu3 as (E3&_). congruence.
Qed.

(** [task] is in the recycle bin. *)
Definition recycled (t : Task) : bool :=
  match t_info t with
  | Some i => bool_decide (ti_category i = TaskCategory.kRecyclebinTask)
  | None => false
  end.

(** What the request [ExecDeleteOperate] on [id] does, by the state of the task. *)
Definition deletion (id : string) (judge : bool) (err : Z) s s' : Prop :=
  match tasks s !! id with
  | None => err = DownloadErrorCode.kTaskIdIsNotExist ∧ s' = s
  | Some t =>
      only id s s' ∧
      if judge && match t_info t with Some i => ti_is_valid i | None => false end then
        err = DownloadErrorCode.kCleanTaskFailed ∧ is_Some (tasks s' !! id)
      else if recycled t then removal id err s s'
      else err = DownloadErrorCode.kNormal ∧
        ∃ t', tasks s' !! id = Some t' ∧
          (status_of t' = TaskStatus.kDeleted ∨ status_of t' = status_of t)
  end.

(** The context of a listed task is refreshed before anything else. *)
Lemma wp_SetTaskContextField id (Q : unit → US → Prop) s t :
  mok s → tasks s !! id = Some t →
  (∀ c, let s' := put id (set_t_context_field c t) (us_w s) s in
     mok s' → uext s s' → same_dom s s' → only id s s' → sheds s s' → Q tt s') →
  wp (SetTaskContextField id) Q s.
Proof.
  intros Hs Ht HQ. unfold SetTaskContextField, mgr. wp_step. apply wp_gets.
  assert (Hput : ∀ c, wp (on_task id (SetContextField c)) Q s).
  { intros c. eapply wp_on_task; [done|]. apply wp_upd_task.
    destruct (mok_put id t (set_t_context_field c t) (us_w s) s) as (?&?&?);
      [done|done|by apply (ok_of_listed s id t)|done|done|].
    apply HQ; try done.
    - unfold only. simpl. apply delete_insert_eq.
    - unfold sheds. rewrite (downloading_num_put id t) by done.
      change (is_downloading (set_t_context_field c t)) with (is_downloading t). lia. }
  destruct (m_user_info (us_m s)) as [u|]; [apply Hput|]. apply wp_ret.
  assert (Hid : put id (set_t_context_field (t_context_field t) t) (us_w s) s = s).
  { unfold put. replace (set_t_context_field (t_context_field t) t) with t by by destruct t.
    rewrite insert_id by done. by destruct s as [[] ?]. }
  rewrite <-Hid. apply HQ; rewrite Hid; done || reflexivity.
Qed.

Lemma removal_trans id err s s1 s' :
  only id s s1 → uext s s1 → sheds s s1 → removal id err s1 s' → removal id err s s'.
Proof.
  intros Ho Hu Hsh (Ho' & Hm & Hu' & Hsh' & Hr). split_and!; [by etrans|done|by etrans..|].
  destruct Hu as (Hid & _). by rewrite <-Hid.
Qed.

Lemma task_category_read id s t i :
  tasks s !! id = Some t → t_info t = Some i →
  ∀ Q : TaskCategory → US → Prop, Q (ti_category i) s → wp (on_task id GetTaskCategory) Q s.
Proof.
  intros Ht Hi Q HQ. eapply wp_on_task_read; [done| |done].
  unfold GetTaskCategory, task, bind, gets. simpl. by rewrite Hi.
Qed.

Lemma task_valid_read id s t i :
  tasks s !! id = Some t → t_info t = Some i →
  ∀ Q : bool → US → Prop, Q (ti_is_valid i) s → wp (task_IsValid id) Q s.
Proof.
  intros Ht Hi Q HQ. eapply wp_on_task_read; [done| |done].
  unfold info, task, bind, gets. simpl. by rewrite Hi.
Qed.

Lemma wp_ExecDeleteOperate id b j l (Q : Z * Lists → US → Prop) s :
  mok s →
  (∀ r s', mok s' → uext s s' → sheds s s' → deletion id j r.1 s s' → Q r s') →
  wp (ExecDeleteOperate id b j l) Q s.
Proof.
  intros Hs HQ. unfold ExecDeleteOperate. wp_step. apply wp_FindTask.
  unfold deletion in HQ. destruct (tasks s !! id) as [t|] eqn:Ht; simpl.
  2: { apply wp_ret, HQ; [done|reflexivity|reflexivity|done]. }
  pose proof Hs as (_&Hl&_). destruct (Hl id t Ht) as [(_&i&Hi&_) _].
  wp_step. eapply wp_SetTaskContextField; [done..|]. intros c s1 H1 Hu1 Hd1 Ho1 Hs1.
  set (t1 := set_t_context_field c t) in *.
  assert (Ht1 : tasks s1 !! id = Some t1) by apply lookup_insert_eq.
  assert (Hi1 : t_info t1 = Some i) by done. wp_step.
  eapply (wp_mono _ (λ v s', s' = s1 ∧ v = (j && ti_is_valid i))).
  { destruct j; [by eapply task_valid_read|by apply wp_ret]. }
  intros v s1' [-> ->]. rewrite Hi in HQ. destruct (j && ti_is_valid i).
  { apply wp_ret, HQ; [done..|]. split_and!; [done|done|by eexists]. }
  unfold recycled in HQ. rewrite Hi in HQ.
  wp_step. eapply task_category_read; [done..|].
  case_bool_decide.
  - assert (Hid : id = id) by done.
    apply wp_DeleteForGood; [done|by eexists|steady_auto..|intros; steady_auto|intros; steady_auto|].
    intros r s2 Hr. pose proof (removal_trans id r.1 s s1 s2 Ho1 Hu1 Hs1 Hr) as Hr'.
    pose proof Hr' as (?&?&?&?&_). by apply HQ.
  - wp_step. eapply wp_on_task; [done|].
    apply wp_DeleteToRecycleBin; [by eapply ok_of_listed|]. intros [t2 w2] Hok2 He2 Hst2.
    pose proof He2 as (_&_&Hid2&_&Hw2).
    destruct (mok_put id t1 t2 w2 s1) as (H2&Hu2&Hd2); [done|done|by apply Hok2|done|done|].
    simpl. fold (put id t2 w2 s1). set (s2 := put id t2 w2 s1) in *.
    assert (Ht2 : tasks s2 !! id = Some t2) by apply lookup_insert_eq.
    wp_step. wp_step. eapply (wp_on_task_pres keeps_status); [done..|pres_auto|].
    intros d t3 w3 s3 _ _ [Hst3 _] H3 Hu3 Hd3. apply wp_ret. wp_step. apply HQ; try done.
    + by do 2 (etrans; [done|]).
    + pose proof (downloading_num_put id t2 t3 w3 s2 Ht2) as N3.
      pose proof (downloading_num_put id t1 t2 w2 s1 Ht1) as N2.
      rewrite !is_downloading_status in N3. simpl in Hst3, Hst2. rewrite Hst3 in N3.
      rewrite <-is_downloading_status in N3. fold s2 in N2.
      change (put id t3 w3 s2) with s3 in N3.
      assert (is_downloading t2 = true → is_downloading t1 = true).
      { rewrite !is_downloading_status. destruct Hst2 as [[-> _]|[-> _]]; done. }
      unfold sheds in *. destruct (is_downloading t2), (is_downloading t1);
        unfold Z.b2z in N2, N3; intuition lia.
    + split_and!; [|done|].
      * unfold only in *. simpl. rewrite !delete_insert_eq. done.
      * exists t3. split; [apply lookup_insert_eq|]. simpl in *. rewrite Hst3.
        destruct Hst2 as [[? _]|[? _]]; [by left|by right].
Qed.

(** What every deleting request guarantees. *)
Definition shrinks s s' : Prop :=
  mok s' ∧ uext s s' ∧ sheds s s' ∧ dom (tasks s') ⊆ dom (tasks s).

Lemma shrinks_refl s : mok s → shrinks s s.
Proof. intros. split_and!; [done|reflexivity..]. Qed.

Lemma shrinks_trans s s1 s2 : shrinks s s1 → shrinks s1 s2 → shrinks s s2.
Proof. intros (?&?&?&?) (?&?&?&?). split_and!; [done|by etrans|by etrans|set_solver]. Qed.

Lemma only_dom id s s' :
  only id s s' → is_Some (tasks s !! id) → dom (tasks s') ⊆ dom (tasks s).
Proof.
  intros Ho Hl k Hk%elem_of_dom. apply elem_of_dom. destruct (decide (k = id)) as [->|Hne]; [done|].
  by rewrite <-(only_lookup id s s' k).
Qed.

Lemma deletion_dom id j err s s' : deletion id j err s s' → dom (tasks s') ⊆ dom (tasks s).
Proof.
  unfold deletion. destruct (tasks s !! id) as [t|] eqn:Ht; [|by intros [_ ->]].
  intros [Ho _]. eapply only_dom; [done|by eexists].
Qed.

Lemma wp_deletes ids b j op cf s :
  mok s →
  wp (l ← fold_each ids no_lists (λ l id, '(_, l) ← ExecDeleteOperate id b j l; ret l);
      notify_lists "task_control" op cf l) (λ _, shrinks s) s.
Proof.
  intros Hs. wp_step. apply (wp_fold_each (λ _ _, shrinks s)).
  - by apply shrinks_refl.
  - intros l id ids' s1 Hsh. wp_step. apply wp_ExecDeleteOperate; [by apply Hsh|].
    intros [e l'] s2 H2 Hu2 Hs2 Hd2. apply wp_ret. eapply shrinks_trans; [done|].
    split_and!; [done..|]. by eapply deletion_dom.
  - intros l s1 Hsh. apply (steady_use (λ _, False) sheds); [by apply Hsh|done|steady_auto|].
    intros _ s2 H2 Hu2 Hd2 Hs2. eapply shrinks_trans; [done|]. split_and!; [done..|].
    unfold same_dom in Hd2. by rewrite Hd2.
Qed.

Lemma Delete_shrinks ids b cf s : mok s → wp (Delete ids b cf) (λ _, shrinks s) s.
Proof. apply wp_deletes. Qed.

Lemma Clean_shrinks ids cf s : mok s → wp (Clean ids cf) (λ _, shrinks s) s.
Proof. apply wp_deletes. Qed.

(** One turn of a category loop touches only the visited task. *)
Definition category_turn (body : Lists → string → ST US Lists) : Prop :=
  ∀ l id s, mok s → is_Some (tasks s !! id) →
    wp (body l id) (λ _ s', mok s' ∧ uext s s' ∧ sheds s s' ∧ only id s s') s.

Lemma wp_category_loop body cf op s :
  category_turn body → mok s →
  wp (l ← (tasks ← task_list; fold_each (map_keys tasks) no_lists body);
      notify_lists "task_control" op cf l) (λ _, shrinks s) s.
Proof.
  intros Hb Hs. wp_step. wp_step. apply wp_gets.
  apply (wp_fold_each (λ _ rest s', shrinks s s' ∧ NoDup rest ∧
    ∀ x, x ∈ rest → is_Some (tasks s' !! x))).
  - split_and!; [by apply shrinks_refl|apply NoDup_map_keys|]. intros x. apply elem_of_map_keys.
  - intros l id rest s1 (Hsh & [Hid Hnd]%NoDup_cons & Hl). destruct (Hl id) as [t Ht]; [set_solver|].
    wp_call Hb; [by apply Hsh|by eexists|]. destruct H as (H2&Hu2&Hs2&Ho2). split_and!; [|done|].
    + eapply shrinks_trans; [done|]. split_and!; [done..|]. eapply only_dom; [done|by eexists].
    + intros x Hx. rewrite (only_lookup id s1 s') by (done || set_solver). apply Hl. set_solver.
  - intros l s1 (Hsh & _). apply (steady_use (λ _, False) sheds); [by apply Hsh|done|steady_auto|].
    intros _ s2 H2 Hu2 Hd2 Hs2. eapply shrinks_trans; [done|]. split_and!; [done..|].
    unfold same_dom in Hd2. by rewrite Hd2.
Qed.

(** The blocks both category loops share. *)
Lemma steady_BuildMessageData_only id err op l :
  steady (eq id) (only id) (UserSelfMgr.BuildMessageData id err op l).
Proof. unfold UserSelfMgr.BuildMessageData, FindTask, task_list. steady_auto. Qed.

Lemma wp_remove_turn id b c err_ok op l (Q : Lists → US → Prop) s0 s :
  mok s → is_Some (tasks s !! id) → uext s0 s → sheds s0 s → only id s0 s →
  (∀ l' s', mok s' → uext s0 s' → sheds s0 s' → only id s0 s' → Q l' s') →
  wp ('(_, l') ← DeleteForGood id b c (UserSelfMgr.BuildMessageData id err_ok op l)
        (λ err, UserSelfMgr.BuildMessageData id err op l); ret l') Q s.
Proof.
  intros Hs Hl Hu Hsh Ho HQ. wp_step.
  apply wp_DeleteForGood; [done|done|steady_auto|apply steady_BuildMessageData_only|
    intros; steady_auto|intros; apply steady_BuildMessageData_only|].
  intros [e l'] s' Hr. apply wp_ret.
  pose proof (removal_trans _ _ _ _ _ Ho Hu Hsh Hr) as (?&?&?&?&_). by apply HQ.
Qed.

Lemma wp_recycle_turn id op l (Q : Lists → US → Prop) s0 s :
  mok s → is_Some (tasks s !! id) → uext s0 s → sheds s0 s → only id s0 s →
  (∀ l' s', mok s' → uext s0 s' → sheds s0 s' → only id s0 s' → Q l' s') →
  wp (on_task id DeleteToRecycleBin ;;
      UserSelfMgr.BuildMessageData id DownloadErrorCode.kNormal op l) Q s.
Proof.
  intros Hs Hl Hu Hsh Ho HQ. assert (Hid : id = id) by done.
  apply (wp_both id); [done|done| | |].
  - steady_auto.
  - apply (steady_bind _ _); [steady_auto|intros _; apply steady_BuildMessageData_only].
  - intros l' s' ? ? ? ? ?. apply HQ; [done|by etrans..].
Qed.

Lemma DeleteCategory_turn cat b : category_turn (DeleteCategory_step cat b).
Proof.
  intros l id s Hs [t Ht]. unfold DeleteCategory_step. wp_step.
  eapply wp_SetTaskContextField; [done..|]. intros c s1 H1 Hu1 Hd1 Ho1 Hs1.
  pose proof Hs as (_&Hl&_). destruct (Hl id t Ht) as [(_&i&Hi&_) _].
  assert (Ht1 : tasks s1 !! id = Some (set_t_context_field c t)) by apply lookup_insert_eq.
  assert (Hl1 : is_Some (tasks s1 !! id)) by (by rewrite Ht1).
  case_bool_decide; [eapply wp_remove_turn; by try intros|].
  wp_step. eapply task_category_read; [done..|].
  case_bool_decide; simpl; [|by apply wp_ret].
  case_bool_decide; [eapply wp_remove_turn; by try intros|].
  eapply wp_recycle_turn; by try intros.
Qed.

Lemma CleanCategory_turn cat : category_turn (CleanCategory_step cat).
Proof.
  intros l id s Hs [t Ht]. unfold CleanCategory_step. wp_step.
  eapply wp_SetTaskContextField; [done..|]. intros c s1 H1 Hu1 Hd1 Ho1 Hs1.
  pose proof Hs as (_&Hl&_). destruct (Hl id t Ht) as [(_&i&Hi&_) _].
  assert (Ht1 : tasks s1 !! id = Some (set_t_context_field c t)) by apply lookup_insert_eq.
  assert (Hl1 : is_Some (tasks s1 !! id)) by (by rewrite Ht1).
  wp_step. eapply task_category_read; [done..|]. wp_step. eapply task_valid_read; [done..|].
  destruct (_ || _); [by apply wp_ret|].
  case_bool_decide; [eapply wp_remove_turn; by try intros|].
  eapply wp_recycle_turn; by try intros.
Qed.

Lemma DeleteCategory_shrinks cat b cf s :
  mok s → wp (DeleteCategory cat b cf) (λ _, shrinks s) s.
Proof. apply wp_category_loop, DeleteCategory_turn. Qed.

Lemma CleanCategory_shrinks cat cf s : mok s → wp (CleanCategory cat cf) (λ _, shrinks s) s.
Proof. apply wp_category_loop, CleanCategory_turn. Qed.

(** [Reset] pauses, cancels and drops everything. *)
Lemma Reset_empties s :
  mok s → wp Reset (λ _ s', shrinks s s' ∧ tasks s' = ∅) s.
Proof.
  intros Hs. unfold Reset. wp_step. apply wp_gets. wp_step.
  apply (steady_use (λ x, x ∈ map_keys (tasks s)) sheds); [done| | |].
  { intros x. apply elem_of_map_keys. }
  { apply (steady_for_each _ _). intros x Hx. steady_auto. }
  intros _ s1 H1 Hu1 Hd1 Hs1. wp_step. apply wp_gets. wp_step. apply wp_modify.
  apply (wp_for_each (λ rest s', (∀ x, x ∈ rest → is_Some (tasks s1 !! x)) ∧
    shrinks s s' ∧ tasks s' = ∅)).
  - split_and!; [intros x; apply elem_of_map_keys| |done]. destruct H1 as (?&?&?&?).
    split_and!.
    + by split_and!.
    + etrans; [done|]. by split_and!.
    + unfold sheds. simpl. apply downloading_num_nonneg.
    + simpl. rewrite dom_empty_L. set_solver.
  - intros x rest s2 (Hl & Hsh & He). destruct (Hl x) as [t Ht]; [set_solver|]. wp_step.
    eapply wp_of_option; [done|]. apply wp_on_world, wp_drop_task. intros w Hw.
    split_and!; [set_solver| |done]. destruct Hsh as ((?&?&?&?)&?&?&?). pose proof Hw as [Hwc _].
    split_and!; [split_and!; simpl; [by rewrite Hwc|done..]|etrans; [done|]; by split_and!|done|done].
  - by intros s2 (_ & ? & ?).
Qed.
End Deletion.
