(* ===== verification/UserSelfMgrCreate.v ===== *)
(** * Creating tasks: all or nothing

    [ExecCreate] either lists exactly one new task and reports success, or
    leaves the task list as it was and reports one failure; in both cases it
    runs without undefined behaviour and respects the download limit. *)

From S2P Require Import Prelude CppBase BaseRef PathUnit DownloadTypes ErrorDesc TaskInfo.
From S2P Require Import InfoStore SystemConfig ServerWorld TaskRefCount TaskObj TaskSpec.
From S2P Require Import TaskFactory UserInfo UserSelfMgr UserSelfMgrSpec UserSelfMgrOps.
#[local] Open Scope prog_scope.

(** The parameter a task holds. *)
Definition param_of (t : Task) : option TaskParam := ti_param <$> t_info t.

(** ** Link tasks keep their parameter when started *)
Section KeepsParam.
  Context `{E : Env} `{bl : BaseLib}.
  Implicit Types s : TS.

Definition keeps_param s s' : Prop := param_of (ts_t s') = param_of (ts_t s).

#[global] Instance keeps_param_preorder : PreOrder keeps_param.
Proof. unfold keeps_param. split; congruence. Qed.

Lemma pres_world_param {A} (m : ST World A) : world_pres m → pres keeps_param (world m).
Proof.
  intros Hm [t w] [Ht Hc]. apply wp_world. wp_call Hm. destruct H as [H1 H2].
  unfold ok, ext, keeps_param. simpl in *. by rewrite H1.
Qed.

Lemma pres_upd_info_param f :
  (∀ i, info_step i (f i)) → (∀ i, ti_param (f i) = ti_param i) → pres keeps_param (upd_info f).
Proof.
  intros Hf Hp s Hs. destruct (ok_info s Hs) as (h & i & _ & Hi & _).
  eapply wp_upd_info; [done|]. destruct (ok_set_info s i (f i) Hs Hi (Hf i)).
  split_and!; [done..|]. unfold keeps_param, param_of. simpl. by rewrite Hi; simpl; rewrite Hp.
Qed.

Lemma pres_upd_task_param f : inert f → pres keeps_param (upd_task f).
Proof.
  intros Hf s Hs. pose proof (pres_upd_task_status f Hf s Hs) as H. apply wp_modify.
  destruct H as (?&?&?). split_and!; [done..|]. destruct (Hf (ts_t s)) as (_&_&Hi&_).
  unfold keeps_param, param_of. simpl. by rewrite Hi.
Qed.

Lemma pres_eng_param {A} (f : Handle → env → A * env) : pres keeps_param (eng f).
Proof. apply (eng_pres _). intros h. apply pres_world_param, world_pres_env_call. Qed.

Lemma pres_SetTaskStatus_param x : pres keeps_param (SetTaskStatus x).
Proof.
  assert (H1 : pres keeps_param (upd_info (Info.SetTaskStatus x))).
  { apply pres_upd_info_param; [|done]. intros i. split_and!; try done.
    intros _. apply category_ok_SetTaskStatus. }
  assert (H2 : pres keeps_param UpdateTaskInfo_db).
  { unfold UpdateTaskInfo_db. repeat (apply (pres_bind _ _); [pres_auto|intros ?]).
    apply pres_world_param, world_pres_post_db. }
  unfold SetTaskStatus. apply (pres_bind _ _); [pres_auto|intros t].
  destruct (t_info t); [|pres_auto].
  apply (pres_bind _ _); [apply pres_upd_task_param; by repeat split|intros _].
  by apply (pres_bind _ _).
Qed.

Lemma pres_LinkTask_Start_param : pres keeps_param LinkTask_Start.
Proof.
  unfold LinkTask_Start. apply (pres_bind _ _); [pres_auto|intros t].
  destruct (match t_info t with Some i => _ | None => _ end); [pres_auto|].
  apply (pres_bind _ _); [apply pres_SetTaskStatus_param|intros _].
  apply (pres_bind _ _); [apply pres_eng_param|intros e].
  apply (pres_bind _ _); [|intros _; pres_auto]. destruct (_ =? _); [|pres_auto].
  apply (pres_bind _ _); [|intros _]; (apply pres_upd_info_param; [|done]);
    intros i; split_and!; done.
Qed.
End KeepsParam.

(** ** A task under construction *)
Section Made.
  Context `{E : Env} `{bl : BaseLib} `{ss : StdSort} {sl : StdSortLaws ss} {laws : EnvLaws E}.
  Implicit Types s : US.

(** A source that may turn out to be a torrent, before or after URL decoding,
    needs a [TorrentTaskParam]. *)
Definition new_param (p : TaskParam) : Prop :=
  p_is_from_db_resume p = false ∧
  (may_be_bt (p_url p) || may_be_bt (utils_IsValid (p_url p)).2 = true → bt_param_ok p).

(** What is known of a task between its construction and its listing. *)
Definition made (p : TaskParam) (cf : ContextField) (t : Task) : Prop :=
  task_ok t ∧ t_context_field t = cf ∧
  ∃ q, param_of t = Some q ∧ p_id q = p_id p ∧ (may_be_bt (p_url q) = true → is_Some (p_torrent q)).

Lemma made_id p cf t : made p cf t → task_id t = p_id p.
Proof.
  intros (_&_&q&Hq&Hid&_). unfold task_id, param_of in *.
  destruct (t_info t); simplify_eq/=. done.
Qed.

(** [fresh_task] does not say that a link keeps its URL: the factory does. *)
Lemma made_bt p cf t :
  task_ok t → t_context_field t = cf → task_id t = p_id p → is_link (t_kind t) = false →
  made p cf t.
Proof.
  intros Hok Hcf Hid Hk. split_and!; [done..|]. destruct Hok as (_&i&Hi&_&_&Hb).
  exists (ti_param i). unfold param_of, task_id in *. rewrite Hi in *.
  split_and!; [done..|]. intros _. by apply Hb.
Qed.

Lemma wp_on_local {A} t (m : ST TS A) (Q : A * Task → US → Prop) s :
  wp m (λ a (s' : TS), Q (a, ts_t s') (mkUS (us_m s) (ts_w s'))) (mkTS t (us_w s)) →
  wp (on_local t m) Q s.
Proof. intros H. unfold on_local. by apply wp_on_world, wp_run_on. Qed.

(** [CheckCondition] on the new task. *)
Lemma wp_CheckCondition_made p cf t (Q : Z * Task → US → Prop) s :
  mok s → made p cf t → new_param p → (is_link (t_kind t) = true → param_of t = Some p ∨
    ∃ h ty, param_of t = Some (set_p_hash h (set_p_type ty p))) →
  (∀ e t' env', made p cf t' → status_of t' = status_of t → t_kind t' = t_kind t →
     Q (e, t') (mkUS (us_m s) (set_w_env env' (us_w s)))) →
  wp (on_local t CheckCondition) Q s.
Proof.
  intros (Hc&_) Hmade [Hdb Hsafe] Hurl HQ. apply wp_on_local.
  pose proof Hmade as (Hok & Hcf & q & Hq & Hid & Hbt).
  pose proof Hok as ([h Hh] & i & Hi & Hio). unfold CheckCondition. wp_step. apply wp_task.
  assert (Heng : ∀ f, wp (engine_CheckCondition f)
    (λ a (s' : TS), Q (a, ts_t s') (mkUS (us_m s) (ts_w s'))) (mkTS t (us_w s))).
  { intros f. unfold engine_CheckCondition. wp_step. apply wp_task. simpl. rewrite Hh.
    wp_step. eapply wp_info; [done|]. apply wp_world, wp_env_call. intros a e. by apply HQ. }
  simpl. destruct (t_kind t) eqn:Hk; try apply Heng.
  assert (Hpi : ti_param i = q) by (unfold param_of in Hq; rewrite Hi in Hq; by simplify_eq/=).
  assert (Hqu : p_url q = p_url p ∧ p_torrent q = p_torrent p).
  { destruct Hurl as [Hu|(hh & ty & Hu)]; [done|..]; rewrite Hq in Hu; by injection Hu as ->. }
  unfold LinkTask_CheckCondition. wp_step. eapply wp_info; [done|]. rewrite Hpi.
  destruct (utils_IsValid (p_url q)) as [b url] eqn:Hv.
  wp_step. eapply wp_upd_info; [done|]. apply wp_ret. simpl.
  replace (us_w s) with (set_w_env (w_env (us_w s)) (us_w s)) by (by destruct (us_w s)).
  apply HQ; [|unfold status_of; simpl; by rewrite Hi|done].
  split_and!; [|done|].
  - destruct Hio as (?&?&?). split; [by eexists|]. eexists. split; [done|]. simpl. rewrite Hk.
    by split_and!.
  - eexists. split; [done|]. simpl. rewrite Hpi. split; [done|].
    destruct Hqu as [Hqu Hqt]. rewrite Hqt. intros Hmb. apply Hsafe. rewrite <-Hqu, Hv. simpl.
    by rewrite Hmb, orb_true_r.
Qed.

(** A state in which nothing but the world and the user's context moved. *)
Definition idle s s' : Prop := mok s' ∧ uext s s' ∧ tasks s' = tasks s.

Lemma idle_refl s : mok s → idle s s.
Proof. intros. split_and!; [done|reflexivity|done]. Qed.

Lemma idle_trans s s1 s2 : idle s s1 → idle s1 s2 → idle s s2.
Proof. intros (?&?&?) (?&?&?). split_and!; [done|by etrans|congruence]. Qed.

Lemma idle_world s w : mok s → world_step (us_w s) w → idle s (mkUS (us_m s) w).
Proof.
  intros (Hc&Hl&Hn&Hu) Hw. split_and!; [|by split_and!|done].
  split_and!; try done. simpl. by rewrite (proj1 Hw).
Qed.

Lemma wp_idle_world {A} (m : ST World A) (Q : A → US → Prop) s :
  mok s → world_pres m → (∀ a s', idle s s' → Q a s') → wp (on_world m) Q s.
Proof. intros Hs Hm HQ. apply wp_on_world. wp_call Hm. by apply HQ, idle_world. Qed.

End Made.

Ltac idle_step := first
  [ apply wp_idle_world; [done|solve [eauto 3 with pres]|];
    let s' := fresh "s" in let H := fresh "Hi" in intros ? s' H; pose proof (proj1 H) ].

Section Checks.
  Context `{E : Env} `{bl : BaseLib} `{ss : StdSort} {sl : StdSortLaws ss} {laws : EnvLaws E}.
  Implicit Types s : US.

Lemma wp_CreateSavePath path (Q : Z → US → Prop) s :
  mok s → (∀ e s', idle s s' → Q e s') → wp (CreateSavePath path) Q s.
Proof.
  intros Hs HQ. unfold CreateSavePath. wp_step. idle_step. destruct a; simpl.
  - by apply wp_ret, HQ.
  - wp_step. idle_step. apply wp_ret, HQ. by eapply idle_trans.
Qed.

Lemma wp_HasWriteAccess path (Q : Z → US → Prop) s :
  mok s → (∀ e s', idle s s' → Q e s') → wp (HasWriteAccess path) Q s.
Proof.
  intros Hs HQ. unfold HasWriteAccess. wp_step. idle_step. wp_step. idle_step. wp_step. idle_step.
  apply wp_ret, HQ. by do 2 (eapply idle_trans; [done|]).
Qed.

Lemma wp_IsTaskExisted p (Q : string → US → Prop) s :
  mok s → (∀ id, Q id s) → wp (IsTaskExisted p) Q s.
Proof.
  intros Hs HQ. destruct (task_entries_Some s Hs) as (es & Hes & _). unfold IsTaskExisted, task_list.
  wp_step. apply wp_gets. rewrite Hes. wp_step. eapply wp_of_option; [done|]. apply wp_ret, HQ.
Qed.

Lemma idle_set_context cf s :
  mok s → idle s (mkUS (set_m_user_info (set_ui_context_field cf <$> m_user_info (us_m s)) (us_m s))
                       (us_w s)).
Proof.
  intros Hs. pose proof (steady_set_context (λ _, False) cf s Hs) as H.
  destruct H as (Hm & Hu & _); [done|]. by split_and!.
Qed.

Lemma fresh_made k ty p cf t p' :
  fresh_task k (set_p_type ty p) cf t p' → new_param p →
  made p cf t ∧ param_of t = Some p' ∧ (is_link (t_kind t) = true → param_of t = Some p ∨
    ∃ h ty, param_of t = Some (set_p_hash h (set_p_type ty p))).
Proof.
  intros (Hk&Hcf&Hst&Hsd&(i&Hi&Hp'&_)&Hid&_&_&_&Htr&Hok&Hlink) [_ Hsafe].
  assert (Hpo : param_of t = Some p') by (unfold param_of; rewrite Hi; simpl; by rewrite Hp').
  split_and!; [|done|].
  - destruct (is_link k) eqn:Hl.
    + split_and!; [done..|]. exists p'. split_and!; [done|done|].
      destruct (Hlink eq_refl) as [h ->]. simpl. intros Hm. apply Hsafe. by rewrite Hm.
    + apply made_bt; [done|done| |by rewrite Hk]. unfold task_id. rewrite Hi, Hp'. done.
  - rewrite Hk. intros Hl. right. destruct (Hlink Hl) as [h ->]. by exists h, ty.
Qed.

(** The checks after construction. *)
Lemma wp_CreateTask_checks k ty p cf t p' (Q : Created → US → Prop) s :
  mok s → fresh_task k (set_p_type ty p) cf t p' → new_param p →
  (∀ e t' q same s', idle s s' → made p cf t' → param_of t' = Some q → t_kind t' = k →
     status_of t' = TaskStatus.kWaitting → Q (e, Some t', q, same) s') →
  wp (CreateTask_checks t p' cf) Q s.
Proof.
  intros Hs Hf Hp HQ. destruct (fresh_made _ _ _ _ _ _ Hf Hp) as (Hmade & Hpo & Hurl).
  pose proof Hf as (Hk&_&Hst&_). unfold CreateTask_checks. wp_step. apply wp_IsTaskExisted; [done|].
  intros same. destruct (negb (str_empty same)).
  { apply wp_ret, HQ; [by apply idle_refl|done..]. }
  wp_step. eapply wp_CheckCondition_made; [done..|]. intros e t1 en Hmade1 Hst1 Hk1.
  set (s1 := mkUS (us_m s) _). assert (Hi1 : idle s s1) by (by apply idle_world).
  destruct Hmade1 as (Hok1 & Hcf1 & q & Hq & Hid1 & Hbt1).
  assert (Hmade1 : made p cf t1) by (split_and!; [done..|]; by exists q).
  assert (Hsh : shared_param (Some t1) p' = q).
  { unfold param_of in Hq. simpl. destruct (t_info t1); by simplify_eq/=. }
  assert (Hst' : status_of t1 = TaskStatus.kWaitting) by congruence.
  assert (Hk' : t_kind t1 = k) by congruence. rewrite Hsh.
  pose proof (proj1 Hi1) as Hm1. destruct (negb (e =? DownloadErrorCode.kNormal)).
  { by apply wp_ret, HQ. }
  wp_step. unfold TaskFactory.GetDownloadType.
  apply wp_on_world. wp_step. apply wp_gets, wp_ret. wp_step.
  set (s2 := mkUS (us_m s1) (us_w s1)). assert (Hi2 : idle s s2) by (by destruct s1).
  eapply (wp_mono _ (λ _ s3, s3 = s2)).
  { destruct (_ && _); [|by apply wp_ret]. apply wp_on_world. by apply wp_gets. }
  intros ex s3 ->. destruct ex; [by apply wp_ret, HQ|].
  wp_step. apply wp_modify, wp_ret, HQ; [|done..]. eapply idle_trans; [done|].
  apply idle_set_context, Hi2.
Qed.

Lemma wp_mgr_CreateTask p cf (Q : Created → US → Prop) s :
  mok s → new_param p →
  (∀ e q s', idle s s' → e ≠ DownloadErrorCode.kNormal → p_id q = p_id p →
     Q (e, None, q, EmptyString) s') →
  (∀ e t q same s', idle s s' → tasks s !! p_id p = None → made p cf t → param_of t = Some q →
     status_of t = TaskStatus.kWaitting → Q (e, Some t, q, same) s') →
  wp (UserSelfMgr.CreateTask p cf) Q s.
Proof.
  intros Hs Hp HN HS. unfold UserSelfMgr.CreateTask. cbn zeta.
  destruct (IsValidFilename (p_file_name p)); simpl.
  2: { apply wp_ret, HN; [by apply idle_refl|done|done]. }
  wp_step. apply wp_CreateSavePath; [done|]. intros e1 s1 Hi1.
  destruct (Z.eqb_spec e1 DownloadErrorCode.kNormal); simpl; [|by apply wp_ret, HN].
  destruct (Z.eqb_spec (IsProtectedPath (p_save_path p)) DownloadErrorCode.kNormal); simpl;
    [|by apply wp_ret, HN].
  wp_step. apply wp_HasWriteAccess; [by apply Hi1|]. intros e2 s2 Hi2.
  assert (Hi : idle s s2) by (by eapply idle_trans).
  destruct (Z.eqb_spec e2 DownloadErrorCode.kNormal); simpl; [|by apply wp_ret, HN].
  wp_step. apply wp_FindTask. rewrite (proj2 (proj2 Hi)).
  case_bool_decide as Hf; [by apply wp_ret, HN|].
  apply eq_None_not_Some in Hf. wp_step. apply wp_on_world.
  destruct Hp as [Hdb Hsafe]. apply wp_CreateTask; [done| | |].
  - intros Hm. apply Hsafe. by rewrite Hm.
  - intros q Hid Hu. apply wp_ret, HN; [|done|done]. by destruct s2.
  - intros k ty t q en Hfr. set (s3 := mkUS _ _).
    assert (Hi3 : idle s s3) by (eapply idle_trans; [done|]; apply idle_world; [by apply Hi|done]).
    eapply wp_CreateTask_checks; [by apply Hi3|done|done|].
    intros e' t' q' same s4 Hi4 ????. apply HS; try done. by eapply idle_trans.
Qed.
End Checks.

(** ** Starting and listing the new task *)
Section Listing.
  Context `{E : Env} `{bl : BaseLib} `{ss : StdSort} {sl : StdSortLaws ss} {laws : EnvLaws E}.
  Implicit Types s : US.

Lemma made_ext p cf t t' w w' :
  made p cf t → task_ok t' → ext (mkTS t w) (mkTS t' w') →
  (is_link (t_kind t) = true → param_of t' = param_of t) → made p cf t'.
Proof.
  intros Hm Hok (Hk&_&Hid&Hcf&_) Hlink. pose proof (made_id _ _ _ Hm) as Hmid.
  simpl in *. destruct (is_link (t_kind t)) eqn:Hl.
  - destruct Hm as (_&Hcf0&q&Hq&Hqi&Hqb). split_and!; [done|congruence|]. exists q.
    rewrite Hlink by done. done.
  - destruct Hm as (_&Hcf0&_). apply made_bt; [done|congruence|congruence|by rewrite Hk].
Qed.

(** [Start] on a task under construction. *)
Lemma wp_local_Start p cf t (Q : Z * Task → US → Prop) s :
  mok s → made p cf t →
  (∀ e t' w, made p cf t' → t_kind t' = t_kind t → idle s (mkUS (us_m s) w) →
     status_of t' = status_of t ∨
       (status_of t' = TaskStatus.kDownloading ∧ is_link (t_kind t) = true) →
     t_parse_callback t' = t_parse_callback t → Q (e, t') (mkUS (us_m s) w)) →
  wp (on_local t Start) Q s.
Proof.
  intros Hs Hm HQ. pose proof Hm as (Hok & _). apply wp_on_local.
  assert (Hoks : ok (mkTS t (us_w s))) by (split; [done|by apply Hs]).
  unfold Start. wp_step. apply wp_task. simpl. destruct (is_link (t_kind t)) eqn:Hl.
  - eapply wp_mono; [apply wp_and; [apply wp_LinkTask_Start; [done|]|
      apply (pres_LinkTask_Start_param _ Hoks)]|].
    { intros e s' H1 H2 H3 H4. exact (conj H1 (conj H2 (conj H3 H4))). }
    intros e [t' w] [(H1&He&Hst&Hcb) (_&_&Hp)]. simpl in *.
    apply HQ; [|by apply He| | |done].
    + eapply made_ext; [done|by apply H1|done|done].
    + apply idle_world; [done|]. by destruct He as (_&_&_&_&?).
    + destruct (started t); auto.
  - wp_call pres_BtTaskBase_Start; [done|done|]. destruct H as (H1&He&Hst&Hcb).
    destruct s' as [t' w]. simpl in *. apply HQ; [|by apply He| |by left|done].
    + eapply made_ext; [done|by apply H1|done|by rewrite Hl].
    + apply idle_world; [done|]. by destruct He as (_&_&_&_&?).
Qed.

(** What the start block guarantees of the task to be listed. *)
Definition startable (t : Task) s : Prop :=
  (is_downloading t = true → downloading_num (tasks s) < task_limit (us_m s)) ∧
  (t_kind t = KMagnet → t_parse_callback t = true).

Lemma wp_ExecNoneBt p cf t (Q : Z * Task → US → Prop) s :
  mok s → made p cf t → startable t s →
  (∀ e t' s', idle s s' → made p cf t' → startable t' s → Q (e, t') s') →
  wp (ExecNoneBt t) Q s.
Proof.
  intros Hs Hm [Hst Hcb] HQ. unfold ExecNoneBt. wp_step. apply wp_IsCanStart. intros b Hb.
  destruct b; [|apply wp_ret, HQ; [by apply idle_refl|done|done]].
  eapply wp_local_Start; [done..|]. intros e t' w Hm' Hk Hi _ Hcb'. apply HQ; [done..|].
  split; [intros _; by apply Hb|]. rewrite Hk, Hcb'. done.
Qed.

Lemma wp_set_download_now b t w (Q : unit → TS → Prop) :
  ok (mkTS t w) → is_link (t_kind t) = false →
  (∀ s' : TS, ok s' → ext (mkTS t w) s' → keeps_status (mkTS t w) s' → Q tt s') →
  wp (i ← info; ext ← of_option (p_torrent (ti_param i));
      upd_info (Info.upd_param (set_p_torrent (Some (set_tp_is_download_now b ext)))))
    Q (mkTS t w).
Proof.
  intros Hok Hk HQ. destruct (ok_info _ Hok) as (h & i & Hh & Hi & Hc & Hty & Hb).
  destruct (Hb Hk) as ([x Hx] & Hlen). simpl in *. wp_step. eapply wp_info; [done|].
  wp_step. eapply wp_of_option; [done|]. eapply wp_upd_info; [done|].
  destruct (ok_set_info (mkTS t w) i
    (Info.upd_param (set_p_torrent (Some (set_tp_is_download_now b x))) i)) as [Ho He]; [done..| |].
  - by split_and!.
  - apply HQ; [done..|]. unfold keeps_status, status_of. simpl. by rewrite Hi.
Qed.

(** [Start] of a torrent or magnet never moves the status. *)
Lemma pres_Start_bt : pres_kind false keeps_status Start.
Proof.
  intros s0 Hs0 Hk. unfold Start. wp_step. apply wp_task. rewrite Hk.
  by apply pres_BtTaskBase_Start.
Qed.

Lemma wp_ExecTorrent p cf t (Q : Z * Task → US → Prop) s :
  mok s → made p cf t → t_kind t = KTorrent →
  (∀ e t' s', idle s s' → made p cf t' → startable t' s → Q (e, t') s') →
  wp (ExecTorrent t) Q s.
Proof.
  intros Hs Hm Hk HQ. unfold ExecTorrent. wp_step. apply wp_IsCanStart. intros b Hb.
  wp_step. apply wp_gets. apply wp_on_local. pose proof Hm as (Hok & _).
  assert (Hoks : ok (mkTS t (us_w s))) by (split; [done|by apply Hs]).
  assert (Hlk : is_link (t_kind t) = false) by (by rewrite Hk).
  wp_step.
  eapply (wp_mono _ (λ _ (s1 : TS), ok s1 ∧ ext (mkTS t (us_w s)) s1 ∧
    (status_of (ts_t s1) = TaskStatus.kDownloading → b = true))).
  - destruct b; [|apply wp_SetTaskStatus; [done|]; intros s1 ?? Hst _ _; split_and!; [done..|];
      rewrite Hst; done].
    wp_step. apply wp_set_download_now; [done..|]. intros [t1 w1] H1 He1 _.
    destruct (negb _).
    + wp_step. apply wp_set_download_now; [done|by destruct He1 as (Hk1&_); simpl in Hk1; rewrite Hk1|]. intros s2 H2 He2 _.
      apply wp_SetTaskStatus; [done|]. intros s3 ?? Hst _ _. split_and!; [done| |done].
      by do 2 (etrans; [done|]).
    + apply wp_SetTaskStatus; [done|]. intros s3 ?? Hst _ _. split_and!; [done|by etrans|done].
  - intros _ s1 (H1 & He1 & Hst1). wp_call pres_Start_bt; [done|by rewrite (proj1 He1)|].
    destruct H as (H2 & He2 & Hst2 & _). assert (He : ext (mkTS t (us_w s)) s') by (by etrans).
    destruct s' as [t' w']. simpl in *. apply HQ.
    + apply idle_world; [done|]. by destruct He as (_&_&_&_&?).
    + eapply made_ext; [done|by apply H2|done|congruence].
    + pose proof He as (Hk'&_). simpl in Hk'. split; [|rewrite Hk', Hk; done].
      rewrite is_downloading_status. intros Hd%bool_decide_eq_true. apply Hb, Hst1. congruence.
Qed.

(** Listing: [AddTask] on a fresh id. *)
Lemma wp_AddTask id t (Q : bool → US → Prop) s :
  mok s → tasks s !! id = None → task_ok t → task_id t = id → id ≠ m_user_id (us_m s) →
  (∀ s', mok s' → uext s s' → tasks s' = <[id := t]> (tasks s) → Q true s') →
  wp (AddTask id t) Q s.
Proof.
  intros Hs Hn Hok Hid Hne HQ. unfold AddTask, task_list. wp_step. apply wp_gets. rewrite Hn.
  wp_step. apply wp_modify. set (s1 := mkUS _ _).
  assert (Hm1 : mok s1).
  { destruct Hs as (?&?&?&?). split_and!; try done; simpl.
    - by apply listed_ok_insert.
    - by rewrite lookup_insert_ne. }
  assert (Hu1 : uext s s1) by (by split_and!).
  destruct Hok as ([h Hh] & i & Hi & Hio). wp_step. apply wp_gets. wp_step.
  eapply (wp_mono _ (λ _ s2, idle s1 s2)).
  - destruct (m_user_info (us_m s1)) as [u|]; [|by apply wp_ret, idle_refl].
    wp_step. eapply wp_of_option; [done|]. destruct (negb _); [|by apply wp_ret, idle_refl].
    wp_step. idle_step. idle_step. by eapply idle_trans.
  - intros _ s2 (Hm2 & Hu2 & Ht2). wp_step.
    assert (Hl2 : tasks s2 !! id = Some t) by (rewrite Ht2; apply lookup_insert_eq).
    eapply wp_on_task; [done|]. eapply wp_GetTaskHash; [done|]. intros hash e. simpl.
    rewrite insert_id by done. set (s3 := mkUS _ _).
    assert (Hi3 : idle s2 s3).
    { destruct s2 as [[] w2]. by apply (idle_world (mkUS (mkMgr _ _ _ _ _) w2)). }
    wp_step. apply wp_AddRef. apply wp_ret. apply HQ.
    + destruct Hi3 as ((?&?&?&?)&_). by split_and!.
    + destruct Hi3 as (_&Hu3&_). etrans; [done|]. etrans; [done|]. etrans; [done|]. by split_and!.
    + simpl. by rewrite Ht2.
Qed.

Lemma startable_waiting t s :
  status_of t = TaskStatus.kWaitting → t_kind t ≠ KMagnet → startable t s.
Proof. intros Hst Hk. split; [by rewrite is_downloading_status, Hst|done]. Qed.

Lemma startable_idle t s s' : idle s s' → startable t s' ↔ startable t s.
Proof.
  intros (_ & (_&_&Hl&_) & Ht). unfold startable. by rewrite Ht, Hl.
Qed.

Lemma wp_ExecStart p cf t (Q : Z * Task → US → Prop) s :
  mok s → made p cf t → status_of t = TaskStatus.kWaitting →
  (∀ e t' s', idle s s' → made p cf t' → startable t' s → Q (e, t') s') →
  wp (ExecStart t) Q s.
Proof.
  intros Hs Hm Hst HQ. unfold ExecStart. wp_step.
  pose proof Hm as ((_&i&Hi&_&Hty&_)&_).
  apply wp_on_local. unfold TaskObj.GetDownloadType. wp_step. eapply wp_info; [done|].
  apply wp_ret. simpl. replace (mkUS (us_m s) (us_w s)) with s by (by destruct s).
  destruct (decide (t_kind t = KMagnet)) as [Hk|Hk].
  - rewrite Hk in Hty. simpl in Hty. rewrite Hty. unfold ExecMagnet.
    assert (Hm' : made p cf (set_t_parse_callback true t)) by exact Hm.
    eapply wp_local_Start; [done..|]. intros e t' w Hmt Hkt Hi' Hst' Hcb. apply HQ; [done..|].
    split; [|done]. rewrite is_downloading_status. simpl in Hst'. rewrite Hk in Hst'.
    destruct Hst' as [Hst'|[_ [=]]]. rewrite Hst'. change (status_of (set_t_parse_callback true t))
      with (status_of t). by rewrite Hst.
  - assert (Hnone : wp (ExecNoneBt t) Q s).
    { eapply wp_ExecNoneBt; [done..|by apply startable_waiting|done]. }
    destruct (p_type (ti_param i)) eqn:Hp; try done.
    + wp_step. eapply wp_ExecTorrent; [done|done| |].
      { destruct (t_kind t); simpl in Hty; naive_solver. }
      intros e1 t1 s1 Hi1 Hm1 Hst1. eapply wp_ExecNoneBt; [by apply Hi1|done| |].
      { by apply (proj2 (startable_idle t1 s s1 Hi1)). }
      intros e2 t2 s2 Hi2 Hm2 Hst2. apply HQ; [by eapply idle_trans|done|].
      by apply (proj1 (startable_idle t2 s s1 Hi1)).
    + destruct (t_kind t); simpl in Hty; naive_solver.
Qed.

(** The task as it is listed. *)
Definition listed_new (p : TaskParam) (cf : ContextField) (t : Task) s : Prop :=
  made p cf t ∧ startable t s.

Lemma wp_ExecAdd p cf t (Q : Z * Task * bool → US → Prop) s :
  mok s → made p cf t → status_of t = TaskStatus.kWaitting →
  tasks s !! p_id p = None → p_id p ≠ m_user_id (us_m s) →
  (∀ e t' s', idle s s' → e ≠ DownloadErrorCode.kNormal → made p cf t' → Q (e, t', false) s') →
  (∀ t' s', mok s' → uext s s' → tasks s' = <[p_id p := t']> (tasks s) → listed_new p cf t' s →
     Q (DownloadErrorCode.kNormal, t', true) s') →
  wp (ExecAdd t (p_id p)) Q s.
Proof.
  intros Hs Hm Hst Hn Hne HF HS. unfold ExecAdd. wp_step. eapply wp_ExecStart; [done..|].
  intros e t1 s1 Hi1 Hm1 Hst1. destruct (Z.eqb_spec e DownloadErrorCode.kNormal); simpl.
  2: { by apply wp_ret, HF. }
  destruct Hi1 as (Hmk1 & Hu1 & Ht1). wp_step.
  apply wp_AddTask; [done|by rewrite Ht1|by apply Hm1|by eapply made_id| |].
  { destruct Hu1 as (-> & _). done. }
  intros s2 Hmk2 Hu2 Ht2. apply wp_ret, HS; [done|by etrans|by rewrite Ht2, Ht1|done].
Qed.

Lemma wp_DeleteTorrentFiles e p cf t q (Q : unit → US → Prop) s :
  mok s → made p cf t → param_of t = Some q → (∀ s', idle s s' → Q tt s') →
  wp (DeleteTorrentFiles e (Some t) q) Q s.
Proof.
  intros Hs (_&_&q'&Hq'&_&Hbt) Hq HQ. rewrite Hq in Hq'. injection Hq' as <-.
  unfold DeleteTorrentFiles. destruct (negb _); [|by apply wp_ret, HQ, idle_refl].
  wp_step. unfold TaskFactory.GetDownloadType. apply wp_on_world. wp_step. apply wp_gets, wp_ret.
  replace (mkUS (us_m s) (us_w s)) with s by (by destruct s).
  destruct (url_type _ _) eqn:Hty; try by apply wp_ret, HQ, idle_refl.
  assert (Hmb : may_be_bt (p_url q) = true).
  { eapply (class_of_bt _ _ KTorrent); [by rewrite Hty|done]. }
  destruct (Hbt Hmb) as [x Hx]. wp_step. idle_step.
  destruct (_ =? _); [by apply wp_ret, HQ|]. rewrite Hx. wp_step. eapply wp_of_option; [done|].
  destruct (negb _); [|by apply wp_ret, HQ]. wp_step. idle_step.
  apply wp_ret, HQ. by eapply idle_trans.
Qed.

(** The two outcomes of [ExecCreate]. *)
Definition created (p : TaskParam) (cf : ContextField) (acc acc' : list string * Lists) s s'
    : Prop :=
  mok s' ∧ uext s s' ∧ admits s s' ∧
  ((∃ t, tasks s !! p_id p = None ∧ tasks s' = <[p_id p := t]> (tasks s) ∧ made p cf t ∧
      (t_kind t = KMagnet → t_parse_callback t = true) ∧
      acc' = (acc.1 ++ [p_id p], (acc.2.1 ++ [VString (p_id p)], acc.2.2))) ∨
   (tasks s' = tasks s ∧ ∃ failure, acc' = (acc.1, (acc.2.1, acc.2.2 ++ [failure])))).

Lemma created_failure p cf acc e same s s' q :
  idle s s' → e ≠ DownloadErrorCode.kNormal →
  created p cf acc (acc.1, BuildCreateMessage e q same acc.2) s s'.
Proof.
  intros (Hm & Hu & Ht) He. split_and!; [done..|by apply admits_same|]. right. split; [done|].
  unfold BuildCreateMessage. rewrite (proj2 (Z.eqb_neq e 0)) by done. by eexists.
Qed.

Lemma wp_ExecCreate p cf acc (Q : list string * Lists → US → Prop) s :
  mok s → new_param p → p_id p ≠ m_user_id (us_m s) →
  (∀ acc' s', created p cf acc acc' s s' → Q acc' s') →
  wp (ExecCreate p cf acc) Q s.
Proof.
  intros Hs Hp Hne HQ. unfold ExecCreate. wp_step. eapply wp_mgr_CreateTask; [done..| |].
  { intros e q s1 Hi He Hid. unfold DeleteTorrentFiles.
    rewrite (proj2 (Z.eqb_neq e DownloadErrorCode.kNormal)) by done. simpl. wp_step. wp_step.
    unfold TaskFactory.GetDownloadType. apply wp_on_world. wp_step. apply wp_gets, wp_ret.
    replace (mkUS (us_m s1) (us_w s1)) with s1 by (by destruct s1).
    destruct (url_type _ _); apply wp_ret, wp_ret, HQ; by apply created_failure. }
  intros e t q same s1 Hi1 Hn Hm Hq Hst. wp_step.
  pose proof Hi1 as (Hmk1 & Hu1 & Ht1).
  pose proof Hm as (_&_&q'&Hq'&Hqid&_). rewrite Hq in Hq'. injection Hq' as <-.
  (* the common tail when the task is dropped *)
  assert (Hdrop : ∀ e t' s2, e ≠ DownloadErrorCode.kNormal → idle s s2 → made p cf t' →
    wp (DeleteTorrentFiles e (Some t') (shared_param (Some t') q) ;;
        on_world (destroy_task t') ;;
        ret (acc.1, BuildCreateMessage e (p_id (shared_param (Some t') q)) same acc.2)) Q s2).
  { intros e' t' s2 He Hi2 Hm'. pose proof Hm' as (_&_&r&Hr&_).
    assert (Hsh : shared_param (Some t') q = r).
    { unfold param_of in Hr. simpl. destruct (t_info t'); by simplify_eq/=. }
    rewrite Hsh. wp_step. eapply wp_DeleteTorrentFiles; [by apply Hi2|done..|]. intros s3 Hi3.
    wp_step. apply wp_on_world, wp_destroy_task. intros en. apply wp_ret, HQ, created_failure; [|done].
    do 2 (eapply idle_trans; [done|]). apply idle_world; [by apply Hi3|done]. }
  destruct (Z.eqb_spec e DownloadErrorCode.kNormal) as [->|He].
  2: { apply wp_ret. by apply Hdrop. }
  rewrite Hqid. eapply wp_ExecAdd; [done..|by rewrite Ht1| | |].
  { by destruct Hu1 as (-> & _). }
  { intros e' t' s2 Hi2 He' Hm'. apply Hdrop; [done|by eapply idle_trans|done]. }
  intros t' s2 Hm2 Hu2 Ht2 [Hmt [Hsd Hcb]]. pose proof Hmt as (_&_&r&Hr&Hrid&_).
  assert (Hsh : shared_param (Some t') q = r).
  { unfold param_of in Hr. simpl. destruct (t_info t'); by simplify_eq/=. }
  rewrite Hsh, Hrid. wp_step. apply wp_ret. wp_step. apply wp_ret, wp_ret, HQ.
  assert (Hu : uext s s2) by (by etrans).
  split_and!; [done|done| |].
  - pose proof Hu as (_&_&Hl&_). pose proof Hu1 as (_&_&Hl1&_). rewrite Ht1, Hl1 in Hsd.
    split; [done|]. rewrite Ht2, Ht1, downloading_num_insert, delete_id by done.
    destruct (is_downloading t'); simpl; lia.
  - left. exists t'. rewrite Ht2, Ht1. by split_and!.
Qed.
End Listing.

(** ** The creating requests *)
Section Requests.
  Context `{E : Env} `{bl : BaseLib} `{ss : StdSort} {sl : StdSortLaws ss} {laws : EnvLaws E}.
  Implicit Types s : US.

(** A listed task whose [Parse] may run: a magnet's callback is set, and it
    belongs to this user. *)
Definition ready s (id : string) : Prop :=
  ∃ t, tasks s !! id = Some t ∧ (t_kind t = KMagnet → t_parse_callback t = true) ∧
    cf_user_id (t_context_field t) = m_user_id (us_m s).

Lemma ready_only id k s s' :
  only k s s' → uext s s' → id ≠ k → ready s id → ready s' id.
Proof.
  intros Ho (Hid&_) Hne (t & Ht & Hcb & Hcf). exists t.
  rewrite (only_lookup k s s'), Hid by done. by split_and!.
Qed.

(** The callback a magnet runs is given the user's id where a task id is
    expected: with no task of that name it does nothing. *)
Lemma OnParseComplete_unlisted id r s (Q : unit → US → Prop) :
  tasks s !! id = None → Q tt s → wp (OnParseComplete id r) Q s.
Proof.
  intros Hn HQ. unfold OnParseComplete, task_list. wp_step. apply wp_gets. rewrite Hn.
  by apply wp_ret.
Qed.

Lemma wp_ParseTasks ids s :
  mok s → NoDup ids → Forall (ready s) ids →
  wp (ParseTasks ids) (λ _, keeps_tasks sheds s) s.
Proof.
  intros Hs Hnd Hr. unfold ParseTasks.
  apply (wp_for_each (λ rest s', NoDup rest ∧ Forall (ready s') rest ∧ keeps_tasks sheds s s')).
  - split_and!; [done..|]. split_and!; [done|reflexivity..].
  - intros id rest s1 ([Hid Hnd']%NoDup_cons & [(t & Ht & Hcb & Hcf) Hr']%Forall_cons &
      (H1 & Hu1 & Hd1 & Hs1)).
    wp_step. eapply wp_on_task; [done|]. apply wp_Parse; [by eapply ok_of_listed|done|].
    intros r [t' w] Hok He Hn Hcall. pose proof He as (_&_&Hidt&_&Hw).
    destruct (mok_put id t t' w s1) as (H2&Hu2&Hd2); [done|done|by apply Hok|done|done|].
    cbn [ts_t ts_w]. fold (put id t' w s1). set (s2 := put id t' w s1) in *.
    assert (Ho2 : only id s1 s2) by (unfold only; simpl; apply delete_insert_eq).
    assert (Hs2 : sheds s1 s2).
    { unfold sheds, s2. rewrite (downloading_num_put id t) by done.
      rewrite !is_downloading_status. unfold no_start in Hn. simpl in Hn.
      case_bool_decide; case_bool_decide; simpl; try lia. naive_solver. }
    assert (Hdone : NoDup rest ∧ Forall (ready s2) rest ∧ keeps_tasks sheds s s2).
    { split_and!; [done| |split_and!; [done|by etrans..]].
      apply Forall_forall. intros x Hx. eapply ready_only; [done..| |].
      - intros ->. by destruct Hid.
      - by eapply Forall_forall in Hr'. }
    destruct r as [b [[a c]|]]; [|by apply wp_ret].
    destruct (Hcall a c eq_refl) as (_ & Ha & _). simpl in Ha.
    apply OnParseComplete_unlisted; [|done]. rewrite Ha, Hcf.
    destruct H2 as (_&_&Hnone&_). by destruct Hu2 as (<-&_).
  - by intros s1 (_ & _ & ?).
Qed.

(** What a creating request guarantees. *)
Definition grows s s' : Prop :=
  mok s' ∧ uext s s' ∧ admits s s' ∧ dom (tasks s) ⊆ dom (tasks s').

(** The loop over the sources. *)
Definition creating cf (l : list TaskParam) s (acc : list string * Lists) s' : Prop :=
  grows s s' ∧ NoDup acc.1 ∧ Forall (ready s') acc.1 ∧
  length acc.2.1 = length acc.1 ∧
  Z.of_nat (length acc.2.1 + length acc.2.2 + length l) = cf.

Lemma creating_step (n : Z) cf p l s acc s' acc' s'' :
  cf_user_id cf = m_user_id (us_m s) →
  creating n (p :: l) s acc s' → created p cf acc acc' s' s'' → creating n l s acc' s''.
Proof.
  intros Hcf ((Hm & Hu & Ha & Hd) & Hnd & Hr & Hlen & Hn) (Hm' & Hu' & Ha' & Hout).
  pose proof Hu as (Hid & _). pose proof Hu' as (Hid' & _). simpl in Hn.
  destruct Hout as [(t & Hfree & Ht & Hmade & Hcb & ->)|(Ht & f & ->)]; simpl.
  - assert (Hni : p_id p ∉ acc.1).
    { intros Hin. eapply Forall_forall in Hr; [|done]. destruct Hr as (t' & Ht' & _). congruence. }
    split_and!.
    + split_and!; [done|by etrans|by etrans|]. rewrite Ht, dom_insert_L. set_solver.
    + apply NoDup_app. split_and!; [done| |apply NoDup_singleton]. set_solver.
    + apply Forall_app. split.
      * eapply Forall_impl; [done|]. intros x (t' & Ht' & ? & ?). exists t'.
        rewrite Ht, lookup_insert_ne, Hid' by congruence. by split_and!.
      * apply Forall_singleton. exists t. rewrite Ht. split_and!; [apply lookup_insert_eq|done|].
        destruct Hmade as (_&->&_). congruence.
    + simpl. rewrite !length_app. simpl. lia.
    + simpl. rewrite length_app. simpl. lia.
  - split_and!; [|done| |done|simpl; rewrite length_app; simpl; lia].
    + split_and!; [done|by etrans|by etrans|]. by rewrite Ht.
    + eapply Forall_impl; [done|]. intros x (t' & Ht' & ? & ?). exists t'.
      rewrite Ht, Hid'. by split_and!.
Qed.

Lemma grows_refl s : mok s → grows s s.
Proof. intros. split_and!; [done|reflexivity..]. Qed.

Lemma creating_finish n cf acc s s' :
  creating n [] s acc s' →
  wp (notify_lists "task_create" TaskOperation.kCreate cf acc.2 ;; ParseTasks acc.1)
    (λ _, grows s) s'.
Proof.
  intros ((Hm & Hu & Ha & Hd) & Hnd & Hr & _). wp_step. unfold notify_lists.
  apply wp_idle_world; [done|eauto with pres|]. intros _ s1 (Hm1 & Hu1 & Ht1).
  wp_call wp_ParseTasks; [done|done| |].
  - eapply Forall_impl; [done|]. intros x (t & Ht & ? & ?). destruct Hu1 as (Hid1 & _).
    exists t. rewrite Ht1, Hid1. by split_and!.
  - destruct H as (Hm2 & Hu2 & Hd2 & Hs2). assert (Hus : uext s' s'0) by (by etrans).
    split_and!; [done|by etrans| |].
    + etrans; [done|]. destruct Hus as (_&_&Hl&_). split; [done|]. unfold sheds in Hs2.
      rewrite Ht1 in Hs2. lia.
    + unfold same_dom in Hd2. rewrite Hd2, Ht1. done.
Qed.

(** The requests the server can serve: every source has the class of
    parameter it needs, and no task is named like the user. *)
Definition servable (cf : ContextField) (params : list TaskParam) s : Prop :=
  cf_user_id cf = m_user_id (us_m s) ∧
  Forall (λ p, new_param p ∧ p_id p ≠ m_user_id (us_m s)) params.

Lemma wp_create_all cf params s :
  mok s → servable cf params s →
  wp (fold_each params ([], no_lists) (λ acc p, ExecCreate p cf acc))
    (λ acc s', creating (Z.of_nat (length params)) [] s acc s') s.
Proof.
  intros Hs [Hcf Hall].
  apply (wp_fold_each (λ acc rest s', creating (Z.of_nat (length params)) rest s acc s' ∧
    Forall (λ p, new_param p ∧ p_id p ≠ m_user_id (us_m s)) rest)).
  - split; [|done]. split_and!; [by apply grows_refl|constructor|constructor|done|simpl; lia].
  - intros acc p rest s' [HI [[Hp Hne] Hrest]%Forall_cons].
    pose proof HI as ((Hm & (Hid & _) & _) & _).
    apply wp_ExecCreate; [done..|by rewrite Hid|]. intros acc' s'' Hc. split; [|done].
    by eapply creating_step.
  - by intros acc s' [? _].
Qed.

Lemma CreateLinkTask_grows sources cf s :
  mok s → servable cf (link_param <$> sources) s →
  wp (CreateLinkTask sources cf) (λ _, grows s) s.
Proof.
  intros Hs Hsv. unfold CreateLinkTask. wp_step.
  pose proof (wp_create_all cf _ s Hs Hsv) as Hall. unfold wp in Hall at 1.
  rewrite fold_each_map in Hall. eapply wp_mono; [exact Hall|].
  intros [need l] s' HI. by eapply (creating_finish _ cf (need, l)).
Qed.

Lemma CreateTorrentTask_grows request cf s :
  mok s → servable cf [torrent_param request] s →
  wp (CreateTorrentTask request cf) (λ _, grows s) s.
Proof.
  intros Hs [Hcf [[Hp Hne] _]%Forall_cons]. unfold CreateTorrentTask. wp_step.
  apply wp_ExecCreate; [done..|]. intros [need l] s' Hc.
  eapply (creating_finish 1 cf (need, l)), (creating_step 1 cf (torrent_param request) []); [done| |done].
  split_and!; [by apply grows_refl|constructor|constructor|done..].
Qed.

(** ** Restoring from the database *)

(** A stored task the server can restore. *)
Definition restorable_for (user_id : string) (i : TaskInfo) : Prop :=
  category_ok i ∧ p_is_from_db_resume (ti_param i) = true ∧ param_safe (ti_param i) ∧
  p_id (ti_param i) ≠ user_id.
Definition restorable s : TaskInfo → Prop := restorable_for (m_user_id (us_m s)).

Definition extends s s' : Prop := mok s' ∧ uext s s' ∧ dom (tasks s) ⊆ dom (tasks s').

Lemma extends_idle s s' : idle s s' → extends s s'.
Proof. intros (?&?&Ht). split_and!; [done..|]. by rewrite Ht. Qed.

Lemma extends_trans s s1 s2 : extends s s1 → extends s1 s2 → extends s s2.
Proof. intros (?&?&?) (?&?&?). split_and!; [done|by etrans|set_solver]. Qed.

Lemma wp_AddTask_any id t (Q : bool → US → Prop) s :
  mok s → task_ok t → task_id t = id → id ≠ m_user_id (us_m s) →
  (∀ b s', extends s s' → Q b s') → wp (AddTask id t) Q s.
Proof.
  intros Hs Hok Hid Hne HQ. destruct (tasks s !! id) as [t'|] eqn:Ht.
  - unfold AddTask, task_list. wp_step. apply wp_gets. rewrite Ht. apply wp_ret, HQ.
    by apply extends_idle, idle_refl.
  - apply wp_AddTask; [done..|]. intros s' Hm Hu Ht'. apply HQ. split_and!; [done..|].
    rewrite Ht', dom_insert_L. set_solver.
Qed.

Lemma wp_ResumeFromDb_step cf oi s :
  mok s → (∀ i, oi = Some i → restorable s i) →
  wp (ResumeFromDb_step cf oi) (λ _, extends s) s.
Proof.
  intros Hs Hr. unfold ResumeFromDb_step. destruct oi as [i|].
  2: { by apply wp_ret, extends_idle, idle_refl. }
  destruct (Hr i eq_refl) as (Hcat & Hdb & Hsafe & Hne). wp_step. apply wp_on_world.
  apply wp_CreateTask_db; [done..| |].
  { intros p' _. apply wp_ret. apply extends_idle. by apply idle_world. }
  intros k t p' e Hb. pose proof Hb as (_&_&_&_&_&_&Hid&_). set (s1 := mkUS _ _).
  assert (Hi1 : idle s s1) by (by apply idle_world). wp_step. apply wp_on_local.
  eapply wp_ResumeDataFromDb; [done|done|done|by apply Hi1|].
  intros [t' w'] Hok Hk Hcf Htid Hw. simpl in *. set (s2 := mkUS _ _).
  assert (Hi2 : idle s1 s2) by (apply (idle_world s1); [by apply Hi1|done]).
  assert (Hi : idle s s2) by exact (idle_trans _ _ _ Hi1 Hi2).
  wp_step. apply wp_AddTask_any; [by apply Hi|by apply Hok|congruence| |].
  { rewrite Hid. done. }
  intros b s3 He. assert (Hs3 : extends s s3) by (eapply extends_trans; [by apply extends_idle|done]).
  destruct b; [by apply wp_ret|]. apply wp_on_world, wp_destroy_task. intros en.
  eapply extends_trans; [done|]. apply extends_idle, idle_world; [by apply Hs3|done].
Qed.

Lemma ResumeFromDb_extends infos cf s :
  mok s → Forall (λ oi, ∀ i, oi = Some i → restorable s i) infos →
  wp (ResumeFromDb infos cf) (λ _, extends s) s.
Proof.
  intros Hs Hall. unfold ResumeFromDb.
  apply (wp_for_each (λ rest s', extends s s' ∧
    Forall (λ oi, ∀ i, oi = Some i → restorable s i) rest)).
  - split; [|done]. by apply extends_idle, idle_refl.
  - intros oi rest s1 [He [Hoi Hrest]%Forall_cons].
    wp_call wp_ResumeFromDb_step; [by apply He| |].
    + intros i Hi. destruct (Hoi i Hi) as (?&?&?&?). destruct He as (_&(Hid&_)&_).
      split_and!; [done..|by rewrite Hid].
    + split; [|done]. by eapply extends_trans.
  - by intros s1 [? _].
Qed.

(** The asynchronous completion of a magnet's metadata. *)
Lemma OnParseComplete_keeps id r s :
  mok s → (∀ t, tasks s !! id = Some t → t_kind t = KMagnet) →
  wp (OnParseComplete id r) (λ _, keeps_tasks uany s) s.
Proof.
  intros Hs Hk. unfold OnParseComplete, task_list. wp_step. apply wp_gets.
  destruct (tasks s !! id) as [t|] eqn:Ht.
  2: { apply wp_ret. split_and!; [done|reflexivity..]. }
  rewrite (bool_decide_eq_true_2 _ (Hk t eq_refl)). simpl.
  assert (Hid : id = id) by done.
  apply (steady_use (eq id) uany); [done|by intros ? <-| |by intros; split_and!].
  steady_auto.
Qed.

(** A callback that runs one member function of a listed task. *)
Lemma on_task_keeps {A} id (op : ST TS A) s :
  mok s → is_Some (tasks s !! id) → pres keeps_status op →
  wp (on_task id op) (λ _, keeps_tasks uany s) s.
Proof.
  intros Hs Hid Hop. apply (steady_use (eq id) uany); [done|by intros ? <-| |by intros; split_and!].
  by eapply steady_on_task_any.
Qed.
End Requests.
