(* ===== verification/DownloadMgr.v ===== *)
(** * [download_mgr.cc]: the users of the server

    [DownloadManager] keeps one [UserSelfMgr] per user and dispatches every
    request to it; managers run on at most twenty threads.  A request posted to
    a user's sequence runs after the context update posted just before it, so
    the model runs both in that order. *)

From S2P Require Import Prelude CppBase BaseRef PathUnit DownloadTypes ErrorDesc TaskInfo.
From S2P Require Import InfoStore SystemConfig ServerWorld TaskRefCount TaskObj TaskSpec.
From S2P Require Import TaskFactory UserInfo UserSelfMgr UserSelfMgrSpec UserSelfMgrOps.
From S2P Require Import UserSelfMgrCreate.
#[local] Open Scope prog_scope.

Record DownloadManager := mkManager {
  d_user_self_mgr_list : gmap string UserSelfMgr;
  d_user_thread_list : nat;               (** how many threads were created *)
  d_task_runner : gmap string nat         (** each manager's thread *)
}.

Definition kMaxUserThreads : nat := 20.

(** The requests a client sends, with the operation each runs. *)
Inductive Request :=
  | RCreateLink (source_list : list SourceData)
  | RCreateTorrent (request : CreateTorrentRequest)
  | RPause (task_ids : list string) | RPauseAll
  | RResume (task_ids : list string) | RResumeAll
  | RDelete (task_ids : list string) (is_delete_local_file : bool)
  | RDeleteCategory (task_category : TaskCategory) (is_delete_local_file : bool)
  | RRetry (task_ids : list string) | RRetryAll
  | RClean (task_ids : list string) | RCleanCategory (task_category : TaskCategory)
  | RRestore (task_ids : list string) | RRestoreAll.

Section Manager.
  Context `{E : Env} `{bl : BaseLib} `{ss : StdSort}.

Record DS := mkDS { ds_m : DownloadManager; ds_w : World }.

Definition users : ST DS (gmap string UserSelfMgr) := gets (λ s, d_user_self_mgr_list (ds_m s)).
Definition set_users v m := mkManager v (d_user_thread_list m) (d_task_runner m).
Definition ds_world {A} (m : ST World A) : ST DS A := λ s,
  match m (ds_w s) with Some (a, w) => Some (a, mkDS (ds_m s) w) | None => None end.

(** An operation on the manager of user [user_id]. *)
Definition on_user {A} (user_id : string) (m : ST US A) : ST DS A := λ s,
  match d_user_self_mgr_list (ds_m s) !! user_id with
  | None => None
  | Some u =>
      match m (mkUS u (ds_w s)) with
      | Some (a, s') =>
          Some (a, mkDS (set_users (<[user_id := us_m s']> (d_user_self_mgr_list (ds_m s))) (ds_m s))
                        (us_w s'))
      | None => None
      end
  end.

(** [DownloadManager::FindUser] *)
Definition FindUser (context_field : ContextField) : ST DS bool :=
  l ← users;
  match l !! cf_user_id context_field with
  | None => ret false
  | Some _ => on_user (cf_user_id context_field) (UserSelfMgr.UpdateUserInfo context_field) ;; ret true
  end.

(** [DownloadManager::AllocateTaskRunner]: the index of the thread. *)
Definition AllocateTaskRunner : ST DS nat :=
  m ← gets ds_m;
  if (kMaxUserThreads <=? d_user_thread_list m)%nat then
    random_number ← ds_world (env_call (RandInt 0 19));
    if (0 <=? random_number) && (random_number <? Z.of_nat (d_user_thread_list m))
    then ret (Z.to_nat random_number) else crash
  else
    modify (λ s, mkDS (mkManager (d_user_self_mgr_list (ds_m s)) (S (d_user_thread_list m))
                         (d_task_runner (ds_m s))) (ds_w s)) ;;
    ret (d_user_thread_list m).

(** [DownloadManager::AddUser]: what it does on the work thread, and all of it *)
Definition NewUser (context_field : ContextField) : ST DS unit :=
  let user_id := cf_user_id context_field in
  task_runner ← AllocateTaskRunner;
  u ← ds_world (UserSelfMgr_new context_field);
  modify (λ s, mkDS (mkManager (<[user_id := u]> (d_user_self_mgr_list (ds_m s)))
                       (d_user_thread_list (ds_m s))
                       (<[user_id := task_runner]> (d_task_runner (ds_m s)))) (ds_w s)).
Definition AddUser (context_field : ContextField) : ST DS unit :=
  NewUser context_field ;;
  on_user (cf_user_id context_field) (UserSelfMgr.UpdateUserInfo context_field ;; StartTimer).

(** The two shapes of a public request: find the user and run its operation
    (unknown users are ignored), or add the user first. *)
Definition with_user (context_field : ContextField) (op : ST US unit) : ST DS unit :=
  found ← FindUser context_field;
  if found : bool then on_user (cf_user_id context_field) op else ret tt.
Definition adding_user (context_field : ContextField) (op : ST US unit) : ST DS unit :=
  found ← FindUser context_field;
  (if found : bool then ret tt else AddUser context_field) ;;
  on_user (cf_user_id context_field) op.

(** [DownloadManager::CreateLinkDownloadTask], [CreateTorrentDownloadTask] *)
Definition DownloadManager_CreateLinkDownloadTask (request : list SourceData)
    (context_field : ContextField) : ST DS unit :=
  adding_user context_field (CreateLinkTask request context_field).
Definition DownloadManager_CreateTorrentDownloadTask (request : CreateTorrentRequest)
    (context_field : ContextField) : ST DS unit :=
  adding_user context_field (CreateTorrentTask request context_field).

(** [DownloadManager::Pause] ... [DownloadManager::RestoreAll] *)
Definition DownloadManager_Pause (task_ids : list string) (context_field : ContextField) :=
  with_user context_field (UserSelfMgr.Pause task_ids context_field).
Definition DownloadManager_PauseAll (context_field : ContextField) :=
  with_user context_field (PauseAll context_field).
Definition DownloadManager_Resume (task_ids : list string) (context_field : ContextField) :=
  with_user context_field (UserSelfMgr.Resume task_ids context_field).
Definition DownloadManager_ResumeAll (context_field : ContextField) :=
  with_user context_field (ResumeAll context_field).
Definition DownloadManager_Delete (task_ids : list string) (is_delete_local_file : bool)
    (context_field : ContextField) :=
  with_user context_field (Delete task_ids is_delete_local_file context_field).
Definition DownloadManager_DeleteCategory (task_category : TaskCategory)
    (is_delete_local_file : bool) (context_field : ContextField) :=
  with_user context_field (DeleteCategory task_category is_delete_local_file context_field).
Definition DownloadManager_Retry (task_ids : list string) (context_field : ContextField) :=
  with_user context_field (UserSelfMgr.Retry task_ids context_field).
Definition DownloadManager_RetryAll (context_field : ContextField) :=
  with_user context_field (RetryAll context_field).
Definition DownloadManager_Clean (task_ids : list string) (context_field : ContextField) :=
  with_user context_field (Clean task_ids context_field).
Definition DownloadManager_CleanCategory (task_category : TaskCategory)
    (context_field : ContextField) :=
  with_user context_field (CleanCategory task_category context_field).
Definition DownloadManager_Restore (task_ids : list string) (context_field : ContextField) :=
  with_user context_field (UserSelfMgr.Restore task_ids context_field).
Definition DownloadManager_RestoreAll (context_field : ContextField) :=
  with_user context_field (RestoreAll context_field).

(** The dispatch of a request to its function. *)
Definition handle (r : Request) (context_field : ContextField) : ST DS unit :=
  match r with
  | RCreateLink l => DownloadManager_CreateLinkDownloadTask l context_field
  | RCreateTorrent t => DownloadManager_CreateTorrentDownloadTask t context_field
  | RPause ids => DownloadManager_Pause ids context_field
  | RPauseAll => DownloadManager_PauseAll context_field
  | RResume ids => DownloadManager_Resume ids context_field
  | RResumeAll => DownloadManager_ResumeAll context_field
  | RDelete ids b => DownloadManager_Delete ids b context_field
  | RDeleteCategory c b => DownloadManager_DeleteCategory c b context_field
  | RRetry ids => DownloadManager_Retry ids context_field
  | RRetryAll => DownloadManager_RetryAll context_field
  | RClean ids => DownloadManager_Clean ids context_field
  | RCleanCategory c => DownloadManager_CleanCategory c context_field
  | RRestore ids => DownloadManager_Restore ids context_field
  | RRestoreAll => DownloadManager_RestoreAll context_field
  end.

(** What each request runs on the thread of its user: the function of
    [UserSelfMgr] that [DownloadManager] forwards it to. *)
Definition user_op (r : Request) (context_field : ContextField) : ST US unit :=
  match r with
  | RCreateLink l => CreateLinkTask l context_field
  | RCreateTorrent t => CreateTorrentTask t context_field
  | RPause ids => UserSelfMgr.Pause ids context_field
  | RPauseAll => PauseAll context_field
  | RResume ids => UserSelfMgr.Resume ids context_field
  | RResumeAll => ResumeAll context_field
  | RDelete ids b => Delete ids b context_field
  | RDeleteCategory c b => DeleteCategory c b context_field
  | RRetry ids => UserSelfMgr.Retry ids context_field
  | RRetryAll => RetryAll context_field
  | RClean ids => Clean ids context_field
  | RCleanCategory c => CleanCategory c context_field
  | RRestore ids => UserSelfMgr.Restore ids context_field
  | RRestoreAll => RestoreAll context_field
  end.
(** The requests that add their user *)
Definition creates (r : Request) : bool :=
  match r with RCreateLink _ | RCreateTorrent _ => true | _ => false end.
Lemma handle_op r context_field :
  handle r context_field = (if creates r then adding_user else with_user) context_field (user_op r context_field).
Proof. by destruct r. Qed.

(** [DownloadManager::CreateDefaultDownloadDirectory] *)
Definition CreateDefaultDownloadDirectory (user_id : string) : ST DS unit :=
  source_data ← ds_world (env_call (GetUserSourceDataDir user_id));
  let path := FilePath_Append source_data "download" in
  found ← ds_world (env_read (PathExists path));
  if negb found then ds_world (env_call (CreateDirectory path)) ;; ret tt else ret tt.

(** [DownloadManager::GetTaskInfoList]: what the callback receives. *)
Definition DownloadManager_GetTaskInfoList (context_field : ContextField)
    : ST DS (list (option TaskInfo)) :=
  CreateDefaultDownloadDirectory (cf_user_id context_field) ;;
  found ← FindUser context_field;
  if found : bool then
    on_user (cf_user_id context_field) (UserSelfMgr.GetTaskInfoList context_field)
  else ret [].

(** [DownloadManager::ResumeTasksFromDb], given what the store returns: each
    user's information and tasks. *)
Definition ResumeTasksFromDb
    (stored : list (string * (UserInfo * list (option TaskInfo)))) : ST DS unit :=
  for_each stored (λ '(user_id, (user_info, task_info_list)),
    let context_field := mkContextField EmptyString user_id EmptyString in
    found ← FindUser context_field;
    (if found : bool then ret tt else AddUser context_field) ;;
    on_user user_id (SetUserInfo (Some user_info)) ;;
    on_user user_id (ResumeFromDb task_info_list context_field)).

(** [DownloadManager::Reset], when every user's reset has run. *)
Definition DownloadManager_Reset : ST DS unit :=
  l ← users;
  for_each (map_keys l) (λ user_id, on_user user_id UserSelfMgr.Reset) ;;
  modify (λ s, mkDS (mkManager ∅ 0 (d_task_runner (ds_m s))) (ds_w s)) ;;
  ds_world (post_db ClearTableData) ;;
  dir ← ds_world (env_call GetTorrentFileSavePath);
  ds_world (env_call (DeletePathRecursively dir)) ;; ret tt.

(** ** Events

    What can happen to the running server: a client's request, a user's timer,
    the completion of a magnet's metadata ([BtMagnetTask::ParseMangetResult]),
    a torrent added to its engine ([BtTaskBase::OnTorrentAdded], through a raw
    pointer: undefined once the task is gone), the reply of the file list a
    progress update asked for (the closure keeps the task alive), one of the
    closures that tasks posted (a [CurlTask::ReStart] through the raw pointer of
    its task: undefined once the task is gone), a settings change, a reset or a
    restore from the database, and any change the engines, the file system or
    the clock make on their own threads.  Closures run in any order, which is
    more than their queues allow. *)
Inductive Event :=
  | EvRequest (r : Request) (context_field : ContextField)
  | EvGet (context_field : ContextField)
  | EvTick (user_id : string)
  | EvParsed (user_id task_id result : string)
  | EvTorrentAdded (user_id task_id : string)
  | EvFileList (user_id task_id : string) (torrent_list : option string)
  | EvPosted (i : nat)
  | EvUserSetting (user_id key value : string)
  | EvSystemSetting (key value : string)
  | EvRestoreDb (stored : list (string * (UserInfo * list (option TaskInfo))))
  | EvReset
  | EvEngines (e : env).

Definition set_w_cfg v w := mkWorld (w_env w) (w_refs w) (w_db w) (w_notes w) (w_posts w) v.

Definition on_existing (user_id : string) (op : ST US unit) : ST DS unit :=
  l ← users; match l !! user_id with Some _ => on_user user_id op | None => ret tt end.

(** The [i]-th of the closures that tasks posted; what [PostGetTorrentList]
    finds comes back as [EvFileList]. *)
Definition run_post (i : nat) : ST World unit :=
  posts ← gets w_posts;
  match posts !! i with
  | None => ret tt
  | Some p =>
      modify (set_w_posts (delete i posts)) ;;
      match p with
      | PostReStart h => env_call (c_TryReStart h)
      | PostDangling => crash
      | PostGetTorrentList _ => ret tt
      end
  end.

Definition run_event (ev : Event) : ST DS unit :=
  match ev with
  | EvRequest r cf => handle r cf
  | EvGet cf => DownloadManager_GetTaskInfoList cf ;; ret tt
  | EvTick u => on_existing u TimerChcek
  | EvParsed u id r => on_existing u (OnParseComplete id r)
  | EvTorrentAdded u id => on_existing u (on_task id UpdateAndPublishTorrentInfo)
  | EvFileList u id text =>
      on_existing u (found ← FindTask id;
                     if found : bool then on_task id (SetFileList text) else ret tt)
  | EvPosted i => ds_world (run_post i)
  | EvUserSetting u key value =>
      on_existing u (upd_mgr (λ m, set_m_user_info
        (UserInfo_OnSubscribeCallbackResult key value <$> m_user_info m) m))
  | EvSystemSetting key value =>
      ds_world (modify (λ w, set_w_cfg (OnSubscribeCallbackResult key value (w_cfg w)).1 w))
  | EvRestoreDb stored => ResumeTasksFromDb stored
  | EvReset => DownloadManager_Reset
  | EvEngines e => ds_world (modify (set_w_env e))
  end.
End Manager.
