(* ===== verification/DownloadMgrSpec.v ===== *)
(** * The whole server: invariant, contracts, isolation

    [dm_ok] is the invariant of the running server: every user's manager is
    well formed and owns one of at most twenty threads.  [moves u R] relates two
    server states that differ only in the manager of user [u], which moved along
    [R].  Each request has a contract [effect]; reachable states are those an
    arbitrary sequence of admissible events leads to. *)

From S2P Require Import Prelude CppBase BaseRef PathUnit DownloadTypes ErrorDesc TaskInfo.
From S2P Require Import InfoStore SystemConfig ServerWorld TaskRefCount TaskObj TaskSpec.
From S2P Require Import TaskFactory UserInfo UserSelfMgr UserSelfMgrSpec UserSelfMgrOps.
From S2P Require Import UserSelfMgrCreate DownloadMgr.
#[local] Open Scope prog_scope.

Abbreviation managers s := (d_user_self_mgr_list (ds_m s)).

Section Server.
  Context `{E : Env} `{bl : BaseLib} `{ss : StdSort} {sl : StdSortLaws ss} {laws : EnvLaws E}.
  Implicit Types s : DS.

(** A manager filed under its user's id, well formed in the shared world. *)
Definition user_state s (m : UserSelfMgr) : US := mkUS m (ds_w s).

Definition dm_ok s : Prop :=
  cfg_ok (w_cfg (ds_w s)) ∧ (d_user_thread_list (ds_m s) ≤ kMaxUserThreads)%nat ∧
  ∀ u m, managers s !! u = Some m →
    mok (user_state s m) ∧ m_user_id m = u ∧
    ∃ n, d_task_runner (ds_m s) !! u = Some n ∧ (n < d_user_thread_list (ds_m s))%nat.

(** The other users' managers are untouched. *)
Definition isolates (u : string) s s' : Prop :=
  delete u (managers s') = delete u (managers s).
#[global] Instance isolates_preorder u : PreOrder (isolates u).
Proof. unfold isolates. split; congruence. Qed.

Lemma isolates_lookup u s s' k :
  isolates u s s' → k ≠ u → managers s' !! k = managers s !! k.
Proof.
  intros Hi Hk. rewrite <-(lookup_delete_ne (managers s') u k), Hi by done.
  by apply lookup_delete_ne.
Qed.

(** [s'] is [s] after the manager of [u] moved along [R]. *)
Definition moves (u : string) (R : US → US → Prop) s s' : Prop :=
  dm_ok s' ∧ isolates u s s' ∧ world_step (ds_w s) (ds_w s') ∧
  ∃ m m', managers s !! u = Some m ∧ managers s' !! u = Some m' ∧
    R (user_state s m) (user_state s' m').

(** The server's own record is updated in one place. *)
Lemma wp_on_user {A} u m (op : ST US A) (Q : A → DS → Prop) s :
  managers s !! u = Some m →
  wp op (λ a (s' : US), Q a (mkDS (set_users (<[u := us_m s']> (managers s)) (ds_m s)) (us_w s')))
    (user_state s m) →
  wp (on_user u op) Q s.
Proof. intros Hm. unfold wp, on_user, user_state. rewrite Hm. by destruct (op _) as [[a s']|]. Qed.

(** An invariant that mentions the world only through the configuration
    survives what another user does to the world. *)
Lemma mok_other m w w' : world_step w w' → mok (mkUS m w) → mok (mkUS m w').
Proof. intros [Hc _] (H1&H2&H3&H4). split_and!; simpl in *; [by rewrite Hc|done..]. Qed.

Definition safe_op (R : US → US → Prop) {A} (op : ST US A) (x : US) : Prop :=
  wp op (λ _ x', mok x' ∧ m_user_id (us_m x') = m_user_id (us_m x) ∧
    world_step (us_w x) (us_w x') ∧ R x x') x.

Lemma wp_on_user_moves {A} u m R (op : ST US A) (Q : A → DS → Prop) s :
  dm_ok s → managers s !! u = Some m → safe_op R op (user_state s m) →
  (∀ a s', moves u R s s' → Q a s') → wp (on_user u op) Q s.
Proof.
  intros (Hc & Ht & Hall) Hm Hop HQ. eapply wp_on_user; [done|].
  eapply wp_mono; [apply Hop|]. intros a [m' w'] (Hok & Hid & Hw & HR). simpl in *. apply HQ.
  destruct (Hall u m Hm) as (_ & Hmu & Hrun). split_and!; simpl.
  - split_and!; simpl; [by rewrite (proj1 Hw)|done|]. intros k x.
    rewrite lookup_insert_Some. intros [[<- <-]|[Hne Hx]].
    + split_and!; [done|congruence|done].
    + destruct (Hall k x Hx) as (Hk & ? & ?). split_and!; [|done..].
      by eapply mok_other.
  - unfold isolates. simpl. apply delete_insert_eq.
  - done.
  - exists m, m'. split_and!; [done|apply lookup_insert_eq|done].
Qed.

Lemma wp_ds_world {A} (m : ST World A) (Q : A → DS → Prop) s :
  wp m (λ a w, Q a (mkDS (ds_m s) w)) (ds_w s) → wp (ds_world m) Q s.
Proof. unfold wp, ds_world. by destruct (m _) as [[a w]|]. Qed.

Lemma dm_ok_world s w : dm_ok s → world_step (ds_w s) w → dm_ok (mkDS (ds_m s) w).
Proof.
  intros (Hc & Ht & Hall) Hw. split_and!; simpl; [by rewrite (proj1 Hw)|done|].
  intros u m Hm. destruct (Hall u m Hm) as (H1 & H2 & H3). split_and!; [|done..].
  by eapply mok_other.
Qed.

(** ** Finding and adding users *)

(** Updating the context a user's requests carry changes nothing else. *)
Definition same_user (x x' : US) : Prop :=
  m_task_list (us_m x') = m_task_list (us_m x) ∧ us_w x' = us_w x ∧ uext x x'.

Lemma UpdateUserInfo_safe cf x : mok x → safe_op same_user (UserSelfMgr.UpdateUserInfo cf) x.
Proof.
  intros Hx. pose proof (steady_set_context (λ _, False) cf x Hx) as H.
  apply wp_modify. destruct H as (H1 & H2 & _ & _); [done|]. pose proof H2 as (H3&H4&_).
  by split_and!.
Qed.

Lemma wp_FindUser cf (Q : bool → DS → Prop) s :
  dm_ok s →
  (∀ s', moves (cf_user_id cf) same_user s s' → Q true s') →
  (managers s !! cf_user_id cf = None → Q false s) →
  wp (FindUser cf) Q s.
Proof.
  intros Hs Hyes Hno. unfold FindUser, users. wp_step. apply wp_gets.
  destruct (managers s !! cf_user_id cf) as [m|] eqn:Hm; [|by apply wp_ret, Hno].
  wp_step. pose proof Hs as (_&_&Hall). destruct (Hall _ _ Hm) as (Hok&_).
  eapply wp_on_user_moves; [done..|by apply UpdateUserInfo_safe|].
  intros _ s' Hmv. by apply wp_ret, Hyes.
Qed.

(** A runner is one of the threads; there are never more than twenty. *)
Lemma wp_AllocateTaskRunner (Q : nat → DS → Prop) s :
  dm_ok s →
  (∀ n s', dm_ok s' → managers s' = managers s → world_step (ds_w s) (ds_w s') →
     (n < d_user_thread_list (ds_m s'))%nat → Q n s') →
  wp AllocateTaskRunner Q s.
Proof.
  intros Hs HQ. pose proof Hs as (Hc & Ht & Hall). unfold AllocateTaskRunner. wp_step.
  apply wp_gets. destruct (Nat.leb_spec kMaxUserThreads (d_user_thread_list (ds_m s))).
  - wp_step. apply wp_ds_world, wp_env_call_exact.
    pose proof (RandInt_range 0 19 (w_env (ds_w s)) ltac:(lia)).
    assert (Hn : d_user_thread_list (ds_m s) = 20%nat) by (unfold kMaxUserThreads in *; lia).
    rewrite Hn. destruct (_ && _) eqn:Hb.
    + apply wp_ret, HQ; [by apply dm_ok_world|done|done|]. simpl. rewrite Hn. lia.
    + apply andb_false_iff in Hb. rewrite Z.leb_gt, Z.ltb_ge in Hb. lia.
  - wp_step. apply wp_modify, wp_ret, HQ; simpl; [|done|done|lia].
    split_and!; simpl; [done|lia|]. intros u m Hm. destruct (Hall u m Hm) as (?&?&n&?&?).
    split_and!; [done..|]. exists n. split; [done|lia].
Qed.

(** A user just added: no task, and the timer runs. *)
Definition newcomer (m : UserSelfMgr) : Prop := m_task_list m = ∅ ∧ m_publish_timer m = true.

Lemma wp_NewUser cf (Q : unit → DS → Prop) s :
  dm_ok s →
  (∀ s' m, dm_ok s' → managers s' = <[cf_user_id cf := m]> (managers s) → world_step (ds_w s) (ds_w s') →
     m_task_list m = ∅ → Q tt s') →
  wp (NewUser cf) Q s.
Proof.
  intros Hs HQ. unfold NewUser. wp_step. apply wp_AllocateTaskRunner; [done|].
  intros n s1 Hs1 Hm1 Hw1 Hn1. wp_step. apply wp_ds_world.
  eapply (wp_mono _ (λ m w, world_step (ds_w s1) w ∧ m_task_list m = ∅ ∧
    m_user_id m = cf_user_id cf ∧ ∀ u, m_user_info m = Some u → user_ok u)).
  { unfold UserSelfMgr_new. destruct (negb _).
    - wp_step. apply wp_modify. wp_step. apply wp_modify, wp_ret. simpl. split_and!; try done.
      + split; [done|]. simpl. rewrite <-app_assoc. by apply prefix_app_r.
      + intros u [= <-]. apply user_ok_new.
    - apply wp_ret. by split_and!. }
  intros m w (Hw & Htl & Hid & Hui). apply wp_modify. simpl.
  pose proof Hs1 as (Hc & Ht & Hall). apply (HQ _ m); [|simpl; by rewrite Hm1|by etrans|done].
  split_and!; simpl; [by rewrite (proj1 Hw)|done|]. intros k x.
  rewrite lookup_insert_Some. intros [[<- <-]|[Hne Hx]].
  - split_and!; [|done|exists n; by rewrite lookup_insert_eq].
    split_and!; simpl; [by rewrite (proj1 Hw)|rewrite Htl; by intros ? ?|by rewrite Htl|done].
  - destruct (Hall k x Hx) as (Hk & ? & ?). split_and!; [by eapply mok_other|done|].
    by rewrite lookup_insert_ne.
Qed.

Lemma wp_AddUser cf (Q : unit → DS → Prop) s :
  dm_ok s →
  (∀ s' m, dm_ok s' → isolates (cf_user_id cf) s s' → world_step (ds_w s) (ds_w s') →
     managers s' !! cf_user_id cf = Some m → newcomer m → Q tt s') →
  wp (AddUser cf) Q s.
Proof.
  intros Hs HQ. unfold AddUser. wp_step. apply wp_NewUser; [done|]. intros s2 m Hs2 Hm Hw Htl.
  assert (Hm2 : managers s2 !! cf_user_id cf = Some m) by (rewrite Hm; apply lookup_insert_eq).
  pose proof Hs2 as (_ & _ & Hall). destruct (Hall _ _ Hm2) as (Hok2 & _).
  eapply (wp_on_user_moves _ _ (λ _ x', newcomer (us_m x'))); [done..| |].
  - unfold safe_op. wp_step. eapply wp_mono; [by apply UpdateUserInfo_safe|].
    intros _ x' (Hx & Hxid & Hxw & Htl' & _). apply wp_modify. simpl.
    destruct Hx as (?&?&?&?). split_and!; try done.
    split; [|done]. simpl. by rewrite Htl'.
  - intros [] s' (Hs' & Hi & Hw' & m0 & m' & _ & Hm' & Hnew). eapply HQ; [done| | |done|done].
    + etrans; [|done]. unfold isolates. by rewrite Hm, delete_insert_eq.
    + by etrans.
Qed.

(** ** The contract of each request *)

(** What a request may do to its user's manager. *)
Definition effect (r : Request) : US → US → Prop :=
  match r with
  | RCreateLink _ | RCreateTorrent _ => grows
  | RPause _ | RPauseAll => keeps_tasks sheds
  | RResume _ | RResumeAll | RRetry _ | RRetryAll => keeps_tasks admits
  | RRestore _ | RRestoreAll => keeps_tasks uany
  | RDelete _ _ | RDeleteCategory _ _ | RClean _ | RCleanCategory _ => shrinks
  end.

(** The requests the server can serve: a source that may be a torrent or a
    magnet comes with a torrent parameter that fits the engine's buffers, and
    no task is named like its user. *)
Definition request_params (r : Request) : list TaskParam :=
  match r with
  | RCreateLink l => link_param <$> l
  | RCreateTorrent t => [torrent_param t]
  | _ => []
  end.
Definition admissible (r : Request) (cf : ContextField) : Prop :=
  Forall (λ p, new_param p ∧ p_id p ≠ cf_user_id cf) (request_params r).

Lemma safe_of_ext R {A} (op : ST US A) x :
  wp op (λ _ x', mok x' ∧ uext x x' ∧ R x x') x → safe_op R op x.
Proof. intros H. eapply wp_mono; [exact H|]. intros a x' (? & (?&?&_) & ?). by split_and!. Qed.

Ltac by_contract lem := apply safe_of_ext; eapply wp_mono; [by apply lem|];
  cbn beta; intros ? x' Hx'; pose proof Hx' as (?&?&_); by split_and!.

(** The operation of a request meets its contract. *)
Lemma user_op_safe r cf x : admissible r cf → mok x → m_user_id (us_m x) = cf_user_id cf →
  safe_op (effect r) (user_op r cf) x.
Proof.
  intros Had Hx Hid. destruct r; simpl.
  - apply safe_of_ext. wp_call CreateLinkTask_grows; [done| |].
    { split; [done|]. rewrite Hid. done. }
    pose proof H as (?&?&_). by split_and!.
  - apply safe_of_ext. wp_call CreateTorrentTask_grows; [done| |].
    { split; [done|]. rewrite Hid. done. }
    pose proof H as (?&?&_). by split_and!.
  - by_contract Pause_keeps.
  - by_contract PauseAll_keeps.
  - by_contract Resume_keeps.
  - by_contract ResumeAll_keeps.
  - by_contract Delete_shrinks.
  - by_contract DeleteCategory_shrinks.
  - by_contract Retry_keeps.
  - by_contract RetryAll_keeps.
  - by_contract Clean_shrinks.
  - by_contract CleanCategory_shrinks.
  - by_contract Restore_keeps.
  - by_contract RestoreAll_keeps.
Qed.

(** The relations of the contracts compose with a change of context. *)
Lemma effect_after r x x1 x2 : same_user x x1 → effect r x1 x2 → effect r x x2.
Proof.
  intros (Ht & _ & Hu). pose proof Hu as (_&_&Hl&_).
  assert (Had : admits x1 x2 → admits x x2).
  { unfold admits. rewrite Ht, Hl. intros [H1 H2]. split; [congruence|done]. }
  destruct r; simpl; unfold grows, shrinks, keeps_tasks, same_dom, sheds;
    rewrite ?Ht; intros (?&?&?&?); split_and!; auto; by etrans.
Qed.

Lemma moves_trans u (R R1 R2 : US → US → Prop) s s1 s2 :
  (∀ x x1 x2, R1 x x1 → R2 x1 x2 → R x x2) →
  moves u R1 s s1 → moves u R2 s1 s2 → moves u R s s2.
Proof.
  intros HR (_&?&?&m&m1&Hm&Hm1&H1) (?&?&?&m1'&m2&Hm1'&Hm2&H2). simplify_eq.
  split_and!; [done|by etrans..|]. exists m, m2. eauto.
Qed.

(** What serving a request does to the server. *)
Definition served (r : Request) (cf : ContextField) s s' : Prop :=
  match managers s !! cf_user_id cf with
  | Some _ => moves (cf_user_id cf) (effect r) s s'
  | None =>
      if creates r then
        dm_ok s' ∧ isolates (cf_user_id cf) s s' ∧ world_step (ds_w s) (ds_w s') ∧
        ∃ m, managers s' !! cf_user_id cf = Some m ∧
          downloading_num (m_task_list m) <= task_limit m
      else s' = s
  end.

Lemma creates_limit r x x' :
  creates r = true → effect r x x' → tasks x = ∅ →
  downloading_num (tasks x') <= task_limit (us_m x').
Proof.
  intros Hc He Ht. assert (grows x x') as (Hm & Hu & [Hl Hn] & _) by (by destruct r).
  rewrite Ht in Hn. change (downloading_num ∅) with 0 in Hn.
  pose proof (mok_limit x' Hm). rewrite Hl in *. lia.
Qed.

Lemma wp_handle r cf s :
  dm_ok s → admissible r cf → wp (handle r cf) (λ _, served r cf s) s.
Proof.
  intros Hs Had. pose proof (user_op_safe r cf) as Hop. unfold served. set (op := user_op r cf) in *.
  (* the operation on a listed user *)
  assert (Hrun : ∀ s1 m1, dm_ok s1 → managers s1 !! cf_user_id cf = Some m1 →
    wp (on_user (cf_user_id cf) op) (λ _, moves (cf_user_id cf) (effect r) s1) s1).
  { intros s1 m1 Hs1 Hm1. pose proof Hs1 as (_&_&Hall). destruct (Hall _ _ Hm1) as (Hok&Hid&_).
    eapply wp_on_user_moves; [done|done|by apply Hop|]. by intros. }
  assert (Hfound : ∀ s1, moves (cf_user_id cf) same_user s s1 →
    wp (on_user (cf_user_id cf) op) (λ _, served r cf s) s1).
  { intros s1 Hmv. pose proof Hmv as (Hs1&_&_&m&m1&Hm&Hm1&_).
    eapply wp_mono; [by eapply Hrun|]. intros a s2 H2. unfold served. rewrite Hm.
    eapply moves_trans; [apply effect_after|done|done]. }
  unfold served in Hfound. rewrite handle_op. fold op. destruct (creates r) eqn:Hcr; unfold adding_user, with_user; wp_step.
  - apply wp_FindUser; [done| |].
    + intros s1 Hmv. wp_step. apply wp_ret. by apply Hfound.
    + intros Hnone. wp_step. apply wp_AddUser; [done|].
      intros s1 m1 Hs1 Hi1 Hw1 Hm1 [Htl _]. eapply wp_mono; [by eapply Hrun|].
      intros a s2 (Hs2&Hi2&Hw2&x&m2&Hx&Hm2&Heff).
      rewrite Hnone. split_and!; [done|by etrans..|]. exists m2. split; [done|].
      rewrite Hm1 in Hx. injection Hx as <-. by apply (creates_limit r _ _ Hcr Heff).
  - apply wp_FindUser; [done|done|]. intros Hnone. apply wp_ret. by rewrite Hnone.
Qed.

(** ** Every event is safe *)
Lemma wp_on_existing u (op : ST US unit) R s :
  dm_ok s →
  (∀ m, managers s !! u = Some m → m_user_id m = u → mok (user_state s m) →
     safe_op R op (user_state s m)) →
  wp (on_existing u op) (λ _ s', dm_ok s' ∧ isolates u s s') s.
Proof.
  intros Hs Hop. unfold on_existing, users. wp_step. apply wp_gets.
  destruct (managers s !! u) as [m|] eqn:Hm; [|by apply wp_ret].
  pose proof Hs as (_&_&Hall). destruct (Hall _ _ Hm) as (Hok&Hid&_).
  eapply wp_on_user_moves; [done|done|by apply Hop|]. by intros _ s' (?&?&_).
Qed.

Lemma wp_DownloadManager_GetTaskInfoList cf s :
  dm_ok s → wp (DownloadManager_GetTaskInfoList cf) (λ _ s', dm_ok s' ∧
    isolates (cf_user_id cf) s s') s.
Proof.
  intros Hs. unfold DownloadManager_GetTaskInfoList. wp_step.
  eapply (wp_mono _ (λ _ s', dm_ok s' ∧ ds_m s' = ds_m s)).
  { unfold CreateDefaultDownloadDirectory. wp_step. apply wp_ds_world, wp_env_call. intros d e.
    wp_step. apply wp_ds_world, wp_gets. destruct (negb _).
    - wp_step. apply wp_ds_world, wp_env_call. intros b e'. apply wp_ret.
      split; [by apply dm_ok_world|done].
    - apply wp_ret. split; [by apply dm_ok_world|done]. }
  intros _ s1 [Hs1 Hm1]. wp_step.
  assert (Hi1 : isolates (cf_user_id cf) s s1) by (unfold isolates; by rewrite Hm1).
  apply wp_FindUser; [done| |by intros _; apply wp_ret].
  intros s2 (Hs2&Hi2&_&m&m2&_&Hm2&_). pose proof Hs2 as (_&_&Hall).
  destruct (Hall _ _ Hm2) as (Hok&Hid&_). eapply (wp_on_user_moves _ _ uany); [done..| |].
  - eapply wp_mono; [by apply GetTaskInfoList_keeps|]. by intros a x (?&(?&?&_)&_).
  - intros _ s3 (?&?&_). split; [done|]. by do 2 (etrans; [done|]).
Qed.

(** What the store returns for each user can be restored. *)
Definition restorable_store (stored : list (string * (UserInfo * list (option TaskInfo)))) : Prop :=
  Forall (λ e, user_ok e.2.1 ∧ Forall (λ oi, ∀ i, oi = Some i → restorable_for e.1 i) e.2.2) stored.

Lemma wp_on_user_ok u (op : ST US unit) (Q : unit → DS → Prop) s :
  dm_ok s → is_Some (managers s !! u) →
  (∀ x, mok x → m_user_id (us_m x) = u → safe_op uany op x) →
  (∀ s', dm_ok s' → is_Some (managers s' !! u) → dom (managers s') = dom (managers s) → Q tt s') →
  wp (on_user u op) Q s.
Proof.
  intros Hs [m Hm] Hop HQ. pose proof Hs as (_&_&Hall). destruct (Hall _ _ Hm) as (Hok&Hid&_).
  eapply wp_on_user_moves; [done|done|by apply Hop|].
  intros [] s' (Hs'&Hi&_&m0&m'&_&Hm'&_). apply HQ; [done|by eexists|].
  apply set_eq. intros k. rewrite !elem_of_dom. destruct (decide (k = u)) as [->|Hk].
  - by rewrite Hm, Hm'.
  - by rewrite (isolates_lookup u s s').
Qed.

Lemma wp_ResumeTasksFromDb stored s :
  dm_ok s → restorable_store stored → wp (ResumeTasksFromDb stored) (λ _, dm_ok) s.
Proof.
  intros Hs Hst. unfold ResumeTasksFromDb.
  apply (wp_for_each (λ rest s', restorable_store rest ∧ dm_ok s')); [done| |by intros s' [_ ?]].
  intros [u [ui infos]] rest s1 [[[Hui Hinfos] Hrest]%Forall_cons Hs1]. simpl in *.
  assert (Hgo : ∀ s2, dm_ok s2 → is_Some (managers s2 !! u) →
    wp (on_user u (SetUserInfo (Some ui)) ;;
        on_user u (ResumeFromDb infos (mkContextField EmptyString u EmptyString)))
      (λ _ s', restorable_store rest ∧ dm_ok s') s2).
  { intros s2 Hs2 Hu2. wp_step. apply wp_on_user_ok; [done..| |].
    { intros x (?&?&?&_) _. apply wp_modify. split_and!; try done. split_and!; try done.
      by intros ? [= <-]. }
    intros s3 Hs3 Hu3 _. apply wp_on_user_ok; [done..| |done].
    intros x Hx Hid. eapply wp_mono; [apply ResumeFromDb_extends; [done|]|].
    - eapply Forall_impl; [done|]. intros oi Hoi i Hi. unfold restorable. rewrite Hid. auto.
    - by intros _ x' (?&(?&?&_)&_). }
  wp_step. apply wp_FindUser; [done| |].
  - intros s2 (?&_&_&?&?&_&?&_). wp_step. apply wp_ret, Hgo; [done|by eexists].
  - intros _. wp_step. apply wp_AddUser; [done|]. intros s2 m ? _ _ ? _. apply Hgo; [done|by eexists].
Qed.

Lemma wp_DownloadManager_Reset s :
  dm_ok s → wp DownloadManager_Reset (λ _ s', dm_ok s' ∧ managers s' = ∅ ∧
    d_user_thread_list (ds_m s') = 0%nat ∧ last (w_db (ds_w s')) = Some ClearTableData) s.
Proof.
  intros Hs. unfold DownloadManager_Reset, users. wp_step. apply wp_gets. wp_step.
  apply (wp_for_each (λ rest s', dm_ok s' ∧ ∀ u, u ∈ rest → is_Some (managers s' !! u))).
  - split; [done|]. intros u. apply elem_of_map_keys.
  - intros u rest s1 [Hs1 Hl]. apply wp_on_user_ok; [done|apply Hl; set_solver| |].
    + intros x Hx _. eapply wp_mono; [by apply Reset_empties|]. by intros _ x' ((?&(?&?&_)&_)&_).
    + intros s2 Hs2 _ Hd. split; [done|]. intros k Hk. apply elem_of_dom. rewrite Hd.
      apply elem_of_dom, Hl. set_solver.
  - intros s1 [(Hc&_) _]. wp_step. apply wp_modify. wp_step. apply wp_ds_world, wp_modify.
    wp_step. apply wp_ds_world, wp_env_call. intros d e. wp_step.
    apply wp_ds_world, wp_env_call. intros b e'. apply wp_ret. simpl.
    split_and!; try done; [split_and!; simpl; [done|lia|by intros ? ?]|by rewrite last_snoc].
Qed.

(** The events that can happen: requests must be admissible, stored rows
    restorable, only a magnet's metadata can complete, a torrent is reported
    added while its task is listed, a posted restart runs before its task is
    destroyed, and the seeding limit must not overflow when converted to
    seconds. *)
Definition valid_event (ev : Event) s : Prop :=
  match ev with
  | EvRequest r cf => admissible r cf
  | EvParsed u id _ => ∀ m t, managers s !! u = Some m → m_task_list m !! id = Some t →
      t_kind t = KMagnet
  | EvTorrentAdded u id => ∀ m, managers s !! u = Some m → is_Some (m_task_list m !! id)
  | EvPosted i => w_posts (ds_w s) !! i ≠ Some PostDangling
  | EvSystemSetting key value => cfg_ok (OnSubscribeCallbackResult key value (w_cfg (ds_w s))).1
  | EvRestoreDb stored => restorable_store stored
  | _ => True
  end.

Lemma served_ok r cf s s' : dm_ok s → served r cf s s' → dm_ok s'.
Proof.
  unfold served. intros Hs. destruct (managers s !! _); [by intros [? _]|].
  destruct (creates r); [by intros [? _]|]. by intros ->.
Qed.

Lemma wp_run_post i w : w_posts w !! i ≠ Some PostDangling → wp (run_post i) (λ _, world_step w) w.
Proof.
  intros Hi. unfold run_post. wp_step. apply wp_gets. destruct (w_posts w !! i) as [p|]; [|by apply wp_ret].
  wp_step. apply wp_modify. destruct p; [by apply wp_env_call|done|by apply wp_ret].
Qed.

Lemma wp_run_event `{!BaseLibLaws bl} ev s :
  dm_ok s → valid_event ev s → wp (run_event ev) (λ _, dm_ok) s.
Proof.
  intros Hs Hv. destruct ev as [r cf|cf|u|u id r|u id|u id text|i|u key v|key v|stored| |e]; simpl in *.
  - eapply wp_mono; [by apply wp_handle|]. intros ? s'. by eapply served_ok.
  - wp_step. eapply wp_mono; [by apply wp_DownloadManager_GetTaskInfoList|].
    intros a s' [? _]. by apply wp_ret.
  - eapply wp_mono; [apply (wp_on_existing _ _ uany); [done|]|by intros _ s' [? _]].
    intros m _ _ Hm. eapply wp_mono; [by apply TimerChcek_keeps|]. by intros _ x (?&(?&?&_)&_).
  - eapply wp_mono; [apply (wp_on_existing _ _ uany); [done|]|by intros _ s' [? _]].
    intros m Hl _ Hm. eapply wp_mono; [apply OnParseComplete_keeps; [done|]|].
    + intros t. by apply Hv.
    + by intros _ x (?&(?&?&_)&_).
  - eapply wp_mono; [apply (wp_on_existing _ _ uany); [done|]|by intros _ s' [? _]].
    intros m Hl _ Hm. eapply wp_mono; [apply on_task_keeps; [done|by apply Hv|auto with pres]|].
    by intros _ x (?&(?&?&_)&_).
  - eapply wp_mono; [apply (wp_on_existing _ _ uany); [done|]|by intros _ s' [? _]].
    intros m _ _ Hm. unfold safe_op. wp_step. apply wp_FindTask. case_bool_decide as Hf.
    + eapply wp_mono; [apply on_task_keeps; [done|done|auto with pres]|].
      by intros _ x (?&(?&?&_)&_).
    + apply wp_ret. by split_and!.
  - apply wp_ds_world. eapply wp_mono; [by apply wp_run_post|]. intros u w Hw. by apply dm_ok_world.
  - eapply wp_mono; [apply (wp_on_existing _ _ uany); [done|]|by intros _ s' [? _]].
    intros m _ _ (?&?&?&Hok). apply wp_modify. split_and!; try done. split_and!; try done.
    simpl. intros ui. destruct (m_user_info m) as [ui0|] eqn:Hm; [|done]. intros [= <-].
    by apply user_ok_OnSubscribe, Hok.
  - apply wp_ds_world, wp_modify. destruct Hs as (_&Ht&Hall). split_and!; simpl; [done..|].
    intros u m Hm. destruct (Hall u m Hm) as ((_&?&?&?)&?&?). by split_and!.
  - by apply wp_ResumeTasksFromDb.
  - eapply wp_mono; [by apply wp_DownloadManager_Reset|]. by intros _ s' [? _].
  - by apply wp_ds_world, wp_modify, dm_ok_world.
Qed.

(** The states an arbitrary sequence of valid events leads to. *)
Inductive step : DS → DS → Prop :=
  | step_event ev s s' : valid_event ev s → run_event ev s = Some (tt, s') → step s s'.

Definition initial s : Prop :=
  ds_m s = mkManager ∅ 0 ∅ ∧ cfg_ok (w_cfg (ds_w s)).

Lemma initial_ok s : initial s → dm_ok s.
Proof. intros [Hm Hc]. unfold dm_ok. rewrite Hm. split_and!; [done|simpl; lia|by intros ? ?]. Qed.

Lemma reachable_ok `{!BaseLibLaws bl} s s' : dm_ok s → rtc step s s' → dm_ok s'.
Proof.
  intros Hs Hr. induction Hr as [|s s1 s2 [ev ? ? Hv Hrun] _ IH]; [done|]. apply IH.
  pose proof (wp_run_event ev _ Hs Hv) as H. unfold wp in H. by rewrite Hrun in H.
Qed.
End Server.
