(* ===== verification/RefEnv.v ===== *)
(** * A reference environment

    A concrete [Env] whose engines accept every command, whose file system has
    every directory and no other file, and whose clock counts: it satisfies
    [EnvLaws], so the theorems stated for every lawful environment apply to it,
    and closed executions of the server can be evaluated.  [re_stuck] makes the
    engines refuse to pause and to parse links; [re_files] holds what was
    uploaded, each path naming a file of its own. *)

From S2P Require Import Prelude CppBase BaseRef PathUnit DownloadTypes ErrorDesc TaskInfo.
From S2P Require Import InfoStore SystemConfig ServerWorld TaskRefCount TaskObj TaskSpec.
From S2P Require Import TaskFactory UserInfo UserSelfMgr UserSelfMgrSpec UserSelfMgrOps.
From S2P Require Import UserSelfMgrCreate DownloadMgr DownloadMgrSpec.
#[local] Open Scope prog_scope.

Record RefState := mkRef { re_next : N; re_clock : Z; re_stuck : bool; re_files : gmap string string }.

Definition fresh_handle (e : RefState) : option Handle * RefState :=
  (Some (re_next e), mkRef (re_next e + 1) (re_clock e) (re_stuck e) (re_files e)).
Definition tick_clock (e : RefState) : Z * RefState :=
  (re_clock e, mkRef (re_next e) (re_clock e + 1) (re_stuck e) (re_files e)).
Definition same {A B} (b : B) (e : A) : B * A := (b, e).

#[global] Instance ref_env : Env := {|
  env := RefState;
  i_Start _ := same 0;
  i_Pause _ e := (negb (re_stuck e), e);
  i_Resume _ _ := same true;
  i_Cancel _ _ := same true;
  i_GetProgressInfo _ d := same d;
  i_Valid _ _ := same true;
  i_GetTaskHash h := same (Some (pretty h));
  c_SetParam _ _ := same tt;
  c_ParseLink _ _ e :=
    ((if re_stuck e then DownloadErrorCode.kParseCurlUrlFailed else 0,
      mkFileBaseInfo "file.iso" 4096), e);
  c_ResumeBreakPoint _ := same true;
  c_SetMaxDownloadSpeed _ _ := same tt;
  c_Reset _ := same tt;
  c_TryReStart _ := same tt;
  m_SetParam _ _ := same tt;
  m_ParseLink _ _ := same (true, mkFileBaseInfo "file.iso" 4096);
  m_CheckCondition _ _ := same 0;
  b_SetParam _ _ := same tt;
  b_SetTorrentAddedCallback _ := same tt;
  b_GetTorrentFileBaseInfo _ := same (mkFileBaseInfo "bundle" 4096);
  b_CheckCondition _ _ := same 0;
  b_IsValid _ _ := same true;
  b_GetSeedingInfo _ := same None;
  b_GetTorrentList _ := same (Some "[]");
  b_GetTorrentShareRatio _ := same 0;
  b_GetSeedingTime _ := same 0;
  b_GetUploadRate _ := same 0;
  b_IsChecking _ := same false;
  b_IsDownloading _ := same true;
  t_CreateMagnetUri _ := same None;
  g_SetParseCallback _ := same tt;
  IsLoadedNetMule _ := true;
  IsLoadedNetBt _ := true;
  IsLoadedNetCurl _ := true;
  CreateCurlDownloadTask := fresh_handle;
  CreateMuleDownloadTask := fresh_handle;
  CreateTorrentFileDownloadTask := fresh_handle;
  CreateMagnetDownloadTask := fresh_handle;
  ReleaseTask _ := same tt;
  PathExists _ _ := false;
  DirectoryExists _ _ := true;
  CreateDirectory _ := same true;
  base_DeleteFile _ := same true;
  DeletePathRecursively _ := same true;
  base_CopyFile _ _ := same true;
  GetFileSize _ _ := 4096;
  OpenForWrite _ := same true;
  GenerateRandomV4 := same "0b8f6a2e-7c1d-4f0e-9a55-3d2c1b0a9f8e";
  TimeNow := tick_clock;
  GetTorrentFileSavePath := same "/var/nas/torrents";
  GetUserSourceDataDir u := same ("/data/" +:+ u);
  RandInt a _ := same a;
  ProtectedPaths := ["/etc"; "/data/system"]
|}.

#[global] Instance ref_env_laws : EnvLaws ref_env.
Proof.
  split.
  - intros [] e _; simpl; by eexists.
  - by intros [] e.
  - intros e e'. apply Nat.leb_le. vm_compute. reflexivity.
  - intros a b e H. simpl. lia.
Qed.

(** ** A running server *)
Definition demo_world (stuck : bool) : World :=
  mkWorld (mkRef 1 1000 stuck ∅) ∅ [] [] [] SystemCloudConfig_init.
Definition demo_cf : ContextField := mkContextField "token" "alice" "op-1".
Definition demo_user (limit : Z) : UserInfo := set_ui_task_limit_count limit (UserInfo_new "alice").

(** [alice]'s manager with no task. *)
Definition demo_start (limit : Z) (stuck : bool) : US :=
  mkUS (mkMgr "alice" ∅ (Some (demo_user limit)) true 0) (demo_world stuck).

Definition demo_source (id url : string) : SourceData :=
  mkSourceData id url "/data/alice/download" "file.iso" "4096".
Definition demo_sources : list SourceData :=
  [demo_source "t1" "http://host/a"; demo_source "t2" "http://host/b";
   demo_source "t3" "http://host/c"].

(** The state an operation leads to. *)
Definition after {S A} (m : ST S A) (s : S) : S := match m s with Some (_, s') => s' | None => s end.

Lemma after_wp {S A} (m : ST S A) (Q : S → Prop) s : wp m (λ _ s', Q s') s → Q (after m s).
Proof. unfold wp, after. by destruct (m s) as [[a s']|]. Qed.

(** Three downloads accepted under a limit of two: two run, one waits. *)
Definition demo (stuck : bool) : US :=
  after (CreateLinkTask demo_sources demo_cf) (demo_start 2 stuck).

Lemma demo_start_ok limit stuck :
  1 <= limit <= int32_max → mok (demo_start limit stuck).
Proof. intros H. split_and!; [done|by intros ? ?|done|]. by intros u [= <-]. Qed.

Lemma new_param_plain p :
  (may_be_bt (p_url p) || may_be_bt (utils_IsValid (p_url p)).2 || p_is_from_db_resume p) = false →
  new_param p.
Proof. rewrite orb_false_iff. intros [Hu Hd]. split; [done|]. by rewrite Hu. Qed.

Lemma demo_params_ok : Forall (λ p, new_param p ∧ p_id p ≠ "alice") (link_param <$> demo_sources).
Proof. repeat apply Forall_cons_2; try apply Forall_nil_2; split; first [by intros [=] | apply new_param_plain; vm_compute; reflexivity]. Qed.

Lemma demo_ok stuck : mok (demo stuck).
Proof.
  unfold demo. apply after_wp. eapply wp_mono; [apply CreateLinkTask_grows|].
  - apply demo_start_ok. unfold int32_max. lia.
  - split; [done|]. apply demo_params_ok.
  - by intros ? s' (? & _).
Qed.

(** What the run produced. *)
Definition statuses (s : US) : list (string * TaskStatus) :=
  (λ kt, (kt.1, status_of kt.2)) <$> map_to_list (tasks s).

Example demo_statuses :
  statuses (demo false) ≡ₚ [("t1", TaskStatus.kDownloading); ("t2", TaskStatus.kDownloading);
                            ("t3", TaskStatus.kWaitting)].
Proof. vm_compute. solve_Permutation. Qed.
