(* ===== verification/ServerClaims.v ===== *)
(** * The server as a whole: claims

    Safety of every reachable state, the contract of each request, the download
    limit across requests, reset and restart; each with a run of the reference
    server at which it applies. *)

From S2P Require Import Prelude CppBase BaseRef PathUnit DownloadTypes ErrorDesc TaskInfo.
From S2P Require Import InfoStore SystemConfig ServerWorld TaskRefCount TaskObj TaskSpec.
From S2P Require Import TaskFactory UserInfo UserSelfMgr UserSelfMgrSpec UserSelfMgrOps.
From S2P Require Import UserSelfMgrCreate DownloadMgr DownloadMgrSpec RefEnv.
#[local] Open Scope prog_scope.

(** ** A run of the reference server *)
Definition ds0 (stuck : bool) : DS := mkDS (mkManager ∅ 0 ∅) (demo_world stuck).

Definition ev_create : Event := EvRequest (RCreateLink demo_sources) demo_cf.
Definition ev_limit (limit : string) : Event := EvUserSetting "alice" "u/task_limit_count" limit.

Fixpoint run_events (evs : list Event) (s : DS) : DS :=
  match evs with [] => s | ev :: evs => run_events evs (after (run_event ev) s) end.

(** After a first request and a settings change. *)
Definition demo_server : DS := run_events [ev_create; ev_limit "2"] (ds0 false).

Lemma ds0_initial stuck : initial (ds0 stuck).
Proof. done. Qed.

Lemma plain_admissible sources cf :
  forallb (λ d, negb (may_be_bt (sd_source d)) && negb (may_be_bt (utils_IsValid (sd_source d)).2) &&
    negb (bool_decide (sd_task_id d = cf_user_id cf))) sources = true →
  admissible (RCreateLink sources) cf.
Proof.
  intros H. unfold admissible. simpl. apply Forall_fmap, Forall_forall. intros d Hd.
  rewrite forallb_forall in H. specialize (H d). rewrite <-list_elem_of_In in H.
  specialize (H Hd). rewrite !andb_true_iff, !negb_true_iff, bool_decide_eq_false in H.
  destruct H as [[H1 H2] H3]. split; [|done]. apply new_param_plain. simpl. by rewrite H1, H2.
Qed.

(** Running a list of valid events that are all defined is reachability. *)
Definition defined {S A} (m : ST S A) (s : S) : bool :=
  match m s with Some _ => true | None => false end.
Fixpoint valid_run (evs : list Event) (s : DS) : Prop :=
  match evs with
  | [] => True
  | ev :: evs => valid_event ev s ∧ defined (run_event ev) s = true ∧
                 valid_run evs (after (run_event ev) s)
  end.

Lemma valid_run_reachable evs s : valid_run evs s → rtc step s (run_events evs s).
Proof.
  revert s. induction evs as [|ev evs IH]; intros s; [done|]. simpl. intros (Hv & Hd & Hr).
  eapply rtc_l; [|by apply IH]. apply (step_event ev); [done|]. revert Hd. unfold defined, after.
  by destruct (run_event ev s) as [[[] s']|].
Qed.

Lemma demo_reachable : rtc step (ds0 false) demo_server.
Proof.
  apply valid_run_reachable. cbn [valid_run]. split; [exact demo_params_ok|].
  repeat (split; [first [exact I | vm_compute; reflexivity]|]). exact I.
Qed.

Section Claims.
  Context `{E : Env} `{bl : BaseLib} `{ss : StdSort} {sl : StdSortLaws ss} {laws : EnvLaws E}.
  Context {bll : BaseLibLaws bl}.
  Implicit Types s : DS.

(** C1. The server stays defined under every sequence of valid events: from the
    initial state, after any such sequence of client requests, timer ticks,
    engine callbacks, closures that tasks posted, settings changes, restores,
    resets and changes made by the engines, the server's invariant holds and
    every further valid event runs to completion and re-establishes it.  Valid
    excludes what the code does not survive: a link request for a BitTorrent
    source ([magnet_link_request_undefined]), a task named like its user, stored
    rows that cannot be restored, the completion of a parse that is not a
    magnet's, a torrent reported added after its task was removed, a restart
    posted by a task that was destroyed before it ran ([posted_restart_dangles]),
    and a seeding limit that overflows. *)
Theorem server_safe s s' :
  initial s → rtc step s s' →
  dm_ok s' ∧ ∀ ev, valid_event ev s' → ∃ s'', run_event ev s' = Some (tt, s'') ∧ dm_ok s''.
Proof.
  intros Hi Hr. assert (Hs' : dm_ok s') by (by eapply reachable_ok; [apply initial_ok|]).
  split; [done|]. intros ev Hv. destruct (wp_run _ _ _ (wp_run_event ev s' Hs' Hv)) as ([]&s''&?&?).
  by exists s''.
Qed.

(** C2. Refinement of each request's contract: a request of a known user moves
    only that user's manager, along the contract of its kind (creation only
    adds tasks, pausing never adds downloads, resuming and retrying respect the
    limit, deletion only removes); from an unknown user a creating request adds
    the user within its limit and any other request changes nothing. *)
Theorem request_meets_contract r cf s :
  dm_ok s → admissible r cf → wp (handle r cf) (λ _ s', served r cf s s') s.
Proof. intros Hs Had. by apply wp_handle. Qed.

(** A closure that a task posted is undefined exactly when the task was
    destroyed before it ran. *)
Theorem posted_undefined_iff i w : run_post i w = None ↔ w_posts w !! i = Some PostDangling.
Proof.
  unfold run_post, bind, gets, modify, env_call, ret, crash. destruct (w_posts w !! i) as [[h| |id]|]; [|done..].
  cbn. by destruct (c_TryReStart h _).
Qed.

Definition restores (r : Request) : bool :=
  match r with RRestore _ | RRestoreAll => true | _ => false end.

(** C4. The limit on simultaneous downloads across requests: except for the two
    restoring requests, no request leaves a user with more running downloads
    than the larger of what was already running and the user's limit. *)
Theorem request_respects_limit r cf s m :
  dm_ok s → admissible r cf → restores r = false → managers s !! cf_user_id cf = Some m →
  wp (handle r cf) (λ _ s', ∃ m', managers s' !! cf_user_id cf = Some m' ∧
    task_limit m' = task_limit m ∧
    downloading_num (m_task_list m') <= Z.max (downloading_num (m_task_list m)) (task_limit m)) s.
Proof.
  intros Hs Had Hr Hm. eapply wp_mono; [by apply wp_handle|]. cbn beta. intros _ s'.
  unfold served. rewrite Hm. intros (_&_&_&m0&m'&Hm0&Hm'&Heff). simplify_eq. exists m'.
  split; [done|].
  assert (admits (user_state s m) (user_state s' m')) as [? ?]; [|done].
  destruct r; try done; simpl in Heff.
  1,2: by destruct Heff as (_&_&?&_).
  all: try by destruct Heff as (_&_&_&?).
  all: destruct Heff as (_&(_&_&Hl&_)&H1&H2); (split; [done|]); unfold sheds in *; lia.
Qed.

(** Threads: in every reachable state at most twenty user threads exist and
    every user's manager runs on one of them, also when users share threads. *)
Theorem threads_bounded s s' u m :
  initial s → rtc step s s' → managers s' !! u = Some m →
  (d_user_thread_list (ds_m s') ≤ 20)%nat ∧ m_user_id m = u ∧
  ∃ n, d_task_runner (ds_m s') !! u = Some n ∧ (n < d_user_thread_list (ds_m s'))%nat.
Proof.
  intros Hi Hr Hm. assert (dm_ok s') as (_&Ht&Hall) by (by eapply reachable_ok; [apply initial_ok|]).
  destruct (Hall u m Hm) as (_&?&?). by split_and!.
Qed.

(** A reset leaves no user and no thread, and posts the clearing of the
    database after everything posted before. *)
Theorem reset_forgets_everything s :
  dm_ok s → wp DownloadManager_Reset (λ _ s', managers s' = ∅ ∧
    d_user_thread_list (ds_m s') = 0%nat ∧ last (w_db (ds_w s')) = Some ClearTableData ∧ dm_ok s') s.
Proof.
  intros Hs. eapply wp_mono; [by apply wp_DownloadManager_Reset|]. intros _ s' (?&?&?&?).
  by split_and!.
Qed.
End Claims.

Lemma server_safe_witness :
  rtc step (ds0 false) demo_server ∧
  ∃ s'', run_event (EvTick "alice") demo_server = Some (tt, s'') ∧ dm_ok s''.
Proof.
  split; [exact demo_reachable|].
  destruct (server_safe (ds0 false) demo_server (ds0_initial false) demo_reachable) as [_ H].
  apply H. exact I.
Defined.

Lemma demo_server_ok : dm_ok demo_server.
Proof. eapply reachable_ok; [apply initial_ok, ds0_initial|apply demo_reachable]. Qed.

Lemma demo_alice : is_Some (managers demo_server !! "alice").
Proof. vm_compute. by eexists. Qed.

Definition demo_pause : Request := RPause ["t1"; "absent"].

Lemma request_meets_contract_witness :
  wp (handle demo_pause demo_cf) (λ _ s', served demo_pause demo_cf demo_server s') demo_server.
Proof. apply request_meets_contract; [exact demo_server_ok|constructor]. Defined.

Lemma request_respects_limit_witness :
  ∃ m, managers demo_server !! "alice" = Some m ∧ task_limit m = 2 ∧
    wp (handle RResumeAll demo_cf) (λ _ s', ∃ m', managers s' !! "alice" = Some m' ∧
      task_limit m' = task_limit m ∧ downloading_num (m_task_list m') <=
        Z.max (downloading_num (m_task_list m)) (task_limit m)) demo_server.
Proof.
  destruct (managers demo_server !! "alice") as [m|] eqn:Hm; [|by vm_compute in Hm].
  exists m. split; [reflexivity|]. split.
  - vm_compute in Hm. injection Hm as <-. reflexivity.
  - apply (request_respects_limit RResumeAll demo_cf demo_server m);
      [exact demo_server_ok|constructor|reflexivity|exact Hm].
Defined.

Lemma threads_bounded_witness :
  ∃ m, managers demo_server !! "alice" = Some m ∧
    (d_user_thread_list (ds_m demo_server) ≤ 20)%nat ∧ m_user_id m = "alice".
Proof.
  destruct (managers demo_server !! "alice") as [m|] eqn:Hm; [|by vm_compute in Hm].
  exists m. destruct (threads_bounded _ _ "alice" m (ds0_initial false) demo_reachable Hm)
    as (Hn & Hid & _). auto.
Defined.

Lemma reset_forgets_everything_witness :
  wp DownloadManager_Reset (λ _ s', managers s' = ∅ ∧
    d_user_thread_list (ds_m s') = 0%nat ∧ last (w_db (ds_w s')) = Some ClearTableData ∧ dm_ok s') demo_server.
Proof. apply reset_forgets_everything. exact demo_server_ok. Defined.

(** ** The limit and restored tasks *)
Definition unsized (id url : string) : SourceData :=
  mkSourceData id url "/data/alice/download" "file.iso" "0".
Definition exceeding : list Event :=
  [EvRequest (RCreateLink [demo_source "t1" "http://host/a"]) demo_cf; ev_limit "1";
   EvRequest (RCreateLink [unsized "t2" "http://host/b"]) demo_cf;
   EvRequest (RDelete ["t2"] false) demo_cf; EvRequest (RRestore ["t2"]) demo_cf].

Lemma exceeding_reachable : rtc step (ds0 true) (run_events exceeding (ds0 true)).
Proof.
  apply valid_run_reachable. unfold exceeding. cbn [valid_run].
  repeat (split; [first [exact I | apply Forall_nil_2 | by apply plain_admissible; vm_compute |
    vm_compute; reflexivity]|]). exact I.
Qed.

(** The restoring requests are really the exception: restoring a task that
    had failed before it was deleted resumes it without consulting the limit.
    In a reachable state a user whose limit is one has two running downloads. *)
Theorem restore_can_exceed_limit :
  ∃ s m, rtc step (ds0 true) s ∧ managers s !! "alice" = Some m ∧
    task_limit m = 1 ∧ downloading_num (m_task_list m) = 2.
Proof.
  exists (run_events exceeding (ds0 true)).
  destruct (managers (run_events exceeding (ds0 true)) !! "alice") as [m|] eqn:Hm;
    [|by vm_compute in Hm].
  exists m. split; [apply exceeding_reachable|]. vm_compute in Hm. injection Hm as <-.
  split_and!; vm_compute; reflexivity.
Qed.

(** A magnet sent through the link request is undefined behaviour: the link
    request allocates a plain parameter, which the BitTorrent task uses as a
    torrent parameter.  (This is why [admissible] excludes it.) *)
Theorem magnet_link_request_undefined :
  handle (RCreateLink [demo_source "m1" "magnet:?xt=urn:btih:c9e15763f722f23e98a29decdfae341b98d53056"])
    demo_cf demo_server = None.
Proof. vm_compute. reflexivity. Qed.

(** A download is resumed, which posts its restart to the user's thread, while
    the requests that delete it wait there already: the restart runs on a task
    that is gone.  (This is why [valid_event] excludes it.) *)
Definition resumed : list Event :=
  [EvRequest (RCreateLink [demo_source "t1" "http://host/a"]) demo_cf;
   EvRequest (RPause ["t1"]) demo_cf; EvRequest (RResume ["t1"]) demo_cf].
Definition resumed_deleted : list Event :=
  resumed ++ replicate 2 (EvRequest (RDelete ["t1"] false) demo_cf).
Example posted_restart_dangles :
  rtc step (ds0 false) (run_events resumed_deleted (ds0 false)) ∧
  is_Some (run_event (EvPosted 0) (run_events resumed (ds0 false))) ∧
  run_event (EvPosted 0) (run_events resumed_deleted (ds0 false)) = None.
Proof.
  split; [|split; [by vm_compute; eexists|vm_compute; reflexivity]].
  apply valid_run_reachable. unfold resumed_deleted, resumed. cbn [valid_run app replicate].
  repeat (split; [first [exact I | apply Forall_nil_2 | by apply plain_admissible; vm_compute |
    vm_compute; reflexivity]|]). exact I.
Qed.

(** ** Restart *)

(** What makes the stored row of a task restorable. *)
Definition storable `{bl : BaseLib} (user_id : string) (i : TaskInfo) : Prop :=
  let param := ti_param i in
  let is_bt := bool_decide (p_type param = DownloadType.kMagnet) ||
               bool_decide (p_type param = DownloadType.kTorrent) in
  p_id param ≠ user_id ∧ may_be_bt (p_url param) = is_bt ∧
  (is_bt = true → (String.length (p_id param) ≤ kIdLength)%nat ∧
     (String.length (p_url param) ≤ kUrlLength)%nat ∧
     (String.length (p_save_path param) ≤ kMaxPath)%nat ∧
     (String.length (fa_file_name (bi_task_attribute (ti_base i))) ≤ kMaxPath)%nat).

(** Restart: the row written for a storable task reads back as a task the
    manager can restore, with the same id, source and status; so running
    [ResumeTasksFromDb] on what the store returns is safe. *)
Theorem stored_task_restorable `{bl : BaseLib} user_id i r :
  storable user_id i → AddTaskInfo_row i = Some r →
  ∃ i', task_info_of_row r = Some i' ∧ restorable_for user_id i' ∧
    p_id (ti_param i') = p_id (ti_param i) ∧ p_url (ti_param i') = p_url (ti_param i) ∧
    ti_status i' = ti_status i.
Proof.
  intros (Hid & Hbt & Hlen) H. unfold AddTaskInfo_row in H.
  destruct (d_to_int64 (pi_total_progress _)) as [total|]; [|done].
  destruct (d_to_int64 (pi_download_speed _)) as [down|]; [|done].
  destruct (d_to_int64 (pi_upload_speed _)) as [up|]; [|done].
  simpl in H. injection H as <-. unfold task_info_of_row. simpl.
  rewrite DownloadType_of_Z_value, TaskStatus_of_Z_value. simpl.
  eexists. split; [done|]. split; [|done]. split_and!; [|done| |done].
  - unfold category_ok. simpl. by destruct (ti_status i).
  - intros Hmb. change (may_be_bt (p_url (ti_param i)) = true) in Hmb. rewrite Hbt in Hmb.
    rewrite Hmb. simpl.
    destruct (Hlen Hmb) as (?&?&?&?). by split_and!.
Qed.

Lemma stored_task_restorable_witness :
  let i := TaskInfo_new (link_param (demo_source "t1" "http://host/a")) in
  ∃ r i', AddTaskInfo_row i = Some r ∧ task_info_of_row r = Some i' ∧ restorable_for "alice" i'.
Proof.
  intros i. destruct (AddTaskInfo_row i) as [r|] eqn:Hr; [|by vm_compute in Hr].
  destruct (stored_task_restorable "alice" i r) as (i' & Hi' & Hres & _); [|exact Hr|].
  - split; [discriminate|]. split; [vm_compute; reflexivity|]. intros H. vm_compute in H. discriminate.
  - exists r, i'. auto.
Defined.
