(* ===== verification/MgrClaims.v ===== *)
(** * One user's manager: claims

    The download limit, creation, deletion, control requests, the order of the
    queue and the messages, each with a run of the reference environment at
    which it applies. *)

From S2P Require Import Prelude CppBase BaseRef PathUnit DownloadTypes ErrorDesc TaskInfo.
From S2P Require Import InfoStore SystemConfig ServerWorld TaskRefCount TaskObj TaskSpec.
From S2P Require Import TaskFactory UserInfo UserSelfMgr UserSelfMgrSpec UserSelfMgrOps.
From S2P Require Import UserSelfMgrCreate DownloadMgr DownloadMgrSpec RefEnv.
#[local] Open Scope prog_scope.

(** ** The periodic limit check *)
Section Limit.
  Context `{E : Env} `{bl : BaseLib} `{ss : StdSort} {sl : StdSortLaws ss}.
  Implicit Types s : US.

(** C3. After the periodic check has enforced the limit, no more tasks are
    downloading than the user's limit allows, whatever the engines answered and
    whatever the statuses were before; no task is lost and the check runs
    without undefined behaviour. *)
Theorem CheckTaskCountLimit_enforces (s : US) (q : list string) :
  mok s → q ≡ₚ map_keys (tasks s) →
  wp (CheckTaskCountLimit q) (λ _ s', keeps_tasks uany s s' ∧
    downloading_num (tasks s') <= task_limit (us_m s')) s.
Proof.
  intros Hs Hq. apply wp_CheckTaskCountLimit; [done..|]. intros b s' Hm Hu Hd Hn.
  split; [by split_and!|]. destruct Hu as (_&_&Hl&_). by rewrite Hl.
Qed.

(** The check does not leave a slot unused: a never started link task. *)
Definition unstarted_link (t : Task) : Prop := is_link (t_kind t) = true ∧ started t = false.

(** The loop invariant: the limit is reached, or no visited unstarted link task
    waits; and the visited downloads reach the count up to the limit. *)
Definition busy_inv (s : US) (acc : Z * bool) (rest : list string) (s' : US) : Prop :=
  mok s' ∧ uext s s' ∧ same_dom s s' ∧ NoDup rest ∧
  (∀ x, x ∈ rest → is_Some (tasks s' !! x) ∧ tasks s' !! x = tasks s !! x) ∧ 0 <= acc.1 ∧
  Z.min acc.1 (task_limit (us_m s)) <= visited_num rest (tasks s') ∧
  (task_limit (us_m s) <= downloading_num (tasks s') ∨
   ∀ id t t', id ∉ rest → tasks s !! id = Some t → unstarted_link t →
     tasks s' !! id = Some t' → status_of t' ≠ TaskStatus.kWaitting).

Lemma visited_num_le rest l : visited_num rest l <= downloading_num l.
Proof.
  unfold visited_num, downloading_num. apply inj_le, map_subseteq_size, map_subseteq_spec.
  intros k t. rewrite !map_lookup_filter_Some. naive_solver.
Qed.

Lemma visited_num_only id rest s s' :
  only id s s' → visited_num (id :: rest) (tasks s') = visited_num (id :: rest) (tasks s).
Proof.
  intros Ho. unfold visited_num. f_equal. apply map_eq. intros k. apply option_eq. intros t.
  rewrite !map_lookup_filter_Some. simpl. destruct (decide (k = id)) as [->|Hk]; [set_solver|].
  by rewrite (only_lookup id s s').
Qed.

(** What one turn leaves to the next. *)
Lemma busy_inv_step s acc id rest s' t c b s'' t'' :
  busy_inv s acc (id :: rest) s' → tasks s' !! id = Some t → mok s'' → uext s' s'' →
  same_dom s' s'' → only id s' s'' → tasks s'' !! id = Some t'' → 0 <= c →
  Z.min c (task_limit (us_m s)) <=
    Z.b2z (is_downloading t'') + visited_num (id :: rest) (tasks s') →
  (task_limit (us_m s) <= downloading_num (tasks s'') ∨
   downloading_num (tasks s') < task_limit (us_m s) ∧
     (unstarted_link t → status_of t'' ≠ TaskStatus.kWaitting)) →
  busy_inv s (c, b) rest s''.
Proof.
  intros (H1&H2&H3&H4&H5&H6&H7&H8) Ht Hm Hu Hd Ho Ht'' Hc Hv Hw.
  pose proof H4 as [Hid Hnd]%NoDup_cons. destruct (H5 id) as [_ Hsame]; [set_solver|].
  split_and!; [done|by etrans|by etrans|done| |done| |].
  - intros x Hx. rewrite (only_lookup id s' s'') by (done || set_solver). apply H5. set_solver.
  - rewrite (visited_num_cons id rest t''), (visited_num_only id rest s' s'') by done. done.
  - destruct Hw as [Hw|[Hlt Hw]]; [by left|right]. destruct H8 as [H8|H8]; [lia|].
    intros k x x' Hk Hx Hun Hx'. destruct (decide (k = id)) as [->|Hne].
    + assert (x = t) as -> by congruence. assert (x' = t'') as -> by congruence. by apply Hw.
    + rewrite (only_lookup id s' s'') in Hx' by done. eapply H8; [|done..]. set_solver.
Qed.

Lemma busy_step_downloading s acc id rest s' t :
  busy_inv s acc (id :: rest) s' → tasks s' !! id = Some t → is_downloading t = true →
  wp (if task_limit (us_m s) <? acc.1 + 1 then
        on_task id TaskObj.Pause ;; on_task id (SetTaskStatus TaskStatus.kWaitting) ;;
        ret (acc.1 + 1, true)
      else ret (acc.1 + 1, acc.2))
    (λ acc' s'', busy_inv s acc' rest s'') s'.
Proof.
  intros HI Ht Htd. pose proof HI as (H1&H2&H3&H4&H5&H6&H7&H8).
  pose proof H4 as [Hid _]%NoDup_cons.
  destruct (Z.ltb_spec (task_limit (us_m s)) (acc.1 + 1)).
  - apply wp_assoc. wp_step. apply wp_on_task_fuse.
    eapply wp_on_task_pres; [done..|apply pres_pause_and_wait|].
    intros _ t' w s'' _ _ Hst Hm'' Hu'' Hd''. apply wp_ret.
    assert (Ho : only id s' s'') by (unfold only; simpl; apply delete_insert_eq).
    assert (Htd' : is_downloading t' = false) by (rewrite is_downloading_status; simpl in Hst; by rewrite Hst).
    assert (Ht' : tasks s'' !! id = Some t') by apply lookup_insert_eq.
    eapply busy_inv_step; [done..|lia| |].
    + rewrite Htd'. simpl. lia.
    + left. pose proof (visited_num_le (id :: rest) (tasks s'')) as Hle.
      rewrite (visited_num_only id rest s' s'') in Hle by done. lia.
  - apply wp_ret. eapply busy_inv_step; [done|done|done|reflexivity|reflexivity|reflexivity|done|lia| |].
    + rewrite Htd. simpl. lia.
    + destruct (Z_le_gt_dec (task_limit (us_m s)) (downloading_num (tasks s'))); [by left|right].
      split; [lia|]. intros _. rewrite is_downloading_status, bool_decide_eq_true in Htd. by rewrite Htd.
Qed.

(** The body that starts or resumes a waiting task. *)
Definition start_waiting (id : string) (c : Z) : ST US (Z * bool) :=
  is_started ← on_task id IsStarted;
  err ← (if is_started : bool then on_task id TaskObj.Resume ;; ret DownloadErrorCode.kNormal
         else on_task id Start);
  when (negb (err =? DownloadErrorCode.kNormal))
    (on_task id (upd_info (Info.upd_progress (Progress.SetErrorCode err)))) ;;
  ret (c, true).

(** An unstarted link task is downloading afterwards, whatever the engine says. *)
Lemma wp_start_unstarted id c s t (Q : Z * bool → US → Prop) :
  mok s → tasks s !! id = Some t → unstarted_link t →
  (∀ s' t', mok s' → uext s s' → same_dom s s' → only id s s' → tasks s' !! id = Some t' →
     status_of t' = TaskStatus.kDownloading → Q (c, true) s') →
  wp (start_waiting id c) Q s.
Proof.
  intros Hs Ht [Hl Hst] HQ. unfold start_waiting. wp_step.
  pose proof Hs as (_&Hlist&_). destruct (Hlist id t Ht) as [(_&i&Hi&_) _].
  unfold started in Hst. rewrite Hi in Hst.
  eapply (wp_on_task_read _ _ _ _ t false); [done| |].
  { unfold IsStarted, info, task, bind, gets. simpl. rewrite Hi. simpl. by rewrite Hst. }
  wp_step. eapply wp_on_task; [done|]. unfold Start. wp_step. apply wp_task. simpl. rewrite Hl.
  apply wp_LinkTask_Start; [by eapply ok_of_listed|]. intros e [t1 w1] Hok1 He1 Hst1 _.
  pose proof He1 as (_&_&Hid1&_&Hw1). simpl in *.
  destruct (mok_put id t t1 w1 s) as (H1&Hu1&Hd1); [done|done|by apply Hok1|done|done|].
  fold (put id t1 w1 s). set (s1 := put id t1 w1 s) in *.
  assert (Ht1 : tasks s1 !! id = Some t1) by apply lookup_insert_eq.
  assert (Ho1 : only id s s1) by (unfold only; simpl; apply delete_insert_eq).
  unfold started in Hst1. rewrite Hi, Hst in Hst1. wp_step. unfold when.
  destruct (negb _).
  - eapply (wp_on_task_pres keeps_status); [done..|pres_auto|].
    intros [] t2 w2 s2 _ _ [Hst2 _] H2 Hu2 Hd2. apply wp_ret.
    eapply (HQ s2 t2); [done|by etrans|by etrans| |apply lookup_insert_eq|simpl in *; congruence].
    etrans; [done|]. unfold only. simpl. apply delete_insert_eq.
  - apply wp_ret, wp_ret. by eapply HQ.
Qed.

Lemma wp_start_waiting id c s (Q : Z * bool → US → Prop) :
  mok s → is_Some (tasks s !! id) →
  (∀ s', mok s' → uext s s' → same_dom s s' → only id s s' → Q (c, true) s') →
  wp (start_waiting id c) Q s.
Proof.
  intros Hs Hl HQ. unfold start_waiting. assert (Hid : id = id) by done.
  wp_step. apply (steady_use (eq id) (only id)); [done|by intros ? <-|steady_auto|].
  intros st s1 H1 Hu1 Hd1 Ho1. pose proof (same_dom_listed _ _ _ Hd1 Hl) as Hl1.
  wp_step. apply (steady_use (eq id) (only id)); [done|by intros ? <-|steady_auto|].
  intros e s2 H2 Hu2 Hd2 Ho2. pose proof (same_dom_listed _ _ _ Hd2 Hl1) as Hl2.
  wp_step. apply (steady_use (eq id) (only id)); [done|by intros ? <-|steady_auto|].
  intros _ s3 H3 Hu3 Hd3 Ho3. apply wp_ret, HQ; [done|by do 2 (etrans; [done|])..].
Qed.

Lemma busy_step_other s acc id rest s' t :
  busy_inv s acc (id :: rest) s' → tasks s' !! id = Some t → is_downloading t = false →
  wp (can_start ← (if bool_decide (status_of t = TaskStatus.kWaitting) then IsCanStart else ret false);
      if can_start : bool then start_waiting id acc.1 else ret acc)
    (λ acc' s'', busy_inv s acc' rest s'') s'.
Proof.
  intros HI Ht Htd. pose proof HI as (H1&H2&H3&H4&H5&H6&H7&H8). pose proof H2 as (_&_&Hlim&_).
  assert (Hskip : task_limit (us_m s) <= downloading_num (tasks s') ∨
    status_of t ≠ TaskStatus.kWaitting → busy_inv s acc rest s').
  { intros Hw. destruct acc as [c b]. eapply busy_inv_step;
      [done|done|done|reflexivity|reflexivity|reflexivity|done|done| |].
    - rewrite Htd. simpl in *. lia.
    - destruct (Z_le_gt_dec (task_limit (us_m s)) (downloading_num (tasks s'))); [by left|right].
      split; [lia|]. intros _. destruct Hw; [lia|done]. }
  wp_step. case_bool_decide as Hst; [|by apply wp_ret, wp_ret, Hskip; right].
  unfold IsCanStart, mgr. wp_step. apply wp_gets, wp_ret. rewrite Hlim.
  destruct (Z.leb_spec (task_limit (us_m s)) (downloading_num (tasks s'))); simpl.
  { apply wp_ret, Hskip. by left. }
  assert (Hdec : unstarted_link t ∨ ¬ unstarted_link t).
  { unfold unstarted_link. destruct (is_link (t_kind t)), (started t);
      first [by left | right; by intros []]. }
  destruct Hdec as [Hun|Hun].
  - eapply wp_start_unstarted; [done..|]. intros s2 t2 Hm2 Hu2 Hd2 Ho2 Ht2 Hst2.
    eapply busy_inv_step; [done..| |].
    + destruct (is_downloading t2); simpl; lia.
    + right. split; [done|]. intros _. by rewrite Hst2.
  - apply wp_start_waiting; [done|by eexists|]. intros s2 Hm2 Hu2 Hd2 Ho2.
    destruct (same_dom_listed s' s2 id Hd2) as [t2 Ht2]; [by eexists|].
    eapply busy_inv_step; [done..| |].
    + destruct (is_downloading t2); simpl; lia.
    + right. by split.
Qed.

(** C6. The periodic check is work-conserving and starves no one in favour of a
    free slot: if after the check a link task that was never started is still
    waiting, then the user's limit is exactly used up.  (Whatever the engines
    answer.) *)
Theorem CheckTaskCountLimit_work_conserving (s : US) (q : list string) :
  mok s → q ≡ₚ map_keys (tasks s) →
  wp (CheckTaskCountLimit q) (λ _ s', ∀ id t t', tasks s !! id = Some t → unstarted_link t →
    tasks s' !! id = Some t' → status_of t' = TaskStatus.kWaitting →
    downloading_num (tasks s') = task_limit (us_m s)) s.
Proof.
  intros Hs Hq. eapply wp_mono; [apply (wp_and _
    (λ _ s', downloading_num (tasks s') <= task_limit (us_m s))
    (λ _ s', ∃ acc, busy_inv s acc [] s'))|].
  - by apply wp_CheckTaskCountLimit.
  - unfold CheckTaskCountLimit, mgr. wp_step. apply wp_gets. wp_step.
    apply (wp_fold_each (busy_inv s)).
    + split_and!; try done.
      * by rewrite Hq; apply NoDup_map_keys.
      * intros x. by rewrite Hq, elem_of_map_keys.
      * simpl. rewrite visited_num_all by (intros k; by rewrite Hq, elem_of_map_keys). lia.
      * right. intros id t t' Hid Ht. destruct Hid. rewrite Hq, elem_of_map_keys. by eexists.
    + intros [c b] id rest s' HI. unfold CheckTaskCountLimit_step. wp_step.
      pose proof HI as (_&_&_&_&Hl&_). destruct (Hl id) as [[t Ht] _]; [set_solver|].
      eapply (wp_on_task_read _ _ _ _ t (status_of t)); [done..|].
      rewrite <-is_downloading_status. destruct (is_downloading t) eqn:Htd.
      * by apply (busy_step_downloading s (c, b) id rest s' t).
      * by apply (busy_step_other s (c, b) id rest s' t).
    + intros [c b] s' HI. apply wp_ret. by exists (c, b).
  - intros b s' [Hle (acc&_&_&_&_&_&_&_&[Hw|Hw])] id t t' Ht Hun Ht' Hst; [lia|].
    destruct (Hw id t t'); [set_solver|done..].
Qed.
End Limit.

Lemma CheckTaskCountLimit_enforces_witness :
  wp (CheckTaskCountLimit ["t3"; "t1"; "t2"]) (λ _ s', keeps_tasks uany (demo true) s' ∧
    downloading_num (tasks s') <= task_limit (us_m s')) (demo true).
Proof.
  apply CheckTaskCountLimit_enforces; [apply demo_ok|].
  replace (map_keys (tasks (demo true))) with ["t1"; "t2"; "t3"] by (vm_compute; reflexivity).
  solve_Permutation.
Defined.

Lemma CheckTaskCountLimit_work_conserving_witness :
  wp (CheckTaskCountLimit ["t3"; "t1"; "t2"]) (λ _ s', ∀ id t t',
    tasks (demo false) !! id = Some t → unstarted_link t → tasks s' !! id = Some t' →
    status_of t' = TaskStatus.kWaitting →
    downloading_num (tasks s') = task_limit (us_m (demo false))) (demo false).
Proof.
  apply CheckTaskCountLimit_work_conserving; [apply demo_ok|].
  replace (map_keys (tasks (demo false))) with ["t1"; "t2"; "t3"] by (vm_compute; reflexivity).
  solve_Permutation.
Defined.

(** ** Creation, deletion and control *)
Section Operations.
  Context `{E : Env} `{bl : BaseLib} `{ss : StdSort} {sl : StdSortLaws ss} {laws : EnvLaws E}.
  Implicit Types s : US.

(** C5. Creating a task is all or nothing: either exactly one task is listed,
    under the requested id, which was free, with the requester's context, and
    reported as a success; or the task list is untouched and exactly one
    failure is reported.  Either way the download limit is respected and every
    other part of the manager stays well formed. *)
Theorem ExecCreate_all_or_nothing p cf acc s :
  mok s → new_param p → p_id p ≠ m_user_id (us_m s) →
  wp (ExecCreate p cf acc) (λ acc' s', created p cf acc acc' s s') s.
Proof. intros. by apply wp_ExecCreate. Qed.

(** A creating request answers for every source exactly once: each source
    ends in the success list or in the failure list, and the tasks of the
    success list are exactly those to be parsed. *)
Theorem create_answers_every_source cf params s :
  mok s → servable cf params s →
  wp (fold_each params ([], no_lists) (λ acc p, ExecCreate p cf acc))
    (λ acc s', (length acc.2.1 + length acc.2.2 = length params)%nat ∧
       length acc.1 = length acc.2.1 ∧ NoDup acc.1 ∧
       Forall (λ id, is_Some (tasks s' !! id)) acc.1) s.
Proof.
  intros Hs Hp. eapply wp_mono; [by apply wp_create_all|].
  intros acc s' (_ & Hnd & Hr & Hlen & Hn). simpl in Hn. split_and!; [lia|done|done|].
  eapply Forall_impl; [done|]. intros id (t & Ht & _). by eexists.
Qed.

(** C7. Deleting one task, on every branch: an unknown id is an error and
    changes nothing; cleaning refuses a valid task; a task in the recycle bin
    is removed together with its database row, or stays listed with an error;
    any other task moves to the recycle bin (or keeps its status when the
    engine refuses to pause it).  No other task is touched and no download is
    added. *)
Theorem ExecDeleteOperate_spec id b judge l s :
  mok s →
  wp (ExecDeleteOperate id b judge l) (λ r s', mok s' ∧ sheds s s' ∧ deletion id judge r.1 s s') s.
Proof. intros Hs. apply wp_ExecDeleteOperate; [done|]. intros r s' ? _ ? ?. by split_and!. Qed.

(** Pausing, resuming, retrying or restoring a task never touches another
    task of the list, whatever the engine answers, and keeps every task. *)
Theorem control_touches_only_its_task id s op :
  op ∈ [ExecPauseOperate; ExecResumeOperate; ExecRetryOperate; ExecRestoreOperate] → mok s →
  wp (op id) (λ _ s', dom (tasks s') = dom (tasks s) ∧
    ∀ k, k ≠ id → tasks s' !! k = tasks s !! k) s.
Proof.
  intros Hop Hs.
  assert (Hst : steady (λ _, False) (only id) (op id)).
  { rewrite !elem_of_cons in Hop. destruct Hop as [->|[->|[->|[->|[]%elem_of_nil]]]].
    - apply steady_ExecPauseOperate_only.
    - apply steady_ExecResumeOperate_only.
    - apply steady_ExecRetryOperate_only.
    - apply steady_ExecRestoreOperate_only. }
  apply (steady_use _ _ _ _ _ Hs) with (2 := Hst); [done|]. intros _ s' _ _ Hd Ho.
  split; [done|]. intros k Hk. by eapply only_lookup.
Qed.

(** The outcome of pausing a task that was in status [old]. *)
Definition paused_to (old : TaskStatus) (err : Z) (new : TaskStatus) : Prop :=
  match old with
  | TaskStatus.kDownloading =>
      (err = DownloadErrorCode.kNormal ∧ new = TaskStatus.kPaused) ∨
      (err = DownloadErrorCode.kPauseTaskFailed ∧ new = old)
  | TaskStatus.kWaitting | TaskStatus.kParsing =>
      err = DownloadErrorCode.kNormal ∧ new = TaskStatus.kPaused
  | TaskStatus.kSeeding =>
      (err = DownloadErrorCode.kNormal ∧ new = TaskStatus.kFinished) ∨
      (err = DownloadErrorCode.kPauseTaskFailed ∧ new = old)
  | _ => err = DownloadErrorCode.kPauseTaskFailed ∧ new = old
  end.

Lemma wp_on_task_status {A} id (m : ST TS A) (P : A → TaskStatus → Prop) (Q : A → US → Prop) s t :
  mok s → tasks s !! id = Some t →
  wp m (λ a (s' : TS), ok s' ∧ ext (mkTS t (us_w s)) s' ∧ P a (status_of (ts_t s'))) (mkTS t (us_w s)) →
  (∀ a s' t', mok s' → tasks s' !! id = Some t' → P a (status_of t') → Q a s') →
  wp (on_task id m) Q s.
Proof.
  intros Hs Ht Hm HQ. eapply wp_on_task; [done|]. eapply wp_mono; [exact Hm|].
  intros a [t' w] (Hok & He & HP). pose proof He as (_&_&Hid&_&Hw). simpl in *.
  destruct (mok_put id t t' w s) as (H1&_&_); [done|done|by apply Hok|done|done|].
  eapply (HQ a (put id t' w s) t'); [done|apply lookup_insert_eq|done].
Qed.

Lemma wp_PauseTask id s t :
  mok s → tasks s !! id = Some t →
  wp (PauseTask id) (λ err s', mok s' ∧ ∃ t', tasks s' !! id = Some t' ∧
    paused_to (status_of t) err (status_of t')) s.
Proof.
  intros Hs Ht. unfold PauseTask. wp_step.
  eapply (wp_on_task_read _ _ _ _ t (status_of t)); [done..|].
  pose proof (ok_of_listed s id t Hs Ht) as Hok.
  assert (Hset : ∀ x s t, mok s → tasks s !! id = Some t →
    wp (on_task id (SetTaskStatus x)) (λ _ s', mok s' ∧ ∃ t', tasks s' !! id = Some t' ∧
      status_of t' = x) s).
  { intros x s1 t1 Hs1 Ht1. eapply (wp_on_task_status _ _ (λ _ st, st = x)); [done..| |].
    - apply wp_SetTaskStatus; [by eapply ok_of_listed|]. by intros.
    - intros _ s2 t2 ???. split; [done|]. by exists t2. }
  assert (Hpause : wp (on_task id TaskObj.Pause) (λ b s', mok s' ∧ ∃ t', tasks s' !! id = Some t' ∧
    status_of t' = if b : bool then TaskStatus.kPaused else status_of t) s).
  { eapply (wp_on_task_status _ _ (λ b st, st = if b : bool then _ else _)); [done..| |].
    - apply wp_Pause; [done|]. by intros.
    - intros b s2 t2 ???. split; [done|]. by exists t2. }
  wp_step. destruct (status_of t) eqn:Hst;
    try (apply wp_ret, wp_ret; split; [done|]; exists t; rewrite Hst; by split).
  - eapply wp_mono; [exact Hpause|]. intros [] s1 (?&t1&?&?); apply wp_ret;
      (split; [done|]); exists t1; (split; [done|]); [by left|by right].
  - wp_step. eapply wp_mono; [by eapply Hset|]. intros _ s1 (?&t1&?&?). apply wp_ret, wp_ret.
    split; [done|]. by exists t1.
  - wp_step. eapply wp_mono; [by eapply Hset|]. intros _ s1 (?&t1&?&?). apply wp_ret, wp_ret.
    split; [done|]. by exists t1.
  - wp_step. eapply wp_mono; [exact Hpause|]. intros [] s1 (?&t1&?&?); simpl.
    + wp_step. eapply wp_mono; [by eapply Hset|]. intros _ s2 (?&t2&?&?). apply wp_ret, wp_ret.
      split; [done|]. exists t2. split; [done|by left].
    + wp_step. apply wp_ret, wp_ret, wp_ret. split; [done|]. exists t1. split; [done|by right].
Qed.

(** Pausing a listed task, on every status: a downloading task is paused
    or, when the engine refuses, unchanged with an error; a waiting or parsing
    task is paused; a seeding task is finished or unchanged with an error; in
    any other status nothing changes and an error is returned. *)
Theorem PauseTask_spec id s t :
  mok s → tasks s !! id = Some t →
  wp (PauseTask id) (λ err s', ∃ t', tasks s' !! id = Some t' ∧
    paused_to (status_of t) err (status_of t')) s.
Proof.
  intros Hs Ht. eapply wp_mono; [by apply wp_PauseTask|]. by intros err s' [_ ?].
Qed.
End Operations.

(** ** The queue and the reports *)
Section Queue.
  Context `{E : Env} `{bl : BaseLib} `{ss : StdSort} {sl : StdSortLaws ss} {laws : EnvLaws E}.
  Implicit Types s : US.

(** The queue position of a task's [task_info_]. *)
Definition info_at s (id : string) : option TaskInfo := tasks s !! id ≫= t_info.

(** The queue every periodic check and resuming request walks holds each
    task exactly once and is sorted by the user's order: no task comes after
    one that the comparator puts strictly behind it. *)
Theorem SortTask_sorted style asc s :
  mok s →
  wp (SortTask style asc) (λ q s', q ≡ₚ map_keys (tasks s) ∧ NoDup q ∧ tasks s' = tasks s ∧
    ∀ i j a b ia ib, (i < j)%nat → q !! i = Some a → q !! j = Some b →
      info_at s a = Some ia → info_at s b = Some ib →
      queue_order (us_m s) style asc ib ia = false) s.
Proof.
  intros Hs. destruct (task_entries_Some s Hs) as (es & Hes & Hfst & Hall).
  pose proof (swo_on (@snd string TaskInfo) _ (queue_order_swo (us_m s) style asc)) as Hswo.
  eapply wp_SortTask_exact; [done..|]. intros s' _ _ Ht _. cbn beta in Hswo.
  set (sorted := std_sort _ es).
  assert (Hperm : sorted ≡ₚ es) by (by apply std_sort_perm).
  assert (Hq : fst <$> sorted ≡ₚ map_keys (tasks s)) by (rewrite <-Hfst; by apply fmap_Permutation).
  split_and!; [done|rewrite Hq; apply NoDup_map_keys|done|].
  intros i j a b ia ib Hij Hi Hj Hia Hib.
  rewrite list_lookup_fmap in Hi, Hj. apply fmap_Some in Hi as ((a'&xa)&Hi&->).
  apply fmap_Some in Hj as ((b'&xb)&Hj&->). simpl in *.
  assert (Hentry : ∀ k e, sorted !! k = Some e → info_at s e.1 = Some e.2).
  { intros k e He. apply list_elem_of_lookup_2 in He. rewrite Hperm in He.
    eapply Forall_forall in Hall; [|done]. destruct Hall as (t & Htt & Hti).
    unfold info_at. rewrite Htt. done. }
  pose proof (Hentry _ _ Hi) as Ea. pose proof (Hentry _ _ Hj) as Eb. simpl in *. simplify_eq.
  exact (std_sort_sorted (λ x y, queue_order (us_m s) style asc x.2 y.2) es Hswo i j _ _ Hij Hi Hj).
Qed.

(** The outcome of resuming a task through [TryResume]. *)
Definition tried (limit_reached : bool) (t : Task) (err : Z) (new : TaskStatus) : Prop :=
  if limit_reached then err = DownloadErrorCode.kNormal ∧ new = TaskStatus.kWaitting
  else if started t then ∃ b, resumed b (status_of t) new ∧
    err = err_of b DownloadErrorCode.kResumeTaskFailed
  else new = TaskStatus.kDownloading ∨ (is_link (t_kind t) = false ∧ new = status_of t).

(** Resuming a task asks the limit first: when the user already runs as
    many downloads as allowed the task is queued (waiting, no error); otherwise
    a started task is resumed and a fresh one started, and an engine that
    refuses to resume leaves the status unchanged and is reported. *)
Theorem TryResume_spec id s t :
  mok s → tasks s !! id = Some t →
  wp (TryResume id) (λ err s', ∃ t', tasks s' !! id = Some t' ∧
    tried (task_limit (us_m s) <=? downloading_num (tasks s)) t err (status_of t')) s.
Proof.
  intros Hs Ht. pose proof (ok_of_listed s id t Hs Ht) as Hok. unfold TryResume, IsCanStart, mgr.
  wp_step. wp_step. apply wp_gets, wp_ret. unfold tried.
  destruct (_ <=? _); simpl.
  { wp_step. eapply (wp_on_task_status _ _ (λ _ st, st = TaskStatus.kWaitting)); [done..| |].
    - apply wp_SetTaskStatus; [done|]. by intros.
    - intros _ s' t' _ ??. apply wp_ret. by exists t'. }
  pose proof Hs as (_&Hlist&_). destruct (Hlist id t Ht) as [(_&i&Hi&_) _].
  wp_step. eapply (wp_on_task_read _ _ _ _ t (started t)); [done| |].
  { unfold IsStarted, info, task, bind, gets, started. simpl. by rewrite Hi. }
  destruct (started t) eqn:Hst.
  - wp_step. eapply (wp_on_task_status _ _ (λ b st, resumed b (status_of t) st)); [done..| |].
    + apply wp_Resume; [done|]. by intros.
    + intros b s' t' _ ??. apply wp_ret. exists t'. eauto.
  - eapply (wp_on_task_status _ _ (λ _ st, st = TaskStatus.kDownloading ∨
      (is_link (t_kind t) = false ∧ st = status_of t))); [done..| |].
    + unfold Start. wp_step. apply wp_task. simpl. destruct (is_link (t_kind t)) eqn:Hl.
      * apply wp_LinkTask_Start; [done|]. intros e s' ?? Hst' _. simpl in Hst'. rewrite Hst in Hst'.
        by split_and!; [..|left].
      * pose proof (wp_Start (mkTS t (us_w s)) (λ _ (s' : TS), ok s' ∧ ext (mkTS t (us_w s)) s' ∧
          (status_of (ts_t s') = TaskStatus.kDownloading ∨
           (false = false ∧ status_of (ts_t s') = status_of t))) Hok) as H.
        unfold Start in H. unfold wp, bind, task, gets in H. simpl in H. rewrite Hl in H.
        apply H. intros e s' ?? [?|?] _; split_and!; auto.
    + intros e s' t' _ ??. by exists t'.
Qed.

(** The list a client asks for is complete: it holds the information of
    every task, in the order of the ids, and asking changes no task's
    information. *)
Theorem GetTaskInfoList_complete cf s :
  mok s →
  wp (UserSelfMgr.GetTaskInfoList cf) (λ l s', l = info_at s <$> map_keys (tasks s) ∧
    ∀ id, info_at s' id = info_at s id) s.
Proof.
  intros Hs. unfold UserSelfMgr.GetTaskInfoList. wp_step. apply wp_modify. simpl. wp_step.
  apply wp_gets. simpl. set (s1 := mkUS _ _).
  apply (wp_fold_each (λ l rest s', (∃ done, map_keys (tasks s) = done ++ rest ∧
      l = info_at s <$> done) ∧ (∀ id, info_at s' id = info_at s id) ∧
      dom (tasks s') = dom (tasks s))).
  - split_and!; [by exists []|done|done].
  - intros l id rest s2 ((dn & Hkeys & ->) & Hinfo & Hdom).
    assert (is_Some (tasks s2 !! id)) as [t Ht].
    { apply elem_of_dom. rewrite Hdom. apply elem_of_dom, elem_of_map_keys. rewrite Hkeys.
      set_solver. }
    wp_step. eapply (wp_on_task_read _ _ _ _ t (t_info t)); [done..|]. wp_step.
    eapply wp_on_task; [done|]. apply wp_upd_task. apply wp_ret. simpl. split_and!.
    + exists (dn ++ [id]). rewrite <-app_assoc, fmap_app. split; [done|]. simpl.
      do 2 f_equal. rewrite <-Hinfo. unfold info_at. by rewrite Ht.
    + intros k. rewrite <-Hinfo. unfold info_at. simpl. destruct (decide (k = id)) as [->|Hk].
      * by rewrite lookup_insert_eq, Ht.
      * by rewrite lookup_insert_ne.
    + rewrite dom_insert_L, Hdom. apply elem_of_dom_2 in Ht. set_solver.
  - intros l s2 ((dn & Hkeys & ->) & Hinfo & _). rewrite app_nil_r in Hkeys. by rewrite Hkeys.
Qed.
End Queue.

(** ** Rejected creations and messages *)
Section Reports.
  Context `{E : Env} `{bl : BaseLib} `{ss : StdSort} {sl : StdSortLaws ss} {laws : EnvLaws E}.
  Implicit Types s : US.

(** Nothing but the environment moved: no task, setting, database closure,
    reference count or notification. *)
Definition untouched s s' : Prop := us_m s' = us_m s ∧ ∃ e, us_w s' = set_w_env e (us_w s).

Lemma untouched_refl s : untouched s s.
Proof. split; [done|]. exists (w_env (us_w s)). by destruct s as [? []]. Qed.

Lemma untouched_env s s' e : untouched s s' → untouched s (mkUS (us_m s') (set_w_env e (us_w s'))).
Proof. intros (Hm & e' & Hw). split; [done|]. exists e. simpl. by rewrite Hw. Qed.

(** A rejection: an error, no task, nothing touched. *)
Definition rejected (errs : list Z) s (r : Created) s' : Prop :=
  r.1.1.1 ∈ errs ∧ r.1.1.2 = None ∧ untouched s s'.

Lemma wp_CreateSavePath_untouched p s (Q : Z → US → Prop) :
  (∀ e s', untouched s s' → e = DownloadErrorCode.kNormal ∨ e = DownloadErrorCode.kCreateDirFailed →
     Q e s') → wp (CreateSavePath p) Q s.
Proof.
  intros HQ. unfold CreateSavePath. wp_step. apply wp_on_world, wp_gets.
  assert (Hs : untouched s (mkUS (us_m s) (us_w s))) by (destruct s; apply untouched_refl).
  destruct (negb _).
  - wp_step. apply wp_on_world, wp_env_call. intros b e. apply wp_ret, HQ.
    + exact (untouched_env s _ e Hs).
    + destruct b; auto.
  - apply wp_ret, HQ; auto.
Qed.

Lemma wp_HasWriteAccess_untouched p s0 s (Q : Z → US → Prop) :
  untouched s0 s →
  (∀ e s', untouched s0 s' → tasks s' = tasks s →
     e = DownloadErrorCode.kNormal ∨ e = DownloadErrorCode.kCreateFileFailed → Q e s') →
  wp (HasWriteAccess p) Q s.
Proof.
  intros Hs HQ. unfold HasWriteAccess. wp_step. apply wp_on_world, wp_env_call. intros g e1.
  wp_step. apply wp_on_world, wp_env_call. intros b e2. wp_step. apply wp_on_world.
  unfold DeleteFile. wp_step. apply wp_gets. destruct (PathExists _ _).
  - apply wp_env_call. intros d e3. apply wp_ret, HQ; [|done|destruct b; auto].
    exact (untouched_env s0 s e3 Hs).
  - apply wp_ret, wp_ret, HQ; [|done|destruct b; auto]. exact (untouched_env s0 s e2 Hs).
Qed.

(** Rejected creations leave no trace in the manager, the database or the
    reference counts: an invalid file name is refused before anything at all
    happens; a protected save path and an id already listed are refused before
    a task object is constructed. *)
Theorem CreateTask_rejects p cf s :
  (IsValidFilename (p_file_name p) = false →
     CreateTask p cf s = Some ((DownloadErrorCode.kInvalidFileName, None, p, EmptyString), s)) ∧
  (IsValidFilename (p_file_name p) = true →
   IsProtectedPath (p_save_path p) ≠ DownloadErrorCode.kNormal →
     wp (CreateTask p cf)
       (rejected [DownloadErrorCode.kCreateDirFailed; DownloadErrorCode.kProtectedPath] s) s) ∧
  (IsValidFilename (p_file_name p) = true → is_Some (tasks s !! p_id p) →
     wp (CreateTask p cf)
       (rejected [DownloadErrorCode.kCreateDirFailed; DownloadErrorCode.kProtectedPath;
                  DownloadErrorCode.kCreateFileFailed; DownloadErrorCode.kTaskIdExisted] s) s).
Proof.
  unfold CreateTask. split_and!.
  - intros ->. done.
  - intros -> Hprot. simpl. wp_step. apply wp_CreateSavePath_untouched. intros e s1 Hs1 [-> | ->]; simpl.
    + rewrite (proj2 (Z.eqb_neq _ _) Hprot). simpl. apply wp_ret.
      unfold IsProtectedPath in *. destruct (IsProtectedInPath _ _ _); [|done].
      split_and!; [set_solver|done|apply Hs1..].
    + apply wp_ret. split_and!; [set_solver|done|apply Hs1..].
  - intros -> Hl. simpl. wp_step. apply wp_CreateSavePath_untouched. intros e s1 Hs1 [-> | ->]; simpl.
    2: { apply wp_ret. split_and!; [set_solver|done|apply Hs1..]. }
    destruct (IsProtectedPath _ =? _) eqn:Hp; simpl.
    2: { apply wp_ret. split_and!; [|done|apply Hs1..]. unfold IsProtectedPath in *.
         destruct (IsProtectedInPath _ _ _); [set_solver|done]. }
    wp_step. eapply wp_HasWriteAccess_untouched; [done|]. intros e2 s2 Hs2 Ht2 [-> | ->]; simpl.
    2: { apply wp_ret. split_and!; [set_solver|done|apply Hs2..]. }
    wp_step. apply wp_FindTask. destruct Hs2 as [Hm2 Hw2]. rewrite bool_decide_eq_true_2.
    { apply wp_ret. split_and!; [set_solver|done..]. }
    by rewrite Hm2.
Qed.

(** The message of an operation reports success (errno 0) exactly when no
    task of the request failed, whatever the operation. *)
Theorem AssembleMessage_success_iff operation cf l :
  operation ≠ TaskOperation.kParse →
  dict_get "errno" (AssembleMessage operation cf l DownloadErrorCode.kNormal) = Some (VInt 0) ↔
  l.2 = [].
Proof.
  intros Hop. unfold AssembleMessage. simpl. destruct l as [ok [|f failed]]; simpl; [done|].
  split; [|done]. intros [= H]. exfalso. revert H. destruct operation; try done; by vm_compute.
Qed.
End Reports.

(** ** Runs at which the claims apply *)
Definition demo_new : TaskParam := link_param (demo_source "t4" "http://host/d").

Lemma demo_new_ok : new_param demo_new.
Proof. apply new_param_plain. vm_compute. reflexivity. Qed.

Lemma ExecCreate_all_or_nothing_witness :
  wp (ExecCreate demo_new demo_cf ([], no_lists))
    (λ acc' s', created demo_new demo_cf ([], no_lists) acc' (demo false) s') (demo false).
Proof.
  apply ExecCreate_all_or_nothing; [apply demo_ok|exact demo_new_ok|].
  intros H. vm_compute in H. discriminate.
Defined.

(** Both outcomes occur: a new id succeeds, a listed source fails. *)
Example demo_create_outcomes :
  (λ r, (length r.1.2.1, length r.1.2.2)) <$>
    fold_each [demo_new; link_param (demo_source "t5" "http://host/a")] ([], no_lists)
      (λ acc p, ExecCreate p demo_cf acc) (demo false) = Some (1%nat, 1%nat).
Proof. vm_compute. reflexivity. Qed.

Lemma create_answers_every_source_witness :
  wp (fold_each (link_param <$> demo_sources) ([], no_lists) (λ acc p, ExecCreate p demo_cf acc))
    (λ acc s', (length acc.2.1 + length acc.2.2 = length (link_param <$> demo_sources))%nat ∧
       length acc.1 = length acc.2.1 ∧ NoDup acc.1 ∧
       Forall (λ id, is_Some (tasks s' !! id)) acc.1) (demo_start 2 false).
Proof.
  apply (create_answers_every_source demo_cf (link_param <$> demo_sources)).
  - apply demo_start_ok. unfold int32_max. lia.
  - split; [reflexivity|]. exact demo_params_ok.
Defined.

Lemma ExecDeleteOperate_spec_witness :
  wp (ExecDeleteOperate "t1" true false no_lists) (λ r s', mok s' ∧ sheds (demo false) s' ∧
    deletion "t1" false r.1 (demo false) s') (demo false).
Proof. apply ExecDeleteOperate_spec. apply demo_ok. Defined.

Lemma control_touches_only_its_task_witness :
  wp (ExecResumeOperate "t3") (λ _ s', dom (tasks s') = dom (tasks (demo false)) ∧
    ∀ k, k ≠ "t3" → tasks s' !! k = tasks (demo false) !! k) (demo false).
Proof. apply control_touches_only_its_task; [set_solver|apply demo_ok]. Defined.

Lemma PauseTask_spec_witness :
  ∃ t, tasks (demo true) !! "t1" = Some t ∧ status_of t = TaskStatus.kDownloading ∧
    wp (PauseTask "t1") (λ err s', ∃ t', tasks s' !! "t1" = Some t' ∧
      paused_to (status_of t) err (status_of t')) (demo true).
Proof.
  destruct (tasks (demo true) !! "t1") as [t|] eqn:Ht; [|by vm_compute in Ht].
  exists t. split; [reflexivity|]. split.
  - vm_compute in Ht. injection Ht as <-. reflexivity.
  - apply PauseTask_spec; [apply demo_ok|exact Ht].
Defined.

Lemma SortTask_sorted_witness :
  wp (SortTask SortStyle.kCreateTime true) (λ q s', q ≡ₚ map_keys (tasks (demo false)) ∧ NoDup q ∧
    tasks s' = tasks (demo false) ∧
    ∀ i j a b ia ib, (i < j)%nat → q !! i = Some a → q !! j = Some b →
      info_at (demo false) a = Some ia → info_at (demo false) b = Some ib →
      queue_order (us_m (demo false)) SortStyle.kCreateTime true ib ia = false) (demo false).
Proof. apply SortTask_sorted, demo_ok. Defined.

Lemma TryResume_spec_witness :
  ∃ t, tasks (demo false) !! "t3" = Some t ∧
    wp (TryResume "t3") (λ err s', ∃ t', tasks s' !! "t3" = Some t' ∧
      tried (task_limit (us_m (demo false)) <=? downloading_num (tasks (demo false))) t err
        (status_of t')) (demo false).
Proof.
  destruct (tasks (demo false) !! "t3") as [t|] eqn:Ht; [|by vm_compute in Ht].
  exists t. split; [reflexivity|]. apply TryResume_spec; [apply demo_ok|exact Ht].
Defined.

Lemma GetTaskInfoList_complete_witness :
  wp (UserSelfMgr.GetTaskInfoList demo_cf)
    (λ l s', l = info_at (demo false) <$> map_keys (tasks (demo false)) ∧
       ∀ id, info_at s' id = info_at (demo false) id) (demo false).
Proof. apply GetTaskInfoList_complete, demo_ok. Defined.

Lemma CreateTask_rejects_witness :
  let p := link_param (mkSourceData "t9" "http://host/d" "/etc/x" "a.iso" "1") in
  wp (CreateTask p demo_cf) (rejected [DownloadErrorCode.kCreateDirFailed;
    DownloadErrorCode.kProtectedPath] (demo false)) (demo false).
Proof.
  intros p. destruct (CreateTask_rejects p demo_cf (demo false)) as (_ & H & _).
  apply H; [vm_compute; reflexivity|]. intros Hp. vm_compute in Hp. discriminate.
Defined.

Lemma AssembleMessage_success_iff_witness :
  dict_get "errno" (AssembleMessage TaskOperation.kPause demo_cf ([VString "t1"], [])
    DownloadErrorCode.kNormal) = Some (VInt 0).
Proof. apply AssembleMessage_success_iff; [discriminate|reflexivity]. Defined.
