(* ===== verification/TaskClaims.v ===== *)
(** * Task objects: claims

    The recycle bin, shared engine tasks, progress and failure reports, the
    seeding limits, the fixed-size buffers and the classification of sources. *)

From S2P Require Import Prelude CppBase BaseRef PathUnit DownloadTypes ErrorDesc TaskInfo.
From S2P Require Import InfoStore SystemConfig ServerWorld TaskRefCount TaskObj TaskSpec.
From S2P Require Import TaskFactory UserInfo UserSelfMgr UserSelfMgrSpec UserSelfMgrOps.
From S2P Require Import UserSelfMgrCreate DownloadMgr DownloadMgrSpec RefEnv.
#[local] Open Scope prog_scope.

Section TaskClaims.
  Context `{E : Env} `{bl : BaseLib}.
  Implicit Types s : TS.

(** The recycle bin round trip: a task deleted to the recycle bin and then
    restored is back in the status it had (a running download comes back
    waiting, a failed one failed or running), unless the engine refused to
    pause it, in which case its status never changed. *)
Theorem recycle_bin_roundtrip s :
  ok s →
  wp DeleteToRecycleBin (λ r s1, r = true ∧
    (status_of (ts_t s1) = status_of (ts_t s) ∨
     (status_of (ts_t s1) = TaskStatus.kDeleted ∧
      wp TaskObj.Restore (λ r' s2, r' = true ∧ restored (status_of (ts_t s)) (status_of (ts_t s2))) s1))) s.
Proof.
  intros Hs. apply wp_DeleteToRecycleBin; [done|]. intros s1 H1 _ [[Hst Hpre]|[Hst _]].
  - split; [done|]. right. split; [done|]. apply wp_Restore; [done|]. intros s2 _ _ Hr.
    split; [done|]. by rewrite <-Hpre.
  - split; [done|]. by left.
Qed.

(** Starting a BitTorrent task always reports success, even when the engine
    failed to start it; only the started flag tells the difference. *)
Theorem BtTaskBase_Start_never_fails s :
  ok s → is_link (t_kind (ts_t s)) = false → wp Start (λ err _, err = DownloadErrorCode.kNormal) s.
Proof.
  intros Hs Hk. destruct (ok_info s Hs) as (h & i & Hh & Hi & _ & _ & Hb). unfold Start.
  wp_step. apply wp_task. rewrite Hk. unfold BtTaskBase_Start. wp_step. apply wp_task. rewrite Hi.
  destruct (ti_is_started i); [by apply wp_ret|]. wp_step.
  eapply wp_BtTaskBase_SetDownloadParam; [done|done|by apply Hb|]. intros hash e. wp_step.
  eapply wp_eng; [done|]. intros _ e1. wp_step. eapply wp_eng; [done|]. intros err e2. wp_step.
  destruct (err =? _); [|by apply wp_ret, wp_ret].
  wp_step. eapply wp_upd_info; [done|]. eapply wp_upd_info; [done|]. by apply wp_ret.
Qed.

(** C40. A BitTorrent task's parameters are copied into fixed-size arrays: the
    copy is defined exactly when the parameter is a torrent parameter and every
    string fits its array. *)
Theorem SetDownloadParam_defined_iff s h i :
  t_impl (ts_t s) = Some h → t_info (ts_t s) = Some i →
  (∃ r, BtTaskBase_SetDownloadParam s = Some r) ↔ bt_param_ok (ti_param i).
Proof.
  intros Hh Hi. split.
  - intros [r Hr]. unfold BtTaskBase_SetDownloadParam, info, task, bind, gets in Hr.
    rewrite Hi in Hr. simpl in Hr. unfold of_option, memcpy_array, ret, crash in Hr.
    destruct (p_torrent (ti_param i)) as [x|] eqn:Hx; [|done].
    repeat match type of Hr with context [(?a <=? ?b)%nat] =>
      destruct (Nat.leb_spec a b); [|done] end.
    by split_and!; [rewrite Hx; eexists|..].
  - intros Hok. destruct (wp_run BtTaskBase_SetDownloadParam (λ _ _, True) s) as (a&s'&Hr&_).
    + by eapply wp_BtTaskBase_SetDownloadParam.
    + eauto.
Qed.

(** A link task never overflows them: whatever the request contained, what
    is handed to the engine fits each array. *)
Lemma AssembleDownloadParam_fits param :
  let d := AssembleDownloadParam param in
  (String.length (dp_id d) ≤ kIdLength)%nat ∧ (String.length (dp_url d) ≤ kUrlLength)%nat ∧
  (String.length (dp_save_path d) ≤ kMaxPath)%nat ∧ (String.length (dp_file_name d) ≤ kMaxPath)%nat.
Proof.
  assert (H : ∀ cap x, (String.length (copy_if_fits cap x) ≤ cap)%nat).
  { intros cap x. unfold copy_if_fits. destruct (Nat.leb_spec (String.length x) cap); simpl; lia. }
  split_and!; apply H.
Qed.

(** The hash the engine reports for a task. *)
Definition engine_hash (h : Handle) (e : env) : string := default EmptyString (i_GetTaskHash h e).1.

Lemma wp_GetTaskHash_exact s h i (Q : string → TS → Prop) :
  t_impl (ts_t s) = Some h → t_info (ts_t s) = Some i →
  Q (engine_hash h (w_env (ts_w s)))
    (mkTS (ts_t s) (set_w_env (i_GetTaskHash h (w_env (ts_w s))).2 (ts_w s))) →
  wp GetTaskHash Q s.
Proof.
  intros Hh Hi HQ. unfold GetTaskHash. wp_step. unfold eng. wp_step. eapply wp_impl; [done|].
  apply wp_world, wp_env_call_exact. wp_step. apply wp_task. simpl. rewrite Hi. apply wp_ret.
  unfold engine_hash in HQ. by destruct (i_GetTaskHash _ _) as [[]].
Qed.

(** Shared engine tasks: while another task holds a reference to the same
    hash, cancelling succeeds without asking the engine to delete anything (the
    only engine call is the one that reads the hash) and gives up exactly one
    reference. *)
Theorem Cancel_keeps_shared_data b s h i n :
  ok s → t_impl (ts_t s) = Some h → t_info (ts_t s) = Some i →
  w_refs (ts_w s) !! engine_hash h (w_env (ts_w s)) = Some n → 1 < n →
  wp (Cancel b) (λ r s', r = true ∧
    w_env (ts_w s') = (i_GetTaskHash h (w_env (ts_w s))).2 ∧
    w_refs (ts_w s') = <[engine_hash h (w_env (ts_w s)) := n - 1]> (w_refs (ts_w s))) s.
Proof.
  intros Hs Hh Hi Hn Hlt. unfold Cancel. wp_step. eapply wp_GetTaskHash_exact; [done..|].
  apply (wp_Release _ _). simpl. unfold last_ref, dec_refs. rewrite Hn.
  replace (n - 1 <=? 0) with false by (symmetry; apply Z.leb_gt; lia). simpl.
  unfold ExceCancel. wp_step. apply wp_task. simpl.
  assert (Hbase : ∀ w, w_refs w = <[engine_hash h (w_env (ts_w s)) := n - 1]> (w_refs (ts_w s)) →
    w_env w = (i_GetTaskHash h (w_env (ts_w s))).2 →
    wp (TaskBase_ExceCancel b false) (λ r s', r = true ∧
      w_env (ts_w s') = (i_GetTaskHash h (w_env (ts_w s))).2 ∧
      w_refs (ts_w s') = <[engine_hash h (w_env (ts_w s)) := n - 1]> (w_refs (ts_w s)))
      (mkTS (ts_t s) w)).
  { intros w Hr He. unfold TaskBase_ExceCancel. wp_step. eapply wp_info; [done|].
    destruct (negb _); [|by apply wp_ret]. wp_step. unfold SetTaskStatus. wp_step. apply wp_task.
    simpl. rewrite Hi. wp_step. apply wp_upd_task. wp_step. eapply wp_upd_info; [done|].
    unfold UpdateTaskInfo_db. wp_step. apply wp_task. wp_step. eapply wp_info; [done|].
    apply wp_world, wp_modify. by apply wp_ret. }
  destruct (t_kind (ts_t s)); try (by apply Hbase).
  by apply wp_ret.
Qed.

(** The last reference: cancelling a started link or magnet task asks the
    engine to delete it and answers what the engine answered; on success the
    hash is forgotten. *)
Theorem Cancel_last_deletes b s h i n :
  ok s → t_impl (ts_t s) = Some h → t_info (ts_t s) = Some i → ti_is_started i = true →
  t_kind (ts_t s) ≠ KTorrent →
  w_refs (ts_w s) !! engine_hash h (w_env (ts_w s)) = Some n → n <= 1 →
  let '(ok, e') := i_Cancel h b (i_GetTaskHash h (w_env (ts_w s))).2 in
  wp (Cancel b) (λ r s', r = ok ∧ w_env (ts_w s') = e' ∧
    (ok = true → status_of (ts_t s') = TaskStatus.kCompletedDeleted ∧
       w_refs (ts_w s') = delete (engine_hash h (w_env (ts_w s))) (w_refs (ts_w s)))) s.
Proof.
  intros Hs Hh Hi Hst Hk Hn Hle. destruct (i_Cancel h b _) as [ok e'] eqn:Hc. unfold Cancel.
  wp_step. eapply wp_GetTaskHash_exact; [done..|].
  apply (wp_Release _ _). simpl. unfold last_ref, dec_refs. rewrite Hn.
  replace (n - 1 <=? 0) with true by (symmetry; apply Z.leb_le; lia). simpl.
  unfold ExceCancel. wp_step. apply wp_task. simpl.
  assert (Hkind : ∀ {A} (x y : A), match t_kind (ts_t s) with KTorrent => x | _ => y end = y)
    by (intros; by destruct (t_kind (ts_t s))).
  rewrite Hkind. unfold TaskBase_ExceCancel. wp_step. eapply wp_info; [done|]. rewrite Hst. simpl.
  wp_step. unfold eng. wp_step. eapply wp_impl; [done|]. apply wp_world, wp_env_call_exact. simpl.
  rewrite Hc. simpl. destruct ok; simpl; [|by apply wp_ret].
  wp_step. unfold SetTaskStatus. wp_step. apply wp_task. simpl. rewrite Hi. wp_step.
  apply wp_upd_task. wp_step. eapply wp_upd_info; [done|]. unfold UpdateTaskInfo_db. wp_step.
  apply wp_task. wp_step. eapply wp_info; [done|]. apply wp_world, wp_modify. apply wp_ret.
  split_and!; [done..|]. intros _. split; [done|]. simpl. apply delete_insert_eq.
Qed.

(** What the engine reports for a task, given its last known progress. *)
Definition engine_report (h : Handle) (i : TaskInfo) (e : env) : DownloadProgressInfo :=
  (i_GetProgressInfo h (DownloadProgressInfo_init (pi_total_progress (ti_progress i))) e).1.

Lemma wp_engine_progress s h i (Q : DownloadProgressInfo → TS → Prop) :
  t_impl (ts_t s) = Some h → t_info (ts_t s) = Some i →
  (∀ e, Q (engine_report h i (w_env (ts_w s))) (mkTS (ts_t s) (set_w_env e (ts_w s)))) →
  wp engine_progress Q s.
Proof.
  intros Hh Hi HQ. unfold engine_progress. wp_step. eapply wp_info; [done|]. unfold eng.
  wp_step. eapply wp_impl; [done|]. apply wp_world, wp_env_call_exact, HQ.
Qed.

(** Progress of a link task: after a progress update the task is finished
    exactly when the engine reported a progress of more than 99.9999 per cent
    (in double arithmetic), and otherwise keeps the status it had. *)
Theorem LinkTask_progress_finishes s h i :
  ok s → t_impl (ts_t s) = Some h → t_info (ts_t s) = Some i →
  let d := engine_report h i (w_env (ts_w s)) in
  wp LinkTask_UpdateProgressInfo (λ _ s', status_of (ts_t s') =
    if progress_finished (dpi_total_progress d) then TaskStatus.kFinished else ti_status i) s.
Proof.
  intros Hs Hh Hi d. unfold LinkTask_UpdateProgressInfo. wp_step.
  eapply wp_engine_progress; [done..|]. intros e. fold d. wp_step.
  set (j := if str_empty (dpi_file_name d) then i
            else Info.upd_base (BaseInfo.SetTaskName (dpi_file_name d)) i).
  eapply (wp_mono _ (λ _ s1, s1 = mkTS (set_t_info (Some j) (ts_t s)) (set_w_env e (ts_w s)))).
  { unfold j. destruct (str_empty _); [|by eapply wp_upd_info].
    apply wp_ret. f_equal. destruct (ts_t s). simpl in *. by subst. }
  intros _ s1 ->. wp_step. eapply wp_upd_info; [done|].
  set (k := Info.upd_progress _ j). set (s2 := mkTS _ _).
  assert (Hj : ti_status j = ti_status i ∧ ti_category j = ti_category i ∧ ti_param j = ti_param i)
    by (unfold j; by destruct (str_empty _)).
  destruct Hj as (Hj1 & Hj2 & Hj3).
  assert (H2 : ok s2).
  { destruct Hs as [(Himpl & i' & Hi' & Hcat & Hkind & Hbt) Hcfg]. simplify_eq.
    split; [|done]. split; [done|]. exists k. split; [done|]. unfold info_ok, category_ok in *.
    simpl. rewrite Hj1, Hj2, Hj3. by split_and!. }
  wp_step. unfold IsDownloadFinished. wp_step. eapply wp_info; [done|]. apply wp_ret. simpl.
  assert (Hrest : ∀ s3, ok s3 →
    wp (UpdateTaskInfo_db ;; BuildDownloadingData) (λ _ s', status_of (ts_t s') = status_of (ts_t s3)) s3).
  { intros s3 H3. apply (pres_use keeps_status); [done|pres_auto|]. by intros ?? _ _ [? _]. }
  wp_step. destruct (progress_finished (dpi_total_progress d)).
  - wp_step. apply wp_SetTaskStatus; [done|]. intros s3 H3 _ Hst3 _ _.
    apply (pres_use keeps_status); [done|pres_auto|]. intros _ s4 H4 _ [Hst4 _].
    eapply wp_mono; [by apply Hrest|]. cbn beta. intros ? s5 ->. congruence.
  - apply wp_ret. eapply wp_mono; [by apply Hrest|]. cbn beta. intros ? s5 ->. exact Hj1.
Qed.

(** The failure check: a task is reported failed exactly when it already
    was, or when it is neither deleted nor finished and an error was recorded
    for it; it then is in the failed status, and otherwise keeps its own. *)
Theorem CheckTaskIsFailed_spec s i :
  ok s → t_info (ts_t s) = Some i →
  let erred := negb (pi_err_code (ti_progress i) =? DownloadErrorCode.kNormal) &&
    negb (bool_decide (ti_status i ∈ [TaskStatus.kDeleted; TaskStatus.kFinished])) in
  let failed := bool_decide (ti_status i = TaskStatus.kFailed) || erred in
  wp CheckTaskIsFailed (λ alive s', alive = negb failed ∧
    status_of (ts_t s') = if failed then TaskStatus.kFailed else ti_status i) s.
Proof.
  intros Hs Hi erred failed. unfold CheckTaskIsFailed. wp_step. eapply wp_info; [done|].
  unfold GetTaskStatus. wp_step. wp_step. apply wp_task, wp_ret. rewrite Hi.
  assert (Hst : status_of (ts_t s) = ti_status i) by (unfold status_of; by rewrite Hi).
  assert (Hfail : wp (UpdateAndPublishFailedInfo ;; ret false) (λ alive s', alive = false ∧
    status_of (ts_t s') = TaskStatus.kFailed) s).
  { wp_step. unfold UpdateAndPublishFailedInfo. wp_step. apply wp_SetTaskStatus; [done|].
    intros s1 H1 _ Hst1 _ _. apply (pres_use keeps_status); [done|pres_auto|].
    intros _ s2 _ _ [Hst2 _]. apply wp_ret. split; [done|congruence]. }
  unfold failed, erred. destruct (pi_err_code (ti_progress i) =? _), (ti_status i); simpl in *;
    first [exact Hfail | by apply wp_ret].
Qed.

(** What the engine answers about a torrent, when a limit makes the check ask. *)
Definition share_ratio (c : SystemCloudConfig) (h : Handle) (e : env) : Z * env :=
  if IsShareRatioLimit c then b_GetTorrentShareRatio h e else (0, e).
Definition seeding_time (c : SystemCloudConfig) (h : Handle) (e : env) : Z :=
  if IsSeedingTimeLimit c then (b_GetSeedingTime h e).1 else 0.

(** The seeding limits: the check reports that seeding must stop exactly
    when a share-ratio limit is set and reached, or a time limit (in minutes)
    is set and the seeding time in seconds reached it; both limits zero means
    unlimited.  The engine is asked in that order. *)
Theorem CheckSeedingLimits_spec s h :
  ok s → t_impl (ts_t s) = Some h →
  let c := w_cfg (ts_w s) in
  let ratio := share_ratio c h (w_env (ts_w s)) in
  wp CheckSeedingLimits (λ reached _, reached = true ↔
    (IsShareRatioLimit c = true ∧ GetShareRatioLimitValue c <= ratio.1) ∨
    (IsSeedingTimeLimit c = true ∧ GetSeedingTimeLimitValue c * 60 <= seeding_time c h ratio.2)) s.
Proof.
  intros Hs Hh c. unfold share_ratio, seeding_time.
  destruct (if IsShareRatioLimit c then _ else _) as [ratio e1] eqn:Hr. cbn [fst snd].
  set (time := if IsSeedingTimeLimit c then _ else 0).
  unfold CheckSeedingLimits. wp_step. apply wp_gets. fold c. wp_step.
  eapply (wp_mono _ (λ b s1, s1 = mkTS (ts_t s) (set_w_env e1 (ts_w s)) ∧
    b = IsShareRatioLimit c && (GetShareRatioLimitValue c <=? ratio))).
  { destruct (IsShareRatioLimit c).
    - wp_step. unfold eng. wp_step. eapply wp_impl; [done|]. apply wp_world, wp_env_call_exact.
      rewrite Hr. by apply wp_ret.
    - apply wp_ret. simplify_eq. split; [|done]. by destruct s as [? []]. }
  intros b1 s1 [-> ->]. wp_step.
  assert (Hlim : int_mul (GetSeedingTimeLimitValue c) 60 = Some (GetSeedingTimeLimitValue c * 60)).
  { destruct Hs as [_ Hc]. unfold int_mul. unfold cfg_ok in Hc. unfold c. by rewrite Hc. }
  eapply (wp_mono _ (λ b s2, ok s2 ∧
    b = IsSeedingTimeLimit c && (GetSeedingTimeLimitValue c * 60 <=? time))).
  { unfold time. destruct (IsSeedingTimeLimit c).
    - wp_step. unfold eng. wp_step. eapply wp_impl; [done|]. apply wp_world, wp_env_call_exact.
      wp_step. rewrite Hlim. eapply wp_of_option; [done|]. by apply wp_ret.
    - by apply wp_ret. }
  intros b2 s2 [H2 ->]. wp_step. eapply (wp_mono _ (λ _ _, True)).
  { eapply wp_mono; [apply (pres_apply any); [done|pres_auto]|done]. }
  intros _ s3 _. apply wp_ret. rewrite orb_true_iff, !andb_true_iff, !Z.leb_le. done.
Qed.
End TaskClaims.

(** ** Classification of sources *)
Definition schemes : list (string * DownloadType) :=
  [("ed2k://", DownloadType.kEd2k); ("magnet:?xt=urn:btih:", DownloadType.kMagnet);
   ("http://", DownloadType.kHttp); ("https://", DownloadType.kHttps);
   ("ftp://", DownloadType.kFtp); ("ftps://", DownloadType.kFtps); ("sftp://", DownloadType.kSftp)].

Lemma substring_nil x : String.substring 0 0 x = EmptyString.
Proof. by destruct x. Qed.

Lemma substring_cons n c x :
  String.substring 0 (S n) (String c x) = String c (String.substring 0 n x).
Proof. done. Qed.

Lemma append_cons c x y : String c x +:+ y = String c (x +:+ y).
Proof. done. Qed.

Lemma append_nil y : EmptyString +:+ y = y.
Proof. done. Qed.

Lemma string_map_cons f c x : string_map f (String c x) = String (f c) (string_map f x).
Proof. done. Qed.

Lemma lower_app_c_str pre rest :
  ("000"%char ∉ str_chars (string_map ascii_lower pre)) →
  string_map ascii_lower (c_str (pre +:+ rest)) =
  string_map ascii_lower pre +:+ string_map ascii_lower (c_str rest).
Proof.
  induction pre as [|c pre IH]; [done|]. rewrite string_map_cons. intros Hn.
  change (str_chars (String (ascii_lower c) (string_map ascii_lower pre))) with
    (ascii_lower c :: str_chars (string_map ascii_lower pre)) in Hn.
  rewrite not_elem_of_cons in Hn. destruct Hn as [Hc Hn].
  change (String c pre +:+ rest) with (String c (pre +:+ rest)). cbn [c_str].
  rewrite bool_decide_eq_false_2 by (intros ->; by apply Hc).
  rewrite !string_map_cons, IH by done. done.
Qed.

(** A source is classified by its scheme in any letter case (unless it is
    an existing torrent file), and the class decides the engine: e-mule links,
    magnets, and the five protocols of the curl engine. *)
Theorem url_type_by_scheme `{bl : BaseLib} `{!BaseLibLaws bl} pre rest ty exists_ :
  (string_map ascii_lower pre, ty) ∈ schemes →
  exists_ && str_contains ".torrent" (pre +:+ rest) = false →
  url_type exists_ (pre +:+ rest) = ty ∧
  class_of ty = Some (match ty with
                      | DownloadType.kEd2k => KMule | DownloadType.kMagnet => KMagnet
                      | _ => KCurl end).
Proof.
  intros Hin Hex. unfold url_type. rewrite ToLowerASCII_ok, Hex.
  assert (Hcase : ∀ x, string_map ascii_lower pre = x → "000"%char ∉ str_chars x →
    string_map ascii_lower (c_str (pre +:+ rest)) = x +:+ string_map ascii_lower (c_str rest)).
  { intros x Hx Hn. rewrite lower_app_c_str by (by rewrite Hx). by rewrite Hx. }
  unfold schemes in Hin. rewrite !elem_of_cons, elem_of_nil in Hin.
  destruct_or! Hin; try done; injection Hin as Hp ->;
    (rewrite (Hcase _ Hp) by (apply (bool_decide_eq_true_1 (_ ∉ _)); vm_compute; reflexivity));
    (split; [|done]); unfold str_eqb; generalize (string_map ascii_lower (c_str rest)) as x;
    intros x; unfold substr; rewrite ?append_cons, ?append_nil, ?substring_cons, ?substring_nil;
    repeat (rewrite bool_decide_eq_false_2 by done); try done; by rewrite bool_decide_eq_true_2.
Qed.

(** ** Runs at which the claims apply *)
Lemma url_type_by_scheme_witness :
  url_type true "HTTPS://host/a.iso" = DownloadType.kHttps ∧
  class_of DownloadType.kHttps = Some KCurl.
Proof.
  apply (url_type_by_scheme "HTTPS://" "host/a.iso" DownloadType.kHttps true).
  - vm_compute. do 3 apply list_elem_of_further. apply list_elem_of_here.
  - vm_compute. reflexivity.
Defined.

(** A task of the reference run: [t1] is downloading over HTTP. *)
Definition t1_info : TaskInfo :=
  match tasks (demo false) !! "t1" with
  | Some t => default (TaskInfo_new TaskParam_init) (t_info t)
  | None => TaskInfo_new TaskParam_init
  end.
Definition t1_task : Task :=
  default (mkTask KCurl None None ContextField_init EmptyString false TaskStatus.kWaitting false false)
    (tasks (demo false) !! "t1").
Definition t1 : TS := mkTS t1_task (us_w (demo false)).

Lemma t1_listed : tasks (demo false) !! "t1" = Some t1_task.
Proof. vm_compute. reflexivity. Qed.

Lemma t1_ok : ok t1.
Proof. exact (ok_of_listed (demo false) "t1" t1_task (demo_ok false) t1_listed). Qed.

Lemma t1_impl : t_impl (ts_t t1) = Some 1%N.
Proof. vm_compute. reflexivity. Qed.

Lemma t1_has_info : t_info (ts_t t1) = Some t1_info.
Proof. vm_compute. reflexivity. Qed.

Lemma recycle_bin_roundtrip_witness :
  wp DeleteToRecycleBin (λ r s1, r = true ∧
    (status_of (ts_t s1) = status_of (ts_t t1) ∨
     (status_of (ts_t s1) = TaskStatus.kDeleted ∧
      wp TaskObj.Restore (λ r' s2, r' = true ∧
        restored (status_of (ts_t t1)) (status_of (ts_t s2))) s1))) t1.
Proof. apply recycle_bin_roundtrip. exact t1_ok. Defined.

Lemma LinkTask_progress_finishes_witness :
  wp LinkTask_UpdateProgressInfo (λ _ s', status_of (ts_t s') =
    if progress_finished (dpi_total_progress (engine_report 1%N t1_info (w_env (ts_w t1))))
    then TaskStatus.kFinished else ti_status t1_info) t1.
Proof. apply LinkTask_progress_finishes; [exact t1_ok|exact t1_impl|exact t1_has_info]. Defined.

Lemma CheckTaskIsFailed_spec_witness :
  let erred := negb (pi_err_code (ti_progress t1_info) =? DownloadErrorCode.kNormal) &&
    negb (bool_decide (ti_status t1_info ∈ [TaskStatus.kDeleted; TaskStatus.kFinished])) in
  let failed := bool_decide (ti_status t1_info = TaskStatus.kFailed) || erred in
  wp CheckTaskIsFailed (λ alive s', alive = negb failed ∧
    status_of (ts_t s') = if failed then TaskStatus.kFailed else ti_status t1_info) t1.
Proof. apply CheckTaskIsFailed_spec; [exact t1_ok|exact t1_has_info]. Defined.

(** The same file downloaded by two users: two references to its hash. *)
Definition t1_shared (n : Z) : TS :=
  mkTS t1_task (set_w_refs {["1" := n]} (us_w (demo false))).

Lemma ok_refs `{E : Env} t w r : ok (mkTS t w) → ok (mkTS t (set_w_refs r w)).
Proof. done. Qed.

Lemma t1_shared_ok n : ok (t1_shared n).
Proof. exact (ok_refs t1_task (us_w (demo false)) {["1" := n]} t1_ok). Qed.

Lemma t1_shared_impl n : t_impl (ts_t (t1_shared n)) = Some 1%N.
Proof. vm_compute. reflexivity. Qed.

Lemma t1_shared_info n : t_info (ts_t (t1_shared n)) = Some t1_info.
Proof. vm_compute. reflexivity. Qed.

Lemma Cancel_keeps_shared_data_witness :
  wp (Cancel true) (λ r s', r = true ∧
    w_env (ts_w s') = (i_GetTaskHash 1%N (w_env (ts_w (t1_shared 2)))).2 ∧
    w_refs (ts_w s') =
      <[engine_hash 1%N (w_env (ts_w (t1_shared 2))) := 2 - 1]> (w_refs (ts_w (t1_shared 2))))
    (t1_shared 2).
Proof.
  apply (Cancel_keeps_shared_data true (t1_shared 2) 1%N t1_info 2);
    [exact (t1_shared_ok 2)|exact (t1_shared_impl 2)|exact (t1_shared_info 2)|vm_compute; reflexivity|lia].
Defined.

Lemma Cancel_last_deletes_witness :
  wp (Cancel true) (λ r s', r = true ∧ w_env (ts_w s') = w_env (ts_w (t1_shared 1)) ∧
    (true = true → status_of (ts_t s') = TaskStatus.kCompletedDeleted ∧
       w_refs (ts_w s') = delete (engine_hash 1%N (w_env (ts_w (t1_shared 1))))
                            (w_refs (ts_w (t1_shared 1))))) (t1_shared 1).
Proof.
  apply (Cancel_last_deletes true (t1_shared 1) 1%N t1_info 1);
    [exact (t1_shared_ok 1)|exact (t1_shared_impl 1)|exact (t1_shared_info 1)|vm_compute; reflexivity|
     vm_compute; discriminate|vm_compute; reflexivity|lia].
Defined.

(** A torrent task made by the factory. *)
Definition torrent_request : CreateTorrentRequest :=
  mkTorrentRequest "b1" "magnet:?xt=urn:btih:c9e15763f722f23e98a29decdfae341b98d53056"
    "/data/alice/download" "bundle" false [].
Definition bt_state : US := after (CreateTorrentTask torrent_request demo_cf) (demo false).
Definition b1_task : Task := default t1_task (tasks bt_state !! "b1").
Definition b1 : TS := mkTS b1_task (us_w bt_state).

Lemma bt_state_ok : mok bt_state.
Proof.
  unfold bt_state. apply after_wp. eapply wp_mono; [apply CreateTorrentTask_grows|].
  - apply demo_ok.
  - split; [vm_compute; reflexivity|]. apply Forall_singleton. split; [|vm_compute; discriminate].
    split; [vm_compute; reflexivity|]. intros _. split_and!; [by eexists|..];
      apply Nat.leb_le; vm_compute; reflexivity.
  - by intros ? s' (? & _).
Qed.

Lemma b1_ok : ok b1.
Proof. apply (ok_of_listed bt_state "b1" b1_task bt_state_ok). vm_compute. reflexivity. Qed.

Lemma b1_impl : t_impl (ts_t b1) = Some 4%N.
Proof. vm_compute. reflexivity. Qed.

Lemma BtTaskBase_Start_never_fails_witness :
  wp Start (λ err _, err = DownloadErrorCode.kNormal) b1.
Proof. apply BtTaskBase_Start_never_fails; [exact b1_ok|vm_compute; reflexivity]. Defined.

Definition b1_info : TaskInfo := default t1_info (t_info b1_task).

Lemma SetDownloadParam_defined_iff_witness :
  (∃ r, BtTaskBase_SetDownloadParam b1 = Some r) ↔ bt_param_ok (ti_param b1_info).
Proof. apply (SetDownloadParam_defined_iff b1 4%N); vm_compute; reflexivity. Defined.

Lemma CheckSeedingLimits_spec_witness :
  let c := w_cfg (ts_w b1) in
  let ratio := share_ratio c 4%N (w_env (ts_w b1)) in
  wp CheckSeedingLimits (λ reached _, reached = true ↔
    (IsShareRatioLimit c = true ∧ GetShareRatioLimitValue c <= ratio.1) ∨
    (IsSeedingTimeLimit c = true ∧ GetSeedingTimeLimitValue c * 60 <= seeding_time c 4%N ratio.2)) b1.
Proof. exact (CheckSeedingLimits_spec b1 4%N b1_ok b1_impl). Defined.
