(* ===== verification/Base64Tables.v ===== *)
(** * [common/encrypt/base64/base64.cc]: the lookup tables

    The three encoding tables and the decoding tables of both byte orders, as
    the source lists them; [dN] are the little-endian tables, [be_dN] those
    under [WORDS_BIGENDIAN]. *)

From S2P Require Import Prelude CppBase.

(** The bytes of a string. *)
Definition byte_of (c : ascii) : Z := Z.of_N (N_of_ascii c).
Definition str_bytes (s : string) : list Z := byte_of <$> str_chars s.

Definition e0 : list Z := str_bytes
  ("AAAABBBBCCCCDDDDEEEEFFFFGGGGHHHHIIIIJJJJKKKKLLLLMMMMNNNNOOOOPPPP"
   +:+ "QQQQRRRRSSSSTTTTUUUUVVVVWWWWXXXXYYYYZZZZaaaabbbbccccddddeeeeffff"
   +:+ "gggghhhhiiiijjjjkkkkllllmmmmnnnnooooppppqqqqrrrrssssttttuuuuvvvv"
   +:+ "wwwwxxxxyyyyzzzz0000111122223333444455556666777788889999++++////").

Definition e1 : list Z := str_bytes
  ("ABCDEFGHIJKLMNOPQRSTUVWXYZabcdefghijklmnopqrstuvwxyz0123456789+/"
   +:+ "ABCDEFGHIJKLMNOPQRSTUVWXYZabcdefghijklmnopqrstuvwxyz0123456789+/"
   +:+ "ABCDEFGHIJKLMNOPQRSTUVWXYZabcdefghijklmnopqrstuvwxyz0123456789+/"
   +:+ "ABCDEFGHIJKLMNOPQRSTUVWXYZabcdefghijklmnopqrstuvwxyz0123456789+/").

Definition e2 : list Z := str_bytes
  ("ABCDEFGHIJKLMNOPQRSTUVWXYZabcdefghijklmnopqrstuvwxyz0123456789+/"
   +:+ "ABCDEFGHIJKLMNOPQRSTUVWXYZabcdefghijklmnopqrstuvwxyz0123456789+/"
   +:+ "ABCDEFGHIJKLMNOPQRSTUVWXYZabcdefghijklmnopqrstuvwxyz0123456789+/"
   +:+ "ABCDEFGHIJKLMNOPQRSTUVWXYZabcdefghijklmnopqrstuvwxyz0123456789+/").

Definition be_d0 : list Z :=
  [0x1ffffff; 0x1ffffff; 0x1ffffff; 0x1ffffff; 0x1ffffff; 0x1ffffff; 0x1ffffff; 0x1ffffff;
   0x1ffffff; 0x1ffffff; 0x1ffffff; 0x1ffffff; 0x1ffffff; 0x1ffffff; 0x1ffffff; 0x1ffffff;
   0x1ffffff; 0x1ffffff; 0x1ffffff; 0x1ffffff; 0x1ffffff; 0x1ffffff; 0x1ffffff; 0x1ffffff;
   0x1ffffff; 0x1ffffff; 0x1ffffff; 0x1ffffff; 0x1ffffff; 0x1ffffff; 0x1ffffff; 0x1ffffff;
   0x1ffffff; 0x1ffffff; 0x1ffffff; 0x1ffffff; 0x1ffffff; 0x1ffffff; 0x1ffffff; 0x1ffffff;
   0x1ffffff; 0x1ffffff; 0x1ffffff; 0xf80000; 0x1ffffff; 0x1ffffff; 0x1ffffff; 0xfc0000;
   0xd00000; 0xd40000; 0xd80000; 0xdc0000; 0xe00000; 0xe40000; 0xe80000; 0xec0000;
   0xf00000; 0xf40000; 0x1ffffff; 0x1ffffff; 0x1ffffff; 0x1ffffff; 0x1ffffff; 0x1ffffff;
   0x1ffffff; 0x0; 0x40000; 0x80000; 0xc0000; 0x100000; 0x140000; 0x180000;
   0x1c0000; 0x200000; 0x240000; 0x280000; 0x2c0000; 0x300000; 0x340000; 0x380000;
   0x3c0000; 0x400000; 0x440000; 0x480000; 0x4c0000; 0x500000; 0x540000; 0x580000;
   0x5c0000; 0x600000; 0x640000; 0x1ffffff; 0x1ffffff; 0x1ffffff; 0x1ffffff; 0x1ffffff;
   0x1ffffff; 0x680000; 0x6c0000; 0x700000; 0x740000; 0x780000; 0x7c0000; 0x800000;
   0x840000; 0x880000; 0x8c0000; 0x900000; 0x940000; 0x980000; 0x9c0000; 0xa00000;
   0xa40000; 0xa80000; 0xac0000; 0xb00000; 0xb40000; 0xb80000; 0xbc0000; 0xc00000;
   0xc40000; 0xc80000; 0xcc0000; 0x1ffffff; 0x1ffffff; 0x1ffffff; 0x1ffffff; 0x1ffffff;
   0x1ffffff; 0x1ffffff; 0x1ffffff; 0x1ffffff; 0x1ffffff; 0x1ffffff; 0x1ffffff; 0x1ffffff;
   0x1ffffff; 0x1ffffff; 0x1ffffff; 0x1ffffff; 0x1ffffff; 0x1ffffff; 0x1ffffff; 0x1ffffff;
   0x1ffffff; 0x1ffffff; 0x1ffffff; 0x1ffffff; 0x1ffffff; 0x1ffffff; 0x1ffffff; 0x1ffffff;
   0x1ffffff; 0x1ffffff; 0x1ffffff; 0x1ffffff; 0x1ffffff; 0x1ffffff; 0x1ffffff; 0x1ffffff;
   0x1ffffff; 0x1ffffff; 0x1ffffff; 0x1ffffff; 0x1ffffff; 0x1ffffff; 0x1ffffff; 0x1ffffff;
   0x1ffffff; 0x1ffffff; 0x1ffffff; 0x1ffffff; 0x1ffffff; 0x1ffffff; 0x1ffffff; 0x1ffffff;
   0x1ffffff; 0x1ffffff; 0x1ffffff; 0x1ffffff; 0x1ffffff; 0x1ffffff; 0x1ffffff; 0x1ffffff;
   0x1ffffff; 0x1ffffff; 0x1ffffff; 0x1ffffff; 0x1ffffff; 0x1ffffff; 0x1ffffff; 0x1ffffff;
   0x1ffffff; 0x1ffffff; 0x1ffffff; 0x1ffffff; 0x1ffffff; 0x1ffffff; 0x1ffffff; 0x1ffffff;
   0x1ffffff; 0x1ffffff; 0x1ffffff; 0x1ffffff; 0x1ffffff; 0x1ffffff; 0x1ffffff; 0x1ffffff;
   0x1ffffff; 0x1ffffff; 0x1ffffff; 0x1ffffff; 0x1ffffff; 0x1ffffff; 0x1ffffff; 0x1ffffff;
   0x1ffffff; 0x1ffffff; 0x1ffffff; 0x1ffffff; 0x1ffffff; 0x1ffffff; 0x1ffffff; 0x1ffffff;
   0x1ffffff; 0x1ffffff; 0x1ffffff; 0x1ffffff; 0x1ffffff; 0x1ffffff; 0x1ffffff; 0x1ffffff;
   0x1ffffff; 0x1ffffff; 0x1ffffff; 0x1ffffff; 0x1ffffff; 0x1ffffff; 0x1ffffff; 0x1ffffff;
   0x1ffffff; 0x1ffffff; 0x1ffffff; 0x1ffffff; 0x1ffffff; 0x1ffffff; 0x1ffffff; 0x1ffffff;
   0x1ffffff; 0x1ffffff; 0x1ffffff; 0x1ffffff; 0x1ffffff; 0x1ffffff; 0x1ffffff; 0x1ffffff].

Definition be_d1 : list Z :=
  [0x1ffffff; 0x1ffffff; 0x1ffffff; 0x1ffffff; 0x1ffffff; 0x1ffffff; 0x1ffffff; 0x1ffffff;
   0x1ffffff; 0x1ffffff; 0x1ffffff; 0x1ffffff; 0x1ffffff; 0x1ffffff; 0x1ffffff; 0x1ffffff;
   0x1ffffff; 0x1ffffff; 0x1ffffff; 0x1ffffff; 0x1ffffff; 0x1ffffff; 0x1ffffff; 0x1ffffff;
   0x1ffffff; 0x1ffffff; 0x1ffffff; 0x1ffffff; 0x1ffffff; 0x1ffffff; 0x1ffffff; 0x1ffffff;
   0x1ffffff; 0x1ffffff; 0x1ffffff; 0x1ffffff; 0x1ffffff; 0x1ffffff; 0x1ffffff; 0x1ffffff;
   0x1ffffff; 0x1ffffff; 0x1ffffff; 0x3e000; 0x1ffffff; 0x1ffffff; 0x1ffffff; 0x3f000;
   0x34000; 0x35000; 0x36000; 0x37000; 0x38000; 0x39000; 0x3a000; 0x3b000;
   0x3c000; 0x3d000; 0x1ffffff; 0x1ffffff; 0x1ffffff; 0x1ffffff; 0x1ffffff; 0x1ffffff;
   0x1ffffff; 0x0; 0x1000; 0x2000; 0x3000; 0x4000; 0x5000; 0x6000;
   0x7000; 0x8000; 0x9000; 0xa000; 0xb000; 0xc000; 0xd000; 0xe000;
   0xf000; 0x10000; 0x11000; 0x12000; 0x13000; 0x14000; 0x15000; 0x16000;
   0x17000; 0x18000; 0x19000; 0x1ffffff; 0x1ffffff; 0x1ffffff; 0x1ffffff; 0x1ffffff;
   0x1ffffff; 0x1a000; 0x1b000; 0x1c000; 0x1d000; 0x1e000; 0x1f000; 0x20000;
   0x21000; 0x22000; 0x23000; 0x24000; 0x25000; 0x26000; 0x27000; 0x28000;
   0x29000; 0x2a000; 0x2b000; 0x2c000; 0x2d000; 0x2e000; 0x2f000; 0x30000;
   0x31000; 0x32000; 0x33000; 0x1ffffff; 0x1ffffff; 0x1ffffff; 0x1ffffff; 0x1ffffff;
   0x1ffffff; 0x1ffffff; 0x1ffffff; 0x1ffffff; 0x1ffffff; 0x1ffffff; 0x1ffffff; 0x1ffffff;
   0x1ffffff; 0x1ffffff; 0x1ffffff; 0x1ffffff; 0x1ffffff; 0x1ffffff; 0x1ffffff; 0x1ffffff;
   0x1ffffff; 0x1ffffff; 0x1ffffff; 0x1ffffff; 0x1ffffff; 0x1ffffff; 0x1ffffff; 0x1ffffff;
   0x1ffffff; 0x1ffffff; 0x1ffffff; 0x1ffffff; 0x1ffffff; 0x1ffffff; 0x1ffffff; 0x1ffffff;
   0x1ffffff; 0x1ffffff; 0x1ffffff; 0x1ffffff; 0x1ffffff; 0x1ffffff; 0x1ffffff; 0x1ffffff;
   0x1ffffff; 0x1ffffff; 0x1ffffff; 0x1ffffff; 0x1ffffff; 0x1ffffff; 0x1ffffff; 0x1ffffff;
   0x1ffffff; 0x1ffffff; 0x1ffffff; 0x1ffffff; 0x1ffffff; 0x1ffffff; 0x1ffffff; 0x1ffffff;
   0x1ffffff; 0x1ffffff; 0x1ffffff; 0x1ffffff; 0x1ffffff; 0x1ffffff; 0x1ffffff; 0x1ffffff;
   0x1ffffff; 0x1ffffff; 0x1ffffff; 0x1ffffff; 0x1ffffff; 0x1ffffff; 0x1ffffff; 0x1ffffff;
   0x1ffffff; 0x1ffffff; 0x1ffffff; 0x1ffffff; 0x1ffffff; 0x1ffffff; 0x1ffffff; 0x1ffffff;
   0x1ffffff; 0x1ffffff; 0x1ffffff; 0x1ffffff; 0x1ffffff; 0x1ffffff; 0x1ffffff; 0x1ffffff;
   0x1ffffff; 0x1ffffff; 0x1ffffff; 0x1ffffff; 0x1ffffff; 0x1ffffff; 0x1ffffff; 0x1ffffff;
   0x1ffffff; 0x1ffffff; 0x1ffffff; 0x1ffffff; 0x1ffffff; 0x1ffffff; 0x1ffffff; 0x1ffffff;
   0x1ffffff; 0x1ffffff; 0x1ffffff; 0x1ffffff; 0x1ffffff; 0x1ffffff; 0x1ffffff; 0x1ffffff;
   0x1ffffff; 0x1ffffff; 0x1ffffff; 0x1ffffff; 0x1ffffff; 0x1ffffff; 0x1ffffff; 0x1ffffff;
   0x1ffffff; 0x1ffffff; 0x1ffffff; 0x1ffffff; 0x1ffffff; 0x1ffffff; 0x1ffffff; 0x1ffffff].

Definition be_d2 : list Z :=
  [0x1ffffff; 0x1ffffff; 0x1ffffff; 0x1ffffff; 0x1ffffff; 0x1ffffff; 0x1ffffff; 0x1ffffff;
   0x1ffffff; 0x1ffffff; 0x1ffffff; 0x1ffffff; 0x1ffffff; 0x1ffffff; 0x1ffffff; 0x1ffffff;
   0x1ffffff; 0x1ffffff; 0x1ffffff; 0x1ffffff; 0x1ffffff; 0x1ffffff; 0x1ffffff; 0x1ffffff;
   0x1ffffff; 0x1ffffff; 0x1ffffff; 0x1ffffff; 0x1ffffff; 0x1ffffff; 0x1ffffff; 0x1ffffff;
   0x1ffffff; 0x1ffffff; 0x1ffffff; 0x1ffffff; 0x1ffffff; 0x1ffffff; 0x1ffffff; 0x1ffffff;
   0x1ffffff; 0x1ffffff; 0x1ffffff; 0xf80; 0x1ffffff; 0x1ffffff; 0x1ffffff; 0xfc0;
   0xd00; 0xd40; 0xd80; 0xdc0; 0xe00; 0xe40; 0xe80; 0xec0;
   0xf00; 0xf40; 0x1ffffff; 0x1ffffff; 0x1ffffff; 0x1ffffff; 0x1ffffff; 0x1ffffff;
   0x1ffffff; 0x0; 0x40; 0x80; 0xc0; 0x100; 0x140; 0x180;
   0x1c0; 0x200; 0x240; 0x280; 0x2c0; 0x300; 0x340; 0x380;
   0x3c0; 0x400; 0x440; 0x480; 0x4c0; 0x500; 0x540; 0x580;
   0x5c0; 0x600; 0x640; 0x1ffffff; 0x1ffffff; 0x1ffffff; 0x1ffffff; 0x1ffffff;
   0x1ffffff; 0x680; 0x6c0; 0x700; 0x740; 0x780; 0x7c0; 0x800;
   0x840; 0x880; 0x8c0; 0x900; 0x940; 0x980; 0x9c0; 0xa00;
   0xa40; 0xa80; 0xac0; 0xb00; 0xb40; 0xb80; 0xbc0; 0xc00;
   0xc40; 0xc80; 0xcc0; 0x1ffffff; 0x1ffffff; 0x1ffffff; 0x1ffffff; 0x1ffffff;
   0x1ffffff; 0x1ffffff; 0x1ffffff; 0x1ffffff; 0x1ffffff; 0x1ffffff; 0x1ffffff; 0x1ffffff;
   0x1ffffff; 0x1ffffff; 0x1ffffff; 0x1ffffff; 0x1ffffff; 0x1ffffff; 0x1ffffff; 0x1ffffff;
   0x1ffffff; 0x1ffffff; 0x1ffffff; 0x1ffffff; 0x1ffffff; 0x1ffffff; 0x1ffffff; 0x1ffffff;
   0x1ffffff; 0x1ffffff; 0x1ffffff; 0x1ffffff; 0x1ffffff; 0x1ffffff; 0x1ffffff; 0x1ffffff;
   0x1ffffff; 0x1ffffff; 0x1ffffff; 0x1ffffff; 0x1ffffff; 0x1ffffff; 0x1ffffff; 0x1ffffff;
   0x1ffffff; 0x1ffffff; 0x1ffffff; 0x1ffffff; 0x1ffffff; 0x1ffffff; 0x1ffffff; 0x1ffffff;
   0x1ffffff; 0x1ffffff; 0x1ffffff; 0x1ffffff; 0x1ffffff; 0x1ffffff; 0x1ffffff; 0x1ffffff;
   0x1ffffff; 0x1ffffff; 0x1ffffff; 0x1ffffff; 0x1ffffff; 0x1ffffff; 0x1ffffff; 0x1ffffff;
   0x1ffffff; 0x1ffffff; 0x1ffffff; 0x1ffffff; 0x1ffffff; 0x1ffffff; 0x1ffffff; 0x1ffffff;
   0x1ffffff; 0x1ffffff; 0x1ffffff; 0x1ffffff; 0x1ffffff; 0x1ffffff; 0x1ffffff; 0x1ffffff;
   0x1ffffff; 0x1ffffff; 0x1ffffff; 0x1ffffff; 0x1ffffff; 0x1ffffff; 0x1ffffff; 0x1ffffff;
   0x1ffffff; 0x1ffffff; 0x1ffffff; 0x1ffffff; 0x1ffffff; 0x1ffffff; 0x1ffffff; 0x1ffffff;
   0x1ffffff; 0x1ffffff; 0x1ffffff; 0x1ffffff; 0x1ffffff; 0x1ffffff; 0x1ffffff; 0x1ffffff;
   0x1ffffff; 0x1ffffff; 0x1ffffff; 0x1ffffff; 0x1ffffff; 0x1ffffff; 0x1ffffff; 0x1ffffff;
   0x1ffffff; 0x1ffffff; 0x1ffffff; 0x1ffffff; 0x1ffffff; 0x1ffffff; 0x1ffffff; 0x1ffffff;
   0x1ffffff; 0x1ffffff; 0x1ffffff; 0x1ffffff; 0x1ffffff; 0x1ffffff; 0x1ffffff; 0x1ffffff].

Definition be_d3 : list Z :=
  [0x1ffffff; 0x1ffffff; 0x1ffffff; 0x1ffffff; 0x1ffffff; 0x1ffffff; 0x1ffffff; 0x1ffffff;
   0x1ffffff; 0x1ffffff; 0x1ffffff; 0x1ffffff; 0x1ffffff; 0x1ffffff; 0x1ffffff; 0x1ffffff;
   0x1ffffff; 0x1ffffff; 0x1ffffff; 0x1ffffff; 0x1ffffff; 0x1ffffff; 0x1ffffff; 0x1ffffff;
   0x1ffffff; 0x1ffffff; 0x1ffffff; 0x1ffffff; 0x1ffffff; 0x1ffffff; 0x1ffffff; 0x1ffffff;
   0x1ffffff; 0x1ffffff; 0x1ffffff; 0x1ffffff; 0x1ffffff; 0x1ffffff; 0x1ffffff; 0x1ffffff;
   0x1ffffff; 0x1ffffff; 0x1ffffff; 0x3e; 0x1ffffff; 0x1ffffff; 0x1ffffff; 0x3f;
   0x34; 0x35; 0x36; 0x37; 0x38; 0x39; 0x3a; 0x3b;
   0x3c; 0x3d; 0x1ffffff; 0x1ffffff; 0x1ffffff; 0x1ffffff; 0x1ffffff; 0x1ffffff;
   0x1ffffff; 0x0; 0x1; 0x2; 0x3; 0x4; 0x5; 0x6;
   0x7; 0x8; 0x9; 0xa; 0xb; 0xc; 0xd; 0xe;
   0xf; 0x10; 0x11; 0x12; 0x13; 0x14; 0x15; 0x16;
   0x17; 0x18; 0x19; 0x1ffffff; 0x1ffffff; 0x1ffffff; 0x1ffffff; 0x1ffffff;
   0x1ffffff; 0x1a; 0x1b; 0x1c; 0x1d; 0x1e; 0x1f; 0x20;
   0x21; 0x22; 0x23; 0x24; 0x25; 0x26; 0x27; 0x28;
   0x29; 0x2a; 0x2b; 0x2c; 0x2d; 0x2e; 0x2f; 0x30;
   0x31; 0x32; 0x33; 0x1ffffff; 0x1ffffff; 0x1ffffff; 0x1ffffff; 0x1ffffff;
   0x1ffffff; 0x1ffffff; 0x1ffffff; 0x1ffffff; 0x1ffffff; 0x1ffffff; 0x1ffffff; 0x1ffffff;
   0x1ffffff; 0x1ffffff; 0x1ffffff; 0x1ffffff; 0x1ffffff; 0x1ffffff; 0x1ffffff; 0x1ffffff;
   0x1ffffff; 0x1ffffff; 0x1ffffff; 0x1ffffff; 0x1ffffff; 0x1ffffff; 0x1ffffff; 0x1ffffff;
   0x1ffffff; 0x1ffffff; 0x1ffffff; 0x1ffffff; 0x1ffffff; 0x1ffffff; 0x1ffffff; 0x1ffffff;
   0x1ffffff; 0x1ffffff; 0x1ffffff; 0x1ffffff; 0x1ffffff; 0x1ffffff; 0x1ffffff; 0x1ffffff;
   0x1ffffff; 0x1ffffff; 0x1ffffff; 0x1ffffff; 0x1ffffff; 0x1ffffff; 0x1ffffff; 0x1ffffff;
   0x1ffffff; 0x1ffffff; 0x1ffffff; 0x1ffffff; 0x1ffffff; 0x1ffffff; 0x1ffffff; 0x1ffffff;
   0x1ffffff; 0x1ffffff; 0x1ffffff; 0x1ffffff; 0x1ffffff; 0x1ffffff; 0x1ffffff; 0x1ffffff;
   0x1ffffff; 0x1ffffff; 0x1ffffff; 0x1ffffff; 0x1ffffff; 0x1ffffff; 0x1ffffff; 0x1ffffff;
   0x1ffffff; 0x1ffffff; 0x1ffffff; 0x1ffffff; 0x1ffffff; 0x1ffffff; 0x1ffffff; 0x1ffffff;
   0x1ffffff; 0x1ffffff; 0x1ffffff; 0x1ffffff; 0x1ffffff; 0x1ffffff; 0x1ffffff; 0x1ffffff;
   0x1ffffff; 0x1ffffff; 0x1ffffff; 0x1ffffff; 0x1ffffff; 0x1ffffff; 0x1ffffff; 0x1ffffff;
   0x1ffffff; 0x1ffffff; 0x1ffffff; 0x1ffffff; 0x1ffffff; 0x1ffffff; 0x1ffffff; 0x1ffffff;
   0x1ffffff; 0x1ffffff; 0x1ffffff; 0x1ffffff; 0x1ffffff; 0x1ffffff; 0x1ffffff; 0x1ffffff;
   0x1ffffff; 0x1ffffff; 0x1ffffff; 0x1ffffff; 0x1ffffff; 0x1ffffff; 0x1ffffff; 0x1ffffff;
   0x1ffffff; 0x1ffffff; 0x1ffffff; 0x1ffffff; 0x1ffffff; 0x1ffffff; 0x1ffffff; 0x1ffffff].

Definition d0 : list Z :=
  [0x1ffffff; 0x1ffffff; 0x1ffffff; 0x1ffffff; 0x1ffffff; 0x1ffffff; 0x1ffffff; 0x1ffffff;
   0x1ffffff; 0x1ffffff; 0x1ffffff; 0x1ffffff; 0x1ffffff; 0x1ffffff; 0x1ffffff; 0x1ffffff;
   0x1ffffff; 0x1ffffff; 0x1ffffff; 0x1ffffff; 0x1ffffff; 0x1ffffff; 0x1ffffff; 0x1ffffff;
   0x1ffffff; 0x1ffffff; 0x1ffffff; 0x1ffffff; 0x1ffffff; 0x1ffffff; 0x1ffffff; 0x1ffffff;
   0x1ffffff; 0x1ffffff; 0x1ffffff; 0x1ffffff; 0x1ffffff; 0x1ffffff; 0x1ffffff; 0x1ffffff;
   0x1ffffff; 0x1ffffff; 0x1ffffff; 0xf8; 0x1ffffff; 0x1ffffff; 0x1ffffff; 0xfc;
   0xd0; 0xd4; 0xd8; 0xdc; 0xe0; 0xe4; 0xe8; 0xec;
   0xf0; 0xf4; 0x1ffffff; 0x1ffffff; 0x1ffffff; 0x1ffffff; 0x1ffffff; 0x1ffffff;
   0x1ffffff; 0x0; 0x4; 0x8; 0xc; 0x10; 0x14; 0x18;
   0x1c; 0x20; 0x24; 0x28; 0x2c; 0x30; 0x34; 0x38;
   0x3c; 0x40; 0x44; 0x48; 0x4c; 0x50; 0x54; 0x58;
   0x5c; 0x60; 0x64; 0x1ffffff; 0x1ffffff; 0x1ffffff; 0x1ffffff; 0x1ffffff;
   0x1ffffff; 0x68; 0x6c; 0x70; 0x74; 0x78; 0x7c; 0x80;
   0x84; 0x88; 0x8c; 0x90; 0x94; 0x98; 0x9c; 0xa0;
   0xa4; 0xa8; 0xac; 0xb0; 0xb4; 0xb8; 0xbc; 0xc0;
   0xc4; 0xc8; 0xcc; 0x1ffffff; 0x1ffffff; 0x1ffffff; 0x1ffffff; 0x1ffffff;
   0x1ffffff; 0x1ffffff; 0x1ffffff; 0x1ffffff; 0x1ffffff; 0x1ffffff; 0x1ffffff; 0x1ffffff;
   0x1ffffff; 0x1ffffff; 0x1ffffff; 0x1ffffff; 0x1ffffff; 0x1ffffff; 0x1ffffff; 0x1ffffff;
   0x1ffffff; 0x1ffffff; 0x1ffffff; 0x1ffffff; 0x1ffffff; 0x1ffffff; 0x1ffffff; 0x1ffffff;
   0x1ffffff; 0x1ffffff; 0x1ffffff; 0x1ffffff; 0x1ffffff; 0x1ffffff; 0x1ffffff; 0x1ffffff;
   0x1ffffff; 0x1ffffff; 0x1ffffff; 0x1ffffff; 0x1ffffff; 0x1ffffff; 0x1ffffff; 0x1ffffff;
   0x1ffffff; 0x1ffffff; 0x1ffffff; 0x1ffffff; 0x1ffffff; 0x1ffffff; 0x1ffffff; 0x1ffffff;
   0x1ffffff; 0x1ffffff; 0x1ffffff; 0x1ffffff; 0x1ffffff; 0x1ffffff; 0x1ffffff; 0x1ffffff;
   0x1ffffff; 0x1ffffff; 0x1ffffff; 0x1ffffff; 0x1ffffff; 0x1ffffff; 0x1ffffff; 0x1ffffff;
   0x1ffffff; 0x1ffffff; 0x1ffffff; 0x1ffffff; 0x1ffffff; 0x1ffffff; 0x1ffffff; 0x1ffffff;
   0x1ffffff; 0x1ffffff; 0x1ffffff; 0x1ffffff; 0x1ffffff; 0x1ffffff; 0x1ffffff; 0x1ffffff;
   0x1ffffff; 0x1ffffff; 0x1ffffff; 0x1ffffff; 0x1ffffff; 0x1ffffff; 0x1ffffff; 0x1ffffff;
   0x1ffffff; 0x1ffffff; 0x1ffffff; 0x1ffffff; 0x1ffffff; 0x1ffffff; 0x1ffffff; 0x1ffffff;
   0x1ffffff; 0x1ffffff; 0x1ffffff; 0x1ffffff; 0x1ffffff; 0x1ffffff; 0x1ffffff; 0x1ffffff;
   0x1ffffff; 0x1ffffff; 0x1ffffff; 0x1ffffff; 0x1ffffff; 0x1ffffff; 0x1ffffff; 0x1ffffff;
   0x1ffffff; 0x1ffffff; 0x1ffffff; 0x1ffffff; 0x1ffffff; 0x1ffffff; 0x1ffffff; 0x1ffffff;
   0x1ffffff; 0x1ffffff; 0x1ffffff; 0x1ffffff; 0x1ffffff; 0x1ffffff; 0x1ffffff; 0x1ffffff].

Definition d1 : list Z :=
  [0x1ffffff; 0x1ffffff; 0x1ffffff; 0x1ffffff; 0x1ffffff; 0x1ffffff; 0x1ffffff; 0x1ffffff;
   0x1ffffff; 0x1ffffff; 0x1ffffff; 0x1ffffff; 0x1ffffff; 0x1ffffff; 0x1ffffff; 0x1ffffff;
   0x1ffffff; 0x1ffffff; 0x1ffffff; 0x1ffffff; 0x1ffffff; 0x1ffffff; 0x1ffffff; 0x1ffffff;
   0x1ffffff; 0x1ffffff; 0x1ffffff; 0x1ffffff; 0x1ffffff; 0x1ffffff; 0x1ffffff; 0x1ffffff;
   0x1ffffff; 0x1ffffff; 0x1ffffff; 0x1ffffff; 0x1ffffff; 0x1ffffff; 0x1ffffff; 0x1ffffff;
   0x1ffffff; 0x1ffffff; 0x1ffffff; 0xe003; 0x1ffffff; 0x1ffffff; 0x1ffffff; 0xf003;
   0x4003; 0x5003; 0x6003; 0x7003; 0x8003; 0x9003; 0xa003; 0xb003;
   0xc003; 0xd003; 0x1ffffff; 0x1ffffff; 0x1ffffff; 0x1ffffff; 0x1ffffff; 0x1ffffff;
   0x1ffffff; 0x0; 0x1000; 0x2000; 0x3000; 0x4000; 0x5000; 0x6000;
   0x7000; 0x8000; 0x9000; 0xa000; 0xb000; 0xc000; 0xd000; 0xe000;
   0xf000; 0x1; 0x1001; 0x2001; 0x3001; 0x4001; 0x5001; 0x6001;
   0x7001; 0x8001; 0x9001; 0x1ffffff; 0x1ffffff; 0x1ffffff; 0x1ffffff; 0x1ffffff;
   0x1ffffff; 0xa001; 0xb001; 0xc001; 0xd001; 0xe001; 0xf001; 0x2;
   0x1002; 0x2002; 0x3002; 0x4002; 0x5002; 0x6002; 0x7002; 0x8002;
   0x9002; 0xa002; 0xb002; 0xc002; 0xd002; 0xe002; 0xf002; 0x3;
   0x1003; 0x2003; 0x3003; 0x1ffffff; 0x1ffffff; 0x1ffffff; 0x1ffffff; 0x1ffffff;
   0x1ffffff; 0x1ffffff; 0x1ffffff; 0x1ffffff; 0x1ffffff; 0x1ffffff; 0x1ffffff; 0x1ffffff;
   0x1ffffff; 0x1ffffff; 0x1ffffff; 0x1ffffff; 0x1ffffff; 0x1ffffff; 0x1ffffff; 0x1ffffff;
   0x1ffffff; 0x1ffffff; 0x1ffffff; 0x1ffffff; 0x1ffffff; 0x1ffffff; 0x1ffffff; 0x1ffffff;
   0x1ffffff; 0x1ffffff; 0x1ffffff; 0x1ffffff; 0x1ffffff; 0x1ffffff; 0x1ffffff; 0x1ffffff;
   0x1ffffff; 0x1ffffff; 0x1ffffff; 0x1ffffff; 0x1ffffff; 0x1ffffff; 0x1ffffff; 0x1ffffff;
   0x1ffffff; 0x1ffffff; 0x1ffffff; 0x1ffffff; 0x1ffffff; 0x1ffffff; 0x1ffffff; 0x1ffffff;
   0x1ffffff; 0x1ffffff; 0x1ffffff; 0x1ffffff; 0x1ffffff; 0x1ffffff; 0x1ffffff; 0x1ffffff;
   0x1ffffff; 0x1ffffff; 0x1ffffff; 0x1ffffff; 0x1ffffff; 0x1ffffff; 0x1ffffff; 0x1ffffff;
   0x1ffffff; 0x1ffffff; 0x1ffffff; 0x1ffffff; 0x1ffffff; 0x1ffffff; 0x1ffffff; 0x1ffffff;
   0x1ffffff; 0x1ffffff; 0x1ffffff; 0x1ffffff; 0x1ffffff; 0x1ffffff; 0x1ffffff; 0x1ffffff;
   0x1ffffff; 0x1ffffff; 0x1ffffff; 0x1ffffff; 0x1ffffff; 0x1ffffff; 0x1ffffff; 0x1ffffff;
   0x1ffffff; 0x1ffffff; 0x1ffffff; 0x1ffffff; 0x1ffffff; 0x1ffffff; 0x1ffffff; 0x1ffffff;
   0x1ffffff; 0x1ffffff; 0x1ffffff; 0x1ffffff; 0x1ffffff; 0x1ffffff; 0x1ffffff; 0x1ffffff;
   0x1ffffff; 0x1ffffff; 0x1ffffff; 0x1ffffff; 0x1ffffff; 0x1ffffff; 0x1ffffff; 0x1ffffff;
   0x1ffffff; 0x1ffffff; 0x1ffffff; 0x1ffffff; 0x1ffffff; 0x1ffffff; 0x1ffffff; 0x1ffffff;
   0x1ffffff; 0x1ffffff; 0x1ffffff; 0x1ffffff; 0x1ffffff; 0x1ffffff; 0x1ffffff; 0x1ffffff].

Definition d2 : list Z :=
  [0x1ffffff; 0x1ffffff; 0x1ffffff; 0x1ffffff; 0x1ffffff; 0x1ffffff; 0x1ffffff; 0x1ffffff;
   0x1ffffff; 0x1ffffff; 0x1ffffff; 0x1ffffff; 0x1ffffff; 0x1ffffff; 0x1ffffff; 0x1ffffff;
   0x1ffffff; 0x1ffffff; 0x1ffffff; 0x1ffffff; 0x1ffffff; 0x1ffffff; 0x1ffffff; 0x1ffffff;
   0x1ffffff; 0x1ffffff; 0x1ffffff; 0x1ffffff; 0x1ffffff; 0x1ffffff; 0x1ffffff; 0x1ffffff;
   0x1ffffff; 0x1ffffff; 0x1ffffff; 0x1ffffff; 0x1ffffff; 0x1ffffff; 0x1ffffff; 0x1ffffff;
   0x1ffffff; 0x1ffffff; 0x1ffffff; 0x800f00; 0x1ffffff; 0x1ffffff; 0x1ffffff; 0xc00f00;
   0xd00; 0x400d00; 0x800d00; 0xc00d00; 0xe00; 0x400e00; 0x800e00; 0xc00e00;
   0xf00; 0x400f00; 0x1ffffff; 0x1ffffff; 0x1ffffff; 0x1ffffff; 0x1ffffff; 0x1ffffff;
   0x1ffffff; 0x0; 0x400000; 0x800000; 0xc00000; 0x100; 0x400100; 0x800100;
   0xc00100; 0x200; 0x400200; 0x800200; 0xc00200; 0x300; 0x400300; 0x800300;
   0xc00300; 0x400; 0x400400; 0x800400; 0xc00400; 0x500; 0x400500; 0x800500;
   0xc00500; 0x600; 0x400600; 0x1ffffff; 0x1ffffff; 0x1ffffff; 0x1ffffff; 0x1ffffff;
   0x1ffffff; 0x800600; 0xc00600; 0x700; 0x400700; 0x800700; 0xc00700; 0x800;
   0x400800; 0x800800; 0xc00800; 0x900; 0x400900; 0x800900; 0xc00900; 0xa00;
   0x400a00; 0x800a00; 0xc00a00; 0xb00; 0x400b00; 0x800b00; 0xc00b00; 0xc00;
   0x400c00; 0x800c00; 0xc00c00; 0x1ffffff; 0x1ffffff; 0x1ffffff; 0x1ffffff; 0x1ffffff;
   0x1ffffff; 0x1ffffff; 0x1ffffff; 0x1ffffff; 0x1ffffff; 0x1ffffff; 0x1ffffff; 0x1ffffff;
   0x1ffffff; 0x1ffffff; 0x1ffffff; 0x1ffffff; 0x1ffffff; 0x1ffffff; 0x1ffffff; 0x1ffffff;
   0x1ffffff; 0x1ffffff; 0x1ffffff; 0x1ffffff; 0x1ffffff; 0x1ffffff; 0x1ffffff; 0x1ffffff;
   0x1ffffff; 0x1ffffff; 0x1ffffff; 0x1ffffff; 0x1ffffff; 0x1ffffff; 0x1ffffff; 0x1ffffff;
   0x1ffffff; 0x1ffffff; 0x1ffffff; 0x1ffffff; 0x1ffffff; 0x1ffffff; 0x1ffffff; 0x1ffffff;
   0x1ffffff; 0x1ffffff; 0x1ffffff; 0x1ffffff; 0x1ffffff; 0x1ffffff; 0x1ffffff; 0x1ffffff;
   0x1ffffff; 0x1ffffff; 0x1ffffff; 0x1ffffff; 0x1ffffff; 0x1ffffff; 0x1ffffff; 0x1ffffff;
   0x1ffffff; 0x1ffffff; 0x1ffffff; 0x1ffffff; 0x1ffffff; 0x1ffffff; 0x1ffffff; 0x1ffffff;
   0x1ffffff; 0x1ffffff; 0x1ffffff; 0x1ffffff; 0x1ffffff; 0x1ffffff; 0x1ffffff; 0x1ffffff;
   0x1ffffff; 0x1ffffff; 0x1ffffff; 0x1ffffff; 0x1ffffff; 0x1ffffff; 0x1ffffff; 0x1ffffff;
   0x1ffffff; 0x1ffffff; 0x1ffffff; 0x1ffffff; 0x1ffffff; 0x1ffffff; 0x1ffffff; 0x1ffffff;
   0x1ffffff; 0x1ffffff; 0x1ffffff; 0x1ffffff; 0x1ffffff; 0x1ffffff; 0x1ffffff; 0x1ffffff;
   0x1ffffff; 0x1ffffff; 0x1ffffff; 0x1ffffff; 0x1ffffff; 0x1ffffff; 0x1ffffff; 0x1ffffff;
   0x1ffffff; 0x1ffffff; 0x1ffffff; 0x1ffffff; 0x1ffffff; 0x1ffffff; 0x1ffffff; 0x1ffffff;
   0x1ffffff; 0x1ffffff; 0x1ffffff; 0x1ffffff; 0x1ffffff; 0x1ffffff; 0x1ffffff; 0x1ffffff;
   0x1ffffff; 0x1ffffff; 0x1ffffff; 0x1ffffff; 0x1ffffff; 0x1ffffff; 0x1ffffff; 0x1ffffff].

Definition d3 : list Z :=
  [0x1ffffff; 0x1ffffff; 0x1ffffff; 0x1ffffff; 0x1ffffff; 0x1ffffff; 0x1ffffff; 0x1ffffff;
   0x1ffffff; 0x1ffffff; 0x1ffffff; 0x1ffffff; 0x1ffffff; 0x1ffffff; 0x1ffffff; 0x1ffffff;
   0x1ffffff; 0x1ffffff; 0x1ffffff; 0x1ffffff; 0x1ffffff; 0x1ffffff; 0x1ffffff; 0x1ffffff;
   0x1ffffff; 0x1ffffff; 0x1ffffff; 0x1ffffff; 0x1ffffff; 0x1ffffff; 0x1ffffff; 0x1ffffff;
   0x1ffffff; 0x1ffffff; 0x1ffffff; 0x1ffffff; 0x1ffffff; 0x1ffffff; 0x1ffffff; 0x1ffffff;
   0x1ffffff; 0x1ffffff; 0x1ffffff; 0x3e0000; 0x1ffffff; 0x1ffffff; 0x1ffffff; 0x3f0000;
   0x340000; 0x350000; 0x360000; 0x370000; 0x380000; 0x390000; 0x3a0000; 0x3b0000;
   0x3c0000; 0x3d0000; 0x1ffffff; 0x1ffffff; 0x1ffffff; 0x1ffffff; 0x1ffffff; 0x1ffffff;
   0x1ffffff; 0x0; 0x10000; 0x20000; 0x30000; 0x40000; 0x50000; 0x60000;
   0x70000; 0x80000; 0x90000; 0xa0000; 0xb0000; 0xc0000; 0xd0000; 0xe0000;
   0xf0000; 0x100000; 0x110000; 0x120000; 0x130000; 0x140000; 0x150000; 0x160000;
   0x170000; 0x180000; 0x190000; 0x1ffffff; 0x1ffffff; 0x1ffffff; 0x1ffffff; 0x1ffffff;
   0x1ffffff; 0x1a0000; 0x1b0000; 0x1c0000; 0x1d0000; 0x1e0000; 0x1f0000; 0x200000;
   0x210000; 0x220000; 0x230000; 0x240000; 0x250000; 0x260000; 0x270000; 0x280000;
   0x290000; 0x2a0000; 0x2b0000; 0x2c0000; 0x2d0000; 0x2e0000; 0x2f0000; 0x300000;
   0x310000; 0x320000; 0x330000; 0x1ffffff; 0x1ffffff; 0x1ffffff; 0x1ffffff; 0x1ffffff;
   0x1ffffff; 0x1ffffff; 0x1ffffff; 0x1ffffff; 0x1ffffff; 0x1ffffff; 0x1ffffff; 0x1ffffff;
   0x1ffffff; 0x1ffffff; 0x1ffffff; 0x1ffffff; 0x1ffffff; 0x1ffffff; 0x1ffffff; 0x1ffffff;
   0x1ffffff; 0x1ffffff; 0x1ffffff; 0x1ffffff; 0x1ffffff; 0x1ffffff; 0x1ffffff; 0x1ffffff;
   0x1ffffff; 0x1ffffff; 0x1ffffff; 0x1ffffff; 0x1ffffff; 0x1ffffff; 0x1ffffff; 0x1ffffff;
   0x1ffffff; 0x1ffffff; 0x1ffffff; 0x1ffffff; 0x1ffffff; 0x1ffffff; 0x1ffffff; 0x1ffffff;
   0x1ffffff; 0x1ffffff; 0x1ffffff; 0x1ffffff; 0x1ffffff; 0x1ffffff; 0x1ffffff; 0x1ffffff;
   0x1ffffff; 0x1ffffff; 0x1ffffff; 0x1ffffff; 0x1ffffff; 0x1ffffff; 0x1ffffff; 0x1ffffff;
   0x1ffffff; 0x1ffffff; 0x1ffffff; 0x1ffffff; 0x1ffffff; 0x1ffffff; 0x1ffffff; 0x1ffffff;
   0x1ffffff; 0x1ffffff; 0x1ffffff; 0x1ffffff; 0x1ffffff; 0x1ffffff; 0x1ffffff; 0x1ffffff;
   0x1ffffff; 0x1ffffff; 0x1ffffff; 0x1ffffff; 0x1ffffff; 0x1ffffff; 0x1ffffff; 0x1ffffff;
   0x1ffffff; 0x1ffffff; 0x1ffffff; 0x1ffffff; 0x1ffffff; 0x1ffffff; 0x1ffffff; 0x1ffffff;
   0x1ffffff; 0x1ffffff; 0x1ffffff; 0x1ffffff; 0x1ffffff; 0x1ffffff; 0x1ffffff; 0x1ffffff;
   0x1ffffff; 0x1ffffff; 0x1ffffff; 0x1ffffff; 0x1ffffff; 0x1ffffff; 0x1ffffff; 0x1ffffff;
   0x1ffffff; 0x1ffffff; 0x1ffffff; 0x1ffffff; 0x1ffffff; 0x1ffffff; 0x1ffffff; 0x1ffffff;
   0x1ffffff; 0x1ffffff; 0x1ffffff; 0x1ffffff; 0x1ffffff; 0x1ffffff; 0x1ffffff; 0x1ffffff;
   0x1ffffff; 0x1ffffff; 0x1ffffff; 0x1ffffff; 0x1ffffff; 0x1ffffff; 0x1ffffff; 0x1ffffff].
