(* ===== verification/Base64.v ===== *)
(** * [common/encrypt/base64/base64.cc]: base64 over raw buffers

    [modp_b64_encode] and both variants of [modp_b64_decode] with their
    pointer arithmetic: the destination is a buffer of fixed size, a store or a
    load outside a buffer is undefined behaviour, and the decoder moves four
    bytes at a time through 32-bit words.  The reference is the arithmetic of
    the format: three bytes are one 24-bit number with four base-64 digits. *)

From S2P Require Import Prelude CppBase.
From S2P Require Import Base64Tables.
#[local] Open Scope prog_scope.

Abbreviation Bytes := (list Z).
Definition bytes_ok (l : Bytes) : Prop := Forall (λ b, 0 <= b < 256) l.

Definition CHARPAD : Z := byte_of "="%char.
Definition BADCHAR : Z := 0x01FFFFFF.

(** ** Buffers *)

(** [t[i]] *)
Definition at_ (t : list Z) (i : Z) : option Z := if 0 <=? i then t !! Z.to_nat i else None.

(** [*p++ = c] *)
Definition poke (p c : Z) : ST Bytes Z := λ d,
  if (0 <=? p) && (p <? Z.of_nat (length d)) then Some (p + 1, <[Z.to_nat p := c]> d) else None.

(** Byte [k] of a 32-bit word in memory order. *)
Definition byte_at (big : bool) (x : Z) (k : Z) : Z :=
  Z.shiftr x (8 * (if big then 3 - k else k)) mod 256.

(** [*(uint32_t* )p = x] *)
Definition store32 (big : bool) (p x : Z) : ST Bytes unit :=
  p ← poke p (byte_at big x 0);
  p ← poke p (byte_at big x 1);
  p ← poke p (byte_at big x 2);
  poke p (byte_at big x 3) ;; ret tt.

(** [*(const uint32_t* )(src + i)] *)
Definition load32 (big : bool) (src : Bytes) (i : Z) : option Z :=
  match at_ src i, at_ src (i + 1), at_ src (i + 2), at_ src (i + 3) with
  | Some b0, Some b1, Some b2, Some b3 =>
      Some (if big then Z.lor (Z.shiftl b0 24) (Z.lor (Z.shiftl b1 16) (Z.lor (Z.shiftl b2 8) b3))
            else Z.lor b0 (Z.lor (Z.shiftl b1 8) (Z.lor (Z.shiftl b2 16) (Z.shiftl b3 24))))
  | _, _, _, _ => None
  end.

(** ** Encoding *)

(** [for (i = 0; i < len - 2; i += 3)]: the final [i] and [p]. *)
Fixpoint encode_loop (fuel : nat) (str : Bytes) (len i p : Z) : ST Bytes (Z * Z) :=
  if i <? len - 2 then
    match fuel with
    | O => crash
    | S fuel =>
        t1 ← of_option (at_ str i); t2 ← of_option (at_ str (i + 1));
        t3 ← of_option (at_ str (i + 2));
        c ← of_option (at_ e0 t1); p ← poke p c;
        c ← of_option (at_ e1 (Z.lor (Z.shiftl (Z.land t1 0x03) 4) (Z.land (Z.shiftr t2 4) 0x0F)));
        p ← poke p c;
        c ← of_option (at_ e1 (Z.lor (Z.shiftl (Z.land t2 0x0F) 2) (Z.land (Z.shiftr t3 6) 0x03)));
        p ← poke p c;
        c ← of_option (at_ e2 t3); p ← poke p c;
        encode_loop fuel str len (i + 3) p
    end
  else ret (i, p).

(** The [switch (len - i)] after the loop. *)
Definition encode_tail (str : Bytes) (len i p : Z) : ST Bytes Z :=
  if len - i =? 0 then ret p
  else if len - i =? 1 then
    t1 ← of_option (at_ str i);
    c ← of_option (at_ e0 t1); p ← poke p c;
    c ← of_option (at_ e1 (Z.shiftl (Z.land t1 0x03) 4)); p ← poke p c;
    p ← poke p CHARPAD; poke p CHARPAD
  else
    t1 ← of_option (at_ str i); t2 ← of_option (at_ str (i + 1));
    c ← of_option (at_ e0 t1); p ← poke p c;
    c ← of_option (at_ e1 (Z.lor (Z.shiftl (Z.land t1 0x03) 4) (Z.land (Z.shiftr t2 4) 0x0F)));
    p ← poke p c;
    c ← of_option (at_ e2 (Z.shiftl (Z.land t2 0x0F) 2)); p ← poke p c;
    poke p CHARPAD.

Definition modp_b64_encode (str : Bytes) (len : Z) : ST Bytes Z :=
  '(i, p) ← encode_loop (Z.to_nat len) str len 0 0;
  p ← encode_tail str len i p;
  poke p 0 ;; ret p.

(** ** Decoding *)

(** The table lookups of a full group, in either byte order. *)
Definition group4 (big : bool) (y : Z) : option Z :=
  let b k := Z.land (Z.shiftr y k) 0xff in
  if big then
    match at_ be_d0 (b 24), at_ be_d1 (b 16), at_ be_d2 (b 8), at_ be_d3 (b 0) with
    | Some w, Some x, Some y, Some z => Some (Z.lor (Z.lor (Z.lor w x) y) z)
    | _, _, _, _ => None
    end
  else
    match at_ d0 (b 0), at_ d1 (b 8), at_ d2 (b 16), at_ d3 (b 24) with
    | Some w, Some x, Some y, Some z => Some (Z.lor (Z.lor (Z.lor w x) y) z)
    | _, _, _, _ => None
    end.

(** [for (i = 0; i < chunks; ++i)]: [None] is the early [return -1], otherwise
    the final [p] and the last word read. *)
Fixpoint decode_loop (big : bool) (n : nat) (src : Bytes) (i p y : Z)
    : ST Bytes (option (Z * Z)) :=
  match n with
  | O => ret (Some (p, y))
  | S n =>
      x ← of_option (group4 big y);
      if BADCHAR <=? x then ret None
      else
        store32 big p (if big then to_uint32 (Z.shiftl x 8) else x) ;;
        y ← of_option (load32 big src (i + 4));
        decode_loop big n src (i + 4) (p + 3) y
  end.

(** The [switch (leftover)], little endian: the word that the final test
    [x >= BADCHAR] sees, or the value returned at once. *)
Definition decode_tail_le (leftover chunks p y : Z) : ST Bytes (Z + Z) :=
  let b k := Z.land (Z.shiftr y k) 0xff in
  if leftover =? 0 then
    x ← of_option (group4 false y);
    if BADCHAR <=? x then ret (inr (-1))
    else
      p ← poke p (byte_at false x 0); p ← poke p (byte_at false x 1);
      poke p (byte_at false x 2) ;; ret (inr ((chunks + 1) * 3))
  else if leftover =? 1 then
    x ← of_option (at_ d0 (b 0)); poke p (byte_at false x 0) ;; ret (inl x)
  else if leftover =? 2 then
    w0 ← of_option (at_ d0 (b 0)); w1 ← of_option (at_ d1 (b 8));
    let x := Z.lor w0 w1 in
    poke p (byte_at false x 0) ;; ret (inl x)
  else
    w0 ← of_option (at_ d0 (b 0)); w1 ← of_option (at_ d1 (b 8)); w2 ← of_option (at_ d2 (b 16));
    let x := Z.lor (Z.lor w0 w1) w2 in
    p ← poke p (byte_at false x 0);
    poke p (byte_at false x 1) ;; ret (inl x).

(** The same, big endian: sums of products modulo 2^32. *)
Definition decode_tail_be (leftover chunks p y : Z) : ST Bytes (Z + Z) :=
  let b k := Z.land (Z.shiftr y k) 0xff in
  if leftover =? 0 then
    x ← of_option (group4 true y);
    if BADCHAR <=? x then ret (inr (-1))
    else
      p ← poke p (byte_at true x 1); p ← poke p (byte_at true x 2);
      poke p (byte_at true x 3) ;; ret (inr ((chunks + 1) * 3))
  else if leftover =? 1 then
    x ← of_option (at_ be_d3 (b 24)); poke p (x mod 256) ;; ret (inl x)
  else if leftover =? 2 then
    w0 ← of_option (at_ be_d3 (b 24)); w1 ← of_option (at_ be_d3 (b 16));
    let x := to_uint32 (w0 * 64 + w1) in
    poke p (Z.shiftr x 4 mod 256) ;; ret (inl x)
  else
    w0 ← of_option (at_ be_d3 (b 24)); w1 ← of_option (at_ be_d3 (b 16));
    w2 ← of_option (at_ be_d3 (b 8));
    let x := to_uint32 (to_uint32 (to_uint32 (w0 * 64 + w1) * 64) + w2) in
    p ← poke p (Z.shiftr x 10 mod 256);
    poke p (Z.shiftr x 2 mod 256) ;; ret (inl x).

(** The padding at the end: the length without it. *)
Definition strip_pad (src : Bytes) (len : Z) : option Z :=
  match at_ src (len - 1) with
  | Some c =>
      if c =? CHARPAD then
        match at_ src (len - 2) with
        | Some c => Some (if c =? CHARPAD then len - 2 else len - 1)
        | None => None
        end
      else Some len
  | None => None
  end.

(** [modp_b64_decode], in either byte order; -1 is the error result. *)
Definition modp_b64_decode (big : bool) (src : Bytes) (len : Z) : ST Bytes Z :=
  if len =? 0 then ret 0
  else if (len <? 4) || negb (Z.rem len 4 =? 0) then ret (-1)
  else
    len ← of_option (strip_pad src len);
    let leftover := Z.rem len 4 in
    let chunks := if leftover =? 0 then Z.quot len 4 - 1 else Z.quot len 4 in
    y ← of_option (load32 big src 0);
    res ← decode_loop big (Z.to_nat chunks) src 0 0 y;
    match res with
    | None => ret (-1)
    | Some (p, y) =>
        tail ← (if big then decode_tail_be leftover chunks p y
                else decode_tail_le leftover chunks p y);
        match tail with
        | inr r => ret r
        | inl x =>
            if BADCHAR <=? x then ret (-1) else ret (3 * chunks + Z.quot (6 * leftover) 8)
        end
    end.

(** ** [class CXtlBase64] *)

(** The size macros, in [int]. *)
Definition modp_b64_encode_len (a : Z) : Z := Z.quot (a + 2) 3 * 4 + 1.
Definition modp_b64_decode_len (a : Z) : Z := Z.quot a 4 * 3 + 2.

(** [temp.resize(n)] of an empty string: a size that overflows [int] is
    undefined, a negative one throws. *)
Definition fresh_buffer (n : Z) : option Bytes :=
  if in_int32 n && (0 <=? n) then Some (replicate (Z.to_nat n) 0) else None.

(** [CXtlBase64::encode(string&, const string&)]: the output, when true is
    returned.  [None] is undefined behaviour or an exception of [resize]. *)
Definition CXtlBase64_encode (input : Bytes) : option (option Bytes) :=
  let input_size := to_int32 (Z.of_nat (length input)) in
  match fresh_buffer (modp_b64_encode_len input_size) with
  | None => None
  | Some temp =>
      match modp_b64_encode input input_size temp with
      | None => None
      | Some (output_size, temp) =>
          Some (if output_size <? 0 then None else Some (take (Z.to_nat output_size) temp))
      end
  end.

(** [CXtlBase64::encode(string&, const char*, size_t)]: the buffer's size is
    computed in [size_t]. *)
Definition CXtlBase64_encode_raw (input : Bytes) : option (option Bytes) :=
  let length_ := Z.of_nat (length input) in
  let temp := replicate (Z.to_nat (to_uint64 (modp_b64_encode_len length_))) 0 in
  match modp_b64_encode input (to_int32 length_) temp with
  | None => None
  | Some (output_size, temp) =>
      Some (if output_size <? 0 then None else Some (take (Z.to_nat output_size) temp))
  end.

(** [CXtlBase64::decode(string&, const string&)] *)
Definition CXtlBase64_decode (big : bool) (input : Bytes) : option (option Bytes) :=
  let input_size := to_int32 (Z.of_nat (length input)) in
  match fresh_buffer (modp_b64_decode_len input_size) with
  | None => None
  | Some temp =>
      match modp_b64_decode big input input_size temp with
      | None => None
      | Some (output_size, temp) =>
          Some (if output_size <? 0 then None else Some (take (Z.to_nat output_size) temp))
      end
  end.

(** [CXtlBase64::decode(char*, size_t&, const string&)]: the decoded bytes are
    copied to the front of the caller's array. *)
Definition CXtlBase64_decode_raw (big : bool) (output : Bytes) (input : Bytes)
    : option (option (Bytes * Z)) :=
  match CXtlBase64_decode big input with
  | None => None
  | Some None => Some None
  | Some (Some temp) =>
      if (length temp <=? length output)%nat
      then Some (Some (temp ++ drop (length temp) output, Z.of_nat (length temp)))
      else None
  end.

(** ** The reference: digits of 24-bit numbers *)
Definition alphabet : Bytes :=
  str_bytes "ABCDEFGHIJKLMNOPQRSTUVWXYZabcdefghijklmnopqrstuvwxyz0123456789+/".
Definition digit (v : Z) : Z := default 0 (at_ alphabet v).
Definition value_of (c : Z) : option Z :=
  match list_find (λ x, x = c) alphabet with Some (i, _) => Some (Z.of_nat i) | None => None end.

(** Digit [k] (0 is the most significant) of the number [n]. *)
Definition sextet (n k : Z) : Z := n / 64 ^ (3 - k) mod 64.

Fixpoint ref_encode (l : Bytes) : Bytes :=
  match l with
  | [] => []
  | [a] => let n := a * 65536 in [digit (sextet n 0); digit (sextet n 1); CHARPAD; CHARPAD]
  | [a; b] =>
      let n := a * 65536 + b * 256 in
      [digit (sextet n 0); digit (sextet n 1); digit (sextet n 2); CHARPAD]
  | a :: b :: c :: l =>
      let n := a * 65536 + b * 256 + c in
      digit (sextet n 0) :: digit (sextet n 1) :: digit (sextet n 2) :: digit (sextet n 3)
        :: ref_encode l
  end.

(** The 24-bit number of four characters. *)
Definition quad (c0 c1 c2 c3 : Z) : option Z :=
  match value_of c0, value_of c1, value_of c2, value_of c3 with
  | Some v0, Some v1, Some v2, Some v3 => Some (v0 * 262144 + v1 * 4096 + v2 * 64 + v3)
  | _, _, _, _ => None
  end.
Definition octets (n : Z) : Bytes := [n / 65536; n / 256 mod 256; n mod 256].

(** The last group may end in one or two pads. *)
Definition ref_last (c0 c1 c2 c3 : Z) : option Bytes :=
  let zero := digit 0 in
  if c3 =? CHARPAD then
    if c2 =? CHARPAD then take 1 ∘ octets <$> quad c0 c1 zero zero
    else take 2 ∘ octets <$> quad c0 c1 c2 zero
  else octets <$> quad c0 c1 c2 c3.

Fixpoint ref_decode (l : Bytes) : option Bytes :=
  match l with
  | [] => Some []
  | [c0; c1; c2; c3] => ref_last c0 c1 c2 c3
  | c0 :: c1 :: c2 :: c3 :: l =>
      match quad c0 c1 c2 c3, ref_decode l with
      | Some n, Some r => Some (octets n ++ r)
      | _, _ => None
      end
  | _ => None
  end.

(** ** Finite tables, by computation *)
Definition all_below (n : Z) (f : Z → bool) : bool := forallb f (seqZ 0 n).

Lemma all_below_spec n f c : all_below n f = true → 0 <= c < n → f c = true.
Proof.
  unfold all_below. rewrite forallb_forall. intros H Hc. apply H.
  apply list_elem_of_In, elem_of_seqZ. lia.
Qed.

Ltac by_table n c f :=
  let H := fresh in
  assert (H : all_below n f = true) by (vm_compute; reflexivity);
  apply (all_below_spec n f c) in H; [|lia]; revert H.

#[local] Instance opt_eq_dec : EqDecision (option Z) := _.

Lemma e0_digit t : 0 <= t < 256 → at_ e0 t = Some (digit (t / 4)).
Proof.
  intros Ht. by_table 256 t (λ t, bool_decide (at_ e0 t = Some (digit (t / 4)))).
  apply bool_decide_eq_true.
Qed.
Lemma e1_digit t : 0 <= t < 64 → at_ e1 t = Some (digit t).
Proof.
  intros Ht. by_table 64 t (λ t, bool_decide (at_ e1 t = Some (digit t))).
  apply bool_decide_eq_true.
Qed.
Lemma e2_digit t : 0 <= t < 256 → at_ e2 t = Some (digit (t mod 64)).
Proof.
  intros Ht. by_table 256 t (λ t, bool_decide (at_ e2 t = Some (digit (t mod 64)))).
  apply bool_decide_eq_true.
Qed.

Lemma value_of_digit v : 0 <= v < 64 → value_of (digit v) = Some v.
Proof.
  intros Hv. by_table 64 v (λ v, bool_decide (value_of (digit v) = Some v)).
  apply bool_decide_eq_true.
Qed.
Lemma digit_range v : 0 <= v < 64 → 0 <= digit v < 256 ∧ digit v ≠ CHARPAD.
Proof.
  intros Hv. by_table 64 v (λ v, bool_decide (0 <= digit v < 256 ∧ digit v ≠ CHARPAD)).
  apply bool_decide_eq_true.
Qed.
Lemma value_of_range c v : 0 <= c < 256 → value_of c = Some v → 0 <= v < 64.
Proof.
  intros Hc.
  by_table 256 c (λ c, match value_of c with Some v => bool_decide (0 <= v < 64) | _ => true end).
  destruct (value_of c); [|done]. intros H%bool_decide_eq_true. naive_solver.
Qed.

(** What the little-endian tables hold: digit [k]'s bits in memory order. *)
Definition le_spread (k v : Z) : Z :=
  if k =? 0 then v * 4
  else if k =? 1 then v / 16 + v mod 16 * 16 * 256
  else if k =? 2 then v / 4 * 256 + v mod 4 * 64 * 65536
  else v * 65536.
Definition le_entry (k c : Z) : Z :=
  match value_of c with Some v => le_spread k v | None => BADCHAR end.

Lemma d0_entry c : 0 <= c < 256 → at_ d0 c = Some (le_entry 0 c).
Proof.
  intros Hc. by_table 256 c (λ c, bool_decide (at_ d0 c = Some (le_entry 0 c))).
  apply bool_decide_eq_true.
Qed.
Lemma d1_entry c : 0 <= c < 256 → at_ d1 c = Some (le_entry 1 c).
Proof.
  intros Hc. by_table 256 c (λ c, bool_decide (at_ d1 c = Some (le_entry 1 c))).
  apply bool_decide_eq_true.
Qed.
Lemma d2_entry c : 0 <= c < 256 → at_ d2 c = Some (le_entry 2 c).
Proof.
  intros Hc. by_table 256 c (λ c, bool_decide (at_ d2 c = Some (le_entry 2 c))).
  apply bool_decide_eq_true.
Qed.
Lemma d3_entry c : 0 <= c < 256 → at_ d3 c = Some (le_entry 3 c).
Proof.
  intros Hc. by_table 256 c (λ c, bool_decide (at_ d3 c = Some (le_entry 3 c))).
  apply bool_decide_eq_true.
Qed.

(** ** Bits and bytes *)
#[local] Ltac Zify.zify_post_hook ::= Z.to_euclidean_division_equations.

Lemma land_shiftl_small a b k : 0 <= k → 0 <= b < 2 ^ k → Z.land (Z.shiftl a k) b = 0.
Proof.
  intros Hk Hb. apply Z.bits_inj'. intros n Hn. rewrite Z.land_spec, Z.bits_0.
  destruct (decide (n < k)); [by rewrite Z.shiftl_spec_low by lia|].
  assert (Z.testbit b n = false) as ->; [|apply andb_false_r].
  apply Z.testbit_false; [lia|]. rewrite Z.div_small; [done|].
  split; [lia|]. eapply Z.lt_le_trans; [apply Hb|apply Z.pow_le_mono_r; lia].
Qed.

Lemma lor_add a b k : 0 <= k → 0 <= b < 2 ^ k → Z.lor (Z.shiftl a k) b = a * 2 ^ k + b.
Proof.
  intros Hk Hb. pose proof (Z.add_lor_land (Z.shiftl a k) b) as H.
  rewrite land_shiftl_small, Z.shiftl_mul_pow2 in * by lia. lia.
Qed.

Lemma land_mod a k : 0 <= k → Z.land a (2 ^ k - 1) = a mod 2 ^ k.
Proof. intros. rewrite <-Z.land_ones by done. f_equal. rewrite Z.ones_equiv. lia. Qed.

Lemma byte_at_lor w x k : 0 <= k < 4 →
  byte_at false (Z.lor w x) k = Z.lor (byte_at false w k) (byte_at false x k).
Proof.
  intros Hk. unfold byte_at. change 256 with (2 ^ 8). rewrite <-!Z.land_ones by lia.
  by rewrite Z.shiftr_lor, Z.land_lor_distr_l.
Qed.

Lemma lor_lt a b k : 0 <= k → 0 <= a < 2 ^ k → 0 <= b < 2 ^ k → 0 <= Z.lor a b < 2 ^ k.
Proof.
  intros Hk Ha Hb. split; [apply Z.lor_nonneg; lia|].
  destruct (decide (Z.lor a b = 0)) as [->|Hne]; [lia|].
  assert (0 <= Z.lor a b) by (apply Z.lor_nonneg; lia).
  apply Z.log2_lt_pow2; [lia|]. rewrite Z.log2_lor by lia.
  destruct (decide (a = 0)) as [->|]; destruct (decide (b = 0)) as [->|]; [done| | |].
  all: apply Z.max_lub_lt; first [apply Z.log2_lt_pow2; lia | simpl; assert (k ≠ 0) by
    (intros ->; simpl in *; lia); lia].
Qed.

Lemma lor_bad a : 0 <= a < 2 ^ 25 → Z.lor a BADCHAR = BADCHAR.
Proof.
  intros Ha. change BADCHAR with (Z.ones 25). destruct (decide (a = 0)) as [->|]; [done|].
  apply Z.lor_ones_low; [lia|]. apply Z.log2_lt_pow2; lia.
Qed.

(** Normal form of the bit operations on constants: quotients and remainders. *)
Ltac bits_to_arith :=
  change 0xff with (2 ^ 8 - 1); change 0x0F with (2 ^ 4 - 1); change 0x03 with (2 ^ 2 - 1);
  rewrite ?land_mod by lia;
  rewrite ?Z.shiftr_div_pow2 by lia.

Lemma e1_index a b : 0 <= a < 256 → 0 <= b < 256 →
  Z.lor (Z.shiftl (Z.land a 0x03) 4) (Z.land (Z.shiftr b 4) 0x0F) = a mod 4 * 16 + b / 16.
Proof.
  intros. bits_to_arith. change (2 ^ 2) with 4. change (2 ^ 4) with 16.
  rewrite lor_add by (change (2 ^ 4) with 16; lia).
  lia.
Qed.
Lemma e1_index' b c : 0 <= b < 256 → 0 <= c < 256 →
  Z.lor (Z.shiftl (Z.land b 0x0F) 2) (Z.land (Z.shiftr c 6) 0x03) = b mod 16 * 4 + c / 64.
Proof.
  intros. bits_to_arith. change (2 ^ 2) with 4. change (2 ^ 4) with 16. change (2 ^ 6) with 64.
  rewrite lor_add by (change (2 ^ 2) with 4; lia).
  lia.
Qed.

(** ** Writing through a cursor

    [cursor out n p d]: the buffer [d] holds [out] before position [p] and [n]
    more bytes after it. *)
Definition cursor (out : Bytes) (n : nat) (p : Z) (d : Bytes) : Prop :=
  p = Z.of_nat (length out) ∧ ∃ room, d = out ++ room ∧ length room = n.

Lemma cursor_start n : cursor [] n 0 (replicate n 0).
Proof. split; [done|]. exists (replicate n 0). by rewrite length_replicate. Qed.

Lemma cursor_take out n p d : cursor out n p d → take (Z.to_nat p) d = out.
Proof. intros [-> (room & -> & _)]. by rewrite Nat2Z.id, take_app_length. Qed.

Lemma wp_poke out n p c d (Q : Z → Bytes → Prop) :
  cursor out (S n) p d → (∀ d', cursor (out ++ [c]) n (p + 1) d' → Q (p + 1) d') →
  wp (poke p c) Q d.
Proof.
  intros [-> ([|x room] & -> & Hl)] HQ; [done|]. unfold poke, wp.
  assert (Z.of_nat (length out) <? Z.of_nat (length (out ++ x :: room)) = true) as ->
    by (apply Z.ltb_lt; rewrite length_app; simpl; lia).
  assert (0 <=? Z.of_nat (length out) = true) as -> by (apply Z.leb_le; lia). simpl. apply HQ.
  split; [rewrite length_app; simpl; lia|]. exists room. rewrite Nat2Z.id.
  rewrite insert_app_r_alt, Nat.sub_diag by lia. simpl. rewrite <-app_assoc. split; [done|].
  simpl in Hl. lia.
Qed.

Lemma at_app done x rest : at_ (done ++ x :: rest) (Z.of_nat (length done)) = Some x.
Proof.
  unfold at_. destruct (Z.leb_spec 0 (Z.of_nat (length done))); [|lia].
  rewrite Nat2Z.id. by apply list_lookup_middle.
Qed.

Lemma at_app_off done rest k x : rest !! k = Some x →
  at_ (done ++ rest) (Z.of_nat (length done) + Z.of_nat k) = Some x.
Proof.
  intros H. unfold at_. destruct (Z.leb_spec 0 (Z.of_nat (length done) + Z.of_nat k)); [|lia].
  rewrite <-Nat2Z.inj_add, Nat2Z.id. by rewrite lookup_app_r, Nat.add_sub_swap, Nat.sub_diag by lia.
Qed.

(** ** The encoder writes the reference encoding *)
Definition encode_body (fuel : nat) (str : Bytes) (len i p : Z) : ST Bytes Z :=
  '(i, p) ← encode_loop fuel str len i p; encode_tail str len i p.

Ltac emit := eapply wp_poke; [eassumption|intros ? ?].
Ltac fetch := eapply wp_of_option; [eassumption || (by eauto)|].

Lemma sextets n a b c : n = a * 65536 + b * 256 + c →
  0 <= a < 256 → 0 <= b < 256 → 0 <= c < 256 →
  sextet n 0 = a / 4 ∧ sextet n 1 = a mod 4 * 16 + b / 16 ∧
  sextet n 2 = b mod 16 * 4 + c / 64 ∧ sextet n 3 = c mod 64.
Proof.
  intros -> Ha Hb Hc. unfold sextet.
  change (64 ^ (3 - 0)) with 262144. change (64 ^ (3 - 1)) with 4096.
  change (64 ^ (3 - 2)) with 64. change (64 ^ (3 - 3)) with 1.
  split_and!; lia.
Qed.

(** The loop on a full group, as one step. *)
Lemma encode_group fuel str len i p a b c out n d Q :
  i < len - 2 → at_ str i = Some a → at_ str (i + 1) = Some b → at_ str (i + 2) = Some c →
  0 <= a < 256 → 0 <= b < 256 → 0 <= c < 256 → cursor out (4 + n) p d →
  (∀ p' d', cursor (out ++ ref_encode [a; b; c]) n p' d' →
     wp (encode_body fuel str len (i + 3) p') Q d') →
  wp (encode_body (S fuel) str len i p) Q d.
Proof.
  intros Hi Ha Hb Hc Ra Rb Rc Hd HQ. unfold encode_body. apply wp_bind.
  cbn [encode_loop]. rewrite (proj2 (Z.ltb_lt _ _) Hi).
  destruct (sextets _ a b c eq_refl Ra Rb Rc) as (H0 & H1 & H2 & H3).
  assert (at_ e1 (a mod 4 * 16 + b / 16) = Some (digit (sextet (a * 65536 + b * 256 + c) 1)))
    by (rewrite H1; apply e1_digit; lia).
  assert (at_ e1 (b mod 16 * 4 + c / 64) = Some (digit (sextet (a * 65536 + b * 256 + c) 2)))
    by (rewrite H2; apply e1_digit; lia).
  do 3 (apply wp_bind; fetch). rewrite e1_index, e1_index' by lia.
  apply wp_bind; eapply wp_of_option; [by apply e0_digit|]. apply wp_bind. emit.
  apply wp_bind; fetch. apply wp_bind. emit. apply wp_bind; fetch. apply wp_bind. emit.
  apply wp_bind; eapply wp_of_option; [by apply e2_digit|]. apply wp_bind. emit.
  apply wp_unbind. apply HQ. cbn [ref_encode]. by rewrite H0, H3, <-!app_assoc in *.
Qed.

(** The bytes after the last full group. *)
Lemma encode_tail_spec done rest out n p d :
  (length rest < 3)%nat → bytes_ok rest →
  cursor out (length (ref_encode rest) + n) p d →
  wp (encode_tail (done ++ rest) (Z.of_nat (length (done ++ rest))) (Z.of_nat (length done)) p)
     (λ p' d', cursor (out ++ ref_encode rest) n p' d') d.
Proof.
  intros Hl Hb Hd. unfold encode_tail.
  replace (Z.of_nat (length (done ++ rest)) - Z.of_nat (length done))
    with (Z.of_nat (length rest)) by (rewrite length_app; lia).
  destruct rest as [|a [|b [|]]]; [..|simpl in Hl; lia]; simpl (Z.of_nat _ =? _); cbv iota; simpl in Hd.
  - apply wp_ret. by rewrite app_nil_r.
  - apply Forall_cons in Hb as [Ra _].
    destruct (sextets (a * 65536) a 0 0 ltac:(lia) Ra ltac:(lia) ltac:(lia)) as (H0 & H1 & _).
    apply wp_bind; eapply wp_of_option; [apply at_app|].
    apply wp_bind; eapply wp_of_option; [by apply e0_digit|]. apply wp_bind; emit.
    bits_to_arith. rewrite Z.shiftl_mul_pow2 by lia. change (2 ^ 2) with 4. change (2 ^ 4) with 16.
    apply wp_bind; eapply wp_of_option; [apply e1_digit; lia|]. apply wp_bind; emit. apply wp_bind; emit. emit.
    cbn [ref_encode]. rewrite H0, H1, <-!app_assoc in *.
    by replace (a mod 4 * 16 + 0 / 16) with (a mod 4 * 16) by lia.
  - apply Forall_cons in Hb as [Ra [Rb _]%Forall_cons].
    destruct (sextets (a * 65536 + b * 256) a b 0 ltac:(lia) Ra Rb ltac:(lia))
      as (H0 & H1 & H2 & _).
    apply wp_bind; eapply wp_of_option; [apply at_app|].
    apply wp_bind; eapply wp_of_option; [by apply (at_app_off done [a; b] 1)|].
    apply wp_bind; eapply wp_of_option; [by apply e0_digit|]. apply wp_bind; emit.
    rewrite e1_index by lia.
    apply wp_bind; eapply wp_of_option; [apply e1_digit; lia|]. apply wp_bind; emit.
    bits_to_arith. rewrite Z.shiftl_mul_pow2 by lia. change (2 ^ 2) with 4. change (2 ^ 4) with 16.
    apply wp_bind; eapply wp_of_option; [apply e2_digit; lia|]. apply wp_bind; emit. emit.
    cbn [ref_encode]. rewrite H0, H1, H2, <-!app_assoc in *.
    by replace (b mod 16 * 4 + 0 / 64) with (b mod 16 * 4 mod 64) by lia.
Qed.

Lemma encode_last fuel done rest out n p d :
  (length rest < 3)%nat → bytes_ok rest →
  cursor out (length (ref_encode rest) + n) p d →
  wp (encode_body fuel (done ++ rest) (Z.of_nat (length (done ++ rest))) (Z.of_nat (length done)) p)
     (λ p' d', cursor (out ++ ref_encode rest) n p' d') d.
Proof.
  intros Hl Hb Hd. unfold encode_body. apply wp_bind.
  assert (Z.of_nat (length done) <? Z.of_nat (length (done ++ rest)) - 2 = false) as Hc
    by (apply Z.ltb_ge; rewrite length_app; lia).
  destruct fuel; cbn [encode_loop]; rewrite Hc; apply wp_ret; by apply encode_tail_spec.
Qed.

Lemma encode_body_spec fuel done rest out n p d :
  (length rest ≤ fuel)%nat → bytes_ok rest →
  cursor out (length (ref_encode rest) + n) p d →
  wp (encode_body fuel (done ++ rest) (Z.of_nat (length (done ++ rest))) (Z.of_nat (length done)) p)
     (λ p' d', cursor (out ++ ref_encode rest) n p' d') d.
Proof.
  revert done rest out p d. induction fuel as [|fuel IH]; intros done rest out p d Hf Hb Hd.
  { apply encode_last; [lia|done..]. }
  destruct rest as [|a [|b [|c rest]]]; try (apply encode_last; simpl; (lia || done)).
  apply Forall_cons in Hb as [Ra [Rb [Rc Hb]%Forall_cons]%Forall_cons].
  eapply (encode_group _ _ _ _ _ a b c out (length (ref_encode rest) + n)); try done.
  - rewrite length_app. simpl. lia.
  - apply at_app.
  - by apply (at_app_off done (a :: b :: c :: rest) 1).
  - by apply (at_app_off done (a :: b :: c :: rest) 2).
  - intros p' d' Hd'.
    replace (done ++ a :: b :: c :: rest) with ((done ++ [a; b; c]) ++ rest) by by rewrite <-app_assoc.
    replace (Z.of_nat (length done) + 3) with (Z.of_nat (length (done ++ [a; b; c])))
      by (rewrite length_app; simpl; lia).
    cbn [ref_encode] in Hd' |- *.
    eapply wp_mono; [apply IH; [simpl in Hf; lia|done|exact Hd']|].
    intros ??. by rewrite <-app_assoc.
Qed.

Lemma modp_b64_encode_body str len d :
  modp_b64_encode str len d =
  bind (encode_body (Z.to_nat len) str len 0 0) (λ p, poke p 0 ;; ret p) d.
Proof.
  unfold modp_b64_encode, encode_body, bind. by destruct (encode_loop _ _ _ _ _ d) as [[[i p] d']|].
Qed.

(** [modp_b64_encode] into a buffer with room for the text and its NUL. *)
Lemma modp_b64_encode_spec str n :
  bytes_ok str → (length (ref_encode str) < n)%nat →
  wp (modp_b64_encode str (Z.of_nat (length str)))
     (λ r d, r = Z.of_nat (length (ref_encode str)) ∧ take (Z.to_nat r) d = ref_encode str)
     (replicate n 0).
Proof.
  intros Hb Hn. eapply wp_run_eq; [apply modp_b64_encode_body|]. apply wp_bind.
  eapply wp_mono; [apply (encode_body_spec _ [] str [] (n - length (ref_encode str)) 0)|].
  - lia.
  - done.
  - replace (length (ref_encode str) + (n - length (ref_encode str)))%nat with n by lia.
    apply cursor_start.
  - intros p d Hd. destruct (n - length (ref_encode str))%nat as [|k] eqn:Hk; [lia|].
    apply wp_bind. eapply wp_poke; [exact Hd|]. intros d' Hd'. apply wp_ret.
    destruct Hd as [-> _]. split; [done|].
    destruct Hd' as [_ (room & -> & _)]. rewrite Nat2Z.id. simpl.
    by rewrite <-app_assoc, take_app_length.
Qed.

Lemma list_ind3 {A} (P : list A → Prop) :
  P [] → (∀ a, P [a]) → (∀ a b, P [a; b]) → (∀ a b c l, P l → P (a :: b :: c :: l)) → ∀ l, P l.
Proof.
  intros H0 H1 H2 H3. fix IH 1. intros [|a [|b [|c l]]]; [done|done|done|]. apply H3, IH.
Qed.

Lemma ref_encode_length l : Z.of_nat (length (ref_encode l)) = (Z.of_nat (length l) + 2) / 3 * 4.
Proof.
  induction l as [| | |a b c l IH] using list_ind3; [done..|].
  cbn [ref_encode length]. lia.
Qed.

Lemma sextet_range n k : 0 <= sextet n k < 64.
Proof. unfold sextet. lia. Qed.

Lemma ref_encode_bytes l : bytes_ok (ref_encode l).
Proof.
  induction l as [| | |a b c l IH] using list_ind3; cbn [ref_encode];
    repeat constructor; try done; try apply digit_range, sextet_range.
Qed.

(** [CXtlBase64::encode] computes the reference encoding of every input whose
    text fits an [int], without leaving its buffer. *)
Definition max_encode_input : Z := 1610612733.

Lemma CXtlBase64_encode_spec input :
  bytes_ok input → Z.of_nat (length input) <= max_encode_input →
  CXtlBase64_encode input = Some (Some (ref_encode input)).
Proof.
  unfold max_encode_input. intros Hb Hl. unfold CXtlBase64_encode.
  rewrite (to_int32_id (Z.of_nat (length input))) by (apply in_int32_spec; lia).
  unfold fresh_buffer, modp_b64_encode_len.
  rewrite (proj2 (in_int32_spec _)) by lia. rewrite (proj2 (Z.leb_le _ _)) by lia. simpl.
  pose proof (ref_encode_length input) as Hlen.
  destruct (wp_run _ _ _ (modp_b64_encode_spec input
    (Z.to_nat (Z.quot (Z.of_nat (length input) + 2) 3 * 4 + 1)) Hb ltac:(lia)))
    as (r & d & Hrun & -> & Htake).
  rewrite Hrun. rewrite (proj2 (Z.ltb_ge _ _)) by lia. by rewrite Htake.
Qed.

(** ** The little-endian decoder computes the reference decoding *)
Lemma lor_mul_add a b k : 0 <= k → 0 <= b < 2 ^ k → Z.lor (a * 2 ^ k) b = a * 2 ^ k + b.
Proof. intros. rewrite <-Z.shiftl_mul_pow2 by lia. rewrite lor_add by lia. by rewrite Z.shiftl_mul_pow2. Qed.

Lemma load32_le src i b0 b1 b2 b3 :
  at_ src i = Some b0 → at_ src (i + 1) = Some b1 → at_ src (i + 2) = Some b2 →
  at_ src (i + 3) = Some b3 → bytes_ok [b0; b1; b2; b3] →
  load32 false src i = Some (b3 * 2 ^ 24 + (b2 * 2 ^ 16 + (b1 * 2 ^ 8 + b0))).
Proof.
  intros H0 H1 H2 H3 (R0 & (R1 & (R2 & (R3 & _)%Forall_cons)%Forall_cons)%Forall_cons)%Forall_cons.
  unfold load32. rewrite H0, H1, H2, H3. f_equal.
  rewrite !Z.shiftl_mul_pow2 by lia. rewrite !Z.lor_assoc, (Z.lor_comm b0).
  rewrite (lor_mul_add b1) by lia. rewrite (Z.lor_comm _ (b2 * 2 ^ 16)), (lor_mul_add b2) by lia.
  rewrite Z.lor_comm. apply lor_mul_add; lia.
Qed.

(** The sum of the four table entries. *)
Definition word (c0 c1 c2 c3 : Z) : Z :=
  Z.lor (Z.lor (Z.lor (le_entry 0 c0) (le_entry 1 c1)) (le_entry 2 c2)) (le_entry 3 c3).

Lemma group4_word b0 b1 b2 b3 : bytes_ok [b0; b1; b2; b3] →
  group4 false (b3 * 2 ^ 24 + (b2 * 2 ^ 16 + (b1 * 2 ^ 8 + b0))) = Some (word b0 b1 b2 b3).
Proof.
  intros (R0 & (R1 & (R2 & (R3 & _)%Forall_cons)%Forall_cons)%Forall_cons)%Forall_cons.
  unfold group4. set (y := b3 * _ + _).
  assert (y = b3 * 16777216 + (b2 * 65536 + (b1 * 256 + b0))) as Hy by done.
  clearbody y. bits_to_arith. change (2 ^ 0) with 1. change (2 ^ 8) with 256.
  change (2 ^ 16) with 65536. change (2 ^ 24) with 16777216.
  assert (y / 1 mod 256 = b0) as -> by lia. assert (y / 256 mod 256 = b1) as -> by lia.
  assert (y / 65536 mod 256 = b2) as -> by lia. assert (y / 16777216 mod 256 = b3) as -> by lia.
  by rewrite d0_entry, d1_entry, d2_entry, d3_entry.
Qed.

Lemma le_entry_range k c : 0 <= c < 256 → 0 <= le_entry k c < 2 ^ 25.
Proof.
  intros Hc. unfold le_entry. destruct (value_of c) as [v|] eqn:Hv; [|done].
  apply value_of_range in Hv; [|done]. unfold le_spread. change (2 ^ 25) with 33554432.
  repeat case_match; lia.
Qed.

Lemma byte_spread k v j : 0 <= v < 64 → 0 <= j < 3 →
  byte_at false (le_spread k v) j =
  (if k =? 0 then if j =? 0 then v * 4 else 0
   else if k =? 1 then if j =? 0 then v / 16 else if j =? 1 then v mod 16 * 16 else 0
   else if k =? 2 then if j =? 0 then 0 else if j =? 1 then v / 4 else v mod 4 * 64
   else if j =? 2 then v else 0).
Proof.
  intros Hv Hj. unfold byte_at, le_spread. rewrite Z.shiftr_div_pow2 by lia.
  assert (j = 0 ∨ j = 1 ∨ j = 2) as [->|[->| ->]] by lia; cbn [Z.eqb Pos.eqb];
    change (2 ^ (8 * 0)) with 1; change (2 ^ (8 * 1)) with 256; change (2 ^ (8 * 2)) with 65536;
    repeat case_match; lia.
Qed.

Lemma word_good v0 v1 v2 v3 c0 c1 c2 c3 :
  bytes_ok [c0; c1; c2; c3] →
  value_of c0 = Some v0 → value_of c1 = Some v1 → value_of c2 = Some v2 → value_of c3 = Some v3 →
  word c0 c1 c2 c3 < BADCHAR ∧
  [byte_at false (word c0 c1 c2 c3) 0; byte_at false (word c0 c1 c2 c3) 1;
   byte_at false (word c0 c1 c2 c3) 2] = octets (v0 * 262144 + v1 * 4096 + v2 * 64 + v3).
Proof.
  intros (R0 & (R1 & (R2 & (R3 & _)%Forall_cons)%Forall_cons)%Forall_cons)%Forall_cons H0 H1 H2 H3.
  unfold word, le_entry. rewrite H0, H1, H2, H3.
  apply value_of_range in H0, H1, H2, H3; try done. split.
  - enough (0 <= Z.lor (Z.lor (Z.lor (le_spread 0 v0) (le_spread 1 v1)) (le_spread 2 v2))
      (le_spread 3 v3) < 2 ^ 24) by (unfold BADCHAR; lia).
    repeat apply lor_lt; try done; change (2 ^ 24) with 16777216; unfold le_spread;
      repeat case_match; lia.
  - rewrite !byte_at_lor, !byte_spread by lia. cbn [Z.eqb Pos.eqb].
    rewrite ?Z.lor_0_r, ?Z.lor_0_l. unfold octets.
    change (v0 * 4) with (v0 * 2 ^ 2). change (v1 mod 16 * 16) with (v1 mod 16 * 2 ^ 4).
    change (v2 mod 4 * 64) with (v2 mod 4 * 2 ^ 6). rewrite !lor_mul_add by lia.
    change (2 ^ 2) with 4. change (2 ^ 4) with 16. change (2 ^ 6) with 64.
    repeat f_equal; lia.
Qed.

Lemma word_bad c0 c1 c2 c3 :
  bytes_ok [c0; c1; c2; c3] → quad c0 c1 c2 c3 = None → word c0 c1 c2 c3 = BADCHAR.
Proof.
  intros (R0 & (R1 & (R2 & (R3 & _)%Forall_cons)%Forall_cons)%Forall_cons)%Forall_cons.
  pose proof (le_entry_range 0 c0 R0). pose proof (le_entry_range 1 c1 R1).
  pose proof (le_entry_range 2 c2 R2). pose proof (le_entry_range 3 c3 R3).
  assert (bad : ∀ k c, value_of c = None → le_entry k c = BADCHAR)
    by (intros k c Hv; unfold le_entry; by rewrite Hv).
  unfold quad, word. intros Hq.
  assert (Hor : value_of c0 = None ∨ value_of c1 = None ∨ value_of c2 = None ∨ value_of c3 = None)
    by (repeat case_match; naive_solver).
  destruct Hor as [Hv|[Hv|[Hv|Hv]]]; rewrite (bad _ _ Hv).
  - rewrite <-!Z.lor_assoc, Z.lor_comm. apply lor_bad. repeat apply lor_lt; done.
  - rewrite (Z.lor_comm (le_entry 0 c0)), <-!Z.lor_assoc, Z.lor_comm. apply lor_bad.
    repeat apply lor_lt; done.
  - rewrite lor_bad by (by apply lor_lt). rewrite Z.lor_comm. by apply lor_bad.
  - apply lor_bad. by repeat apply lor_lt.
Qed.

Lemma word_spec c0 c1 c2 c3 : bytes_ok [c0; c1; c2; c3] →
  match quad c0 c1 c2 c3 with
  | Some n => (BADCHAR <=? word c0 c1 c2 c3) = false ∧
      [byte_at false (word c0 c1 c2 c3) 0; byte_at false (word c0 c1 c2 c3) 1;
       byte_at false (word c0 c1 c2 c3) 2] = octets n
  | None => (BADCHAR <=? word c0 c1 c2 c3) = true
  end.
Proof.
  intros Hb. destruct (quad c0 c1 c2 c3) as [n|] eqn:Hq.
  - unfold quad in Hq.
    destruct (value_of c0) eqn:H0, (value_of c1) eqn:H1, (value_of c2) eqn:H2,
      (value_of c3) eqn:H3; simplify_eq.
    destruct (word_good _ _ _ _ _ _ _ _ Hb H0 H1 H2 H3) as [Hlt ->].
    split; [by apply Z.leb_gt|done].
  - rewrite word_bad by done. by apply Z.leb_le.
Qed.

Lemma wp_store32 x out n p d (Q : unit → Bytes → Prop) :
  cursor out (4 + n) p d →
  (∀ d', cursor (out ++ [byte_at false x 0; byte_at false x 1; byte_at false x 2]) (S n) (p + 3) d' →
     Q tt d') →
  wp (store32 false p x) Q d.
Proof.
  intros Hd HQ. unfold store32. do 3 (apply wp_bind; emit). apply wp_bind. emit. apply wp_ret, HQ.
  rewrite <-!app_assoc in *. simpl in *.
  match goal with H : cursor _ n _ _ |- _ => destruct H as [Hp (room & -> & Hl)] end.
  rewrite length_app in Hp. split; [rewrite length_app; simpl in *; lia|].
  exists (byte_at false x 3 :: room). rewrite <-!app_assoc. split; [done|]. simpl. lia.
Qed.

(** The first [n] groups. *)
Fixpoint ref_groups (n : nat) (l : Bytes) : option Bytes :=
  match n, l with
  | O, _ => Some []
  | S n, c0 :: c1 :: c2 :: c3 :: l =>
      match quad c0 c1 c2 c3, ref_groups n l with
      | Some m, Some r => Some (octets m ++ r)
      | _, _ => None
      end
  | _, _ => None
  end.

Lemma load32_group done c0 c1 c2 c3 rest : bytes_ok [c0; c1; c2; c3] →
  load32 false (done ++ c0 :: c1 :: c2 :: c3 :: rest) (Z.of_nat (length done)) =
  Some (c3 * 2 ^ 24 + (c2 * 2 ^ 16 + (c1 * 2 ^ 8 + c0))).
Proof.
  intros. apply load32_le; [apply at_app| | | |done].
  - by apply (at_app_off done (c0 :: c1 :: c2 :: c3 :: rest) 1).
  - by apply (at_app_off done (c0 :: c1 :: c2 :: c3 :: rest) 2).
  - by apply (at_app_off done (c0 :: c1 :: c2 :: c3 :: rest) 3).
Qed.

Lemma list_length_4 {A} (l : list A) n : length l = (4 + n)%nat →
  ∃ a b c d l', l = a :: b :: c :: d :: l' ∧ length l' = n.
Proof.
  destruct l as [|a [|b [|c [|d l']]]]; simpl; intros; try lia.
  eexists _, _, _, _, _; split; [done|lia].
Qed.

Lemma bytes_ok_4 c0 c1 c2 c3 l :
  bytes_ok (c0 :: c1 :: c2 :: c3 :: l) ↔ bytes_ok [c0; c1; c2; c3] ∧ bytes_ok l.
Proof. apply (Forall_app _ [c0; c1; c2; c3]). Qed.

Lemma decode_loop_spec n done rest y out m p d :
  length rest = (4 * n + 4)%nat → bytes_ok rest →
  load32 false (done ++ rest) (Z.of_nat (length done)) = Some y →
  cursor out (3 * n + 1 + m) p d →
  wp (decode_loop false n (done ++ rest) (Z.of_nat (length done)) p y)
    (λ r d', match ref_groups n rest with
     | None => r = None
     | Some g => ∃ p' y', r = Some (p', y') ∧ load32 false (drop (4 * n) rest) 0 = Some y' ∧
         cursor (out ++ g) (S m) p' d'
     end) d.
Proof.
  revert done rest y out p d. induction n as [|n IH]; intros done rest y out p d Hl Hb Hy Hd.
  - cbn [decode_loop ref_groups]. apply wp_ret. exists p, y. rewrite app_nil_r. split; [done|].
    split; [|done]. destruct (list_length_4 rest 0 Hl) as (a & b & c & e & r & -> & Hr).
    apply bytes_ok_4 in Hb as [Hb _]. rewrite load32_group in Hy by done. simplify_eq.
    by apply (load32_group []).
  - destruct (list_length_4 rest (4 * n + 4) ltac:(lia)) as (c0 & c1 & c2 & c3 & r & -> & Hr).
    apply bytes_ok_4 in Hb as [Hb4 Hb]. rewrite load32_group in Hy by done. simplify_eq.
    cbn [decode_loop ref_groups]. apply wp_bind. eapply wp_of_option; [by apply group4_word|].
    pose proof (word_spec _ _ _ _ Hb4) as Hw. destruct (quad c0 c1 c2 c3) as [q|].
    2: { rewrite Hw. by apply wp_ret. }
    destruct Hw as [-> Hoct]. apply wp_bind.
    eapply (wp_store32 _ out (3 * n + m));
      [by replace (4 + (3 * n + m))%nat with (3 * S n + 1 + m)%nat by lia|].
    rewrite Hoct. intros d' Hd'.
    destruct (list_length_4 r (4 * n) ltac:(lia)) as (e0 & e1 & e2 & e3 & r' & -> & Hr').
    replace (done ++ c0 :: c1 :: c2 :: c3 :: e0 :: e1 :: e2 :: e3 :: r') with
      ((done ++ [c0; c1; c2; c3]) ++ e0 :: e1 :: e2 :: e3 :: r') by by rewrite <-app_assoc.
    replace (Z.of_nat (length done) + 4) with (Z.of_nat (length (done ++ [c0; c1; c2; c3])))
      by (rewrite length_app; simpl; lia).
    assert (bytes_ok [e0; e1; e2; e3]) by by apply bytes_ok_4 in Hb as [? _].
    apply wp_bind. eapply wp_of_option; [by apply load32_group|].
    eapply wp_mono; [eapply IH; [simpl; lia|done|by apply load32_group|]|].
    { by replace (3 * n + 1 + m)%nat with (S (3 * n + m)) by lia. }
    cbn beta. intros r d'' HQ. destruct (ref_groups n _) as [g|]; [|done].
    destruct HQ as (p' & y' & -> & Hy' & Hc). exists p', y'. split; [done|].
    replace (4 * S n)%nat with (4 + 4 * n)%nat by lia. split; [done|]. by rewrite app_assoc.
Qed.

Lemma ref_decode_groups n init c0 c1 c2 c3 :
  length init = (4 * n)%nat →
  ref_decode (init ++ [c0; c1; c2; c3]) =
  match ref_groups n (init ++ [c0; c1; c2; c3]), ref_last c0 c1 c2 c3 with
  | Some g, Some r => Some (g ++ r)
  | _, _ => None
  end.
Proof.
  revert init. induction n as [|n IH]; intros init Hl.
  - destruct init; [|done]. simpl. by destruct (ref_last c0 c1 c2 c3).
  - destruct (list_length_4 init (4 * n) ltac:(lia)) as (a & b & c & d & r & -> & Hr).
    cbn [ref_groups app].
    assert (ref_decode (a :: b :: c :: d :: r ++ [c0; c1; c2; c3]) =
      match quad a b c d, ref_decode (r ++ [c0; c1; c2; c3]) with
      | Some n, Some r => Some (octets n ++ r) | _, _ => None end) as ->
      by (by destruct r).
    rewrite (IH r Hr). destruct (quad a b c d), (ref_groups n (r ++ [c0; c1; c2; c3])),
      (ref_last c0 c1 c2 c3); done || by rewrite app_assoc.
Qed.

(** What [modp_b64_decode] returns after the loop, for each amount of padding. *)
Definition decode_result (chunks : Z) (leftover : Z) (r : Z + Z) : Z :=
  match r with
  | inr v => v
  | inl x => if BADCHAR <=? x then -1 else 3 * chunks + Z.quot (6 * leftover) 8
  end.
Definition leftover_of (c2 c3 : Z) : Z :=
  if c3 =? CHARPAD then if c2 =? CHARPAD then 2 else 3 else 0.

Lemma word_zero c0 c1 c2 :
  word c0 c1 c2 (digit 0) = Z.lor (Z.lor (le_entry 0 c0) (le_entry 1 c1)) (le_entry 2 c2).
Proof. unfold word. change (le_entry 3 (digit 0)) with 0. apply Z.lor_0_r. Qed.
Lemma word_zero2 c0 c1 :
  word c0 c1 (digit 0) (digit 0) = Z.lor (le_entry 0 c0) (le_entry 1 c1).
Proof. rewrite word_zero. change (le_entry 2 (digit 0)) with 0. apply Z.lor_0_r. Qed.

Lemma tail_lookups y c0 c1 c2 c3 : bytes_ok [c0; c1; c2; c3] →
  y = c3 * 2 ^ 24 + (c2 * 2 ^ 16 + (c1 * 2 ^ 8 + c0)) →
  at_ d0 (Z.land (Z.shiftr y 0) 0xff) = Some (le_entry 0 c0) ∧
  at_ d1 (Z.land (Z.shiftr y 8) 0xff) = Some (le_entry 1 c1) ∧
  at_ d2 (Z.land (Z.shiftr y 16) 0xff) = Some (le_entry 2 c2).
Proof.
  intros (R0 & (R1 & (R2 & (R3 & _)%Forall_cons)%Forall_cons)%Forall_cons)%Forall_cons Hy.
  bits_to_arith. change (2 ^ 0) with 1 in *. change (2 ^ 8) with 256 in *.
  change (2 ^ 16) with 65536 in *. change (2 ^ 24) with 16777216 in *.
  assert (y / 1 mod 256 = c0) as -> by lia. assert (y / 256 mod 256 = c1) as -> by lia.
  assert (y / 65536 mod 256 = c2) as -> by lia.
  by rewrite d0_entry, d1_entry, d2_entry.
Qed.

Lemma decode_tail_spec c0 c1 c2 c3 y chunks out n p d :
  bytes_ok [c0; c1; c2; c3] → 0 <= chunks → length out = Z.to_nat (3 * chunks) →
  load32 false [c0; c1; c2; c3] 0 = Some y → cursor out (3 + n) p d →
  wp (decode_tail_le (leftover_of c2 c3) chunks p y)
    (λ r d', match ref_last c0 c1 c2 c3 with
     | None => decode_result chunks (leftover_of c2 c3) r = -1
     | Some last => decode_result chunks (leftover_of c2 c3) r = Z.of_nat (length (out ++ last)) ∧
         ∃ m p', cursor (out ++ last) m p' d'
     end) d.
Proof.
  intros Hb Hc Hout Hy Hd. rewrite (load32_group [] c0 c1 c2 c3 [] Hb : load32 false [c0; c1; c2; c3] 0 = _) in Hy.
  injection Hy as <-.
  destruct (tail_lookups _ c0 c1 c2 c3 Hb eq_refl) as (L0 & L1 & L2).
  assert (bytes_ok [c0; c1; c2; digit 0] ∧ bytes_ok [c0; c1; digit 0; digit 0]) as [Hb3 Hb2].
  { pose proof Hb as (R0 & (R1 & (R2 & _)%Forall_cons)%Forall_cons)%Forall_cons.
    split; repeat (apply Forall_cons_2; [done|]); apply Forall_nil_2. }
  unfold decode_tail_le, leftover_of, ref_last.
  destruct (c3 =? CHARPAD); [destruct (c2 =? CHARPAD)|]; cbn [Z.eqb Pos.eqb].
  - do 2 (apply wp_bind; fetch). rewrite <-word_zero2.
    apply wp_bind. emit. apply wp_ret. cbn [decode_result].
    pose proof (word_spec _ _ _ _ Hb2) as Hw. destruct (quad c0 c1 (digit 0) (digit 0)) as [q|].
    2: by rewrite Hw.
    destruct Hw as [-> Hoct]. cbv [fmap option_fmap option_map compose]. rewrite <-Hoct. cbn [take decode_result].
    split; [rewrite length_app; simpl; lia|]. by eauto.
  - do 3 (apply wp_bind; fetch). rewrite <-word_zero.
    apply wp_bind. emit. apply wp_bind. emit. apply wp_ret. cbn [decode_result].
    pose proof (word_spec _ _ _ _ Hb3) as Hw. destruct (quad c0 c1 c2 (digit 0)) as [q|].
    2: by rewrite Hw.
    destruct Hw as [-> Hoct]. cbv [fmap option_fmap option_map compose]. rewrite <-Hoct. cbn [take decode_result].
    split; [rewrite length_app; simpl; lia|]. rewrite <-!app_assoc in *. by eauto.
  - apply wp_bind. eapply wp_of_option; [by apply group4_word|].
    pose proof (word_spec _ _ _ _ Hb) as Hw. destruct (quad c0 c1 c2 c3) as [q|].
    2: { rewrite Hw. by apply wp_ret. }
    destruct Hw as [-> Hoct]. do 2 (apply wp_bind; emit). apply wp_bind. emit. apply wp_ret.
    cbv [fmap option_fmap option_map compose]. rewrite <-Hoct. cbn [take decode_result]. rewrite <-!app_assoc in *.
    split; [rewrite length_app; simpl; lia|]. by eauto.
Qed.

Lemma strip_pad_spec init c0 c1 c2 c3 len :
  len = Z.of_nat (length (init ++ [c0; c1; c2; c3])) →
  strip_pad (init ++ [c0; c1; c2; c3]) len =
  Some (if c3 =? CHARPAD then if c2 =? CHARPAD then len - 2 else len - 1 else len).
Proof.
  rewrite length_app. simpl. intros ->. unfold strip_pad.
  replace (Z.of_nat (length init + 4) - 1) with (Z.of_nat (length init) + Z.of_nat 3) by lia.
  replace (Z.of_nat (length init + 4) - 2) with (Z.of_nat (length init) + Z.of_nat 2) by lia.
  rewrite (at_app_off init [c0; c1; c2; c3] 3 c3), (at_app_off init [c0; c1; c2; c3] 2 c2) by done.
  destruct (c3 =? CHARPAD); [|done]. by destruct (c2 =? CHARPAD).
Qed.

Lemma ref_groups_length n l g : ref_groups n l = Some g → length g = (3 * n)%nat.
Proof.
  revert l g. induction n as [|n IH]; intros l g; [by intros [= <-]|].
  destruct l as [|a [|b [|c [|d l]]]]; cbn [ref_groups]; try done.
  destruct (quad a b c d), (ref_groups n l) eqn:Hg; intros; simplify_eq.
  rewrite length_app, (IH _ _ Hg). simpl. lia.
Qed.

(** A text of at least one full group, the last one possibly padded. *)
Lemma modp_b64_decode_groups n init c0 c1 c2 c3 room :
  length init = (4 * n)%nat → bytes_ok (init ++ [c0; c1; c2; c3]) → (3 * n + 4 <= room)%nat →
  wp (modp_b64_decode false (init ++ [c0; c1; c2; c3]) (Z.of_nat (4 * n + 4)))
    (λ r d, match ref_decode (init ++ [c0; c1; c2; c3]) with
     | None => r = -1
     | Some out => r = Z.of_nat (length out) ∧ take (length out) d = out
     end) (replicate room 0).
Proof.
  intros Hl Hb Hr. unfold modp_b64_decode.
  rewrite (proj2 (Z.eqb_neq _ 0)) by lia.
  rewrite (proj2 (Z.ltb_ge _ 4)) by lia. rewrite (proj2 (Z.eqb_eq _ 0)) by lia. cbn [orb negb].
  apply wp_bind. eapply wp_of_option.
  { apply strip_pad_spec. rewrite length_app, Hl. simpl. lia. }
  set (len := if c3 =? CHARPAD then _ else _).
  assert (Hlo : Z.rem len 4 = leftover_of c2 c3).
  { unfold len, leftover_of. destruct (c3 =? CHARPAD); [destruct (c2 =? CHARPAD)|]; lia. }
  rewrite Hlo.
  assert (Hch : (if leftover_of c2 c3 =? 0 then Z.quot len 4 - 1 else Z.quot len 4) = Z.of_nat n).
  { unfold len, leftover_of. destruct (c3 =? CHARPAD); [destruct (c2 =? CHARPAD)|]; cbn [Z.eqb Pos.eqb]; lia. }
  rewrite Hch, Nat2Z.id. clear Hch Hlo len.
  assert (∃ y, load32 false (init ++ [c0; c1; c2; c3]) 0 = Some y) as [y Hy].
  { destruct (list_length_4 (init ++ [c0; c1; c2; c3]) (4 * n)) as (x0 & x1 & x2 & x3 & z & He & _);
      [rewrite length_app, Hl; simpl; lia|]. rewrite He in Hb |- *. apply bytes_ok_4 in Hb as [Hb _].
    eexists. by apply (load32_group []). }
  apply wp_bind. fetch. apply wp_bind.
  eapply wp_mono; [eapply (decode_loop_spec n [] (init ++ [c0; c1; c2; c3]) y [] (room - (3 * n + 1)))|].
  - rewrite length_app, Hl. simpl. lia.
  - done.
  - done.
  - replace (3 * n + 1 + (room - (3 * n + 1)))%nat with room by lia. apply cursor_start.
  - cbn beta. intros r d HQ. rewrite (ref_decode_groups n) by done.
    destruct (ref_groups n (init ++ _)) as [g|] eqn:Hg;
      [|subst r; by apply wp_ret].
    destruct HQ as (p' & y' & -> & Hy' & Hc). rewrite drop_app_length' in Hy' by done.
    apply wp_bind. eapply wp_mono;
      [eapply (decode_tail_spec c0 c1 c2 c3 y' (Z.of_nat n) _ (room - (3 * n + 3)))|].
    + by apply Forall_app in Hb as [_ Hb].
    + lia.
    + simpl. rewrite (ref_groups_length _ _ _ Hg). lia.
    + done.
    + by replace (3 + (room - (3 * n + 3)))%nat with (S (room - (3 * n + 1))) by lia.
    + cbn beta. intros r d' HQ. simpl in HQ.
      eapply (wp_mono _ (λ v e, v = decode_result (Z.of_nat n) (leftover_of c2 c3) r ∧ e = d')).
      { destruct r as [x|v]; [|by apply wp_ret]. unfold decode_result.
        destruct (BADCHAR <=? x); by apply wp_ret. }
      intros v e [-> ->]. destruct (ref_last c0 c1 c2 c3) as [last|]; [|done].
      destruct HQ as [-> (m & p2 & Hc2)]. split; [done|].
      destruct Hc2 as [_ (rm & -> & _)]. by rewrite take_app_length.
Qed.


Lemma CXtlBase64_encode_raw_spec input :
  bytes_ok input → Z.of_nat (length input) <= max_encode_input →
  CXtlBase64_encode_raw input = Some (Some (ref_encode input)).
Proof.
  unfold max_encode_input. intros Hb Hl. unfold CXtlBase64_encode_raw, modp_b64_encode_len.
  rewrite (to_int32_id (Z.of_nat (length input))) by (apply in_int32_spec; lia).
  pose proof (ref_encode_length input) as Hlen.
  unfold to_uint64. rewrite Z.mod_small by lia.
  destruct (wp_run _ _ _ (modp_b64_encode_spec input
    (Z.to_nat (Z.quot (Z.of_nat (length input) + 2) 3 * 4 + 1)) Hb ltac:(lia)))
    as (r & d & Hrun & -> & Htake).
  rewrite Hrun. rewrite (proj2 (Z.ltb_ge _ _)) by lia. by rewrite Htake.
Qed.

Lemma ref_decode_bad_length k l : (length l <= k)%nat → (length l mod 4 ≠ 0)%nat → ref_decode l = None.
Proof.
  revert l. induction k as [|k IH]; intros l Hk Hm; [destruct l; simpl in *; done || lia|].
  destruct l as [|a [|b [|c [|d l]]]]; try done.
  assert (length l mod 4 ≠ 0)%nat as Hl.
  { intros H. apply Hm. cbn [length]. replace (S (S (S (S (length l))))) with (length l + 1 * 4)%nat
      by lia. by rewrite Nat.Div0.mod_add. }
  destruct l as [|e l]; [done|].
  change (match quad a b c d, ref_decode (e :: l) with
    | Some n, Some r => Some (octets n ++ r) | _, _ => None end = None).
  rewrite IH by (simpl in *; lia || done). by destruct (quad a b c d).
Qed.

Lemma groups_snoc {A} (l : list A) : l ≠ [] → (length l mod 4 = 0)%nat →
  ∃ n init c0 c1 c2 c3, l = init ++ [c0; c1; c2; c3] ∧ length init = (4 * n)%nat.
Proof.
  intros Hne Hm. apply Nat.Div0.div_exact in Hm.
  destruct (length l / 4)%nat as [|n] eqn:Hd; [destruct l; simpl in *; done || lia|].
  destruct (list_length_4 (drop (4 * n) l) 0) as (c0 & c1 & c2 & c3 & z & He & Hz);
    [rewrite length_drop; lia|]. apply nil_length_inv in Hz as ->.
  exists n, (take (4 * n) l), c0, c1, c2, c3. rewrite <-He, take_drop.
  split; [done|]. rewrite length_take. lia.
Qed.

Lemma CXtlBase64_decode_spec input :
  bytes_ok input → Z.of_nat (length input) <= int32_max →
  CXtlBase64_decode false input = Some (ref_decode input).
Proof.
  unfold int32_max. intros Hb Hl. unfold CXtlBase64_decode.
  rewrite to_int32_id by (apply in_int32_spec; lia).
  unfold fresh_buffer, modp_b64_decode_len.
  rewrite (proj2 (in_int32_spec _)), (proj2 (Z.leb_le 0 _)) by lia. simpl.
  destruct (decide (input = [])) as [->|Hne]; [done|].
  destruct (decide (length input mod 4 = 0)%nat) as [Hm|Hm].
  - destruct (groups_snoc input Hne Hm) as (n & init & c0 & c1 & c2 & c3 & -> & Hi).
    assert (length (init ++ [c0; c1; c2; c3]) = 4 * n + 4)%nat as Hlen
      by (rewrite length_app, Hi; simpl; lia).
    rewrite Hlen in *.
    edestruct (wp_run _ _ _ (modp_b64_decode_groups n init c0 c1 c2 c3
      (Z.to_nat (Z.quot (Z.of_nat (4 * n + 4)) 4 * 3 + 2)) Hi Hb ltac:(lia))) as (r & d & -> & HQ).
    destruct (ref_decode _) as [out|].
    + destruct HQ as [-> HQ]. rewrite (proj2 (Z.ltb_ge _ 0)), Nat2Z.id by lia. by rewrite HQ.
    + by subst r.
  - rewrite (ref_decode_bad_length (length input)) by done. unfold modp_b64_decode.
    assert (Z.rem (Z.of_nat (length input)) 4 ≠ 0) as Hr.
    { intros H. apply Hm. apply Nat2Z.inj. rewrite Nat2Z.inj_mod. lia. }
    rewrite (proj2 (Z.eqb_neq _ 0)) by (destruct input; simpl in *; done || lia).
    rewrite (proj2 (Z.eqb_neq _ 0) Hr), orb_true_r. done.
Qed.

Lemma quad_sextets a b c n : n = a * 65536 + b * 256 + c →
  0 <= a < 256 → 0 <= b < 256 → 0 <= c < 256 →
  quad (digit (sextet n 0)) (digit (sextet n 1)) (digit (sextet n 2)) (digit (sextet n 3)) = Some n
  ∧ octets n = [a; b; c].
Proof.
  intros Hn Ha Hb Hc. unfold quad. rewrite !value_of_digit by apply sextet_range.
  destruct (sextets n a b c Hn Ha Hb Hc) as (-> & -> & -> & ->).
  unfold octets. split; repeat f_equal; lia.
Qed.

Lemma digit_not_pad n k : (digit (sextet n k) =? CHARPAD) = false.
Proof. apply Z.eqb_neq, digit_range, sextet_range. Qed.

Lemma ref_roundtrip l : bytes_ok l → ref_decode (ref_encode l) = Some l.
Proof.
  induction l as [|a|a b|a b c l IH] using list_ind3; intros Hb.
  - done.
  - apply Forall_cons in Hb as [Ra _].
    destruct (quad_sextets a 0 0 (a * 65536) ltac:(lia) Ra ltac:(lia) ltac:(lia)) as [Hq Ho].
    assert (digit (sextet (a * 65536) 2) = digit 0) as H2 by (f_equal; unfold sextet; simpl; lia).
    assert (digit (sextet (a * 65536) 3) = digit 0) as H3 by (f_equal; unfold sextet; simpl; lia).
    rewrite H2, H3 in Hq. cbn [ref_encode ref_decode]. unfold ref_last. rewrite Z.eqb_refl.
    rewrite Hq. cbv [fmap option_fmap option_map compose]. by rewrite Ho.
  - apply Forall_cons in Hb as [Ra [Rb _]%Forall_cons].
    destruct (quad_sextets a b 0 (a * 65536 + b * 256) ltac:(lia) Ra Rb ltac:(lia)) as [Hq Ho].
    assert (digit (sextet (a * 65536 + b * 256) 3) = digit 0) as H3
      by (f_equal; unfold sextet; simpl; lia).
    rewrite H3 in Hq. cbn [ref_encode ref_decode]. unfold ref_last.
    rewrite Z.eqb_refl, digit_not_pad, Hq. cbv [fmap option_fmap option_map compose]. by rewrite Ho.
  - apply Forall_cons in Hb as [Ra [Rb [Rc Hb]%Forall_cons]%Forall_cons].
    destruct (quad_sextets a b c _ eq_refl Ra Rb Rc) as [Hq Ho]. specialize (IH Hb).
    cbn [ref_encode]. destruct (ref_encode l) as [|x t] eqn:Ht.
    + destruct l as [|? [|? [|]]]; simpl in Ht; try done. cbn [ref_decode]. unfold ref_last.
      rewrite digit_not_pad, Hq. cbv [fmap option_fmap option_map]. by rewrite Ho.
    + change (match quad (digit (sextet (a * 65536 + b * 256 + c) 0))
        (digit (sextet (a * 65536 + b * 256 + c) 1)) (digit (sextet (a * 65536 + b * 256 + c) 2))
        (digit (sextet (a * 65536 + b * 256 + c) 3)), ref_decode (x :: t) with
        | Some n, Some r => Some (octets n ++ r) | _, _ => None end = Some (a :: b :: c :: l)).
      by rewrite Hq, IH, Ho.
Qed.

(** Base64 round trip of the code: [CXtlBase64::encode] succeeds on every
    byte string of at most 1610612733 bytes, never leaves the buffer it
    allocated, and [CXtlBase64::decode] of its output returns exactly the
    bytes encoded. *)
Theorem encode_decode_roundtrip input :
  bytes_ok input → Z.of_nat (length input) <= max_encode_input →
  ∃ text, CXtlBase64_encode input = Some (Some text) ∧
    CXtlBase64_decode false text = Some (Some input).
Proof.
  intros Hb Hl. exists (ref_encode input). split; [by apply CXtlBase64_encode_spec|].
  rewrite CXtlBase64_decode_spec; [by rewrite ref_roundtrip|apply ref_encode_bytes|].
  rewrite ref_encode_length. unfold max_encode_input, int32_max in *. lia.
Qed.

Lemma encode_decode_roundtrip_witness :
  ∃ text, CXtlBase64_encode [104; 101; 108; 108; 255] = Some (Some text) ∧
    CXtlBase64_decode false text = Some (Some [104; 101; 108; 108; 255]).
Proof.
  apply (encode_decode_roundtrip [104; 101; 108; 108; 255]); [|vm_compute; discriminate].
  apply (bool_decide_unpack _); vm_compute; exact I.
Defined.

(** C38. [CXtlBase64::decode] (little endian, with padding) is the reference
    decoding for every byte string whose length fits an [int]: it returns true
    with exactly the bytes the base-64 digits denote when the text is well
    formed, false on every other text (a bad length, a character outside the
    alphabet, a pad before the last two positions), and never reads or writes
    outside its buffers, although it moves four bytes at a time. *)
Theorem decode_is_reference input :
  bytes_ok input → Z.of_nat (length input) <= int32_max →
  CXtlBase64_decode false input = Some (ref_decode input).
Proof. apply CXtlBase64_decode_spec. Qed.

Lemma decode_is_reference_witness :
  CXtlBase64_decode false (str_bytes "aGVsbG8=") = Some (Some (str_bytes "hello")) ∧
  CXtlBase64_decode false (str_bytes "aGV!bG8=") = Some None.
Proof.
  split; (rewrite decode_is_reference; [reflexivity| |vm_compute; discriminate]);
    unfold bytes_ok; apply (bool_decide_unpack _); vm_compute; exact I.
Defined.

(** The big-endian variant checks the last three characters on a sum modulo
    2^32, which a bad first and a bad third character wrap below [BADCHAR]: it
    accepts a text the format and the little-endian variant reject. *)
Example big_endian_accepts_bad_tail :
  CXtlBase64_decode true (str_bytes "!A!=") = Some (Some [251; 255]) ∧
  CXtlBase64_decode false (str_bytes "!A!=") = Some None ∧
  ref_decode (str_bytes "!A!=") = None.
Proof. vm_compute. split_and!; reflexivity. Qed.
