(* ===== verification/Blowfish.v ===== *)
(** * [common/encrypt/blowfish]: the Blowfish codec

    [CBlowFish] as built for little-endian machines ([ORDER_DCBA]): the key
    schedule, the block cipher and the buffer loops of both modes.  A word of
    the output array is read and written in memory order, [change_order] swaps
    its bytes, so the cipher itself works on big-endian words. *)

From S2P Require Import Prelude CppBase.
From S2P Require Import BlowfishTables Base64.
#[local] Open Scope prog_scope.

Definition NPASS : Z := 16.

Inductive Mode := ECB | CBC.

(** The member variables of [class CBlowFish]. *)
Record CBlowFish := mkCBlowFish {
  PArray : list Z;
  SBoxes : list (list Z);
  mode : Mode
}.

Definition is_CBC (c : CBlowFish) : bool := match mode c with CBC => true | ECB => false end.

(** ** [union aword], little endian: [w.byte0] is the most significant byte *)
Definition aword_byte (x k : Z) : Z := byte_at false x k.
Definition aword_w (x i : Z) : Z := byte_at false x (3 - i).
Definition aword_of_w (b0 b1 b2 b3 : Z) : Z :=
  b0 * 2 ^ 24 + b1 * 2 ^ 16 + b2 * 2 ^ 8 + b3.

(** [S(x, i)], an entry of a box *)
Definition S_ (c : CBlowFish) (x i : Z) : Z :=
  nth (Z.to_nat (aword_w x i)) (nth (Z.to_nat i) (SBoxes c) []) 0.
Definition P_ (c : CBlowFish) (n : Z) : Z := nth (Z.to_nat n) (PArray c) 0.

Definition bf_F (c : CBlowFish) (x : Z) : Z :=
  to_uint32 (Z.lxor (to_uint32 (S_ c x 0 + S_ c x 1)) (S_ c x 2) + S_ c x 3).
Definition ROUND (c : CBlowFish) (a b n : Z) : Z := Z.lxor a (Z.lxor (bf_F c b) (P_ c n)).

(** [ROUND(Xr, Xl, n)] and [ROUND(Xl, Xr, n)] on the pair (Xl, Xr). *)
Definition ROUND_r (c : CBlowFish) (n : Z) (X : Z * Z) : Z * Z := (X.1, ROUND c X.2 X.1 n).
Definition ROUND_l (c : CBlowFish) (n : Z) (X : Z * Z) : Z * Z := (ROUND c X.1 X.2 n, X.2).

(** The words that [xl] and [xr] point to, after the call. *)
Definition Blowfish_encipher (c : CBlowFish) (x : Z * Z) : Z * Z :=
  let X := (Z.lxor x.1 (P_ c 0), x.2) in
  let X := ROUND_l c 2 (ROUND_r c 1 X) in
  let X := ROUND_l c 4 (ROUND_r c 3 X) in
  let X := ROUND_l c 6 (ROUND_r c 5 X) in
  let X := ROUND_l c 8 (ROUND_r c 7 X) in
  let X := ROUND_l c 10 (ROUND_r c 9 X) in
  let X := ROUND_l c 12 (ROUND_r c 11 X) in
  let X := ROUND_l c 14 (ROUND_r c 13 X) in
  let X := ROUND_l c 16 (ROUND_r c 15 X) in
  (Z.lxor X.2 (P_ c 17), X.1).

Definition Blowfish_decipher (c : CBlowFish) (x : Z * Z) : Z * Z :=
  let X := (Z.lxor x.1 (P_ c 17), x.2) in
  let X := ROUND_l c 15 (ROUND_r c 16 X) in
  let X := ROUND_l c 13 (ROUND_r c 14 X) in
  let X := ROUND_l c 11 (ROUND_r c 12 X) in
  let X := ROUND_l c 9 (ROUND_r c 10 X) in
  let X := ROUND_l c 7 (ROUND_r c 8 X) in
  let X := ROUND_l c 5 (ROUND_r c 6 X) in
  let X := ROUND_l c 3 (ROUND_r c 4 X) in
  let X := ROUND_l c 1 (ROUND_r c 2 X) in
  (Z.lxor X.2 (P_ c 0), X.1).

(** ** [Initialize] *)

(** The key is mixed in, four bytes for each entry of the P array; an empty
    key makes [% keybytes] a division by zero, which is undefined. *)
Fixpoint mix_key (ps : list Z) (key : Bytes) (keybytes j : Z) : option (list Z) :=
  match ps with
  | [] => Some []
  | p :: ps =>
      if keybytes =? 0 then None
      else
        match at_ key j, at_ key (Z.rem (j + 1) keybytes), at_ key (Z.rem (j + 2) keybytes),
              at_ key (Z.rem (j + 3) keybytes) with
        | Some b0, Some b1, Some b2, Some b3 =>
            match mix_key ps key keybytes (Z.rem (j + 4) keybytes) with
            | Some ps => Some (Z.lxor p (aword_of_w b0 b1 b2 b3) :: ps)
            | None => None
            end
        | _, _, _, _ => None
        end
  end.

(** One call of the cipher on (datal, datar) and the two stores after it. *)
Definition set_P (i : nat) (s : CBlowFish * (Z * Z)) : CBlowFish * (Z * Z) :=
  let data := Blowfish_encipher s.1 s.2 in
  (mkCBlowFish (<[S i := data.2]> (<[i := data.1]> (PArray s.1))) (SBoxes s.1) (mode s.1), data).
Definition set_S (i j : nat) (s : CBlowFish * (Z * Z)) : CBlowFish * (Z * Z) :=
  let data := Blowfish_encipher s.1 s.2 in
  (mkCBlowFish (PArray s.1)
     (alter (λ box, <[S j := data.2]> (<[j := data.1]> box)) i (SBoxes s.1)) (mode s.1), data).

(** [for (k = 0; k < 2 * n; k += 2)] *)
Definition by_twos (n : nat) : list nat := (λ k, 2 * k)%nat <$> seq 0 n.
Definition for_each_pure {A B} (l : list A) (f : A → B → B) (b : B) : B :=
  foldl (λ b a, f a b) b l.

Definition Initialize (key : Bytes) (mode_ : Mode) : option CBlowFish :=
  match mix_key bf_P key (to_int32 (Z.of_nat (length key))) 0 with
  | None => None
  | Some ps =>
      let s := (mkCBlowFish ps bf_S mode_, (0, 0)) in
      let s := for_each_pure (by_twos 9) set_P s in
      let s := for_each_pure (seq 0 4) (λ i s, for_each_pure (by_twos 128) (set_S i) s) s in
      Some s.1
  end.

(** ** Buffers *)

Definition GetOutputLength (c : CBlowFish) (lInputLong : Z) : Z :=
  let l := if is_CBC c then to_uint32 (lInputLong + 1) else lInputLong in
  to_uint32 ((l / 8 + (if l mod 8 =? 0 then 0 else 1)) * 8).

Definition change_order (x : Z) : Z :=
  aword_of_w (aword_byte x 0) (aword_byte x 1) (aword_byte x 2) (aword_byte x 3).

(** [memcpy(d + p, src, n)] and [memset(d + p, c, n)] inside the buffer. *)
Definition memcpy (src : Bytes) (n : Z) : ST Bytes unit := λ d,
  if (n <=? Z.of_nat (length src)) && (n <=? Z.of_nat (length d)) && (0 <=? n)
  then Some (tt, take (Z.to_nat n) src ++ drop (Z.to_nat n) d) else None.
Definition memset (p c n : Z) : ST Bytes unit := λ d,
  if (0 <=? p) && (0 <=? n) && (p + n <=? Z.of_nat (length d))
  then Some (tt, take (Z.to_nat p) d ++ replicate (Z.to_nat n) (c mod 256)
       ++ drop (Z.to_nat (p + n)) d)
  else None.

Definition load (p : Z) : ST Bytes Z := λ d,
  match load32 false d p with Some x => Some (x, d) | None => None end.

(** One pass of the loop of [Encode]; a 64-bit value is its two words in
    memory order. *)
Definition encode_block (c : CBlowFish) (p : Z) (CBCval : Z * Z) : ST Bytes (Z * Z) :=
  x ← load p; y ← load (p + 4);
  let x := if is_CBC c then Z.lxor x CBCval.1 else x in
  let y := if is_CBC c then Z.lxor y CBCval.2 else y in
  let out := Blowfish_encipher c (change_order x, change_order y) in
  let x := change_order out.1 in
  let y := change_order out.2 in
  store32 false p x ;; store32 false (p + 4) y ;;
  ret (if is_CBC c then (x, y) else CBCval).

Fixpoint encode_blocks (n : nat) (c : CBlowFish) (p : Z) (CBCval : Z * Z) : ST Bytes unit :=
  match n with
  | O => ret tt
  | S n => CBCval ← encode_block c p CBCval; encode_blocks n c (p + 8) CBCval
  end.

(** [Encode]; no [pInput] means that it is the output array itself.  The
    count is a multiple of 8 below 2^32, so the loop makes a known number of
    passes. *)
Definition Encode (c : CBlowFish) (pInput : option Bytes) (lSize : Z) : ST Bytes Z :=
  match pInput with Some src => memcpy src lSize | None => ret tt end ;;
  let lOutSize := GetOutputLength c lSize in
  let pad := to_uint32 (lOutSize - lSize) in
  memset lSize (if is_CBC c then pad else 0) pad ;;
  encode_blocks (Z.to_nat (lOutSize / 8)) c 0 (0, 0) ;;
  ret lOutSize.

Definition decode_block (c : CBlowFish) (p : Z) (CBCval : Z * Z) : ST Bytes (Z * Z) :=
  x ← load p; y ← load (p + 4);
  let prevCBCval := CBCval in
  let CBCval := if is_CBC c then (x, y) else CBCval in
  let out := Blowfish_decipher c (change_order x, change_order y) in
  let x := change_order out.1 in
  let y := change_order out.2 in
  let x := if is_CBC c then Z.lxor x prevCBCval.1 else x in
  let y := if is_CBC c then Z.lxor y prevCBCval.2 else y in
  store32 false p x ;; store32 false (p + 4) y ;;
  ret CBCval.

(** [for (lCount = 0; lCount < lSize; lCount += 8)]: the final count. *)
Fixpoint decode_blocks (fuel : nat) (c : CBlowFish) (lSize lCount : Z) (CBCval : Z * Z)
    : ST Bytes Z :=
  if lCount <? lSize then
    match fuel with
    | O => crash
    | S fuel =>
        CBCval ← decode_block c lCount CBCval;
        decode_blocks fuel c lSize (to_uint32 (lCount + 8)) CBCval
    end
  else ret lCount.

Definition read (p : Z) : ST Bytes Z := λ d,
  match at_ d p with Some x => Some (x, d) | None => None end.

Definition Decode (c : CBlowFish) (pInput : option Bytes) (lSize : Z) : ST Bytes Z :=
  match pInput with Some src => memcpy src lSize | None => ret tt end ;;
  lCount ← decode_blocks (Z.to_nat (lSize / 8 + 1)) c lSize 0 (0, 0);
  if is_CBC c then
    paddingLen ← read (to_uint32 (lCount - 1));
    if paddingLen <=? 8 then
      b ← read (to_uint32 (lCount - paddingLen));
      if b =? paddingLen then
        poke (to_uint32 (lCount - paddingLen)) 0 ;; ret (to_uint32 (lCount - paddingLen))
      else ret lCount
    else ret lCount
  else ret lCount.

(** The published test vector: a zero key on a zero block. *)
Example blowfish_vector :
  (λ c, Blowfish_encipher c (0, 0)) <$> Initialize [0; 0; 0; 0; 0; 0; 0; 0] ECB =
  Some (0x4EF99745, 0x6198DD78).
Proof. vm_compute. reflexivity. Qed.

(** ** The cipher is a Feistel network: deciphering undoes enciphering *)
Section Feistel.
  Context (c : CBlowFish).

Lemma lxor_cancel a b : Z.lxor (Z.lxor a b) b = a.
Proof. by rewrite Z.lxor_assoc, Z.lxor_nilpotent, Z.lxor_0_r. Qed.

Definition swap (X : Z * Z) : Z * Z := (X.2, X.1).

Lemma swap_swap X : swap (swap X) = X.
Proof. by destruct X. Qed.
Lemma ROUND_r_swap n X : ROUND_r c n (swap X) = swap (ROUND_l c n X).
Proof. done. Qed.
Lemma ROUND_l_swap n X : ROUND_l c n (swap X) = swap (ROUND_r c n X).
Proof. done. Qed.
Lemma ROUND_l_twice n X : ROUND_l c n (ROUND_l c n X) = X.
Proof. destruct X. unfold ROUND_l, ROUND. simpl. by rewrite lxor_cancel. Qed.
Lemma ROUND_r_twice n X : ROUND_r c n (ROUND_r c n X) = X.
Proof. destruct X. unfold ROUND_r, ROUND. simpl. by rewrite lxor_cancel. Qed.

(** The rounds between the two whitenings, for any list of round pairs. *)
Definition rounds_up (X : Z * Z) : Z * Z :=
  let X := ROUND_l c 2 (ROUND_r c 1 X) in let X := ROUND_l c 4 (ROUND_r c 3 X) in
  let X := ROUND_l c 6 (ROUND_r c 5 X) in let X := ROUND_l c 8 (ROUND_r c 7 X) in
  let X := ROUND_l c 10 (ROUND_r c 9 X) in let X := ROUND_l c 12 (ROUND_r c 11 X) in
  let X := ROUND_l c 14 (ROUND_r c 13 X) in ROUND_l c 16 (ROUND_r c 15 X).
Definition rounds_down (X : Z * Z) : Z * Z :=
  let X := ROUND_l c 15 (ROUND_r c 16 X) in let X := ROUND_l c 13 (ROUND_r c 14 X) in
  let X := ROUND_l c 11 (ROUND_r c 12 X) in let X := ROUND_l c 9 (ROUND_r c 10 X) in
  let X := ROUND_l c 7 (ROUND_r c 8 X) in let X := ROUND_l c 5 (ROUND_r c 6 X) in
  let X := ROUND_l c 3 (ROUND_r c 4 X) in ROUND_l c 1 (ROUND_r c 2 X).

Lemma encipher_rounds x :
  Blowfish_encipher c x =
  let X := rounds_up (Z.lxor x.1 (P_ c 0), x.2) in (Z.lxor X.2 (P_ c 17), X.1).
Proof. reflexivity. Qed.
Lemma decipher_rounds x :
  Blowfish_decipher c x =
  let X := rounds_down (Z.lxor x.1 (P_ c 17), x.2) in (Z.lxor X.2 (P_ c 0), X.1).
Proof. reflexivity. Qed.

Ltac undo_rounds :=
  unfold rounds_down, rounds_up; cbv zeta;
  repeat (rewrite ROUND_r_swap, ROUND_l_twice, ROUND_l_swap, ROUND_r_twice); reflexivity.

Lemma rounds_down_up X : rounds_down (swap (rounds_up X)) = swap X.
Proof. undo_rounds. Qed.
Lemma rounds_up_down X : rounds_up (swap (rounds_down X)) = swap X.
Proof. undo_rounds. Qed.

Lemma decipher_encipher x : Blowfish_decipher c (Blowfish_encipher c x) = x.
Proof.
  rewrite encipher_rounds, decipher_rounds. cbn zeta.
  destruct (rounds_up (Z.lxor x.1 (P_ c 0), x.2)) as [a b] eqn:H. cbn [fst snd].
  rewrite lxor_cancel. change (b, a) with (swap (a, b)). rewrite <-H, rounds_down_up.
  destruct x as [x y]. cbn. by rewrite lxor_cancel.
Qed.

Lemma encipher_decipher x : Blowfish_encipher c (Blowfish_decipher c x) = x.
Proof.
  rewrite encipher_rounds, decipher_rounds. cbn zeta.
  destruct (rounds_down (Z.lxor x.1 (P_ c 17), x.2)) as [a b] eqn:H. cbn [fst snd].
  rewrite lxor_cancel. change (b, a) with (swap (a, b)). rewrite <-H, rounds_up_down.
  destruct x as [x y]. cbn. by rewrite lxor_cancel.
Qed.
End Feistel.

(** ** Well-formed codecs *)
Definition u32 (x : Z) : Prop := 0 <= x < 2 ^ 32.
Definition wf (c : CBlowFish) : Prop :=
  length (PArray c) = 18%nat ∧ Forall u32 (PArray c) ∧
  length (SBoxes c) = 4%nat ∧ Forall (λ box, length box = 256%nat ∧ Forall u32 box) (SBoxes c).

Lemma lxor_lt a b k : 0 <= k → 0 <= a < 2 ^ k → 0 <= b < 2 ^ k → 0 <= Z.lxor a b < 2 ^ k.
Proof.
  intros Hk Ha Hb. assert (Z.lxor a b = Z.lxor a b mod 2 ^ k) as ->.
  { rewrite <-Z.land_ones by done. apply Z.bits_inj'. intros n Hn.
    rewrite Z.land_spec, Z.lxor_spec. destruct (decide (n < k)).
    - by rewrite Z.ones_spec_low, andb_true_r by lia.
    - rewrite Z.ones_spec_high, andb_false_r by lia.
      rewrite <-(Z.mod_small a (2 ^ k)), <-(Z.mod_small b (2 ^ k)) by lia.
      by rewrite !Z.mod_pow2_bits_high by lia. }
  apply Z.mod_pos_bound. lia.
Qed.
Lemma u32_lxor a b : u32 a → u32 b → u32 (Z.lxor a b).
Proof. apply lxor_lt. lia. Qed.
Lemma u32_to_uint32 a : u32 (to_uint32 a).
Proof. apply Z.mod_pos_bound. lia. Qed.
Lemma to_uint32_id a : u32 a → to_uint32 a = a.
Proof. apply Z.mod_small. Qed.

Create HintDb bf discriminated.
#[export] Hint Resolve u32_lxor u32_to_uint32 : bf.

Lemma u32_nth l n : Forall u32 l → u32 (nth n l 0).
Proof.
  intros Hl. destruct (decide (n < length l)%nat).
  - by apply Forall_nth.
  - rewrite nth_overflow by lia. done.
Qed.
Lemma u32_P c n : wf c → u32 (P_ c n).
Proof. intros (_ & H & _). by apply u32_nth. Qed.
#[export] Hint Resolve u32_P : bf.

Lemma u32_ROUND c a b n : wf c → u32 a → u32 (ROUND c a b n).
Proof. intros Hc Ha. unfold ROUND. apply u32_lxor; [done|]. apply u32_lxor; [apply u32_to_uint32|by apply u32_P]. Qed.

Definition u32p (X : Z * Z) : Prop := u32 X.1 ∧ u32 X.2.
Lemma u32_ROUND_l c n X : wf c → u32p X → u32p (ROUND_l c n X).
Proof. intros Hc [H1 H2]. split; [by apply u32_ROUND|done]. Qed.
Lemma u32_ROUND_r c n X : wf c → u32p X → u32p (ROUND_r c n X).
Proof. intros Hc [H1 H2]. split; [done|by apply u32_ROUND]. Qed.

Lemma encipher_u32 c x : wf c → u32p x → u32p (Blowfish_encipher c x).
Proof.
  intros Hc [H1 H2]. rewrite encipher_rounds. cbv zeta.
  assert (u32p (rounds_up c (Z.lxor x.1 (P_ c 0), x.2))) as [Ha Hb].
  { unfold rounds_up. cbv zeta. repeat (apply u32_ROUND_l; [done|]; apply u32_ROUND_r; [done|]).
    split; cbn [fst snd]; auto with bf. }
  destruct (rounds_up c _) as [a b]. split; cbn [fst snd] in *; auto with bf.
Qed.
Lemma decipher_u32 c x : wf c → u32p x → u32p (Blowfish_decipher c x).
Proof.
  intros Hc [H1 H2]. rewrite decipher_rounds. cbv zeta.
  assert (u32p (rounds_down c (Z.lxor x.1 (P_ c 17), x.2))) as [Ha Hb].
  { unfold rounds_down. cbv zeta. repeat (apply u32_ROUND_l; [done|]; apply u32_ROUND_r; [done|]).
    split; cbn [fst snd]; auto with bf. }
  destruct (rounds_down c _) as [a b]. split; cbn [fst snd] in *; auto with bf.
Qed.

(** ** [Initialize] is total on non-empty keys and builds a well-formed codec *)
#[global] Instance u32_dec x : Decision (u32 x).
Proof. unfold u32. apply _. Defined.

Lemma aword_of_w_u32 b0 b1 b2 b3 : bytes_ok [b0; b1; b2; b3] → u32 (aword_of_w b0 b1 b2 b3).
Proof.
  intros (R0 & (R1 & (R2 & (R3 & _)%Forall_cons)%Forall_cons)%Forall_cons)%Forall_cons.
  unfold aword_of_w, u32. lia.
Qed.

Lemma at_key key i : bytes_ok key → 0 <= i < Z.of_nat (length key) →
  ∃ b, at_ key i = Some b ∧ 0 <= b < 256.
Proof.
  intros Hk Hi. unfold at_. rewrite (proj2 (Z.leb_le 0 i)) by lia.
  destruct (lookup_lt_is_Some_2 key (Z.to_nat i)) as [b Hb]; [lia|].
  exists b. split; [done|]. exact (Forall_lookup_1 _ _ _ _ Hk Hb).
Qed.

Lemma mix_key_spec ps key j :
  bytes_ok key → key ≠ [] → 0 <= j < Z.of_nat (length key) → Forall u32 ps →
  ∃ ps', mix_key ps key (Z.of_nat (length key)) j = Some ps' ∧
    length ps' = length ps ∧ Forall u32 ps'.
Proof.
  intros Hk Hne. assert (0 < Z.of_nat (length key)) as Hpos by (destruct key; simpl in *; done || lia).
  revert j. induction ps as [|p ps IH]; intros j Hj Hps; [eauto|].
  apply Forall_cons in Hps as [Hp Hps]. cbn [mix_key]. rewrite (proj2 (Z.eqb_neq _ 0)) by lia.
  assert (∀ i, 0 <= i → 0 <= Z.rem i (Z.of_nat (length key)) < Z.of_nat (length key)) as Hrem
    by (intros; apply Z.rem_bound_pos; lia).
  destruct (at_key key j Hk Hj) as (b0 & -> & ?).
  destruct (at_key key _ Hk (Hrem (j + 1) ltac:(lia))) as (b1 & -> & ?).
  destruct (at_key key _ Hk (Hrem (j + 2) ltac:(lia))) as (b2 & -> & ?).
  destruct (at_key key _ Hk (Hrem (j + 3) ltac:(lia))) as (b3 & -> & ?).
  destruct (IH (Z.rem (j + 4) (Z.of_nat (length key)))) as (ps' & -> & Hl & Hu); [apply Hrem; lia|done|].
  eexists. split; [done|]. split; [simpl; by rewrite Hl|]. constructor; [|done].
  apply u32_lxor; [done|]. apply aword_of_w_u32. repeat (apply Forall_cons_2; [done|]); apply Forall_nil_2.
Qed.

Definition wfs (s : CBlowFish * (Z * Z)) : Prop := wf s.1 ∧ u32p s.2.

Lemma set_P_wf i s : wfs s → wfs (set_P i s).
Proof.
  destruct s as [c x]. intros [Hc Hx]. pose proof (encipher_u32 c x Hc Hx) as [H1 H2].
  destruct Hc as (Hl & Hp & Hs). unfold set_P. split; [|done]. cbn [fst snd].
  split_and!; cbn [PArray SBoxes]; [by rewrite !length_insert| |apply Hs..].
  by repeat apply Forall_insert.
Qed.

Lemma set_S_wf i j s : wfs s → wfs (set_S i j s).
Proof.
  destruct s as [c x]. intros [Hc Hx]. pose proof (encipher_u32 c x Hc Hx) as [H1 H2].
  destruct Hc as (Hl & Hp & Hs & Hb). unfold set_S. split; [|done]. cbn [fst snd].
  split_and!; cbn [PArray SBoxes]; [done|done|by rewrite length_alter|].
  apply Forall_alter; [done|]. intros box Hbox [Hlen Hu]. rewrite !length_insert.
  split; [done|]. by repeat apply Forall_insert.
Qed.

Lemma for_each_pure_inv {A B} (I : B → Prop) (l : list A) f b :
  I b → (∀ a b, I b → I (f a b)) → I (for_each_pure l f b).
Proof. intros Hb Hf. unfold for_each_pure. revert b Hb. induction l; simpl; eauto. Qed.

Lemma bf_tables_ok : length bf_P = 18%nat ∧ Forall u32 bf_P ∧
  length bf_S = 4%nat ∧ Forall (λ box, length box = 256%nat ∧ Forall u32 box) bf_S.
Proof. split_and!; [done| |done|]; apply (bool_decide_unpack _); vm_compute; exact I. Qed.

Lemma Initialize_wf key m :
  bytes_ok key → key ≠ [] → Z.of_nat (length key) <= int32_max →
  ∃ c, Initialize key m = Some c ∧ wf c ∧ mode c = m.
Proof.
  unfold int32_max. intros Hk Hne Hl. destruct bf_tables_ok as (Hp & Hpu & Hs & Hsu).
  unfold Initialize. rewrite to_int32_id by (apply in_int32_spec; lia).
  destruct (mix_key_spec bf_P key 0 Hk Hne) as (ps & -> & Hps & Hpsu);
    [destruct key; simpl in *; done || lia|done|].
  set (s0 := (mkCBlowFish ps bf_S m, (0, 0))).
  assert (wfs s0 ∧ mode s0.1 = m) as H0 by (unfold s0; split_and!; simpl; try done; congruence).
  eexists. split; [done|].
  enough (wfs (for_each_pure (seq 0 4) (λ i s, for_each_pure (by_twos 128) (set_S i) s)
    (for_each_pure (by_twos 9) set_P s0)) ∧ mode (for_each_pure (seq 0 4)
      (λ i s, for_each_pure (by_twos 128) (set_S i) s) (for_each_pure (by_twos 9) set_P s0)).1 = m)
    as [[? _] ?] by done.
  set (I := λ s : CBlowFish * (Z * Z), wfs s ∧ mode s.1 = m).
  apply (for_each_pure_inv I); [apply (for_each_pure_inv I); [done|]|].
  - intros i s [Hw Hm]. split; [by apply set_P_wf|done].
  - intros i s HI. apply (for_each_pure_inv I); [done|].
    intros j s' [Hw Hm]. split; [by apply set_S_wf|done].
Qed.

Lemma Initialize_empty_key m : Initialize [] m = None.
Proof. reflexivity. Qed.

(** ** Words and bytes *)
#[local] Ltac Zify.zify_post_hook ::= Z.to_euclidean_division_equations.

Lemma byte_at_div x k : 0 <= k → byte_at false x k = x / 2 ^ (8 * k) mod 256.
Proof. intros. unfold byte_at. by rewrite Z.shiftr_div_pow2 by lia. Qed.

Lemma byte_at_range x k : 0 <= byte_at false x k < 256.
Proof. unfold byte_at. apply Z.mod_pos_bound. lia. Qed.

Lemma byte_at_word b0 b1 b2 b3 x : bytes_ok [b0; b1; b2; b3] →
  x = b3 * 2 ^ 24 + (b2 * 2 ^ 16 + (b1 * 2 ^ 8 + b0)) →
  byte_at false x 0 = b0 ∧ byte_at false x 1 = b1 ∧ byte_at false x 2 = b2 ∧ byte_at false x 3 = b3.
Proof.
  intros (R0 & (R1 & (R2 & (R3 & _)%Forall_cons)%Forall_cons)%Forall_cons)%Forall_cons ->.
  rewrite !byte_at_div by lia. change (2 ^ (8 * 0)) with 1. change (2 ^ (8 * 1)) with 256.
  change (2 ^ (8 * 2)) with 65536. change (2 ^ (8 * 3)) with 16777216.
  change (2 ^ 24) with 16777216. change (2 ^ 16) with 65536. change (2 ^ 8) with 256.
  split_and!; lia.
Qed.

Lemma word_of_bytes x : u32 x →
  x = byte_at false x 3 * 2 ^ 24 + (byte_at false x 2 * 2 ^ 16 + (byte_at false x 1 * 2 ^ 8
      + byte_at false x 0)).
Proof.
  unfold u32. intros Hx. rewrite !byte_at_div by lia. change (2 ^ (8 * 0)) with 1.
  change (2 ^ (8 * 1)) with 256. change (2 ^ (8 * 2)) with 65536. change (2 ^ (8 * 3)) with 16777216.
  change (2 ^ 24) with 16777216. change (2 ^ 16) with 65536. change (2 ^ 8) with 256.
  change (2 ^ 32) with 4294967296 in Hx. lia.
Qed.

(** The four bytes of a word in memory. *)
Definition wbytes (x : Z) : Bytes :=
  [byte_at false x 0; byte_at false x 1; byte_at false x 2; byte_at false x 3].

Lemma wbytes_ok x : bytes_ok (wbytes x).
Proof. repeat (apply Forall_cons_2; [apply byte_at_range|]). apply Forall_nil_2. Qed.

Lemma wbytes_of b0 b1 b2 b3 : bytes_ok [b0; b1; b2; b3] →
  ∃ x, u32 x ∧ wbytes x = [b0; b1; b2; b3].
Proof.
  intros Hb. destruct (byte_at_word b0 b1 b2 b3 _ Hb eq_refl) as (H0 & H1 & H2 & H3).
  eexists. split; [|unfold wbytes; by rewrite H0, H1, H2, H3].
  revert Hb. intros (R0 & (R1 & (R2 & (R3 & _)%Forall_cons)%Forall_cons)%Forall_cons)%Forall_cons.
  unfold u32. lia.
Qed.

Lemma change_order_u32 x : u32 (change_order x).
Proof.
  apply aword_of_w_u32. repeat (apply Forall_cons_2; [apply byte_at_range|]). apply Forall_nil_2.
Qed.
#[export] Hint Resolve change_order_u32 : bf.

Lemma change_order_invol x : u32 x → change_order (change_order x) = x.
Proof.
  intros Hx. rewrite (word_of_bytes x) at 2 by done. unfold change_order at 1. unfold aword_byte.
  destruct (byte_at_word (byte_at false x 3) (byte_at false x 2) (byte_at false x 1)
    (byte_at false x 0) (change_order x)) as (-> & -> & -> & ->).
  - repeat (apply Forall_cons_2; [apply byte_at_range|]). apply Forall_nil_2.
  - unfold change_order, aword_of_w, aword_byte. lia.
  - unfold aword_of_w. lia.
Qed.

Lemma load_at pre x rest : u32 x →
  load (Z.of_nat (length pre)) (pre ++ wbytes x ++ rest) = Some (x, pre ++ wbytes x ++ rest).
Proof.
  intros Hx. unfold load, wbytes. cbn [app]. rewrite load32_group by apply wbytes_ok.
  by rewrite <-word_of_bytes.
Qed.

Lemma poke_at pre y rest c :
  poke (Z.of_nat (length pre)) c (pre ++ y :: rest) =
  Some (Z.of_nat (length pre) + 1, pre ++ c :: rest).
Proof.
  unfold poke. rewrite (proj2 (Z.leb_le 0 _)) by lia.
  rewrite (proj2 (Z.ltb_lt _ _)) by (rewrite length_app; simpl; lia). simpl.
  by rewrite Nat2Z.id, insert_app_r_alt, Nat.sub_diag by lia.
Qed.

Lemma store_at pre y0 y1 y2 y3 rest x :
  store32 false (Z.of_nat (length pre)) x (pre ++ y0 :: y1 :: y2 :: y3 :: rest) =
  Some (tt, pre ++ wbytes x ++ rest).
Proof.
  unfold store32, bind, ret.
  assert (∀ l (b : Z), Z.of_nat (length l) + 1 = Z.of_nat (length (l ++ [b]))) as Hn
    by (intros; rewrite length_app; simpl; lia).
  assert (∀ (l : Bytes) b r, l ++ b :: r = (l ++ [b]) ++ r) as Ha
    by (intros; by rewrite <-app_assoc).
  cbn beta. rewrite poke_at. cbn iota beta. rewrite (Ha pre), (Hn pre (byte_at false x 0)), poke_at.
  cbn iota beta. rewrite (Ha (pre ++ _)), (Hn _ (byte_at false x 1)), poke_at.
  cbn iota beta. rewrite (Ha ((pre ++ _) ++ _)), (Hn _ (byte_at false x 2)), poke_at.
  by rewrite <-!app_assoc.
Qed.

(** ** Blocks *)
Definition block_bytes (b : Z * Z) : Bytes := wbytes b.1 ++ wbytes b.2.
Definition blocks_bytes (bs : list (Z * Z)) : Bytes := bs ≫= block_bytes.

Lemma blocks_bytes_cons b bs :
  blocks_bytes (b :: bs) = wbytes b.1 ++ wbytes b.2 ++ blocks_bytes bs.
Proof. reflexivity. Qed.

Lemma blocks_bytes_length bs : length (blocks_bytes bs) = (8 * length bs)%nat.
Proof.
  induction bs as [|b bs IH]; [done|]. rewrite blocks_bytes_cons, !length_app, IH. simpl. lia.
Qed.

Lemma blocks_bytes_ok bs : bytes_ok (blocks_bytes bs).
Proof.
  induction bs as [|b bs IH]; [constructor|]. rewrite blocks_bytes_cons.
  repeat apply Forall_app_2; [apply wbytes_ok..|done].
Qed.

Lemma blocks_of l n : bytes_ok l → length l = (8 * n)%nat →
  ∃ bs, l = blocks_bytes bs ∧ Forall u32p bs ∧ length bs = n.
Proof.
  revert l. induction n as [|n IH]; intros l Hb Hl.
  - destruct l; [|done]. by exists [].
  - destruct (list_length_4 l (4 + 8 * n)) as (b0 & b1 & b2 & b3 & l1 & -> & Hl1); [lia|].
    destruct (list_length_4 l1 (8 * n)) as (b4 & b5 & b6 & b7 & l2 & -> & Hl2); [lia|].
    apply bytes_ok_4 in Hb as [Hb1 [Hb2 Hb]%bytes_ok_4].
    destruct (wbytes_of _ _ _ _ Hb1) as (x & Hx & Ex), (wbytes_of _ _ _ _ Hb2) as (y & Hy & Ey).
    destruct (IH l2 Hb Hl2) as (bs & -> & Hbs & Hlen).
    exists ((x, y) :: bs). split; [|split; [by constructor|simpl; by rewrite Hlen]].
    rewrite blocks_bytes_cons. cbn [fst snd]. by rewrite Ex, Ey.
Qed.

(** What one pass computes on the words of a block. *)
Definition xor_if (b : bool) (x v : Z * Z) : Z * Z :=
  if b then (Z.lxor x.1 v.1, Z.lxor x.2 v.2) else x.
Definition order2 (x : Z * Z) : Z * Z := (change_order x.1, change_order x.2).
Definition enc_block (c : CBlowFish) (v b : Z * Z) : Z * Z :=
  order2 (Blowfish_encipher c (order2 (xor_if (is_CBC c) b v))).
Definition dec_block (c : CBlowFish) (v b : Z * Z) : Z * Z :=
  xor_if (is_CBC c) (order2 (Blowfish_decipher c (order2 b))) v.
Fixpoint enc_blocks (c : CBlowFish) (v : Z * Z) (bs : list (Z * Z)) : list (Z * Z) :=
  match bs with
  | [] => []
  | b :: bs => let e := enc_block c v b in e :: enc_blocks c (if is_CBC c then e else v) bs
  end.
Fixpoint dec_blocks (c : CBlowFish) (v : Z * Z) (bs : list (Z * Z)) : list (Z * Z) :=
  match bs with
  | [] => []
  | b :: bs => dec_block c v b :: dec_blocks c (if is_CBC c then b else v) bs
  end.

Lemma order2_u32 x : u32p (order2 x).
Proof. split; apply change_order_u32. Qed.
Lemma order2_invol x : u32p x → order2 (order2 x) = x.
Proof. destruct x. intros [H1 H2]. unfold order2. simpl in *. by rewrite !change_order_invol. Qed.
Lemma xor_if_u32 b x v : u32p x → u32p v → u32p (xor_if b x v).
Proof. intros [] []. destruct b; [|done]. split; simpl; auto with bf. Qed.
Lemma xor_if_twice b x v : xor_if b (xor_if b x v) v = x.
Proof. destruct b, x; [|done]. unfold xor_if. simpl. by rewrite !lxor_cancel. Qed.

Lemma dec_enc_block c v b : wf c → u32p b → u32p v → dec_block c v (enc_block c v b) = b.
Proof.
  intros Hc Hb Hv. unfold dec_block, enc_block.
  rewrite (order2_invol (Blowfish_encipher _ _)) by (apply encipher_u32; [done|apply order2_u32]).
  rewrite decipher_encipher, order2_invol by by apply xor_if_u32.
  apply xor_if_twice.
Qed.

Lemma dec_enc_blocks c v bs : wf c → Forall u32p bs → u32p v →
  dec_blocks c v (enc_blocks c v bs) = bs.
Proof.
  intros Hc Hbs. revert v. induction Hbs as [|b bs Hb Hbs IH]; intros v Hv; [done|].
  cbn [enc_blocks dec_blocks]. rewrite dec_enc_block by done. f_equal. apply IH.
  destruct (is_CBC c); [apply order2_u32|done].
Qed.

Lemma enc_blocks_u32 c v bs : Forall u32p (enc_blocks c v bs).
Proof.
  revert v. induction bs as [|b bs IH]; intros v; [constructor|]. simpl.
  constructor; [apply order2_u32|apply IH].
Qed.
Lemma enc_blocks_length c v bs : length (enc_blocks c v bs) = length bs.
Proof. revert v. induction bs as [|b bs IH]; intros v; [done|]. simpl. by rewrite IH. Qed.

Lemma load_at4 pre x y rest : u32 y →
  load (Z.of_nat (length pre) + 4) (pre ++ wbytes x ++ wbytes y ++ rest) =
  Some (y, pre ++ wbytes x ++ wbytes y ++ rest).
Proof.
  intros Hy. rewrite (app_assoc pre).
  replace (Z.of_nat (length pre) + 4) with (Z.of_nat (length (pre ++ wbytes x)))
    by (rewrite length_app; simpl; lia).
  by apply load_at.
Qed.

(** Both words of a block are stored. *)
Lemma store_block pre x y e rest :
  bind (store32 false (Z.of_nat (length pre)) e.1)
       (λ _, store32 false (Z.of_nat (length pre) + 4) e.2) (pre ++ wbytes x ++ wbytes y ++ rest) =
  Some (tt, pre ++ wbytes e.1 ++ wbytes e.2 ++ rest).
Proof.
  unfold bind. unfold wbytes at 1. cbn [app]. rewrite store_at, (app_assoc pre).
  replace (Z.of_nat (length pre) + 4) with (Z.of_nat (length (pre ++ wbytes e.1)))
    by (rewrite length_app; simpl; lia).
  unfold wbytes at 3. cbn [app]. rewrite store_at. by rewrite <-app_assoc.
Qed.

Lemma bind_run {S A B} (m : ST S A) (f : A → ST S B) s a s' :
  m s = Some (a, s') → bind m f s = f a s'.
Proof. unfold bind. by intros ->. Qed.

Lemma bind_assoc {S A B C} (m : ST S A) (f : A → ST S B) (g : B → ST S C) s :
  bind m (λ a, bind (f a) g) s = bind (bind m f) g s.
Proof. unfold bind. by destruct (m s) as [[a s']|]. Qed.

#[local] Opaque Blowfish_encipher Blowfish_decipher change_order wbytes.

Lemma encode_block_at c pre b v rest : u32p b →
  encode_block c (Z.of_nat (length pre)) v (pre ++ wbytes b.1 ++ wbytes b.2 ++ rest) =
  let e := enc_block c v b in
  Some (if is_CBC c then e else v, pre ++ wbytes e.1 ++ wbytes e.2 ++ rest).
Proof.
  intros [H1 H2]. unfold encode_block.
  erewrite bind_run by by apply load_at. erewrite bind_run by by apply load_at4. cbv zeta.
  rewrite bind_assoc. erewrite bind_run;
    [|apply (store_block pre b.1 b.2 (_, _) rest)].
  unfold enc_block, xor_if, order2, ret. destruct b. by destruct (is_CBC c).
Qed.

Lemma decode_block_at c pre b v rest : u32p b →
  decode_block c (Z.of_nat (length pre)) v (pre ++ wbytes b.1 ++ wbytes b.2 ++ rest) =
  let e := dec_block c v b in
  Some (if is_CBC c then b else v, pre ++ wbytes e.1 ++ wbytes e.2 ++ rest).
Proof.
  intros [H1 H2]. unfold decode_block.
  erewrite bind_run by by apply load_at. erewrite bind_run by by apply load_at4. cbv zeta.
  rewrite bind_assoc. erewrite bind_run;
    [|apply (store_block pre b.1 b.2 (_, _) rest)].
  unfold dec_block, xor_if, order2, ret. destruct b. by destruct (is_CBC c).
Qed.

Lemma encode_blocks_at c pre bs v rest : Forall u32p bs →
  encode_blocks (length bs) c (Z.of_nat (length pre)) v (pre ++ blocks_bytes bs ++ rest) =
  Some (tt, pre ++ blocks_bytes (enc_blocks c v bs) ++ rest).
Proof.
  intros Hbs. revert pre v. induction Hbs as [|b bs Hb Hbs IH]; intros pre v; [done|].
  cbn [length encode_blocks enc_blocks]. rewrite !blocks_bytes_cons, <-!app_assoc.
  erewrite bind_run by by apply encode_block_at. cbv zeta.
  set (e := enc_block c v b). rewrite (app_assoc pre), (app_assoc (pre ++ _)).
  replace (Z.of_nat (length pre) + 8) with (Z.of_nat (length ((pre ++ wbytes e.1) ++ wbytes e.2)))
    by (rewrite !length_app; change (length (wbytes e.1)) with 4%nat;
        change (length (wbytes e.2)) with 4%nat; lia).
  rewrite IH. by rewrite <-!app_assoc.
Qed.

Lemma decode_blocks_at c pre bs v rest fuel lSize :
  Forall u32p bs → (length bs <= fuel)%nat →
  Z.of_nat (length pre) + 8 * Z.of_nat (length bs) < 2 ^ 32 →
  Z.of_nat (length pre) + 8 * Z.of_nat (length bs) - 8 < lSize
    <= Z.of_nat (length pre) + 8 * Z.of_nat (length bs) →
  decode_blocks fuel c lSize (Z.of_nat (length pre)) v (pre ++ blocks_bytes bs ++ rest) =
  Some (Z.of_nat (length pre) + 8 * Z.of_nat (length bs),
        pre ++ blocks_bytes (dec_blocks c v bs) ++ rest).
Proof.
  intros Hbs. revert pre v fuel.
  induction Hbs as [|b bs Hb Hbs IH]; intros pre v fuel Hf Hw Hl; cbn [length] in *.
  - assert (Z.of_nat (length pre) <? lSize = false) as Hc by (apply Z.ltb_ge; lia).
    replace (Z.of_nat (length pre) + 8 * Z.of_nat 0) with (Z.of_nat (length pre)) by lia.
    destruct fuel; cbn [decode_blocks dec_blocks]; by rewrite Hc.
  - destruct fuel as [|fuel]; [lia|]. cbn [decode_blocks dec_blocks].
    rewrite (proj2 (Z.ltb_lt _ _)) by lia. rewrite !blocks_bytes_cons, <-!app_assoc.
    erewrite bind_run by by apply decode_block_at. cbv zeta.
    set (e := dec_block c v b). rewrite (app_assoc pre), (app_assoc (pre ++ _)).
    rewrite to_uint32_id by (unfold u32; lia).
    assert (Z.of_nat (length pre) + 8 = Z.of_nat (length ((pre ++ wbytes e.1) ++ wbytes e.2))) as Hp
      by (rewrite !length_app; change (length (wbytes e.1)) with 4%nat;
          change (length (wbytes e.2)) with 4%nat; lia).
    rewrite Hp, IH by lia. rewrite <-Hp, <-!app_assoc. do 2 f_equal. lia.
Qed.

(** ** [GetOutputLength]: the next multiple of 8 (strictly above in CBC mode) *)
Lemma GetOutputLength_spec c n : 0 <= n <= 2 ^ 32 - 16 →
  let m := GetOutputLength c n in
  m mod 8 = 0 ∧ 0 <= m < 2 ^ 32 ∧
  (if is_CBC c then n < m <= n + 8 else n <= m < n + 8).
Proof.
  intros Hn. unfold GetOutputLength, to_uint32. change (2 ^ 32) with 4294967296 in *.
  destruct (is_CBC c); cbv zeta.
  - rewrite (Z.mod_small (n + 1)) by lia. destruct (Z.eqb_spec ((n + 1) mod 8) 0);
      rewrite (Z.mod_small (_ * 8) 4294967296) by lia; lia.
  - destruct (Z.eqb_spec (n mod 8) 0); rewrite (Z.mod_small (_ * 8) 4294967296) by lia; lia.
Qed.

Definition pad_byte (c : CBlowFish) (n : Z) : Z := if is_CBC c then GetOutputLength c n - n else 0.
(** The text with its padding, a whole number of blocks. *)
Definition padded (c : CBlowFish) (plain : Bytes) : Bytes :=
  let n := Z.of_nat (length plain) in
  plain ++ replicate (Z.to_nat (GetOutputLength c n - n)) (pad_byte c n).

Lemma padded_length c plain : Z.of_nat (length plain) <= 2 ^ 32 - 16 →
  Z.of_nat (length (padded c plain)) = GetOutputLength c (Z.of_nat (length plain)).
Proof.
  intros Hl. destruct (GetOutputLength_spec c (Z.of_nat (length plain))) as (_ & _ & H); [lia|].
  unfold padded. rewrite length_app, length_replicate. destruct (is_CBC c); lia.
Qed.

Lemma padded_blocks c plain : bytes_ok plain → Z.of_nat (length plain) <= 2 ^ 32 - 16 →
  ∃ bs, padded c plain = blocks_bytes bs ∧ Forall u32p bs ∧
    Z.of_nat (length bs) = GetOutputLength c (Z.of_nat (length plain)) / 8.
Proof.
  intros Hb Hl. pose proof (padded_length c plain Hl) as Hpl.
  destruct (GetOutputLength_spec c (Z.of_nat (length plain))) as (Hm & Hr & H); [lia|].
  destruct (blocks_of (padded c plain) (Z.to_nat (GetOutputLength c (Z.of_nat (length plain)) / 8)))
    as (bs & -> & Hbs & Hn).
  - apply Forall_app_2; [done|]. apply Forall_replicate. unfold pad_byte. destruct (is_CBC c); lia.
  - lia.
  - exists bs. split; [done|]. split; [done|]. lia.
Qed.

Lemma memcpy_all src out : (length src <= length out)%nat →
  memcpy src (Z.of_nat (length src)) out = Some (tt, src ++ drop (length src) out).
Proof.
  intros Hl. unfold memcpy. rewrite !(proj2 (Z.leb_le _ _)) by lia. cbn [andb].
  by rewrite Nat2Z.id, firstn_all.
Qed.

Lemma memset_at l rest v k : (k <= length rest)%nat →
  memset (Z.of_nat (length l)) v (Z.of_nat k) (l ++ rest) =
  Some (tt, l ++ replicate k (v mod 256) ++ drop k rest).
Proof.
  intros Hk. unfold memset. rewrite !(proj2 (Z.leb_le _ _)) by (rewrite ?length_app; lia).
  cbn [andb]. rewrite <-Nat2Z.inj_add, !Nat2Z.id, take_app_length, drop_app_add'; [done|].
  done.
Qed.

(** [Encode] into a large enough array: the blocks of the padded text. *)
Lemma Encode_spec c plain out bs :
  Z.of_nat (length plain) <= 2 ^ 32 - 16 → padded c plain = blocks_bytes bs → Forall u32p bs →
  (length (padded c plain) <= length out)%nat →
  Encode c (Some plain) (Z.of_nat (length plain)) out =
  Some (GetOutputLength c (Z.of_nat (length plain)),
        blocks_bytes (enc_blocks c (0, 0) bs) ++ drop (length (padded c plain)) out).
Proof.
  intros Hl Hp Hbs Ho. pose proof (padded_length c plain Hl) as Hpl.
  destruct (GetOutputLength_spec c (Z.of_nat (length plain))) as (Hm & Hr & H); [lia|].
  set (m := GetOutputLength c (Z.of_nat (length plain))) in *.
  assert (Z.of_nat (length plain) <= m <= Z.of_nat (length plain) + 8) by (destruct (is_CBC c); lia).
  set (k := Z.to_nat (m - Z.of_nat (length plain))).
  assert (to_uint32 (m - Z.of_nat (length plain)) = Z.of_nat k) as Hpad
    by (rewrite to_uint32_id by (unfold u32; lia); lia).
  assert ((if is_CBC c then Z.of_nat k else 0) mod 256 = pad_byte c (Z.of_nat (length plain))) as Hpb
    by (unfold pad_byte; fold m; destruct (is_CBC c); [rewrite Z.mod_small|]; lia).
  unfold Encode. erewrite bind_run by (apply memcpy_all; lia). cbv zeta. fold m. rewrite Hpad.
  erewrite bind_run by (apply memset_at; rewrite length_drop; lia).
  rewrite Hpb, drop_drop, app_assoc.
  assert (plain ++ replicate k (pad_byte c (Z.of_nat (length plain))) = blocks_bytes bs) as ->
    by (rewrite <-Hp; done).
  pose proof (blocks_bytes_length bs) as Hbl. rewrite <-Hp in Hbl.
  replace (Z.to_nat (m / 8)) with (length bs) by lia.
  erewrite bind_run by by apply (encode_blocks_at c [] bs). unfold ret. cbn [app].
  do 4 f_equal. lia.
Qed.

(** [Decode] of whole blocks, before the padding is looked at. *)
Lemma decode_blocks_spec c cipher out bs :
  cipher = blocks_bytes bs → Forall u32p bs → Z.of_nat (length cipher) < 2 ^ 32 →
  (length cipher <= length out)%nat →
  bind (memcpy cipher (Z.of_nat (length cipher))) (λ _,
    decode_blocks (Z.to_nat (Z.of_nat (length cipher) / 8 + 1)) c (Z.of_nat (length cipher)) 0 (0, 0))
    out =
  Some (Z.of_nat (length cipher), blocks_bytes (dec_blocks c (0, 0) bs) ++ drop (length cipher) out).
Proof.
  intros -> Hbs Hl Ho. rewrite blocks_bytes_length in *.
  erewrite bind_run by (rewrite <-blocks_bytes_length; apply memcpy_all; by rewrite blocks_bytes_length).
  etrans; [apply (decode_blocks_at c [] bs); [done|simpl; lia..]|].
  rewrite blocks_bytes_length. cbn [app length]. do 2 f_equal. lia.
Qed.

Lemma read_at l x rest : read (Z.of_nat (length l)) (l ++ x :: rest) = Some (x, l ++ x :: rest).
Proof. unfold read. by rewrite at_app. Qed.

(** The padding test of [Decode] in CBC mode, on a padded text. *)
Definition strip_padding (lCount : Z) : ST Bytes Z :=
  paddingLen ← read (to_uint32 (lCount - 1));
  if paddingLen <=? 8 then
    b ← read (to_uint32 (lCount - paddingLen));
    if b =? paddingLen then
      poke (to_uint32 (lCount - paddingLen)) 0 ;; ret (to_uint32 (lCount - paddingLen))
    else ret lCount
  else ret lCount.

Lemma strip_padding_spec plain k rest :
  (1 <= k <= 8)%nat → Z.of_nat (length plain + k) < 2 ^ 32 →
  strip_padding (Z.of_nat (length plain + k)) (plain ++ replicate k (Z.of_nat k) ++ rest) =
  Some (Z.of_nat (length plain), plain ++ 0 :: replicate (k - 1) (Z.of_nat k) ++ rest).
Proof.
  intros Hk Hl. unfold strip_padding.
  rewrite to_uint32_id by (unfold u32; lia).
  replace (Z.of_nat (length plain + k) - 1) with
    (Z.of_nat (length (plain ++ replicate (k - 1) (Z.of_nat k))))
    by (rewrite length_app, length_replicate; lia).
  assert (∀ r : Bytes, plain ++ replicate k (Z.of_nat k) ++ r =
    (plain ++ replicate (k - 1) (Z.of_nat k)) ++ Z.of_nat k :: r) as Hs.
  { intros r. replace k with (k - 1 + 1)%nat at 1 by lia.
    by rewrite replicate_add, <-!app_assoc. }
  rewrite Hs. erewrite bind_run by apply read_at. rewrite (proj2 (Z.leb_le _ 8)) by lia.
  rewrite to_uint32_id by (unfold u32; lia).
  replace (Z.of_nat (length plain + k) - Z.of_nat k) with (Z.of_nat (length plain)) by lia.
  rewrite <-Hs. destruct k as [|k]; [lia|]. cbn [replicate app].
  erewrite bind_run by apply read_at. rewrite Z.eqb_refl.
  erewrite bind_run by apply poke_at. unfold ret. by rewrite Nat.sub_succ, Nat.sub_0_r.
Qed.

Lemma Decode_body c src n out :
  Decode c (Some src) n out =
  bind (bind (memcpy src n) (λ _, decode_blocks (Z.to_nat (n / 8 + 1)) c n 0 (0, 0)))
    (λ lCount, if is_CBC c then strip_padding lCount else ret lCount) out.
Proof. unfold Decode. by rewrite bind_assoc. Qed.

(** What [Decode] leaves of a padded text. *)
Definition recovered (c : CBlowFish) (plain : Bytes) : Bytes :=
  if is_CBC c then plain else padded c plain.

Lemma Encode_Decode c plain out :
  wf c → bytes_ok plain → Z.of_nat (length plain) <= 2 ^ 32 - 16 →
  (length (padded c plain) <= length out)%nat →
  ∃ cipher rest, Encode c (Some plain) (Z.of_nat (length plain)) out =
      Some (Z.of_nat (length cipher), cipher ++ rest) ∧ (length cipher + length rest = length out)%nat ∧
    bytes_ok cipher ∧ Z.of_nat (length cipher) = GetOutputLength c (Z.of_nat (length plain)) ∧
    ∀ out', (length cipher <= length out')%nat →
      ∃ rest', Decode c (Some cipher) (Z.of_nat (length cipher)) out' =
        Some (Z.of_nat (length (recovered c plain)), recovered c plain ++ rest') ∧
        (is_CBC c = false → rest' = drop (length cipher) out').
Proof.
  intros Hc Hb Hl Ho. destruct (padded_blocks c plain Hb Hl) as (bs & Hp & Hbs & Hn).
  pose proof (padded_length c plain Hl) as Hpl.
  destruct (GetOutputLength_spec c (Z.of_nat (length plain))) as (Hm & Hr & H); [lia|].
  assert (length (blocks_bytes (enc_blocks c (0, 0) bs)) = length (padded c plain)) as Hlen
    by by rewrite Hp, !blocks_bytes_length, enc_blocks_length.
  exists (blocks_bytes (enc_blocks c (0, 0) bs)), (drop (length (padded c plain)) out).
  rewrite (Encode_spec c plain out bs) by done. rewrite Hlen, Hpl.
  split; [done|]. split; [rewrite length_drop; lia|]. split; [apply blocks_bytes_ok|].
  split; [done|]. intros out' Ho'.
  rewrite Decode_body. erewrite bind_run.
  2: { rewrite <-Hpl, <-Hlen. apply decode_blocks_spec; [done|apply enc_blocks_u32|lia..]. }
  rewrite dec_enc_blocks, <-Hp by done. rewrite Hlen. unfold recovered.
  destruct (is_CBC c) eqn:Hcbc; [|by eauto].
  unfold padded, pad_byte in *. rewrite Hcbc in *. rewrite length_app, length_replicate.
  set (k := Z.to_nat (GetOutputLength c (Z.of_nat (length plain)) - Z.of_nat (length plain))).
  replace (GetOutputLength c (Z.of_nat (length plain)) - Z.of_nat (length plain)) with (Z.of_nat k)
    by (unfold k; lia).
  rewrite <-app_assoc. rewrite strip_padding_spec by (unfold k; lia). eexists. split; done.
Qed.

(** The Blowfish codec round trip, through the buffers: [Initialize] with
    any non-empty key builds a well-formed codec, [Encode] of any text below
    4 GiB minus 16 stays inside an output array of [GetOutputLength] bytes and
    fills it, and [Decode] of that output gives the text back, exactly in CBC
    mode (the padding is recognised and removed) and up to the zero padding of
    the last block in ECB mode. *)
Theorem codec_roundtrip key m plain :
  bytes_ok key → key ≠ [] → Z.of_nat (length key) <= int32_max →
  bytes_ok plain → Z.of_nat (length plain) <= 2 ^ 32 - 16 →
  ∃ c, Initialize key m = Some c ∧ wf c ∧
    ∀ out out', Z.of_nat (length out) = GetOutputLength c (Z.of_nat (length plain)) →
      length out' = length out →
      ∃ cipher text n, Encode c (Some plain) (Z.of_nat (length plain)) out =
          Some (Z.of_nat (length out), cipher) ∧
        Decode c (Some cipher) (Z.of_nat (length cipher)) out' = Some (n, text) ∧
        match m with
        | CBC => take (Z.to_nat n) text = plain
        | ECB => ∃ k, (k < 8)%nat ∧ take (Z.to_nat n) text = plain ++ replicate k 0
        end.
Proof.
  intros Hk Hne Hkl Hb Hl. destruct (Initialize_wf key m Hk Hne Hkl) as (c & Hi & Hc & <-).
  exists c. split; [done|]. split; [done|]. intros out out' Ho Ho'.
  pose proof (padded_length c plain Hl) as Hpl.
  destruct (Encode_Decode c plain out Hc Hb Hl ltac:(lia))
    as (cipher & rest & He & Hlen & _ & Hcl & Hd).
  assert (rest = []) as ->.
  { apply nil_length_inv. lia. }
  destruct (Hd out' ltac:(lia)) as (rest' & Hdec & _). rewrite app_nil_r in He.
  exists cipher, (recovered c plain ++ rest'), (Z.of_nat (length (recovered c plain))).
  split; [by rewrite He, Hcl, Ho|]. split; [done|]. rewrite Nat2Z.id, take_app_length.
  unfold recovered, is_CBC, padded, pad_byte. unfold is_CBC.
  destruct (mode c) eqn:Hm; [|done]. eexists. split; [|done].
  destruct (GetOutputLength_spec c (Z.of_nat (length plain))) as (_ & _ & H); [lia|].
  unfold is_CBC in H. rewrite Hm in H. lia.
Qed.

Lemma codec_roundtrip_witness :
  ∃ c, Initialize [107; 101; 121] CBC = Some c ∧ wf c ∧
    ∀ out out', Z.of_nat (length out) = GetOutputLength c 5 → length out' = length out →
      ∃ cipher text n, Encode c (Some [104; 101; 108; 108; 111]) 5 out =
          Some (Z.of_nat (length out), cipher) ∧
        Decode c (Some cipher) (Z.of_nat (length cipher)) out' = Some (n, text) ∧
        take (Z.to_nat n) text = [104; 101; 108; 108; 111].
Proof.
  apply (codec_roundtrip [107; 101; 121] CBC [104; 101; 108; 108; 111]);
    [|discriminate|vm_compute; discriminate| |vm_compute; discriminate];
    apply (bool_decide_unpack _); vm_compute; exact I.
Defined.
