(* ===== verification/EncryptText.v ===== *)
(** * [common/encrypt/encrypt_blowfish_base64.cc]: encrypted configuration text

    The two functions that compose the Blowfish codec with base64: text is
    enciphered in ECB mode and encoded; the other way the trailing NULs are
    cut off.  [None] is undefined behaviour, [Some None] a false result. *)

From S2P Require Import Prelude CppBase.
From S2P Require Import Base64 Blowfish.
#[local] Open Scope prog_scope.

Definition Encrypt_Blowfish_Base64 (plain_text key : Bytes) : option (option Bytes) :=
  if bool_decide (plain_text = []) then Some None
  else
    match Initialize key ECB with
    | None => None
    | Some codec =>
        let output_len := GetOutputLength codec (to_uint32 (Z.of_nat (length plain_text))) in
        if output_len <=? 0 then Some None
        else
          let output := replicate (Z.to_nat output_len) 0 in
          match Encode codec (Some plain_text) (to_uint32 (Z.of_nat (length plain_text))) output with
          | None => None
          | Some (n, output) =>
              if n =? 0 then Some None else CXtlBase64_encode_raw output
          end
    end.

(** [while ((output_len > 0) && (output[--output_len] == 0));] *)
Fixpoint trim_zeros (n : nat) (output : Bytes) : option nat :=
  match n with
  | O => Some O
  | S n =>
      match output !! n with
      | None => None
      | Some c => if c =? 0 then trim_zeros n output else Some n
      end
  end.

Definition Decrypt_Base64_Blowfish (cipher_text key : Bytes) : option (option Bytes) :=
  if bool_decide (cipher_text = []) then Some None
  else
    let base64_output :=
      replicate (Z.to_nat (modp_b64_decode_len (Z.of_nat (length cipher_text)))) 0 in
    match CXtlBase64_decode_raw false base64_output cipher_text with
    | None => None
    | Some None => Some None
    | Some (Some (base64_output, base64_output_size)) =>
        match Initialize key ECB with
        | None => None
        | Some codec =>
            let size := to_uint32 base64_output_size in
            let output_len := GetOutputLength codec size in
            if output_len <=? 0 then Some None
            else
              let output := replicate (Z.to_nat (to_uint32 (output_len + 1))) 0 in
              match Decode codec (Some base64_output) size output with
              | None => None
              | Some (n, output) =>
                  if n =? 0 then Some None
                  else
                    match trim_zeros (Z.to_nat output_len) output with
                    | None => None
                    | Some k => Some (Some (take (S k) output))
                    end
              end
        end
    end.

(** ** Round trip *)
#[local] Ltac Zify.zify_post_hook ::= Z.to_euclidean_division_equations.

Lemma trim_zeros_spec l k x rest :
  x ≠ 0 → trim_zeros (S (length l) + k) (l ++ x :: replicate k 0 ++ rest) = Some (length l).
Proof.
  intros Hx. induction k as [|k IH] in rest |- *.
  - rewrite Nat.add_0_r. cbn [trim_zeros]. rewrite list_lookup_middle by done.
    by destruct (Z.eqb_spec x 0).
  - rewrite Nat.add_succ_r. cbn [trim_zeros Nat.add].
    rewrite replicate_S_end, <-app_assoc.
    rewrite (lookup_app_r l) by lia.
    replace (S (length l + k) - length l)%nat with (S k) by lia. cbn [lookup list_lookup].
    rewrite (lookup_app_r (replicate k 0)), length_replicate, Nat.sub_diag
      by (rewrite length_replicate; lia).
    simpl. apply IH.
Qed.

(** Decoding reads the front of a longer array only. *)
Lemma Decode_prefix c src rest n out :
  n = Z.of_nat (length src) → Decode c (Some (src ++ rest)) n out = Decode c (Some src) n out.
Proof.
  intros ->. unfold Decode, bind, memcpy. rewrite length_app.
  rewrite (proj2 (Z.leb_le _ (Z.of_nat (length src + length rest)))) by lia.
  rewrite Z.leb_refl, Nat2Z.id, take_app_length, firstn_all. done.
Qed.

Lemma last_split (l : Bytes) : l ≠ [] → last l ≠ Some 0 → ∃ l' x, l = l' ++ [x] ∧ x ≠ 0.
Proof.
  intros Hne Hl. destruct l as [|x l'] using rev_ind; [done|]. exists l', x. split; [done|].
  intros ->. apply Hl. by rewrite last_snoc.
Qed.

Definition max_text : Z := 1073741824.

Lemma roundtrip_codec c plain :
  wf c → mode c = ECB → bytes_ok plain → plain ≠ [] → Z.of_nat (length plain) <= max_text →
  ∃ cipher k, Encode c (Some plain) (Z.of_nat (length plain))
      (replicate (Z.to_nat (GetOutputLength c (Z.of_nat (length plain)))) 0) =
      Some (Z.of_nat (length cipher), cipher) ∧
    bytes_ok cipher ∧ 0 < Z.of_nat (length cipher) <= max_text + 8 ∧
    GetOutputLength c (Z.of_nat (length plain)) = Z.of_nat (length cipher) ∧
    GetOutputLength c (Z.of_nat (length cipher)) = Z.of_nat (length cipher) ∧
    length cipher = (length plain + k)%nat ∧
    Decode c (Some cipher) (Z.of_nat (length cipher)) (replicate (S (length cipher)) 0) =
      Some (Z.of_nat (length cipher), plain ++ replicate k 0 ++ [0]).
Proof.
  unfold max_text. intros Hc Hm Hb Hne Hl.
  assert (is_CBC c = false) as Hcbc by (unfold is_CBC; by rewrite Hm).
  pose proof (padded_length c plain ltac:(lia)) as Hpl.
  destruct (GetOutputLength_spec c (Z.of_nat (length plain))) as (Hmod & Hr & H); [lia|].
  rewrite Hcbc in H. assert (0 < Z.of_nat (length plain)) by (destruct plain; simpl; done || lia).
  set (m := GetOutputLength c (Z.of_nat (length plain))) in *.
  destruct (Encode_Decode c plain (replicate (Z.to_nat m) 0) Hc Hb ltac:(lia)
    ltac:(rewrite length_replicate; lia)) as (cipher & rest & He & Hlen & Hbc & Hcl & Hd).
  rewrite length_replicate in Hlen. fold m in Hcl.
  assert (rest = []) as -> by (apply nil_length_inv; lia). rewrite app_nil_r in He.
  destruct (GetOutputLength_spec c (Z.of_nat (length cipher))) as (Hmod' & Hr' & H'); [lia|].
  rewrite Hcbc in H'.
  destruct (Hd (replicate (S (length cipher)) 0)) as (rest' & Hdec & Hrest);
    [rewrite length_replicate; lia|].
  specialize (Hrest Hcbc).
  exists cipher, (Z.to_nat (m - Z.of_nat (length plain))). split_and!; try done; try lia.
  rewrite Hdec. unfold recovered. rewrite Hcbc, Hpl, Hrest, drop_replicate.
  unfold padded, pad_byte. fold m. rewrite Hcbc.
  replace (S (length cipher) - length cipher)%nat with 1%nat by lia.
  by rewrite <-app_assoc, Hcl.
Qed.

(** C31. Encrypted text survives the round trip: for every non-empty key and
    every non-empty text of at most 1 GiB that does not end in a NUL byte,
    [Encrypt_Blowfish_Base64] succeeds and [Decrypt_Base64_Blowfish] of its
    output with the same key returns exactly the text.  (A text's trailing
    NULs are lost: the ECB padding is zeros and is cut off by value.) *)
Theorem encrypt_decrypt_roundtrip plain_text key :
  bytes_ok key → key ≠ [] → Z.of_nat (length key) <= int32_max →
  bytes_ok plain_text → plain_text ≠ [] → Z.of_nat (length plain_text) <= max_text →
  last plain_text ≠ Some 0 →
  ∃ cipher_text, Encrypt_Blowfish_Base64 plain_text key = Some (Some cipher_text) ∧
    Decrypt_Base64_Blowfish cipher_text key = Some (Some plain_text).
Proof.
  intros Hk Hkne Hkl Hb Hne Hl Hlast.
  destruct (Initialize_wf key ECB Hk Hkne Hkl) as (c & Hi & Hc & Hm).
  destruct (roundtrip_codec c plain_text Hc Hm Hb Hne Hl)
    as (cipher & k & He & Hbc & Hcl & Hg & Hg' & Hlen & Hd).
  assert (Z.of_nat (length cipher) <= max_encode_input) as Hce
    by (unfold max_encode_input, max_text in *; lia).
  exists (ref_encode cipher). split.
  - unfold Encrypt_Blowfish_Base64. rewrite bool_decide_false, Hi by done.
    rewrite to_uint32_id by (unfold u32, max_text in *; lia).
    rewrite (proj2 (Z.leb_gt _ 0)), He by lia. rewrite (proj2 (Z.eqb_neq _ 0)) by lia.
    by apply CXtlBase64_encode_raw_spec.
  - pose proof (ref_encode_length cipher) as Hrl. unfold max_text in *.
    unfold Decrypt_Base64_Blowfish. rewrite bool_decide_false
      by (intros Hn; rewrite Hn in Hrl; simpl in Hrl; lia).
    unfold CXtlBase64_decode_raw.
    rewrite CXtlBase64_decode_spec by (apply ref_encode_bytes || (unfold int32_max; lia)).
    rewrite ref_roundtrip by done. rewrite length_replicate, (proj2 (Nat.leb_le _ _))
      by (unfold modp_b64_decode_len; lia).
    rewrite Hi, to_uint32_id by (unfold u32; lia). rewrite Hg', (proj2 (Z.leb_gt _ 0)) by lia.
    rewrite to_uint32_id by (unfold u32; lia). rewrite Decode_prefix by done.
    replace (Z.to_nat (Z.of_nat (length cipher) + 1)) with (S (length cipher)) by lia.
    rewrite Hd, (proj2 (Z.eqb_neq _ 0)), Nat2Z.id by lia.
    destruct (last_split plain_text Hne Hlast) as (l & x & -> & Hx).
    rewrite length_app, Nat.add_1_r in Hlen. rewrite Hlen, <-app_assoc. cbn [app].
    rewrite trim_zeros_spec by done. do 2 f_equal.
    replace (S (length l)) with (length (l ++ [x])) by (rewrite length_app; simpl; lia).
    replace (l ++ x :: replicate k 0 ++ [0]) with ((l ++ [x]) ++ replicate k 0 ++ [0])
      by by rewrite <-app_assoc.
    apply take_app_length.
Qed.

Lemma encrypt_decrypt_roundtrip_witness :
  ∃ cipher_text, Encrypt_Blowfish_Base64 [104; 101; 108; 108; 111] [107; 101; 121] =
      Some (Some cipher_text) ∧
    Decrypt_Base64_Blowfish cipher_text [107; 101; 121] = Some (Some [104; 101; 108; 108; 111]).
Proof.
  apply (encrypt_decrypt_roundtrip [104; 101; 108; 108; 111] [107; 101; 121]);
    [|discriminate|vm_compute; discriminate| |discriminate|vm_compute; discriminate|discriminate];
    apply (bool_decide_unpack _); vm_compute; exact I.
Defined.
