(* ===== verification/RedisReply.v ===== *)
(** * [cpp_redis]: replies and the builders that parse them

    [core/reply.cpp] and [builders/*.cpp]: the reply value, one builder per
    type of reply, each fed with a buffer from which it erases what it
    consumes, and [reply_builder], which keeps the bytes received so far and
    the replies built from them.  A builder that lacks bytes returns without a
    reply and is fed again when more arrive. *)

From S2P Require Import Prelude CppBase.

(** A [std::string] as its characters. *)
Abbreviation Str := (list ascii).
Definition chars (s : string) : Str := str_chars s.

(** ** Results: a value, a [redis_error], or undefined behaviour

    [NoFuel] is not a behaviour of the code: the recursion of the builders is
    bounded by a measure of the input, and no run below that bound has it. *)
Inductive res (A : Type) :=
  | Ret (a : A)
  | Throw (what : string)
  | Undef
  | NoFuel.
Arguments Ret {A} a.
Arguments Throw {A} what.
Arguments Undef {A}.
Arguments NoFuel {A}.

Definition rbind {A B} (m : res A) (f : A → res B) : res B :=
  match m with
  | Ret a => f a
  | Throw e => Throw e
  | Undef => Undef
  | NoFuel => NoFuel
  end.

Declare Scope res_scope.
Delimit Scope res_scope with res.
Notation "x <- m ; k" := (rbind m (λ x, k))
  (at level 100, m at next level, k at level 200, right associativity) : res_scope.
Notation "' p <- m ; k" := (rbind m (λ x, match x with p => k end))
  (at level 100, p pattern, m at next level, k at level 200, right associativity) : res_scope.
#[local] Open Scope res_scope.

(** ** [class reply] *)
Inductive type := error | bulk_string | simple_string | null | integer | array.
Inductive string_type := st_error | st_bulk_string | st_simple_string.
#[global] Instance type_eq_dec : EqDecision type.
Proof. solve_decision. Defined.

(** All four members; the integer is indeterminate until it is set. *)
Inductive reply := mkReply {
  m_type : type;
  m_rows : list reply;
  m_str_val : Str;
  m_int_val : option Z
}.

Definition type_of_string_type (t : string_type) : type :=
  match t with
  | st_error => error
  | st_bulk_string => bulk_string
  | st_simple_string => simple_string
  end.

(** The four constructors. *)
Definition reply_null : reply := mkReply null [] [] None.
Definition reply_str (value : Str) (t : string_type) : reply :=
  mkReply (type_of_string_type t) [] value None.
Definition reply_int (value : Z) : reply := mkReply integer [] [] (Some value).
Definition reply_rows (rows : list reply) : reply := mkReply array rows [] None.

(** The [set] functions keep the other members. *)
Definition set_null (r : reply) : reply := mkReply null (m_rows r) (m_str_val r) (m_int_val r).
Definition set_str (r : reply) (value : Str) (t : string_type) : reply :=
  mkReply (type_of_string_type t) (m_rows r) value (m_int_val r).
Definition set_int (r : reply) (value : Z) : reply :=
  mkReply integer (m_rows r) (m_str_val r) (Some value).
Definition set_rows (r : reply) (rows : list reply) : reply :=
  mkReply array rows (m_str_val r) (m_int_val r).
(** [operator<<] *)
Definition add_row (r row : reply) : reply :=
  mkReply array (m_rows r ++ [row]) (m_str_val r) (m_int_val r).

Definition is_array (r : reply) : bool := bool_decide (m_type r = array).
Definition is_simple_string (r : reply) : bool := bool_decide (m_type r = simple_string).
Definition is_bulk_string (r : reply) : bool := bool_decide (m_type r = bulk_string).
Definition is_error (r : reply) : bool := bool_decide (m_type r = error).
Definition is_string (r : reply) : bool := is_simple_string r || is_bulk_string r || is_error r.
Definition is_integer (r : reply) : bool := bool_decide (m_type r = integer).
Definition is_null (r : reply) : bool := bool_decide (m_type r = null).
Definition ok (r : reply) : bool := negb (is_error r).
Definition ko (r : reply) : bool := negb (ok r).
Definition operator_bool (r : reply) : bool := negb (is_error r) && negb (is_null r).

Definition as_array (r : reply) : res (list reply) :=
  if is_array r then Ret (m_rows r) else Throw "Reply is not an array".
Definition as_string (r : reply) : res Str :=
  if is_string r then Ret (m_str_val r) else Throw "Reply is not a string".
Definition as_integer (r : reply) : res Z :=
  if is_integer r then match m_int_val r with Some z => Ret z | None => Undef end
  else Throw "Reply is not an integer".
Definition reply_error (r : reply) : res Str :=
  if is_error r then as_string r else Throw "Reply is not an error".
(** [try_get_int]: the optional holds 0 when the reply is not an integer. *)
Definition try_get_int (r : reply) : res (option Z) :=
  if is_integer r then z <- as_integer r; Ret (Some z) else Ret (Some 0).

(** [Reply2Vector]: every leaf as a string, empty ones left out. *)
Fixpoint Reply2Vector (r : reply) (out : list Str) : list Str :=
  let push s := if bool_decide (s = []) then out else out ++ [s] in
  match m_type r with
  | error | bulk_string | simple_string => push (m_str_val r)
  | null => push (chars "(nil)")
  | integer => push (chars (to_string_Z (default 0 (m_int_val r))))
  | array => (fix rows (l : list reply) (out : list Str) : list Str :=
      match l with [] => out | row :: l => rows l (Reply2Vector row out) end) (m_rows r) out
  end.

(** ** The builders *)
Definition CR : ascii := "013".
Definition LF : ascii := "010".

(** [buffer.find] of the end sequence *)
Fixpoint find_end (buffer : Str) : option nat :=
  match buffer with
  | [] => None
  | c :: rest =>
      match rest with
      | d :: _ =>
          if bool_decide (c = CR) && bool_decide (d = LF) then Some 0%nat else S <$> find_end rest
      | [] => None
      end
  end.

Record integer_builder := mkInteger {
  int_nbr : Z; int_negative_multiplicator : Z; int_ready : bool; int_reply : reply
}.
Definition new_integer : integer_builder := mkInteger 0 1 false reply_null.
Definition get_integer (b : integer_builder) : Z := int_negative_multiplicator b * int_nbr b.

Definition digit_of (c : ascii) : option Z :=
  let n := Z.of_nat (nat_of_ascii c) in
  if (48 <=? n) && (n <=? 57) then Some (n - 48) else None.

(** The loop over the characters before the end sequence, [i] the position:
    overflow of the signed [m_nbr] is undefined.  ([std::isdigit] of a
    negative [char] is taken as false, as the C library's table has it.) *)
Fixpoint read_digits (cs : Str) (i : nat) (nbr mult : Z) : res (Z * Z) :=
  match cs with
  | [] => Ret (nbr, mult)
  | c :: cs =>
      if bool_decide (i = 0%nat) && (mult =? 1) && bool_decide (c = "-"%char)
      then read_digits cs (S i) nbr (-1)
      else
        match digit_of c with
        | None => Throw "Invalid character for integer redis reply"
        | Some d =>
            if in_int64 (nbr * 10) && in_int64 (nbr * 10 + d)
            then read_digits cs (S i) (nbr * 10 + d) mult else Undef
        end
  end.

Definition integer_feed (b : integer_builder) (buffer : Str) : res (integer_builder * Str) :=
  if int_ready b then Ret (b, buffer)
  else
    match find_end buffer with
    | None => Ret (b, buffer)
    | Some end_sequence =>
        '(nbr, mult) <- read_digits (take end_sequence buffer) 0 (int_nbr b)
                          (int_negative_multiplicator b);
        Ret (mkInteger nbr mult true (set_int (int_reply b) (mult * nbr)),
             drop (end_sequence + 2) buffer)
    end.

Record simple_string_builder := mkSimple { ss_str : Str; ss_ready : bool; ss_reply : reply }.
Definition new_simple : simple_string_builder := mkSimple [] false reply_null.
Definition simple_feed (b : simple_string_builder) (buffer : Str) : simple_string_builder * Str :=
  if ss_ready b then (b, buffer)
  else
    match find_end buffer with
    | None => (b, buffer)
    | Some end_sequence =>
        let str := take end_sequence buffer in
        (mkSimple str true (set_str (ss_reply b) str st_simple_string),
         drop (end_sequence + 2) buffer)
    end.

Record error_builder := mkError { m_string_builder : simple_string_builder; err_reply : reply }.
Definition new_error : error_builder := mkError new_simple reply_null.
Definition error_feed (b : error_builder) (buffer : Str) : error_builder * Str :=
  let '(s, buffer) := simple_feed (m_string_builder b) buffer in
  (mkError s (if ss_ready s then set_str (err_reply b) (ss_str s) st_error else err_reply b), buffer).

Record bulk_string_builder := mkBulk {
  bs_int : integer_builder; bs_size : Z; bs_str : Str; bs_is_null : bool; bs_ready : bool;
  bs_reply : reply
}.
Definition new_bulk : bulk_string_builder := mkBulk new_integer 0 [] false false reply_null.

Definition bulk_build_reply (b : bulk_string_builder) : bulk_string_builder :=
  mkBulk (bs_int b) (bs_size b) (bs_str b) (bs_is_null b) true
    (if bs_is_null b then set_null (bs_reply b)
     else set_str (bs_reply b) (bs_str b) st_bulk_string).

Definition fetch_size (b : bulk_string_builder) (buffer : Str)
    : res (bool * bulk_string_builder * Str) :=
  if int_ready (bs_int b) then Ret (true, b, buffer)
  else
    '(i, buffer) <- integer_feed (bs_int b) buffer;
    let b := mkBulk i (bs_size b) (bs_str b) (bs_is_null b) (bs_ready b) (bs_reply b) in
    if negb (int_ready i) then Ret (false, b, buffer)
    else
      let size := to_int32 (get_integer i) in
      if size =? -1
      then Ret (true, bulk_build_reply (mkBulk i size (bs_str b) true (bs_ready b) (bs_reply b)), buffer)
      else Ret (true, mkBulk i size (bs_str b) (bs_is_null b) (bs_ready b) (bs_reply b), buffer).

(** The size is an [int]; its conversion to [size_t] and the sums wrap. *)
Definition fetch_str (b : bulk_string_builder) (buffer : Str) : res (bulk_string_builder * Str) :=
  let size := bs_size b in
  if Z.of_nat (length buffer) <? to_uint64 (to_uint64 size + 2) then Ret (b, buffer)
  else if (size <? 0) || negb (in_int32 (size + 2)) then Undef
  else
    let n := Z.to_nat size in
    match buffer !! n, buffer !! S n with
    | Some c, Some d =>
        if negb (bool_decide (c = CR)) || negb (bool_decide (d = LF))
        then Throw "Wrong ending sequence"
        else Ret (bulk_build_reply (mkBulk (bs_int b) size (take n buffer) (bs_is_null b)
                    (bs_ready b) (bs_reply b)), drop (n + 2) buffer)
    | _, _ => Undef
    end.

Definition bulk_feed (b : bulk_string_builder) (buffer : Str) : res (bulk_string_builder * Str) :=
  if bs_ready b then Ret (b, buffer)
  else
    '(fetched, b, buffer) <- fetch_size b buffer;
    if negb fetched || bs_ready b then Ret (b, buffer) else fetch_str b buffer.

(** [m_current_builder] is a pointer to the interface. *)
Record array_builder (B : Type) := mkArray {
  ar_int : integer_builder; ar_size : Z; m_current_builder : option B; ar_ready : bool;
  ar_reply : reply
}.
Arguments mkArray {B}.
Arguments ar_int {B}. Arguments ar_size {B}. Arguments m_current_builder {B}.
Arguments ar_ready {B}. Arguments ar_reply {B}.

(** [class builder_iface] and its implementations. *)
Inductive builder :=
  | BSimple (b : simple_string_builder)
  | BError (b : error_builder)
  | BInteger (b : integer_builder)
  | BBulk (b : bulk_string_builder)
  | BArray (b : array_builder builder).

Definition new_array : array_builder builder := mkArray new_integer 0 None false (reply_rows []).

Definition reply_ready (b : builder) : bool :=
  match b with
  | BSimple b => ss_ready b
  | BError b => ss_ready (m_string_builder b)
  | BInteger b => int_ready b
  | BBulk b => bs_ready b
  | BArray b => ar_ready b
  end.
Definition get_reply (b : builder) : reply :=
  match b with
  | BSimple b => ss_reply b
  | BError b => err_reply b
  | BInteger b => int_reply b
  | BBulk b => bs_reply b
  | BArray b => ar_reply b
  end.

Definition create_builder (id : ascii) : res builder :=
  if bool_decide (id = "+"%char) then Ret (BSimple new_simple)
  else if bool_decide (id = "-"%char) then Ret (BError new_error)
  else if bool_decide (id = ":"%char) then Ret (BInteger new_integer)
  else if bool_decide (id = "$"%char) then Ret (BBulk new_bulk)
  else if bool_decide (id = "*"%char) then Ret (BArray new_array)
  else Throw "Invalid data".

Definition fetch_array_size (b : array_builder builder) (buffer : Str)
    : res (bool * array_builder builder * Str) :=
  if int_ready (ar_int b) then Ret (true, b, buffer)
  else
    '(i, buffer) <- integer_feed (ar_int b) buffer;
    let b := mkArray i (ar_size b) (m_current_builder b) (ar_ready b) (ar_reply b) in
    if negb (int_ready i) then Ret (false, b, buffer)
    else
      let size := get_integer i in
      let ready := (size <=? 0) || ar_ready b in
      let r := if size <? 0 then set_null (ar_reply b) else ar_reply b in
      Ret (true, mkArray i (to_uint64 size) (m_current_builder b) ready r, buffer).

Section Rows.
  Context (feed : builder → Str → res (builder * Str)).

(** [build_row] on a non-empty buffer. *)
Definition build_row (b : array_builder builder) (buffer : Str)
    : res (bool * array_builder builder * Str) :=
  '(cur, buffer) <- match m_current_builder b, buffer with
    | Some cur, _ => Ret (cur, buffer)
    | None, c :: buffer => cur <- create_builder c; Ret (cur, buffer)
    | None, [] => Undef
    end;
  '(cur, buffer) <- feed cur buffer;
  if negb (reply_ready cur)
  then Ret (false, mkArray (ar_int b) (ar_size b) (Some cur) (ar_ready b) (ar_reply b), buffer)
  else
    let r := add_row (ar_reply b) (get_reply cur) in
    Ret (true, mkArray (ar_int b) (ar_size b) None
           (ar_ready b || (Z.of_nat (length (m_rows r)) =? ar_size b)) r, buffer).

(** [while (buffer.size() && !m_reply_ready)] *)
Fixpoint build_rows (fuel : nat) (b : array_builder builder) (buffer : Str)
    : res (array_builder builder * Str) :=
  if bool_decide (buffer = []) || ar_ready b then Ret (b, buffer)
  else
    match fuel with
    | O => NoFuel
    | S fuel =>
        '(more, b, buffer) <- build_row b buffer;
        if more : bool then build_rows fuel b buffer else Ret (b, buffer)
    end.
End Rows.

(** [operator<<] of each builder. *)
Fixpoint feed (fuel : nat) (b : builder) (buffer : Str) : res (builder * Str) :=
  match b with
  | BSimple b => let '(b, buffer) := simple_feed b buffer in Ret (BSimple b, buffer)
  | BError b => let '(b, buffer) := error_feed b buffer in Ret (BError b, buffer)
  | BInteger b => '(b, buffer) <- integer_feed b buffer; Ret (BInteger b, buffer)
  | BBulk b => '(b, buffer) <- bulk_feed b buffer; Ret (BBulk b, buffer)
  | BArray b =>
      if ar_ready b then Ret (BArray b, buffer)
      else
        '(fetched, b, buffer) <- fetch_array_size b buffer;
        if negb fetched then Ret (BArray b, buffer)
        else
          match fuel with
          | O => NoFuel
          | S fuel =>
              '(b, buffer) <- build_rows (feed fuel) (S fuel) b buffer; Ret (BArray b, buffer)
          end
  end.

(** How deep the builders under construction are nested. *)
Fixpoint depth (b : builder) : nat :=
  match b with
  | BArray a => match m_current_builder a with Some c => S (depth c) | None => 1 end
  | _ => 0
  end.
Definition feed_all (b : builder) (buffer : Str) : res (builder * Str) :=
  feed (S (depth b + length buffer)) b buffer.

(** ** [class reply_builder]

    An exception leaves the current builder and the buffer half-way: nothing
    uses them again before [reset], so the model drops them and records that. *)
Record reply_builder := mkReplyBuilder {
  rb_buffer : Str;
  rb_builder : option builder;
  rb_available : list reply;
  rb_broken : bool
}.
Definition new_reply_builder : reply_builder := mkReplyBuilder [] None [] false.

(** [reset()]: the available replies are not touched. *)
Definition rb_reset (rb : reply_builder) : reply_builder :=
  mkReplyBuilder [] None (rb_available rb) false.

Definition build_reply (rb : reply_builder) : res (bool * reply_builder) :=
  match rb_buffer rb with
  | [] => Ret (false, rb)
  | c :: rest =>
      '(b, buffer) <- match rb_builder rb with
        | Some b => Ret (b, rb_buffer rb)
        | None => b <- create_builder c; Ret (b, rest)
        end;
      '(b, buffer) <- feed_all b buffer;
      if reply_ready b
      then Ret (true, mkReplyBuilder buffer None (rb_available rb ++ [get_reply b]) (rb_broken rb))
      else Ret (false, mkReplyBuilder buffer (Some b) (rb_available rb) (rb_broken rb))
  end.

(** What [operator<<] leaves: a state, or a state and the exception. *)
Inductive fed :=
  | Fed (rb : reply_builder)
  | Thrown (rb : reply_builder) (what : string)
  | FedUndef
  | FedNoFuel.

(** [while (build_reply());] *)
Fixpoint build_all (fuel : nat) (rb : reply_builder) : fed :=
  match build_reply rb with
  | Ret (false, rb) => Fed rb
  | Ret (true, rb) => match fuel with O => FedNoFuel | S fuel => build_all fuel rb end
  | Throw e => Thrown (mkReplyBuilder [] None (rb_available rb) true) e
  | Undef => FedUndef
  | NoFuel => FedNoFuel
  end.

Definition rb_feed (rb : reply_builder) (data : Str) : fed :=
  if rb_broken rb then FedUndef
  else
    let rb := mkReplyBuilder (rb_buffer rb ++ data) (rb_builder rb) (rb_available rb) false in
    build_all (length (rb_buffer rb)) rb.

Definition reply_available (rb : reply_builder) : bool :=
  negb (bool_decide (rb_available rb = [])).
Definition get_front (rb : reply_builder) : res reply :=
  match rb_available rb with [] => Throw "No available reply" | r :: _ => Ret r end.
Definition rb_pop_front (rb : reply_builder) : res reply_builder :=
  match rb_available rb with
  | [] => Throw "No available reply"
  | _ :: l => Ret (mkReplyBuilder (rb_buffer rb) (rb_builder rb) l (rb_broken rb))
  end.

Example parse_two :
  match rb_feed new_reply_builder
    (chars "*2" ++ [CR; LF] ++ chars "$3" ++ [CR; LF] ++ chars "abc" ++ [CR; LF]
     ++ chars ":-12" ++ [CR; LF] ++ chars "+OK" ++ [CR]) with
  | Fed rb => rb_available rb =
      [mkReply array [mkReply bulk_string [] (chars "abc") None; mkReply integer [] [] (Some (-12))]
         [] None] ∧ rb_buffer rb = chars "OK" ++ [CR]
  | _ => False
  end.
Proof. vm_compute. split; reflexivity. Qed.

(** ** Feeding consumes the buffer from the front, and running out of bytes
    loses nothing *)
Lemma find_end_cons c d buf :
  find_end (c :: d :: buf) =
  if bool_decide (c = CR) && bool_decide (d = LF) then Some 0%nat else S <$> find_end (d :: buf).
Proof. done. Qed.

Lemma find_end_bound buf k : find_end buf = Some k → (k + 2 <= length buf)%nat.
Proof.
  revert k. induction buf as [|c [|d buf] IH]; intros k; [done..|]. rewrite find_end_cons.
  destruct (_ && _); [intros [= <-]; simpl; lia|].
  destruct (find_end (d :: buf)) as [j|] eqn:Hj; [|done]. intros [= <-].
  specialize (IH _ eq_refl). simpl in *. lia.
Qed.

Lemma find_end_app buf d k : find_end buf = Some k → find_end (buf ++ d) = Some k.
Proof.
  revert k. induction buf as [|c [|x buf] IH]; intros k; [done..|]. cbn [app].
  rewrite !find_end_cons.
  destruct (_ && _); [done|].
  destruct (find_end (x :: buf)) as [j|] eqn:Hj; [|done]. intros [= <-].
  specialize (IH _ eq_refl). cbn [app] in IH. by rewrite IH.
Qed.

Lemma take_app_bound {A} (l d : list A) k : (k <= length l)%nat → take k (l ++ d) = take k l.
Proof. intros. by rewrite take_app_le. Qed.
Lemma drop_app_bound {A} (l d : list A) k : (k <= length l)%nat → drop k (l ++ d) = drop k l ++ d.
Proof. intros. by rewrite drop_app_le. Qed.

(** The outcome of feeding [buf], seen from feeding [buf ++ d]: final results
    keep the bytes of [d], a waiting builder goes on with them. *)
Definition resumes {B} (ready : B → bool) (go : B → Str → res (B * Str))
    (b : B) (buf : Str) : Prop :=
  ∀ d, match go b buf with
  | Ret (b', buf') =>
      go b (buf ++ d) = (if ready b' then Ret (b', buf' ++ d) else go b' (buf' ++ d))
  | Throw e => go b (buf ++ d) = Throw e
  | Undef => go b (buf ++ d) = Undef
  | NoFuel => True
  end.

Lemma integer_resumes b buf : resumes int_ready integer_feed b buf.
Proof.
  intros d. unfold integer_feed. destruct (int_ready b) eqn:Hr; [simpl; by rewrite Hr|].
  destruct (find_end buf) as [k|] eqn:Hk; [|simpl; by rewrite Hr].
  pose proof (find_end_bound _ _ Hk). rewrite (find_end_app _ d _ Hk), take_app_bound by lia.
  destruct (read_digits _ _ _ _) as [[nbr mult]| | |]; cbn [rbind int_ready]; try done.
  by rewrite drop_app_bound by lia.
Qed.

Lemma simple_resumes b buf d :
  let r := simple_feed b buf in
  simple_feed b (buf ++ d) = if ss_ready r.1 then (r.1, r.2 ++ d) else simple_feed r.1 (r.2 ++ d).
Proof.
  unfold simple_feed. destruct (ss_ready b) eqn:Hr; [simpl; by rewrite Hr|].
  destruct (find_end buf) as [k|] eqn:Hk; [|simpl; by rewrite Hr].
  pose proof (find_end_bound _ _ Hk). rewrite (find_end_app _ d _ Hk), take_app_bound by lia.
  simpl. by rewrite drop_app_bound by lia.
Qed.

Lemma error_resumes b buf d :
  let r := error_feed b buf in
  error_feed b (buf ++ d) =
  if ss_ready (m_string_builder r.1) then (r.1, r.2 ++ d) else error_feed r.1 (r.2 ++ d).
Proof.
  unfold error_feed. pose proof (simple_resumes (m_string_builder b) buf d) as H.
  destruct (simple_feed (m_string_builder b) buf) as [s buf']. cbn [fst snd m_string_builder] in *.
  rewrite H. destruct (ss_ready s) eqn:Hs; [by rewrite Hs|]. done.
Qed.

Lemma bulk_size_word size : 0 <= size → in_int32 (size + 2) = true →
  to_uint64 (to_uint64 size + 2) = size + 2.
Proof.
  intros H0 H2%in_int32_spec. unfold to_uint64. rewrite (Z.mod_small size) by lia.
  apply Z.mod_small. lia.
Qed.

Lemma fetch_str_resumes b buf : bs_ready b = false → resumes bs_ready fetch_str b buf.
Proof.
  intros Hr d. unfold fetch_str. set (N := to_uint64 (to_uint64 (bs_size b) + 2)).
  destruct (Z.ltb_spec (Z.of_nat (length buf)) N) as [Hlt|Hge]; [rewrite Hr; done|].
  rewrite (proj2 (Z.ltb_ge _ N)) by (rewrite length_app; lia).
  destruct (Z.ltb_spec (bs_size b) 0) as [|Hs]; [done|].
  destruct (in_int32 (bs_size b + 2)) eqn:Hi; [|done]. cbn [orb negb].
  assert (Z.to_nat (bs_size b) + 2 <= length buf)%nat
    by (unfold N in Hge; rewrite bulk_size_word in Hge by done; lia).
  destruct (lookup_lt_is_Some_2 buf (Z.to_nat (bs_size b))) as [c Hc]; [lia|].
  destruct (lookup_lt_is_Some_2 buf (S (Z.to_nat (bs_size b)))) as [e He]; [lia|].
  rewrite Hc, He, (lookup_app_l_Some _ d _ _ Hc), (lookup_app_l_Some _ d _ _ He).
  destruct (_ || _); [done|]. cbn [bulk_build_reply bs_ready].
  by rewrite take_app_bound, drop_app_bound by lia.
Qed.

(** A builder that has its size goes on with the text. *)
Lemma bulk_feed_sized b buf :
  int_ready (bs_int b) = true → bs_ready b = false → bulk_feed b buf = fetch_str b buf.
Proof. intros Hi Hr. unfold bulk_feed, fetch_size. by rewrite Hr, Hi; cbn; rewrite Hr. Qed.

Lemma fetch_str_keeps b buf b' buf' :
  fetch_str b buf = Ret (b', buf') → bs_int b' = bs_int b ∧ (bs_ready b' = bs_ready b → b' = b) ∨ bs_ready b' = true.
Proof.
  unfold fetch_str. repeat case_match; intros; simplify_eq; auto.
Qed.

Definition with_int (b : bulk_string_builder) (i : integer_builder) : bulk_string_builder :=
  mkBulk i (bs_size b) (bs_str b) (bs_is_null b) (bs_ready b) (bs_reply b).
Definition with_size (b : bulk_string_builder) (i : integer_builder) : bulk_string_builder :=
  mkBulk i (to_int32 (get_integer i)) (bs_str b)
    (if to_int32 (get_integer i) =? -1 then true else bs_is_null b) (bs_ready b) (bs_reply b).

(** A builder without its size reads it first. *)
Lemma bulk_feed_unsized b buf :
  int_ready (bs_int b) = false → bs_ready b = false →
  bulk_feed b buf =
  ('(i, buf) <- integer_feed (bs_int b) buf;
   if negb (int_ready i) then Ret (with_int b i, buf)
   else if to_int32 (get_integer i) =? -1 then Ret (bulk_build_reply (with_size b i), buf)
   else fetch_str (with_size b i) buf).
Proof.
  intros Hi Hr. unfold bulk_feed, fetch_size, with_size, with_int. rewrite !Hr, Hi.
  destruct (integer_feed (bs_int b) buf) as [[i buf']| | |]; cbn [rbind]; try done.
  destruct (int_ready i); cbn [negb rbind orb]; [|done].
  destruct (_ =? -1); cbn [rbind negb orb bs_ready bulk_build_reply]; by rewrite ?Hr.
Qed.

Lemma bulk_resumes b buf : resumes bs_ready bulk_feed b buf.
Proof.
  intros d. destruct (bs_ready b) eqn:Hr.
  { unfold bulk_feed. rewrite Hr. by rewrite Hr. }
  assert (Hsized : ∀ b buf, int_ready (bs_int b) = true → bs_ready b = false →
    match fetch_str b buf with
    | Ret (b', buf') => fetch_str b (buf ++ d) =
        if bs_ready b' then Ret (b', buf' ++ d) else bulk_feed b' (buf' ++ d)
    | Throw e => fetch_str b (buf ++ d) = Throw e
    | Undef => fetch_str b (buf ++ d) = Undef
    | NoFuel => True
    end).
  { intros b0 buf0 Hi0 Hr0. pose proof (fetch_str_resumes b0 buf0 Hr0 d) as H.
    destruct (fetch_str b0 buf0) as [[b' buf']| | |] eqn:Hf; try done.
    rewrite H. destruct (bs_ready b') eqn:Hr'; [done|]. symmetry. apply bulk_feed_sized; [|done].
    apply fetch_str_keeps in Hf as [[-> _]|]; congruence. }
  destruct (int_ready (bs_int b)) eqn:Hi.
  { rewrite !bulk_feed_sized by done. by apply Hsized. }
  rewrite !bulk_feed_unsized by done. pose proof (integer_resumes (bs_int b) buf d) as H.
  destruct (integer_feed (bs_int b) buf) as [[i buf']| | |]; cbn [rbind]; try (by rewrite H); [|done].
  destruct (int_ready i) eqn:Hi'; cbn [negb].
  - rewrite H. cbn [rbind]. rewrite Hi'. cbn [negb].
    destruct (_ =? -1) eqn:Hs; [done|]. by apply Hsized.
  - cbn [with_int bs_ready]. rewrite Hr, bulk_feed_unsized by done. cbn [with_int bs_int].
    rewrite H. destruct (integer_feed i (buf' ++ d)) as [[j ?]| | |]; cbn [rbind]; try done.
Qed.

(** ** Consumption *)

(** A builder under construction is not ready. *)
Fixpoint wfb (b : builder) : Prop :=
  match b with
  | BArray a =>
      match m_current_builder a with Some c => reply_ready c = false ∧ wfb c | None => True end
  | _ => True
  end.

(** What a call leaves of the buffer: nothing is added, a reply costs at least
    one byte, and so does a level of nesting. *)
Definition good (b : builder) (buf : Str) (b' : builder) (buf' : Str) : Prop :=
  wfb b' ∧ (length buf' <= length buf)%nat ∧
  (depth b' + length buf' <= depth b + length buf)%nat ∧
  (reply_ready b = false → reply_ready b' = true → (length buf' < length buf)%nat).

Lemma integer_feed_len i buf i' buf' :
  integer_feed i buf = Ret (i', buf') →
  (length buf' <= length buf)%nat ∧
  (int_ready i = false → int_ready i' = true → (length buf' < length buf)%nat).
Proof.
  unfold integer_feed. destruct (int_ready i) eqn:Hi; [intros [= <- <-]; split; [done|congruence]|].
  destruct (find_end buf) as [k|] eqn:Hk; [|intros [= <- <-]; split; [done|congruence]].
  destruct (read_digits _ _ _ _) as [[]| | |]; cbn [rbind]; intros; simplify_eq.
  apply find_end_bound in Hk. rewrite length_drop. split; lia.
Qed.

Lemma simple_feed_len b buf :
  (length (simple_feed b buf).2 <= length buf)%nat ∧
  (ss_ready b = false → ss_ready (simple_feed b buf).1 = true →
   (length (simple_feed b buf).2 < length buf)%nat).
Proof.
  unfold simple_feed. destruct (ss_ready b) eqn:Hr; [done|].
  destruct (find_end buf) as [k|] eqn:Hk; [|simpl; split; [done|congruence]].
  apply find_end_bound in Hk. simpl. rewrite length_drop. split; lia.
Qed.

Lemma fetch_str_len b buf b' buf' :
  fetch_str b buf = Ret (b', buf') →
  (length buf' <= length buf)%nat ∧
  (bs_ready b = false → bs_ready b' = true → (length buf' < length buf)%nat).
Proof.
  unfold fetch_str. destruct (_ <? _); [intros [= <- <-]; split; [done|congruence]|].
  destruct (_ || _); [done|].
  destruct (buf !! Z.to_nat _) eqn:H1; [|done].
  destruct (buf !! S _) eqn:H2; [|done]. destruct (_ || _); [done|].
  intros [= <- <-]. rewrite length_drop. apply lookup_lt_Some in H2. split; lia.
Qed.

Lemma bulk_feed_len b buf b' buf' :
  bulk_feed b buf = Ret (b', buf') →
  (length buf' <= length buf)%nat ∧
  (bs_ready b = false → bs_ready b' = true → (length buf' < length buf)%nat).
Proof.
  destruct (bs_ready b) eqn:Hr.
  { unfold bulk_feed. rewrite Hr. intros [= <- <-]. done. }
  destruct (int_ready (bs_int b)) eqn:Hi.
  { rewrite bulk_feed_sized by done. intros H%fetch_str_len. by rewrite Hr in H. }
  rewrite bulk_feed_unsized by done.
  destruct (integer_feed (bs_int b) buf) as [[i buf1]| | |] eqn:Hf; cbn [rbind]; try done.
  apply integer_feed_len in Hf as [Hle Hlt]. specialize (Hlt Hi).
  destruct (int_ready i) eqn:Hi'; cbn [negb].
  2: { intros [= <- <-]. split; [done|]. cbn. congruence. }
  specialize (Hlt eq_refl). destruct (_ =? -1).
  { intros [= <- <-]. split; lia. }
  intros [Hl _]%fetch_str_len. split; lia.
Qed.

Lemma create_builder_good c b : create_builder c = Ret b →
  wfb b ∧ reply_ready b = false ∧ (depth b <= 1)%nat.
Proof. unfold create_builder. repeat case_match; intros; simplify_eq; cbn; auto. Qed.

(** [fetch_array_size] changes no row. *)
Lemma fetch_array_size_len a buf ok a' buf' :
  fetch_array_size a buf = Ret (ok, a', buf') →
  m_current_builder a' = m_current_builder a ∧ (length buf' <= length buf)%nat ∧
  (ar_ready a = false → ar_ready a' = true → (length buf' < length buf)%nat).
Proof.
  unfold fetch_array_size. destruct (int_ready (ar_int a)) eqn:Hi.
  { intros; simplify_eq. split_and!; [done|done|congruence]. }
  destruct (integer_feed (ar_int a) buf) as [[i buf1]| | |] eqn:Hf; cbn [rbind]; try done.
  apply integer_feed_len in Hf as [Hle Hlt]. specialize (Hlt Hi).
  destruct (int_ready i) eqn:Hi'; cbn [negb]; intros; simplify_eq; cbn.
  - split_and!; [done|done|]. intros _ _. by apply Hlt.
  - split_and!; [done|done|congruence].
Qed.

Section RowsFacts.
  Context (g : builder → Str → res (builder * Str)).

(** The builder of the row that comes next, and what is left to feed it. *)
Definition row_start (a : array_builder builder) (buf : Str) : res (builder * Str) :=
  match m_current_builder a, buf with
  | Some cur, _ => Ret (cur, buf)
  | None, c :: buf => cur <- create_builder c; Ret (cur, buf)
  | None, [] => Undef
  end.
Definition row_end (a : array_builder builder) (cur : builder) (buf : Str)
    : bool * array_builder builder * Str :=
  if negb (reply_ready cur)
  then (false, mkArray (ar_int a) (ar_size a) (Some cur) (ar_ready a) (ar_reply a), buf)
  else
    let r := add_row (ar_reply a) (get_reply cur) in
    (true, mkArray (ar_int a) (ar_size a) None
       (ar_ready a || (Z.of_nat (length (m_rows r)) =? ar_size a)) r, buf).

Lemma build_row_eq a buf :
  build_row g a buf = ('(cur, buf) <- row_start a buf; '(cur, buf) <- g cur buf; Ret (row_end a cur buf)).
Proof.
  unfold build_row, row_end. fold (row_start a buf).
  destruct (row_start a buf) as [[cur buf1]| | |]; cbn [rbind]; try done.
  destruct (g cur buf1) as [[cur' buf2]| | |]; cbn [rbind]; try done. by destruct (reply_ready cur').
Qed.

Lemma row_start_fuel a buf : row_start a buf ≠ NoFuel.
Proof.
  unfold row_start, create_builder. destruct (m_current_builder a); [done|].
  destruct buf; [done|]. by repeat (case_bool_decide; [done|]).
Qed.

Lemma row_start_good a buf cur buf1 :
  wfb (BArray a) → row_start a buf = Ret (cur, buf1) →
  wfb cur ∧ reply_ready cur = false ∧ (length buf1 <= length buf)%nat ∧
  (S (depth cur) + length buf1 <= depth (BArray a) + length buf)%nat.
Proof.
  cbn [wfb depth]. unfold row_start. destruct (m_current_builder a) as [c|].
  - intros [Hr Hw] [= <- <-]. split_and!; try done; lia.
  - intros _. destruct buf as [|x buf]; [done|].
    destruct (create_builder x) as [b| | |] eqn:Hc; cbn [rbind]; [|done..].
    apply create_builder_good in Hc as (? & ? & ?). intros [= <- <-]. simpl. split_and!; try done; lia.
Qed.

Context (Hg : ∀ cur buf cur' buf', wfb cur → g cur buf = Ret (cur', buf') → good cur buf cur' buf').

Lemma build_row_good a buf more a' buf' :
  wfb (BArray a) → build_row g a buf = Ret (more, a', buf') →
  wfb (BArray a') ∧ (length buf' <= length buf)%nat ∧
  (depth (BArray a') + length buf' <= depth (BArray a) + length buf)%nat ∧
  if more then (length buf' < length buf)%nat else ar_ready a' = ar_ready a.
Proof.
  intros Hw. rewrite build_row_eq.
  destruct (row_start a buf) as [[cur buf1]| | |] eqn:Hs; cbn [rbind]; try done.
  destruct (row_start_good _ _ _ _ Hw Hs) as (Hwc & Hrc & Hl1 & Hd1).
  destruct (g cur buf1) as [[cur' buf2]| | |] eqn:Hgo; cbn [rbind]; try done.
  destruct (Hg _ _ _ _ Hwc Hgo) as (Hw' & Hl & Hd & Hlt).
  unfold row_end. destruct (reply_ready cur') eqn:Hr'; cbn [negb]; intros; simplify_eq.
  - specialize (Hlt Hrc eq_refl). cbn. split_and!; try done; lia.
  - cbn in Hd1 |- *. split_and!; try done; lia.
Qed.

Lemma build_rows_good n a buf a' buf' :
  wfb (BArray a) → build_rows g n a buf = Ret (a', buf') → good (BArray a) buf (BArray a') buf'.
Proof.
  revert a buf. induction n as [|n IH]; intros a buf Hw; cbn [build_rows].
  all: destruct (bool_decide (buf = []) || ar_ready a) eqn:Hc;
    [intros [= <- <-]; split_and!; try done; cbn; congruence|]; try done.
  apply orb_false_iff in Hc as [_ Hra].
  destruct (build_row g a buf) as [[[more a1] buf1]| | |] eqn:Hb; cbn [rbind]; try done.
  destruct (build_row_good _ _ _ _ _ Hw Hb) as (Hw1 & Hl1 & Hd1 & Hm). destruct more.
  - intros H. destruct (IH _ _ Hw1 H) as (? & ? & ? & ?). split_and!; try done; lia.
  - intros [= <- <-]. split_and!; try done. cbn. congruence.
Qed.

(** More fuel changes nothing. *)
Lemma build_rows_mono n m a buf :
  build_rows g n a buf ≠ NoFuel → (n <= m)%nat → build_rows g m a buf = build_rows g n a buf.
Proof.
  revert m a buf. induction n as [|n IH]; intros m a buf Hne Hm.
  - cbn [build_rows] in *. destruct m; cbn [build_rows]; by destruct (_ || _).
  - destruct m as [|m]; [lia|]. cbn [build_rows] in *.
    destruct (_ || _); [done|].
    destruct (build_row g a buf) as [[[[] a1] buf1]| | |]; cbn [rbind] in *; try done.
    apply IH; [done|lia].
Qed.

(** [length buf] passes are enough when [g] is total. *)
Lemma build_rows_fuel n a buf :
  wfb (BArray a) → (∀ cur buf1, wfb cur → (depth cur + length buf1 < depth (BArray a) + length buf)%nat →
    g cur buf1 ≠ NoFuel) →
  (length buf <= n)%nat → build_rows g n a buf ≠ NoFuel.
Proof.
  revert a buf. induction n as [|n IH]; intros a buf Hw Hf Hn; cbn [build_rows].
  - destruct buf; [done|simpl in Hn; lia].
  - destruct (_ || _); [done|]. rewrite build_row_eq.
    destruct (row_start a buf) as [[cur buf1]| | |] eqn:Hs; cbn [rbind]; try done.
    2: by destruct (row_start_fuel a buf).
    destruct (row_start_good _ _ _ _ Hw Hs) as (Hwc & Hrc & Hl1 & Hd1).
    pose proof (Hf cur buf1 Hwc ltac:(lia)) as Hfg.
    destruct (g cur buf1) as [[cur' buf2]| | |] eqn:Hgo; cbn [rbind]; try done.
    destruct (build_row_good a buf (row_end a cur' buf2).1.1 (row_end a cur' buf2).1.2
      (row_end a cur' buf2).2 Hw) as (Hw' & Hl' & Hd' & Hm).
    { rewrite build_row_eq, Hs. cbn [rbind]. rewrite Hgo. cbn [rbind].
      by destruct (row_end a cur' buf2) as [[]]. }
    destruct (row_end a cur' buf2) as [[[] a'] buf']; cbn in Hw', Hl', Hd', Hm |- *; [|done].
    apply IH; [done| |lia]. intros c0 b0 Hw0 Hd0. apply Hf; [done|]. cbn in *. lia.
Qed.
End RowsFacts.

Lemma build_row_ext g g' a buf :
  (∀ cur buf, g cur buf ≠ NoFuel → g' cur buf = g cur buf) →
  build_row g a buf ≠ NoFuel → build_row g' a buf = build_row g a buf.
Proof.
  intros Hg. rewrite !build_row_eq.
  destruct (row_start a buf) as [[cur buf1]| | |]; cbn [rbind]; try done.
  intros Hne. rewrite Hg; [done|]. intros H. by rewrite H in Hne.
Qed.

Lemma build_rows_ext g g' n m a buf :
  (∀ cur buf, g cur buf ≠ NoFuel → g' cur buf = g cur buf) → (n <= m)%nat →
  build_rows g n a buf ≠ NoFuel → build_rows g' m a buf = build_rows g n a buf.
Proof.
  intros Hg. revert m a buf. induction n as [|n IH]; intros m a buf Hm Hne.
  - cbn [build_rows] in *. destruct m; cbn [build_rows]; by destruct (_ || _).
  - destruct m as [|m]; [lia|]. cbn [build_rows] in *. destruct (_ || _); [done|].
    rewrite (build_row_ext g g') by (done || by intros H; rewrite H in Hne).
    destruct (build_row g a buf) as [[[[] a1] buf1]| | |]; cbn [rbind] in *; try done.
    apply IH; [lia|done].
Qed.

Lemma feed_array f a buf :
  feed f (BArray a) buf =
  (if ar_ready a then Ret (BArray a, buf)
   else
     '(fetched, a, buf) <- fetch_array_size a buf;
     if negb fetched then Ret (BArray a, buf)
     else
       match f with
       | O => NoFuel
       | S f => '(a, buf) <- build_rows (feed f) (S f) a buf; Ret (BArray a, buf)
       end).
Proof. by destruct f. Qed.

Lemma feed_good f b buf b' buf' :
  wfb b → feed f b buf = Ret (b', buf') → good b buf b' buf'.
Proof.
  revert b buf b' buf'. induction f as [|f IH]; intros b buf b' buf' Hw.
  all: destruct b as [s|e|i|k|a]; [| | | |rewrite feed_array].
  all: try (cbn [feed]; pose proof (simple_feed_len s buf) as [Hl Hlt];
    destruct (simple_feed s buf) as [s' b1]; intros [= <- <-]; split_and!; try done; cbn in *; lia).
  all: try (cbn [feed]; unfold error_feed; pose proof (simple_feed_len (m_string_builder e) buf) as [Hl Hlt];
    destruct (simple_feed (m_string_builder e) buf) as [s' b1]; intros [= <- <-];
    split_and!; try done; cbn in *; lia).
  all: try (cbn [feed]; destruct (integer_feed i buf) as [[i' b1]| | |] eqn:Hi; cbn [rbind]; try done;
    apply integer_feed_len in Hi as [Hl Hlt]; intros [= <- <-]; split_and!; try done; cbn in *; lia).
  all: try (cbn [feed]; destruct (bulk_feed k buf) as [[k' b1]| | |] eqn:Hi; cbn [rbind]; try done;
    apply bulk_feed_len in Hi as [Hl Hlt]; intros [= <- <-]; split_and!; try done; cbn in *; lia).
  all: destruct (ar_ready a) eqn:Hra; [intros [= <- <-]; split_and!; try done; cbn; congruence|].
  all: destruct (fetch_array_size a buf) as [[[ok a1] buf1]| | |] eqn:Hf; cbn [rbind]; try done.
  all: apply fetch_array_size_len in Hf as (Hc & Hl & Hlt); specialize (Hlt Hra).
  all: assert (wfb (BArray a1) ∧ depth (BArray a1) = depth (BArray a)) as [Hw1 Hd1]
    by (cbn [wfb depth] in *; by rewrite Hc).
  all: destruct ok; cbn [negb]; [|intros [= <- <-]; split_and!; try done; cbn in *; lia]; try done.
  destruct (build_rows (feed f) (S f) a1 buf1) as [[a2 buf2]| | |] eqn:Hr; cbn [rbind]; try done.
  intros [= <- <-]. apply build_rows_good in Hr as (? & ? & ? & ?); [|apply IH|done].
  split_and!; try done; try lia. intros _ Hra2. destruct (ar_ready a1) eqn:Hra1.
  - specialize (Hlt eq_refl). lia.
  - specialize (H2 Hra1 Hra2). lia.
Qed.

Lemma integer_feed_fuel i buf : integer_feed i buf ≠ NoFuel.
Proof.
  assert (∀ cs n x m, read_digits cs n x m ≠ NoFuel) as H.
  { induction cs as [|c cs IH]; intros n x m; cbn [read_digits]; [done|].
    repeat (case_match; try done). }
  unfold integer_feed. destruct (int_ready i); [done|]. destruct (find_end buf); [|done].
  specialize (H (take n buf) 0%nat (int_nbr i) (int_negative_multiplicator i)).
  destruct (read_digits _ _ _ _) as [[]| | |]; done.
Qed.
Lemma bulk_feed_fuel k buf : bulk_feed k buf ≠ NoFuel.
Proof.
  assert (∀ k buf, fetch_str k buf ≠ NoFuel) as H
    by (intros ??; unfold fetch_str; repeat (case_match; try done)).
  destruct (bs_ready k) eqn:Hr; [unfold bulk_feed; by rewrite Hr|].
  destruct (int_ready (bs_int k)) eqn:Hi; [by rewrite bulk_feed_sized|].
  rewrite bulk_feed_unsized by done. pose proof (integer_feed_fuel (bs_int k) buf).
  destruct (integer_feed (bs_int k) buf) as [[i b1]| | |]; cbn [rbind]; try done.
  destruct (negb _); [done|]. by destruct (_ =? -1).
Qed.
Lemma fetch_array_size_fuel a buf : fetch_array_size a buf ≠ NoFuel.
Proof.
  unfold fetch_array_size. destruct (int_ready (ar_int a)); [done|].
  pose proof (integer_feed_fuel (ar_int a) buf).
  destruct (integer_feed (ar_int a) buf) as [[i b1]| | |]; cbn [rbind]; try done. by destruct (negb _).
Qed.

(** The fuel that [feed_all] passes is enough. *)
Lemma feed_fuel f b buf : wfb b → (depth b + length buf < f)%nat → feed f b buf ≠ NoFuel.
Proof.
  revert b buf. induction f as [|f IH]; intros b buf Hw Hf; [lia|].
  destruct b as [s|e|i|k|a]; [| | | |rewrite feed_array].
  - cbn [feed]. by destruct (simple_feed s buf).
  - cbn [feed]. by destruct (error_feed e buf).
  - cbn [feed]. pose proof (integer_feed_fuel i buf). by destruct (integer_feed i buf) as [[]| | |].
  - cbn [feed]. pose proof (bulk_feed_fuel k buf). by destruct (bulk_feed k buf) as [[]| | |].
  - destruct (ar_ready a); [done|]. pose proof (fetch_array_size_fuel a buf) as Hs.
    destruct (fetch_array_size a buf) as [[[ok a1] buf1]| | |] eqn:Hfa; cbn [rbind]; try done.
    apply fetch_array_size_len in Hfa as (Hc & Hl & _).
    assert (wfb (BArray a1) ∧ depth (BArray a1) = depth (BArray a)) as [Hw1 Hd1]
      by (cbn [wfb depth] in *; by rewrite Hc).
    destruct ok; cbn [negb]; [|done].
    enough (build_rows (feed f) (S f) a1 buf1 ≠ NoFuel)
      by (by destruct (build_rows _ _ _ _) as [[]| | |]).
    apply build_rows_fuel; [intros; by eapply feed_good|done| |lia].
    intros cur b1 Hwc Hd. apply IH; [done|lia].
Qed.

Lemma feed_mono f f' b buf :
  (f <= f')%nat → feed f b buf ≠ NoFuel → feed f' b buf = feed f b buf.
Proof.
  revert f' b buf. induction f as [|f IH]; intros f' b buf Hle.
  - destruct b as [s|e|i|k|a]; [by destruct f'..|]. rewrite !feed_array. destruct (ar_ready a); [done|].
    destruct (fetch_array_size a buf) as [[[[] a1] buf1]| | |]; cbn [rbind negb]; try done.
  - destruct f' as [|f']; [lia|]. destruct b as [s|e|i|k|a]; [done..|]. rewrite !feed_array.
    destruct (ar_ready a); [done|].
    destruct (fetch_array_size a buf) as [[[[] a1] buf1]| | |]; cbn [rbind negb]; try done.
    intros Hne. rewrite (build_rows_ext (feed f) (feed f') (S f)); [done| |lia|].
    + intros cur b1 Hc. apply IH; [lia|done].
    + intros H. by rewrite H in Hne.
Qed.

Lemma feed_all_eq f b buf :
  wfb b → (depth b + length buf < f)%nat → feed f b buf = feed_all b buf.
Proof. intros Hw Hf. apply feed_mono; [lia|]. apply feed_fuel; [done|lia]. Qed.

(** ** Resuming *)
Section RowsResume.
  Context (g : builder → Str → res (builder * Str)) (F : nat).
  Context (Hg : ∀ cur buf cur' buf', wfb cur → g cur buf = Ret (cur', buf') → good cur buf cur' buf').
  Context (Hgf : ∀ cur buf, wfb cur → (depth cur + length buf < F)%nat → g cur buf ≠ NoFuel).
  Context (Hres : ∀ cur buf d, wfb cur → (depth cur + length (buf ++ d) < F)%nat →
    match g cur buf with
    | Ret (cur', buf') =>
        g cur (buf ++ d) = if reply_ready cur' then Ret (cur', buf' ++ d) else g cur' (buf' ++ d)
    | Throw e => g cur (buf ++ d) = Throw e
    | Undef => g cur (buf ++ d) = Undef
    | NoFuel => True
    end).

Lemma row_start_app a buf d cur buf1 :
  row_start a buf = Ret (cur, buf1) → row_start a (buf ++ d) = Ret (cur, buf1 ++ d).
Proof.
  unfold row_start. destruct (m_current_builder a); [by intros [= <- <-]|].
  destruct buf as [|c buf]; [done|]. cbn [app].
  destruct (create_builder c); cbn [rbind]; [|done..]. by intros [= <- <-].
Qed.

Lemma row_start_fails a buf d : buf ≠ [] →
  match row_start a buf with
  | Ret _ => True
  | Throw e => row_start a (buf ++ d) = Throw e
  | Undef => row_start a (buf ++ d) = Undef
  | NoFuel => True
  end.
Proof.
  intros Hne. unfold row_start. destruct (m_current_builder a); [done|].
  destruct buf as [|c buf]; [done|]. cbn [app]. by destruct (create_builder c).
Qed.

Lemma build_row_resumes a buf d :
  wfb (BArray a) → buf ≠ [] → (depth (BArray a) + length (buf ++ d) <= F)%nat →
  match build_row g a buf with
  | Ret (true, a', buf') => build_row g a (buf ++ d) = Ret (true, a', buf' ++ d)
  | Ret (false, a', buf') => build_row g a (buf ++ d) = build_row g a' (buf' ++ d)
  | Throw e => build_row g a (buf ++ d) = Throw e
  | Undef => build_row g a (buf ++ d) = Undef
  | NoFuel => True
  end.
Proof.
  intros Hw Hne HF. rewrite !(build_row_eq g a).
  pose proof (row_start_fails a buf d Hne) as Hfail.
  destruct (row_start a buf) as [[cur buf1]| | |] eqn:Hs; cbn [rbind]; try (by rewrite Hfail); [|done].
  destruct (row_start_good _ _ _ _ Hw Hs) as (Hwc & Hrc & Hl1 & Hd1).
  rewrite (row_start_app _ _ d _ _ Hs). cbn [rbind].
  rewrite length_app in HF.
  pose proof (Hres cur buf1 d Hwc ltac:(rewrite length_app; lia)) as H.
  destruct (g cur buf1) as [[cur' buf2]| | |] eqn:Hgo; cbn [rbind]; try (by rewrite H); [|done].
  rewrite H. unfold row_end at 1. destruct (reply_ready cur') eqn:Hr'; cbn [negb].
  - cbn [rbind]. unfold row_end. by rewrite Hr'.
  - rewrite build_row_eq. unfold row_start at 1. cbn [m_current_builder rbind].
    by destruct (g cur' (buf2 ++ d)) as [[c3 b3]| | |].
Qed.

Lemma build_rows_stop n a buf :
  buf = [] ∨ ar_ready a = true → build_rows g n a buf = Ret (a, buf).
Proof.
  intros H. assert (bool_decide (buf = []) || ar_ready a = true) as Hc
    by (destruct H as [->| ->]; [done|apply orb_true_r]).
  destruct n; cbn [build_rows]; by rewrite Hc.
Qed.

Lemma build_rows_step n a buf :
  buf ≠ [] → ar_ready a = false →
  build_rows g (S n) a buf =
  ('(more, a, buf) <- build_row g a buf; if more : bool then build_rows g n a buf else Ret (a, buf)).
Proof. intros Hne Hr. cbn [build_rows]. by rewrite bool_decide_false, Hr. Qed.

Lemma build_rows_resumes n a buf d :
  wfb (BArray a) → (depth (BArray a) + length (buf ++ d) <= F)%nat → (length (buf ++ d) < n)%nat →
  match build_rows g n a buf with
  | Ret (a', buf') => build_rows g n a (buf ++ d) =
      if ar_ready a' then Ret (a', buf' ++ d) else build_rows g n a' (buf' ++ d)
  | Throw e => build_rows g n a (buf ++ d) = Throw e
  | Undef => build_rows g n a (buf ++ d) = Undef
  | NoFuel => True
  end.
Proof.
  revert a buf. induction n as [|n IH]; intros a buf Hw HF Hn; [lia|].
  destruct (ar_ready a) eqn:Hra; [rewrite !build_rows_stop by auto; by rewrite Hra|].
  destruct (decide (buf = [])) as [->|Hne]; [rewrite (build_rows_stop _ _ []) by auto; by rewrite Hra|].
  rewrite !(build_rows_step n a) by (done || by intros [? _]%app_nil).
  pose proof (build_row_resumes a buf d Hw Hne HF) as H.
  destruct (build_row g a buf) as [[[[] a1] buf1]| | |] eqn:Hb; cbn [rbind];
    try (by rewrite H); [| |done].
  all: destruct (build_row_good g Hg _ _ _ _ _ Hw Hb) as (Hw1 & Hl1 & Hd1 & Hm).
  - rewrite H. cbn [rbind]. rewrite !length_app in *.
    specialize (IH a1 buf1 Hw1). rewrite length_app in IH. specialize (IH ltac:(lia) ltac:(lia)).
    destruct (build_rows g n a1 buf1) as [[a2 buf2]| | |] eqn:Hr; try done.
    rewrite IH. destruct (ar_ready a2); [done|].
    apply build_rows_good in Hr as (Hw2 & Hl2 & Hd2 & _); [|done..].
    symmetry. apply build_rows_mono; [|lia].
    apply build_rows_fuel; [done|done| |rewrite length_app; lia].
    intros c0 b0 Hw0 Hd0. apply Hgf; [done|]. rewrite length_app in Hd0. lia.
  - rewrite Hm, Hra. destruct (decide (buf1 ++ d = [])) as [[-> ->]%app_nil|Hne1].
    + rewrite app_nil_r, Hb, build_rows_stop by auto. done.
    + rewrite build_rows_step, H by congruence. done.
Qed.
End RowsResume.

Definition array_sized (a : array_builder builder) (i : integer_builder) (buf : Str)
    : bool * array_builder builder * Str :=
  if negb (int_ready i)
  then (false, mkArray i (ar_size a) (m_current_builder a) (ar_ready a) (ar_reply a), buf)
  else
    let size := get_integer i in
    (true, mkArray i (to_uint64 size) (m_current_builder a) ((size <=? 0) || ar_ready a)
       (if size <? 0 then set_null (ar_reply a) else ar_reply a), buf).

Lemma fetch_array_size_unsized a buf :
  int_ready (ar_int a) = false →
  fetch_array_size a buf =
  ('(i, buf) <- integer_feed (ar_int a) buf; Ret (array_sized a i buf)).
Proof.
  intros Hi. unfold fetch_array_size, array_sized. rewrite Hi.
  destruct (integer_feed (ar_int a) buf) as [[i b1]| | |]; cbn [rbind]; try done.
  by destruct (int_ready i).
Qed.

Lemma array_size_resumes a buf d :
  int_ready (ar_int a) = false →
  match fetch_array_size a buf with
  | Ret (true, a', buf') => fetch_array_size a (buf ++ d) = Ret (true, a', buf' ++ d)
      ∧ int_ready (ar_int a') = true
  | Ret (false, a', buf') => fetch_array_size a (buf ++ d) = fetch_array_size a' (buf' ++ d)
      ∧ ar_ready a' = ar_ready a
  | Throw e => fetch_array_size a (buf ++ d) = Throw e
  | Undef => fetch_array_size a (buf ++ d) = Undef
  | NoFuel => True
  end.
Proof.
  intros Hi. rewrite !(fetch_array_size_unsized a) by done.
  pose proof (integer_resumes (ar_int a) buf d) as H.
  destruct (integer_feed (ar_int a) buf) as [[i b1]| | |]; cbn [rbind]; try (by rewrite H); [|done].
  rewrite H. unfold array_sized at 1. destruct (int_ready i) eqn:Hi'; cbn [negb].
  - cbn [rbind]. unfold array_sized. by rewrite Hi'.
  - split; [|done]. rewrite fetch_array_size_unsized by done. cbn [ar_int].
    by destruct (integer_feed i (b1 ++ d)) as [[j b2]| | |].
Qed.

Lemma feed_array_sized f a buf :
  ar_ready a = false → int_ready (ar_int a) = true →
  feed (S f) (BArray a) buf =
  ('(a, buf) <- build_rows (feed f) (S f) a buf; Ret (BArray a, buf)).
Proof.
  intros Hr Hi. rewrite feed_array, Hr. unfold fetch_array_size. by rewrite Hi.
Qed.

Lemma build_rows_int_ready g n a buf a' buf' :
  build_rows g n a buf = Ret (a', buf') → ar_int a' = ar_int a.
Proof.
  revert a buf. induction n as [|n IH]; intros a buf; cbn [build_rows];
    (destruct (_ || _); [by intros [= <- <-]|]); [done|].
  rewrite build_row_eq. destruct (row_start a buf) as [[cur b1]| | |]; cbn [rbind]; try done.
  destruct (g cur b1) as [[cur' b2]| | |]; cbn [rbind]; try done.
  unfold row_end. destruct (negb _); [by intros [= <- <-]|]. by intros ->%IH.
Qed.

Lemma feed_resumes f b buf d :
  wfb b → (depth b + length (buf ++ d) < f)%nat →
  match feed f b buf with
  | Ret (b', buf') =>
      feed f b (buf ++ d) = if reply_ready b' then Ret (b', buf' ++ d) else feed f b' (buf' ++ d)
  | Throw e => feed f b (buf ++ d) = Throw e
  | Undef => feed f b (buf ++ d) = Undef
  | NoFuel => True
  end.
Proof.
  revert b buf d. induction f as [|f IH]; intros b buf d Hw Hf; [lia|].
  destruct b as [s|e|i|k|a].
  - cbn [feed]. pose proof (simple_resumes s buf d) as H. cbn zeta in H.
    destruct (simple_feed s buf) as [s' b1]. cbn [fst snd reply_ready] in *. rewrite H.
    by destruct (ss_ready s').
  - cbn [feed]. pose proof (error_resumes e buf d) as H. cbn zeta in H.
    destruct (error_feed e buf) as [s' b1]. cbn [fst snd reply_ready] in *. rewrite H.
    by destruct (ss_ready (m_string_builder s')).
  - cbn [feed]. pose proof (integer_resumes i buf d) as H.
    destruct (integer_feed i buf) as [[i' b1]| | |]; cbn [rbind reply_ready]; try (by rewrite H); [|done].
    rewrite H. by destruct (int_ready i').
  - cbn [feed]. pose proof (bulk_resumes k buf d) as H.
    destruct (bulk_feed k buf) as [[k' b1]| | |]; cbn [rbind reply_ready]; try (by rewrite H); [|done].
    rewrite H. by destruct (bs_ready k').
  - destruct (ar_ready a) eqn:Hra; [rewrite !feed_array, Hra; cbn [reply_ready]; by rewrite Hra|].
    assert (Hsized : ∀ a buf, wfb (BArray a) → (depth (BArray a) + length (buf ++ d) < S f)%nat →
      match build_rows (feed f) (S f) a buf with
      | Ret (a', buf') => int_ready (ar_int a) = true →
          ('(a, buf) <- build_rows (feed f) (S f) a (buf ++ d); Ret (BArray a, buf)) =
          if ar_ready a' then Ret (BArray a', buf' ++ d) else feed (S f) (BArray a') (buf' ++ d)
      | Throw e => build_rows (feed f) (S f) a (buf ++ d) = Throw e
      | Undef => build_rows (feed f) (S f) a (buf ++ d) = Undef
      | NoFuel => True
      end).
    { intros a0 buf0 Hw0 Hf0.
      pose proof (build_rows_resumes (feed f) f (feed_good f) (feed_fuel f)
        ltac:(intros; by apply IH) (S f) a0 buf0 d Hw0 ltac:(lia) ltac:(lia)) as H.
      destruct (build_rows (feed f) (S f) a0 buf0) as [[a' b1]| | |] eqn:Hr; try done.
      intros Hi. rewrite H. destruct (ar_ready a') eqn:Hra'; [done|].
      rewrite feed_array_sized; [done|done|]. by rewrite (build_rows_int_ready _ _ _ _ _ _ Hr). }
    destruct (int_ready (ar_int a)) eqn:Hi.
    + rewrite !feed_array_sized by done. specialize (Hsized a buf Hw Hf).
      destruct (build_rows (feed f) (S f) a buf) as [[a' b1]| | |]; cbn [rbind reply_ready];
        first [done|by rewrite Hsized].
    + rewrite !(feed_array (S f) a), Hra.
      pose proof (array_size_resumes a buf d Hi) as H.
      destruct (fetch_array_size a buf) as [[[[] a1] b1]| | |] eqn:Hfs; cbn [rbind negb];
        try (by rewrite H); [| |done].
      * destruct H as [-> Hi1]. cbn [rbind negb].
        apply fetch_array_size_len in Hfs as (Hc & Hl & _). rewrite length_app in Hf.
        assert (wfb (BArray a1) ∧ depth (BArray a1) = depth (BArray a)) as [Hw1 Hd1]
          by (cbn [wfb depth] in *; by rewrite Hc).
        specialize (Hsized a1 b1 Hw1 ltac:(rewrite length_app; lia)).
        destruct (build_rows (feed f) (S f) a1 b1) as [[a' b2]| | |]; cbn [rbind reply_ready];
          first [done|by rewrite Hsized].
      * destruct H as [-> Hr1]. cbn [reply_ready]. rewrite Hr1, Hra, feed_array, Hr1, Hra. done.
Qed.

Lemma feed_all_resumes b buf d :
  wfb b →
  match feed_all b buf with
  | Ret (b', buf') =>
      feed_all b (buf ++ d) = if reply_ready b' then Ret (b', buf' ++ d) else feed_all b' (buf' ++ d)
  | Throw e => feed_all b (buf ++ d) = Throw e
  | Undef => feed_all b (buf ++ d) = Undef
  | NoFuel => False
  end.
Proof.
  intros Hw. set (f := S (depth b + length (buf ++ d))).
  rewrite <-(feed_all_eq f b buf), <-(feed_all_eq f b (buf ++ d)) by
    (try done; subst f; rewrite ?length_app; lia).
  pose proof (feed_resumes f b buf d Hw ltac:(subst f; lia)) as H.
  pose proof (feed_fuel f b buf Hw ltac:(subst f; rewrite length_app; lia)) as Hn.
  destruct (feed f b buf) as [[b' buf']| | |] eqn:Hf; try done.
  apply feed_good in Hf as (Hw' & Hl & Hd & _); [|done].
  by rewrite <-(feed_all_eq f b') by (done || (subst f; rewrite !length_app; lia)).
Qed.

(** ** The reply builder *)
Definition rb_wf (rb : reply_builder) : Prop :=
  match rb_builder rb with Some b => wfb b ∧ reply_ready b = false | None => True end.
Definition rb_more (rb : reply_builder) (d : Str) : reply_builder :=
  mkReplyBuilder (rb_buffer rb ++ d) (rb_builder rb) (rb_available rb) (rb_broken rb).

(** The builder that [build_reply] feeds. *)
Definition reply_start (rb : reply_builder) : res (builder * Str) :=
  match rb_buffer rb with
  | [] => Undef
  | c :: rest =>
      match rb_builder rb with
      | Some b => Ret (b, rb_buffer rb)
      | None => b <- create_builder c; Ret (b, rest)
      end
  end.
Definition reply_end (rb : reply_builder) (b : builder) (buffer : Str) : bool * reply_builder :=
  if reply_ready b
  then (true, mkReplyBuilder buffer None (rb_available rb ++ [get_reply b]) (rb_broken rb))
  else (false, mkReplyBuilder buffer (Some b) (rb_available rb) (rb_broken rb)).

Lemma build_reply_eq rb : rb_buffer rb ≠ [] →
  build_reply rb =
  ('(b, buf) <- reply_start rb; '(b, buf) <- feed_all b buf; Ret (reply_end rb b buf)).
Proof.
  intros Hne. unfold build_reply, reply_start, reply_end. destruct (rb_buffer rb) as [|c rest]; [done|].
  set (m := match rb_builder rb with Some b => _ | None => _ end).
  destruct m as [[b buf]| | |]; cbn [rbind]; try done.
  destruct (feed_all b buf) as [[b' buf']| | |]; cbn [rbind]; try done. by destruct (reply_ready b').
Qed.

Lemma reply_start_good rb b buf :
  rb_wf rb → reply_start rb = Ret (b, buf) →
  wfb b ∧ reply_ready b = false ∧ (length buf <= length (rb_buffer rb))%nat.
Proof.
  unfold rb_wf, reply_start. destruct (rb_buffer rb) as [|c rest]; [done|].
  destruct (rb_builder rb) as [b0|]; [intros [? ?] [= <- <-]; done|].
  destruct (create_builder c) as [b1| | |] eqn:Hc; cbn [rbind]; [|done..].
  apply create_builder_good in Hc as (? & ? & ?). intros _ [= <- <-]. simpl. auto with lia.
Qed.

Lemma reply_start_more rb d : rb_buffer rb ≠ [] →
  match reply_start rb with
  | Ret (b, buf) => reply_start (rb_more rb d) = Ret (b, buf ++ d)
  | r => reply_start (rb_more rb d) = r ∧ r ≠ NoFuel
  end.
Proof.
  unfold reply_start, rb_more. cbn. destruct (rb_buffer rb) as [|c rest]; [done|]. cbn.
  destruct (rb_builder rb); [done|]. intros _. unfold create_builder.
  repeat (case_bool_decide; [done|]). done.
Qed.

Lemma build_reply_good rb more rb1 :
  rb_wf rb → build_reply rb = Ret (more, rb1) →
  rb_wf rb1 ∧ rb_broken rb1 = rb_broken rb ∧
  (length (rb_buffer rb1) <= length (rb_buffer rb))%nat ∧
  (more = true → (length (rb_buffer rb1) < length (rb_buffer rb))%nat).
Proof.
  intros Hw. destruct (decide (rb_buffer rb = [])) as [He|Hne].
  { unfold build_reply. rewrite He. intros [= <- <-]. rewrite He. done. }
  rewrite build_reply_eq by done.
  destruct (reply_start rb) as [[b buf]| | |] eqn:Hs; cbn [rbind]; try done.
  destruct (reply_start_good _ _ _ Hw Hs) as (Hwb & Hr & Hl).
  destruct (feed_all b buf) as [[b' buf']| | |] eqn:Hf; cbn [rbind]; try done.
  apply feed_good in Hf as (Hw' & Hl' & _ & Hlt); [|done].
  unfold reply_end. destruct (reply_ready b') eqn:Hr'; intros; simplify_eq; cbn.
  - specialize (Hlt Hr eq_refl). split_and!; try done; lia.
  - split_and!; try done; lia.
Qed.

Lemma build_reply_resumes rb d :
  rb_wf rb →
  match build_reply rb with
  | Ret (true, rb1) => build_reply (rb_more rb d) = Ret (true, rb_more rb1 d)
  | Ret (false, rb1) => build_reply (rb_more rb d) = build_reply (rb_more rb1 d)
  | Throw e => build_reply (rb_more rb d) = Throw e
  | Undef => build_reply (rb_more rb d) = Undef
  | NoFuel => False
  end.
Proof.
  intros Hw. destruct (decide (rb_buffer rb = [])) as [He|Hne].
  { unfold build_reply at 1. rewrite He. done. }
  assert (Hne' : rb_buffer (rb_more rb d) ≠ []) by (cbn; by intros [? _]%app_nil).
  rewrite (build_reply_eq rb), (build_reply_eq (rb_more rb d)) by done.
  pose proof (reply_start_more rb d Hne) as Hm.
  destruct (reply_start rb) as [[b buf]| | |] eqn:Hs; cbn [rbind];
    try (destruct Hm as [Hm ?]; rewrite ?Hm; done).
  rewrite Hm. cbn [rbind]. destruct (reply_start_good _ _ _ Hw Hs) as (Hwb & Hr & _).
  pose proof (feed_all_resumes b buf d Hwb) as H.
  destruct (feed_all b buf) as [[b' buf']| | |] eqn:Hf; cbn [rbind]; try (by rewrite H); [|done].
  rewrite H. unfold reply_end at 1. destruct (reply_ready b') eqn:Hr'.
  - cbn [rbind]. unfold reply_end. by rewrite Hr'.
  - destruct (decide (buf' ++ d = [])) as [[-> ->]%app_nil|Hne2].
    + pose proof (feed_all_resumes b buf [] Hwb) as H0. rewrite Hf, Hr', app_nil_r in H0.
      cbn [app] in H0 |- *. rewrite <-H0, Hf. cbn [rbind]. unfold reply_end. by rewrite Hr'.
    + rewrite (build_reply_eq (rb_more _ d)) by done. unfold reply_start, rb_more.
      cbn [rb_buffer rb_builder rb_available rb_broken].
      destruct (buf' ++ d) as [|x y] eqn:Hxy; [done|]. cbn [rbind].
      by destruct (feed_all b' (x :: y)) as [[]| | |].
Qed.

Lemma build_reply_waits rb rb1 :
  build_reply rb = Ret (false, rb1) → rb_available rb1 = rb_available rb.
Proof.
  unfold build_reply. destruct (rb_buffer rb); [by intros [= <-]|].
  set (m := match rb_builder rb with Some b => _ | None => _ end).
  destruct m as [[b buf]| | |]; cbn [rbind]; try done.
  destruct (feed_all b buf) as [[b' buf']| | |]; cbn [rbind]; try done.
  destruct (reply_ready b'); [done|]. by intros [= <-].
Qed.

Lemma build_all_fuel n rb :
  rb_wf rb → (length (rb_buffer rb) <= n)%nat → build_all n rb ≠ FedNoFuel.
Proof.
  revert rb. induction n as [|n IH]; intros rb Hw Hn; cbn [build_all];
    pose proof (build_reply_resumes rb [] Hw) as H;
    destruct (build_reply rb) as [[[] rb1]| | |] eqn:Hb; try done;
    apply build_reply_good in Hb as (Hw1 & _ & Hl & Hlt); try done; specialize (Hlt eq_refl).
  - lia.
  - apply IH; [done|lia].
Qed.

Lemma build_all_mono n m rb :
  (n <= m)%nat → build_all n rb ≠ FedNoFuel → build_all m rb = build_all n rb.
Proof.
  revert m rb. induction n as [|n IH]; intros m rb Hm; [|destruct m as [|m]; [lia|]];
    [destruct m|]; cbn [build_all]; destruct (build_reply rb) as [[[] rb1]| | |]; try done.
  apply IH. lia.
Qed.

Lemma build_all_good n rb rb1 : rb_wf rb → build_all n rb = Fed rb1 →
  rb_wf rb1 ∧ rb_broken rb1 = rb_broken rb ∧ (length (rb_buffer rb1) <= length (rb_buffer rb))%nat.
Proof.
  revert rb. induction n as [|n IH]; intros rb Hw; cbn [build_all];
    destruct (build_reply rb) as [[[] rb2]| | |] eqn:Hb; try done;
    apply build_reply_good in Hb as (Hw1 & Hbr & Hl & _); try done.
  - by intros [= <-].
  - intros (? & ? & ?)%IH; [|done]. split_and!; try done; [congruence|lia].
  - by intros [= <-].
Qed.

Lemma build_all_resumes n rb d :
  rb_wf rb → (length (rb_buffer rb ++ d) <= n)%nat →
  match build_all n rb with
  | Fed rb1 => build_all n (rb_more rb d) = build_all n (rb_more rb1 d)
  | r => build_all n (rb_more rb d) = r
  end.
Proof.
  revert rb. induction n as [|n IH]; intros rb Hw Hn.
  - assert (rb_buffer rb = [] ∧ d = []) as [He ->]
      by (apply app_nil; by destruct (rb_buffer rb ++ d); simpl in Hn; [|lia]).
    assert (build_all 0 rb = Fed rb) as Hb by (cbn [build_all]; unfold build_reply; by rewrite He).
    by rewrite Hb.
  - cbn [build_all]. pose proof (build_reply_resumes rb d Hw) as H.
    destruct (build_reply rb) as [[[] rb1]| | |] eqn:Hb; try (by rewrite H); [| |done].
    + apply build_reply_good in Hb as (Hw1 & _ & Hl & Hlt); [|done]. specialize (Hlt eq_refl).
      rewrite H. rewrite length_app in Hn. specialize (IH rb1 Hw1). rewrite length_app in IH.
      specialize (IH ltac:(lia)). destruct (build_all n rb1) as [rb2| | |] eqn:Hall; try done.
      rewrite IH. symmetry. apply (build_all_mono n (S n)); [lia|].
      apply build_all_good in Hall as (Hw2 & _ & Hl2); [|done].
      apply build_all_fuel; [done|]. cbn. rewrite length_app. lia.
    + assert (rb_available rb1 = rb_available rb) as Ha by by apply build_reply_waits in Hb.
      rewrite H. unfold rb_more. cbn [rb_available]. by rewrite Ha.
Qed.

(** A stream of packets. *)
Fixpoint rb_feeds (rb : reply_builder) (packets : list Str) : fed :=
  match packets with
  | [] => Fed rb
  | p :: packets => match rb_feed rb p with Fed rb => rb_feeds rb packets | r => r end
  end.

Definition rb_start (rb : reply_builder) : Prop := rb_wf rb ∧ rb_broken rb = false.

Lemma rb_feed_build rb d : rb_broken rb = false →
  rb_feed rb d = build_all (length (rb_buffer rb ++ d)) (rb_more rb d).
Proof. intros H. unfold rb_feed, rb_more. by rewrite H. Qed.

Lemma rb_feed_good rb d rb1 : rb_start rb → rb_feed rb d = Fed rb1 → rb_start rb1.
Proof.
  intros [Hw Hb]. rewrite rb_feed_build by done. intros (? & H & _)%build_all_good; [|done].
  split; [done|]. by rewrite H.
Qed.

Lemma rb_feed_app rb d1 d2 :
  rb_start rb →
  rb_feed rb (d1 ++ d2) = match rb_feed rb d1 with Fed rb1 => rb_feed rb1 d2 | r => r end.
Proof.
  intros Hs. pose proof Hs as [Hw Hb]. rewrite !rb_feed_build by done.
  set (n := length (rb_buffer rb ++ d1 ++ d2)).
  assert (rb_more rb (d1 ++ d2) = rb_more (rb_more rb d1) d2) as ->
    by (unfold rb_more; cbn; by rewrite app_assoc).
  pose proof (build_all_resumes n (rb_more rb d1) d2 Hw) as H.
  cbn [rb_more rb_buffer] in H. rewrite <-app_assoc in H. specialize (H ltac:(done)).
  rewrite (build_all_mono (length (rb_buffer rb ++ d1)) n) in H.
  2: { subst n. rewrite !length_app. lia. }
  2: { apply build_all_fuel; [done|]. done. }
  destruct (build_all (length (rb_buffer rb ++ d1)) (rb_more rb d1)) as [rb1| | |] eqn:Hall; try done.
  rewrite H. apply build_all_good in Hall as (Hw1 & Hb1 & Hl1); [|done]. cbn in Hb1, Hl1.
  rewrite rb_feed_build by congruence. apply build_all_mono.
  - subst n. rewrite !length_app in *. lia.
  - apply build_all_fuel; [done|]. done.
Qed.
