(* ===== verification/RedisResp.v ===== *)
(** * The wire format of [cpp_redis]: commands, values and streams

    [redis_connection::build_command], the values of the protocol with their
    encoding, and the theorems about [reply_builder] as a parser: what it
    builds from the encoding of values, however the bytes are cut into
    packets. *)

From S2P Require Import Prelude CppBase.
From S2P Require Import RedisReply.
#[local] Open Scope res_scope.

Definition crlf : Str := [CR; LF].

(** [std::to_string] of a number below 10^20. *)
Definition dchar (d : Z) : ascii := ascii_of_nat (48 + Z.to_nat d).
Fixpoint to_dec (fuel : nat) (n : Z) : Str :=
  match fuel with
  | O => []
  | S fuel => if n <? 10 then [dchar n] else to_dec fuel (n / 10) ++ [dchar (n mod 10)]
  end.
Definition std_to_string (n : Z) : Str := to_dec 20 n.

(** [redis_connection::build_command] *)
Definition command_part (part : Str) : Str :=
  chars "$" ++ std_to_string (Z.of_nat (length part)) ++ crlf ++ part ++ crlf.
Definition build_command (redis_cmd : list Str) : Str :=
  chars "*" ++ std_to_string (Z.of_nat (length redis_cmd)) ++ crlf ++ (redis_cmd ≫= command_part).

(** ** Values of the protocol *)
Inductive value :=
  | VSimple (s : Str)
  | VErr (s : Str)
  | VNum (z : Z)
  | VBulk (s : Str)
  | VNilBulk
  | VNilArr
  | VArr (l : list value).

Definition signed_dec (z : Z) : Str := if z <? 0 then "-"%char :: std_to_string (- z) else std_to_string z.

Fixpoint encode (v : value) : Str :=
  match v with
  | VSimple s => "+"%char :: s ++ crlf
  | VErr s => "-"%char :: s ++ crlf
  | VNum z => ":"%char :: signed_dec z ++ crlf
  | VBulk s => "$"%char :: std_to_string (Z.of_nat (length s)) ++ crlf ++ s ++ crlf
  | VNilBulk => "$"%char :: chars "-1" ++ crlf
  | VNilArr => "*"%char :: chars "-1" ++ crlf
  | VArr l => "*"%char :: std_to_string (Z.of_nat (length l)) ++ crlf ++ (l ≫= encode)
  end.

(** The reply object of a value, member by member. *)
Fixpoint reply_of (v : value) : reply :=
  match v with
  | VSimple s => mkReply simple_string [] s None
  | VErr s => mkReply error [] s None
  | VNum z => mkReply integer [] [] (Some z)
  | VBulk s => mkReply bulk_string [] s None
  | VNilBulk => mkReply null [] [] None
  | VNilArr => mkReply null [] [] None
  | VArr l => mkReply array (reply_of <$> l) [] None
  end.

(** What the format asks of a value: lines without an end sequence, numbers
    and sizes in range.  The smallest 64-bit number is left out. *)
Fixpoint valid (v : value) : Prop :=
  match v with
  | VSimple s | VErr s => find_end s = None
  | VNum z => - int64_max <= z <= int64_max
  | VBulk s => Z.of_nat (length s) <= int32_max - 2
  | VNilBulk | VNilArr => True
  | VArr l => Z.of_nat (length l) <= int64_max ∧ foldr (λ v P, valid v ∧ P) True l
  end.

Fixpoint value_size (v : value) : nat :=
  match v with
  | VArr l => S (list_sum (value_size <$> l))
  | _ => 1
  end.

(** ** Numbers *)
Lemma digit_of_dchar d : 0 <= d < 10 → digit_of (dchar d) = Some d.
Proof.
  intros Hd. assert (d = 0 ∨ d = 1 ∨ d = 2 ∨ d = 3 ∨ d = 4 ∨ d = 5 ∨ d = 6 ∨ d = 7 ∨ d = 8 ∨ d = 9)
    as Hc by lia. by destruct_or! Hc; subst d.
Qed.
Lemma digit_of_not c d : digit_of c = Some d → c ≠ CR ∧ c ≠ "-"%char ∧ 0 <= d < 10.
Proof.
  unfold digit_of. destruct (_ && _) eqn:H; [|done]. intros [= <-].
  split_and!; [intros ->; done|intros ->; done|lia..].
Qed.

Lemma read_digits_snoc cs c d i x m y m' :
  read_digits cs i x m = Ret (y, m') → digit_of c = Some d →
  in_int64 (y * 10) = true → in_int64 (y * 10 + d) = true →
  read_digits (cs ++ [c]) i x m = Ret (y * 10 + d, m').
Proof.
  intros H Hd H1 H2. destruct (digit_of_not _ _ Hd) as (_ & Hc & _).
  revert i x m H. induction cs as [|c0 cs IH]; intros i x m H; cbn [app read_digits] in *.
  - injection H as -> ->. rewrite (bool_decide_false (c = "-"%char)), andb_false_r by done.
    by rewrite Hd, H1, H2.
  - destruct (_ && bool_decide (c0 = _)); [by apply IH|].
    destruct (digit_of c0); [|done]. destruct (_ && _); [|done]. by apply IH.
Qed.

Lemma to_dec_digits f n : 0 <= n < 10 ^ Z.of_nat f →
  Forall (λ c, ∃ d, digit_of c = Some d) (to_dec f n).
Proof.
  revert n. induction f as [|f IH]; intros n Hn; [constructor|]. cbn [to_dec].
  destruct (Z.ltb_spec n 10) as [Hlt|Hge].
  - constructor; [|constructor]. exists n. apply digit_of_dchar. lia.
  - apply Forall_app_2.
    + apply IH. rewrite Nat2Z.inj_succ, Z.pow_succ_r in Hn by lia.
      split; [apply Z.div_pos; lia|]. apply Z.div_lt_upper_bound; lia.
    + constructor; [|constructor]. exists (n mod 10). apply digit_of_dchar, Z.mod_pos_bound. lia.
Qed.

Lemma to_dec_read f n i m : 0 <= n < 10 ^ Z.of_nat f → n <= int64_max →
  read_digits (to_dec f n) i 0 m = Ret (n, m).
Proof.
  unfold int64_max. revert n. induction f as [|f IH]; intros n Hn Hm.
  { simpl in Hn. assert (n = 0) as -> by lia. done. }
  cbn [to_dec]. destruct (Z.ltb_spec n 10) as [Hlt|Hge].
  - change [dchar n] with ([] ++ [dchar n]).
    rewrite (read_digits_snoc [] (dchar n) n i 0 m 0 m); [done|done|apply digit_of_dchar; lia|done|].
    apply in_int64_spec. lia.
  - assert (n = n / 10 * 10 + n mod 10) as Hdiv by (pose proof (Z.div_mod n 10); lia).
    pose proof (Z.mod_pos_bound n 10 ltac:(lia)) as Hmod.
    assert (0 <= n / 10) by (apply Z.div_pos; lia).
    rewrite (read_digits_snoc _ _ (n mod 10) i 0 m (n / 10) m).
    + by rewrite <-Hdiv.
    + apply IH; [|lia]. rewrite Nat2Z.inj_succ, Z.pow_succ_r in Hn by lia.
      split; [lia|]. apply Z.div_lt_upper_bound; lia.
    + apply digit_of_dchar. lia.
    + apply in_int64_spec. lia.
    + apply in_int64_spec. lia.
Qed.

Lemma find_end_none cs : Forall (λ c, c ≠ CR) cs → find_end cs = None.
Proof.
  induction 1 as [|c cs Hc Hcs IH]; [done|]. destruct cs as [|d cs]; [done|].
  rewrite find_end_cons, bool_decide_false by done. cbn [andb]. by rewrite IH.
Qed.

Lemma find_end_line s rest : find_end s = None → find_end (s ++ crlf ++ rest) = Some (length s).
Proof.
  induction s as [|c s IH]; [done|]. intros H. destruct s as [|d s].
  - cbn [app crlf]. rewrite find_end_cons. rewrite (bool_decide_false (CR = LF)), andb_false_r by done.
    done.
  - cbn [app]. rewrite find_end_cons in H |- *. destruct (_ && _); [done|].
    destruct (find_end (d :: s)) eqn:He; [done|]. specialize (IH eq_refl). cbn [app] in IH.
    by rewrite IH.
Qed.

(** The integer builder on a line of digits. *)
Lemma integer_line digits rest z :
  find_end digits = None → (∃ nbr mult, read_digits digits 0 0 1 = Ret (nbr, mult) ∧ mult * nbr = z) →
  ∃ i, integer_feed new_integer (digits ++ crlf ++ rest) = Ret (i, rest) ∧
    int_ready i = true ∧ get_integer i = z ∧ int_reply i = mkReply integer [] [] (Some z).
Proof.
  intros He (nbr & mult & Hr & <-). unfold integer_feed. cbn [new_integer int_ready].
  rewrite (find_end_line _ rest He), take_app_length.
  change (int_nbr new_integer) with 0. change (int_negative_multiplicator new_integer) with 1.
  rewrite Hr. cbn [rbind].
  rewrite app_assoc, drop_app_length' by (rewrite length_app; simpl; lia).
  eexists. split_and!; done.
Qed.

Lemma dec_line_ok n : 0 <= n <= int64_max → find_end (std_to_string n) = None.
Proof.
  unfold int64_max. intros Hn. apply find_end_none. eapply Forall_impl; [apply to_dec_digits|].
  - simpl. lia.
  - intros c [d Hd]. by apply digit_of_not in Hd as [? _].
Qed.

Lemma dec_line n rest : 0 <= n <= int64_max →
  ∃ i, integer_feed new_integer (std_to_string n ++ crlf ++ rest) = Ret (i, rest) ∧
    int_ready i = true ∧ get_integer i = n ∧ int_reply i = mkReply integer [] [] (Some n).
Proof.
  intros Hn. apply integer_line; [by apply dec_line_ok|]. exists n, 1.
  split; [|lia]. apply to_dec_read; [|lia]. unfold int64_max in Hn. simpl. lia.
Qed.

Lemma signed_line z rest : - int64_max <= z <= int64_max →
  ∃ i, integer_feed new_integer (signed_dec z ++ crlf ++ rest) = Ret (i, rest) ∧
    int_ready i = true ∧ get_integer i = z ∧ int_reply i = mkReply integer [] [] (Some z).
Proof.
  intros Hz. unfold signed_dec. destruct (Z.ltb_spec z 0); [|apply dec_line; lia].
  apply integer_line.
  - pose proof (dec_line_ok (- z) ltac:(lia)) as He.
    destruct (std_to_string (- z)) as [|d s] eqn:Hs; [done|].
    rewrite find_end_cons, bool_decide_false by done. cbn [andb]. by rewrite He.
  - exists (- z), (-1). split; [|lia]. cbn [read_digits].
    rewrite !bool_decide_true by done. change (1 =? 1) with true. cbn [andb].
    apply to_dec_read; [|lia]. unfold int64_max in Hz. simpl. lia.
Qed.

(** ** One value *)
Lemma value_ind' (P : value → Prop) :
  (∀ s, P (VSimple s)) → (∀ s, P (VErr s)) → (∀ z, P (VNum z)) → (∀ s, P (VBulk s)) →
  P VNilBulk → P VNilArr → (∀ l, Forall P l → P (VArr l)) → ∀ v, P v.
Proof.
  intros H1 H2 H3 H4 H5 H6 H7. fix IH 1. intros [s|s|z|s| | |l]; [auto..|].
  apply H7. induction l as [|v l IHl]; constructor; [apply IH|apply IHl].
Qed.

(** The builder of the value's type, fed with the rest of the encoding, builds
    its reply and leaves what follows. *)
Definition parses (v : value) : Prop :=
  ∃ c body b, encode v = c :: body ∧ create_builder c = Ret b ∧
    ∀ f rest, (length body + length rest < f)%nat →
      ∃ b', feed f b (body ++ rest) = Ret (b', rest) ∧ reply_ready b' = true ∧
        get_reply b' = reply_of v.

Lemma simple_line s rest : find_end s = None →
  simple_feed new_simple (s ++ crlf ++ rest) =
  (mkSimple s true (mkReply simple_string [] s None), rest).
Proof.
  intros He. unfold simple_feed. cbn [new_simple ss_ready].
  rewrite (find_end_line _ rest He), take_app_length.
  rewrite app_assoc, drop_app_length' by (rewrite length_app; simpl; lia). done.
Qed.

Lemma feed_S_simple f b buf :
  feed f (BSimple b) buf = let '(b, buf) := simple_feed b buf in Ret (BSimple b, buf).
Proof. by destruct f. Qed.

Lemma bulk_text s rest i :
  Z.of_nat (length s) <= int32_max - 2 → int_ready i = true → get_integer i = Z.of_nat (length s) →
  ∃ b, fetch_str (with_size new_bulk i) (s ++ crlf ++ rest) = Ret (b, rest) ∧ bs_ready b = true ∧
    bs_reply b = mkReply bulk_string [] s None.
Proof.
  unfold int32_max. intros Hl Hi Hg. unfold fetch_str, with_size. rewrite Hg. cbn [bs_size].
  rewrite to_int32_id by (apply in_int32_spec; lia).
  rewrite bulk_size_word by (lia || (apply in_int32_spec; lia)).
  rewrite (proj2 (Z.ltb_ge _ _)) by (rewrite !length_app; simpl; lia).
  rewrite (proj2 (Z.ltb_ge _ 0)), (proj2 (in_int32_spec _)) by lia. cbn [orb negb].
  rewrite Nat2Z.id, take_app_length.
  rewrite lookup_app_r, Nat.sub_diag by lia. cbn [crlf lookup list_lookup app].
  rewrite lookup_app_r by lia. replace (S (length s) - length s)%nat with 1%nat by lia.
  cbn [lookup list_lookup]. rewrite !bool_decide_true by done. cbn [negb orb].
  rewrite (proj2 (Z.eqb_neq _ (-1))) by lia.
  change (s ++ CR :: LF :: rest) with (s ++ crlf ++ rest).
  rewrite app_assoc, drop_app_length' by (rewrite length_app; simpl; lia).
  eexists. split_and!; done.
Qed.

(** The rows of an array. *)
Lemma rows_parse f l n (a : array_builder builder) r0 rest :
  Forall parses l → l ≠ [] → (length (l ≫= encode) + length rest < S f)%nat → (length l <= n)%nat →
  m_current_builder a = None → ar_ready a = false →
  ar_reply a = mkReply array r0 [] None → ar_size a = Z.of_nat (length r0 + length l) →
  ∃ a', build_rows (feed f) n a ((l ≫= encode) ++ rest) = Ret (a', rest) ∧ ar_ready a' = true ∧
    ar_reply a' = mkReply array (r0 ++ (reply_of <$> l)) [] None.
Proof.
  intros Hl. revert n a r0. induction Hl as [|v l Hv Hl IH]; intros n a r0 Hne Hf Hn Hc Hr Hrep Hsz;
    [done|]. destruct n as [|n]; [simpl in Hn; lia|].
  destruct Hv as (c & body & b & He & Hcb & Hfeed).
  change ((v :: l) ≫= encode) with (encode v ++ (l ≫= encode)) in *.
  rewrite He in *. cbn [app] in *. rewrite length_cons, length_app in Hf.
  destruct (Hfeed f ((l ≫= encode) ++ rest)) as (b' & Hb' & Hr' & Hg);
    [rewrite length_app; simpl in *; lia|].
  rewrite build_rows_step by done. rewrite build_row_eq. unfold row_start. rewrite Hc, Hcb. cbn [rbind].
  rewrite <-app_assoc, Hb'. cbn [rbind]. unfold row_end. rewrite Hr', Hg, Hrep, Hsz, Hr.
  cbn [negb orb]. unfold add_row. cbn [m_rows m_str_val m_int_val].
  set (a1 := mkArray _ _ _ _ _).
  destruct (decide (l = [])) as [->|Hne'].
  - rewrite build_rows_stop.
    + exists a1. split; [done|]. subst a1. cbn [ar_ready ar_reply].
      split; [apply Z.eqb_eq; rewrite length_app; simpl; lia|done].
    + right. subst a1. cbn [ar_ready]. apply Z.eqb_eq. rewrite length_app. simpl. lia.
  - destruct (IH n a1 (r0 ++ [reply_of v])) as (a' & Ha' & Hra' & Hrep'); try done.
    + simpl in *. lia.
    + simpl in Hn. lia.
    + subst a1. cbn [ar_ready]. apply Z.eqb_neq. rewrite length_app. destruct l; simpl; done || lia.
    + subst a1. cbn [ar_size]. rewrite length_app. simpl. lia.
    + exists a'. split; [done|]. split; [done|]. rewrite Hrep', <-app_assoc. done.
Qed.

Lemma array_size_line n rest : 0 <= n <= int64_max →
  ∃ i, int_ready i = true ∧ fetch_array_size new_array (std_to_string n ++ crlf ++ rest) =
    Ret (true, mkArray i n None (n <=? 0) (reply_rows []), rest).
Proof.
  intros Hn. destruct (dec_line n rest Hn) as (i & Hi & Hr & Hg & _). exists i. split; [done|].
  rewrite fetch_array_size_unsized by done. change (ar_int new_array) with new_integer.
  rewrite Hi. cbn [rbind]. unfold array_sized. rewrite Hr, Hg. cbn [negb].
  rewrite (proj2 (Z.ltb_ge n 0)) by lia. unfold to_uint64, int64_max in *.
  rewrite Z.mod_small by lia. change (ar_ready new_array) with false. by rewrite orb_false_r.
Qed.

Lemma parse_array l : Forall parses l → Z.of_nat (length l) <= int64_max → parses (VArr l).
Proof.
  intros Hl Hlen.
  exists "*"%char, (std_to_string (Z.of_nat (length l)) ++ crlf ++ (l ≫= encode)), (BArray new_array). split; [done|]. split; [done|].
  intros f rest Hf. rewrite !length_app in Hf. rewrite <-!app_assoc.
  destruct f as [|f]; [simpl in Hf; lia|]. rewrite feed_array. change (ar_ready new_array) with false.
  destruct (array_size_line (Z.of_nat (length l)) ((l ≫= encode) ++ rest) ltac:(lia)) as (i & Hi & ->).
  cbv iota. cbn [rbind negb]. set (a := mkArray _ _ _ _ _).
  destruct (decide (l = [])) as [->|Hne].
  - rewrite build_rows_stop by (by right). cbn [rbind]. eexists. split; done.
  - destruct (rows_parse f l (S f) a [] rest) as (a' & -> & Hr & Hrep); try done.
    + lia.
    + assert (∀ l, length l <= length (l ≫= encode))%nat as Hle.
      { clear. induction l as [|v l IH]; [done|].
        change ((v :: l) ≫= encode) with (encode v ++ (l ≫= encode)). rewrite length_app.
        destruct v; simpl; lia. }
      specialize (Hle l). lia.
    + subst a. cbn [ar_ready]. apply Z.leb_gt. destruct l; simpl; done || lia.
    + cbn [rbind]. exists (BArray a'). split_and!; done.
Qed.

Lemma valid_parses v : valid v → parses v.
Proof.
  induction v as [s|s|z|s| | |l IH] using value_ind'; intros Hv.
  - eexists _, _, _. split_and!; [done|done|]. intros f rest _. rewrite <-app_assoc, feed_S_simple.
    rewrite simple_line by done. eexists. split_and!; done.
  - eexists _, _, _. split_and!; [done|done|]. intros f rest _. rewrite <-app_assoc.
    exists (BError (mkError (mkSimple s true (mkReply simple_string [] s None)) (mkReply error [] s None))).
    split_and!; [|done|done].
    assert (error_feed new_error (s ++ crlf ++ rest) = (mkError (mkSimple s true
      (mkReply simple_string [] s None)) (mkReply error [] s None), rest)) as He
      by (unfold error_feed; cbn [new_error m_string_builder]; by rewrite simple_line).
    destruct f; cbn [feed]; by rewrite He.
  - eexists _, _, _. split_and!; [done|done|]. intros f rest _. rewrite <-app_assoc.
    destruct (signed_line z rest Hv) as (i & Hi & Hr & _ & Hrep). exists (BInteger i).
    split_and!; [|done|done]. destruct f; cbn [feed]; by rewrite Hi.
  - eexists _, _, _. split_and!; [done|done|]. intros f rest _. rewrite <-!app_assoc. cbn [valid] in Hv.
    destruct (dec_line (Z.of_nat (length s)) (s ++ crlf ++ rest)) as (i & Hi & Hr & Hg & _);
      [unfold int32_max, int64_max in *; lia|].
    destruct (bulk_text s rest i Hv Hr Hg) as (b & Hb & Hrb & Hrep).
    assert (bulk_feed new_bulk (std_to_string (Z.of_nat (length s)) ++ crlf ++ s ++ crlf ++ rest)
      = Ret (b, rest)) as He.
    { rewrite bulk_feed_unsized by done. change (bs_int new_bulk) with new_integer. rewrite Hi.
      cbn [rbind]. rewrite Hr. cbn [negb]. rewrite Hg, to_int32_id
        by (apply in_int32_spec; unfold int32_max in Hv; lia).
      by rewrite (proj2 (Z.eqb_neq _ (-1))) by lia. }
    exists (BBulk b). split_and!; [|done|done]. destruct f; cbn [feed]; by rewrite He.
  - eexists _, _, _. split_and!; [done|done|]. intros f rest _. rewrite <-app_assoc.
    destruct (signed_line (-1) rest) as (i & Hi & Hr & Hg & _); [by unfold int64_max|].
    change (signed_dec (-1)) with (chars "-1") in Hi.
    assert (bulk_feed new_bulk (chars "-1" ++ crlf ++ rest) =
      Ret (bulk_build_reply (with_size new_bulk i), rest)) as He.
    { rewrite bulk_feed_unsized by done. change (bs_int new_bulk) with new_integer. rewrite Hi.
      cbn [rbind]. by rewrite Hr, Hg. }
    eexists. split_and!; [destruct f; cbn [feed]; by rewrite He|done|].
    unfold with_size. by rewrite Hg.
  - eexists _, _, _. split_and!; [done|done|]. intros f rest Hf. rewrite <-app_assoc.
    destruct (signed_line (-1) rest) as (i & Hi & Hr & Hg & _); [by unfold int64_max|].
    change (signed_dec (-1)) with (chars "-1") in Hi.
    assert (fetch_array_size new_array (chars "-1" ++ crlf ++ rest) =
      Ret (true, mkArray i (to_uint64 (-1)) None true reply_null, rest)) as He.
    { rewrite fetch_array_size_unsized by done. change (ar_int new_array) with new_integer. rewrite Hi.
      cbn [rbind]. unfold array_sized. by rewrite Hr, Hg. }
    destruct f as [|f]; [simpl in Hf; lia|]. rewrite feed_array, He.
    exists (BArray (mkArray i (to_uint64 (-1)) None true reply_null)).
    split_and!; [|done|done]. change (ar_ready new_array) with false. cbn [rbind negb].
    by rewrite build_rows_stop by (by right).
  - destruct Hv as [Hlen Hall]. apply parse_array; [|done].
    clear Hlen. induction IH as [|v l Hv Hl IHl]; [constructor|]. destruct Hall as [H1 H2].
    constructor; auto.
Qed.

(** ** Streams *)
Lemma stream_parse n vs avail :
  Forall valid vs → (length (vs ≫= encode) <= n)%nat →
  build_all n (mkReplyBuilder (vs ≫= encode) None avail false) =
  Fed (mkReplyBuilder [] None (avail ++ (reply_of <$> vs)) false).
Proof.
  intros Hvs. revert n avail. induction Hvs as [|v vs Hv Hvs IH]; intros n avail Hn.
  { destruct n; cbn; by rewrite app_nil_r. }
  destruct (valid_parses v Hv) as (c & body & b & He & Hcb & Hfeed).
  change ((v :: vs) ≫= encode) with (encode v ++ (vs ≫= encode)) in *.
  rewrite He in *. cbn [app] in *. destruct n as [|n]; [simpl in Hn; lia|].
  pose proof (create_builder_good _ _ Hcb) as (Hw & Hr & Hd).
  destruct (Hfeed (S (depth b + length (body ++ (vs ≫= encode)))) (vs ≫= encode))
    as (b' & Hb' & Hr' & Hg); [rewrite length_app; lia|].
  cbn [build_all]. rewrite build_reply_eq by done. unfold reply_start. cbn [rb_buffer rb_builder].
  rewrite Hcb. cbn [rbind]. unfold feed_all. rewrite Hb'. cbn [rbind]. unfold reply_end.
  rewrite Hr', Hg. cbn [rb_available rb_broken].
  rewrite IH by (rewrite length_cons, length_app in Hn; lia). by rewrite <-app_assoc.
Qed.

Lemma rb_feeds_concat packets rb :
  rb_start rb → rb_feed rb [] = Fed rb → rb_feeds rb packets = rb_feed rb (concat packets).
Proof.
  revert rb. induction packets as [|p packets IH]; intros rb Hs Hset; [done|].
  cbn [rb_feeds concat]. rewrite rb_feed_app by done.
  destruct (rb_feed rb p) as [rb1| | |] eqn:Hf; try done.
  apply IH; [by eapply rb_feed_good|].
  pose proof (rb_feed_app rb p [] Hs) as H. by rewrite app_nil_r, Hf in H.
Qed.

Lemma new_reply_builder_start : rb_start new_reply_builder.
Proof. done. Qed.

(** ** Frame: replies already available are inert *)
Definition rb_prepend (l : list reply) (rb : reply_builder) : reply_builder :=
  mkReplyBuilder (rb_buffer rb) (rb_builder rb) (l ++ rb_available rb) (rb_broken rb).
Definition fed_prepend (l : list reply) (r : fed) : fed :=
  match r with
  | Fed rb => Fed (rb_prepend l rb)
  | Thrown rb e => Thrown (rb_prepend l rb) e
  | r => r
  end.

Lemma build_reply_prepend l rb :
  build_reply (rb_prepend l rb) =
  ('(more, rb) <- build_reply rb; Ret (more, rb_prepend l rb)).
Proof.
  unfold build_reply, rb_prepend. cbn [rb_buffer rb_builder rb_available rb_broken].
  destruct (rb_buffer rb) as [|c rest] eqn:Hb; [cbn [rbind]; by rewrite Hb|].
  set (m := match rb_builder rb with Some b => _ | None => _ end).
  destruct m as [[b buf]| | |]; cbn [rbind]; try done.
  destruct (feed_all b buf) as [[b' buf']| | |]; cbn [rbind]; try done.
  destruct (reply_ready b'); cbn [rbind]; [|done].
  cbn [rb_buffer rb_builder rb_available rb_broken]. by rewrite app_assoc.
Qed.

Lemma build_all_prepend n l rb : build_all n (rb_prepend l rb) = fed_prepend l (build_all n rb).
Proof.
  revert rb. induction n as [|n IH]; intros rb; cbn [build_all]; rewrite build_reply_prepend;
    destruct (build_reply rb) as [[[] rb1]| | |]; cbn [rbind]; try done; apply IH.
Qed.

Lemma rb_feed_prepend l rb d : rb_feed (rb_prepend l rb) d = fed_prepend l (rb_feed rb d).
Proof.
  unfold rb_feed. cbn [rb_prepend rb_broken rb_buffer]. destruct (rb_broken rb); [done|].
  change (mkReplyBuilder (rb_buffer rb ++ d) (rb_builder (rb_prepend l rb))
    (rb_available (rb_prepend l rb)) false) with
    (rb_prepend l (mkReplyBuilder (rb_buffer rb ++ d) (rb_builder rb) (rb_available rb) false)).
  apply build_all_prepend.
Qed.

(** The builder between two replies, fed with whole values. *)
Lemma rb_feed_values avail vs :
  Forall valid vs →
  rb_feed (mkReplyBuilder [] None avail false) (vs ≫= encode) =
  Fed (mkReplyBuilder [] None (avail ++ (reply_of <$> vs)) false).
Proof. intros Hvs. unfold rb_feed. cbn [rb_broken rb_buffer app]. by apply stream_parse. Qed.

(** What one packet completes. *)
Lemma feed_part rb d chan rs :
  rb_start rb → rb_feed rb (d ++ chan) = Fed (mkReplyBuilder [] None rs false) →
  ∃ rb1 rs2, rb_feed rb d = Fed rb1 ∧ rs = rb_available rb1 ++ rs2 ∧
    rb_start (mkReplyBuilder (rb_buffer rb1) (rb_builder rb1) [] false) ∧
    rb_feed (mkReplyBuilder (rb_buffer rb1) (rb_builder rb1) [] false) [] =
      Fed (mkReplyBuilder (rb_buffer rb1) (rb_builder rb1) [] false) ∧
    rb_feed (mkReplyBuilder (rb_buffer rb1) (rb_builder rb1) [] false) chan =
      Fed (mkReplyBuilder [] None rs2 false).
Proof.
  intros Hs H. rewrite rb_feed_app in H by done.
  destruct (rb_feed rb d) as [rb1| | |] eqn:Hd; try done.
  pose proof (rb_feed_good _ _ _ Hs Hd) as [Hw Hb].
  assert (rb1 = rb_prepend (rb_available rb1) (mkReplyBuilder (rb_buffer rb1) (rb_builder rb1) [] false))
    as Hrb by (destruct rb1; unfold rb_prepend; cbn in *; rewrite app_nil_r; congruence).
  pose proof (rb_feed_app rb d [] Hs) as Hset. rewrite app_nil_r, Hd, Hrb, rb_feed_prepend in Hset.
  rewrite Hrb, rb_feed_prepend in H.
  destruct (rb_feed (mkReplyBuilder _ _ [] false) chan) as [rb2| | |] eqn:Hc; try done.
  injection H as H1 H2 H3 H4. exists rb1, (rb_available rb2). split_and!; try done.
  - destruct (rb_feed (mkReplyBuilder _ _ [] false) []) as [rb3| | |]; try done.
    injection Hset as E1 E2 E3 E4. f_equal. destruct rb3. cbn in *. f_equal; try done.
    rewrite app_nil_r in E3. apply (f_equal length) in E3. rewrite length_app in E3.
    apply nil_length_inv. lia.
  - rewrite Hc. f_equal. destruct rb2. cbn in *. congruence.
Qed.

(** C24. How TCP cuts the stream into packets does not matter: feeding any
    packets one by one leaves the reply builder in the state, or with the
    exception and the replies built before it, that feeding all their bytes at
    once does (whatever the bytes are). *)
Theorem packets_do_not_matter packets :
  rb_feeds new_reply_builder packets = rb_feed new_reply_builder (concat packets).
Proof. by apply rb_feeds_concat. Qed.

(** Parsing the encoding of any values of the protocol, nested arrays and
    null values included and cut into packets anywhere, builds exactly their
    replies, in order, and consumes every byte. *)
Theorem stream_roundtrip vs packets :
  Forall valid vs → concat packets = vs ≫= encode →
  rb_feeds new_reply_builder packets =
  Fed (mkReplyBuilder [] None (reply_of <$> vs) false).
Proof.
  intros Hvs Hp. rewrite rb_feeds_concat, Hp by done. by apply (rb_feed_values []).
Qed.

Lemma stream_roundtrip_witness :
  rb_feeds new_reply_builder
    [chars "*2" ++ [CR]; [LF] ++ chars ":-7" ++ crlf ++ chars "$"; chars "0" ++ crlf ++ crlf] =
  Fed (mkReplyBuilder [] None (reply_of <$> [VArr [VNum (-7); VBulk []]]) false).
Proof.
  apply (stream_roundtrip [VArr [VNum (-7); VBulk []]]); [|reflexivity].
  constructor; [|constructor]. cbn. split_and!; vm_compute; try discriminate; exact I.
Defined.

(** The reply builder always terminates: from every state that packets,
    [pop_front] or [reset] lead to, one more packet of any bytes makes
    [operator<<] return or throw, within as many rounds as there are bytes, and
    a state it returns is such a state again. *)
Theorem reply_builder_terminates rb d :
  rb_start rb →
  rb_feed rb d ≠ FedNoFuel ∧
  (∀ rb', rb_feed rb d = Fed rb' → rb_start rb' ∧ rb_start (rb_reset rb') ∧
    ∀ rb'', rb_pop_front rb' = Ret rb'' → rb_start rb'').
Proof.
  intros Hs. split.
  - destruct Hs as [Hw Hb]. rewrite rb_feed_build by done. apply build_all_fuel; done.
  - intros rb' Hf. pose proof (rb_feed_good _ _ _ Hs Hf) as Hs'. split; [done|]. split; [done|].
    intros rb'' Hp. unfold rb_pop_front in Hp. destruct (rb_available rb'); [done|]. by simplify_eq.
Qed.

Lemma reply_builder_terminates_witness :
  rb_feed new_reply_builder (chars "*1" ++ crlf ++ chars "*") ≠ FedNoFuel ∧
  (∀ rb', rb_feed new_reply_builder (chars "*1" ++ crlf ++ chars "*") = Fed rb' →
    rb_start rb' ∧ rb_start (rb_reset rb') ∧ ∀ rb'', rb_pop_front rb' = Ret rb'' → rb_start rb'').
Proof. apply (reply_builder_terminates new_reply_builder). split; [exact I|reflexivity]. Defined.

(** ** Commands *)
Definition command_ok (cmd : list Str) : Prop :=
  Z.of_nat (length cmd) <= int64_max ∧ Forall (λ part, Z.of_nat (length part) <= int32_max - 2) cmd.
Definition command_value (cmd : list Str) : value := VArr (VBulk <$> cmd).

Lemma build_command_encode cmd : build_command cmd = encode (command_value cmd).
Proof.
  unfold build_command, command_value. cbn [encode]. rewrite length_fmap.
  change (chars "*") with ["*"%char]. cbn [app]. do 3 f_equal.
  induction cmd as [|p cmd IH]; [done|].
  change (command_part p ++ (cmd ≫= command_part) = encode (VBulk p) ++ ((VBulk <$> cmd) ≫= encode)).
  by rewrite IH.
Qed.

Lemma command_value_valid cmd : command_ok cmd → valid (command_value cmd).
Proof.
  intros [Hn Hp]. cbn. rewrite length_fmap. split; [done|].
  clear Hn. induction Hp; cbn; auto.
Qed.

Lemma commands_bytes cmds : cmds ≫= build_command = (command_value <$> cmds) ≫= encode.
Proof.
  induction cmds as [|c cmds IH]; [done|].
  change (build_command c ++ (cmds ≫= build_command) =
    encode (command_value c) ++ ((command_value <$> cmds) ≫= encode)).
  by rewrite IH, build_command_encode.
Qed.

(** The server sees a prefix of the commands. *)
Lemma wire_prefix wire rest cmds rb :
  Forall command_ok cmds → wire ++ rest = cmds ≫= build_command →
  rb_feed new_reply_builder wire = Fed rb →
  (length (rb_available rb) <= length cmds)%nat.
Proof.
  intros Hok Hw Hf.
  assert (rb_feed new_reply_builder (wire ++ rest) =
    Fed (mkReplyBuilder [] None (reply_of <$> (command_value <$> cmds)) false)) as Hall.
  { rewrite Hw, commands_bytes. apply (rb_feed_values []). apply Forall_fmap.
    eapply Forall_impl; [exact Hok|]. apply command_value_valid. }
  rewrite rb_feed_app, Hf in Hall by done.
  assert (rb = rb_prepend (rb_available rb)
    (mkReplyBuilder (rb_buffer rb) (rb_builder rb) [] (rb_broken rb))) as Hrb
    by (destruct rb; unfold rb_prepend; cbn; by rewrite app_nil_r).
  rewrite Hrb, rb_feed_prepend in Hall.
  destruct (rb_feed _ rest) as [rb2| | |]; cbn in Hall; try done. injection Hall as _ _ Hav _.
  apply (f_equal length) in Hav. rewrite length_app, !length_fmap in Hav. lia.
Qed.

(** A pipelined send buffer is unambiguous: whatever bytes the arguments
    hold (end sequences and type characters included), parsing the
    concatenation of the serialized commands gives back exactly the commands,
    argument by argument. *)
Theorem commands_roundtrip cmds packets :
  Forall command_ok cmds → concat packets = cmds ≫= build_command →
  rb_feeds new_reply_builder packets =
  Fed (mkReplyBuilder [] None
    ((λ cmd, mkReply array ((λ p, mkReply bulk_string [] p None) <$> cmd) [] None) <$> cmds) false).
Proof.
  intros Hc Hp. rewrite rb_feeds_concat, Hp, commands_bytes by done.
  etrans; [apply (rb_feed_values [])|].
  - apply Forall_fmap. eapply Forall_impl; [exact Hc|]. apply command_value_valid.
  - cbn [app]. do 2 f_equal. rewrite <-list_fmap_compose. apply list_fmap_ext. intros _ cmd _.
    unfold compose. cbn. by rewrite <-list_fmap_compose.
Qed.

Lemma commands_roundtrip_witness :
  rb_feeds new_reply_builder [build_command [chars "SET"; crlf; chars "$9"]] =
  Fed (mkReplyBuilder [] None
    ((λ cmd, mkReply array ((λ p, mkReply bulk_string [] p None) <$> cmd) [] None)
       <$> [[chars "SET"; crlf; chars "$9"]]) false).
Proof.
  apply (commands_roundtrip [[chars "SET"; crlf; chars "$9"]]); [|reflexivity].
  apply Forall_cons_2; [|apply Forall_nil_2]. split; [vm_compute; discriminate|].
  repeat (apply Forall_cons_2; [vm_compute; discriminate|]). apply Forall_nil_2.
Defined.

(** The smallest 64-bit number is a legal integer reply, but its digits
    overflow [m_nbr] before the sign is applied. *)
Example int64_min_overflows :
  rb_feed new_reply_builder (chars ":-9223372036854775808" ++ crlf) = FedUndef.
Proof. vm_compute. reflexivity. Qed.
(** A bulk size of -2 passes the length test and indexes before the buffer. *)
Example bulk_size_minus_two :
  rb_feed new_reply_builder (chars "$-2" ++ crlf) = FedUndef.
Proof. vm_compute. reflexivity. Qed.
