(* ===== verification/RedisConn.v ===== *)
(** * [cpp_redis]: the TCP client and the Redis connection

    [tacopie/network/tcp_client.cpp] (reached through the pass-through
    [network/tcp_client.cpp]) and [network/redis_connection.cpp], without the
    client above them.  What the socket calls return is an argument: the bytes
    [recv] read or its failure, the number of bytes [send] took or its failure.
    Calls into the layer above are results for that layer to act on. *)

From S2P Require Import Prelude CppBase.
From S2P Require Import RedisReply RedisResp.

(** ** [tacopie::tcp_client]

    Every read request of the connection has the same callback, so the queue
    of read requests is a number; a write request is its bytes.  [tcp_wire]
    records the bytes the socket accepted since the connection was made. *)
Record tcp_client := mkTcp {
  m_is_connected : bool;
  m_read_requests : nat;
  m_write_requests : list Str;
  tcp_wire : Str
}.
Definition new_tcp : tcp_client := mkTcp false 0 [] [].

(** [connect]: false is the exception; [up] is whether the socket connects. *)
Definition tcp_connect (up : bool) (t : tcp_client) : bool * tcp_client :=
  if m_is_connected t then (false, t)
  else if up then (true, mkTcp true (m_read_requests t) (m_write_requests t) [])
  else (false, t).

Definition tcp_disconnect (t : tcp_client) : tcp_client :=
  if m_is_connected t then mkTcp false 0 [] (tcp_wire t) else t.

Definition async_read (t : tcp_client) : bool * tcp_client :=
  if m_is_connected t
  then (true, mkTcp true (S (m_read_requests t)) (m_write_requests t) (tcp_wire t))
  else (false, t).
Definition async_write (buffer : Str) (t : tcp_client) : bool * tcp_client :=
  if m_is_connected t
  then (true, mkTcp true (m_read_requests t) (m_write_requests t ++ [buffer]) (tcp_wire t))
  else (false, t).

(** [process_read] with a pending request, [recv]'s result given. *)
Definition process_read (t : tcp_client) : tcp_client :=
  mkTcp (m_is_connected t) (pred (m_read_requests t)) (m_write_requests t) (tcp_wire t).

(** [on_write_available]: the first request is handed to the socket, which
    takes some of its bytes; the request is popped whatever it took.  The
    result is whether the disconnection handler is called. *)
Definition on_write_available (sent : option nat) (t : tcp_client) : bool * tcp_client :=
  match m_write_requests t with
  | [] => (false, t)
  | buffer :: rest =>
      match sent with
      | Some n => (false, mkTcp (m_is_connected t) (m_read_requests t) rest
                     (tcp_wire t ++ take n buffer))
      | None => (true, tcp_disconnect (mkTcp (m_is_connected t) (m_read_requests t) rest (tcp_wire t)))
      end
  end.

(** ** [redis_connection] *)
Record redis_connection := mkConn {
  cn_tcp : tcp_client;
  cn_buffer : Str;
  cn_builder : reply_builder;
  (** [m_reply_callback] and [m_disconnection_handler] are set together. *)
  cn_handlers : bool
}.
Definition new_connection : redis_connection := mkConn new_tcp [] new_reply_builder false.

Definition cn_is_connected (c : redis_connection) : bool := m_is_connected (cn_tcp c).

(** [connect]; false is the [redis_error]. *)
Definition cn_connect (up : bool) (c : redis_connection) : bool * redis_connection :=
  let '(ok, t) := tcp_connect up (cn_tcp c) in
  if ok then
    let '(ok, t) := async_read t in
    (ok, mkConn t (cn_buffer c) (cn_builder c) (ok || cn_handlers c))
  else (false, mkConn t (cn_buffer c) (cn_builder c) (cn_handlers c)).

Definition cn_disconnect (c : redis_connection) : redis_connection :=
  mkConn (tcp_disconnect (cn_tcp c)) [] (rb_reset (cn_builder c)) (cn_handlers c).

Definition cn_send (redis_cmd : list Str) (c : redis_connection) : redis_connection :=
  mkConn (cn_tcp c) (cn_buffer c ++ build_command redis_cmd) (cn_builder c) (cn_handlers c).

(** [commit]: the buffer is moved out before the write is tried. *)
Definition cn_commit (c : redis_connection) : bool * redis_connection :=
  let '(ok, t) := async_write (cn_buffer c) (cn_tcp c) in
  (ok, mkConn t [] (cn_builder c) (cn_handlers c)).

(** [tcp_client_receive_handler] up to the calls of the reply callback: the
    bytes are fed to the builder.  [inl] is the list of replies to hand over
    one by one, with the builder that is left; [inr] is the exception, after
    which only the disconnection handler is called. *)
Definition cn_receive (data : Str) (c : redis_connection)
    : option (list reply * redis_connection + redis_connection) :=
  match rb_feed (cn_builder c) data with
  | Fed rb =>
      Some (inl (rb_available rb,
        mkConn (cn_tcp c) (cn_buffer c) (mkReplyBuilder (rb_buffer rb) (rb_builder rb) [] false)
          (cn_handlers c)))
  | Thrown rb _ => Some (inr (mkConn (cn_tcp c) (cn_buffer c) rb (cn_handlers c)))
  | FedUndef | FedNoFuel => None
  end.
(** Its end: the next read is requested, a failure is ignored. *)
Definition cn_read_again (c : redis_connection) : redis_connection :=
  mkConn (async_read (cn_tcp c)).2 (cn_buffer c) (cn_builder c) (cn_handlers c).

(** [tcp_client_disconnection_handler] before the handler is called. *)
Definition cn_dropped (c : redis_connection) : redis_connection :=
  mkConn (cn_tcp c) [] (rb_reset (cn_builder c)) (cn_handlers c).
