(* ===== verification/RedisSentinel.v ===== *)
(** * [cpp_redis::sentinel]: the queue of callbacks and the master lookup

    [core/sentinel.cpp] over the connection of RedisConn.  The client and the
    subscriber ask a sentinel for the address of the master before they
    (re)connect; the answer they see is a [lookup_answer].  [sync_commit]
    blocks its thread while the I/O thread runs: what that thread does
    meanwhile is a list of I/O events. *)

From S2P Require Import Prelude CppBase.
From S2P Require Import RedisReply RedisResp RedisConn.
#[local] Open Scope res_scope.

(** ** [std::stoi(str, nullptr, 10)] *)
Definition is_space (c : ascii) : bool :=
  let n := nat_of_ascii c in Nat.eqb n 32 || (Nat.leb 9 n && Nat.leb n 13).
Fixpoint skip_spaces (s : Str) : Str :=
  match s with c :: t => if is_space c then skip_spaces t else s | [] => [] end.
(** The value of the leading digits, if there is one. *)
Fixpoint leading_digits (acc : option Z) (s : Str) : option Z :=
  match s with
  | c :: t =>
      match digit_of c with
      | Some d => leading_digits (Some (10 * default 0 acc + d)) t
      | None => acc
      end
  | [] => acc
  end.
Definition stoi (s : Str) : res Z :=
  let '(neg, s) := match skip_spaces s with
    | c :: t => if bool_decide (c = "-"%char) then (true, t)
                else if bool_decide (c = "+"%char) then (false, t) else (false, c :: t)
    | [] => (false, [])
    end in
  match leading_digits None s with
  | None => Throw "invalid_argument: stoi"
  | Some n =>
      let z := if neg : bool then - n else n in
      if in_int32 z then Ret z else Throw "out_of_range: stoi"
  end.

(** ** State *)

(** [class sentinel_def] *)
Record sentinel_def := mkDef { def_host : Str; def_port : Z; def_timeout_ms : Z }.

(** The callback of the lookup writes its caller's [host] and [port], here
    [s_host] and [s_port]. *)
Inductive s_callback := SUser (n : nat) | SLookup.

Record sentinel := mkSentinel {
  s_client : redis_connection;
  m_sentinels : list sentinel_def;
  m_callbacks : list (option s_callback);
  s_callbacks_running : Z;
  m_disconnect_handler : bool;
  s_host : Str;
  s_port : Z;
  s_events : list (nat * reply)
}.
Definition new_sentinel : sentinel := mkSentinel new_connection [] [] 0 false [] 0 [].

Definition s_set_client (s : sentinel) (k : redis_connection) : sentinel :=
  mkSentinel k (m_sentinels s) (m_callbacks s) (s_callbacks_running s) (m_disconnect_handler s)
    (s_host s) (s_port s) (s_events s).
Definition s_set_callbacks (s : sentinel) (q : list (option s_callback)) : sentinel :=
  mkSentinel (s_client s) (m_sentinels s) q (s_callbacks_running s) (m_disconnect_handler s)
    (s_host s) (s_port s) (s_events s).
Definition s_set_running (s : sentinel) (n : Z) : sentinel :=
  mkSentinel (s_client s) (m_sentinels s) (m_callbacks s) (to_uint32 n) (m_disconnect_handler s)
    (s_host s) (s_port s) (s_events s).
Definition s_set_handler (s : sentinel) (h : bool) : sentinel :=
  mkSentinel (s_client s) (m_sentinels s) (m_callbacks s) (s_callbacks_running s) h
    (s_host s) (s_port s) (s_events s).
Definition s_set_master (s : sentinel) (host : Str) (port : Z) : sentinel :=
  mkSentinel (s_client s) (m_sentinels s) (m_callbacks s) (s_callbacks_running s)
    (m_disconnect_handler s) host port (s_events s).

Definition add_sentinel (host : Str) (port timeout_ms : Z) (s : sentinel) : sentinel :=
  mkSentinel (s_client s) (m_sentinels s ++ [mkDef host port timeout_ms]) (m_callbacks s)
    (s_callbacks_running s) (m_disconnect_handler s) (s_host s) (s_port s) (s_events s).
Definition clear_sentinels (s : sentinel) : sentinel :=
  mkSentinel (s_client s) [] (m_callbacks s) (s_callbacks_running s) (m_disconnect_handler s)
    (s_host s) (s_port s) (s_events s).
Definition s_is_connected (s : sentinel) : bool := cn_is_connected (s_client s).
Definition s_disconnect (s : sentinel) : sentinel := s_set_client s (cn_disconnect (s_client s)).

(** ** Sending and committing *)
Definition s_send (redis_cmd : list Str) (k : option s_callback) (s : sentinel) : sentinel :=
  s_set_callbacks (s_set_client s (cn_send redis_cmd (s_client s))) (m_callbacks s ++ [k]).
Definition s_clear_callbacks (s : sentinel) : sentinel := s_set_callbacks s [].
(** False is the rethrown [redis_error]. *)
Definition s_try_commit (s : sentinel) : bool * sentinel :=
  let '(ok, k) := cn_commit (s_client s) in
  let s := s_set_client s k in
  if ok then (true, s) else (false, s_clear_callbacks s).

(** The commands of the sentinel protocol. *)
Definition s_ping := s_send [chars "PING"].
Definition s_masters := s_send [chars "SENTINEL"; chars "MASTERS"].
Definition s_master (name : Str) := s_send [chars "SENTINEL"; chars "MASTER"; name].
Definition s_slaves (name : Str) := s_send [chars "SENTINEL"; chars "SLAVES"; name].
Definition s_sentinels (name : Str) := s_send [chars "SENTINEL"; chars "SENTINELS"; name].
Definition s_ckquorum (name : Str) := s_send [chars "SENTINEL"; chars "CKQUORUM"; name].
Definition s_failover (name : Str) := s_send [chars "SENTINEL"; chars "FAILOVER"; name].
Definition s_reset (pattern : Str) := s_send [chars "SENTINEL"; chars "RESET"; pattern].
Definition s_flushconfig := s_send [chars "SENTINEL"; chars "FLUSHCONFIG"].
Definition s_monitor (name ip : Str) (port quorum : Z) :=
  s_send [chars "SENTINEL"; chars "MONITOR"; name; ip; std_to_string port; std_to_string quorum].
Definition s_remove (name : Str) := s_send [chars "SENTINEL"; chars "REMOVE"; name].
Definition s_set (name option value : Str) :=
  s_send [chars "SENTINEL"; chars "SET"; name; option; value].

(** ** Receiving *)

(** The lambda of [get_master_addr_by_name]; indexing past the end of the
    array is undefined. *)
Definition on_master_reply (r : reply) (s : sentinel) : res sentinel :=
  if is_array r then
    arr <- as_array r;
    match arr with
    | [] => Undef
    | a0 :: arr =>
        host <- as_string a0;
        match arr with
        | [] => Undef
        | a1 :: _ => p <- as_string a1; n <- stoi p; Ret (s_set_master s host (to_uint64 n))
        end
    end
  else Ret s.

Definition s_call (k : option s_callback) (r : reply) (s : sentinel) : res sentinel :=
  match k with
  | None => Ret s
  | Some (SUser n) =>
      Ret (mkSentinel (s_client s) (m_sentinels s) (m_callbacks s) (s_callbacks_running s)
        (m_disconnect_handler s) (s_host s) (s_port s) (s_events s ++ [(n, r)]))
  | Some SLookup => on_master_reply r s
  end.

Definition s_receive_handler (r : reply) (s : sentinel) : res sentinel :=
  let s := s_set_running s (s_callbacks_running s + 1) in
  let '(k, s) := match m_callbacks s with
    | [] => (None, s)
    | k :: rest => (k, s_set_callbacks s rest)
    end in
  s <- s_call k r s;
  Ret (s_set_running s (s_callbacks_running s - 1)).

Fixpoint s_deliver (rs : list reply) (s : sentinel) : res sentinel :=
  match rs with
  | [] => Ret s
  | r :: rs => s <- s_receive_handler r s; s_deliver rs s
  end.

(** [connection_disconnect_handler]; calling the user's handler is an event of
    the layer above. *)
Definition s_disconnect_handler (s : sentinel) : sentinel := s_clear_callbacks s.

(** What the I/O thread does: a read with its data or the end of the stream, a
    write with the bytes taken or its failure. *)
Inductive io := IORead (data : option Str) | IOWrite (sent : option nat).

Definition s_dropped (t : tcp_client) (s : sentinel) : sentinel :=
  let k := s_client s in
  let s := s_set_client s (cn_dropped (mkConn t (cn_buffer k) (cn_builder k) (cn_handlers k))) in
  if cn_handlers k then s_disconnect_handler s else s.

Definition s_io (e : io) (s : sentinel) : res sentinel :=
  let k := s_client s in
  match e with
  | IORead data =>
      match m_read_requests (cn_tcp k) with
      | O => Ret s
      | S _ =>
          let t := process_read (cn_tcp k) in
          match data with
          | None => Ret (s_dropped (tcp_disconnect t) s)
          | Some data =>
              match cn_receive data (mkConn t (cn_buffer k) (cn_builder k) (cn_handlers k)) with
              | None => Undef
              | Some (inl (rs, k)) =>
                  let s := s_set_client s k in
                  s <- (if cn_handlers k then s_deliver rs s else Ret s);
                  Ret (s_set_client s (cn_read_again (s_client s)))
              | Some (inr k) =>
                  let s := s_set_client s k in
                  Ret (if cn_handlers k then s_disconnect_handler s else s)
              end
          end
      end
  | IOWrite sent =>
      let '(broken, t) := on_write_available sent (cn_tcp k) in
      if broken then Ret (s_dropped t s)
      else Ret (s_set_client s (mkConn t (cn_buffer k) (cn_builder k) (cn_handlers k)))
  end.

(** ** Connecting *)

(** The loop of [connect_sentinel] over the sentinels; [ups] says which of the
    sockets connect.  The result is [not_connected]. *)
Fixpoint connect_loop (defs : list sentinel_def) (ups : list bool) (s : sentinel) : bool * sentinel :=
  match defs with
  | [] => (true, s)
  | _ :: defs =>
      let s := s_set_client s (cn_connect (default false (head ups)) (s_client s)).2 in
      if s_is_connected s then (false, s) else connect_loop defs (tail ups) (s_disconnect s)
  end.
(** False is the [redis_error]. *)
Definition connect_sentinel (has_handler : bool) (ups : list bool) (s : sentinel) : bool * sentinel :=
  match m_sentinels s with
  | [] => (false, s)
  | defs =>
      let '(not_connected, s) := connect_loop defs ups s in
      if not_connected : bool then (false, s) else (true, s_set_handler s has_handler)
  end.
Definition s_connect (has_handler up : bool) (s : sentinel) : bool * sentinel :=
  let '(ok, k) := cn_connect up (s_client s) in
  let s := s_set_client s k in
  if ok : bool then (true, s_set_handler s has_handler) else (false, s).

(** ** [sync_commit] and the lookup *)

(** How a blocking call ends: it returns, it throws, it still waits when the
    events are used up, or the I/O thread died of an exception or of undefined
    behaviour. *)
Inductive waited := WReturned | WThrew | WBlocked | WCrashed | WUndef.

Fixpoint wait_callbacks (es : list io) (s : sentinel) : waited * sentinel :=
  if (s_callbacks_running s =? 0) && bool_decide (m_callbacks s = []) then (WReturned, s)
  else
    match es with
    | [] => (WBlocked, s)
    | e :: es =>
        match s_io e s with
        | Ret s => wait_callbacks es s
        | Throw _ => (WCrashed, s)
        | Undef | NoFuel => (WUndef, s)
        end
    end.
Definition s_sync_commit (es : list io) (s : sentinel) : waited * sentinel :=
  let '(ok, s) := s_try_commit s in
  if ok : bool then wait_callbacks es s else (WThrew, s).

#[global] Instance s_callback_eq_dec : EqDecision s_callback.
Proof. solve_decision. Defined.

(** [get_master_addr_by_name]: how it ends, its result, and the sentinel with
    the caller's [host] and [port]. *)
Definition get_master_addr_by_name (name : Str) (autoconnect : bool) (ups : list bool)
    (es : list io) (s : sentinel) : waited * bool * sentinel :=
  let s := s_set_master s [] 0 in
  if autoconnect && bool_decide (length (m_sentinels s) = 0%nat) then (WThrew, false, s)
  else if negb autoconnect && negb (s_is_connected s) then (WThrew, false, s)
  else
    let s := if autoconnect then (connect_sentinel false ups s).2 else s in
    if autoconnect && negb (s_is_connected s) then (WReturned, false, s)
    else
      let s := s_send [chars "SENTINEL"; chars "get-master-addr-by-name"; name] (Some SLookup) s in
      match s_sync_commit es s with
      | (WReturned, s) =>
          let s := if autoconnect then s_disconnect s else s in
          (WReturned, negb (s_port s =? 0), s)
      | (w, s) => (w, false, s)
      end.

(** What the lookup tells its caller, when it ends: no master is found when the
    port is zero, and nothing but zeros is written before an exception. *)
Inductive lookup_answer := Master (host : Str) (port : Z) | NoMaster (host : Str) | LookupThrows.
Definition answer_of (l : waited * bool * sentinel) : option lookup_answer :=
  match l with
  | (WReturned, true, s) => Some (Master (s_host s) (s_port s))
  | (WReturned, false, s) => Some (NoMaster (s_host s))
  | (WThrew, _, _) => Some LookupThrows
  | _ => None
  end.

(** ** The lookup, end to end *)

(** Not connected, nothing buffered, nobody waiting. *)
Definition idle (s : sentinel) : Prop :=
  (∃ wire h, s_client s = mkConn (mkTcp false 0 [] wire) [] new_reply_builder h) ∧
  m_callbacks s = [] ∧ s_callbacks_running s = 0.

(** The commands a server finds in what was written to it. *)
Definition request_bytes (name : Str) : Str :=
  build_command [chars "SENTINEL"; chars "get-master-addr-by-name"; name].

(** Events of a connection that lasts. *)
Definition lasting (e : io) : Prop :=
  match e with IORead (Some _) | IOWrite (Some _) => True | _ => False end.
Definition data_read (es : list io) : Str :=
  es ≫= λ e, match e with IORead (Some d) => d | _ => [] end.

Definition found (m : option (Str * Z)) (s : sentinel) : sentinel :=
  match m with Some (h, p) => s_set_master s h p | None => s end.

(** Waiting for the answer to the one request. *)
Definition awaiting (s : sentinel) : Prop :=
  cn_is_connected (s_client s) = true ∧ cn_handlers (s_client s) = true ∧
  (0 < m_read_requests (cn_tcp (s_client s)))%nat ∧
  rb_start (cn_builder (s_client s)) ∧ rb_available (cn_builder (s_client s)) = [] ∧
  rb_feed (cn_builder (s_client s)) [] = Fed (cn_builder (s_client s)) ∧
  m_callbacks s = [Some SLookup] ∧ s_callbacks_running s = 0.

(** The wait is over: the address is written, nothing is under way. *)
Definition answered (m : option (Str * Z)) (s0 s : sentinel) : Prop :=
  cn_is_connected (s_client s) = true ∧ rb_available (cn_builder (s_client s)) = [] ∧
  m_callbacks s = [] ∧ s_callbacks_running s = 0 ∧ m_sentinels s = m_sentinels s0 ∧
  s_host s = s_host (found m s0) ∧ s_port s = s_port (found m s0).

Lemma wait_done es s : m_callbacks s = [] → s_callbacks_running s = 0 →
  wait_callbacks es s = (WReturned, s).
Proof. intros H1 H2. destruct es; cbn [wait_callbacks]; rewrite H1, H2; done. Qed.

Lemma awaiting_write n s : awaiting s →
  ∃ s', s_io (IOWrite (Some n)) s = Ret s' ∧ awaiting s' ∧ cn_builder (s_client s') = cn_builder (s_client s) ∧
    m_sentinels s' = m_sentinels s ∧ s_host s' = s_host s ∧ s_port s' = s_port s.
Proof.
  intros (Hc & Hh & Hr & Hs & Ha & Hf & Hk & Hn). cbn [s_io]. unfold on_write_available.
  destruct (m_write_requests _); eexists; (split; [done|]); (split; [|done]); split_and!; done.
Qed.

Lemma awaiting_read d chan r m s :
  awaiting s → (∀ s, on_master_reply r s = Ret (found m s)) →
  rb_feed (cn_builder (s_client s)) (d ++ chan) = Fed (mkReplyBuilder [] None [r] false) →
  ∃ s', s_io (IORead (Some d)) s = Ret s' ∧
    (answered m s s' ∨
     awaiting s' ∧ rb_feed (cn_builder (s_client s')) chan = Fed (mkReplyBuilder [] None [r] false) ∧
     m_sentinels s' = m_sentinels s ∧ s_host s' = s_host s ∧ s_port s' = s_port s).
Proof.
  intros (Hc & Hh & Hr & Hs & Ha & Hf & Hk & Hn) Hm Hd.
  destruct (feed_part _ _ _ _ Hs Hd) as (rb1 & rs2 & Hd1 & Hrs & Hs1 & Hst1 & Hf1).
  cbn [s_io]. destruct (m_read_requests _) as [|n] eqn:Hrr; [lia|].
  unfold cn_receive. cbn [cn_builder]. rewrite Hd1. cbn [cn_handlers]. rewrite Hh.
  unfold cn_is_connected in Hc.
  destruct (rb_available rb1) as [|r1 [|r2 rs]] eqn:Hav.
  - cbn [s_deliver rbind]. eexists. split; [done|]. right.
    cbn [app] in Hrs. rewrite <-Hrs in Hf1.
    unfold awaiting, cn_is_connected, cn_read_again, process_read, async_read.
    cbn [s_set_client s_client cn_tcp m_is_connected cn_builder cn_handlers m_callbacks s_callbacks_running
         m_sentinels s_host s_port]. rewrite Hc.
    cbn [snd m_is_connected m_read_requests rb_available]. split_and!; try done. lia.
  - cbn [app] in Hrs. injection Hrs as <- Hrs2. cbn [s_deliver].
    unfold s_receive_handler. cbn [m_callbacks s_set_client s_set_running s_callbacks_running].
    rewrite Hk, Hn. cbn [s_call]. rewrite Hm. cbn [rbind].
    eexists. split; [done|]. left.
    unfold answered, cn_is_connected, cn_read_again, process_read, async_read.
    destruct m as [[h p]|];
      cbn [found s_set_master s_set_running s_set_callbacks s_set_client s_client cn_tcp m_is_connected
           cn_builder m_callbacks s_callbacks_running m_sentinels s_host s_port];
      rewrite Hc; cbn [snd m_is_connected rb_available]; split_and!; done.
  - apply (f_equal length) in Hrs. rewrite length_app in Hrs. simpl in Hrs. lia.
Qed.

Lemma wait_answered es r m s :
  awaiting s → Forall lasting es → (∀ s, on_master_reply r s = Ret (found m s)) →
  rb_feed (cn_builder (s_client s)) (data_read es) = Fed (mkReplyBuilder [] None [r] false) →
  ∃ s', wait_callbacks es s = (WReturned, s') ∧ answered m s s'.
Proof.
  intros Hs Hl Hm. revert s Hs. induction Hl as [|e es He Hl IH]; intros s Hs Hd.
  { destruct Hs as (_ & _ & _ & _ & Ha & Hf & _). cbn [data_read mbind list_bind] in Hd.
    rewrite Hf in Hd. injection Hd as Hd. by rewrite Hd in Ha. }
  assert (wait_callbacks (e :: es) s = match s_io e s with
    | Ret s => wait_callbacks es s | Throw _ => (WCrashed, s) | _ => (WUndef, s) end) as ->.
  { cbn [wait_callbacks]. destruct Hs as (_ & _ & _ & _ & _ & _ & -> & ->). done. }
  destruct e as [[d|]|[n|]]; try done.
  - unfold data_read in Hd. rewrite bind_cons in Hd. fold (data_read es) in Hd.
    destruct (awaiting_read _ _ _ _ _ Hs Hm Hd) as (s1 & -> & [Ha|(Ha & Hf & E1 & E2 & E3)]).
    + exists s1. split; [|done]. apply wait_done; apply Ha.
    + destruct (IH _ Ha Hf) as (s' & -> & A1 & A2 & A3 & A4 & A5 & A6 & A7).
      exists s'. split; [done|]. unfold answered. rewrite A5, A6, A7.
      destruct m as [[h p]|]; cbn [found s_set_master s_host s_port]; split_and!; done.
  - destruct (awaiting_write n _ Hs) as (s1 & -> & Ha & Hb & E1 & E2 & E3).
    destruct (IH _ Ha) as (s' & -> & A1 & A2 & A3 & A4 & A5 & A6 & A7); [by rewrite Hb|].
    exists s'. split; [done|]. unfold answered. rewrite A5, A6, A7.
    destruct m as [[h p]|]; cbn [found s_set_master s_host s_port]; split_and!; done.
Qed.

(** The round robin stops at the first sentinel that is up. *)
Lemma connect_loop_spec defs ups s :
  idle s →
  let up := existsb id (take (length defs) ups) in
  (connect_loop defs ups s).1 = negb up ∧
  (if up then s_client (connect_loop defs ups s).2 = mkConn (mkTcp true 1 [] []) [] new_reply_builder true
   else idle (connect_loop defs ups s).2) ∧
  m_callbacks (connect_loop defs ups s).2 = [] ∧ s_callbacks_running (connect_loop defs ups s).2 = 0 ∧
  m_sentinels (connect_loop defs ups s).2 = m_sentinels s ∧
  s_host (connect_loop defs ups s).2 = s_host s ∧ s_port (connect_loop defs ups s).2 = s_port s.
Proof.
  cbn zeta. revert ups s. induction defs as [|d defs IH]; intros ups s Hi.
  { split_and!; try done; apply Hi. }
  cbn [connect_loop length]. destruct Hi as ((wire & h & Hk) & Hq & Hn). rewrite Hk.
  destruct ups as [|[] ups]; cbn [head default from_option cn_connect tcp_connect cn_tcp m_is_connected tail].
  - destruct (IH [] (s_disconnect (s_set_client s (mkConn (mkTcp false 0 [] wire) [] new_reply_builder h))))
      as (H1 & H2 & H3 & H4 & H5 & H6 & H7); [split_and!; try done; by eexists _, _|].
    rewrite take_nil in *. cbn. split_and!; done.
  - cbn. split_and!; done.
  - destruct (IH ups (s_disconnect (s_set_client s (mkConn (mkTcp false 0 [] wire) [] new_reply_builder h))))
      as (H1 & H2 & H3 & H4 & H5 & H6 & H7); [split_and!; try done; by eexists _, _|].
    cbn. split_and!; done.
Qed.

(** *** Ports as text *)
Lemma leading_digits_snoc cs c d acc :
  Forall (λ c, ∃ d, digit_of c = Some d) cs → digit_of c = Some d →
  leading_digits acc (cs ++ [c]) = Some (10 * default 0 (leading_digits acc cs) + d).
Proof.
  intros Hcs Hc. revert acc. induction Hcs as [|c0 cs [d0 H0] Hcs IH]; intros acc; cbn [app leading_digits].
  - by rewrite Hc.
  - by rewrite H0, IH.
Qed.

Lemma leading_digits_dec f n : 0 <= n < 10 ^ Z.of_nat f → (0 < f)%nat →
  leading_digits None (to_dec f n) = Some n.
Proof.
  revert n. induction f as [|f IH]; intros n Hn Hf; [lia|]. cbn [to_dec].
  destruct (Z.ltb_spec n 10) as [Hlt|Hge].
  - cbn [leading_digits]. by rewrite digit_of_dchar by lia.
  - rewrite Nat2Z.inj_succ, Z.pow_succ_r in Hn by lia.
    assert (0 <= n / 10 < 10 ^ Z.of_nat f) as Hd
      by (split; [apply Z.div_pos; lia|apply Z.div_lt_upper_bound; lia]).
    assert (0 < f)%nat as Hf' by (destruct f; [simpl in Hn; lia|lia]).
    rewrite (leading_digits_snoc _ _ (n mod 10)).
    + rewrite IH by done. cbn [default]. f_equal. simpl. rewrite (Z.div_mod n 10) at 3 by lia. lia.
    + by apply to_dec_digits.
    + apply digit_of_dchar, Z.mod_pos_bound. lia.
Qed.

Lemma digit_plain c d : digit_of c = Some d → is_space c = false ∧ c ≠ "-"%char ∧ c ≠ "+"%char.
Proof.
  unfold digit_of, is_space. destruct (_ && _) eqn:H; [|done]. intros _.
  split_and!; [|by intros ->..].
  apply orb_false_iff. split; [apply Nat.eqb_neq; lia|]. apply andb_false_iff. right.
  apply Nat.leb_gt. lia.
Qed.

Lemma stoi_to_string n : 0 <= n <= int32_max → stoi (std_to_string n) = Ret n.
Proof.
  unfold int32_max, std_to_string. intros Hn.
  assert (0 <= n < 10 ^ Z.of_nat 20) as Hb by (change (10 ^ Z.of_nat 20) with 100000000000000000000; lia).
  pose proof (leading_digits_dec 20 n Hb ltac:(lia)) as Hl.
  pose proof (to_dec_digits 20 n Hb) as Hd. revert Hl Hd.
  generalize (to_dec 20 n) as cs. intros [|c cs]; [done|]. intros Hl Hd.
  inversion Hd as [|? ? [d Hc] Hcs]; subst. destruct (digit_plain _ _ Hc) as (H1 & H2 & H3).
  unfold stoi. cbn [skip_spaces]. rewrite H1, !bool_decide_false by done. rewrite Hl.
  assert (in_int32 n = true) as -> by (apply in_int32_spec; lia). done.
Qed.

(** What a sentinel says about a master: its address, or that it is unknown. *)
Inductive says : value → option (Str * Z) → Prop :=
  | says_address host port : 0 < port <= 65535 → Z.of_nat (length host) <= int32_max - 2 →
      says (VArr [VBulk host; VBulk (std_to_string port)]) (Some (host, port))
  | says_nil : says VNilArr None
  | says_error e : find_end e = None → says (VErr e) None.

Lemma std_to_string_short n : 0 <= n → (length (std_to_string n) <= 20)%nat.
Proof.
  unfold std_to_string. generalize 20%nat as f. intros f _. revert n. induction f as [|f IH]; intros n; [done|].
  cbn [to_dec]. destruct (n <? 10); [simpl; lia|]. rewrite length_app. specialize (IH (n / 10)). simpl. lia.
Qed.

Lemma says_valid v m : says v m → valid v.
Proof.
  destruct 1 as [host port Hp Hh| |e He]; cbn [valid foldr]; [|done..].
  pose proof (std_to_string_short port ltac:(lia)). unfold int32_max, int64_max in *.
  split_and!; [simpl; lia|lia|lia|done].
Qed.

Lemma says_found v m s : says v m → on_master_reply (reply_of v) s = Ret (found m s).
Proof.
  destruct 1 as [host port Hp Hh| |e He]; [|done..].
  change (on_master_reply _ s) with (n <- stoi (std_to_string port); Ret (s_set_master s host (to_uint64 n))).
  rewrite stoi_to_string by (unfold int32_max; lia). cbn [rbind found].
  unfold to_uint64. by rewrite Z.mod_small by lia.
Qed.

(** The lookup of the master, from the request to the answer: from an idle
    sentinel, whatever parts of the answer each read brings and however writes
    fall between them, [get_master_addr_by_name] with automatic connection
    returns; when one of the sentinels is up it has the address that sentinel
    says (none for an unknown master or an error), and none is found when all
    are down.  In every case the sentinel is idle again and keeps its list, so
    the next lookup starts from the same place. *)
Theorem master_lookup s name ups es v m :
  idle s → m_sentinels s ≠ [] → says v m → Forall lasting es → data_read es = encode v →
  ∃ s', get_master_addr_by_name name true ups es s =
      (WReturned, existsb id (take (length (m_sentinels s)) ups) && bool_decide (is_Some m), s') ∧
    idle s' ∧ m_sentinels s' = m_sentinels s ∧
    (s_host s', s_port s') =
      (if existsb id (take (length (m_sentinels s)) ups) then default ([], 0) m else ([], 0)).
Proof.
  intros Hi Hne Hv Hl Hd. unfold get_master_addr_by_name.
  set (s0 := s_set_master s [] 0).
  assert (idle s0) as Hi0 by done.
  rewrite bool_decide_false by (subst s0; cbn; destruct (m_sentinels s); done). cbn [andb negb].
  unfold connect_sentinel. change (m_sentinels s0) with (m_sentinels s).
  destruct (m_sentinels s) as [|d0 ds] eqn:Hdefs; [done|]. rewrite <-Hdefs.
  destruct (connect_loop_spec (m_sentinels s) ups s0 Hi0) as (H1 & H2 & H3 & H4 & H5 & H6 & H7).
  destruct (connect_loop (m_sentinels s) ups s0) as [nc s1]. cbn [fst snd] in *. rewrite H1.
  destruct (existsb id (take (length (m_sentinels s)) ups)) eqn:Hup; cbn [negb snd andb].
  2:{ assert (s_is_connected s1 = false) as ->.
      { destruct H2 as ((w & h & Hk) & _). unfold s_is_connected. by rewrite Hk. }
      exists s1. split_and!; try done. by rewrite H6, H7. }
  unfold s_is_connected. cbn [s_set_handler s_client]. rewrite H2. cbn [cn_is_connected cn_tcp m_is_connected negb].
  unfold s_sync_commit, s_try_commit. set (s2 := s_send _ _ _).
  assert (∃ w b, cn_commit (s_client s2) = (true, mkConn (mkTcp true 1 [w] []) b new_reply_builder true))
    as (w & b & Hcm) by (subst s2; unfold s_send; cbn; rewrite H2; cbn; eauto).
  rewrite Hcm.
  destruct (wait_answered es (reply_of v) m (s_set_client s2 (mkConn (mkTcp true 1 [w] []) b new_reply_builder true)))
    as (s3 & -> & A1 & A2 & A3 & A4 & A5 & A6 & A7).
  { subst s2. unfold awaiting. cbn -[rb_feed]. rewrite H3, H4. split_and!; try done. lia. }
  { done. }
  { intros s'. by apply says_found. }
  { cbn [s_set_client s_client cn_builder]. rewrite Hd. pose proof (rb_feed_values [] [v]) as H.
    cbn [mbind list_bind fmap list_fmap app] in H. rewrite app_nil_r in H. apply H.
    constructor; [by eapply says_valid|constructor]. }
  assert (s_host s3 = (default ([], 0) m).1 ∧ s_port s3 = (default ([], 0) m).2) as [B1 B2].
  { rewrite A6, A7. subst s2. destruct m as [[h p]|]; cbn; [done|]. by rewrite H6, H7. }
  exists (s_disconnect s3). cbn [s_disconnect s_set_client s_port s_host m_sentinels]. split_and!.
  - f_equal. f_equal. rewrite B2. destruct Hv; cbn; [|done..].
    apply negb_true_iff, Z.eqb_neq. lia.
  - unfold cn_is_connected in A1. split; [|done]. unfold s_disconnect, cn_disconnect, tcp_disconnect, rb_reset.
    cbn [s_set_client s_client]. rewrite A1, A2. by eexists _, _.
  - rewrite A5. subst s2. cbn. by rewrite H5.
  - rewrite B1, B2. by destruct (default ([], 0) m).
Qed.

Definition two_sentinels : sentinel :=
  add_sentinel (chars "b") 26379 0 (add_sentinel (chars "a") 26379 0 new_sentinel).
Definition address_reply : value := VArr [VBulk (chars "10.0.0.7"); VBulk (chars "6379")].

Lemma master_lookup_witness :
  ∃ s', get_master_addr_by_name (chars "mymaster") true [false; true]
      [IOWrite (Some 100%nat); IORead (Some (take 7 (encode address_reply)));
       IORead (Some (drop 7 (encode address_reply)))] two_sentinels = (WReturned, true, s') ∧
    idle s' ∧ m_sentinels s' = m_sentinels two_sentinels ∧
    (s_host s', s_port s') = (chars "10.0.0.7", 6379).
Proof.
  apply (master_lookup two_sentinels (chars "mymaster") [false; true]
    [IOWrite (Some 100%nat); IORead (Some (take 7 (encode address_reply)));
     IORead (Some (drop 7 (encode address_reply)))] address_reply (Some (chars "10.0.0.7", 6379))).
  - split_and!; [by eexists _, _|reflexivity..].
  - discriminate.
  - apply (says_address (chars "10.0.0.7") 6379); [lia|vm_compute; discriminate].
  - repeat constructor.
  - vm_compute. reflexivity.
Defined.

(** An address without a port is read past the end of the array. *)
Example short_address_undefined s :
  on_master_reply (reply_of (VArr [VBulk (chars "10.0.0.7")])) s = Undef.
Proof. reflexivity. Qed.
