(* ===== verification/RedisClient.v ===== *)
(** * [cpp_redis::client]: the pipeline of commands and callbacks

    [core/client.cpp] without the command functions (those are in
    RedisCommands): sending and committing, the receive and the disconnection
    handlers, and the reconnection.  A callback is a name and its execution an
    event; what a user's callback does next are further operations.  The
    detached thread of [clear_callbacks] is a queue that steps on its own. *)

From S2P Require Import Prelude CppBase.
From S2P Require Import RedisReply RedisResp RedisConn RedisSentinel.

Inductive callback := User (n : nat) | ReAuth | ReSelect.
#[global] Instance callback_eq_dec : EqDecision callback.
Proof. solve_decision. Defined.
Inductive connect_state := dropped | start | sleeping | st_ok | failed | lookup_failed | stopped.

(** [struct command_request]; an empty [std::function] is no callback. *)
Record command_request := mkRequest { command : list Str; cb : option callback }.

Inductive event :=
  | Called (c : callback) (r : reply)
  | Notified (host : Str) (port : Z) (s : connect_state).

(** What [connect] saves for reconnections, and the credentials. *)
Record settings := mkSettings {
  m_redis_server : Str;
  m_redis_port : Z;
  m_master_name : Str;
  m_password : Str;
  m_database_index : Z;
  m_max_reconnects : Z;
  m_reconnect_interval_ms : Z;
  m_connect_timeout_ms : Z;
  m_connect_callback : bool
}.

Record client := mkClient {
  m_client : redis_connection;
  m_commands : list command_request;
  m_reconnecting : bool;
  m_cancel : bool;
  m_callbacks_running : Z;
  m_current_reconnect_attempts : Z;
  m_settings : settings;
  (** The queues that detached threads are working off. *)
  failing : list (list command_request);
  events : list event
}.

Definition set_client (c : client) (k : redis_connection) : client :=
  mkClient k (m_commands c) (m_reconnecting c) (m_cancel c) (m_callbacks_running c)
    (m_current_reconnect_attempts c) (m_settings c) (failing c) (events c).
Definition set_commands (c : client) (q : list command_request) : client :=
  mkClient (m_client c) q (m_reconnecting c) (m_cancel c) (m_callbacks_running c)
    (m_current_reconnect_attempts c) (m_settings c) (failing c) (events c).
Definition set_reconnecting (c : client) (b : bool) : client :=
  mkClient (m_client c) (m_commands c) b (m_cancel c) (m_callbacks_running c)
    (m_current_reconnect_attempts c) (m_settings c) (failing c) (events c).
Definition set_running (c : client) (n : Z) : client :=
  mkClient (m_client c) (m_commands c) (m_reconnecting c) (m_cancel c) (to_uint32 n)
    (m_current_reconnect_attempts c) (m_settings c) (failing c) (events c).
Definition set_attempts (c : client) (n : Z) : client :=
  mkClient (m_client c) (m_commands c) (m_reconnecting c) (m_cancel c) (m_callbacks_running c)
    n (m_settings c) (failing c) (events c).
Definition set_settings (c : client) (s : settings) : client :=
  mkClient (m_client c) (m_commands c) (m_reconnecting c) (m_cancel c) (m_callbacks_running c)
    (m_current_reconnect_attempts c) s (failing c) (events c).
Definition set_failing (c : client) (f : list (list command_request)) : client :=
  mkClient (m_client c) (m_commands c) (m_reconnecting c) (m_cancel c) (m_callbacks_running c)
    (m_current_reconnect_attempts c) (m_settings c) f (events c).
Definition emit (c : client) (e : event) : client :=
  mkClient (m_client c) (m_commands c) (m_reconnecting c) (m_cancel c) (m_callbacks_running c)
    (m_current_reconnect_attempts c) (m_settings c) (failing c) (events c ++ [e]).

Definition new_client : client :=
  mkClient new_connection [] false false 0 0 (mkSettings [] 0 [] [] 0 0 0 0 false) [] [].

(** [if (m_connect_callback) m_connect_callback(server, port, state)] *)
Definition notify (s : connect_state) (c : client) : client :=
  if m_connect_callback (m_settings c)
  then emit c (Notified (m_redis_server (m_settings c)) (m_redis_port (m_settings c)) s) else c.

(** [if (callback) callback(reply)] *)
Definition call (k : option callback) (r : reply) (c : client) : client :=
  match k with Some k => emit c (Called k r) | None => c end.

Definition is_connected (c : client) : bool := cn_is_connected (m_client c).
Definition is_reconnecting (c : client) : bool := m_reconnecting c.
Definition cancel_reconnect (c : client) : client :=
  mkClient (m_client c) (m_commands c) (m_reconnecting c) true (m_callbacks_running c)
    (m_current_reconnect_attempts c) (m_settings c) (failing c) (events c).

(** ** Sending *)
Definition unprotected_send (redis_cmd : list Str) (k : option callback) (c : client) : client :=
  let c := set_client c (cn_send redis_cmd (m_client c)) in
  set_commands c (m_commands c ++ [mkRequest redis_cmd k]).
Definition send : list Str → option callback → client → client := unprotected_send.

(** The commands move to a new detached thread. *)
Definition clear_callbacks (c : client) : client :=
  match m_commands c with
  | [] => c
  | q =>
      let c := set_commands c [] in
      let c := set_running c (m_callbacks_running c + Z.of_nat (length q)) in
      set_failing c (failing c ++ [q])
  end.

Definition network_failure : reply := reply_str (chars "network failure") st_error.

(** One turn of the loop of the [i]-th detached thread. *)
Definition thread_step (i : nat) (c : client) : client :=
  match failing c !! i with
  | Some (r :: q) =>
      let c := call (cb r) network_failure c in
      let c := set_running c (m_callbacks_running c - 1) in
      set_failing c (<[i := q]> (failing c))
  | _ => c
  end.

(** [try_commit]; false is the rethrown [redis_error]. *)
Definition try_commit (c : client) : bool * client :=
  let '(ok, k) := cn_commit (m_client c) in
  let c := set_client c k in
  if ok then (true, c) else (false, clear_callbacks c).
Definition commit (c : client) : bool * client :=
  if is_reconnecting c then (true, c) else try_commit c.
(** What [sync_commit] waits for after the same commit. *)
Definition sync_done (c : client) : bool :=
  (m_callbacks_running c =? 0) && bool_decide (m_commands c = []).

(** ** Receiving *)
Definition connection_receive_handler (r : reply) (c : client) : client :=
  let c := set_running c (m_callbacks_running c + 1) in
  let '(k, c) := match m_commands c with
    | [] => (None, c)
    | q :: rest => (cb q, set_commands c rest)
    end in
  let c := call k r c in
  set_running c (m_callbacks_running c - 1).

Definition deliver (rs : list reply) (c : client) : client :=
  foldl (λ c r, connection_receive_handler r c) c rs.

(** ** Reconnection *)

(** What the environment answers to one attempt: the sentinel's lookup of the
    master, whether the socket connects, whether it is still up at the
    commit. *)
Record attempt := mkAttempt { at_master : lookup_answer; at_up : bool; at_alive : bool }.

(** [client::connect(host, port, ...)]; false is the exception.  The time-out
    is passed on and not saved. *)
Definition connect (host : Str) (port : Z) (has_callback : bool) (max_reconnects interval : Z)
    (up : bool) (c : client) : bool * client :=
  let s := m_settings c in
  let c := set_settings c (mkSettings host port (m_master_name s) (m_password s)
    (m_database_index s) max_reconnects interval (m_connect_timeout_ms s) has_callback) in
  let c := notify start c in
  let '(ok, k) := cn_connect up (m_client c) in
  let c := set_client c k in
  if ok then (true, notify st_ok c) else (false, c).

Definition re_auth (c : client) : client :=
  if bool_decide (m_password (m_settings c) = []) then c
  else set_commands c (m_commands c ++
    [mkRequest [chars "AUTH"; m_password (m_settings c)] (Some ReAuth)]).

(** [auth] and [select] with their [unprotected_] versions *)
Definition unprotected_auth (password : Str) (k : option callback) (c : client) : client :=
  let s := m_settings c in
  let c := set_settings c (mkSettings (m_redis_server s) (m_redis_port s) (m_master_name s) password
    (m_database_index s) (m_max_reconnects s) (m_reconnect_interval_ms s)
    (m_connect_timeout_ms s) (m_connect_callback s)) in
  unprotected_send [chars "AUTH"; password] k c.
Definition unprotected_select (index : Z) (k : option callback) (c : client) : client :=
  let s := m_settings c in
  let c := set_settings c (mkSettings (m_redis_server s) (m_redis_port s) (m_master_name s)
    (m_password s) index (m_max_reconnects s) (m_reconnect_interval_ms s)
    (m_connect_timeout_ms s) (m_connect_callback s)) in
  unprotected_send [chars "SELECT"; signed_dec index] k c.

Definition re_select (c : client) : client :=
  if m_database_index (m_settings c) <=? 0 then c
  else unprotected_select (m_database_index (m_settings c)) (Some ReSelect) c.

Definition resend_failed_commands (c : client) : client :=
  let q := m_commands c in
  foldl (λ c r, unprotected_send (command r) (cb r) c) (set_commands c []) q.

Definition should_reconnect (c : client) : bool :=
  negb (is_connected c) && negb (m_cancel c) &&
  ((m_max_reconnects (m_settings c) =? -1) ||
   (m_current_reconnect_attempts c <? m_max_reconnects (m_settings c))).

Definition sleep_before_next_reconnect_attempt (c : client) : client :=
  if m_reconnect_interval_ms (m_settings c) <=? 0 then c else notify sleeping c.

(** [get_master_addr_by_name(name, m_redis_server, m_redis_port, true)]: the
    address is written through the references, also when none is found. *)
Definition set_address (host : Str) (port : Z) (c : client) : client :=
  let s := m_settings c in
  set_settings c (mkSettings host port (m_master_name s) (m_password s)
    (m_database_index s) (m_max_reconnects s) (m_reconnect_interval_ms s)
    (m_connect_timeout_ms s) (m_connect_callback s)).
Definition ask_sentinel (l : lookup_answer) (c : client) : option bool * client :=
  match l with
  | Master host port => (Some true, set_address host port c)
  | NoMaster host => (Some false, set_address host 0 c)
  | LookupThrows => (None, set_address [] 0 c)
  end.
(** The master's address is looked up when there is a master name. *)
Definition lookup_master (a : attempt) (c : client) : option bool * client :=
  if bool_decide (m_master_name (m_settings c) = []) then (Some true, c)
  else ask_sentinel (at_master a) c.

(** [client::connect(name, ...)]; false is the exception. *)
Definition connect_master (name : Str) (has_callback : bool) (max_reconnects interval : Z)
    (l : lookup_answer) (up : bool) (c : client) : bool * client :=
  let s := m_settings c in
  let c := set_settings c (mkSettings (m_redis_server s) (m_redis_port s) name (m_password s)
    (m_database_index s) (m_max_reconnects s) (m_reconnect_interval_ms s)
    (m_connect_timeout_ms s) (m_connect_callback s)) in
  let '(found, c) := ask_sentinel l c in
  match found with
  | Some true =>
      connect (m_redis_server (m_settings c)) (m_redis_port (m_settings c)) has_callback
        max_reconnects interval up c
  | _ => (false, c)
  end.

(** [reconnect]; false is the exception of the lookup or of the final commit. *)
Definition reconnect (a : attempt) (c : client) : bool * client :=
  let c := set_attempts c (m_current_reconnect_attempts c + 1) in
  let '(found, c) := lookup_master a c in
  match found with
  | None => (false, c)
  | Some false => (true, notify lookup_failed c)
  | Some true =>
    let s := m_settings c in
    let '(_, c) := connect (m_redis_server s) (m_redis_port s) (m_connect_callback s)
                     (m_max_reconnects s) (m_reconnect_interval_ms s) (at_up a) c in
    if negb (is_connected c) then (true, notify failed c)
    else
      let c := notify st_ok c in
      let c := resend_failed_commands (re_select (re_auth c)) in
      let c := if at_alive a then c
               else set_client c (mkConn (tcp_disconnect (cn_tcp (m_client c))) (cn_buffer (m_client c))
                      (cn_builder (m_client c)) (cn_handlers (m_client c))) in
      try_commit c
  end.

(** How a run of the handler ends: it returns, an exception leaves it, or it is
    still trying when the environment's answers are used up. *)
Inductive outcome := Returned | Escaped | Trying.

Fixpoint reconnect_loop (script : list attempt) (c : client) : outcome * client :=
  if should_reconnect c then
    match script with
    | [] => (Trying, c)
    | a :: script =>
        let c := sleep_before_next_reconnect_attempt c in
        let '(ok, c) := reconnect a c in
        if ok then reconnect_loop script c else (Escaped, c)
    end
  else (Returned, c).

Definition connection_disconnection_handler (script : list attempt) (c : client)
    : outcome * client :=
  if is_reconnecting c then (Returned, c)
  else
    let c := set_attempts (set_reconnecting c true) 0 in
    let c := notify dropped c in
    match reconnect_loop script c with
    | (Returned, c) =>
        let c := if is_connected c then c else notify stopped (clear_callbacks c) in
        (Returned, set_reconnecting c false)
    | r => r
    end.

(** ** What the I/O thread calls *)

(** [call_disconnection_handler] *)
Definition call_disconnection_handler (script : list attempt) (c : client) : outcome * client :=
  if cn_handlers (m_client c) then connection_disconnection_handler script c else (Returned, c).

(** [on_read_available] with a pending request: data, or the end of the
    stream. [None] is undefined behaviour. *)
Definition on_read (data : option Str) (script : list attempt) (c : client)
    : option (outcome * client) :=
  let k := m_client c in
  let t := process_read (cn_tcp k) in
  match data with
  | None =>
      let k := cn_dropped (mkConn (tcp_disconnect t) (cn_buffer k) (cn_builder k) (cn_handlers k)) in
      Some (call_disconnection_handler script (set_client c k))
  | Some data =>
      match cn_receive data (mkConn t (cn_buffer k) (cn_builder k) (cn_handlers k)) with
      | None => None
      | Some (inl (rs, k)) =>
          let c := set_client c k in
          let c := if cn_handlers k then deliver rs c else c in
          Some (Returned, set_client c (cn_read_again (m_client c)))
      | Some (inr k) => Some (call_disconnection_handler script (set_client c k))
      end
  end.

(** [on_write_available]; a failed write drops the connection. *)
Definition on_write (sent : option nat) (script : list attempt) (c : client) : outcome * client :=
  let k := m_client c in
  let '(broken, t) := on_write_available sent (cn_tcp k) in
  let k := mkConn t (cn_buffer k) (cn_builder k) (cn_handlers k) in
  if broken then call_disconnection_handler script (set_client c (cn_dropped k))
  else (Returned, set_client c k).

(** [client::disconnect] *)
Definition disconnect (c : client) : client :=
  clear_callbacks (set_client c (cn_disconnect (m_client c))).
