(* ===== verification/RedisClientSpec.v ===== *)
(** * What [cpp_redis::client] guarantees

    Callbacks are conserved by every operation; on a connection the n-th reply
    goes to the n-th command, however the stream is cut; a reconnection puts
    the pending commands on the wire again in step with the queue, unless a
    database was selected, when one more command is sent than queued. *)

From S2P Require Import Prelude CppBase.
From S2P Require Import RedisReply RedisResp RedisConn RedisSentinel RedisClient.

(** ** Conservation of callbacks *)
Definition user_cb (k : option callback) : list nat :=
  match k with Some (User n) => [n] | _ => [] end.
Definition queued (q : list command_request) : list nat := q ≫= λ r, user_cb (cb r).
Definition called (es : list event) : list nat :=
  es ≫= λ e, match e with Called (User n) _ => [n] | _ => [] end.

(** Called, waiting for a reply, or waiting for a thread to report failure. *)
Definition callbacks_of (c : client) : list nat :=
  called (events c) ++ queued (m_commands c) ++ (failing c ≫= queued).

Lemma called_app a b : called (a ++ b) = called a ++ called b.
Proof. apply bind_app. Qed.
Lemma queued_app a b : queued (a ++ b) = queued a ++ queued b.
Proof. apply bind_app. Qed.

Create HintDb redis discriminated.

Lemma callbacks_notify s c : callbacks_of (notify s c) = callbacks_of c.
Proof.
  unfold notify. destruct (m_connect_callback _); [|done]. unfold callbacks_of. cbn.
  by rewrite called_app, app_nil_r.
Qed.
Lemma callbacks_set_client c k : callbacks_of (set_client c k) = callbacks_of c.
Proof. done. Qed.

Lemma callbacks_send cmd k c :
  callbacks_of (unprotected_send cmd k c) ≡ₚ user_cb k ++ callbacks_of c.
Proof.
  unfold callbacks_of. cbn. rewrite queued_app. cbn. rewrite app_nil_r.
  solve_Permutation.
Qed.

Lemma callbacks_clear c : callbacks_of (clear_callbacks c) ≡ₚ callbacks_of c.
Proof.
  unfold clear_callbacks. destruct (m_commands c) as [|r q] eqn:Hq; [done|].
  unfold callbacks_of. cbn [events m_commands failing set_failing set_running set_commands].
  rewrite bind_app, Hq. cbn [mbind list_bind]. rewrite app_nil_r. cbn [app]. solve_Permutation.
Qed.

Lemma callbacks_thread_step i c : callbacks_of (thread_step i c) ≡ₚ callbacks_of c.
Proof.
  unfold thread_step. destruct (failing c !! i) as [[|r q]|] eqn:Hi; [done| |done].
  assert (failing c ≫= queued ≡ₚ user_cb (cb r) ++ (<[i := q]> (failing c) ≫= queued)) as Hf.
  { pose proof (take_drop_middle _ _ _ Hi) as Hm.
    assert (<[i := q]> (failing c) = take i (failing c) ++ q :: drop (S i) (failing c)) as ->
      by (rewrite insert_take_drop; [done|]; by eapply lookup_lt_Some).
    rewrite <-Hm at 1. rewrite !bind_app, !bind_cons. unfold queued at 2. rewrite bind_cons.
    fold (queued q). solve_Permutation. }
  unfold callbacks_of, call. destruct (cb r) as [[n| |]|]; cbn -[list_insert];
    rewrite ?called_app; cbn -[list_insert]; rewrite Hf; cbn -[list_insert]; solve_Permutation.
Qed.

Lemma callbacks_try_commit c : callbacks_of (try_commit c).2 ≡ₚ callbacks_of c.
Proof.
  unfold try_commit. destruct (cn_commit (m_client c)) as [[] k]; cbn [snd]; [done|].
  by rewrite callbacks_clear.
Qed.

Lemma callbacks_receive r c : callbacks_of (connection_receive_handler r c) ≡ₚ callbacks_of c.
Proof.
  unfold connection_receive_handler. change (m_commands (set_running c ?n)) with (m_commands c).
  destruct (m_commands c) as [|q rest] eqn:Hc; [done|].
  unfold callbacks_of, call. rewrite Hc. unfold queued at 3. rewrite bind_cons. fold (queued rest).
  destruct (cb q) as [[n| |]|]; cbn [events m_commands failing set_running set_commands emit user_cb app];
    rewrite ?called_app; cbn [called mbind list_bind app]; rewrite ?app_nil_r; solve_Permutation.
Qed.

Lemma callbacks_deliver rs c : callbacks_of (deliver rs c) ≡ₚ callbacks_of c.
Proof.
  unfold deliver. revert c. induction rs as [|r rs IH]; intros c; [done|]. cbn [foldl].
  by rewrite IH, callbacks_receive.
Qed.

Lemma callbacks_connect h p b m i up c : callbacks_of (connect h p b m i up c).2 = callbacks_of c.
Proof.
  unfold connect. destruct (cn_connect up _) as [[] k]; cbn [snd];
    by rewrite ?callbacks_notify, callbacks_set_client, callbacks_notify.
Qed.

Lemma callbacks_re_auth c : callbacks_of (re_auth c) ≡ₚ callbacks_of c.
Proof.
  unfold re_auth. case_bool_decide; [done|]. unfold callbacks_of. cbn. rewrite queued_app. cbn.
  by rewrite app_nil_r.
Qed.

Lemma callbacks_re_select c : callbacks_of (re_select c) ≡ₚ callbacks_of c.
Proof.
  unfold re_select. destruct (_ <=? 0); [done|]. unfold unprotected_select.
  by rewrite callbacks_send.
Qed.

Lemma callbacks_resend c : callbacks_of (resend_failed_commands c) ≡ₚ callbacks_of c.
Proof.
  unfold resend_failed_commands.
  assert (∀ q c, callbacks_of (foldl (λ c r, unprotected_send (command r) (cb r) c) c q)
    ≡ₚ queued q ++ callbacks_of c) as H.
  { induction q as [|r q IH]; intros c0; [done|]. cbn [foldl]. rewrite IH, callbacks_send.
    unfold queued. rewrite bind_cons. solve_Permutation. }
  rewrite H. unfold callbacks_of. cbn. solve_Permutation.
Qed.

Lemma callbacks_reconnect a c : callbacks_of (reconnect a c).2 ≡ₚ callbacks_of c.
Proof.
  unfold reconnect. destruct (lookup_master a _) as [found c1] eqn:Hl.
  assert (callbacks_of c1 = callbacks_of c) as Hc.
  { unfold lookup_master, ask_sentinel in Hl. repeat case_match; simplify_eq; done. }
  destruct found as [[]|]; [|cbn [snd]; by rewrite callbacks_notify, Hc|cbn [snd]; by rewrite Hc].
  destruct (connect _ _ _ _ _ _ c1) as [ok c2] eqn:Hcn.
  assert (callbacks_of c2 = callbacks_of c) as Hc2.
  { rewrite <-Hc. pose proof (callbacks_connect (m_redis_server (m_settings c1))
      (m_redis_port (m_settings c1)) (m_connect_callback (m_settings c1))
      (m_max_reconnects (m_settings c1)) (m_reconnect_interval_ms (m_settings c1)) (at_up a) c1) as H.
    by rewrite Hcn in H. }
  destruct (negb _); [cbn [snd]; by rewrite callbacks_notify, Hc2|].
  rewrite callbacks_try_commit. destruct (at_alive a); rewrite ?callbacks_set_client;
    by rewrite callbacks_resend, callbacks_re_select, callbacks_re_auth, callbacks_notify, Hc2.
Qed.

Lemma callbacks_reconnect_loop script c : callbacks_of (reconnect_loop script c).2 ≡ₚ callbacks_of c.
Proof.
  revert c. induction script as [|a script IH]; intros c; cbn [reconnect_loop];
    destruct (should_reconnect c); try done.
  destruct (reconnect a _) as [ok c1] eqn:Hr.
  assert (callbacks_of c1 ≡ₚ callbacks_of c) as Hc.
  { pose proof (callbacks_reconnect a (sleep_before_next_reconnect_attempt c)) as H. rewrite Hr in H.
    rewrite H. unfold sleep_before_next_reconnect_attempt. destruct (_ <=? 0); [done|].
    by rewrite callbacks_notify. }
  destruct ok; [by rewrite IH|done].
Qed.

Lemma callbacks_disconnection_handler script c :
  callbacks_of (connection_disconnection_handler script c).2 ≡ₚ callbacks_of c.
Proof.
  unfold connection_disconnection_handler. destruct (is_reconnecting c); [done|].
  pose proof (callbacks_reconnect_loop script (notify dropped (set_attempts (set_reconnecting c true) 0)))
    as H. rewrite callbacks_notify in H.
  destruct (reconnect_loop script _) as [[] c1]; cbn [snd] in *; try done.
  change (callbacks_of (set_reconnecting ?x false)) with (callbacks_of x).
  destruct (is_connected c1); [done|]. by rewrite callbacks_notify, callbacks_clear.
Qed.

Lemma callbacks_call_handler script c :
  callbacks_of (call_disconnection_handler script c).2 ≡ₚ callbacks_of c.
Proof.
  unfold call_disconnection_handler. destruct (cn_handlers _); [|done].
  apply callbacks_disconnection_handler.
Qed.

(** ** The operations of the client and of the threads around it *)
Inductive op :=
  | OSend (cmd : list Str) (k : option callback)
  | OAuth (password : Str) (k : option callback)
  | OSelect (index : Z) (k : option callback)
  | OCommit
  | OConnect (host : Str) (port : Z) (has_callback : bool) (max_reconnects interval : Z) (up : bool)
  | OConnectMaster (name : Str) (has_callback : bool) (max_reconnects interval : Z)
      (l : lookup_answer) (up : bool)
  | ODisconnect
  | OCancel
  | ORead (data : option Str) (script : list attempt)
  | OWrite (sent : option nat) (script : list attempt)
  | OThread (i : nat).

(** [None] is undefined behaviour. *)
Definition run_op (o : op) (c : client) : option client :=
  match o with
  | OSend cmd k => Some (send cmd k c)
  | OAuth p k => Some (unprotected_auth p k c)
  | OSelect i k => Some (unprotected_select i k c)
  | OCommit => Some (commit c).2
  | OConnect h p b m i up => Some (connect h p b m i up c).2
  | OConnectMaster n b m i l up => Some (connect_master n b m i l up c).2
  | ODisconnect => Some (disconnect c)
  | OCancel => Some (cancel_reconnect c)
  | ORead data script => snd <$> on_read data script c
  | OWrite sent script => Some (on_write sent script c).2
  | OThread i => Some (thread_step i c)
  end.
Definition given (o : op) : list nat :=
  match o with OSend _ k | OAuth _ k | OSelect _ k => user_cb k | _ => [] end.

Fixpoint run_ops (os : list op) (c : client) : option client :=
  match os with
  | [] => Some c
  | o :: os => match run_op o c with Some c => run_ops os c | None => None end
  end.

Lemma callbacks_on_read data script c oc :
  on_read data script c = Some oc → callbacks_of oc.2 ≡ₚ callbacks_of c.
Proof.
  unfold on_read. destruct data as [data|].
  - destruct (cn_receive _ _) as [[[rs k]|k]|]; [| |done]; intros [= <-].
    + cbn [snd]. rewrite callbacks_set_client. destruct (cn_handlers k); [|done].
      by rewrite callbacks_deliver.
    + by rewrite callbacks_call_handler.
  - intros [= <-]. by rewrite callbacks_call_handler.
Qed.

Lemma callbacks_run_op o c c' :
  run_op o c = Some c' → callbacks_of c' ≡ₚ given o ++ callbacks_of c.
Proof.
  destruct o; cbn [run_op given app]; intros; simplify_eq.
  - apply callbacks_send.
  - unfold unprotected_auth. by rewrite callbacks_send.
  - unfold unprotected_select. by rewrite callbacks_send.
  - unfold commit. destruct (is_reconnecting c); [done|apply callbacks_try_commit].
  - by rewrite callbacks_connect.
  - unfold connect_master, ask_sentinel. destruct l; cbn [snd]; by rewrite ?callbacks_connect.
  - unfold disconnect. by rewrite callbacks_clear.
  - done.
  - destruct (on_read data script c) as [oc|] eqn:Hr; [|done]. simplify_eq/=.
    by eapply callbacks_on_read.
  - unfold on_write. destruct (on_write_available _ _) as [[] t]; [|done].
    by rewrite callbacks_call_handler.
  - apply callbacks_thread_step.
Qed.

(** ** The pipeline of one connection *)
Definition call_event (q : command_request) (r : reply) : list event :=
  match cb q with Some k => [Called k r] | None => [] end.
Definition replies_to (qs : list command_request) (vs : list value) : list event :=
  concat (zip_with (λ q v, call_event q (reply_of v)) qs vs).

(** Bytes on their way to the server, oldest first. *)
Definition outgoing (c : client) : Str :=
  tcp_wire (cn_tcp (m_client c)) ++ concat (m_write_requests (cn_tcp (m_client c)))
  ++ cn_buffer (m_client c).

(** The client is connected and reads; its queue and its outgoing bytes hold
    the same commands, none answered. *)
Definition in_step (c : client) : Prop :=
  is_connected c = true ∧ m_reconnecting c = false ∧ cn_handlers (m_client c) = true ∧
  (0 < m_read_requests (cn_tcp (m_client c)))%nat ∧
  cn_builder (m_client c) = new_reply_builder ∧
  Forall command_ok (command <$> m_commands c) ∧
  outgoing c = (command <$> m_commands c) ≫= build_command.

(** A client, the requests made on the connection, the server's answers so far
    and the bytes of them that were not read yet. *)
Record session := mkSession {
  se_client : client; se_sent : list command_request; se_answers : list value; se_chan : Str
}.
Definition session_of (c : client) : session := mkSession c (m_commands c) [] [].

(** Steps while the connection lasts.  The server answers the commands it has
    received one by one; a write is complete; a read takes any part of what
    is under way. *)
Inductive step : session → session → Prop :=
  | step_send cmd k s :
      command_ok cmd →
      step s (mkSession (send cmd k (se_client s)) (se_sent s ++ [mkRequest cmd k])
                (se_answers s) (se_chan s))
  | step_commit s :
      step s (mkSession (commit (se_client s)).2 (se_sent s) (se_answers s) (se_chan s))
  | step_write w ws n s :
      m_write_requests (cn_tcp (m_client (se_client s))) = w :: ws → (length w <= n)%nat →
      step s (mkSession (on_write (Some n) [] (se_client s)).2 (se_sent s) (se_answers s) (se_chan s))
  | step_answer v rb s :
      valid v → rb_feed new_reply_builder (tcp_wire (cn_tcp (m_client (se_client s)))) = Fed rb →
      (length (se_answers s) < length (rb_available rb))%nat →
      step s (mkSession (se_client s) (se_sent s) (se_answers s ++ [v]) (se_chan s ++ encode v))
  | step_read d chan o c' s :
      se_chan s = d ++ chan → (0 < m_read_requests (cn_tcp (m_client (se_client s))))%nat →
      on_read (Some d) [] (se_client s) = Some (o, c') →
      step s (mkSession c' (se_sent s) (se_answers s) chan).

(** [k] replies have been handed over. *)
Definition pipelined (es : list event) (k : nat) (s : session) : Prop :=
  is_connected (se_client s) = true ∧ m_reconnecting (se_client s) = false ∧
  cn_handlers (m_client (se_client s)) = true ∧
  (0 < m_read_requests (cn_tcp (m_client (se_client s))))%nat ∧
  Forall command_ok (command <$> se_sent s) ∧ Forall valid (se_answers s) ∧
  outgoing (se_client s) = (command <$> se_sent s) ≫= build_command ∧
  (k <= length (se_answers s) <= length (se_sent s))%nat ∧
  m_commands (se_client s) = drop k (se_sent s) ∧
  events (se_client s) = es ++ replies_to (take k (se_sent s)) (take k (se_answers s)) ∧
  rb_start (cn_builder (m_client (se_client s))) ∧
  rb_available (cn_builder (m_client (se_client s))) = [] ∧
  rb_feed (cn_builder (m_client (se_client s))) [] = Fed (cn_builder (m_client (se_client s))) ∧
  rb_feed (cn_builder (m_client (se_client s))) (se_chan s) =
    Fed (mkReplyBuilder [] None (reply_of <$> drop k (se_answers s)) false).

Lemma in_step_pipelined c : in_step c → pipelined (events c) 0 (session_of c).
Proof.
  intros (Hc & Hr & Hh & Hrd & Hb & Hok & Ho). unfold pipelined. cbn. rewrite Hb.
  split_and!; try done; try lia. by rewrite app_nil_r.
Qed.

(** Handing replies over, one command each. *)
Lemma deliver_spec rs c :
  (length rs <= length (m_commands c))%nat →
  m_client (deliver rs c) = m_client c ∧ m_reconnecting (deliver rs c) = m_reconnecting c ∧
  m_commands (deliver rs c) = drop (length rs) (m_commands c) ∧
  events (deliver rs c) = events c ++ concat (zip_with call_event (m_commands c) rs).
Proof.
  unfold deliver. revert c. induction rs as [|r rs IH]; intros c Hl.
  { cbn. split_and!; try done. by destruct (m_commands c); rewrite app_nil_r. }
  cbn [foldl]. destruct (m_commands c) as [|q qs] eqn:Hq; [simpl in Hl; lia|].
  assert (∃ c1, connection_receive_handler r c = c1 ∧ m_client c1 = m_client c ∧
    m_reconnecting c1 = m_reconnecting c ∧ m_commands c1 = qs ∧
    events c1 = events c ++ call_event q r) as (c1 & -> & Hk & Hrc & Hqs & Hev).
  { eexists. split; [done|]. unfold connection_receive_handler, call_event, call.
    change (m_commands (set_running c ?n)) with (m_commands c). rewrite Hq.
    destruct (cb q); cbn; rewrite ?app_nil_r; done. }
  destruct (IH c1) as (H1 & H2 & H3 & H4); [rewrite Hqs; simpl in Hl; lia|].
  rewrite H1, H2, H3, H4, Hk, Hrc, Hqs, Hev. split_and!; try done. cbn. by rewrite app_assoc.
Qed.

Lemma pipelined_send es k cmd kb s : command_ok cmd → pipelined es k s →
  pipelined es k (mkSession (send cmd kb (se_client s)) (se_sent s ++ [mkRequest cmd kb])
    (se_answers s) (se_chan s)).
Proof.
  intros Hcmd (Hc & Hr & Hh & Hrd & Hok & Hv & Ho & Hk & Hq & He & Hs & Ha & Hst & Hf).
  unfold pipelined. cbn -[rb_feed]. split_and!; try done.
  - rewrite fmap_app. apply Forall_app_2; [done|]. by constructor.
  - unfold outgoing in *. cbn. rewrite fmap_app, bind_app, <-Ho. cbn. by rewrite app_nil_r, <-!app_assoc.
  - lia.
  - rewrite length_app. simpl. lia.
  - by rewrite Hq, drop_app_le by lia.
  - by rewrite He, take_app_le by lia.
Qed.

Lemma pipelined_commit es k s : pipelined es k s →
  pipelined es k (mkSession (commit (se_client s)).2 (se_sent s) (se_answers s) (se_chan s)).
Proof.
  intros (Hc & Hr & Hh & Hrd & Hok & Hv & Ho & Hk & Hq & He & Hs & Ha & Hst & Hf).
  unfold commit, is_reconnecting. rewrite Hr. unfold try_commit, cn_commit, async_write.
  unfold is_connected, cn_is_connected in Hc. rewrite Hc.
  unfold pipelined. cbn -[rb_feed]. split_and!; try done; try lia.
  unfold outgoing in *. cbn. rewrite <-Ho, concat_app. cbn. by rewrite !app_nil_r.
Qed.

Lemma pipelined_write es k w ws n s :
  m_write_requests (cn_tcp (m_client (se_client s))) = w :: ws → (length w <= n)%nat →
  pipelined es k s →
  pipelined es k (mkSession (on_write (Some n) [] (se_client s)).2 (se_sent s) (se_answers s) (se_chan s)).
Proof.
  intros Hw Hn (Hc & Hr & Hh & Hrd & Hok & Hv & Ho & Hk & Hq & He & Hs & Ha & Hst & Hf).
  unfold on_write, on_write_available. rewrite Hw.
  unfold pipelined. cbn -[rb_feed]. split_and!; try done; try lia.
  unfold outgoing in *. cbn. rewrite <-Ho, Hw. cbn. rewrite firstn_all2 by done. by rewrite <-!app_assoc.
Qed.

Lemma pipelined_answer es k v rb s :
  valid v → rb_feed new_reply_builder (tcp_wire (cn_tcp (m_client (se_client s)))) = Fed rb →
  (length (se_answers s) < length (rb_available rb))%nat → pipelined es k s →
  pipelined es k (mkSession (se_client s) (se_sent s) (se_answers s ++ [v]) (se_chan s ++ encode v)).
Proof.
  intros Hval Hw Hlt (Hc & Hr & Hh & Hrd & Hok & Hv & Ho & Hk & Hq & He & Hs & Ha & Hst & Hf).
  unfold outgoing in Ho. pose proof (wire_prefix _ _ _ _ Hok Ho Hw) as Hle. rewrite length_fmap in Hle.
  unfold pipelined. cbn -[rb_feed encode]. split_and!; try done.
  - apply Forall_app_2; [done|]. by constructor.
  - rewrite length_app. simpl. lia.
  - rewrite length_app. simpl. lia.
  - by rewrite He, (take_app_le (se_answers s)) by lia.
  - rewrite rb_feed_app, Hf by done.
    pose proof (rb_feed_values (reply_of <$> drop k (se_answers s)) [v]) as H. cbn -[rb_feed encode] in H.
    rewrite app_nil_r in H. rewrite H by by constructor.
    rewrite drop_app_le by lia. by rewrite fmap_app.
Qed.

Lemma replies_to_app q1 q2 v1 v2 : length q1 = length v1 →
  replies_to (q1 ++ q2) (v1 ++ v2) = replies_to q1 v1 ++ replies_to q2 v2.
Proof. intros H. unfold replies_to. by rewrite zip_with_app, concat_app. Qed.

Lemma replies_to_zip qs vs :
  concat (zip_with call_event qs (reply_of <$> vs)) = replies_to qs vs.
Proof. unfold replies_to. by rewrite zip_with_fmap_r. Qed.

Lemma zip_with_take_r {A B C} (f : A → B → C) l k : zip_with f l k = zip_with f (take (length k) l) k.
Proof. revert l. induction k as [|b k IH]; intros [|a l]; simpl; [done..|]. by rewrite IH. Qed.

Lemma pipelined_read es k d chan o c' s :
  se_chan s = d ++ chan → (0 < m_read_requests (cn_tcp (m_client (se_client s))))%nat →
  on_read (Some d) [] (se_client s) = Some (o, c') → pipelined es k s →
  ∃ j, pipelined es (k + j) (mkSession c' (se_sent s) (se_answers s) chan).
Proof.
  intros Hch Hrq Hread (Hc & Hr & Hh & Hrd & Hok & Hv & Ho & Hk & Hq & He & Hs & Ha & Hst & Hf).
  rewrite Hch in Hf. destruct (feed_part _ _ _ _ Hs Hf) as (rb1 & rs2 & Hd & Hrs & Hs1 & Hst1 & Hf1).
  unfold on_read in Hread. unfold cn_receive in Hread. cbn [cn_builder] in Hread. rewrite Hd in Hread.
  cbn [cn_handlers] in Hread. rewrite Hh in Hread. injection Hread as <- <-.
  set (j := length (rb_available rb1)). exists j.
  assert (rb_available rb1 = reply_of <$> take j (drop k (se_answers s)) ∧
    rs2 = reply_of <$> drop j (drop k (se_answers s)) ∧ (k + j <= length (se_answers s))%nat)
    as (Hav & Hrs2 & Hkj).
  { assert (j <= length (se_answers s) - k)%nat.
    { apply (f_equal length) in Hrs. rewrite length_fmap, length_drop, length_app in Hrs. lia. }
    split_and!; [| |lia].
    - rewrite fmap_take, Hrs. unfold j. by rewrite take_app_length.
    - rewrite fmap_drop, Hrs. unfold j. by rewrite drop_app_length. }
  set (c1 := set_client (se_client s) _).
  destruct (deliver_spec (rb_available rb1) c1) as (H1 & H2 & H3 & H4).
  { subst c1. cbn. rewrite Hq, length_drop. fold j. lia. }
  unfold pipelined. cbn [se_client se_sent se_answers se_chan].
  unfold is_connected, cn_is_connected, outgoing in *.
  cbn [set_client m_client m_reconnecting m_commands events]. rewrite H1, H2, H3, H4. subst c1.
  unfold cn_read_again, process_read, async_read.
  cbn [set_client m_client cn_tcp m_is_connected cn_handlers cn_builder cn_buffer m_commands events
       m_reconnecting]. rewrite Hc. cbn [snd m_is_connected m_read_requests m_write_requests tcp_wire rb_available].
  split_and!; try done; try lia.
  - by rewrite Hq, drop_drop.
  - rewrite He, <-app_assoc, Hq, Hav. f_equal. rewrite zip_with_take_r, length_fmap, replies_to_zip.
    rewrite length_take, length_drop.
    replace (Nat.min j (length (se_answers s) - k)) with j by lia.
    rewrite <-replies_to_app by (rewrite !length_take; lia). by rewrite !take_take_drop.
  - by rewrite Hf1, Hrs2, drop_drop.
Qed.

Lemma pipelined_step es k s s' : pipelined es k s → step s s' → ∃ j, pipelined es (k + j) s'.
Proof.
  intros Hp Hstep. destruct Hstep.
  - exists 0%nat. rewrite Nat.add_0_r. by apply pipelined_send.
  - exists 0%nat. rewrite Nat.add_0_r. by apply pipelined_commit.
  - exists 0%nat. rewrite Nat.add_0_r. by eapply pipelined_write.
  - exists 0%nat. rewrite Nat.add_0_r. by eapply pipelined_answer.
  - by eapply pipelined_read.
Qed.

Lemma pipelined_rtc es k s s' : pipelined es k s → rtc step s s' → ∃ k', pipelined es k' s'.
Proof.
  intros Hp Hrun. revert k Hp. induction Hrun as [s|s s1 s2 Hs Hrun IH]; intros k Hp; [by eauto|].
  destruct (pipelined_step _ _ _ _ Hp Hs) as [j Hj]. by eapply IH.
Qed.

Lemma pipelined_run c s : in_step c → rtc step (session_of c) s → ∃ k, pipelined (events c) k s.
Proof. intros Hc. by eapply pipelined_rtc, in_step_pipelined. Qed.

(** Reading more of the stream is defined and returns. *)
Lemma pipelined_reads es k s d chan :
  pipelined es k s → se_chan s = d ++ chan →
  ∃ c', on_read (Some d) [] (se_client s) = Some (Returned, c').
Proof.
  intros (Hc & Hr & Hh & Hrd & Hok & Hv & Ho & Hk & Hq & He & Hs & Ha & Hst & Hf) Hch.
  rewrite Hch in Hf. destruct (feed_part _ _ _ _ Hs Hf) as (rb1 & rs2 & Hd & _).
  unfold on_read, cn_receive. cbn [cn_builder]. rewrite Hd. eauto.
Qed.

Lemma pipelined_drained es k s : pipelined es k s → se_chan s = [] → k = length (se_answers s).
Proof.
  intros (Hc & Hr & Hh & Hrd & Hok & Hv & Ho & Hk & Hq & He & Hs & Ha & Hst & Hf) Hch.
  rewrite Hch, Hst in Hf. injection Hf as Hf. rewrite Hf in Ha. cbn in Ha.
  apply (f_equal length) in Ha. rewrite length_fmap, length_drop in Ha. simpl in Ha. lia.
Qed.

(** ** Reconnection *)
Lemma resend_spec q c :
  let c' := foldl (λ c r, unprotected_send (command r) (cb r) c) c q in
  m_commands c' = m_commands c ++ q ∧
  cn_buffer (m_client c') = cn_buffer (m_client c) ++ ((command <$> q) ≫= build_command) ∧
  cn_tcp (m_client c') = cn_tcp (m_client c) ∧ cn_builder (m_client c') = cn_builder (m_client c) ∧
  cn_handlers (m_client c') = cn_handlers (m_client c) ∧ m_reconnecting c' = m_reconnecting c ∧
  m_cancel c' = m_cancel c ∧ m_settings c' = m_settings c.
Proof.
  cbn zeta. revert c. induction q as [|r q IH]; intros c; cbn [foldl].
  { rewrite !app_nil_r. done. }
  destruct (IH (unprotected_send (command r) (cb r) c)) as (-> & -> & -> & -> & -> & -> & -> & ->).
  destruct r as [cmd k]. unfold unprotected_send, cn_send.
  cbn [set_commands set_client m_commands m_client cn_buffer cn_tcp cn_builder cn_handlers m_reconnecting
       m_cancel m_settings command cb]. rewrite fmap_cons, bind_cons, <-!app_assoc. done.
Qed.

Definition auth_request (c : client) : list command_request :=
  if bool_decide (m_password (m_settings c) = []) then []
  else [mkRequest [chars "AUTH"; m_password (m_settings c)] (Some ReAuth)].
Definition select_request (c : client) : list command_request :=
  if m_database_index (m_settings c) <=? 0 then []
  else [mkRequest [chars "SELECT"; signed_dec (m_database_index (m_settings c))] (Some ReSelect)].

(** What is queued and what is in the send buffer after a successful attempt. *)
Lemma reissue_spec c :
  let c' := resend_failed_commands (re_select (re_auth c)) in
  m_commands c' = m_commands c ++ auth_request c ++ select_request c ∧
  cn_buffer (m_client c') = cn_buffer (m_client c)
    ++ ((command <$> select_request c) ≫= build_command)
    ++ ((command <$> m_commands c') ≫= build_command) ∧
  cn_tcp (m_client c') = cn_tcp (m_client c) ∧ cn_builder (m_client c') = cn_builder (m_client c) ∧
  cn_handlers (m_client c') = cn_handlers (m_client c) ∧ m_reconnecting c' = m_reconnecting c ∧
  m_cancel c' = m_cancel c.
Proof.
  cbn zeta. unfold resend_failed_commands.
  destruct (resend_spec (m_commands (re_select (re_auth c))) (set_commands (re_select (re_auth c)) []))
    as (-> & -> & -> & -> & -> & -> & -> & _).
  cbn [set_commands m_commands m_client m_reconnecting m_cancel app].
  unfold re_select, re_auth, auth_request, select_request.
  case_bool_decide as Hp; cbn [set_commands m_settings];
    destruct (_ <=? 0); cbn; rewrite ?app_nil_r, <-?app_assoc; done.
Qed.

Section Notify.
  Context (st : connect_state) (c : client).
Lemma notify_client : m_client (notify st c) = m_client c.
Proof. unfold notify. by destruct (m_connect_callback _). Qed.
Lemma notify_commands : m_commands (notify st c) = m_commands c.
Proof. unfold notify. by destruct (m_connect_callback _). Qed.
Lemma notify_settings : m_settings (notify st c) = m_settings c.
Proof. unfold notify. by destruct (m_connect_callback _). Qed.
Lemma notify_reconnecting : m_reconnecting (notify st c) = m_reconnecting c.
Proof. unfold notify. by destruct (m_connect_callback _). Qed.
Lemma notify_cancel : m_cancel (notify st c) = m_cancel c.
Proof. unfold notify. by destruct (m_connect_callback _). Qed.
Lemma notify_attempts : m_current_reconnect_attempts (notify st c) = m_current_reconnect_attempts c.
Proof. unfold notify. by destruct (m_connect_callback _). Qed.
End Notify.
Hint Rewrite notify_client notify_commands notify_settings notify_reconnecting notify_cancel
  notify_attempts : redis_notify.

(** The connection is down and cleaned up. *)
Definition down (c : client) : Prop :=
  ∃ wire h, m_client c = mkConn (mkTcp false 0 [] wire) [] new_reply_builder h.

(** An attempt that finds the master, connects and stays up. *)
Definition succeeds (a : attempt) (c : client) : Prop :=
  at_up a = true ∧ at_alive a = true ∧ (m_master_name (m_settings c) = [] ∨ ∃ host port, at_master a = Master host port).

(** The queue after a reconnection. *)
Definition requeued (c : client) : list command_request :=
  m_commands c ++ auth_request c ++ select_request c.

(** Connected and reading, with [extra] commands on their way before those of
    the queue. *)
Definition reissued (c : client) (extra : list (list Str)) : Prop :=
  is_connected c = true ∧ cn_handlers (m_client c) = true ∧
  (0 < m_read_requests (cn_tcp (m_client c)))%nat ∧ cn_builder (m_client c) = new_reply_builder ∧
  outgoing c = (extra ++ (command <$> m_commands c)) ≫= build_command.

Lemma reconnect_succeeds a c :
  down c → succeeds a c →
  ∃ c', reconnect a c = (true, c') ∧ m_reconnecting c' = m_reconnecting c ∧
    m_commands c' = requeued c ∧ reissued c' (command <$> select_request c).
Proof.
  intros (wire & h & Hd) (Hup & Halive & Hm). unfold reconnect.
  destruct (lookup_master a (set_attempts c (m_current_reconnect_attempts c + 1))) as [found c1] eqn:Hl.
  assert (found = Some true ∧ m_client c1 = m_client c ∧ m_commands c1 = m_commands c ∧
    m_password (m_settings c1) = m_password (m_settings c) ∧
    m_database_index (m_settings c1) = m_database_index (m_settings c) ∧
    m_reconnecting c1 = m_reconnecting c) as (-> & Hk & Hq & Hp & Hdb & Hrc).
  { unfold lookup_master in Hl. cbn [set_attempts m_settings] in Hl.
    destruct Hm as [Hm|(x & y & Hm)]; [rewrite Hm in Hl; cbn in Hl; by simplify_eq/=|].
    rewrite Hm in Hl. case_bool_decide; by simplify_eq/=. }
  cbn [negb]. unfold connect. autorewrite with redis_notify.
  cbn [set_settings m_client]. rewrite Hk, Hd, Hup.
  unfold cn_connect, tcp_connect, async_read. cbn [cn_tcp m_is_connected m_read_requests m_write_requests].
  unfold is_connected, cn_is_connected. autorewrite with redis_notify.
  cbn [set_client m_client cn_tcp m_is_connected negb]. rewrite Halive.
  set (c2 := notify st_ok _).
  destruct (reissue_spec c2) as (R1 & R2 & R3 & R4 & R5 & R6 & R7).
  assert (m_client c2 = mkConn (mkTcp true 1 [] []) [] new_reply_builder true) as Hc2
    by (subst c2; autorewrite with redis_notify; done).
  assert (m_commands c2 = m_commands c ∧ auth_request c2 = auth_request c ∧
    select_request c2 = select_request c ∧ m_reconnecting c2 = m_reconnecting c) as (C1 & C2 & C3 & C4).
  { subst c2. unfold auth_request, select_request. autorewrite with redis_notify.
    cbn [set_client m_commands m_settings set_settings m_reconnecting]. autorewrite with redis_notify.
    cbn [set_client m_commands m_settings set_settings m_reconnecting m_password m_database_index].
    rewrite Hp, Hdb. done. }
  rewrite C1, C2, C3 in R1. rewrite C3, Hc2 in R2. rewrite Hc2 in R3, R4, R5.
  unfold try_commit, cn_commit, async_write. rewrite R3. cbn [cn_tcp m_is_connected].
  eexists. split; [done|]. cbn [set_client m_reconnecting m_commands].
  split; [by rewrite R6|]. split; [done|].
  unfold reissued, is_connected, cn_is_connected, outgoing.
  cbn [set_client m_client cn_tcp m_is_connected cn_handlers cn_builder cn_buffer m_read_requests
       m_write_requests tcp_wire m_commands].
  rewrite R4, R5. split_and!; try done; [lia|].
  cbn [concat app]. rewrite !app_nil_r, R2. cbn [cn_buffer app].
  by rewrite bind_app.
Qed.

Definition may_reconnect (c : client) : Prop :=
  m_cancel c = false ∧
  (m_max_reconnects (m_settings c) = -1 ∨ 0 < m_max_reconnects (m_settings c)).

Lemma reconnect_loop_connected script c : is_connected c = true → reconnect_loop script c = (Returned, c).
Proof. intros H. destruct script; cbn [reconnect_loop]; unfold should_reconnect; by rewrite H. Qed.

Lemma handler_reconnects a script c :
  down c → m_reconnecting c = false → may_reconnect c → succeeds a c →
  ∃ c', connection_disconnection_handler (a :: script) c = (Returned, c') ∧
    m_reconnecting c' = false ∧ m_commands c' = requeued c ∧
    reissued c' (command <$> select_request c).
Proof.
  intros Hd Hr [Hcan Hmax] Hs. unfold connection_disconnection_handler, is_reconnecting. rewrite Hr.
  set (c1 := notify dropped _).
  assert (m_client c1 = m_client c ∧ m_commands c1 = m_commands c ∧ m_settings c1 = m_settings c ∧
    m_cancel c1 = m_cancel c ∧ m_current_reconnect_attempts c1 = 0) as (E1 & E2 & E3 & E4 & E5)
    by (subst c1; by autorewrite with redis_notify).
  cbn [reconnect_loop].
  assert (should_reconnect c1 = true) as ->.
  { unfold should_reconnect, is_connected, cn_is_connected. destruct Hd as (w & h & Hd).
    rewrite E1, E3, E4, E5, Hd, Hcan. cbn [cn_tcp m_is_connected negb andb].
    destruct Hmax as [-> | Hmax]; [done|]. rewrite (proj2 (Z.ltb_lt _ _) Hmax). apply orb_true_r. }
  set (c2 := sleep_before_next_reconnect_attempt c1).
  assert (m_client c2 = m_client c ∧ m_commands c2 = m_commands c ∧ m_settings c2 = m_settings c)
    as (F1 & F2 & F3).
  { subst c2. unfold sleep_before_next_reconnect_attempt.
    destruct (_ <=? 0); autorewrite with redis_notify; done. }
  destruct (reconnect_succeeds a c2) as (c3 & -> & H1 & H2 & H3).
  { unfold down. by rewrite F1. }
  { unfold succeeds. by rewrite F3. }
  assert (requeued c2 = requeued c ∧ select_request c2 = select_request c) as [G1 G2]
    by (unfold requeued, auth_request, select_request; by rewrite F2, F3).
  rewrite G1 in H2. rewrite G2 in H3. pose proof H3 as (Hcon & _).
  rewrite reconnect_loop_connected, Hcon by done. eexists. split; [done|]. done.
Qed.

Lemma drop_reconnects es k s a script :
  pipelined es k s → may_reconnect (se_client s) → succeeds a (se_client s) →
  ∃ c', on_read None (a :: script) (se_client s) = Some (Returned, c') ∧
    m_reconnecting c' = false ∧ m_commands c' = requeued (se_client s) ∧
    reissued c' (command <$> select_request (se_client s)).
Proof.
  intros (Hc & Hr & Hh & Hrd & Hok & Hv & Ho & Hk & Hq & He & [Hw Hbr] & Ha & Hst & Hf) Hmay Hs.
  unfold on_read, call_disconnection_handler, cn_dropped.
  cbn [cn_handlers set_client m_client cn_tcp cn_builder]. rewrite Hh.
  set (c1 := set_client _ _).
  destruct (handler_reconnects a script c1) as (c' & -> & H1 & H2 & H3); try done.
  - unfold down. subst c1. cbn [set_client m_client]. unfold tcp_disconnect, process_read.
    unfold is_connected, cn_is_connected in Hc. cbn [m_is_connected]. rewrite Hc.
    unfold rb_reset. rewrite Ha. eexists _, _. done.
  - eexists. split_and!; done.
Qed.
