(* ===== verification/RedisClaims.v ===== *)
(** * The properties of the Redis client

    The statements rest on the lemmas of RedisClientSpec; each is applied at a
    concrete run. *)

From S2P Require Import Prelude CppBase.
From S2P Require Import RedisReply RedisResp RedisConn RedisSentinel RedisClient RedisClientSpec.

(** C29. No callback is lost or run twice: after any sequence of operations
    (sends, commits that fail, packets, malformed replies, lost connections
    with any outcome of the reconnection attempts, disconnections, turns of the
    failure threads) the callbacks given to the client are exactly those
    called, those waiting in the queue and those waiting for a thread to
    report a network failure. *)
Theorem callbacks_conserved os c :
  run_ops os new_client = Some c → callbacks_of c ≡ₚ concat (given <$> os).
Proof.
  intros H. enough (∀ c0, run_ops os c0 = Some c → callbacks_of c ≡ₚ concat (given <$> os) ++ callbacks_of c0)
    as Hall by (rewrite (Hall _ H); by rewrite app_nil_r).
  clear H. induction os as [|o os IH]; intros c0; cbn [run_ops]; [by intros [= <-]|].
  destruct (run_op o c0) as [c1|] eqn:Ho; [|done]. intros H. rewrite (IH _ H).
  rewrite (callbacks_run_op _ _ _ Ho). cbn. solve_Permutation.
Qed.

Definition demo_ops : list op :=
  [OConnect (chars "h") 6379 true 1 0 true; OSend [chars "GET"; chars "a"] (Some (User 1));
   OSend [chars "GET"; chars "b"] (Some (User 2)); OCommit;
   OWrite (Some 100%nat) []; ORead (Some (chars "$1" ++ crlf ++ chars "x" ++ crlf)) [];
   ORead None [mkAttempt (NoMaster []) false false]; OThread 0].

Lemma callbacks_conserved_witness :
  ∃ c, run_ops demo_ops new_client = Some c ∧ callbacks_of c ≡ₚ concat (given <$> demo_ops).
Proof.
  eexists. split; [vm_compute; reflexivity|]. apply callbacks_conserved. vm_compute. reflexivity.
Defined.

(** C19. The n-th reply goes to the n-th command: while a connection lasts, in
    any interleaving of sends, commits, writes, answers of the server and reads
    of any fragments, the events are exactly the callbacks of the first [k]
    commands, each with the server's answer to that command; the queue holds
    the rest; nothing is left over once everything under way is read; and
    reading more is always defined and returns. Two conditions are part of the
    steps: a write takes the whole buffer, because the rest of a short write
    is lost by [process_write], and no answer holds the integer -2^63, whose
    digits overflow the integer builder. *)
Theorem pipeline_fifo c s :
  in_step c → rtc step (session_of c) s →
  ∃ k, (k <= length (se_answers s) <= length (se_sent s))%nat ∧
    events (se_client s) = events c ++ replies_to (take k (se_sent s)) (take k (se_answers s)) ∧
    m_commands (se_client s) = drop k (se_sent s) ∧
    (se_chan s = [] → k = length (se_answers s)) ∧
    (∀ d chan, se_chan s = d ++ chan →
       ∃ c', on_read (Some d) [] (se_client s) = Some (Returned, c')).
Proof.
  intros Hc Hrun. destruct (pipelined_run c s Hc Hrun) as [k Hp]. exists k.
  pose proof (pipelined_drained _ _ _ Hp) as Hdr.
  pose proof Hp as (_ & _ & _ & _ & _ & _ & _ & Hk & Hq & He & _).
  split_and!; try done; try apply Hk. intros d chan. by eapply pipelined_reads.
Qed.

Definition connected_client : client :=
  (connect (chars "h") 6379 false 3 0 true new_client).2.
Lemma connected_client_in_step : in_step connected_client.
Proof. unfold in_step. split_and!; try reflexivity; [vm_compute; lia|constructor]. Qed.

(** A request, its commit, its write, the answer and the first two bytes of it. *)
Definition demo_session : session :=
  let c := (on_write (Some 100%nat) []
    (commit (send [chars "PING"] (Some (User 7)) connected_client)).2).2 in
  mkSession (default c (snd <$> on_read (Some (chars "+P")) [] c)) [mkRequest [chars "PING"] (Some (User 7))]
    [VSimple (chars "PONG")] (chars "ONG" ++ crlf).

Lemma demo_run : rtc step (session_of connected_client) demo_session.
Proof.
  eapply rtc_l; [eapply (step_send [chars "PING"] (Some (User 7)))|].
  { split; [vm_compute; discriminate|]. apply Forall_cons_2; [vm_compute; discriminate|constructor]. }
  eapply rtc_l; [apply step_commit|].
  eapply rtc_l; [eapply (step_write _ _ 100); [reflexivity|vm_compute; lia]|].
  eapply rtc_l; [eapply (step_answer (VSimple (chars "PONG"))); [reflexivity|vm_compute; reflexivity|vm_compute; lia]|].
  eapply rtc_l; [eapply (step_read (chars "+P") (chars "ONG" ++ crlf)); [reflexivity|vm_compute; lia|vm_compute; reflexivity]|].
  apply rtc_refl.
Qed.

Lemma pipeline_fifo_witness :
  in_step connected_client ∧ rtc step (session_of connected_client) demo_session ∧
  ∃ k, (k <= 1 <= 1)%nat ∧
    events (se_client demo_session) = [] ++ replies_to (take k (se_sent demo_session)) (take k (se_answers demo_session)) ∧
    m_commands (se_client demo_session) = drop k (se_sent demo_session) ∧
    (se_chan demo_session = [] → k = 1%nat) ∧
    (∀ d chan, se_chan demo_session = d ++ chan →
       ∃ c', on_read (Some d) [] (se_client demo_session) = Some (Returned, c')).
Proof.
  split; [exact connected_client_in_step|]. split; [exact demo_run|].
  apply (pipeline_fifo connected_client demo_session connected_client_in_step demo_run).
Defined.

(** C9. A lost connection is recovered in step: when an attempt to reconnect is
    allowed and succeeds, and no database was selected, the handler returns
    with the client connected and reading, every command that had no reply is
    queued again in its order (followed by AUTH if there is a password), and
    exactly the queued commands are on their way to the new server, so that
    the pipeline property holds again from there. The session before the loss
    has the conditions of the pipeline property: complete writes, no answer
    of -2^63. *)
Theorem reconnect_resumes_pipeline c s a script :
  in_step c → rtc step (session_of c) s →
  may_reconnect (se_client s) → succeeds a (se_client s) →
  m_database_index (m_settings (se_client s)) <= 0 →
  Forall command_ok (command <$> auth_request (se_client s)) →
  ∃ c', on_read None (a :: script) (se_client s) = Some (Returned, c') ∧ in_step c' ∧
    m_commands c' = m_commands (se_client s) ++ auth_request (se_client s).
Proof.
  intros Hc Hrun Hmay Hs Hdb Hauth. destruct (pipelined_run c s Hc Hrun) as [k Hp].
  destruct (drop_reconnects _ _ _ a script Hp Hmay Hs) as (c' & Hon & Hr & Hq & Hi).
  pose proof Hp as (_ & _ & _ & _ & Hok & _ & _ & _ & Hqs & _).
  exists c'. split; [done|].
  assert (select_request (se_client s) = []) as Hsel
    by (unfold select_request; by rewrite (proj2 (Z.leb_le _ _) Hdb)).
  unfold requeued in Hq. rewrite Hsel, app_nil_r in Hq. rewrite Hsel in Hi.
  split; [|done]. destruct Hi as (I1 & I2 & I3 & I4 & I5). cbn [fmap list_fmap app] in I5.
  split_and!; try done. rewrite Hq, fmap_app. apply Forall_app_2; [|done].
  rewrite Hqs, fmap_drop. by apply Forall_drop.
Qed.

Definition lost_session : session :=
  mkSession (commit (send [chars "PING"] (Some (User 7)) connected_client)).2
    [mkRequest [chars "PING"] (Some (User 7))] [] [].
Lemma lost_run : rtc step (session_of connected_client) lost_session.
Proof.
  eapply rtc_l; [eapply (step_send [chars "PING"] (Some (User 7)))|].
  { split; [vm_compute; discriminate|]. apply Forall_cons_2; [vm_compute; discriminate|constructor]. }
  eapply rtc_l; [apply step_commit|]. apply rtc_refl.
Qed.

Lemma reconnect_resumes_pipeline_witness :
  ∃ c', on_read None [mkAttempt (NoMaster []) true true] (se_client lost_session) = Some (Returned, c') ∧
    in_step c' ∧ m_commands c' = [mkRequest [chars "PING"] (Some (User 7))].
Proof.
  apply (reconnect_resumes_pipeline connected_client lost_session (mkAttempt (NoMaster []) true true) []).
  - exact connected_client_in_step.
  - exact lost_run.
  - split; [reflexivity|right; vm_compute; reflexivity].
  - split; [reflexivity|]. split; [reflexivity|left; reflexivity].
  - vm_compute. discriminate.
  - constructor.
Defined.

(** With a selected database the recovered pipeline is out of step: after a
    successful reconnection the bytes on their way begin with a SELECT that is
    not in the queue (it is queued, and sent, once more at the end), so the
    server answers one command more than there are callbacks and every reply
    goes to the callback of the command after the one it answers. *)
Theorem reconnect_select_out_of_step c s a script :
  in_step c → rtc step (session_of c) s →
  may_reconnect (se_client s) → succeeds a (se_client s) →
  0 < m_database_index (m_settings (se_client s)) →
  ∃ c' select, on_read None (a :: script) (se_client s) = Some (Returned, c') ∧
    select = [chars "SELECT"; signed_dec (m_database_index (m_settings (se_client s)))] ∧
    m_commands c' = m_commands (se_client s) ++ auth_request (se_client s)
      ++ [mkRequest select (Some ReSelect)] ∧
    outgoing c' = (select :: (command <$> m_commands c')) ≫= build_command.
Proof.
  intros Hc Hrun Hmay Hs Hdb. destruct (pipelined_run c s Hc Hrun) as [k Hp].
  destruct (drop_reconnects _ _ _ a script Hp Hmay Hs) as (c' & Hon & Hr & Hq & Hi).
  assert (select_request (se_client s) = [mkRequest [chars "SELECT";
    signed_dec (m_database_index (m_settings (se_client s)))] (Some ReSelect)]) as Hsel
    by (unfold select_request; by rewrite (proj2 (Z.leb_gt _ _) Hdb)).
  unfold requeued in Hq. rewrite Hsel in Hq, Hi. destruct Hi as (_ & _ & _ & _ & Ho).
  eexists c', _. split_and!; done.
Qed.

Definition with_db (n : Z) (c : client) : client :=
  let s := m_settings c in
  set_settings c (mkSettings (m_redis_server s) (m_redis_port s) (m_master_name s)
    (m_password s) n (m_max_reconnects s) (m_reconnect_interval_ms s) (m_connect_timeout_ms s)
    (m_connect_callback s)).

Lemma reconnect_select_out_of_step_witness :
  ∃ c' select, on_read None [mkAttempt (NoMaster []) true true] (with_db 2 connected_client) = Some (Returned, c') ∧
    select = [chars "SELECT"; chars "2"] ∧
    m_commands c' = [mkRequest select (Some ReSelect)] ∧
    outgoing c' = (select :: (command <$> m_commands c')) ≫= build_command.
Proof.
  apply (reconnect_select_out_of_step (with_db 2 connected_client)
    (session_of (with_db 2 connected_client)) (mkAttempt (NoMaster []) true true) []).
  - unfold in_step. split_and!; try reflexivity; [vm_compute; lia|constructor].
  - apply rtc_refl.
  - split; [reflexivity|right; vm_compute; reflexivity].
  - split; [reflexivity|]. split; [reflexivity|left; reflexivity].
  - vm_compute. reflexivity.
Defined.

(** A malformed reply stalls the connection: the exception of the builder
    leaves the client connected, but no read is requested any more, so no later
    reply can arrive; the commands waiting stay in the queue, and the replies
    built before the malformed one stay in the builder, undelivered, even
    through the reset of a later disconnection. *)
Theorem malformed_reply_stalls c s d script rb what :
  in_step c → rtc step (session_of c) s →
  m_read_requests (cn_tcp (m_client (se_client s))) = 1%nat →
  rb_feed (cn_builder (m_client (se_client s))) d = Thrown rb what →
  ∃ c', on_read (Some d) script (se_client s) = Some (Returned, c') ∧ is_connected c' = true ∧
    m_read_requests (cn_tcp (m_client c')) = 0%nat ∧ m_commands c' = m_commands (se_client s) ∧
    rb_available (cn_builder (m_client c')) = rb_available rb ∧
    rb_available (cn_builder (cn_dropped (m_client c'))) = rb_available rb.
Proof.
  intros Hc Hrun Hone Hf. destruct (pipelined_run c s Hc Hrun) as [k Hp].
  destruct Hp as (Hcon & Hr & Hh & _).
  unfold on_read, cn_receive. cbn [cn_builder]. rewrite Hf.
  unfold call_disconnection_handler. cbn [set_client m_client cn_handlers]. rewrite Hh.
  unfold connection_disconnection_handler, is_reconnecting. cbn [set_client m_reconnecting]. rewrite Hr.
  set (c1 := notify dropped _).
  assert (m_client c1 = mkConn (process_read (cn_tcp (m_client (se_client s))))
    (cn_buffer (m_client (se_client s))) rb true ∧ m_commands c1 = m_commands (se_client s)) as [E1 E2].
  { subst c1. autorewrite with redis_notify. done. }
  unfold is_connected, cn_is_connected in Hcon.
  assert (is_connected c1 = true) as Hc1 by (unfold is_connected, cn_is_connected; by rewrite E1).
  rewrite reconnect_loop_connected, Hc1 by done. eexists. split; [done|].
  cbn [set_reconnecting m_client m_commands is_connected cn_is_connected]. rewrite E1, E2.
  unfold process_read. cbn [cn_tcp m_read_requests]. rewrite Hone. done.
Qed.

Lemma malformed_reply_stalls_witness :
  ∃ rb c', on_read (Some (chars "+OK" ++ crlf ++ chars "?")) [] connected_client = Some (Returned, c') ∧
    is_connected c' = true ∧
    m_read_requests (cn_tcp (m_client c')) = 0%nat ∧ m_commands c' = m_commands connected_client ∧
    rb_available (cn_builder (m_client c')) = rb_available rb ∧
    rb_available (cn_builder (cn_dropped (m_client c'))) = rb_available rb.
Proof.
  eexists. eapply (malformed_reply_stalls connected_client (session_of connected_client)).
  - exact connected_client_in_step.
  - apply rtc_refl.
  - reflexivity.
  - vm_compute. reflexivity.
Defined.
