(* ===== verification/RedisSubscriber.v ===== *)
(** * [cpp_redis::subscriber]: channels, patterns and their callbacks

    [core/subscriber.cpp] over the connection of RedisConn.  A callback is a name
    and its execution an event.  The callbacks of channels run with the mutex of
    the tables held, and the reconnection holds both, so no operation on the
    tables falls inside one: handlers are atomic here. *)

From S2P Require Import Prelude CppBase.
From S2P Require Import RedisReply RedisResp RedisConn RedisSentinel RedisClient.
#[local] Open Scope res_scope.

(** ** [std::map<std::string, V>]: entries in the order of the keys *)
Fixpoint str_lt (a b : Str) : bool :=
  match a, b with
  | _, [] => false
  | [], _ :: _ => true
  | x :: a, y :: b =>
      if Nat.ltb (nat_of_ascii x) (nat_of_ascii y) then true
      else if Nat.ltb (nat_of_ascii y) (nat_of_ascii x) then false else str_lt a b
  end.
Definition std_map (V : Type) := list (Str * V).
Fixpoint map_insert {V} (k : Str) (v : V) (m : std_map V) : std_map V :=
  match m with
  | [] => [(k, v)]
  | (k', v') :: m' =>
      if str_lt k k' then (k, v) :: m
      else if str_lt k' k then (k', v') :: map_insert k v m' else (k, v) :: m'
  end.
Fixpoint map_find {V} (k : Str) (m : std_map V) : option V :=
  match m with
  | [] => None
  | (k', v) :: m => if bool_decide (k = k') then Some v else map_find k m
  end.
Fixpoint map_erase {V} (k : Str) (m : std_map V) : std_map V :=
  match m with
  | [] => []
  | (k', v) :: m => if bool_decide (k = k') then m else (k', v) :: map_erase k m
  end.

(** ** State *)

(** [struct callback_holder]; an empty [std::function] is no callback. *)
Record callback_holder := mkHolder {
  subscribe_callback : option nat; acknowledgement_callback : option nat
}.
Inductive reply_callback := RUser (n : nat) | RReAuth | RReSetname.

Inductive sub_event :=
  | EMessage (k : nat) (channel message : Str)
  | EAck (k : nat) (nb_chans : Z)
  | EReply (k : reply_callback) (r : reply)
  | ENotified (host : Str) (port : Z) (s : connect_state).

Record sub_settings := mkSubSettings {
  sb_server : Str;
  sb_port : Z;
  sb_master_name : Str;
  sb_password : Str;
  sb_client_name : Str;
  sb_max_reconnects : Z;
  sb_interval_ms : Z;
  sb_has_callback : bool
}.

Record subscriber := mkSub {
  sb_client : redis_connection;
  sb_settings : sub_settings;
  sb_reconnecting : bool;
  sb_cancel : bool;
  sb_attempts : Z;
  m_subscribed_channels : std_map callback_holder;
  m_psubscribed_channels : std_map callback_holder;
  m_auth_reply_callback : option reply_callback;
  m_client_setname_reply_callback : option reply_callback;
  sb_events : list sub_event
}.
Definition new_subscriber : subscriber :=
  mkSub new_connection (mkSubSettings [] 0 [] [] [] 0 0 false) false false 0 [] [] None None [].

Definition sb_set_client (k : redis_connection) (s : subscriber) : subscriber :=
  mkSub k (sb_settings s) (sb_reconnecting s) (sb_cancel s) (sb_attempts s) (m_subscribed_channels s)
    (m_psubscribed_channels s) (m_auth_reply_callback s) (m_client_setname_reply_callback s) (sb_events s).
Definition sb_set_settings (x : sub_settings) (s : subscriber) : subscriber :=
  mkSub (sb_client s) x (sb_reconnecting s) (sb_cancel s) (sb_attempts s) (m_subscribed_channels s)
    (m_psubscribed_channels s) (m_auth_reply_callback s) (m_client_setname_reply_callback s) (sb_events s).
Definition sb_set_reconnecting (b : bool) (n : Z) (s : subscriber) : subscriber :=
  mkSub (sb_client s) (sb_settings s) b (sb_cancel s) n (m_subscribed_channels s)
    (m_psubscribed_channels s) (m_auth_reply_callback s) (m_client_setname_reply_callback s) (sb_events s).
Definition sb_set_channels (c p : std_map callback_holder) (s : subscriber) : subscriber :=
  mkSub (sb_client s) (sb_settings s) (sb_reconnecting s) (sb_cancel s) (sb_attempts s) c p
    (m_auth_reply_callback s) (m_client_setname_reply_callback s) (sb_events s).
Definition sb_set_replies (a n : option reply_callback) (s : subscriber) : subscriber :=
  mkSub (sb_client s) (sb_settings s) (sb_reconnecting s) (sb_cancel s) (sb_attempts s)
    (m_subscribed_channels s) (m_psubscribed_channels s) a n (sb_events s).
Definition sb_emit (e : sub_event) (s : subscriber) : subscriber :=
  mkSub (sb_client s) (sb_settings s) (sb_reconnecting s) (sb_cancel s) (sb_attempts s)
    (m_subscribed_channels s) (m_psubscribed_channels s) (m_auth_reply_callback s)
    (m_client_setname_reply_callback s) (sb_events s ++ [e]).

Definition sb_is_connected (s : subscriber) : bool := cn_is_connected (sb_client s).
Definition sb_cancel_reconnect (s : subscriber) : subscriber :=
  mkSub (sb_client s) (sb_settings s) (sb_reconnecting s) true (sb_attempts s) (m_subscribed_channels s)
    (m_psubscribed_channels s) (m_auth_reply_callback s) (m_client_setname_reply_callback s) (sb_events s).
Definition sb_disconnect (s : subscriber) : subscriber :=
  sb_set_client (cn_disconnect (sb_client s)) s.

Definition sb_notify (c : connect_state) (s : subscriber) : subscriber :=
  if sb_has_callback (sb_settings s)
  then sb_emit (ENotified (sb_server (sb_settings s)) (sb_port (sb_settings s)) c) s else s.

(** ** Commands *)
Definition sb_send (redis_cmd : list Str) (s : subscriber) : subscriber :=
  sb_set_client (cn_send redis_cmd (sb_client s)) s.

Definition sb_auth (password : Str) (k : option reply_callback) (s : subscriber) : subscriber :=
  let x := sb_settings s in
  let s := sb_set_settings (mkSubSettings (sb_server x) (sb_port x) (sb_master_name x) password
    (sb_client_name x) (sb_max_reconnects x) (sb_interval_ms x) (sb_has_callback x)) s in
  let s := sb_set_replies k (m_client_setname_reply_callback s) s in
  sb_send [chars "AUTH"; password] s.

Definition client_setname (name : Str) (k : option reply_callback) (s : subscriber) : subscriber :=
  let x := sb_settings s in
  let s := sb_set_settings (mkSubSettings (sb_server x) (sb_port x) (sb_master_name x) (sb_password x)
    name (sb_max_reconnects x) (sb_interval_ms x) (sb_has_callback x)) s in
  let s := sb_set_replies (m_auth_reply_callback s) k s in
  sb_send [chars "CLIENT"; chars "SETNAME"; name] s.

Definition unprotected_subscribe (channel : Str) (h : callback_holder) (s : subscriber) : subscriber :=
  sb_send [chars "SUBSCRIBE"; channel]
    (sb_set_channels (map_insert channel h (m_subscribed_channels s)) (m_psubscribed_channels s) s).
Definition subscribe : Str → callback_holder → subscriber → subscriber := unprotected_subscribe.
Definition unprotected_psubscribe (pattern : Str) (h : callback_holder) (s : subscriber) : subscriber :=
  sb_send [chars "PSUBSCRIBE"; pattern]
    (sb_set_channels (m_subscribed_channels s) (map_insert pattern h (m_psubscribed_channels s)) s).
Definition psubscribe : Str → callback_holder → subscriber → subscriber := unprotected_psubscribe.

Definition unsubscribe (channel : Str) (s : subscriber) : subscriber :=
  match map_find channel (m_subscribed_channels s) with
  | None => s
  | Some _ =>
      let s := sb_send [chars "UNSUBSCRIBE"; channel] s in
      sb_set_channels (map_erase channel (m_subscribed_channels s)) (m_psubscribed_channels s) s
  end.
Definition punsubscribe (pattern : Str) (s : subscriber) : subscriber :=
  match map_find pattern (m_psubscribed_channels s) with
  | None => s
  | Some _ =>
      let s := sb_send [chars "PUNSUBSCRIBE"; pattern] s in
      sb_set_channels (m_subscribed_channels s) (map_erase pattern (m_psubscribed_channels s)) s
  end.

(** [commit]; false is the rethrown [redis_error]. *)
Definition sb_commit (s : subscriber) : bool * subscriber :=
  let '(ok, k) := cn_commit (sb_client s) in (ok, sb_set_client k s).

(** ** Receiving *)
Definition call_acknowledgement_callback (channel : Str) (channels : std_map callback_holder)
    (nb_chans : Z) (s : subscriber) : subscriber :=
  match map_find channel channels with
  | None => s
  | Some h =>
      match acknowledgement_callback h with
      | Some k => sb_emit (EAck k nb_chans) s
      | None => s
      end
  end.

(** Calling an empty [std::function] throws. *)
Definition call_subscribe_callback (h : callback_holder) (channel message : Str) (s : subscriber)
    : res subscriber :=
  match subscribe_callback h with
  | Some k => Ret (sb_emit (EMessage k channel message) s)
  | None => Throw "bad_function_call"
  end.

Definition handle_acknowledgement_reply (r : list reply) (s : subscriber) : res subscriber :=
  match r with
  | [title; channel; nb_chans] =>
      if negb (is_string title) || negb (is_string channel) || negb (is_integer nb_chans) then Ret s
      else
        t <- as_string title; c <- as_string channel; n <- as_integer nb_chans;
        if bool_decide (t = chars "subscribe") then
          Ret (call_acknowledgement_callback c (m_subscribed_channels s) n s)
        else if bool_decide (t = chars "psubscribe") then
          Ret (call_acknowledgement_callback c (m_psubscribed_channels s) n s)
        else Ret s
  | _ => Ret s
  end.

Definition handle_subscribe_reply (r : list reply) (s : subscriber) : res subscriber :=
  match r with
  | [title; channel; message] =>
      if negb (is_string title) || negb (is_string channel) || negb (is_string message) then Ret s
      else
        t <- as_string title; c <- as_string channel; m <- as_string message;
        if bool_decide (t ≠ chars "message") then Ret s
        else
          match map_find c (m_subscribed_channels s) with
          | None => Ret s
          | Some h => call_subscribe_callback h c m s
          end
  | _ => Ret s
  end.

Definition handle_psubscribe_reply (r : list reply) (s : subscriber) : res subscriber :=
  match r with
  | [title; pchannel; channel; message] =>
      if negb (is_string title) || negb (is_string pchannel) || negb (is_string channel)
         || negb (is_string message) then Ret s
      else
        t <- as_string title; p <- as_string pchannel; c <- as_string channel; m <- as_string message;
        if bool_decide (t ≠ chars "pmessage") then Ret s
        else
          match map_find p (m_psubscribed_channels s) with
          | None => Ret s
          | Some h => call_subscribe_callback h c m s
          end
  | _ => Ret s
  end.

(** The lambdas of [re_auth] and [re_client_setname] log the text of the reply. *)
Definition call_reply_callback (k : reply_callback) (r : reply) (s : subscriber) : res subscriber :=
  match k with
  | RUser _ => Ret (sb_emit (EReply k r) s)
  | RReAuth | RReSetname => _ <- as_string r; Ret (sb_emit (EReply k r) s)
  end.

Definition sb_receive_handler (r : reply) (s : subscriber) : res subscriber :=
  if negb (is_array r) then
    match m_auth_reply_callback s, m_client_setname_reply_callback s with
    | Some k, _ =>
        s <- call_reply_callback k r s;
        Ret (sb_set_replies None (m_client_setname_reply_callback s) s)
    | None, Some k =>
        s <- call_reply_callback k r s; Ret (sb_set_replies (m_auth_reply_callback s) None s)
    | None, None => Ret s
    end
  else
    arr <- as_array r;
    match arr with
    | [_; _; x] =>
        if is_integer x then handle_acknowledgement_reply arr s
        else if is_string x then handle_subscribe_reply arr s else Ret s
    | [_; _; _; _] => handle_psubscribe_reply arr s
    | _ => Ret s
    end.

Fixpoint sb_deliver (rs : list reply) (s : subscriber) : res subscriber :=
  match rs with
  | [] => Ret s
  | r :: rs => s <- sb_receive_handler r s; sb_deliver rs s
  end.

(** ** Reconnection *)
Definition sb_connect (host : Str) (port : Z) (has_callback : bool) (max_reconnects interval : Z)
    (up : bool) (s : subscriber) : bool * subscriber :=
  let x := sb_settings s in
  let s := sb_set_settings (mkSubSettings host port (sb_master_name x) (sb_password x)
    (sb_client_name x) max_reconnects interval has_callback) s in
  let s := sb_notify start s in
  let '(ok, k) := cn_connect up (sb_client s) in
  let s := sb_set_client k s in
  if ok : bool then (true, sb_notify st_ok s) else (false, s).

Definition sb_set_address (host : Str) (port : Z) (s : subscriber) : subscriber :=
  let x := sb_settings s in
  sb_set_settings (mkSubSettings host port (sb_master_name x) (sb_password x) (sb_client_name x)
    (sb_max_reconnects x) (sb_interval_ms x) (sb_has_callback x)) s.
Definition sb_ask_sentinel (l : lookup_answer) (s : subscriber) : option bool * subscriber :=
  match l with
  | Master host port => (Some true, sb_set_address host port s)
  | NoMaster host => (Some false, sb_set_address host 0 s)
  | LookupThrows => (None, sb_set_address [] 0 s)
  end.

(** [connect(name, ...)]; false is the exception. *)
Definition sb_connect_master (name : Str) (has_callback : bool) (max_reconnects interval : Z)
    (l : lookup_answer) (up : bool) (s : subscriber) : bool * subscriber :=
  let x := sb_settings s in
  let s := sb_set_settings (mkSubSettings (sb_server x) (sb_port x) name (sb_password x)
    (sb_client_name x) (sb_max_reconnects x) (sb_interval_ms x) (sb_has_callback x)) s in
  match sb_ask_sentinel l s with
  | (Some true, s) =>
      sb_connect (sb_server (sb_settings s)) (sb_port (sb_settings s)) has_callback
        max_reconnects interval up s
  | (_, s) => (false, s)
  end.

Definition sb_should_reconnect (s : subscriber) : bool :=
  negb (sb_is_connected s) && negb (sb_cancel s) &&
  ((sb_max_reconnects (sb_settings s) =? -1) || (sb_attempts s <? sb_max_reconnects (sb_settings s))).
Definition sb_sleep (s : subscriber) : subscriber :=
  if sb_interval_ms (sb_settings s) <=? 0 then s else sb_notify sleeping s.

Definition sb_re_auth (s : subscriber) : subscriber :=
  if bool_decide (sb_password (sb_settings s) = []) then s
  else sb_auth (sb_password (sb_settings s)) (Some RReAuth) s.
Definition re_client_setname (s : subscriber) : subscriber :=
  if bool_decide (sb_client_name (sb_settings s) = []) then s
  else client_setname (sb_client_name (sb_settings s)) (Some RReSetname) s.

(** The tables are moved out and filled again in their order. *)
Definition re_subscribe (s : subscriber) : subscriber :=
  let sub_chans := m_subscribed_channels s in
  let s := sb_set_channels [] (m_psubscribed_channels s) s in
  let s := foldl (λ s e, unprotected_subscribe e.1 e.2 s) s sub_chans in
  let psub_chans := m_psubscribed_channels s in
  let s := sb_set_channels (m_subscribed_channels s) [] s in
  foldl (λ s e, unprotected_psubscribe e.1 e.2 s) s psub_chans.

Definition clear_subscriptions (s : subscriber) : subscriber := sb_set_channels [] [] s.

(** [reconnect]; false is an exception that leaves it. *)
Definition sb_reconnect (a : attempt) (s : subscriber) : bool * subscriber :=
  let s := sb_set_reconnecting (sb_reconnecting s) (sb_attempts s + 1) s in
  let '(found, s) := if bool_decide (sb_master_name (sb_settings s) = []) then (Some true, s)
                     else sb_ask_sentinel (at_master a) s in
  match found with
  | None => (false, s)
  | Some false => (true, sb_notify lookup_failed s)
  | Some true =>
      let x := sb_settings s in
      let '(_, s) := sb_connect (sb_server x) (sb_port x) (sb_has_callback x) (sb_max_reconnects x)
                       (sb_interval_ms x) (at_up a) s in
      if negb (sb_is_connected s) then (true, sb_notify failed s)
      else
        let s := re_subscribe (re_client_setname (sb_re_auth (sb_notify st_ok s))) in
        let k := sb_client s in
        let s := if at_alive a then s
                 else sb_set_client (mkConn (tcp_disconnect (cn_tcp k)) (cn_buffer k) (cn_builder k)
                        (cn_handlers k)) s in
        sb_commit s
  end.

Fixpoint sb_reconnect_loop (script : list attempt) (s : subscriber) : outcome * subscriber :=
  if sb_should_reconnect s then
    match script with
    | [] => (Trying, s)
    | a :: script =>
        let '(ok, s) := sb_reconnect a (sb_sleep s) in
        if ok : bool then sb_reconnect_loop script s else (Escaped, s)
    end
  else (Returned, s).

Definition sb_disconnection_handler (script : list attempt) (s : subscriber) : outcome * subscriber :=
  if sb_reconnecting s then (Returned, s)
  else
    let s := sb_notify dropped (sb_set_reconnecting true 0 s) in
    match sb_reconnect_loop script s with
    | (Returned, s) =>
        let s := if sb_is_connected s then s else sb_notify stopped (clear_subscriptions s) in
        (Returned, sb_set_reconnecting false (sb_attempts s) s)
    | r => r
    end.

(** ** What the I/O thread calls *)
Definition sb_call_handler (script : list attempt) (s : subscriber) : outcome * subscriber :=
  if cn_handlers (sb_client s) then sb_disconnection_handler script s else (Returned, s).

Definition sb_on_read (data : option Str) (script : list attempt) (s : subscriber)
    : res (outcome * subscriber) :=
  let k := sb_client s in
  let t := process_read (cn_tcp k) in
  match data with
  | None =>
      let k := cn_dropped (mkConn (tcp_disconnect t) (cn_buffer k) (cn_builder k) (cn_handlers k)) in
      Ret (sb_call_handler script (sb_set_client k s))
  | Some data =>
      match cn_receive data (mkConn t (cn_buffer k) (cn_builder k) (cn_handlers k)) with
      | None => Undef
      | Some (inl (rs, k)) =>
          let s := sb_set_client k s in
          s <- (if cn_handlers k then sb_deliver rs s else Ret s);
          Ret (Returned, sb_set_client (cn_read_again (sb_client s)) s)
      | Some (inr k) => Ret (sb_call_handler script (sb_set_client k s))
      end
  end.

Definition sb_on_write (sent : option nat) (script : list attempt) (s : subscriber)
    : outcome * subscriber :=
  let k := sb_client s in
  let '(broken, t) := on_write_available sent (cn_tcp k) in
  let k := mkConn t (cn_buffer k) (cn_builder k) (cn_handlers k) in
  if broken : bool then sb_call_handler script (sb_set_client (cn_dropped k) s)
  else (Returned, sb_set_client k s).
