(* ===== verification/RedisSubscriberSpec.v ===== *)
(** * What [cpp_redis::subscriber] guarantees

    The tables of channels and patterns agree with the subscriptions of the
    server that reads the subscriber's bytes, also after reconnections, and
    every pushed message runs the callback registered for its channel. *)

From S2P Require Import Prelude CppBase.
From S2P Require Import RedisReply RedisResp RedisConn RedisSentinel RedisClient RedisSubscriber.
#[local] Open Scope res_scope.

(** ** The ordered map *)
Lemma str_lt_irrefl a : str_lt a a = false.
Proof. induction a as [|x a IH]; [done|]. cbn [str_lt]. by rewrite Nat.ltb_irrefl. Qed.

Lemma str_lt_total a b : str_lt a b = false → str_lt b a = false → a = b.
Proof.
  revert b. induction a as [|x a IH]; intros [|y b]; cbn [str_lt]; try done.
  destruct (Nat.ltb_spec (nat_of_ascii x) (nat_of_ascii y)); [done|].
  destruct (Nat.ltb_spec (nat_of_ascii y) (nat_of_ascii x)); [done|]. intros H1 H2.
  f_equal; [|by apply IH]. rewrite <-(ascii_nat_embedding x), <-(ascii_nat_embedding y). f_equal. lia.
Qed.

Lemma str_lt_trans a b c : str_lt a b = true → str_lt b c = true → str_lt a c = true.
Proof.
  revert b c. induction a as [|x a IH]; intros [|y b] [|z c]; cbn [str_lt]; try done.
  repeat match goal with |- context [Nat.ltb ?m ?n] => destruct (Nat.ltb_spec m n) end;
    try done; try lia. apply IH.
Qed.

Definition sorted {V} (m : std_map V) : Prop := StronglySorted (λ x y, str_lt x.1 y.1 = true) m.

Lemma map_insert_keys {V} k (v : V) m x : x ∈ map_insert k v m → x = (k, v) ∨ x ∈ m.
Proof.
  induction m as [|[k' v'] m IH]; cbn [map_insert]; [set_solver|].
  repeat case_match; set_solver.
Qed.

Lemma map_insert_sorted {V} k (v : V) m : sorted m → sorted (map_insert k v m).
Proof.
  induction m as [|[k' v'] m IH]; intros Hm; cbn [map_insert]; [repeat constructor|].
  inversion Hm as [|? ? Hs Hall]; subst. destruct (str_lt k k') eqn:H1.
  - constructor; [done|]. constructor; [done|]. eapply Forall_impl; [exact Hall|]. cbn.
    intros y. by apply str_lt_trans.
  - destruct (str_lt k' k) eqn:H2.
    + constructor; [by apply IH|]. apply Forall_forall. intros x [->|Hx]%map_insert_keys; [done|].
      by eapply Forall_forall in Hall.
    + constructor; [done|]. by rewrite (str_lt_total _ _ H1 H2).
Qed.

Lemma map_find_insert {V} k k' (v : V) m :
  map_find k' (map_insert k v m) = if bool_decide (k' = k) then Some v else map_find k' m.
Proof.
  induction m as [|[k1 v1] m IH]; cbn [map_insert map_find]; [done|].
  destruct (str_lt k k1) eqn:H1; cbn [map_find]; [done|].
  destruct (str_lt k1 k) eqn:H2; cbn [map_find].
  - rewrite IH. repeat case_bool_decide; try done. subst. by rewrite str_lt_irrefl in H2.
  - pose proof (str_lt_total _ _ H1 H2) as <-. by case_bool_decide.
Qed.

Lemma map_find_above {V} k (m : std_map V) :
  Forall (λ y, str_lt k y.1 = true) m → map_find k m = None.
Proof.
  induction 1 as [|[k' v'] m Hk _ IH]; cbn [map_find]; [done|]. cbn in Hk.
  rewrite bool_decide_false; [done|]. intros ->. by rewrite str_lt_irrefl in Hk.
Qed.

Lemma map_find_erase {V} k k' (m : std_map V) : sorted m →
  map_find k' (map_erase k m) = if bool_decide (k' = k) then None else map_find k' m.
Proof.
  induction 1 as [|[k1 v1] m Hs IH Hall]; cbn [map_erase map_find]; [by case_bool_decide|].
  destruct (decide (k = k1)) as [->|Hne].
  - rewrite (bool_decide_true (k1 = k1)) by done. case_bool_decide; [subst|done].
    by apply map_find_above.
  - rewrite (bool_decide_false (k = k1)) by done. cbn [map_find]. rewrite IH.
    repeat case_bool_decide; congruence.
Qed.

Lemma map_erase_sublist {V} k (m : std_map V) x : x ∈ map_erase k m → x ∈ m.
Proof. induction m as [|[k1 v1] m IH]; cbn [map_erase]; [done|]. case_bool_decide; set_solver. Qed.

Lemma map_erase_sorted {V} k (m : std_map V) : sorted m → sorted (map_erase k m).
Proof.
  induction 1 as [|[k1 v1] m Hs IH Hall]; cbn [map_erase]; [constructor|].
  case_bool_decide; [done|]. constructor; [done|]. apply Forall_forall. intros x Hx%map_erase_sublist.
  by eapply Forall_forall in Hall.
Qed.

(** Filling an empty map in the order of the keys gives the map back. *)
Lemma map_insert_last {V} k (v : V) m :
  Forall (λ x, str_lt x.1 k = true) m → map_insert k v m = m ++ [(k, v)].
Proof.
  induction 1 as [|[k' v'] m Hk _ IH]; cbn [map_insert app]; [done|]. cbn in Hk.
  destruct (str_lt k k') eqn:H.
  - pose proof (str_lt_trans _ _ _ H Hk) as Hx. by rewrite str_lt_irrefl in Hx.
  - by rewrite Hk, IH.
Qed.

Lemma map_refill {V} (m acc : std_map V) : sorted (acc ++ m) →
  foldl (λ acc e, map_insert e.1 e.2 acc) acc m = acc ++ m.
Proof.
  revert acc. induction m as [|[k v] m IH]; intros acc Hs; [by rewrite app_nil_r|].
  cbn [foldl fst snd]. rewrite map_insert_last.
  - rewrite IH; by rewrite <-app_assoc.
  - clear IH. induction acc as [|x acc IH]; [constructor|]. inversion Hs as [|? ? Hs' Hall]; subst.
    constructor; [|by apply IH]. rewrite Forall_app, Forall_cons in Hall. apply Hall.
Qed.

Definition keys_ok (cmd : string) (m : std_map callback_holder) : Prop :=
  Forall (λ e, command_ok [chars cmd; e.1]) m.

Lemma keys_insert cmd k h m : command_ok [chars cmd; k] → keys_ok cmd m → keys_ok cmd (map_insert k h m).
Proof.
  intros Hk Hm. apply Forall_forall. intros x [->|Hx]%map_insert_keys; [done|]. by eapply Forall_forall in Hm.
Qed.
Lemma keys_erase cmd k m : keys_ok cmd m → keys_ok cmd (map_erase k m).
Proof.
  intros Hm. apply Forall_forall. intros x Hx%map_erase_sublist. by eapply Forall_forall in Hm.
Qed.

(** ** The server's side *)

(** The subscriptions of a connection after one command. *)
Definition serve (st : gset Str * gset Str) (cmd : list Str) : gset Str * gset Str :=
  match cmd with
  | [c; x] =>
      if bool_decide (c = chars "SUBSCRIBE") then ({[x]} ∪ st.1, st.2)
      else if bool_decide (c = chars "UNSUBSCRIBE") then (st.1 ∖ {[x]}, st.2)
      else if bool_decide (c = chars "PSUBSCRIBE") then (st.1, {[x]} ∪ st.2)
      else if bool_decide (c = chars "PUNSUBSCRIBE") then (st.1, st.2 ∖ {[x]})
      else st
  | _ => st
  end.
Definition serve_all (cmds : list (list Str)) : gset Str * gset Str := foldl serve (∅, ∅) cmds.

(** The subscriptions of a server that has read these bytes. *)
Definition cmd_of_reply (r : reply) : list Str := m_str_val <$> m_rows r.
Definition server_subscriptions (bytes : Str) : option (gset Str * gset Str) :=
  match rb_feed new_reply_builder bytes with
  | Fed rb => Some (serve_all (cmd_of_reply <$> rb_available rb))
  | _ => None
  end.

Lemma server_reads_commands cmds :
  Forall command_ok cmds → server_subscriptions (cmds ≫= build_command) = Some (serve_all cmds).
Proof.
  intros Hok. unfold server_subscriptions. rewrite commands_bytes.
  rewrite (rb_feed_values []) by (apply Forall_fmap; eapply Forall_impl; [exact Hok|apply command_value_valid]).
  cbn [rb_available app]. do 2 f_equal. rewrite <-!list_fmap_compose.
  rewrite <-(list_fmap_id cmds) at 2. apply list_fmap_ext. intros i cmd _. cbn.
  unfold cmd_of_reply. cbn [reply_of command_value m_rows]. rewrite <-!list_fmap_compose.
  rewrite <-(list_fmap_id cmd) at 2. by apply list_fmap_ext.
Qed.

Lemma serve_all_snoc cmds cmd : serve_all (cmds ++ [cmd]) = serve (serve_all cmds) cmd.
Proof. unfold serve_all. by rewrite foldl_app. Qed.

(** The sets are the keys of the tables. *)
Definition covers (st : gset Str * gset Str) (c p : std_map callback_holder) : Prop :=
  (∀ x, x ∈ st.1 ↔ is_Some (map_find x c)) ∧ (∀ x, x ∈ st.2 ↔ is_Some (map_find x p)).

Lemma covers_subscribe st c p x h :
  covers st c p → covers (serve st [chars "SUBSCRIBE"; x]) (map_insert x h c) p.
Proof.
  intros [Hc Hp]. split; [|done]. intros y. change (serve st _).1 with ({[x]} ∪ st.1).
  rewrite map_find_insert, elem_of_union, elem_of_singleton, Hc. case_bool_decide; naive_solver.
Qed.
Lemma covers_psubscribe st c p x h :
  covers st c p → covers (serve st [chars "PSUBSCRIBE"; x]) c (map_insert x h p).
Proof.
  intros [Hc Hp]. split; [done|]. intros y. change (serve st _).2 with ({[x]} ∪ st.2).
  rewrite map_find_insert, elem_of_union, elem_of_singleton, Hp. case_bool_decide; naive_solver.
Qed.
Lemma covers_unsubscribe st c p x :
  sorted c → covers st c p → covers (serve st [chars "UNSUBSCRIBE"; x]) (map_erase x c) p.
Proof.
  intros Hs [Hc Hp]. split; [|done]. intros y. change (serve st _).1 with (st.1 ∖ {[x]}).
  rewrite map_find_erase, elem_of_difference, elem_of_singleton, Hc by done.
  case_bool_decide; [|naive_solver]. split; [naive_solver|by intros [? ?]].
Qed.
Lemma covers_punsubscribe st c p x :
  sorted p → covers st c p → covers (serve st [chars "PUNSUBSCRIBE"; x]) c (map_erase x p).
Proof.
  intros Hs [Hc Hp]. split; [done|]. intros y. change (serve st _).2 with (st.2 ∖ {[x]}).
  rewrite map_find_erase, elem_of_difference, elem_of_singleton, Hp by done.
  case_bool_decide; [|naive_solver]. split; [naive_solver|by intros [? ?]].
Qed.

(** ** The invariant of a subscriber that is connected *)
Definition sb_outgoing (s : subscriber) : Str :=
  tcp_wire (cn_tcp (sb_client s)) ++ concat (m_write_requests (cn_tcp (sb_client s)))
  ++ cn_buffer (sb_client s).

Definition credentials_ok (s : subscriber) : Prop :=
  command_ok [chars "AUTH"; sb_password (sb_settings s)] ∧
  command_ok [chars "CLIENT"; chars "SETNAME"; sb_client_name (sb_settings s)].
Definition tables_ok (s : subscriber) : Prop :=
  sorted (m_subscribed_channels s) ∧ sorted (m_psubscribed_channels s) ∧
  keys_ok "SUBSCRIBE" (m_subscribed_channels s) ∧ keys_ok "PSUBSCRIBE" (m_psubscribed_channels s).

(** The bytes on their way are commands whose effect are these tables, or
    the subscriber's own. *)
Definition sent_as (c p : std_map callback_holder) (s : subscriber) : Prop :=
  ∃ cmds, Forall command_ok cmds ∧ sb_outgoing s = cmds ≫= build_command ∧ covers (serve_all cmds) c p.
Definition sent (s : subscriber) : Prop :=
  sent_as (m_subscribed_channels s) (m_psubscribed_channels s) s.

Definition synced (s : subscriber) : Prop :=
  sb_is_connected s = true ∧ sb_reconnecting s = false ∧ cn_handlers (sb_client s) = true ∧
  credentials_ok s ∧ tables_ok s ∧ sent s.

(** Sending one command together with its effect on the tables. *)
Lemma sent_as_send cmd c p c' p' s :
  command_ok cmd → sent_as c p s → (∀ st, covers st c p → covers (serve st cmd) c' p') →
  sent_as c' p' (sb_send cmd s).
Proof.
  intros Hcmd (cmds & Hok & Ho & Hc) Hst. exists (cmds ++ [cmd]). split_and!.
  - apply Forall_app_2; [done|by constructor].
  - rewrite bind_app, <-Ho. unfold sb_outgoing. cbn. by rewrite !app_nil_r, <-!app_assoc.
  - rewrite serve_all_snoc. by apply Hst.
Qed.
Lemma sent_send cmd c p s :
  command_ok cmd → sent s →
  (∀ st, covers st (m_subscribed_channels s) (m_psubscribed_channels s) → covers (serve st cmd) c p) →
  sent (sb_send cmd (sb_set_channels c p s)).
Proof.
  intros Hcmd Hs. by apply (sent_as_send cmd (m_subscribed_channels s) (m_psubscribed_channels s)).
Qed.

Lemma synced_subscribe x h s :
  command_ok [chars "SUBSCRIBE"; x] → synced s → synced (subscribe x h s).
Proof.
  intros Hx (Hc & Hr & Hh & Hcr & (T1 & T2 & T3 & T4) & Hs). split_and!; try done.
  - split_and!; try done; [by apply map_insert_sorted|by apply keys_insert].
  - apply sent_send; [done..|]. intros st. apply covers_subscribe.
Qed.
Lemma synced_psubscribe x h s :
  command_ok [chars "PSUBSCRIBE"; x] → synced s → synced (psubscribe x h s).
Proof.
  intros Hx (Hc & Hr & Hh & Hcr & (T1 & T2 & T3 & T4) & Hs). split_and!; try done.
  - split_and!; try done; [by apply map_insert_sorted|by apply keys_insert].
  - apply sent_send; [done..|]. intros st. apply covers_psubscribe.
Qed.
Lemma synced_unsubscribe x s :
  command_ok [chars "UNSUBSCRIBE"; x] → synced s → synced (unsubscribe x s).
Proof.
  intros Hx Hsy. unfold unsubscribe. destruct (map_find x _); [|done].
  destruct Hsy as (Hc & Hr & Hh & Hcr & (T1 & T2 & T3 & T4) & Hs). split_and!; try done.
  - split_and!; try done; [by apply map_erase_sorted|by apply keys_erase].
  - apply (sent_send [chars "UNSUBSCRIBE"; x]); [done..|]. intros st. by apply covers_unsubscribe.
Qed.
Lemma synced_punsubscribe x s :
  command_ok [chars "PUNSUBSCRIBE"; x] → synced s → synced (punsubscribe x s).
Proof.
  intros Hx Hsy. unfold punsubscribe. destruct (map_find x _); [|done].
  destruct Hsy as (Hc & Hr & Hh & Hcr & (T1 & T2 & T3 & T4) & Hs). split_and!; try done.
  - split_and!; try done; [by apply map_erase_sorted|by apply keys_erase].
  - apply (sent_send [chars "PUNSUBSCRIBE"; x]); [done..|]. intros st. by apply covers_punsubscribe.
Qed.

Lemma sent_plain cmd s : command_ok cmd → (∀ st, serve st cmd = st) → sent s → sent (sb_send cmd s).
Proof.
  intros Hcmd Hst Hs. apply (sent_send cmd (m_subscribed_channels s) (m_psubscribed_channels s)); [done..|].
  intros st. by rewrite Hst.
Qed.

Lemma synced_auth p k s : command_ok [chars "AUTH"; p] → synced s → synced (sb_auth p k s).
Proof.
  intros Hp (Hc & Hr & Hh & [C1 C2] & HT & Hs). split_and!; try done. by apply sent_plain.
Qed.
Lemma synced_setname n k s :
  command_ok [chars "CLIENT"; chars "SETNAME"; n] → synced s → synced (client_setname n k s).
Proof.
  intros Hn (Hc & Hr & Hh & [C1 C2] & HT & Hs). split_and!; try done. by apply sent_plain.
Qed.

Lemma synced_commit s : synced s → synced (sb_commit s).2.
Proof.
  intros (Hc & Hr & Hh & Hcr & HT & (cmds & Hok & Ho & Hcov)).
  unfold sb_is_connected, cn_is_connected in Hc.
  unfold sb_commit, cn_commit, async_write. rewrite Hc. cbn [snd].
  split_and!; try done. exists cmds. split_and!; try done.
  rewrite <-Ho. unfold sb_outgoing. cbn. rewrite concat_app. cbn. by rewrite !app_nil_r.
Qed.

Lemma synced_write n s :
  (∀ w ws, m_write_requests (cn_tcp (sb_client s)) = w :: ws → (length w <= n)%nat) →
  synced s → synced (sb_on_write (Some n) [] s).2.
Proof.
  intros Hn (Hc & Hr & Hh & Hcr & HT & (cmds & Hok & Ho & Hcov)).
  unfold sb_on_write, on_write_available.
  destruct (m_write_requests _) as [|w ws] eqn:Hw; cbn [snd].
  - split_and!; try done. exists cmds. done.
  - split_and!; try done. exists cmds. split_and!; try done.
    rewrite <-Ho. unfold sb_outgoing. cbn. rewrite Hw. cbn.
    rewrite firstn_all2 by (by eapply Hn). by rewrite <-!app_assoc.
Qed.

(** *** What receiving leaves alone *)
Definition same_but_events (s s' : subscriber) : Prop :=
  sb_client s' = sb_client s ∧ sb_settings s' = sb_settings s ∧ sb_reconnecting s' = sb_reconnecting s ∧
  sb_cancel s' = sb_cancel s ∧ m_subscribed_channels s' = m_subscribed_channels s ∧
  m_psubscribed_channels s' = m_psubscribed_channels s.

Lemma same_refl s : same_but_events s s.
Proof. done. Qed.
Lemma same_trans s1 s2 s3 : same_but_events s1 s2 → same_but_events s2 s3 → same_but_events s1 s3.
Proof. unfold same_but_events. intros. destruct_and!. split_and!; congruence. Qed.
Lemma same_notify c s : same_but_events s (sb_notify c s).
Proof. unfold sb_notify. by destruct (sb_has_callback _). Qed.

Lemma same_call h c m s s' : call_subscribe_callback h c m s = Ret s' → same_but_events s s'.
Proof. unfold call_subscribe_callback. destruct (subscribe_callback h); [|done]. by intros [= <-]. Qed.
Lemma same_ack c t n s : same_but_events s (call_acknowledgement_callback c t n s).
Proof. unfold call_acknowledgement_callback. repeat case_match; done. Qed.
Lemma same_reply k r s s' : call_reply_callback k r s = Ret s' → same_but_events s s'.
Proof.
  unfold call_reply_callback. destruct k; [by intros [= <-]|..];
    (destruct (as_string r); cbn [rbind]; [by intros [= <-]|done..]).
Qed.

(** Case analysis of a computation in [res] that returned. *)
Ltac res_cases :=
  repeat match goal with
  | H : rbind ?m _ = Ret _ |- _ => destruct m eqn:?; cbn [rbind] in H; try discriminate H
  | H : Ret _ = Ret _ |- _ => injection H as H
  | H : context [match ?x with _ => _ end] |- _ => destruct x eqn:?; try discriminate H
  end.

Lemma same_receive r s s' : sb_receive_handler r s = Ret s' → same_but_events s s'.
Proof.
  unfold sb_receive_handler, handle_acknowledgement_reply, handle_subscribe_reply, handle_psubscribe_reply.
  intros H. res_cases; subst; try done; try apply same_ack; try (by eapply same_call).
  all: eapply same_trans; [by eapply same_reply|done].
Qed.

Lemma same_deliver rs s s' : sb_deliver rs s = Ret s' → same_but_events s s'.
Proof.
  revert s. induction rs as [|r rs IH]; intros s; cbn [sb_deliver]; [by intros [= <-]|].
  intros H. res_cases. eapply same_trans; [by eapply same_receive|]. by apply IH.
Qed.

(** ** Reconnection *)

(** What only sending changes. *)
Definition same_link (s s' : subscriber) : Prop :=
  cn_tcp (sb_client s') = cn_tcp (sb_client s) ∧ cn_handlers (sb_client s') = cn_handlers (sb_client s) ∧
  sb_settings s' = sb_settings s ∧ sb_reconnecting s' = sb_reconnecting s.
Lemma same_link_trans s1 s2 s3 : same_link s1 s2 → same_link s2 s3 → same_link s1 s3.
Proof. unfold same_link. intros. destruct_and!. split_and!; congruence. Qed.

Lemma resubscribe_all m p s :
  keys_ok "SUBSCRIBE" m → sent_as (m_subscribed_channels s) p s →
  let s' := foldl (λ s e, unprotected_subscribe e.1 e.2 s) s m in
  same_link s s' ∧ sent_as (m_subscribed_channels s') p s' ∧
  m_subscribed_channels s' = foldl (λ acc e, map_insert e.1 e.2 acc) (m_subscribed_channels s) m ∧
  m_psubscribed_channels s' = m_psubscribed_channels s.
Proof.
  intros Hm. revert s. induction Hm as [|[x h] m Hx Hm IH]; intros s Hs; [done|]. cbn [foldl fst snd].
  destruct (IH (unprotected_subscribe x h s)) as (L & S1 & T1 & T2).
  { apply (sent_as_send _ (m_subscribed_channels s) p); [done..|]. intros st. apply covers_subscribe. }
  split_and!; [|done..]. by eapply same_link_trans; [|exact L].
Qed.
Lemma repsubscribe_all m c s :
  keys_ok "PSUBSCRIBE" m → sent_as c (m_psubscribed_channels s) s →
  let s' := foldl (λ s e, unprotected_psubscribe e.1 e.2 s) s m in
  same_link s s' ∧ sent_as c (m_psubscribed_channels s') s' ∧
  m_psubscribed_channels s' = foldl (λ acc e, map_insert e.1 e.2 acc) (m_psubscribed_channels s) m ∧
  m_subscribed_channels s' = m_subscribed_channels s.
Proof.
  intros Hm. revert s. induction Hm as [|[x h] m Hx Hm IH]; intros s Hs; [done|]. cbn [foldl fst snd].
  destruct (IH (unprotected_psubscribe x h s)) as (L & S1 & T1 & T2).
  { apply (sent_as_send _ c (m_psubscribed_channels s)); [done..|]. intros st. apply covers_psubscribe. }
  split_and!; [|done..]. by eapply same_link_trans; [|exact L].
Qed.

Lemma re_subscribe_sent s :
  tables_ok s → sent_as [] [] s →
  same_link s (re_subscribe s) ∧ sent (re_subscribe s) ∧
  m_subscribed_channels (re_subscribe s) = m_subscribed_channels s ∧
  m_psubscribed_channels (re_subscribe s) = m_psubscribed_channels s.
Proof.
  intros (T1 & T2 & T3 & T4) Hs. unfold re_subscribe.
  set (s1 := sb_set_channels [] _ s).
  destruct (resubscribe_all (m_subscribed_channels s) [] s1 T3 Hs) as (L1 & S1 & C1 & P1).
  set (s2 := foldl _ s1 _) in *. change (m_subscribed_channels s1) with (@nil (Str * callback_holder)) in C1.
  rewrite (map_refill _ []) in C1 by done. cbn [app] in C1.
  set (s3 := sb_set_channels (m_subscribed_channels s2) [] s2).
  rewrite P1. change (m_psubscribed_channels s1) with (m_psubscribed_channels s).
  destruct (repsubscribe_all (m_psubscribed_channels s) (m_subscribed_channels s2) s3 T4 S1)
    as (L2 & S2 & P2 & C2).
  set (s4 := foldl _ s3 _) in *. change (m_psubscribed_channels s3) with (@nil (Str * callback_holder)) in P2.
  rewrite (map_refill _ []) in P2 by done. cbn [app] in P2.
  split_and!.
  - eapply same_link_trans; [exact L1|exact L2].
  - unfold sent. by rewrite C2.
  - by rewrite C2.
  - done.
Qed.

(** The commands before the subscriptions. *)
Lemma re_credentials s :
  credentials_ok s → sent_as [] [] s →
  let s' := re_client_setname (sb_re_auth s) in
  sent_as [] [] s' ∧ same_link s s' ∧ m_subscribed_channels s' = m_subscribed_channels s ∧
  m_psubscribed_channels s' = m_psubscribed_channels s.
Proof.
  intros [C1 C2] Hs. cbn zeta.
  assert (∃ s1, sb_re_auth s = s1 ∧ sent_as [] [] s1 ∧ same_link s s1 ∧
    m_subscribed_channels s1 = m_subscribed_channels s ∧
    m_psubscribed_channels s1 = m_psubscribed_channels s) as (s1 & -> & H1 & L1 & A1 & B1).
  { eexists. split; [done|]. unfold sb_re_auth. case_bool_decide; [done|]. split_and!; [|by destruct s as [? []]..].
    by apply (sent_as_send _ [] []). }
  assert (sb_settings s1 = sb_settings s) as Hset by apply L1.
  unfold re_client_setname. case_bool_decide; [done|]. split_and!; [|..].
  - apply (sent_as_send _ [] []); [by rewrite Hset|done|done].
  - eapply same_link_trans; [exact L1|]. by destruct s1 as [? []].
  - done.
  - done.
Qed.

(** The connection is lost and cleaned up. *)
Definition sb_down (s : subscriber) : Prop :=
  (∃ w, cn_tcp (sb_client s) = mkTcp false 0 [] w) ∧ cn_buffer (sb_client s) = [].
Definition reissued (s : subscriber) : Prop :=
  sb_is_connected s = true ∧ cn_handlers (sb_client s) = true ∧ sent s.

(** What a reconnection keeps. *)
Definition kept (s s' : subscriber) : Prop :=
  m_subscribed_channels s' = m_subscribed_channels s ∧
  m_psubscribed_channels s' = m_psubscribed_channels s ∧
  sb_password (sb_settings s') = sb_password (sb_settings s) ∧
  sb_client_name (sb_settings s') = sb_client_name (sb_settings s) ∧
  sb_reconnecting s' = sb_reconnecting s.
Lemma kept_trans s1 s2 s3 : kept s1 s2 → kept s2 s3 → kept s1 s3.
Proof. unfold kept. intros. destruct_and!. split_and!; congruence. Qed.
Lemma same_kept s s' : same_but_events s s' → kept s s'.
Proof. unfold same_but_events, kept. intros. destruct_and!. split_and!; congruence. Qed.
Lemma link_kept s s' : same_link s s' → m_subscribed_channels s' = m_subscribed_channels s →
  m_psubscribed_channels s' = m_psubscribed_channels s → kept s s'.
Proof. unfold same_link, kept. intros. destruct_and!. split_and!; congruence. Qed.
Lemma kept_ok s s' : kept s s' → credentials_ok s → tables_ok s → credentials_ok s' ∧ tables_ok s'.
Proof. unfold credentials_ok, tables_ok. intros (-> & -> & -> & -> & _). done. Qed.

Lemma sb_connect_spec h p b m i up s :
  sb_down s →
  let s' := (sb_connect h p b m i up s).2 in
  kept s s' ∧
  (if up then sb_is_connected s' = true ∧ cn_handlers (sb_client s') = true ∧ sb_outgoing s' = []
   else sb_is_connected s' = false ∧ sb_down s').
Proof.
  intros [[w Hw] Hb]. unfold sb_connect. set (s1 := sb_notify start _).
  assert (sb_client s1 = sb_client s ∧ kept s s1) as [E1 K1].
  { subst s1. unfold sb_notify. case_match; done. }
  clearbody s1. unfold cn_connect, tcp_connect. rewrite E1, Hw. cbn [m_is_connected].
  destruct up; cbn [async_read m_is_connected snd].
  - set (s2 := sb_set_client _ s1). pose proof (same_notify st_ok s2) as N.
    split; [eapply kept_trans; [exact K1|]; by apply (same_kept s2)|].
    destruct N as (N & _). unfold sb_is_connected, cn_is_connected, sb_outgoing. rewrite N. subst s2. cbn.
    by rewrite Hb.
  - split; [done|]. split; [done|]. split; [by exists w|done].
Qed.

Lemma sb_ask_kept l s : kept s (sb_ask_sentinel l s).2 ∧ sb_client (sb_ask_sentinel l s).2 = sb_client s.
Proof. by destruct l. Qed.

Lemma sb_reconnect_spec a s s' :
  sb_down s → credentials_ok s → tables_ok s → sb_reconnect a s = (true, s') →
  kept s s' ∧ (sb_down s' ∨ reissued s').
Proof.
  intros Hd Hcr HT. unfold sb_reconnect.
  set (s0 := sb_set_reconnecting _ _ s).
  set (look := if bool_decide _ then _ else _).
  assert (kept s look.2 ∧ sb_client look.2 = sb_client s) as [K1 E1].
  { subst look. case_bool_decide; [done|]. apply (sb_ask_kept (at_master a) s0). }
  destruct look as [found s1]. cbn [snd] in *.
  assert (sb_down s1) as Hd1 by (unfold sb_down; by rewrite E1).
  destruct found as [[]|]; [| |by intros [= ?]].
  2:{ intros [= <-]. pose proof (same_notify lookup_failed s1) as N.
      split; [eapply kept_trans; [exact K1|by apply same_kept]|]. left. unfold sb_down. destruct N as (-> & _).
      done. }
  set (x := sb_settings s1).
  pose proof (sb_connect_spec (sb_server x) (sb_port x) (sb_has_callback x) (sb_max_reconnects x)
    (sb_interval_ms x) (at_up a) s1 Hd1) as [K2 Hup]. fold x in K2, Hup.
  destruct (sb_connect _ _ _ _ _ _ s1) as [ok2 s2]. cbn [snd] in *.
  pose proof (kept_trans _ _ _ K1 K2) as K12.
  destruct (at_up a); destruct Hup as [Hc2 Hrest]; rewrite Hc2; cbn [negb].
  2:{ intros [= <-]. pose proof (same_notify failed s2) as N.
      split; [eapply kept_trans; [exact K12|by apply same_kept]|]. left. unfold sb_down. destruct N as (-> & _).
      done. }
  destruct Hrest as [Hh2 Ho2]. set (s3 := sb_notify st_ok s2).
  pose proof (same_notify st_ok s2) as N3. fold s3 in N3.
  assert (kept s s3) as K3 by (eapply kept_trans; [exact K12|by apply same_kept]).
  destruct (kept_ok _ _ K3 Hcr HT) as [Hcr3 HT3].
  assert (sent_as [] [] s3) as S3.
  { exists []. split_and!; [constructor| |].
    - unfold sb_outgoing. destruct N3 as (-> & _). exact Ho2.
    - split; intros y; (split; [set_solver|by intros [? ?]]). }
  destruct (re_credentials s3 Hcr3 S3) as (S4 & L4 & A4 & B4).
  set (s4 := re_client_setname (sb_re_auth s3)) in *.
  destruct (kept_ok s3 s4 (link_kept _ _ L4 A4 B4) Hcr3 HT3) as [Hcr4 HT4].
  destruct (re_subscribe_sent s4 HT4 S4) as (L5 & S5 & A5 & B5).
  set (s5 := re_subscribe s4) in *.
  assert (kept s s5) as K5.
  { eapply kept_trans; [exact K3|]. eapply kept_trans; [by apply (link_kept s3 s4)|by apply link_kept]. }
  assert (cn_tcp (sb_client s5) = cn_tcp (sb_client s2) ∧ cn_handlers (sb_client s5) = true) as [Ht Hh5].
  { destruct L5 as (-> & -> & _), L4 as (-> & -> & _), N3 as (-> & _). done. }
  unfold sb_is_connected, cn_is_connected in Hc2.
  destruct (at_alive a).
  - unfold sb_commit, cn_commit, async_write. rewrite Ht, Hc2. intros [= <-]. split; [done|]. right.
    split_and!; try done. destruct S5 as (cmds & Hok & Ho & Hcov). exists cmds. split_and!; try done.
    rewrite <-Ho. unfold sb_outgoing. cbn. rewrite Ht, concat_app. cbn. by rewrite !app_nil_r.
  - unfold sb_commit, cn_commit, async_write, tcp_disconnect. cbn [sb_set_client sb_client cn_tcp].
    rewrite Ht, Hc2. cbn. by intros [= ?].
Qed.

Lemma sb_loop_spec script s s' :
  sb_down s → credentials_ok s → tables_ok s → sb_reconnect_loop script s = (Returned, s') →
  kept s s' ∧ (sb_down s' ∨ reissued s').
Proof.
  revert s. induction script as [|a script IH]; intros s Hd Hcr HT; cbn [sb_reconnect_loop];
    (destruct (sb_should_reconnect s); [|intros [= <-]; (split; [done|by left])]); [done|].
  assert (kept s (sb_sleep s) ∧ sb_down (sb_sleep s)) as [K0 D0].
  { unfold sb_sleep. destruct (_ <=? 0); [done|]. pose proof (same_notify sleeping s) as N.
    split; [by apply same_kept|]. unfold sb_down. by destruct N as (-> & _). }
  destruct (kept_ok _ _ K0 Hcr HT) as [Hcr0 HT0].
  destruct (sb_reconnect a (sb_sleep s)) as [[] s1] eqn:Hr; [|done].
  destruct (sb_reconnect_spec _ _ _ D0 Hcr0 HT0 Hr) as [K1 H1].
  destruct (kept_ok _ _ K1 Hcr0 HT0) as [Hcr1 HT1]. pose proof (kept_trans _ _ _ K0 K1) as K.
  destruct H1 as [H1|H1].
  - intros Hl. destruct (IH _ H1 Hcr1 HT1 Hl) as [K2 H2]. split; [by eapply kept_trans|done].
  - destruct script; cbn [sb_reconnect_loop]; unfold sb_should_reconnect; destruct H1 as (Hc & H1);
      rewrite Hc; intros [= <-]; (split; [done|]); by right.
Qed.

Lemma synced_handler script s s' :
  cn_handlers (sb_client s) = true → sb_reconnecting s = false → credentials_ok s → tables_ok s →
  sb_down s ∨ sb_is_connected s = true ∧ sent s →
  sb_call_handler script s = (Returned, s') → sb_is_connected s' = true →
  synced s' ∧ m_subscribed_channels s' = m_subscribed_channels s ∧
  m_psubscribed_channels s' = m_psubscribed_channels s.
Proof.
  intros Hh Hr Hcr HT Hst. unfold sb_call_handler, sb_disconnection_handler. rewrite Hh, Hr.
  set (s1 := sb_notify dropped _).
  pose proof (same_notify dropped (sb_set_reconnecting true 0 s)) as N. fold s1 in N.
  assert (sb_client s1 = sb_client s ∧ m_subscribed_channels s1 = m_subscribed_channels s ∧
    m_psubscribed_channels s1 = m_psubscribed_channels s ∧ sb_settings s1 = sb_settings s) as (E1 & E2 & E3 & E4)
    by (unfold same_but_events in N; destruct_and!; done).
  assert (credentials_ok s1 ∧ tables_ok s1) as [Hcr1 HT1]
    by (unfold credentials_ok, tables_ok; rewrite E2, E3, E4; done).
  destruct (sb_reconnect_loop script s1) as [[] s2] eqn:Hl; intros H Hc; try done.
  assert (kept s1 s2 ∧ (sb_down s2 ∨ reissued s2)) as [K H2].
  { destruct Hst as [Hd|[Hcon (cmds & Hok & Ho & Hcov)]].
    - eapply sb_loop_spec; [|done..]. unfold sb_down. by rewrite E1.
    - assert (sb_is_connected s1 = true) as Hcon1 by (unfold sb_is_connected; by rewrite E1).
      assert (s2 = s1) as -> by (destruct script; cbn [sb_reconnect_loop] in Hl;
        unfold sb_should_reconnect in Hl; rewrite Hcon1 in Hl; cbn in Hl; by simplify_eq).
      split; [done|]. right. split_and!; [done|by rewrite E1|]. exists cmds. unfold sb_outgoing in *.
      rewrite E1, E2, E3. done. }
  destruct H2 as [[[w Hd] _]|(Hcon & Hh2 & Hsent)].
  { exfalso. assert (sb_is_connected s2 = false) as Hn by (unfold sb_is_connected, cn_is_connected; by rewrite Hd).
    rewrite Hn in H. injection H as <-. unfold sb_is_connected, cn_is_connected in Hc.
    cbn [sb_set_reconnecting sb_client] in Hc.
    pose proof (same_notify stopped (clear_subscriptions s2)) as (N2 & _). rewrite N2 in Hc. cbn in Hc.
    by rewrite Hd in Hc. }
  rewrite Hcon in H. injection H as <-. destruct (kept_ok _ _ K Hcr1 HT1) as [Hcr2 HT2].
  destruct K as (K1 & K2 & _). split_and!; try done; cbn; congruence.
Qed.
