(* ===== verification/RedisSubClaims.v ===== *)
(** * The properties of the Redis subscriber

    Its subscriptions stay in step with the server's through reconnections, and
    pushed messages reach the callbacks of their channels; each theorem is
    applied at a concrete run. *)

From S2P Require Import Prelude CppBase.
From S2P Require Import RedisReply RedisResp RedisConn RedisSentinel RedisClient RedisSubscriber.
From S2P Require Import RedisSubscriberSpec.
#[local] Open Scope res_scope.

(** ** Runs of a connected subscriber *)
Inductive sub_op :=
  | USubscribe (channel : Str) (h : callback_holder)
  | UUnsubscribe (channel : Str)
  | UPsubscribe (pattern : Str) (h : callback_holder)
  | UPunsubscribe (pattern : Str)
  | UAuth (password : Str) (k : option reply_callback)
  | USetname (name : Str) (k : option reply_callback)
  | UCommit
  | UWrite
  | URead (data : option Str) (script : list attempt)
  | UWriteFails (script : list attempt).

Definition sub_op_ok (o : sub_op) : Prop :=
  match o with
  | USubscribe x _ => command_ok [chars "SUBSCRIBE"; x]
  | UUnsubscribe x => command_ok [chars "UNSUBSCRIBE"; x]
  | UPsubscribe x _ => command_ok [chars "PSUBSCRIBE"; x]
  | UPunsubscribe x => command_ok [chars "PUNSUBSCRIBE"; x]
  | UAuth p _ => command_ok [chars "AUTH"; p]
  | USetname n _ => command_ok [chars "CLIENT"; chars "SETNAME"; n]
  | _ => True
  end.

(** A handler that returned with the connection up. *)
Definition still_up (r : outcome * subscriber) : option subscriber :=
  match r with
  | (Returned, s) => if sb_is_connected s then Some s else None
  | _ => None
  end.

(** One operation; a write takes the whole of the first request.  [None]: the
    run ends there, with an exception, undefined behaviour, or the connection
    given up. *)
Definition run_sub (o : sub_op) (s : subscriber) : option subscriber :=
  match o with
  | USubscribe x h => Some (subscribe x h s)
  | UUnsubscribe x => Some (unsubscribe x s)
  | UPsubscribe x h => Some (psubscribe x h s)
  | UPunsubscribe x => Some (punsubscribe x s)
  | UAuth p k => Some (sb_auth p k s)
  | USetname n k => Some (client_setname n k s)
  | UCommit => Some (sb_commit s).2
  | UWrite =>
      Some (sb_on_write (Some (length (default [] (head (m_write_requests (cn_tcp (sb_client s))))))) [] s).2
  | URead d script => match sb_on_read d script s with Ret r => still_up r | _ => None end
  | UWriteFails script => still_up (sb_on_write None script s)
  end.
Fixpoint run_subs (os : list sub_op) (s : subscriber) : option subscriber :=
  match os with
  | [] => Some s
  | o :: os => match run_sub o s with Some s => run_subs os s | None => None end
  end.

(** What the operations ask for, without any table: the last word on a channel
    or on a pattern counts. *)
Definition wanted (x : Str) (cur : option callback_holder) (o : sub_op) : option callback_holder :=
  match o with
  | USubscribe y h => if bool_decide (x = y) then Some h else cur
  | UUnsubscribe y => if bool_decide (x = y) then None else cur
  | _ => cur
  end.
Definition pwanted (x : Str) (cur : option callback_holder) (o : sub_op) : option callback_holder :=
  match o with
  | UPsubscribe y h => if bool_decide (x = y) then Some h else cur
  | UPunsubscribe y => if bool_decide (x = y) then None else cur
  | _ => cur
  end.

Definition follows (os : list sub_op) (s s' : subscriber) : Prop :=
  ∀ x, map_find x (m_subscribed_channels s') = foldl (wanted x) (map_find x (m_subscribed_channels s)) os ∧
       map_find x (m_psubscribed_channels s') = foldl (pwanted x) (map_find x (m_psubscribed_channels s)) os.

Lemma follows_same o s s' :
  (∀ x c, wanted x c o = c) → (∀ x c, pwanted x c o = c) →
  m_subscribed_channels s' = m_subscribed_channels s →
  m_psubscribed_channels s' = m_psubscribed_channels s → follows [o] s s'.
Proof. intros H1 H2 E1 E2 x. cbn [foldl]. by rewrite H1, H2, E1, E2. Qed.

Lemma find_unsubscribe x y {V} (m : std_map V) : sorted m →
  map_find x (match map_find y m with None => m | Some _ => map_erase y m end) =
  if bool_decide (x = y) then None else map_find x m.
Proof.
  intros Hm. destruct (map_find y m) eqn:Hy; [by apply map_find_erase|]. case_bool_decide; [by subst|done].
Qed.

Lemma run_sub_read d script s r :
  synced s → sb_on_read d script s = Ret r →
  ∀ s', still_up r = Some s' →
  synced s' ∧ m_subscribed_channels s' = m_subscribed_channels s ∧
  m_psubscribed_channels s' = m_psubscribed_channels s.
Proof.
  intros (Hc & Hr & Hh & Hcr & HT & Hs) Hread s' Hup.
  assert (∃ s1, r = (Returned, s1) ∧ s1 = s' ∧ sb_is_connected s1 = true) as (s1 & -> & -> & Hcon).
  { unfold still_up in Hup. destruct r as [[] s1]; [|done..]. destruct (sb_is_connected s1) eqn:?; [|done].
    simplify_eq. eauto. }
  unfold sb_on_read in Hread. unfold sb_is_connected, cn_is_connected in Hc. destruct d as [d|].
  - destruct (cn_receive d _) as [[[rs k]|k]|] eqn:Hrec; [| |done].
    + assert (cn_tcp k = process_read (cn_tcp (sb_client s)) ∧ cn_buffer k = cn_buffer (sb_client s) ∧
        cn_handlers k = true) as (T1 & T2 & T3).
      { unfold cn_receive in Hrec. cbn [cn_builder] in Hrec. destruct (rb_feed _ _); simplify_eq. done. }
      rewrite T3 in Hread. destruct (sb_deliver rs _) as [s2| | |] eqn:Hd; try done. cbn [rbind] in Hread.
      injection Hread as <-. destruct (same_deliver _ _ _ Hd) as (E1 & E2 & E3 & E4 & E5 & E6).
      cbn in E1, E2, E3, E5, E6. cbn. split; [|done].
      destruct Hs as (cmds & Hok & Ho & Hcov). split_and!; try done.
      * cbn. congruence.
      * cbn. by rewrite E1.
      * unfold credentials_ok. cbn. by rewrite E2.
      * unfold tables_ok. cbn. by rewrite E5, E6.
      * exists cmds. cbn. rewrite E5, E6. split_and!; try done. rewrite <-Ho. unfold sb_outgoing. cbn.
        rewrite E1, T1, T2. unfold async_read, process_read. cbn. by rewrite Hc.
    + injection Hread as Hread. eapply (synced_handler script (sb_set_client k s)); try done.
      * unfold cn_receive in Hrec. destruct (rb_feed _ _); by simplify_eq.
      * right. unfold cn_receive in Hrec. cbn [cn_builder] in Hrec. destruct (rb_feed _ _); simplify_eq.
        split; [done|]. destruct Hs as (cmds & Hok & Ho & Hcov). by exists cmds.
  - injection Hread as Hread. eapply (synced_handler script (sb_set_client _ s)); [..|exact Hread|done];
      try done. left. unfold sb_down, tcp_disconnect, process_read. cbn. rewrite Hc. cbn. eauto.
Qed.

Lemma run_sub_write_fails script s s' :
  synced s → still_up (sb_on_write None script s) = Some s' →
  synced s' ∧ m_subscribed_channels s' = m_subscribed_channels s ∧
  m_psubscribed_channels s' = m_psubscribed_channels s.
Proof.
  intros (Hc & Hr & Hh & Hcr & HT & Hs). unfold sb_on_write, on_write_available.
  unfold sb_is_connected, cn_is_connected in Hc. destruct (m_write_requests _) as [|w ws] eqn:Hw.
  - cbn [still_up]. unfold sb_is_connected, cn_is_connected. cbn. rewrite Hc. intros [= <-].
    split; [|done]. split_and!; try done.
  - set (s1 := sb_set_client _ s). destruct (sb_call_handler script s1) as [[] s2] eqn:Hh2; cbn [still_up]; try done.
    destruct (sb_is_connected s2) eqn:Hcon; [|done]. intros [= <-].
    eapply (synced_handler script s1); try done.
    left. unfold sb_down. subst s1. cbn. unfold tcp_disconnect. cbn. rewrite Hc. cbn. eauto.
Qed.

Lemma run_sub_synced o s s' :
  synced s → sub_op_ok o → run_sub o s = Some s' → synced s' ∧ follows [o] s s'.
Proof.
  intros Hs Ho. pose proof Hs as (_ & _ & _ & _ & (T1 & T2 & _) & _).
  destruct o as [x h|x|x h|x|p k|n k| | |d script|script]; cbn [run_sub sub_op_ok] in *.
  - intros [= <-]. split; [by apply synced_subscribe|]. intros y. cbn. by rewrite map_find_insert.
  - intros [= <-]. split; [by apply synced_unsubscribe|]. intros y. cbn [foldl wanted pwanted].
    rewrite <-find_unsubscribe by done. unfold unsubscribe. by destruct (map_find x _).
  - intros [= <-]. split; [by apply synced_psubscribe|]. intros y. cbn. by rewrite map_find_insert.
  - intros [= <-]. split; [by apply synced_punsubscribe|]. intros y. cbn [foldl wanted pwanted].
    rewrite <-(find_unsubscribe y x (m_psubscribed_channels s)) by done. unfold punsubscribe.
    by destruct (map_find x _).
  - intros [= <-]. split; [by apply synced_auth|by apply follows_same].
  - intros [= <-]. split; [by apply synced_setname|by apply follows_same].
  - intros [= <-]. split; [by apply synced_commit|]. apply follows_same; try done;
      unfold sb_commit; by destruct (cn_commit _).
  - intros [= <-]. split; [apply synced_write; [|done]; intros w ws ->; done|].
    apply follows_same; try done; unfold sb_on_write, on_write_available; by destruct (m_write_requests _).
  - destruct (sb_on_read d script s) as [r| | |] eqn:Hr; [|done..]. intros Hup.
    destruct (run_sub_read _ _ _ _ Hs Hr _ Hup) as (H1 & H2 & H3). split; [done|by apply follows_same].
  - intros Hup. destruct (run_sub_write_fails _ _ _ Hs Hup) as (H1 & H2 & H3).
    split; [done|by apply follows_same].
Qed.

(** C34. Subscriptions survive: in any run of a connected subscriber
    (subscribing and unsubscribing to channels and patterns, authentication,
    commits, writes, reads of any bytes, and lost connections recovered after
    any number of failed attempts) the bytes on their way to the current server
    are such that, once it has read them, its subscriptions are exactly the
    channels and patterns of the tables; and the tables are what the operations
    ask for, the last one on a name counting, with its callbacks. Writes are
    complete: each takes the whole request, because the rest of a short write
    is lost by [process_write]. *)
Theorem subscriptions_survive s os s' :
  synced s → Forall sub_op_ok os → run_subs os s = Some s' →
  synced s' ∧ follows os s s' ∧
  ∃ st, server_subscriptions (sb_outgoing s') = Some st ∧
    ∀ x, (x ∈ st.1 ↔ is_Some (map_find x (m_subscribed_channels s'))) ∧
         (x ∈ st.2 ↔ is_Some (map_find x (m_psubscribed_channels s'))).
Proof.
  intros Hs Hok Hrun.
  assert (synced s' ∧ follows os s s') as [Hs' Hf].
  { revert s Hs Hrun. induction Hok as [|o os Ho Hok IH]; intros s Hs; cbn [run_subs].
    - by intros [= <-].
    - destruct (run_sub o s) as [s1|] eqn:H1; [|done]. intros Hrun.
      destruct (run_sub_synced _ _ _ Hs Ho H1) as [Hs1 F1]. destruct (IH _ Hs1 Hrun) as [H2 F2].
      split; [done|]. intros x. cbn [foldl]. destruct (F1 x) as [A1 A2], (F2 x) as [B1 B2].
      cbn [foldl] in A1, A2. rewrite B1, B2, A1, A2. done. }
  split; [done|]. split; [done|].
  destruct Hs' as (_ & _ & _ & _ & _ & (cmds & Hcmds & Ho & [Hc1 Hc2])).
  exists (serve_all cmds). split; [|by auto]. rewrite Ho. by apply server_reads_commands.
Qed.

Definition connected_subscriber : subscriber :=
  (sb_connect (chars "h") 6379 false 3 0 true new_subscriber).2.
Definition some_holder (n : nat) : callback_holder := mkHolder (Some n) None.
Definition demo_sub_ops : list sub_op :=
  [USetname (chars "nas") None; USubscribe (chars "news") (some_holder 1); UCommit; UWrite;
   UPsubscribe (chars "a*") (some_holder 2); UUnsubscribe (chars "news");
   USubscribe (chars "log") (some_holder 3);
   URead None [mkAttempt LookupThrows false true; mkAttempt LookupThrows true true]; UWrite].

(** Deciding the bounds of a concrete command. *)
Lemma command_ok_compute cmd :
  (Z.of_nat (length cmd) <=? int64_max) && forallb (λ p, Z.of_nat (length p) <=? int32_max - 2) cmd = true →
  command_ok cmd.
Proof.
  intros [H1 H2]%andb_prop. split; [by apply Z.leb_le|]. apply Forall_forall. intros p Hp.
  apply Z.leb_le. rewrite forallb_forall in H2. apply H2. by apply list_elem_of_In.
Qed.

Lemma connected_subscriber_synced : synced connected_subscriber.
Proof.
  split_and!; [reflexivity..| | |].
  - split; apply command_ok_compute; vm_compute; reflexivity.
  - split_and!; constructor.
  - exists []. split_and!; [constructor|reflexivity|].
    split; intros x; (split; [set_solver|by intros [? ?]]).
Qed.

Lemma subscriptions_survive_witness :
  ∃ s', run_subs demo_sub_ops connected_subscriber = Some s' ∧
    synced s' ∧ follows demo_sub_ops connected_subscriber s' ∧
    ∃ st, server_subscriptions (sb_outgoing s') = Some st ∧
      ∀ x, (x ∈ st.1 ↔ is_Some (map_find x (m_subscribed_channels s'))) ∧
           (x ∈ st.2 ↔ is_Some (map_find x (m_psubscribed_channels s'))).
Proof.
  eexists. split; [vm_compute; reflexivity|].
  apply (subscriptions_survive connected_subscriber demo_sub_ops).
  - exact connected_subscriber_synced.
  - unfold demo_sub_ops. repeat (apply Forall_cons_2; [first [exact I | apply command_ok_compute; vm_compute; reflexivity]|]).
    constructor.
  - vm_compute. reflexivity.
Defined.

(** ** Messages *)

(** What a server pushes to a subscribed connection. *)
Inductive push :=
  | PMessage (channel message : Str)
  | PPmessage (pattern channel message : Str)
  | PSubscribed (channel : Str) (nb_chans : Z)
  | PPsubscribed (pattern : Str) (nb_chans : Z)
  | PUnsubscribed (channel : Str) (nb_chans : Z).
Definition push_value (p : push) : value :=
  match p with
  | PMessage c m => VArr [VBulk (chars "message"); VBulk c; VBulk m]
  | PPmessage p c m => VArr [VBulk (chars "pmessage"); VBulk p; VBulk c; VBulk m]
  | PSubscribed c n => VArr [VBulk (chars "subscribe"); VBulk c; VNum n]
  | PPsubscribed p n => VArr [VBulk (chars "psubscribe"); VBulk p; VNum n]
  | PUnsubscribed c n => VArr [VBulk (chars "unsubscribe"); VBulk c; VNum n]
  end.

(** What it means, from the tables. *)
Definition acknowledged (h : callback_holder) (n : Z) : list sub_event :=
  match acknowledgement_callback h with Some k => [EAck k n] | None => [] end.
Definition published (h : callback_holder) (c m : Str) : list sub_event :=
  match subscribe_callback h with Some k => [EMessage k c m] | None => [] end.
Definition routed (s : subscriber) (p : push) : list sub_event :=
  match p with
  | PMessage c m => from_option (λ h, published h c m) [] (map_find c (m_subscribed_channels s))
  | PPmessage p c m => from_option (λ h, published h c m) [] (map_find p (m_psubscribed_channels s))
  | PSubscribed c n => from_option (λ h, acknowledged h n) [] (map_find c (m_subscribed_channels s))
  | PPsubscribed p n => from_option (λ h, acknowledged h n) [] (map_find p (m_psubscribed_channels s))
  | PUnsubscribed _ _ => []
  end.

(** The callbacks given to [subscribe] and [psubscribe] are not empty. *)
Definition callable (m : std_map callback_holder) : Prop :=
  ∀ x h, map_find x m = Some h → is_Some (subscribe_callback h).

Definition sb_set_events (es : list sub_event) (s : subscriber) : subscriber :=
  mkSub (sb_client s) (sb_settings s) (sb_reconnecting s) (sb_cancel s) (sb_attempts s)
    (m_subscribed_channels s) (m_psubscribed_channels s) (m_auth_reply_callback s)
    (m_client_setname_reply_callback s) es.
Lemma set_events_id s : sb_set_events (sb_events s ++ []) s = s.
Proof. rewrite app_nil_r. by destruct s. Qed.

Lemma receive_push p s :
  callable (m_subscribed_channels s) → callable (m_psubscribed_channels s) →
  sb_receive_handler (reply_of (push_value p)) s =
  Ret (sb_set_events (sb_events s ++ routed s p) s).
Proof.
  intros Hc Hp. destruct p as [c m|p c m|c n|p n|c n].
  - change (sb_receive_handler _ s) with
      (match map_find c (m_subscribed_channels s) with
       | None => Ret s | Some h => call_subscribe_callback h c m s end).
    cbn [routed]. destruct (map_find c _) as [h|] eqn:Hf; cbn [from_option]; [|by rewrite set_events_id].
    destruct (Hc _ _ Hf) as [k Hk]. unfold call_subscribe_callback, published. by rewrite Hk.
  - change (sb_receive_handler _ s) with
      (match map_find p (m_psubscribed_channels s) with
       | None => Ret s | Some h => call_subscribe_callback h c m s end).
    cbn [routed]. destruct (map_find p _) as [h|] eqn:Hf; cbn [from_option]; [|by rewrite set_events_id].
    destruct (Hp _ _ Hf) as [k Hk]. unfold call_subscribe_callback, published. by rewrite Hk.
  - change (sb_receive_handler _ s) with
      (Ret (call_acknowledgement_callback c (m_subscribed_channels s) n s)).
    unfold call_acknowledgement_callback. cbn [routed].
    destruct (map_find c _) as [h|]; cbn [from_option]; [|by rewrite set_events_id].
    unfold acknowledged. destruct (acknowledgement_callback h); [done|by rewrite set_events_id].
  - change (sb_receive_handler _ s) with
      (Ret (call_acknowledgement_callback p (m_psubscribed_channels s) n s)).
    unfold call_acknowledgement_callback. cbn [routed].
    destruct (map_find p _) as [h|]; cbn [from_option]; [|by rewrite set_events_id].
    unfold acknowledged. destruct (acknowledgement_callback h); [done|by rewrite set_events_id].
  - change (sb_receive_handler _ s) with (Ret s). cbn [routed]. by rewrite set_events_id.
Qed.

Lemma deliver_pushes ps s :
  callable (m_subscribed_channels s) → callable (m_psubscribed_channels s) →
  sb_deliver (reply_of <$> (push_value <$> ps)) s =
  Ret (sb_set_events (sb_events s ++ (ps ≫= routed s)) s).
Proof.
  revert s. induction ps as [|p ps IH]; intros s Hc Hp; [by rewrite set_events_id|].
  cbn [fmap list_fmap sb_deliver]. rewrite receive_push by done. cbn [rbind].
  change (reply_of <$> (push_value <$> ps)) with
    (list_fmap _ _ reply_of (list_fmap _ _ push_value ps)) in IH.
  rewrite IH by done. f_equal. rewrite bind_cons. unfold sb_set_events. cbn. by rewrite <-app_assoc.
Qed.

(** Reading packets one after the other. *)
Fixpoint sb_read_all (packets : list Str) (s : subscriber) : res subscriber :=
  match packets with
  | [] => Ret s
  | d :: packets => r <- sb_on_read (Some d) [] s; sb_read_all packets r.2
  end.

Lemma read_pushes packets ps s :
  callable (m_subscribed_channels s) → callable (m_psubscribed_channels s) →
  cn_handlers (sb_client s) = true → rb_start (cn_builder (sb_client s)) →
  rb_available (cn_builder (sb_client s)) = [] →
  rb_feed (cn_builder (sb_client s)) [] = Fed (cn_builder (sb_client s)) →
  rb_feed (cn_builder (sb_client s)) (concat packets) =
    Fed (mkReplyBuilder [] None (reply_of <$> (push_value <$> ps)) false) →
  ∃ s', sb_read_all packets s = Ret s' ∧ sb_events s' = sb_events s ++ (ps ≫= routed s) ∧
    m_subscribed_channels s' = m_subscribed_channels s ∧
    m_psubscribed_channels s' = m_psubscribed_channels s.
Proof.
  revert ps s. induction packets as [|d packets IH]; intros ps s Hc Hp Hh Hs Ha Hst Hf; cbn [sb_read_all].
  { cbn [concat] in Hf. rewrite Hst in Hf. injection Hf as Hf. rewrite Hf in Ha. cbn in Ha.
    destruct ps; [|done]. exists s. by rewrite app_nil_r. }
  cbn [concat] in Hf. destruct (feed_part _ _ _ _ Hs Hf) as (rb1 & rs2 & Hd & Hrs & Hs1 & Hst1 & Hf1).
  unfold sb_on_read, cn_receive. cbn [cn_builder]. rewrite Hd. cbn [cn_handlers]. rewrite Hh.
  set (j := length (rb_available rb1)).
  assert (rb_available rb1 = reply_of <$> (push_value <$> take j ps) ∧
    rs2 = reply_of <$> (push_value <$> drop j ps)) as [Hav Hrs2].
  { split; [rewrite !fmap_take|rewrite !fmap_drop]; rewrite Hrs; unfold j;
      [by rewrite take_app_length|by rewrite drop_app_length]. }
  set (s1 := sb_set_client _ s). rewrite Hav, (deliver_pushes _ s1) by done. cbn [rbind snd].
  set (s2 := sb_set_client _ _). rewrite Hrs2 in Hf1.
  destruct (IH (drop j ps) s2) as (s' & Hr & He & H1 & H2); [done..|].
  exists s'. rewrite Hr, He, H1, H2. split_and!; try done.
  change (sb_events s2) with (sb_events s ++ (take j ps ≫= routed s1)).
  rewrite <-app_assoc. f_equal.
  change (λ p, routed s2 p) with (routed s). change (routed s2) with (routed s). change (routed s1) with (routed s).
  by rewrite <-bind_app, take_drop.
Qed.

(** Every pushed message reaches the callback of its channel: whatever
    packets bring the server's pushes to a subscriber whose builder is between
    two replies, the callbacks run are, in the order of the pushes, those the
    tables hold: a message runs the one registered for its channel, a pattern
    message the one registered for its pattern with the channel it was
    published on, a confirmation the acknowledgement callback if there is one;
    messages on other channels and other notices run nothing. *)
Theorem pushes_routed packets ps s :
  callable (m_subscribed_channels s) → callable (m_psubscribed_channels s) →
  cn_handlers (sb_client s) = true → cn_builder (sb_client s) = new_reply_builder →
  Forall (λ p, valid (push_value p)) ps → concat packets = (push_value <$> ps) ≫= encode →
  ∃ s', sb_read_all packets s = Ret s' ∧ sb_events s' = sb_events s ++ (ps ≫= routed s) ∧
    m_subscribed_channels s' = m_subscribed_channels s ∧
    m_psubscribed_channels s' = m_psubscribed_channels s.
Proof.
  intros Hc Hp Hh Hb Hv Hd. apply read_pushes; rewrite ?Hb; try done.
  rewrite Hd. apply (rb_feed_values []). by apply Forall_fmap.
Qed.

Definition listening_subscriber : subscriber :=
  psubscribe (chars "a*") (mkHolder (Some 2%nat) None)
    (subscribe (chars "news") (mkHolder (Some 1%nat) (Some 9%nat)) connected_subscriber).
Definition demo_pushes : list push :=
  [PSubscribed (chars "news") 1; PMessage (chars "news") (chars "hi"); PMessage (chars "old") (chars "x");
   PPmessage (chars "a*") (chars "ab") (chars "yo")].
Definition demo_bytes : Str := (push_value <$> demo_pushes) ≫= encode.

Lemma listening_callable :
  callable (m_subscribed_channels listening_subscriber) ∧ callable (m_psubscribed_channels listening_subscriber).
Proof. split; intros x h; cbn; case_bool_decide; intros; simplify_eq; by eexists. Qed.

Lemma pushes_routed_witness :
  ∃ s', sb_read_all [take 50 demo_bytes; drop 50 demo_bytes] listening_subscriber = Ret s' ∧
    sb_events s' = [EAck 9 1; EMessage 1 (chars "news") (chars "hi"); EMessage 2 (chars "ab") (chars "yo")] ∧
    m_subscribed_channels s' = m_subscribed_channels listening_subscriber ∧
    m_psubscribed_channels s' = m_psubscribed_channels listening_subscriber.
Proof.
  apply (pushes_routed [take 50 demo_bytes; drop 50 demo_bytes] demo_pushes listening_subscriber).
  - apply listening_callable.
  - apply listening_callable.
  - reflexivity.
  - reflexivity.
  - repeat (apply Forall_cons_2; [vm_compute; repeat split; discriminate|]). constructor.
  - cbn [concat]. rewrite app_nil_r. apply take_drop.
Defined.

(** ** A reply that reaches the wrong callback *)

(** AUTH without a callback, then CLIENT SETNAME with one: the reply to AUTH is
    handed to the callback of CLIENT SETNAME, whose own reply is dropped. *)
Example setname_gets_auth_reply password name k auth_reply setname_reply s :
  is_array auth_reply = false → is_array setname_reply = false →
  ∃ s', sb_deliver [auth_reply; setname_reply]
          (client_setname name (Some (RUser k)) (sb_auth password None s)) = Ret s' ∧
    sb_events s' = sb_events s ++ [EReply (RUser k) auth_reply].
Proof.
  intros H1 H2. set (s1 := client_setname _ _ _).
  assert (m_auth_reply_callback s1 = None ∧ m_client_setname_reply_callback s1 = Some (RUser k) ∧
    sb_events s1 = sb_events s) as (E1 & E2 & E3) by done.
  clearbody s1. cbn [sb_deliver]. unfold sb_receive_handler. rewrite H1, E1, E2. cbn [negb call_reply_callback rbind].
  cbn [sb_set_replies sb_emit m_auth_reply_callback m_client_setname_reply_callback]. rewrite H2, E1. cbn [negb].
  eexists. split; [reflexivity|]. cbn. by rewrite E3.
Qed.
