(* ===== verification/DlnaTypes.v ===== *)
(** * The screen-casting service: shared data

    [dlna_server/src/public_define.h], [error_desc.cc], [utils.cc], the devices
    as the UPnP library (Platinum) reports them, and the Chromium helpers only
    this service calls. *)

From S2P Require Import Prelude CppBase.

(** ** [enum class DlnaServiceErrorNo] *)
Inductive DlnaServiceErrorNo :=
  | kSuccess | kParamInvalid | kCreateScreenCastingFailed | kScreenCastingDeviceNotExist
  | kPlayUrlInvalid | kScreenCastingDeviceNoneProtocol | kNonsupportMimeTypeExtension
  | kScreenCastingDeviceNonsupportProtocol | kNginxPortInvalid.
#[global] Instance DlnaServiceErrorNo_eq_dec : EqDecision DlnaServiceErrorNo.
Proof. solve_decision. Defined.

Definition errno_value (e : DlnaServiceErrorNo) : Z :=
  match e with
  | kSuccess => 0
  | kParamInvalid => 1
  | kCreateScreenCastingFailed => 2
  | kScreenCastingDeviceNotExist => 3
  | kPlayUrlInvalid => 4
  | kScreenCastingDeviceNoneProtocol => 5
  | kNonsupportMimeTypeExtension => 6
  | kScreenCastingDeviceNonsupportProtocol => 7
  | kNginxPortInvalid => 8
  end.

Definition kDlnaErrorList : list (Z * string) := [
  (errno_value kSuccess, "成功");
  (errno_value kParamInvalid, "参数无效");
  (errno_value kCreateScreenCastingFailed, "创建投屏任务失败");
  (errno_value kScreenCastingDeviceNotExist, "投屏设备不存在");
  (errno_value kPlayUrlInvalid, "投屏链接无效");
  (errno_value kScreenCastingDeviceNoneProtocol, "投屏设备支持的协议为空");
  (errno_value kNonsupportMimeTypeExtension, "不支持的文件格式 mime type");
  (errno_value kScreenCastingDeviceNonsupportProtocol, "投屏设备不支持该格式的文件")].

(** [GetErrorDesc]; the argument is a number that was cast to the enumeration. *)
Definition GetErrorDesc (error_no : Z) : string :=
  match list_find (λ e, e.1 = error_no) kDlnaErrorList with
  | Some (_, (_, s)) => s
  | None => "未知异常"
  end.

(** [struct NginxMimeTypes] and [kMimeTypes] *)
Definition kMimeTypes : list (string * list string) := [
  ("video/mpeg", ["mpeg"; "mpg"]);
  ("video/mp4", ["mp4"; "m4v"]);
  ("video/MP2T", ["ts"]);
  ("video/x-ms-wmv", ["wmv"; "wtv"]);
  ("video/x-ms-asf", ["asx"; "asf"]);
  ("video/x-matroska", ["mkv"]);
  ("video/x-flv", ["flv"]);
  ("video/x-msvideo", ["avi"; "divx"; "xvid"]);
  ("video/3gpp", ["3gpp"; "3gp"]);
  ("video/quicktime", ["mov"]);
  ("video/webm", ["webm"]);
  ("video/x-mng", ["mng"])].

(** ** Library calls *)
Class DlnaLib := {
  (** [GURL(url).query()], [GURL(url).ExtractFileName()] *)
  gurl_query : string → string;
  gurl_ExtractFileName : string → string;
  (** [base::FilePath::FromUTF8Unsafe(name).Extension()], with its dot *)
  FilePath_Extension : string → string;
  (** [base::SplitString(s, sep, TRIM_WHITESPACE, SPLIT_WANT_NONEMPTY)] *)
  SplitString : string → string → list string;
  (** What [base::StringToInt] leaves in its output, also when it fails *)
  StringToInt_output : string → Z;
  (** [base::JSONWriter::Write] *)
  JSONWrite : Dict → string
}.

(** [GetFileExtensionFromUrl]: the leading dot is removed. *)
Definition GetFileExtensionFromUrl {bl : BaseLib} {dl : DlnaLib} (url_string : string) : string :=
  if negb (gurl_is_valid url_string) then ""
  else
    match FilePath_Extension (gurl_ExtractFileName url_string) with
    | EmptyString => ""
    | String c rest => if bool_decide (c = "."%char) then rest else String c rest
    end.

(** ** Devices and what they report *)

(** What the service reads of a [PLT_DeviceData]. *)
Record device := mkDevice {
  GetUUID : string;
  GetFriendlyName : string;
  GetURLBase : string;
  GetLocalIP : string;
  has_AVTransport : bool
}.
#[global] Instance device_eq_dec : EqDecision device.
Proof. solve_decision. Defined.

(** [PLT_PositionInfo] (times in nanoseconds) and [PLT_TransportInfo] *)
Record position := mkPosition { track_uri : string; track_duration : Z; rel_time : Z }.
Record transport := mkTransport { cur_transport_state : string; cur_transport_status : string }.

(** [NPT_TimeStamp::ToSeconds] *)
Definition ToSeconds (t : Z) : Z := Z.quot t 1000000000.

(** [NPT_Map<NPT_String, PLT_DeviceDataReference>]: entries in the order in
    which they were put. *)
Definition device_map := list (string * device).
Fixpoint dm_Get (key : string) (m : device_map) : option device :=
  match m with
  | [] => None
  | (k, d) :: m => if bool_decide (k = key) then Some d else dm_Get key m
  end.
Fixpoint dm_Put (key : string) (d : device) (m : device_map) : device_map :=
  match m with
  | [] => [(key, d)]
  | (k, d') :: m => if bool_decide (k = key) then (k, d) :: m else (k, d') :: dm_Put key d m
  end.
Fixpoint dm_Erase (key : string) (m : device_map) : device_map :=
  match m with
  | [] => []
  | (k, d) :: m => if bool_decide (k = key) then m else (k, d) :: dm_Erase key m
  end.

(** ** Formatting *)

(** ["%02d"] *)
Definition pad2 (z : Z) : string :=
  let s := to_string_Z z in if (String.length s <? 2)%nat then "0" +:+ s else s.
