(* ===== verification/ScreenCasting.v ===== *)
(** * Screen casting: tasks and their manager

    [dlna_server/src/screen_casting/screen_casting_task.cc] and
    [screen_casting_mgr.cc].  All entry points re-post themselves to the work
    thread; a definition is the body that runs there.  Requests to a device are
    asynchronous calls of the UPnP library: they are recorded, and their results
    arrive later as calls of the [On...Result] functions.  The user data of a
    request is the task id it was made with, or null. *)

From S2P Require Import Prelude CppBase DlnaTypes.

(** What the manager causes outside. *)
Inductive effect :=
  | SetAVTransportURI (d : device) (url : string) (userdata : option string)
  | Stop (d : device) (userdata : option string)
  | Play (d : device)
  | Pause (d : device)
  | Seek (d : device) (target : string)
  | SetVolume (d : device) (volume : Z)
  | GetTransportInfo (d : device) (userdata : option string)
  | GetPositionInfo (d : device) (userdata : option string)
  | GetVolume (d : device) (userdata : option string)
  | GetProtocolInfo (d : device)
  | CreateAnswered (callback : nat) (task_id : string) (err : DlnaServiceErrorNo)
  | DevicesListed (callback : nat) (devices : list (string * string * string)).

(** ** [class ScreenCastingTask] *)
Inductive PlayStatus := kUnknown | kPLAYING | kPAUSE | kSTOPED.
#[global] Instance PlayStatus_eq_dec : EqDecision PlayStatus.
Proof. solve_decision. Defined.
Definition status_value (s : PlayStatus) : Z :=
  match s with kUnknown => 0 | kPLAYING => 1 | kPAUSE => 2 | kSTOPED => 3 end.

Record task := mkTask {
  id_ : string;
  play_url_ : string;
  media_renderes_ : device;
  start_callback_ : option nat;
  position_info_ : position;
  transport_info_ : transport;
  volume_ : Z;
  stoped_count_ : Z;
  last_notify_content_ : string
}.

(** The constructor leaves [volume_] indeterminate: [garbage] is what the
    memory held. *)
Definition ScreenCastingTask (id play_url : string) (media_renderes : device) (garbage : Z) : task :=
  mkTask id play_url media_renderes None (mkPosition "" 0 0) (mkTransport "" "") garbage 0 "".

Definition task_Start (callback : option nat) (t : task) : task :=
  mkTask (id_ t) (play_url_ t) (media_renderes_ t) callback (position_info_ t) (transport_info_ t)
    (volume_ t) (stoped_count_ t) (last_notify_content_ t).
Definition SetPositionInfo (p : position) (t : task) : task :=
  mkTask (id_ t) (play_url_ t) (media_renderes_ t) (start_callback_ t) p (transport_info_ t)
    (volume_ t) (stoped_count_ t) (last_notify_content_ t).
Definition SetTransportInfo (i : transport) (t : task) : task :=
  mkTask (id_ t) (play_url_ t) (media_renderes_ t) (start_callback_ t) (position_info_ t) i
    (volume_ t) (stoped_count_ t) (last_notify_content_ t).
Definition task_SetVolume (v : Z) (t : task) : task :=
  mkTask (id_ t) (play_url_ t) (media_renderes_ t) (start_callback_ t) (position_info_ t)
    (transport_info_ t) v (stoped_count_ t) (last_notify_content_ t).
Definition ChangePlayUrl (play_url : string) (t : task) : task :=
  mkTask (id_ t) play_url (media_renderes_ t) (start_callback_ t) (position_info_ t)
    (transport_info_ t) (volume_ t) (stoped_count_ t) (last_notify_content_ t).
Definition set_notified (count : Z) (content : string) (t : task) : task :=
  mkTask (id_ t) (play_url_ t) (media_renderes_ t) (start_callback_ t) (position_info_ t)
    (transport_info_ t) (volume_ t) count content.

(** The callback runs once; without one nothing happens. *)
Definition OnStart (succ : bool) (t : task) : list effect * task :=
  match start_callback_ t with
  | None => ([], t)
  | Some k =>
      ([if succ then CreateAnswered k (id_ t) kSuccess
        else CreateAnswered k "" kCreateScreenCastingFailed], task_Start None t)
  end.

Definition GetTaskPlayStatus (t : task) : PlayStatus :=
  let i := transport_info_ t in
  if negb (bool_decide (cur_transport_status i = "OK")) then kUnknown
  else if bool_decide (cur_transport_state i = "PLAYING") then kPLAYING
  else if bool_decide (cur_transport_state i = "PAUSED_PLAYBACK") then kPAUSE
  else if bool_decide (cur_transport_state i = "STOPPED") then kSTOPED
  else if bool_decide (cur_transport_state i = "NO_MEDIA_PRESENT") then kSTOPED
  else kUnknown.

Section WithLibrary.
Context {bl : BaseLib} {dl : DlnaLib}.

Definition ChangedPlayUrl (t : task) : bool :=
  let uri := track_uri (position_info_ t) in
  if str_empty uri then false
  else negb (bool_decide (gurl_path (play_url_ t) = gurl_path (c_str uri)))
       || negb (bool_decide (gurl_query (play_url_ t) = gurl_query (c_str uri))).

(** The JSON text of one notification. *)
Definition notify_content (status : PlayStatus) (t : task) : string :=
  let p := position_info_ t in
  JSONWrite [
    ("errno", VInt 0);
    ("msg", VString "");
    ("data", VDict [
      ("status", VInt (status_value status));
      ("duration", VString (to_string_Z (ToSeconds (track_duration p))));
      ("rel_time", VString (to_string_Z (ToSeconds (rel_time p))));
      ("volume", VInt (to_int32 (volume_ t)));
      ("media_url", VString (c_str (track_uri p)))])].

(** Whether the task is over, and the task. *)
Definition NotifyStatusInfo (t : task) : bool * task :=
  let status := GetTaskPlayStatus t in
  let '(status, count) :=
    if bool_decide (status = kSTOPED)
    then (if stoped_count_ t <? 3 then kUnknown else status, stoped_count_ t + 1)
    else (status, stoped_count_ t) in
  let changed := ChangedPlayUrl t in
  let status := if changed then kSTOPED else status in
  let content := notify_content status t in
  if bool_decide (last_notify_content_ t = content) && negb (bool_decide (status = kSTOPED))
  then (false, set_notified count (last_notify_content_ t) t)
  else (changed || bool_decide (status = kSTOPED), set_notified count content t).

(** ** [class ScreenCastingMgr] *)

(** [delayed] counts the posted calls of [StartTaskTimer], [posted] holds those
    of [AddSinkProtocolInfo]; [effects] is everything caused so far. *)
Record mgr := mkMgr {
  task_ : gmap string task;
  sink_protocol_info_ : gmap string (list string);
  check_task_ws_timer_ : bool;
  query_timer_ : bool;
  push_timer_ : bool;
  media_renderers_ : device_map;
  delayed : nat;
  posted : list (string * list string);
  effects : list effect
}.
Definition ScreenCastingMgr : mgr := mkMgr ∅ ∅ false false false [] 0 [] [].

Definition set_tasks (ts : gmap string task) (m : mgr) : mgr :=
  mkMgr ts (sink_protocol_info_ m) (check_task_ws_timer_ m) (query_timer_ m) (push_timer_ m)
    (media_renderers_ m) (delayed m) (posted m) (effects m).
Definition set_sinks (s : gmap string (list string)) (ps : list (string * list string)) (m : mgr) : mgr :=
  mkMgr (task_ m) s (check_task_ws_timer_ m) (query_timer_ m) (push_timer_ m)
    (media_renderers_ m) (delayed m) ps (effects m).
Definition set_timers (c q p : bool) (n : nat) (m : mgr) : mgr :=
  mkMgr (task_ m) (sink_protocol_info_ m) c q p (media_renderers_ m) n (posted m) (effects m).
Definition set_devices (d : device_map) (m : mgr) : mgr :=
  mkMgr (task_ m) (sink_protocol_info_ m) (check_task_ws_timer_ m) (query_timer_ m) (push_timer_ m)
    d (delayed m) (posted m) (effects m).
Definition emits (es : list effect) (m : mgr) : mgr :=
  mkMgr (task_ m) (sink_protocol_info_ m) (check_task_ws_timer_ m) (query_timer_ m) (push_timer_ m)
    (media_renderers_ m) (delayed m) (posted m) (effects m ++ es).

(** Running a callback that may be null. *)
Definition answer (callback : option nat) (task_id : string) (err : DlnaServiceErrorNo) (m : mgr) : mgr :=
  match callback with Some k => emits [CreateAnswered k task_id err] m | None => m end.

Definition GetMediaRenderesList (callback : option nat) (m : mgr) : mgr :=
  let devices := (λ e, (c_str (GetFriendlyName e.2), c_str (GetUUID e.2), c_str (GetURLBase e.2)))
                   <$> media_renderers_ m in
  match callback with Some k => emits [DevicesListed k devices] m | None => m end.

Definition FindTask (id : string) (m : mgr) : option task := task_ m !! id.
Definition FindTaskRenderesDevice (task_id : string) (m : mgr) : option device :=
  media_renderes_ <$> FindTask task_id m.
Definition FindRenderesDevice (device_id : string) (m : mgr) : option device :=
  dm_Get (c_str device_id) (media_renderers_ m).
Definition RemoveTask (id : string) (m : mgr) : mgr := set_tasks (delete id (task_ m)) m.

(** The error and the url; there is one outcome.  The nginx port is the
    constant 0. *)
Definition ReplacePlayUrlHost (local_ip play_url : string) : DlnaServiceErrorNo * string :=
  if negb (str_contains "dynamic_res/v1/media/video/dlna/playfile" (gurl_path play_url))
  then (kSuccess, play_url)
  else
    let nginx_port := 0 in
    let new_url := "http://" +:+ c_str local_ip +:+ ":" +:+ to_string_Z nginx_port
                     +:+ c_str (gurl_path play_url) in
    (kSuccess, if str_empty (gurl_query play_url) then new_url
               else new_url +:+ "?" +:+ gurl_query play_url).

(** [task_id] is the fresh GUID; [std::map::insert] keeps an entry that is
    already there. *)
Definition CreateTask (device_id play_url : string) (callback : option nat) (task_id : string)
    (garbage : Z) (m : mgr) : mgr :=
  match FindRenderesDevice device_id m with
  | None => answer callback "" kScreenCastingDeviceNotExist m
  | Some device_obj =>
      let '(err_code, new_play_url) := ReplacePlayUrlHost (c_str (GetLocalIP device_obj)) play_url in
      if negb (bool_decide (err_code = kSuccess)) then answer callback "" err_code m
      else
        let task_ptr := task_Start callback (ScreenCastingTask task_id new_play_url device_obj garbage) in
        let m := match task_ m !! task_id with
                 | Some _ => m
                 | None => set_tasks (<[task_id := task_ptr]> (task_ m)) m
                 end in
        emits [SetAVTransportURI device_obj (c_str new_play_url) (Some task_id)] m
  end.

Definition CancelTask (task_id : string) (m : mgr) : mgr :=
  match FindTaskRenderesDevice task_id m with
  | None => m
  | Some device_obj => emits [Stop device_obj (Some task_id)] m
  end.

(** The tasks in the order of the map. *)
Definition tasks_in_order (m : mgr) : list (string * task) :=
  omap (λ k, (λ t, (k, t)) <$> task_ m !! k) (map_keys (task_ m)).

Definition CancelAllTask (m : mgr) : mgr :=
  emits ((λ e, Stop (media_renderes_ e.2) (Some e.1)) <$> tasks_in_order m) m.

(** The url with the replaced host is computed and not used. *)
Definition ChangeTaskPlayUrl (task_id play_url : string) (m : mgr) : mgr :=
  match FindTask task_id m with
  | None => m
  | Some task_ptr =>
      let device_obj := media_renderes_ task_ptr in
      let '(err_code, new_play_url) := ReplacePlayUrlHost (c_str (GetLocalIP device_obj)) play_url in
      if negb (bool_decide (err_code = kSuccess)) then m
      else
        emits [SetAVTransportURI device_obj (c_str play_url) None]
          (set_tasks (<[task_id := ChangePlayUrl play_url task_ptr]> (task_ m)) m)
  end.

(** A request to the device of a task, if the task is there. *)
Definition on_device (task_id : string) (request : device → effect) (m : mgr) : mgr :=
  match FindTaskRenderesDevice task_id m with
  | None => m
  | Some device_obj => emits [request device_obj] m
  end.
Definition PlayTask (task_id : string) (m : mgr) : mgr := on_device task_id Play m.
Definition PauseTask (task_id : string) (m : mgr) : mgr := on_device task_id Pause m.
Definition SetTaskVolume (task_id : string) (volume : Z) (m : mgr) : mgr :=
  on_device task_id (λ d, SetVolume d volume) m.

(** [snprintf] into nine bytes keeps eight characters; the conversion of the
    double is undefined out of the range of [int]. *)
Definition SecondsFormatTime (seconds : double) : option string :=
  s ← d_trunc seconds;
  if in_int32 s then
    let hours := Z.quot s 3600 in
    let minutes := Z.quot (Z.rem s 3600) 60 in
    let remaining_seconds := Z.rem s 60 in
    Some (substr 0 8 (pad2 hours +:+ ":" +:+ pad2 minutes +:+ ":" +:+ pad2 remaining_seconds))
  else None.

(** [None] is undefined behaviour. *)
Definition SeekTask (task_id : string) (pos : Z) (m : mgr) : option mgr :=
  match FindTaskRenderesDevice task_id m with
  | None => Some m
  | Some device_obj =>
      target ← SecondsFormatTime (d_of_Z pos); Some (emits [Seek device_obj target] m)
  end.

(** *** What the UPnP library reports *)
Definition OnMRAdded (d : device) (m : mgr) : mgr :=
  if has_AVTransport d then emits [GetProtocolInfo d] m else m.

Definition OnMRRemoved (d : option device) (m : mgr) : mgr :=
  match d with
  | None => m
  | Some d => set_devices (dm_Erase (GetUUID d) (media_renderers_ m)) m
  end.

Definition OnGetProtocolInfoResult (ok : bool) (d : device) (sinks : list string) (m : mgr) : mgr :=
  if negb ok then m
  else
    match sinks with
    | [] => m
    | _ =>
        match dm_Get (GetUUID d) (media_renderers_ m) with
        | Some _ => m
        | None =>
            let m := set_devices (dm_Put (GetUUID d) d (media_renderers_ m)) m in
            set_sinks (sink_protocol_info_ m) (posted m ++ [(c_str (GetUUID d), sinks)]) m
        end
    end.

(** The content types of the protocol descriptions with at least three parts. *)
Definition sink_types (sinks_info : list string) : list string :=
  omap (λ it, SplitString (c_str it) ":" !! 2%nat) sinks_info.
(** [insert] keeps an older entry. *)
Definition AddSinkProtocolInfo (device_uuid : string) (sinks_info : list string) (m : mgr) : mgr :=
  match sink_protocol_info_ m !! device_uuid with
  | Some _ => m
  | None => set_sinks (<[device_uuid := sink_types sinks_info]> (sink_protocol_info_ m)) (posted m) m
  end.
(** The work thread runs the next posted call. *)
Definition run_posted (m : mgr) : mgr :=
  match posted m with
  | [] => m
  | (u, s) :: ps => AddSinkProtocolInfo u s (set_sinks (sink_protocol_info_ m) ps m)
  end.

Definition DeviceSupportProtocol (device_id play_url : string) (m : mgr) : DlnaServiceErrorNo :=
  let ext := GetFileExtensionFromUrl play_url in
  if str_empty ext then kPlayUrlInvalid
  else
    match list_find (λ v : string * list string, ext ∈ v.2) kMimeTypes with
    | None => kNonsupportMimeTypeExtension
    | Some (_, (mime_type, _)) =>
        match sink_protocol_info_ m !! device_id with
        | None => kScreenCastingDeviceNoneProtocol
        | Some types =>
            if bool_decide (mime_type ∈ types) then kSuccess
            else kScreenCastingDeviceNonsupportProtocol
        end
    end.

(** The task a result belongs to. *)
Definition with_task (userdata : option string) (f : task → mgr → mgr) (m : mgr) : mgr :=
  match userdata with
  | None => m
  | Some task_id => match FindTask task_id m with None => m | Some t => f t m end
  end.
Definition store (t : task) (m : mgr) : mgr := set_tasks (<[id_ t := t]> (task_ m)) m.

Definition OnSetAVTransportURIResult (ok : bool) (userdata : option string) (m : mgr) : mgr :=
  with_task userdata (λ t m,
    let '(es, t) := OnStart ok t in
    let m := emits es (store t m) in
    if negb ok then RemoveTask (id_ t) m
    else set_timers (check_task_ws_timer_ m) (query_timer_ m) (push_timer_ m) (S (delayed m)) m) m.

Definition OnStopResult (ok : bool) (userdata : option string) (m : mgr) : mgr :=
  with_task userdata (λ t m, RemoveTask (id_ t) m) m.

Definition OnGetPositionInfoResult (ok : bool) (info : position) (userdata : option string) (m : mgr)
    : mgr :=
  if negb ok then m else with_task userdata (λ t m, store (SetPositionInfo info t) m) m.
Definition OnGetTransportInfoResult (ok : bool) (info : transport) (userdata : option string) (m : mgr)
    : mgr :=
  if negb ok then m else with_task userdata (λ t m, store (SetTransportInfo info t) m) m.
Definition OnGetVolumeResult (ok : bool) (volume : Z) (userdata : option string) (m : mgr) : mgr :=
  if negb ok then m else with_task userdata (λ t m, store (task_SetVolume volume t) m) m.

(** *** Timers *)
Definition StartTaskTimer (m : mgr) : mgr := set_timers true true true (delayed m) m.
(** One of the delayed calls runs. *)
Definition run_delayed (m : mgr) : mgr :=
  match delayed m with
  | O => m
  | S n => StartTaskTimer (set_timers (check_task_ws_timer_ m) (query_timer_ m) (push_timer_ m) n m)
  end.

Definition ConnStausCallback (id conn_count : string) (m : mgr) : mgr :=
  let conn_count_value := StringToInt_output conn_count in
  match task_ m !! id with
  | None => m
  | Some _ =>
      let m := if conn_count_value =? 0 then RemoveTask id m else m in
      if bool_decide (task_ m = ∅)
      then set_timers false (query_timer_ m) (push_timer_ m) (delayed m) m else m
  end.

Definition QueryTaskStatusInfo (t : task) : list effect :=
  [GetTransportInfo (media_renderes_ t) (Some (id_ t)); GetPositionInfo (media_renderes_ t) (Some (id_ t));
   GetVolume (media_renderes_ t) (Some (id_ t))].

Definition TimeingQueryTaskStatus (m : mgr) : mgr :=
  if bool_decide (task_ m = ∅)
  then set_timers (check_task_ws_timer_ m) false (push_timer_ m) (delayed m) m
  else emits (tasks_in_order m ≫= λ e, QueryTaskStatusInfo e.2) m.

(** The loop over the map: a task that is over is erased, the others stay with
    what the notification changed in them. *)
Definition push_step (ts : gmap string task) (k : string) : gmap string task :=
  match ts !! k with
  | None => ts
  | Some t => let '(is_stop, t) := NotifyStatusInfo t in
              if is_stop : bool then delete k ts else <[k := t]> ts
  end.
Definition TimeingPushTaskStatus (m : mgr) : mgr :=
  if bool_decide (task_ m = ∅)
  then set_timers (check_task_ws_timer_ m) (query_timer_ m) false (delayed m) m
  else set_tasks (foldl push_step (task_ m) (map_keys (task_ m))) m.

(** ** The request handlers ([grpc_call_data/]) *)

(** What a call answers: the error number, and its description. *)
Record reply := mkReply { errcode : Z; msg : string }.
Definition finish (e : DlnaServiceErrorNo) : reply := mkReply (errno_value e) (GetErrorDesc (errno_value e)).

(** [CreateScreenCastingTaskCallDate::Process]: [None] means that the answer
    comes when the callback [call] runs. *)
Definition Process_Create (device_id play_url x_endpoint_id : string) (call : nat) (task_id : string)
    (garbage : Z) (m : mgr) : option reply * mgr :=
  if str_empty play_url || str_empty device_id || str_empty x_endpoint_id
  then (Some (finish kParamInvalid), m)
  else (None, CreateTask device_id play_url (Some call) task_id garbage m).
(** [ProcessComplete]: the task id of the response, and the result. *)
Definition ProcessComplete_Create (task_id : string) (err_code : DlnaServiceErrorNo) : string * reply :=
  (task_id, finish (if str_empty task_id then err_code else kSuccess)).

Definition Process_Cancel (task_id : string) (m : mgr) : reply * mgr :=
  if negb (str_empty task_id) then (finish kSuccess, CancelTask task_id m)
  else (finish kParamInvalid, m).
Definition Process_ChangePlayUrl (task_id play_url : string) (m : mgr) : reply * mgr :=
  (finish kSuccess, ChangeTaskPlayUrl task_id play_url m).
Definition Process_Play (task_id : string) (m : mgr) : reply * mgr := (finish kSuccess, PlayTask task_id m).
Definition Process_Pause (task_id : string) (m : mgr) : reply * mgr := (finish kSuccess, PauseTask task_id m).
Definition Process_Seek (task_id : string) (pos : Z) (m : mgr) : reply * option mgr :=
  (finish kSuccess, SeekTask task_id pos m).
Definition Process_SetVolume (task_id : string) (volume : Z) (m : mgr) : reply * mgr :=
  (finish kSuccess, SetTaskVolume task_id volume m).
Definition Process_List (call : nat) (m : mgr) : mgr := GetMediaRenderesList (Some call) m.
(** [DlnaServiceAsyncImpl::Reset] *)
Definition Reset (level : Z) (m : mgr) : mgr := CancelAllTask m.
End WithLibrary.
