(* ===== verification/ScreenCastingSpec.v ===== *)
(** * What the screen-casting manager guarantees

    The events of the manager, the invariant of its tasks and timers, and the
    conservation of the callbacks of creation requests. *)

From S2P Require Import Prelude CppBase DlnaTypes ScreenCasting.

Section WithLibrary.
Context {bl : BaseLib} {dl : DlnaLib}.

(** ** Events *)
Inductive event :=
  | DCreate (device_id play_url x_endpoint_id : string) (call : nat) (task_id : string) (garbage : Z)
  | DCancel (task_id : string)
  | DChange (task_id play_url : string)
  | DPlay (task_id : string)
  | DPause (task_id : string)
  | DSeek (task_id : string) (pos : Z)
  | DVolume (task_id : string) (volume : Z)
  | DList (call : nat)
  | DReset (level : Z)
  | DAdded (d : device)
  | DRemoved (d : option device)
  | DProtocol (ok : bool) (d : device) (sinks : list string)
  | DPosted
  | DSetURI (ok : bool) (userdata : option string)
  | DStopped (ok : bool) (userdata : option string)
  | DPosition (ok : bool) (info : position) (userdata : option string)
  | DTransport (ok : bool) (info : transport) (userdata : option string)
  | DVolumeIs (ok : bool) (volume : Z) (userdata : option string)
  | DDelayed
  | DConn (id conn_count : string)
  | DQuery
  | DPush.

(** [None] is undefined behaviour. *)
Definition happen (e : event) (m : mgr) : option mgr :=
  match e with
  | DCreate d u x call t g => Some (Process_Create d u x call t g m).2
  | DCancel t => Some (Process_Cancel t m).2
  | DChange t u => Some (Process_ChangePlayUrl t u m).2
  | DPlay t => Some (Process_Play t m).2
  | DPause t => Some (Process_Pause t m).2
  | DSeek t p => (Process_Seek t p m).2
  | DVolume t v => Some (Process_SetVolume t v m).2
  | DList call => Some (Process_List call m)
  | DReset l => Some (Reset l m)
  | DAdded d => Some (OnMRAdded d m)
  | DRemoved d => Some (OnMRRemoved d m)
  | DProtocol ok d s => Some (OnGetProtocolInfoResult ok d s m)
  | DPosted => Some (run_posted m)
  | DSetURI ok u => Some (OnSetAVTransportURIResult ok u m)
  | DStopped ok u => Some (OnStopResult ok u m)
  | DPosition ok i u => Some (OnGetPositionInfoResult ok i u m)
  | DTransport ok i u => Some (OnGetTransportInfoResult ok i u m)
  | DVolumeIs ok v u => Some (OnGetVolumeResult ok v u m)
  | DDelayed => Some (run_delayed m)
  | DConn i c => Some (ConnStausCallback i c m)
  | DQuery => Some (TimeingQueryTaskStatus m)
  | DPush => Some (TimeingPushTaskStatus m)
  end.

(** A generated id is new; seeking is within the range of [int]; a timer fires
    while it runs. *)
Definition possible (e : event) (m : mgr) : Prop :=
  match e with
  | DCreate _ _ _ _ t _ => task_ m !! t = None
  | DSeek _ p => is_Some (SecondsFormatTime (d_of_Z p))
  | DQuery => query_timer_ m = true
  | DPush => push_timer_ m = true
  | _ => True
  end.

Inductive run : list event → mgr → mgr → Prop :=
  | run_nil m : run [] m m
  | run_cons e es m m1 m2 :
      possible e m → happen e m = Some m1 → run es m1 m2 → run (e :: es) m m2.

(** ** The notification and the push *)
Definition task_over (t : task) : Prop :=
  ChangedPlayUrl t = true ∨ (GetTaskPlayStatus t = kSTOPED ∧ 3 <= stoped_count_ t).

Lemma NotifyStatusInfo_over t : (NotifyStatusInfo t).1 = true ↔ task_over t.
Proof.
  unfold NotifyStatusInfo, task_over. generalize (notify_content) as content. intros content.
  destruct (GetTaskPlayStatus t) eqn:Hs; destruct (ChangedPlayUrl t) eqn:Hc;
    change (bool_decide (kUnknown = kSTOPED)) with false; change (bool_decide (kPLAYING = kSTOPED)) with false;
    change (bool_decide (kPAUSE = kSTOPED)) with false; change (bool_decide (kSTOPED = kSTOPED)) with true;
    cbn beta iota zeta; rewrite ?andb_true_r, ?andb_false_r; cbn;
    try (split; [by left|done]); try (case_match; cbn; (split; [done|by intros [?|[? _]]])).
  destruct (Z.ltb_spec (stoped_count_ t) 3);
    change (bool_decide (kUnknown = kSTOPED)) with false; change (bool_decide (kSTOPED = kSTOPED)) with true;
    rewrite ?andb_true_r, ?andb_false_r; [case_match|]; cbn;
    (split; [first [done|by right]|intros [?|[_ ?]]; first [done|lia]]).
Qed.

(** What the notification changes in a task that goes on. *)
Lemma NotifyStatusInfo_task t :
  id_ (NotifyStatusInfo t).2 = id_ t ∧ start_callback_ (NotifyStatusInfo t).2 = start_callback_ t ∧
  play_url_ (NotifyStatusInfo t).2 = play_url_ t ∧ media_renderes_ (NotifyStatusInfo t).2 = media_renderes_ t ∧
  position_info_ (NotifyStatusInfo t).2 = position_info_ t ∧
  transport_info_ (NotifyStatusInfo t).2 = transport_info_ t ∧
  stoped_count_ (NotifyStatusInfo t).2 =
    stoped_count_ t + (if bool_decide (GetTaskPlayStatus t = kSTOPED) then 1 else 0).
Proof.
  unfold NotifyStatusInfo. case_bool_decide; case_match; cbn; split_and!; try done; lia.
Qed.

(** One push, task by task. *)
Definition pushed (o : option task) : option task :=
  t ← o; if (NotifyStatusInfo t).1 then None else Some (NotifyStatusInfo t).2.

Lemma push_step_lookup ts k j :
  push_step ts k !! j = if bool_decide (j = k) then pushed (ts !! k) else ts !! j.
Proof.
  unfold push_step, pushed. destruct (ts !! k) as [t|] eqn:Hk; cbn.
  - destruct (NotifyStatusInfo t) as [[] t']; cbn; case_bool_decide; subst.
    + by rewrite lookup_delete_eq.
    + by rewrite lookup_delete_ne.
    + by rewrite lookup_insert_eq.
    + by rewrite lookup_insert_ne.
  - case_bool_decide; by subst.
Qed.

Lemma push_fold_lookup ks ts j : NoDup ks →
  foldl push_step ts ks !! j = if bool_decide (j ∈ ks) then pushed (ts !! j) else ts !! j.
Proof.
  intros Hks. revert ts. induction Hks as [|k ks Hk Hks IH]; intros ts; [done|]. cbn [foldl].
  rewrite IH, push_step_lookup. repeat case_bool_decide; subst; try done; set_solver.
Qed.

Lemma push_lookup m j : task_ (TimeingPushTaskStatus m) !! j = pushed (task_ m !! j).
Proof.
  unfold TimeingPushTaskStatus. case_bool_decide as He.
  - cbn. by rewrite He, lookup_empty.
  - cbn. rewrite push_fold_lookup by apply NoDup_map_keys. case_bool_decide as Hj; [done|].
    rewrite elem_of_map_keys in Hj. destruct (task_ m !! j) eqn:Ht; [|done]. destruct Hj. by eexists.
Qed.

(** ** The invariant *)

(** Tasks are filed under their ids, the count of STOPPED reports is bounded,
    and a task whose creation was answered is polled, or will be. *)
Definition polled (m : mgr) : Prop :=
  (query_timer_ m = true ∧ push_timer_ m = true) ∨ (0 < delayed m)%nat.
Definition task_ok (k : string) (t : task) : Prop := id_ t = k ∧ 0 <= stoped_count_ t <= 3.
Definition tasks_inv (m : mgr) : Prop :=
  map_Forall task_ok (task_ m) ∧
  (∀ k t, task_ m !! k = Some t → start_callback_ t = None → polled m).

Lemma tasks_inv_init : tasks_inv ScreenCastingMgr.
Proof. split; [apply map_Forall_empty|]. intros k t. cbn. by rewrite lookup_empty. Qed.

(** A step that keeps timers and changes tasks one by one. *)
Lemma tasks_inv_step m m' :
  tasks_inv m → (polled m → polled m') →
  (∀ k t', task_ m' !! k = Some t' → task_ok k t' ∧
     (start_callback_ t' = None →
        polled m' ∨ ∃ t, task_ m !! k = Some t ∧ start_callback_ t = None)) →
  tasks_inv m'.
Proof.
  intros [H1 H2] Hp Hk. split; [intros k t Ht; by apply Hk|].
  intros k t Ht Hn. destruct (Hk _ _ Ht) as [_ Hc]. destruct (Hc Hn) as [?|(t0 & Ht0 & Hn0)]; [done|].
  by eapply Hp, H2.
Qed.

Lemma tasks_inv_same m m' :
  tasks_inv m → task_ m' = task_ m → (polled m → polled m') → tasks_inv m'.
Proof.
  intros Hi Ht Hp. eapply tasks_inv_step; [done..|]. rewrite Ht. intros k t Hk.
  split; [by apply Hi|]. intros Hn. right. by exists t.
Qed.

Lemma tasks_inv_insert k t m :
  tasks_inv m → task_ok k t → (start_callback_ t = None → polled m) →
  tasks_inv (set_tasks (<[k := t]> (task_ m)) m).
Proof.
  intros Hi Ht Hn. eapply tasks_inv_step; [done..|]. cbn. intros j t' Hj.
  destruct (decide (j = k)) as [->|Hne].
  - rewrite lookup_insert_eq in Hj. simplify_eq. split; [done|]. intros ?. left. by apply Hn.
  - rewrite lookup_insert_ne in Hj by done. split; [by apply Hi|]. intros ?. right. by exists t'.
Qed.

Lemma tasks_inv_delete k m : tasks_inv m → tasks_inv (set_tasks (delete k (task_ m)) m).
Proof.
  intros Hi. eapply tasks_inv_step; [done..|]. cbn. intros j t' Hj.
  apply lookup_delete_Some in Hj as [_ Hj]. split; [by apply Hi|]. intros ?. right. by exists t'.
Qed.

Lemma tasks_inv_with_task u f m :
  tasks_inv m → (∀ k t, u = Some k → task_ m !! k = Some t → tasks_inv (f t m)) → tasks_inv (with_task u f m).
Proof.
  intros Hi Hf. unfold with_task, FindTask. destruct u as [k|]; [|done].
  destruct (task_ m !! k) eqn:Hk; [by eapply Hf|done].
Qed.

Lemma tasks_inv_store k t t' m :
  tasks_inv m → task_ m !! k = Some t → id_ t' = id_ t → stoped_count_ t' = stoped_count_ t →
  start_callback_ t' = start_callback_ t → tasks_inv (store t' m).
Proof.
  intros Hi Hk E1 E2 E3. pose proof (proj1 Hi _ _ Hk) as [Hid Hc]. unfold store. cbn in Hid, Hc.
  apply tasks_inv_insert; [done| |].
  - split; [done|]. by rewrite E2.
  - rewrite E3. intros Hn. by apply (proj2 Hi _ _ Hk).
Qed.

Lemma tasks_inv_push m : tasks_inv m → tasks_inv (TimeingPushTaskStatus m).
Proof.
  intros Hi. destruct (decide (task_ m = ∅)) as [He|He].
  { split; [|intros k t Ht]; [intros k t Ht|]; rewrite push_lookup, He, lookup_empty in Ht; done. }
  eapply tasks_inv_step; [done| |].
  - unfold TimeingPushTaskStatus. by rewrite bool_decide_false.
  - intros k t'. rewrite push_lookup. unfold pushed. destruct (task_ m !! k) as [t|] eqn:Hk; cbn; [|done].
    destruct (NotifyStatusInfo t).1 eqn:Ho; [done|]. intros [= <-].
    pose proof (proj1 Hi _ _ Hk) as [Hid Hc]. cbn in Hid, Hc.
    destruct (NotifyStatusInfo_task t) as (E1 & E2 & _ & _ & _ & _ & E3). split.
    + split; [by rewrite E1|]. rewrite E3. case_bool_decide as Hs; [|lia].
      assert (¬ task_over t) as Hn by (rewrite <-NotifyStatusInfo_over; by rewrite Ho).
      unfold task_over in Hn. destruct (Z.le_gt_cases 3 (stoped_count_ t)); [naive_solver|lia].
    + rewrite E2. intros Hn. right. by exists t.
Qed.

Lemma tasks_inv_emits es m : tasks_inv m → tasks_inv (emits es m).
Proof. intros Hi. by eapply tasks_inv_same. Qed.
Lemma tasks_inv_answer c i e m : tasks_inv m → tasks_inv (answer c i e m).
Proof. intros Hi. destruct c; [by apply tasks_inv_emits|done]. Qed.
Lemma tasks_inv_on_device t r m : tasks_inv m → tasks_inv (on_device t r m).
Proof. intros Hi. unfold on_device. case_match; [by apply tasks_inv_emits|done]. Qed.

Lemma tasks_inv_create d u call t g m :
  tasks_inv m → tasks_inv (CreateTask d u (Some call) t g m).
Proof.
  intros Hi. unfold CreateTask. destruct (FindRenderesDevice d m) as [dev|]; [|by apply tasks_inv_answer].
  destruct (ReplacePlayUrlHost _ u) as [err url]. case_match; [by apply tasks_inv_answer|].
  apply tasks_inv_emits. case_match; [done|]. apply tasks_inv_insert; [done| |done]. split; [done|]. cbn. lia.
Qed.

Lemma tasks_inv_set_uri ok u m : tasks_inv m → tasks_inv (OnSetAVTransportURIResult ok u m).
Proof.
  intros Hi. apply tasks_inv_with_task; [done|]. intros k t _ Hk.
  pose proof (proj1 Hi _ _ Hk) as [Hid Hc]. cbn in Hid, Hc.
  destruct (OnStart ok t) as [es t1] eqn:Hs.
  assert (id_ t1 = k ∧ stoped_count_ t1 = stoped_count_ t) as [E1 E2]
    by (unfold OnStart in Hs; destruct (start_callback_ t); by simplify_eq/=).
  destruct ok; cbn [negb].
  - eapply tasks_inv_step; [exact Hi| |].
    + intros _. right. cbn. lia.
    + cbn. rewrite E1. intros j t' Hj. destruct (decide (j = k)) as [->|Hne].
      * rewrite lookup_insert_eq in Hj. simplify_eq. split; [split; [done|lia]|]. intros _. left. right. cbn. lia.
      * rewrite lookup_insert_ne in Hj by done. split; [by apply Hi|]. intros _. left. right. cbn. lia.
  - eapply tasks_inv_step; [exact Hi|done|]. cbn. rewrite E1. intros j t' Hj.
    apply lookup_delete_Some in Hj as [Hne Hj]. rewrite lookup_insert_ne in Hj by done.
    split; [by apply Hi|]. intros ?. right. by exists t'.
Qed.

Lemma tasks_inv_conn i c m : tasks_inv m → tasks_inv (ConnStausCallback i c m).
Proof.
  intros Hi. unfold ConnStausCallback. destruct (task_ m !! i); [|done].
  set (m1 := if _ =? 0 then _ else _).
  assert (tasks_inv m1) as H1 by (subst m1; destruct (_ =? 0); [by apply tasks_inv_delete|done]).
  case_bool_decide; [|done]. by eapply tasks_inv_same.
Qed.

Lemma tasks_inv_happen e m m' : tasks_inv m → happen e m = Some m' → tasks_inv m'.
Proof.
  intros Hi H. destruct e; cbn [happen] in H; simplify_eq/=.
  - unfold Process_Create. case_match; [done|]. by apply tasks_inv_create.
  - unfold Process_Cancel. case_match; [|done]. unfold CancelTask. cbn.
    destruct (FindTaskRenderesDevice _ m); [by apply tasks_inv_emits|done].
  - unfold ChangeTaskPlayUrl, FindTask. destruct (task_ m !! task_id) as [t|] eqn:Ht; [|done].
    destruct (ReplacePlayUrlHost _ _) as [err url]. case_match; [done|]. apply tasks_inv_emits.
    pose proof (proj1 Hi _ _ Ht) as [Hid Hc]. cbn in Hid, Hc.
    apply tasks_inv_insert; [done|done|]. cbn. by apply (proj2 Hi _ _ Ht).
  - by apply tasks_inv_on_device.
  - by apply tasks_inv_on_device.
  - unfold SeekTask in H. destruct (FindTaskRenderesDevice _ _); [|by simplify_eq].
    destruct (SecondsFormatTime _); cbn in H; simplify_eq. by apply tasks_inv_emits.
  - by apply tasks_inv_on_device.
  - by apply tasks_inv_emits.
  - by apply tasks_inv_emits.
  - unfold OnMRAdded. destruct (has_AVTransport d); [by apply tasks_inv_emits|done].
  - unfold OnMRRemoved. destruct d; [by eapply tasks_inv_same|done].
  - unfold OnGetProtocolInfoResult. destruct ok; [|done]. destruct sinks; [done|]. cbn [negb].
    destruct (dm_Get _ _); [done|by eapply tasks_inv_same].
  - unfold run_posted, AddSinkProtocolInfo. destruct (posted m) as [|[u s] ps]; [done|]. cbn.
    destruct (sink_protocol_info_ m !! u); by eapply tasks_inv_same.
  - by apply tasks_inv_set_uri.
  - apply tasks_inv_with_task; [done|]. intros k t _ _. by apply tasks_inv_delete.
  - unfold OnGetPositionInfoResult. destruct ok; [|done]. apply tasks_inv_with_task; [done|].
    intros k t _ Hk. by eapply tasks_inv_store.
  - unfold OnGetTransportInfoResult. destruct ok; [|done]. apply tasks_inv_with_task; [done|].
    intros k t _ Hk. by eapply tasks_inv_store.
  - unfold OnGetVolumeResult. destruct ok; [|done]. apply tasks_inv_with_task; [done|].
    intros k t _ Hk. by eapply tasks_inv_store.
  - unfold run_delayed. destruct (delayed m); [done|]. eapply tasks_inv_same; [done..|]. intros _. by left.
  - by apply tasks_inv_conn.
  - unfold TimeingQueryTaskStatus. case_bool_decide as He; [|by apply tasks_inv_emits].
    split; [|intros k t Ht]; [intros k t Ht|]; cbn in Ht; rewrite He, lookup_empty in Ht; done.
  - by apply tasks_inv_push.
Qed.

Lemma tasks_inv_run es m m' : run es m m' → tasks_inv m → tasks_inv m'.
Proof. induction 1; [done|]. intros Hi. apply IHrun. by eapply tasks_inv_happen. Qed.
End WithLibrary.
