(* ===== verification/ScreenCastingClaims.v ===== *)
(** * The properties of screen casting

    Creation requests and their answers, polling, the end of tasks, and the
    format of seek positions; each applied at a concrete run. *)

From S2P Require Import Prelude CppBase BaseRef DlnaTypes ScreenCasting ScreenCastingSpec.

(** ** Conservation of the callbacks of creation requests *)
Section Conservation.
Context {bl : BaseLib} {dl : DlnaLib}.

Definition waiting (ts : gmap string task) : list nat :=
  map_to_list ts ≫= λ e, option_list (start_callback_ e.2).
Definition answered (es : list effect) : list nat :=
  es ≫= λ e, match e with CreateAnswered k _ _ => [k] | _ => [] end.
(** The calls whose answer is left to a callback. *)
Definition accepted (e : event) : list nat :=
  match e with
  | DCreate d u x call _ _ => if str_empty u || str_empty d || str_empty x then [] else [call]
  | _ => []
  end.
Definition waiting_of (id : string) (m : mgr) : list nat :=
  from_option (λ t, option_list (start_callback_ t)) [] (task_ m !! id).
(** The callbacks of tasks that this event removes unanswered. *)
Definition lost_by (e : event) (m : mgr) : list nat :=
  match e with
  | DStopped _ (Some id) => waiting_of id m
  | DConn id c => if StringToInt_output c =? 0 then waiting_of id m else []
  | DPush => map_keys (task_ m) ≫= λ k,
      from_option (λ t, if (NotifyStatusInfo t).1 then option_list (start_callback_ t) else [])
        [] (task_ m !! k)
  | _ => []
  end.
Fixpoint lost_in (es : list event) (m : mgr) : list nat :=
  match es with
  | [] => []
  | e :: es => lost_by e m ++ from_option (lost_in es) [] (happen e m)
  end.

Lemma bind_ext_in {A B} (f g : A → list B) l : (∀ x, x ∈ l → f x = g x) → l ≫= f = l ≫= g.
Proof.
  induction l as [|x l IH]; intros H; [done|]. rewrite !bind_cons. f_equal; [|apply IH]; set_solver.
Qed.
Lemma answered_app a b : answered (a ++ b) = answered a ++ answered b.
Proof. apply bind_app. Qed.
(** Permutation is compatible with [bind]; the lists of map entries are only
    determined up to it. *)
Lemma waiting_perm l1 l2 : l1 ≡ₚ l2 →
  (l1 ≫= λ e : string * task, option_list (start_callback_ e.2)) ≡ₚ
  (l2 ≫= λ e : string * task, option_list (start_callback_ e.2)).
Proof. intros H. by rewrite H. Qed.

Lemma waiting_insert k t ts : ts !! k = None →
  waiting (<[k := t]> ts) ≡ₚ option_list (start_callback_ t) ++ waiting ts.
Proof. intros Hk. unfold waiting. by rewrite map_to_list_insert. Qed.
Lemma waiting_delete k t ts : ts !! k = Some t →
  waiting ts ≡ₚ option_list (start_callback_ t) ++ waiting (delete k ts).
Proof.
  intros Hk. rewrite <-waiting_insert by apply lookup_delete_eq. by rewrite insert_delete_id.
Qed.
Lemma waiting_update k t t' ts : ts !! k = Some t →
  option_list (start_callback_ t) ++ waiting (<[k := t']> ts) ≡ₚ
  option_list (start_callback_ t') ++ waiting ts.
Proof.
  intros Hk. rewrite (waiting_delete k t ts Hk), <-(insert_delete_eq ts k t').
  rewrite (waiting_insert k t') by apply lookup_delete_eq. solve_Permutation.
Qed.

Lemma waiting_push_fold ks ts : NoDup ks →
  waiting ts ≡ₚ waiting (foldl push_step ts ks) ++
    (ks ≫= λ k, from_option (λ t, if (NotifyStatusInfo t).1 then option_list (start_callback_ t) else [])
                  [] (ts !! k)).
Proof.
  intros Hks. revert ts. induction Hks as [|k ks Hk Hks IH]; intros ts; [by rewrite app_nil_r|].
  cbn [foldl]. rewrite bind_cons.
  assert ((ks ≫= λ k0, from_option (λ t, if (NotifyStatusInfo t).1 then option_list (start_callback_ t)
      else []) [] (push_step ts k !! k0)) =
    (ks ≫= λ k0, from_option (λ t, if (NotifyStatusInfo t).1 then option_list (start_callback_ t)
      else []) [] (ts !! k0))) as Heq.
  { apply bind_ext_in. intros j Hj. rewrite push_step_lookup.
    case_bool_decide; [by subst|done]. }
  assert (waiting ts ≡ₚ waiting (push_step ts k) ++
    from_option (λ t, if (NotifyStatusInfo t).1 then option_list (start_callback_ t) else []) [] (ts !! k))
    as Hstep.
  { unfold push_step. destruct (ts !! k) as [t|] eqn:Ht; cbn; [|by rewrite app_nil_r].
    pose proof (NotifyStatusInfo_task t) as (_ & E & _).
    destruct (NotifyStatusInfo t) as [[] t']; cbn in *.
    - rewrite (waiting_delete k t ts Ht). solve_Permutation.
    - rewrite app_nil_r. pose proof (waiting_update k t t' ts Ht) as Hu. rewrite E in Hu.
      by apply Permutation_app_inv_l in Hu. }
  rewrite Hstep, (IH (push_step ts k)), Heq. solve_Permutation.
Qed.

(** What is answered, waiting, and lost. *)
Definition balance (m : mgr) : list nat := answered (effects m) ++ waiting (task_ m).

Lemma balance_emits es m : answered es = [] → balance (emits es m) = balance m.
Proof. intros H. unfold balance. cbn. by rewrite answered_app, H, app_nil_r. Qed.
Lemma balance_on_device t r m : (∀ d, answered [r d] = []) → balance (on_device t r m) = balance m.
Proof. intros H. unfold on_device. case_match; [by rewrite balance_emits|done]. Qed.
Lemma balance_store k t t' m :
  tasks_inv m → task_ m !! k = Some t → id_ t' = id_ t → start_callback_ t' = start_callback_ t →
  balance (store t' m) ≡ₚ balance m.
Proof.
  intros Hi Hk E1 E2. pose proof (proj1 Hi _ _ Hk) as [Hid _]. cbn in Hid.
  unfold balance, store. cbn. rewrite E1, Hid. pose proof (waiting_update k t t' _ Hk) as Hu.
  rewrite E2 in Hu. apply Permutation_app_inv_l in Hu. by rewrite Hu.
Qed.
Lemma balance_remove id m : balance m ≡ₚ waiting_of id m ++ balance (RemoveTask id m).
Proof.
  unfold balance, waiting_of, RemoveTask. cbn. destruct (task_ m !! id) as [t|] eqn:Ht; cbn.
  - rewrite (waiting_delete id t _ Ht). solve_Permutation.
  - by rewrite delete_id.
Qed.
Lemma balance_with_task u f m :
  (∀ k t, u = Some k → task_ m !! k = Some t → balance (f t m) ≡ₚ balance m) →
  balance (with_task u f m) ≡ₚ balance m.
Proof.
  intros Hf. unfold with_task, FindTask. destruct u as [k|]; [|done].
  destruct (task_ m !! k) eqn:Hk; [by eapply Hf|done].
Qed.

Lemma balance_create d u call t g m : task_ m !! t = None →
  balance (CreateTask d u (Some call) t g m) ≡ₚ call :: balance m.
Proof.
  intros Hnew. unfold CreateTask, answer. destruct (FindRenderesDevice d m) as [dev|].
  2:{ unfold balance. cbn. rewrite answered_app. cbn. solve_Permutation. }
  destruct (ReplacePlayUrlHost _ u) as [err url]. case_match.
  { unfold balance. cbn. rewrite answered_app. cbn. solve_Permutation. }
  rewrite Hnew, balance_emits by done. unfold balance. cbn. rewrite waiting_insert by done. cbn.
  solve_Permutation.
Qed.

Lemma balance_set_uri ok u m : tasks_inv m → balance (OnSetAVTransportURIResult ok u m) ≡ₚ balance m.
Proof.
  intros Hi. apply balance_with_task. intros k t _ Hk. pose proof (proj1 Hi _ _ Hk) as [Hid _]. cbn in Hid.
  pose proof (waiting_delete k t _ Hk) as Hd.
  assert (∃ es t1, OnStart ok t = (es, t1) ∧ id_ t1 = k ∧ answered es = option_list (start_callback_ t) ∧
    start_callback_ t1 = None) as (es & t1 & -> & E1 & E2 & E3).
  { unfold OnStart. destruct (start_callback_ t) eqn:Hc; [|by eexists _, _]. eexists _, _.
    split; [done|]. by destruct ok. }
  destruct ok; cbn [negb]; unfold balance; cbn; rewrite answered_app, E2, E1, Hd.
  - pose proof (waiting_update k t t1 _ Hk) as Hu. rewrite E3 in Hu. cbn in Hu.
    rewrite <-Hd, <-Hu. solve_Permutation.
  - rewrite delete_insert_eq. solve_Permutation.
Qed.

Lemma balance_push m : balance m ≡ₚ lost_by DPush m ++ balance (TimeingPushTaskStatus m).
Proof.
  unfold balance, TimeingPushTaskStatus, lost_by. case_bool_decide as He; cbn.
  - assert (map_keys (task_ m) ≫= _ = []) as -> by (rewrite He; done). done.
  - rewrite (waiting_push_fold (map_keys (task_ m)) (task_ m)) at 1 by apply NoDup_map_keys. solve_Permutation.
Qed.

Lemma balance_conn i c m : balance m ≡ₚ lost_by (DConn i c) m ++ balance (ConnStausCallback i c m).
Proof.
  unfold ConnStausCallback, lost_by. destruct (task_ m !! i) as [t|] eqn:Ht.
  2:{ unfold waiting_of. rewrite Ht. by destruct (_ =? 0). }
  set (m1 := if StringToInt_output c =? 0 then RemoveTask i m else m).
  assert (balance m ≡ₚ (if StringToInt_output c =? 0 then waiting_of i m else []) ++ balance m1) as H1
    by (subst m1; destruct (_ =? 0); [apply balance_remove|done]).
  rewrite H1. f_equiv. case_bool_decide; done.
Qed.

Lemma balance_happen e m m' :
  tasks_inv m → possible e m → happen e m = Some m' →
  accepted e ++ balance m ≡ₚ lost_by e m ++ balance m'.
Proof.
  intros Hi Hp H. destruct e; cbn [happen possible accepted] in *; simplify_eq/=.
  - unfold Process_Create. case_match; [done|]. cbn. by rewrite balance_create.
  - unfold Process_Cancel, CancelTask. case_match; [|done]. cbn. case_match; [|done]. by rewrite balance_emits.
  - unfold ChangeTaskPlayUrl, FindTask. destruct (task_ m !! task_id) as [t|] eqn:Ht; [|done].
    destruct (ReplacePlayUrlHost _ _) as [err url]. case_match; [done|]. rewrite balance_emits by done.
    unfold balance. cbn. pose proof (waiting_update task_id t (ChangePlayUrl play_url t) _ Ht) as Hu.
    cbn in Hu. apply Permutation_app_inv_l in Hu. by rewrite Hu.
  - unfold PlayTask. by rewrite balance_on_device.
  - unfold PauseTask. by rewrite balance_on_device.
  - unfold SeekTask in H. destruct (FindTaskRenderesDevice _ _); [|by simplify_eq].
    destruct (SecondsFormatTime _); cbn in H; simplify_eq. by rewrite balance_emits.
  - unfold SetTaskVolume. by rewrite balance_on_device.
  - unfold Process_List, GetMediaRenderesList. by rewrite balance_emits.
  - unfold Reset, CancelAllTask. rewrite balance_emits; [done|].
    induction (tasks_in_order m) as [|x l IH]; [done|]. cbn. exact IH.
  - unfold OnMRAdded. case_match; [by rewrite balance_emits|done].
  - unfold OnMRRemoved. by destruct d.
  - unfold OnGetProtocolInfoResult. destruct ok; [|done]. destruct sinks; [done|]. cbn [negb].
    by destruct (dm_Get _ _).
  - unfold run_posted, AddSinkProtocolInfo. destruct (posted m) as [|[u s] ps]; [done|]. cbn.
    by destruct (sink_protocol_info_ m !! u).
  - by rewrite balance_set_uri.
  - unfold OnStopResult, with_task, FindTask. destruct userdata as [k|]; [|done]. unfold waiting_of.
    destruct (task_ m !! k) as [t|] eqn:Hk; cbn; [|done].
    pose proof (proj1 Hi _ _ Hk) as [Hid _]. cbn in Hid. rewrite Hid, (balance_remove k m).
    unfold waiting_of. by rewrite Hk.
  - unfold OnGetPositionInfoResult. destruct ok; [|done]. symmetry. apply balance_with_task.
    intros k t _ Hk. by eapply balance_store.
  - unfold OnGetTransportInfoResult. destruct ok; [|done]. symmetry. apply balance_with_task.
    intros k t _ Hk. by eapply balance_store.
  - unfold OnGetVolumeResult. destruct ok; [|done]. symmetry. apply balance_with_task.
    intros k t _ Hk. by eapply balance_store.
  - unfold run_delayed. by destruct (delayed m).
  - apply balance_conn.
  - unfold TimeingQueryTaskStatus. case_bool_decide; [done|]. rewrite balance_emits; [done|].
    induction (tasks_in_order m) as [|x l IH]; [done|]. rewrite bind_cons, answered_app, IH. done.
  - apply balance_push.
Qed.
End Conservation.

(** ** A reference implementation of the library calls, for the examples *)
Fixpoint after_char (c : ascii) (s : string) : option string :=
  match s with
  | EmptyString => None
  | String d s => if bool_decide (c = d) then Some s else after_char c s
  end.
Fixpoint split_at (c : ascii) (s : string) : list string :=
  match s with
  | EmptyString => [""]
  | String d s =>
      if bool_decide (c = d) then "" :: split_at c s
      else match split_at c s with w :: ws => String d w :: ws | [] => [String d ""] end
  end.
Fixpoint json_text (v : Value) : string :=
  match v with
  | VInt z => to_string_Z z
  | VString s => "'" +:+ s +:+ "'"
  | VDict d => "{" +:+ foldr (λ e acc, e.1 +:+ ":" +:+ json_text e.2 +:+ "," +:+ acc) "}" d
  | _ => "null"
  end.
#[global] Instance dlna_ref : DlnaLib := {|
  gurl_query u := default "" (after_char "?" u);
  gurl_ExtractFileName u := default "" (last (split_at "/" u));
  FilePath_Extension n := match after_char "." n with Some e => "." +:+ e | None => "" end;
  SplitString s sep := match sep with String c _ => filter (λ w, w ≠ "") (split_at c s) | _ => [s] end;
  StringToInt_output s := default 0 (base_StringToInt s);
  JSONWrite d := json_text (VDict d)
|}.

Definition tv : device := mkDevice "uuid-tv" "TV" "http://10.0.0.9" "10.0.0.2" true.

(** A television appears, two files are cast to it one after the other, the
    second replaces the first, and the television stops. *)
Definition ok_transport (state : string) : transport := mkTransport state "OK".
Definition evening : list event :=
  [DAdded tv; DProtocol true tv ["http-get:*:video/mp4:*"]; DPosted;
   DCreate "uuid-tv" "http://nas/a.mp4" "endpoint" 1 "guid-a" 7;
   DSetURI true (Some "guid-a"); DDelayed; DQuery;
   DTransport true (ok_transport "PLAYING") (Some "guid-a");
   DPosition true (mkPosition "http://nas/a.mp4" 60000000000 1000000000) (Some "guid-a"); DPush;
   DCreate "uuid-tv" "http://nas/b.mp4" "endpoint" 2 "guid-b" 7; DSetURI true (Some "guid-b");
   DPosition true (mkPosition "http://nas/b.mp4" 60000000000 0) (Some "guid-a");
   DPosition true (mkPosition "http://nas/b.mp4" 60000000000 0) (Some "guid-b"); DPush;
   DCreate "uuid-gone" "http://nas/c.mp4" "endpoint" 3 "guid-c" 7;
   DCreate "uuid-tv" "" "endpoint" 4 "guid-d" 7;
   DTransport true (ok_transport "STOPPED") (Some "guid-b"); DPush; DPush; DPush; DPush].

(** Running events when they are possible. *)
Definition possibleb (e : event) (m : mgr) : bool :=
  match e with
  | DCreate _ _ _ _ t _ => bool_decide (task_ m !! t = None)
  | DSeek _ p => bool_decide (is_Some (SecondsFormatTime (d_of_Z p)))
  | DQuery => query_timer_ m
  | DPush => push_timer_ m
  | _ => true
  end.
Fixpoint exec (es : list event) (m : mgr) : option mgr :=
  match es with
  | [] => Some m
  | e :: es => if possibleb e m then m ← happen e m; exec es m else None
  end.
Lemma exec_run es m m' : exec es m = Some m' → run es m m'.
Proof.
  revert m. induction es as [|e es IH]; intros m; cbn [exec]; [intros [= <-]; constructor|].
  destruct (possibleb e m) eqn:Hp; [|done]. destruct (happen e m) as [m1|] eqn:Hh; cbn; [|done].
  intros H. apply run_cons with m1; [|done|by apply IH].
  destruct e; try done; unfold possible, possibleb in *; by apply bool_decide_eq_true in Hp.
Qed.

Definition after_evening : mgr := default ScreenCastingMgr (exec evening ScreenCastingMgr).
Lemma evening_runs : run evening ScreenCastingMgr after_evening.
Proof. apply exec_run. vm_compute. reflexivity. Qed.

(** C33. No creation request is lost silently: after any run of events, the
    requests the manager accepted are exactly those answered, each once,
    those whose task waits for the device's answer, and those whose task
    was removed before it (stopped, its page closed, or ended by a push);
    only the last are never answered. *)
Theorem create_calls_conserved {bl : BaseLib} {dl : DlnaLib} es m :
  run es ScreenCastingMgr m →
  es ≫= accepted ≡ₚ answered (effects m) ++ waiting (task_ m) ++ lost_in es ScreenCastingMgr.
Proof.
  intros Hrun.
  enough (∀ m0, tasks_inv m0 → run es m0 m → (es ≫= accepted) ++ balance m0 ≡ₚ balance m ++ lost_in es m0)
    as H by (specialize (H _ tasks_inv_init Hrun); unfold balance in H; cbn in H;
             rewrite app_nil_r in H; rewrite H; by rewrite <-app_assoc).
  clear Hrun. intros m0 Hi Hrun. revert Hi. induction Hrun as [m|e es m m1 m2 Hp Hh Hrun IH]; intros Hi.
  { by rewrite app_nil_r. }
  pose proof (balance_happen e m m1 Hi Hp Hh) as Hb.
  cbn [lost_in]. rewrite bind_cons, Hh. cbn [from_option].
  assert (tasks_inv m1) as Hi1 by by eapply tasks_inv_happen.
  rewrite <-app_assoc, (Permutation_app_comm (es ≫= accepted)), app_assoc, Hb.
  rewrite <-app_assoc, (Permutation_app_comm (balance m1)), (IH Hi1). solve_Permutation.
Qed.

Lemma create_calls_conserved_witness :
  evening ≫= accepted ≡ₚ
  answered (effects after_evening) ++ waiting (task_ after_evening) ++ lost_in evening ScreenCastingMgr.
Proof. apply create_calls_conserved. exact evening_runs. Defined.

(** Every task that was started is polled: in any reachable state a task
    is filed under its id and has seen at most three STOPPED reports, and if
    its creation was answered then the query and the push timer run, or their
    start is pending, so no event sequence leaves a casting task unwatched. *)
Theorem started_tasks_polled {bl : BaseLib} {dl : DlnaLib} es m id t :
  run es ScreenCastingMgr m → task_ m !! id = Some t →
  id_ t = id ∧ 0 <= stoped_count_ t <= 3 ∧ (start_callback_ t = None → polled m).
Proof.
  intros Hrun Ht. destruct (tasks_inv_run _ _ _ Hrun tasks_inv_init) as [H1 H2].
  destruct (H1 _ _ Ht) as [Hid Hc]. split_and!; try apply Hc; [done|]. by apply (H2 _ _ Ht).
Qed.

Definition first_cast : mgr := default ScreenCastingMgr (exec (take 10 evening) ScreenCastingMgr).
Lemma started_tasks_polled_witness :
  ∃ t, task_ first_cast !! "guid-a" = Some t ∧ id_ t = "guid-a" ∧ 0 <= stoped_count_ t <= 3 ∧
    (start_callback_ t = None → polled first_cast).
Proof.
  eexists. split; [vm_compute; reflexivity|].
  apply (started_tasks_polled (take 10 evening) first_cast "guid-a").
  - apply exec_run. vm_compute. reflexivity.
  - vm_compute. reflexivity.
Defined.

(** A push ends exactly the tasks that are over: those whose device plays
    something else than their url (by path or query), and those whose device
    says STOPPED after three earlier pushes that said so; every other task
    stays, with its url, device, callback and last reports, and one more
    STOPPED counted when there was one.  So of several tasks on one device, at
    most those that name what it plays survive the push. *)
Theorem push_ends_tasks {bl : BaseLib} {dl : DlnaLib} m id :
  match task_ m !! id, task_ (TimeingPushTaskStatus m) !! id with
  | None, t' => t' = None
  | Some t, None => task_over t
  | Some t, Some t' =>
      ¬ task_over t ∧ id_ t' = id_ t ∧ play_url_ t' = play_url_ t ∧ media_renderes_ t' = media_renderes_ t ∧
      start_callback_ t' = start_callback_ t ∧ position_info_ t' = position_info_ t ∧
      transport_info_ t' = transport_info_ t ∧
      stoped_count_ t' = stoped_count_ t + (if bool_decide (GetTaskPlayStatus t = kSTOPED) then 1 else 0) ∧
      (∀ id2 t2, task_ (TimeingPushTaskStatus m) !! id2 = Some t2 →
         track_uri (position_info_ t2) = track_uri (position_info_ t') → track_uri (position_info_ t') ≠ "" →
         gurl_path (play_url_ t2) = gurl_path (play_url_ t') ∧
         gurl_query (play_url_ t2) = gurl_query (play_url_ t'))
  end.
Proof.
  assert (∀ t, ¬ task_over t → track_uri (position_info_ t) ≠ "" →
    gurl_path (play_url_ t) = gurl_path (c_str (track_uri (position_info_ t))) ∧
    gurl_query (play_url_ t) = gurl_query (c_str (track_uri (position_info_ t)))) as Hplays.
  { intros t Hn Hu. assert (ChangedPlayUrl t = false) as Hc
      by (destruct (ChangedPlayUrl t) eqn:E; [destruct Hn; by left|done]).
    unfold ChangedPlayUrl, str_empty in Hc. rewrite (bool_decide_false (_ = "")) in Hc by done.
    apply orb_false_elim in Hc as [H1 H2]. apply negb_false_iff, bool_decide_eq_true in H1, H2. done. }
  assert (∀ j t', task_ (TimeingPushTaskStatus m) !! j = Some t' → ∃ t, task_ m !! j = Some t ∧
    ¬ task_over t ∧ t' = (NotifyStatusInfo t).2) as Hsurvive.
  { intros j t'. rewrite push_lookup. unfold pushed. destruct (task_ m !! j) as [t|]; cbn; [|done].
    destruct (NotifyStatusInfo t).1 eqn:Ho; [done|]. intros [= <-]. exists t. split_and!; [done| |done].
    rewrite <-NotifyStatusInfo_over. by rewrite Ho. }
  destruct (task_ (TimeingPushTaskStatus m) !! id) as [t'|] eqn:Ht'.
  - destruct (Hsurvive _ _ Ht') as (t & Ht & Hn & ->). rewrite Ht.
    destruct (NotifyStatusInfo_task t) as (E1 & E2 & E3 & E4 & E5 & E6 & E7).
    split_and!; try done. intros id2 t2 Ht2 Hsame Hne.
    destruct (Hsurvive _ _ Ht2) as (t0 & _ & Hn0 & ->).
    destruct (NotifyStatusInfo_task t0) as (_ & _ & F3 & _ & F5 & _). rewrite E3, F3. rewrite E5 in Hsame, Hne.
    rewrite F5 in Hsame. destruct (Hplays t Hn Hne) as [-> ->].
    rewrite <-Hsame. apply Hplays; [done|]. by rewrite Hsame.
  - destruct (task_ m !! id) as [t|] eqn:Ht; [|done].
    rewrite push_lookup, Ht in Ht'. unfold pushed in Ht'. cbn in Ht'.
    apply NotifyStatusInfo_over. by destruct (NotifyStatusInfo t).1.
Qed.

(** A creation that is stopped before the device confirms it is never
    answered: the result of the stop removes the task with its callback, no
    answer is produced, and the confirmation that comes later finds no task. *)
Theorem stopped_create_unanswered {bl : BaseLib} {dl : DlnaLib} es m id t call ok :
  run es ScreenCastingMgr m → task_ m !! id = Some t → start_callback_ t = Some call →
  let m1 := OnStopResult ok (Some id) m in
  task_ m1 !! id = None ∧ effects m1 = effects m ∧
  ∀ ok', OnSetAVTransportURIResult ok' (Some id) m1 = m1.
Proof.
  intros Hrun Ht _. destruct (tasks_inv_run _ _ _ Hrun tasks_inv_init) as [H1 _].
  destruct (H1 _ _ Ht) as [Hid _]. cbn zeta.
  unfold OnStopResult, OnSetAVTransportURIResult, with_task, FindTask. rewrite Ht. cbn. rewrite Hid.
  split_and!; [apply lookup_delete_eq|done|]. intros ok'. by rewrite lookup_delete_eq.
Qed.

Definition casting_not_confirmed : mgr := default ScreenCastingMgr (exec (take 4 evening) ScreenCastingMgr).
Lemma stopped_create_unanswered_witness :
  ∃ t, task_ casting_not_confirmed !! "guid-a" = Some t ∧ start_callback_ t = Some 1%nat ∧
    let m1 := OnStopResult true (Some "guid-a") casting_not_confirmed in
    task_ m1 !! "guid-a" = None ∧ effects m1 = effects casting_not_confirmed ∧
    ∀ ok', OnSetAVTransportURIResult ok' (Some "guid-a") m1 = m1.
Proof.
  eexists. split; [vm_compute; reflexivity|]. split; [reflexivity|].
  eapply (stopped_create_unanswered (take 4 evening) casting_not_confirmed "guid-a").
  - apply exec_run. vm_compute. reflexivity.
  - vm_compute. reflexivity.
  - reflexivity.
Defined.

(** ** Seek positions *)

(** A player's reading of "hh:mm:ss". *)
Definition two_digits (a b : ascii) : option Z :=
  x ← digit_of a; y ← digit_of b; Some (10 * x + y).
Definition read_hms (s : string) : option Z :=
  match str_chars s with
  | [h1; h2; c1; m1; m2; c2; s1; s2] =>
      if bool_decide (c1 = ":"%char) && bool_decide (c2 = ":"%char) then
        h ← two_digits h1 h2; m ← two_digits m1 m2; s ← two_digits s1 s2;
        Some (3600 * h + 60 * m + s)
      else None
  | _ => None
  end.

Lemma pad2_digits z : 0 <= z < 100 →
  ∃ a b, pad2 z = String a (String b "") ∧ two_digits a b = Some z.
Proof.
  intros Hz. assert (forallb (λ n, match pad2 (Z.of_nat n) with
    | String a (String b EmptyString) => bool_decide (two_digits a b = Some (Z.of_nat n))
    | _ => false end) (seq 0 100) = true) as Hall by (vm_compute; reflexivity).
  rewrite forallb_forall in Hall. specialize (Hall (Z.to_nat z)).
  rewrite Z2Nat.id in Hall by lia. specialize (Hall ltac:(apply in_seq; lia)).
  destruct (pad2 z) as [|a [|b [|? ?]]]; try done. apply bool_decide_eq_true in Hall. by exists a, b.
Qed.

(** A seek position reaches the device unchanged when it is below one
    hundred hours: the text made of it reads back as the same number of
    seconds, the fractional part dropped.  From one hundred hours on the text
    is cut (the nine-byte buffer loses the last digit). *)
Theorem seek_time_roundtrip d s :
  d_trunc d = Some s → 0 <= s < 360000 →
  ∃ text, SecondsFormatTime d = Some text ∧ read_hms text = Some s.
Proof.
  intros Hd Hs. unfold SecondsFormatTime. rewrite Hd. cbn [mbind option_bind].
  assert (in_int32 s = true) as -> by (apply in_int32_spec; lia).
  rewrite !Z.quot_div_nonneg, !Z.rem_mod_nonneg by (try apply Z.mod_pos_bound; lia).
  rewrite Z.quot_div_nonneg by (try apply Z.mod_pos_bound; lia).
  pose proof (Z.mod_pos_bound s 3600 ltac:(lia)). pose proof (Z.mod_pos_bound s 60 ltac:(lia)).
  destruct (pad2_digits (s / 3600)) as (h1 & h2 & -> & Hh).
  { split; [apply Z.div_pos; lia|apply Z.div_lt_upper_bound; lia]. }
  destruct (pad2_digits (s mod 3600 / 60)) as (m1 & m2 & -> & Hm).
  { split; [apply Z.div_pos; lia|apply Z.div_lt_upper_bound; lia]. }
  destruct (pad2_digits (s mod 60)) as (s1 & s2 & -> & Hsec); [lia|].
  exists (String h1 (String h2 (String ":" (String m1 (String m2 (String ":" (String s1 (String s2 ""))))))))%string.
  split; [reflexivity|]. unfold read_hms.
  change (str_chars _) with [h1; h2; ":"%char; m1; m2; ":"%char; s1; s2]. cbn -[two_digits Z.add Z.mul]. rewrite Hh. rewrite Hm, Hsec.
  cbn -[Z.add Z.mul]. f_equal. pose proof (Z.div_mod s 3600 ltac:(lia)).
  pose proof (Z.div_mod (s mod 3600) 60 ltac:(lia)) as H60.
  assert ((s mod 3600) mod 60 = s mod 60) as Hmm by (rewrite (Z.mod_mod_divide s 3600 60); [done|by exists 60]).
  lia.
Qed.

Lemma seek_time_roundtrip_witness :
  ∃ text, SecondsFormatTime (d_of_Z 5025) = Some text ∧ read_hms text = Some 5025.
Proof. apply seek_time_roundtrip; [vm_compute; reflexivity|lia]. Defined.

Example seek_is_cut : SecondsFormatTime (d_of_Z 360000) = Some "100:00:0".
Proof. vm_compute. reflexivity. Qed.

(** Changing the url of a task sends the url as it came, not the one with the
    replaced host. *)
Example change_sends_original_url :
  let url := "http://nas:1/dynamic_res/v1/media/video/dlna/playfile" in
  let m := emits [] first_cast in
  effects (ChangeTaskPlayUrl "guid-a" url m) = effects m ++ [SetAVTransportURI tv url None] ∧
  (ReplacePlayUrlHost (GetLocalIP tv) url).2 ≠ url.
Proof. split; [vm_compute; reflexivity|vm_compute; discriminate]. Qed.
