(* ===== verification/RedisCmdTypes.v ===== *)
(** * Arguments of the Redis commands

    The option structures and enumerations of [core/client.hpp] and
    [core/types.hpp], their texts ([core/client.cpp]), the texts of numbers,
    and the futures' [exec_cmd]. *)

From S2P Require Import Prelude CppBase.
From S2P Require Import RedisReply RedisResp RedisConn RedisSentinel RedisClient.
From Stdlib Require Import SpecFloat.

(** A member function that sends: what is left when the arguments are given. *)
Definition client_op : Type := option callback → client → client.

Definition is_nil {A} (l : list A) : bool := match l with [] => true | _ => false end.

(** ** [std::to_string(double)], the format "%f": six decimals, the tie to even *)
Definition round_half_even (num den : Z) : Z :=
  let q := num / den in
  let r := num mod den in
  if (2 * r <? den) || ((2 * r =? den) && Z.even q) then q else q + 1.
Definition pad_left (n : nat) (s : Str) : Str := replicate (n - length s) "0"%char ++ s.
Definition double_dec (d : double) : Str :=
  match d with
  | S754_zero s => (if s then ["-"%char] else []) ++ chars "0.000000"
  | S754_infinity s => (if s then ["-"%char] else []) ++ chars "inf"
  | S754_nan => chars "nan"
  | S754_finite s m e =>
      let z := if 0 <=? e then Z.pos m * 2 ^ e * 1000000
               else round_half_even (Z.pos m * 1000000) (2 ^ (- e)) in
      (if s then ["-"%char] else []) ++ to_dec 400 (z / 1000000) ++ ["."%char]
        ++ pad_left 6 (to_dec 6 (z mod 1000000))
  end.

Example double_dec_ex : (double_dec (d_of_Z 12), double_dec (d_div (d_of_Z (-5)) (d_of_Z 4))) =
  (chars "12.000000", chars "-1.250000").
Proof. vm_compute. reflexivity. Qed.

(** ** Enumerations *)
Inductive aggregate_method := ag_sum | ag_min | ag_max | ag_default.
#[global] Instance aggregate_method_eq_dec : EqDecision aggregate_method.
Proof. solve_decision. Defined.
Definition aggregate_method_to_string (method : aggregate_method) : Str :=
  match method with
  | ag_sum => chars "SUM" | ag_min => chars "MIN" | ag_max => chars "MAX" | ag_default => []
  end.

Inductive geo_unit := geo_m | geo_km | geo_ft | geo_mi.
Definition geo_unit_to_string (unit : geo_unit) : Str :=
  match unit with
  | geo_m => chars "m" | geo_km => chars "km" | geo_ft => chars "ft" | geo_mi => chars "mi"
  end.

Inductive overflow_type := ov_wrap | ov_sat | ov_fail | ov_default.
#[global] Instance overflow_type_eq_dec : EqDecision overflow_type.
Proof. solve_decision. Defined.
Definition overflow_type_to_string (type : overflow_type) : Str :=
  match type with
  | ov_wrap => chars "WRAP" | ov_sat => chars "SAT" | ov_fail => chars "FAIL" | ov_default => []
  end.

Inductive bitfield_operation_type := bf_get | bf_set | bf_incrby.
#[global] Instance bitfield_operation_type_eq_dec : EqDecision bitfield_operation_type.
Proof. solve_decision. Defined.
Definition bitfield_operation_type_to_string (operation : bitfield_operation_type) : Str :=
  match operation with
  | bf_get => chars "GET" | bf_set => chars "SET" | bf_incrby => chars "INCRBY"
  end.

(** ** Option structures *)
Record bitfield_operation := mkBitfield {
  operation_type : bitfield_operation_type;
  op_type : Str;
  op_offset : Z;
  op_value : Z;
  op_overflow : overflow_type
}.
(** Its static functions [get], [set] and [incrby] *)
Definition bitfield_get (type : Str) (offset : Z) (overflow : overflow_type) : bitfield_operation :=
  mkBitfield bf_get type offset 0 overflow.
Definition bitfield_set (type : Str) (offset value : Z) (overflow : overflow_type) : bitfield_operation :=
  mkBitfield bf_set type offset value overflow.
Definition bitfield_incrby (type : Str) (offset increment : Z) (overflow : overflow_type)
    : bitfield_operation := mkBitfield bf_incrby type offset increment overflow.

Record range_options_t := mkRange { Start : Str; Stop : Str; r_Count : Z }.
Record xpending_options_t := mkXpending { Range : range_options_t; xp_Consumer : Str }.
Record xclaim_options_t := mkXclaim {
  xc_Idle : Z; xc_Time : option Z; xc_RetryCount : Z; xc_Force : bool; xc_JustId : bool
}.
Record xread_options_t := mkXread {
  xr_keys : list Str; xr_ids : list Str; xr_Count : Z; xr_Block : Z
}.
Record xreadgroup_options_t := mkXreadgroup {
  xg_Group : Str; xg_Consumer : Str; xg_keys : list Str; xg_ids : list Str;
  xg_Count : Z; xg_Block : Z; xg_NoAck : bool
}.

(** One turn of the loop of [client::bitfield]. *)
Definition bitfield_args (operation : bitfield_operation) : list Str :=
  [bitfield_operation_type_to_string (operation_type operation); op_type operation;
   signed_dec (op_offset operation)] ++
  (if bool_decide (operation_type operation = bf_set) || bool_decide (operation_type operation = bf_incrby)
   then [signed_dec (op_value operation)] else []) ++
  (if bool_decide (op_overflow operation = ov_default) then []
   else [chars "OVERFLOW"; overflow_type_to_string (op_overflow operation)]).

(** ** Futures *)

(** [client::exec_cmd]: the callback given to the command sets the promise
    [p], which is what the future waits for. *)
Definition exec_cmd (f : client_op) (p : nat) (c : client) : client := f (Some (User p)) c.
