(* ===== verification/RedisKeyCmds.v ===== *)
(** * Redis commands: keys, strings, hashes, lists, sets, server

    The callback functions of [core/client.cpp], one definition each; an
    overloaded function is numbered in the order of the source.  An argument
    vector is passed to [send].  A [std::multimap] is the list of its entries. *)

From S2P Require Import Prelude CppBase.
From S2P Require Import RedisReply RedisResp RedisConn RedisSentinel RedisClient RedisCmdTypes.

Definition append (key value : Str) : client_op := send [chars "APPEND"; key; value].
Definition auth (password : Str) : client_op := unprotected_auth password.
Definition bgrewriteaof : client_op := send [chars "BGREWRITEAOF"].
Definition bgsave : client_op := send [chars "BGSAVE"].
Definition bitcount_1 (key : Str) : client_op := send [chars "BITCOUNT"; key].
Definition bitcount_2 (key : Str) (start end_ : Z) : client_op :=
  send [chars "BITCOUNT"; key; signed_dec start; signed_dec end_].
Definition bitfield (key : Str) (operations : list bitfield_operation) : client_op :=
  send ([chars "BITFIELD"; key]
    ++ (operations ≫= bitfield_args)).
Definition bitop (operation destkey : Str) (keys : list Str) : client_op :=
  send ([chars "BITOP"; operation; destkey]
    ++ keys).
Definition bitpos_1 (key : Str) (bit : Z) : client_op := send [chars "BITPOS"; key; signed_dec bit].
Definition bitpos_2 (key : Str) (bit start : Z) : client_op :=
  send [chars "BITPOS"; key; signed_dec bit; signed_dec start].
Definition bitpos_3 (key : Str) (bit start end_ : Z) : client_op :=
  send [chars "BITPOS"; key; signed_dec bit; signed_dec start; signed_dec end_].
Definition blpop (keys : list Str) (timeout : Z) : client_op :=
  send ([chars "BLPOP"]
    ++ keys
    ++ [signed_dec timeout]).
Definition brpop (keys : list Str) (timeout : Z) : client_op :=
  send ([chars "BRPOP"]
    ++ keys
    ++ [signed_dec timeout]).
Definition brpoplpush (src dst : Str) (timeout : Z) : client_op :=
  send [chars "BRPOPLPUSH"; src; dst; signed_dec timeout].
Definition bzpopmin (keys : list Str) (timeout : Z) : client_op :=
  send ([chars "BZPOPMIN"]
    ++ keys
    ++ [signed_dec timeout]).
Definition bzpopmax (keys : list Str) (timeout : Z) : client_op :=
  send ([chars "BZPOPMAX"]
    ++ keys
    ++ [signed_dec timeout]).
Definition client_id : client_op := send [chars "CLIENT"; chars "ID"].
Definition client_list : client_op := send [chars "CLIENT"; chars "LIST"].
Definition client_getname : client_op := send [chars "CLIENT"; chars "GETNAME"].
Definition client_pause (timeout : Z) : client_op :=
  send [chars "CLIENT"; chars "PAUSE"; signed_dec timeout].
Definition client_reply (mode : Str) : client_op := send [chars "CLIENT"; chars "REPLY"; mode].
Definition client_setname (name : Str) : client_op := send [chars "CLIENT"; chars "SETNAME"; name].
Definition client_unblock_1 (id : Z) : client_op :=
  send [chars "CLIENT"; chars "UNBLOCK"; signed_dec id].
Definition client_unblock_2 (id : Z) (witherror : bool) : client_op :=
  send (if witherror : bool then [chars "CLIENT"; chars "UNBLOCK"; signed_dec id; chars "ERROR"]
  else [chars "CLIENT"; chars "UNBLOCK"; signed_dec id]).
Definition cluster_addslots (p_slots : list Str) : client_op :=
  send ([chars "CLUSTER"; chars "ADDSLOTS"]
    ++ p_slots).
Definition cluster_count_failure_reports (node_id : Str) : client_op :=
  send [chars "CLUSTER"; chars "COUNT-FAILURE-REPORTS"; node_id].
Definition cluster_countkeysinslot (slot : Str) : client_op :=
  send [chars "CLUSTER"; chars "COUNTKEYSINSLOT"; slot].
Definition cluster_delslots (p_slots : list Str) : client_op :=
  send ([chars "CLUSTER"; chars "DELSLOTS"]
    ++ p_slots).
Definition cluster_failover_1 : client_op := send [chars "CLUSTER"; chars "FAILOVER"].
Definition cluster_failover_2 (mode : Str) : client_op :=
  send [chars "CLUSTER"; chars "FAILOVER"; mode].
Definition cluster_forget (node_id : Str) : client_op :=
  send [chars "CLUSTER"; chars "FORGET"; node_id].
Definition cluster_getkeysinslot (slot : Str) (count : Z) : client_op :=
  send [chars "CLUSTER"; chars "GETKEYSINSLOT"; slot; signed_dec count].
Definition cluster_info : client_op := send [chars "CLUSTER"; chars "INFO"].
Definition cluster_keyslot (key : Str) : client_op := send [chars "CLUSTER"; chars "KEYSLOT"; key].
Definition cluster_meet (ip : Str) (port : Z) : client_op :=
  send [chars "CLUSTER"; chars "MEET"; ip; signed_dec port].
Definition cluster_nodes : client_op := send [chars "CLUSTER"; chars "NODES"].
Definition cluster_replicate (node_id : Str) : client_op :=
  send [chars "CLUSTER"; chars "REPLICATE"; node_id].
Definition cluster_reset_1 : client_op := send [chars "CLUSTER"; chars "RESET"].
Definition cluster_reset_2 (mode : Str) : client_op := send [chars "CLUSTER"; chars "RESET"; mode].
Definition cluster_saveconfig : client_op := send [chars "CLUSTER"; chars "SAVECONFIG"].
Definition cluster_set_config_epoch (epoch : Str) : client_op :=
  send [chars "CLUSTER"; chars "SET-CONFIG-EPOCH"; epoch].
Definition cluster_setslot_1 (slot mode : Str) : client_op :=
  send [chars "CLUSTER"; chars "SETSLOT"; slot; mode].
Definition cluster_setslot_2 (slot mode node_id : Str) : client_op :=
  send [chars "CLUSTER"; chars "SETSLOT"; slot; mode; node_id].
Definition cluster_slaves (node_id : Str) : client_op :=
  send [chars "CLUSTER"; chars "SLAVES"; node_id].
Definition cluster_slots : client_op := send [chars "CLUSTER"; chars "SLOTS"].
Definition command_ : client_op := send [chars "COMMAND"].
Definition command_count : client_op := send [chars "COMMAND"; chars "COUNT"].
Definition command_getkeys : client_op := send [chars "COMMAND"; chars "GETKEYS"].
Definition command_info (command_name : list Str) : client_op :=
  send ([chars "COMMAND"; chars "COUNT"]
    ++ command_name).
Definition config_get (param : Str) : client_op := send [chars "CONFIG"; chars "GET"; param].
Definition config_rewrite : client_op := send [chars "CONFIG"; chars "REWRITE"].
Definition config_set (param val : Str) : client_op :=
  send [chars "CONFIG"; chars "SET"; param; val].
Definition config_resetstat : client_op := send [chars "CONFIG"; chars "RESETSTAT"].
Definition dbsize : client_op := send [chars "DBSIZE"].
Definition debug_object (key : Str) : client_op := send [chars "DEBUG"; chars "OBJECT"; key].
Definition debug_segfault : client_op := send [chars "DEBUG"; chars "SEGFAULT"].
Definition decr (key : Str) : client_op := send [chars "DECR"; key].
Definition decrby (key : Str) (val : Z) : client_op := send [chars "DECRBY"; key; signed_dec val].
Definition del (key : list Str) : client_op := send ([chars "DEL"] ++ key).
Definition discard : client_op := send [chars "DISCARD"].
Definition dump (key : Str) : client_op := send [chars "DUMP"; key].
Definition echo (msg : Str) : client_op := send [chars "ECHO"; msg].
Definition eval_1 (script : Str) (numkeys : Z) (keys args : list Str) : client_op :=
  send ([chars "EVAL"; script; signed_dec numkeys]
    ++ keys
    ++ args).
Definition eval_2 (script : Str) (keys args : list Str) : client_op :=
  send ([chars "EVAL"; script; std_to_string (Z.of_nat (length keys))]
    ++ keys
    ++ args).
Definition evalsha_1 (sha1 : Str) (numkeys : Z) (keys args : list Str) : client_op :=
  send ([chars "EVALSHA"; sha1; signed_dec numkeys]
    ++ keys
    ++ args).
Definition evalsha_2 (sha1 : Str) (keys args : list Str) : client_op :=
  send ([chars "EVALSHA"; sha1; std_to_string (Z.of_nat (length keys))]
    ++ keys
    ++ args).
Definition exec : client_op := send [chars "EXEC"].
Definition exists_ (keys : list Str) : client_op := send ([chars "EXISTS"] ++ keys).
Definition expire (key : Str) (seconds : Z) : client_op :=
  send [chars "EXPIRE"; key; signed_dec seconds].
Definition expireat (key : Str) (timestamp : Z) : client_op :=
  send [chars "EXPIREAT"; key; signed_dec timestamp].
Definition flushall : client_op := send [chars "FLUSHALL"].
Definition flushdb : client_op := send [chars "FLUSHDB"].
Definition geoadd (key : Str) (long_lat_memb : list (Str * Str * Str)) : client_op :=
  send ([chars "GEOADD"; key]
    ++ (long_lat_memb ≫= λ obj, [obj.1.1; obj.1.2; obj.2])).
Definition geohash (key : Str) (members : list Str) : client_op :=
  send ([chars "GEOHASH"; key]
    ++ members).
Definition geopos (key : Str) (members : list Str) : client_op :=
  send ([chars "GEOPOS"; key]
    ++ members).
Definition geodist_1 (key member_1 member_2 : Str) : client_op :=
  send [chars "GEODIST"; key; member_1; member_2].
Definition geodist_2 (key member_1 member_2 unit : Str) : client_op :=
  send [chars "GEODIST"; key; member_1; member_2; unit].
Definition georadius_6 (key : Str) (longitude latitude radius : double) (unit : geo_unit)
    (with_coord with_dist with_hash asc_order : bool) (count : Z) (store_key storedist_key : Str) :
    client_op :=
  send ([chars "GEORADIUS"; key; double_dec longitude; double_dec latitude; double_dec radius; geo_unit_to_string unit]
    ++ (if with_coord : bool then [chars "WITHCOORD"] else [])
    ++ (if with_dist : bool then [chars "WITHDIST"] else [])
    ++ (if with_hash : bool then [chars "WITHHASH"] else [])
    ++ [chars (if asc_order : bool then "ASC" else "DESC")]
    ++ (if 0 <? count then [chars "COUNT"; std_to_string count] else [])
    ++ (if negb (is_nil store_key) then [chars "STOREDIST"; storedist_key] else [])
    ++ (if negb (is_nil storedist_key) then [chars "STOREDIST"; storedist_key] else [])).
Definition georadius_1 (key : Str) (longitude latitude radius : double) (unit : geo_unit)
    (with_coord with_dist with_hash asc_order : bool) : client_op :=
  georadius_6 key longitude latitude radius unit with_coord with_dist with_hash asc_order 0 [] [].
Definition georadius_2 (key : Str) (longitude latitude radius : double) (unit : geo_unit)
    (with_coord with_dist with_hash asc_order : bool) (count : Z) : client_op :=
  georadius_6 key longitude latitude radius unit with_coord with_dist with_hash asc_order count []
  [].
Definition georadius_3 (key : Str) (longitude latitude radius : double) (unit : geo_unit)
    (with_coord with_dist with_hash asc_order : bool) (store_key : Str) : client_op :=
  georadius_6 key longitude latitude radius unit with_coord with_dist with_hash asc_order 0
  store_key [].
Definition georadius_4 (key : Str) (longitude latitude radius : double) (unit : geo_unit)
    (with_coord with_dist with_hash asc_order : bool) (store_key storedist_key : Str) : client_op :=
  georadius_6 key longitude latitude radius unit with_coord with_dist with_hash asc_order 0
  store_key storedist_key.
Definition georadius_5 (key : Str) (longitude latitude radius : double) (unit : geo_unit)
    (with_coord with_dist with_hash asc_order : bool) (count : Z) (store_key : Str) : client_op :=
  georadius_6 key longitude latitude radius unit with_coord with_dist with_hash asc_order count
  store_key [].
Definition georadiusbymember_6 (key member : Str) (radius : double) (unit : geo_unit) (with_coord
    with_dist with_hash asc_order : bool) (count : Z) (store_key storedist_key : Str) : client_op :=
  send ([chars "GEORADIUSBYMEMBER"; key; member; double_dec radius; geo_unit_to_string unit]
    ++ (if with_coord : bool then [chars "WITHCOORD"] else [])
    ++ (if with_dist : bool then [chars "WITHDIST"] else [])
    ++ (if with_hash : bool then [chars "WITHHASH"] else [])
    ++ [chars (if asc_order : bool then "ASC" else "DESC")]
    ++ (if 0 <? count then [chars "COUNT"; std_to_string count] else [])
    ++ (if negb (is_nil store_key) then [chars "STOREDIST"; storedist_key] else [])
    ++ (if negb (is_nil storedist_key) then [chars "STOREDIST"; storedist_key] else [])).
Definition georadiusbymember_1 (key member : Str) (radius : double) (unit : geo_unit) (with_coord
    with_dist with_hash asc_order : bool) : client_op :=
  georadiusbymember_6 key member radius unit with_coord with_dist with_hash asc_order 0 [] [].
Definition georadiusbymember_2 (key member : Str) (radius : double) (unit : geo_unit) (with_coord
    with_dist with_hash asc_order : bool) (count : Z) : client_op :=
  georadiusbymember_6 key member radius unit with_coord with_dist with_hash asc_order count [] [].
Definition georadiusbymember_3 (key member : Str) (radius : double) (unit : geo_unit) (with_coord
    with_dist with_hash asc_order : bool) (store_key : Str) : client_op :=
  georadiusbymember_6 key member radius unit with_coord with_dist with_hash asc_order 0 store_key
  [].
Definition georadiusbymember_4 (key member : Str) (radius : double) (unit : geo_unit) (with_coord
    with_dist with_hash asc_order : bool) (store_key storedist_key : Str) : client_op :=
  georadiusbymember_6 key member radius unit with_coord with_dist with_hash asc_order 0 store_key
  storedist_key.
Definition georadiusbymember_5 (key member : Str) (radius : double) (unit : geo_unit) (with_coord
    with_dist with_hash asc_order : bool) (count : Z) (store_key : Str) : client_op :=
  georadiusbymember_6 key member radius unit with_coord with_dist with_hash asc_order count
  store_key [].
Definition get (key : Str) : client_op := send [chars "GET"; key].
Definition getbit (key : Str) (offset : Z) : client_op :=
  send [chars "GETBIT"; key; signed_dec offset].
Definition getrange (key : Str) (start end_ : Z) : client_op :=
  send [chars "GETRANGE"; key; signed_dec start; signed_dec end_].
Definition getset (key val : Str) : client_op := send [chars "GETSET"; key; val].
Definition hdel (key : Str) (fields : list Str) : client_op := send ([chars "HDEL"; key] ++ fields).
Definition hexists (key field : Str) : client_op := send [chars "HEXISTS"; key; field].
Definition hget (key field : Str) : client_op := send [chars "HGET"; key; field].
Definition hgetall (key : Str) : client_op := send [chars "HGETALL"; key].
Definition hincrby (key field : Str) (incr : Z) : client_op :=
  send [chars "HINCRBY"; key; field; signed_dec incr].
Definition hincrbyfloat (key field : Str) (incr : double) : client_op :=
  send [chars "HINCRBYFLOAT"; key; field; double_dec incr].
Definition hkeys (key : Str) : client_op := send [chars "HKEYS"; key].
Definition hlen (key : Str) : client_op := send [chars "HLEN"; key].
Definition hmget (key : Str) (fields : list Str) : client_op :=
  send ([chars "HMGET"; key]
    ++ fields).
Definition hmset (key : Str) (field_val : list (Str * Str)) : client_op :=
  send ([chars "HMSET"; key]
    ++ (field_val ≫= λ obj, [obj.1; obj.2])).
Definition hscan_4 (key : Str) (cursor : Z) (pattern : Str) (count : Z) : client_op :=
  send ([chars "HSCAN"; key; std_to_string cursor]
    ++ (if negb (is_nil pattern) then [chars "MATCH"; pattern] else [])
    ++ (if 0 <? count then [chars "COUNT"; std_to_string count] else [])).
Definition hscan_1 (key : Str) (cursor : Z) : client_op := hscan_4 key cursor [] 0.
Definition hscan_2 (key : Str) (cursor : Z) (pattern : Str) : client_op :=
  hscan_4 key cursor pattern 0.
Definition hscan_3 (key : Str) (cursor count : Z) : client_op := hscan_4 key cursor [] count.
Definition hset (key field value : Str) : client_op := send [chars "HSET"; key; field; value].
Definition hsetnx (key field value : Str) : client_op := send [chars "HSETNX"; key; field; value].
Definition hstrlen (key field : Str) : client_op := send [chars "HSTRLEN"; key; field].
Definition hvals (key : Str) : client_op := send [chars "HVALS"; key].
Definition incr (key : Str) : client_op := send [chars "INCR"; key].
Definition incrby (key : Str) (incr : Z) : client_op := send [chars "INCRBY"; key; signed_dec incr].
Definition incrbyfloat (key : Str) (incr : double) : client_op :=
  send [chars "INCRBYFLOAT"; key; double_dec incr].
Definition info_1 : client_op := send [chars "INFO"].
Definition info_2 (section : Str) : client_op := send [chars "INFO"; section].
Definition keys (pattern : Str) : client_op := send [chars "KEYS"; pattern].
Definition lastsave : client_op := send [chars "LASTSAVE"].
Definition lindex (key : Str) (index : Z) : client_op :=
  send [chars "LINDEX"; key; signed_dec index].
Definition linsert (key before_after pivot value : Str) : client_op :=
  send [chars "LINSERT"; key; before_after; pivot; value].
Definition llen (key : Str) : client_op := send [chars "LLEN"; key].
Definition lpop (key : Str) : client_op := send [chars "LPOP"; key].
Definition lpush (key : Str) (values : list Str) : client_op :=
  send ([chars "LPUSH"; key]
    ++ values).
Definition lpushx (key value : Str) : client_op := send [chars "LPUSHX"; key; value].
Definition lrange (key : Str) (start stop : Z) : client_op :=
  send [chars "LRANGE"; key; signed_dec start; signed_dec stop].
Definition lrem (key : Str) (count : Z) (value : Str) : client_op :=
  send [chars "LREM"; key; signed_dec count; value].
Definition lset (key : Str) (index : Z) (value : Str) : client_op :=
  send [chars "LSET"; key; signed_dec index; value].
Definition ltrim (key : Str) (start stop : Z) : client_op :=
  send [chars "LTRIM"; key; signed_dec start; signed_dec stop].
Definition mget (keys : list Str) : client_op := send ([chars "MGET"] ++ keys).
Definition migrate_1 (host : Str) (port : Z) (key dest_db : Str) (timeout : Z) : client_op :=
  send [chars "MIGRATE"; host; signed_dec port; key; dest_db; signed_dec timeout].
Definition migrate_2 (host : Str) (port : Z) (key dest_db : Str) (timeout : Z) (copy replace :
    bool) (keys : list Str) : client_op :=
  send ([chars "MIGRATE"; host; signed_dec port; key; dest_db; signed_dec timeout]
    ++ (if copy : bool then [chars "COPY"] else [])
    ++ (if replace : bool then [chars "REPLACE"] else [])
    ++ (if negb (is_nil keys) then [chars "KEYS"] ++ keys else [])).
Definition monitor : client_op := send [chars "MONITOR"].
Definition move (key db : Str) : client_op := send [chars "MOVE"; key; db].
Definition mset (key_vals : list (Str * Str)) : client_op :=
  send ([chars "MSET"]
    ++ (key_vals ≫= λ obj, [obj.1; obj.2])).
Definition msetnx (key_vals : list (Str * Str)) : client_op :=
  send ([chars "MSETNX"]
    ++ (key_vals ≫= λ obj, [obj.1; obj.2])).
Definition multi : client_op := send [chars "MULTI"].
Definition object (subcommand : Str) (args : list Str) : client_op :=
  send ([chars "OBJECT"; subcommand]
    ++ args).
Definition persist (key : Str) : client_op := send [chars "PERSIST"; key].
Definition pexpire (key : Str) (ms : Z) : client_op := send [chars "PEXPIRE"; key; signed_dec ms].
Definition pexpireat (key : Str) (ms_timestamp : Z) : client_op :=
  send [chars "PEXPIREAT"; key; signed_dec ms_timestamp].
Definition pfadd (key : Str) (elements : list Str) : client_op :=
  send ([chars "PFADD"; key]
    ++ elements).
Definition pfcount (keys : list Str) : client_op := send ([chars "PFCOUNT"] ++ keys).
Definition pfmerge (destkey : Str) (sourcekeys : list Str) : client_op :=
  send ([chars "PFMERGE"; destkey]
    ++ sourcekeys).
Definition ping_1 : client_op := send [chars "PING"].
Definition ping_2 (message : Str) : client_op := send [chars "PING"; message].
Definition psetex (key : Str) (ms : Z) (val : Str) : client_op :=
  send [chars "PSETEX"; key; signed_dec ms; val].
Definition publish (channel message : Str) : client_op := send [chars "PUBLISH"; channel; message].
Definition pubsub (subcommand : Str) (args : list Str) : client_op :=
  send ([chars "PUBSUB"; subcommand]
    ++ args).
Definition pttl (key : Str) : client_op := send [chars "PTTL"; key].
Definition quit : client_op := send [chars "QUIT"].
Definition randomkey : client_op := send [chars "RANDOMKEY"].
Definition readonly : client_op := send [chars "READONLY"].
Definition readwrite : client_op := send [chars "READWRITE"].
Definition rename (key newkey : Str) : client_op := send [chars "RENAME"; key; newkey].
Definition renamenx (key newkey : Str) : client_op := send [chars "RENAMENX"; key; newkey].
Definition restore_1 (key : Str) (ttl : Z) (serialized_value : Str) : client_op :=
  send [chars "RESTORE"; key; signed_dec ttl; serialized_value].
Definition restore_2 (key : Str) (ttl : Z) (serialized_value replace : Str) : client_op :=
  send [chars "RESTORE"; key; signed_dec ttl; serialized_value; replace].
Definition role : client_op := send [chars "ROLE"].
Definition rpop (key : Str) : client_op := send [chars "RPOP"; key].
Definition rpoplpush (source destination : Str) : client_op :=
  send [chars "RPOPLPUSH"; source; destination].
Definition rpush (key : Str) (values : list Str) : client_op :=
  send ([chars "RPUSH"; key]
    ++ values).
Definition rpushx (key value : Str) : client_op := send [chars "RPUSHX"; key; value].
Definition sadd (key : Str) (members : list Str) : client_op :=
  send ([chars "SADD"; key]
    ++ members).
Definition save : client_op := send [chars "SAVE"].
Definition scan_4 (cursor : Z) (pattern : Str) (count : Z) : client_op :=
  send ([chars "SCAN"; std_to_string cursor]
    ++ (if negb (is_nil pattern) then [chars "MATCH"; pattern] else [])
    ++ (if 0 <? count then [chars "COUNT"; std_to_string count] else [])).
Definition scan_1 (cursor : Z) : client_op := scan_4 cursor [] 0.
Definition scan_2 (cursor : Z) (pattern : Str) : client_op := scan_4 cursor pattern 0.
Definition scan_3 (cursor count : Z) : client_op := scan_4 cursor [] count.
Definition scard (key : Str) : client_op := send [chars "SCARD"; key].
Definition script_debug (mode : Str) : client_op := send [chars "SCRIPT"; chars "DEBUG"; mode].
Definition script_exists (scripts : list Str) : client_op :=
  send ([chars "SCRIPT"; chars "EXISTS"]
    ++ scripts).
Definition script_flush : client_op := send [chars "SCRIPT"; chars "FLUSH"].
Definition script_kill : client_op := send [chars "SCRIPT"; chars "KILL"].
Definition script_load (script : Str) : client_op := send [chars "SCRIPT"; chars "LOAD"; script].
Definition sdiff (keys : list Str) : client_op := send ([chars "SDIFF"] ++ keys).
Definition sdiffstore (destination : Str) (keys : list Str) : client_op :=
  send ([chars "SDIFFSTORE"; destination]
    ++ keys).
Definition select (index : Z) : client_op := unprotected_select index.
Definition set_ (key value : Str) : client_op := send [chars "SET"; key; value].
Definition set_advanced_1 (key value : Str) : client_op := send [chars "SET"; key; value].
Definition set_advanced_2 (key value : Str) (ex : bool) (ex_sec : Z) (px : bool) (px_milli : Z) (nx
    xx : bool) : client_op :=
  send ([chars "SET"; key; value]
    ++ (if ex : bool then [chars "EX"; signed_dec ex_sec] else [])
    ++ (if px : bool then [chars "PX"; signed_dec px_milli] else [])
    ++ (if nx : bool then [chars "NX"] else [])
    ++ (if xx : bool then [chars "XX"] else [])).
Definition setbit_ (key : Str) (offset : Z) (value : Str) : client_op :=
  send [chars "SETBIT"; key; signed_dec offset; value].
Definition setex (key : Str) (seconds : Z) (value : Str) : client_op :=
  send [chars "SETEX"; key; signed_dec seconds; value].
Definition setnx (key value : Str) : client_op := send [chars "SETNX"; key; value].
Definition setrange (key : Str) (offset : Z) (value : Str) : client_op :=
  send [chars "SETRANGE"; key; signed_dec offset; value].
Definition shutdown_1 : client_op := send [chars "SHUTDOWN"].
Definition shutdown_2 (save : Str) : client_op := send [chars "SHUTDOWN"; save].
Definition sinter (keys : list Str) : client_op := send ([chars "SINTER"] ++ keys).
Definition sinterstore (destination : Str) (keys : list Str) : client_op :=
  send ([chars "SINTERSTORE"; destination]
    ++ keys).
Definition sismember (key member : Str) : client_op := send [chars "SISMEMBER"; key; member].
Definition slaveof (host : Str) (port : Z) : client_op :=
  send [chars "SLAVEOF"; host; signed_dec port].
Definition slowlog_1 (subcommand : Str) : client_op := send [chars "SLOWLOG"; subcommand].
Definition slowlog_2 (subcommand argument : Str) : client_op :=
  send [chars "SLOWLOG"; subcommand; argument].
Definition smembers (key : Str) : client_op := send [chars "SMEMBERS"; key].
Definition smove (source destination member : Str) : client_op :=
  send [chars "SMOVE"; source; destination; member].
Definition sort_1 (key : Str) : client_op := send [chars "SORT"; key].
Definition sort_10 (key by_pattern : Str) (limit : bool) (offset count : Z) (get_patterns : list
    Str) (asc_order alpha : bool) (store_dest : Str) : client_op :=
  send ([chars "SORT"; key]
    ++ (if negb (is_nil by_pattern) then [chars "BY"; by_pattern] else [])
    ++ (if limit : bool then [chars "LIMIT"; std_to_string offset; std_to_string count] else [])
    ++ (get_patterns ≫= λ get_pattern, if is_nil get_pattern then [] else [chars "GET"; get_pattern])
    ++ [chars (if asc_order : bool then "ASC" else "DESC")]
    ++ (if alpha : bool then [chars "ALPHA"] else [])
    ++ (if negb (is_nil store_dest) then [chars "STORE"; store_dest] else [])).
Definition sort_2 (key : Str) (get_patterns : list Str) (asc_order alpha : bool) : client_op :=
  sort_10 key [] false 0 0 get_patterns asc_order alpha [].
Definition sort_3 (key : Str) (offset count : Z) (get_patterns : list Str) (asc_order alpha : bool)
    : client_op :=
  sort_10 key [] true offset count get_patterns asc_order alpha [].
Definition sort_4 (key by_pattern : Str) (get_patterns : list Str) (asc_order alpha : bool) :
    client_op :=
  sort_10 key by_pattern false 0 0 get_patterns asc_order alpha [].
Definition sort_5 (key : Str) (get_patterns : list Str) (asc_order alpha : bool) (store_dest : Str)
    : client_op :=
  sort_10 key [] false 0 0 get_patterns asc_order alpha store_dest.
Definition sort_6 (key : Str) (offset count : Z) (get_patterns : list Str) (asc_order alpha : bool)
    (store_dest : Str) : client_op :=
  sort_10 key [] true offset count get_patterns asc_order alpha store_dest.
Definition sort_7 (key by_pattern : Str) (get_patterns : list Str) (asc_order alpha : bool)
    (store_dest : Str) : client_op :=
  sort_10 key by_pattern false 0 0 get_patterns asc_order alpha store_dest.
Definition sort_8 (key by_pattern : Str) (offset count : Z) (get_patterns : list Str) (asc_order
    alpha : bool) : client_op :=
  sort_10 key by_pattern true offset count get_patterns asc_order alpha [].
Definition sort_9 (key by_pattern : Str) (offset count : Z) (get_patterns : list Str) (asc_order
    alpha : bool) (store_dest : Str) : client_op :=
  sort_10 key by_pattern true offset count get_patterns asc_order alpha store_dest.
Definition spop_1 (key : Str) : client_op := send [chars "SPOP"; key].
Definition spop_2 (key : Str) (count : Z) : client_op := send [chars "SPOP"; key; signed_dec count].
Definition srandmember_1 (key : Str) : client_op := send [chars "SRANDMEMBER"; key].
Definition srandmember_2 (key : Str) (count : Z) : client_op :=
  send [chars "SRANDMEMBER"; key; signed_dec count].
Definition srem (key : Str) (members : list Str) : client_op :=
  send ([chars "SREM"; key]
    ++ members).
Definition sscan_4 (key : Str) (cursor : Z) (pattern : Str) (count : Z) : client_op :=
  send ([chars "SSCAN"; key; std_to_string cursor]
    ++ (if negb (is_nil pattern) then [chars "MATCH"; pattern] else [])
    ++ (if 0 <? count then [chars "COUNT"; std_to_string count] else [])).
Definition sscan_1 (key : Str) (cursor : Z) : client_op := sscan_4 key cursor [] 0.
Definition sscan_2 (key : Str) (cursor : Z) (pattern : Str) : client_op :=
  sscan_4 key cursor pattern 0.
Definition sscan_3 (key : Str) (cursor count : Z) : client_op := sscan_4 key cursor [] count.
Definition strlen (key : Str) : client_op := send [chars "STRLEN"; key].
Definition sunion (keys : list Str) : client_op := send ([chars "SUNION"] ++ keys).
Definition sunionstore (destination : Str) (keys : list Str) : client_op :=
  send ([chars "SUNIONSTORE"; destination]
    ++ keys).
Definition sync : client_op := send [chars "SYNC"].
Definition time : client_op := send [chars "TIME"].
Definition ttl (key : Str) : client_op := send [chars "TTL"; key].
Definition type_ (key : Str) : client_op := send [chars "TYPE"; key].
Definition unwatch : client_op := send [chars "UNWATCH"].
Definition wait (numslaves timeout : Z) : client_op :=
  send [chars "WAIT"; signed_dec numslaves; signed_dec timeout].
Definition watch (keys : list Str) : client_op := send ([chars "WATCH"] ++ keys).
