(* ===== verification/RedisSetCmds.v ===== *)
(** * Redis commands: sorted sets

    The callback functions of [core/client.cpp], one definition each; an
    overloaded function is numbered in the order of the source.  An argument
    vector is passed to [send].  A [std::multimap] is the list of its entries. *)

From S2P Require Import Prelude CppBase.
From S2P Require Import RedisReply RedisResp RedisConn RedisSentinel RedisClient RedisCmdTypes.

Definition zadd (key : Str) (options : list Str) (score_members : list (Str * Str)) : client_op :=
  send ([chars "ZADD"; key]
    ++ options
    ++ (score_members ≫= λ sm, [sm.1; sm.2])).
Definition zcard (key : Str) : client_op := send [chars "ZCARD"; key].
Definition zcount_1 (key : Str) (min max : Z) : client_op :=
  send [chars "ZCOUNT"; key; signed_dec min; signed_dec max].
Definition zcount_2 (key : Str) (min max : double) : client_op :=
  send [chars "ZCOUNT"; key; double_dec min; double_dec max].
Definition zcount_3 (key min max : Str) : client_op := send [chars "ZCOUNT"; key; min; max].
Definition zincrby_1 (key : Str) (incr : Z) (member : Str) : client_op :=
  send [chars "ZINCRBY"; key; signed_dec incr; member].
Definition zincrby_2 (key : Str) (incr : double) (member : Str) : client_op :=
  send [chars "ZINCRBY"; key; double_dec incr; member].
Definition zincrby_3 (key incr member : Str) : client_op :=
  send [chars "ZINCRBY"; key; incr; member].
Definition zinterstore (destination : Str) (numkeys : Z) (keys : list Str) (weights : list Z)
    (method : aggregate_method) : client_op :=
  send ([chars "ZINTERSTORE"; destination; std_to_string numkeys]
    ++ keys
    ++ (if negb (is_nil weights) then [chars "WEIGHTS"] ++ (weights ≫= λ weight, [std_to_string weight]) else [])
    ++ (if negb (bool_decide (method = ag_default)) then [chars "AGGREGATE"; aggregate_method_to_string method] else [])).
Definition zlexcount_1 (key : Str) (min max : Z) : client_op :=
  send [chars "ZLEXCOUNT"; key; signed_dec min; signed_dec max].
Definition zlexcount_2 (key : Str) (min max : double) : client_op :=
  send [chars "ZLEXCOUNT"; key; double_dec min; double_dec max].
Definition zlexcount_3 (key min max : Str) : client_op := send [chars "ZLEXCOUNT"; key; min; max].
Definition zpopmin (key : Str) (count : Z) : client_op :=
  send [chars "ZPOPMIN"; key; signed_dec count].
Definition zpopmax (key : Str) (count : Z) : client_op :=
  send [chars "ZPOPMAX"; key; signed_dec count].
Definition zrange_1 (key : Str) (start stop : Z) : client_op :=
  send [chars "ZRANGE"; key; signed_dec start; signed_dec stop].
Definition zrange_2 (key : Str) (start stop : Z) (withscores : bool) : client_op :=
  send (if withscores : bool then [chars "ZRANGE"; key; signed_dec start; signed_dec stop; chars
  "WITHSCORES"] else [chars "ZRANGE"; key; signed_dec start; signed_dec stop]).
Definition zrange_3 (key : Str) (start stop : double) : client_op :=
  send [chars "ZRANGE"; key; double_dec start; double_dec stop].
Definition zrange_4 (key : Str) (start stop : double) (withscores : bool) : client_op :=
  send (if withscores : bool then [chars "ZRANGE"; key; double_dec start; double_dec stop; chars
  "WITHSCORES"] else [chars "ZRANGE"; key; double_dec start; double_dec stop]).
Definition zrange_5 (key start stop : Str) : client_op := send [chars "ZRANGE"; key; start; stop].
Definition zrange_6 (key start stop : Str) (withscores : bool) : client_op :=
  send (if withscores : bool then [chars "ZRANGE"; key; start; stop; chars "WITHSCORES"] else
  [chars "ZRANGE"; key; start; stop]).
Definition zrangebylex_13 (key min max : Str) (limit : bool) (offset count : Z) (withscores : bool)
    : client_op :=
  send ([chars "ZRANGEBYLEX"; key; min; max]
    ++ (if withscores : bool then [chars "WITHSCORES"] else [])
    ++ (if limit : bool then [chars "LIMIT"; std_to_string offset; std_to_string count] else [])).
Definition zrangebylex_1 (key : Str) (min max : Z) : client_op :=
  zrangebylex_13 key (signed_dec min) (signed_dec max) false 0 0 false.
Definition zrangebylex_2 (key : Str) (min max : Z) (withscores : bool) : client_op :=
  zrangebylex_13 key (signed_dec min) (signed_dec max) false 0 0 withscores.
Definition zrangebylex_3 (key : Str) (min max : double) : client_op :=
  zrangebylex_13 key (double_dec min) (double_dec max) false 0 0 false.
Definition zrangebylex_4 (key : Str) (min max : double) (withscores : bool) : client_op :=
  zrangebylex_13 key (double_dec min) (double_dec max) false 0 0 withscores.
Definition zrangebylex_5 (key min max : Str) : client_op :=
  zrangebylex_13 key min max false 0 0 false.
Definition zrangebylex_6 (key min max : Str) (withscores : bool) : client_op :=
  zrangebylex_13 key min max false 0 0 withscores.
Definition zrangebylex_7 (key : Str) (min max offset count : Z) : client_op :=
  zrangebylex_13 key (signed_dec min) (signed_dec max) true offset count false.
Definition zrangebylex_8 (key : Str) (min max offset count : Z) (withscores : bool) : client_op :=
  zrangebylex_13 key (signed_dec min) (signed_dec max) true offset count withscores.
Definition zrangebylex_9 (key : Str) (min max : double) (offset count : Z) : client_op :=
  zrangebylex_13 key (double_dec min) (double_dec max) true offset count false.
Definition zrangebylex_10 (key : Str) (min max : double) (offset count : Z) (withscores : bool) :
    client_op :=
  zrangebylex_13 key (double_dec min) (double_dec max) true offset count withscores.
Definition zrangebylex_11 (key min max : Str) (offset count : Z) : client_op :=
  zrangebylex_13 key min max true offset count false.
Definition zrangebylex_12 (key min max : Str) (offset count : Z) (withscores : bool) : client_op :=
  zrangebylex_13 key min max true offset count withscores.
Definition zrangebyscore_13 (key min max : Str) (limit : bool) (offset count : Z) (withscores :
    bool) : client_op :=
  send ([chars "ZRANGEBYSCORE"; key; min; max]
    ++ (if withscores : bool then [chars "WITHSCORES"] else [])
    ++ (if limit : bool then [chars "LIMIT"; std_to_string offset; std_to_string count] else [])).
Definition zrangebyscore_1 (key : Str) (min max : Z) : client_op :=
  zrangebyscore_13 key (signed_dec min) (signed_dec max) false 0 0 false.
Definition zrangebyscore_2 (key : Str) (min max : Z) (withscores : bool) : client_op :=
  zrangebyscore_13 key (signed_dec min) (signed_dec max) false 0 0 withscores.
Definition zrangebyscore_3 (key : Str) (min max : double) : client_op :=
  zrangebyscore_13 key (double_dec min) (double_dec max) false 0 0 false.
Definition zrangebyscore_4 (key : Str) (min max : double) (withscores : bool) : client_op :=
  zrangebyscore_13 key (double_dec min) (double_dec max) false 0 0 withscores.
Definition zrangebyscore_5 (key min max : Str) : client_op :=
  zrangebyscore_13 key min max false 0 0 false.
Definition zrangebyscore_6 (key min max : Str) (withscores : bool) : client_op :=
  zrangebyscore_13 key min max false 0 0 withscores.
Definition zrangebyscore_7 (key : Str) (min max offset count : Z) : client_op :=
  zrangebyscore_13 key (signed_dec min) (signed_dec max) true offset count false.
Definition zrangebyscore_8 (key : Str) (min max offset count : Z) (withscores : bool) : client_op
    :=
  zrangebyscore_13 key (signed_dec min) (signed_dec max) true offset count withscores.
Definition zrangebyscore_9 (key : Str) (min max : double) (offset count : Z) : client_op :=
  zrangebyscore_13 key (double_dec min) (double_dec max) true offset count false.
Definition zrangebyscore_10 (key : Str) (min max : double) (offset count : Z) (withscores : bool) :
    client_op :=
  zrangebyscore_13 key (double_dec min) (double_dec max) true offset count withscores.
Definition zrangebyscore_11 (key min max : Str) (offset count : Z) : client_op :=
  zrangebyscore_13 key min max true offset count false.
Definition zrangebyscore_12 (key min max : Str) (offset count : Z) (withscores : bool) : client_op
    :=
  zrangebyscore_13 key min max true offset count withscores.
Definition zrank (key member : Str) : client_op := send [chars "ZRANK"; key; member].
Definition zrem (key : Str) (members : list Str) : client_op :=
  send ([chars "ZREM"; key]
    ++ members).
Definition zremrangebylex_1 (key : Str) (min max : Z) : client_op :=
  send [chars "ZREMRANGEBYLEX"; key; signed_dec min; signed_dec max].
Definition zremrangebylex_2 (key : Str) (min max : double) : client_op :=
  send [chars "ZREMRANGEBYLEX"; key; double_dec min; double_dec max].
Definition zremrangebylex_3 (key min max : Str) : client_op :=
  send [chars "ZREMRANGEBYLEX"; key; min; max].
Definition zremrangebyrank_1 (key : Str) (start stop : Z) : client_op :=
  send [chars "ZREMRANGEBYRANK"; key; signed_dec start; signed_dec stop].
Definition zremrangebyrank_2 (key : Str) (start stop : double) : client_op :=
  send [chars "ZREMRANGEBYRANK"; key; double_dec start; double_dec stop].
Definition zremrangebyrank_3 (key start stop : Str) : client_op :=
  send [chars "ZREMRANGEBYRANK"; key; start; stop].
Definition zremrangebyscore_1 (key : Str) (min max : Z) : client_op :=
  send [chars "ZREMRANGEBYSCORE"; key; signed_dec min; signed_dec max].
Definition zremrangebyscore_2 (key : Str) (min max : double) : client_op :=
  send [chars "ZREMRANGEBYSCORE"; key; double_dec min; double_dec max].
Definition zremrangebyscore_3 (key min max : Str) : client_op :=
  send [chars "ZREMRANGEBYSCORE"; key; min; max].
Definition zrevrange_1 (key : Str) (start stop : Z) : client_op :=
  send [chars "ZREVRANGE"; key; signed_dec start; signed_dec stop].
Definition zrevrange_2 (key : Str) (start stop : Z) (withscores : bool) : client_op :=
  send (if withscores : bool then [chars "ZREVRANGE"; key; signed_dec start; signed_dec stop;
  chars "WITHSCORES"] else [chars "ZREVRANGE"; key; signed_dec start; signed_dec stop]).
Definition zrevrange_3 (key : Str) (start stop : double) : client_op :=
  send [chars "ZREVRANGE"; key; double_dec start; double_dec stop].
Definition zrevrange_4 (key : Str) (start stop : double) (withscores : bool) : client_op :=
  send (if withscores : bool then [chars "ZREVRANGE"; key; double_dec start; double_dec stop;
  chars "WITHSCORES"] else [chars "ZREVRANGE"; key; double_dec start; double_dec stop]).
Definition zrevrange_5 (key start stop : Str) : client_op :=
  send [chars "ZREVRANGE"; key; start; stop].
Definition zrevrange_6 (key start stop : Str) (withscores : bool) : client_op :=
  send (if withscores : bool then [chars "ZREVRANGE"; key; start; stop; chars "WITHSCORES"] else
  [chars "ZREVRANGE"; key; start; stop]).
Definition zrevrangebylex_13 (key max min : Str) (limit : bool) (offset count : Z) (withscores :
    bool) : client_op :=
  send ([chars "ZREVRANGEBYLEX"; key; max; min]
    ++ (if withscores : bool then [chars "WITHSCORES"] else [])
    ++ (if limit : bool then [chars "LIMIT"; std_to_string offset; std_to_string count] else [])).
Definition zrevrangebylex_1 (key : Str) (max min : Z) : client_op :=
  zrevrangebylex_13 key (signed_dec max) (signed_dec min) false 0 0 false.
Definition zrevrangebylex_2 (key : Str) (max min : Z) (withscores : bool) : client_op :=
  zrevrangebylex_13 key (signed_dec max) (signed_dec min) false 0 0 withscores.
Definition zrevrangebylex_3 (key : Str) (max min : double) : client_op :=
  zrevrangebylex_13 key (double_dec max) (double_dec min) false 0 0 false.
Definition zrevrangebylex_4 (key : Str) (max min : double) (withscores : bool) : client_op :=
  zrevrangebylex_13 key (double_dec max) (double_dec min) false 0 0 withscores.
Definition zrevrangebylex_5 (key max min : Str) : client_op :=
  zrevrangebylex_13 key max min false 0 0 false.
Definition zrevrangebylex_6 (key max min : Str) (withscores : bool) : client_op :=
  zrevrangebylex_13 key max min false 0 0 withscores.
Definition zrevrangebylex_7 (key : Str) (max min offset count : Z) : client_op :=
  zrevrangebylex_13 key (signed_dec max) (signed_dec min) true offset count false.
Definition zrevrangebylex_8 (key : Str) (max min offset count : Z) (withscores : bool) : client_op
    :=
  zrevrangebylex_13 key (signed_dec max) (signed_dec min) true offset count withscores.
Definition zrevrangebylex_9 (key : Str) (max min : double) (offset count : Z) : client_op :=
  zrevrangebylex_13 key (double_dec max) (double_dec min) true offset count false.
Definition zrevrangebylex_10 (key : Str) (max min : double) (offset count : Z) (withscores : bool)
    : client_op :=
  zrevrangebylex_13 key (double_dec max) (double_dec min) true offset count withscores.
Definition zrevrangebylex_11 (key max min : Str) (offset count : Z) : client_op :=
  zrevrangebylex_13 key max min true offset count false.
Definition zrevrangebylex_12 (key max min : Str) (offset count : Z) (withscores : bool) : client_op
    :=
  zrevrangebylex_13 key max min true offset count withscores.
Definition zrevrangebyscore_13 (key max min : Str) (limit : bool) (offset count : Z) (withscores :
    bool) : client_op :=
  send ([chars "ZREVRANGEBYSCORE"; key; max; min]
    ++ (if withscores : bool then [chars "WITHSCORES"] else [])
    ++ (if limit : bool then [chars "LIMIT"; std_to_string offset; std_to_string count] else [])).
Definition zrevrangebyscore_1 (key : Str) (max min : Z) : client_op :=
  zrevrangebyscore_13 key (signed_dec max) (signed_dec min) false 0 0 false.
Definition zrevrangebyscore_2 (key : Str) (max min : Z) (withscores : bool) : client_op :=
  zrevrangebyscore_13 key (signed_dec max) (signed_dec min) false 0 0 withscores.
Definition zrevrangebyscore_3 (key : Str) (max min : double) : client_op :=
  zrevrangebyscore_13 key (double_dec max) (double_dec min) false 0 0 false.
Definition zrevrangebyscore_4 (key : Str) (max min : double) (withscores : bool) : client_op :=
  zrevrangebyscore_13 key (double_dec max) (double_dec min) false 0 0 withscores.
Definition zrevrangebyscore_5 (key max min : Str) : client_op :=
  zrevrangebyscore_13 key max min false 0 0 false.
Definition zrevrangebyscore_6 (key max min : Str) (withscores : bool) : client_op :=
  zrevrangebyscore_13 key max min false 0 0 withscores.
Definition zrevrangebyscore_7 (key : Str) (max min offset count : Z) : client_op :=
  zrevrangebyscore_13 key (signed_dec max) (signed_dec min) true offset count false.
Definition zrevrangebyscore_8 (key : Str) (max min offset count : Z) (withscores : bool) :
    client_op :=
  zrevrangebyscore_13 key (signed_dec max) (signed_dec min) true offset count withscores.
Definition zrevrangebyscore_9 (key : Str) (max min : double) (offset count : Z) : client_op :=
  zrevrangebyscore_13 key (double_dec max) (double_dec min) true offset count false.
Definition zrevrangebyscore_10 (key : Str) (max min : double) (offset count : Z) (withscores :
    bool) : client_op :=
  zrevrangebyscore_13 key (double_dec max) (double_dec min) true offset count withscores.
Definition zrevrangebyscore_11 (key max min : Str) (offset count : Z) : client_op :=
  zrevrangebyscore_13 key max min true offset count false.
Definition zrevrangebyscore_12 (key max min : Str) (offset count : Z) (withscores : bool) :
    client_op :=
  zrevrangebyscore_13 key max min true offset count withscores.
Definition zrevrank (key member : Str) : client_op := send [chars "ZREVRANK"; key; member].
Definition zscan_4 (key : Str) (cursor : Z) (pattern : Str) (count : Z) : client_op :=
  send ([chars "ZSCAN"; key; std_to_string cursor]
    ++ (if negb (is_nil pattern) then [chars "MATCH"; pattern] else [])
    ++ (if 0 <? count then [chars "COUNT"; std_to_string count] else [])).
Definition zscan_1 (key : Str) (cursor : Z) : client_op := zscan_4 key cursor [] 0.
Definition zscan_2 (key : Str) (cursor : Z) (pattern : Str) : client_op :=
  zscan_4 key cursor pattern 0.
Definition zscan_3 (key : Str) (cursor count : Z) : client_op := zscan_4 key cursor [] count.
Definition zscore (key member : Str) : client_op := send [chars "ZSCORE"; key; member].
Definition zunionstore (destination : Str) (numkeys : Z) (keys : list Str) (weights : list Z)
    (method : aggregate_method) : client_op :=
  send ([chars "ZUNIONSTORE"; destination; std_to_string numkeys]
    ++ keys
    ++ (if negb (is_nil weights) then [chars "WEIGHTS"] ++ (weights ≫= λ weight, [std_to_string weight]) else [])
    ++ (if negb (bool_decide (method = ag_default)) then [chars "AGGREGATE"; aggregate_method_to_string method] else [])).
