(* ===== verification/RedisStreamCmds.v ===== *)
(** * Redis commands: streams

    The callback functions of [core/client.cpp], one definition each; an
    overloaded function is numbered in the order of the source.  An argument
    vector is passed to [send].  A [std::multimap] is the list of its entries. *)

From S2P Require Import Prelude CppBase.
From S2P Require Import RedisReply RedisResp RedisConn RedisSentinel RedisClient RedisCmdTypes.

Definition xack (stream group : Str) (message_ids : list Str) : client_op :=
  send ([chars "XACK"; stream; group]
    ++ message_ids).
Definition xadd (key id : Str) (field_members : list (Str * Str)) : client_op :=
  send ([chars "XADD"; key; id]
    ++ (field_members ≫= λ sm, [sm.1; sm.2])).
Definition xclaim (stream group consumer : Str) (min_idle_time : Z) (message_ids : list Str)
    (options : xclaim_options_t) : client_op :=
  send ([chars "XCLAIM"; stream; group; consumer; signed_dec min_idle_time]
    ++ message_ids
    ++ (if 0 <? xc_Idle options then [chars "IDLE"; signed_dec (xc_Idle options)] else [])
    ++ (match xc_Time options with Some t => [chars "TIME"; signed_dec t] | None => [] end)
    ++ (if 0 <? xc_RetryCount options then [chars "RETRYCOUNT"; signed_dec (xc_RetryCount options)] else [])
    ++ (if xc_Force options then [chars "FORCE"] else [])
    ++ (if xc_JustId options then [chars "JUSTID"] else [])).
Definition xdel (key : Str) (id_members : list Str) : client_op :=
  send ([chars "XDEL"; key]
    ++ id_members).
Definition xgroup_create_1 (key group_name : Str) : client_op :=
  send [chars "XGROUP"; chars "CREATE"; key; group_name; chars "$"; chars "MKSTREAM"].
Definition xgroup_create_2 (key group_name id : Str) : client_op :=
  send [chars "XGROUP"; chars "CREATE"; key; group_name; id].
Definition xgroup_set_id_1 (key group_name : Str) : client_op :=
  send [chars "XGROUP"; chars "SETID"; key; group_name; chars "$"].
Definition xgroup_set_id_2 (key group_name id : Str) : client_op :=
  send [chars "XGROUP"; chars "SETID"; key; group_name; id].
Definition xgroup_destroy (key group_name : Str) : client_op :=
  send [chars "XGROUP"; chars "DESTROY"; key; group_name].
Definition xgroup_del_consumer (key group_name consumer_name : Str) : client_op :=
  send [chars "XGROUP"; chars "DELCONSUMER"; key; group_name; consumer_name].
Definition xinfo_consumers (key group_name : Str) : client_op :=
  send [chars "XINFO"; chars "CONSUMERS"; key; group_name].
Definition xinfo_groups (key : Str) : client_op := send [chars "XINFO"; chars "GROUPS"; key].
Definition xinfo_stream (stream : Str) : client_op := send [chars "XINFO"; chars "STREAM"; stream].
Definition xlen (stream : Str) : client_op := send [chars "XLEN"; stream].
Definition xpending (stream group : Str) (options : xpending_options_t) : client_op :=
  send ([chars "XPENDING"; stream; group]
    ++ (if negb (is_nil (Start (Range options))) then [Start (Range options); Stop (Range options); signed_dec (r_Count (Range options))] else [])
    ++ (if negb (is_nil (xp_Consumer options)) then [xp_Consumer options] else [])).
Definition xrange (stream : Str) (options : range_options_t) : client_op :=
  send ([chars "XRANGE"; stream; Start options; Stop options]
    ++ (if 0 <? (r_Count options) then [chars "COUNT"; signed_dec (r_Count options)] else [])).
Definition xread (a : xread_options_t) : client_op :=
  send ([chars "XREAD"]
    ++ (if 0 <? (xr_Count a) then [chars "COUNT"; signed_dec (xr_Count a)] else [])
    ++ (if 0 <=? (xr_Block a) then [chars "BLOCK"; signed_dec (xr_Block a)] else [])
    ++ [chars "STREAMS"]
    ++ (xr_keys a)
    ++ (xr_ids a)).
Definition xreadgroup (a : xreadgroup_options_t) : client_op :=
  send ([chars "XREADGROUP"; chars "GROUP"; xg_Group a; xg_Consumer a]
    ++ (if 0 <? (xg_Count a) then [chars "COUNT"; signed_dec (xg_Count a)] else [])
    ++ (if 0 <=? (xg_Block a) then [chars "BLOCK"; signed_dec (xg_Block a)] else [])
    ++ (if xg_NoAck a then [chars "NOACK"] else [])
    ++ [chars "STREAMS"]
    ++ (xg_keys a)
    ++ (xg_ids a)).
Definition xrevrange (key : Str) (range_args : range_options_t) : client_op :=
  send ([chars "XREVRANGE"; key; Start range_args; Stop range_args]
    ++ (if 0 <? (r_Count range_args) then [signed_dec (r_Count range_args)] else [])).
Definition xtrim (stream : Str) (max_len : Z) : client_op :=
  send [chars "XTRIM"; stream; chars "MAXLEN"; signed_dec max_len].
Definition xtrim_approx (key : Str) (max_len : Z) : client_op :=
  send [chars "XTRIM"; key; chars "MAXLEN"; chars "~"; signed_dec max_len].
