(* ===== verification/RedisFutures.v ===== *)
(** * Redis commands: the functions that return futures

    The future functions of [core/client.cpp]: each runs a callback function
    through [exec_cmd]. *)

From S2P Require Import Prelude CppBase.
From S2P Require Import RedisReply RedisResp RedisConn RedisSentinel RedisClient RedisCmdTypes.
From S2P Require Import RedisKeyCmds RedisSetCmds RedisStreamCmds.

Definition send_future (redis_cmd : list Str) : nat → client → client := exec_cmd (send redis_cmd).
Definition append_future (key value : Str) : nat → client → client := exec_cmd (append key value).
Definition auth_future (password : Str) : nat → client → client := exec_cmd (auth password).
Definition bgrewriteaof_future : nat → client → client := exec_cmd bgrewriteaof.
Definition bgsave_future : nat → client → client := exec_cmd bgsave.
Definition bitcount_future_1 (key : Str) : nat → client → client := exec_cmd (bitcount_1 key).
Definition bitcount_future_2 (key : Str) (start end_ : Z) : nat → client → client :=
  exec_cmd (bitcount_2 key start end_).
Definition bitfield_future (key : Str) (operations : list bitfield_operation) : nat → client →
    client :=
  exec_cmd (bitfield key operations).
Definition bitop_future (operation destkey : Str) (keys : list Str) : nat → client → client :=
  exec_cmd (bitop operation destkey keys).
Definition bitpos_future_1 (key : Str) (bit : Z) : nat → client → client :=
  exec_cmd (bitpos_1 key bit).
Definition bitpos_future_2 (key : Str) (bit start : Z) : nat → client → client :=
  exec_cmd (bitpos_2 key bit start).
Definition bitpos_future_3 (key : Str) (bit start end_ : Z) : nat → client → client :=
  exec_cmd (bitpos_3 key bit start end_).
Definition blpop_future (keys : list Str) (timeout : Z) : nat → client → client :=
  exec_cmd (blpop keys timeout).
Definition brpop_future (keys : list Str) (timeout : Z) : nat → client → client :=
  exec_cmd (brpop keys timeout).
Definition brpoplpush_future (src dst : Str) (timeout : Z) : nat → client → client :=
  exec_cmd (brpoplpush src dst timeout).
Definition bzpopmin_future (keys : list Str) (timeout : Z) : nat → client → client :=
  exec_cmd (bzpopmin keys timeout).
Definition bzpopmax_future (keys : list Str) (timeout : Z) : nat → client → client :=
  exec_cmd (bzpopmax keys timeout).
Definition client_id_future : nat → client → client := exec_cmd client_id.
Definition client_list_future : nat → client → client := exec_cmd client_list.
Definition client_getname_future : nat → client → client := exec_cmd client_getname.
Definition client_pause_future (timeout : Z) : nat → client → client :=
  exec_cmd (client_pause timeout).
Definition client_reply_future (mode : Str) : nat → client → client := exec_cmd (client_reply mode).
Definition client_setname_future (name : Str) : nat → client → client :=
  exec_cmd (client_setname name).
Definition client_unblock_future (id : Z) (witherror : bool) : nat → client → client :=
  exec_cmd (client_unblock_2 id witherror).
Definition cluster_addslots_future (p_slots : list Str) : nat → client → client :=
  exec_cmd (cluster_addslots p_slots).
Definition cluster_count_failure_reports_future (node_id : Str) : nat → client → client :=
  exec_cmd (cluster_count_failure_reports node_id).
Definition cluster_countkeysinslot_future (slot : Str) : nat → client → client :=
  exec_cmd (cluster_countkeysinslot slot).
Definition cluster_delslots_future (p_slots : list Str) : nat → client → client :=
  exec_cmd (cluster_delslots p_slots).
Definition cluster_failover_future_1 : nat → client → client := exec_cmd cluster_failover_1.
Definition cluster_failover_future_2 (mode : Str) : nat → client → client :=
  exec_cmd (cluster_failover_2 mode).
Definition cluster_forget_future (node_id : Str) : nat → client → client :=
  exec_cmd (cluster_forget node_id).
Definition cluster_getkeysinslot_future (slot : Str) (count : Z) : nat → client → client :=
  exec_cmd (cluster_getkeysinslot slot count).
Definition cluster_info_future : nat → client → client := exec_cmd cluster_info.
Definition cluster_keyslot_future (key : Str) : nat → client → client :=
  exec_cmd (cluster_keyslot key).
Definition cluster_meet_future (ip : Str) (port : Z) : nat → client → client :=
  exec_cmd (cluster_meet ip port).
Definition cluster_nodes_future : nat → client → client := exec_cmd cluster_nodes.
Definition cluster_replicate_future (node_id : Str) : nat → client → client :=
  exec_cmd (cluster_replicate node_id).
Definition cluster_reset_future (mode : Str) : nat → client → client :=
  exec_cmd (cluster_reset_2 mode).
Definition cluster_saveconfig_future : nat → client → client := exec_cmd cluster_saveconfig.
Definition cluster_set_config_epoch_future (epoch : Str) : nat → client → client :=
  exec_cmd (cluster_set_config_epoch epoch).
Definition cluster_setslot_future_1 (slot mode : Str) : nat → client → client :=
  exec_cmd (cluster_setslot_1 slot mode).
Definition cluster_setslot_future_2 (slot mode node_id : Str) : nat → client → client :=
  exec_cmd (cluster_setslot_2 slot mode node_id).
Definition cluster_slaves_future (node_id : Str) : nat → client → client :=
  exec_cmd (cluster_slaves node_id).
Definition cluster_slots_future : nat → client → client := exec_cmd cluster_slots.
Definition command_future : nat → client → client := exec_cmd command_.
Definition command_count_future : nat → client → client := exec_cmd command_count.
Definition command_getkeys_future : nat → client → client := exec_cmd command_getkeys.
Definition command_info_future (command_name : list Str) : nat → client → client :=
  exec_cmd (command_info command_name).
Definition config_get_future (param : Str) : nat → client → client := exec_cmd (config_get param).
Definition config_rewrite_future : nat → client → client := exec_cmd config_rewrite.
Definition config_set_future (param val : Str) : nat → client → client :=
  exec_cmd (config_set param val).
Definition config_resetstat_future : nat → client → client := exec_cmd config_resetstat.
Definition dbsize_future : nat → client → client := exec_cmd dbsize.
Definition debug_object_future (key : Str) : nat → client → client := exec_cmd (debug_object key).
Definition debug_segfault_future : nat → client → client := exec_cmd debug_segfault.
Definition decr_future (key : Str) : nat → client → client := exec_cmd (decr key).
Definition decrby_future (key : Str) (val : Z) : nat → client → client := exec_cmd (decrby key val).
Definition del_future (key : list Str) : nat → client → client := exec_cmd (del key).
Definition discard_future : nat → client → client := exec_cmd discard.
Definition dump_future (key : Str) : nat → client → client := exec_cmd (dump key).
Definition echo_future (msg : Str) : nat → client → client := exec_cmd (echo msg).
Definition eval_future_1 (script : Str) (numkeys : Z) (keys args : list Str) : nat → client →
    client :=
  exec_cmd (eval_2 script keys args).
Definition eval_future_2 (script : Str) (keys args : list Str) : nat → client → client :=
  exec_cmd (eval_2 script keys args).
Definition evalsha_future_1 (sha1 : Str) (keys args : list Str) : nat → client → client :=
  exec_cmd (evalsha_2 sha1 keys args).
Definition evalsha_future_2 (sha1 : Str) (numkeys : Z) (keys args : list Str) : nat → client →
    client :=
  exec_cmd (evalsha_2 sha1 keys args).
Definition exec_future : nat → client → client := exec_cmd exec.
Definition exists_future (keys : list Str) : nat → client → client := exec_cmd (exists_ keys).
Definition expire_future (key : Str) (seconds : Z) : nat → client → client :=
  exec_cmd (expire key seconds).
Definition expireat_future (key : Str) (timestamp : Z) : nat → client → client :=
  exec_cmd (expireat key timestamp).
Definition flushall_future : nat → client → client := exec_cmd flushall.
Definition flushdb_future : nat → client → client := exec_cmd flushdb.
Definition geoadd_future (key : Str) (long_lat_memb : list (Str * Str * Str)) : nat → client →
    client :=
  exec_cmd (geoadd key long_lat_memb).
Definition geohash_future (key : Str) (members : list Str) : nat → client → client :=
  exec_cmd (geohash key members).
Definition geopos_future (key : Str) (members : list Str) : nat → client → client :=
  exec_cmd (geopos key members).
Definition geodist_future (key member_1 member_2 unit : Str) : nat → client → client :=
  exec_cmd (geodist_2 key member_1 member_2 unit).
Definition georadius_future (key : Str) (longitude latitude radius : double) (unit : geo_unit)
    (with_coord with_dist with_hash asc_order : bool) (count : Z) (store_key storedist_key : Str) : nat
    → client → client :=
  exec_cmd (georadius_6 key longitude latitude radius unit with_coord with_dist with_hash asc_order
  count store_key storedist_key).
Definition georadiusbymember_future (key member : Str) (radius : double) (unit : geo_unit)
    (with_coord with_dist with_hash asc_order : bool) (count : Z) (store_key storedist_key : Str) : nat
    → client → client :=
  exec_cmd (georadiusbymember_6 key member radius unit with_coord with_dist with_hash asc_order
  count store_key storedist_key).
Definition get_future (key : Str) : nat → client → client := exec_cmd (get key).
Definition getbit_future (key : Str) (offset : Z) : nat → client → client :=
  exec_cmd (getbit key offset).
Definition getrange_future (key : Str) (start end_ : Z) : nat → client → client :=
  exec_cmd (getrange key start end_).
Definition getset_future (key val : Str) : nat → client → client := exec_cmd (getset key val).
Definition hdel_future (key : Str) (fields : list Str) : nat → client → client :=
  exec_cmd (hdel key fields).
Definition hexists_future (key field : Str) : nat → client → client := exec_cmd (hexists key field).
Definition hget_future (key field : Str) : nat → client → client := exec_cmd (hget key field).
Definition hgetall_future (key : Str) : nat → client → client := exec_cmd (hgetall key).
Definition hincrby_future (key field : Str) (incr : Z) : nat → client → client :=
  exec_cmd (hincrby key field incr).
Definition hincrbyfloat_future (key field : Str) (incr : double) : nat → client → client :=
  exec_cmd (hincrbyfloat key field incr).
Definition hkeys_future (key : Str) : nat → client → client := exec_cmd (hkeys key).
Definition hlen_future (key : Str) : nat → client → client := exec_cmd (hlen key).
Definition hmget_future (key : Str) (fields : list Str) : nat → client → client :=
  exec_cmd (hmget key fields).
Definition hmset_future (key : Str) (field_val : list (Str * Str)) : nat → client → client :=
  exec_cmd (hmset key field_val).
Definition hscan_future_1 (key : Str) (cursor : Z) : nat → client → client :=
  exec_cmd (hscan_1 key cursor).
Definition hscan_future_2 (key : Str) (cursor : Z) (pattern : Str) : nat → client → client :=
  exec_cmd (hscan_2 key cursor pattern).
Definition hscan_future_3 (key : Str) (cursor count : Z) : nat → client → client :=
  exec_cmd (hscan_3 key cursor count).
Definition hscan_future_4 (key : Str) (cursor : Z) (pattern : Str) (count : Z) : nat → client →
    client :=
  exec_cmd (hscan_4 key cursor pattern count).
Definition hset_future (key field value : Str) : nat → client → client :=
  exec_cmd (hset key field value).
Definition hsetnx_future (key field value : Str) : nat → client → client :=
  exec_cmd (hsetnx key field value).
Definition hstrlen_future (key field : Str) : nat → client → client := exec_cmd (hstrlen key field).
Definition hvals_future (key : Str) : nat → client → client := exec_cmd (hvals key).
Definition incr_future (key : Str) : nat → client → client := exec_cmd (incr key).
Definition incrby_future (key : Str) (incr : Z) : nat → client → client :=
  exec_cmd (incrby key incr).
Definition incrbyfloat_future (key : Str) (incr : double) : nat → client → client :=
  exec_cmd (incrbyfloat key incr).
Definition info_future (section : Str) : nat → client → client := exec_cmd (info_2 section).
Definition keys_future (pattern : Str) : nat → client → client := exec_cmd (keys pattern).
Definition lastsave_future : nat → client → client := exec_cmd lastsave.
Definition lindex_future (key : Str) (index : Z) : nat → client → client :=
  exec_cmd (lindex key index).
Definition linsert_future (key before_after pivot value : Str) : nat → client → client :=
  exec_cmd (linsert key before_after pivot value).
Definition llen_future (key : Str) : nat → client → client := exec_cmd (llen key).
Definition lpop_future (key : Str) : nat → client → client := exec_cmd (lpop key).
Definition lpush_future (key : Str) (values : list Str) : nat → client → client :=
  exec_cmd (lpush key values).
Definition lpushx_future (key value : Str) : nat → client → client := exec_cmd (lpushx key value).
Definition lrange_future (key : Str) (start stop : Z) : nat → client → client :=
  exec_cmd (lrange key start stop).
Definition lrem_future (key : Str) (count : Z) (value : Str) : nat → client → client :=
  exec_cmd (lrem key count value).
Definition lset_future (key : Str) (index : Z) (value : Str) : nat → client → client :=
  exec_cmd (lset key index value).
Definition ltrim_future (key : Str) (start stop : Z) : nat → client → client :=
  exec_cmd (ltrim key start stop).
Definition mget_future (keys : list Str) : nat → client → client := exec_cmd (mget keys).
Definition migrate_future (host : Str) (port : Z) (key dest_db : Str) (timeout : Z) (copy replace :
    bool) (keys : list Str) : nat → client → client :=
  exec_cmd (migrate_2 host port key dest_db timeout copy replace keys).
Definition monitor_future : nat → client → client := exec_cmd monitor.
Definition move_future (key db : Str) : nat → client → client := exec_cmd (move key db).
Definition mset_future (key_vals : list (Str * Str)) : nat → client → client :=
  exec_cmd (mset key_vals).
Definition msetnx_future (key_vals : list (Str * Str)) : nat → client → client :=
  exec_cmd (msetnx key_vals).
Definition multi_future : nat → client → client := exec_cmd multi.
Definition object_future (subcommand : Str) (args : list Str) : nat → client → client :=
  exec_cmd (object subcommand args).
Definition persist_future (key : Str) : nat → client → client := exec_cmd (persist key).
Definition pexpire_future (key : Str) (ms : Z) : nat → client → client := exec_cmd (pexpire key ms).
Definition pexpireat_future (key : Str) (ms_timestamp : Z) : nat → client → client :=
  exec_cmd (pexpireat key ms_timestamp).
Definition pfadd_future (key : Str) (elements : list Str) : nat → client → client :=
  exec_cmd (pfadd key elements).
Definition pfcount_future (keys : list Str) : nat → client → client := exec_cmd (pfcount keys).
Definition pfmerge_future (destkey : Str) (sourcekeys : list Str) : nat → client → client :=
  exec_cmd (pfmerge destkey sourcekeys).
Definition ping_future_1 : nat → client → client := exec_cmd ping_1.
Definition ping_future_2 (message : Str) : nat → client → client := exec_cmd (ping_2 message).
Definition psetex_future (key : Str) (ms : Z) (val : Str) : nat → client → client :=
  exec_cmd (psetex key ms val).
Definition publish_future (channel message : Str) : nat → client → client :=
  exec_cmd (publish channel message).
Definition pubsub_future (subcommand : Str) (args : list Str) : nat → client → client :=
  exec_cmd (pubsub subcommand args).
Definition pttl_future (key : Str) : nat → client → client := exec_cmd (pttl key).
Definition quit_future : nat → client → client := exec_cmd quit.
Definition randomkey_future : nat → client → client := exec_cmd randomkey.
Definition readonly_future : nat → client → client := exec_cmd readonly.
Definition readwrite_future : nat → client → client := exec_cmd readwrite.
Definition rename_future (key newkey : Str) : nat → client → client := exec_cmd (rename key newkey).
Definition renamenx_future (key newkey : Str) : nat → client → client :=
  exec_cmd (renamenx key newkey).
Definition restore_future_1 (key : Str) (ttl : Z) (serialized_value : Str) : nat → client → client
    :=
  exec_cmd (restore_1 key ttl serialized_value).
Definition restore_future_2 (key : Str) (ttl : Z) (serialized_value replace : Str) : nat → client →
    client :=
  exec_cmd (restore_2 key ttl serialized_value replace).
Definition role_future : nat → client → client := exec_cmd role.
Definition rpop_future (key : Str) : nat → client → client := exec_cmd (rpop key).
Definition rpoplpush_future (src dst : Str) : nat → client → client := exec_cmd (rpoplpush src dst).
Definition rpush_future (key : Str) (values : list Str) : nat → client → client :=
  exec_cmd (rpush key values).
Definition rpushx_future (key value : Str) : nat → client → client := exec_cmd (rpushx key value).
Definition sadd_future (key : Str) (members : list Str) : nat → client → client :=
  exec_cmd (sadd key members).
Definition scan_future_1 (cursor : Z) : nat → client → client := exec_cmd (scan_1 cursor).
Definition scan_future_2 (cursor : Z) (pattern : Str) : nat → client → client :=
  exec_cmd (scan_2 cursor pattern).
Definition scan_future_3 (cursor count : Z) : nat → client → client :=
  exec_cmd (scan_3 cursor count).
Definition scan_future_4 (cursor : Z) (pattern : Str) (count : Z) : nat → client → client :=
  exec_cmd (scan_4 cursor pattern count).
Definition save_future : nat → client → client := exec_cmd save.
Definition scard_future (key : Str) : nat → client → client := exec_cmd (scard key).
Definition script_debug_future (mode : Str) : nat → client → client := exec_cmd (script_debug mode).
Definition script_exists_future (scripts : list Str) : nat → client → client :=
  exec_cmd (script_exists scripts).
Definition script_flush_future : nat → client → client := exec_cmd script_flush.
Definition script_kill_future : nat → client → client := exec_cmd script_kill.
Definition script_load_future (script : Str) : nat → client → client :=
  exec_cmd (script_load script).
Definition sdiff_future (keys : list Str) : nat → client → client := exec_cmd (sdiff keys).
Definition sdiffstore_future (dst : Str) (keys : list Str) : nat → client → client :=
  exec_cmd (sdiffstore dst keys).
Definition select_future (index : Z) : nat → client → client := exec_cmd (select index).
Definition set_future (key value : Str) : nat → client → client := exec_cmd (set_ key value).
Definition set_advanced_future (key value : Str) (ex : bool) (ex_sec : Z) (px : bool) (px_milli :
    Z) (nx xx : bool) : nat → client → client :=
  exec_cmd (set_advanced_2 key value ex ex_sec px px_milli nx xx).
Definition setbit__future (key : Str) (offset : Z) (value : Str) : nat → client → client :=
  exec_cmd (setbit_ key offset value).
Definition setex_future (key : Str) (seconds : Z) (value : Str) : nat → client → client :=
  exec_cmd (setex key seconds value).
Definition setnx_future (key value : Str) : nat → client → client := exec_cmd (setnx key value).
Definition setrange_future (key : Str) (offset : Z) (value : Str) : nat → client → client :=
  exec_cmd (setrange key offset value).
Definition shutdown_future_1 : nat → client → client := exec_cmd shutdown_1.
Definition shutdown_future_2 (save : Str) : nat → client → client := exec_cmd (shutdown_2 save).
Definition sinter_future (keys : list Str) : nat → client → client := exec_cmd (sinter keys).
Definition sinterstore_future (dst : Str) (keys : list Str) : nat → client → client :=
  exec_cmd (sinterstore dst keys).
Definition sismember_future (key member : Str) : nat → client → client :=
  exec_cmd (sismember key member).
Definition slaveof_future (host : Str) (port : Z) : nat → client → client :=
  exec_cmd (slaveof host port).
Definition slowlog_future_1 (subcommand : Str) : nat → client → client :=
  exec_cmd (slowlog_1 subcommand).
Definition slowlog_future_2 (subcommand argument : Str) : nat → client → client :=
  exec_cmd (slowlog_2 subcommand argument).
Definition smembers_future (key : Str) : nat → client → client := exec_cmd (smembers key).
Definition smove_future (src dst member : Str) : nat → client → client :=
  exec_cmd (smove src dst member).
Definition sort_future_1 (key : Str) : nat → client → client := exec_cmd (sort_1 key).
Definition sort_future_2 (key : Str) (get_patterns : list Str) (asc_order alpha : bool) : nat →
    client → client :=
  exec_cmd (sort_2 key get_patterns asc_order alpha).
Definition sort_future_3 (key : Str) (offset count : Z) (get_patterns : list Str) (asc_order alpha
    : bool) : nat → client → client :=
  exec_cmd (sort_3 key offset count get_patterns asc_order alpha).
Definition sort_future_4 (key by_pattern : Str) (get_patterns : list Str) (asc_order alpha : bool)
    : nat → client → client :=
  exec_cmd (sort_4 key by_pattern get_patterns asc_order alpha).
Definition sort_future_5 (key : Str) (get_patterns : list Str) (asc_order alpha : bool) (store_dest
    : Str) : nat → client → client :=
  exec_cmd (sort_5 key get_patterns asc_order alpha store_dest).
Definition sort_future_6 (key : Str) (offset count : Z) (get_patterns : list Str) (asc_order alpha
    : bool) (store_dest : Str) : nat → client → client :=
  exec_cmd (sort_6 key offset count get_patterns asc_order alpha store_dest).
Definition sort_future_7 (key by_pattern : Str) (get_patterns : list Str) (asc_order alpha : bool)
    (store_dest : Str) : nat → client → client :=
  exec_cmd (sort_7 key by_pattern get_patterns asc_order alpha store_dest).
Definition sort_future_8 (key by_pattern : Str) (offset count : Z) (get_patterns : list Str)
    (asc_order alpha : bool) : nat → client → client :=
  exec_cmd (sort_8 key by_pattern offset count get_patterns asc_order alpha).
Definition sort_future_9 (key by_pattern : Str) (offset count : Z) (get_patterns : list Str)
    (asc_order alpha : bool) (store_dest : Str) : nat → client → client :=
  exec_cmd (sort_9 key by_pattern offset count get_patterns asc_order alpha store_dest).
Definition spop_future_1 (key : Str) : nat → client → client := exec_cmd (spop_1 key).
Definition spop_future_2 (key : Str) (count : Z) : nat → client → client :=
  exec_cmd (spop_2 key count).
Definition srandmember_future_1 (key : Str) : nat → client → client := exec_cmd (srandmember_1 key).
Definition srandmember_future_2 (key : Str) (count : Z) : nat → client → client :=
  exec_cmd (srandmember_2 key count).
Definition srem_future (key : Str) (members : list Str) : nat → client → client :=
  exec_cmd (srem key members).
Definition sscan_future_1 (key : Str) (cursor : Z) : nat → client → client :=
  exec_cmd (sscan_1 key cursor).
Definition sscan_future_2 (key : Str) (cursor : Z) (pattern : Str) : nat → client → client :=
  exec_cmd (sscan_2 key cursor pattern).
Definition sscan_future_3 (key : Str) (cursor count : Z) : nat → client → client :=
  exec_cmd (sscan_3 key cursor count).
Definition sscan_future_4 (key : Str) (cursor : Z) (pattern : Str) (count : Z) : nat → client →
    client :=
  exec_cmd (sscan_4 key cursor pattern count).
Definition strlen_future (key : Str) : nat → client → client := exec_cmd (strlen key).
Definition sunion_future (keys : list Str) : nat → client → client := exec_cmd (sunion keys).
Definition sunionstore_future (dst : Str) (keys : list Str) : nat → client → client :=
  exec_cmd (sunionstore dst keys).
Definition sync_future : nat → client → client := exec_cmd sync.
Definition time_future : nat → client → client := exec_cmd time.
Definition ttl_future (key : Str) : nat → client → client := exec_cmd (ttl key).
Definition type_future (key : Str) : nat → client → client := exec_cmd (type_ key).
Definition unwatch_future : nat → client → client := exec_cmd unwatch.
Definition wait_future (numslaves timeout : Z) : nat → client → client :=
  exec_cmd (wait numslaves timeout).
Definition watch_future (keys : list Str) : nat → client → client := exec_cmd (watch keys).
Definition xack_future (key group : Str) (id_members : list Str) : nat → client → client :=
  exec_cmd (xack key group id_members).
Definition xadd_future (key id : Str) (field_members : list (Str * Str)) : nat → client → client :=
  exec_cmd (xadd key id field_members).
Definition xclaim_future (key group consumer : Str) (min_idle_time : Z) (id_members : list Str)
    (options : xclaim_options_t) : nat → client → client :=
  exec_cmd (xclaim key group consumer min_idle_time id_members options).
Definition xdel_future (key : Str) (id_members : list Str) : nat → client → client :=
  exec_cmd (xdel key id_members).
Definition xgroup_create_future (key group_name id : Str) : nat → client → client :=
  exec_cmd (xgroup_create_2 key group_name id).
Definition xgroup_set_id_future (key group_name id : Str) : nat → client → client :=
  exec_cmd (xgroup_set_id_2 key group_name id).
Definition xgroup_destroy_future (key group_name : Str) : nat → client → client :=
  exec_cmd (xgroup_destroy key group_name).
Definition xgroup_del_consumer_future (key group_name consumer_name : Str) : nat → client → client
    :=
  exec_cmd (xgroup_del_consumer key group_name consumer_name).
Definition xinfo_consumers_future (key group_name : Str) : nat → client → client :=
  exec_cmd (xinfo_consumers key group_name).
Definition xinfo_groups_future (stream : Str) : nat → client → client :=
  exec_cmd (xinfo_groups stream).
Definition xinfo_stream_future (stream : Str) : nat → client → client :=
  exec_cmd (xinfo_stream stream).
Definition xlen_future (key : Str) : nat → client → client := exec_cmd (xlen key).
Definition xpending_future (stream group : Str) (options : xpending_options_t) : nat → client →
    client :=
  exec_cmd (xpending stream group options).
Definition xrange_future (stream : Str) (range_args : range_options_t) : nat → client → client :=
  exec_cmd (xrange stream range_args).
Definition xreadgroup_future (a : xreadgroup_options_t) : nat → client → client :=
  exec_cmd (xreadgroup a).
Definition xread_future (a : xread_options_t) : nat → client → client := exec_cmd (xread a).
Definition xrevrange_future (key : Str) (range_args : range_options_t) : nat → client → client :=
  exec_cmd (xrevrange key range_args).
Definition xtrim_future (key : Str) (max_len : Z) : nat → client → client :=
  exec_cmd (xtrim key max_len).
Definition xtrim_approx_future (key : Str) (max_len : Z) : nat → client → client :=
  exec_cmd (xtrim_approx key max_len).
Definition zadd_future (key : Str) (options : list Str) (score_members : list (Str * Str)) : nat →
    client → client :=
  exec_cmd (zadd key options score_members).
Definition zcard_future (key : Str) : nat → client → client := exec_cmd (zcard key).
Definition zcount_future_1 (key : Str) (min max : Z) : nat → client → client :=
  exec_cmd (zcount_1 key min max).
Definition zcount_future_2 (key : Str) (min max : double) : nat → client → client :=
  exec_cmd (zcount_2 key min max).
Definition zcount_future_3 (key min max : Str) : nat → client → client :=
  exec_cmd (zcount_3 key min max).
Definition zincrby_future_1 (key : Str) (incr : Z) (member : Str) : nat → client → client :=
  exec_cmd (zincrby_1 key incr member).
Definition zincrby_future_2 (key : Str) (incr : double) (member : Str) : nat → client → client :=
  exec_cmd (zincrby_2 key incr member).
Definition zincrby_future_3 (key incr member : Str) : nat → client → client :=
  exec_cmd (zincrby_3 key incr member).
Definition zinterstore_future (destination : Str) (numkeys : Z) (keys : list Str) (weights : list
    Z) (method : aggregate_method) : nat → client → client :=
  exec_cmd (zinterstore destination numkeys keys weights method).
Definition zlexcount_future_1 (key : Str) (min max : Z) : nat → client → client :=
  exec_cmd (zlexcount_1 key min max).
Definition zlexcount_future_2 (key : Str) (min max : double) : nat → client → client :=
  exec_cmd (zlexcount_2 key min max).
Definition zlexcount_future_3 (key min max : Str) : nat → client → client :=
  exec_cmd (zlexcount_3 key min max).
Definition zpopmin_future (key : Str) (count : Z) : nat → client → client :=
  exec_cmd (zpopmin key count).
Definition zpopmax_future (key : Str) (count : Z) : nat → client → client :=
  exec_cmd (zpopmax key count).
Definition zrange_future_1 (key : Str) (start stop : Z) (withscores : bool) : nat → client → client
    :=
  exec_cmd (zrange_2 key start stop withscores).
Definition zrange_future_2 (key : Str) (start stop : double) (withscores : bool) : nat → client →
    client :=
  exec_cmd (zrange_4 key start stop withscores).
Definition zrange_future_3 (key start stop : Str) (withscores : bool) : nat → client → client :=
  exec_cmd (zrange_6 key start stop withscores).
Definition zrangebylex_future_1 (key : Str) (min max : Z) (withscores : bool) : nat → client →
    client :=
  exec_cmd (zrangebylex_2 key min max withscores).
Definition zrangebylex_future_2 (key : Str) (min max : double) (withscores : bool) : nat → client →
    client :=
  exec_cmd (zrangebylex_4 key min max withscores).
Definition zrangebylex_future_3 (key min max : Str) (withscores : bool) : nat → client → client :=
  exec_cmd (zrangebylex_6 key min max withscores).
Definition zrangebylex_future_4 (key : Str) (min max offset count : Z) (withscores : bool) : nat →
    client → client :=
  exec_cmd (zrangebylex_8 key min max offset count withscores).
Definition zrangebylex_future_5 (key : Str) (min max : double) (offset count : Z) (withscores :
    bool) : nat → client → client :=
  exec_cmd (zrangebylex_10 key min max offset count withscores).
Definition zrangebylex_future_6 (key min max : Str) (offset count : Z) (withscores : bool) : nat →
    client → client :=
  exec_cmd (zrangebylex_12 key min max offset count withscores).
Definition zrangebyscore_future_1 (key : Str) (min max : Z) (withscores : bool) : nat → client →
    client :=
  exec_cmd (zrangebyscore_2 key min max withscores).
Definition zrangebyscore_future_2 (key : Str) (min max : double) (withscores : bool) : nat → client
    → client :=
  exec_cmd (zrangebyscore_4 key min max withscores).
Definition zrangebyscore_future_3 (key min max : Str) (withscores : bool) : nat → client → client
    :=
  exec_cmd (zrangebyscore_6 key min max withscores).
Definition zrangebyscore_future_4 (key : Str) (min max offset count : Z) (withscores : bool) : nat
    → client → client :=
  exec_cmd (zrangebyscore_8 key min max offset count withscores).
Definition zrangebyscore_future_5 (key : Str) (min max : double) (offset count : Z) (withscores :
    bool) : nat → client → client :=
  exec_cmd (zrangebyscore_10 key min max offset count withscores).
Definition zrangebyscore_future_6 (key min max : Str) (offset count : Z) (withscores : bool) : nat
    → client → client :=
  exec_cmd (zrangebyscore_12 key min max offset count withscores).
Definition zrank_future (key member : Str) : nat → client → client := exec_cmd (zrank key member).
Definition zrem_future (key : Str) (members : list Str) : nat → client → client :=
  exec_cmd (zrem key members).
Definition zremrangebylex_future_1 (key : Str) (min max : Z) : nat → client → client :=
  exec_cmd (zremrangebylex_1 key min max).
Definition zremrangebylex_future_2 (key : Str) (min max : double) : nat → client → client :=
  exec_cmd (zremrangebylex_2 key min max).
Definition zremrangebylex_future_3 (key min max : Str) : nat → client → client :=
  exec_cmd (zremrangebylex_3 key min max).
Definition zremrangebyrank_future_1 (key : Str) (start stop : Z) : nat → client → client :=
  exec_cmd (zremrangebyrank_1 key start stop).
Definition zremrangebyrank_future_2 (key : Str) (start stop : double) : nat → client → client :=
  exec_cmd (zremrangebyrank_2 key start stop).
Definition zremrangebyrank_future_3 (key start stop : Str) : nat → client → client :=
  exec_cmd (zremrangebyrank_3 key start stop).
Definition zremrangebyscore_future_1 (key : Str) (min max : Z) : nat → client → client :=
  exec_cmd (zremrangebyscore_1 key min max).
Definition zremrangebyscore_future_2 (key : Str) (min max : double) : nat → client → client :=
  exec_cmd (zremrangebyscore_2 key min max).
Definition zremrangebyscore_future_3 (key min max : Str) : nat → client → client :=
  exec_cmd (zremrangebyscore_3 key min max).
Definition zrevrange_future_1 (key : Str) (start stop : Z) (withscores : bool) : nat → client →
    client :=
  exec_cmd (zrevrange_2 key start stop withscores).
Definition zrevrange_future_2 (key : Str) (start stop : double) (withscores : bool) : nat → client
    → client :=
  exec_cmd (zrevrange_4 key start stop withscores).
Definition zrevrange_future_3 (key start stop : Str) (withscores : bool) : nat → client → client :=
  exec_cmd (zrevrange_6 key start stop withscores).
Definition zrevrangebylex_future_1 (key : Str) (max min : Z) (withscores : bool) : nat → client →
    client :=
  exec_cmd (zrevrangebylex_2 key max min withscores).
Definition zrevrangebylex_future_2 (key : Str) (max min : double) (withscores : bool) : nat →
    client → client :=
  exec_cmd (zrevrangebylex_4 key max min withscores).
Definition zrevrangebylex_future_3 (key max min : Str) (withscores : bool) : nat → client → client
    :=
  exec_cmd (zrevrangebylex_6 key max min withscores).
Definition zrevrangebylex_future_4 (key : Str) (max min offset count : Z) (withscores : bool) : nat
    → client → client :=
  exec_cmd (zrevrangebylex_8 key max min offset count withscores).
Definition zrevrangebylex_future_5 (key : Str) (max min : double) (offset count : Z) (withscores :
    bool) : nat → client → client :=
  exec_cmd (zrevrangebylex_10 key max min offset count withscores).
Definition zrevrangebylex_future_6 (key max min : Str) (offset count : Z) (withscores : bool) : nat
    → client → client :=
  exec_cmd (zrevrangebylex_12 key max min offset count withscores).
Definition zrevrangebyscore_future_1 (key : Str) (max min : Z) (withscores : bool) : nat → client →
    client :=
  exec_cmd (zrevrangebyscore_2 key max min withscores).
Definition zrevrangebyscore_future_2 (key : Str) (max min : double) (withscores : bool) : nat →
    client → client :=
  exec_cmd (zrevrangebyscore_4 key max min withscores).
Definition zrevrangebyscore_future_3 (key max min : Str) (withscores : bool) : nat → client →
    client :=
  exec_cmd (zrevrangebyscore_6 key max min withscores).
Definition zrevrangebyscore_future_4 (key : Str) (max min offset count : Z) (withscores : bool) :
    nat → client → client :=
  exec_cmd (zrevrangebyscore_8 key max min offset count withscores).
Definition zrevrangebyscore_future_5 (key : Str) (max min : double) (offset count : Z) (withscores
    : bool) : nat → client → client :=
  exec_cmd (zrevrangebyscore_10 key max min offset count withscores).
Definition zrevrangebyscore_future_6 (key max min : Str) (offset count : Z) (withscores : bool) :
    nat → client → client :=
  exec_cmd (zrevrangebyscore_12 key max min offset count withscores).
Definition zrevrank_future (key member : Str) : nat → client → client :=
  exec_cmd (zrevrank key member).
Definition zscan_future_1 (key : Str) (cursor : Z) : nat → client → client :=
  exec_cmd (zscan_1 key cursor).
Definition zscan_future_2 (key : Str) (cursor : Z) (pattern : Str) : nat → client → client :=
  exec_cmd (zscan_2 key cursor pattern).
Definition zscan_future_3 (key : Str) (cursor count : Z) : nat → client → client :=
  exec_cmd (zscan_3 key cursor count).
Definition zscan_future_4 (key : Str) (cursor : Z) (pattern : Str) (count : Z) : nat → client →
    client :=
  exec_cmd (zscan_4 key cursor pattern count).
Definition zscore_future (key member : Str) : nat → client → client := exec_cmd (zscore key member).
Definition zunionstore_future (destination : Str) (numkeys : Z) (keys : list Str) (weights : list
    Z) (method : aggregate_method) : nat → client → client :=
  exec_cmd (zunionstore destination numkeys keys weights method).
