(* ===== verification/RedisCmdClaims.v ===== *)
(** * What a server reads in the commands of the client

    Reference readers for the argument vectors of the commands with a grammar
    (SORT, SCAN and its kin, XREAD, EVAL, ZUNIONSTORE, BITFIELD), written as a
    server reads them: from left to right, each option taking the words that
    belong to it.  The theorems say that what is read is what was asked for,
    or what is read instead. *)

From S2P Require Import Prelude CppBase.
From S2P Require Import RedisReply RedisResp RedisConn RedisSentinel RedisClient RedisCmdTypes.
From S2P Require Import RedisKeyCmds RedisSetCmds RedisStreamCmds RedisFutures.

(** The member function sends this one command, whatever its callback and the
    client's state. *)
Definition sends (f : client_op) (v : list Str) : Prop := ∀ k c, f k c = send v k c.
Lemma sends_refl v : sends (send v) v.
Proof. done. Qed.
#[local] Hint Resolve sends_refl : core.

(** ** Words *)
Definition is_word (w : Str) (s : string) : bool := bool_decide (w = chars s).
#[local] Arguments is_word : simpl never.
#[local] Arguments chars : simpl never.
#[local] Arguments std_to_string : simpl never.
#[local] Arguments signed_dec : simpl never.
Ltac words :=
  cbn; repeat match goal with
  | |- context [is_word (chars ?a) ?b] =>
      let r := eval vm_compute in (is_word (chars a) b) in
      change (is_word (chars a) b) with r; cbn
  end.

(** A number without sign, in decimals *)
Definition number (w : Str) : option Z := leading_digits None w.
Definition number_or (w : Str) : Z := default 0 (number w).
#[local] Arguments number : simpl never.

Lemma number_dec n : 0 <= n < 2 ^ 64 → number (std_to_string n) = Some n.
Proof.
  intros Hn. apply leading_digits_dec; [|lia].
  change (10 ^ Z.of_nat 20) with 100000000000000000000. change (2 ^ 64) with 18446744073709551616 in Hn. lia.
Qed.
Lemma number_signed n : 0 <= n < 2 ^ 64 → number (signed_dec n) = Some n.
Proof. intros Hn. unfold signed_dec. rewrite (proj2 (Z.ltb_ge n 0)) by lia. by apply number_dec. Qed.
Lemma is_nil_spec {A} (l : list A) : is_nil l = bool_decide (l = []).
Proof. by destruct l. Qed.

(** The text of an option that is the empty string when left out *)
Definition given_text (s : Str) : option Str := if is_nil s then None else Some s.

(** ** SORT key [BY p] [LIMIT o n] [GET p ...] [ASC|DESC] [ALPHA] [STORE d] *)
Record sort_request := mkSort {
  so_by : option Str; so_limit : option (Z * Z); so_get : list Str; so_desc : bool;
  so_alpha : bool; so_store : option Str
}.
Definition plain_sort : sort_request := mkSort None None [] false false None.
Fixpoint read_sort (ws : list Str) (r : sort_request) : option sort_request :=
  match ws with
  | [] => Some r
  | w :: ws =>
      let '(mkSort b l g d a s) := r in
      if is_word w "ASC" then read_sort ws (mkSort b l g false a s) else
      if is_word w "DESC" then read_sort ws (mkSort b l g true a s) else
      if is_word w "ALPHA" then read_sort ws (mkSort b l g d true s) else
      match ws with
      | [] => None
      | x :: ws =>
          if is_word w "BY" then read_sort ws (mkSort (Some x) l g d a s) else
          if is_word w "GET" then read_sort ws (mkSort b l (g ++ [x]) d a s) else
          if is_word w "STORE" then read_sort ws (mkSort b l g d a (Some x)) else
          match ws with
          | [] => None
          | y :: ws =>
              if is_word w "LIMIT" then
                match number x, number y with
                | Some o, Some n => read_sort ws (mkSort b (Some (o, n)) g d a s)
                | _, _ => None
                end
              else None
          end
      end
  end.
Definition read_sort_command (ws : list Str) : option (Str * sort_request) :=
  match ws with
  | w :: key :: ws => if is_word w "SORT" then pair key <$> read_sort ws plain_sort else None
  | _ => None
  end.

Lemma read_sort_gets ps ws b l g d a s :
  read_sort ((ps ≫= λ p, if is_nil p then [] else [chars "GET"; p]) ++ ws) (mkSort b l g d a s) =
  read_sort ws (mkSort b l (g ++ filter (λ p, p ≠ []) ps) d a s).
Proof.
  revert g. induction ps as [|p ps IH]; intros g; [by rewrite app_nil_r|].
  rewrite bind_cons. destruct p as [|c p].
  - cbn [is_nil app]. by rewrite IH.
  - cbn [is_nil app]. words. rewrite IH. by rewrite <-app_assoc.
Qed.

(** SORT is read as it was asked for: the pattern, the limit, every non-empty
    GET pattern in its order, the direction, ALPHA and the destination; empty
    texts are options left out. *)
Theorem sort_roundtrip key by_pattern limit offset count get_patterns asc_order alpha store_dest :
  0 <= offset < 2 ^ 64 → 0 <= count < 2 ^ 64 →
  ∃ v, sends (sort_10 key by_pattern limit offset count get_patterns asc_order alpha store_dest) v ∧
    read_sort_command v = Some (key, mkSort (given_text by_pattern)
      (if limit then Some (offset, count) else None) (filter (λ p, p ≠ []) get_patterns)
      (negb asc_order) alpha (given_text store_dest)).
Proof.
  intros Ho Hn. eexists. split; [unfold sort_10; auto|]. cbn [app]. unfold read_sort_command.
  change (is_word (chars "SORT") "SORT") with true. cbn iota beta.
  assert (∀ ws b l g, read_sort (([chars (if asc_order then "ASC" else "DESC")] ++
      (if alpha then [chars "ALPHA"] else []) ++
      (if negb (is_nil store_dest) then [chars "STORE"; store_dest] else [])) ++ ws)
      (mkSort b l g false false None) =
    read_sort ws (mkSort b l g (negb asc_order) alpha (given_text store_dest))) as Htail.
  { intros. destruct asc_order, alpha, store_dest; words; reflexivity. }
  specialize (Htail []). rewrite !app_nil_r in Htail. unfold plain_sort.
  destruct by_pattern as [|b bs], limit; words; rewrite ?number_dec by assumption;
    rewrite read_sort_gets, Htail. all: reflexivity.
Qed.
Lemma sort_roundtrip_witness :
  (0 <= 5 < 2 ^ 64 ∧ 0 <= 10 < 2 ^ 64) ∧
  ∃ v, sends (sort_10 (chars "list") [] true 5 10 [chars "obj_*"; []; chars "#"] false true (chars "out")) v ∧
    read_sort_command v =
      Some (chars "list", mkSort None (Some (5, 10)) [chars "obj_*"; chars "#"] true true (Some (chars "out"))).
Proof.
  split; [lia|].
  apply (sort_roundtrip (chars "list") [] true 5 10 [chars "obj_*"; []; chars "#"] false true (chars "out")); lia.
Defined.

(** ** SCAN cursor [MATCH p] [COUNT n]; HSCAN, SSCAN and ZSCAN have a key first *)
Record scan_request := mkScan { sc_cursor : Z; sc_match : option Str; sc_count : option Z }.
Fixpoint read_scan (ws : list Str) (r : scan_request) : option scan_request :=
  match ws with
  | [] => Some r
  | w :: x :: ws =>
      if is_word w "MATCH" then read_scan ws (mkScan (sc_cursor r) (Some x) (sc_count r)) else
      if is_word w "COUNT" then
        match number x with
        | Some n => if n <? 1 then None else read_scan ws (mkScan (sc_cursor r) (sc_match r) (Some n))
        | None => None
        end
      else None
  | _ => None
  end.
Definition read_scan_from (ws : list Str) : option scan_request :=
  match ws with
  | w :: ws => match number w with Some n => read_scan ws (mkScan n None None) | None => None end
  | [] => None
  end.
Definition read_scan_command (ws : list Str) : option (string * option Str * scan_request) :=
  match ws with
  | w :: ws =>
      if is_word w "SCAN" then pair ("SCAN", None) <$> read_scan_from ws else
      match ws with
      | [] => None
      | key :: ws =>
          if is_word w "HSCAN" then pair ("HSCAN", Some key) <$> read_scan_from ws else
          if is_word w "SSCAN" then pair ("SSCAN", Some key) <$> read_scan_from ws else
          if is_word w "ZSCAN" then pair ("ZSCAN", Some key) <$> read_scan_from ws else None
      end
  | [] => None
  end.
Definition asked_scan (cursor : Z) (pattern : Str) (count : Z) : scan_request :=
  mkScan cursor (given_text pattern) (if 0 <? count then Some count else None).

Lemma read_scan_given cursor pattern count :
  0 <= cursor < 2 ^ 64 → 0 <= count < 2 ^ 64 →
  read_scan_from (std_to_string cursor ::
    (if negb (is_nil pattern) then [chars "MATCH"; pattern] else []) ++
    (if 0 <? count then [chars "COUNT"; std_to_string count] else [])) =
  Some (asked_scan cursor pattern count).
Proof.
  intros Hc Hn. unfold read_scan_from, asked_scan. rewrite (number_dec cursor) by assumption.
  destruct pattern, (Z.ltb_spec 0 count); words; rewrite ?number_dec by assumption;
    rewrite ?(proj2 (Z.ltb_ge count 1)) by lia; reflexivity.
Qed.

(** The four cursor commands are read as asked: the cursor over its whole
    unsigned 64-bit range, the pattern unless it is empty, and a count when it
    is positive (the server refuses a count of 0, which is never sent). *)
Theorem scan_roundtrip key cursor pattern count :
  0 <= cursor < 2 ^ 64 → 0 <= count < 2 ^ 64 →
  ∃ v vh vs vz,
    sends (scan_4 cursor pattern count) v ∧ sends (hscan_4 key cursor pattern count) vh ∧
    sends (sscan_4 key cursor pattern count) vs ∧ sends (zscan_4 key cursor pattern count) vz ∧
    read_scan_command v = Some ("SCAN", None, asked_scan cursor pattern count) ∧
    read_scan_command vh = Some ("HSCAN", Some key, asked_scan cursor pattern count) ∧
    read_scan_command vs = Some ("SSCAN", Some key, asked_scan cursor pattern count) ∧
    read_scan_command vz = Some ("ZSCAN", Some key, asked_scan cursor pattern count).
Proof.
  intros Hc Hn. pose proof (read_scan_given cursor pattern count Hc Hn) as H.
  eexists _, _, _, _. split_and!; [apply sends_refl..| | | |];
    unfold read_scan_command; cbn [app]; rewrite H; reflexivity.
Qed.
Lemma scan_roundtrip_witness :
  (0 <= 2 ^ 64 - 1 < 2 ^ 64 ∧ 0 <= 100 < 2 ^ 64) ∧
  ∃ v vh vs vz,
    sends (scan_4 (2 ^ 64 - 1) (chars "a*") 100) v ∧ sends (hscan_4 (chars "h") (2 ^ 64 - 1) (chars "a*") 100) vh ∧
    sends (sscan_4 (chars "h") (2 ^ 64 - 1) (chars "a*") 100) vs ∧
    sends (zscan_4 (chars "h") (2 ^ 64 - 1) (chars "a*") 100) vz ∧
    read_scan_command v = Some ("SCAN", None, asked_scan (2 ^ 64 - 1) (chars "a*") 100) ∧
    read_scan_command vh = Some ("HSCAN", Some (chars "h"), asked_scan (2 ^ 64 - 1) (chars "a*") 100) ∧
    read_scan_command vs = Some ("SSCAN", Some (chars "h"), asked_scan (2 ^ 64 - 1) (chars "a*") 100) ∧
    read_scan_command vz = Some ("ZSCAN", Some (chars "h"), asked_scan (2 ^ 64 - 1) (chars "a*") 100).
Proof.
  split; [lia|]. apply (scan_roundtrip (chars "h") (2 ^ 64 - 1) (chars "a*") 100); lia.
Defined.

(** ** XREAD and XREADGROUP: options, then STREAMS and as many ids as keys *)
Record stream_request := mkStreams {
  st_group : option (Str * Str); st_count : option Z; st_block : option Z; st_noack : bool;
  st_from : list (Str * Str)
}.
Definition set_streams (r : stream_request) (ws : list Str) : option stream_request :=
  if Nat.even (length ws) then
    let n := (length ws / 2)%nat in
    Some (mkStreams (st_group r) (st_count r) (st_block r) (st_noack r) (zip (take n ws) (drop n ws)))
  else None.
Fixpoint read_streams (ws : list Str) (r : stream_request) : option stream_request :=
  match ws with
  | [] => None
  | w :: ws =>
      if is_word w "STREAMS" then set_streams r ws else
      if is_word w "NOACK" then
        read_streams ws (mkStreams (st_group r) (st_count r) (st_block r) true (st_from r)) else
      match ws with
      | [] => None
      | x :: ws =>
          if is_word w "COUNT" then
            match number x with
            | Some n => read_streams ws (mkStreams (st_group r) (Some n) (st_block r) (st_noack r) (st_from r))
            | None => None
            end else
          if is_word w "BLOCK" then
            match number x with
            | Some n => read_streams ws (mkStreams (st_group r) (st_count r) (Some n) (st_noack r) (st_from r))
            | None => None
            end else
          match ws with
          | [] => None
          | y :: ws =>
              if is_word w "GROUP" then
                read_streams ws (mkStreams (Some (x, y)) (st_count r) (st_block r) (st_noack r) (st_from r))
              else None
          end
      end
  end.
Definition read_streams_command (ws : list Str) : option stream_request :=
  match ws with
  | w :: ws => if is_word w "XREAD" || is_word w "XREADGROUP"
               then read_streams ws (mkStreams None None None false []) else None
  | [] => None
  end.
(** What is asked for: no count unless positive, no blocking when negative. *)
Definition asked_streams (group : option (Str * Str)) (count block : Z) (noack : bool)
    (from : list (Str * Str)) : stream_request :=
  mkStreams group (if 0 <? count then Some count else None) (if 0 <=? block then Some block else None) noack from.

Lemma set_streams_zip r ks ids : length ks = length ids →
  set_streams r (ks ++ ids) =
  Some (mkStreams (st_group r) (st_count r) (st_block r) (st_noack r) (zip ks ids)).
Proof.
  intros H. unfold set_streams. rewrite length_app, H.
  replace (length ids + length ids)%nat with (2 * length ids)%nat by lia.
  rewrite Nat.even_mul. cbn [Nat.even orb]. rewrite Nat.mul_comm, Nat.div_mul by lia.
  by rewrite take_app_length', drop_app_length' by done.
Qed.
Lemma set_streams_odd r ks ids : Nat.odd (length ks + length ids) = true →
  set_streams r (ks ++ ids) = None.
Proof. intros H. unfold set_streams. rewrite length_app, <-Nat.negb_odd, H. done. Qed.

Lemma read_streams_options count block ws r :
  -2 ^ 63 <= count < 2 ^ 63 → -2 ^ 63 <= block < 2 ^ 63 → st_count r = None → st_block r = None →
  read_streams ((if 0 <? count then [chars "COUNT"; signed_dec count] else []) ++
    (if 0 <=? block then [chars "BLOCK"; signed_dec block] else []) ++ ws) r =
  read_streams ws (asked_streams (st_group r) count block (st_noack r) (st_from r)).
Proof.
  intros Hc Hb H1 H2. destruct r as [g c b n f]. cbn in H1, H2. subst. unfold asked_streams.
  destruct (Z.ltb_spec 0 count), (Z.leb_spec 0 block); words; rewrite ?number_signed by lia;
    words; rewrite ?number_signed by lia; reflexivity.
Qed.

(** Reading streams: with an id for every key, XREAD and XREADGROUP are
    read as asked: each key with its own id, in order, the count, the blocking
    time, the group and its consumer, and NOACK.  With an odd number of keys
    and ids, both are refused. *)
Theorem read_streams_roundtrip a g :
  -2 ^ 63 <= xr_Count a < 2 ^ 63 → -2 ^ 63 <= xr_Block a < 2 ^ 63 →
  -2 ^ 63 <= xg_Count g < 2 ^ 63 → -2 ^ 63 <= xg_Block g < 2 ^ 63 →
  ∃ v vg, sends (xread a) v ∧ sends (xreadgroup g) vg ∧
    (length (xr_keys a) = length (xr_ids a) → read_streams_command v =
       Some (asked_streams None (xr_Count a) (xr_Block a) false (zip (xr_keys a) (xr_ids a)))) ∧
    (length (xg_keys g) = length (xg_ids g) → read_streams_command vg =
       Some (asked_streams (Some (xg_Group g, xg_Consumer g)) (xg_Count g) (xg_Block g) (xg_NoAck g)
         (zip (xg_keys g) (xg_ids g)))) ∧
    (Nat.odd (length (xr_keys a) + length (xr_ids a)) = true → read_streams_command v = None) ∧
    (Nat.odd (length (xg_keys g) + length (xg_ids g)) = true → read_streams_command vg = None).
Proof.
  intros H1 H2 H3 H4. eexists _, _. split; [apply sends_refl|]. split; [apply sends_refl|].
  unfold read_streams_command. cbn [app].
  change (is_word (chars "XREAD") "XREAD") with true.
  change (is_word (chars "XREADGROUP") "XREAD") with false.
  change (is_word (chars "XREADGROUP") "XREADGROUP") with true. cbn iota beta delta [orb].
  assert (∀ ws r, read_streams (chars "GROUP" :: xg_Group g :: xg_Consumer g :: ws) r =
    read_streams ws (mkStreams (Some (xg_Group g, xg_Consumer g)) (st_count r) (st_block r) (st_noack r) (st_from r)))
    as -> by (intros; words; reflexivity).
  rewrite !read_streams_options by done.
  assert (∀ ws r, read_streams (chars "STREAMS" :: ws) r = set_streams r ws) as Hs
    by (intros; words; reflexivity).
  split_and!; intros H; rewrite ?Hs.
  - by rewrite set_streams_zip.
  - destruct (xg_NoAck g); words; rewrite set_streams_zip by done; reflexivity.
  - by rewrite set_streams_odd.
  - destruct (xg_NoAck g); words; rewrite set_streams_odd by done; reflexivity.
Qed.

Definition two_streams : xread_options_t :=
  mkXread [chars "s"; chars "t"] [chars "0"; chars "5-1"] 2 (-1).
Definition uneven_group : xreadgroup_options_t :=
  mkXreadgroup (chars "g") (chars "c") [chars "s"] [chars ">"; chars "0"] 0 500 true.
Lemma read_streams_roundtrip_witness :
  ∃ v vg, sends (xread two_streams) v ∧ sends (xreadgroup uneven_group) vg ∧
    read_streams_command v = Some (mkStreams None (Some 2) None false
      [(chars "s", chars "0"); (chars "t", chars "5-1")]) ∧
    read_streams_command vg = None.
Proof.
  destruct (read_streams_roundtrip two_streams uneven_group ltac:(cbn; lia) ltac:(cbn; lia)
    ltac:(cbn; lia) ltac:(cbn; lia)) as (v & vg & H1 & H2 & H3 & _ & _ & H6).
  exists v, vg. split; [exact H1|]. split; [exact H2|].
  split; [exact (H3 eq_refl)|exact (H6 eq_refl)].
Defined.

(** ** EVAL script numkeys key ... arg ... *)
Definition read_eval (name : string) (ws : list Str) : option (Str * list Str * list Str) :=
  match ws with
  | w :: script :: n :: ws =>
      if is_word w name then
        match number n with
        | Some n => if n <=? Z.of_nat (length ws)
                    then Some (script, take (Z.to_nat n) ws, drop (Z.to_nat n) ws) else None
        | None => None
        end
      else None
  | _ => None
  end.
Lemma read_eval_counted name script n ks args :
  0 <= n < 2 ^ 64 → read_eval name (chars name :: script :: signed_dec n :: ks ++ args) =
  if n <=? Z.of_nat (length ks + length args)
  then Some (script, take (Z.to_nat n) (ks ++ args), drop (Z.to_nat n) (ks ++ args)) else None.
Proof.
  intros Hn. unfold read_eval. rewrite number_signed by done. unfold is_word.
  rewrite bool_decide_true by done. by rewrite length_app.
Qed.
Lemma split_at_app {A} n (l1 l2 : list A) : (n <= length (l1 ++ l2))%nat →
  take n (l1 ++ l2) = l1 ∧ drop n (l1 ++ l2) = l2 ↔ n = length l1.
Proof.
  intros Hn. split.
  - intros [H _]. apply (f_equal length) in H. rewrite length_take in H. lia.
  - intros ->. by rewrite take_app_length, drop_app_length.
Qed.

(** Scripts: EVAL and EVALSHA split the words into the keys and the
    arguments that were given, exactly when the number sent is the number of
    keys; it always is where it is computed from the keys, and in the
    functions that return futures, which ignore the number they are given. *)
Theorem eval_splits script keys args n p :
  Z.of_nat (length keys) < 2 ^ 31 → 0 <= n < 2 ^ 31 →
  ∃ v1 v2 h1 h2,
    sends (eval_1 script n keys args) v1 ∧ sends (eval_2 script keys args) v2 ∧
    sends (evalsha_1 script n keys args) h1 ∧ sends (evalsha_2 script keys args) h2 ∧
    (read_eval "EVAL" v1 = Some (script, keys, args) ↔ n = Z.of_nat (length keys)) ∧
    (read_eval "EVALSHA" h1 = Some (script, keys, args) ↔ n = Z.of_nat (length keys)) ∧
    read_eval "EVAL" v2 = Some (script, keys, args) ∧
    read_eval "EVALSHA" h2 = Some (script, keys, args) ∧
    (∀ c, eval_future_1 script n keys args p c = send v2 (Some (User p)) c) ∧
    (∀ c, evalsha_future_2 script n keys args p c = send h2 (Some (User p)) c).
Proof.
  intros Hk Hn.
  assert (∀ name, read_eval name (chars name :: script :: signed_dec n :: keys ++ args) =
    Some (script, keys, args) ↔ n = Z.of_nat (length keys)) as H1.
  { intros name. rewrite read_eval_counted by lia.
    destruct (Z.leb_spec n (Z.of_nat (length keys + length args))) as [Hle|Hgt];
      [|split; [done|lia]].
    rewrite <-(length_app keys) in Hle.
    pose proof (split_at_app (Z.to_nat n) keys args ltac:(lia)) as Hs.
    split; [intros [= E1 E2]; enough (Z.to_nat n = length keys) by lia; by apply Hs|].
    intros E. destruct (proj2 Hs ltac:(lia)) as [-> ->]. done. }
  assert (∀ name, read_eval name (chars name :: script :: std_to_string (Z.of_nat (length keys)) :: keys ++ args) =
    Some (script, keys, args)) as H2.
  { intros name. pose proof (read_eval_counted name script (Z.of_nat (length keys)) keys args ltac:(lia)) as Hr.
    unfold signed_dec in Hr. rewrite (proj2 (Z.ltb_ge _ 0)) in Hr by lia. rewrite Hr.
    rewrite (proj2 (Z.leb_le _ _)) by lia. by rewrite Nat2Z.id, take_app_length, drop_app_length. }
  eexists _, _, _, _. split; [apply sends_refl|]. split; [apply sends_refl|].
  split; [apply sends_refl|]. split; [apply sends_refl|].
  split_and!; [apply H1..|apply H2|apply H2|done|done].
Qed.
Lemma eval_splits_witness :
  (Z.of_nat (length [chars "k"]) < 2 ^ 31 ∧ 0 <= 2 < 2 ^ 31) ∧
  ∃ v1, sends (eval_1 (chars "return 1") 2 [chars "k"] [chars "a"]) v1 ∧
    (read_eval "EVAL" v1 = Some (chars "return 1", [chars "k"], [chars "a"]) ↔ 2 = 1).
Proof.
  split; [cbn; lia|].
  destruct (eval_splits (chars "return 1") [chars "k"] [chars "a"] 2 0 ltac:(cbn; lia) ltac:(lia))
    as (v1 & _ & _ & _ & H1 & _ & _ & _ & H & _).
  exists v1. split; [exact H1|exact H].
Defined.

(** ** BITFIELD key [GET t o | SET t o v | INCRBY t o v | OVERFLOW mode] ...
    The words of an operation, and the mode it runs in: OVERFLOW changes the
    mode of the operations after it; at first it is WRAP. *)
Fixpoint read_bitfield (mode : overflow_type) (ws : list Str) : option (list (list Str * overflow_type)) :=
  match ws with
  | [] => Some []
  | w :: x :: ws =>
      if is_word w "OVERFLOW" then
        if is_word x "WRAP" then read_bitfield ov_wrap ws else
        if is_word x "SAT" then read_bitfield ov_sat ws else
        if is_word x "FAIL" then read_bitfield ov_fail ws else None
      else
      match ws with
      | [] => None
      | y :: ws =>
          if is_word w "GET" then cons ([w; x; y], mode) <$> read_bitfield mode ws else
          match ws with
          | [] => None
          | z :: ws => if is_word w "SET" || is_word w "INCRBY"
                       then cons ([w; x; y; z], mode) <$> read_bitfield mode ws else None
          end
      end
  | _ => None
  end.
Definition read_bitfield_command (ws : list Str) : option (Str * list (list Str * overflow_type)) :=
  match ws with
  | w :: key :: ws => if is_word w "BITFIELD" then pair key <$> read_bitfield ov_wrap ws else None
  | _ => None
  end.

(** The words of an operation without its overflow mode *)
Definition operation_words (o : bitfield_operation) : list Str :=
  [bitfield_operation_type_to_string (operation_type o); op_type o; signed_dec (op_offset o)] ++
  (if bool_decide (operation_type o = bf_get) then [] else [signed_dec (op_value o)]).
(** The mode left by the last of these operations that asked for one *)
Definition next_mode (m : overflow_type) (o : bitfield_operation) : overflow_type :=
  if bool_decide (op_overflow o = ov_default) then m else op_overflow o.
Definition mode_after (os : list bitfield_operation) : overflow_type := foldl next_mode ov_wrap os.

Lemma read_bitfield_app mode o ws :
  read_bitfield mode (bitfield_args o ++ ws) =
  cons (operation_words o, mode) <$> read_bitfield (next_mode mode o) ws.
Proof.
  destruct o as [t ty off v ov]. unfold bitfield_args, operation_words.
  destruct t, ov; words; reflexivity.
Qed.

(** BITFIELD: every operation reaches the server with its words, in order,
    but a mode is sent after the operation it was given for: the i-th
    operation runs in the mode of the operations before it, WRAP at first. *)
Theorem bitfield_modes_late key operations :
  ∃ v l, sends (bitfield key operations) v ∧ read_bitfield_command v = Some (key, l) ∧
    l.*1 = operation_words <$> operations ∧
    l.*2 = (λ i, mode_after (take i operations)) <$> seq 0 (length operations).
Proof.
  eexists. unfold bitfield. cbn [app].
  assert (∀ mode, ∃ l, read_bitfield mode (operations ≫= bitfield_args) = Some l ∧
    l.*1 = operation_words <$> operations ∧
    l.*2 = (λ i, foldl next_mode mode (take i operations)) <$> seq 0 (length operations))
    as H.
  { induction operations as [|o os IH]; intros mode.
    - by exists [].
    - rewrite bind_cons, read_bitfield_app.
      destruct (IH (next_mode mode o)) as (l & -> & H1 & H2).
      eexists. split; [done|]. split; [by cbn; rewrite H1|].
      cbn. rewrite H2. f_equal. rewrite <-(fmap_S_seq 0), <-list_fmap_compose. by apply list_fmap_ext. }
  destruct (H ov_wrap) as (l & H0 & H1 & H2). exists l.
  split; [apply sends_refl|]. unfold read_bitfield_command.
  change (is_word (chars "BITFIELD") "BITFIELD") with true. cbn iota beta. by rewrite H0.
Qed.

(** The saturation asked for an increment does not reach it. *)
Example saturation_comes_late :
  ∃ v, sends (bitfield (chars "k") [bitfield_incrby (chars "u8") 0 300 ov_sat]) v ∧
    read_bitfield_command v =
      Some (chars "k", [([chars "INCRBY"; chars "u8"; chars "0"; chars "300"], ov_wrap)]).
Proof. eexists. split; [apply sends_refl|]. vm_compute. reflexivity. Qed.

(** ** Commands that are not what they are named *)

(** GEORADIUS never stores the elements: with a [store_key] the distances are
    to be stored, under [storedist_key], whatever the two are. *)
Example georadius_store_key :
  sends (georadius_6 (chars "g") (d_of_Z 1) (d_of_Z 2) (d_of_Z 3) geo_km false false false true 0
      (chars "out") [])
    [chars "GEORADIUS"; chars "g"; chars "1.000000"; chars "2.000000"; chars "3.000000"; chars "km";
     chars "ASC"; chars "STOREDIST"; []].
Proof. intros k c. reflexivity. Qed.
Example command_info_counts : sends (command_info [chars "GET"]) [chars "COMMAND"; chars "COUNT"; chars "GET"].
Proof. done. Qed.
Example xrevrange_count :
  sends (xrevrange (chars "s") (mkRange (chars "+") (chars "-") 2))
    [chars "XREVRANGE"; chars "s"; chars "+"; chars "-"; chars "2"].
Proof. done. Qed.
