(* ===== verification/RedisStreamReply.v ===== *)
(** * [cpp_redis]: replies of the stream commands

    [impl/types.hpp] and [core/types.cpp]: a message is an id and a multimap of
    values; [xmessage], [xstream], [xstream_reply] and [xinfo_reply] take a reply
    apart.  [Undef] is [front] or [back] of an empty array and an index past its
    end.  What [operator<<] prints of them is left out. *)

From S2P Require Import Prelude CppBase.
From S2P Require Import RedisReply.
#[local] Open Scope res_scope.

(** ** [std::multimap] with [std::string] keys: in the order of the keys, equal
    keys in the order of insertion *)
Fixpoint str_ltb (a b : Str) : bool :=
  match a, b with
  | _, [] => false
  | [], _ :: _ => true
  | x :: a, y :: b =>
      (nat_of_ascii x <? nat_of_ascii y)%nat || ((nat_of_ascii x =? nat_of_ascii y)%nat && str_ltb a b)
  end.
Fixpoint mm_insert {A} (k : Str) (v : A) (m : list (Str * A)) : list (Str * A) :=
  match m with
  | [] => [(k, v)]
  | e :: m => if str_ltb k e.1 then (k, v) :: e :: m else e :: mm_insert k v m
  end.

(** ** [class message_type] *)
Record message_type := mkMessage { m_id : Str; m_values : list (Str * reply) }.
Definition new_message : message_type := mkMessage [] [].
Definition set_id (id : Str) (m : message_type) : message_type := mkMessage id (m_values m).
(** [find] of several equal keys gives the first. *)
Definition find (key : Str) (m : message_type) : res reply :=
  match list_find (λ e, e.1 = key) (m_values m) with
  | Some (_, e) => Ret e.2
  | None => Throw "value not found"
  end.
Definition push (key : Str) (value : reply) (m : message_type) : message_type :=
  mkMessage (m_id m) (mm_insert key value (m_values m)).
Definition push_values (values : list (Str * reply)) (m : message_type) : message_type :=
  foldl (λ m v, push v.1 v.2 m) m values.
(** The counter of the loop is tested and never incremented: it stays at 2. *)
Fixpoint push_range_loop (i : nat) (key : Str) (range : list reply) (m : message_type) : res message_type :=
  match range with
  | [] => Ret m
  | pb :: range =>
      if Nat.even i
      then key <- as_string pb; push_range_loop i key range m
      else push_range_loop i key range (push key pb m)
  end.
Definition push_range (range : list reply) (m : message_type) : res message_type :=
  push_range_loop 2 [] range m.

(** ** [xmessage] *)

(** The loop over the fields: a key, then its value. *)
Fixpoint push_fields (i : Z) (key : Str) (vals : list reply) (m : message_type) : res message_type :=
  match vals with
  | [] => Ret m
  | val :: vals =>
      if Z.odd i
      then key <- as_string val; push_fields (i + 1) key vals m
      else push_fields (i + 1) key vals (push key val m)
  end.
(** [front] and [back] *)
Definition ends (rows : list reply) : res (reply * reply) :=
  match rows with
  | [] => Undef
  | front :: _ => Ret (front, List.last rows front)
  end.
Definition xmessage (data : reply) : res message_type :=
  if is_array data then
    rows <- as_array data;
    ' (k, v) <- ends rows;
    m <- (if is_string k then id <- as_string k; Ret (set_id id new_message) else Ret new_message);
    if is_array v then val_array <- as_array v; push_fields 1 [] val_array m else Ret m
  else Ret new_message.

(** ** [xstream], [xstream_reply] *)
Fixpoint each {A B} (f : A → res B) (l : list A) : res (list B) :=
  match l with
  | [] => Ret []
  | a :: l => b <- f a; bs <- each f l; Ret (b :: bs)
  end.
Record xstream_t := mkStream { Stream : Str; Messages : list message_type }.
Definition xstream (data : reply) : res xstream_t :=
  if is_array data then
    rows <- as_array data;
    ' (s, m) <- ends rows;
    name <- (if is_string s then as_string s else Ret []);
    ms <- (if is_array m then l <- as_array m; each xmessage l else Ret []);
    Ret (mkStream name ms)
  else Ret (mkStream [] []).
Definition xstream_reply (data : reply) : res (list xstream_t) :=
  if is_array data then rows <- as_array data; each xstream rows else Ret [].
Definition xs_is_null (xs : list xstream_t) : bool :=
  match xs with
  | [] => true
  | _ => existsb (λ v, match Messages v with [] => true | _ => false end) xs
  end.

(** ** [xinfo_reply]; [None]: its members are not set *)
Record xinfo_t := mkXinfo {
  Length : Z; RadixTreeKeys : Z; RadixTreeNodes : Z; Groups : Z; LastGeneratedId : Str;
  FirstEntry : message_type; LastEntry : message_type
}.
Definition row (da : list reply) (i : nat) : res reply :=
  match da !! i with Some r => Ret r | None => Undef end.
Definition int_row (da : list reply) (i : nat) : res Z := r <- row da i; as_integer r.
Definition xinfo_reply (data : reply) : res (option xinfo_t) :=
  if is_array data then
    da <- as_array data;
    len <- int_row da 1;
    keys <- int_row da 3;
    nodes <- int_row da 5;
    groups <- int_row da 7;
    last <- (r <- row da 9; as_string r);
    x <- (r <- row da 11; xmessage r);
    y <- (r <- row da 13; xmessage r);
    Ret (Some (mkXinfo len keys nodes groups last x y))
  else Ret None.

(** ** The replies of the server *)
Definition bulk (s : Str) : reply := reply_str s st_bulk_string.
Definition fields_rows (fs : list (Str * Str)) : list reply := fs ≫= λ f, [bulk f.1; bulk f.2].
Record entry := mkEntry { e_id : Str; e_fields : list (Str * Str) }.
Definition entry_reply (e : entry) : reply :=
  reply_rows [bulk (e_id e); reply_rows (fields_rows (e_fields e))].
Definition stream_reply (s : Str * list entry) : reply :=
  reply_rows [bulk s.1; reply_rows (entry_reply <$> s.2)].
Definition streams_reply (ss : list (Str * list entry)) : reply := reply_rows (stream_reply <$> ss).

(** What the reader should have: the fields of an entry as a multimap. *)
Definition multimap_of {A} (kvs : list (Str * A)) : list (Str * A) :=
  foldl (λ m kv, mm_insert kv.1 kv.2 m) [] kvs.
Definition message_of (e : entry) : message_type :=
  mkMessage (e_id e) (multimap_of ((λ f, (f.1, bulk f.2)) <$> e_fields e)).
Definition stream_of (s : Str * list entry) : xstream_t := mkStream s.1 (message_of <$> s.2).

(** ** The order *)
Lemma str_ltb_irrefl a : str_ltb a a = false.
Proof. induction a as [|x a IH]; [done|]. cbn -[Nat.ltb Nat.eqb nat_of_ascii]. by rewrite Nat.ltb_irrefl, IH, andb_false_r. Qed.
Lemma str_ltb_eq a b : str_ltb a b = false → str_ltb b a = false → a = b.
Proof.
  revert b. induction a as [|x a IH]; intros [|y b]; cbn -[Nat.ltb Nat.eqb nat_of_ascii]; [done..|].
  intros [H1 H2]%orb_false_iff [H3 H4]%orb_false_iff.
  apply Nat.ltb_ge in H1, H3. assert (nat_of_ascii x = nat_of_ascii y) as E by lia.
  rewrite E, Nat.eqb_refl in *. f_equal; [|by apply IH].
  by rewrite <-(ascii_nat_embedding x), E, ascii_nat_embedding.
Qed.
Lemma str_ltb_trans a b c : str_ltb a b = true → str_ltb b c = true → str_ltb a c = true.
Proof.
  revert b c. induction a as [|x a IH]; intros [|y b] [|z c]; cbn -[Nat.ltb Nat.eqb nat_of_ascii]; try done.
  rewrite !orb_true_iff, !andb_true_iff, !Nat.ltb_lt, !Nat.eqb_eq.
  intros [?|[? ?]] [?|[? ?]]; [left; lia..|right]. split; [lia|by eapply IH].
Qed.
Lemma str_ltb_asym a b : str_ltb a b = true → str_ltb b a = false.
Proof.
  intros H. destruct (str_ltb b a) eqn:E; [|done].
  pose proof (str_ltb_trans _ _ _ H E) as F. by rewrite str_ltb_irrefl in F.
Qed.
Definition key_le {A} (a b : Str * A) : Prop := str_ltb b.1 a.1 = false.
Lemma key_le_trans {A} (a b c : Str * A) : key_le a b → key_le b c → key_le a c.
Proof.
  unfold key_le. intros H1 H2. destruct (str_ltb c.1 a.1) eqn:E; [|done].
  destruct (str_ltb a.1 b.1) eqn:F.
  - by rewrite (str_ltb_trans _ _ _ E F) in H2.
  - by rewrite (str_ltb_eq _ _ F H1), H2 in E.
Qed.

(** ** The multimap *)
Section Multimap.
Context {A : Type}.
Implicit Type m : list (Str * A).
Definition sorted m : Prop := StronglySorted key_le m.
Definition values_of (k : Str) m : list A := snd <$> filter (λ e, e.1 = k) m.

Lemma mm_insert_perm k v m : mm_insert k v m ≡ₚ (k, v) :: m.
Proof.
  induction m as [|e m IH]; cbn; [done|]. destruct (str_ltb k e.1); [done|]. rewrite IH. apply Permutation_swap.
Qed.
Lemma mm_insert_sorted k v m : sorted m → sorted (mm_insert k v m).
Proof.
  unfold sorted. induction 1 as [|e m Hm IH He]; cbn; [repeat constructor|].
  destruct (str_ltb k e.1) eqn:E.
  - constructor; [by constructor|]. assert (key_le (k, v) e) as H by (by apply str_ltb_asym).
    constructor; [done|]. eapply Forall_impl; [done|]. intros x. by apply key_le_trans.
  - constructor; [done|]. rewrite mm_insert_perm. by constructor.
Qed.
Lemma values_of_lt k m : Forall (λ e, str_ltb k e.1 = true) m → values_of k m = [].
Proof.
  unfold values_of. induction 1 as [|e m He _ IH]; [done|]. rewrite filter_cons_False; [done|].
  intros Ek. by rewrite Ek, str_ltb_irrefl in He.
Qed.
Lemma values_of_insert k v k' m : sorted m →
  values_of k' (mm_insert k v m) = values_of k' m ++ (if decide (k = k') then [v] else []).
Proof.
  unfold sorted. induction 1 as [|e m Hm IH He]; cbn [mm_insert].
  { unfold values_of. rewrite filter_cons. cbn. by destruct (decide (k = k')). }
  destruct (str_ltb k e.1) eqn:E.
  - assert (values_of k (e :: m) = []) as Hnil.
    { apply values_of_lt. constructor; [done|]. eapply Forall_impl; [done|]. intros x Hx. unfold key_le in Hx.
      destruct (str_ltb k x.1) eqn:F; [done|]. destruct (str_ltb x.1 k) eqn:G.
      - by rewrite (str_ltb_trans _ _ _ G E) in Hx.
      - by rewrite (str_ltb_eq _ _ F G), Hx in E. }
    change (values_of k' ((k, v) :: e :: m)) with (snd <$> filter (λ e, e.1 = k') ((k, v) :: e :: m)).
    rewrite filter_cons. cbn [fst]. destruct (decide (k = k')) as [<-|]; [|by rewrite app_nil_r].
    change (v :: values_of k (e :: m) = values_of k (e :: m) ++ [v]). by rewrite Hnil.
  - unfold values_of in *. rewrite !filter_cons. destruct (decide (e.1 = k')); cbn; by rewrite IH.
Qed.
Lemma multimap_of_snoc kvs kv : multimap_of (A:=A) (kvs ++ [kv]) = mm_insert kv.1 kv.2 (multimap_of kvs).
Proof. unfold multimap_of. by rewrite foldl_app. Qed.
Lemma multimap_of_sorted (kvs : list (Str * A)) : sorted (multimap_of kvs).
Proof.
  induction kvs as [|kv kvs IH] using rev_ind; [constructor|]. rewrite multimap_of_snoc. by apply mm_insert_sorted.
Qed.
Lemma values_of_multimap k (kvs : list (Str * A)) : values_of k (multimap_of kvs) = values_of k kvs.
Proof.
  induction kvs as [|kv kvs IH] using rev_ind; [done|].
  rewrite multimap_of_snoc, values_of_insert, IH by apply multimap_of_sorted.
  unfold values_of. rewrite filter_app, fmap_app. f_equal.
  rewrite filter_cons. destruct kv as [k' v]. cbn. by destruct (decide (k' = k)).
Qed.
End Multimap.

(** ** Reading a reply *)
Lemma push_fields_rows fs : ∀ i key m, Z.odd i = true →
  push_fields i key (fields_rows fs) m =
  Ret (mkMessage (m_id m) (foldl (λ m kv, mm_insert kv.1 kv.2 m) (m_values m) ((λ f, (f.1, bulk f.2)) <$> fs))).
Proof.
  induction fs as [|f fs IH]; intros i key m Hi; [by destruct m|].
  change (fields_rows (f :: fs)) with (bulk f.1 :: bulk f.2 :: fields_rows fs). cbn [push_fields].
  rewrite Hi. replace (Z.odd (i + 1)) with false by (rewrite Z.odd_add, Hi; done).
  change (as_string (bulk f.1)) with (@Ret Str f.1). cbn [rbind]. rewrite IH; [done|].
  by rewrite !Z.odd_add, Hi.
Qed.
Lemma xmessage_entry e : xmessage (entry_reply e) = Ret (message_of e).
Proof.
  change (xmessage (entry_reply e)) with (push_fields 1 [] (fields_rows (e_fields e)) (set_id (e_id e) new_message)).
  by rewrite push_fields_rows.
Qed.
Lemma each_ret {A B C} (f : B → res C) (g : A → B) (h : A → C) l :
  (∀ a, f (g a) = Ret (h a)) → each f (g <$> l) = Ret (h <$> l).
Proof. intros H. induction l as [|a l IH]; cbn; [done|]. by rewrite H, IH. Qed.
Lemma xstream_stream s : xstream (stream_reply s) = Ret (stream_of s).
Proof.
  change (xstream (stream_reply s)) with (ms <- each xmessage (entry_reply <$> s.2); Ret (mkStream s.1 ms)).
  by rewrite (each_ret xmessage entry_reply message_of) by apply xmessage_entry.
Qed.

(** A reply of [XREAD] or [XREADGROUP] is taken apart as the server made it:
    every stream with its name and its entries in order, every entry with its id,
    and its values by key, those of one key in the order of the entry; and it
    counts as empty exactly when there is no stream, or one without entries. *)
Theorem streams_taken_apart ss :
  ∃ xs, xstream_reply (streams_reply ss) = Ret xs ∧
    (Stream <$> xs) = ss.*1 ∧
    ((λ x, m_id <$> Messages x) <$> xs) = ((λ s, e_id <$> s.2) <$> ss) ∧
    (∀ x m, x ∈ xs → m ∈ Messages x → sorted (m_values m)) ∧
    (∀ k, ((λ x, (λ m, values_of k (m_values m)) <$> Messages x) <$> xs) =
          ((λ s, (λ e, bulk <$> values_of k (e_fields e)) <$> s.2) <$> ss)) ∧
    (xs_is_null xs = true ↔ ss = [] ∨ ∃ s, s ∈ ss ∧ s.2 = []).
Proof.
  exists (stream_of <$> ss). split; [|split_and!].
  - change (each xstream (stream_reply <$> ss) = Ret (stream_of <$> ss)). by apply each_ret, xstream_stream.
  - by rewrite <-list_fmap_compose.
  - rewrite <-list_fmap_compose. apply list_fmap_ext. intros _ s _. cbn. by rewrite <-list_fmap_compose.
  - intros x m (s & -> & _)%list_elem_of_fmap (e & -> & _)%list_elem_of_fmap. apply multimap_of_sorted.
  - intros k. rewrite <-list_fmap_compose. apply list_fmap_ext. intros _ s _. cbn.
    rewrite <-list_fmap_compose. apply list_fmap_ext. intros _ e _.
    change (values_of k (multimap_of ((λ f, (f.1, bulk f.2)) <$> e_fields e)) = bulk <$> values_of k (e_fields e)).
    rewrite values_of_multimap.
    unfold values_of. induction (e_fields e) as [|f fs IH]; [done|]. cbn [fmap list_fmap].
    rewrite !filter_cons. cbn [fst]. destruct (decide (f.1 = k)); cbn; by rewrite IH.
  - destruct ss as [|s ss]; [split; [by left|done]|]. cbn [fmap list_fmap xs_is_null].
    rewrite existsb_exists. split.
    + intros (x & Hx%list_elem_of_In & He). right. change (x ∈ stream_of <$> s :: ss) in Hx.
      apply list_elem_of_fmap in Hx as (s' & -> & Hs). exists s'. split; [done|]. cbn in He. by destruct (s'.2).
    + intros [?|(s' & Hs & He)]; [done|]. exists (stream_of s'). rewrite <-list_elem_of_In. split.
      * change (stream_of s' ∈ stream_of <$> s :: ss). by apply list_elem_of_fmap_2.
      * cbn. by rewrite He.
Qed.

(** An empty array at any of the three levels is undefined behaviour. *)
Example empty_arrays_undefined s id :
  xstream_reply (reply_rows [reply_rows []]) = Undef ∧
  xstream_reply (reply_rows [reply_rows [bulk s; reply_rows [reply_rows []]]]) = Undef ∧
  xmessage (reply_rows [bulk id]) = Ret (mkMessage id []).
Proof. done. Qed.
(** [push] of a range drops what it is given: every element is taken for a key. *)
Example push_range_inserts_nothing k v m : push_range [bulk k; bulk v] m = Ret m.
Proof. done. Qed.
(** A range with a value that is not a string throws. *)
Example push_range_throws k n m :
  push_range [bulk k; reply_int n] m = Throw "Reply is not a string".
Proof. done. Qed.
(** A reply of [XINFO STREAM] with fewer rows than the seven fields is read past its end. *)
Example short_info_undefined n : xinfo_reply (reply_rows [bulk (chars "length"); reply_int n]) = Undef.
Proof. done. Qed.
