(* ===== verification/DispatchQueue.v ===== *)
(** * [cpp_redis]: the dispatch queue

    [misc/dispatch_queue.cpp].  Every section under [m_threads_lock] is an event: a
    worker's from where it takes the lock until it waits, leaves with a message or
    exits.  Notifying is an event of its own, after the section it follows.  A
    callback is a number, its run the events between taking the message and
    returning.  [size] takes another mutex than the one that guards the queue; the
    length it reads is the one between two sections. *)

From S2P Require Import Prelude CppBase.
From S2P Require Import RedisReply RedisStreamReply.

Record dispatch_callback_collection := mkJob { callback_of : nat; message : message_type }.
Implicit Type j : dispatch_callback_collection.

(** Where a worker is: about to lock, at the start or woken; in the wait; running
    a callback; past it, about to lock again; gone. *)
Inductive dworker := Ready | Waiting | Busy (op : dispatch_callback_collection) | Relock | Exited.

(** [due]: calls of [notify_all] that are due; [taken]: the messages in the order
    in which workers took them; [terminated]: an exception left a callback, which
    ends the process. *)
Record dispatch_queue := mkQueue {
  dq_name : Str;
  m_threads : list dworker;
  m_mq : list dispatch_callback_collection;
  m_quit : bool;
  due : nat;
  taken : list dispatch_callback_collection;
  terminated : bool
}.
Definition set_threads (w : list dworker) (q : dispatch_queue) : dispatch_queue :=
  mkQueue (dq_name q) w (m_mq q) (m_quit q) (due q) (taken q) (terminated q).
Definition set_thread (i : nat) (w : dworker) (q : dispatch_queue) : dispatch_queue :=
  set_threads (<[i := w]> (m_threads q)) q.

Definition new_dispatch_queue (name : Str) (thread_cnt : nat) : dispatch_queue :=
  mkQueue name (replicate thread_cnt Ready) [] false 0 [] false.

(** Both overloads of [dispatch], up to the notification *)
Definition dispatch (j : dispatch_callback_collection) (q : dispatch_queue) : dispatch_queue :=
  mkQueue (dq_name q) (m_threads q) (m_mq q ++ [j]) (m_quit q) (S (due q)) (taken q) (terminated q).
Definition wake_worker (w : dworker) : dworker := match w with Waiting => Ready | _ => w end.
Definition notify_all_workers (q : dispatch_queue) : option dispatch_queue :=
  match due q with
  | O => None
  | S n => Some (mkQueue (dq_name q) (wake_worker <$> m_threads q) (m_mq q) (m_quit q) n (taken q) (terminated q))
  end.
(** The destructor up to its notification, and its joins *)
Definition begin_destroy (q : dispatch_queue) : option dispatch_queue :=
  if m_quit q then None
  else Some (mkQueue (dq_name q) (m_threads q) (m_mq q) true (S (due q)) (taken q) (terminated q)).
Definition exited (w : dworker) : bool := match w with Exited => true | _ => false end.
Definition joined (q : dispatch_queue) : bool := forallb exited (m_threads q).
Definition size (q : dispatch_queue) : nat := length (m_mq q).

(** The body of the loop of [dispatch_thread_handler], from the test of the wait,
    with the lock held; with the size that [notify_handler] is called with, when it
    is called. *)
Definition loop_body (i : nat) (q : dispatch_queue) : dispatch_queue * option nat :=
  match m_mq q, m_quit q with
  | [], false => (set_thread i Waiting q, None)
  | op :: mq, false =>
      (mkQueue (dq_name q) (<[i := Busy op]> (m_threads q)) mq false (due q) (taken q ++ [op]) (terminated q),
       Some (size q))
  | _, true => (set_thread i Exited q, Some (size q))
  end.
(** The section of a worker; one that comes from its callback tests [m_quit] first. *)
Definition section (i : nat) (q : dispatch_queue) : option (dispatch_queue * option nat) :=
  match m_threads q !! i with
  | Some Ready => Some (loop_body i q)
  | Some Relock => Some (if m_quit q then (set_thread i Exited q, None) else loop_body i q)
  | _ => None
  end.
Definition callback_over (i : nat) (q : dispatch_queue) : option dispatch_queue :=
  match m_threads q !! i with Some (Busy _) => Some (set_thread i Relock q) | _ => None end.
Definition callback_throws (i : nat) (q : dispatch_queue) : option dispatch_queue :=
  match m_threads q !! i with
  | Some (Busy _) => Some (mkQueue (dq_name q) (m_threads q) (m_mq q) (m_quit q) (due q) (taken q) true)
  | _ => None
  end.
(** A wait may also end by itself. *)
Definition wake_alone (i : nat) (q : dispatch_queue) : option dispatch_queue :=
  match m_threads q !! i with Some Waiting => Some (set_thread i Ready q) | _ => None end.

(** ** Interleaving *)
Inductive dq_event :=
  | DDispatch (op : dispatch_callback_collection) | DNotify | DDestroy
  | WSection (i : nat) | WReturn (i : nat) | WThrow (i : nat) | WAlone (i : nat).
Definition dq_step (e : dq_event) (q : dispatch_queue) : option (dispatch_queue * option nat) :=
  if terminated q then None else
  match e with
  | DDispatch op => Some (dispatch op q, None)
  | DNotify => (., None) <$> notify_all_workers q
  | DDestroy => (., None) <$> begin_destroy q
  | WSection i => section i q
  | WReturn i => (., None) <$> callback_over i q
  | WThrow i => (., None) <$> callback_throws i q
  | WAlone i => (., None) <$> wake_alone i q
  end.
Fixpoint dq_run (es : list dq_event) (q : dispatch_queue) : option dispatch_queue :=
  match es with
  | [] => Some q
  | e :: es => r ← dq_step e q; dq_run es r.1
  end.
Definition dispatched (es : list dq_event) : list dispatch_callback_collection :=
  es ≫= λ e, match e with DDispatch op => [op] | _ => [] end.

(** ** One event, by cases *)
Section Step.
Implicit Type q : dispatch_queue.

(** The messages taken and those queued. *)
Definition history q : list dispatch_callback_collection := taken q ++ m_mq q.
(** A wait that should end has a notification coming. *)
Definition wakeful q : Prop :=
  m_mq q ≠ [] ∨ m_quit q = true → Waiting ∈ m_threads q → (0 < due q)%nat.

Lemma in_insert_worker (l : list dworker) i (y z : dworker) : z ∈ <[i := y]> l → z = y ∨ z ∈ l.
Proof.
  intros [k Hk]%list_elem_of_lookup. apply list_lookup_insert_Some in Hk as [(_ & <- & _)|[_ Hk]]; [by left|].
  right. by eapply list_elem_of_lookup_2.
Qed.
Lemma set_thread_wakeful i w q : w ≠ Waiting → wakeful q → wakeful (set_thread i w q).
Proof. intros Hw H Hmq [?|Hin]%in_insert_worker; [congruence|]. by apply H. Qed.
Lemma loop_body_history i q : history (loop_body i q).1 = history q.
Proof.
  unfold loop_body, history. destruct (m_mq q) as [|op mq] eqn:E, (m_quit q); cbn; rewrite ?E; try done.
  by rewrite <-app_assoc.
Qed.
Lemma loop_body_wakeful i q : wakeful q → wakeful (loop_body i q).1.
Proof.
  intros H. unfold loop_body. destruct (m_mq q) as [|op mq] eqn:E, (m_quit q) eqn:F; cbn;
    try (by apply set_thread_wakeful).
  - intros [Hm|Hq]; cbn in *; congruence.
  - intros _ [?|Hin]%in_insert_worker; [done|]. apply H; [left; congruence|done].
Qed.
Lemma section_inv i q r : section i q = Some r →
  (∃ w, m_threads q !! i = Some w ∧ (w = Ready ∨ w = Relock)) ∧
  (r = loop_body i q ∨ m_quit q = true ∧ r = (set_thread i Exited q, None)).
Proof.
  unfold section. destruct (m_threads q !! i) as [[]|] eqn:E; try done.
  - intros [= <-]. split; [eexists; eauto|by left].
  - destruct (m_quit q); intros [= <-]; (split; [eexists; eauto|auto]).
Qed.
Lemma dq_step_history e q r : dq_step e q = Some r →
  history r.1 = history q ++ dispatched [e].
Proof.
  unfold dq_step. destruct (terminated q); [done|].
  destruct e; cbn [dispatched mbind list_bind]; rewrite ?app_nil_r.
  - intros [= <-]. unfold history. cbn. by rewrite <-app_assoc.
  - unfold notify_all_workers. destruct (due q); [done|]. by intros [= <-].
  - unfold begin_destroy. destruct (m_quit q); [done|]. by intros [= <-].
  - intros (_ & [->|(_ & ->)])%section_inv; [apply loop_body_history|done].
  - unfold callback_over. destruct (_ !! i) as [[]|]; try done. by intros [= <-].
  - unfold callback_throws. destruct (_ !! i) as [[]|]; try done. by intros [= <-].
  - unfold wake_alone. destruct (_ !! i) as [[]|]; try done. by intros [= <-].
Qed.
Lemma dq_step_wakeful e q r : wakeful q → dq_step e q = Some r → wakeful r.1.
Proof.
  intros H. unfold dq_step. destruct (terminated q); [done|]. destruct e.
  - intros [= <-] _ _. cbn. lia.
  - unfold notify_all_workers. destruct (due q); [done|]. intros [= <-] _ Hin. exfalso.
    apply list_elem_of_fmap in Hin as (w & E & _). by destruct w.
  - unfold begin_destroy. destruct (m_quit q); [done|]. intros [= <-] _ _. cbn. lia.
  - intros (_ & [->|(_ & ->)])%section_inv; [by apply loop_body_wakeful|by apply set_thread_wakeful].
  - unfold callback_over. destruct (_ !! i) as [[]|]; try done. intros [= <-]. by apply set_thread_wakeful.
  - unfold callback_throws. destruct (_ !! i) as [[]|]; try done. by intros [= <-].
  - unfold wake_alone. destruct (_ !! i) as [[]|]; try done. intros [= <-]. by apply set_thread_wakeful.
Qed.
Lemma dq_run_inv es q q' : dq_run es q = Some q' → wakeful q →
  history q' = history q ++ dispatched es ∧ wakeful q'.
Proof.
  revert q. induction es as [|e es IH]; intros q; cbn [dq_run]; [intros [= <-]; by rewrite app_nil_r|].
  destruct (dq_step e q) as [r|] eqn:E; [|done]. intros Hr Hq.
  destruct (IH _ Hr) as [H1 H2]; [by eapply dq_step_wakeful|]. split; [|done].
  rewrite H1, (dq_step_history _ _ _ E), <-app_assoc. by destruct e.
Qed.
Lemma new_queue_wakeful name n : wakeful (new_dispatch_queue name n).
Proof. by intros [?|?]. Qed.
End Step.

(** C16. Messages are taken in the order they were dispatched, none lost and none
    twice; and whenever no notification is due while messages are queued or the
    queue is being destroyed, no worker waits: unlike in the thread pool, the
    predicate is tested under the mutex that guards what it reads. *)
Theorem dispatch_fifo_and_wakes name n es q :
  dq_run es (new_dispatch_queue name n) = Some q →
  taken q ++ m_mq q = dispatched es ∧
  (due q = 0%nat → m_mq q ≠ [] ∨ m_quit q = true → Waiting ∉ m_threads q).
Proof.
  intros H. destruct (dq_run_inv _ _ _ H (new_queue_wakeful name n)) as [H1 H2]. split; [done|].
  intros Hd Hm Hin. specialize (H2 Hm Hin). lia.
Qed.

Definition demo_job (n : nat) : dispatch_callback_collection := mkJob n new_message.
Definition dq_demo : list dq_event :=
  [WSection 0; WSection 1; DDispatch (demo_job 1); DDispatch (demo_job 2); DNotify; WSection 1; DNotify].
Lemma dispatch_fifo_and_wakes_witness :
  ∃ q, dq_run dq_demo (new_dispatch_queue [] 2) = Some q ∧
    m_threads q = [Ready; Busy (demo_job 1)] ∧ taken q ++ m_mq q = dispatched dq_demo ∧ Waiting ∉ m_threads q.
Proof.
  eexists. split; [reflexivity|]. split; [reflexivity|].
  destruct (dispatch_fifo_and_wakes [] 2 dq_demo _ eq_refl) as [H1 H2].
  split; [exact H1|]. apply H2; [reflexivity|by left].
Defined.

(** ** Destruction *)
Definition by_dworker (e : dq_event) : bool := match e with WSection _ | WReturn _ => true | _ => false end.
Definition turns_left (w : dworker) : nat :=
  match w with Ready | Relock => 1 | Busy _ => 2 | Waiting => 1 | Exited => 0 end.
Definition all_turns (l : list dworker) : nat := sum_list (turns_left <$> l).

Lemma all_turns_insert l i x y : l !! i = Some x →
  (all_turns (<[i := y]> l) + turns_left x = all_turns l + turns_left y)%nat.
Proof.
  unfold all_turns. revert i. induction l as [|z l IH]; intros [|i]; [done|done| |].
  - intros [= ->]. cbn. lia.
  - intros Hi. specialize (IH i Hi). change (<[S i := y]> (z :: l)) with (z :: <[i := y]> l). cbn. lia.
Qed.
Definition leaving (q : dispatch_queue) : Prop :=
  m_quit q = true ∧ Waiting ∉ m_threads q ∧ terminated q = false.
Lemma leaving_step e q r : by_dworker e = true → leaving q → dq_step e q = Some r →
  leaving r.1 ∧ S (all_turns (m_threads r.1)) = all_turns (m_threads q) ∧ m_mq r.1 = m_mq q.
Proof.
  intros He (H1 & H2 & H3). unfold dq_step. rewrite H3.
  assert (∀ i w y, m_threads q !! i = Some w → y ≠ Waiting → S (turns_left y) = turns_left w →
    leaving (set_thread i y q) ∧ S (all_turns (m_threads (set_thread i y q))) = all_turns (m_threads q) ∧
    m_mq (set_thread i y q) = m_mq q) as Hset.
  { intros i w y Hi Hy Ht. pose proof (all_turns_insert _ _ _ y Hi).
    cbn -[all_turns]. split_and!; [|lia|done].
    split_and!; [done| |done]. by intros [?|?]%in_insert_worker. }
  destruct e; try done.
  - intros ((w & Hi & Hw) & [->|(_ & ->)])%section_inv.
    + unfold loop_body. rewrite H1. destruct (m_mq q); by apply (Hset i w); destruct Hw as [-> | ->].
    + by apply (Hset i w); destruct Hw as [-> | ->].
  - unfold callback_over. destruct (_ !! i) as [[]|] eqn:Hi; try done. intros [= <-]. by eapply Hset.
Qed.
Lemma leaving_progress q : leaving q → joined q = false → ∃ e r, by_dworker e = true ∧ dq_step e q = Some r.
Proof.
  intros (H1 & H2 & H3) Hj. destruct (decide (Forall (λ w, exited w = true) (m_threads q))) as [Hall|Hn].
  { exfalso. apply not_true_iff_false in Hj. apply Hj, forallb_forall. intros w Hw%list_elem_of_In.
    rewrite Forall_forall in Hall. by apply Hall. }
  apply not_Forall_Exists, Exists_exists in Hn as (w & [i Hi]%list_elem_of_lookup & Hw); [|apply _].
  destruct w as [| |op| |].
  - exists (WSection i). unfold dq_step, section. rewrite H3, Hi. by eexists.
  - exfalso. apply H2. by eapply list_elem_of_lookup_2.
  - exists (WReturn i). unfold dq_step, callback_over. rewrite H3, Hi. by eexists.
  - exists (WSection i). unfold dq_step, section. rewrite H3, Hi. by eexists.
  - by destruct Hw.
Qed.

(** Destroying the queue ends: once its notifications are delivered the workers
    are gone after at most two events each, in any order, and until then one of
    them has an event left, provided the callbacks return; what is still queued is
    not run. *)
Theorem destructor_joins name n es0 q es q' :
  dq_run es0 (new_dispatch_queue name n) = Some q → m_quit q = true → due q = 0%nat → terminated q = false →
  forallb by_dworker es = true → dq_run es q = Some q' →
  (length es <= 2 * length (m_threads q))%nat ∧
  (joined q' = false → ∃ e r, by_dworker e = true ∧ dq_step e q' = Some r) ∧ m_mq q' = m_mq q.
Proof.
  intros Hreach Hq Hd Ht Hes Hr.
  assert (leaving q) as Hl.
  { split_and!; [done| |done]. intros Hin.
    destruct (dq_run_inv _ _ _ Hreach (new_queue_wakeful name n)) as [_ Hw].
    specialize (Hw (or_intror Hq) Hin). lia. }
  assert (all_turns (m_threads q) <= 2 * length (m_threads q))%nat as Hlen.
  { unfold all_turns. clear. induction (m_threads q) as [|w l IH]; cbn; [lia|]. cbn in IH. destruct w; cbn; lia. }
  enough (leaving q' ∧ (length es + all_turns (m_threads q') = all_turns (m_threads q))%nat ∧ m_mq q' = m_mq q)
    as (G1 & G2 & G3) by (split; [lia|]; split; [by apply leaving_progress|done]).
  clear Hreach Hq Hd Ht Hlen. revert q Hl Hr. induction es as [|e es IH]; intros q Hl; cbn [dq_run].
  { by intros [= <-]. }
  apply andb_true_iff in Hes as [He Hes]. destruct (dq_step e q) as [r|] eqn:E; [|done]. intros Hr.
  destruct (leaving_step _ _ _ He Hl E) as (G1 & G2 & G3). destruct (IH Hes r.1 G1 Hr) as (F1 & F2 & F3).
  split_and!; [done|cbn; lia|congruence].
Qed.

Definition destroy_demo : list dq_event :=
  [WSection 0; DDispatch (demo_job 1); DNotify; WSection 0; DDispatch (demo_job 2); DNotify; WSection 1; WReturn 1;
   DDispatch (demo_job 3); DDestroy; DNotify; DNotify].
Definition destroyed_queue : dispatch_queue :=
  default (new_dispatch_queue [] 0) (dq_run destroy_demo (new_dispatch_queue [] 2)).
Definition joined_queue : dispatch_queue :=
  default (new_dispatch_queue [] 0) (dq_run [WSection 1; WReturn 0; WSection 0] destroyed_queue).
Lemma destructor_joins_witness :
  m_mq destroyed_queue = [demo_job 3] ∧ joined joined_queue = true ∧
  (3 <= 2 * length (m_threads destroyed_queue))%nat ∧
  (joined joined_queue = false → ∃ e r, by_dworker e = true ∧ dq_step e joined_queue = Some r) ∧
  m_mq joined_queue = m_mq destroyed_queue.
Proof.
  split; [vm_compute; reflexivity|]. split; [vm_compute; reflexivity|].
  apply (destructor_joins [] 2 destroy_demo destroyed_queue [WSection 1; WReturn 0; WSection 0] joined_queue);
    vm_compute; reflexivity.
Defined.

(** An exception of a callback ends the process, whatever is queued. *)
Example callback_exception_terminates j q :
  dq_run [DDispatch j; DNotify; WSection 0; WThrow 0] (new_dispatch_queue [] 1) = Some q →
  ∀ e, dq_step e q = None.
Proof. intros [= <-] e. by destruct e. Qed.
