(* ===== verification/RedisConsumer.v ===== *)
(** * [cpp_redis]: the consumer of a stream

    [core/consumer.cpp] over two clients of [RedisClient] and a [DispatchQueue].
    [commit] runs on the caller's thread; what happens to the poll client in the
    meantime (replies, a lost connection, its thread that reports failures) and the
    workers of the dispatch queue are events.  The lambda given to [xreadgroup] is
    the callback [User 0] of the poll client, the one given to [auth] as [n] is
    [User (S n)].  [None] is an event that is not enabled, or undefined behaviour of
    a reply ([empty_arrays_undefined]). *)

From S2P Require Import Prelude CppBase.
From S2P Require Import RedisReply RedisResp RedisConn RedisSentinel RedisClient RedisCmdTypes RedisStreamCmds.
From S2P Require Import RedisStreamReply DispatchQueue.

(** [struct consumer_callback_container], functions as numbers *)
Record consumer_callback_container := mkCallbacks {
  consumer_callback : nat; acknowledgement_callback : option nat
}.

(** Where [commit] is: not called; at the test of its loop; in the loop of [poll]
    before the given groups; in [sync_commit] with those left; left, by returning
    or with an exception. *)
Inductive position := Outside | Looping | Polling (rest : list Str) | Awaiting (rest : list Str) | Left (returned : bool).

(** [class consumer]; [printed] is what went to [std::cout]. *)
Record consumer := mkConsumer {
  m_stream : Str;
  m_name : Str;
  m_read_id : Str;
  m_block_sec : Z;
  m_max_concurrency : Z;
  m_read_count : Z;
  ack_client : client;
  poll_client : client;
  m_callbacks : list (Str * consumer_callback_container);
  m_dispatch_queue : dispatch_queue;
  dispatch_queue_full : bool;
  is_ready : bool;
  m_should_read_pending : bool;
  at_ : position;
  printed : list Str
}.

Definition set_at (p : position) (c : consumer) : consumer :=
  mkConsumer (m_stream c) (m_name c) (m_read_id c) (m_block_sec c) (m_max_concurrency c) (m_read_count c)
    (ack_client c) (poll_client c) (m_callbacks c) (m_dispatch_queue c) (dispatch_queue_full c) (is_ready c)
    (m_should_read_pending c) p (printed c).
Definition set_clients (a p : client) (c : consumer) : consumer :=
  mkConsumer (m_stream c) (m_name c) (m_read_id c) (m_block_sec c) (m_max_concurrency c) (m_read_count c)
    a p (m_callbacks c) (m_dispatch_queue c) (dispatch_queue_full c) (is_ready c)
    (m_should_read_pending c) (at_ c) (printed c).
Definition set_poll (p : client) (c : consumer) : consumer := set_clients (ack_client c) p c.
Definition set_queue (q : dispatch_queue) (full : bool) (c : consumer) : consumer :=
  mkConsumer (m_stream c) (m_name c) (m_read_id c) (m_block_sec c) (m_max_concurrency c) (m_read_count c)
    (ack_client c) (poll_client c) (m_callbacks c) q full (is_ready c)
    (m_should_read_pending c) (at_ c) (printed c).
Definition set_reading (id : Str) (block count : Z) (pending : bool) (c : consumer) : consumer :=
  mkConsumer (m_stream c) (m_name c) id block (m_max_concurrency c) count
    (ack_client c) (poll_client c) (m_callbacks c) (m_dispatch_queue c) (dispatch_queue_full c) (is_ready c)
    pending (at_ c) (printed c).
Definition print (lines : list Str) (c : consumer) : consumer :=
  mkConsumer (m_stream c) (m_name c) (m_read_id c) (m_block_sec c) (m_max_concurrency c) (m_read_count c)
    (ack_client c) (poll_client c) (m_callbacks c) (m_dispatch_queue c) (dispatch_queue_full c) (is_ready c)
    (m_should_read_pending c) (at_ c) (printed c ++ lines).

(** The constructor.  The queue is named by the parameter [stream] after it was
    moved into [m_stream]: [moved_from] is what moving left there. *)
Definition new_consumer (moved_from stream name : Str) (max_concurrency : Z) : consumer :=
  mkConsumer stream name (chars "0") (-1) max_concurrency (to_int32 max_concurrency)
    new_client new_client []
    (new_dispatch_queue moved_from (Z.to_nat max_concurrency)) false false true Outside [].

Definition outside (c : consumer) : bool := match at_ c with Outside | Left _ => true | _ => false end.

Definition subscribe (group : Str) (cbs : consumer_callback_container) (c : consumer) : consumer :=
  mkConsumer (m_stream c) (m_name c) (m_read_id c) (m_block_sec c) (m_max_concurrency c) (m_read_count c)
    (ack_client c) (poll_client c) (mm_insert group cbs (m_callbacks c)) (m_dispatch_queue c)
    (dispatch_queue_full c) (is_ready c) (m_should_read_pending c) (at_ c) (printed c).

(** Nothing sets [dispatch_queue_full] back. *)
Definition dispatch_changed_handler (size : nat) (c : consumer) : consumer :=
  if m_max_concurrency c <=? Z.of_nat size then set_queue (m_dispatch_queue c) true c else c.

(** [ups]: whether each of the two sockets connects; false is the exception, after
    which the second client is not connected. *)
Definition connect_consumer (host : Str) (port : Z) (has_callback : bool) (max_reconnects interval : Z)
    (ups : bool * bool) (c : consumer) : bool * consumer :=
  let '(ok, a) := connect host port has_callback max_reconnects interval ups.1 (ack_client c) in
  let c := set_clients a (poll_client c) c in
  if ok then
    let '(ok, p) := connect host port has_callback max_reconnects interval ups.2 (poll_client c) in
    (ok, set_poll p c)
  else (false, c).
Definition auth (password : Str) (k : option nat) (c : consumer) : consumer :=
  let k := (λ n, User (S n)) <$> k in
  set_clients (unprotected_auth password k (ack_client c)) (unprotected_auth password k (poll_client c)) c.

(** ** [commit] and [poll] *)

(** One turn of the loop of [commit], up to the call of [poll]; [None] waits. *)
Definition commit_turn (c : consumer) : option consumer :=
  if is_ready c then Some (set_at (Left true) c)
  else if dispatch_queue_full c then None
  else
    let count := to_int32 (to_uint64 (m_max_concurrency c - Z.of_nat (size (m_dispatch_queue c)))) in
    Some (set_at (Polling (m_callbacks c).*1)
      (set_reading (m_read_id c) (m_block_sec c) count (m_should_read_pending c) c)).
Definition read_options (group : Str) (c : consumer) : xreadgroup_options_t :=
  mkXreadgroup group (m_name c) [m_stream c] [m_read_id c] (m_read_count c) (m_block_sec c) false.
(** One turn of the loop of [poll], up to the wait of [sync_commit]. *)
Definition poll_turn (c : consumer) : option consumer :=
  match at_ c with
  | Polling [] => Some (set_at Looping c)
  | Polling (g :: rest) =>
      let '(ok, p) := commit (xreadgroup (read_options g c) (Some (User 0)) (poll_client c)) in
      Some (set_at (if ok then Awaiting rest else Left false) (set_poll p c))
  | _ => None
  end.
Definition synced (c : consumer) : option consumer :=
  match at_ c with
  | Awaiting rest => if sync_done (poll_client c) then Some (set_at (Polling rest) c) else None
  | _ => None
  end.

(** What the lambda prints of a message: the id and the values, until one that is
    not a string, which throws. *)
Fixpoint value_lines (vs : list (Str * reply)) : list Str * bool :=
  match vs with
  | [] => ([], true)
  | (key, v) :: vs =>
      match as_string v with
      | Ret s => let '(ls, ok) := value_lines vs in ((key ++ [","%char] ++ s) :: ls, ok)
      | _ => ([key ++ [","%char]], false)
      end
  end.
Fixpoint message_lines (ms : list message_type) : list Str * bool :=
  match ms with
  | [] => ([], true)
  | m :: ms =>
      let '(ls, ok) := value_lines (m_values m) in
      if ok then let '(ls', ok) := message_lines ms in ((m_id m :: ls) ++ ls', ok) else (m_id m :: ls, false)
  end.

(** The lambda: the messages are printed and nothing else, the calls that
    dispatched and acknowledged them are commented out.  False is an exception. *)
Definition poll_callback (r : reply) (c : consumer) : option (bool * consumer) :=
  match xstream_reply r with
  | Ret s_reply =>
      if negb (xs_is_null s_reply) then
        let '(ls, ok) := message_lines (s_reply ≫= Messages) in Some (ok, print ls c)
      else if m_should_read_pending c then Some (true, set_reading (chars ">") 0 1 false c)
      else Some (true, c)
  | Throw _ => Some (false, c)
  | _ => None
  end.

(** ** The threads of the poll client *)
Definition is_poll (k : option callback) : bool := match k with Some (User 0) => true | _ => false end.
(** A reply is received: an exception of the callback leaves
    [connection_receive_handler] before it counts the callback as done. *)
Definition receive_reply (r : reply) (c : consumer) : option consumer :=
  let c' := set_poll (connection_receive_handler r (poll_client c)) c in
  match m_commands (poll_client c) with
  | q :: _ =>
      if is_poll (cb q) then
        match poll_callback r c' with
        | Some (true, c) => Some c
        | Some (false, c) => Some (set_poll (set_running (poll_client c) (m_callbacks_running (poll_client c) + 1)) c)
        | None => None
        end
      else Some c'
  | [] => Some c'
  end.
(** The detached thread of [clear_callbacks]: its calls get an error; an exception
    there would end the process, but an error reply has nothing that throws. *)
Definition report_failure (i : nat) (c : consumer) : option consumer :=
  match failing (poll_client c) !! i with
  | Some (q :: _) =>
      let c' := set_poll (thread_step i (poll_client c)) c in
      if is_poll (cb q) then snd <$> poll_callback network_failure c' else Some c'
  | _ => None
  end.
Definition connection_lost (script : list attempt) (c : consumer) : option consumer :=
  match on_read None script (poll_client c) with
  | Some (Returned, p) | Some (Escaped, p) => Some (set_poll p c)
  | _ => None
  end.

(** A worker of the queue, with its call of [dispatch_changed_handler]. *)
Definition by_queue (e : dq_event) : bool :=
  match e with DNotify | WSection _ | WReturn _ | WThrow _ | WAlone _ => true | _ => false end.
Definition queue_event (e : dq_event) (c : consumer) : option consumer :=
  if by_queue e then
    match dq_step e (m_dispatch_queue c) with
    | Some (q, notified) =>
        let c := set_queue q (dispatch_queue_full c) c in
        Some (match notified with Some size => dispatch_changed_handler size c | None => c end)
    | None => None
    end
  else None.

Inductive consumer_event :=
  | CSubscribe (group : Str) (cbs : consumer_callback_container)
  | CConnect (host : Str) (port : Z) (has_callback : bool) (max_reconnects interval : Z) (ups : bool * bool)
  | CAuth (password : Str) (k : option nat)
  | CCommit | CTurn | CPoll | CSynced
  | CReceive (r : reply) | CFail (i : nat) | CLost (script : list attempt)
  | CQueue (e : dq_event).
Definition when (b : bool) (c : consumer) : option consumer := if b then Some c else None.
Definition consumer_step (e : consumer_event) (c : consumer) : option consumer :=
  match e with
  | CSubscribe g cbs => when (outside c) (subscribe g cbs c)
  | CConnect h p k m i ups => when (outside c) (connect_consumer h p k m i ups c).2
  | CAuth p k => when (outside c) (auth p k c)
  | CCommit => when (outside c) (set_at Looping c)
  | CTurn => match at_ c with Looping => commit_turn c | _ => None end
  | CPoll => poll_turn c
  | CSynced => synced c
  | CReceive r => receive_reply r c
  | CFail i => report_failure i c
  | CLost script => connection_lost script c
  | CQueue e => queue_event e c
  end.
Fixpoint consumer_run (es : list consumer_event) (c : consumer) : option consumer :=
  match es with
  | [] => Some c
  | e :: es => match consumer_step e c with Some c => consumer_run es c | None => None end
  end.

(** ** The consumer of a stream: theorems

    What the consumer reads, and when it changes from the messages that are pending
    to new ones ([reading_mode]); that it hands nothing to its callbacks
    ([nothing_is_handled]); an error ends the reading of pending messages for every
    group ([error_ends_pending]); a value that is not a string stalls it
    ([nested_value_stalls]). *)
(** ** The callbacks a client called *)
Definition answers (cl : client) : list (callback * reply) :=
  events cl ≫= λ e, match e with Called k r => [(k, r)] | _ => [] end.

Lemma answers_emit cl e :
  answers (emit cl e) = answers cl ++ match e with Called k r => [(k, r)] | _ => [] end.
Proof. unfold answers. cbn [emit events]. rewrite bind_app. cbn. by rewrite app_nil_r. Qed.
Lemma answers_notify s cl : answers (notify s cl) = answers cl.
Proof. unfold notify. destruct (m_connect_callback _); [|done]. by rewrite answers_emit, app_nil_r. Qed.
Lemma answers_clear cl : answers (clear_callbacks cl) = answers cl.
Proof. unfold clear_callbacks. by destruct (m_commands cl). Qed.
Lemma answers_try_commit cl : answers (try_commit cl).2 = answers cl.
Proof. unfold try_commit. destruct (cn_commit (m_client cl)) as [[] k]; [done|]. cbn [snd]. by rewrite answers_clear. Qed.
Lemma answers_commit cl : answers (commit cl).2 = answers cl.
Proof. unfold commit. destruct (is_reconnecting cl); [done|]. apply answers_try_commit. Qed.
Lemma answers_call k r cl :
  answers (call k r cl) = answers cl ++ match k with Some k => [(k, r)] | None => [] end.
Proof. destruct k as [k|]; cbn [call]; [apply answers_emit|by rewrite app_nil_r]. Qed.
Lemma answers_receive r cl :
  answers (connection_receive_handler r cl) =
  answers cl ++ match m_commands cl with q :: _ => match cb q with Some k => [(k, r)] | None => [] end | [] => [] end.
Proof.
  unfold connection_receive_handler. change (m_commands (set_running cl ?n)) with (m_commands cl).
  destruct (m_commands cl) as [|q rest]; [by rewrite app_nil_r|].
  change (answers (set_running ?x ?n)) with (answers x). by rewrite answers_call.
Qed.
Lemma answers_connect h p b m i up cl : answers (connect h p b m i up cl).2 = answers cl.
Proof.
  unfold connect. destruct (cn_connect up _) as [[] k]; cbn [snd]; rewrite ?answers_notify;
    match goal with |- answers (set_client ?x _) = _ => change (answers x = answers cl) end; by rewrite answers_notify.
Qed.
Lemma answers_resend cl : answers (resend_failed_commands cl) = answers cl.
Proof.
  unfold resend_failed_commands. change (answers cl) with (answers (set_commands cl [])).
  generalize (set_commands cl []). induction (m_commands cl) as [|q qs IH]; intros x; cbn [foldl]; [done|]. by rewrite IH.
Qed.
Lemma answers_reconnect a cl : answers (reconnect a cl).2 = answers cl.
Proof.
  unfold reconnect. destruct (lookup_master a _) as [found c1] eqn:Hl.
  assert (answers c1 = answers cl) as Hc by (unfold lookup_master, ask_sentinel in Hl; repeat case_match; by simplify_eq).
  destruct found as [[]|]; [|cbn [snd]; by rewrite answers_notify, Hc|done].
  destruct (connect _ _ _ _ _ _ c1) as [ok c2] eqn:Hcn.
  assert (answers c2 = answers cl) as Hc2 by (rewrite <-Hc; change c2 with (ok, c2).2; rewrite <-Hcn; apply answers_connect).
  destruct (negb _); [cbn [snd]; by rewrite answers_notify, Hc2|].
  rewrite answers_try_commit.
  enough (answers (resend_failed_commands (re_select (re_auth (notify st_ok c2)))) = answers cl) as H
    by (by destruct (at_alive a)).
  rewrite answers_resend. unfold re_select, re_auth. rewrite <-Hc2, <-(answers_notify st_ok c2).
  by case_bool_decide; destruct (_ <=? 0).
Qed.
Lemma answers_reconnect_loop script cl : answers (reconnect_loop script cl).2 = answers cl.
Proof.
  revert cl. induction script as [|a script IH]; intros cl; cbn [reconnect_loop];
    destruct (should_reconnect cl); try done.
  destruct (reconnect a _) as [ok c1] eqn:Hr.
  assert (answers c1 = answers cl) as Hc.
  { change c1 with (ok, c1).2. rewrite <-Hr, answers_reconnect. unfold sleep_before_next_reconnect_attempt.
    destruct (_ <=? 0); [done|apply answers_notify]. }
  destruct ok; [by rewrite IH|done].
Qed.
Lemma answers_dropped script cl oc : on_read None script cl = Some oc → answers oc.2 = answers cl.
Proof.
  intros [= <-]. unfold call_disconnection_handler. destruct (cn_handlers _); [|done].
  unfold connection_disconnection_handler. destruct (is_reconnecting _); [done|].
  match goal with |- context [reconnect_loop script ?x] =>
    pose proof (answers_reconnect_loop script x) as H; rewrite answers_notify in H;
    destruct (reconnect_loop script x) as [[] c1]; [|exact H..] end.
  cbn [snd] in *. change (answers (set_reconnecting ?x false)) with (answers x).
  destruct (is_connected c1); [done|]. by rewrite answers_notify, answers_clear.
Qed.

(** ** What is read *)

(** A call of the lambda that found nothing among the given ones. *)
Definition ended (answered : list (callback * reply)) : Prop :=
  ∃ r xs, (User 0, r) ∈ answered ∧ xstream_reply r = Ret xs ∧ xs_is_null xs = true.
Definition mode (answered : list (callback * reply)) (c : consumer) : Prop :=
  (ended answered ∧ m_should_read_pending c = false ∧ m_read_id c = chars ">" ∧ m_block_sec c = 0) ∨
  (¬ ended answered ∧ m_should_read_pending c = true ∧ m_read_id c = chars "0" ∧ m_block_sec c = -1).
Definition moded (c : consumer) : Prop := mode (answers (poll_client c)) c.

Lemma mode_frame A c c' : mode A c →
  m_should_read_pending c' = m_should_read_pending c → m_read_id c' = m_read_id c → m_block_sec c' = m_block_sec c →
  mode A c'.
Proof. unfold mode. by intros H -> -> ->. Qed.
Lemma ended_snoc A k r : ended (A ++ [(k, r)]) ↔
  ended A ∨ k = User 0 ∧ ∃ xs, xstream_reply r = Ret xs ∧ xs_is_null xs = true.
Proof.
  split.
  - intros (r' & xs & [Hin|Hin%list_elem_of_singleton]%elem_of_app & H); [left; by exists r', xs|].
    simplify_eq. right. split; [done|by exists xs].
  - intros [(r' & xs & Hin & H)|[-> (xs & H)]]; [exists r', xs|exists r, xs]; (split; [|done]);
      apply elem_of_app; [by left|right]. by apply list_elem_of_singleton.
Qed.
Lemma mode_snoc A k r c : (k = User 0 → ∀ xs, xstream_reply r = Ret xs → xs_is_null xs = false) →
  mode A c → mode (A ++ [(k, r)]) c.
Proof.
  intros Hk. assert (ended (A ++ [(k, r)]) ↔ ended A) as E; [|unfold mode; by rewrite E].
  rewrite ended_snoc. split; [|by left]. intros [?|(-> & xs & H & Hn)]; [done|].
  by rewrite (Hk eq_refl xs H) in Hn.
Qed.
Lemma mode_snoc_other A k r c : k ≠ User 0 → mode A c → mode (A ++ [(k, r)]) c.
Proof. intros Hk. by apply mode_snoc. Qed.
Lemma poll_callback_mode A r c ok c' : mode A c → poll_callback r c = Some (ok, c') →
  mode (A ++ [(User 0, r)]) c' ∧ poll_client c' = poll_client c.
Proof.
  unfold poll_callback. intros Hm. destruct (xstream_reply r) as [xs|e| |] eqn:Hx; try done.
  - destruct (xs_is_null xs) eqn:Hn; cbn [negb].
    + assert (ended (A ++ [(User 0, r)])) as He by (apply ended_snoc; right; by eauto).
      destruct Hm as [(_ & Hp & H)|(_ & Hp & _)]; rewrite Hp; intros [= <- <-]; (split; [left|done]); by split.
    + destruct (message_lines _) as [ls o]. intros [= <- <-]. split; [|done].
      apply (mode_frame _ c); [|done..]. apply mode_snoc; [|done]. intros _ xs' E. congruence.
  - intros [= <- <-]. split; [|done]. apply mode_snoc; [|done]. intros _ xs E. congruence.
Qed.
Lemma receive_reply_moded r c c' : moded c → receive_reply r c = Some c' → moded c'.
Proof.
  unfold moded, receive_reply. intros Hm. pose proof (answers_receive r (poll_client c)) as Ha.
  set (c1 := set_poll _ c). assert (poll_client c1 = connection_receive_handler r (poll_client c)) as Hp by done.
  destruct (m_commands (poll_client c)) as [|q rest].
  { intros [= <-]. rewrite Hp, Ha, app_nil_r. by apply (mode_frame _ c). }
  destruct (cb q) as [k|]; cbn [is_poll].
  2: { intros [= <-]. rewrite Hp, Ha, app_nil_r. by apply (mode_frame _ c). }
  destruct (decide (k = User 0)) as [->|Hk].
  - destruct (poll_callback r c1) as [[ok c2]|] eqn:Hcb; [|done].
    destruct (poll_callback_mode (answers (poll_client c)) r c1 ok c2) as [Hm2 Hp2]; [by apply (mode_frame _ c)|done|].
    assert (answers (poll_client c2) = answers (poll_client c) ++ [(User 0, r)]) as E by (by rewrite Hp2, Hp, Ha).
    destruct ok; intros [= <-]; [by rewrite E|].
    change (mode (answers (poll_client c2)) c2). by rewrite E.
  - assert (∀ o : option consumer, (if match k with User 0 => true | _ => false end then o else Some c1) = Some c1) as ->
      by (by destruct k as [[]| |]).
    intros [= <-]. rewrite Hp, Ha. by apply mode_snoc_other, (mode_frame _ c).
Qed.
Lemma report_failure_moded i c c' : moded c → report_failure i c = Some c' → moded c'.
Proof.
  unfold moded, report_failure. intros Hm. destruct (failing (poll_client c) !! i) as [[|q qs]|] eqn:Hi; try done.
  set (c1 := set_poll _ c).
  assert (answers (poll_client c1) =
    answers (poll_client c) ++ match cb q with Some k => [(k, network_failure)] | None => [] end) as Ha.
  { change (poll_client c1) with (thread_step i (poll_client c)). unfold thread_step. rewrite Hi.
    change (answers (set_failing ?x ?f)) with (answers x). change (answers (set_running ?x ?n)) with (answers x).
    apply answers_call. }
  destruct (cb q) as [k|]; cbn [is_poll].
  2: { intros [= <-]. rewrite Ha, app_nil_r. by apply (mode_frame _ c). }
  destruct (decide (k = User 0)) as [->|Hk].
  - destruct (poll_callback network_failure c1) as [[ok c2]|] eqn:Hcb; [|done]. intros [= <-].
    destruct (poll_callback_mode (answers (poll_client c)) network_failure c1 ok c2) as [Hm2 Hp2];
      [by apply (mode_frame _ c)|done|]. by rewrite Hp2, Ha.
  - assert (∀ o : option consumer, (if match k with User 0 => true | _ => false end then o else Some c1) = Some c1) as ->
      by (by destruct k as [[]| |]).
    intros [= <-]. rewrite Ha. by apply mode_snoc_other, (mode_frame _ c).
Qed.

(** A step that leaves the settings of the reading and calls nothing. *)
Definition same_reading (c c' : consumer) : Prop :=
  m_should_read_pending c' = m_should_read_pending c ∧ m_read_id c' = m_read_id c ∧
  m_block_sec c' = m_block_sec c ∧ answers (poll_client c') = answers (poll_client c).
Lemma same_reading_moded c c' : same_reading c c' → moded c → moded c'.
Proof. unfold moded. intros (H1 & H2 & H3 & H4) Hm. rewrite H4. by eapply mode_frame. Qed.
Lemma connect_same_reading h p k m i ups c : same_reading c (connect_consumer h p k m i ups c).2.
Proof.
  unfold connect_consumer. destruct (connect _ _ _ _ _ ups.1 _) as [[] a]; [|done].
  match goal with |- context [connect ?a1 ?a2 ?a3 ?a4 ?a5 ?a6 ?x] =>
    pose proof (answers_connect a1 a2 a3 a4 a5 a6 x) as H; destruct (connect a1 a2 a3 a4 a5 a6 x) as [ok q] end.
  by split_and!.
Qed.
Lemma poll_turn_same_reading c c' : poll_turn c = Some c' → same_reading c c'.
Proof.
  unfold poll_turn. destruct (at_ c) as [| |[|g rest]| |]; try done; [by intros [= <-]|].
  match goal with |- context [commit ?x] =>
    pose proof (answers_commit x) as H; destruct (commit x) as [ok p] end.
  intros [= <-]. by split_and!.
Qed.
Lemma queue_event_same_reading e c c' : queue_event e c = Some c' → same_reading c c'.
Proof.
  unfold queue_event. destruct (by_queue e); [|done]. destruct (dq_step e _) as [[q notified]|]; [|done].
  intros [= <-]. destruct notified; [|done]. unfold dispatch_changed_handler. by case_match.
Qed.
Lemma consumer_step_moded e c c' : moded c → consumer_step e c = Some c' → moded c'.
Proof.
  intros Hm. destruct e; cbn [consumer_step]; unfold when.
  - destruct (outside c); [|done]. intros [= <-]. by eapply same_reading_moded.
  - destruct (outside c); [|done]. intros [= <-]. eapply same_reading_moded; [apply connect_same_reading|done].
  - destruct (outside c); [|done]. intros [= <-]. by eapply same_reading_moded.
  - destruct (outside c); [|done]. intros [= <-]. by eapply same_reading_moded.
  - unfold commit_turn. repeat case_match; try done; intros [= <-]; by eapply same_reading_moded.
  - intros H. eapply same_reading_moded; [by apply poll_turn_same_reading|done].
  - unfold synced. repeat case_match; try done; intros [= <-]; by eapply same_reading_moded.
  - by apply receive_reply_moded.
  - by apply report_failure_moded.
  - unfold connection_lost. destruct (on_read None script _) as [oc|] eqn:Ho; [|done].
    pose proof (answers_dropped _ _ _ Ho) as Ha. destruct oc as [[] p]; try done; intros [= <-];
      (apply (same_reading_moded c); [by split_and!|done]).
  - intros H. eapply same_reading_moded; [by eapply queue_event_same_reading|done].
Qed.

(** The stream and the name stay those of the constructor. *)
Definition same_names (c c' : consumer) : Prop := m_stream c' = m_stream c ∧ m_name c' = m_name c.
Lemma poll_callback_names r c ok c' : poll_callback r c = Some (ok, c') → same_names c c'.
Proof. unfold poll_callback. repeat case_match; intros; by simplify_eq. Qed.
Lemma consumer_step_names e c c' : consumer_step e c = Some c' → same_names c c'.
Proof.
  destruct e; cbn [consumer_step]; unfold when, commit_turn, poll_turn, synced, connection_lost, queue_event, connect_consumer,
    dispatch_changed_handler;
    try (repeat case_match; intros; by simplify_eq).
  - unfold receive_reply. repeat case_match; intros; simplify_eq; try done;
      by match goal with H : poll_callback _ _ = Some _ |- _ => apply poll_callback_names in H end.
  - unfold report_failure. destruct (failing _ !! i) as [[|q qs]|]; try done. destruct (is_poll _); [|by intros [= <-]].
    destruct (poll_callback network_failure _) as [[o c2]|] eqn:E; [|done]. intros [= <-]. by apply poll_callback_names in E.
Qed.

(** The read of a group: of the messages that are pending for this consumer from the
    first on, or of new ones, waiting for them without end *)
Inductive wanted := PendingMessages | NewMessages.
Definition group_read (w : wanted) (stream name group : Str) (count : Z) : list Str :=
  [chars "XREADGROUP"; chars "GROUP"; group; name] ++ (if 0 <? count then [chars "COUNT"; signed_dec count] else []) ++
  match w with
  | PendingMessages => [chars "STREAMS"; stream; chars "0"]
  | NewMessages => [chars "BLOCK"; chars "0"; chars "STREAMS"; stream; chars ">"]
  end.
(** In the loop of [poll] the next turn sends that read for the next group, with the
    lambda as its callback, commits it, and waits. *)
Definition next_reads (w : wanted) (stream name : Str) (c : consumer) : Prop := ∀ g rest, at_ c = Polling (g :: rest) →
  ∃ ok p, commit (send (group_read w stream name g (m_read_count c)) (Some (User 0)) (poll_client c)) = (ok, p) ∧
    poll_turn c = Some (set_at (if ok then Awaiting rest else Left false) (set_poll p c)).
Lemma mode_reads w c :
  m_read_id c = chars (match w with PendingMessages => "0" | NewMessages => ">" end) →
  m_block_sec c = match w with PendingMessages => -1 | NewMessages => 0 end → next_reads w (m_stream c) (m_name c) c.
Proof.
  intros Hid Hb g rest Hat. destruct (commit (send (group_read w (m_stream c) (m_name c) g (m_read_count c)) (Some (User 0)) (poll_client c)))
    as [ok p] eqn:Hc. exists ok, p. split; [done|]. unfold poll_turn. rewrite Hat.
  assert (xreadgroup (read_options g c) = send (group_read w (m_stream c) (m_name c) g (m_read_count c))) as ->; [|by rewrite Hc].
  unfold xreadgroup, read_options, group_read. cbn [xg_Group xg_Consumer xg_Count xg_Block xg_NoAck xg_keys xg_ids].
  rewrite Hid, Hb. by destruct w.
Qed.

(** C39. What a consumer reads: until a call of the lambda finds no stream or one
    without messages, every read asks for the messages that are pending from the
    first on, again and again; from then on every read of every group asks for new
    messages and waits for them: the next command that is sent to the server is that
    read.  Whether the call was answered for the same group, or at all, does not
    matter. *)
Theorem reading_mode moved stream name n es c :
  consumer_run es (new_consumer moved stream name n) = Some c →
  (ended (answers (poll_client c)) ∧ m_read_id c = chars ">" ∧ m_block_sec c = 0 ∧ next_reads NewMessages stream name c) ∨
  (¬ ended (answers (poll_client c)) ∧ m_read_id c = chars "0" ∧ m_block_sec c = -1 ∧ next_reads PendingMessages stream name c).
Proof.
  assert (∀ c0, moded c0 → consumer_run es c0 = Some c → moded c ∧ same_names c0 c) as H.
  { induction es as [|e es IH]; intros c0 Hm; cbn [consumer_run]; [by intros [= <-]|].
    destruct (consumer_step e c0) as [c1|] eqn:E; [|done]. intros Hr.
    destruct (IH c1) as [Hm' [Hs Hn]]; [by eapply consumer_step_moded|done|]. apply consumer_step_names in E as [Es En].
    split; [done|]. split; congruence. }
  intros Hr. assert (moded (new_consumer moved stream name n)) as Hnew.
  { right. split_and!; try done. by intros (r & xs & Hin%not_elem_of_nil & _). }
  destruct (H _ Hnew Hr) as [Hm [Hs Hn]]. cbn in Hs, Hn. rewrite <-Hs, <-Hn.
  destruct Hm as [(? & _ & ? & ?)|(? & _ & ? & ?)]; [left|right]; split_and!; try done; by apply mode_reads.
Qed.

(** ** What is handled *)
Record quiet (c : consumer) : Prop := {
  qt_workers : 0 < m_max_concurrency c;
  qt_ready : is_ready c = false;
  qt_at : at_ c ≠ Left true;
  qt_full : dispatch_queue_full c = false;
  qt_queue : m_mq (m_dispatch_queue c) = [] ∧ taken (m_dispatch_queue c) = [] ∧ m_quit (m_dispatch_queue c) = false;
  qt_ack : ∀ q, q ∈ m_commands (ack_client c) → ∃ pw, command q = [chars "AUTH"; pw]
}.
Lemma quiet_frame c c' : quiet c →
  m_max_concurrency c' = m_max_concurrency c → is_ready c' = is_ready c → at_ c' ≠ Left true →
  dispatch_queue_full c' = dispatch_queue_full c → m_dispatch_queue c' = m_dispatch_queue c →
  m_commands (ack_client c') = m_commands (ack_client c) → quiet c'.
Proof. intros [H1 H2 H3 H4 H5 H6] E1 E2 E3 E4 E5 E6. constructor; by rewrite ?E1, ?E2, ?E4, ?E5, ?E6. Qed.
Lemma connect_keeps_commands h p b m i up cl : m_commands (connect h p b m i up cl).2 = m_commands cl.
Proof.
  unfold connect, notify. destruct (cn_connect up _) as [[] k]; cbn [snd]; by repeat case_match.
Qed.
Lemma poll_callback_quiet r c ok c' : quiet c → poll_callback r c = Some (ok, c') → quiet c'.
Proof.
  intros Hq. pose proof (qt_at _ Hq). unfold poll_callback.
  destruct (xstream_reply r) as [xs|e| |]; try done; [|by intros [= <- <-]].
  destruct (negb _); [destruct (message_lines _)|destruct (m_should_read_pending c)];
    intros [= <- <-]; by apply (quiet_frame c).
Qed.
Lemma queue_event_quiet e c c' : quiet c → queue_event e c = Some c' → quiet c'.
Proof.
  intros [H1 H2 H3 H4 (H5 & H6 & H7) H8]. unfold queue_event. destruct (by_queue e) eqn:He; [|done].
  unfold dq_step. destruct (terminated _); [done|].
  assert (∀ q, m_mq q = [] ∧ taken q = [] ∧ m_quit q = false → quiet (set_queue q (dispatch_queue_full c) c)) as Hset
    by (intros q Hq; by constructor).
  destruct e; try done.
  - unfold notify_all_workers. destruct (due _); [done|]. intros [= <-]. by apply Hset.
  - destruct (section i (m_dispatch_queue c)) as [r|] eqn:Hr; [|done].
    apply section_inv in Hr as (_ & [->|(Hq & _)]); [|congruence].
    unfold loop_body. rewrite H5, H7. intros [= <-]. by apply Hset.
  - unfold callback_over. destruct (_ !! i) as [[]|]; try done. intros [= <-]. by apply Hset.
  - unfold callback_throws. destruct (_ !! i) as [[]|]; try done. intros [= <-]. by apply Hset.
  - unfold wake_alone. destruct (_ !! i) as [[]|]; try done. intros [= <-]. by apply Hset.
Qed.
Lemma consumer_step_quiet e c c' : quiet c → consumer_step e c = Some c' → quiet c'.
Proof.
  intros Hq. pose proof Hq as [H1 H2 H3 H4 (H5 & H6 & H7) H8].
  destruct e; cbn [consumer_step]; unfold when; try (destruct (outside c); [|done]).
  - intros [= <-]. by apply (quiet_frame c).
  - intros [= <-]. unfold connect_consumer.
    pose proof (connect_keeps_commands host port has_callback max_reconnects interval ups.1 (ack_client c)) as Hk.
    destruct (connect _ _ _ _ _ ups.1 _) as [[] a]; [destruct (connect _ _ _ _ _ ups.2 _) as [ok p]|];
      by apply (quiet_frame c).
  - intros [= <-]. constructor; try done. cbn. intros q [Hin|Hin%list_elem_of_singleton]%elem_of_app; [by apply H8|].
    rewrite Hin. by eexists.
  - intros [= <-]. by apply (quiet_frame c).
  - destruct (at_ c); try done. unfold commit_turn. rewrite H2, H4. intros [= <-]. by apply (quiet_frame c).
  - unfold poll_turn. destruct (at_ c) as [| |[|g rest]| |]; try done; [intros [= <-]; by apply (quiet_frame c)|].
    destruct (commit _) as [ok p]. intros [= <-]. apply (quiet_frame c); try done. by destruct ok.
  - unfold synced. repeat case_match; try done; intros [= <-]; by apply (quiet_frame c).
  - unfold receive_reply. set (c1 := set_poll _ c). assert (quiet c1) as Hq1 by (by apply (quiet_frame c)).
    clearbody c1. destruct (m_commands (poll_client c)) as [|q rest]; [by intros [= <-]|]. destruct (is_poll _); [|by intros [= <-]].
    destruct (poll_callback r c1) as [[ok c2]|] eqn:E; [|done]. pose proof (poll_callback_quiet _ _ _ _ Hq1 E) as Hq2.
    pose proof (qt_at _ Hq2). destruct ok; intros [= <-]; [done|by apply (quiet_frame c2)].
  - unfold report_failure. set (c1 := set_poll _ c). assert (quiet c1) as Hq1 by (by apply (quiet_frame c)).
    clearbody c1. destruct (failing _ !! i) as [[|q qs]|]; try done. destruct (is_poll _); [|by intros [= <-]].
    destruct (poll_callback _ c1) as [[ok c2]|] eqn:E; [|done]. intros [= <-]. by eapply poll_callback_quiet.
  - unfold connection_lost. destruct (on_read _ _ _) as [[[] p]|]; try done; intros [= <-]; by apply (quiet_frame c).
  - by apply queue_event_quiet.
Qed.

(** Nothing is handled: however a consumer is used, its [commit] never returns
    but by an exception, no message is ever given to a callback or even queued for
    one, the queue never counts as full, and the client that acknowledges messages
    is sent nothing but the password. *)
Theorem nothing_is_handled moved stream name n es c :
  0 < n → consumer_run es (new_consumer moved stream name n) = Some c →
  at_ c ≠ Left true ∧ dispatch_queue_full c = false ∧
  m_mq (m_dispatch_queue c) = [] ∧ taken (m_dispatch_queue c) = [] ∧
  ∀ q, q ∈ m_commands (ack_client c) → ∃ pw, command q = [chars "AUTH"; pw].
Proof.
  intros Hn. assert (∀ c0, quiet c0 → consumer_run es c0 = Some c → quiet c) as H.
  { induction es as [|e es IH]; intros c0 Hm; cbn [consumer_run]; [by intros [= <-]|].
    destruct (consumer_step e c0) as [c1|] eqn:E; [|done]. apply IH. by eapply consumer_step_quiet. }
  intros Hr. assert (quiet (new_consumer moved stream name n)) as Hnew by (constructor; try done; by intros q ?%not_elem_of_nil).
  by destruct (H _ Hnew Hr) as [H1 H2 H3 H4 (H5 & H6 & H7) H8].
Qed.

(** ** A run: two groups, with a message pending in the second *)
Definition a_callback : consumer_callback_container := mkCallbacks 1 None.
Definition start_run : list consumer_event :=
  [CSubscribe (chars "g1") a_callback; CSubscribe (chars "g2") a_callback;
   CConnect (chars "h") 6379 false 0 0 (true, true); CCommit; CQueue (WSection 0); CTurn; CPoll].
Definition started_consumer : consumer :=
  default (new_consumer [] [] [] 0) (consumer_run start_run (new_consumer [] (chars "s") (chars "me") 2)).
Definition pending_reply : reply :=
  streams_reply [(chars "s", [mkEntry (chars "1-0") [(chars "k", chars "v")]])].
Definition no_group : reply := reply_str (chars "NOGROUP") st_error.
Definition after (es : list consumer_event) : option consumer := consumer_run es started_consumer.
Definition last_command (c : consumer) : option (list Str) := command <$> last (m_commands (poll_client c)).
Definition read_command (group count : string) (block : list Str) (id : string) : list Str :=
  [chars "XREADGROUP"; chars "GROUP"; chars group; chars "me"; chars "COUNT"; chars count] ++ block ++
  [chars "STREAMS"; chars "s"; chars id].

Lemma reading_mode_witness :
  ∃ c, consumer_run (start_run ++ [CReceive no_group; CSynced])
         (new_consumer [] (chars "s") (chars "me") 2) = Some c ∧ at_ c = Polling [chars "g2"] ∧
    ((ended (answers (poll_client c)) ∧ m_read_id c = chars ">" ∧ m_block_sec c = 0 ∧ next_reads NewMessages (chars "s") (chars "me") c) ∨
     (¬ ended (answers (poll_client c)) ∧ m_read_id c = chars "0" ∧ m_block_sec c = -1 ∧ next_reads PendingMessages (chars "s") (chars "me") c)).
Proof.
  eexists. split; [vm_compute; reflexivity|]. split; [vm_compute; reflexivity|].
  apply (reading_mode [] (chars "s") (chars "me") 2 (start_run ++ [CReceive no_group; CSynced])).
  vm_compute. reflexivity.
Defined.
Lemma nothing_is_handled_witness :
  ∃ c, consumer_run (start_run ++ [CReceive pending_reply]) (new_consumer [] (chars "s") (chars "me") 2) = Some c ∧
    printed c = [chars "1-0"; chars "k,v"] ∧ taken (m_dispatch_queue c) = [].
Proof.
  eexists. split; [vm_compute; reflexivity|]. split; [vm_compute; reflexivity|].
  apply (nothing_is_handled [] (chars "s") (chars "me") 2 (start_run ++ [CReceive pending_reply]));
    [reflexivity|vm_compute; reflexivity].
Defined.

(** What was pending is read again in the next turn, and printed again. *)
Example pending_read_again :
  ∃ c, after [CReceive pending_reply; CSynced; CPoll; CReceive pending_reply; CSynced; CPoll; CTurn; CPoll;
              CReceive pending_reply] = Some c ∧
    printed c = [chars "1-0"; chars "k,v"; chars "1-0"; chars "k,v"; chars "1-0"; chars "k,v"].
Proof. eexists. split; vm_compute; reflexivity. Qed.
(** An error for the first group ends the reading of pending messages for the
    second, whose pending messages are never read; and in this turn the second is
    asked for one message instead of two. *)
Example error_ends_pending :
  (last_command started_consumer = Some (read_command "g1" "2" [] "0")) ∧
  ∃ c, after [CReceive no_group; CSynced; CPoll] = Some c ∧
    last_command c = Some (read_command "g2" "1" [chars "BLOCK"; chars "0"] ">").
Proof. split; [vm_compute; reflexivity|]. eexists. split; vm_compute; reflexivity. Qed.
(** A value that is not a string throws out of the lambda: the client counts the
    callback as running for ever, and [sync_commit] waits for it. *)
Definition nested_reply : reply :=
  reply_rows [reply_rows [bulk (chars "s"); reply_rows [reply_rows [bulk (chars "1-0");
    reply_rows [bulk (chars "k"); reply_int 5]]]]].
Example nested_value_stalls :
  ∃ c, after [CReceive nested_reply] = Some c ∧ m_commands (poll_client c) = [] ∧
    m_callbacks_running (poll_client c) = 1 ∧ synced c = None.
Proof. eexists. split_and!; vm_compute; reflexivity. Qed.
