(* ===== verification/ThreadPool.v ===== *)
(** * [tacopie]: the thread pool

    [tacopie/utils/thread_pool.cpp].  The worker loop is cut where threads
    interleave.  [fetch_task_or_stop] evaluates the predicate of its wait under
    the mutex of the tasks; it then blocks, which releases the mutex, or asks
    again whether to stop and takes a task.  [stop] and [set_nb_threads] write
    the atomic variables and notify without that mutex, so they may happen in
    between.  A task is a number; [started] lists the tasks in the order they
    were taken. *)

From S2P Require Import Prelude CppBase.

(** Where a worker is: in [fetch_task_or_stop] and not blocked, blocked on the
    condition variable, running a task, gone; or past [front()] of an empty
    queue, which is undefined. *)
Inductive worker := Checking | Blocked | Running (t : nat) | Stopped | Undefined.
#[global] Instance worker_eq_dec : EqDecision worker.
Proof. solve_decision. Defined.

(** [m_tasks_mtx] is the worker that holds the mutex, with the value its
    predicate had. *)
Record thread_pool := mkPool {
  m_tasks : list nat;
  m_workers : list worker;
  m_tasks_mtx : option (nat * bool);
  m_should_stop : bool;
  m_max_nb_threads : nat;
  m_nb_running_threads : nat;
  started : list nat
}.

Definition set_tasks (q started : list nat) (s : thread_pool) : thread_pool :=
  mkPool q (m_workers s) (m_tasks_mtx s) (m_should_stop s) (m_max_nb_threads s) (m_nb_running_threads s) started.
Definition set_workers (w : list worker) (s : thread_pool) : thread_pool :=
  mkPool (m_tasks s) w (m_tasks_mtx s) (m_should_stop s) (m_max_nb_threads s) (m_nb_running_threads s) (started s).
Definition set_mtx (m : option (nat * bool)) (s : thread_pool) : thread_pool :=
  mkPool (m_tasks s) (m_workers s) m (m_should_stop s) (m_max_nb_threads s) (m_nb_running_threads s) (started s).
Definition set_running (n : nat) (s : thread_pool) : thread_pool :=
  mkPool (m_tasks s) (m_workers s) (m_tasks_mtx s) (m_should_stop s) (m_max_nb_threads s) n (started s).
Definition set_max (n : nat) (s : thread_pool) : thread_pool :=
  mkPool (m_tasks s) (m_workers s) (m_tasks_mtx s) (m_should_stop s) n (m_nb_running_threads s) (started s).

Definition is_running (s : thread_pool) : bool := negb (m_should_stop s).
Definition should_stop (s : thread_pool) : bool :=
  m_should_stop s || (m_max_nb_threads s <? m_nb_running_threads s)%nat.

(** ** The condition variable *)
Definition wake (w : worker) : worker := match w with Blocked => Checking | _ => w end.
Definition notify_all (s : thread_pool) : thread_pool := set_workers (wake <$> m_workers s) s.
Definition is_blocked (s : thread_pool) (i : nat) : bool := bool_decide (m_workers s !! i = Some Blocked).
(** [notify_one] wakes some blocked worker, if there is one; which is given. *)
Definition notify_one (i : option nat) (s : thread_pool) : option thread_pool :=
  match i with
  | Some i => if is_blocked s i then Some (set_workers (<[i := Checking]> (m_workers s)) s) else None
  | None => if bool_decide (Blocked ∈ m_workers s) then None else Some s
  end.
Definition mutex_free (s : thread_pool) : bool := match m_tasks_mtx s with None => true | Some _ => false end.

(** ** Operations *)
Definition add_task (task : nat) (i : option nat) (s : thread_pool) : option thread_pool :=
  if mutex_free s then notify_one i (set_tasks (m_tasks s ++ [task]) (started s) s) else None.

(** [set_nb_threads] after its assignment: spawn, or wake the workers so that
    some of them stop. *)
Definition adjust (s : thread_pool) : thread_pool :=
  let missing := (m_max_nb_threads s - m_nb_running_threads s)%nat in
  let s := set_running (m_nb_running_threads s + missing)
             (set_workers (m_workers s ++ replicate missing Checking) s) in
  if (m_max_nb_threads s <? m_nb_running_threads s)%nat then notify_all s else s.
Definition new_pool (nb_threads : nat) : thread_pool :=
  adjust (set_max nb_threads (mkPool [] [] None false 0 0 [])).

(** [stop] up to its notification; after [m_should_stop] is set the rest is
    [notify_all] and the joins, which return once every worker is gone. *)
Definition begin_stop (s : thread_pool) : option thread_pool :=
  if is_running s
  then Some (mkPool (m_tasks s) (m_workers s) (m_tasks_mtx s) true (m_max_nb_threads s)
               (m_nb_running_threads s) (started s))
  else None.
Definition join (s : thread_pool) : option thread_pool :=
  if bool_decide (Forall (λ w, w = Stopped) (m_workers s)) then Some (set_workers [] s) else None.

(** ** Workers *)

(** [fetch_task_or_stop]: lock the mutex and evaluate the predicate *)
Definition test (i : nat) (s : thread_pool) : option thread_pool :=
  match m_workers s !! i with
  | Some Checking =>
      if mutex_free s
      then Some (set_mtx (Some (i, should_stop s || match m_tasks s with [] => false | _ => true end)) s)
      else None
  | _ => None
  end.
(** The predicate was false: block and release the mutex. *)
Definition block (i : nat) (s : thread_pool) : option thread_pool :=
  if bool_decide (m_tasks_mtx s = Some (i, false))
  then Some (set_mtx None (set_workers (<[i := Blocked]> (m_workers s)) s)) else None.
(** It was true: stop, or take a task. *)
Definition fetch_task_or_stop (i : nat) (s : thread_pool) : option thread_pool :=
  if bool_decide (m_tasks_mtx s = Some (i, true)) then
    Some (set_mtx None
      (if should_stop s then
         set_running (pred (m_nb_running_threads s)) (set_workers (<[i := Stopped]> (m_workers s)) s)
       else
         match m_tasks s with
         | task :: q => set_tasks q (started s ++ [task]) (set_workers (<[i := Running task]> (m_workers s)) s)
         | [] => set_workers (<[i := Undefined]> (m_workers s)) s
         end))
  else None.
(** The task returned or threw; both are the same to [run]. *)
Definition task_over (i : nat) (s : thread_pool) : option thread_pool :=
  match m_workers s !! i with
  | Some (Running _) => Some (set_workers (<[i := Checking]> (m_workers s)) s)
  | _ => None
  end.
(** A wait may also end by itself. *)
Definition spurious (i : nat) (s : thread_pool) : option thread_pool :=
  if is_blocked s i then Some (set_workers (<[i := Checking]> (m_workers s)) s) else None.

(** ** Interleaving *)
Inductive pool_event :=
  | PAdd (task : nat) (woken : option nat)
  | PSetMax (n : nat) | PAdjust
  | PStop | PNotifyAll | PJoin
  | WTest (i : nat) | WBlock (i : nat) | WFetch (i : nat) | WOver (i : nat) | WSpurious (i : nat).
Definition pool_step (e : pool_event) (s : thread_pool) : option thread_pool :=
  match e with
  | PAdd task woken => add_task task woken s
  | PSetMax n => Some (set_max n s)
  | PAdjust => Some (adjust s)
  | PStop => begin_stop s
  | PNotifyAll => Some (notify_all s)
  | PJoin => join s
  | WTest i => test i s
  | WBlock i => block i s
  | WFetch i => fetch_task_or_stop i s
  | WOver i => task_over i s
  | WSpurious i => spurious i s
  end.
Fixpoint pool_run (es : list pool_event) (s : thread_pool) : option thread_pool :=
  match es with
  | [] => Some s
  | e :: es => s ← pool_step e s; pool_run es s
  end.
Definition added (es : list pool_event) : list nat :=
  es ≫= λ e, match e with PAdd task _ => [task] | _ => [] end.

(** ** Order *)
Lemma new_pool_eq n : new_pool n = mkPool [] (replicate n Checking) None false n n [].
Proof. unfold new_pool, adjust. cbn -[Nat.ltb Nat.sub]. by rewrite Nat.sub_0_r, Nat.ltb_irrefl. Qed.
Lemma test_inv i s s' : test i s = Some s' →
  m_workers s !! i = Some Checking ∧ m_tasks_mtx s = None ∧
  s' = set_mtx (Some (i, should_stop s || match m_tasks s with [] => false | _ => true end)) s.
Proof.
  unfold test, mutex_free. destruct (m_workers s !! i) as [[]|]; try done.
  destruct (m_tasks_mtx s); [done|]. by intros [= <-].
Qed.
Lemma block_inv i s s' : block i s = Some s' →
  m_tasks_mtx s = Some (i, false) ∧ s' = set_mtx None (set_workers (<[i := Blocked]> (m_workers s)) s).
Proof. unfold block. case_bool_decide; [|done]. by intros [= <-]. Qed.
Lemma task_over_inv i s s' : task_over i s = Some s' →
  ∃ t, m_workers s !! i = Some (Running t) ∧ s' = set_workers (<[i := Checking]> (m_workers s)) s.
Proof. unfold task_over. destruct (m_workers s !! i) as [[| |t| |]|]; try done. intros [= <-]. by exists t. Qed.
Lemma spurious_inv i s s' : spurious i s = Some s' →
  m_workers s !! i = Some Blocked ∧ s' = set_workers (<[i := Checking]> (m_workers s)) s.
Proof. unfold spurious, is_blocked. case_bool_decide; [|done]. by intros [= <-]. Qed.
Lemma begin_stop_inv s s' : begin_stop s = Some s' →
  m_tasks s' = m_tasks s ∧ started s' = started s ∧ m_workers s' = m_workers s ∧ m_tasks_mtx s' = m_tasks_mtx s.
Proof. unfold begin_stop. destruct (is_running s); [|done]. by intros [= <-]. Qed.
Lemma join_inv s s' : join s = Some s' → Forall (λ w, w = Stopped) (m_workers s) ∧ s' = set_workers [] s.
Proof. unfold join. case_bool_decide; [|done]. by intros [= <-]. Qed.
Lemma add_task_inv task i s s' : add_task task i s = Some s' →
  m_tasks_mtx s = None ∧ notify_one i (set_tasks (m_tasks s ++ [task]) (started s) s) = Some s'.
Proof. unfold add_task, mutex_free. by destruct (m_tasks_mtx s). Qed.
Lemma notify_one_inv i s s' : notify_one i s = Some s' →
  (i = None ∧ Blocked ∉ m_workers s ∧ s' = s) ∨
  (∃ j, m_workers s !! j = Some Blocked ∧ s' = set_workers (<[j := Checking]> (m_workers s)) s).
Proof.
  unfold notify_one, is_blocked. destruct i as [j|]; case_bool_decide; try done; intros [= <-]; [right|by left].
  by exists j.
Qed.
Lemma adjust_tasks s : m_tasks (adjust s) = m_tasks s ∧ started (adjust s) = started s ∧
  m_tasks_mtx (adjust s) = m_tasks_mtx s.
Proof. unfold adjust. by destruct (_ <? _)%nat. Qed.

Lemma step_tasks e s s' : pool_step e s = Some s' →
  started s' ++ m_tasks s' = started s ++ m_tasks s ++ added [e].
Proof.
  destruct e; cbn; rewrite ?app_nil_r.
  - intros (_ & [(_ & _ & ->)|(j & _ & ->)]%notify_one_inv)%add_task_inv; done.
  - by intros [= <-].
  - intros [= <-]. by destruct (adjust_tasks s) as (-> & -> & _).
  - by intros (-> & -> & _)%begin_stop_inv.
  - by intros [= <-].
  - by intros (_ & ->)%join_inv.
  - by intros (_ & _ & ->)%test_inv.
  - by intros (_ & ->)%block_inv.
  - unfold fetch_task_or_stop. case_bool_decide; [|done]. intros [= <-]. destruct (should_stop s); [done|].
    destruct (m_tasks s) as [|t q] eqn:Hq; cbn; rewrite ?Hq; [done|]. by rewrite <-app_assoc.
  - by intros (t & _ & ->)%task_over_inv.
  - by intros (_ & ->)%spurious_inv.
Qed.

(** Tasks are taken in the order they were added, none lost and none taken
    twice: in every run of any pool, the tasks taken followed by those still
    queued are the tasks added. *)
Theorem tasks_fifo n es s :
  pool_run es (new_pool n) = Some s → started s ++ m_tasks s = added es.
Proof.
  assert (∀ s0, pool_run es s0 = Some s → started s ++ m_tasks s = (started s0 ++ m_tasks s0) ++ added es) as H.
  { induction es as [|e es IH]; intros s0; cbn [pool_run]; [by intros [= <-]; rewrite app_nil_r|].
    destruct (pool_step e s0) as [s1|] eqn:He; [|done]. intros Hr.
    rewrite (IH s1 Hr), (step_tasks _ _ _ He), <-!app_assoc. do 2 f_equal. by destruct e. }
  intros Hr. by rewrite (H _ Hr), new_pool_eq.
Qed.

Definition pool_demo : list pool_event :=
  [WTest 0; WBlock 0; PAdd 7 (Some 0%nat); PAdd 8 None; WTest 0; WFetch 0].
Lemma tasks_fifo_witness :
  ∃ s, pool_run pool_demo (new_pool 1) = Some s ∧ started s = [7%nat] ∧ m_tasks s = [8%nat] ∧
    started s ++ m_tasks s = added pool_demo.
Proof.
  eexists. split; [vm_compute; reflexivity|]. split; [reflexivity|]. split; [reflexivity|].
  apply (tasks_fifo 1). vm_compute. reflexivity.
Defined.

(** ** The mutex *)

(** The worker that holds the mutex is in [fetch_task_or_stop]. *)
Definition held (s : thread_pool) : Prop :=
  ∀ i b, m_tasks_mtx s = Some (i, b) → m_workers s !! i = Some Checking.
Lemma held_free s : m_tasks_mtx s = None → held s.
Proof. intros H i b. congruence. Qed.
Lemma held_wake_one s j : held s → m_workers s !! j = Some Blocked →
  held (set_workers (<[j := Checking]> (m_workers s)) s).
Proof.
  intros Hh Hj i b Hm. cbn in *. destruct (decide (i = j)) as [->|Hne].
  - apply list_lookup_insert_eq. by eapply lookup_lt_Some.
  - rewrite list_lookup_insert_ne by done. by eapply Hh.
Qed.
Lemma held_wake s : held s → held (notify_all s).
Proof. intros Hh i b Hm. cbn. rewrite list_lookup_fmap, (Hh i b Hm). done. Qed.
Lemma step_held e s s' : held s → pool_step e s = Some s' → held s'.
Proof.
  intros Hh. destruct e; cbn.
  - intros (Hf & [(_ & _ & ->)|(j & Hj & ->)]%notify_one_inv)%add_task_inv; by apply held_free.
  - by intros [= <-].
  - intros [= <-]. unfold adjust.
    assert (∀ l n, held (set_running n (set_workers (m_workers s ++ l) s))) as H.
    { intros l n i b Hm. cbn in *. by apply lookup_app_l_Some, (Hh i b). }
    destruct (_ <? _)%nat; [by apply held_wake|done].
  - intros (_ & _ & Hw & Hm)%begin_stop_inv i b. rewrite Hw, Hm. apply Hh.
  - intros [= <-]. by apply held_wake.
  - intros (Hall & ->)%join_inv i b Hm. specialize (Hh i b Hm). exfalso. rewrite Forall_forall in Hall.
    assert (Checking ∈ m_workers s) as Hin by (by eapply list_elem_of_lookup_2). by apply Hall in Hin.
  - intros (Hi & _ & ->)%test_inv j b [= <- <-]. done.
  - intros (_ & ->)%block_inv. by apply held_free.
  - unfold fetch_task_or_stop. case_bool_decide; [|done]. intros [= <-]. by apply held_free.
  - intros (t & Hi & ->)%task_over_inv j b Hm. cbn in *. specialize (Hh j b Hm).
    rewrite list_lookup_insert_ne; [done|]. congruence.
  - intros (Hi & ->)%spurious_inv. by apply held_wake_one.
Qed.
Lemma run_held es n s : pool_run es (new_pool n) = Some s → held s.
Proof.
  assert (held (new_pool n)) as H by (rewrite new_pool_eq; by apply held_free).
  revert H. generalize (new_pool n). induction es as [|e es IH]; intros s0 H; cbn [pool_run]; [by intros [= <-]|].
  destruct (pool_step e s0) as [s1|] eqn:He; [|done]. by apply IH, (step_held e s0).
Qed.

(** ** Wake-ups *)
Definition checking (w : list worker) : nat := length (filter (λ x, x = Checking) w).
#[local] Arguments checking : simpl never.

Lemma checking_insert w i x y : w !! i = Some x →
  (checking (<[i := y]> w) + (if decide (x = Checking) then 1 else 0) =
   checking w + (if decide (y = Checking) then 1 else 0))%nat.
Proof.
  unfold checking. revert i. induction w as [|z w IH]; intros [|i]; cbn [lookup list_lookup]; [done|done| |].
  - intros [= ->]. cbn [insert list_insert]. rewrite !filter_cons.
    repeat case_decide; cbn; lia.
  - intros Hi. specialize (IH i Hi). change (<[S i := y]> (z :: w)) with (z :: <[i := y]> w).
    rewrite !filter_cons.
    destruct (decide (z = Checking)); cbn [length]; lia.
Qed.
Lemma in_insert (w : list worker) i x y z : w !! i = Some x → z ∈ <[i := y]> w → z = y ∨ z ∈ w.
Proof.
  intros Hi [j Hj]%list_elem_of_lookup. destruct (decide (i = j)) as [<-|Hne].
  - rewrite list_lookup_insert_eq in Hj by (by eapply lookup_lt_Some). left. congruence.
  - rewrite list_lookup_insert_ne in Hj by done. right. by eapply list_elem_of_lookup_2.
Qed.

(** Every queued task that a sleeping worker could run has an awake worker, and
    the value of the predicate is still right. *)
Record awake (s : thread_pool) : Prop := {
  aw_runs : should_stop s = false;
  aw_held : held s;
  aw_test : ∀ i b, m_tasks_mtx s = Some (i, b) → b = match m_tasks s with [] => false | _ => true end;
  aw_defined : Undefined ∉ m_workers s;
  aw_enough : Blocked ∈ m_workers s → (length (m_tasks s) <= checking (m_workers s))%nat
}.

(** The size of the pool does not change and it is not stopped. *)
Definition fixed (e : pool_event) : bool :=
  match e with PSetMax _ | PAdjust | PStop | PJoin => false | _ => true end.

(** A worker that was not about to fetch becomes so. *)
Lemma ready_again s i x : m_workers s !! i = Some x → x ≠ Checking → awake s →
  awake (set_workers (<[i := Checking]> (m_workers s)) s).
Proof.
  intros Hi Hx [H1 H2 H3 H4 H5]. pose proof (checking_insert _ _ _ Checking Hi) as Hc.
  rewrite (decide_False (P:=x = Checking)), decide_True in Hc by done. constructor; cbn; try done.
  - intros j b Hm. cbn in *. specialize (H2 j b Hm). rewrite list_lookup_insert_ne; [done|]. congruence.
  - by intros [?|?]%(in_insert _ _ _ _ _ Hi).
  - intros [?|Hb]%(in_insert _ _ _ _ _ Hi); [done|]. specialize (H5 Hb). lia.
Qed.
Lemma add_task_awake task i s s' : awake s → add_task task i s = Some s' → awake s'.
Proof.
  intros [H1 H2 H3 H4 H5] (Hf & [(_ & Hb & ->)|(j & Hj & ->)]%notify_one_inv)%add_task_inv;
    (constructor; [done|by apply held_free|intros k b; cbn; by rewrite Hf|cbn|cbn]); try done.
  - by intros [?|?]%(in_insert _ _ _ _ _ Hj).
  - intros _. cbn in Hj. pose proof (checking_insert _ _ _ Checking Hj) as Hc.
    rewrite (decide_False (P:=Blocked = Checking)), decide_True in Hc by done.
    assert (Blocked ∈ m_workers s) as Hb by (by eapply list_elem_of_lookup_2). specialize (H5 Hb).
    rewrite length_app. cbn. lia.
Qed.
Lemma fetch_awake i s s' : awake s → fetch_task_or_stop i s = Some s' → awake s'.
Proof.
  intros [H1 H2 H3 H4 H5]. unfold fetch_task_or_stop. case_bool_decide as Hm; [|done]. rewrite H1. intros [= <-].
  specialize (H2 _ _ Hm). specialize (H3 _ _ Hm). destruct (m_tasks s) as [|t q] eqn:Hq; [done|].
  pose proof (checking_insert _ _ _ (Running t) H2) as Hc.
  rewrite decide_True, (decide_False (P:=Running t = Checking)) in Hc by done.
  constructor; [done|by apply held_free|done|cbn|cbn].
  - by intros [?|?]%(in_insert _ _ _ _ _ H2).
  - intros [?|Hb]%(in_insert _ _ _ _ _ H2); [done|]. specialize (H5 Hb). cbn in H5. lia.
Qed.
Lemma step_awake e s s' : fixed e = true → awake s → pool_step e s = Some s' → awake s'.
Proof.
  intros Hf Ha. destruct e; try done; cbn.
  - by apply add_task_awake.
  - intros [= <-]. destruct Ha as [H1 H2 H3 H4 H5]. constructor; [done|by apply held_wake|done|cbn|cbn];
      intros (w & E & Hw)%list_elem_of_fmap; destruct w; try done.
  - intros (Hi & Hfree & ->)%test_inv. pose proof Ha as [H1 H2 H3 H4 H5]. constructor; try done.
    + by intros j b [= <- <-].
    + intros j b [= <- <-]. by rewrite H1.
  - intros (Hm & ->)%block_inv. destruct Ha as [H1 H2 H3 H4 H5]. specialize (H2 _ _ Hm). specialize (H3 _ _ Hm).
    constructor; [done|by apply held_free|done|cbn|cbn].
    + by intros [?|?]%(in_insert _ _ _ _ _ H2).
    + destruct (m_tasks s); [cbn; lia|done].
  - by apply fetch_awake.
  - intros (t & Hi & ->)%task_over_inv. by apply (ready_again s i (Running t)).
  - intros (Hi & ->)%spurious_inv. by apply (ready_again s i Blocked).
Qed.

(** No task waits while workers sleep: in every run of a pool of fixed size
    that is not stopped, when a worker is blocked there are at least as many
    workers about to fetch a task as tasks queued, and no worker ever takes a
    task from the empty queue. *)
Theorem tasks_are_fetched n es s :
  forallb fixed es = true → pool_run es (new_pool n) = Some s →
  (Blocked ∈ m_workers s → (length (m_tasks s) <= checking (m_workers s))%nat) ∧ Undefined ∉ m_workers s.
Proof.
  assert (∀ s0, awake s0 → forallb fixed es = true → pool_run es s0 = Some s → awake s) as H.
  { induction es as [|e es IH]; intros s0 Ha; cbn [forallb pool_run]; [by intros _ [= <-]|].
    intros [He Hes]%andb_true_iff. destruct (pool_step e s0) as [s1|] eqn:E; [|done].
    apply IH; [by apply (step_awake e s0)|done]. }
  intros Hf Hr. destruct (H (new_pool n)) as [_ _ _ Hd Hb]; [|done..].
  rewrite new_pool_eq. constructor; cbn; try done.
  - unfold should_stop. cbn. apply Nat.ltb_irrefl.
  - by intros [? ?]%elem_of_replicate.
  - lia.
Qed.

Definition awake_demo : list pool_event :=
  [WTest 0; WBlock 0; WTest 1; WBlock 1; PAdd 7 (Some 1%nat)].
Lemma tasks_are_fetched_witness :
  ∃ s, pool_run awake_demo (new_pool 2) = Some s ∧ m_workers s = [Blocked; Checking] ∧
    (length (m_tasks s) <= checking (m_workers s))%nat.
Proof.
  eexists. split; [vm_compute; reflexivity|]. split; [reflexivity|].
  apply (tasks_are_fetched 2 awake_demo); [reflexivity|vm_compute; reflexivity|].
  vm_compute. constructor.
Defined.

(** ** Stopping *)
Definition by_worker (e : pool_event) : bool :=
  match e with WTest _ | WBlock _ | WFetch _ | WOver _ | WSpurious _ => true | _ => false end.
(** Events a worker still has before it is gone; the one that holds the mutex
    has tested already. *)
Definition steps_left (w : worker) : nat :=
  match w with Running _ => 3 | Checking => 2 | Stopped => 0 | Blocked | Undefined => 3 end.
Definition all_left (w : list worker) : nat := sum_list (steps_left <$> w).
#[local] Arguments all_left : simpl never.
Definition left_of (s : thread_pool) : nat :=
  (all_left (m_workers s) - match m_tasks_mtx s with Some _ => 1 | None => 0 end)%nat.
Record stopping (s : thread_pool) : Prop := {
  st_flag : m_should_stop s = true;
  st_held : held s;
  st_mtx : ∀ i, m_tasks_mtx s ≠ Some (i, false);
  st_workers : Blocked ∉ m_workers s ∧ Undefined ∉ m_workers s
}.

Lemma all_left_insert w i x y : w !! i = Some x →
  (all_left (<[i := y]> w) + steps_left x = all_left w + steps_left y)%nat.
Proof.
  unfold all_left. revert i. induction w as [|z w IH]; intros [|i]; [done|done| |].
  - intros [= ->]. cbn. lia.
  - intros Hi. specialize (IH i Hi). change (<[S i := y]> (z :: w)) with (z :: <[i := y]> w). cbn. lia.
Qed.
Lemma all_left_lookup w i x : w !! i = Some x → (steps_left x <= all_left w)%nat.
Proof. intros Hi. pose proof (all_left_insert w i x Stopped Hi). cbn in *. lia. Qed.
Lemma no_sleeper_insert (l : list worker) i x y : l !! i = Some x → y ≠ Blocked ∧ y ≠ Undefined →
  Blocked ∉ l ∧ Undefined ∉ l → Blocked ∉ <[i := y]> l ∧ Undefined ∉ <[i := y]> l.
Proof. intros Hi [? ?] [? ?]. split; (intros [?|?]%(in_insert _ _ _ _ _ Hi); [congruence|done]). Qed.
Lemma stopping_step e s s' : by_worker e = true → stopping s → pool_step e s = Some s' →
  stopping s' ∧ S (left_of s') = left_of s ∧ m_tasks s' = m_tasks s.
Proof.
  intros He Hs Hstep. assert (held s') as Hh by (eapply step_held; [apply Hs|done]).
  destruct Hs as [H1 H2 H3 [H4 H5]]. revert Hstep. destruct e; try done; cbn [pool_step].
  - intros (Hi & Hf & ->)%test_inv. split; [|unfold left_of; cbn; rewrite Hf].
    + constructor; try done. intros j. cbn. unfold should_stop. by rewrite H1.
    + apply all_left_lookup in Hi. cbn in Hi. split; [lia|done].
  - intros (Hm & _)%block_inv. by destruct (H3 i).
  - unfold fetch_task_or_stop, should_stop. case_bool_decide as Hm; [|done]. rewrite H1. cbn [orb].
    intros [= <-]. specialize (H2 _ _ Hm). split; [|unfold left_of; cbn; rewrite Hm].
    + constructor; [done..|]. by apply (no_sleeper_insert _ i Checking).
    + pose proof (all_left_insert _ _ _ Stopped H2). cbn in *. split; [lia|done].
  - intros (t & Hi & ->)%task_over_inv. split; [|unfold left_of; cbn].
    + constructor; [done..|]. by apply (no_sleeper_insert _ i (Running t)).
    + pose proof (all_left_insert _ _ _ Checking Hi) as Ha. cbn in Ha.
      assert (2 <= all_left (<[i:=Checking]> (m_workers s)))%nat as Hl.
      { apply (all_left_lookup _ i Checking). apply list_lookup_insert_eq. by eapply lookup_lt_Some. }
      split; [destruct (m_tasks_mtx s); lia|done].
  - intros (Hi & _)%spurious_inv. exfalso. apply H4. by eapply list_elem_of_lookup_2.
Qed.
Lemma stopping_progress s : stopping s → join s = None →
  ∃ e s', by_worker e = true ∧ pool_step e s = Some s'.
Proof.
  intros [H1 H2 H3 [H4 H5]]. destruct (m_tasks_mtx s) as [[i []]|] eqn:Hm; [| |].
  { intros _. exists (WFetch i). cbn. unfold fetch_task_or_stop. rewrite bool_decide_true by done. by eexists. }
  { by destruct (H3 i). }
  unfold join. case_bool_decide as Hall; [done|]. intros _.
  apply not_Forall_Exists in Hall; [|intros w; apply _].
  apply Exists_exists in Hall as (w & [i Hi]%list_elem_of_lookup & Hw).
  destruct w as [| |t| |]; [| | |by destruct Hw|].
  - exists (WTest i). cbn. unfold test, mutex_free. rewrite Hi, Hm. by eexists.
  - exfalso. apply H4. by eapply list_elem_of_lookup_2.
  - exists (WOver i). cbn. unfold task_over. rewrite Hi. by eexists.
  - exfalso. apply H5. by eapply list_elem_of_lookup_2.
Qed.

(** Stopping ends: when a pool told to stop notifies its workers and none is
    between its test and its wait, the workers are gone after at most three
    events each, in any order, and as long as [stop] cannot join them all one
    of them has an event left; tasks still queued are not run. *)
Theorem stop_terminates n es0 s es s' :
  pool_run es0 (new_pool n) = Some s → m_should_stop s = true → Undefined ∉ m_workers s →
  (∀ i, m_tasks_mtx s ≠ Some (i, false)) → forallb by_worker es = true →
  pool_run es (notify_all s) = Some s' →
  (length es <= 3 * length (m_workers s))%nat ∧
  (join s' = None → ∃ e s2, by_worker e = true ∧ pool_step e s' = Some s2) ∧ m_tasks s' = m_tasks s.
Proof.
  intros Hreach Hstop Hu Hm Hes Hr.
  assert (stopping (notify_all s)) as Hs.
  { constructor; [done|by eapply held_wake, run_held|done|].
    split; cbn; intros (w & E & Hin)%list_elem_of_fmap; by destruct w. }
  assert (left_of (notify_all s) <= 3 * length (m_workers s))%nat as Hlen.
  { unfold left_of. enough (all_left (wake <$> m_workers s) <= 3 * length (m_workers s))%nat by (cbn in *; lia).
    clear. unfold all_left. induction (m_workers s) as [|w l IH]; cbn; [lia|]. cbn in IH. destruct w; cbn; lia. }
  enough (stopping s' ∧ (length es + left_of s' = left_of (notify_all s))%nat ∧
    m_tasks s' = m_tasks (notify_all s)) as (H1 & H2 & H3).
  { split; [lia|]. split; [by apply stopping_progress|done]. }
  clear Hlen Hstop Hu Hm Hreach. revert Hs Hr. generalize (notify_all s) as s0.
  induction es as [|e es IH]; intros s0 Hs; cbn [pool_run]; [by intros [= <-]|].
  apply andb_true_iff in Hes as [He Hes]. destruct (pool_step e s0) as [s1|] eqn:E; [|done]. intros Hr.
  destruct (stopping_step _ _ _ He Hs E) as (Hs1 & Hl & Ht). destruct (IH Hes s1 Hs1 Hr) as (H1 & H2 & H3).
  split; [done|]. split; [cbn; lia|congruence].
Qed.

Definition stop_demo : list pool_event :=
  [WTest 0; WBlock 0; PAdd 7 (Some 0%nat); PAdd 8 None; WTest 0; WFetch 0; PStop].
Definition stopped_pool : thread_pool := default (new_pool 0) (pool_run stop_demo (new_pool 1)).
Definition ended_pool : thread_pool :=
  default (new_pool 0) (pool_run [WOver 0; WTest 0; WFetch 0] (notify_all stopped_pool)).
Lemma stop_terminates_witness :
  pool_run stop_demo (new_pool 1) = Some stopped_pool ∧ m_should_stop stopped_pool = true ∧
  pool_run [WOver 0; WTest 0; WFetch 0] (notify_all stopped_pool) = Some ended_pool ∧
  is_Some (join ended_pool) ∧
  (3 <= 3 * length (m_workers stopped_pool))%nat ∧
  (join ended_pool = None → ∃ e s2, by_worker e = true ∧ pool_step e ended_pool = Some s2) ∧
  m_tasks ended_pool = m_tasks stopped_pool.
Proof.
  assert (Undefined ∉ m_workers stopped_pool) as H
    by (intros H; apply list_elem_of_singleton in H; discriminate).
  split; [reflexivity|]. split; [reflexivity|]. split; [reflexivity|]. split; [by eexists|].
  apply (stop_terminates 1 stop_demo stopped_pool [WOver 0; WTest 0; WFetch 0] ended_pool);
    [reflexivity|reflexivity|exact H|intros i; vm_compute; congruence|reflexivity|reflexivity].
Defined.

(** A worker between its test and its wait misses the notification, because
    [stop] sets the flag and notifies without the mutex: the worker blocks with
    the pool stopped, nothing wakes it, and [join] waits for ever. *)
Example stop_can_hang :
  ∃ s, pool_run [WTest 0; PStop; PNotifyAll; WBlock 0] (new_pool 1) = Some s ∧
    m_should_stop s = true ∧ m_workers s = [Blocked] ∧ join s = None ∧
    ∀ i, test i s = None ∧ block i s = None ∧ fetch_task_or_stop i s = None ∧ task_over i s = None.
Proof.
  eexists. split; [vm_compute; reflexivity|]. split_and!; [done..|].
  by intros [|i].
Qed.
(** [should_stop] is asked twice, and [set_nb_threads] may change the answer in
    between: a pool shrunk and grown again can take from its empty queue. *)
Example resize_takes_from_empty :
  ∃ s, pool_run [PSetMax 0; PAdjust; WTest 0; PSetMax 1; PAdjust; WFetch 0] (new_pool 1) = Some s ∧
    m_workers s = [Undefined].
Proof. eexists. split; vm_compute; reflexivity. Qed.
