(* ===== verification/IoService.v ===== *)
(** * [tacopie]: the I/O service

    [tacopie/network/io_service.cpp] and the unix [self_pipe.cpp]: the table of
    tracked sockets, the thread that polls them with [select], the jobs given
    to the pool of workers.  Every locked section is one event; the threads
    interleave at events.  A callback is a number; what it does is the events
    that happen while its job is executing. *)

From S2P Require Import Prelude CppBase.

(** ** State *)
Record tracked_socket := mkTracked {
  rd_callback : option nat;
  is_executing_rd_callback : bool;
  wr_callback : option nat;
  is_executing_wr_callback : bool;
  marked_for_untrack : bool
}.
(** The entry [operator[]] makes *)
Definition new_tracked : tracked_socket := mkTracked None false None false false.

Inductive io_kind := Rd | Wr.
#[global] Instance io_kind_eq_dec : EqDecision io_kind.
Proof. solve_decision. Defined.
(** The closure given to a worker: the callback copied from the table, its file
    descriptor, and which flag it clears. *)
Record job := mkJob { j_kind : io_kind; j_fd : Z; j_callback : nat }.
#[global] Instance job_eq_dec : EqDecision job.
Proof. solve_decision. Defined.

(** Where the polling thread is: before [init_poll_fds_info], in [select] with
    its first argument, or before [process_events]. *)
Inductive poller := Between | Selecting (ndfs : Z) | Selected.

(** Who is in [write] on the full pipe: a caller of the service, or a thread of
    the pool at the end of a job. *)
Inductive blocker := Caller | Worker.

(** [m_notifier] is the number of bytes in the pipe; [queued] the tasks of the
    pool, [executing] those its threads are running, at most [nb_threads].
    [blocked] is the thread that waits for room in the pipe: it does so inside
    a locked section, so it holds [m_tracked_sockets_mtx]. *)
Record io_service := mkIo {
  m_tracked_sockets : gmap Z tracked_socket;
  m_polled_fds : list Z;
  m_rd_set : gset Z;
  m_wr_set : gset Z;
  m_notifier : Z;
  poll_worker : poller;
  queued : list job;
  executing : list job;
  nb_threads : nat;
  blocked : option blocker
}.

Definition set_tracked (t : gmap Z tracked_socket) (s : io_service) : io_service :=
  mkIo t (m_polled_fds s) (m_rd_set s) (m_wr_set s) (m_notifier s) (poll_worker s) (queued s)
    (executing s) (nb_threads s) (blocked s).
Definition set_notifier (n : Z) (s : io_service) : io_service :=
  mkIo (m_tracked_sockets s) (m_polled_fds s) (m_rd_set s) (m_wr_set s) n (poll_worker s) (queued s)
    (executing s) (nb_threads s) (blocked s).
Definition set_poller (p : poller) (s : io_service) : io_service :=
  mkIo (m_tracked_sockets s) (m_polled_fds s) (m_rd_set s) (m_wr_set s) (m_notifier s) p (queued s)
    (executing s) (nb_threads s) (blocked s).
Definition set_sets (rd wr : gset Z) (s : io_service) : io_service :=
  mkIo (m_tracked_sockets s) (m_polled_fds s) rd wr (m_notifier s) (poll_worker s) (queued s)
    (executing s) (nb_threads s) (blocked s).
Definition set_polled (l : list Z) (s : io_service) : io_service :=
  mkIo (m_tracked_sockets s) l (m_rd_set s) (m_wr_set s) (m_notifier s) (poll_worker s) (queued s)
    (executing s) (nb_threads s) (blocked s).
Definition set_jobs (q e : list job) (s : io_service) : io_service :=
  mkIo (m_tracked_sockets s) (m_polled_fds s) (m_rd_set s) (m_wr_set s) (m_notifier s) (poll_worker s)
    q e (nb_threads s) (blocked s).
Definition set_nb_workers (n : nat) (s : io_service) : io_service :=
  mkIo (m_tracked_sockets s) (m_polled_fds s) (m_rd_set s) (m_wr_set s) (m_notifier s) (poll_worker s)
    (queued s) (executing s) n (blocked s).
Definition set_blocked (w : option blocker) (s : io_service) : io_service :=
  mkIo (m_tracked_sockets s) (m_polled_fds s) (m_rd_set s) (m_wr_set s) (m_notifier s) (poll_worker s)
    (queued s) (executing s) (nb_threads s) w.

Definition io_service_new (nb_workers : nat) : io_service :=
  mkIo ∅ [] ∅ ∅ 0 Between [] [] nb_workers None.

(** The read end of the pipe, the bytes the system keeps in a pipe, and the
    order in which the hash table is walked. *)
Class IoLib := {
  read_fd : Z;
  pipe_capacity : Z;
  walk : gmap Z tracked_socket → list (Z * tracked_socket);
  read_fd_valid : 0 <= read_fd < 1024;
  pipe_room : 0 < pipe_capacity;
  walk_perm t : walk t ≡ₚ map_to_list t
}.

Section IoService.
Context {L : IoLib}.

(** ** The pipe: a byte per notification, up to 1024 of them read at once

    The pipe is made by [pipe] without [O_NONBLOCK]: when it is full, [write]
    does not return until a byte is read. *)
Definition notify (w : blocker) (s : io_service) : io_service :=
  if m_notifier s <? pipe_capacity then set_notifier (m_notifier s + 1) s else set_blocked (Some w) s.
Definition clr_buffer (s : io_service) : io_service := set_notifier (Z.max 0 (m_notifier s - 1024)) s.

(** ** Tracking *)
Definition track (fd : Z) (rd wr : option nat) (s : io_service) : io_service :=
  notify Caller (set_tracked (<[fd := mkTracked rd false wr false false]> (m_tracked_sockets s)) s).

Definition with_rd (cb : option nat) (t : tracked_socket) : tracked_socket :=
  mkTracked cb (is_executing_rd_callback t) (wr_callback t) (is_executing_wr_callback t) (marked_for_untrack t).
Definition with_wr (cb : option nat) (t : tracked_socket) : tracked_socket :=
  mkTracked (rd_callback t) (is_executing_rd_callback t) cb (is_executing_wr_callback t) (marked_for_untrack t).
Definition set_rd_callback (fd : Z) (cb : option nat) (s : io_service) : io_service :=
  let track_info := default new_tracked (m_tracked_sockets s !! fd) in
  notify Caller (set_tracked (<[fd := with_rd cb track_info]> (m_tracked_sockets s)) s).
Definition set_wr_callback (fd : Z) (cb : option nat) (s : io_service) : io_service :=
  let track_info := default new_tracked (m_tracked_sockets s !! fd) in
  notify Caller (set_tracked (<[fd := with_wr cb track_info]> (m_tracked_sockets s)) s).

Definition busy (t : tracked_socket) : bool := is_executing_rd_callback t || is_executing_wr_callback t.
Definition mark (t : tracked_socket) : tracked_socket :=
  mkTracked (rd_callback t) (is_executing_rd_callback t) (wr_callback t) (is_executing_wr_callback t) true.
Definition untrack (fd : Z) (s : io_service) : io_service :=
  match m_tracked_sockets s !! fd with
  | None => s
  | Some t =>
      notify Caller (set_tracked (if busy t then <[fd := mark t]> (m_tracked_sockets s)
                           else delete fd (m_tracked_sockets s)) s)
  end.

(** What [wait_for_removal] waits for *)
Definition removed (fd : Z) (s : io_service) : bool := bool_decide (m_tracked_sockets s !! fd = None).

(** ** Polling *)
Definition has {A} (o : option A) : bool := match o with Some _ => true | None => false end.
Definition should_rd (t : tracked_socket) : bool := has (rd_callback t) && negb (is_executing_rd_callback t).
Definition should_wr (t : tracked_socket) : bool := has (wr_callback t) && negb (is_executing_wr_callback t).

(** [FD_SET] writes outside the set, which is undefined, when the descriptor is
    not below [FD_SETSIZE]. *)
Definition FD_SET (fd : Z) (set : gset Z) : option (gset Z) :=
  if (0 <=? fd) && (fd <? 1024) then Some ({[fd]} ∪ set) else None.

(** One turn of the loop of [init_poll_fds_info] *)
Definition init_fd (e : Z * tracked_socket) (acc : Z * io_service) : option (Z * io_service) :=
  let '(fd, socket_info) := e in
  let '(ndfs, s) := acc in
  rd ← (if should_rd socket_info then FD_SET fd (m_rd_set s) else Some (m_rd_set s));
  wr ← (if should_wr socket_info then FD_SET fd (m_wr_set s) else Some (m_wr_set s));
  let s := set_sets rd wr s in
  let s := if should_rd socket_info || should_wr socket_info || marked_for_untrack socket_info
           then set_polled (m_polled_fds s ++ [fd]) s else s in
  Some (if (should_rd socket_info || should_wr socket_info) && (ndfs <? fd) then fd else ndfs, s).
Fixpoint init_fds (l : list (Z * tracked_socket)) (acc : Z * io_service) : option (Z * io_service) :=
  match l with
  | [] => Some acc
  | e :: l => acc ← init_fd e acc; init_fds l acc
  end.
Definition init_poll_fds_info (s : io_service) : option (Z * io_service) :=
  rd ← FD_SET read_fd ∅;
  let s := set_polled [read_fd] (set_sets rd ∅ s) in
  '(ndfs, s) ← init_fds (walk (m_tracked_sockets s)) (read_fd, s);
  Some (ndfs + 1, s).

(** ** Events of the sockets *)
Definition executing_rd (b : bool) (t : tracked_socket) : tracked_socket :=
  mkTracked (rd_callback t) b (wr_callback t) (is_executing_wr_callback t) (marked_for_untrack t).
Definition executing_wr (b : bool) (t : tracked_socket) : tracked_socket :=
  mkTracked (rd_callback t) (is_executing_rd_callback t) (wr_callback t) b (marked_for_untrack t).

Definition process_rd_event (fd : Z) (cb : nat) (t : tracked_socket) (s : io_service) : io_service :=
  set_jobs (queued s ++ [mkJob Rd fd cb]) (executing s)
    (set_tracked (<[fd := executing_rd true t]> (m_tracked_sockets s)) s).
Definition process_wr_event (fd : Z) (cb : nat) (t : tracked_socket) (s : io_service) : io_service :=
  set_jobs (queued s ++ [mkJob Wr fd cb]) (executing s)
    (set_tracked (<[fd := executing_wr true t]> (m_tracked_sockets s)) s).

Definition rd_event (fd : Z) (t : tracked_socket) (s : io_service) : io_service :=
  match rd_callback t with
  | Some cb => if bool_decide (fd ∈ m_rd_set s) && negb (is_executing_rd_callback t)
               then process_rd_event fd cb t s else s
  | None => s
  end.
Definition wr_event (fd : Z) (t : tracked_socket) (s : io_service) : io_service :=
  match wr_callback t with
  | Some cb => if bool_decide (fd ∈ m_wr_set s) && negb (is_executing_wr_callback t)
               then process_wr_event fd cb t s else s
  | None => s
  end.
Definition untrack_marked (fd : Z) (t : tracked_socket) (s : io_service) : io_service :=
  if marked_for_untrack t && negb (busy t) then set_tracked (delete fd (m_tracked_sockets s)) s else s.

(** [socket] refers to the entry of the table: it is looked up again after
    each change. *)
Definition on_socket (f : Z → tracked_socket → io_service → io_service) (fd : Z) (s : io_service) : io_service :=
  match m_tracked_sockets s !! fd with Some t => f fd t s | None => s end.
Definition process_fd (s : io_service) (fd : Z) : io_service :=
  if (fd =? read_fd) && bool_decide (fd ∈ m_rd_set s) then clr_buffer s
  else on_socket untrack_marked fd (on_socket wr_event fd (on_socket rd_event fd s)).
Definition process_events (s : io_service) : io_service := foldl process_fd s (m_polled_fds s).

(** ** Workers: the part of a job that follows the callback *)
Definition end_job (k : io_kind) (t : tracked_socket) : tracked_socket :=
  match k with Rd => executing_rd false t | Wr => executing_wr false t end.
Definition job_done (j : job) (s : io_service) : io_service :=
  match m_tracked_sockets s !! j_fd j with
  | None => s
  | Some t =>
      let t := end_job (j_kind j) t in
      notify Worker (set_tracked (if marked_for_untrack t && negb (busy t) then delete (j_fd j) (m_tracked_sockets s)
                           else <[j_fd j := t]> (m_tracked_sockets s)) s)
  end.

(** ** Interleaving *)

(** [select] returns with the descriptors that are ready: some of those below
    its first argument that it was given, the pipe exactly when it holds a
    byte; [EWoke] is the other outcome (a time-out or a signal).  [EFetch]: a
    free thread takes a task.  [EDone]: it has run the callback.  [EThrow]: the
    callback threw, the rest of the job is skipped; the pool catches the
    exception. *)
Inductive io_event :=
  | ETrack (fd : Z) (rd wr : option nat)
  | ESetRd (fd : Z) (cb : option nat)
  | ESetWr (fd : Z) (cb : option nat)
  | EUntrack (fd : Z)
  | EWorkers (n : nat)
  | EInit
  | ESelect (rd wr : gset Z)
  | EWoke
  | EProcess
  | EFetch
  | EDone (i : nat)
  | EThrow (i : nat).

Definition watched (ndfs : Z) (set : gset Z) : gset Z := filter (λ fd, fd < ndfs) set.
(** What [select] may report *)
Definition may_report (ndfs : Z) (rd wr : gset Z) (s : io_service) : bool :=
  bool_decide (rd ⊆ watched ndfs (m_rd_set s)) && bool_decide (wr ⊆ watched ndfs (m_wr_set s)) &&
  bool_decide (read_fd ∈ rd ↔ read_fd ∈ watched ndfs (m_rd_set s) ∧ 0 < m_notifier s) &&
  negb (bool_decide (rd = ∅) && bool_decide (wr = ∅)).

(** The events that lock [m_tracked_sockets_mtx]: they wait while a thread that
    holds it is in [write]. *)
Definition locks (e : io_event) : bool :=
  match e with
  | ETrack _ _ _ | ESetRd _ _ | ESetWr _ _ | EUntrack _ | EInit | EProcess | EDone _ => true
  | EWorkers _ | ESelect _ _ | EWoke | EFetch | EThrow _ => false
  end.
(** The threads of the pool that are not free *)
Definition busy_threads (s : io_service) : nat :=
  length (executing s) + match blocked s with Some Worker => 1 | _ => 0 end.

Definition io_event_run (e : io_event) (s : io_service) : option io_service :=
  match e with
  | ETrack fd rd wr => Some (track fd rd wr s)
  | ESetRd fd cb => Some (set_rd_callback fd cb s)
  | ESetWr fd cb => Some (set_wr_callback fd cb s)
  | EUntrack fd => Some (untrack fd s)
  | EWorkers n => Some (set_nb_workers n s)
  | EInit =>
      match poll_worker s with
      | Between => '(ndfs, s) ← init_poll_fds_info s; Some (set_poller (Selecting ndfs) s)
      | _ => None
      end
  | ESelect rd wr =>
      match poll_worker s with
      | Selecting ndfs => if may_report ndfs rd wr s then Some (set_poller Selected (set_sets rd wr s)) else None
      | _ => None
      end
  | EWoke => match poll_worker s with Selecting _ => Some (set_poller Between s) | _ => None end
  | EProcess =>
      match poll_worker s with Selected => Some (set_poller Between (process_events s)) | _ => None end
  | EFetch =>
      match queued s with
      | j :: q => if Nat.ltb (busy_threads s) (nb_threads s)
                  then Some (set_jobs q (executing s ++ [j]) s) else None
      | [] => None
      end
  | EDone i =>
      j ← executing s !! i; Some (job_done j (set_jobs (queued s) (delete i (executing s)) s))
  | EThrow i => _ ← executing s !! i; Some (set_jobs (queued s) (delete i (executing s)) s)
  end.
Definition io_step (e : io_event) (s : io_service) : option io_service :=
  if locks e && has (blocked s) then None else io_event_run e s.
Fixpoint io_run (es : list io_event) (s : io_service) : option io_service :=
  match es with
  | [] => Some s
  | e :: es => s ← io_step e s; io_run es s
  end.

End IoService.
