(* ===== verification/IoServiceSpec.v ===== *)
(** * What the I/O service guarantees

    Invariants of the table of sockets and of the jobs in flight, for any
    interleaving of the threads in which no socket is tracked again while its
    callbacks are running; the polling thread's view of the table. *)

From S2P Require Import Prelude CppBase IoService.

(** ** Jobs and flags *)
Definition flag (k : io_kind) (t : tracked_socket) : bool :=
  match k with Rd => is_executing_rd_callback t | Wr => is_executing_wr_callback t end.
Definition in_flight (s : io_service) : list job := queued s ++ executing s.
Definition job_key (j : job) : io_kind * Z := (j_kind j, j_fd j).

(** At most one job of each kind for each descriptor, and its flag is set. *)
Definition jobs_ok (m : gmap Z tracked_socket) (js : list job) : Prop :=
  NoDup (job_key <$> js) ∧ ∀ j, j ∈ js → ∃ t, m !! j_fd j = Some t ∧ flag (j_kind j) t = true.

#[global] Instance jobs_ok_proper m : Proper ((≡ₚ) ==> iff) (jobs_ok m).
Proof.
  intros l1 l2 H. unfold jobs_ok. assert (job_key <$> l1 ≡ₚ job_key <$> l2) as -> by by rewrite H.
  split; intros [H1 H2]; (split; [done|]); intros j Hj; apply H2; revert Hj; by rewrite H.
Qed.

Lemma flag_busy k t : flag k t = true → busy t = true.
Proof. unfold busy. destruct k; cbn; intros ->; [done|]. apply orb_true_r. Qed.
Lemma flag_end_other k k' t : k ≠ k' → flag k' (end_job k t) = flag k' t.
Proof. by destruct k, k'. Qed.

Lemma jobs_ok_change m js fd t' :
  jobs_ok m js → (∀ t k, m !! fd = Some t → flag k t = true → flag k t' = true) →
  jobs_ok (<[fd := t']> m) js.
Proof.
  intros [H1 H2] Hf. split; [done|]. intros j Hj. destruct (H2 j Hj) as (t & Ht & Hk).
  destruct (decide (j_fd j = fd)) as [<-|Hne].
  - exists t'. rewrite lookup_insert_eq. split; [done|]. by eapply Hf.
  - exists t. by rewrite lookup_insert_ne.
Qed.
Lemma jobs_ok_delete m js fd :
  jobs_ok m js → (∀ t, m !! fd = Some t → busy t = false) → jobs_ok (delete fd m) js.
Proof.
  intros [H1 H2] Hf. split; [done|]. intros j Hj. destruct (H2 j Hj) as (t & Ht & Hk).
  exists t. rewrite lookup_delete_ne; [done|]. intros ->. apply Hf in Ht. apply flag_busy in Hk. congruence.
Qed.
Lemma jobs_ok_start m js k fd cb t t' :
  jobs_ok m js → m !! fd = Some t → flag k t = false → (∀ k', flag k' t = true → flag k' t' = true) →
  flag k t' = true → jobs_ok (<[fd := t']> m) (mkJob k fd cb :: js).
Proof.
  intros Hj Ht Hk Hmono Hk'. destruct (jobs_ok_change m js fd t' Hj) as [H1 H2].
  { intros t0 k0 Ht0. replace t0 with t by congruence. apply Hmono. }
  split.
  - cbn. apply NoDup_cons_2; [|done]. intros ([k0 fd0 cb0] & [= -> ->] & Hin)%list_elem_of_fmap.
    destruct (proj2 Hj _ Hin) as (t0 & Ht0 & Hf). cbn in *. congruence.
  - intros j [->|Hin]%elem_of_cons; [|by apply H2]. exists t'. by rewrite lookup_insert_eq.
Qed.
Lemma jobs_ok_tail m j js : jobs_ok m (j :: js) → jobs_ok m js.
Proof.
  intros [H1 H2]. cbn in H1. apply NoDup_cons in H1 as [_ H1].
  split; [done|]. intros j' Hj. apply H2. set_solver.
Qed.
Lemma jobs_ok_end m j js t :
  jobs_ok m (j :: js) → m !! j_fd j = Some t → jobs_ok (<[j_fd j := end_job (j_kind j) t]> m) js.
Proof.
  intros [H1 H2] Ht. cbn in H1. apply NoDup_cons in H1 as [Hn H1].
  split; [done|]. intros j' Hj. destruct (H2 j' ltac:(set_solver)) as (t' & Ht' & Hk).
  destruct (decide (j_fd j' = j_fd j)) as [E|Hne].
  - exists (end_job (j_kind j) t). rewrite E, lookup_insert_eq. split; [done|].
    rewrite flag_end_other; [congruence|]. intros E2. apply Hn. apply list_elem_of_fmap.
    exists j'. split; [|done]. unfold job_key. by rewrite E, E2.
  - exists t'. by rewrite lookup_insert_ne.
Qed.

(** ** Well-formed states *)
Section Spec.
Context {L : IoLib}.

Definition valid_fd (fd : Z) : Prop := 0 <= fd < 1024 ∧ fd ≠ read_fd.
Definition sockets_ok (m : gmap Z tracked_socket) : Prop :=
  map_Forall (λ fd t, valid_fd fd ∧ (marked_for_untrack t = true → busy t = true)) m.
Definition wf (s : io_service) : Prop :=
  jobs_ok (m_tracked_sockets s) (in_flight s) ∧ sockets_ok (m_tracked_sockets s) ∧ 0 <= m_notifier s.

(** A descriptor is not tracked anew while its callbacks are in flight. *)
Definition ok_event (e : io_event) (s : io_service) : Prop :=
  match e with
  | ETrack fd _ _ => valid_fd fd ∧ ∀ t, m_tracked_sockets s !! fd = Some t → busy t = false
  | ESetRd fd _ | ESetWr fd _ => valid_fd fd
  | _ => True
  end.
Fixpoint ok_events (es : list io_event) (s : io_service) : Prop :=
  match es with
  | [] => True
  | e :: es => ok_event e s ∧ ∀ s', io_step e s = Some s' → ok_events es s'
  end.

Lemma sockets_ok_insert m fd t :
  sockets_ok m → valid_fd fd → (marked_for_untrack t = true → busy t = true) → sockets_ok (<[fd := t]> m).
Proof. intros Hm Hfd Ht. apply map_Forall_insert_2; done. Qed.
Lemma sockets_ok_valid m fd t : sockets_ok m → m !! fd = Some t → valid_fd fd.
Proof. intros H Ht. by apply (H _ _ Ht). Qed.

Lemma notify_wf w s : wf s → wf (notify w s).
Proof. intros (H1 & H2 & H3). unfold notify. destruct (_ <? _); split_and!; cbn; [done..|lia|done|done|done]. Qed.
Lemma notify_tracked w s : m_tracked_sockets (notify w s) = m_tracked_sockets s.
Proof. unfold notify. by destruct (_ <? _). Qed.
Lemma notify_wakes w s : 0 <= m_notifier s → 0 < m_notifier (notify w s).
Proof.
  intros H. pose proof pipe_room. unfold notify. destruct (Z.ltb_spec (m_notifier s) pipe_capacity); cbn; lia.
Qed.

Lemma wf_insert w s fd t' :
  wf s → valid_fd fd → (marked_for_untrack t' = true → busy t' = true) →
  (∀ t k, m_tracked_sockets s !! fd = Some t → flag k t = true → flag k t' = true) →
  wf (notify w (set_tracked (<[fd := t']> (m_tracked_sockets s)) s)).
Proof.
  intros (H1 & H2 & H3) Hfd Hm Hk. apply notify_wf.
  split_and!; cbn; [by apply jobs_ok_change|by apply sockets_ok_insert|lia].
Qed.

Lemma track_wf fd rd wr s : wf s → ok_event (ETrack fd rd wr) s → wf (track fd rd wr s).
Proof.
  intros Hs [Hfd Hb]. apply wf_insert; try done. intros t k Ht Hk.
  apply Hb in Ht. apply flag_busy in Hk. congruence.
Qed.
Lemma set_callback_wf w f fd s : wf s → valid_fd fd →
  (∀ t, marked_for_untrack (f t) = marked_for_untrack t ∧ ∀ k, flag k (f t) = flag k t) →
  wf (notify w (set_tracked (<[fd := f (default new_tracked (m_tracked_sockets s !! fd))]> (m_tracked_sockets s)) s)).
Proof.
  intros Hs Hfd Hf. apply wf_insert; try done.
  - destruct (m_tracked_sockets s !! fd) as [t|] eqn:Ht; cbn.
    + rewrite (proj1 (Hf t)). unfold busy. pose proof (proj2 (Hf t) Rd) as Hr. pose proof (proj2 (Hf t) Wr) as Hw.
      cbn in Hr, Hw. rewrite Hr, Hw. apply (proj1 (proj2 Hs) _ _ Ht).
    + by rewrite (proj1 (Hf new_tracked)).
  - intros t k ->. cbn. by rewrite (proj2 (Hf t)).
Qed.
Lemma untrack_wf fd s : wf s → wf (untrack fd s).
Proof.
  intros Hs. unfold untrack. destruct (m_tracked_sockets s !! fd) as [t|] eqn:Ht; [|done].
  pose proof Hs as (H1 & H2 & H3).
  destruct (busy t) eqn:Hb.
  - apply wf_insert; try done; [by eapply sockets_ok_valid|]. intros t0 k. rewrite Ht. intros [= <-]. by destruct k.
  - apply notify_wf. split_and!; cbn; [|by apply map_Forall_delete|lia].
    apply jobs_ok_delete; [done|]. intros t0. rewrite Ht. by intros [= <-].
Qed.

(** ** The polling thread keeps them *)
Lemma start_wf s fd t k cb t' :
  wf s → m_tracked_sockets s !! fd = Some t → flag k t = false →
  t' = match k with Rd => executing_rd true t | Wr => executing_wr true t end →
  wf (set_jobs (queued s ++ [mkJob k fd cb]) (executing s) (set_tracked (<[fd := t']> (m_tracked_sockets s)) s)).
Proof.
  intros (H1 & H2 & H3) Ht Hk ->. split_and!; cbn; [| |done].
  - unfold in_flight. cbn. rewrite <-app_assoc. cbn [app]. rewrite <-Permutation_middle.
    eapply jobs_ok_start; try done; [|by destruct k]. intros k'. by destruct k, k'.
  - apply sockets_ok_insert; [done|by eapply sockets_ok_valid|]. intros _.
    destruct k; unfold busy; cbn; [done|by rewrite orb_true_r].
Qed.
Lemma rd_event_wf fd s : wf s → wf (on_socket rd_event fd s).
Proof.
  intros Hs. unfold on_socket, rd_event. destruct (m_tracked_sockets s !! fd) as [t|] eqn:Ht; [|done].
  destruct (rd_callback t) as [cb|]; [|done]. destruct (bool_decide _ && _) eqn:Hc; [|done].
  apply andb_true_iff in Hc as [_ Hc]. by eapply (start_wf _ _ _ Rd); [..|apply negb_true_iff in Hc|].
Qed.
Lemma wr_event_wf fd s : wf s → wf (on_socket wr_event fd s).
Proof.
  intros Hs. unfold on_socket, wr_event. destruct (m_tracked_sockets s !! fd) as [t|] eqn:Ht; [|done].
  destruct (wr_callback t) as [cb|]; [|done]. destruct (bool_decide _ && _) eqn:Hc; [|done].
  apply andb_true_iff in Hc as [_ Hc]. by eapply (start_wf _ _ _ Wr); [..|apply negb_true_iff in Hc|].
Qed.
(** In a well-formed state no marked socket is left idle: its last job removed it. *)
Lemma untrack_marked_id fd s : wf s → on_socket untrack_marked fd s = s.
Proof.
  intros (_ & H & _). unfold on_socket, untrack_marked.
  destruct (m_tracked_sockets s !! fd) as [t|] eqn:Ht; [|done]. destruct (H _ _ Ht) as [_ Hb].
  destruct (marked_for_untrack t); [|done]. by rewrite Hb.
Qed.
Lemma process_fd_wf fd s : wf s → wf (process_fd s fd).
Proof.
  intros Hs. unfold process_fd. destruct (_ && _).
  - destruct Hs as (H1 & H2 & H3). split_and!; cbn; [done..|lia].
  - rewrite untrack_marked_id; by apply wr_event_wf, rd_event_wf.
Qed.
Lemma process_events_wf s : wf s → wf (process_events s).
Proof.
  unfold process_events. generalize (m_polled_fds s) as l. intros l. revert s.
  induction l as [|fd l IH]; intros s Hs; [done|]. by apply IH, process_fd_wf.
Qed.

Lemma delete_perm {A} (l : list A) i x : l !! i = Some x → l ≡ₚ x :: delete i l.
Proof. apply delete_Permutation. Qed.
Lemma drop_job_wf i j s : wf s → executing s !! i = Some j →
  jobs_ok (m_tracked_sockets s) (j :: queued s ++ delete i (executing s)).
Proof.
  intros (H1 & _ & _) Hi. rewrite Permutation_middle, <-(delete_Permutation _ _ _ Hi). done.
Qed.
Lemma job_done_wf i j s : wf s → executing s !! i = Some j →
  wf (job_done j (set_jobs (queued s) (delete i (executing s)) s)).
Proof.
  intros Hs Hi. pose proof (drop_job_wf _ _ _ Hs Hi) as Hj. destruct Hs as (H1 & H2 & H3).
  unfold job_done. cbn [m_tracked_sockets set_jobs].
  destruct (m_tracked_sockets s !! j_fd j) as [t|] eqn:Ht.
  - pose proof (jobs_ok_end _ _ _ _ Hj Ht) as He. destruct (H2 _ _ Ht) as [Hfd Hb].
    apply notify_wf. destruct (_ && negb _) eqn:Hc; split_and!; cbn; try lia.
    + apply andb_true_iff in Hc as [_ Hc%negb_true_iff].
      rewrite <-(delete_insert_eq (m_tracked_sockets s) (j_fd j) (end_job (j_kind j) t)).
      apply jobs_ok_delete; [done|]. intros t0. rewrite lookup_insert_eq. by intros [= <-].
    + by apply map_Forall_delete.
    + done.
    + apply sockets_ok_insert; [done..|]. intros Hm. rewrite Hm in Hc. cbn in Hc. by apply negb_false_iff in Hc.
  - split_and!; [by eapply jobs_ok_tail|done..].
Qed.

(** ** What [init_poll_fds_info] collects *)
Definition wants (e : Z * tracked_socket) : bool := should_rd e.2 || should_wr e.2.
Lemma FD_SET_ok fd X : 0 <= fd < 1024 → FD_SET fd X = Some ({[fd]} ∪ X).
Proof. intros H. unfold FD_SET. by rewrite (proj2 (Z.leb_le _ _)), (proj2 (Z.ltb_lt _ _)) by lia. Qed.

Record collected (l : list (Z * tracked_socket)) (n n' : Z) (s s' : io_service) : Prop := {
  co_state : s' = set_polled (m_polled_fds s') (set_sets (m_rd_set s') (m_wr_set s') s);
  co_rd fd : fd ∈ m_rd_set s' ↔ fd ∈ m_rd_set s ∨ ∃ t, (fd, t) ∈ l ∧ should_rd t = true;
  co_wr fd : fd ∈ m_wr_set s' ↔ fd ∈ m_wr_set s ∨ ∃ t, (fd, t) ∈ l ∧ should_wr t = true;
  co_polled fd : fd ∈ m_polled_fds s' ↔
    fd ∈ m_polled_fds s ∨ ∃ t, (fd, t) ∈ l ∧ (wants (fd, t) = true ∨ marked_for_untrack t = true);
  co_max : n <= n' ∧ ∀ fd t, (fd, t) ∈ l → wants (fd, t) = true → fd <= n'
}.

Lemma init_fd_collects fd t n s : 0 <= fd < 1024 →
  ∃ n' s', init_fd (fd, t) (n, s) = Some (n', s') ∧ collected [(fd, t)] n n' s s'.
Proof.
  intros Hfd. unfold init_fd. rewrite !FD_SET_ok by done.
  set (rd := if should_rd t then {[fd]} ∪ m_rd_set s else m_rd_set s).
  set (wr := if should_wr t then {[fd]} ∪ m_wr_set s else m_wr_set s).
  set (p := m_polled_fds s ++ (if should_rd t || should_wr t || marked_for_untrack t then [fd] else [])).
  exists (if (should_rd t || should_wr t) && (n <? fd) then fd else n), (set_polled p (set_sets rd wr s)).
  split.
  { subst rd wr p. destruct (should_rd t), (should_wr t), (marked_for_untrack t); cbn -[union];
      by rewrite ?app_nil_r; destruct s. }
  assert (∀ (b : bool) (X : gset Z) fd', fd' ∈ (if b then {[fd]} ∪ X else X) ↔
    fd' ∈ X ∨ ∃ t', (fd', t') ∈ [(fd, t)] ∧ b = true) as Hset.
  { intros b X fd'. setoid_rewrite list_elem_of_singleton. destruct b; [|naive_solver].
    rewrite elem_of_union, elem_of_singleton. naive_solver. }
  constructor; cbn -[union wants]; [done| | | |].
  - intros fd'. subst rd wr. rewrite Hset. setoid_rewrite list_elem_of_singleton.
    split; (intros [?|(t' & [= -> ->] & ?)]; [by left|right; by eauto]).
  - intros fd'. subst rd wr. rewrite Hset. setoid_rewrite list_elem_of_singleton.
    split; (intros [?|(t' & [= -> ->] & ?)]; [by left|right; by eauto]).
  - intros fd'. subst p. rewrite elem_of_app. setoid_rewrite list_elem_of_singleton. unfold wants. cbn.
    split; (intros [?|H]; [by left|right]).
    + destruct (_ || _) eqn:E; [|by apply elem_of_nil in H]. apply list_elem_of_singleton in H as ->.
      exists t. split; [done|]. by apply orb_true_iff.
    + destruct H as (t' & [= -> ->] & H%orb_true_iff). cbn in H. rewrite H. by apply list_elem_of_singleton.
  - split; [|intros fd' t' [= -> ->]%list_elem_of_singleton; unfold wants; cbn; intros ->];
      destruct (Z.ltb_spec n fd); rewrite ?andb_false_r; cbn; try lia.
    destruct (_ && _); lia.
Qed.
Lemma collected_trans e l n n1 n2 s s1 s2 :
  collected [e] n n1 s s1 → collected l n1 n2 s1 s2 → collected (e :: l) n n2 s s2.
Proof.
  intros [A1 A2 A3 A4 A5] [B1 B2 B3 B4 B5].
  assert (∀ fd (P : Z * tracked_socket → Prop),
    (∃ t, (fd, t) ∈ e :: l ∧ P (fd, t)) ↔
    (∃ t, (fd, t) ∈ [e] ∧ P (fd, t)) ∨ ∃ t, (fd, t) ∈ l ∧ P (fd, t)) as E.
  { intros fd P. split.
    - intros (t & [H|H]%elem_of_cons & Hp); [left|right]; exists t; [|done]. by rewrite H, list_elem_of_singleton in *.
    - intros [(t & H%list_elem_of_singleton & Hp)|(t & H & Hp)]; exists t; rewrite elem_of_cons; auto. }
  constructor.
  - rewrite B1, A1. done.
  - intros fd. pose proof (E fd (λ e, should_rd e.2 = true)) as Ee. cbn in Ee. rewrite B2, A2. tauto.
  - intros fd. pose proof (E fd (λ e, should_wr e.2 = true)) as Ee. cbn in Ee. rewrite B3, A3. tauto.
  - intros fd. pose proof (E fd (λ e, wants e = true ∨ marked_for_untrack e.2 = true)) as Ee. cbn in Ee. rewrite B4, A4. tauto.
  - split; [lia|]. intros fd t [<-|H]%elem_of_cons Hw.
    + pose proof (proj2 A5 _ _ ltac:(by apply list_elem_of_singleton) Hw). lia.
    + by apply (proj2 B5 _ _ H).
Qed.
Lemma init_fds_collects l n s : Forall (λ e, 0 <= e.1 < 1024) l →
  ∃ n' s', init_fds l (n, s) = Some (n', s') ∧ collected l n n' s s'.
Proof.
  intros Hl. revert n s. induction Hl as [|[fd t] l Hfd Hl IH]; intros n s.
  - exists n, s. split; [done|].
    constructor; [by destruct s|..]; try (intros fd; split; [by left|intros [?|(t & []%elem_of_nil & _)]; done]).
    split; [lia|]. by intros fd t []%elem_of_nil.
  - destruct (init_fd_collects fd t n s Hfd) as (n1 & s1 & E1 & C1).
    destruct (IH n1 s1) as (n2 & s2 & E2 & C2). exists n2, s2. split; [|by eapply collected_trans].
    cbn [init_fds]. by rewrite E1.
Qed.

(** ** The polling thread's view *)
Definition watches_all (ndfs : Z) (s : io_service) : Prop :=
  read_fd ∈ watched ndfs (m_rd_set s) ∧
  ∀ fd t, m_tracked_sockets s !! fd = Some t →
    (should_rd t = true → fd ∈ watched ndfs (m_rd_set s) ∨ 0 < m_notifier s) ∧
    (should_wr t = true → fd ∈ watched ndfs (m_wr_set s) ∨ 0 < m_notifier s).
Definition will_process (s : io_service) : Prop :=
  ∀ fd, fd ∈ m_rd_set s ∨ fd ∈ m_wr_set s → fd ∈ m_polled_fds s.
Definition view_ok (s : io_service) : Prop :=
  match poll_worker s with
  | Between => True
  | Selecting ndfs => will_process s ∧ watches_all ndfs s
  | Selected => will_process s
  end.

Lemma elem_of_watched ndfs X fd : fd ∈ watched ndfs X ↔ fd ∈ X ∧ fd < ndfs.
Proof. unfold watched. rewrite elem_of_filter. tauto. Qed.

(** Right after the sets are built, every socket that can be served is in them. *)
Lemma init_poll_spec s : wf s → ∃ ndfs s',
  init_poll_fds_info s = Some (ndfs, s') ∧
  s' = set_polled (m_polled_fds s') (set_sets (m_rd_set s') (m_wr_set s') s) ∧ will_process s' ∧
  read_fd ∈ watched ndfs (m_rd_set s') ∧
  ∀ fd t, m_tracked_sockets s !! fd = Some t →
    (should_rd t = true → fd ∈ watched ndfs (m_rd_set s')) ∧
    (should_wr t = true → fd ∈ watched ndfs (m_wr_set s')).
Proof.
  intros (_ & Hok & _). unfold init_poll_fds_info. pose proof read_fd_valid as Hrd.
  rewrite FD_SET_ok by done. cbn [mbind option_bind].
  set (s0 := set_polled [read_fd] (set_sets ({[read_fd]} ∪ ∅) ∅ s)).
  assert (∀ fd t, (fd, t) ∈ walk (m_tracked_sockets s) ↔ m_tracked_sockets s !! fd = Some t) as Hwalk.
  { intros fd t. rewrite walk_perm. apply elem_of_map_to_list. }
  destruct (init_fds_collects (walk (m_tracked_sockets s)) read_fd s0) as (n & s' & E & [C1 C2 C3 C4 C5]).
  { apply Forall_forall. intros [fd t] H%Hwalk. by apply (Hok _ _ H). }
  change (m_tracked_sockets s0) with (m_tracked_sockets s) in *. rewrite E. cbn.
  exists (n + 1), s'. split; [done|]. split; [by rewrite C1 at 1|].
  split_and!.
  - intros fd. rewrite C2, C3, C4. subst s0. cbn -[union]. unfold wants. cbn.
    intros [[H|(t & Ht & Hw)]|[H|(t & Ht & Hw)]].
    + left. set_solver.
    + right. exists t. rewrite Hw. by split; [|left].
    + by apply elem_of_empty in H.
    + right. exists t. rewrite Hw, orb_true_r. by split; [|left].
  - rewrite elem_of_watched, C2. split; [left; subst s0; cbn -[union]; set_solver|lia].
  - intros fd t Ht%Hwalk. rewrite !elem_of_watched, C2, C3. pose proof (proj2 C5 _ _ Ht) as Hn. unfold wants in Hn. cbn in Hn.
    split; intros Hw; rewrite Hw, ?orb_true_r in Hn; (split; [right; by exists t|specialize (Hn eq_refl); lia]).
Qed.

(** Whatever changes the table writes to the pipe. *)
Lemma view_ok_change s s' : view_ok s →
  poll_worker s' = poll_worker s → m_polled_fds s' = m_polled_fds s →
  m_rd_set s' = m_rd_set s → m_wr_set s' = m_wr_set s →
  (m_tracked_sockets s' = m_tracked_sockets s ∧ m_notifier s' = m_notifier s) ∨ 0 < m_notifier s' →
  view_ok s'.
Proof.
  unfold view_ok, will_process, watches_all. intros Hv -> -> -> -> H.
  destruct (poll_worker s) as [|ndfs|]; [done| |done].
  destruct Hv as (Hp & Hr & Hv). split; [done|]. split; [done|].
  destruct H as [[-> ->]|H]; [done|]. by split; right.
Qed.
Lemma notify_view w t s : view_ok s → 0 <= m_notifier s → view_ok (notify w (set_tracked t s)).
Proof.
  intros Hv Hn. eapply view_ok_change; [exact Hv|..|right; by apply notify_wakes];
    unfold notify; by destruct (_ <? _).
Qed.

Definition inv (s : io_service) : Prop := wf s ∧ view_ok s.
Lemma inv_new n : inv (io_service_new n).
Proof. split; [|done]. split; [split; [constructor|by intros j []%elem_of_nil]|]. split; [apply map_Forall_empty|done]. Qed.

Lemma io_step_run e s s' : io_step e s = Some s' → io_event_run e s = Some s'.
Proof. unfold io_step. by destruct (_ && _). Qed.
Lemma io_step_view e s s' : inv s → io_step e s = Some s' → view_ok s'.
Proof.
  intros [Hw Hv] He%io_step_run. pose proof (proj2 (proj2 Hw)) as Hn. destruct e; cbn [io_event_run] in He.
  1-5: simplify_eq.
  - by apply notify_view.
  - by apply notify_view.
  - by apply notify_view.
  - unfold untrack. destruct (m_tracked_sockets s !! fd); [|done]. by apply notify_view.
  - by eapply view_ok_change; [done|done..|left].
  - destruct (poll_worker s); [|done..]. destruct (init_poll_spec s Hw) as (n & s1 & E0 & E & Hp & Hr & Ha).
    rewrite E0 in He. cbn in He. simplify_eq. unfold view_ok. cbn. split; [done|]. split; [done|].
    intros fd t. cbn. rewrite E. cbn. intros Ht. by split; intros H; left; apply (Ha _ _ Ht).
  - unfold view_ok in Hv. destruct (poll_worker s) as [|n|]; [done| |done].
    destruct (may_report n rd wr s) eqn:Hm; [|done]. simplify_eq. unfold view_ok. cbn.
    unfold may_report in Hm. rewrite !andb_true_iff, !bool_decide_eq_true in Hm. destruct Hm as [[[H1 H2] _] _].
    intros fd [H|H]; apply (proj1 Hv); [left; apply H1, elem_of_watched in H|right; apply H2, elem_of_watched in H]; apply H.
  - destruct (poll_worker s); [done| |done]. by simplify_eq.
  - destruct (poll_worker s); [done..|]. by simplify_eq.
  - destruct (queued s) as [|j q]; [done|]. destruct (Nat.ltb _ _); [|done]. simplify_eq.
    by eapply view_ok_change; [done|done..|left].
  - destruct (executing s !! i) as [j|]; [|done]. cbn in He. simplify_eq. unfold job_done. cbn.
    destruct (m_tracked_sockets s !! j_fd j).
    + by apply (notify_view Worker _ (set_jobs (queued s) (delete i (executing s)) s)).
    + by eapply view_ok_change; [done|done..|left].
  - destruct (executing s !! i) as [j|]; [|done]. cbn in He. simplify_eq.
    by eapply view_ok_change; [done|done..|left].
Qed.

Lemma init_poll_wf ndfs s s' : wf s → init_poll_fds_info s = Some (ndfs, s') → wf s'.
Proof.
  intros Hw Hi. destruct (init_poll_spec s Hw) as (n & s1 & E & Es & _).
  rewrite E in Hi. injection Hi as <- <-. rewrite Es. exact Hw.
Qed.
Lemma io_step_wf e s s' : wf s → ok_event e s → io_step e s = Some s' → wf s'.
Proof.
  intros Hw Hok He%io_step_run. destruct e; cbn [io_event_run] in He.
  1-5: simplify_eq.
  - by apply track_wf.
  - apply (set_callback_wf Caller (with_rd cb)); [done..|]. intros t. split; [done|by intros []].
  - apply (set_callback_wf Caller (with_wr cb)); [done..|]. intros t. split; [done|by intros []].
  - by apply untrack_wf.
  - done.
  - destruct (poll_worker s); [|done..]. destruct (init_poll_fds_info s) as [[n s1]|] eqn:Hi; [|done].
    cbn in He. simplify_eq. exact (init_poll_wf _ _ _ Hw Hi).
  - destruct (poll_worker s); [done| |done]. destruct (may_report _ _ _ _); [|done]. simplify_eq. exact Hw.
  - destruct (poll_worker s); [done| |done]. simplify_eq. exact Hw.
  - destruct (poll_worker s); [done..|]. simplify_eq. by apply process_events_wf.
  - destruct (queued s) as [|j q] eqn:Hq; [done|]. destruct (Nat.ltb _ _); [|done]. simplify_eq.
    destruct Hw as (H1 & H2 & H3). split_and!; [|done..]. unfold in_flight in *. cbn. rewrite Hq in H1.
    by rewrite app_assoc, <-Permutation_cons_append, app_comm_cons.
  - destruct (executing s !! i) as [j|] eqn:Hi; [|done]. cbn in He. simplify_eq. by apply job_done_wf.
  - destruct (executing s !! i) as [j|] eqn:Hi; [|done]. cbn in He. simplify_eq.
    pose proof (drop_job_wf _ _ _ Hw Hi) as Hj. destruct Hw as (H1 & H2 & H3).
    split_and!; [by eapply jobs_ok_tail|done..].
Qed.
Lemma io_step_inv e s s' : inv s → ok_event e s → io_step e s = Some s' → inv s'.
Proof. intros Hi Hok He. split; [by eapply io_step_wf; [apply Hi|..]|by eapply io_step_view]. Qed.
Lemma io_run_inv es s s' : inv s → ok_events es s → io_run es s = Some s' → inv s'.
Proof.
  revert s. induction es as [|e es IH]; intros s Hi; cbn [io_run ok_events]; [by intros _ [= <-]|].
  intros [Hok Hoks] Hr. destruct (io_step e s) as [s1|] eqn:He; [|done]. cbn in Hr.
  eapply IH; [by eapply io_step_inv|by apply Hoks|done].
Qed.

(** ** From a ready socket to its job *)

(** A byte in the pipe is enough for [select] to return. *)
Lemma pipe_reported ndfs s : read_fd ∈ watched ndfs (m_rd_set s) → 0 < m_notifier s →
  may_report ndfs {[read_fd]} ∅ s = true.
Proof.
  intros Hr Hn. unfold may_report. rewrite !andb_true_iff, !bool_decide_eq_true. split_and!; [set_solver..|].
  apply negb_true_iff, andb_false_iff. left. apply bool_decide_eq_false_2. set_solver.
Qed.

(** What one turn of the loop of [process_events] does not touch *)
Record same_sets (s s' : io_service) : Prop := {
  ss_rd : m_rd_set s' = m_rd_set s;
  ss_wr : m_wr_set s' = m_wr_set s;
  ss_blocked : blocked s' = blocked s;
  ss_queued : queued s `prefix_of` queued s'
}.
#[local] Instance same_sets_preorder : PreOrder same_sets.
Proof.
  split; [by intros s; split|]. intros s1 s2 s3 [A1 A2 A3 A4] [B1 B2 B3 B4].
  split; [congruence..|by etrans].
Qed.
Definition on_socket_same f : Prop := ∀ fd t s, m_tracked_sockets s !! fd = Some t →
  same_sets s (f fd t s) ∧ ∀ fd', fd' ≠ fd → m_tracked_sockets (f fd t s) !! fd' = m_tracked_sockets s !! fd'.
Lemma rd_event_same : on_socket_same rd_event.
Proof.
  intros fd t s _. unfold rd_event. destruct (rd_callback t); [|done]. destruct (_ && _); [|done].
  split; [split; try done; by apply prefix_app_r|]. intros fd' Hne. cbn. by rewrite lookup_insert_ne.
Qed.
Lemma wr_event_same : on_socket_same wr_event.
Proof.
  intros fd t s _. unfold wr_event. destruct (wr_callback t); [|done]. destruct (_ && _); [|done].
  split; [split; try done; by apply prefix_app_r|]. intros fd' Hne. cbn. by rewrite lookup_insert_ne.
Qed.
Lemma untrack_marked_same : on_socket_same untrack_marked.
Proof.
  intros fd t s _. unfold untrack_marked. destruct (_ && _); [|done].
  split; [done|]. intros fd' Hne. cbn. by rewrite lookup_delete_ne.
Qed.
Lemma on_socket_does f fd s : on_socket_same f → same_sets s (on_socket f fd s) ∧
  ∀ fd', fd' ≠ fd → m_tracked_sockets (on_socket f fd s) !! fd' = m_tracked_sockets s !! fd'.
Proof. intros Hf. unfold on_socket. destruct (_ !! fd) eqn:Ht; [by apply Hf|done]. Qed.
Lemma process_fd_does s fd : same_sets s (process_fd s fd) ∧
  ∀ fd', fd' ≠ fd → m_tracked_sockets (process_fd s fd) !! fd' = m_tracked_sockets s !! fd'.
Proof.
  unfold process_fd. destruct (_ && _); [done|].
  destruct (on_socket_does _ fd s rd_event_same) as [A1 A2].
  destruct (on_socket_does _ fd (on_socket rd_event fd s) wr_event_same) as [B1 B2].
  destruct (on_socket_does _ fd (on_socket wr_event fd (on_socket rd_event fd s)) untrack_marked_same) as [C1 C2].
  split; [by do 2 etrans|]. intros fd' Hne. by rewrite C2, B2, A2.
Qed.
Lemma process_list_does l s : same_sets s (foldl process_fd s l).
Proof.
  revert s. induction l as [|fd l IH]; intros s; [done|]. cbn. etrans; [apply process_fd_does|apply IH].
Qed.

(** ** Both kinds of events at once *)
Definition callback (k : io_kind) (t : tracked_socket) : option nat :=
  match k with Rd => rd_callback t | Wr => wr_callback t end.
Definition reported (k : io_kind) (s : io_service) : gset Z :=
  match k with Rd => m_rd_set s | Wr => m_wr_set s end.
Definition idle (k : io_kind) (cb : nat) (t : tracked_socket) : Prop := callback k t = Some cb ∧ flag k t = false.
Definition on_event (k : io_kind) : Z → tracked_socket → io_service → io_service :=
  match k with Rd => rd_event | Wr => wr_event end.
Definition start (k : io_kind) (t : tracked_socket) : tracked_socket :=
  match k with Rd => executing_rd true t | Wr => executing_wr true t end.

Lemma on_event_same k : on_socket_same (on_event k).
Proof. destruct k; [apply rd_event_same|apply wr_event_same]. Qed.
Lemma idle_start k k' cb t : k ≠ k' → idle k cb t → idle k cb (start k' t).
Proof. by destruct k, k'. Qed.
(** The event of kind [k] for a socket that is idle *)
Lemma on_event_idle k fd cb t s : m_tracked_sockets s !! fd = Some t → idle k cb t →
  on_socket (on_event k) fd s =
  if bool_decide (fd ∈ reported k s)
  then set_jobs (queued s ++ [mkJob k fd cb]) (executing s) (set_tracked (<[fd := start k t]> (m_tracked_sockets s)) s)
  else s.
Proof.
  intros Ht [Hcb Hx]. unfold on_socket. rewrite Ht.
  destruct k; cbn in *; unfold rd_event, wr_event; rewrite Hcb, Hx, andb_true_r; done.
Qed.
(** An event leaves the other kind as it was. *)
Lemma on_event_other k k' fd cb t s : k ≠ k' → m_tracked_sockets s !! fd = Some t → idle k cb t →
  ∃ t', m_tracked_sockets (on_socket (on_event k') fd s) !! fd = Some t' ∧ idle k cb t'.
Proof.
  intros Hk Ht Hi. unfold on_socket. rewrite Ht.
  assert (∀ cb', m_tracked_sockets (set_jobs (queued s ++ [mkJob k' fd cb']) (executing s)
    (set_tracked (<[fd := start k' t]> (m_tracked_sockets s)) s)) !! fd = Some (start k' t)) as Hset.
  { intros cb'. cbn. by rewrite lookup_insert_eq. }
  destruct k'; cbn [on_event]; unfold rd_event, wr_event;
    (destruct (_ t) as [cb'|]; [|by exists t]); (destruct (_ && _); [|by exists t]);
    eexists; (split; [apply Hset|by apply idle_start]).
Qed.

(** A reported socket whose callback is set and idle gets its job; one that is
    not reported stays as it was. *)
Lemma process_fd_serves s fd t k cb : wf s → fd ≠ read_fd → m_tracked_sockets s !! fd = Some t → idle k cb t →
  (fd ∈ reported k s → mkJob k fd cb ∈ queued (process_fd s fd)) ∧
  (fd ∉ reported k s → ∃ t', m_tracked_sockets (process_fd s fd) !! fd = Some t' ∧ idle k cb t').
Proof.
  intros Hw Hfd Ht Hi. unfold process_fd. rewrite (proj2 (Z.eqb_neq _ _) Hfd). cbn [andb].
  rewrite untrack_marked_id by (by apply wr_event_wf, rd_event_wf).
  change (on_socket wr_event fd (on_socket rd_event fd s)) with
    (on_socket (on_event Wr) fd (on_socket (on_event Rd) fd s)).
  assert (∀ s k, fd ∈ reported k s → m_tracked_sockets s !! fd = Some t → idle k cb t →
    mkJob k fd cb ∈ queued (on_socket (on_event k) fd s)) as Hstart.
  { intros s0 k0 Hin Ht0 Hi0. rewrite (on_event_idle k0 fd cb t), bool_decide_true by done. cbn. set_solver. }
  destruct k.
  - split; intros Hin.
    + eapply elem_of_prefix; [by apply Hstart|]. apply on_socket_does, on_event_same.
    + rewrite (on_event_idle Rd fd cb t), bool_decide_false by done. by apply (on_event_other Rd Wr fd cb t).
  - destruct (on_event_other Wr Rd fd cb t s ltac:(done) Ht Hi) as (t' & Ht' & Hi').
    destruct (on_socket_does _ fd s (on_event_same Rd)) as [[_ E _ _] _].
    rewrite (on_event_idle Wr fd cb t') by done. cbn [reported]. rewrite E. split; intros Hin.
    + rewrite bool_decide_true by done. cbn. set_solver.
    + rewrite bool_decide_false by done. by exists t'.
Qed.
Lemma process_list_serves l s fd t k cb : wf s → fd ≠ read_fd → m_tracked_sockets s !! fd = Some t → idle k cb t →
  (fd ∈ reported k s → fd ∈ l → mkJob k fd cb ∈ queued (foldl process_fd s l)) ∧
  (fd ∉ reported k s → ∃ t', m_tracked_sockets (foldl process_fd s l) !! fd = Some t' ∧ idle k cb t').
Proof.
  intros Hw Hfd. revert s t Hw. induction l as [|fd0 l IH]; intros s t Hw Ht Hi; cbn.
  - split; [by intros _ []%elem_of_nil|by exists t].
  - pose proof (process_fd_wf fd0 s Hw) as Hw'. destruct (process_fd_does s fd0) as [[D1 D2 _ _] D3].
    assert (reported k (process_fd s fd0) = reported k s) as Dk by (by destruct k).
    destruct (decide (fd0 = fd)) as [->|Hne].
    + destruct (process_fd_serves s fd t k cb Hw Hfd Ht Hi) as [A B]. split; intros Hin.
      * intros _. eapply elem_of_prefix; [by apply A|]. apply process_list_does.
      * destruct (B Hin) as (t' & Ht' & Hi'). apply (IH _ t' Hw' Ht' Hi'). by rewrite Dk.
    + destruct (IH _ t Hw' ltac:(by rewrite D3) Hi) as [A B]. rewrite Dk in A, B. split; [|exact B].
      intros Hin [?|Hl]%elem_of_cons; [done|by apply A].
Qed.

(** ** A full pipe *)

(** A thread that waits for room in the pipe waits for ever. *)
Lemma blocked_forever es s s' : blocked s ≠ None → io_run es s = Some s' →
  blocked s' = blocked s ∧ m_tracked_sockets s' = m_tracked_sockets s.
Proof.
  revert s. induction es as [|e es IH]; intros s Hb; cbn [io_run]; [by intros [= <-]|].
  destruct (io_step e s) as [s1|] eqn:He; [|done]. cbn. intros Hr.
  assert (blocked s1 = blocked s ∧ m_tracked_sockets s1 = m_tracked_sockets s) as [E1 E2].
  { unfold io_step in He. destruct (blocked s) as [w|] eqn:Hs; [|done]. rewrite andb_true_r in He.
    destruct e; cbn in He; try done; repeat (case_match; try done); simplify_eq/=; try done.
    all: destruct (executing s !! i); [|done]; cbn in He; simplify_eq/=; done. }
  rewrite <-E1, <-E2. apply IH; [by rewrite E1|done].
Qed.

End Spec.
