(* ===== verification/IoServiceClaims.v ===== *)
(** * The properties of the I/O service

    Exclusion of callbacks and the meaning of removal, no lost wake-up, and
    service of ready sockets, for every interleaving of the threads; runs that
    show the conditions are needed. *)

From S2P Require Import Prelude CppBase IoService IoServiceSpec.

Section Claims.
Context {L : IoLib}.

Lemma inv_run n es s :
  ok_events es (io_service_new n) → io_run es (io_service_new n) = Some s → inv s.
Proof. intros Hok Hrun. eapply io_run_inv; [apply inv_new|done..]. Qed.

(** C30. Callbacks exclude each other: in every run of any number of threads in
    which no descriptor is tracked anew while its callbacks are in flight, at
    most one read and one write callback of each socket is queued or running,
    and what [wait_for_removal] waits for means that none is: the owner may
    then destroy what the callbacks refer to. *)
Theorem callbacks_exclusive n es s :
  ok_events es (io_service_new n) → io_run es (io_service_new n) = Some s →
  NoDup (job_key <$> in_flight s) ∧
  ∀ fd, removed fd s = true → ∀ j, j ∈ in_flight s → j_fd j ≠ fd.
Proof.
  intros Hok Hrun. destruct (inv_run _ _ _ Hok Hrun) as [([H1 H2] & _ & _) _]. split; [done|].
  intros fd Hr%bool_decide_eq_true j Hj <-. destruct (H2 _ Hj) as (t & Ht & _). congruence.
Qed.

(** C32. No wake-up is lost: whenever the polling thread is in [select], every
    socket with a callback that is not running is among the descriptors it
    gave, below the bound it gave, or the pipe holds a byte, which is among
    them too, so that [select] returns. *)
Theorem no_lost_wakeup n es s ndfs fd t :
  ok_events es (io_service_new n) → io_run es (io_service_new n) = Some s →
  poll_worker s = Selecting ndfs → m_tracked_sockets s !! fd = Some t →
  let awake := 0 < m_notifier s ∧ may_report ndfs {[read_fd]} ∅ s = true in
  (should_rd t = true → fd ∈ watched ndfs (m_rd_set s) ∨ awake) ∧
  (should_wr t = true → fd ∈ watched ndfs (m_wr_set s) ∨ awake).
Proof.
  intros Hok Hrun Hp Ht awake. destruct (inv_run _ _ _ Hok Hrun) as [Hw Hv].
  unfold view_ok in Hv. rewrite Hp in Hv. destruct Hv as [_ [Hr Hall]].
  assert (0 < m_notifier s → awake) as Ha by (intros Hn; split; [done|by apply pipe_reported]).
  destruct (Hall _ _ Ht) as [A B]. split; intros H; [destruct (A H)|destruct (B H)]; auto.
Qed.

Lemma idle_should k cb t : idle k cb t → (match k with Rd => should_rd t | Wr => should_wr t end) = true.
Proof. by destruct k; intros [H1 H2]; cbn in *; unfold should_rd, should_wr; rewrite H1, H2. Qed.
Lemma polled_again s fd t k cb : wf s → blocked s = None → poll_worker s = Between →
  m_tracked_sockets s !! fd = Some t → idle k cb t →
  ∃ ndfs s', io_step EInit s = Some s' ∧ poll_worker s' = Selecting ndfs ∧ fd ∈ watched ndfs (reported k s').
Proof.
  intros Hw Hb Hp Ht Hi. destruct (init_poll_spec s Hw) as (ndfs & s' & E & _ & _ & _ & Hall).
  destruct (Hall _ _ Ht) as [A B]. apply idle_should in Hi.
  exists ndfs, (set_poller (Selecting ndfs) s'). unfold io_step. rewrite Hb. cbn. rewrite Hp, E.
  split_and!; [done..|]. destruct k; [by apply A|by apply B].
Qed.

(** C35. Ready sockets are served, all of them: wherever the polling thread is
    in a reachable state in which no thread waits for room in the pipe, for
    every socket with a callback of either kind that is set and not running:
    before [select] the thread puts the socket in the set it gives to
    [select]; in [select] the socket is in that set, or a byte of the pipe
    makes [select] return with the pipe reported; and after [select], whatever
    was reported with it, the processing of the events keeps the jobs queued
    before, gives the socket its job if it was reported, and otherwise the
    next [select] has the socket in its set. *)
Theorem ready_socket_served n es s fd t k cb :
  ok_events es (io_service_new n) → io_run es (io_service_new n) = Some s → blocked s = None →
  m_tracked_sockets s !! fd = Some t → callback k t = Some cb → flag k t = false →
  match poll_worker s with
  | Between =>
      ∃ ndfs s', io_step EInit s = Some s' ∧ poll_worker s' = Selecting ndfs ∧ fd ∈ watched ndfs (reported k s')
  | Selecting ndfs =>
      fd ∈ watched ndfs (reported k s) ∨
      may_report ndfs {[read_fd]} ∅ s = true ∧ ∀ rd wr, may_report ndfs rd wr s = true → read_fd ∈ rd
  | Selected =>
      ∃ s1, io_step EProcess s = Some s1 ∧ queued s `prefix_of` queued s1 ∧
        (fd ∈ reported k s → mkJob k fd cb ∈ queued s1) ∧
        (fd ∉ reported k s → ∃ ndfs s2, io_step EInit s1 = Some s2 ∧ poll_worker s2 = Selecting ndfs ∧
           fd ∈ watched ndfs (reported k s2))
  end.
Proof.
  intros Hok Hrun Hb Ht Hcb Hx. destruct (inv_run _ _ _ Hok Hrun) as [Hw Hv].
  assert (idle k cb t) as Hi by done.
  destruct (sockets_ok_valid _ _ _ (proj1 (proj2 Hw)) Ht) as [_ Hfd].
  unfold view_ok in Hv. destruct (poll_worker s) as [|ndfs|] eqn:Hp.
  - by eapply polled_again.
  - destruct Hv as [_ [Hr Hall]]. destruct (Hall _ _ Ht) as [A B]. pose proof (idle_should _ _ _ Hi) as Hs.
    assert (fd ∈ watched ndfs (reported k s) ∨ 0 < m_notifier s) as [?|Hn] by (destruct k; auto); [by left|right].
    split; [by apply pipe_reported|]. unfold may_report. intros rd wr Hm.
    rewrite !andb_true_iff, !bool_decide_eq_true in Hm. by apply Hm.
  - exists (set_poller Between (process_events s)). unfold io_step at 1. rewrite Hb. cbn [has andb locks].
    cbn [io_event_run]. rewrite Hp. split; [done|].
    destruct (process_list_does (m_polled_fds s) s) as [_ _ Eb Hq]. split; [exact Hq|].
    destruct (process_list_serves (m_polled_fds s) s fd t k cb Hw Hfd Ht Hi) as [A B].
    split; intros Hin.
    + apply A; [done|]. apply Hv. destruct k; [by left|by right].
    + destruct (B Hin) as (t' & Ht' & Hi'). apply (polled_again _ fd t' k cb); [|by etrans; [exact Eb|]|done..].
      apply (process_events_wf s Hw).
Qed.
End Claims.

(** ** Runs *)
#[local] Instance pipe3 : IoLib.
Proof.
  refine {| read_fd := 3; pipe_capacity := 65536; walk := map_to_list |}; [lia|lia|done].
Defined.

(** A socket is tracked, its read callback 7 is given to a worker, which starts
    it. *)
Definition one_read : list io_event :=
  [ETrack 5 (Some 7%nat) None; EInit; ESelect {[5; 3]} ∅; EProcess; EFetch].
Definition after (es : list io_event) : io_service :=
  default (io_service_new 0) (io_run es (io_service_new 2)).

Ltac ok_run :=
  cbn [ok_events]; repeat match goal with
  | |- _ ∧ _ => split
  | |- True => exact I
  | |- ∀ s', io_step _ ?s0 = Some s' → _ =>
      let H := fresh in intros ? H; vm_compute in H; injection H as <-
  end; try (vm_compute; intuition congruence).

Lemma one_read_ok : ok_events one_read (io_service_new 2).
Proof. unfold one_read. ok_run. Qed.

Lemma callbacks_exclusive_witness :
  ok_events one_read (io_service_new 2) ∧ io_run one_read (io_service_new 2) = Some (after one_read) ∧
  in_flight (after one_read) = [mkJob Rd 5 7] ∧ NoDup (job_key <$> in_flight (after one_read)) ∧
  ∀ fd, removed fd (after one_read) = true → ∀ j, j ∈ in_flight (after one_read) → j_fd j ≠ fd.
Proof.
  split; [exact one_read_ok|]. split; [vm_compute; reflexivity|]. split; [vm_compute; reflexivity|].
  apply (callbacks_exclusive 2 one_read (after one_read) one_read_ok). vm_compute. reflexivity.
Defined.

(** A socket tracked while the polling thread is in [select] without it *)
Definition late_track : list io_event := [EInit; ETrack 5 (Some 7%nat) None].
Definition late_socket : tracked_socket := mkTracked (Some 7%nat) false None false false.
Lemma late_track_ok : ok_events late_track (io_service_new 2).
Proof. unfold late_track. ok_run. Qed.

Lemma no_lost_wakeup_witness :
  ok_events late_track (io_service_new 2) ∧ io_run late_track (io_service_new 2) = Some (after late_track) ∧
  should_rd late_socket = true ∧ 5 ∉ watched 4 (m_rd_set (after late_track)) ∧
  (5 ∈ watched 4 (m_rd_set (after late_track)) ∨
   (0 < m_notifier (after late_track) ∧ may_report 4 {[read_fd]} ∅ (after late_track) = true)).
Proof.
  split; [exact late_track_ok|]. split; [vm_compute; reflexivity|]. split; [reflexivity|].
  split; [vm_compute; discriminate|].
  refine (proj1 (no_lost_wakeup 2 late_track (after late_track) 4 5 late_socket late_track_ok _ _ _) _);
    vm_compute; reflexivity.
Defined.

(** Two sockets are ready at once: both get their jobs. *)
Definition two_ready : list io_event :=
  [ETrack 5 (Some 7%nat) None; ETrack 6 (Some 8%nat) (Some 9%nat); EInit; ESelect {[5; 6; 3]} ∅].
Definition second_socket : tracked_socket := mkTracked (Some 8%nat) false (Some 9%nat) false false.
Lemma two_ready_ok : ok_events two_ready (io_service_new 2).
Proof. unfold two_ready. ok_run. Qed.

Lemma ready_socket_served_witness :
  ok_events two_ready (io_service_new 2) ∧ io_run two_ready (io_service_new 2) = Some (after two_ready) ∧
  6 ∈ m_rd_set (after two_ready) ∧
  ∃ s1, io_step EProcess (after two_ready) = Some s1 ∧ queued (after two_ready) `prefix_of` queued s1 ∧
    (6 ∈ m_rd_set (after two_ready) → mkJob Rd 6 8 ∈ queued s1) ∧
    (6 ∉ m_rd_set (after two_ready) → ∃ ndfs s2, io_step EInit s1 = Some s2 ∧
       poll_worker s2 = Selecting ndfs ∧ 6 ∈ watched ndfs (m_rd_set s2)).
Proof.
  split; [exact two_ready_ok|]. split; [vm_compute; reflexivity|].
  split; [vm_compute; reflexivity|].
  apply (ready_socket_served 2 two_ready (after two_ready) 6 second_socket Rd 8 two_ready_ok);
    vm_compute; reflexivity.
Defined.
Example both_ready_served : queued (after (two_ready ++ [EProcess])) = [mkJob Rd 5 7; mkJob Rd 6 8].
Proof. vm_compute. reflexivity. Qed.

(** The condition on [track] is needed: a callback that disconnects and connects
    again gets the same descriptor from the system, and the flags of the old
    entry are reset under it: two read callbacks of one descriptor run at once. *)
Example reused_descriptor_runs_twice :
  executing (after (one_read ++ [EUntrack 5; ETrack 5 (Some 8%nat) None;
    EInit; ESelect {[5; 3]} ∅; EProcess; EFetch])) = [mkJob Rd 5 7; mkJob Rd 5 8].
Proof. vm_compute. reflexivity. Qed.

(** A socket that waits for its removal is polled again. *)
Example marked_socket_polled_again :
  let s := after [ETrack 5 (Some 7%nat) (Some 8%nat); EInit; ESelect {[5; 3]} ∅; EProcess; EFetch;
    EUntrack 5; EInit; ESelect {[3]} {[5]}; EProcess] in
  marked_for_untrack <$> m_tracked_sockets s !! 5 = Some true ∧ queued s = [mkJob Wr 5 8].
Proof. vm_compute. done. Qed.

(** After a callback that throws, its socket is never polled again, and waiting
    for its removal does not end: nothing is left that could remove it. *)
Example thrown_callback_sticks :
  let s := after (one_read ++ [EThrow 0; EUntrack 5]) in
  removed 5 s = false ∧ in_flight s = [] ∧ should_rd <$> m_tracked_sockets s !! 5 = Some false.
Proof. vm_compute. done. Qed.

(** A descriptor beyond the size of the sets *)
Example descriptor_1024_undefined :
  io_run [ETrack 1024 (Some 7%nat) None; EInit] (io_service_new 1) = None.
Proof. vm_compute. reflexivity. Qed.

(** A pipe of two bytes: while the polling thread is on its way to
    [process_events], two changes have filled the pipe, the third waits for room
    with the mutex that [process_events] needs to read the pipe. No event that
    needs the mutex is possible from then on: by [blocked_forever], for ever. *)
#[local] Instance two_bytes : IoLib | 0.
Proof. refine {| read_fd := 3; pipe_capacity := 2; walk := map_to_list |}; [lia|lia|done]. Defined.
Definition full_pipe : io_service :=
  default (io_service_new 0) (io_run [ETrack 5 (Some 7%nat) None; EInit; ESelect {[5; 3]} ∅;
    ESetRd 5 (Some 8%nat); EUntrack 5] (io_service_new 2)).
Example full_pipe_deadlocks :
  blocked full_pipe = Some Caller ∧ poll_worker full_pipe = Selected ∧
  has (io_step EProcess full_pipe) = false.
Proof. split_and!; vm_compute; reflexivity. Qed.
