(* ===== verification/MediaStruct.v ===== *)
(** * [media_server]: media descriptions and their JSON form

    [media_info/media_struct.h]: what is known of a media file, its streams,
    chapters and attachments, written as JSON by the analysing process and
    read back.  A derived struct has its base as its first field; the [find]
    of an absent key leaves the field as it was. *)

From S2P Require Import Prelude CppBase BaseRef PathUnit.

(** What [base::StringToInt] and [base::StringToInt64] leave in their output,
    also when they fail. *)
Class NumberOutput := {
  StringToInt_out : string → Z;
  StringToInt64_out : string → Z
}.
Class NumberOutputLaws (bl : BaseLib) (no : NumberOutput) : Prop := {
  StringToInt_out_ok s z : base_StringToInt s = Some z → StringToInt_out s = z;
  StringToInt64_out_ok s z : base_StringToInt64 s = Some z → StringToInt64_out s = z;
  StringToInt_out_range s : in_int32 (StringToInt_out s) = true
}.

(** ** Finding in a dictionary; an integer is also found as a double *)
Definition FindStringKey (k : string) (d : Dict) : option string :=
  match dict_get k d with Some (VString s) => Some s | _ => None end.
Definition FindIntKey (k : string) (d : Dict) : option Z :=
  match dict_get k d with Some (VInt z) => Some z | _ => None end.
Definition FindBoolKey (k : string) (d : Dict) : option bool :=
  match dict_get k d with Some (VBool b) => Some b | _ => None end.
Definition FindDoubleKey (k : string) (d : Dict) : option double :=
  match dict_get k d with Some (VDouble x) => Some x | Some (VInt z) => Some (d_of_Z z) | _ => None end.
Definition FindListKey (k : string) (d : Dict) : option Value :=
  match dict_get k d with Some (VList l) => Some (VList l) | _ => None end.
Definition FindDictKey (k : string) (d : Dict) : option Dict :=
  match dict_get k d with Some (VDict x) => Some x | _ => None end.

(** ** [struct MediaMetadata], a [std::map] *)
Abbreviation MediaMetadata := (gmap string string).
Definition metadata_entries (m : MediaMetadata) : list (string * string) :=
  map_keys m ≫= λ k, match m !! k with Some v => [(k, v)] | None => [] end.
Definition Metadata_ToJsonObj (m : MediaMetadata) : Dict :=
  [("metadata", VDict (prod_map id VString <$> metadata_entries m))].

(** [insert] does not replace. *)
Definition map_insert_new (k v : string) (m : MediaMetadata) : MediaMetadata :=
  match m !! k with Some _ => m | None => <[k := v]> m end.
Definition Metadata_FromJson (json_obj : Value) (m : MediaMetadata) : bool * MediaMetadata :=
  match json_obj with
  | VDict d =>
      (true, foldl (λ m e, match e.2 with
                           | VString v => if str_empty e.1 then m else map_insert_new e.1 v m
                           | _ => m
                           end) m d)
  | _ => (false, m)
  end.
(** The last lines of every [FromJsonObj] *)
Definition metadata_of (json_obj : Dict) (m : MediaMetadata) : MediaMetadata :=
  match FindListKey "metadata" json_obj with Some v => (Metadata_FromJson v m).2 | None => m end.

(** ** [struct MediaBasicInfo] *)
Record MediaBasicInfo := mkBasic {
  local_path : string; mb_title : string; file_size : Z; media_container : string; duration_ms : Z;
  mb_width : Z; mb_height : Z; total_bitrate : Z; has_subtitle : bool; mb_metadata : MediaMetadata
}.
Definition MediaBasicInfo_new : MediaBasicInfo := mkBasic "" "" 0 "" 0 0 0 0 false ∅.
Definition Basic_ToJsonObj (x : MediaBasicInfo) : Dict :=
  [("path", VString (local_path x));
   ("title", VString (mb_title x));
   ("size", VString (to_string_Z (file_size x)));
   ("container", VString (media_container x));
   ("duration", VString (to_string_Z (duration_ms x)));
   ("width", VString (to_string_Z (mb_width x)));
   ("height", VString (to_string_Z (mb_height x)));
   ("total_bitrate", VString (to_string_Z (total_bitrate x)));
   ("has_subtitle", VBool (has_subtitle x))] ++ Metadata_ToJsonObj (mb_metadata x).

Definition Basic_FromJsonObj {bl : BaseLib} {no : NumberOutput} (json_obj : Dict) (x : MediaBasicInfo)
    : MediaBasicInfo :=
  mkBasic
    (from_option BaseFilePathFromU8 (local_path x) (FindStringKey "path" json_obj))
    (default (mb_title x) (FindStringKey "title" json_obj))
    (from_option StringToInt64_out (file_size x) (FindStringKey "size" json_obj))
    (default (media_container x) (FindStringKey "container" json_obj))
    (from_option StringToInt64_out (duration_ms x) (FindStringKey "duration" json_obj))
    (from_option StringToInt_out (mb_width x) (FindStringKey "width" json_obj))
    (from_option StringToInt_out (mb_height x) (FindStringKey "height" json_obj))
    (from_option StringToInt_out (total_bitrate x) (FindStringKey "total_bitrate" json_obj))
    (default (has_subtitle x) (FindBoolKey "has_subtitle" json_obj))
    (metadata_of json_obj (mb_metadata x)).

(** ** [struct MediaStream] *)
Record MediaStream := mkStream {
  stream_index : Z; codec_id : Z; codec_name : string; codec_long_name : string; ms_title : string;
  language : string; bitrate : Z; ms_metadata : MediaMetadata
}.
Definition MediaStream_new : MediaStream := mkStream 0 0 "" "" "" "" 0 ∅.

(** One turn of the loop of [ParseMetadata] *)
Definition parse_entry {no : NumberOutput} (x : MediaStream) (val : string * string) : MediaStream :=
  let '(mkStream i c n l t g b m) := x in
  if str_contains "BPS" val.1 && (b =? 0) then mkStream i c n l t g (StringToInt_out val.2) m
  else if str_contains "language" val.1 then mkStream i c n l t val.2 b m
  else if str_contains "title" val.1 then mkStream i c n l val.2 g b m
  else x.
Definition ParseMetadata {no : NumberOutput} (x : MediaStream) : MediaStream :=
  foldl parse_entry x (metadata_entries (ms_metadata x)).

Definition Stream_ToJsonObj (x : MediaStream) : Dict :=
  [("stream_index", VInt (stream_index x));
   ("codec_id", VInt (codec_id x));
   ("codec_name", VString (codec_name x));
   ("codec_long_name", VString (codec_long_name x));
   ("title", VString (ms_title x));
   ("language", VString (language x));
   ("bitrate", VInt (bitrate x))] ++ Metadata_ToJsonObj (ms_metadata x).
Definition Stream_FromJsonObj (json_obj : Dict) (x : MediaStream) : MediaStream :=
  mkStream
    (default (stream_index x) (FindIntKey "stream_index" json_obj))
    (default (codec_id x) (FindIntKey "codec_id" json_obj))
    (default (codec_name x) (FindStringKey "codec_name" json_obj))
    (default (codec_long_name x) (FindStringKey "codec_long_name" json_obj))
    (default (ms_title x) (FindStringKey "title" json_obj))
    (default (language x) (FindStringKey "language" json_obj))
    (default (bitrate x) (FindIntKey "bitrate" json_obj))
    (metadata_of json_obj (ms_metadata x)).

(** ** [struct HDRInfo] *)
Record HDRInfo := mkHDR { color_primaries : Z; color_trc : Z; color_space : Z }.
Definition HDRInfo_new : HDRInfo := mkHDR 0 0 0.
Definition HDR_ToJsonObj (x : HDRInfo) : Dict :=
  [("hdr", VDict [("color_primaries", VInt (color_primaries x)); ("color_trc", VInt (color_trc x));
                  ("color_space", VInt (color_space x))])].
Definition HDR_FromJsonObj (json_obj : Dict) (x : HDRInfo) : option HDRInfo :=
  match FindDictKey "hdr" json_obj with
  | None => None
  | Some h => Some (mkHDR (default (color_primaries x) (FindIntKey "color_primaries" h))
                      (default (color_trc x) (FindIntKey "color_trc" h))
                      (default (color_space x) (FindIntKey "color_space" h)))
  end.

(** ** [struct VideoStream] *)
Record VideoStream := mkVideo {
  v_stream : MediaStream; profile : string; level : Z; aspect_ratio : string;
  real_frame_bitrate : double; avg_frame_bitrate : double; rotate : Z; hdr_info : option HDRInfo
}.
Definition VideoStream_new : VideoStream := mkVideo MediaStream_new "" 0 "" d_zero d_zero 0 None.
Definition Video_ToJsonObj (x : VideoStream) : Dict :=
  Stream_ToJsonObj (v_stream x) ++
  [("profile", VString (profile x)); ("level", VInt (level x)); ("aspect_ratio", VString (aspect_ratio x));
   ("real_frame_bitrate", ValueDouble (real_frame_bitrate x));
   ("avg_frame_bitrate", ValueDouble (avg_frame_bitrate x)); ("rotate", VInt (rotate x))] ++
  from_option HDR_ToJsonObj [] (hdr_info x).
Definition Video_FromJsonObj (json_obj : Dict) (x : VideoStream) : VideoStream :=
  mkVideo (Stream_FromJsonObj json_obj (v_stream x))
    (default (profile x) (FindStringKey "profile" json_obj))
    (default (level x) (FindIntKey "level" json_obj))
    (default (aspect_ratio x) (FindStringKey "aspect_ratio" json_obj))
    (default (real_frame_bitrate x) (FindDoubleKey "real_frame_bitrate" json_obj))
    (default (avg_frame_bitrate x) (FindDoubleKey "avg_frame_bitrate" json_obj))
    (default (rotate x) (FindIntKey "rotate" json_obj))
    (match HDR_FromJsonObj json_obj HDRInfo_new with Some h => Some h | None => hdr_info x end).

(** ** [struct AudioStream], [struct SubtitleStream] *)
Record AudioStream := mkAudio { a_stream : MediaStream; channel : Z; sample_rate : Z }.
Definition AudioStream_new : AudioStream := mkAudio MediaStream_new 0 0.
Definition Audio_ToJsonObj (x : AudioStream) : Dict :=
  Stream_ToJsonObj (a_stream x) ++ [("channel", VInt (channel x)); ("sample_rate", VInt (sample_rate x))].
Definition Audio_FromJsonObj (json_obj : Dict) (x : AudioStream) : AudioStream :=
  mkAudio (Stream_FromJsonObj json_obj (a_stream x))
    (default (channel x) (FindIntKey "channel" json_obj))
    (default (sample_rate x) (FindIntKey "sample_rate" json_obj)).

Record SubtitleStream := mkSubtitle { s_stream : MediaStream; vtt_file_path : string }.
Definition SubtitleStream_new : SubtitleStream := mkSubtitle MediaStream_new "".
Definition Subtitle_ToJsonObj (x : SubtitleStream) : Dict :=
  Stream_ToJsonObj (s_stream x) ++ [("vtt_file_path", VString (vtt_file_path x))].
Definition Subtitle_FromJsonObj {bl : BaseLib} (json_obj : Dict) (x : SubtitleStream) : SubtitleStream :=
  mkSubtitle (Stream_FromJsonObj json_obj (s_stream x))
    (from_option BaseFilePathFromU8 (vtt_file_path x) (FindStringKey "vtt_file_path" json_obj)).

(** ** [struct MediaChapter] *)
Record MediaChapter := mkChapter {
  ch_index : Z; ch_title : string; start_time_sec : double; end_time_sec : double; ch_metadata : MediaMetadata
}.
Definition MediaChapter_new : MediaChapter := mkChapter 0 "" d_zero d_zero ∅.
Definition Chapter_ToJsonObj (x : MediaChapter) : Dict :=
  [("stream_index", VInt (ch_index x)); ("title", VString (ch_title x));
   ("start_time_sec", ValueDouble (start_time_sec x)); ("end_time_sec", ValueDouble (end_time_sec x))] ++
  Metadata_ToJsonObj (ch_metadata x).
Definition Chapter_FromJsonObj (json_obj : Dict) (x : MediaChapter) : MediaChapter :=
  mkChapter
    (default (ch_index x) (FindIntKey "stream_index" json_obj))
    (default (ch_title x) (FindStringKey "title" json_obj))
    (default (start_time_sec x) (FindDoubleKey "start_time_sec" json_obj))
    (default (end_time_sec x) (FindDoubleKey "end_time_sec" json_obj))
    (metadata_of json_obj (ch_metadata x)).

(** ** [struct MediaAttachment] *)
Record MediaAttachment := mkAttachment {
  at_index : Z; at_codec_id : Z; at_codec_name : string; at_codec_long_name : string;
  file_name : string; mime_type : string; at_metadata : MediaMetadata
}.
Definition MediaAttachment_new : MediaAttachment := mkAttachment 0 0 "" "" "" "" ∅.
Definition attachment_entry (x : MediaAttachment) (val : string * string) : MediaAttachment :=
  let '(mkAttachment i c n l f t m) := x in
  if str_contains "filename" val.1 then mkAttachment i c n l val.2 t m
  else if str_contains "mimetype" val.1 then mkAttachment i c n l f val.2 m
  else x.
Definition Attachment_ParseMetadata (x : MediaAttachment) : MediaAttachment :=
  foldl attachment_entry x (metadata_entries (at_metadata x)).
Definition Attachment_ToJsonObj (x : MediaAttachment) : Dict :=
  [("stream_index", VInt (at_index x)); ("codec_id", VInt (at_codec_id x));
   ("codec_name", VString (at_codec_name x)); ("codec_long_name", VString (at_codec_long_name x));
   ("file_name", VString (file_name x)); ("mime_type", VString (mime_type x))] ++
  Metadata_ToJsonObj (at_metadata x).
Definition Attachment_FromJsonObj (json_obj : Dict) (x : MediaAttachment) : MediaAttachment :=
  mkAttachment
    (default (at_index x) (FindIntKey "stream_index" json_obj))
    (default (at_codec_id x) (FindIntKey "codec_id" json_obj))
    (default (at_codec_name x) (FindStringKey "codec_name" json_obj))
    (default (at_codec_long_name x) (FindStringKey "codec_long_name" json_obj))
    (default (file_name x) (FindStringKey "file_name" json_obj))
    (default (mime_type x) (FindStringKey "mime_type" json_obj))
    (metadata_of json_obj (at_metadata x)).
