(* ===== verification/MediaParse.v ===== *)
(** * [media_server]: the analysing process

    [ffmpeg_tools/ffmpeg_helper.cc]: loading the functions of the ffmpeg
    libraries, reading a file's streams, probing hardware encoders.  The
    libraries are an interface; what the code reads of their structures is
    here.  [None] is undefined behaviour: a null function pointer or object, a
    conversion out of range. *)

From S2P Require Import Prelude CppBase BaseRef PathUnit MediaStruct.

(** ** Structures of the libraries: the fields that are read *)
Inductive AVMediaType := AVMEDIA_TYPE_VIDEO | AVMEDIA_TYPE_AUDIO | AVMEDIA_TYPE_DATA
  | AVMEDIA_TYPE_SUBTITLE | AVMEDIA_TYPE_ATTACHMENT | AVMEDIA_TYPE_UNKNOWN.
#[global] Instance AVMediaType_eq_dec : EqDecision AVMediaType.
Proof. solve_decision. Defined.

Record AVCodecParameters := mkPar {
  codec_type : AVMediaType; par_codec_id : Z; par_bit_rate : Z; par_width : Z; par_height : Z;
  par_color_primaries : Z; par_color_trc : Z; par_color_space : Z; par_channels : Z; par_sample_rate : Z
}.
Record AVCodecContext := mkContext {
  ctx_codec_id : Z; ctx_bit_rate : Z; ctx_level : Z; ctx_profile : Z; ctx_width : Z; ctx_height : Z
}.
(** [long_name] may be null. *)
Record AVCodec := mkCodec { av_codec_id : Z; long_name : option string }.
(** A dictionary is its entries in the order [av_dict_get] gives them; the side
    data are pairs of a type and bytes. *)
Record AVStream := mkAVStream {
  codecpar : AVCodecParameters; avg_frame_rate : Z * Z; r_frame_rate : Z * Z; sample_aspect_ratio : Z * Z;
  av_metadata : list (string * string); side_data : list (Z * list Z)
}.
Record AVChapter := mkAVChapter {
  time_base : Z * Z; start : Z; end_ : Z; avc_metadata : list (string * string)
}.
Record AVFormatContext := mkFormat {
  fmt_duration : Z; iformat_name : string; fmt_bit_rate : Z; fmt_metadata : list (string * string);
  streams : list AVStream; chapters : list AVChapter
}.
Definition AV_CODEC_ID_MP3 : Z := 86017.
Definition AV_CODEC_ID_AAC : Z := 86018.
Definition AV_CODEC_ID_AC3 : Z := 86019.
Definition AV_CODEC_ID_EAC3 : Z := 86056.
Definition AV_CODEC_ID_FLAC : Z := 86028.
Definition AV_CODEC_ID_ALAC : Z := 86032.
Definition AV_CODEC_ID_TTF : Z := 98304.
Definition AV_PKT_DATA_DISPLAYMATRIX : Z := 5.

Inductive HwAccels := kUnKnow | kIntelQsv | kNvidiaCuda | kGeneralDxva2 | kVaapi.
Definition HwAccels_value (a : HwAccels) : Z :=
  match a with kUnKnow => 0 | kIntelQsv => 1 | kNvidiaCuda => 2 | kGeneralDxva2 => 3 | kVaapi => 4 end.

Class FFmpegLib := {
  PathExists : string → bool;
  GetFileSize : string → Z;
  (** [path.RemoveExtension().BaseName()] *)
  bare_name : string → string;
  dir_exe : string;
  (** The functions a library exports, if it can be loaded *)
  LoadNativeLibrary : string → option (list string);
  JSONWriter_Write : Dict → string;
  avformat_open_input : string → option AVFormatContext;
  avformat_find_stream_info : AVFormatContext → Z * AVFormatContext;
  (** of the type video *)
  av_find_best_stream : AVFormatContext → Z;
  avcodec_alloc_context3 : option AVCodec → bool;
  avcodec_parameters_to_context : AVCodecParameters → option AVCodecContext;
  avcodec_get_name : Z → option string;
  avcodec_find_decoder : Z → option AVCodec;
  avcodec_find_encoder_by_name : string → option AVCodec;
  avcodec_open2 : AVCodec → Z;
  av_get_profile_name : AVCodec → Z → option string;
  av_reduce : Z → Z → Z → Z * Z;
  av_display_rotation_get : list Z → double;
  (** by the name of the type and the device *)
  av_hwdevice_ctx_create : HwAccels → string → Z
}.

(** ** [class FFmpegHelper]: the function pointers that are not null, the
    results of probing, and what was printed *)
Record FFmpegHelper := mkHelper {
  pfn : gset string; init_succ_ : bool; hw_accels_ : list HwAccels; encoder_ : string; printed : list string
}.
Definition FFmpegHelper_new : FFmpegHelper := mkHelper ∅ false [] "" [].
Definition set_pfn (p : gset string) (h : FFmpegHelper) : FFmpegHelper :=
  mkHelper p (init_succ_ h) (hw_accels_ h) (encoder_ h) (printed h).
Definition set_init (b : bool) (h : FFmpegHelper) : FFmpegHelper :=
  mkHelper (pfn h) b (hw_accels_ h) (encoder_ h) (printed h).
Definition set_encoder (e : string) (h : FFmpegHelper) : FFmpegHelper :=
  mkHelper (pfn h) (init_succ_ h) (hw_accels_ h) e (printed h).
Definition print_out (s : string) (h : FFmpegHelper) : FFmpegHelper :=
  mkHelper (pfn h) (init_succ_ h) (hw_accels_ h) (encoder_ h) (printed h ++ [s]).
Definition push_hw_accel (a : HwAccels) (h : FFmpegHelper) : FFmpegHelper :=
  mkHelper (pfn h) (init_succ_ h) (hw_accels_ h ++ [a]) (encoder_ h) (printed h).

(** The tests for null, and a call without one *)
Definition has_pfn (names : list string) (h : FFmpegHelper) : bool :=
  forallb (λ n, bool_decide (n ∈ pfn h)) names.
Definition must_have (name : string) (h : FFmpegHelper) : option unit :=
  if has_pfn [name] h then Some tt else None.

Section Helper.
Context {bl : BaseLib} {no : NumberOutput} {ff : FFmpegLib}.

(** ** Loading *)
Definition GetDllModuleHandle (dll_name : string) : option (list string) :=
  LoadNativeLibrary (FilePath_Append (FilePath_Append dir_exe "ffmpeg") dll_name).
Definition GetFunctionByDll (lib_dll : list string) (h : FFmpegHelper) (func_name : string) : FFmpegHelper :=
  set_pfn (if bool_decide (func_name ∈ lib_dll) then {[func_name]} ∪ pfn h else pfn h ∖ {[func_name]}) h.
Definition avcodec_functions : list string :=
  ["avcodec_alloc_context3"; "avcodec_parameters_to_context"; "avcodec_find_decoder";
   "avcodec_find_encoder"; "avcodec_find_encoder_by_name"; "avcodec_find_decoder_by_name";
   "avcodec_open2"; "av_packet_alloc"; "av_new_packet"; "avcodec_send_packet"; "avcodec_receive_frame";
   "avcodec_send_frame"; "av_packet_free"; "avcodec_receive_packet"; "av_packet_unref";
   "av_packet_clone"; "avcodec_free_context"; "av_get_profile_name"; "avcodec_get_name"].
Definition avformat_functions : list string :=
  ["avformat_open_input"; "avformat_close_input"; "av_seek_frame"; "av_read_frame"; "av_dump_format";
   "avformat_find_stream_info"; "av_find_best_stream"].
Definition avutil_functions : list string :=
  ["av_dict_get"; "av_frame_free"; "av_frame_clone"; "av_frame_alloc"; "av_frame_get_buffer";
   "av_hwdevice_ctx_create"; "av_rescale_q"; "av_reduce"; "av_log_set_level"; "av_strerror";
   "av_display_rotation_get"].
Definition swscale_functions : list string := ["sws_getContext"; "sws_freeContext"; "sws_scale"].

Definition InitFFmpegFunc (dll_name : string) (functions : list string) (h : FFmpegHelper)
    : bool * FFmpegHelper :=
  match GetDllModuleHandle dll_name with
  | None => (false, h)
  | Some lib_dll => (true, foldl (GetFunctionByDll lib_dll) h functions)
  end.
Definition InitFFmpegFuncFromAvcodec := InitFFmpegFunc "libavcodec.so" avcodec_functions.
Definition InitFFmpegFuncFromAvformat := InitFFmpegFunc "libavformat.so" avformat_functions.
Definition InitFFmpegFuncFromAvutil := InitFFmpegFunc "libavutil.so" avutil_functions.
Definition InitFFmpegFuncFromSwscale := InitFFmpegFunc "libswscale.so" swscale_functions.

Definition Init (h : FFmpegHelper) : bool * FFmpegHelper :=
  let h := set_init false h in
  if negb (PathExists (FilePath_Append (FilePath_Append dir_exe "ffmpeg") "ffmpeg")) then (false, h) else
  let '(ok, h) := InitFFmpegFuncFromAvformat h in
  if negb ok then (false, h) else
  let '(ok, h) := InitFFmpegFuncFromAvcodec h in
  if negb ok then (false, h) else
  let '(ok, h) := InitFFmpegFuncFromAvutil h in
  if negb ok then (false, h) else
  let '(ok, h) := InitFFmpegFuncFromSwscale h in
  if negb ok then (false, h) else (true, set_init true h).

(** ** Metadata and numbers *)
Definition GetMetadataFromAVDictionary (h : FFmpegHelper) (dict : list (string * string))
    (metadata : MediaMetadata) : option MediaMetadata :=
  must_have "av_dict_get" h ;; Some (foldl (λ m e, map_insert_new e.1 e.2 m) metadata dict).

Definition av_q2d (a : Z * Z) : double := d_div (d_of_Z a.1) (d_of_Z a.2).

Definition GetEstimatedAudioBitrate (codec_id channels : Z) : Z :=
  if (codec_id =? AV_CODEC_ID_AAC) || (codec_id =? AV_CODEC_ID_MP3) then
    if channels <=? 2 then 192000 else if 5 <=? channels then 320000 else 0
  else if (codec_id =? AV_CODEC_ID_AC3) || (codec_id =? AV_CODEC_ID_EAC3) then
    if channels <=? 2 then 192000 else if 5 <=? channels then 640000 else 0
  else if (codec_id =? AV_CODEC_ID_FLAC) || (codec_id =? AV_CODEC_ID_ALAC) then
    if channels <=? 2 then 960000 else if 5 <=? channels then 2880000 else 0
  else 0.

(** Assigning a [const char *] to a string *)
Definition codec_long (codec : option AVCodec) (old : string) : option string :=
  match codec with Some c => long_name c | None => Some old end.

Definition with_metadata (m : MediaMetadata) (x : MediaStream) : MediaStream :=
  mkStream (stream_index x) (codec_id x) (codec_name x) (codec_long_name x) (ms_title x) (language x) (bitrate x) m.
Definition with_bitrate (b : Z) (x : MediaStream) : MediaStream :=
  mkStream (stream_index x) (codec_id x) (codec_name x) (codec_long_name x) (ms_title x) (language x) b
    (ms_metadata x).
Definition with_codec (id : Z) (name long : string) (b : Z) (x : MediaStream) : MediaStream :=
  mkStream (stream_index x) id name long (ms_title x) (language x) b (ms_metadata x).
Definition at_stream (index : Z) : MediaStream := mkStream (to_int32 index) 0 "" "" "" "" 0 ∅.

(** ** Streams; the inner [None] is the result false *)
Definition video_functions : list string :=
  ["avcodec_alloc_context3"; "avcodec_free_context"; "avcodec_parameters_to_context"; "avcodec_find_decoder";
   "av_get_profile_name"; "av_reduce"; "avcodec_get_name"].
Definition hdr_of (p : AVCodecParameters) : option HDRInfo :=
  if (par_color_primaries p =? 9) && ((par_color_trc p =? 16) || (par_color_trc p =? 18))
  then Some (mkHDR (par_color_primaries p) (par_color_trc p) (par_color_space p)) else None.
Definition GetVideoInfoFromStream (h : FFmpegHelper) (stream : AVStream) (x : VideoStream)
    : option (option VideoStream) :=
  if negb (has_pfn video_functions h) then Some None
  else if negb (avcodec_alloc_context3 None) then None
  else
    match avcodec_parameters_to_context (codecpar stream) with
    | None => Some None
    | Some ctx =>
        let avcodec := avcodec_find_decoder (ctx_codec_id ctx) in
        long ← codec_long avcodec (codec_long_name (v_stream x));
        let s := with_codec (ctx_codec_id ctx) (default "" (avcodec_get_name (ctx_codec_id ctx))) long
                   (to_int32 (ctx_bit_rate ctx)) (v_stream x) in
        let profile_name :=
          match avcodec with
          | Some c => if 0 <? ctx_profile ctx then default "" (av_get_profile_name c (ctx_profile ctx)) else profile x
          | None => profile x
          end in
        let '(dst_num, dst_den) :=
          av_reduce (ctx_width ctx * (sample_aspect_ratio stream).1)
            (ctx_height ctx * (sample_aspect_ratio stream).2) (1024 * 1024) in
        m ← GetMetadataFromAVDictionary h (av_metadata stream) (ms_metadata s);
        Some (Some (mkVideo (ParseMetadata (with_metadata m s)) profile_name (ctx_level ctx)
          (to_string_Z dst_num +:+ ":" +:+ to_string_Z dst_den) (av_q2d (r_frame_rate stream))
          (av_q2d (avg_frame_rate stream)) (rotate x)
          (match hdr_of (codecpar stream) with Some i => Some i | None => hdr_info x end)))
    end.

(** [(int)rotation_angle % 360] of the first display matrix *)
Fixpoint rotation (h : FFmpegHelper) (sides : list (Z * list Z)) (old : Z) : option Z :=
  match sides with
  | [] => Some old
  | (type, data) :: sides =>
      if type =? AV_PKT_DATA_DISPLAYMATRIX then
        if Nat.ltb (length data) 36 then None
        else
          must_have "av_display_rotation_get" h ;;
          angle ← d_trunc (av_display_rotation_get (take 36 data));
          if in_int32 angle then Some (Z.rem angle 360) else None
      else rotation h sides old
  end.
Definition ParseVideoStream (h : FFmpegHelper) (index : Z) (stream : AVStream) (b : MediaBasicInfo)
    : option (option (VideoStream * MediaBasicInfo)) :=
  info ← GetVideoInfoFromStream h stream
    (mkVideo (at_stream index) "" 0 "" d_zero d_zero 0 None);
  match info with
  | None => Some None
  | Some x =>
      r ← rotation h (side_data stream) (rotate x);
      Some (Some (mkVideo (v_stream x) (profile x) (level x) (aspect_ratio x) (real_frame_bitrate x)
                    (avg_frame_bitrate x) r (hdr_info x),
                  mkBasic (local_path b) (mb_title b) (file_size b) (media_container b) (duration_ms b)
                    (par_width (codecpar stream)) (par_height (codecpar stream)) (total_bitrate b)
                    (has_subtitle b) (mb_metadata b)))
  end.

Definition decoder_functions : list string := ["avcodec_find_decoder"; "avcodec_get_name"].
(** The part that audio and subtitle streams share *)
Definition stream_codec (h : FFmpegHelper) (stream : AVStream) (bit_rate : Z) (x : MediaStream)
    : option MediaStream :=
  let id := par_codec_id (codecpar stream) in
  long ← codec_long (avcodec_find_decoder id) (codec_long_name x);
  let x := with_codec id (default "" (avcodec_get_name id)) long bit_rate x in
  m ← GetMetadataFromAVDictionary h (av_metadata stream) (ms_metadata x);
  Some (ParseMetadata (with_metadata m x)).
Definition GetAudioInfoFromStream (h : FFmpegHelper) (stream : AVStream) (x : AudioStream)
    : option (option AudioStream) :=
  if negb (has_pfn decoder_functions h) then Some None
  else
    let p := codecpar stream in
    m ← stream_codec h stream (to_int32 (par_bit_rate p)) (a_stream x);
    let m := if bitrate m =? 0
             then with_bitrate (GetEstimatedAudioBitrate (par_codec_id p) (par_channels p)) m else m in
    Some (Some (mkAudio m (par_channels p) (par_sample_rate p))).
Definition ParseAudioStream (h : FFmpegHelper) (index : Z) (stream : AVStream) : option (option AudioStream) :=
  GetAudioInfoFromStream h stream (mkAudio (at_stream index) 0 0).

Definition GetSubtitleInfoFromStream (h : FFmpegHelper) (stream : AVStream) (x : SubtitleStream)
    : option (option SubtitleStream) :=
  if negb (has_pfn decoder_functions h) then Some None
  else m ← stream_codec h stream (bitrate (s_stream x)) (s_stream x); Some (Some (mkSubtitle m (vtt_file_path x))).
Definition ParseSubtitleStream (h : FFmpegHelper) (index : Z) (stream : AVStream)
    : option (option SubtitleStream) :=
  GetSubtitleInfoFromStream h stream (mkSubtitle (at_stream index) "").

Definition GetAttachmentInfoFromStream (h : FFmpegHelper) (stream : AVStream) (x : MediaAttachment)
    : option MediaAttachment :=
  m ← GetMetadataFromAVDictionary h (av_metadata stream) (at_metadata x);
  Some (Attachment_ParseMetadata
    (mkAttachment (at_index x) (par_codec_id (codecpar stream)) "ttf" "TrueType font" (file_name x) (mime_type x) m)).
Definition ParseAttachmentStream (h : FFmpegHelper) (index : Z) (stream : AVStream) : option MediaAttachment :=
  GetAttachmentInfoFromStream h stream (mkAttachment (to_int32 index) 0 "" "" "" "" ∅).

(** ** Chapters *)
Fixpoint chapter_title (l : list (string * string)) (old : string) : string :=
  match l with
  | [] => old
  | (k, v) :: l => if str_contains "title" k then v else chapter_title l old
  end.
Definition parse_chapter (h : FFmpegHelper) (i : Z) (st : AVChapter) : option MediaChapter :=
  let tb := av_q2d (time_base st) in
  m ← GetMetadataFromAVDictionary h (avc_metadata st) ∅;
  Some (mkChapter (to_int32 i) (chapter_title (metadata_entries m) "")
    (d_mul (d_of_Z (start st)) tb) (d_mul (d_of_Z (end_ st)) tb) m).
Fixpoint GetChapterInfo (h : FFmpegHelper) (i : Z) (l : list AVChapter) : option (list MediaChapter) :=
  match l with
  | [] => Some []
  | st :: l => c ← parse_chapter h i st; cs ← GetChapterInfo h (i + 1) l; Some (c :: cs)
  end.

(** ** Files *)
Record media := mkMedia {
  m_base : MediaBasicInfo; m_video : list VideoStream; m_audio : list AudioStream;
  m_subtitle : list SubtitleStream; m_chapter : list MediaChapter; m_attachment : list MediaAttachment
}.
Definition push {A} (x : option A) (l : list A) : list A := match x with Some x => l ++ [x] | None => l end.
(** One turn of the loop over the streams *)
Definition parse_stream (h : FFmpegHelper) (i : Z) (st : AVStream) (r : media) : option media :=
  let '(mkMedia b v a s c t) := r in
  match codec_type (codecpar st) with
  | AVMEDIA_TYPE_VIDEO =>
      match v with
      | [] =>
          x ← ParseVideoStream h i st b;
          Some (match x with Some (x, b) => mkMedia b (v ++ [x]) a s c t | None => r end)
      | _ => Some r
      end
  | AVMEDIA_TYPE_AUDIO => x ← ParseAudioStream h i st; Some (mkMedia b v (push x a) s c t)
  | AVMEDIA_TYPE_SUBTITLE => x ← ParseSubtitleStream h i st; Some (mkMedia b v a (push x s) c t)
  | AVMEDIA_TYPE_ATTACHMENT =>
      if par_codec_id (codecpar st) =? AV_CODEC_ID_TTF
      then x ← ParseAttachmentStream h i st; Some (mkMedia b v a s c (t ++ [x])) else Some r
  | _ => Some r
  end.
Fixpoint parse_streams (h : FFmpegHelper) (i : Z) (l : list AVStream) (r : media) : option media :=
  match l with
  | [] => Some r
  | st :: l => r ← parse_stream h i st r; parse_streams h (i + 1) l r
  end.
Definition ParseMediaInfo (h : FFmpegHelper) (b : MediaBasicInfo) : option (option media) :=
  if negb (PathExists (local_path b)) then Some None
  else if negb (has_pfn ["avformat_open_input"; "avformat_close_input"; "avformat_find_stream_info"] h)
  then Some None
  else
    match avformat_open_input (local_path b) with
    | None => Some None
    | Some f =>
        let '(ret, f) := avformat_find_stream_info f in
        if negb (ret =? 0) then Some None
        else
          m ← GetMetadataFromAVDictionary h (fmt_metadata f) (mb_metadata b);
          let b := mkBasic (local_path b) (mb_title b) (file_size b) (iformat_name f)
            (Z.quot (fmt_duration f) 1000) (mb_width b) (mb_height b) (to_int32 (fmt_bit_rate f))
            (has_subtitle b) m in
          r ← parse_streams h 0 (streams f) (mkMedia b [] [] [] [] []);
          c ← GetChapterInfo h 0 (chapters f);
          Some (Some (mkMedia (m_base r) (m_video r) (m_audio r) (m_subtitle r) c (m_attachment r)))
    end.

Definition IsVideoFile (h : FFmpegHelper) (file_path : string) : bool :=
  if negb (has_pfn ["avformat_open_input"; "avformat_close_input"; "avformat_find_stream_info";
                    "av_find_best_stream"] h) then false
  else
    match avformat_open_input file_path with
    | None => false
    | Some f =>
        let '(ret, f) := avformat_find_stream_info f in
        if negb (ret =? 0) then false else negb (av_find_best_stream f <? 0)
    end.

Definition video_with_bitrate (total : Z) (x : VideoStream) : VideoStream :=
  if bitrate (v_stream x) =? 0
  then mkVideo (with_bitrate total (v_stream x)) (profile x) (level x) (aspect_ratio x) (real_frame_bitrate x)
         (avg_frame_bitrate x) (rotate x) (hdr_info x)
  else x.
Definition media_json (r : media) : Dict :=
  [("base", VDict (Basic_ToJsonObj (m_base r)));
   ("video", VList ((λ x, VDict (Video_ToJsonObj (video_with_bitrate (total_bitrate (m_base r)) x))) <$> m_video r));
   ("audio", VList ((λ x, VDict (Audio_ToJsonObj x)) <$> m_audio r));
   ("subtitle", VList ((λ x, VDict (Subtitle_ToJsonObj x)) <$> m_subtitle r));
   ("chapter", VList ((λ x, VDict (Chapter_ToJsonObj x)) <$> m_chapter r));
   ("attachment", VList ((λ x, VDict (Attachment_ToJsonObj x)) <$> m_attachment r))].
Definition HandleParse (media_path : string) (h : FFmpegHelper) : option (bool * FFmpegHelper) :=
  let '(ok, h) := Init h in
  if negb ok then Some (false, h)
  else if negb (IsVideoFile h media_path) then Some (false, h)
  else
    let b := mkBasic media_path (bare_name media_path) (GetFileSize media_path) "" 0 0 0 0 false ∅ in
    r ← ParseMediaInfo h b;
    match r with
    | None => Some (false, h)
    | Some r =>
        match m_video r with
        | [] => Some (false, h)
        | _ => Some (true, print_out ("output:" +:+ JSONWriter_Write (media_json r)) h)
        end
    end.

(** ** Hardware *)
Definition SupportEncoder (h : FFmpegHelper) (encoder_name : string) : option bool :=
  if negb (has_pfn ["avcodec_find_encoder_by_name"; "avcodec_alloc_context3"; "avcodec_free_context";
                    "avcodec_open2"; "av_get_profile_name"; "av_reduce"] h) then Some false
  else
    let avcodec := avcodec_find_encoder_by_name encoder_name in
    if negb (avcodec_alloc_context3 avcodec) then None
    else
      codec ← avcodec;
      if avcodec_open2 codec <? 0 then must_have "av_strerror" h ;; Some false else Some true.

(** A failed device reports through [av_strerror]. *)
Definition device_opened (a : HwAccels) (device : string) (h : FFmpegHelper) : option bool :=
  if av_hwdevice_ctx_create a device <? 0 then must_have "av_strerror" h ;; Some false else Some true.

Definition NVIDIACuda (h : FFmpegHelper) : option (bool * FFmpegHelper) :=
  if negb (has_pfn ["av_hwdevice_ctx_create"] h) then Some (false, h)
  else
    opened ← device_opened kNvidiaCuda "auto" h;
    if negb opened then Some (false, h)
    else
      supported ← SupportEncoder h "h264_nvenc";
      if negb supported then Some (false, print_out "not support h264_nvenc" h) else Some (true, h).
Definition IntelQsv (h : FFmpegHelper) : option (bool * FFmpegHelper) :=
  if negb (has_pfn ["av_hwdevice_ctx_create"; "avcodec_find_encoder_by_name"] h) then Some (false, h)
  else
    opened ← device_opened kIntelQsv "auto_any" h;
    if negb opened then Some (false, h)
    else
      supported ← SupportEncoder h "h264_qsv";
      if negb supported then Some (false, h)
      else Some (match avcodec_find_encoder_by_name "h264_qsv" with Some _ => true | None => false end, h).
Definition GeneralDxva2 (h : FFmpegHelper) : option (bool * FFmpegHelper) :=
  if negb (has_pfn ["av_hwdevice_ctx_create"] h) then Some (false, h)
  else
    opened ← device_opened kGeneralDxva2 "auto" h;
    if negb opened then Some (false, h)
    else
      nvenc ← SupportEncoder h "h264_nvenc";
      if nvenc : bool then Some (true, set_encoder "h264_nvenc" h)
      else
        qsv ← SupportEncoder h "h264_qsv";
        if qsv : bool then Some (true, set_encoder "h264_qsv" h)
        else
          amf ← SupportEncoder h "h264_amf";
          Some (true, set_encoder (if amf : bool then "h264_amf" else "libx264") h).
Definition Vaapi (h : FFmpegHelper) : option (bool * FFmpegHelper) :=
  if negb (has_pfn ["av_hwdevice_ctx_create"] h) then Some (false, h)
  else
    opened ← device_opened kVaapi "/dev/dri/renderD128" h;
    Some (if opened : bool then (true, set_encoder "h264_vaapi" h) else (false, h)).

Definition probe (a : HwAccels) (f : FFmpegHelper → option (bool * FFmpegHelper)) (h : FFmpegHelper)
    : option FFmpegHelper :=
  '(ok, h) ← f h; Some (if ok : bool then push_hw_accel a h else h).
(** The order on POSIX systems and on Windows *)
Definition InitHWAccels (h : FFmpegHelper) : option FFmpegHelper :=
  h ← probe kNvidiaCuda NVIDIACuda h; probe kVaapi Vaapi h.
Definition InitHWAccels_win (h : FFmpegHelper) : option FFmpegHelper :=
  h ← probe kNvidiaCuda NVIDIACuda h; h ← probe kIntelQsv IntelQsv h; probe kGeneralDxva2 GeneralDxva2 h.
Definition HandleInit (h : FFmpegHelper) : option (bool * FFmpegHelper) :=
  let '(ok, h) := Init h in
  if negb ok then Some (false, h)
  else
    h ← InitHWAccels h;
    let json_root := [("encoder", VString (encoder_ h))] ++
      match hw_accels_ h with [] => [] | l => [("hw_accels", VList (VInt ∘ HwAccels_value <$> l))] end in
    Some (true, print_out ("output:" +:+ JSONWriter_Write json_root +:+ String "010" EmptyString) h).

(** [RunCommand]: the switches of the command line *)
Definition RunCommand (init : bool) (parse : option string) (h : FFmpegHelper) : option FFmpegHelper :=
  if init then snd <$> HandleInit h
  else
    match parse with
    | Some media_path => if PathExists media_path then snd <$> HandleParse media_path h else Some h
    | None => Some h
    end.

End Helper.
