(* ===== verification/MediaClaims.v ===== *)
(** * The properties of media descriptions

    Their JSON form: what is read back, and what is lost. *)

From S2P Require Import Prelude CppBase BaseRef PathUnit MediaStruct MediaParse.

(** ** Metadata *)
Lemma elem_of_metadata_entries m k v : (k, v) ∈ metadata_entries m ↔ m !! k = Some v.
Proof.
  unfold metadata_entries. rewrite list_elem_of_bind. split.
  - intros (k' & Hin & _). destruct (m !! k') eqn:E; [|by apply elem_of_nil in Hin].
    apply list_elem_of_singleton in Hin. congruence.
  - intros H. exists k. rewrite H. split; [by apply list_elem_of_singleton|].
    apply elem_of_map_keys. by eexists.
Qed.
Definition read_entry (m : MediaMetadata) (e : string * Value) : MediaMetadata :=
  match e.2 with
  | VString v => if str_empty e.1 then m else map_insert_new e.1 v m
  | _ => m
  end.
Lemma read_entry_lookup m k v : k ≠ "" → read_entry m (k, VString v) !! k = Some (default v (m !! k)).
Proof.
  intros Hk. unfold read_entry. cbn. destruct (str_empty k) eqn:E; [by apply str_empty_true in E|].
  unfold map_insert_new. destruct (m !! k) eqn:Hm; [done|]. apply lookup_insert_eq.
Qed.
Lemma read_entry_other m k v k' : k' ≠ k → read_entry m (k, VString v) !! k' = m !! k'.
Proof.
  intros Hk. unfold read_entry. cbn. destruct (str_empty k); [done|].
  unfold map_insert_new. destruct (m !! k); [done|]. by rewrite lookup_insert_ne.
Qed.
(** Reading the strings of a list into a map adds what the list says and nothing else. *)
Lemma read_entries_sound l acc k v :
  foldl read_entry acc (prod_map id VString <$> l) !! k = Some v → acc !! k = Some v ∨ (k, v) ∈ l.
Proof.
  revert acc. induction l as [|[k0 v0] l IH]; intros acc; cbn [foldl fmap list_fmap]; [by left|].
  intros [H|H]%IH; [|right; by apply elem_of_cons; right]. cbn [prod_map fst snd id] in H.
  destruct (decide (k = k0)) as [->|Hne]; [|rewrite read_entry_other in H by done; by left].
  destruct (decide (k0 = "")) as [->|Hk]; [by left|]. rewrite read_entry_lookup in H by done.
  destruct (acc !! k0) as [x|] eqn:Hx; cbn in H; simplify_eq; [by left|right; by apply elem_of_cons; left].
Qed.
Lemma read_entries_complete l acc k v :
  k ≠ "" → acc !! k = None → (∀ v', (k, v') ∈ l → v' = v) → (k, v) ∈ l →
  foldl read_entry acc (prod_map id VString <$> l) !! k = Some v.
Proof.
  intros Hk. revert acc. induction l as [|[k0 v0] l IH]; intros acc Ha Hu Hin; [by apply elem_of_nil in Hin|].
  cbn [foldl fmap list_fmap]. cbn [prod_map fst snd id].
  assert (∀ l' acc', acc' !! k = Some v → foldl read_entry acc' (prod_map id VString <$> l') !! k = Some v) as Hkeep.
  { clear. induction l' as [|[k1 v1] l' IH]; intros acc' H; [done|]. apply IH.
    change (read_entry acc' (k1, VString v1) !! k = Some v).
    destruct (decide (k = k1)) as [->|Hne]; [|by rewrite read_entry_other].
    destruct (decide (k1 = "")) as [->|Hk]; [done|]. by rewrite read_entry_lookup, H. }
  destruct (decide (k0 = k)) as [->|Hne].
  - assert (v0 = v) as -> by (apply Hu; by apply elem_of_cons; left).
    apply Hkeep. by rewrite read_entry_lookup, Ha.
  - apply IH; [by rewrite read_entry_other|intros v' H; apply Hu; by apply elem_of_cons; right|].
    apply elem_of_cons in Hin as [[= -> ->]|?]; done.
Qed.

(** Metadata is written as a dictionary that contains it all, and looked for
    as a list: what is written under the key is exactly the map (were it read
    as it is written, every entry with a non-empty name would come back), but
    no reader finds it. *)
Theorem metadata_written_not_found (m : MediaMetadata) :
  m !! "" = None →
  ∃ v, dict_get "metadata" (Metadata_ToJsonObj m) = Some v ∧ Metadata_FromJson v ∅ = (true, m) ∧
    FindListKey "metadata" (Metadata_ToJsonObj m) = None ∧
    ∀ m', metadata_of (Metadata_ToJsonObj m) m' = m'.
Proof.
  intros Hm. eexists. split; [reflexivity|]. split; [|done]. cbn. f_equal.
  change (foldl read_entry ∅ (prod_map id VString <$> metadata_entries m) = m).
  apply map_eq. intros k. apply option_eq. intros v. split.
  - intros [H|H]%read_entries_sound; [by rewrite lookup_empty in H|]. by apply elem_of_metadata_entries.
  - intros H. apply read_entries_complete; [intros ->; congruence|done| |by apply elem_of_metadata_entries].
    intros v'. rewrite elem_of_metadata_entries. congruence.
Qed.
Lemma metadata_written_not_found_witness :
  let m : MediaMetadata := {["title" := "film"; "language" := "chi"]} in
  m !! "" = None ∧ ∃ v, dict_get "metadata" (Metadata_ToJsonObj m) = Some v ∧
    Metadata_FromJson v ∅ = (true, m) ∧ FindListKey "metadata" (Metadata_ToJsonObj m) = None ∧
    ∀ m', metadata_of (Metadata_ToJsonObj m) m' = m'.
Proof. cbn zeta. split; [reflexivity|]. apply metadata_written_not_found. reflexivity. Defined.

(** ** Streams *)
#[local] Arguments BaseFilePathFromU8 : simpl never.
#[local] Arguments to_string_Z : simpl never.
Definition stream_without (x : MediaStream) : MediaStream :=
  mkStream (stream_index x) (codec_id x) (codec_name x) (codec_long_name x) (ms_title x) (language x) (bitrate x) ∅.
Definition basic_ok (x : MediaBasicInfo) : Prop :=
  backslash ∉ str_chars (local_path x) ∧ in_int64 (file_size x) = true ∧ in_int64 (duration_ms x) = true ∧
  in_int32 (mb_width x) = true ∧ in_int32 (mb_height x) = true ∧ in_int32 (total_bitrate x) = true.

Lemma stream_back x rest : Stream_FromJsonObj (Stream_ToJsonObj x ++ rest) MediaStream_new = stream_without x.
Proof. by destruct x. Qed.
Lemma BaseFilePathFromU8_id {bl : BaseLib} (Hb : BaseLibLaws bl) p :
  backslash ∉ str_chars p → BaseFilePathFromU8 p = p.
Proof. apply (UnifiedSlash_id (bl := bl)). Qed.

(** C37. Descriptions survive their JSON form but for the metadata: read into
    fresh objects, a video stream comes back with its HDR information, an audio
    and a subtitle stream, a chapter and an attachment come back as they were
    with no metadata, and so does the basic information, provided its numbers
    fit their types and neither its path nor the path of the subtitles has a
    backslash (a backslash comes back as a slash); a frame rate or a time that
    is no finite number ([av_q2d] of 0/0) comes back as 0. *)
Theorem media_json_roundtrip {bl : BaseLib} (Hb : BaseLibLaws bl) {no : NumberOutput}
    (Hn : NumberOutputLaws bl no) b v a s c t :
  basic_ok b → backslash ∉ str_chars (vtt_file_path s) →
  Basic_FromJsonObj (Basic_ToJsonObj b) MediaBasicInfo_new =
    mkBasic (local_path b) (mb_title b) (file_size b) (media_container b) (duration_ms b) (mb_width b)
      (mb_height b) (total_bitrate b) (has_subtitle b) ∅ ∧
  Video_FromJsonObj (Video_ToJsonObj v) VideoStream_new =
    mkVideo (stream_without (v_stream v)) (profile v) (level v) (aspect_ratio v)
      (d_stored (real_frame_bitrate v)) (d_stored (avg_frame_bitrate v)) (rotate v) (hdr_info v) ∧
  Audio_FromJsonObj (Audio_ToJsonObj a) AudioStream_new =
    mkAudio (stream_without (a_stream a)) (channel a) (sample_rate a) ∧
  Subtitle_FromJsonObj (Subtitle_ToJsonObj s) SubtitleStream_new =
    mkSubtitle (stream_without (s_stream s)) (vtt_file_path s) ∧
  Chapter_FromJsonObj (Chapter_ToJsonObj c) MediaChapter_new =
    mkChapter (ch_index c) (ch_title c) (d_stored (start_time_sec c)) (d_stored (end_time_sec c)) ∅ ∧
  Attachment_FromJsonObj (Attachment_ToJsonObj t) MediaAttachment_new =
    mkAttachment (at_index t) (at_codec_id t) (at_codec_name t) (at_codec_long_name t) (file_name t)
      (mime_type t) ∅.
Proof.
  intros (H1 & H2 & H3 & H4 & H5 & H6) Hs. split_and!.
  - destruct b as [p ti fs mc d w h tb hs m]. cbn in *.
    transitivity (mkBasic (BaseFilePathFromU8 p) ti (StringToInt64_out (to_string_Z fs)) mc
      (StringToInt64_out (to_string_Z d)) (StringToInt_out (to_string_Z w)) (StringToInt_out (to_string_Z h))
      (StringToInt_out (to_string_Z tb)) hs ∅); [reflexivity|].
    rewrite BaseFilePathFromU8_id by done.
    by rewrite (StringToInt64_out_ok _ _ (StringToInt64_print _ H2)),
      (StringToInt64_out_ok _ _ (StringToInt64_print _ H3)), (StringToInt_out_ok _ _ (StringToInt_print _ H4)),
      (StringToInt_out_ok _ _ (StringToInt_print _ H5)), (StringToInt_out_ok _ _ (StringToInt_print _ H6)).
  - destruct v as [x p l ar rf af ro h]. unfold Video_FromJsonObj, Video_ToJsonObj. cbn [v_stream].
    rewrite stream_back. destruct x, h as [[hp ht hs]|]; reflexivity.
  - destruct a as [x ch sr]. unfold Audio_FromJsonObj, Audio_ToJsonObj. cbn [a_stream].
    rewrite stream_back. by destruct x.
  - destruct s as [x p]. unfold Subtitle_FromJsonObj, Subtitle_ToJsonObj. cbn [s_stream].
    rewrite stream_back.
    transitivity (mkSubtitle (stream_without x) (BaseFilePathFromU8 p)); [by destruct x|].
    by rewrite BaseFilePathFromU8_id.
  - by destruct c.
  - by destruct t.
Qed.

(** The conversions of the reference library, 0 when they fail *)
#[local] Instance number_ref : NumberOutput := {|
  StringToInt_out s := default 0 (base_StringToInt s);
  StringToInt64_out s := default 0 (base_StringToInt64 s)
|}.
Lemma number_ref_laws : NumberOutputLaws base_ref number_ref.
Proof.
  split; unfold StringToInt_out, StringToInt64_out, number_ref; [by intros s z ->..|]. intros s.
  destruct (base_StringToInt s) as [z|] eqn:E; [|done]. by apply (StringToInt_range s).
Qed.

Definition a_film : MediaBasicInfo :=
  mkBasic "/films/a.mkv" "a" 5000000000 "matroska" 5400000 1920 1080 6000000 true {["title" := "A"]}.
Definition a_stream_of (i : Z) : MediaStream := mkStream i 27 "h264" "H.264" "t" "eng" 5000 {["language" := "eng"]}.
Definition a_video : VideoStream :=
  mkVideo (a_stream_of 0) "High" 41 "16:9" (d_of_Z 24) (d_of_Z 24) 90 (Some (mkHDR 9 16 9)).
Lemma media_json_roundtrip_witness :
  basic_ok a_film ∧ backslash ∉ str_chars "/films/a.vtt" ∧
  Basic_FromJsonObj (Basic_ToJsonObj a_film) MediaBasicInfo_new =
    mkBasic "/films/a.mkv" "a" 5000000000 "matroska" 5400000 1920 1080 6000000 true ∅ ∧
  hdr_info (Video_FromJsonObj (Video_ToJsonObj a_video) VideoStream_new) = Some (mkHDR 9 16 9).
Proof.
  assert (basic_ok a_film) as H.
  { split_and!; try reflexivity. refine (bool_decide_unpack _ _). vm_compute. exact I. }
  assert (backslash ∉ str_chars "/films/a.vtt") as H'.
  { refine (bool_decide_unpack _ _). vm_compute. exact I. }
  split; [exact H|]. split; [exact H'|].
  destruct (media_json_roundtrip base_ref_laws number_ref_laws a_film a_video
    (mkAudio (a_stream_of 1) 2 48000) (mkSubtitle (a_stream_of 2) "/films/a.vtt")
    (mkChapter 0 "one" d_zero (d_of_Z 60) ∅) (mkAttachment 3 98304 "ttf" "TrueType font" "f.ttf" "font/ttf" ∅) H H')
    as (Hb & Hv & _).
  split; [exact Hb|]. by rewrite Hv.
Defined.

(** The frame rate of a stream that has none is 0/0: it is written as 0.0. *)
Example no_frame_rate_written :
  d_finite (av_q2d (0, 0)) = false ∧ d_stored (av_q2d (0, 0)) = d_zero.
Proof. split; vm_compute; reflexivity. Qed.

(** ** Analysing a file *)
Section Parse.
Context {bl : BaseLib} {no : NumberOutput} {ff : FFmpegLib}.


Lemma has_pfn_incl names names' h : has_pfn names h = true → names' ⊆ names → has_pfn names' h = true.
Proof.
  unfold has_pfn. rewrite !forallb_forall. intros H Hs x Hx. apply H. apply list_elem_of_In, Hs.
  by apply list_elem_of_In.
Qed.








(** ** Loading the libraries *)
Definition exports (dll_name : string) (functions : list string) : Prop :=
  ∃ lib_dll, GetDllModuleHandle dll_name = Some lib_dll ∧ functions ⊆ lib_dll.
Record installed : Prop := {
  in_program : PathExists (FilePath_Append (FilePath_Append dir_exe "ffmpeg") "ffmpeg") = true;
  in_avformat : exports "libavformat.so" avformat_functions;
  in_avcodec : exports "libavcodec.so" avcodec_functions;
  in_avutil : exports "libavutil.so" avutil_functions;
  in_swscale : exports "libswscale.so" swscale_functions
}.
Definition all_functions : list string :=
  avformat_functions ++ avcodec_functions ++ avutil_functions ++ swscale_functions.

Lemma GetFunctionByDll_loads lib_dll fs h : fs ⊆ lib_dll →
  pfn (foldl (GetFunctionByDll lib_dll) h fs) = pfn h ∪ list_to_set fs.
Proof.
  revert h. induction fs as [|f fs IH]; intros h Hs; [cbn; set_solver|]. cbn [foldl].
  rewrite IH by set_solver. unfold GetFunctionByDll. rewrite bool_decide_eq_true_2 by set_solver. cbn. set_solver.
Qed.
Lemma InitFFmpegFunc_loads dll_name fs h : exports dll_name fs →
  ∃ h', InitFFmpegFunc dll_name fs h = (true, h') ∧ pfn h' = pfn h ∪ list_to_set fs.
Proof.
  intros (lib_dll & Hl & Hs). unfold InitFFmpegFunc. rewrite Hl. eexists. split; [reflexivity|].
  by apply GetFunctionByDll_loads.
Qed.
Lemma Init_loads h : installed → ∃ h', Init h = (true, h') ∧ has_pfn all_functions h' = true.
Proof.
  intros [Hp H1 H2 H3 H4]. unfold Init, InitFFmpegFuncFromAvformat, InitFFmpegFuncFromAvcodec,
    InitFFmpegFuncFromAvutil, InitFFmpegFuncFromSwscale. rewrite Hp. cbn [negb].
  destruct (InitFFmpegFunc_loads _ _ (set_init false h) H1) as (h1 & E1 & P1). rewrite E1. cbn [negb].
  destruct (InitFFmpegFunc_loads _ _ h1 H2) as (h2 & E2 & P2). rewrite E2. cbn [negb].
  destruct (InitFFmpegFunc_loads _ _ h2 H3) as (h3 & E3 & P3). rewrite E3. cbn [negb].
  destruct (InitFFmpegFunc_loads _ _ h3 H4) as (h4 & E4 & P4). rewrite E4. cbn [negb].
  eexists. split; [reflexivity|]. unfold has_pfn. apply forallb_forall. intros f Hf%list_elem_of_In.
  apply bool_decide_eq_true. cbn [set_init pfn]. rewrite P4, P3, P2, P1. revert Hf. unfold all_functions.
  rewrite !elem_of_app, !elem_of_union, !elem_of_list_to_set. tauto.
Qed.
Lemma incl_all names : forallb (λ n, bool_decide (n ∈ all_functions)) names = true → names ⊆ all_functions.
Proof. intros H n Hn. rewrite forallb_forall in H. apply list_elem_of_In, H in Hn. by apply bool_decide_eq_true in Hn. Qed.

(** ** Probing *)
Lemma NVIDIACuda_without_encoder h : has_pfn all_functions h = true →
  0 <= av_hwdevice_ctx_create kNvidiaCuda "auto" → avcodec_find_encoder_by_name "h264_nvenc" = None →
  NVIDIACuda h = None.
Proof.
  intros P Hd He. assert (∀ names, forallb (λ n, bool_decide (n ∈ all_functions)) names = true → has_pfn names h = true) as Hp.
  { intros names Hs. by apply (has_pfn_incl all_functions), incl_all. }
  unfold NVIDIACuda, device_opened, SupportEncoder. rewrite !Hp by (vm_compute; reflexivity). cbn [negb].
  destruct (Z.ltb_spec (av_hwdevice_ctx_create kNvidiaCuda "auto") 0); [lia|]. cbn. rewrite He.
  by destruct (avcodec_alloc_context3 None).
Qed.

(** Probing a machine whose ffmpeg has no NVENC encoder is undefined
    behaviour as soon as the CUDA device opens: the encoder that was not found
    is dereferenced, so the command neither succeeds nor fails, whatever else
    the libraries do. *)
Theorem init_without_encoder_undefined h : installed →
  0 <= av_hwdevice_ctx_create kNvidiaCuda "auto" → avcodec_find_encoder_by_name "h264_nvenc" = None →
  HandleInit h = None ∧ RunCommand true None h = None.
Proof.
  intros Hi Hd He. assert (HandleInit h = None) as E; [|split; [done|]; unfold RunCommand; by rewrite E].
  unfold HandleInit. destruct (Init_loads h Hi) as (h' & -> & P). cbn [negb].
  unfold InitHWAccels, probe. by rewrite NVIDIACuda_without_encoder.
Qed.
End Parse.

(** ** An installation: every function, one file with an audio stream, a font,
    two video streams and a subtitle stream; CUDA without an encoder *)
Definition par_of (ty : AVMediaType) (id w h : Z) : AVCodecParameters := mkPar ty id 64000 w h 1 1 1 2 48000.
Definition stream_of (p : AVCodecParameters) : AVStream := mkAVStream p (25, 1) (25, 1) (1, 1) [("language", "eng")] [].
Definition file_streams : list AVStream :=
  stream_of <$> [par_of AVMEDIA_TYPE_AUDIO AV_CODEC_ID_AAC 0 0; par_of AVMEDIA_TYPE_ATTACHMENT AV_CODEC_ID_TTF 0 0;
    par_of AVMEDIA_TYPE_VIDEO 27 1920 1080; par_of AVMEDIA_TYPE_VIDEO 7 320 240;
    par_of AVMEDIA_TYPE_SUBTITLE 94225 0 0].
#[local] Instance ffmpeg_ref : FFmpegLib := {|
  PathExists _ := true; GetFileSize _ := 1000; bare_name s := s; dir_exe := "/bin";
  LoadNativeLibrary _ := Some all_functions; JSONWriter_Write _ := "{}";
  avformat_open_input _ := Some (mkFormat 60000000 "matroska" 800000 [] file_streams []);
  avformat_find_stream_info f := (0, f); av_find_best_stream _ := 2;
  avcodec_alloc_context3 _ := true;
  avcodec_parameters_to_context p :=
    Some (mkContext (par_codec_id p) (par_bit_rate p) 41 100 (par_width p) (par_height p));
  avcodec_get_name _ := Some "codec"; avcodec_find_decoder id := Some (mkCodec id (Some "a codec"));
  avcodec_find_encoder_by_name _ := None; avcodec_open2 _ := 0; av_get_profile_name _ _ := Some "High";
  av_reduce n d _ := (n, d); av_display_rotation_get _ := d_zero; av_hwdevice_ctx_create _ _ := 0
|}.
Lemma ffmpeg_ref_installed : installed (bl := base_ref).
Proof.
  constructor; [reflexivity|..]; (eexists; split; [reflexivity|]; apply incl_all; vm_compute; reflexivity).
Qed.


Lemma init_without_encoder_undefined_witness :
  installed (bl := base_ref) ∧ RunCommand (bl := base_ref) true None FFmpegHelper_new = None.
Proof.
  split; [exact ffmpeg_ref_installed|].
  apply (init_without_encoder_undefined (bl := base_ref) FFmpegHelper_new ffmpeg_ref_installed); [reflexivity..].
Defined.
