(* ===== verification/MediaSchema.v ===== *)
(** * [media_server]: the type of what the analysing process prints

    A schema for JSON values, the proof that what [HandleParse] prints has it,
    and what the readers of [media_struct.h] find in a value of the schema:
    every field but the metadata, which is a dictionary and looked for as a
    list. *)

From S2P Require Import Prelude CppBase BaseRef PathUnit MediaStruct MediaParse MediaClaims.

(** ** Schemas *)
Inductive schema :=
  | SString | SInt | SBool | SDouble
  | SMap                                   (** a dictionary of strings, as metadata is written *)
  | SList (element : schema)
  | SRecord (required optional : list (string * schema)).

Definition is_string (v : Value) : bool := match v with VString _ => true | _ => false end.
Definition all_strings (d : Dict) : bool := forallb (λ e, is_string e.2) d.
Fixpoint conforms (s : schema) (v : Value) : bool :=
  match s, v with
  | SString, VString _ => true
  | SInt, VInt z => in_int32 z
  | SBool, VBool _ => true
  | SDouble, VDouble d => d_finite d
  | SMap, VDict d => all_strings d
  | SList s, VList l => forallb (conforms s) l
  | SRecord required optional, VDict d =>
      forallb (λ f, match dict_get f.1 d with Some v => conforms f.2 v | None => false end) required &&
      forallb (λ f, match dict_get f.1 d with Some v => conforms f.2 v | None => true end) optional &&
      forallb (λ e, bool_decide (e.1 ∈ (required ++ optional).*1)) d
  | _, _ => false
  end.

Definition stream_fields : list (string * schema) :=
  [("stream_index", SInt); ("codec_id", SInt); ("codec_name", SString); ("codec_long_name", SString);
   ("title", SString); ("language", SString); ("bitrate", SInt); ("metadata", SMap)].
Definition base_schema : schema := SRecord
  [("path", SString); ("title", SString); ("size", SString); ("container", SString); ("duration", SString);
   ("width", SString); ("height", SString); ("total_bitrate", SString); ("has_subtitle", SBool);
   ("metadata", SMap)] [].
Definition hdr_schema : schema :=
  SRecord [("color_primaries", SInt); ("color_trc", SInt); ("color_space", SInt)] [].
Definition video_schema : schema := SRecord
  (stream_fields ++ [("profile", SString); ("level", SInt); ("aspect_ratio", SString);
    ("real_frame_bitrate", SDouble); ("avg_frame_bitrate", SDouble); ("rotate", SInt)]) [("hdr", hdr_schema)].
Definition audio_schema : schema := SRecord (stream_fields ++ [("channel", SInt); ("sample_rate", SInt)]) [].
Definition subtitle_schema : schema := SRecord (stream_fields ++ [("vtt_file_path", SString)]) [].
Definition chapter_schema : schema := SRecord
  [("stream_index", SInt); ("title", SString); ("start_time_sec", SDouble); ("end_time_sec", SDouble);
   ("metadata", SMap)] [].
Definition attachment_schema : schema := SRecord
  [("stream_index", SInt); ("codec_id", SInt); ("codec_name", SString); ("codec_long_name", SString);
   ("file_name", SString); ("mime_type", SString); ("metadata", SMap)] [].
Definition media_schema : schema := SRecord
  [("base", base_schema); ("video", SList video_schema); ("audio", SList audio_schema);
   ("subtitle", SList subtitle_schema); ("chapter", SList chapter_schema);
   ("attachment", SList attachment_schema)] [].

(** ** What a reader finds

    [read] reads [d] whole but for the metadata: the fields it sets do not
    depend on the object it reads into ([core] forgets the metadata), and the
    metadata stays as it was. *)
Record finds {A} (read : Dict → A → A) (core : A → A) (metadata : A → MediaMetadata) (d : Dict) : Prop := {
  fd_core x y : core (read d x) = core (read d y);
  fd_metadata x : metadata (read d x) = metadata x
}.
Definition finds_all {A} (read : Dict → A → A) (core : A → A) (metadata : A → MediaMetadata) (v : option Value) : Prop :=
  ∃ l, v = Some (VList l) ∧ ∀ e, e ∈ l → ∃ d, e = VDict d ∧ finds read core metadata d.
Definition basic_core (x : MediaBasicInfo) : MediaBasicInfo :=
  mkBasic (local_path x) (mb_title x) (file_size x) (media_container x) (duration_ms x) (mb_width x) (mb_height x)
    (total_bitrate x) (has_subtitle x) ∅.
Definition video_core (x : VideoStream) : VideoStream :=
  mkVideo (stream_without (v_stream x)) (profile x) (level x) (aspect_ratio x) (real_frame_bitrate x)
    (avg_frame_bitrate x) (rotate x) None.
Definition audio_core (x : AudioStream) : AudioStream := mkAudio (stream_without (a_stream x)) (channel x) (sample_rate x).
Definition subtitle_core (x : SubtitleStream) : SubtitleStream := mkSubtitle (stream_without (s_stream x)) (vtt_file_path x).
Definition chapter_core (x : MediaChapter) : MediaChapter :=
  mkChapter (ch_index x) (ch_title x) (start_time_sec x) (end_time_sec x) ∅.
Definition attachment_core (x : MediaAttachment) : MediaAttachment :=
  mkAttachment (at_index x) (at_codec_id x) (at_codec_name x) (at_codec_long_name x) (file_name x) (mime_type x) ∅.
(** Either there is no HDR information, or it is read whole. *)
Definition hdr_found (d : Dict) : Prop :=
  dict_get "hdr" d = None ∨ ∃ h, ∀ x, HDR_FromJsonObj d x = Some h.

Record media_found {bl : BaseLib} {no : NumberOutput} (d : Dict) : Prop := {
  mf_base : ∃ b, dict_get "base" d = Some (VDict b) ∧ finds Basic_FromJsonObj basic_core mb_metadata b;
  mf_video : finds_all Video_FromJsonObj video_core (λ x, ms_metadata (v_stream x)) (dict_get "video" d);
  mf_hdr l v : dict_get "video" d = Some (VList l) → VDict v ∈ l → hdr_found v;
  mf_audio : finds_all Audio_FromJsonObj audio_core (λ x, ms_metadata (a_stream x)) (dict_get "audio" d);
  mf_subtitle : finds_all Subtitle_FromJsonObj subtitle_core (λ x, ms_metadata (s_stream x)) (dict_get "subtitle" d);
  mf_chapter : finds_all Chapter_FromJsonObj chapter_core ch_metadata (dict_get "chapter" d);
  mf_attachment : finds_all Attachment_FromJsonObj attachment_core at_metadata (dict_get "attachment" d)
}.

Lemma conforms_field k s req opt d : conforms (SRecord req opt) (VDict d) = true → (k, s) ∈ req →
  ∃ v, dict_get k d = Some v ∧ conforms s v = true.
Proof.
  intros [[H _]%andb_true_iff _]%andb_true_iff Hin%list_elem_of_In. rewrite forallb_forall in H.
  apply H in Hin. cbn in Hin. destruct (dict_get k d) as [v|]; [by exists v|done].
Qed.
Lemma conforms_optional k s req opt d v : conforms (SRecord req opt) (VDict d) = true → (k, s) ∈ opt →
  dict_get k d = Some v → conforms s v = true.
Proof.
  intros [[_ H]%andb_true_iff _]%andb_true_iff Hin%list_elem_of_In Hv. rewrite forallb_forall in H.
  apply H in Hin. cbn in Hin. by rewrite Hv in Hin.
Qed.
Section Found.
Context {req opt : list (string * schema)} {d : Dict} (Hc : conforms (SRecord req opt) (VDict d) = true).
Lemma string_found k : (k, SString) ∈ req → ∃ s, FindStringKey k d = Some s.
Proof. intros H. destruct (conforms_field _ _ _ _ _ Hc H) as ([] & E & ?); try done. unfold FindStringKey. rewrite E. by eexists. Qed.
Lemma int_found k : (k, SInt) ∈ req → ∃ z, FindIntKey k d = Some z.
Proof. intros H. destruct (conforms_field _ _ _ _ _ Hc H) as ([] & E & ?); try done. unfold FindIntKey. rewrite E. by eexists. Qed.
Lemma bool_found k : (k, SBool) ∈ req → ∃ b, FindBoolKey k d = Some b.
Proof. intros H. destruct (conforms_field _ _ _ _ _ Hc H) as ([] & E & ?); try done. unfold FindBoolKey. rewrite E. by eexists. Qed.
Lemma double_found k : (k, SDouble) ∈ req → ∃ x, FindDoubleKey k d = Some x.
Proof. intros H. destruct (conforms_field _ _ _ _ _ Hc H) as ([] & E & ?); try done. unfold FindDoubleKey. rewrite E. by eexists. Qed.
Lemma metadata_not_found m : ("metadata", SMap) ∈ req → metadata_of d m = m.
Proof. intros H. destruct (conforms_field _ _ _ _ _ Hc H) as ([] & E & ?); try done. unfold metadata_of, FindListKey. by rewrite E. Qed.
Lemma list_found {A} (read : Dict → A → A) core md k sq so : (k, SList (SRecord sq so)) ∈ req →
  (∀ v, conforms (SRecord sq so) (VDict v) = true → finds read core md v) → finds_all read core md (dict_get k d).
Proof.
  intros H Hf. destruct (conforms_field _ _ _ _ _ Hc H) as ([] & E & Hl); try done.
  rewrite E. eexists. split; [done|]. intros e He%list_elem_of_In. cbn [conforms] in Hl.
  rewrite forallb_forall in Hl. apply Hl in He. destruct e as [| | | | | |v]; try done. exists v. split; [done|]. by apply Hf.
Qed.
End Found.

(** Replaces every lookup by what it finds. *)
Ltac in_fields := apply list_elem_of_In; lazy; repeat (first [left; reflexivity|right]).
Ltac rewrite_found H := let E := fresh in destruct H as [? E]; [in_fields|rewrite !E; clear E; cbn [default from_option id]].
Ltac found Hc :=
  repeat match goal with
  | |- context [FindStringKey ?k _] => rewrite_found (string_found Hc k)
  | |- context [FindIntKey ?k _] => rewrite_found (int_found Hc k)
  | |- context [FindBoolKey ?k _] => rewrite_found (bool_found Hc k)
  | |- context [FindDoubleKey ?k _] => rewrite_found (double_found Hc k)
  end; rewrite ?(metadata_not_found Hc) by in_fields; reflexivity.

Lemma basic_found {bl : BaseLib} {no : NumberOutput} d : conforms base_schema (VDict d) = true →
  finds Basic_FromJsonObj basic_core mb_metadata d.
Proof. intros Hc. split; intros; unfold Basic_FromJsonObj, basic_core; cbn [mb_metadata local_path mb_title file_size media_container duration_ms mb_width mb_height total_bitrate has_subtitle]; found Hc. Qed.
Lemma video_found d : conforms video_schema (VDict d) = true →
  finds Video_FromJsonObj video_core (λ x, ms_metadata (v_stream x)) d.
Proof. intros Hc. split; intros; unfold Video_FromJsonObj, Stream_FromJsonObj, video_core, stream_without; cbn; found Hc. Qed.
Lemma audio_found d : conforms audio_schema (VDict d) = true →
  finds Audio_FromJsonObj audio_core (λ x, ms_metadata (a_stream x)) d.
Proof. intros Hc. split; intros; unfold Audio_FromJsonObj, Stream_FromJsonObj, audio_core, stream_without; cbn; found Hc. Qed.
Lemma subtitle_found {bl : BaseLib} d : conforms subtitle_schema (VDict d) = true →
  finds Subtitle_FromJsonObj subtitle_core (λ x, ms_metadata (s_stream x)) d.
Proof. intros Hc. split; intros; unfold Subtitle_FromJsonObj, Stream_FromJsonObj, subtitle_core, stream_without; cbn; found Hc. Qed.
Lemma chapter_found d : conforms chapter_schema (VDict d) = true → finds Chapter_FromJsonObj chapter_core ch_metadata d.
Proof. intros Hc. split; intros; unfold Chapter_FromJsonObj, chapter_core; cbn; found Hc. Qed.
Lemma attachment_found d : conforms attachment_schema (VDict d) = true →
  finds Attachment_FromJsonObj attachment_core at_metadata d.
Proof. intros Hc. split; intros; unfold Attachment_FromJsonObj, attachment_core; cbn; found Hc. Qed.
Lemma hdr_read d : conforms video_schema (VDict d) = true → hdr_found d.
Proof.
  intros Hc. destruct (dict_get "hdr" d) as [v|] eqn:E; [right|by left].
  assert (conforms hdr_schema v = true) as Hh by (eapply (conforms_optional "hdr"); [exact Hc|in_fields|exact E]).
  destruct v as [| | | | | |h]; try done. unfold HDR_FromJsonObj, FindDictKey. rewrite E.
  destruct (int_found Hh "color_primaries") as [p ->]; [in_fields|].
  destruct (int_found Hh "color_trc") as [t ->]; [in_fields|].
  destruct (int_found Hh "color_space") as [c ->]; [in_fields|]. by exists (mkHDR p t c).
Qed.
Lemma schema_found {bl : BaseLib} {no : NumberOutput} d : conforms media_schema (VDict d) = true → media_found d.
Proof.
  intros Hc. constructor.
  - destruct (conforms_field "base" base_schema _ _ _ Hc) as (v & E & Hb); [in_fields|].
    destruct v as [| | | | | |b]; try done. exists b. split; [done|]. by apply basic_found.
  - eapply (list_found Hc); [in_fields|apply video_found].
  - intros l v E Hv%list_elem_of_In.
    destruct (conforms_field "video" (SList video_schema) _ _ _ Hc) as (w & E' & Hl); [in_fields|].
    rewrite E in E'. injection E' as <-. cbn [conforms] in Hl. rewrite forallb_forall in Hl. by apply hdr_read, Hl.
  - eapply (list_found Hc); [in_fields|apply audio_found].
  - eapply (list_found Hc); [in_fields|apply subtitle_found].
  - eapply (list_found Hc); [in_fields|apply chapter_found].
  - eapply (list_found Hc); [in_fields|apply attachment_found].
Qed.

(** ** Integers that fit *)
Definition stream_fits (x : MediaStream) : Prop :=
  in_int32 (stream_index x) = true ∧ in_int32 (codec_id x) = true ∧ in_int32 (bitrate x) = true.
Definition hdr_fits (x : HDRInfo) : Prop :=
  in_int32 (color_primaries x) = true ∧ in_int32 (color_trc x) = true ∧ in_int32 (color_space x) = true.
Record video_fits (x : VideoStream) : Prop := {
  vf_stream : stream_fits (v_stream x);
  vf_level : in_int32 (level x) = true;
  vf_rotate : in_int32 (rotate x) = true;
  vf_hdr : ∀ i, hdr_info x = Some i → hdr_fits i
}.
Definition audio_fits (x : AudioStream) : Prop :=
  stream_fits (a_stream x) ∧ in_int32 (channel x) = true ∧ in_int32 (sample_rate x) = true.
Record fits (r : media) : Prop := {
  f_base : in_int32 (total_bitrate (m_base r)) = true;
  f_video : Forall video_fits (m_video r);
  f_audio : Forall audio_fits (m_audio r);
  f_subtitle : Forall (λ x, stream_fits (s_stream x)) (m_subtitle r);
  f_chapter : Forall (λ x, in_int32 (ch_index x) = true) (m_chapter r);
  f_attachment : Forall (λ x, in_int32 (at_index x) = true ∧ in_int32 (at_codec_id x) = true) (m_attachment r)
}.

Lemma metadata_conforms (m : MediaMetadata) :
  ∃ d, Metadata_ToJsonObj m = [("metadata", VDict d)] ∧ all_strings d = true.
Proof. eexists. split; [reflexivity|]. apply forallb_forall. intros e (x & <- & _)%in_map_iff. done. Qed.
Lemma forallb_of {A B} (P : A → Prop) (f : A → B) (p : B → bool) l :
  Forall P l → (∀ x, P x → p (f x) = true) → forallb p (f <$> l) = true.
Proof. intros Hl Hp. induction Hl as [|x l Hx Hl IH]; [done|]. rewrite fmap_cons. cbn [forallb]. by rewrite Hp. Qed.

(** Evaluate the schema against a dictionary whose metadata is [m]. *)
Ltac conform m :=
  let d := fresh "d" in let E := fresh "E" in let Hd := fresh "Hd" in
  destruct (metadata_conforms m) as (d & E & Hd); unfold Video_ToJsonObj, Audio_ToJsonObj, Subtitle_ToJsonObj,
    Stream_ToJsonObj, Basic_ToJsonObj, Chapter_ToJsonObj, Attachment_ToJsonObj;
  cbn [v_stream a_stream s_stream MediaStruct.ms_metadata mb_metadata MediaStruct.ch_metadata MediaStruct.at_metadata];
  rewrite E; lazy -[all_strings in_int32 d_finite d_stored];
  rewrite ?Hd, ?d_stored_finite.

Lemma base_conforms x : conforms base_schema (VDict (Basic_ToJsonObj x)) = true.
Proof. by conform (mb_metadata x). Qed.
Lemma video_conforms x : video_fits x → conforms video_schema (VDict (Video_ToJsonObj x)) = true.
Proof.
  intros [(H1 & H2 & H3) H4 H5 H6]. destruct x as [[i c n l t g b m] p lv ar rf af ro [[hp ht hs]|]]; cbn in H1, H2, H3, H4, H5, H6; conform m;
    rewrite H1, H2, H3, H4, H5; [|done].
  destruct (H6 _ eq_refl) as (G1 & G2 & G3). cbn in *. by rewrite G1, G2, G3.
Qed.
Lemma audio_conforms x : audio_fits x → conforms audio_schema (VDict (Audio_ToJsonObj x)) = true.
Proof. destruct x as [[]]. intros ((H1 & H2 & H3) & H4 & H5). cbn in H1, H2, H3, H4, H5. conform ms_metadata. by rewrite H1, H2, H3, H4, H5. Qed.
Lemma subtitle_conforms x : stream_fits (s_stream x) → conforms subtitle_schema (VDict (Subtitle_ToJsonObj x)) = true.
Proof. destruct x as [[]]. intros (H1 & H2 & H3). cbn in H1, H2, H3. conform ms_metadata. by rewrite H1, H2, H3. Qed.
Lemma chapter_conforms x : in_int32 (ch_index x) = true → conforms chapter_schema (VDict (Chapter_ToJsonObj x)) = true.
Proof. destruct x. intros H1. cbn in H1. conform ch_metadata. by rewrite H1. Qed.
Lemma attachment_conforms x : in_int32 (at_index x) = true ∧ in_int32 (at_codec_id x) = true →
  conforms attachment_schema (VDict (Attachment_ToJsonObj x)) = true.
Proof. destruct x. intros [H1 H2]. cbn in H1, H2. conform at_metadata. by rewrite H1, H2. Qed.

(** ** What the analysis produces *)
Definition par_fits (p : AVCodecParameters) : Prop :=
  in_int32 (par_codec_id p) = true ∧ in_int32 (par_color_primaries p) = true ∧
  in_int32 (par_color_trc p) = true ∧ in_int32 (par_color_space p) = true ∧
  in_int32 (par_channels p) = true ∧ in_int32 (par_sample_rate p) = true.
(** The fields of the structures of the libraries are [int]s. *)
Class FFmpegTyped {ff : FFmpegLib} : Prop := {
  context_fits p ctx : par_fits p → avcodec_parameters_to_context p = Some ctx →
    in_int32 (ctx_codec_id ctx) = true ∧ in_int32 (ctx_level ctx) = true;
  stream_par_fits path f st : avformat_open_input path = Some f →
    st ∈ streams (avformat_find_stream_info f).2 → par_fits (codecpar st)
}.

Section Fits.
Context {bl : BaseLib} {no : NumberOutput} (Hn : NumberOutputLaws bl no) {ff : FFmpegLib} {ty : FFmpegTyped}.

Lemma to_int32_fits z : in_int32 (to_int32 z) = true.
Proof.
  apply in_int32_spec. unfold to_int32, wrap_signed.
  pose proof (Z.mod_pos_bound z (2 ^ 32) ltac:(lia)). cbn zeta.
  change (2 ^ (32 - 1)) with 2147483648. change (2 ^ 32) with 4294967296 in *.
  destruct (Z.ltb_spec (z mod 4294967296) 2147483648); lia.
Qed.
Lemma rem_fits z : in_int32 (Z.rem z 360) = true.
Proof. apply in_int32_spec. pose proof (Z.rem_bound_abs z 360 ltac:(lia)). lia. Qed.
Lemma estimated_fits id n : in_int32 (GetEstimatedAudioBitrate id n) = true.
Proof. unfold GetEstimatedAudioBitrate. repeat case_match; reflexivity. Qed.

Lemma parse_entry_fits x e : stream_fits x → stream_fits (parse_entry x e).
Proof.
  destruct x. intros (H1 & H2 & H3). unfold parse_entry. repeat case_match; try done.
  split_and!; [done..|]. apply (StringToInt_out_range (NumberOutputLaws := Hn)).
Qed.
Lemma ParseMetadata_fits x : stream_fits x → stream_fits (ParseMetadata x).
Proof.
  unfold ParseMetadata. generalize (metadata_entries (ms_metadata x)) as l. intros l. revert x.
  induction l as [|e l IH]; intros x Hx; [done|]. by apply IH, parse_entry_fits.
Qed.
Lemma attachment_fits x : in_int32 (at_index x) = true ∧ in_int32 (at_codec_id x) = true →
  in_int32 (at_index (Attachment_ParseMetadata x)) = true ∧ in_int32 (at_codec_id (Attachment_ParseMetadata x)) = true.
Proof.
  unfold Attachment_ParseMetadata. generalize (metadata_entries (at_metadata x)) as l. intros l. revert x.
  induction l as [|e l IH]; intros x Hx; [done|]. apply IH. destruct x. unfold attachment_entry.
  by repeat case_match.
Qed.

Lemma stream_codec_fits h st b x y : par_fits (codecpar st) → in_int32 (stream_index x) = true → in_int32 b = true →
  stream_codec h st b x = Some y → stream_fits y.
Proof.
  intros (Hp & _) Hx Hb. unfold stream_codec.
  destruct (codec_long _ _); [|done]. cbn [mbind option_bind].
  destruct (GetMetadataFromAVDictionary _ _ _); [|done]. intros [= <-].
  by apply ParseMetadata_fits.
Qed.
Lemma audio_stream_fits h i st x : par_fits (codecpar st) → ParseAudioStream h i st = Some (Some x) → audio_fits x.
Proof.
  intros Hp. unfold ParseAudioStream, GetAudioInfoFromStream. destruct (negb _); [done|].
  destruct (stream_codec _ _ _ _) as [y|] eqn:E; [|done]. intros [= <-].
  apply stream_codec_fits in E; [|done|apply to_int32_fits..]. destruct Hp as (_ & _ & _ & _ & H1 & H2).
  split; [|done]. cbn. destruct (_ =? 0); [|done]. destruct E as (E1 & E2 & _). split_and!; [done..|].
  apply estimated_fits.
Qed.
Lemma subtitle_stream_fits h i st x : par_fits (codecpar st) → ParseSubtitleStream h i st = Some (Some x) →
  stream_fits (s_stream x).
Proof.
  intros Hp. unfold ParseSubtitleStream, GetSubtitleInfoFromStream. destruct (negb _); [done|].
  destruct (stream_codec _ _ _ _) as [y|] eqn:E; [|done]. intros [= <-].
  apply stream_codec_fits in E; [done|done|apply to_int32_fits|done].
Qed.
Lemma attachment_stream_fits h i st x : par_fits (codecpar st) → ParseAttachmentStream h i st = Some x →
  in_int32 (at_index x) = true ∧ in_int32 (at_codec_id x) = true.
Proof.
  intros (Hp & _). unfold ParseAttachmentStream, GetAttachmentInfoFromStream.
  destruct (GetMetadataFromAVDictionary _ _ _); [|done]. intros [= <-]. apply attachment_fits. cbn.
  by rewrite to_int32_fits.
Qed.
Lemma hdr_of_fits p i : par_fits p → hdr_of p = Some i → hdr_fits i.
Proof. intros (_ & H1 & H2 & H3 & _). unfold hdr_of. destruct (_ && _); [|done]. by intros [= <-]. Qed.
Lemma rotation_fits h sides old r : in_int32 old = true → rotation h sides old = Some r → in_int32 r = true.
Proof.
  intros Ho. induction sides as [|[t d] sides IH]; cbn [rotation]; [by intros [= <-]|].
  destruct (_ =? _); [|done]. destruct (_ <? _)%nat; [done|]. destruct (must_have _ _); [|done]. cbn [mbind option_bind].
  destruct (d_trunc _) as [angle|]; [|done]. cbn [mbind option_bind]. destruct (in_int32 angle); [|done].
  intros [= <-]. apply rem_fits.
Qed.
Lemma video_info_fits h st x y : par_fits (codecpar st) → in_int32 (stream_index (v_stream x)) = true →
  in_int32 (rotate x) = true → hdr_info x = None → GetVideoInfoFromStream h st x = Some (Some y) → video_fits y.
Proof.
  intros Hp Hi Hr Hh. unfold GetVideoInfoFromStream. destruct (negb _); [done|]. destruct (negb _); [done|].
  destruct (avcodec_parameters_to_context _) as [ctx|] eqn:Hc; [|done].
  destruct (context_fits _ _ Hp Hc) as (H1 & H2). destruct (codec_long _ _); [|done]. cbn [mbind option_bind].
  destruct (av_reduce _ _ _) as [num den]. destruct (GetMetadataFromAVDictionary _ _ _); [|done]. intros [= <-].
  constructor; cbn [v_stream level rotate hdr_info]; [|done|done|].
  - apply ParseMetadata_fits. split_and!; [done|done|apply to_int32_fits].
  - rewrite Hh. intros i. destruct (hdr_of _) eqn:E; [|done]. intros [= ->]. by eapply hdr_of_fits.
Qed.
Lemma video_stream_fits h i st b x b' : par_fits (codecpar st) →
  ParseVideoStream h i st b = Some (Some (x, b')) → video_fits x ∧ total_bitrate b' = total_bitrate b.
Proof.
  intros Hp. unfold ParseVideoStream.
  destruct (GetVideoInfoFromStream _ _ _) as [[y|]|] eqn:E; [|done|done]. cbn [mbind option_bind].
  apply video_info_fits in E as [E1 E2 E3 E4]; [|done|apply to_int32_fits|done|done].
  destruct (rotation _ _ _) as [r|] eqn:Er; [|done]. intros [= <- <-]. split; [|done].
  constructor; try done. by apply rotation_fits in Er.
Qed.

Ltac fit_stream H := constructor; cbn [m_base m_video m_audio m_subtitle m_chapter m_attachment]; try apply H.
Lemma parse_stream_fits h i st r r' : par_fits (codecpar st) → fits r → parse_stream h i st r = Some r' → fits r'.
Proof.
  intros Hp Hr. destruct r as [b v a s c t]. unfold parse_stream.
  destruct (codec_type (codecpar st)); try (intros [= <-]; done).
  - destruct v; [|by intros [= <-]]. destruct (ParseVideoStream _ _ _ _) as [[[x b']|]|] eqn:E; [| |done];
      intros [= <-]; [|done]. apply video_stream_fits in E as [E Eb]; [|done]. fit_stream Hr.
    + rewrite Eb. apply Hr.
    + by apply Forall_singleton.
  - destruct (ParseAudioStream _ _ _) as [[x|]|] eqn:E; [| |done]; intros [= <-]; [|done].
    apply audio_stream_fits in E; [|done]. fit_stream Hr. cbn. apply Forall_app; split; [apply Hr|by apply Forall_singleton].
  - destruct (ParseSubtitleStream _ _ _) as [[x|]|] eqn:E; [| |done]; intros [= <-]; [|done].
    apply subtitle_stream_fits in E; [|done]. fit_stream Hr. cbn. apply Forall_app; split; [apply Hr|by apply Forall_singleton].
  - destruct (_ =? _); [|by intros [= <-]].
    destruct (ParseAttachmentStream _ _ _) as [x|] eqn:E; [|done]; intros [= <-].
    apply attachment_stream_fits in E; [|done]. fit_stream Hr. apply Forall_app; split; [apply Hr|by apply Forall_singleton].
Qed.
Lemma parse_streams_fits h l i r r' : (∀ st, st ∈ l → par_fits (codecpar st)) → fits r →
  parse_streams h i l r = Some r' → fits r'.
Proof.
  revert i r. induction l as [|st l IH]; intros i r Hl Hr; cbn [parse_streams]; [by intros [= <-]|].
  destruct (parse_stream h i st r) as [r1|] eqn:E; [|done]. cbn [mbind option_bind].
  apply IH; [intros st' Hin; apply Hl; by apply elem_of_cons; right|].
  apply (parse_stream_fits h i st r); [apply Hl; by apply elem_of_cons; left|done..].
Qed.
Lemma chapters_fit h l i cs : GetChapterInfo h i l = Some cs → Forall (λ x, in_int32 (ch_index x) = true) cs.
Proof.
  revert i cs. induction l as [|c l IH]; intros i cs; cbn [GetChapterInfo]; [by intros [= <-]|].
  unfold parse_chapter. destruct (GetMetadataFromAVDictionary _ _ _); [|done]. cbn [mbind option_bind].
  destruct (GetChapterInfo h (i + 1) l) as [cs'|] eqn:E; [|done]. intros [= <-].
  constructor; [apply to_int32_fits|by eapply IH].
Qed.
Lemma ParseMediaInfo_fits h b r : ParseMediaInfo h b = Some (Some r) → fits r.
Proof.
  unfold ParseMediaInfo. destruct (negb _); [done|]. destruct (negb _); [done|].
  destruct (avformat_open_input (local_path b)) as [f|] eqn:Ef; [|done].
  destruct (avformat_find_stream_info f) as [ret f'] eqn:Es. destruct (negb _); [done|].
  destruct (GetMetadataFromAVDictionary _ _ _); [|done]. cbn [mbind option_bind].
  destruct (parse_streams _ _ _ _) as [r1|] eqn:Er; [|done]. cbn [mbind option_bind].
  destruct (GetChapterInfo _ _ _) as [cs|] eqn:Ec; [|done]. intros [= <-].
  apply chapters_fit in Ec. apply parse_streams_fits in Er as [F1 F2 F3 F4 F5 F6].
  - by constructor.
  - intros st Hst. apply (stream_par_fits (local_path b) f st Ef). by rewrite Es.
  - constructor; cbn; [apply to_int32_fits|constructor..].
Qed.
Lemma list_conforms {A} (P : A → Prop) (f : A → Dict) s l : (∀ x, P x → conforms s (VDict (f x)) = true) →
  Forall P l → conforms (SList s) (VList ((λ x, VDict (f x)) <$> l)) = true.
Proof. intros Hf Hl. by apply (forallb_of P). Qed.
Lemma video_with_bitrate_fits b x : in_int32 b = true → video_fits x → video_fits (video_with_bitrate b x).
Proof.
  intros Hb Hx. unfold video_with_bitrate. destruct (_ =? 0); [|done].
  destruct Hx as [(V1 & V2 & _) V4 V5 V6]. by constructor.
Qed.
Lemma media_conforms r : fits r → conforms media_schema (VDict (media_json r)) = true.
Proof.
  intros [F1 F2 F3 F4 F5 F6]. unfold media_schema, media_json.
  apply (list_conforms _ Audio_ToJsonObj audio_schema _ audio_conforms) in F3.
  apply (list_conforms _ Subtitle_ToJsonObj subtitle_schema _ subtitle_conforms) in F4.
  apply (list_conforms _ Chapter_ToJsonObj chapter_schema _ chapter_conforms) in F5.
  apply (list_conforms _ Attachment_ToJsonObj attachment_schema _ attachment_conforms) in F6.
  apply (list_conforms _ (λ x, Video_ToJsonObj (video_with_bitrate (total_bitrate (m_base r)) x)) video_schema) in F2;
    [|intros x Hx; by apply video_conforms, video_with_bitrate_fits].
  revert F2 F3 F4 F5 F6. generalize (base_conforms (m_base r)).
  repeat match goal with |- context [VList ?l] => generalize (VList l); intros ? end.
  generalize (VDict (Basic_ToJsonObj (m_base r))). intros vb Hb Hv Ha Hs Hc Ht.
  change (conforms (SRecord ?a ?b) (VDict ?d)) with
    (forallb (λ f, match dict_get f.1 d with Some v => conforms f.2 v | None => false end) a &&
     forallb (λ f, match dict_get f.1 d with Some v => conforms f.2 v | None => true end) b &&
     forallb (λ e, bool_decide (e.1 ∈ (a ++ b).*1)) d).
  lazy -[conforms base_schema video_schema audio_schema subtitle_schema chapter_schema attachment_schema].
  by rewrite Hb, Hv, Ha, Hs, Hc, Ht.
Qed.

Lemma Init_printed h : printed (Init h).2 = printed h.
Proof.
  assert (∀ dll fs h, printed (InitFFmpegFunc dll fs h).2 = printed h) as H.
  { clear. intros dll fs h. unfold InitFFmpegFunc. destruct (GetDllModuleHandle dll) as [lib|]; [|done]. cbn [snd].
    revert h. induction fs as [|f fs IH]; intros h; [done|]. cbn [foldl]. by rewrite IH. }
  unfold Init, InitFFmpegFuncFromAvformat, InitFFmpegFuncFromAvcodec, InitFFmpegFuncFromAvutil,
    InitFFmpegFuncFromSwscale. destruct (negb _); [done|].
  repeat match goal with |- context [InitFFmpegFunc ?d ?f ?h] =>
    let h' := fresh "h" in let E := fresh "E" in
    pose proof (H d f h) as E; destruct (InitFFmpegFunc d f h) as [[] h']; cbn [negb snd] in E |- *; [|cbn in *; congruence] end.
  cbn in *. congruence.
Qed.

(** C36. What the analysis prints is well typed: when it succeeds, whatever the
    file and the libraries say, it prints one JSON object whose parts have their
    schemas, every integer fits an [int], every double is finite and no other
    field occurs; and the readers of the descriptions find every field in it
    (what they read does not depend on the object they read into), the HDR
    information as a whole when it is there, with one exception: no reader finds
    the metadata, which is printed as a dictionary and looked for as a list. *)
Theorem output_well_typed path h h' : HandleParse path h = Some (true, h') →
  ∃ d, printed h' = printed h ++ ["output:" +:+ JSONWriter_Write d] ∧
    conforms media_schema (VDict d) = true ∧ media_found d.
Proof.
  unfold HandleParse. destruct (Init h) as [ok h1] eqn:Ei. destruct (negb ok); [done|].
  destruct (negb _); [done|].
  destruct (ParseMediaInfo _ _) as [[r|]|] eqn:Er; [|done|done]. cbn [mbind option_bind].
  apply ParseMediaInfo_fits in Er. destruct (m_video r); [done|]. intros [= <-]. exists (media_json r).
  pose proof (media_conforms r Er) as Hc. split; [|split; [exact Hc|by apply schema_found]].
  cbn [printed print_out]. f_equal. by rewrite <-(Init_printed h), Ei.
Qed.
End Fits.

#[local] Existing Instance ffmpeg_ref.
#[local] Existing Instance number_ref.
Lemma ffmpeg_ref_typed : FFmpegTyped.
Proof.
  split.
  - intros p ctx (H & _) [= <-]. by split.
  - intros path f st [= <-]. revert st. apply Forall_forall. cbn. repeat constructor; reflexivity.
Qed.
Definition after_parse : FFmpegHelper :=
  default FFmpegHelper_new (snd <$> HandleParse (bl := base_ref) "/films/a.mkv" FFmpegHelper_new).
Lemma output_well_typed_witness :
  HandleParse (bl := base_ref) "/films/a.mkv" FFmpegHelper_new = Some (true, after_parse) ∧
  ∃ d, printed after_parse = ["output:" +:+ JSONWriter_Write d] ∧ conforms media_schema (VDict d) = true ∧
    media_found (bl := base_ref) (no := number_ref) d.
Proof.
  assert (HandleParse (bl := base_ref) "/films/a.mkv" FFmpegHelper_new = Some (true, after_parse)) as H
    by (vm_compute; reflexivity).
  split; [exact H|]. exact (output_well_typed (bl := base_ref) number_ref_laws (ty := ffmpeg_ref_typed) _ _ _ H).
Defined.
