(* ===== verification/GrpcCall.v ===== *)
(** * [common]: the objects that serve rpc calls

    [grpc_server_call_data.h], class [GrpcServerCallBase], and the loop of
    [grpc_server_call_data.cc].  An object waits for one call of one method,
    registers its successor, is processed on [task_main], finishes the call and
    deletes itself; its own steps run on [cq_dispatch].  An address is a
    number; the methods are a parameter, with those whose [Process] continues
    on another thread.  The server runs: shutting it down is not modelled. *)

From S2P Require Import Prelude.

Inductive GrpcCallDataStatus := kCreate | kProcess | kFinish.
#[global] Instance GrpcCallDataStatus_eq_dec : EqDecision GrpcCallDataStatus.
Proof. solve_decision. Defined.

(** The closures posted to [cq_dispatch] *)
Inductive posted := PProceed (a : nat) | POnProcessed (a : nat).
#[global] Instance posted_eq_dec : EqDecision posted.
Proof. solve_decision. Defined.

(** What an event leads to: it is not enabled, it uses a deleted object, or it
    happens. *)
Inductive outcome (A : Type) := Off | Freed | Ok (x : A).
Arguments Off {A}.
Arguments Freed {A}.
Arguments Ok {A}.

Section GrpcCall.
Context {M : Type} `{EqDecision M} (async : M → bool).

Record call_data := mkCall { method : M; status_ : GrpcCallDataStatus }.

(** [objects]: the objects that were not deleted; [next]: the next address;
    [cq_dispatch], [task_main]: the closures of the two threads; [pending]:
    objects being processed elsewhere; [requested], [finishing], [cq]: what the
    library holds, the objects that wait for a call, the responses being sent,
    the tags it has to deliver.  [arrived] and [answered] are the calls so far,
    by the object that serves them. *)
Record server := mkServer {
  objects : gmap nat call_data;
  next : nat;
  cq_dispatch : list posted;
  task_main : list nat;
  pending : list nat;
  requested : list nat;
  finishing : list nat;
  cq : list (nat * bool);
  arrived : list nat;
  answered : list nat
}.
Definition server_new : server := mkServer ∅ 0 [] [] [] [] [] [] [] [].

Definition set_objects (o : gmap nat call_data) (s : server) : server :=
  mkServer o (next s) (cq_dispatch s) (task_main s) (pending s) (requested s) (finishing s) (cq s) (arrived s) (answered s).
Definition set_dispatch (q : list posted) (s : server) : server :=
  mkServer (objects s) (next s) q (task_main s) (pending s) (requested s) (finishing s) (cq s) (arrived s) (answered s).
Definition set_task_main (q : list nat) (s : server) : server :=
  mkServer (objects s) (next s) (cq_dispatch s) q (pending s) (requested s) (finishing s) (cq s) (arrived s) (answered s).
Definition set_pending (q : list nat) (s : server) : server :=
  mkServer (objects s) (next s) (cq_dispatch s) (task_main s) q (requested s) (finishing s) (cq s) (arrived s) (answered s).
Definition set_requested (q : list nat) (s : server) : server :=
  mkServer (objects s) (next s) (cq_dispatch s) (task_main s) (pending s) q (finishing s) (cq s) (arrived s) (answered s).
Definition set_finishing (q : list nat) (s : server) : server :=
  mkServer (objects s) (next s) (cq_dispatch s) (task_main s) (pending s) (requested s) q (cq s) (arrived s) (answered s).
Definition set_cq (q : list (nat * bool)) (s : server) : server :=
  mkServer (objects s) (next s) (cq_dispatch s) (task_main s) (pending s) (requested s) (finishing s) q (arrived s) (answered s).
Definition log_arrived (a : nat) (s : server) : server :=
  mkServer (objects s) (next s) (cq_dispatch s) (task_main s) (pending s) (requested s) (finishing s) (cq s)
    (arrived s ++ [a]) (answered s).
Definition log_answered (a : nat) (s : server) : server :=
  mkServer (objects s) (next s) (cq_dispatch s) (task_main s) (pending s) (requested s) (finishing s) (cq s)
    (arrived s) (answered s ++ [a]).

Definition post (p : posted) (s : server) : server := set_dispatch (cq_dispatch s ++ [p]) s.
Definition set_status (a : nat) (st : GrpcCallDataStatus) (c : call_data) (s : server) : server :=
  set_objects (<[a := mkCall (method c) st]> (objects s)) s.
(** [new TCallData] *)
Definition allocate (c : call_data) (s : server) : server :=
  mkServer (<[next s := c]> (objects s)) (S (next s)) (cq_dispatch s) (task_main s) (pending s) (requested s)
    (finishing s) (cq s) (arrived s) (answered s).

(** ** [Request], as every derived class implements it: the object waits. *)
Definition Request (a : nat) (s : server) : server := set_requested (a :: requested s) s.

(** [NewCallData] on [cq_dispatch]: its [Proceed] runs at once. *)
Definition NewCallData (m : M) (s : server) : server :=
  Request (next s) (allocate (mkCall m kProcess) s).
(** [NewCallData] on another thread: its [Proceed] is posted. *)
Definition NewCallData_posted (m : M) (s : server) : server :=
  post (PProceed (next s)) (allocate (mkCall m kCreate) s).

(** ** [Proceed] and [OnProcessed] on [cq_dispatch] *)
Definition Proceed (a : nat) (s : server) : outcome server :=
  match objects s !! a with
  | None => Freed
  | Some c =>
      match status_ c with
      | kCreate => Ok (Request a (set_status a kProcess c s))
      | kProcess =>
          let s := NewCallData (method c) s in
          Ok (set_task_main (task_main s ++ [a]) s)
      | kFinish => Ok (set_objects (delete a (objects s)) s)
      end
  end.
Definition OnProcessed (a : nat) (s : server) : outcome server :=
  match objects s !! a with
  | None => Freed
  | Some c => Ok (log_answered a (set_finishing (a :: finishing s) (set_status a kFinish c s)))
  end.
Definition run_posted (p : posted) (s : server) : outcome server :=
  match p with PProceed a => Proceed a s | POnProcessed a => OnProcessed a s end.

(** ** [Process] on [task_main] *)
Definition Process (a : nat) (s : server) : outcome server :=
  match objects s !! a with
  | None => Freed
  | Some c => Ok (if async (method c) then set_pending (a :: pending s) s else post (POnProcessed a) s)
  end.

(** ** [HandleRpcRequests]: the body of the loop *)
Definition HandleRpcRequests (t : nat * bool) (s : server) : outcome server :=
  let '(a, ok) := t in
  if ok : bool then match objects s !! a with None => Freed | Some _ => Ok (post (PProceed a) s) end else Ok s.

Definition remove (a : nat) (l : list nat) : list nat := filter (λ x, x ≠ a) l.

(** ** Events: the start of the service, a call of a client, the delivery of a
    tag (in any order), a turn of each thread, the end of a processing
    elsewhere, and the end of sending a response, [ok] unless the client has
    gone. *)
Inductive event :=
  | EStart (m : M)
  | ECall (a : nat)
  | ENext (i : nat)
  | EDispatch
  | ETask
  | EAsync (a : nat)
  | ESent (a : nat) (ok : bool).
Definition step (e : event) (s : server) : outcome server :=
  match e with
  | EStart m => Ok (NewCallData_posted m s)
  | ECall a =>
      if bool_decide (a ∈ requested s)
      then Ok (log_arrived a (set_cq (cq s ++ [(a, true)]) (set_requested (remove a (requested s)) s))) else Off
  | ENext i =>
      match cq s !! i with
      | Some t => HandleRpcRequests t (set_cq (delete i (cq s)) s)
      | None => Off
      end
  | EDispatch =>
      match cq_dispatch s with
      | p :: q => run_posted p (set_dispatch q s)
      | [] => Off
      end
  | ETask =>
      match task_main s with
      | a :: q => Process a (set_task_main q s)
      | [] => Off
      end
  | EAsync a =>
      if bool_decide (a ∈ pending s) then
        match objects s !! a with
        | None => Freed
        | Some _ => Ok (post (POnProcessed a) (set_pending (remove a (pending s)) s))
        end
      else Off
  | ESent a ok =>
      if bool_decide (a ∈ finishing s)
      then Ok (set_cq (cq s ++ [(a, ok)]) (set_finishing (remove a (finishing s)) s)) else Off
  end.
Fixpoint run (es : list event) (s : server) : outcome server :=
  match es with
  | [] => Ok s
  | e :: es => match step e s with Ok s => run es s | Freed => Freed | Off => Off end
  end.
End GrpcCall.
