(* ===== verification/GrpcCallSpec.v ===== *)
(** * The life of the objects that serve rpc calls

    Each object is at one place at a time: a ghost map of places beside the
    state of [GrpcCall]; what the queues hold is what the places say. *)

From S2P Require Import Prelude GrpcCall.

(** ** Queues that hold exactly what a predicate on places says *)
Section Holds.
Context {A V : Type} (addr : A → nat) (P : A → option V → Prop).

Definition holds (q : list A) (ph : gmap nat V) : Prop :=
  NoDup q ∧ ∀ x, x ∈ q ↔ P x (ph !! addr x).
Definition other (a : nat) (ph ph' : gmap nat V) : Prop := ∀ b, b ≠ a → ph' !! b = ph !! b.

Lemma holds_perm q q' ph : q ≡ₚ q' → holds q ph → holds q' ph.
Proof.
  intros Hq [Hn H]. split; [by rewrite <-Hq|]. intros x. by rewrite <-Hq, H.
Qed.
Lemma holds_keep q a ph ph' : holds q ph → other a ph ph' →
  (∀ x, addr x = a → ¬ P x (ph !! a) ∧ ¬ P x (ph' !! a)) → holds q ph'.
Proof.
  intros [Hn H] Ho Ha. split; [done|]. intros x. rewrite H. destruct (decide (addr x = a)) as [Hx|Hx].
  - rewrite Hx. destruct (Ha x Hx). naive_solver.
  - by rewrite Ho.
Qed.
Lemma holds_push q a y ph ph' : holds q ph → other a ph ph' → addr y = a →
  (∀ x, addr x = a → ¬ P x (ph !! a)) → (∀ x, addr x = a → P x (ph' !! a) ↔ x = y) → holds (y :: q) ph'.
Proof.
  intros [Hn H] Ho Hy Hold Hnew. split.
  - constructor; [|done]. rewrite H, Hy. by apply Hold.
  - intros x. rewrite elem_of_cons, H. destruct (decide (addr x = a)) as [Hx|Hx].
    + rewrite Hx, (Hnew x Hx). specialize (Hold x Hx). naive_solver.
    + rewrite (Ho _ Hx). split; [|by right]. intros [->|?]; [done|done].
Qed.
Lemma holds_take q a y ph ph' : holds (y :: q) ph → other a ph ph' → addr y = a →
  (∀ x, addr x = a → P x (ph !! a) → x = y) → (∀ x, addr x = a → ¬ P x (ph' !! a)) → holds q ph'.
Proof.
  intros [Hn H] Ho Hy Hold Hnew. apply NoDup_cons in Hn as [Hyq Hn]. split; [done|]. intros x.
  destruct (decide (addr x = a)) as [Hx|Hx].
  - rewrite Hx. split; [|intros Hp; by destruct (Hnew x Hx)]. intros Hin. exfalso.
    assert (x = y) as ->; [|done]. apply Hold; [done|]. rewrite <-Hx. apply H, elem_of_cons. by right.
  - rewrite (Ho _ Hx), <-H, elem_of_cons. split; [by right|]. intros [->|?]; [done|done].
Qed.
End Holds.

Lemma snoc_perm {A} (q : list A) x : x :: q ≡ₚ q ++ [x].
Proof. apply Permutation_cons_append. Qed.
Lemma remove_perm l a : NoDup l → a ∈ l → l ≡ₚ a :: remove a l.
Proof.
  intros Hn Ha. unfold remove. induction Hn as [|x l Hx Hn IH]; [by apply elem_of_nil in Ha|].
  rewrite filter_cons. case_decide as Hd.
  - apply elem_of_cons in Ha as [->|Ha]; [done|]. rewrite (IH Ha) at 1. constructor.
  - subst x. f_equiv. clear -Hx. induction l as [|y l IH]; [done|]. apply not_elem_of_cons in Hx as [? ?].
    rewrite filter_cons_True by done. f_equiv. by apply IH.
Qed.

(** ** Places *)
Inductive place :=
  | Created                 (** its first step is posted *)
  | Waiting                 (** for a call *)
  | Called                  (** the tag of its call is in the queue of the library *)
  | Turned                  (** its second step is posted *)
  | Queued                  (** its processing is posted *)
  | Elsewhere               (** processed on another thread *)
  | Done                    (** the end of its processing is posted *)
  | Sending                 (** its response is being sent *)
  | Sent (ok : bool)        (** the tag of its response is in the queue *)
  | Deleting                (** its last step is posted *)
  | Leaked.                 (** nobody knows it *)
Definition status_of (p : place) : GrpcCallDataStatus :=
  match p with
  | Created => kCreate
  | Waiting | Called | Turned | Queued | Elsewhere | Done => kProcess
  | Sending | Sent _ | Deleting | Leaked => kFinish
  end.
Definition listening_at (p : place) : bool :=
  match p with Created | Waiting | Called | Turned => true | _ => false end.
(** Between the arrival of the call and its answer *)
Definition busy_at (p : place) : bool :=
  match p with Called | Turned | Queued | Elsewhere | Done => true | _ => false end.
Definition finished_at (p : place) : bool :=
  match p with Sending | Sent _ | Deleting | Leaked => true | _ => false end.
(** Events the service and the library still have to do with it *)
Definition left_at (p : place) : nat :=
  match p with
  | Created | Deleting => 1 | Waiting | Leaked => 0 | Called => 8 | Turned => 7 | Queued => 6
  | Elsewhere => 5 | Done => 4 | Sending => 3 | Sent _ => 2
  end.

Definition posted_addr (x : posted) : nat := match x with PProceed a | POnProcessed a => a end.
Definition in_dispatch (x : posted) (p : option place) : Prop :=
  match x with
  | PProceed _ => p = Some Created ∨ p = Some Turned ∨ p = Some Deleting
  | POnProcessed _ => p = Some Done
  end.
Definition in_cq (t : nat * bool) (p : option place) : Prop :=
  (p = Some Called ∧ t.2 = true) ∨ p = Some (Sent t.2).

Section Spec.
Context {M : Type} `{EqDecision M} (async : M → bool).
Notation server := (server (M := M)).

Record rep (s : server) (ph : gmap nat place) : Prop := {
  r_objects : ∀ a, status_ <$> objects s !! a = status_of <$> ph !! a;
  r_next : ∀ a p, ph !! a = Some p → (a < next s)%nat;
  r_dispatch : holds posted_addr in_dispatch (cq_dispatch s) ph;
  r_task : holds id (λ _ p, p = Some Queued) (task_main s) ph;
  r_pending : holds id (λ _ p, p = Some Elsewhere) (pending s) ph;
  r_requested : holds id (λ _ p, p = Some Waiting) (requested s) ph;
  r_finishing : holds id (λ _ p, p = Some Sending) (finishing s) ph;
  r_cq : holds fst in_cq (cq s) ph
}.

Lemma other_insert {V} (a : nat) (p : V) ph : other a ph (<[a := p]> ph).
Proof. intros b Hb. by apply lookup_insert_ne. Qed.
Lemma other_delete {V} (a : nat) (ph : gmap nat V) : other a ph (delete a ph).
Proof. intros b Hb. by apply lookup_delete_ne. Qed.

(** A queue that the object neither enters nor leaves, one it enters, one it leaves *)
Ltac at_object :=
  let x := fresh "x" in let Hx := fresh "Hx" in
  intros x Hx; first [destruct x as [?|?]|destruct x as [? ?]|idtac]; cbn in *;
  rewrite ?lookup_insert_eq, ?lookup_delete_eq; unfold in_cq in *; cbn in *; naive_solver.
Ltac others := first [apply other_insert|apply other_delete].
Ltac keep H := eapply holds_keep; [apply H|others|at_object].
Ltac push H := eapply holds_push; [apply H|others|done|at_object|at_object].
Ltac take H := eapply holds_take; [apply H|others|done|at_object|at_object].
Ltac push_back H := eapply holds_perm; [apply snoc_perm|push H].

Lemma objects_keep (o : gmap nat (call_data (M := M))) (ph : gmap nat place) a p p' :
  (∀ b, status_ <$> o !! b = status_of <$> ph !! b) → ph !! a = Some p → status_of p' = status_of p →
  ∀ b, status_ <$> o !! b = status_of <$> <[a := p']> ph !! b.
Proof.
  intros H Ha Hp b. destruct (decide (b = a)) as [->|Hb].
  - rewrite H, Ha, lookup_insert_eq. cbn. congruence.
  - by rewrite lookup_insert_ne.
Qed.
Lemma objects_insert (o : gmap nat (call_data (M := M))) (ph : gmap nat place) a c p :
  (∀ b, status_ <$> o !! b = status_of <$> ph !! b) → status_ c = status_of p →
  ∀ b, status_ <$> <[a := c]> o !! b = status_of <$> <[a := p]> ph !! b.
Proof.
  intros H Hp b. destruct (decide (b = a)) as [->|Hb].
  - rewrite !lookup_insert_eq. cbn. congruence.
  - by rewrite !lookup_insert_ne.
Qed.
Lemma next_insert (s : server) (ph : gmap nat place) a p : (∀ a p, ph !! a = Some p → (a < next s)%nat) → (a < next s)%nat →
  ∀ b q, <[a := p]> ph !! b = Some q → (b < next s)%nat.
Proof.
  intros H Ha b q. destruct (decide (b = a)) as [->|Hb]; [done|]. rewrite lookup_insert_ne by done. apply H.
Qed.
Lemma next_S (s : server) (ph : gmap nat place) p : (∀ a p, ph !! a = Some p → (a < next s)%nat) →
  ∀ b q, <[next s := p]> ph !! b = Some q → (b < S (next s))%nat.
Proof.
  intros H b q. destruct (decide (b = next s)) as [->|Hb]; [lia|]. rewrite lookup_insert_ne by done.
  intros Hq%H. lia.
Qed.
Lemma rep_fresh s ph : rep s ph → ph !! next s = None.
Proof. intros Hr. destruct (ph !! next s) as [p|] eqn:E; [|done]. apply (r_next _ _ Hr) in E. lia. Qed.
Lemma rep_status s ph a p : rep s ph → ph !! a = Some p → ∃ c, objects s !! a = Some c ∧ status_ c = status_of p.
Proof.
  intros Hr Ha. pose proof (r_objects _ _ Hr a) as H. rewrite Ha in H. cbn in H.
  destruct (objects s !! a) as [c|]; [|done]. exists c. split; [done|]. by injection H.
Qed.

(** ** What each event does to the places *)
Lemma rep_start m s ph : rep s ph → rep (NewCallData_posted m s) (<[next s := Created]> ph).
Proof.
  clear async. intros Hr. pose proof (rep_fresh _ _ Hr) as Hf. destruct Hr as [R1 R2 R3 R4 R5 R6 R7 R8]. constructor; cbn.
  - by apply objects_insert.
  - by apply next_S.
  - push_back R3.
  - keep R4.
  - keep R5.
  - keep R6.
  - keep R7.
  - keep R8.
Qed.
Lemma rep_new m s ph : rep s ph → rep (NewCallData m s) (<[next s := Waiting]> ph).
Proof.
  clear async. intros Hr. pose proof (rep_fresh _ _ Hr) as Hf. destruct Hr as [R1 R2 R3 R4 R5 R6 R7 R8]. constructor; cbn.
  - by apply objects_insert.
  - by apply next_S.
  - keep R3.
  - keep R4.
  - keep R5.
  - push R6.
  - keep R7.
  - keep R8.
Qed.

(** One object goes on. *)
Inductive goes : place → option place → Prop :=
  | g_create : goes Created (Some Waiting)
  | g_call : goes Waiting (Some Called)
  | g_turn : goes Called (Some Turned)
  | g_queue : goes Turned (Some Queued)
  | g_async : goes Queued (Some Elsewhere)
  | g_sync : goes Queued (Some Done)
  | g_done : goes Elsewhere (Some Done)
  | g_answer : goes Done (Some Sending)
  | g_sent ok : goes Sending (Some (Sent ok))
  | g_leak : goes (Sent false) (Some Leaked)
  | g_last : goes (Sent true) (Some Deleting)
  | g_delete : goes Deleting None.
Definition ph_set (a : nat) (p : option place) (ph : gmap nat place) : gmap nat place :=
  match p with Some p => <[a := p]> ph | None => delete a ph end.
Record moved (s : server) (ph : gmap nat place) (s' : server) (ph' : gmap nat place) (a : nat) (p : place)
    (p' : option place) : Prop := {
  mv_at : ph !! a = Some p;
  mv_goes : goes p p';
  mv_ph : ph' = ph_set a p' ph;
  mv_rep : rep s' ph';
  mv_next : next s' = next s;
  mv_arrived : arrived s' = arrived s ++ match p with Waiting => [a] | _ => [] end;
  mv_answered : answered s' = answered s ++ match p with Done => [a] | _ => [] end;
  mv_methods : ∀ b c, objects s' !! b = Some c → ∃ c0, objects s !! b = Some c0 ∧ method c0 = method c
}.

Ltac same_methods := intros b c0 Hb; by exists c0.
Lemma status_methods (s : server) a c st : objects s !! a = Some c →
  ∀ b c', <[a := mkCall (method c) st]> (objects s) !! b = Some c' →
  ∃ c0, objects s !! b = Some c0 ∧ method c0 = method c'.
Proof.
  intros Ha b c'. destruct (decide (b = a)) as [->|Hb].
  - rewrite lookup_insert_eq. intros [= <-]. by exists c.
  - rewrite lookup_insert_ne by done. intros H. by exists c'.
Qed.

Lemma move_call s ph a : rep s ph → a ∈ requested s →
  let s' := log_arrived a (set_cq (cq s ++ [(a, true)]) (set_requested (remove a (requested s)) s)) in
  moved s ph s' (<[a := Called]> ph) a Waiting (Some Called).
Proof.
  intros Hr Ha. destruct Hr as [R1 R2 R3 R4 R5 R6 R7 R8]. pose proof (proj1 (proj2 R6 a) Ha) as Hp. cbn in Hp.
  constructor; try done; [by constructor| |by rewrite app_nil_r|same_methods]. constructor; cbn.
  - by eapply objects_keep.
  - by apply next_insert; [|by eapply R2].
  - keep R3.
  - keep R4.
  - keep R5.
  - apply (holds_perm _ _ _ _ _ (remove_perm _ _ (proj1 R6) Ha)) in R6. take R6.
  - keep R7.
  - push_back R8.
Qed.
Lemma move_sent s ph a ok : rep s ph → a ∈ finishing s →
  let s' := set_cq (cq s ++ [(a, ok)]) (set_finishing (remove a (finishing s)) s) in
  moved s ph s' (<[a := Sent ok]> ph) a Sending (Some (Sent ok)).
Proof.
  intros Hr Ha. destruct Hr as [R1 R2 R3 R4 R5 R6 R7 R8]. pose proof (proj1 (proj2 R7 a) Ha) as Hp. cbn in Hp.
  constructor; try done; [by constructor| |by rewrite app_nil_r..|same_methods]. constructor; cbn.
  - by eapply objects_keep.
  - by apply next_insert; [|by eapply R2].
  - keep R3.
  - keep R4.
  - keep R5.
  - keep R6.
  - apply (holds_perm _ _ _ _ _ (remove_perm _ _ (proj1 R7) Ha)) in R7. take R7.
  - push_back R8.
Qed.
Lemma move_next s ph i t : rep s ph → cq s !! i = Some t →
  ∃ p p' s', HandleRpcRequests t (set_cq (delete i (cq s)) s) = Ok s' ∧
    moved s ph s' (<[t.1 := p']> ph) t.1 p (Some p') ∧ (t.2 = false → p' = Leaked).
Proof.
  intros Hr Hi. pose proof (λ p, rep_status s ph t.1 p Hr) as Hst. destruct Hr as [R1 R2 R3 R4 R5 R6 R7 R8].
  pose proof (proj1 (proj2 R8 t) (list_elem_of_lookup_2 _ _ _ Hi)) as Hp.
  apply (holds_perm _ _ _ _ _ (delete_Permutation _ _ _ Hi)) in R8. destruct t as [a ok]. cbn in *. unfold HandleRpcRequests.
  destruct ok.
  - assert (∃ p p', ph !! a = Some p ∧ goes p (Some p') ∧ status_of p' = status_of p ∧
      (p = Called ∧ p' = Turned ∨ p = Sent true ∧ p' = Deleting)) as (p & p' & Ha & Hg & Hs & Hpp).
    { destruct Hp as [[Hp _]|Hp]; do 2 eexists; (split; [done|]); (split; [by constructor|]); naive_solver. }
    destruct (Hst p Ha) as (c & Hc & _). cbn. rewrite Hc. exists p, p'. eexists. split; [done|]. split; [|done].
    destruct Hpp as [[-> ->]|[-> ->]];
    (constructor; try done; [|by rewrite app_nil_r..|same_methods]; constructor; cbn;
      [by eapply objects_keep|by apply next_insert; [|by eapply R2]|push_back R3|keep R4|keep R5|keep R6|keep R7|take R8]).
  - destruct Hp as [[_ ?]|Hp]; [done|]. exists (Sent false), Leaked. eexists. split; [done|]. split; [|done].
    constructor; try done; [by constructor| |by rewrite app_nil_r..|same_methods]. constructor; cbn;
      [by eapply objects_keep|by apply next_insert; [|by eapply R2]|keep R3|keep R4|keep R5|keep R6|keep R7|take R8].
Qed.
Lemma move_async s ph a : rep s ph → a ∈ pending s →
  let s' := post (POnProcessed a) (set_pending (remove a (pending s)) s) in
  moved s ph s' (<[a := Done]> ph) a Elsewhere (Some Done).
Proof.
  intros Hr Ha. destruct Hr as [R1 R2 R3 R4 R5 R6 R7 R8]. pose proof (proj1 (proj2 R5 a) Ha) as Hp. cbn in Hp.
  constructor; try done; [by constructor| |by rewrite app_nil_r..|same_methods]. constructor; cbn.
  - by eapply objects_keep.
  - by apply next_insert; [|by eapply R2].
  - push_back R3.
  - keep R4.
  - apply (holds_perm _ _ _ _ _ (remove_perm _ _ (proj1 R5) Ha)) in R5. take R5.
  - keep R6.
  - keep R7.
  - keep R8.
Qed.
Lemma move_task s ph a q : rep s ph → task_main s = a :: q →
  ∃ p' s', Process async a (set_task_main q s) = Ok s' ∧ moved s ph s' (<[a := p']> ph) a Queued (Some p').
Proof.
  intros Hr Hq. pose proof (λ p, rep_status s ph a p Hr) as Hst. destruct Hr as [R1 R2 R3 R4 R5 R6 R7 R8].
  rewrite Hq in R4. assert (ph !! a = Some Queued) as Hp by (apply (proj2 R4 a); by apply elem_of_cons; left).
  destruct (Hst _ Hp) as (c & Hc & _). unfold Process. cbn [objects set_task_main]. rewrite Hc.
  destruct (async (method c)).
  - exists Elsewhere. eexists. split; [done|].
    constructor; try done; [by constructor| |by rewrite app_nil_r..|same_methods]. constructor; cbn;
      [by eapply objects_keep|by apply next_insert; [|by eapply R2]|keep R3|take R4|push R5|keep R6|keep R7|keep R8].
  - exists Done. eexists. split; [done|].
    constructor; try done; [by constructor| |by rewrite app_nil_r..|same_methods]. constructor; cbn;
      [by eapply objects_keep|by apply next_insert; [|by eapply R2]|push_back R3|take R4|keep R5|keep R6|keep R7|keep R8].
Qed.
Lemma move_processed s ph a q : rep s ph → cq_dispatch s = POnProcessed a :: q →
  ∃ s', OnProcessed a (set_dispatch q s) = Ok s' ∧ moved s ph s' (<[a := Sending]> ph) a Done (Some Sending).
Proof.
  intros Hr Hq. pose proof (λ p, rep_status s ph a p Hr) as Hst. destruct Hr as [R1 R2 R3 R4 R5 R6 R7 R8].
  rewrite Hq in R3. assert (ph !! a = Some Done) as Hp
    by (apply (proj2 R3 (POnProcessed a)); by apply elem_of_cons; left).
  destruct (Hst _ Hp) as (c & Hc & _). unfold OnProcessed. cbn [objects set_dispatch]. rewrite Hc.
  eexists. split; [done|].
  constructor; try done; [by constructor| |by rewrite app_nil_r|exact (status_methods s a c _ Hc)]. constructor; cbn.
  - by apply objects_insert.
  - by apply next_insert; [|by eapply R2].
  - take R3.
  - keep R4.
  - keep R5.
  - keep R6.
  - push R7.
  - keep R8.
Qed.

(** A step on [cq_dispatch]; processing a call first makes the successor. *)
Lemma proceed_place s ph a q : rep s ph → cq_dispatch s = PProceed a :: q →
  ph !! a = Some Created ∨ ph !! a = Some Turned ∨ ph !! a = Some Deleting.
Proof.
  intros Hr Hq. apply (proj2 (r_dispatch _ _ Hr) (PProceed a)). rewrite Hq. by apply elem_of_cons; left.
Qed.
Lemma move_create s ph a q : rep s ph → cq_dispatch s = PProceed a :: q → ph !! a = Some Created →
  ∃ s', Proceed a (set_dispatch q s) = Ok s' ∧ moved s ph s' (<[a := Waiting]> ph) a Created (Some Waiting).
Proof.
  intros Hr Hq Hp. destruct (rep_status s ph a _ Hr Hp) as (c & Hc & Hs). destruct Hr as [R1 R2 R3 R4 R5 R6 R7 R8].
  rewrite Hq in R3. unfold Proceed. cbn [objects set_dispatch]. rewrite Hc, Hs. cbn [status_of].
  eexists. split; [done|].
  constructor; try done; [by constructor| |by rewrite app_nil_r..|exact (status_methods s a c _ Hc)]. constructor; cbn.
  - by apply objects_insert.
  - by apply next_insert; [|by eapply R2].
  - take R3.
  - keep R4.
  - keep R5.
  - push R6.
  - keep R7.
  - keep R8.
Qed.
Lemma move_delete s ph a q : rep s ph → cq_dispatch s = PProceed a :: q → ph !! a = Some Deleting →
  ∃ s', Proceed a (set_dispatch q s) = Ok s' ∧ moved s ph s' (delete a ph) a Deleting None.
Proof.
  intros Hr Hq Hp. destruct (rep_status s ph a _ Hr Hp) as (c & Hc & Hs). destruct Hr as [R1 R2 R3 R4 R5 R6 R7 R8].
  rewrite Hq in R3. unfold Proceed. cbn [objects set_dispatch]. rewrite Hc, Hs. cbn [status_of].
  eexists. split; [done|].
  constructor; try done; [by constructor| |by rewrite app_nil_r..|].
  - constructor; cbn.
    + intros b. destruct (decide (b = a)) as [->|Hb]; [by rewrite !lookup_delete_eq|].
      by rewrite !lookup_delete_ne.
    + intros b p [_ Hb]%lookup_delete_Some. by eapply R2.
    + take R3.
    + keep R4.
    + keep R5.
    + keep R6.
    + keep R7.
    + keep R8.
  - intros b c0 Hb. cbn in Hb. apply lookup_delete_Some in Hb as [_ Hb]. by exists c0.
Qed.
Lemma move_turn s ph a q : rep s ph → cq_dispatch s = PProceed a :: q → ph !! a = Some Turned →
  ∃ c s', objects s !! a = Some c ∧ Proceed a (set_dispatch q s) = Ok s' ∧
    moved (NewCallData (method c) s) (<[next s := Waiting]> ph) s' (<[a := Queued]> (<[next s := Waiting]> ph))
      a Turned (Some Queued).
Proof.
  intros Hr Hq Hp. destruct (rep_status s ph a _ Hr Hp) as (c & Hc & Hs).
  pose proof (r_next _ _ Hr _ _ Hp) as Hlt. apply (rep_new (method c)) in Hr.
  exists c. unfold Proceed. cbn [objects set_dispatch]. rewrite Hc, Hs. cbn [status_of].
  eexists. split; [done|]. split; [done|]. revert Hr Hp. generalize ph. clear ph. intros ph0 Hr Hp.
  assert (<[next s := Waiting]> ph0 !! a = Some Turned) as Hp' by (rewrite lookup_insert_ne by lia; done).
  revert Hr Hp'. generalize (<[next s := Waiting]> ph0). intros ph Hr Hp'.
  destruct Hr as [R1 R2 R3 R4 R5 R6 R7 R8]. cbn in R3, R4, R5, R6, R7, R8. rewrite Hq in R3.
  constructor; try done; [by constructor| |by rewrite app_nil_r..|same_methods]. constructor; cbn.
  - by eapply objects_keep.
  - intros b p0. destruct (decide (b = a)) as [->|Hb]; [intros _; lia|]. rewrite lookup_insert_ne by done. apply R2.
  - take R3.
  - push_back R4.
  - keep R5.
  - keep R6.
  - keep R7.
  - keep R8.
Qed.

(** ** Transitions *)
Inductive trans (s : server) (ph : gmap nat place) : event → server → gmap nat place → Prop :=
  | t_start m : trans s ph (EStart m) (NewCallData_posted m s) (<[next s := Created]> ph)
  | t_turn a c s' : objects s !! a = Some c → ph !! a = Some Turned →
      moved (NewCallData (method c) s) (<[next s := Waiting]> ph) s' (<[a := Queued]> (<[next s := Waiting]> ph))
        a Turned (Some Queued) →
      trans s ph EDispatch s' (<[a := Queued]> (<[next s := Waiting]> ph))
  | t_move e s' ph' a p p' : (∀ m, e ≠ EStart m) → (p = Waiting → ∃ a, e = ECall a) → p ≠ Turned →
      moved s ph s' ph' a p p' → trans s ph e s' ph'.

Lemma step_trans e s ph : rep s ph →
  match step async e s with Off => True | Freed => False | Ok s' => ∃ ph', trans s ph e s' ph' end.
Proof.
  intros Hr. destruct e; cbn [step].
  - eexists. constructor.
  - case_bool_decide as Ha; [|done]. eexists.
    eapply t_move; [done|by exists a| |by apply move_call]. done.
  - destruct (cq s !! i) as [t|] eqn:Hi; [|done]. destruct (move_next s ph i t Hr Hi) as (p & p' & s' & -> & Hm & _).
    eexists. eapply t_move; [done| | |exact Hm]; pose proof (mv_goes _ _ _ _ _ _ _ Hm) as Hg;
      pose proof (mv_at _ _ _ _ _ _ _ Hm) as Hat;
      pose proof (proj1 (proj2 (r_cq _ _ Hr) t) (list_elem_of_lookup_2 _ _ _ Hi)) as Hc;
      unfold in_cq in Hc; rewrite Hat in Hc; naive_solver.
  - destruct (cq_dispatch s) as [|[a|a] q] eqn:Hq; [done| |]; cbn [run_posted].
    + destruct (proceed_place s ph a q Hr Hq) as [Hp|[Hp|Hp]].
      * destruct (move_create s ph a q Hr Hq Hp) as (s' & -> & Hm). eexists. eapply t_move; [| | |exact Hm]; done.
      * destruct (move_turn s ph a q Hr Hq Hp) as (c & s' & Hc & -> & Hm). eexists. by eapply t_turn.
      * destruct (move_delete s ph a q Hr Hq Hp) as (s' & -> & Hm). eexists. eapply t_move; [| | |exact Hm]; done.
    + destruct (move_processed s ph a q Hr Hq) as (s' & -> & Hm). eexists. eapply t_move; [| | |exact Hm]; done.
  - destruct (task_main s) as [|a q] eqn:Hq; [done|]. destruct (move_task s ph a q Hr Hq) as (p' & s' & -> & Hm).
    eexists. eapply t_move; [| | |exact Hm]; done.
  - case_bool_decide as Ha; [|done].
    assert (ph !! a = Some Elsewhere) as Hp by (by apply (proj2 (r_pending _ _ Hr) a)).
    destruct (rep_status s ph a _ Hr Hp) as (c & -> & _). eexists. eapply t_move; [done| | |by apply move_async]; done.
  - case_bool_decide as Ha; [|done]. eexists. eapply t_move; [done| | |by apply move_sent]; done.
Qed.

(** ** Calls *)
Record hist (s : server) (ph : gmap nat place) : Prop := {
  h_arrived : NoDup (arrived s);
  h_answered : NoDup (answered s);
  h_split : ∀ a, a ∈ arrived s ↔ a ∈ answered s ∨ ∃ p, ph !! a = Some p ∧ busy_at p = true;
  h_after : ∀ a p, a ∈ answered s → ph !! a = Some p → finished_at p = true;
  h_lt : ∀ a, a ∈ arrived s → (a < next s)%nat
}.
Lemma hist_fresh s ph (s' : server) p : rep s ph → hist s ph → listening_at p = true → busy_at p = false →
  arrived s' = arrived s → answered s' = answered s → next s' = S (next s) → hist s' (<[next s := p]> ph).
Proof.
  intros Hr [H1 H2 H3 H4 H5] Hl Hb Ea Eb En.
  assert (∀ a, a ∈ arrived s → a ≠ next s) as Hne by (intros a Ha%H5; lia).
  constructor; rewrite ?Ea, ?Eb, ?En; try done.
  - intros a. rewrite H3. destruct (decide (a = next s)) as [->|Hn].
    + rewrite lookup_insert_eq, (rep_fresh _ _ Hr). split; [naive_solver|]. intros [?|(q & [= <-] & ?)]; [by left|congruence].
    + by rewrite lookup_insert_ne.
  - intros a q Ha. rewrite lookup_insert_ne; [by apply H4|]. intros <-. apply (Hne (next s)); [|done]. apply H3. by left.
  - intros a Ha%H5. lia.
Qed.
Lemma hist_moved s ph s' ph' a p p' : rep s ph → hist s ph → moved s ph s' ph' a p p' → hist s' ph'.
Proof.
  intros Hr [H1 H2 H3 H4 H5] [Ma Mg Mp _ Mn Mar Man _].
  pose proof (r_next _ _ Hr _ _ Ma) as Hlt.
  assert (∀ b, b ≠ a → ph' !! b = ph !! b) as Ho.
  { intros b Hb. subst ph'. destruct p'; cbn; [by apply lookup_insert_ne|by apply lookup_delete_ne]. }
  assert (ph' !! a = p') as Ha by (subst ph'; destruct p'; cbn; [apply lookup_insert_eq|apply lookup_delete_eq]).
  assert (a ∈ answered s → finished_at p = true) as Hf by (intros; by eapply H4).
  assert (a ∈ arrived s ↔ a ∈ answered s ∨ busy_at p = true) as Hs by (rewrite H3; naive_solver).
  assert (∀ l : list nat, NoDup l → a ∉ l → NoDup (l ++ [a])) as Hsnoc.
  { intros l Hl Hal. rewrite <-snoc_perm. by constructor. }
  clear Mp. constructor.
  - rewrite Mar. destruct Mg; rewrite ?app_nil_r; try done. apply Hsnoc; [done|]. naive_solver.
  - rewrite Man. destruct Mg; rewrite ?app_nil_r; try done. apply Hsnoc; [done|]. naive_solver.
  - intros b. rewrite Mar, Man, !elem_of_app, H3. destruct (decide (b = a)) as [->|Hb].
    + rewrite Ha, Ma. rewrite H3, Ma in Hs.
      destruct Mg; rewrite ?list_elem_of_singleton, ?elem_of_nil; naive_solver.
    + rewrite (Ho b Hb). destruct p; rewrite ?list_elem_of_singleton, ?elem_of_nil; naive_solver.
  - intros b q. rewrite Man, elem_of_app. destruct (decide (b = a)) as [->|Hb].
    + rewrite Ha. intros Hin ->. inversion Mg; subst; rewrite ?elem_of_nil in Hin; naive_solver.
    + rewrite (Ho b Hb). intros [?|Hin]; [by apply H4|].
      destruct p; apply elem_of_nil in Hin || (apply list_elem_of_singleton in Hin); done.
  - intros b. rewrite Mar, Mn, elem_of_app. intros [?|Hin]; [by apply H5|].
    destruct p; first [by apply elem_of_nil in Hin|by apply list_elem_of_singleton in Hin as ->].
Qed.

(** ** The objects that wait for a call of a method *)
Definition listening (s : server) (a : nat) (c : call_data (M := M)) : bool :=
  match status_ c with
  | kCreate => true
  | kProcess => negb (bool_decide (a ∈ task_main s)) && negb (bool_decide (a ∈ pending s)) &&
                negb (bool_decide (POnProcessed a ∈ cq_dispatch s))
  | kFinish => false
  end.
Definition listeners (s : server) (m : M) : gset nat :=
  dom (filter (λ x, method x.2 = m ∧ listening s x.1 x.2 = true) (objects s)).
Definition listens (s : server) (ph : gmap nat place) (m : M) (a : nat) : Prop :=
  (∃ c, objects s !! a = Some c ∧ method c = m) ∧ ∃ p, ph !! a = Some p ∧ listening_at p = true.

Lemma listening_place s ph a c p : rep s ph → objects s !! a = Some c → ph !! a = Some p →
  listening s a c = listening_at p.
Proof.
  intros Hr Hc Hp. pose proof (r_objects _ _ Hr a) as Hs. rewrite Hc, Hp in Hs. injection Hs as Hs.
  destruct Hr as [_ _ R3 R4 R5 _ _ _].
  pose proof (proj2 R4 a) as Q. pose proof (proj2 R5 a) as E. pose proof (proj2 R3 (POnProcessed a)) as D.
  cbn in Q, E, D. rewrite Hp in Q, E, D. unfold listening. rewrite Hs.
  destruct p; cbn in *; repeat case_bool_decide; naive_solver.
Qed.
Lemma elem_of_listeners s ph m a : rep s ph → a ∈ listeners s m ↔ listens s ph m a.
Proof.
  intros Hr. unfold listeners, listens. rewrite elem_of_dom. unfold is_Some. setoid_rewrite map_lookup_filter_Some.
  cbn. split.
  - intros (c & Hc & Hm & Hl). pose proof (r_objects _ _ Hr a) as Hs. rewrite Hc in Hs.
    destruct (ph !! a) as [p|] eqn:Hp; [|done]. split; [by exists c|]. exists p. by rewrite <-(listening_place s ph a c p).
  - intros ((c & Hc & Hm) & p & Hp & Hl). exists c. by rewrite (listening_place s ph a c p).
Qed.
Lemma listens_fresh s ph (s' : server) m m' st p b : rep s ph → listening_at p = true →
  objects s' = <[next s := mkCall m st]> (objects s) →
  listens s' (<[next s := p]> ph) m' b ↔ (b = next s ∧ m = m') ∨ listens s ph m' b.
Proof.
  clear async. intros Hr Hl Ho. unfold listens. rewrite Ho. destruct (decide (b = next s)) as [->|Hb].
  - rewrite !lookup_insert_eq, (rep_fresh _ _ Hr). naive_solver.
  - rewrite !lookup_insert_ne by done. naive_solver.
Qed.
Lemma listens_moved s ph s' ph' a p p' m b : rep s ph → moved s ph s' ph' a p p' →
  listens s' ph' m b ↔ listens s ph m b ∧ (p = Turned → b ≠ a).
Proof.
  clear async. intros Hr [Ma Mg -> Mr _ _ _ Mm]. unfold listens.
  assert (∀ q, listening_at q = true → ph_set a p' ph !! b = Some q →
    ∃ q0, ph !! b = Some q0 ∧ listening_at q0 = true ∧ (p = Turned → b ≠ a)) as H1.
  { intros q Hq. destruct (decide (b = a)) as [->|Hb].
    - rewrite Ma. destruct Mg; cbn; rewrite ?lookup_insert_eq, ?lookup_delete_eq; naive_solver.
    - destruct p'; cbn; rewrite ?lookup_insert_ne, ?lookup_delete_ne by done; naive_solver. }
  assert (∀ q, listening_at q = true → ph !! b = Some q → (p = Turned → b ≠ a) →
    ∃ q0, ph_set a p' ph !! b = Some q0 ∧ listening_at q0 = true) as H2.
  { intros q Hq. destruct (decide (b = a)) as [->|Hb].
    - rewrite Ma. intros [= ->]. destruct Mg; cbn; rewrite ?lookup_insert_eq, ?lookup_delete_eq; naive_solver.
    - destruct p'; cbn; rewrite ?lookup_insert_ne, ?lookup_delete_ne by done; naive_solver. }
  split.
  - intros ((c & Hc & Hm) & q & Hq & Hl). destruct (Mm _ _ Hc) as (c0 & Hc0 & E).
    destruct (H1 q Hl Hq) as (q0 & Hq0 & Hl0 & Hn). split; [|done]. split; [exists c0; by rewrite E|by exists q0].
  - intros (((c & Hc & Hm) & q & Hq & Hl) & Hn). destruct (H2 q Hl Hq Hn) as (q0 & Hq0 & Hl0).
    destruct (rep_status _ _ _ _ Mr Hq0) as (c' & Hc' & _). destruct (Mm _ _ Hc') as (c0 & Hc0 & E).
    split; [|by exists q0]. exists c'. split; [done|]. congruence.
Qed.

End Spec.
