(* ===== verification/GrpcCallClaims.v ===== *)
(** * What the objects that serve rpc calls do over time

    Every call is answered once, no deleted object is used, every method keeps
    its listeners, and what remains of an object whose client has gone. *)

From S2P Require Import Prelude GrpcCall GrpcCallSpec.

(** ** Work left *)
Definition weight (ph : gmap nat place) : nat := map_fold (λ _ p n, left_at p + n)%nat 0%nat ph.

Lemma weight_insert (ph : gmap nat place) a p : ph !! a = None → weight (<[a := p]> ph) = (left_at p + weight ph)%nat.
Proof. intros Ha. unfold weight. rewrite map_fold_insert_L; [done| |done]. intros; lia. Qed.
Lemma weight_delete (ph : gmap nat place) a p : ph !! a = Some p → weight ph = (left_at p + weight (delete a ph))%nat.
Proof. intros Ha. unfold weight. rewrite (map_fold_delete_L _ _ a p); [done| |done]. intros; lia. Qed.
Lemma weight_goes (ph : gmap nat place) a p p' : ph !! a = Some p → goes p p' → p ≠ Waiting →
  (weight (ph_set a p' ph) < weight ph)%nat.
Proof.
  intros Ha Hg Hp. rewrite (weight_delete ph a p Ha). destruct p' as [p'|]; cbn.
  - rewrite <-insert_delete_eq, weight_insert by apply lookup_delete_eq.
    inversion Hg; subst; cbn; try lia. done.
  - inversion Hg; subst; cbn; lia.
Qed.
Lemma weight_le (ph : gmap nat place) : (weight ph ≤ 8 * size ph)%nat.
Proof.
  induction ph as [|a p ph Ha IH] using map_ind; [done|].
  rewrite weight_insert, map_size_insert_None by done. destruct p; cbn [left_at]; lia.
Qed.

Section Claims.
Context {M : Type} `{EqDecision M} (async : M → bool).
Notation server := (server (M := M)).
Notation event := (event (M := M)).

(** Events of the service and the library, as opposed to a start or a new call *)
Definition internal (e : event) : bool := match e with EStart _ | ECall _ => false | _ => true end.
(** The number of times the service was told to serve a method *)
Definition starts (m : M) (es : list event) : nat :=
  sum_list_with (λ e, match e with EStart m' => if decide (m' = m) then 1%nat else 0%nat | _ => 0%nat end) es.

(** ** The invariant of a run *)
Record served (s : server) (ph : gmap nat place) : Prop := { sv_rep : rep s ph; sv_hist : hist s ph }.

Lemma holds_nil {A} (addr : A → nat) (P : A → option place → Prop) : (∀ x, ¬ P x None) → holds addr P [] ∅.
Proof. intros HP. split; [constructor|]. intros x. rewrite lookup_empty, elem_of_nil. naive_solver. Qed.
Lemma served_new : served server_new ∅.
Proof.
  split; constructor; cbn; try (apply holds_nil; done); try apply NoDup_nil_2.
  - intros a. by rewrite !lookup_empty.
  - intros a p. by rewrite lookup_empty.
  - apply holds_nil. intros [a|a]; cbn; naive_solver.
  - apply holds_nil. unfold in_cq. naive_solver.
  - intros a. rewrite elem_of_nil, lookup_empty. naive_solver.
  - intros a p []%elem_of_nil.
  - intros a []%elem_of_nil.
Qed.
Lemma trans_served s ph e s' ph' : served s ph → trans s ph e s' ph' → served s' ph'.
Proof.
  intros [Hr Hh] [m|a c s1 Hc Hp Hm|e1 s1 ph1 a p p' _ _ _ Hm].
  - split; [by apply rep_start|]. by eapply hist_fresh.
  - split; [by apply (mv_rep _ _ _ _ _ _ _ Hm)|]. eapply hist_moved; [by apply rep_new| |exact Hm].
    by eapply hist_fresh.
  - split; [by apply (mv_rep _ _ _ _ _ _ _ Hm)|]. by eapply hist_moved.
Qed.
Lemma run_inv (P : list event → server → gmap nat place → Prop) :
  (∀ es s ph e s' ph', served s ph → P es s ph → trans s ph e s' ph' → P (es ++ [e]) s' ph') →
  ∀ es' es s ph, served s ph → P es s ph →
  match run async es' s with
  | Off => True | Freed => False | Ok s' => ∃ ph', served s' ph' ∧ P (es ++ es') s' ph'
  end.
Proof.
  intros HP. induction es' as [|e es' IH]; intros es s ph Hs Hp; cbn.
  - exists ph. by rewrite app_nil_r.
  - pose proof (step_trans async e s ph (sv_rep _ _ Hs)) as Ht. destruct (step async e s) as [| |s']; [done..|].
    destruct Ht as (ph' & Ht). specialize (IH (es ++ [e]) s' ph' (trans_served _ _ _ _ _ Hs Ht)).
    rewrite <-app_assoc in IH. apply IH. by eapply HP.
Qed.
Lemma run_served es s : run async es server_new = Ok s → ∃ ph, served s ph.
Proof.
  intros Hrun. pose proof (run_inv (λ _ _ _, True) (λ _ _ _ _ _ _ _ _ _, I) es [] _ _ served_new I) as H.
  rewrite Hrun in H. destruct H as (ph & ? & _). by exists ph.
Qed.

(** ** Queues *)
Lemma unanswered_busy s ph a : served s ph → a ∈ arrived s → a ∉ answered s → ∃ p, ph !! a = Some p ∧ busy_at p = true.
Proof. intros [_ Hh] Ha Hn. apply (h_split _ _ Hh) in Ha as [?|?]; done. Qed.
Definition in_a_queue (s : server) (a : nat) : Prop :=
  (a, true) ∈ cq s ∨ PProceed a ∈ cq_dispatch s ∨ a ∈ task_main s ∨ a ∈ pending s ∨ POnProcessed a ∈ cq_dispatch s.
Lemma busy_in_a_queue s ph a p : rep s ph → ph !! a = Some p → busy_at p = true → in_a_queue s a.
Proof.
  intros [_ _ [_ R3] [_ R4] [_ R5] _ _ [_ R8]] Ha Hb. unfold in_a_queue. rewrite R8, !R3, R4, R5. unfold in_cq. cbn.
  rewrite Ha. destruct p; naive_solver.
Qed.

(** ** Listeners *)
Lemma size_fresh (X Y : gset nat) n : n ∉ X → (∀ b, b ∈ Y ↔ b = n ∨ b ∈ X) → size Y = S (size X).
Proof.
  intros Hn HY. assert (Y = {[n]} ∪ X) as -> by (apply set_eq; set_solver).
  rewrite size_union by set_solver. by rewrite size_singleton.
Qed.
Lemma size_swap (X Y : gset nat) n a : n ∉ X → a ∈ X → (∀ b, b ∈ Y ↔ (b = n ∨ b ∈ X) ∧ b ≠ a) → size Y = size X.
Proof.
  intros Hn Ha HY. assert (Y = {[n]} ∪ X ∖ {[a]}) as ->.
  { apply set_eq. intros b. rewrite HY. set_solver. }
  rewrite size_union by set_solver. rewrite size_difference by set_solver. rewrite !size_singleton.
  assert (size X ≠ 0%nat) by (rewrite size_non_empty_iff; set_solver). lia.
Qed.
Lemma starts_one m m' : starts m [EStart m'] = if decide (m' = m) then 1%nat else 0%nat.
Proof. unfold starts. cbn. by case_decide. Qed.
Lemma starts_other m e : (∀ m', e ≠ EStart m') → starts m [e] = 0%nat.
Proof. intros He. destruct e as [m'| | | | | |]; try done. by destruct (He m'). Qed.
Lemma starts_app m es es' : starts m (es ++ es') = (starts m es + starts m es')%nat.
Proof. unfold starts. induction es as [|e es IH]; [done|]. cbn. rewrite IH. lia. Qed.

Lemma trans_listeners s ph e s' ph' m : served s ph → trans s ph e s' ph' →
  size (listeners s' m) = (size (listeners s m) + starts m [e])%nat.
Proof.
  intros Hs Ht. pose proof (sv_rep _ _ Hs) as Hr. pose proof (sv_rep _ _ (trans_served _ _ _ _ _ Hs Ht)) as Hr'.
  pose proof (λ b, elem_of_listeners s ph m b Hr) as HL. pose proof (λ b, elem_of_listeners s' ph' m b Hr') as HL'.
  assert (next s ∉ listeners s m) as Hnext.
  { rewrite HL. intros [_ (p & Hp & _)]. by rewrite (rep_fresh _ _ Hr) in Hp. }
  destruct Ht as [m'|a c s1 Hc Hp Hm|e1 s1 ph1 a p p' He _ Hp Hm].
  - rewrite starts_one.
    pose proof (λ b, listens_fresh s ph (NewCallData_posted m' s) m' m kCreate Created b Hr eq_refl eq_refl) as HF.
    case_decide as Hd.
    + rewrite (size_fresh (listeners s m) _ (next s)); [lia|done|]. intros b. rewrite HL', HL, HF. naive_solver.
    + rewrite Nat.add_0_r. f_equal. apply set_eq. intros b. rewrite HL', HL, HF. naive_solver.
  - rewrite starts_other by done. rewrite Nat.add_0_r.
    pose proof (λ b, listens_fresh s ph (NewCallData (method c) s) (method c) m kProcess Waiting b Hr eq_refl eq_refl)
      as HF.
    assert (∀ b, b ∈ listeners s1 m ↔ (b = next s ∧ method c = m ∨ b ∈ listeners s m) ∧ b ≠ a) as HQ.
    { intros b. rewrite HL', HL, (listens_moved _ _ _ _ _ _ _ m b (rep_new (method c) s ph Hr) Hm), HF. naive_solver. }
    destruct (decide (method c = m)) as [Hcm|Hcm].
    + apply (size_swap _ _ (next s) a); [done| |intros b; rewrite HQ; naive_solver]. rewrite HL.
      split; [by exists c|]. by exists Turned.
    + f_equal. apply set_eq. intros b. rewrite HQ. split; [naive_solver|]. intros Hb. split; [by right|]. intros ->.
      apply HL in Hb as [(c' & Hc' & ?) _]. congruence.
  - rewrite starts_other by done. rewrite Nat.add_0_r. f_equal. apply set_eq. intros b.
    rewrite HL', HL, (listens_moved _ _ _ _ _ _ _ m b Hr Hm). naive_solver.
Qed.

(** ** Internal events *)
Lemma trans_internal s ph e s' ph' : served s ph → trans s ph e s' ph' → internal e = true →
  (S (weight ph') ≤ weight ph)%nat.
Proof.
  intros [Hr _] [m|a c s1 Hc Hp Hm|e1 s1 ph1 a p p' He Hw Hp Hm] Hi; [done| |].
  - pose proof (mv_at _ _ _ _ _ _ _ Hm) as Ha.
    pose proof (weight_goes _ _ _ _ Ha (mv_goes _ _ _ _ _ _ _ Hm)) as H. cbn [ph_set] in H.
    rewrite (weight_insert ph (next s)) in H by (by eapply rep_fresh). cbn [left_at] in H. by apply H.
  - destruct Hm as [Ma Mg -> _ _ _ _ _]. apply (weight_goes ph a p p' Ma Mg).
    intros ->. destruct (Hw eq_refl) as (b & ->). done.
Qed.
Lemma run_weight es : ∀ s ph s', served s ph → Forall (λ e, internal e = true) es → run async es s = Ok s' →
  ∃ ph', served s' ph' ∧ (length es + weight ph' ≤ weight ph)%nat.
Proof.
  induction es as [|e es IH]; intros s ph s' Hs Hi Hrun; cbn in Hrun.
  - injection Hrun as <-. by exists ph.
  - apply Forall_cons in Hi as [He Hi]. pose proof (step_trans async e s ph (sv_rep _ _ Hs)) as Ht.
    destruct (step async e s) as [| |s1]; [done..|]. destruct Ht as (ph1 & Ht).
    destruct (IH s1 ph1 s' (trans_served _ _ _ _ _ Hs Ht) Hi Hrun) as (ph' & Hs' & Hle).
    exists ph'. split; [done|]. pose proof (trans_internal _ _ _ _ _ Hs Ht He). cbn. lia.
Qed.
Lemma rep_size (s : server) ph : rep s ph → size (objects s) = size ph.
Proof.
  intros Hr. rewrite <-!size_dom. f_equal. apply set_eq. intros a. rewrite !elem_of_dom.
  pose proof (r_objects _ _ Hr a) as H0. destruct (objects s !! a), (ph !! a); naive_solver.
Qed.
Lemma queue_enabled s ph a : rep s ph → in_a_queue s a → ∃ e s', internal e = true ∧ step async e s = Ok s'.
Proof.
  intros Hr Hq. assert (∃ e, internal e = true ∧ step async e s ≠ Off) as (e & He & Hoff).
  { destruct Hq as [Hq|[Hq|[Hq|[Hq|Hq]]]].
    - apply list_elem_of_lookup in Hq as (i & Hi). exists (ENext i). split; [done|]. cbn. rewrite Hi.
      unfold HandleRpcRequests. cbn. by case_match.
    - exists EDispatch. split; [done|]. cbn. destruct (cq_dispatch s) as [|[b|b] q]; [by apply elem_of_nil in Hq|..];
        cbn; unfold Proceed, OnProcessed; repeat case_match; done.
    - exists ETask. split; [done|]. cbn. destruct (task_main s) as [|b q]; [by apply elem_of_nil in Hq|].
      unfold Process. by repeat case_match.
    - exists (EAsync a). split; [done|]. cbn. rewrite bool_decide_true by done. by case_match.
    - exists EDispatch. split; [done|]. cbn. destruct (cq_dispatch s) as [|[b|b] q]; [by apply elem_of_nil in Hq|..];
        cbn; unfold Proceed, OnProcessed; repeat case_match; done. }
  pose proof (step_trans async e s ph Hr) as Ht. exists e. destruct (step async e s) as [| |s']; [done..|]. by exists s'.
Qed.

(** ** Objects nobody knows *)
Lemma trans_leaked s ph e s' ph' a : served s ph → trans s ph e s' ph' → ph !! a = Some Leaked → ph' !! a = Some Leaked.
Proof.
  intros [Hr _] Ht Ha. assert (a ≠ next s) as Hn by (intros ->; by rewrite (rep_fresh _ _ Hr) in Ha).
  destruct Ht as [m|b c s1 Hc Hp Hm|e1 s1 ph1 b p p' _ _ _ Hm].
  - by rewrite lookup_insert_ne.
  - rewrite !lookup_insert_ne; [done|done|]. intros ->. by rewrite Ha in Hp.
  - destruct Hm as [Ma Mg -> _ _ _ _ _]. destruct (decide (b = a)) as [->|Hb].
    + rewrite Ha in Ma. injection Ma as <-. inversion Mg.
    + destruct p'; cbn; [by rewrite lookup_insert_ne|by rewrite lookup_delete_ne].
Qed.

(** The listeners of a method are as many as the times it was told to be served. *)
Lemma run_listeners (es : list event) (s : server) (m : M) :
  run async es server_new = Ok s → size (listeners s m) = starts m es.
Proof.
  intros Hrun. pose proof (run_inv (λ es s _, size (listeners s m) = starts m es)) as HI.
  assert (match run async es server_new with
    | Off => True | Freed => False
    | Ok s' => ∃ ph', served s' ph' ∧ size (listeners s' m) = starts m ([] ++ es) end) as H0.
  { apply (HI) with (ph := ∅); [|exact served_new|].
    - intros es0 s0 ph0 e s' ph' Hs Hn Ht. rewrite (trans_listeners _ _ _ _ _ _ Hs Ht), starts_app. lia.
    - unfold listeners. cbn. by rewrite map_filter_empty, dom_empty_L, size_empty. }
  rewrite Hrun in H0. by destruct H0 as (ph & _ & H0).
Qed.

(** C17. In every run of the service no step uses an object that was deleted,
    no call arrives twice at an object and none is answered twice; only calls
    that arrived are answered, and a call that arrived and was not answered has
    a live object, in state [kProcess], that is in one of the queues the threads
    take their work from. *)
Theorem calls_answered_once (es : list event) :
  match run async es server_new with
  | Freed => False
  | Off => True
  | Ok s =>
      NoDup (arrived s) ∧ NoDup (answered s) ∧ answered s ⊆ arrived s ∧
      ∀ a, a ∈ arrived s → a ∉ answered s →
        (∃ c, objects s !! a = Some c ∧ status_ c = kProcess) ∧ in_a_queue s a
  end.
Proof.
  pose proof (run_inv (λ _ _ _, True) (λ _ _ _ _ _ _ _ _ _, I) es [] _ _ served_new I) as H0.
  destruct (run async es server_new) as [| |s]; [done..|]. destruct H0 as (ph & Hs & _).
  destruct Hs as [Hr Hh]. destruct (Hh) as [H1 H2 H3 _ _]. split; [done|]. split; [done|]. split.
  - intros a Ha. apply H3. by left.
  - intros a Ha Hn. destruct (unanswered_busy s ph a (Build_served s ph Hr Hh) Ha Hn) as (p & Hp & Hb). split.
    + destruct (rep_status s ph a p Hr Hp) as (c & Hc & Hst). exists c. split; [done|]. by destruct p.
    + by eapply busy_in_a_queue.
Qed.

(** C28. The threads and the library get the calls answered: from any state a
    run of their events is no longer than eight times the number of objects,
    and whatever they have done, either every call that arrived is answered or
    one of their events can happen. *)
Theorem calls_get_answered (es es' : list event) (s s' : server) :
  run async es server_new = Ok s → Forall (λ e, internal e = true) es' → run async es' s = Ok s' →
  (length es' ≤ 8 * size (objects s))%nat ∧
  (arrived s' ≡ₚ answered s' ∨ ∃ e s'', internal e = true ∧ step async e s' = Ok s'').
Proof.
  intros Hrun Hi Hrun'. destruct (run_served es s Hrun) as (ph & Hs).
  destruct (run_weight es' s ph s' Hs Hi Hrun') as (ph' & Hs' & Hle).
  pose proof (weight_le ph) as Hw. rewrite (rep_size s ph (sv_rep _ _ Hs)). split; [lia|].
  destruct (decide (Forall (λ a, a ∈ answered s') (arrived s'))) as [Hall|Hn].
  - left. destruct Hs' as [_ [H1 H2 H3 _ _]]. apply NoDup_Permutation; [done|done|]. intros a. split.
    + by rewrite Forall_forall in Hall; apply Hall.
    + intros Ha. apply H3. by left.
  - right. apply not_Forall_Exists, Exists_exists in Hn; [|intros b; apply _]. destruct Hn as (a & Ha & Hna).
    destruct (unanswered_busy s' ph' a Hs' Ha Hna) as (p & Hp & Hb).
    eapply queue_enabled; [apply (sv_rep _ _ Hs')|]. by eapply busy_in_a_queue; [apply (sv_rep _ _ Hs')|..].
Qed.

(** When the library reports that a response could not be sent, the loop
    drops the tag, and the object that served the call is never deleted. *)
Theorem cancelled_call_leaks (es es' : list event) (s s' s'' : server) (i a : nat) :
  run async es server_new = Ok s → cq s !! i = Some (a, false) → step async (ENext i) s = Ok s' →
  run async es' s' = Ok s'' → is_Some (objects s'' !! a).
Proof.
  intros Hrun Hi Hst Hrun'. destruct (run_served es s Hrun) as (ph & [Hr Hh]).
  destruct (move_next s ph i _ Hr Hi) as (p & p' & s1 & E & Hm & Hl). cbn in Hl, Hm. rewrite Hl in Hm by done.
  cbn in Hst. rewrite Hi, E in Hst. injection Hst as ->.
  assert (served s' (<[a := Leaked]> ph)) as Hs'.
  { split; [apply (mv_rep _ _ _ _ _ _ _ Hm)|]. by eapply hist_moved. }
  pose proof (run_inv (λ _ _ ph, ph !! a = Some Leaked)
    (λ _ _ _ _ _ _ Hs Hp Ht, trans_leaked _ _ _ _ _ _ Hs Ht Hp) es' [] s' _ Hs' (lookup_insert_eq _ _ _)) as H0.
  rewrite Hrun' in H0. destruct H0 as (ph' & [Hr' _] & Ha). destruct (rep_status _ _ _ _ Hr' Ha) as (c & Hc & _).
  by exists c.
Qed.
End Claims.

(** ** Examples: two methods, of which the odd one is processed elsewhere *)
Definition odd_method (m : nat) : bool := Nat.odd m.
(** Both methods are served; a call of each arrives, the second while the first
    is processed. *)
Definition two_calls : list (event (M := nat)) :=
  [EStart 0%nat; EStart 1%nat; EDispatch; EDispatch; ECall 0; ENext 0; EDispatch; ECall 1; ENext 0; ETask; EDispatch; EDispatch].

Lemma calls_get_answered_witness :
  ∃ s s', run odd_method two_calls server_new = Ok s ∧ run odd_method [ETask; EAsync 1; EDispatch] s = Ok s' ∧
    (arrived s' ≡ₚ answered s' ∨ ∃ e s'', internal e = true ∧ step odd_method e s' = Ok s'').
Proof.
  do 2 eexists. split; [vm_compute; reflexivity|]. split; [vm_compute; reflexivity|].
  apply (calls_get_answered odd_method two_calls [ETask; EAsync 1; EDispatch]) with
    (s := match run odd_method two_calls server_new with Ok s => s | _ => server_new end).
  - vm_compute. reflexivity.
  - repeat constructor.
  - vm_compute. reflexivity.
Defined.
Lemma cancelled_call_leaks_witness :
  match run odd_method (two_calls ++ [ESent 0 false; ENext 0]) server_new with
  | Ok s => is_Some (objects s !! 0%nat)
  | _ => False
  end.
Proof.
  destruct (run odd_method (two_calls ++ [ESent 0 false; ENext 0]) server_new) as [| |s''] eqn:E;
    [by vm_compute in E..|].
  apply (cancelled_call_leaks odd_method (two_calls ++ [ESent 0 false]) []
    (match run odd_method (two_calls ++ [ESent 0 false]) server_new with Ok s => s | _ => server_new end) s'' s'' 0 0).
  - vm_compute. reflexivity.
  - vm_compute. reflexivity.
  - rewrite <-E. vm_compute. reflexivity.
  - reflexivity.
Defined.
