(* ===== verification/DownloadRpc.v ===== *)
(** * The rpc methods of the download server

    [parse_mgr.cc], the upload functions of [download_mgr.cc] and the [Process]
    of every class of [grpc_call_data/]: a control request is posted to the work
    thread and answered at once; the work thread forwards it to the thread of its
    user, where its operation runs, and where a listing is answered; parsing and
    uploading run on other threads.  The life of the objects that carry the calls
    is in [GrpcCall]. *)

From S2P Require Import Prelude GrpcCall.
From S2P Require Import CppBase PathUnit DownloadTypes ErrorDesc TaskInfo InfoStore.
From S2P Require Import SystemConfig ServerWorld TaskRefCount TaskObj TaskFactory UserInfo.
From S2P Require Import UserSelfMgr DownloadMgr.
From Stdlib Require Import SpecFloat.
#[local] Open Scope prog_scope.

(** ** What the rpc layer uses besides [Env]

    [GetNasCacheDir], [base::GetTempDir]; [base::File] opened with
    [FLAG_CREATE_ALWAYS | FLAG_WRITE] and [WriteAtCurrentPos] of the whole text;
    [base::Base64Decode] and [base::UnescapeBinaryURLComponent]. *)
Class RpcEnv `{E : Env} := {
  GetNasCacheDir : env → string * env;
  GetTempDir : env → string * env;
  CreateAlways : string → env → bool * env;
  WriteAtCurrentPos : string → string → env → Z * env;
  Base64Decode : string → option string;
  UnescapeBinaryURLComponent : string → string
}.

(** ** [std::to_string(double)]: six decimals, rounded to nearest even; the sign
    of a NaN is not modelled *)
Definition div_half_even (a b : Z) : Z :=
  let q := a / b in
  match 2 * (a mod b) ?= b with
  | Lt => q | Gt => q + 1 | Eq => if Z.even q then q else q + 1
  end.
Definition pad_left (n : nat) (s : string) : string :=
  str_of (replicate (n - String.length s) "0"%char) +:+ s.
Definition print_millionths (neg : bool) (n : Z) : string :=
  (if neg then "-" else EmptyString) +:+ to_string_Z (n / 1000000) +:+ "." +:+ pad_left 6 (to_string_Z (n mod 1000000)).
Definition to_string_double (d : double) : string :=
  match d with
  | S754_zero s => print_millionths s 0
  | S754_infinity s => (if s then "-" else EmptyString) +:+ "inf"
  | S754_nan => "nan"
  | S754_finite s m e =>
      print_millionths s (if 0 <=? e then Z.pos m * 2 ^ e * 1000000 else div_half_even (Z.pos m * 1000000) (2 ^ (- e)))
  end.
Example to_string_double_ex : to_string_double (d_div (d_of_Z 1) (d_of_Z 3)) = "0.333333".
Proof. vm_compute. reflexivity. Qed.
Example to_string_double_ex2 : to_string_double (d_of_Z (-42)) = "-42.000000".
Proof. vm_compute. reflexivity. Qed.

(** A double converted to [int32], as the setter of the message does it *)
Definition d_to_int32 (d : double) : option Z :=
  match d_trunc d with Some z => if in_int32 z then Some z else None | None => None end.

(** ** Messages *)
Record SourceParseInfo := mkSourceParseInfo { sp_file_name : string; sp_file_size : string; sp_file_type : string }.
Record DownloadTaskInfo := mkDownloadTaskInfo {
  dt_task_id : string; dt_source : string; dt_save_path : string;
  dt_task_status : Z; dt_task_category : Z; dt_task_is_valid : bool;
  dt_file_list_info : string; dt_name : string; dt_total_size : string;
  dt_total_progress : double; dt_download_speed : double; dt_upload_speed : double;
  dt_completed_size : string; dt_time_remaining : Z;
  dt_create_timestamp : string; dt_finish_timestamp : string; dt_delete_timestamp : string;
  dt_converted_source : string; dt_file_type : string; dt_download_type : Z;
  dt_local_land_name : string; dt_err_code : Z; dt_msg : string
}.

(** ** The methods, with those whose [Process] continues on another thread, and
    [DownloadServiceImpl::CreateCallDatas]: the calls to [NewCallData] *)
Inductive RpcMethod :=
  | CreateLinkDownloadTaskCallData | ParseLinkCallData | UploadTorrentFileCallData
  | CreateTorrentDownloadTaskCallData | ParseTorrentCallData | PauseCallData | PauseAllCallData
  | ResumeCallData | ResumeAllCallData | DeleteCallData | DeleteCategoryCallData | GetCallData
  | RetryCallData | RetryAllCallData | RestoreCallData | RestoreAllCallData | CleanCallData
  | CleanCategoryCallData | GetTorrentUploadPathCallData.
#[global] Instance RpcMethod_eq_dec : EqDecision RpcMethod.
Proof. solve_decision. Defined.
Definition continues_elsewhere (m : RpcMethod) : bool :=
  match m with ParseLinkCallData | UploadTorrentFileCallData | GetCallData => true | _ => false end.
Definition CreateCallDatas : list (event (M := RpcMethod)) :=
  EStart <$> [CreateLinkDownloadTaskCallData; ParseLinkCallData; UploadTorrentFileCallData;
    CreateTorrentDownloadTaskCallData; ParseTorrentCallData; PauseCallData; PauseAllCallData; ResumeCallData;
    ResumeAllCallData; DeleteCallData; DeleteCategoryCallData; GetCallData; RetryCallData; RetryAllCallData;
    RestoreCallData; RestoreAllCallData; CleanCallData; CleanCategoryCallData; GetTorrentUploadPathCallData].

Inductive RpcRequest :=
  | RpcControl (r : Request)
  | RpcGet
  | RpcParseLink (source : string)
  | RpcParseTorrent (source : string)
  | RpcUploadTorrentFile (file_content file_name : string)
  | RpcGetTorrentUploadPath.
Inductive RpcBody :=
  | BEmpty
  | BTaskInfoList (task_info_list : list DownloadTaskInfo)
  | BFileInfo (file_info : option SourceParseInfo)
  | BParseResult (parse_result : string)
  | BTorrentPath (torrent_path : string).
(** The initial metadata [errno] and the text of [msg-bin], and the message *)
Record RpcReply := mkReply { rp_errno : string; rp_msg : string; rp_body : RpcBody }.

(** [struct CallResult] as [call_request_] starts, [WrapperSetResult::SetResult] *)
Definition CallResult_init : CallResult := mkCallResult 0 "success".
Definition SetResult (call_result : CallResult) (body : RpcBody) : RpcReply :=
  let h := SetErrorMsg (cr_msg call_result)
             (SetErrorNo (cr_errcode call_result) (ErrorHandle_new ErrorSource.kDownloadService)) in
  mkReply (to_string_Z (eh_final_error_no h)) (cr_msg call_result) body.
(** [utils::SetRpcResult] *)
Definition SetRpcResult (err_no : Z) (body : RpcBody) : RpcReply := SetResult (ErrNoToCallResult err_no) body.

Section Rpc.
Context `{E : Env} `{bl : BaseLib} `{ss : StdSort} `{R : !RpcEnv}.

(** ** Uploads *)

(** [utils::GetUploadTorrentFileCachePath] *)
Definition GetUploadTorrentFileCachePath : ST World string :=
  cache ← env_call GetNasCacheDir;
  let dir_path := FilePath_Append cache "torrent_file" in
  ok ← env_call (CreateDirectory dir_path);
  if negb ok then env_call GetTempDir else ret dir_path.

(** [DownloadManager::UploadTorrentFile]: the path, empty when it failed *)
Definition UploadTorrentFile (recv_file_content file_name : string) : ST World string :=
  let file_content := default EmptyString (Base64Decode recv_file_content) in
  if str_empty file_content then ret EmptyString
  else
    dir_path ← GetUploadTorrentFileCachePath;
    let file_path := FilePath_Append dir_path (BaseFilePathFromU8 file_name) in
    valid ← env_call (CreateAlways file_path);
    if negb valid then ret EmptyString
    else
      bytes_written ← env_call (WriteAtCurrentPos file_path file_content);
      if (bytes_written <? 0) || negb (bytes_written =? Z.of_nat (String.length file_content)) then ret EmptyString
      else ret (UnifiedSlash (BaseFilePathToU8 file_path)).

(** [DownloadManager::GetTorrentUploadPath] *)
Definition GetTorrentUploadPath : ST World string :=
  dir_path ← GetUploadTorrentFileCachePath;
  ret (UnifiedSlash (BaseFilePathToU8 dir_path)).

(** ** [ParseManager] *)

(** The virtual [SyncParse] with a result: BitTorrent tasks leave it as it is. *)
Definition SyncParse : ST TS (Z * FileBaseInfo) :=
  t ← task;
  if is_link (t_kind t) then LinkTask_SyncParse
  else err ← BtTaskBase_SyncParse; ret (err, mkFileBaseInfo EmptyString 0).
(** [SyncParse(NULL)]: the http engine writes through the pointer
    ([CurlDownloadTaskImpl::ParseLink]), the ed2k engine tests it. *)
Definition SyncParse_null : ST TS Z :=
  t ← task;
  match t_kind t with
  | KCurl => crash
  | KMule => ret 1
  | KTorrent | KMagnet => BtTaskBase_SyncParse
  end.

Definition parse_param (url : string) (torrent : option TorrentTaskParam) : TaskParam :=
  mkTaskParam EmptyString url EmptyString EmptyString 0 DownloadType.kUnknown EmptyString EmptyString false true torrent.

(** [ParseManager::ParseLink] *)
Definition ParseManager_ParseLink (source : string) (context_field : ContextField)
    : ST World (Z * option SourceParseInfo) :=
  let '(valid, url) := utils_IsValid source in
  if negb valid then ret (DownloadErrorCode.kCurlUrlInvalid, None)
  else
    '(t0, _) ← TaskFactory.CreateTask (parse_param url None) context_field;
    match t0 with
    | None => ret (DownloadErrorCode.kCreateTaskFailed, None)
    | Some t =>
        '(r, t') ← run_on t SyncParse;
        destroy_task t' ;;
        let '(err, fb) := (r : Z * FileBaseInfo) in
        ret (if err =? 0 then DownloadErrorCode.kNormal else DownloadErrorCode.kParseCurlUrlFailed,
             Some (mkSourceParseInfo (fb_file_name fb) (to_string_Z (fb_file_size fb)) (file_type_string (fb_file_name fb))))
    end.

(** [ParseManager::ParseTorrent] *)
Definition ParseManager_ParseTorrent (source : string) (context_field : ContextField)
    : ST World (Z * string) :=
  '(t0, _) ← TaskFactory.CreateTask (parse_param (UnescapeBinaryURLComponent source) (Some TorrentTaskParam_init)) context_field;
  match t0 with
  | None => ret (DownloadErrorCode.kCreateTaskFailed, EmptyString)
  | Some t =>
      '(err, t') ← run_on t SyncParse_null;
      i ← of_option (t_info t');
      destroy_task t' ;;
      ret (err, bi_file_list (ti_base i))
  end.

(** ** [GetCallData::ProcessComplete] *)
Definition completed_size_of (file_size : Z) (total_progress : double) : double :=
  d_div (d_mul (d_of_Z file_size) total_progress) d_hundred.
Definition time_remaining_of (file_size : Z) (total_progress download_speed : double) : double :=
  if negb (d_eqb download_speed d_zero)
  then d_div (d_sub (d_of_Z file_size) (completed_size_of file_size total_progress)) download_speed
  else d_minus_one.
Definition task_reply (i : TaskInfo) : option DownloadTaskInfo :=
  let p := ti_param i in let fa := bi_task_attribute (ti_base i) in
  let pg := ti_progress i in let ts := ti_time i in
  (λ time_remaining, mkDownloadTaskInfo (p_id p) (p_url p) (p_save_path p)
    (TaskStatus.TaskStatus_value (ti_status i)) (TaskCategory.TaskCategory_value (ti_category i)) (ti_is_valid i)
    (bi_file_list (ti_base i)) (fa_file_name fa) (to_string_Z (fa_file_size fa))
    (pi_total_progress pg) (pi_download_speed pg) (pi_upload_speed pg)
    (to_string_double (completed_size_of (fa_file_size fa) (pi_total_progress pg))) time_remaining
    (to_string_Z (ts_create_time ts)) (to_string_Z (ts_finish_time ts)) (to_string_Z (ts_delete_time ts))
    (p_converted_url p) (fa_file_type fa) (DownloadType.DownloadType_value (p_type p))
    (fa_local_land_file_name fa) (pi_err_code pg) (cr_msg (ErrNoToCallResult (pi_err_code pg)))) <$>
    d_to_int32 (time_remaining_of (fa_file_size fa) (pi_total_progress pg) (pi_download_speed pg)).
Definition ProcessComplete (task_info_list : list (option TaskInfo)) : option RpcReply :=
  (λ infos, SetResult CallResult_init (BTaskInfoList infos)) <$> mapM (λ i, mbind task_reply i) task_info_list.

(** ** The front end

    [fr_work]: what is posted to the work thread of [DownloadManager];
    [fr_turns]: what is posted to the threads of users, in the order it was
    posted, with the number of the thread and the user whose manager it is for;
    [fr_pool]: what is posted to the thread pool; [fr_replies]: the answers, by
    the call they belong to. *)
Inductive Job := JControl (r : Request) (context_field : ContextField) | JGet (call : nat) (context_field : ContextField).
(** [UserSelfMgr::UpdateUserInfo], [StartTimer], the function of a request and
    [GetTaskInfoList] with the callback of its call: each posts itself when it is
    called on another thread *)
Inductive UserTurn :=
  | TUpdateUserInfo (context_field : ContextField)
  | TStartTimer
  | TRequest (r : Request) (context_field : ContextField)
  | TGetTaskInfoList (call : nat) (context_field : ContextField).
Inductive PoolJob :=
  | AsynParseLink (call : nat) (source : string) (context_field : ContextField)
  | AsynUpload (call : nat) (file_content file_name : string).
Definition Posted : Type := nat * (string * UserTurn).
Record Front := mkFront {
  fr_ds : DS;
  fr_work : list Job;
  fr_turns : list Posted;
  fr_pool : list PoolJob;
  fr_replies : list (nat * RpcReply)
}.
Definition on_ds {A} (m : ST DS A) : ST Front A := λ s,
  match m (fr_ds s) with
  | Some (a, d) => Some (a, mkFront d (fr_work s) (fr_turns s) (fr_pool s) (fr_replies s))
  | None => None
  end.
Definition post_work (j : Job) : ST Front unit :=
  modify (λ s, mkFront (fr_ds s) (fr_work s ++ [j]) (fr_turns s) (fr_pool s) (fr_replies s)).
Definition post_pool (j : PoolJob) : ST Front unit :=
  modify (λ s, mkFront (fr_ds s) (fr_work s) (fr_turns s) (fr_pool s ++ [j]) (fr_replies s)).
(** [OnProcessed], after the reply is filled in *)
Definition answer (call : nat) (r : RpcReply) : ST Front unit :=
  modify (λ s, mkFront (fr_ds s) (fr_work s) (fr_turns s) (fr_pool s) (fr_replies s ++ [(call, r)])).

(** [Process] of the class of each method, on [task_main]: the control requests
    all post their operation to the work thread and answer. *)
Definition control (call : nat) (r : Request) (context_field : ContextField) : ST Front unit :=
  post_work (JControl r context_field) ;; answer call (SetResult CallResult_init BEmpty).
Definition CreateLinkDownloadTaskCallData_Process (call : nat) (source_list : list SourceData) (context_field : ContextField) : ST Front unit :=
  control call (RCreateLink source_list) context_field.
Definition CreateTorrentDownloadTaskCallData_Process (call : nat) (r : CreateTorrentRequest) (context_field : ContextField) : ST Front unit :=
  control call (RCreateTorrent r) context_field.
Definition PauseCallData_Process (call : nat) (task_ids : list string) (context_field : ContextField) : ST Front unit :=
  control call (RPause task_ids) context_field.
Definition PauseAllCallData_Process (call : nat) (context_field : ContextField) : ST Front unit :=
  control call RPauseAll context_field.
Definition ResumeCallData_Process (call : nat) (task_ids : list string) (context_field : ContextField) : ST Front unit :=
  control call (RResume task_ids) context_field.
Definition ResumeAllCallData_Process (call : nat) (context_field : ContextField) : ST Front unit :=
  control call RResumeAll context_field.
Definition DeleteCallData_Process (call : nat) (task_ids : list string) (is_delete_local_file : bool) (context_field : ContextField) : ST Front unit :=
  control call (RDelete task_ids is_delete_local_file) context_field.
Definition DeleteCategoryCallData_Process (call : nat) (task_category : TaskCategory) (is_delete_local_file : bool) (context_field : ContextField) : ST Front unit :=
  control call (RDeleteCategory task_category is_delete_local_file) context_field.
Definition RetryCallData_Process (call : nat) (task_ids : list string) (context_field : ContextField) : ST Front unit :=
  control call (RRetry task_ids) context_field.
Definition RetryAllCallData_Process (call : nat) (context_field : ContextField) : ST Front unit :=
  control call RRetryAll context_field.
Definition CleanCallData_Process (call : nat) (task_ids : list string) (context_field : ContextField) : ST Front unit :=
  control call (RClean task_ids) context_field.
Definition CleanCategoryCallData_Process (call : nat) (task_category : TaskCategory) (context_field : ContextField) : ST Front unit :=
  control call (RCleanCategory task_category) context_field.
Definition RestoreCallData_Process (call : nat) (task_ids : list string) (context_field : ContextField) : ST Front unit :=
  control call (RRestore task_ids) context_field.
Definition RestoreAllCallData_Process (call : nat) (context_field : ContextField) : ST Front unit :=
  control call RRestoreAll context_field.
Definition control_Process (call : nat) (request : Request) (context_field : ContextField) : ST Front unit :=
  match request with
  | RCreateLink source_list => CreateLinkDownloadTaskCallData_Process call source_list context_field
  | RCreateTorrent r => CreateTorrentDownloadTaskCallData_Process call r context_field
  | RPause task_ids => PauseCallData_Process call task_ids context_field
  | RPauseAll => PauseAllCallData_Process call context_field
  | RResume task_ids => ResumeCallData_Process call task_ids context_field
  | RResumeAll => ResumeAllCallData_Process call context_field
  | RDelete task_ids is_delete_local_file => DeleteCallData_Process call task_ids is_delete_local_file context_field
  | RDeleteCategory task_category is_delete_local_file => DeleteCategoryCallData_Process call task_category is_delete_local_file context_field
  | RRetry task_ids => RetryCallData_Process call task_ids context_field
  | RRetryAll => RetryAllCallData_Process call context_field
  | RClean task_ids => CleanCallData_Process call task_ids context_field
  | RCleanCategory task_category => CleanCategoryCallData_Process call task_category context_field
  | RRestore task_ids => RestoreCallData_Process call task_ids context_field
  | RRestoreAll => RestoreAllCallData_Process call context_field
  end.
Definition GetCallData_Process (call : nat) (context_field : ContextField) : ST Front unit :=
  post_work (JGet call context_field).
Definition ParseLinkCallData_Process (call : nat) (source : string) (context_field : ContextField) : ST Front unit :=
  post_pool (AsynParseLink call source context_field).
Definition ParseTorrentCallData_Process (call : nat) (source : string) (context_field : ContextField) : ST Front unit :=
  '(err, text) ← on_ds (ds_world (ParseManager_ParseTorrent source context_field));
  answer call (SetRpcResult err (BParseResult text)).
Definition UploadTorrentFileCallData_Process (call : nat) (content name : string) : ST Front unit :=
  post_pool (AsynUpload call content name).
Definition GetTorrentUploadPathCallData_Process (call : nat) : ST Front unit :=
  path ← on_ds (ds_world GetTorrentUploadPath);
  answer call (SetResult CallResult_init (BTorrentPath path)).
Definition Rpc_Process (call : nat) (request : RpcRequest) (context_field : ContextField) : ST Front unit :=
  match request with
  | RpcControl r => control_Process call r context_field
  | RpcGet => GetCallData_Process call context_field
  | RpcParseLink source => ParseLinkCallData_Process call source context_field
  | RpcParseTorrent source => ParseTorrentCallData_Process call source context_field
  | RpcUploadTorrentFile content name => UploadTorrentFileCallData_Process call content name
  | RpcGetTorrentUploadPath => GetTorrentUploadPathCallData_Process call
  end.

(** ** The work thread *)

(** [PostTask] on the runner of the user's manager *)
Definition post_user (user_id : string) (t : UserTurn) : ST Front unit :=
  m ← gets (λ s, ds_m (fr_ds s));
  n ← of_option (d_task_runner m !! user_id);
  modify (λ s, mkFront (fr_ds s) (fr_work s) (fr_turns s ++ [(n, (user_id, t))]) (fr_pool s) (fr_replies s)).
(** [DownloadManager::FindUser]: the update of the user's information is posted. *)
Definition work_FindUser (context_field : ContextField) : ST Front bool :=
  l ← on_ds users;
  match l !! cf_user_id context_field with
  | None => ret false
  | Some _ => post_user (cf_user_id context_field) (TUpdateUserInfo context_field) ;; ret true
  end.
(** [DownloadManager::AddUser] *)
Definition work_AddUser (context_field : ContextField) : ST Front unit :=
  on_ds (NewUser context_field) ;;
  post_user (cf_user_id context_field) (TUpdateUserInfo context_field) ;;
  post_user (cf_user_id context_field) TStartTimer.
(** The functions of the requests, [DownloadManager::CreateLinkDownloadTask] to
    [RestoreAll]: each forwards to the manager of the user, if there is one. *)
Definition work_request (r : Request) (context_field : ContextField) : ST Front unit :=
  found ← work_FindUser context_field;
  if creates r then
    (if found : bool then ret tt else work_AddUser context_field) ;;
    post_user (cf_user_id context_field) (TRequest r context_field)
  else if found : bool then post_user (cf_user_id context_field) (TRequest r context_field) else ret tt.
(** [DownloadManager::GetTaskInfoList]; the callback is
    [GetCallData::ProcessComplete]. *)
Definition work_GetTaskInfoList (call : nat) (context_field : ContextField) : ST Front unit :=
  on_ds (CreateDefaultDownloadDirectory (cf_user_id context_field)) ;;
  found ← work_FindUser context_field;
  if found : bool then post_user (cf_user_id context_field) (TGetTaskInfoList call context_field)
  else r ← of_option (ProcessComplete []); answer call r.
(** A turn of the work thread *)
Definition run_job (j : Job) : ST Front unit :=
  match j with
  | JControl r context_field => work_request r context_field
  | JGet call context_field => work_GetTaskInfoList call context_field
  end.

(** ** The threads of the users *)

(** A turn of a user's thread *)
Definition run_turn (user_id : string) (t : UserTurn) : ST Front unit :=
  match t with
  | TUpdateUserInfo context_field => on_ds (on_user user_id (UserSelfMgr.UpdateUserInfo context_field))
  | TStartTimer => on_ds (on_user user_id StartTimer)
  | TRequest r context_field => on_ds (on_user user_id (user_op r context_field))
  | TGetTaskInfoList call context_field =>
      l ← on_ds (on_user user_id (UserSelfMgr.GetTaskInfoList context_field));
      r ← of_option (ProcessComplete l);
      answer call r
  end.
(** The oldest of what is posted to a thread *)
Fixpoint pop (n : nat) (l : list Posted) : option ((string * UserTurn) * list Posted) :=
  match l with
  | [] => None
  | (k, t) :: l =>
      if bool_decide (k = n) then Some (t, l)
      else match pop n l with Some (x, l) => Some (x, (k, t) :: l) | None => None end
  end.
(** [ParseLinkCallData::AsynParseLink], [UploadTorrentFileCallData::AsynUpload] *)
Definition run_AsynParseLink (call : nat) (source : string) (context_field : ContextField) : ST Front unit :=
  '(err, info) ← on_ds (ds_world (ParseManager_ParseLink source context_field));
  answer call (SetRpcResult err (BFileInfo info)).
Definition run_AsynUpload (call : nat) (content name : string) : ST Front unit :=
  path ← on_ds (ds_world (UploadTorrentFile content name));
  answer call (SetResult (if str_empty path
                          then mkCallResult DownloadErrorCode.kUploadFileFailed
                                 (GetDownloadErrorDesc DownloadErrorCode.kUploadFileFailed)
                          else CallResult_init) (BTorrentPath path)).
Definition run_pool (j : PoolJob) : ST Front unit :=
  match j with
  | AsynParseLink call source context_field => run_AsynParseLink call source context_field
  | AsynUpload call content name => run_AsynUpload call content name
  end.

(** A call is processed, the work thread takes a turn, the thread of a number
    takes a turn, a posted function of the pool runs, the server does something
    of its own. *)
Inductive FrontEvent :=
  | FCall (call : nat) (request : RpcRequest) (context_field : ContextField)
  | FWork
  | FUser (n : nat)
  | FPool (i : nat)
  | FServer (ev : Event).
Definition front_step (e : FrontEvent) : ST Front unit :=
  match e with
  | FCall call request context_field => Rpc_Process call request context_field
  | FWork => λ s,
      match fr_work s with
      | [] => Some (tt, s)
      | j :: q => run_job j (mkFront (fr_ds s) q (fr_turns s) (fr_pool s) (fr_replies s))
      end
  | FUser n => λ s,
      match pop n (fr_turns s) with
      | None => Some (tt, s)
      | Some ((user_id, t), q) => run_turn user_id t (mkFront (fr_ds s) (fr_work s) q (fr_pool s) (fr_replies s))
      end
  | FPool i => λ s,
      match fr_pool s !! i with
      | None => Some (tt, s)
      | Some j => run_pool j (mkFront (fr_ds s) (fr_work s) (fr_turns s) (delete i (fr_pool s)) (fr_replies s))
      end
  | FServer ev => on_ds (run_event ev)
  end.
Definition front_run (es : list FrontEvent) : ST Front unit := for_each es front_step.
End Rpc.
