(* ===== verification/DownloadRpcClaims.v ===== *)
(** * What the rpc methods of the download server guarantee

    When parsing is defined and what it leaves behind, what an upload stores,
    that the requests of a user take effect in the order they were received, and
    that the server stays well formed behind them. *)

From S2P Require Import Prelude GrpcCall GrpcCallSpec GrpcCallClaims.
From S2P Require Import CppBase BaseRef PathUnit DownloadTypes ErrorDesc TaskInfo InfoStore.
From S2P Require Import SystemConfig ServerWorld TaskRefCount TaskObj TaskSpec TaskFactory UserInfo.
From S2P Require Import UserSelfMgr UserSelfMgrSpec UserSelfMgrOps UserSelfMgrCreate DownloadMgr DownloadMgrSpec RefEnv.
From S2P Require Import DownloadRpc.
#[local] Open Scope prog_scope.

Section Parse.
Context `{E : Env} `{bl : BaseLib} `{R : !RpcEnv} `{laws : !EnvLaws E}.

(** The class that parses a source: the one the factory selects, if its
    library is loaded. *)
Definition parsed_by (url : string) (w : World) : option TaskKind :=
  match class_of (url_type (PathExists (BaseFilePathFromU8 url) (w_env w)) url) with
  | Some k => if IsLoaded k (w_env w) then Some k else None
  | None => None
  end.
Definition only_env {A} (w : World) : A → World → Prop := λ _ w', ∃ e, w' = set_w_env e w.

Lemma CreateTask_none p cf w : parsed_by (p_url p) w = None → ∃ p', TaskFactory.CreateTask p cf w = Some ((None, p'), w).
Proof.
  unfold parsed_by, TaskFactory.CreateTask, GetDownloadType, env_read, bind, gets, ret. intros H.
  destruct (class_of _) as [k|]; [|by eexists]. destruct (IsLoaded k (w_env w)); [done|by eexists].
Qed.
Lemma CreateTask_by p cf w k : parsed_by (p_url p) w = Some k → ∃ ty, kind_of_type k ty ∧ IsLoaded k (w_env w) = true ∧
  TaskFactory.CreateTask p cf w =
    ('(t, task_param) ← make_task k (set_p_type ty p) cf; ret (Some t, task_param)) w.
Proof.
  unfold parsed_by, TaskFactory.CreateTask, GetDownloadType, env_read, gets, ret. intros H.
  destruct (class_of _) as [k'|] eqn:Hc; [|done]. destruct (IsLoaded k' (w_env w)) eqn:Hl; [|done].
  injection H as ->. eexists. split; [by eapply class_of_kind|]. split; [done|]. unfold bind at 1 2. cbn.
  rewrite Hc. unfold bind at 1. by rewrite Hl.
Qed.
(** ** Undefined behaviour *)
Lemma undefined_later {S A B} (m : ST S A) (f : A → ST S B) s : wp m (λ a s', f a s' = None) s → bind m f s = None.
Proof. unfold wp, bind. by destruct (m s) as [[a s']|]. Qed.
Lemma undefined_now {S A B} (m : ST S A) (f : A → ST S B) s : m s = None → bind m f s = None.
Proof. unfold bind. by intros ->. Qed.
Lemma undefined_run_on {A} t (m : ST TS A) w : m (mkTS t w) = None → run_on t m w = None.
Proof. unfold run_on. by intros ->. Qed.
Lemma BtTaskBase_SetDownloadParam_undefined s i : t_info (ts_t s) = Some i → ¬ bt_param_ok (ti_param i) →
  BtTaskBase_SetDownloadParam s = None.
Proof.
  intros Hi Hbad. unfold BtTaskBase_SetDownloadParam, info, task, bind, gets. rewrite Hi. cbn.
  unfold of_option, memcpy_array, ret, crash. destruct (p_torrent (ti_param i)) as [x|] eqn:Hx; [|done].
  repeat match goal with |- context [(?a <=? ?b)%nat] => destruct (Nat.leb_spec a b); [|done] end.
  destruct Hbad. by split_and!; [rewrite Hx; eexists|..].
Qed.

(** Constructing a BitTorrent task from a parameter that is not one, or that
    does not fit the buffers of the engine *)
Lemma make_task_bt_undefined k p cf w : is_link k = false → kind_of_type k (p_type p) → IsLoaded k (w_env w) = true →
  p_is_from_db_resume p = false → p_is_parse_task p = true → ¬ bt_param_ok p → make_task k p cf w = None.
Proof.
  intros Hk Hty Hl Hdb Hp Hbad. unfold make_task, TaskBase_new, IsResumeFromDb. rewrite Hdb, Hk. cbn zeta.
  assert (is_Some (factory k (TimeNow (w_env w)).2).1)
    by (apply factory_loaded; by rewrite clock_keeps_loaded).
  apply undefined_later. wp_step. unfold GetCurrnetTime. apply wp_env_call_exact, wp_ret.
  apply undefined_now, undefined_run_on. unfold BtTaskBase_ctor. apply undefined_later, wp_world.
  eapply wp_GetBtDownloadTaskImpl; [done..|]. intros h e. apply undefined_later, wp_upd_task.
  unfold IsResumeFromDb. rewrite Hdb. cbn [negb]. unfold ModifyTorrentPath. rewrite Hp, andb_false_r.
  apply undefined_later, wp_ret, undefined_later. eapply wp_upd_info; [done|]. apply undefined_now.
  by eapply BtTaskBase_SetDownloadParam_undefined.
Qed.

(** ** Parsing *)

(** A task with its engine and information, in a world where only the
    environment moved *)
Definition alive (w : World) (s : TS) : Prop :=
  is_Some (t_impl (ts_t s)) ∧ is_Some (t_info (ts_t s)) ∧ ∃ e, ts_w s = set_w_env e w.
Lemma alive_eng {A} w s (f : Handle → env → A * env) (Q : A → TS → Prop) :
  alive w s → (∀ a s', alive w s' → Q a s') → wp (eng f) Q s.
Proof.
  intros ([h Hh] & Hi & e0 & Hw) HQ. eapply wp_eng; [done|]. intros a e. apply HQ. split; [by exists h|].
  split; [done|]. exists e. cbn. by rewrite Hw.
Qed.
Lemma alive_upd_info w s f (Q : unit → TS → Prop) :
  alive w s → (∀ s', alive w s' → Q tt s') → wp (upd_info f) Q s.
Proof.
  intros (Hh & [i Hi] & Hw) HQ. eapply wp_upd_info; [done|]. apply HQ. split; [done|]. split; [by eexists|done].
Qed.
Lemma alive_CreateMagnetUri w s : alive w s → wp CreateMagnetUri (λ _, alive w) s.
Proof.
  intros Ha. pose proof Ha as ([h Hh] & Hi & e0 & Hw). unfold CreateMagnetUri. wp_step. apply wp_task.
  destruct (t_kind (ts_t s)); try (by eapply alive_upd_info).
  rewrite Hh. destruct (negb _); [by apply wp_ret|]. wp_step. apply wp_world, wp_env_call. intros [u|] e.
  - wp_step. apply wp_upd_task. eapply alive_upd_info; [|done]. split; [done|]. split; [done|]. exists e. cbn. by rewrite Hw.
  - apply wp_ret. split; [done|]. split; [done|]. exists e. cbn. by rewrite Hw.
Qed.
Lemma alive_BtTaskBase_SyncParse w s : alive w s → wp BtTaskBase_SyncParse (λ _, alive w) s.
Proof.
  intros Ha. pose proof Ha as (_ & [i Hi] & _). unfold BtTaskBase_SyncParse. wp_step. eapply wp_info; [done|].
  wp_step. eapply alive_eng; [exact Ha|]. intros ok s1 H1. destruct ok; [|by apply wp_ret].
  wp_step. unfold ParseTorrent. wp_step. eapply alive_eng; [exact H1|]. intros fb s2 H2.
  wp_step. eapply alive_upd_info; [exact H2|]. intros s3 H3. wp_step.
  eapply wp_mono; [by apply (alive_CreateMagnetUri w)|]. intros [] s4 H4. wp_step. eapply alive_eng; [exact H4|].
  intros [l|] s5 H5; [|by apply wp_ret, wp_ret]. wp_step. unfold SetFileList.
  eapply alive_upd_info; [exact H5|]. intros s6 H6. by apply wp_ret, wp_ret.
Qed.
Lemma alive_LinkTask_SyncParse w s : alive w s → wp LinkTask_SyncParse (λ _, alive w) s.
Proof.
  intros Ha. pose proof Ha as (_ & [i Hi] & _). unfold LinkTask_SyncParse. wp_step. apply wp_task.
  wp_step. eapply wp_info; [done|]. destruct (t_kind _); [by eapply alive_eng|..];
    (wp_step; eapply alive_eng; [exact Ha|]; intros [ok fb] s' Hs'; by apply wp_ret).
Qed.
Lemma alive_destroy_task w s Q : alive w s → (∀ e, Q tt (set_w_env e w)) → wp (destroy_task (ts_t s)) Q (ts_w s).
Proof.
  intros ([h Hh] & _ & e0 & Hw) HQ. unfold destroy_task. rewrite Hh. apply wp_env_call. intros [] e. rewrite Hw. apply HQ.
Qed.
Lemma fresh_alive k p cf t p' w e : fresh_task k p cf t p' → alive w (mkTS t (set_w_env e w)).
Proof.
  intros (_ & _ & _ & _ & (i & Hi & _) & _ & _ & _ & _ & _ & (Hh & _) & _). split; [done|]. split; [by eexists|].
  by exists e.
Qed.

(** The source can be parsed: the constructor of a BitTorrent task is given a
    torrent parameter that fits. *)
Lemma wp_parse_task k ty url torrent cf w (Q : Task * TaskParam → World → Prop) :
  kind_of_type k ty → IsLoaded k (w_env w) = true →
  (is_link k = false → bt_param_ok (set_p_type ty (parse_param url torrent))) →
  (∀ t p' e, t_kind t = k → alive w (mkTS t (set_w_env e w)) → Q (t, p') (set_w_env e w)) →
  wp (make_task k (set_p_type ty (parse_param url torrent)) cf) Q w.
Proof.
  intros Hty Hl Hbt HQ. eapply wp_make_task; [done..|]. intros t p' e Hf. apply HQ; [apply Hf|by eapply fresh_alive].
Qed.

Lemma ParseLink_task source cf w k : (utils_IsValid source).1 = true → parsed_by (utils_IsValid source).2 w = Some k →
  (is_link k = true → wp (ParseManager_ParseLink source cf) (only_env w) w) ∧
  (is_link k = false → ParseManager_ParseLink source cf w = None).
Proof.
  intros Hv Hk. unfold ParseManager_ParseLink. destruct (utils_IsValid source) as [valid url]. cbn in Hv, Hk. rewrite Hv.
  cbn [negb]. destruct (CreateTask_by (parse_param url None) cf w k Hk) as (ty & Hty & Hl & Heq). split; intros Hlk.
  - wp_step. eapply wp_run_eq; [exact Heq|]. wp_step. eapply wp_parse_task; [done|done|by rewrite Hlk|].
    intros t p' e Htk Ha. wp_step. cbn. wp_step. apply wp_run_on.
    eapply wp_mono; [unfold SyncParse; wp_step; apply wp_task; cbn; rewrite Htk, Hlk; by apply alive_LinkTask_SyncParse|].
    intros [err fb] s' Hs'. wp_step. eapply alive_destroy_task; [exact Hs'|]. intros e'. apply wp_ret. by exists e'.
  - unfold bind at 1. rewrite Heq. unfold bind at 1. rewrite (make_task_bt_undefined k); [done|done|done|done..|].
    by intros [[? ?] _].
Qed.
Lemma ParseTorrent_task source cf w k : let url := UnescapeBinaryURLComponent source in parsed_by url w = Some k →
  (k ≠ KCurl → (is_link k = false → String.length url ≤ kUrlLength)%nat →
    wp (ParseManager_ParseTorrent source cf) (only_env w) w) ∧
  (k = KCurl ∨ is_link k = false ∧ (kUrlLength < String.length url)%nat → ParseManager_ParseTorrent source cf w = None).
Proof.
  intros url Hk. unfold ParseManager_ParseTorrent. fold url.
  destruct (CreateTask_by (parse_param url (Some TorrentTaskParam_init)) cf w k Hk) as (ty & Hty & Hl & Heq). split.
  - intros Hkc Hlen. wp_step. eapply wp_run_eq; [exact Heq|]. wp_step. eapply wp_parse_task; [done|done| |].
    { intros Hlk. split_and!; cbn; [by eexists|lia|by apply Hlen|lia..]. }
    intros t p' e Htk Ha. wp_step. cbn. wp_step. apply wp_run_on.
    eapply (wp_mono _ (λ _, alive w)).
    + unfold SyncParse_null. wp_step. apply wp_task. cbn. rewrite Htk.
      destruct k; [done|by apply wp_ret|by apply alive_BtTaskBase_SyncParse..].
    + intros err s' Hs'. pose proof Hs' as (_ & [i Hi] & _). wp_step. eapply wp_of_option; [exact Hi|]. wp_step.
      eapply alive_destroy_task; [exact Hs'|]. intros e'. apply wp_ret. by exists e'.
  - intros [->|[Hlk Hlen]]; unfold bind at 1; rewrite Heq.
    + assert (wp (make_task KCurl (set_p_type ty (parse_param url (Some TorrentTaskParam_init))) cf)
        (λ r _, t_kind r.1 = KCurl) w) as Hm by (by eapply wp_parse_task).
      unfold wp in Hm. unfold bind at 1. destruct (make_task _ _ _ w) as [[[t p'] w']|]; [|done]. cbn in Hm |- *.
      apply undefined_now, undefined_run_on. unfold SyncParse_null, bind, task, gets. cbn. by rewrite Hm.
    + unfold bind at 1. rewrite (make_task_bt_undefined k); [done|done|done|done..|].
      intros (_ & _ & Hu & _). cbn in Hu. lia.
Qed.


(** When the two parsing functions are defined *)
Definition link_parsable (source : string) (w : World) : bool :=
  let '(valid, url) := utils_IsValid source in
  negb valid || match parsed_by url w with Some k => is_link k | None => true end.
Definition torrent_parsable (source : string) (w : World) : bool :=
  let url := UnescapeBinaryURLComponent source in
  match parsed_by url w with
  | Some KCurl => false
  | Some KMule | None => true
  | Some _ => (String.length url <=? kUrlLength)%nat
  end.
Lemma only_env_refl {A} (a : A) w : only_env w a w.
Proof. exists (w_env w). by destruct w. Qed.
Lemma ParseLink_total source cf w :
  if link_parsable source w then wp (ParseManager_ParseLink source cf) (only_env w) w
  else ParseManager_ParseLink source cf w = None.
Proof.
  unfold link_parsable. destruct (utils_IsValid source) as [valid url] eqn:Hs. destruct valid; cbn [negb orb].
  - destruct (parsed_by url w) as [k|] eqn:Hk.
    + destruct (ParseLink_task source cf w k) as [Hw Hn]; [by rewrite Hs|by rewrite Hs|]. destruct (is_link k); auto.
    + destruct (CreateTask_none (parse_param url None) cf w Hk) as [p' Hp].
      eapply wp_intro; [|apply (only_env_refl (DownloadErrorCode.kCreateTaskFailed, None))].
      unfold ParseManager_ParseLink, bind. rewrite Hs. cbn [negb]. by rewrite Hp.
  - unfold ParseManager_ParseLink. rewrite Hs. apply wp_ret, only_env_refl.
Qed.
Lemma ParseTorrent_total source cf w :
  if torrent_parsable source w then wp (ParseManager_ParseTorrent source cf) (only_env w) w
  else ParseManager_ParseTorrent source cf w = None.
Proof.
  unfold torrent_parsable. destruct (parsed_by _ w) as [k|] eqn:Hk.
  - destruct (ParseTorrent_task source cf w k Hk) as [Hok Hbad].
    destruct k; [apply Hbad; by left|by apply Hok|destruct (Nat.leb_spec (String.length (UnescapeBinaryURLComponent source)) kUrlLength);
      [by apply Hok|apply Hbad; by right]..].
  - destruct (CreateTask_none (parse_param (UnescapeBinaryURLComponent source) (Some TorrentTaskParam_init)) cf w Hk)
      as [p' Hp].
    eapply wp_intro; [|apply (only_env_refl (DownloadErrorCode.kCreateTaskFailed, EmptyString))].
    unfold ParseManager_ParseTorrent, bind. by rewrite Hp.
Qed.
Lemma defined_iff {S A} (b : bool) (m : ST S A) Q s : (if b then wp m Q s else m s = None) → (∃ r, m s = Some r) ↔ b = true.
Proof.
  destruct b; intros H; split; try done; [|by intros [r Hr]; rewrite Hr in H].
  intros _. destruct (wp_run _ _ _ H) as (a & s' & Hr & _). by eexists.
Qed.
Lemma total_only_env {A} (b : bool) (m : ST World A) w a w' :
  (if b then wp m (only_env w) w else m w = None) → m w = Some (a, w') → only_env w a w'.
Proof. destruct b; unfold wp; intros H Hr; by rewrite Hr in H. Qed.

(** The server survives a request to parse a link exactly when its url is
    invalid, no engine handles it, or an engine of links does: a url the factory
    gives to the BitTorrent engine makes the task read a parameter that is not
    a torrent parameter. *)
Theorem ParseLink_defined_iff source cf w :
  (∃ r, ParseManager_ParseLink source cf w = Some r) ↔
  ((utils_IsValid source).1 = true → ∀ k, parsed_by (utils_IsValid source).2 w = Some k → is_link k = true).
Proof.
  rewrite (defined_iff _ _ _ _ (ParseLink_total source cf w)). unfold link_parsable.
  destruct (utils_IsValid source) as [[] url]; cbn; [|naive_solver]. destruct (parsed_by url w); naive_solver.
Qed.

(** A request to parse a torrent is survived exactly when no engine handles
    its source, the ed2k engine does, or the BitTorrent engine does and the
    source fits its buffer: a source for the http engine makes it write through
    a null pointer. *)
Theorem ParseTorrent_defined_iff source cf w :
  (∃ r, ParseManager_ParseTorrent source cf w = Some r) ↔
  match parsed_by (UnescapeBinaryURLComponent source) w with
  | Some KCurl => False
  | Some KMule | None => True
  | Some _ => (String.length (UnescapeBinaryURLComponent source) ≤ kUrlLength)%nat
  end.
Proof.
  rewrite (defined_iff _ _ _ _ (ParseTorrent_total source cf w)). unfold torrent_parsable.
  destruct (parsed_by (UnescapeBinaryURLComponent source) w) as [[]|]; rewrite ?Nat.leb_le; naive_solver.
Qed.

(** Parsing leaves no trace in the server: whatever it returns, references
    to downloads, the posts to the database and to other threads,
    notifications and settings are as before. *)
Theorem parsing_leaves_no_trace source cf w w' :
  (∃ r, ParseManager_ParseLink source cf w = Some (r, w')) ∨ (∃ r, ParseManager_ParseTorrent source cf w = Some (r, w')) →
  w_refs w' = w_refs w ∧ w_db w' = w_db w ∧ w_notes w' = w_notes w ∧ w_posts w' = w_posts w ∧ w_cfg w' = w_cfg w.
Proof.
  intros [[r Hr]|[r Hr]].
  - by destruct (total_only_env _ _ _ _ _ (ParseLink_total source cf w) Hr) as [e ->].
  - by destruct (total_only_env _ _ _ _ _ (ParseTorrent_total source cf w) Hr) as [e ->].
Qed.
End Parse.

(** ** Uploads *)
Class UploadLaws `{E : Env} `{bl : BaseLib} (R : RpcEnv) := {
  (** the file a path names, what it holds *)
  file_of : string → string;
  contents : string → env → option string;
  contents_same : ∀ p q e, file_of p = file_of q → contents p e = contents q e;
  CreateAlways_ok : ∀ p e, (CreateAlways p e).1 = true → contents p (CreateAlways p e).2 = Some EmptyString;
  CreateAlways_other : ∀ p q e, file_of q ≠ file_of p → contents q (CreateAlways p e).2 = contents q e;
  Write_ok : ∀ p s e, contents p e = Some EmptyString → (WriteAtCurrentPos p s e).1 = Z.of_nat (String.length s) →
    contents p (WriteAtCurrentPos p s e).2 = Some s;
  Write_other : ∀ p q s e, file_of q ≠ file_of p → contents q (WriteAtCurrentPos p s e).2 = contents q e;
  dirs_keep_files : ∀ q e, contents q (GetNasCacheDir e).2 = contents q e ∧ contents q (GetTempDir e).2 = contents q e ∧
    ∀ p, contents q (CreateDirectory p e).2 = contents q e
}.

Section Upload.
Context `{E : Env} `{bl : BaseLib} `{ss : StdSort} (R : RpcEnv) `{U : !UploadLaws R}.

Definition keeps_files {A} (w : World) (Q : A → Prop) : A → World → Prop := λ a w',
  Q a ∧ ∃ e, w' = set_w_env e w ∧ ∀ q, contents q e = contents q (w_env w).
Lemma wp_GetUploadTorrentFileCachePath w :
  wp GetUploadTorrentFileCachePath (keeps_files w (λ _, True)) w.
Proof.
  unfold GetUploadTorrentFileCachePath. wp_step. apply wp_env_call_exact. wp_step. apply wp_env_call_exact.
  destruct (negb _).
  - apply wp_env_call_exact. split; [done|]. eexists. split; [done|]. intros q. cbn.
    by rewrite (proj1 (proj2 (dirs_keep_files q _))), (proj2 (proj2 (dirs_keep_files q _))), (proj1 (dirs_keep_files q _)).
  - apply wp_ret. split; [done|]. eexists. split; [done|]. intros q. cbn.
    by rewrite (proj2 (proj2 (dirs_keep_files q _))), (proj1 (dirs_keep_files q _)).
Qed.

(** An upload that returns a path has stored exactly the decoded content,
    which is not empty, under the client's file name in the cache directory;
    whatever it returns, no other file changed and nothing else of the server
    did. *)
Theorem upload_stores_content recv_file_content file_name w :
  wp (UploadTorrentFile recv_file_content file_name) (λ path w', ∃ e, w' = set_w_env e w ∧
    (path = EmptyString ∧ (∃ dir, ∀ q, file_of q ≠ file_of (FilePath_Append dir (BaseFilePathFromU8 file_name)) →
       contents q e = contents q (w_env w)) ∨
     ∃ dir data, Base64Decode recv_file_content = Some data ∧ data ≠ EmptyString ∧
       let file_path := FilePath_Append dir (BaseFilePathFromU8 file_name) in
       path = UnifiedSlash file_path ∧ contents file_path e = Some data ∧
       ∀ q, file_of q ≠ file_of file_path → contents q e = contents q (w_env w))) w.
Proof.
  unfold UploadTorrentFile. destruct (str_empty _) eqn:He.
  { apply wp_ret. exists (w_env w). split; [by destruct w|]. left. split; [done|]. by exists EmptyString. }
  assert (∃ data, Base64Decode recv_file_content = Some data ∧ data ≠ EmptyString) as (data & Hd & Hne).
  { destruct (Base64Decode recv_file_content) as [data|]; [|done]. exists data. split; [done|]. intros ->. done. }
  rewrite Hd. cbn [default]. wp_step. eapply wp_mono; [apply wp_GetUploadTorrentFileCachePath|].
  intros dir w1 (_ & e1 & -> & H1). set (p := FilePath_Append dir (BaseFilePathFromU8 file_name)).
  wp_step. apply wp_env_call_exact. cbn. destruct (CreateAlways p e1).1 eqn:Hc; cbn [negb].
  - wp_step. apply wp_env_call_exact. cbn. destruct (_ || _) eqn:Hn; apply wp_ret; eexists; (split; [done|]).
    + left. split; [done|]. exists dir. intros q Hq. by rewrite Write_other, CreateAlways_other, H1.
    + right. exists dir, data. split; [done|]. split; [done|]. split; [done|].
      apply orb_false_iff in Hn as [_ Hn]. apply negb_false_iff, Z.eqb_eq in Hn. split.
      * apply Write_ok; [by apply CreateAlways_ok|done].
      * intros q Hq. by rewrite Write_other, CreateAlways_other, H1.
  - apply wp_ret. eexists. split; [done|]. left. split; [done|]. exists dir. intros q Hq. by rewrite CreateAlways_other, H1.
Qed.
End Upload.

(** ** The front end *)
Section FrontClaims.
Context `{E : Env} `{bl : BaseLib} `{ss : StdSort} {sl : StdSortLaws ss} {laws : EnvLaws E}.
Context {bll : BaseLibLaws bl} `{R : !RpcEnv}.

Lemma control_Process_eq call r cf : control_Process call r cf = control call r cf.
Proof. by destruct r. Qed.
Lemma on_ds_inv {A} (m : ST DS A) s a s' : on_ds m s = Some (a, s') →
  ∃ d, m (fr_ds s) = Some (a, d) ∧ s' = mkFront d (fr_work s) (fr_turns s) (fr_pool s) (fr_replies s).
Proof. unfold on_ds. destruct (m (fr_ds s)) as [[a0 d]|]; [|done]. intros [= <- <-]. by exists d. Qed.
Lemma bind_inv {S A B} (m : ST S A) (k : A → ST S B) s b s' :
  bind m k s = Some (b, s') → ∃ a s1, m s = Some (a, s1) ∧ k a s1 = Some (b, s').
Proof. unfold bind. destruct (m s) as [[a s1]|]; [|done]. by exists a, s1. Qed.

(** ** Who is listed, and on which thread *)
Abbreviation runner d u := (d_task_runner (ds_m d) !! u).
(** Users stay listed, on their thread. *)
Definition keeps_users (d d' : DS) : Prop := ∀ u n, is_Some (managers d !! u) → runner d u = Some n →
  is_Some (managers d' !! u) ∧ runner d' u = Some n.
Definition stays {A} (m : ST DS A) : Prop := ∀ d a d', m d = Some (a, d') →
  d_task_runner (ds_m d') = d_task_runner (ds_m d) ∧ dom (managers d') = dom (managers d).
Lemma stays_ret {A} (a : A) : stays (ret a).
Proof. by intros d a' d' [= <- <-]. Qed.
Lemma stays_users : stays users.
Proof. by intros d a' d' [= <- <-]. Qed.
Lemma stays_bind {A B} (m : ST DS A) (k : A → ST DS B) : stays m → (∀ a, stays (k a)) → stays (bind m k).
Proof.
  intros Hm Hk d b d' (a & d1 & H1 & H2)%bind_inv. apply Hm in H1 as [R1 D1]. apply Hk in H2 as [R2 D2]. split; congruence.
Qed.
Lemma stays_ds_world {A} (m : ST World A) : stays (ds_world m).
Proof. intros d a d'. unfold ds_world. destruct (m (ds_w d)) as [[a0 w]|]; [|done]. by intros [= <- <-]. Qed.
Lemma stays_on_user {A} u (m : ST US A) : stays (on_user u m).
Proof.
  intros d a d'. unfold on_user. destruct (managers d !! u) as [x|] eqn:Hx; [|done].
  destruct (m _) as [[a0 s']|]; [|done]. intros [= <- <-]. split; [done|]. apply (elem_of_dom_2 (D:=gset string)) in Hx.
  cbn. rewrite dom_insert_L. set_solver.
Qed.
Lemma stays_on_existing u op : stays (on_existing u op).
Proof. apply stays_bind; [apply stays_users|]. intros l. destruct (l !! u); [apply stays_on_user|apply stays_ret]. Qed.
Lemma stays_directory u : stays (CreateDefaultDownloadDirectory u).
Proof.
  unfold CreateDefaultDownloadDirectory. apply stays_bind; [apply stays_ds_world|]. intros dir.
  apply stays_bind; [apply stays_ds_world|]. intros found. destruct (negb found); [|apply stays_ret].
  apply stays_bind; [apply stays_ds_world|]. intros ok. apply stays_ret.
Qed.
(** What the server does of its own, but for a reset and the restoring at its
    start *)
Definition own (ev : Event) : bool :=
  match ev with EvRequest _ _ | EvGet _ | EvReset | EvRestoreDb _ => false | _ => true end.
Lemma stays_own ev : own ev = true → stays (run_event ev).
Proof. destruct ev; try done; intros _; first [apply stays_on_existing | apply stays_ds_world]. Qed.
Lemma stays_keeps {A} (m : ST DS A) d a d' : stays m → m d = Some (a, d') → keeps_users d d'.
Proof.
  intros Hm H u n Hu Hn. apply Hm in H as [-> Hd]. split; [|done].
  apply (elem_of_dom (D:=gset string)). rewrite Hd. by apply elem_of_dom.
Qed.
Lemma NewUser_inv cf d d' : NewUser cf d = Some (tt, d') → ∃ m n,
  managers d' = <[cf_user_id cf := m]> (managers d) ∧ d_task_runner (ds_m d') = <[cf_user_id cf := n]> (d_task_runner (ds_m d)).
Proof.
  intros (n & d1 & H1 & (m & d2 & H2 & H3)%bind_inv)%bind_inv. injection H3 as <-. exists m, n. cbn.
  unfold ds_world in H2. destruct (UserSelfMgr_new cf (ds_w d1)) as [[m' w]|]; [|done]. injection H2 as -> <-. cbn.
  unfold AllocateTaskRunner in H1. apply bind_inv in H1 as (m0 & d0 & [= <- <-] & H1). destruct (_ <=? _)%nat.
  - apply bind_inv in H1 as (r & d0 & Hr & H1). unfold ds_world in Hr. destruct (env_call _ _) as [[? ?]|]; [|done].
    injection Hr as -> <-. destruct (_ && _); [|done]. by injection H1 as <- <-.
  - apply bind_inv in H1 as ([] & d0 & [= <-] & [= <- <-]). done.
Qed.
Lemma NewUser_keeps cf d d' : managers d !! cf_user_id cf = None → NewUser cf d = Some (tt, d') → keeps_users d d'.
Proof.
  intros Hu (m & n & Hm & Hn)%NewUser_inv u k Hk Hr. rewrite Hm, Hn.
  assert (u ≠ cf_user_id cf) by (intros ->; rewrite Hu in Hk; by destruct Hk).
  by rewrite !lookup_insert_ne.
Qed.

(** ** What is posted *)
Definition job_user (j : Job) : string := match j with JControl _ cf | JGet _ cf => cf_user_id cf end.
(** The job a turn is the end of *)
Definition turn_job (t : UserTurn) : option Job :=
  match t with TRequest r cf => Some (JControl r cf) | TGetTaskInfoList call cf => Some (JGet call cf) | _ => None end.
(** What a turn of the work thread posts to thread [n] *)
Definition posted (j : Job) (found : bool) (n : nat) : list Posted :=
  let cf := match j with JControl _ cf | JGet _ cf => cf end in
  (λ t, (n, (job_user j, t))) <$>
    TUpdateUserInfo cf :: (if found then [] else [TStartTimer]) ++
      [match j with JControl r cf => TRequest r cf | JGet call cf => TGetTaskInfoList call cf end].

Lemma post_user_inv u t s s' : post_user u t s = Some (tt, s') → ∃ n, runner (fr_ds s) u = Some n ∧
  s' = mkFront (fr_ds s) (fr_work s) (fr_turns s ++ [(n, (u, t))]) (fr_pool s) (fr_replies s).
Proof.
  unfold post_user, bind, gets, of_option. destruct (runner (fr_ds s) u) as [n|]; [|done]. intros [= <-]. by exists n.
Qed.
Lemma work_FindUser_inv cf s b s' : work_FindUser cf s = Some (b, s') →
  (b = false ∧ managers (fr_ds s) !! cf_user_id cf = None ∧ s' = s) ∨
  (b = true ∧ is_Some (managers (fr_ds s) !! cf_user_id cf) ∧ ∃ n, runner (fr_ds s) (cf_user_id cf) = Some n ∧
     s' = mkFront (fr_ds s) (fr_work s) (fr_turns s ++ [(n, (cf_user_id cf, TUpdateUserInfo cf))]) (fr_pool s) (fr_replies s)).
Proof.
  intros (l & s1 & (d & [= <- <-] & ->)%on_ds_inv & H)%bind_inv.
  destruct s as [ds w tu p r]. cbn in *. destruct (managers ds !! cf_user_id cf) as [m|].
  - right. apply bind_inv in H as ([] & s2 & (n & Hn & ->)%post_user_inv & [= <- <-]). eauto.
  - left. by injection H as <- <-.
Qed.
(** A turn of the work thread: it forwards the request to the thread of its user,
    who is listed by then, or there is no such user *)
Definition forwarded (j : Job) (s s' : Front) : Prop := ∃ found n,
  is_Some (managers (fr_ds s') !! job_user j) ∧ runner (fr_ds s') (job_user j) = Some n ∧
  fr_turns s' = fr_turns s ++ posted j found n ∧ fr_replies s' = fr_replies s.
Definition dropped (j : Job) (s s' : Front) : Prop :=
  managers (fr_ds s) !! job_user j = None ∧ fr_turns s' = fr_turns s ∧
  match j with
  | JControl _ _ => fr_replies s' = fr_replies s
  | JGet call _ => ∃ r, ProcessComplete [] = Some r ∧ fr_replies s' = fr_replies s ++ [(call, r)]
  end.
Lemma run_job_inv j s s' : run_job j s = Some (tt, s') →
  fr_work s' = fr_work s ∧ fr_pool s' = fr_pool s ∧ keeps_users (fr_ds s) (fr_ds s') ∧ (forwarded j s s' ∨ dropped j s s').
Proof.
  destruct j as [r cf|call cf]; cbn [run_job].
  - intros (b & s1 & Hf & H)%bind_inv. apply work_FindUser_inv in Hf as [(-> & Hu & ->)|(-> & Hu & n & Hn & ->)].
    + destruct (creates r); [|injection H as <-; split_and!; [done..|by intros ?|right; by split_and!]].
      apply bind_inv in H as ([] & s2 & H & (n & Hn & ->)%post_user_inv).
      apply bind_inv in H as ([] & s3 & (d & Hd & ->)%on_ds_inv & H).
      apply bind_inv in H as ([] & s4 & (n1 & Hn1 & ->)%post_user_inv & (n2 & Hn2 & ->)%post_user_inv). cbn in *.
      split_and!; [done..|by eapply NewUser_keeps|]. left. exists false, n. cbn.
      assert (n1 = n) as -> by congruence. assert (n2 = n) as -> by congruence.
      destruct (NewUser_inv _ _ _ Hd) as (m & k & -> & _). rewrite lookup_insert_eq, <-!(assoc_L (++)).
      split_and!; [by eexists|done..].
    + assert (post_user (cf_user_id cf) (TRequest r cf) (mkFront (fr_ds s) (fr_work s)
        (fr_turns s ++ [(n, (cf_user_id cf, TUpdateUserInfo cf))]) (fr_pool s) (fr_replies s)) = Some (tt, s')) as H'
        by (by destruct (creates r)).
      apply post_user_inv in H' as (n' & Hn' & ->). cbn in *. assert (n' = n) as -> by congruence.
      split_and!; [done..|by intros ?|]. left. exists true, n. cbn. rewrite <-(assoc_L (++)). by split_and!.
  - intros ([] & s0 & (d & Hd & ->)%on_ds_inv & (b & s1 & Hf & H)%bind_inv)%bind_inv.
    assert (keeps_users (fr_ds s) d) as Hk by (eapply stays_keeps; [apply stays_directory|done]).
    apply stays_directory in Hd as [Hr Hdom]. apply work_FindUser_inv in Hf as [(-> & Hu & ->)|(-> & Hu & n & Hn & ->)].
    + cbn in *. injection H as <-. split_and!; [done..|]. right. unfold dropped. cbn. split_and!; [|done|by eexists].
      apply (not_elem_of_dom (D:=gset string)). rewrite <-Hdom. by apply not_elem_of_dom.
    + apply post_user_inv in H as (n' & Hn' & ->). cbn in *. assert (n' = n) as -> by congruence.
      split_and!; [done..|]. left. exists true, n. cbn. rewrite <-(assoc_L (++)). by split_and!.
Qed.
(** A turn of a user's thread *)
Definition turn_replies (t : UserTurn) (l : list (nat * RpcReply)) : Prop :=
  match t with
  | TGetTaskInfoList call _ => ∃ tasks r, ProcessComplete tasks = Some r ∧ l = [(call, r)]
  | _ => l = []
  end.
Lemma run_turn_inv u t s s' : run_turn u t s = Some (tt, s') →
  fr_work s' = fr_work s ∧ fr_turns s' = fr_turns s ∧ fr_pool s' = fr_pool s ∧ keeps_users (fr_ds s) (fr_ds s') ∧
  ∃ l, fr_replies s' = fr_replies s ++ l ∧ turn_replies t l.
Proof.
  destruct t as [cf| |r cf|call cf]; cbn [run_turn].
  4: { intros (tasks & s1 & (d & Hd & ->)%on_ds_inv & H)%bind_inv. apply bind_inv in H as (r & s2 & Hp & [= <-]).
       unfold of_option in Hp. destruct (ProcessComplete tasks) as [r'|] eqn:Hpc; [|done]. injection Hp as -> <-. cbn.
       split_and!; [done..|eapply stays_keeps; [apply stays_on_user|done]|]. eexists. split; [done|]. by exists tasks, r. }
  all: intros (d & Hd & ->)%on_ds_inv; cbn; split_and!;
    [done..|eapply stays_keeps; [apply stays_on_user|done]|exists []; by rewrite app_nil_r].
Qed.
Lemma pop_inv n l x q : pop n l = Some (x, q) → ∃ l1 l2, l = l1 ++ (n, x) :: l2 ∧ q = l1 ++ l2 ∧ Forall (λ y, y.1 ≠ n) l1.
Proof.
  revert q. induction l as [|[k t] l IH]; intros q; cbn; [done|]. case_bool_decide as Hk.
  - intros [= <- <-]. subst. by exists [], l.
  - destruct (pop n l) as [[y q']|]; [|done]. intros [= <- <-]. destruct (IH q' eq_refl) as (l1 & l2 & -> & -> & H1).
    exists ((k, t) :: l1), l2. split_and!; [done..|by constructor].
Qed.

(** ** Calls *)
Definition call_of (e : FrontEvent) : option nat := match e with FCall call _ _ => Some call | _ => None end.
Definition job_call (j : Job) : option nat := match j with JGet call _ => Some call | JControl _ _ => None end.
Definition turn_call (x : Posted) : option nat := match x.2.2 with TGetTaskInfoList call _ => Some call | _ => None end.
Definition pool_call (j : PoolJob) : nat := match j with AsynParseLink call _ _ | AsynUpload call _ _ => call end.
(** Every call that was processed is answered, or the work thread, the thread of
    a user or the pool has it. *)
Definition calls_of (s : Front) : list nat :=
  (fr_replies s).*1 ++ omap job_call (fr_work s) ++ omap turn_call (fr_turns s) ++ (pool_call <$> fr_pool s).
Lemma posted_calls j found n : omap turn_call (posted j found n) = option_list (job_call j).
Proof. by destruct j, found. Qed.

#[local] Arguments posted : simpl never.
Ltac run_on_ds H :=
  unfold ParseTorrentCallData_Process, GetTorrentUploadPathCallData_Process, run_AsynParseLink, run_AsynUpload in H;
  let a := fresh "a" in let d := fresh "d" in apply bind_inv in H as (a & ? & (d & _ & ->)%on_ds_inv & H).

Lemma front_step_calls e s s' : front_step e s = Some (tt, s') → calls_of s' ≡ₚ calls_of s ++ option_list (call_of e).
Proof.
  destruct e as [call [r| |source|source|content name|] cf| |n|i|ev]; cbn; rewrite ?control_Process_eq; intros Hs.
  - injection Hs as <-. unfold calls_of. cbn. rewrite omap_app, fmap_app. cbn. solve_Permutation.
  - injection Hs as <-. unfold calls_of. cbn. rewrite omap_app. cbn. solve_Permutation.
  - injection Hs as <-. unfold calls_of. cbn. rewrite fmap_app. cbn. solve_Permutation.
  - run_on_ds Hs. destruct a as [err text]. injection Hs as <-. unfold calls_of. cbn. rewrite fmap_app. cbn. solve_Permutation.
  - injection Hs as <-. unfold calls_of. cbn. rewrite fmap_app. cbn. solve_Permutation.
  - run_on_ds Hs. injection Hs as <-. unfold calls_of. cbn. rewrite fmap_app. cbn. solve_Permutation.
  - rewrite app_nil_r. unfold calls_of. destruct (fr_work s) as [|j q] eqn:Hw; [by injection Hs as <-; rewrite Hw|].
    apply run_job_inv in Hs as (-> & -> & _ & [(found & n & _ & _ & -> & ->)|(_ & -> & Hr)]); cbn.
    + rewrite omap_app, posted_calls. destruct j; cbn; [by rewrite app_nil_r|solve_Permutation].
    + destruct j; cbn in *; [by rewrite Hr|]. destruct Hr as (r & _ & ->). rewrite fmap_app. cbn. solve_Permutation.
  - rewrite app_nil_r. unfold calls_of. destruct (pop n (fr_turns s)) as [[[u t] q]|] eqn:Hp; [|by injection Hs as <-].
    apply pop_inv in Hp as (l1 & l2 & -> & -> & _). apply run_turn_inv in Hs as (-> & -> & -> & _ & l & -> & Hl). cbn.
    rewrite fmap_app, !omap_app. destruct t; cbn in *; subst; try (cbn; rewrite app_nil_r; done).
    destruct Hl as (tasks & r & _ & ->). cbn. solve_Permutation.
  - rewrite app_nil_r. unfold calls_of. destruct (fr_pool s !! i) as [[call source cf|call content name]|] eqn:Hi; cbn in Hs.
    + run_on_ds Hs. destruct a as [err info]. injection Hs as <-. cbn. rewrite fmap_app.
      apply delete_Permutation in Hi. rewrite Hi at 2. cbn. solve_Permutation.
    + run_on_ds Hs. injection Hs as <-. cbn. rewrite fmap_app.
      apply delete_Permutation in Hi. rewrite Hi at 2. cbn. solve_Permutation.
    + by injection Hs as <-.
  - apply on_ds_inv in Hs as (d & _ & ->). by rewrite app_nil_r.
Qed.

(** From the start of the service, the calls that were processed are
    exactly those that are answered, wait for the work thread, for the thread of
    their user or for the thread pool, each as often as it was made: no call is
    lost and none is answered twice. *)
Theorem rpc_calls_conserved es ds s :
  front_run es (mkFront ds [] [] [] []) = Some (tt, s) → calls_of s ≡ₚ omap call_of es.
Proof.
  assert (∀ s0 s1, front_run es s0 = Some (tt, s1) → calls_of s1 ≡ₚ calls_of s0 ++ omap call_of es) as H.
  { unfold front_run. induction es as [|e es IH]; intros s0 s1; cbn.
    - intros [= <-]. by rewrite app_nil_r.
    - unfold bind. destruct (front_step e s0) as [[[] s2]|] eqn:Hs; [|done]. intros Hr. rewrite (IH _ _ Hr).
      rewrite (front_step_calls _ _ _ Hs), <-app_assoc. f_equiv. by destruct (call_of e). }
  intros Hr. by rewrite (H _ _ Hr).
Qed.

(** ** Order *)

(** The requests for the manager, in the order they were received, and what the
    server did of its own *)
Definition jobs_of (es : list FrontEvent) : list Job :=
  omap (λ e, match e with
             | FCall _ (RpcControl r) cf => Some (JControl r cf)
             | FCall call RpcGet cf => Some (JGet call cf)
             | _ => None
             end) es.
Definition server_events (es : list FrontEvent) : list Event :=
  omap (λ e, match e with FServer ev => Some ev | _ => None end) es.
Definition ordinary (e : FrontEvent) : bool :=
  match e with
  | FCall _ (RpcControl _) _ | FCall _ RpcGet _ | FWork | FUser _ => true
  | FServer ev => own ev
  | _ => false
  end.

(** What happens to the manager and its users, without the queues: the work
    thread forwards a request, adding its user if it must, or drops it because
    there is no such user; a function runs on the thread of its user; the server
    does something of its own.  With the listings that answer. *)
Inductive op :=
  | OForward (j : Job)
  | ODrop (j : Job)
  | OTurn (user_id : string) (t : UserTurn)
  | OServer (ev : Event).
Definition directory (j : Job) : ST DS unit :=
  match j with JGet _ cf => CreateDefaultDownloadDirectory (cf_user_id cf) | JControl _ _ => ret tt end.
Definition run_op (o : op) : ST DS (list (nat * RpcReply)) :=
  match o with
  | OForward j =>
      directory j ;; l ← users;
      match l !! job_user j, j with
      | Some _, _ => ret []
      | None, JControl r cf => if creates r then NewUser cf ;; ret [] else crash
      | None, JGet _ _ => crash
      end
  | ODrop j =>
      directory j ;; l ← users;
      match l !! job_user j, j with
      | Some _, _ => crash
      | None, JControl r cf => if creates r then crash else ret []
      | None, JGet call _ => r ← of_option (ProcessComplete []); ret [(call, r)]
      end
  | OTurn u (TUpdateUserInfo cf) => on_user u (UserSelfMgr.UpdateUserInfo cf) ;; ret []
  | OTurn u TStartTimer => on_user u StartTimer ;; ret []
  | OTurn u (TRequest r cf) => on_user u (user_op r cf) ;; ret []
  | OTurn u (TGetTaskInfoList call cf) =>
      l ← on_user u (UserSelfMgr.GetTaskInfoList cf); r ← of_option (ProcessComplete l); ret [(call, r)]
  | OServer ev => run_event ev ;; ret []
  end.
Definition run_ops (os : list op) : ST DS (list (nat * RpcReply)) :=
  fold_each os [] (λ acc o, l ← run_op o; ret (acc ++ l)).
(** What the work thread has seen; what the server did of its own; which requests
    of a user have taken effect, in the order they did *)
Definition op_work (o : op) : option Job := match o with OForward j | ODrop j => Some j | _ => None end.
Definition op_event (o : op) : option Event := match o with OServer ev => Some ev | _ => None end.
Definition by_user (u : string) (j : Job) : option Job := if bool_decide (job_user j = u) then Some j else None.
Definition op_served (u : string) (o : op) : option Job :=
  match o with
  | ODrop j => by_user u j
  | OTurn u' t => if bool_decide (u' = u) then turn_job t else None
  | _ => None
  end.
Definition turn_of (u : string) (x : Posted) : option Job := if bool_decide (x.2.1 = u) then turn_job x.2.2 else None.
(** The requests of a user that wait: for the user's thread, for the work thread *)
Definition waiting (u : string) (s : Front) : list Job :=
  omap (turn_of u) (fr_turns s) ++ omap (by_user u) (fr_work s).
Definition is_listing (r : nat * RpcReply) : bool := match rp_body r.2 with BTaskInfoList _ => true | _ => false end.
Definition listings (s : Front) : list (nat * RpcReply) := filter (λ r, is_listing r = true) (fr_replies s).

Lemma run_ops_snoc os o s acc d acc' d' : run_ops os s = Some (acc, d) → run_op o d = Some (acc', d') →
  run_ops (os ++ [o]) s = Some (acc ++ acc', d').
Proof.
  intros H Ho. unfold run_ops. eapply fold_each_snoc; [exact H|]. unfold bind. by rewrite Ho.
Qed.
Lemma ProcessComplete_listing l r call : ProcessComplete l = Some r → is_listing (call, r) = true.
Proof. unfold ProcessComplete. destruct (mapM _ l); [|done]. by intros [= <-]. Qed.
Lemma bind_some {S A B} (m : ST S A) (k : A → ST S B) s a s1 : m s = Some (a, s1) → bind m k s = k a s1.
Proof. unfold bind. by intros ->. Qed.

(** What is posted lies on the thread of its user, who is listed. *)
Definition placed (d : DS) (x : Posted) : Prop := is_Some (managers d !! x.2.1) ∧ runner d x.2.1 = Some x.1.
Lemma placed_keeps d d' l : keeps_users d d' → Forall (placed d) l → Forall (placed d') l.
Proof. intros Hk Hl. eapply Forall_impl; [exact Hl|]. intros x [H1 H2]. by apply Hk. Qed.
Lemma posted_placed d j found n :
  is_Some (managers d !! job_user j) → runner d (job_user j) = Some n → Forall (placed d) (posted j found n).
Proof. intros. unfold posted. destruct found; cbn; repeat apply Forall_cons_2; done || apply Forall_nil_2. Qed.
Lemma posted_turns u j found n : omap (turn_of u) (posted j found n) = option_list (by_user u j).
Proof. unfold posted, turn_of, by_user. destruct found, j; cbn; by case_bool_decide. Qed.
Lemma turns_elsewhere d n u l :
  Forall (placed d) l → runner d u = Some n → Forall (λ x, x.1 ≠ n) l → omap (turn_of u) l = [].
Proof.
  intros Hp Hn. induction Hp as [|x l [_ Hx] _ IH]; intros Hl; [done|]. apply Forall_cons in Hl as [Hxn Hl]. cbn.
  unfold turn_of at 1. case_bool_decide; [congruence|]. by apply IH.
Qed.
Lemma turns_unlisted d u l : Forall (placed d) l → managers d !! u = None → omap (turn_of u) l = [].
Proof.
  intros Hp Hu. induction Hp as [|x l [[m Hm] _] _ IH]; [done|]. cbn.
  unfold turn_of at 1. case_bool_decide; [congruence|done].
Qed.

(** The steps of the threads are steps without the queues. *)
Lemma listings_snoc (l l' : list (nat * RpcReply)) : Forall (λ r, is_listing r = true) l' →
  filter (λ r, is_listing r = true) (l ++ l') = filter (λ r, is_listing r = true) l ++ l'.
Proof.
  intros H. rewrite filter_app. f_equal. induction H as [|r l' Hr _ IH]; [done|]. by rewrite filter_cons_True, IH.
Qed.
Lemma run_turn_op u t s s' : run_turn u t s = Some (tt, s') →
  ∃ l, run_op (OTurn u t) (fr_ds s) = Some (l, fr_ds s') ∧ listings s' = listings s ++ l.
Proof.
  destruct t as [cf| |r cf|call cf]; cbn [run_turn run_op].
  4: { intros (tasks & s1 & (d & Hd & ->)%on_ds_inv & H)%bind_inv. apply bind_inv in H as (r & s2 & Hp & [= <-]).
       unfold of_option in Hp. destruct (ProcessComplete tasks) as [r'|] eqn:Hpc; [|done]. injection Hp as -> <-.
       exists [(call, r)]. rewrite (bind_some _ _ _ _ _ Hd). unfold bind, of_option. rewrite Hpc. split; [done|].
       apply listings_snoc. constructor; [by eapply ProcessComplete_listing|done]. }
  all: intros (d & Hd & ->)%on_ds_inv; exists []; rewrite (bind_some _ _ _ _ _ Hd), app_nil_r; done.
Qed.
Lemma run_job_op j s s' : run_job j s = Some (tt, s') → ∃ o l,
  (o = OForward j ∧ forwarded j s s' ∨ o = ODrop j ∧ dropped j s s') ∧
  run_op o (fr_ds s) = Some (l, fr_ds s') ∧ listings s' = listings s ++ l.
Proof.
  intros Hj. pose proof Hj as (_ & _ & _ & Hor)%run_job_inv. destruct j as [r cf|call cf]; cbn [run_job] in Hj.
  - apply bind_inv in Hj as (b & s1 & Hf & H). apply work_FindUser_inv in Hf as [(-> & Hu & ->)|(-> & Hu & n & Hn & ->)].
    + destruct Hor as [Hfw|Hdr].
      * exists (OForward (JControl r cf)), []. split; [by left|]. cbn. unfold bind, users, gets, ret. rewrite Hu. cbn.
        destruct (creates r).
        -- apply bind_inv in H as ([] & s2 & H & (n & Hn & ->)%post_user_inv).
           apply bind_inv in H as ([] & s3 & (d & Hd & ->)%on_ds_inv & H).
           apply bind_inv in H as ([] & s4 & (n1 & Hn1 & ->)%post_user_inv & (n2 & Hn2 & ->)%post_user_inv). cbn in *.
           rewrite Hd, app_nil_r. done.
        -- exfalso. injection H as <-. destruct Hfw as (f & n & [m Hm] & _). cbn in Hm. congruence.
      * destruct (creates r) eqn:Hc.
        -- exfalso. apply bind_inv in H as ([] & s2 & H & (n & Hn & ->)%post_user_inv).
           destruct Hdr as (_ & Ht & _). cbn in Ht. apply bind_inv in H as ([] & s3 & (d & Hd & ->)%on_ds_inv & H).
           apply bind_inv in H as ([] & s4 & (n1 & Hn1 & ->)%post_user_inv & (n2 & Hn2 & ->)%post_user_inv). cbn in *.
           apply (f_equal length) in Ht. rewrite !length_app in Ht. cbn in Ht. lia.
        -- exists (ODrop (JControl r cf)), []. split; [by right|]. cbn. unfold bind, users, gets, ret. rewrite Hu, Hc. cbn.
           injection H as <-. by rewrite app_nil_r.
    + destruct Hor as [Hfw|(Hno & _)]; [|cbn in Hno; rewrite Hno in Hu; by destruct Hu].
      exists (OForward (JControl r cf)), []. split; [by left|]. cbn. unfold bind, users, gets, ret.
      destruct Hu as [m Hm]. rewrite Hm, app_nil_r. cbn.
      assert (post_user (cf_user_id cf) (TRequest r cf) (mkFront (fr_ds s) (fr_work s)
        (fr_turns s ++ [(n, (cf_user_id cf, TUpdateUserInfo cf))]) (fr_pool s) (fr_replies s)) = Some (tt, s')) as H'
        by (by destruct (creates r)).
      by apply post_user_inv in H' as (n' & Hn' & ->).
  - apply bind_inv in Hj as ([] & s0 & (d & Hd & ->)%on_ds_inv & (b & s1 & Hf & H)%bind_inv).
    pose proof Hd as [Hr Hdom]%stays_directory. apply work_FindUser_inv in Hf as [(-> & Hu & ->)|(-> & Hu & n & Hn & ->)].
    + destruct Hor as [(f & n & [m Hm] & _)|Hdr].
      * exfalso. cbn in *. injection H as <-. cbn in Hm. congruence.
      * exists (ODrop (JGet call cf)). eexists. split; [by right|]. cbn [run_op directory].
        rewrite (bind_some _ _ _ _ _ Hd). cbn in Hu. unfold bind, users, gets, ret. cbn. rewrite Hu. cbn.
        cbn in H. injection H as <-. cbn. split; [done|]. apply listings_snoc. by repeat constructor.
    + destruct Hor as [Hfw|(Hno & _)].
      * exists (OForward (JGet call cf)), []. split; [by left|]. cbn [run_op directory].
        rewrite (bind_some _ _ _ _ _ Hd). destruct Hu as [m Hm]. cbn in Hm. unfold bind, users, gets, ret. cbn. rewrite Hm.
        apply post_user_inv in H as (n' & Hn' & ->). by rewrite app_nil_r.
      * exfalso. cbn in *. apply (not_elem_of_dom (D:=gset string)) in Hno. rewrite <-Hdom in Hno.
        apply (not_elem_of_dom (D:=gset string)) in Hno. rewrite Hno in Hu. by destruct Hu.
Qed.

(** [os]: what has happened after [es] *)
Record happened (es : list FrontEvent) (ds : DS) (s : Front) (os : list op) : Prop := mkHappened {
  h_run : run_ops os ds = Some (listings s, fr_ds s);
  h_work : omap op_work os ++ fr_work s = jobs_of es;
  h_server : omap op_event os = server_events es;
  h_user : ∀ u, omap (op_served u) os ++ waiting u s = omap (by_user u) (jobs_of es);
  h_placed : Forall (placed (fr_ds s)) (fr_turns s)
}.
Lemma jobs_app es es' : jobs_of (es ++ es') = jobs_of es ++ jobs_of es'.
Proof. apply omap_app. Qed.
Lemma events_app es es' : server_events (es ++ es') = server_events es ++ server_events es'.
Proof. apply omap_app. Qed.
Lemma happened_call es ds s os e j s' : happened es ds s os →
  jobs_of [e] = [j] → server_events [e] = [] → fr_ds s' = fr_ds s → fr_work s' = fr_work s ++ [j] →
  fr_turns s' = fr_turns s → listings s' = listings s → happened (es ++ [e]) ds s' os.
Proof.
  intros [H1 H2 H3 H4 H5] Hj He Hd Hw Ht Hl.
  split; rewrite ?jobs_app, ?events_app, ?Hd, ?Hl, ?Ht; [done|by rewrite Hw, Hj, (assoc_L (++)), H2|by rewrite He, app_nil_r| |done].
  intros u. specialize (H4 u). unfold waiting in *. rewrite Ht, Hw, Hj, !omap_app, <-H4. by rewrite <-!(assoc_L (++)).
Qed.
Lemma happened_work es ds s os j q s' : happened es ds s os → fr_work s = j :: q →
  run_job j (mkFront (fr_ds s) q (fr_turns s) (fr_pool s) (fr_replies s)) = Some (tt, s') →
  ∃ os', happened (es ++ [FWork]) ds s' os'.
Proof.
  intros [H1 H2 H3 H4 H5] Hw Hs. pose proof Hs as (Hw' & _ & Hk & _)%run_job_inv.
  destruct (run_job_op _ _ _ Hs) as (o & l & Hor & Ho & Hl). cbn in Hw', Hk, Ho. exists (os ++ [o]).
  assert (op_work o = Some j ∧ op_event o = None) as [Hwo Heo] by (by destruct Hor as [[-> _]|[-> _]]).
  split; rewrite ?jobs_app, ?events_app, ?omap_app; cbn; rewrite ?Hwo, ?Heo, ?app_nil_r.
  - replace (listings s') with (listings s ++ l) by done. by eapply run_ops_snoc.
  - rewrite Hw', <-(assoc_L (++)), <-H2, Hw. done.
  - done.
  - intros u. rewrite <-H4, omap_app. unfold waiting. rewrite Hw', Hw. cbn.
    destruct Hor as [[-> (f & n & Hu & Hn & Ht & _)]|[-> (Hu & Ht & _)]]; cbn in Ht; rewrite Ht.
    + rewrite omap_app, posted_turns. cbn. rewrite app_nil_r. unfold by_user. case_bool_decide; cbn; by rewrite <-?(assoc_L (++)), ?app_nil_r.
    + cbn. rewrite <-(assoc_L (++)). f_equal. unfold by_user. case_bool_decide as Hj; cbn; [|done].
      subst. by rewrite (turns_unlisted (fr_ds s)).
  - assert (Forall (placed (fr_ds s')) (fr_turns s)) as Hold by (by eapply placed_keeps).
    destruct Hor as [[-> (f & n & Hu & Hn & Ht & _)]|[-> (_ & Ht & _)]]; cbn in Ht; rewrite Ht; [|done].
    apply Forall_app. split; [done|]. by apply posted_placed.
Qed.
Lemma happened_turn es ds s os n u t q s' : happened es ds s os → pop n (fr_turns s) = Some ((u, t), q) →
  run_turn u t (mkFront (fr_ds s) (fr_work s) q (fr_pool s) (fr_replies s)) = Some (tt, s') →
  ∃ os', happened (es ++ [FUser n]) ds s' os'.
Proof.
  intros [H1 H2 H3 H4 H5] Hp Hs. pose proof Hs as (Hw & Ht & _ & Hk & _)%run_turn_inv.
  destruct (run_turn_op _ _ _ _ Hs) as (l & Ho & Hl). cbn in Hw, Ht, Hk, Ho. exists (os ++ [OTurn u t]).
  apply pop_inv in Hp as (l1 & l2 & Hq & -> & Hl1). rewrite Hq in H5. apply Forall_app in H5 as [P1 [[Pu Pn] P2]%Forall_cons].
  cbn in Pu, Pn.
  split; rewrite ?jobs_app, ?events_app, ?omap_app; cbn; rewrite ?app_nil_r, ?Hw, ?Ht; try done.
  - replace (listings s') with (listings s ++ l) by done. by eapply run_ops_snoc.
  - intros v. rewrite <-H4, omap_app. unfold waiting. rewrite Hw, Ht, Hq, !omap_app. cbn.
    change (turn_of v (n, (u, t))) with (if bool_decide (u = v) then turn_job t else None).
    case_bool_decide as Hv; cbn; [|by rewrite app_nil_r]. subst v.
    rewrite (turns_elsewhere (fr_ds s) n u l1) by done. cbn. destruct (turn_job t); cbn; by rewrite <-?(assoc_L (++)), ?app_nil_r.
  - apply Forall_app; split; by eapply placed_keeps.
Qed.
Lemma step_happened es ds s os e s' : ordinary e = true → happened es ds s os → front_step e s = Some (tt, s') →
  ∃ os', happened (es ++ [e]) ds s' os'.
Proof.
  intros He Hh Hs. destruct e as [call [r| |?|?|? ?|] cf| |n|i|ev]; try done; cbn in Hs.
  - rewrite control_Process_eq in Hs. injection Hs as <-. exists os. eapply happened_call; [done..|].
    unfold listings. cbn. rewrite filter_app. cbn. by rewrite app_nil_r.
  - injection Hs as <-. exists os. by eapply happened_call.
  - destruct (fr_work s) as [|j q] eqn:Hw; [|by eapply happened_work].
    injection Hs as <-. exists os. destruct Hh. split; rewrite ?jobs_app, ?events_app, ?omap_app; cbn; rewrite ?app_nil_r; done.
  - destruct (pop n (fr_turns s)) as [[[u t] q]|] eqn:Hp; [by eapply happened_turn|].
    injection Hs as <-. exists os. destruct Hh. split; rewrite ?jobs_app, ?events_app, ?omap_app; cbn; rewrite ?app_nil_r; done.
  - apply on_ds_inv in Hs as (d & Hev & ->). exists (os ++ [OServer ev]). destruct Hh as [H1 H2 H3 H4 H5].
    split; rewrite ?jobs_app, ?events_app, ?omap_app; cbn; rewrite ?app_nil_r; try done.
    + etrans; [apply (run_ops_snoc os (OServer ev) ds _ _ [] d H1)|by rewrite app_nil_r].
      cbn. unfold bind. by rewrite Hev.
    + by rewrite H3.
    + intros u. rewrite omap_app. cbn. rewrite app_nil_r. apply H4.
    + eapply placed_keeps; [|done]. eapply stays_keeps; [by apply stays_own|done].
Qed.

(** C13. The requests of a user take effect in the order they were received:
    whatever the interleaving of arrivals, turns of the work thread and of the
    threads of users and events of the server, those that have taken effect are
    the user's oldest ones, in that order, and the others wait for the thread of
    the user or for the work thread; the work thread sees all requests in the
    order they were received; and the state and every listing sent are those of
    doing what was done one after the other, without the queues.  Requests of
    different users may overtake each other ([users_overtake]). *)
Theorem requests_take_effect_in_order es ds s :
  Forall (λ e, ordinary e = true) es → front_run es (mkFront ds [] [] [] []) = Some (tt, s) →
  ∃ os, (∀ u, omap (op_served u) os ++ waiting u s = omap (by_user u) (jobs_of es)) ∧
    omap op_work os ++ fr_work s = jobs_of es ∧ omap op_event os = server_events es ∧
    run_ops os ds = Some (listings s, fr_ds s).
Proof.
  intros He Hr. enough (∀ es1 s1 os, happened es1 ds s1 os → front_run es s1 = Some (tt, s) →
    ∃ os, happened (es1 ++ es) ds s os) as H1.
  { destruct (H1 [] (mkFront ds [] [] [] []) []) as [os [? ? ? ? ?]]; [|done|by exists os].
    by split. }
  clear Hr. unfold front_run. induction es as [|e es IH]; intros es1 s1 os Hos; cbn.
  - intros [= <-]. rewrite app_nil_r. by exists os.
  - apply Forall_cons in He as [He0 He]. unfold bind. destruct (front_step e s1) as [[[] s']|] eqn:Hs; [|done].
    destruct (step_happened _ _ _ _ _ _ He0 Hos Hs) as [os' Hos'].
    replace (es1 ++ e :: es) with ((es1 ++ [e]) ++ es) by by rewrite <-app_assoc. by eapply IH.
Qed.

(** ** Safety *)
Definition job_ok (j : Job) : Prop := match j with JControl r cf => admissible r cf | JGet _ _ => True end.
Definition turn_ok (x : Posted) : Prop :=
  match x.2.2 with TRequest r cf => admissible r cf ∧ cf_user_id cf = x.2.1 | _ => True end.
Definition front_ok (s : Front) : Prop :=
  dm_ok (fr_ds s) ∧ Forall job_ok (fr_work s) ∧ Forall (placed (fr_ds s)) (fr_turns s) ∧ Forall turn_ok (fr_turns s).
(** What the code survives: requests that are admissible, sources that can be
    parsed, listings whose tasks have remaining times that fit their field, and
    valid events of the server's own.  The restoring at the start is before all
    turns, and a reset waits for the threads of the users: what was posted to
    them before it are turns before it. *)
Definition listable (l : list (option TaskInfo)) : Prop := is_Some (ProcessComplete l).
Definition when_idle (ev : Event) (s : Front) : Prop :=
  match ev with
  | EvRequest _ _ | EvGet _ => False
  | EvReset | EvRestoreDb _ => fr_turns s = []
  | _ => True
  end.
Definition front_valid (e : FrontEvent) (s : Front) : Prop :=
  match e with
  | FCall _ (RpcControl r) cf => admissible r cf
  | FCall _ (RpcParseTorrent source) _ => torrent_parsable source (ds_w (fr_ds s)) = true
  | FCall _ _ _ | FWork => True
  | FUser n => ∀ u call cf q l d, pop n (fr_turns s) = Some ((u, TGetTaskInfoList call cf), q) →
      on_user u (UserSelfMgr.GetTaskInfoList cf) (fr_ds s) = Some (l, d) → listable l
  | FPool i => ∀ call source cf, fr_pool s !! i = Some (AsynParseLink call source cf) →
      link_parsable source (ds_w (fr_ds s)) = true
  | FServer ev => valid_event ev (fr_ds s) ∧ when_idle ev s
  end.

Lemma dm_ok_env d e : dm_ok d → dm_ok (mkDS (ds_m d) (set_w_env e (ds_w d))).
Proof. intros Hd. by apply (wp_run_event (EvEngines e) d Hd I). Qed.
Lemma wp_on_ds {A} (m : ST DS A) (Q : A → Front → Prop) s :
  wp m (λ a d, Q a (mkFront d (fr_work s) (fr_turns s) (fr_pool s) (fr_replies s))) (fr_ds s) → wp (on_ds m) Q s.
Proof. unfold wp, on_ds. by destruct (m (fr_ds s)) as [[a d]|]. Qed.
(** The front end over a server that only its environment moved *)
Lemma front_ok_env s e : front_ok s → front_ok (mkFront (mkDS (ds_m (fr_ds s)) (set_w_env e (ds_w (fr_ds s)))) (fr_work s) (fr_turns s) (fr_pool s) (fr_replies s)).
Proof. intros (Hd & Hq & Hp & Ht). split_and!; [by apply dm_ok_env|done..]. Qed.
Lemma wp_on_env {A} (m : ST World A) (Q : A → Front → Prop) s : front_ok s →
  wp m (only_env (ds_w (fr_ds s))) (ds_w (fr_ds s)) →
  (∀ a s', front_ok s' → Q a s') → wp (on_ds (ds_world m)) Q s.
Proof.
  intros Hs Hm HQ. apply wp_on_ds, wp_ds_world. eapply wp_mono; [exact Hm|]. intros a w' [e ->].
  by apply HQ, (front_ok_env s e).
Qed.
Lemma only_env_trans {A B} (m : ST World A) (f : A → ST World B) w :
  wp m (only_env w) w → (∀ a e, wp (f a) (only_env (set_w_env e w)) (set_w_env e w)) → wp (bind m f) (only_env w) w.
Proof.
  intros Hm Hf. wp_step. eapply wp_mono; [exact Hm|]. intros a w' [e ->]. eapply wp_mono; [apply Hf|].
  intros b w' [e' ->]. by exists e'.
Qed.
Lemma only_env_call {A} (f : env → A * env) w : wp (env_call f) (only_env w) w.
Proof. apply wp_env_call. intros a e. by exists e. Qed.
Lemma only_env_ret {A} (a : A) w : wp (ret a) (only_env w) w.
Proof. apply wp_ret, only_env_refl. Qed.
Lemma only_env_cache w : wp GetUploadTorrentFileCachePath (only_env w) w.
Proof.
  unfold GetUploadTorrentFileCachePath. apply only_env_trans; [apply only_env_call|]. intros dir e.
  apply only_env_trans; [apply only_env_call|]. intros ok e'. destruct (negb ok); [apply only_env_call|apply only_env_ret].
Qed.
Lemma only_env_upload content name w : wp (UploadTorrentFile content name) (only_env w) w.
Proof.
  unfold UploadTorrentFile. destruct (str_empty _); [apply only_env_ret|].
  apply only_env_trans; [apply only_env_cache|]. intros dir e. apply only_env_trans; [apply only_env_call|].
  intros valid e'. destruct (negb valid); [apply only_env_ret|]. apply only_env_trans; [apply only_env_call|].
  intros n e''. destruct (_ || _); apply only_env_ret.
Qed.
Lemma only_env_path w : wp GetTorrentUploadPath (only_env w) w.
Proof. unfold GetTorrentUploadPath. apply only_env_trans; [apply only_env_cache|]. intros dir e. apply only_env_ret. Qed.
Lemma wp_directory u d : dm_ok d → wp (CreateDefaultDownloadDirectory u) (λ _, dm_ok) d.
Proof.
  intros Hd. unfold CreateDefaultDownloadDirectory. wp_step. apply wp_ds_world, wp_env_call. intros dir e.
  wp_step. apply wp_ds_world, wp_gets. destruct (negb _).
  - wp_step. apply wp_ds_world, wp_env_call. intros b e'. by apply wp_ret, dm_ok_world.
  - by apply wp_ret, dm_ok_world.
Qed.
Lemma wp_total {A} (b : bool) (m : ST World A) Q w : (if b then wp m Q w else m w = None) → b = true → wp m Q w.
Proof. by intros H ->. Qed.

Lemma front_ok_work s j : front_ok s → job_ok j →
  front_ok (mkFront (fr_ds s) (fr_work s ++ [j]) (fr_turns s) (fr_pool s) (fr_replies s)).
Proof. intros (Hd & Hq & Hp & Ht) Hj. split_and!; [done| |done..]. apply Forall_app. by split; [|constructor]. Qed.
Lemma wp_Rpc_Process call rq cf s : front_ok s → front_valid (FCall call rq cf) s → wp (Rpc_Process call rq cf) (λ _, front_ok) s.
Proof.
  intros Hs Hv. destruct rq as [r| |source|source|content name|]; cbn in Hv |- *;
    rewrite ?control_Process_eq; unfold ParseTorrentCallData_Process, GetTorrentUploadPathCallData_Process.
  - by apply (front_ok_work s (JControl r cf)).
  - by apply (front_ok_work s (JGet call cf)).
  - done.
  - wp_step. apply wp_on_env; [done|by apply (wp_total _ _ _ _ (ParseTorrent_total source cf _))|].
    by intros [err text] s' Hs'.
  - done.
  - wp_step. apply wp_on_env; [done|apply only_env_path|]. by intros path s' Hs'.
Qed.
Lemma wp_run_pool i s j : front_ok s → fr_pool s !! i = Some j → front_valid (FPool i) s →
  wp (run_pool j) (λ _, front_ok) (mkFront (fr_ds s) (fr_work s) (fr_turns s) (delete i (fr_pool s)) (fr_replies s)).
Proof.
  intros Hs Hi Hv. destruct j as [call source cf|call content name]; cbn in Hv |- *;
    unfold run_AsynParseLink, run_AsynUpload.
  - wp_step. apply wp_on_env; [done| |by intros [err info] s' Hs'].
    apply (wp_total _ _ _ _ (ParseLink_total source cf _)). by eapply Hv.
  - wp_step. apply wp_on_env; [done|apply only_env_upload|]. by intros path s' Hs'.
Qed.

(** The work thread *)
Lemma wp_post_user u t (Q : unit → Front → Prop) s : dm_ok (fr_ds s) → is_Some (managers (fr_ds s) !! u) →
  (∀ n, Q tt (mkFront (fr_ds s) (fr_work s) (fr_turns s ++ [(n, (u, t))]) (fr_pool s) (fr_replies s))) → wp (post_user u t) Q s.
Proof.
  intros (_ & _ & Hall) [m Hm] HQ. destruct (Hall _ _ Hm) as (_ & _ & n & Hn & _). unfold post_user. wp_step. apply wp_gets.
  wp_step. eapply wp_of_option; [exact Hn|]. apply wp_modify, HQ.
Qed.
Lemma wp_work_FindUser cf (Q : bool → Front → Prop) s : dm_ok (fr_ds s) →
  (∀ tu, is_Some (managers (fr_ds s) !! cf_user_id cf) → Q true (mkFront (fr_ds s) (fr_work s) tu (fr_pool s) (fr_replies s))) →
  Q false s → wp (work_FindUser cf) Q s.
Proof.
  intros Hd Hyes Hno. unfold work_FindUser, users. wp_step. apply wp_on_ds, wp_gets. destruct (managers (fr_ds s) !! cf_user_id cf) as [m|] eqn:Hm.
  - wp_step. apply wp_post_user; [done|by eexists|]. intros n. apply wp_ret, Hyes. by eexists.
  - destruct s. by apply wp_ret.
Qed.
Lemma wp_run_job j s : dm_ok (fr_ds s) → wp (run_job j) (λ _ s', dm_ok (fr_ds s')) s.
Proof.
  intros Hd. destruct j as [r cf|call cf]; cbn [run_job].
  - unfold work_request. wp_step. apply wp_work_FindUser; [done| |].
    + intros tu Hu. destruct (creates r); [wp_step; apply wp_ret|]; by apply wp_post_user.
    + destruct (creates r); [|by apply wp_ret]. wp_step. unfold work_AddUser. wp_step. apply wp_on_ds, wp_NewUser; [done|].
      intros d m Hd' Hm _ _. assert (is_Some (managers d !! cf_user_id cf)) by (rewrite Hm, lookup_insert_eq; by eexists).
      wp_step. apply wp_post_user; [done..|]. intros n1. apply wp_post_user; [done..|]. intros n2. by apply wp_post_user.
  - unfold work_GetTaskInfoList. wp_step. apply wp_on_ds. eapply wp_mono; [by apply wp_directory|]. intros [] d Hd'.
    wp_step. apply wp_work_FindUser; [done| |done]. intros tu Hu. by apply wp_post_user.
Qed.
Lemma posted_ok j found n : job_ok j → Forall turn_ok (posted j found n).
Proof. intros Hj. unfold posted. destruct found, j; cbn; repeat apply Forall_cons_2; done || apply Forall_nil_2. Qed.
Lemma front_ok_job j q s s' : front_ok s → fr_work s = j :: q →
  run_job j (mkFront (fr_ds s) q (fr_turns s) (fr_pool s) (fr_replies s)) = Some (tt, s') → dm_ok (fr_ds s') → front_ok s'.
Proof.
  intros (Hd & Hq & Hp & Ht) Hw Hs Hd'. rewrite Hw in Hq. apply Forall_cons in Hq as [Hj Hq].
  apply run_job_inv in Hs as (Hw' & _ & Hk & Hor). cbn in Hw', Hk. unfold front_ok. rewrite Hw'.
  assert (Forall (placed (fr_ds s')) (fr_turns s)) as Hold by by eapply placed_keeps.
  destruct Hor as [(f & n & Hu & Hn & Htu & _)|(_ & Htu & _)]; cbn in Htu; rewrite Htu; split_and!; try done;
    apply Forall_app; split; try done; [by apply posted_placed|by apply posted_ok].
Qed.

(** The threads of the users *)
Lemma wp_run_turn n u t s : dm_ok (fr_ds s) → placed (fr_ds s) (n, (u, t)) → turn_ok (n, (u, t)) →
  (∀ call cf l d, t = TGetTaskInfoList call cf → on_user u (UserSelfMgr.GetTaskInfoList cf) (fr_ds s) = Some (l, d) → listable l) →
  wp (run_turn u t) (λ _ s', dm_ok (fr_ds s')) s.
Proof.
  intros Hd [[m Hm] _] Ht Hl. cbn in Hm. pose proof Hd as (_ & _ & Hall). destruct (Hall _ _ Hm) as (Hok & Hid & _).
  destruct t as [cf| |r cf|call cf]; cbn [run_turn].
  - apply wp_on_ds. eapply (wp_on_user_moves _ _ same_user); [done..|by apply UpdateUserInfo_safe|]. by intros a s' [? _].
  - apply wp_on_ds. eapply (wp_on_user_moves _ _ (λ _ _, True)); [done..| |by intros a s' [? _]].
    apply wp_modify. destruct Hok as (?&?&?&?). by split_and!.
  - apply wp_on_ds. destruct Ht as [Had Hu]. cbn in Hu. eapply (wp_on_user_moves _ _ (effect r)); [done..| |by intros a s' [? _]].
    apply user_op_safe; [done..|]. cbn. congruence.
  - wp_step. apply wp_on_ds.
    assert (wp (on_user u (UserSelfMgr.GetTaskInfoList cf)) (λ _, dm_ok) (fr_ds s)) as Hg.
    { eapply (wp_on_user_moves _ _ uany); [done..| |by intros a s' [? _]].
      eapply wp_mono; [by apply GetTaskInfoList_keeps|]. by intros a x (?&(?&?&_)&_). }
    destruct (wp_run _ _ _ Hg) as (l & d & Hr & Hd'). eapply wp_intro; [exact Hr|].
    destruct (Hl call cf l d eq_refl Hr) as [r Hp]. wp_step. eapply wp_of_option; [exact Hp|]. done.
Qed.
Lemma wp_front_step e s : front_ok s → front_valid e s → wp (front_step e) (λ _, front_ok) s.
Proof.
  intros Hs Hv. destruct e as [call rq cf| |n|i|ev].
  - by apply wp_Rpc_Process.
  - unfold wp. cbn. destruct (fr_work s) as [|j q] eqn:Hw; [done|].
    destruct (wp_run _ _ _ (wp_run_job j (mkFront (fr_ds s) q (fr_turns s) (fr_pool s) (fr_replies s)) (proj1 Hs))) as ([] & s' & Hr & Hd').
    rewrite Hr. by eapply front_ok_job.
  - unfold wp. cbn. destruct (pop n (fr_turns s)) as [[[u t] q]|] eqn:Hp; [|done].
    pose proof Hp as (l1 & l2 & Hq & -> & _)%pop_inv. destruct Hs as (Hd & Hw & Hpl & Ht). rewrite Hq in Hpl, Ht.
    apply Forall_app in Hpl as [Q1 [Q2 Q3]%Forall_cons]. apply Forall_app in Ht as [R1 [R2 R3]%Forall_cons].
    assert (wp (run_turn u t) (λ _ s', dm_ok (fr_ds s')) (mkFront (fr_ds s) (fr_work s) (l1 ++ l2) (fr_pool s) (fr_replies s))) as Hwp.
    { apply (wp_run_turn n); [done..|]. intros call cf l d -> Hl. by eapply Hv. }
    destruct (wp_run _ _ _ Hwp) as ([] & s' & Hr & Hd').
    rewrite Hr. pose proof Hr as (Hw' & Ht' & _ & Hk & _)%run_turn_inv. cbn in Hw', Ht', Hk. unfold front_ok. rewrite Hw', Ht'.
    split_and!; [done..| |by apply Forall_app]. apply Forall_app; split; by eapply placed_keeps.
  - unfold wp. cbn. destruct (fr_pool s !! i) as [j|] eqn:Hi; [|done].
    by apply (wp_run_pool i s j).
  - cbn in Hv. destruct Hv as [Hv Hi]. destruct Hs as (Hd & Hw & Hpl & Ht).
    destruct (wp_run _ _ _ (wp_run_event ev (fr_ds s) Hd Hv)) as ([] & d & Hr & Hd').
    unfold wp. cbn. unfold on_ds. rewrite Hr. split_and!; try done. cbn.
    destruct (own ev) eqn:Ho; [eapply placed_keeps; [|done]; eapply stays_keeps; [by apply stays_own|done]|].
    destruct ev; try done; cbn in Hi; rewrite Hi; constructor.
Qed.

(** A run of events that the code survives *)
Definition front_moves (s s' : Front) : Prop := ∃ e, front_valid e s ∧ front_step e s = Some (tt, s').

(** C12. The front end keeps the server safe: from the start of the service with
    a well-formed manager, in every state that rpc calls, turns of the work
    thread, of the threads of users and of the pool, and the server's own events
    reach, the manager is well formed and every further event of that kind is
    defined and leads to such a state.  The events are those [front_valid]
    allows: requests that are admissible, sources that the parsing functions are
    defined on ([ParseLink_defined_iff], [ParseTorrent_defined_iff]), listings
    whose remaining times fit their field ([slow_task_unlistable]), the server's
    own events that are valid ([server_safe]), a reset when the threads of the
    users have done what was posted to them. *)
Theorem front_safe ds s : dm_ok ds → rtc front_moves (mkFront ds [] [] [] []) s →
  dm_ok (fr_ds s) ∧ ∀ e, front_valid e s → ∃ s', front_step e s = Some (tt, s') ∧ dm_ok (fr_ds s').
Proof.
  intros Hd Hr. assert (front_ok s) as Hs.
  { assert (front_ok (mkFront ds [] [] [] [])) as H0 by (by split_and!; [|apply Forall_nil_2..]).
    clear Hd. induction Hr as [|s1 s2 s3 (e & Hv & He) _ IH]; [done|]. apply IH.
    apply (wp_front_step e) in H0; [|done]. unfold wp in H0. by rewrite He in H0. }
  split; [apply Hs|]. intros e Hv. destruct (wp_run _ _ _ (wp_front_step e s Hs Hv)) as ([] & s' & He & Hs' & _). by exists s'.
Qed.
End FrontClaims.

(** ** The service *)
(** After [CreateCallDatas] each of the nineteen methods is always attended:
    whatever calls, turns of the threads and deliveries follow, exactly one
    object waits for the next call of every method. *)
Theorem every_method_attended es s m :
  Forall (λ e, ∀ m, e ≠ EStart m) es → GrpcCall.run continues_elsewhere (CreateCallDatas ++ es) server_new = Ok s →
  size (listeners s m) = 1%nat.
Proof.
  intros He Hr. rewrite (run_listeners _ _ _ m Hr), starts_app.
  assert (starts m es = 0%nat) as ->; [|by destruct m]. clear Hr.
  induction He as [|e es He _ IH]; [done|]. change (e :: es) with ([e] ++ es). rewrite starts_app, IH.
  by rewrite starts_other.
Qed.
Definition one_pause : list (event (M := RpcMethod)) :=
  replicate 19 EDispatch ++ [ECall 5; ENext 0; EDispatch; ETask; EDispatch; ESent 5 true; ENext 0; EDispatch].
Lemma every_method_attended_witness :
  ∃ s, GrpcCall.run continues_elsewhere (CreateCallDatas ++ one_pause) server_new = Ok s ∧ answered s = [5]%nat ∧
    objects s !! 5%nat = None ∧ size (listeners s PauseCallData) = 1%nat.
Proof.
  eexists. split; [vm_compute; reflexivity|]. split; [reflexivity|]. split; [reflexivity|].
  apply (every_method_attended one_pause); [|vm_compute; reflexivity].
  repeat apply Forall_cons_2; try apply Forall_nil_2; done.
Defined.

(** ** Runs of the reference server *)
#[global] Instance ref_rpc : RpcEnv := {|
  GetNasCacheDir := same "/var/nas/cache";
  GetTempDir := same "/tmp";
  CreateAlways p e := (true, mkRef (re_next e) (re_clock e) (re_stuck e) (<[p := EmptyString]> (re_files e)));
  WriteAtCurrentPos p s e :=
    (Z.of_nat (String.length s),
     mkRef (re_next e) (re_clock e) (re_stuck e) (alter (λ t, t +:+ s) p (re_files e)));
  Base64Decode s := Some s;
  UnescapeBinaryURLComponent s := s
|}.
#[global] Instance ref_upload : UploadLaws ref_rpc.
Proof.
  refine {| file_of p := p; contents p e := re_files e !! p |}.
  - by intros p q e ->.
  - intros p e _. apply lookup_insert_eq.
  - intros p q e Hq. by apply lookup_insert_ne.
  - intros p s e Hp _. cbn in *. by rewrite lookup_alter_eq, Hp.
  - intros p q s e Hq. by apply lookup_alter_ne.
  - intros q e. by split_and!.
Defined.

Definition rpc_world : World := demo_world false.
Lemma run_value {S A} (m : ST S A) s a : fst <$> m s = Some a → ∃ s', m s = Some (a, s').
Proof. destruct (m s) as [[a' s']|]; [|done]. intros [= ->]. by exists s'. Qed.
Lemma parsing_leaves_no_trace_witness :
  ∃ r w', ParseManager_ParseLink "http://host/a" demo_cf rpc_world = Some (r, w') ∧
    r = (0, Some (mkSourceParseInfo "file.iso" "4096" "2")) ∧ w_refs w' = w_refs rpc_world.
Proof.
  destruct (run_value (ParseManager_ParseLink "http://host/a" demo_cf) rpc_world
    (0, Some (mkSourceParseInfo "file.iso" "4096" "2"))) as [w' Hr]; [vm_compute; reflexivity|].
  exists (0, Some (mkSourceParseInfo "file.iso" "4096" "2")), w'. split; [exact Hr|]. split; [reflexivity|].
  apply (parsing_leaves_no_trace "http://host/a" demo_cf rpc_world w'). left.
  by exists (0, Some (mkSourceParseInfo "file.iso" "4096" "2")).
Defined.
Lemma upload_stores_content_witness :
  ∃ w', UploadTorrentFile "torrent" "a.torrent" rpc_world = Some ("/var/nas/cache/torrent_file/a.torrent", w') ∧
    ∃ dir data, Base64Decode "torrent" = Some data ∧ contents (FilePath_Append dir "a.torrent") (w_env w') = Some data.
Proof.
  destruct (run_value (UploadTorrentFile "torrent" "a.torrent") rpc_world "/var/nas/cache/torrent_file/a.torrent")
    as [w' Hr]; [vm_compute; reflexivity|].
  exists w'. split; [done|]. pose proof (upload_stores_content ref_rpc "torrent" "a.torrent" rpc_world) as H.
  unfold wp in H. rewrite Hr in H. destruct H as (e & -> & [[? _]|(dir & data & Hd & _ & _ & Hc & _)]); [done|].
  by exists dir, data.
Defined.

(** Two users upload a file of the same name: the second replaces the first. *)
Example uploads_share_names :
  match (UploadTorrentFile "first" "a.torrent" ;; UploadTorrentFile "second" "a.torrent") rpc_world with
  | Some (path, w') => path = "/var/nas/cache/torrent_file/a.torrent" ∧ re_files (w_env w') !! path = Some "second"
  | None => False
  end.
Proof. vm_compute. by split. Qed.

(** A task of 8 GB that downloads one byte per second: its remaining time does
    not fit the field of the listing, the conversion is undefined. *)
Definition slow_task : TaskInfo :=
  Info.upd_base (BaseInfo.SetTaskFileSize 8589934592)
    (Info.upd_progress (Progress.SetDownloadSpeed (d_of_Z 1)) (TaskInfo_new (parse_param "http://host/a" None))).
Example slow_task_unlistable : ProcessComplete [Some slow_task] = None.
Proof. vm_compute. reflexivity. Qed.
(** Parsing a torrent from an http address writes through a null pointer;
    parsing a magnet link as a link reads a parameter that is not there. *)
Example parse_torrent_http_undefined : ParseManager_ParseTorrent "http://host/a" demo_cf rpc_world = None.
Proof. vm_compute. reflexivity. Qed.
Lemma ParseTorrent_defined_iff_witness :
  parsed_by (UnescapeBinaryURLComponent "http://host/a") rpc_world = Some KCurl ∧
  ¬ ∃ r, ParseManager_ParseTorrent "http://host/a" demo_cf rpc_world = Some r.
Proof.
  split; [vm_compute; reflexivity|]. intros H.
  apply (ParseTorrent_defined_iff "http://host/a" demo_cf rpc_world) in H. vm_compute in H. exact H.
Defined.
Lemma ParseLink_defined_iff_witness : ∃ r, ParseManager_ParseLink "http://host/a" demo_cf rpc_world = Some r.
Proof.
  apply (ParseLink_defined_iff "http://host/a" demo_cf rpc_world). intros _ k Hk. vm_compute in Hk.
  injection Hk as <-. reflexivity.
Defined.

(** The first download of [alice], listed after she asked for it although the
    server ran her timer in between *)
Definition rpc_run : list FrontEvent :=
  [FCall 1 (RpcControl (RCreateLink [demo_source "t1" "http://host/a"])) demo_cf; FCall 2 RpcGet demo_cf; FWork;
   FUser 0; FUser 0; FCall 3 (RpcParseLink "http://host/b") demo_cf; FServer (EvTick "alice"); FPool 0; FWork;
   FUser 0; FUser 0; FUser 0; FCall 4 (RpcUploadTorrentFile "torrent" "a.torrent") demo_cf].
Definition rpc_start : Front := mkFront (mkDS (mkManager ∅ 0 ∅) rpc_world) [] [] [] [].
Definition rpc_ran (es : list FrontEvent) : Front := after (front_run es) rpc_start.
Lemma rpc_ran_eq es : is_Some (front_run es rpc_start) → front_run es rpc_start = Some (tt, rpc_ran es).
Proof. unfold rpc_ran, after. intros [[[] s] ->]. done. Qed.

(** [bob]'s request is received after [alice]'s and takes effect before it. *)
Definition bob_cf : ContextField := mkContextField "token" "bob" "op-2".
Definition overtaking : list FrontEvent :=
  [FCall 1 (RpcControl (RCreateLink [demo_source "t1" "http://host/a"])) demo_cf;
   FCall 2 (RpcControl (RCreateLink [demo_source "t2" "http://host/b"])) bob_cf; FWork; FWork; FUser 1; FUser 1; FUser 1].
Example users_overtake :
  let has_task u id s := match managers (fr_ds s) !! u with Some m => bool_decide (is_Some (m_task_list m !! id)) | None => false end in
  has_task "bob" "t2" (rpc_ran overtaking) = true ∧ has_task "alice" "t1" (rpc_ran overtaking) = false ∧
  has_task "alice" "t1" (rpc_ran (overtaking ++ [FUser 0; FUser 0; FUser 0])) = true.
Proof. vm_compute. split_and!; reflexivity. Qed.

Lemma rpc_calls_conserved_witness :
  (fr_replies (rpc_ran rpc_run)).*1 = [1; 3; 2]%nat ∧ calls_of (rpc_ran rpc_run) ≡ₚ [1; 2; 3; 4]%nat.
Proof.
  split; [vm_compute; reflexivity|]. apply (rpc_calls_conserved rpc_run (mkDS (mkManager ∅ 0 ∅) rpc_world)).
  apply rpc_ran_eq. vm_compute. by eexists.
Defined.
Definition ordinary_run : list FrontEvent := filter (λ e, ordinary e = true) rpc_run.
Lemma requests_take_effect_in_order_witness :
  ∃ os, omap (op_served "alice") os = omap (by_user "alice") (jobs_of ordinary_run) ∧
    run_ops os (mkDS (mkManager ∅ 0 ∅) rpc_world) = Some (listings (rpc_ran ordinary_run), fr_ds (rpc_ran ordinary_run)) ∧
    length (listings (rpc_ran ordinary_run)) = 1%nat.
Proof.
  destruct (requests_take_effect_in_order ordinary_run (mkDS (mkManager ∅ 0 ∅) rpc_world) (rpc_ran ordinary_run))
    as (os & H1 & _ & _ & H3).
  - apply Forall_forall. intros e He. by apply list_elem_of_filter in He as [? _].
  - apply rpc_ran_eq. vm_compute. by eexists.
  - exists os. split; [|split; [done|vm_compute; reflexivity]]. rewrite <-(H1 "alice").
    rewrite <-(app_nil_r (omap (op_served "alice") os)) at 1. by f_equal.
Defined.
(** The thread of [alice] runs her first request. *)
Definition rpc_begun : list FrontEvent :=
  [FCall 1 (RpcControl (RCreateLink [demo_source "t1" "http://host/a"])) demo_cf; FWork].
Lemma front_safe_witness :
  rtc front_moves rpc_start (rpc_ran rpc_begun) ∧ length (fr_turns (rpc_ran rpc_begun)) = 3%nat ∧
  ∃ s', front_step (FUser 0) (rpc_ran rpc_begun) = Some (tt, s') ∧ dm_ok (fr_ds s').
Proof.
  assert (rtc front_moves rpc_start (rpc_ran rpc_begun)) as Hr.
  { apply (rtc_l _ _ (rpc_ran (take 1 rpc_begun))).
    - exists (FCall 1 (RpcControl (RCreateLink [demo_source "t1" "http://host/a"])) demo_cf). split; [|vm_compute; reflexivity].
      apply Forall_singleton. split; [apply new_param_plain; vm_compute; reflexivity|vm_compute; discriminate].
    - apply rtc_once. exists FWork. split; [exact I|]. vm_compute. reflexivity. }
  split; [exact Hr|]. split; [vm_compute; reflexivity|].
  destruct (front_safe (mkDS (mkManager ∅ 0 ∅) rpc_world) (rpc_ran rpc_begun)) as [_ H].
  - by apply initial_ok.
  - exact Hr.
  - apply H. intros u call cf q l d Hq. vm_compute in Hq. discriminate.
Defined.
