(* ===== verification/NetCurl.v ===== *)
(** * The http engine, [third_party/netcurl]

    The library the server loads for http and ftp downloads:
    [network_task.cc], [http_download_task.cc] (a transfer by libcurl on a thread
    of its own, into a temporary file that it can resume) and
    [curl_download_task_impl.cc] (the object behind [DownloadTaskInterface]).

    libcurl and the C library are events: what a transfer delivers and how it
    ends, how much [fwrite] accepts and how much of its buffer it writes out.
    A call that joins the thread takes the events that happen until it quits.
    Only the engine touches the temporary file. *)

From S2P Require Import Prelude CppBase DownloadTypes.

Abbreviation bytes := (list Byte.byte).

(** ** [libcurl]: the result codes the code names *)
Definition CURLE_OK : Z := 0.
Definition CURLE_FAILED_INIT : Z := 2.
Definition CURLE_PARTIAL_FILE : Z := 18.
Definition CURLE_WRITE_ERROR : Z := 23.
Definition CURLE_ABORTED_BY_CALLBACK : Z := 42.
Definition HttpCode_kOk : Z := 200.
Definition HttpCode_kBadRequest : Z := 400.

Module Status.
Inductive Status := kNormal | kRunning | kSuccess | kFail.
End Status.
Abbreviation Status := Status.Status.

(** ** [struct Progress], [struct Result] *)
Record Progress := mkProgressN {
  total_data_length_byte : Z; recv_data_length_byte : Z; time : Z; percent : double; current_speed_byte : Z
}.
Definition Progress_init : Progress := mkProgressN 0 0 0 d_zero 0.
Record Result := mkResult {
  http_code : Z; curl_code : Z; request_time : Z; avg_current_speed_byte : Z
}.

(** ** [class NetworkTask] and [class HttpDownloadTask]

    [thread_]: not started, performing with the retries left and the offset
    libcurl was told to resume from, or at its end.  [file_]: the bytes that
    [fwrite] accepted and did not write out yet. *)
Inductive thread := NoThread | Performing (retry_count resume_from : Z) | Quit.
Record HttpDownloadTask := mkHttp {
  status_ : Status;
  cancel_ : bool;
  curl_code_ : Z;
  listener_ : bool;
  last_recv_time_ : Z;
  last_downloaded_bytes_ : Z;
  thread_ : thread;
  first_has_total_value_ : bool;
  file_init_size_ : Z;
  file_total_size_ : Z;
  download_file_path_ : string;
  file_ : option bytes;
  max_download_speed_ : Z
}.
Definition HttpDownloadTask_new : HttpDownloadTask :=
  mkHttp Status.kNormal false CURLE_FAILED_INIT false 0 0 NoThread true 0 0 EmptyString None 0.
Definition setparam_retry_count : Z := 3.

Definition set_status v t := mkHttp v (cancel_ t) (curl_code_ t) (listener_ t) (last_recv_time_ t) (last_downloaded_bytes_ t)
  (thread_ t) (first_has_total_value_ t) (file_init_size_ t) (file_total_size_ t) (download_file_path_ t) (file_ t) (max_download_speed_ t).
Definition set_cancel v t := mkHttp (status_ t) v (curl_code_ t) (listener_ t) (last_recv_time_ t) (last_downloaded_bytes_ t)
  (thread_ t) (first_has_total_value_ t) (file_init_size_ t) (file_total_size_ t) (download_file_path_ t) (file_ t) (max_download_speed_ t).
Definition set_curl_code v t := mkHttp (status_ t) (cancel_ t) v (listener_ t) (last_recv_time_ t) (last_downloaded_bytes_ t)
  (thread_ t) (first_has_total_value_ t) (file_init_size_ t) (file_total_size_ t) (download_file_path_ t) (file_ t) (max_download_speed_ t).
Definition SetListener v t := mkHttp (status_ t) (cancel_ t) (curl_code_ t) v (last_recv_time_ t) (last_downloaded_bytes_ t)
  (thread_ t) (first_has_total_value_ t) (file_init_size_ t) (file_total_size_ t) (download_file_path_ t) (file_ t) (max_download_speed_ t).
Definition set_recv now n t := mkHttp (status_ t) (cancel_ t) (curl_code_ t) (listener_ t) now n
  (thread_ t) (first_has_total_value_ t) (file_init_size_ t) (file_total_size_ t) (download_file_path_ t) (file_ t) (max_download_speed_ t).
Definition set_thread v t := mkHttp (status_ t) (cancel_ t) (curl_code_ t) (listener_ t) (last_recv_time_ t) (last_downloaded_bytes_ t)
  v (first_has_total_value_ t) (file_init_size_ t) (file_total_size_ t) (download_file_path_ t) (file_ t) (max_download_speed_ t).
Definition set_total first v t := mkHttp (status_ t) (cancel_ t) (curl_code_ t) (listener_ t) (last_recv_time_ t) (last_downloaded_bytes_ t)
  (thread_ t) first (file_init_size_ t) v (download_file_path_ t) (file_ t) (max_download_speed_ t).
Definition set_init_size v t := mkHttp (status_ t) (cancel_ t) (curl_code_ t) (listener_ t) (last_recv_time_ t) (last_downloaded_bytes_ t)
  (thread_ t) (first_has_total_value_ t) v (file_total_size_ t) (download_file_path_ t) (file_ t) (max_download_speed_ t).
Definition SetDownloadPath (file_path : string) t := if str_empty file_path then t else
  mkHttp (status_ t) (cancel_ t) (curl_code_ t) (listener_ t) (last_recv_time_ t) (last_downloaded_bytes_ t)
  (thread_ t) (first_has_total_value_ t) (file_init_size_ t) (file_total_size_ t) file_path (file_ t) (max_download_speed_ t).
Definition set_file v t := mkHttp (status_ t) (cancel_ t) (curl_code_ t) (listener_ t) (last_recv_time_ t) (last_downloaded_bytes_ t)
  (thread_ t) (first_has_total_value_ t) (file_init_size_ t) (file_total_size_ t) (download_file_path_ t) v (max_download_speed_ t).
Definition SetMaxDownloadSpeed v t := mkHttp (status_ t) (cancel_ t) (curl_code_ t) (listener_ t) (last_recv_time_ t) (last_downloaded_bytes_ t)
  (thread_ t) (first_has_total_value_ t) (file_init_size_ t) (file_total_size_ t) (download_file_path_ t) (file_ t) v.

(** ** [std::filesystem] paths *)
(** The characters after the last occurrence of [c], if there is one *)
Fixpoint after_last (c : ascii) (l acc : list ascii) (found : bool) : option (list ascii) :=
  match l with
  | [] => if found then Some (reverse acc) else None
  | x :: l => if bool_decide (x = c) then after_last c l [] true else after_last c l (x :: acc) found
  end.
Definition filename (p : string) : string :=
  match after_last "/"%char (str_chars p) [] false with Some l => str_of l | None => p end.
Definition parent_prefix (p : string) : string :=
  substr 0 (String.length p - String.length (filename p)) p.
Definition extension (p : string) : string :=
  let name := filename p in
  if bool_decide (name = "." ∨ name = "..") then EmptyString
  else match after_last "."%char (str_chars name) [] false with
       | Some l => if (S (length l) <? String.length name)%nat then "." +:+ str_of l else EmptyString
       | None => EmptyString
       end.
Definition stem (p : string) : string :=
  let name := filename p in substr 0 (String.length name - String.length (extension p)) name.
Definition replace_filename (p r : string) : string := parent_prefix p +:+ r.
Example path_parts : (filename "/d/a.tar.gz", stem "/d/a.tar.gz", extension "/d/a.tar.gz", replace_filename "/d/a.gz" "b") =
  ("a.tar.gz", "a.tar", ".gz", "/d/b").
Proof. reflexivity. Qed.
Example path_parts_hidden : (stem ".rc", extension ".rc", extension "a.", stem "README") = (".rc", EmptyString, ".", "README").
Proof. reflexivity. Qed.

(** The path of a url, as the regular expression of [GetFileNameFromUrl] finds
    it: after an optional scheme and an optional authority, up to ['?'] or ['#'];
    the whole does not match when the fragment has a line terminator. *)
Definition in_chars (c : ascii) (l : list ascii) : bool := bool_decide (c ∈ l).
Fixpoint span (stop : list ascii) (l : list ascii) : list ascii * list ascii :=
  match l with
  | [] => ([], [])
  | c :: l' => if in_chars c stop then ([], l) else let '(a, b) := span stop l' in (c :: a, b)
  end.
Definition skip_scheme (l : list ascii) : list ascii :=
  match span [":"; "/"; "?"; "#"]%char l with
  | (_ :: _, c :: rest) => if bool_decide (c = ":"%char) then rest else l
  | _ => l
  end.
Definition skip_authority (l : list ascii) : list ascii :=
  match l with
  | a :: b :: rest =>
      if bool_decide (a = "/"%char ∧ b = "/"%char) then (span ["/"; "?"; "#"]%char rest).2 else l
  | _ => l
  end.
Definition fragment_ok (l : list ascii) : bool :=
  match (span ["#"%char] l).2 with
  | _ :: frag => forallb (λ c, negb (in_chars c ["010"; "013"]%char)) frag
  | [] => true
  end.
Definition url_path (url : string) : option string :=
  let '(path, rest) := span ["?"; "#"]%char (skip_authority (skip_scheme (str_chars url))) in
  if fragment_ok rest then Some (str_of path) else None.
(** [CurlDownloadTaskImpl::GetFileNameFromUrl] *)
Definition GetFileNameFromUrl (url : string) : string :=
  match url_path url with
  | None => EmptyString
  | Some path =>
      match after_last "/"%char (str_chars path) [] false with
      | None => if str_empty path then "index.html" else path
      | Some l => if str_empty (str_of l) then "index.html" else str_of l
      end
  end.
Example file_name_of_url :
  (GetFileNameFromUrl "http://host:80/d/a.zip?x=/y#z", GetFileNameFromUrl "http://host", GetFileNameFromUrl "http://host/d/") =
  ("a.zip", "index.html", "index.html").
Proof. reflexivity. Qed.

(** ** [class CurlDownloadTaskImpl], and the files *)
Record CurlDownloadTaskImpl := mkImpl {
  files : gmap string bytes;
  param_ : DownloadParam;
  http_task_ : option HttpDownloadTask;
  file_name_ : string;
  download_progress_info_ : DownloadProgressInfo;
  is_started_ : bool;
  tmp_file_path_ : string;
  final_file_path_ : string;
  impl_max_download_speed_ : Z;
  last_pause_time_ : Z;
  is_http_task_resume_ : bool;
  last_progress_ : double;
  count_ : Z
}.
Definition CurlDownloadTaskImpl_new (fs : gmap string bytes) : CurlDownloadTaskImpl :=
  mkImpl fs (mkDownloadParam EmptyString EmptyString EmptyString EmptyString) None EmptyString
    (DownloadProgressInfo_init d_zero) false EmptyString EmptyString 0 0 false d_zero 0.

Definition set_files v e := mkImpl v (param_ e) (http_task_ e) (file_name_ e) (download_progress_info_ e) (is_started_ e)
  (tmp_file_path_ e) (final_file_path_ e) (impl_max_download_speed_ e) (last_pause_time_ e) (is_http_task_resume_ e) (last_progress_ e) (count_ e).
Definition set_http v e := mkImpl (files e) (param_ e) v (file_name_ e) (download_progress_info_ e) (is_started_ e)
  (tmp_file_path_ e) (final_file_path_ e) (impl_max_download_speed_ e) (last_pause_time_ e) (is_http_task_resume_ e) (last_progress_ e) (count_ e).
Definition set_name v e := mkImpl (files e) (param_ e) (http_task_ e) v (download_progress_info_ e) (is_started_ e)
  (tmp_file_path_ e) (final_file_path_ e) (impl_max_download_speed_ e) (last_pause_time_ e) (is_http_task_resume_ e) (last_progress_ e) (count_ e).
Definition upd_progress_info f e := mkImpl (files e) (param_ e) (http_task_ e) (file_name_ e) (f (download_progress_info_ e)) (is_started_ e)
  (tmp_file_path_ e) (final_file_path_ e) (impl_max_download_speed_ e) (last_pause_time_ e) (is_http_task_resume_ e) (last_progress_ e) (count_ e).
Definition set_started v e := mkImpl (files e) (param_ e) (http_task_ e) (file_name_ e) (download_progress_info_ e) v
  (tmp_file_path_ e) (final_file_path_ e) (impl_max_download_speed_ e) (last_pause_time_ e) (is_http_task_resume_ e) (last_progress_ e) (count_ e).
Definition set_tmp v e := mkImpl (files e) (param_ e) (http_task_ e) (file_name_ e) (download_progress_info_ e) (is_started_ e)
  v (final_file_path_ e) (impl_max_download_speed_ e) (last_pause_time_ e) (is_http_task_resume_ e) (last_progress_ e) (count_ e).
Definition set_final v e := mkImpl (files e) (param_ e) (http_task_ e) (file_name_ e) (download_progress_info_ e) (is_started_ e)
  (tmp_file_path_ e) v (impl_max_download_speed_ e) (last_pause_time_ e) (is_http_task_resume_ e) (last_progress_ e) (count_ e).
Definition set_max_speed v e := mkImpl (files e) (param_ e) (http_task_ e) (file_name_ e) (download_progress_info_ e) (is_started_ e)
  (tmp_file_path_ e) (final_file_path_ e) v (last_pause_time_ e) (is_http_task_resume_ e) (last_progress_ e) (count_ e).
Definition set_pause_time v e := mkImpl (files e) (param_ e) (http_task_ e) (file_name_ e) (download_progress_info_ e) (is_started_ e)
  (tmp_file_path_ e) (final_file_path_ e) (impl_max_download_speed_ e) v (is_http_task_resume_ e) (last_progress_ e) (count_ e).
Definition set_resumed v e := mkImpl (files e) (param_ e) (http_task_ e) (file_name_ e) (download_progress_info_ e) (is_started_ e)
  (tmp_file_path_ e) (final_file_path_ e) (impl_max_download_speed_ e) (last_pause_time_ e) v (last_progress_ e) (count_ e).
Definition set_count p n e := mkImpl (files e) (param_ e) (http_task_ e) (file_name_ e) (download_progress_info_ e) (is_started_ e)
  (tmp_file_path_ e) (final_file_path_ e) (impl_max_download_speed_ e) (last_pause_time_ e) (is_http_task_resume_ e) p n.
Definition set_param v e := mkImpl (files e) v (http_task_ e) (file_name_ e) (download_progress_info_ e) (is_started_ e)
  (tmp_file_path_ e) (final_file_path_ e) (impl_max_download_speed_ e) (last_pause_time_ e) (is_http_task_resume_ e) (last_progress_ e) (count_ e).

Definition set_err_code v i := mkDownloadProgressInfo (dpi_file_name i) (dpi_total_progress i) (dpi_download_speed i) (dpi_upload_speed i) v (dpi_is_seed i).
Definition set_total_progress v i := mkDownloadProgressInfo (dpi_file_name i) v (dpi_download_speed i) (dpi_upload_speed i) (dpi_err_code i) (dpi_is_seed i).
Definition set_download_speed v i := mkDownloadProgressInfo (dpi_file_name i) (dpi_total_progress i) v (dpi_upload_speed i) (dpi_err_code i) (dpi_is_seed i).
Definition set_dpi_file_name v i := mkDownloadProgressInfo v (dpi_total_progress i) (dpi_download_speed i) (dpi_upload_speed i) (dpi_err_code i) (dpi_is_seed i).

(** ** The temporary file *)
Definition append_file (p : string) (data : bytes) (fs : gmap string bytes) : gmap string bytes :=
  <[p := default [] (fs !! p) ++ data]> fs.
(** [n] bytes of the buffer are written out. *)
Definition write_out (n : nat) (t : HttpDownloadTask) (fs : gmap string bytes) : HttpDownloadTask * gmap string bytes :=
  match file_ t with
  | Some buf => (set_file (Some (drop n buf)) t, append_file (download_file_path_ t) (take n buf) fs)
  | None => (t, fs)
  end.
Definition flush (t : HttpDownloadTask) (fs : gmap string bytes) : HttpDownloadTask * gmap string bytes :=
  write_out (length (default [] (file_ t))) t fs.

(** [HttpDownloadTask::CloseFile] *)
Definition CloseFile (t : HttpDownloadTask) (fs : gmap string bytes) : HttpDownloadTask * gmap string bytes :=
  let '(t, fs) := flush t fs in (set_file None t, fs).
(** [HttpDownloadTask::CreateTempFile]; [opened]: whether [fopen] in append mode
    succeeds (the directory may be missing). *)
Definition CreateTempFile (opened : bool) (t : HttpDownloadTask) (fs : gmap string bytes)
    : Z * HttpDownloadTask * gmap string bytes :=
  match file_ t with
  | Some _ => (DownloadErrorCode.kNormal, t, fs)
  | None =>
      if opened then (DownloadErrorCode.kNormal, set_file (Some []) t, append_file (download_file_path_ t) [] fs)
      else (DownloadErrorCode.kCreateFileFailed, t, fs)
  end.
(** [HttpDownloadTask::DeleteLocalTempFile]; [removed]: whether removing works *)
Definition DeleteLocalTempFile (removed : bool) (t : HttpDownloadTask) (fs : gmap string bytes) : bool * gmap string bytes :=
  match fs !! download_file_path_ t with
  | Some _ => if removed then (true, delete (download_file_path_ t) fs) else (false, fs)
  | None => (true, fs)
  end.
(** [HttpDownloadTask::SetFileSize]: the offset to resume from; the size is read
    before the buffer is written out. *)
Definition SetFileSize (t : HttpDownloadTask) (fs : gmap string bytes) : Z * HttpDownloadTask * gmap string bytes :=
  let file_size := match fs !! download_file_path_ t with Some c => Z.of_nat (length c) | None => 2 ^ 64 - 1 end in
  let '(t, fs) := flush (set_init_size file_size t) fs in
  (to_int64 file_size, t, fs).
(** [HttpDownloadTask::WriteFileData], through [NetworkTask::WriteFuncCallback]:
    [accepted] bytes go to the buffer, of which [flushed] are written out; the
    result is what libcurl is told. *)
Definition WriteFuncCallback (data : bytes) (accepted flushed : nat) (t : HttpDownloadTask) (fs : gmap string bytes)
    : nat * HttpDownloadTask * gmap string bytes :=
  match data, file_ t with
  | [], _ => (0%nat, t, fs)
  | _, None => (0%nat, t, fs)
  | _, Some buf =>
      let accepted := Nat.min accepted (length data) in
      let '(t, fs) := write_out flushed (set_file (Some (buf ++ take accepted data)) t) fs in
      (accepted, t, fs)
  end.

(** One round of the loop of [HttpDownloadTask::Perform], up to the transfer *)
Definition attempt (retry_count now : Z) (t : HttpDownloadTask) (fs : gmap string bytes) : HttpDownloadTask * gmap string bytes :=
  let '(resume_from, t, fs) := SetFileSize (set_recv now 0 t) fs in
  (set_thread (Performing retry_count resume_from) t, fs).
(** [NetworkTask::Start]: a thread that was not joined yet must not be replaced. *)
Definition Start_http (now : Z) (t : HttpDownloadTask) (fs : gmap string bytes) : option (HttpDownloadTask * gmap string bytes) :=
  match thread_ t with
  | NoThread => Some (attempt setparam_retry_count now t fs)
  | _ => None
  end.

(** ** [NetworkTask::UpdateProgress]: the report, if there is one *)
Definition UpdateProgress (dltotal dlnow current_time now : Z) (t : HttpDownloadTask)
    : option (option Progress * HttpDownloadTask) :=
  let '(t, progress) :=
    (if negb (dltotal =? 0) then
      let t := if first_has_total_value_ t then set_total false (to_uint64 (dltotal + file_init_size_ t)) t else t in
      let t := if file_total_size_ t =? 0 then set_total (first_has_total_value_ t) (to_uint64 dltotal) t else t in
      (t, mkProgressN (to_int64 (file_total_size_ t)) dlnow 0
            (d_div (d_mul (d_of_Z (to_uint64 (dlnow + file_init_size_ t))) (d_of_Z 100)) (d_of_Z (file_total_size_ t))) 0)
    else (t, Progress_init)) in
  let progress := mkProgressN (total_data_length_byte progress) (recv_data_length_byte progress)
                    (Z.quot current_time 1000000) (percent progress) 0 in
  let time_elapsed := now - last_recv_time_ t in
  if 1000 <=? time_elapsed then
    match d_to_int64 (d_div (d_of_Z (dlnow - last_downloaded_bytes_ t)) (d_div (d_of_Z time_elapsed) (d_of_Z 1000))) with
    | Some speed =>
        Some (Some (mkProgressN (total_data_length_byte progress) (recv_data_length_byte progress) (time progress)
                      (percent progress) speed), set_recv now dlnow t)
    | None => None
    end
  else if negb (dlnow =? dltotal) then Some (None, t) else Some (Some progress, t).
(** [NetworkTask::UpdateResult], given what libcurl knows *)
Definition UpdateResult (response_code total_time speed_download : Z) (t : HttpDownloadTask) : Result :=
  mkResult (if (curl_code_ t =? CURLE_OK) && (0 <? file_total_size_ t) && (response_code =? 0) then 200 else response_code)
    (curl_code_ t) (Z.quot total_time 1000000) (Z.quot speed_download 1024).

(** ** The object behind the interface *)

(** [memcpy] of a name into the array [file_name]: undefined when it is longer,
    or fills it; what was behind it stays. *)
Definition memcpy_name (old s : string) : option string :=
  if (String.length s <? kMaxPath)%nat then Some (s +:+ substr_from (String.length s) old) else None.

(** [RenameTempFile]: the loop over the names in use; the fuel is the number of
    files, and one. *)
Fixpoint free_name (fuel : nat) (u8_stem : string) (name_suffix : Z) (p : string) (fs : gmap string bytes) : option string :=
  match fs !! p with
  | None => Some p
  | Some _ =>
      match fuel with
      | O => None
      | S fuel =>
          let new_file_name := u8_stem +:+ " (" +:+ to_string_Z name_suffix +:+ ")" +:+ extension p in
          free_name fuel u8_stem (name_suffix + 1) (replace_filename p new_file_name) fs
      end
  end.
Definition RenameTempFile (renamed : bool) (e : CurlDownloadTaskImpl) : option CurlDownloadTaskImpl :=
  let file_path := dp_save_path (param_ e) +:+ "/" +:+ file_name_ e in
  match free_name (S (size (files e))) (stem (file_name_ e)) 1 file_path (files e) with
  | None => None
  | Some final =>
      let e := set_final final e in
      match files e !! tmp_file_path_ e with
      | Some content =>
          if renamed then
            match memcpy_name (file_name_ e) (filename final) with
            | Some name =>
                Some (upd_progress_info (set_total_progress d_hundred)
                  (set_name name (set_files (<[final := content]> (delete (tmp_file_path_ e) (files e))) e)))
            | None => None
            end
          else Some (upd_progress_info (set_err_code DownloadErrorCode.kRenameTempFileFailed) e)
      | None => Some (upd_progress_info (set_err_code DownloadErrorCode.kRenameTempFileFailed) e)
      end
  end.

(** [TaskUpdate] at the end and while running *)
Definition http_error (http_code : Z) : Z :=
  let err := DownloadErrorCode.kHttpStartErrorCode + http_code in
  if (err <=? DownloadErrorCode.kHttpStartErrorCode) || (DownloadErrorCode.kHttpError504 <? err)
  then DownloadErrorCode.kPerformCurlFailed else err.
Definition TaskUpdate_result (r : Result) (renamed : bool) (e : CurlDownloadTaskImpl) : option CurlDownloadTaskImpl :=
  let e := upd_progress_info (set_err_code DownloadErrorCode.kNormal) e in
  if negb (curl_code r =? CURLE_OK) then
    Some (upd_progress_info (set_err_code (curl_code r + DownloadErrorCode.kPerformCurlStartErrorCode)) e)
  else if (http_code r <? HttpCode_kOk) || (HttpCode_kBadRequest <=? http_code r) then
    let e := upd_progress_info (set_err_code (http_error (http_code r))) e in
    Some (if d_eqb (dpi_total_progress (download_progress_info_ e)) d_hundred
          then upd_progress_info (set_total_progress d_zero) e else e)
  else RenameTempFile renamed e.
Definition TaskUpdate_progress (p : Progress) (e : CurlDownloadTaskImpl) : CurlDownloadTaskImpl :=
  let e := if d_ltb (percent p) d_hundred then upd_progress_info (set_total_progress (percent p)) e else e in
  upd_progress_info (set_download_speed (d_of_Z (current_speed_byte p))) e.

(** ** What happens on the thread

    A piece of data arrives, libcurl asks for progress, the transfer ends (with
    the code, what libcurl then knows, and whether renaming works). *)
Inductive curl_event :=
  | EWrite (data : bytes) (accepted flushed : nat)
  | EProgress (dltotal dlnow current_time now : Z)
  | EReturned (code response_code total_time speed_download now : Z) (renamed : bool).

Definition with_task (p : HttpDownloadTask * gmap string bytes) (e : CurlDownloadTaskImpl) : CurlDownloadTaskImpl :=
  set_http (Some p.1) (set_files p.2 e).
(** [NetworkTask::ProgressFuncCallback]; a cancelled transfer is told to stop. *)
Definition ProgressFuncCallback (dltotal dlnow current_time now : Z) (t : HttpDownloadTask) (e : CurlDownloadTaskImpl)
    : option (Z * CurlDownloadTaskImpl) :=
  if cancel_ t then Some (1, e)
  else if negb (listener_ t) then Some (0, e)
  else match UpdateProgress dltotal dlnow current_time now t with
       | Some (Some p, t) => Some (0, TaskUpdate_progress p (set_http (Some t) e))
       | Some (None, t) => Some (0, set_http (Some t) e)
       | None => None
       end.
(** The end of [HttpDownloadTask::Perform] *)
Definition finish (response_code total_time speed_download : Z) (renamed : bool) (t : HttpDownloadTask)
    (e : CurlDownloadTaskImpl) : option CurlDownloadTaskImpl :=
  let t := set_status (if curl_code_ t =? CURLE_OK then Status.kSuccess else Status.kFail) t in
  let '(t, fs) := CloseFile t (files e) in
  let e := with_task (set_thread Quit t, fs) e in
  if listener_ t then TaskUpdate_result (UpdateResult response_code total_time speed_download t) renamed e else Some e.
(** [HttpDownloadTask::Perform] after the transfer *)
Definition Perform (code response_code total_time speed_download now : Z) (renamed : bool) (retry_count : Z)
    (t : HttpDownloadTask) (e : CurlDownloadTaskImpl) : option CurlDownloadTaskImpl :=
  let t := set_curl_code code t in
  if (code =? CURLE_OK) || (code =? CURLE_ABORTED_BY_CALLBACK) || cancel_ t
  then finish response_code total_time speed_download renamed t e
  else if code =? CURLE_PARTIAL_FILE then Some (with_task (set_thread Quit t, files e) e)
  else if retry_count - 1 =? 0 then finish response_code total_time speed_download renamed t e
  else Some (with_task (attempt (retry_count - 1) now t (files e)) e).
Definition thread_step (ev : curl_event) (e : CurlDownloadTaskImpl) : option CurlDownloadTaskImpl :=
  match http_task_ e with
  | Some t =>
      match thread_ t with
      | Performing retry_count _ =>
          match ev with
          | EWrite data accepted flushed =>
              let '(_, t, fs) := WriteFuncCallback data accepted flushed t (files e) in Some (with_task (t, fs) e)
          | EProgress dltotal dlnow current_time now =>
              match ProgressFuncCallback dltotal dlnow current_time now t e with Some (_, e) => Some e | None => None end
          | EReturned code response_code total_time speed_download now renamed =>
              Perform code response_code total_time speed_download now renamed retry_count t e
          end
      | _ => None
      end
  | None => None
  end.
Fixpoint thread_run (evs : list curl_event) (e : CurlDownloadTaskImpl) : option CurlDownloadTaskImpl :=
  match evs with
  | [] => Some e
  | ev :: evs => match thread_step ev e with Some e => thread_run evs e | None => None end
  end.
(** [NetworkTask::WaitThreadQuit]: the events until the thread is at its end; too
    few of them are a call that does not return. *)
Fixpoint WaitThreadQuit (evs : list curl_event) (e : CurlDownloadTaskImpl) : option CurlDownloadTaskImpl :=
  match http_task_ e with
  | None => Some e
  | Some t =>
      match thread_ t with
      | NoThread => Some e
      | Quit => Some (set_http (Some (set_thread NoThread t)) e)
      | Performing _ _ =>
          match evs with
          | ev :: evs => match thread_step ev e with Some e => WaitThreadQuit evs e | None => None end
          | [] => None
          end
      end
  end.
Definition on_http (f : HttpDownloadTask → HttpDownloadTask) (e : CurlDownloadTaskImpl) : CurlDownloadTaskImpl :=
  set_http (f <$> http_task_ e) e.
(** [NetworkTask::Reset] *)
Definition Reset_http (evs : list curl_event) (e : CurlDownloadTaskImpl) : option CurlDownloadTaskImpl :=
  match WaitThreadQuit evs (on_http (set_cancel true) e) with
  | Some e => Some (on_http (λ t, set_cancel false (set_thread NoThread t)) e)
  | None => None
  end.
(** [HttpDownloadTask::Cancel] *)
Definition Cancel_http (is_delete_local_file removed : bool) (evs : list curl_event) (e : CurlDownloadTaskImpl)
    : option (bool * CurlDownloadTaskImpl) :=
  match (match http_task_ e with
         | Some t => if cancel_ t then Some e else WaitThreadQuit evs (on_http (set_cancel true) e)
         | None => None
         end) with
  | Some e =>
      match http_task_ e with
      | Some t =>
          let '(t, fs) := CloseFile t (files e) in
          if is_delete_local_file then
            let '(ret, fs) := DeleteLocalTempFile removed t fs in Some (ret, with_task (t, fs) e)
          else Some (true, with_task (t, fs) e)
      | None => None
      end
  | None => None
  end.

(** [GetTempFilePath]: the path, and the name it may have taken from the url *)
Definition GetTempFilePath (e : CurlDownloadTaskImpl) : option (string * CurlDownloadTaskImpl) :=
  let file_name := if str_empty (file_name_ e) then GetFileNameFromUrl (dp_url (param_ e)) else file_name_ e in
  match memcpy_name (file_name_ e) file_name with
  | Some name =>
      Some (dp_save_path (param_ e) +:+ "/" +:+ file_name +:+ "." +:+ dp_id (param_ e) +:+ ".nas.tmp", set_name name e)
  | None => None
  end.
(** [InitTask] *)
Definition InitTask (e : CurlDownloadTaskImpl) : CurlDownloadTaskImpl :=
  let t := SetListener true (SetMaxDownloadSpeed (impl_max_download_speed_ e) (SetDownloadPath (tmp_file_path_ e) HttpDownloadTask_new)) in
  upd_progress_info (set_err_code DownloadErrorCode.kNormal) (set_http (Some t) e).
(** [SetParam] *)
Definition SetParam (param : DownloadParam) (e : CurlDownloadTaskImpl) : option CurlDownloadTaskImpl :=
  match GetTempFilePath (set_name (dp_file_name param) (set_param param e)) with
  | Some (path, e) => Some (InitTask (set_tmp path e))
  | None => None
  end.
(** [SetMaxDownloadSpeed], in kilobytes *)
Definition Impl_SetMaxDownloadSpeed (max_download_speed : Z) (e : CurlDownloadTaskImpl) : option CurlDownloadTaskImpl :=
  let v := max_download_speed * 1024 in
  if in_int64 v then Some (on_http (SetMaxDownloadSpeed v) (set_max_speed v e)) else None.
(** [Start] *)
Definition Start (opened : bool) (now : Z) (e : CurlDownloadTaskImpl) : option (Z * CurlDownloadTaskImpl) :=
  match http_task_ e with
  | None => Some (DownloadErrorCode.kCreateCurlTaskFailed, e)
  | Some t =>
      let '(ret, t, fs) := CreateTempFile opened t (files e) in
      if ret =? DownloadErrorCode.kNormal then
        match Start_http now t fs with
        | Some p => Some (ret, set_started true (with_task p e))
        | None => None
        end
      else Some (ret, with_task (t, fs) e)
  end.
(** [NetworkTask::Pause] and [NetworkTask::Resume] call [curl_easy_pause] on the
    thread of their caller.  libcurl forbids that on a handle whose transfer
    another thread runs: [withstood] is whether the process gets over it.  What
    becomes of a transfer that was paused is in the events of its thread. *)
Definition curl_easy_pause (withstood : bool) (t : HttpDownloadTask) : option HttpDownloadTask :=
  match thread_ t with
  | Performing _ _ => if withstood then Some t else None
  | _ => Some t
  end.
(** [Pause] *)
Definition Pause (withstood : bool) (now : Z) (e : CurlDownloadTaskImpl) : option (bool * CurlDownloadTaskImpl) :=
  match http_task_ e with
  | None => Some (false, e)
  | Some t => (λ t, (true, set_pause_time now (set_http (Some t) e))) <$> curl_easy_pause withstood t
  end.
(** [ResumeBreakPoint] *)
Definition ResumeBreakPoint (opened : bool) (evs : list curl_event) (now : Z) (e : CurlDownloadTaskImpl)
    : option (bool * CurlDownloadTaskImpl) :=
  match http_task_ e with
  | None => Some (false, e)
  | Some t =>
      let '(ret, t, fs) := CreateTempFile opened t (files e) in
      let e := with_task (t, fs) e in
      if (ret =? DownloadErrorCode.kNormal) && bool_decide (is_Some (files e !! tmp_file_path_ e)) then
        match Reset_http evs e with
        | Some e =>
            match http_task_ (on_http (SetListener true) e) with
            | Some t =>
                match Start_http now t (files e) with
                | Some p => Some (true, set_started true (with_task p e))
                | None => None
                end
            | None => None
            end
        | None => None
        end
      else Some (false, e)
  end.
(** [Resume] *)
Definition Resume (withstood is_failed opened : bool) (evs : list curl_event) (now : Z) (e : CurlDownloadTaskImpl)
    : option (bool * CurlDownloadTaskImpl) :=
  if negb (is_started_ e) then ResumeBreakPoint opened evs now e
  else if is_failed then
    match ResumeBreakPoint opened evs now e with
    | Some (true, e) => Some (true, upd_progress_info (set_err_code DownloadErrorCode.kNormal) e)
    | Some (false, e) => Some (false, e)
    | None => None
    end
  else match http_task_ e with
       | None => Some (false, e)
       | Some t => (λ t, (true, set_resumed true (set_http (Some t) e))) <$> curl_easy_pause withstood t
       end.
(** [FinalFileExist], [TempFileExist], [Valid], [DeleteFinalFinishFile] *)
Definition FinalFileExist (e : CurlDownloadTaskImpl) : bool * CurlDownloadTaskImpl :=
  let e := if str_empty (final_file_path_ e)
           then set_final (dp_save_path (param_ e) +:+ "/" +:+ file_name_ e) e else e in
  (bool_decide (is_Some (files e !! final_file_path_ e)), e).
Definition TempFileExist (e : CurlDownloadTaskImpl) : option (bool * CurlDownloadTaskImpl) :=
  let found e := (bool_decide (is_Some (files e !! tmp_file_path_ e)), e) in
  if str_empty (tmp_file_path_ e) then
    match GetTempFilePath e with Some (p, e) => Some (found (set_tmp p e)) | None => None end
  else Some (found e).
Definition Valid (is_finished : bool) (e : CurlDownloadTaskImpl) : option (bool * CurlDownloadTaskImpl) :=
  if is_finished then Some (FinalFileExist e) else TempFileExist e.
Definition DeleteFinalFinishFile (removed : bool) (e : CurlDownloadTaskImpl) : bool * CurlDownloadTaskImpl :=
  let '(found, e) := FinalFileExist e in
  if found then if removed then (true, set_files (delete (final_file_path_ e) (files e)) e) else (false, e)
  else (true, e).
(** [Cancel] *)
Definition Cancel (is_delete_local_file removed_final removed_temp : bool) (evs : list curl_event) (e : CurlDownloadTaskImpl)
    : option (bool * CurlDownloadTaskImpl) :=
  match http_task_ e with
  | None => Some (false, e)
  | Some _ =>
      if is_delete_local_file then
        let '(ok, e) := DeleteFinalFinishFile removed_final e in
        if ok then Cancel_http true removed_temp evs e else Some (false, e)
      else Cancel_http false removed_temp evs e
  end.
(** [Reset]: the progress is cleared before the thread is stopped. *)
Definition Reset (evs : list curl_event) (e : CurlDownloadTaskImpl) : option CurlDownloadTaskImpl :=
  let e := upd_progress_info (λ i, set_err_code DownloadErrorCode.kNormal (set_download_speed d_zero (set_total_progress d_zero i))) e in
  match http_task_ e with Some _ => Reset_http evs e | None => Some e end.
(** [GetTaskHash] *)
Definition GetTaskHash (e : CurlDownloadTaskImpl) : string := dp_url (param_ e).
(** [TryReStart]: the old object stops its thread before it is destroyed. *)
Definition TryReStart (opened : bool) (evs : list curl_event) (now : Z) (e : CurlDownloadTaskImpl)
    : option CurlDownloadTaskImpl :=
  if negb (is_http_task_resume_ e) then Some (set_resumed false e)
  else if 120 <? Z.quot (now - last_pause_time_ e) 1000 then
    match WaitThreadQuit evs (on_http (set_cancel true) e) with
    | Some e => match Start opened now (InitTask e) with Some (_, e) => Some e | None => None end
    | None => None
    end
  else Some e.

(** [GetProgressInfo] *)
Definition kDeltaValue : double := d_div (d_of_Z 1) (d_of_Z 10000).
Definition d_near (a b : double) : bool := d_ltb (SpecFloat.SFabs (d_sub a b)) kDeltaValue.
Definition GetProgressInfo (info : DownloadProgressInfo) (e : CurlDownloadTaskImpl) : DownloadProgressInfo * CurlDownloadTaskImpl :=
  let e := upd_progress_info (set_dpi_file_name (file_name_ e)) e in
  let e := if d_near (dpi_total_progress (download_progress_info_ e)) d_zero && negb (d_eqb (dpi_total_progress info) d_zero)
           then upd_progress_info (set_total_progress (dpi_total_progress info)) e else e in
  let e := if negb (d_near (last_progress_ e) (dpi_total_progress (download_progress_info_ e)))
           then set_count (dpi_total_progress (download_progress_info_ e)) 0 e
           else if 5 <? count_ e then upd_progress_info (set_download_speed d_zero) e else e in
  let e := set_count (last_progress_ e) (count_ e + 1) e in
  (download_progress_info_ e, e).
(** [ParseLink], when the result is not null: what [ParseTask::Parse] found is an
    argument. *)
Definition ParseLink (parsed : Z) (file_size : Z) (e : CurlDownloadTaskImpl) : option (Z * FileBaseInfo * CurlDownloadTaskImpl) :=
  let file_name := if str_empty (file_name_ e) then GetFileNameFromUrl (dp_url (param_ e)) else file_name_ e in
  match memcpy_name (file_name_ e) file_name with
  | Some name => Some (parsed, mkFileBaseInfo name file_size, set_name name e)
  | None => None
  end.
(** [ParseTask::Parse]: each try is what libcurl returned, the length and the
    response code; the size written and the error *)
Fixpoint ParseTask_Parse (retry : nat) (size : Z) (tries : list (Z * Z * Z)) : option (Z * Z) :=
  match tries with
  | [] => None
  | (res, total_size, response_code) :: tries =>
      if res =? CURLE_OK then
        let total_size := if total_size <? 0 then 0 else total_size in
        if (0 <? total_size) && (response_code =? 0) then Some (total_size, DownloadErrorCode.kNormal)
        else if (HttpCode_kOk <=? response_code) && (response_code <? HttpCode_kBadRequest)
        then Some (total_size, DownloadErrorCode.kNormal)
        else match retry with
             | S (S n) => ParseTask_Parse (S n) total_size tries
             | _ => Some (total_size, http_error response_code)
             end
      else Some (size, res + DownloadErrorCode.kPerformCurlStartErrorCode)
  end.
