(* ===== verification/NetCurlSpec.v ===== *)
(** * The http engine: what a transfer leaves in the files

    Lemmas on the steps of the thread of [NetCurl]: the bytes already in the
    temporary file stay, data is appended behind the buffer, a retry asks for what
    is behind the file as it is on the disk; and the loop that looks for a name
    that is not in use.  [delivered] says what a server does that answers every
    request with the content it was asked for. *)

From S2P Require Import Prelude CppBase BaseRef DownloadTypes NetCurl.

#[export] Instance byte_eq_dec : EqDecision Byte.byte := Byte.byte_eq_dec.

(** ** A server that delivers [content] *)
Definition resume_offset (e : CurlDownloadTaskImpl) : option nat :=
  match http_task_ e with
  | Some t => match thread_ t with Performing _ off => Some (Z.to_nat off) | _ => None end
  | None => None
  end.
(** Nothing waits in the buffer of the open file. *)
Definition settled (e : CurlDownloadTaskImpl) : bool :=
  match http_task_ e with Some t => match file_ t with Some [] => true | _ => false end | None => false end.
(** [k] bytes of [content] were delivered before the events, and how many after
    them; a transfer that ends is one that is tried again, with nothing in the
    buffer. *)
Fixpoint delivered (content : bytes) (k : nat) (evs : list curl_event) (e : CurlDownloadTaskImpl) : option nat :=
  match evs with
  | [] => Some k
  | ev :: evs =>
      match thread_step ev e with
      | None => None
      | Some e' =>
          match ev with
          | EWrite data accepted _ =>
              if bool_decide (accepted = length data ∧ data = take (length data) (drop k content))
              then delivered content (k + length data) evs e' else None
          | EProgress _ _ _ _ => delivered content k evs e'
          | EReturned _ _ _ _ _ _ =>
              match resume_offset e' with
              | Some off => if settled e then delivered content off evs e' else None
              | None => None
              end
          end
      end
  end.

(** ** The state of a transfer

    The thread performs with [rc] tries left, resuming from [off]; the temporary
    file holds [disk] and [buf] waits behind it. *)
Definition transfer (e : CurlDownloadTaskImpl) (t : HttpDownloadTask) (rc off : Z) (disk buf : bytes) : Prop :=
  http_task_ e = Some t ∧ thread_ t = Performing rc off ∧ file_ t = Some buf ∧
  download_file_path_ t = tmp_file_path_ e ∧ files e !! tmp_file_path_ e = Some disk ∧
  cancel_ t = false ∧ listener_ t = true.

Lemma append_file_lookup p data fs c : fs !! p = Some c → append_file p data fs !! p = Some (c ++ data).
Proof. intros H. unfold append_file. by rewrite H, lookup_insert_eq. Qed.
Lemma append_file_insert p data fs c : fs !! p = Some c → append_file p data fs = <[p := c ++ data]> fs.
Proof. intros H. unfold append_file. by rewrite H. Qed.
Lemma append_file_ne p q data fs : p ≠ q → append_file p data fs !! q = fs !! q.
Proof. intros H. unfold append_file. by rewrite lookup_insert_ne. Qed.

Lemma write_out_some n t fs buf :
  file_ t = Some buf →
  write_out n t fs = (set_file (Some (drop n buf)) t, append_file (download_file_path_ t) (take n buf) fs).
Proof. intros H. unfold write_out. by rewrite H. Qed.
Lemma flush_some t fs buf :
  file_ t = Some buf → flush t fs = (set_file (Some []) t, append_file (download_file_path_ t) buf fs).
Proof.
  intros H. unfold flush. rewrite (write_out_some _ _ _ buf) by done. rewrite H. simpl.
  by rewrite drop_all, firstn_all.
Qed.
Lemma CloseFile_some t fs buf :
  file_ t = Some buf → CloseFile t fs = (set_file None t, append_file (download_file_path_ t) buf fs).
Proof. intros H. unfold CloseFile. by rewrite (flush_some _ _ buf). Qed.

(** The two halves of a buffer after the file *)
Lemma write_out_whole n (disk buf : bytes) : (disk ++ take n buf) ++ drop n buf = disk ++ buf.
Proof. by rewrite <-(assoc_L (++)), take_drop. Qed.

(** ** One step of a transfer *)
Lemma step_write data acc fl e t rc off disk buf :
  transfer e t rc off disk buf → acc = length data →
  ∃ e' t' disk' buf', thread_step (EWrite data acc fl) e = Some e' ∧ transfer e' t' rc off disk' buf' ∧
    disk' ++ buf' = (disk ++ buf) ++ data ∧ files e' = <[tmp_file_path_ e := disk']> (files e) ∧
    tmp_file_path_ e' = tmp_file_path_ e.
Proof.
  intros (Ht & Hth & Hf & Hp & Hd & Hc & Hl) ->. unfold thread_step. rewrite Ht, Hth.
  destruct data as [|b data].
  - exists (with_task (t, files e) e), t, disk, buf. simpl. rewrite app_nil_r, insert_id by done.
    repeat split; auto.
  - unfold WriteFuncCallback. rewrite Hf.
    rewrite Nat.min_id, firstn_all.
    rewrite (write_out_some _ _ _ (buf ++ b :: data)) by done. simpl.
    eexists _, _, (disk ++ take fl (buf ++ b :: data)), (drop fl (buf ++ b :: data)).
    rewrite Hp. rewrite (append_file_insert _ _ _ disk) by done.
    split; [done|]. split.
    { unfold transfer. simpl. split_and!; try done. apply lookup_insert_eq. }
    split; [|done]. by rewrite write_out_whole, (assoc_L (++)).
Qed.

#[local] Arguments TaskUpdate_progress : simpl never.
Lemma UpdateProgress_keeps dltotal dlnow ct now t o t' :
  UpdateProgress dltotal dlnow ct now t = Some (o, t') →
  thread_ t' = thread_ t ∧ file_ t' = file_ t ∧ download_file_path_ t' = download_file_path_ t ∧
  cancel_ t' = cancel_ t ∧ listener_ t' = listener_ t ∧ curl_code_ t' = curl_code_ t.
Proof.
  unfold UpdateProgress. intros H.
  repeat (case_match; simplify_eq/=; try done); repeat split; try done.
Qed.
Lemma TaskUpdate_progress_keeps p e :
  files (TaskUpdate_progress p e) = files e ∧ http_task_ (TaskUpdate_progress p e) = http_task_ e ∧
  tmp_file_path_ (TaskUpdate_progress p e) = tmp_file_path_ e ∧
  param_ (TaskUpdate_progress p e) = param_ e ∧ file_name_ (TaskUpdate_progress p e) = file_name_ e.
Proof. unfold TaskUpdate_progress. by case_match. Qed.
(** Whatever the state, a report changes neither a file nor the thread. *)
Lemma ProgressFuncCallback_keeps dltotal dlnow ct now t e r e' :
  http_task_ e = Some t → ProgressFuncCallback dltotal dlnow ct now t e = Some (r, e') →
  ∃ t', http_task_ e' = Some t' ∧ files e' = files e ∧ tmp_file_path_ e' = tmp_file_path_ e ∧
    thread_ t' = thread_ t ∧ file_ t' = file_ t ∧ download_file_path_ t' = download_file_path_ t ∧
    cancel_ t' = cancel_ t ∧ listener_ t' = listener_ t.
Proof.
  intros Ht. unfold ProgressFuncCallback. intros H.
  destruct (cancel_ t) eqn:Hc; simplify_eq/=. { by exists t. }
  destruct (listener_ t) eqn:Hl; simplify_eq/=; [|by exists t].
  destruct (UpdateProgress dltotal dlnow ct now t) as [[[p|] t']|] eqn:E; simplify_eq/=;
    apply UpdateProgress_keeps in E as (?&?&?&?&?&?).
  - destruct (TaskUpdate_progress_keeps p (set_http (Some t') e)) as (Ef & Eh & Et & _).
    exists t'. split_and!; try congruence; by rewrite ?Eh, ?Ef, ?Et.
  - exists t'. split_and!; simpl; congruence.
Qed.
Lemma step_progress dltotal dlnow ct now e t rc off disk buf e' :
  transfer e t rc off disk buf → thread_step (EProgress dltotal dlnow ct now) e = Some e' →
  ∃ t', transfer e' t' rc off disk buf ∧ files e' = files e ∧ tmp_file_path_ e' = tmp_file_path_ e.
Proof.
  intros (Ht & Hth & Hf & Hp & Hd & Hc & Hl). unfold thread_step. rewrite Ht, Hth.
  intros H. destruct (ProgressFuncCallback _ _ _ _ _ _) as [[r e1]|] eqn:E; simplify_eq/=.
  destruct (ProgressFuncCallback_keeps _ _ _ _ _ _ _ _ Ht E) as (t' & ? & Hfs & Htmp & ? & ? & ? & ? & ?).
  exists t'. split; [|done]. unfold transfer. rewrite Hfs, Htmp. split_and!; congruence.
Qed.

(** A transfer that fails and is tried again asks for what is behind the file on
    the disk; the buffer goes to the file all the same. *)
Lemma attempt_buffer rc now t fs disk buf :
  file_ t = Some buf → fs !! download_file_path_ t = Some disk →
  ∃ t', attempt rc now t fs = (t', <[download_file_path_ t := disk ++ buf]> fs) ∧
    thread_ t' = Performing rc (to_int64 (Z.of_nat (length disk))) ∧ file_ t' = Some [] ∧
    download_file_path_ t' = download_file_path_ t ∧ cancel_ t' = cancel_ t ∧ listener_ t' = listener_ t.
Proof.
  intros Hf Hd. unfold attempt, SetFileSize.
  change (download_file_path_ (set_recv now 0 t)) with (download_file_path_ t). rewrite Hd.
  rewrite (flush_some _ _ buf) by done. cbv beta iota zeta.
  eexists. split; [f_equal; by apply append_file_insert | by split_and!].
Qed.
Lemma step_retry code rcode tt sp now ren e t rc off disk buf :
  transfer e t rc off disk buf → code ≠ CURLE_OK → code ≠ CURLE_ABORTED_BY_CALLBACK → code ≠ CURLE_PARTIAL_FILE →
  rc ≠ 1 →
  ∃ e' t', thread_step (EReturned code rcode tt sp now ren) e = Some e' ∧
    transfer e' t' (rc - 1) (to_int64 (Z.of_nat (length disk))) (disk ++ buf) [] ∧
    files e' = <[tmp_file_path_ e := disk ++ buf]> (files e) ∧ tmp_file_path_ e' = tmp_file_path_ e.
Proof.
  intros (Ht & Hth & Hf & Hp & Hd & Hc & Hl) H0 H42 H18 H1. unfold thread_step. rewrite Ht, Hth.
  unfold Perform. rewrite (proj2 (Z.eqb_neq code CURLE_OK)), (proj2 (Z.eqb_neq code CURLE_ABORTED_BY_CALLBACK)),
    (proj2 (Z.eqb_neq code CURLE_PARTIAL_FILE)) by done.
  simpl. rewrite Hc. simpl. rewrite (proj2 (Z.eqb_neq (rc - 1) 0)) by lia.
  destruct (attempt_buffer (rc - 1) now (set_curl_code code t) (files e) disk buf) as (t' & -> & ? & ? & Hp' & ? & ?);
    [done | simpl; by rewrite Hp |]. simpl in *.
  eexists _, t'. split; [done|]. rewrite Hp. split; [|done].
  unfold transfer. simpl. split_and!; try congruence. apply lookup_insert_eq.
Qed.

(** ** The end of a transfer *)
Lemma free_name_free fuel u n p fs q : free_name fuel u n p fs = Some q → fs !! q = None.
Proof.
  revert n p. induction fuel as [|fuel IH]; intros n p; simpl.
  - case_match; naive_solver.
  - case_match; [apply IH | naive_solver].
Qed.
(** What renaming can do to the files *)
Definition renames (p q : string) (fs fs' : gmap string bytes) : Prop :=
  ∃ content, fs !! p = Some content ∧ fs !! q = None ∧ fs' = <[q := content]> (delete p fs).
Lemma RenameTempFile_files ren e e' :
  RenameTempFile ren e = Some e' →
  http_task_ e' = http_task_ e ∧ tmp_file_path_ e' = tmp_file_path_ e ∧
  (files e' = files e ∨ renames (tmp_file_path_ e) (final_file_path_ e') (files e) (files e')).
Proof.
  unfold RenameTempFile. intros H.
  destruct (free_name _ _ _ _ _) as [final|] eqn:Hn; [|done]. simpl in H.
  apply free_name_free in Hn.
  destruct (files e !! tmp_file_path_ e) as [content|] eqn:Hc; [|simplify_eq/=; auto].
  destruct ren; [|simplify_eq/=; auto].
  destruct (memcpy_name _ _); simplify_eq/=. split_and!; [done..|]. right. by exists content.
Qed.
Lemma TaskUpdate_result_files r ren e e' :
  TaskUpdate_result r ren e = Some e' →
  http_task_ e' = http_task_ e ∧ tmp_file_path_ e' = tmp_file_path_ e ∧
  (files e' = files e ∨ renames (tmp_file_path_ e) (final_file_path_ e') (files e) (files e')).
Proof.
  unfold TaskUpdate_result. intros H.
  repeat case_match; simplify_eq/=; try solve [split_and!; auto]; by apply RenameTempFile_files in H.
Qed.
(** Bytes may have been added at the end of [p]. *)
Definition grown (p : string) (fs fs' : gmap string bytes) : Prop := fs' = fs ∨ ∃ data, fs' = append_file p data fs.
Lemma grown_trans p fs1 fs2 fs3 : grown p fs1 fs2 → grown p fs2 fs3 → grown p fs1 fs3.
Proof.
  intros [->|[d1 ->]] [->|[d2 ->]]; unfold grown; eauto. right. exists (d1 ++ d2).
  unfold append_file. by rewrite lookup_insert_eq, insert_insert_eq, (assoc_L (++)).
Qed.
Lemma flush_grown t fs : grown (download_file_path_ t) fs (flush t fs).2.
Proof. unfold flush, write_out, grown. destruct (file_ t); simpl; eauto. Qed.
Lemma flush_path t fs : download_file_path_ (flush t fs).1 = download_file_path_ t.
Proof. unfold flush, write_out. by destruct (file_ t). Qed.
Lemma finish_files rcode tt sp ren t e e' :
  finish rcode tt sp ren t e = Some e' → download_file_path_ t = tmp_file_path_ e →
  ∃ t' fs, http_task_ e' = Some t' ∧ thread_ t' = Quit ∧ download_file_path_ t' = tmp_file_path_ e ∧
    tmp_file_path_ e' = tmp_file_path_ e ∧ grown (tmp_file_path_ e) (files e) fs ∧
    (files e' = fs ∨ renames (tmp_file_path_ e) (final_file_path_ e') fs (files e')).
Proof.
  unfold finish, CloseFile. intros H Hp.
  set (t1 := set_status (if curl_code_ t =? CURLE_OK then Status.kSuccess else Status.kFail) t) in H.
  pose proof (flush_grown t1 (files e)) as Hg. pose proof (flush_path t1 (files e)) as Hq.
  destruct (flush t1 (files e)) as [t2 fs]. simpl in *.
  exists (set_thread Quit (set_file None t2)), fs.
  rewrite Hp in Hq, Hg.
  destruct (listener_ t2); simplify_eq/=; [|split_and!; auto].
  apply TaskUpdate_result_files in H as (-> & -> & H). simpl in *. split_and!; auto.
Qed.

Lemma step_done rcode tt sp now ren e t rc off disk buf :
  transfer e t rc off disk buf → HttpCode_kOk ≤ rcode < HttpCode_kBadRequest →
  ∃ e' t', thread_step (EReturned CURLE_OK rcode tt sp now ren) e = RenameTempFile ren e' ∧
    http_task_ e' = Some t' ∧ thread_ t' = Quit ∧ status_ t' = Status.kSuccess ∧ file_ t' = None ∧
    files e' = <[tmp_file_path_ e := disk ++ buf]> (files e) ∧ tmp_file_path_ e' = tmp_file_path_ e ∧
    dpi_err_code (download_progress_info_ e') = DownloadErrorCode.kNormal.
Proof.
  intros (Ht & Hth & Hf & Hp & Hd & Hc & Hl) Hr. unfold thread_step. rewrite Ht, Hth.
  unfold Perform. simpl (_ || _). cbv iota. unfold finish.
  rewrite (CloseFile_some _ _ buf) by done. simpl. rewrite Hl.
  unfold TaskUpdate_result, UpdateResult. simpl.
  assert (rcode =? 0 = false) as -> by (apply Z.eqb_neq; unfold HttpCode_kOk in Hr; lia).
  rewrite andb_false_r. rewrite (proj2 (Z.ltb_ge _ _)), (proj2 (Z.leb_gt _ _)) by lia. simpl.
  eexists _, _. split; [done|]. simpl. split_and!; try done.
  rewrite Hp. by apply append_file_insert.
Qed.

(** ** Any step, any run *)
Lemma step_files ev e e' t :
  thread_step ev e = Some e' → http_task_ e = Some t → download_file_path_ t = tmp_file_path_ e →
  ∃ t' fs, http_task_ e' = Some t' ∧ download_file_path_ t' = tmp_file_path_ e ∧
    tmp_file_path_ e' = tmp_file_path_ e ∧ grown (tmp_file_path_ e) (files e) fs ∧
    (files e' = fs ∨ thread_ t' = Quit ∧ renames (tmp_file_path_ e) (final_file_path_ e') fs (files e')).
Proof.
  intros H Ht Hp. unfold thread_step in H. rewrite Ht in H.
  destruct (thread_ t) as [|rc off|]; [done| |done].
  destruct ev as [data acc fl|dltotal dlnow ct now|code rcode tt sp now ren].
  - unfold WriteFuncCallback, write_out in H. destruct data as [|b data]; simplify_eq/=.
    { exists t, (files e). split_and!; unfold grown; auto. }
    destruct (file_ t) as [buf|] eqn:Hf; simplify_eq/=.
    + eexists _, _. split_and!; [done|done|done| |by left]. rewrite <-Hp. right. by eexists.
    + exists t, (files e). split_and!; unfold grown; auto.
  - destruct (ProgressFuncCallback _ _ _ _ _ _) as [[r e1]|] eqn:E; simplify_eq/=.
    destruct (ProgressFuncCallback_keeps _ _ _ _ _ _ _ _ Ht E) as (t' & ? & Hfs & Htmp & ? & ? & ? & ? & ?).
    exists t', (files e). rewrite Hfs, Htmp. split_and!; unfold grown; auto; congruence.
  - assert (∀ t1, download_file_path_ t1 = tmp_file_path_ e → finish rcode tt sp ren t1 e = Some e' →
      ∃ t' fs, http_task_ e' = Some t' ∧ download_file_path_ t' = tmp_file_path_ e ∧
        tmp_file_path_ e' = tmp_file_path_ e ∧ grown (tmp_file_path_ e) (files e) fs ∧
        (files e' = fs ∨ thread_ t' = Quit ∧ renames (tmp_file_path_ e) (final_file_path_ e') fs (files e'))) as Hfin.
    { intros t1 Hp1 (t' & fs & ? & ? & ? & ? & ? & ?)%finish_files; [|done]. exists t', fs. split_and!; auto. destruct_or!; auto. }
    unfold Perform in H. repeat case_match; simplify_eq/=; try (eapply Hfin; [|eassumption]; exact Hp).
    { exists (set_thread Quit (set_curl_code code t)), (files e). split_and!; unfold grown; auto. }
    unfold attempt, SetFileSize.
    match goal with |- context [flush ?t1 ?fs] =>
      pose proof (flush_grown t1 fs) as Hg; pose proof (flush_path t1 fs) as Hq; destruct (flush t1 fs) as [t2 fs2] end.
    simpl in *. eexists _, fs2. rewrite Hp in Hq, Hg. split_and!; [done|done|done|done|by left].
Qed.
Lemma step_quit ev e t : http_task_ e = Some t → thread_ t = Quit → thread_step ev e = None.
Proof. intros Ht Hq. unfold thread_step. by rewrite Ht, Hq. Qed.
Lemma run_files evs e e' t :
  thread_run evs e = Some e' → http_task_ e = Some t → download_file_path_ t = tmp_file_path_ e →
  ∃ fs, tmp_file_path_ e' = tmp_file_path_ e ∧ grown (tmp_file_path_ e) (files e) fs ∧
    (files e' = fs ∨ renames (tmp_file_path_ e) (final_file_path_ e') fs (files e')).
Proof.
  revert e t. induction evs as [|ev evs IH]; intros e t H Ht Hp; simpl in H.
  { simplify_eq. exists (files e'). split_and!; unfold grown; auto. }
  destruct (thread_step ev e) as [e1|] eqn:E; [|done].
  destruct (step_files _ _ _ _ E Ht Hp) as (t1 & fs1 & Ht1 & Hp1 & Htmp & Hg & [Hf|[Hq Hr]]).
  - destruct (IH e1 t1 H Ht1) as (fs & ? & Hg2 & Hor); [congruence|]. rewrite Htmp, Hf in *.
    exists fs. split_and!; eauto using grown_trans.
  - destruct evs as [|ev2 evs]; simpl in H; [|by rewrite (step_quit _ _ _ Ht1 Hq) in H].
    simplify_eq. exists fs1. auto.
Qed.

(** ** A whole download *)
Lemma finish_quits rcode tt sp ren t e e' :
  finish rcode tt sp ren t e = Some e' → resume_offset e' = None.
Proof.
  unfold finish, CloseFile, resume_offset. destruct (flush _ _) as [t2 fs]. simpl.
  destruct (listener_ t2); [|by intros [= <-]].
  intros (-> & _)%TaskUpdate_result_files. done.
Qed.
Lemma take_take_drop (content : bytes) k data :
  data = take (length data) (drop k content) → (k ≤ length content)%nat →
  take k content ++ data = take (k + length data) content ∧ (k + length data ≤ length content)%nat.
Proof.
  intros Hd Hk. rewrite Hd at 1. rewrite take_take_drop. split; [done|].
  assert (length data = length (take (length data) (drop k content))) as Hl by by rewrite <-Hd.
  rewrite length_take, length_drop in Hl. lia.
Qed.
(** A try that is followed by another one failed. *)
Lemma step_is_retry code rcode tt sp now ren e t rc off disk buf e1 k :
  transfer e t rc off disk buf → thread_step (EReturned code rcode tt sp now ren) e = Some e1 →
  resume_offset e1 = Some k →
  code ≠ CURLE_OK ∧ code ≠ CURLE_ABORTED_BY_CALLBACK ∧ code ≠ CURLE_PARTIAL_FILE ∧ rc ≠ 1.
Proof.
  intros (Ht & Hth & _ & _ & _ & Hc & _) E Hoff. unfold thread_step in E. rewrite Ht, Hth in E.
  unfold Perform in E. simpl in E. rewrite Hc in E.
  split_and!; intros ->; simpl in E; repeat case_match; simplify_eq/=;
    match goal with H : finish _ _ _ _ _ _ = Some _ |- _ => apply finish_quits in H | _ => idtac end; congruence.
Qed.
Lemma settled_buffer e t rc off disk buf : transfer e t rc off disk buf → settled e = true → buf = [].
Proof. intros (Ht & _ & Hf & _) Hs. unfold settled in Hs. rewrite Ht, Hf in Hs. by destruct buf. Qed.
(** As long as nothing waits in the buffer when a try ends, the file and the
    buffer are what was delivered. *)
Lemma delivered_run content evs k e t rc off disk buf k' :
  delivered content k evs e = Some k' → transfer e t rc off disk buf →
  disk ++ buf = take k content → (k ≤ length content)%nat → Z.of_nat (length content) < 2 ^ 63 →
  ∃ e' t' rc' off' disk' buf', thread_run evs e = Some e' ∧ transfer e' t' rc' off' disk' buf' ∧
    disk' ++ buf' = take k' content ∧ (k' ≤ length content)%nat ∧
    files e' = <[tmp_file_path_ e := disk']> (files e) ∧ tmp_file_path_ e' = tmp_file_path_ e.
Proof.
  revert k e t rc off disk buf. induction evs as [|ev evs IH]; intros k e t rc off disk buf H Ht Hd Hk Hlen; simpl in *.
  { simplify_eq. exists e, t, rc, off, disk, buf. split_and!; auto.
    destruct Ht as (_ & _ & _ & _ & ? & _). by rewrite insert_id. }
  destruct (thread_step ev e) as [e1|] eqn:E; [|done].
  assert (∀ t1 rc1 off1 disk1 buf1 k1, delivered content k1 evs e1 = Some k' → transfer e1 t1 rc1 off1 disk1 buf1 →
    disk1 ++ buf1 = take k1 content → (k1 ≤ length content)%nat →
    files e1 = <[tmp_file_path_ e := disk1]> (files e) → tmp_file_path_ e1 = tmp_file_path_ e →
    ∃ e' t' rc' off' disk' buf', thread_run evs e1 = Some e' ∧ transfer e' t' rc' off' disk' buf' ∧
      disk' ++ buf' = take k' content ∧ (k' ≤ length content)%nat ∧
      files e' = <[tmp_file_path_ e := disk']> (files e) ∧ tmp_file_path_ e' = tmp_file_path_ e) as IH'.
  { intros t1 rc1 off1 disk1 buf1 k1 Hk1 Ht1 Hd1 Hb1 Hf1 Hp1.
    destruct (IH k1 e1 t1 rc1 off1 disk1 buf1 Hk1 Ht1 Hd1 Hb1 Hlen) as (e' & t' & rc' & off' & disk' & buf' & ? & ? & ? & ? & Hf & Hp).
    exists e', t', rc', off', disk', buf'. rewrite Hf, Hp, Hp1, Hf1, insert_insert_eq. split_and!; auto. }
  destruct ev as [data acc fl|dltotal dlnow ct now|code rcode tt sp now ren].
  - destruct (bool_decide _) eqn:Hb in H; [|done]. apply bool_decide_eq_true in Hb as [Hacc Hdata].
    destruct (step_write data acc fl e t rc off disk buf Ht Hacc) as (e2 & t2 & d2 & b2 & E2 & Ht2 & Heq & Hf & Hp).
    simplify_eq. destruct (take_take_drop content k data Hdata Hk) as [Htk Hle].
    eapply (IH' t2 rc off d2 b2); eauto. by rewrite Heq, Hd, Htk.
  - destruct (step_progress _ _ _ _ _ _ _ _ _ _ _ Ht E) as (t2 & Ht2 & Hf & Hp).
    eapply (IH' t2 rc off disk buf); eauto. rewrite Hf, insert_id; [done|]. by destruct Ht as (_ & _ & _ & _ & ? & _).
  - destruct (resume_offset e1) as [off1|] eqn:Hoff; [|done]. destruct (settled e) eqn:Hs; [|done].
    destruct (step_is_retry _ _ _ _ _ _ _ _ _ _ _ _ _ _ Ht E Hoff) as (? & ? & ? & ?).
    assert (buf = []) as -> by by apply (settled_buffer _ _ _ _ _ _ Ht).
    rewrite app_nil_r in Hd.
    edestruct (step_retry code rcode tt sp now ren e t rc off disk []) as (e2 & t2 & E2 & Ht2 & Hf & Hp); [done..|].
    rewrite E in E2. injection E2 as <-. rewrite app_nil_r in Ht2, Hf.
    assert (off1 = k) as ->.
    { destruct Ht2 as (Ht2 & Hth2 & _). unfold resume_offset in Hoff. rewrite Ht2, Hth2 in Hoff.
      injection Hoff as <-. rewrite Hd, length_take, Nat.min_l by done.
      rewrite to_int64_id; [lia|]. apply in_int64_spec. lia. }
    eapply (IH' t2 (rc - 1) _ disk []); eauto. by rewrite app_nil_r.
Qed.

(** ** A name that is not in use *)
Definition noslash (s : string) : Prop := "/"%char ∉ str_chars s.
Lemma str_chars_length s : length (str_chars s) = String.length s.
Proof. induction s; simpl; congruence. Qed.
Lemma str_chars_substr n s : str_chars (substr 0 n s) = take n (str_chars s).
Proof. revert n. induction s as [|c s IH]; intros [|n]; simpl; try done. f_equal. apply IH. Qed.
Lemma noslash_app a b : noslash (a +:+ b) ↔ noslash a ∧ noslash b.
Proof. unfold noslash. rewrite str_chars_app, elem_of_app. tauto. Qed.

Lemma after_last_none c l acc found :
  c ∉ l → after_last c l acc found = if found then Some (reverse acc ++ l) else None.
Proof.
  revert acc. induction l as [|x l IH]; intros acc H; simpl; [by rewrite app_nil_r|].
  rewrite not_elem_of_cons in H. rewrite bool_decide_false by naive_solver. rewrite IH by tauto.
  rewrite reverse_cons, <-(assoc_L (++)). done.
Qed.
Lemma after_last_split c l1 l2 acc found : c ∉ l2 → after_last c (l1 ++ c :: l2) acc found = Some l2.
Proof.
  intros H. revert acc found. induction l1 as [|x l1 IH]; intros acc found; simpl.
  - rewrite bool_decide_true by done. by rewrite after_last_none.
  - case_bool_decide; apply IH.
Qed.
Lemma split_at_last (c : ascii) l : c ∈ l → ∃ l1 l2, l = l1 ++ c :: l2 ∧ c ∉ l2.
Proof.
  induction l as [|x l IH]; [by intros ?%elem_of_nil|]. intros Hin.
  destruct (decide (c ∈ l)) as [(l1 & l2 & -> & ?)%IH|Hno]; [by exists (x :: l1), l2|].
  apply elem_of_cons in Hin as [->|?]; [by exists [], l | done].
Qed.
Lemma after_last_elem c l r x : after_last c l [] false = Some r → x ∈ r → x ∈ l ∧ c ∉ r.
Proof.
  destruct (decide (c ∈ l)) as [(l1 & l2 & -> & Hn)%split_at_last|Hn].
  - rewrite after_last_split by done. intros [= <-] Hx. split; [|done]. rewrite elem_of_app, elem_of_cons. auto.
  - by rewrite after_last_none.
Qed.
Lemma path_split p : ¬ noslash p → ∃ pre name, p = pre +:+ "/" +:+ name ∧ noslash name.
Proof.
  unfold noslash. intros H. apply dec_stable in H. apply split_at_last in H as (l1 & l2 & H & Hn).
  exists (str_of l1), (str_of l2). rewrite str_chars_of. split; [|done].
  apply str_chars_inj. rewrite !str_chars_app, !str_chars_of. exact H.
Qed.
Lemma filename_slash pre name : noslash name → filename (pre +:+ "/" +:+ name) = name.
Proof.
  intros H. unfold filename. rewrite str_chars_app. simpl (str_chars ("/" +:+ name)).
  rewrite after_last_split by exact H. apply str_of_chars.
Qed.
Lemma filename_noslash p : noslash (filename p).
Proof.
  destruct (decide (noslash p)) as [H|(pre & name & -> & H)%path_split].
  - unfold filename. by rewrite after_last_none.
  - by rewrite filename_slash.
Qed.
Lemma replace_filename_slash pre name r :
  noslash name → replace_filename (pre +:+ "/" +:+ name) r = pre +:+ "/" +:+ r.
Proof.
  intros H. unfold replace_filename, parent_prefix. rewrite filename_slash by done.
  apply str_chars_inj. rewrite !str_chars_app, str_chars_substr, !str_chars_app. simpl.
  rewrite <-!str_chars_length, !str_chars_app. simpl. rewrite length_app. simpl.
  replace (length (str_chars pre) + S (length (str_chars name)) - length (str_chars name))%nat
    with (length (str_chars pre) + 1)%nat by lia.
  rewrite take_app_add. simpl. rewrite <-(assoc_L (++)). done.
Qed.
Lemma extension_noslash p : noslash (extension p).
Proof.
  unfold extension. pose proof (filename_noslash p) as Hf.
  repeat case_match; try (by apply not_elem_of_nil). apply noslash_app. split.
  { unfold noslash. simpl. by intros ?%list_elem_of_singleton. }
  unfold noslash. rewrite str_chars_of. intros Hin. apply Hf. by eapply after_last_elem.
Qed.
Lemma stem_noslash p : noslash (stem p).
Proof.
  unfold stem, noslash. rewrite str_chars_substr. intros H. apply (filename_noslash p).
  rewrite <-(take_drop (String.length (filename p) - String.length (extension p)) (str_chars (filename p))).
  rewrite elem_of_app. by left.
Qed.

(** The number in a name tells it from the names with other numbers. *)
Lemma pretty_N_go_chars x s c :
  c ∈ str_chars (pretty_N_go x s) → digit_of c ≠ None ∨ c ∈ str_chars s.
Proof.
  revert s. induction (N.lt_wf_0 x) as [x _ IH]; intros s.
  destruct (decide (x = 0%N)) as [->|Hx]; [auto|].
  rewrite pretty_N_go_step by lia. intros [?|H]%IH; [by left| |apply N.div_lt; lia].
  simpl in H. apply elem_of_cons in H as [->|?]; [left | by right].
  rewrite digit_of_pretty by (apply N.mod_lt; lia). done.
Qed.
Lemma pretty_pos_digits n c : 0 < n → c ∈ str_chars (to_string_Z n) → digit_of c ≠ None.
Proof.
  intros Hn. unfold to_string_Z. destruct n as [|p|p]; [lia| |lia].
  change (pretty (Z.pos p)) with (pretty (N.pos p)). unfold pretty, pretty_N.
  rewrite decide_False by done. intros [?|H]%pretty_N_go_chars; [done|]. by apply elem_of_nil in H.
Qed.
Lemma app_cons_inj {A} (x : A) l1 l2 r1 r2 : l1 ++ x :: r1 = l2 ++ x :: r2 → x ∉ l1 → x ∉ l2 → l1 = l2.
Proof.
  revert l2. induction l1 as [|a l1 IH]; intros [|b l2] H H1 H2; simplify_eq/=; try done.
  - by destruct H2; left.
  - by destruct H1; left.
  - rewrite not_elem_of_cons in H1, H2. f_equal. naive_solver.
Qed.
Definition numbered (pre u : string) (n : Z) (p : string) : Prop :=
  ∃ ext, noslash ext ∧ p = pre +:+ "/" +:+ (u +:+ " (" +:+ to_string_Z n +:+ ")" +:+ ext).
Lemma numbered_inj pre u n n' p : numbered pre u n p → numbered pre u n' p → 0 < n → 0 < n' → n = n'.
Proof.
  intros (ext & _ & ->) (ext' & _ & H) Hn Hn'. apply (f_equal str_chars) in H.
  repeat (rewrite !str_chars_app in H; simpl in H). apply app_inv_head in H. simplify_eq.
  apply app_cons_inj in H.
  - apply str_chars_inj in H. apply (f_equal parse_int) in H. rewrite !parse_int_pretty in H. congruence.
  - intros Hin%pretty_pos_digits; [|done]. done.
  - intros Hin%pretty_pos_digits; [|done]. done.
Qed.
Lemma numbered_next pre u n p name :
  p = pre +:+ "/" +:+ name → noslash name →
  numbered pre u n (replace_filename p (u +:+ " (" +:+ to_string_Z n +:+ ")" +:+ extension p)).
Proof.
  intros -> Hn. exists (extension (pre +:+ "/" +:+ name)). split; [apply extension_noslash|].
  by rewrite replace_filename_slash.
Qed.
Lemma numbered_name pre u n p : noslash u → 0 < n → numbered pre u n p → ∃ name, p = pre +:+ "/" +:+ name ∧ noslash name.
Proof.
  intros Hu Hn (ext & He & ->). eexists. split; [done|]. repeat rewrite noslash_app. split_and!; try done.
  - unfold noslash. simpl. intros H. repeat (apply elem_of_cons in H as [H|H]; [done|]). by apply elem_of_nil in H.
  - intros H%pretty_pos_digits; done.
  - unfold noslash. simpl. intros H. repeat (apply elem_of_cons in H as [H|H]; [done|]). by apply elem_of_nil in H.
Qed.
(** A loop that found no name saw that many files. *)
Lemma free_name_used pre u fuel n p fs :
  noslash u → 0 < n → numbered pre u n p → free_name fuel u (n + 1) p fs = None →
  ∃ l, length l = S fuel ∧ NoDup l ∧ ∀ q, q ∈ l → is_Some (fs !! q) ∧ ∃ m, n <= m ∧ numbered pre u m q.
Proof.
  intros Hu. revert n p. induction fuel as [|fuel IH]; intros n p Hn Hp H; simpl in H.
  - destruct (fs !! p) eqn:Hl; [|done]. exists [p]. split_and!; [done|apply NoDup_singleton|].
    intros q ->%list_elem_of_singleton. split; [by eexists|]. exists n. split; [lia|done].
  - destruct (fs !! p) eqn:Hl; [|done].
    destruct (numbered_name pre u n p Hu Hn Hp) as (name & Hname & Hns).
    destruct (IH (n + 1) _ ltac:(lia) (numbered_next pre u (n + 1) p name Hname Hns) H) as (names & Hlen & Hnd & Hl').
    exists (p :: names). split_and!; [by rewrite <-Hlen| |].
    + apply NoDup_cons. split; [|done]. intros (_ & m & Hm & Hnum)%Hl'.
      pose proof (numbered_inj _ _ _ _ _ Hp Hnum). lia.
    + intros q [->|Hq]%elem_of_cons; [split; [by eexists|]; exists n; split; [lia|done]|].
      destruct (Hl' q Hq) as (? & m & ? & ?). split; [done|]. exists m. split; [lia|done].
Qed.
Lemma free_name_total u p fs :
  noslash u → ¬ noslash p → is_Some (free_name (S (size fs)) u 1 p fs).
Proof.
  intros Hu (pre & name & Hp & Hn)%path_split. simpl. destruct (fs !! p); [|by eexists].
  destruct (free_name _ _ _ _ _) as [q|] eqn:E; [by eexists|]. exfalso.
  eapply free_name_used in E as (seen & Hlen & Hnd & Hin); [|done|lia|by eapply numbered_next].
  assert (seen ⊆+ elements (dom fs)) as Hsub.
  { apply NoDup_submseteq; [done|]. intros q [Hq _]%Hin. rewrite elem_of_elements, elem_of_dom. done. }
  apply submseteq_length in Hsub. rewrite Hlen in Hsub.
  change (length (elements (dom fs))) with (size (dom fs)) in Hsub. rewrite size_dom in Hsub. lia.
Qed.

(** ** Starting *)
Definition stored (e : CurlDownloadTaskImpl) : bytes := default [] (files e !! tmp_file_path_ e).
Lemma Start_transfer now e t :
  http_task_ e = Some t → thread_ t = NoThread → file_ t = None → download_file_path_ t = tmp_file_path_ e →
  cancel_ t = false → listener_ t = true →
  ∃ e' t', Start true now e = Some (DownloadErrorCode.kNormal, e') ∧
    transfer e' t' setparam_retry_count (to_int64 (Z.of_nat (length (stored e)))) (stored e) [] ∧
    files e' = <[tmp_file_path_ e := stored e]> (files e) ∧ tmp_file_path_ e' = tmp_file_path_ e.
Proof.
  intros Ht Hth Hf Hp Hc Hl. unfold Start, CreateTempFile. rewrite Ht, Hf. cbv beta iota.
  unfold Start_http. simpl (thread_ (set_file _ _)). rewrite Hth.
  assert (append_file (download_file_path_ t) [] (files e) = <[tmp_file_path_ e := stored e]> (files e)) as ->.
  { unfold append_file, stored. by rewrite Hp, app_nil_r. }
  destruct (attempt_buffer setparam_retry_count now (set_file (Some []) t) (<[tmp_file_path_ e := stored e]> (files e))
    (stored e) []) as (t' & -> & ? & ? & Hp' & ? & ?).
  { done. }
  { simpl. rewrite Hp. apply lookup_insert_eq. }
  simpl in *. eexists _, t'. split; [done|]. rewrite Hp in *. rewrite app_nil_r, insert_insert_eq. split; [|done].
  unfold transfer. simpl. split_and!; try congruence. apply lookup_insert_eq.
Qed.

(** ** Composing steps *)
Lemma thread_run_app evs evs' e e1 :
  thread_run evs e = Some e1 → thread_run (evs ++ evs') e = thread_run evs' e1.
Proof.
  revert e. induction evs as [|ev evs IH]; intros e; simpl; [by intros [= ->]|].
  destruct (thread_step ev e); [apply IH|done].
Qed.
Lemma grown_lookup p fs fs' :
  grown p fs fs' → (∀ q, q ≠ p → fs' !! q = fs !! q) ∧ ∀ c, fs !! p = Some c → ∃ more, fs' !! p = Some (c ++ more).
Proof.
  intros [->|[data ->]]; split; intros x.
  - done.
  - intros H. exists []. by rewrite app_nil_r.
  - intros Hx. by apply append_file_ne.
  - intros H. exists data. by apply append_file_lookup.
Qed.
(** A name copied over one that is not longer *)
Lemma substr_from_short n s : (String.length s ≤ n)%nat → substr_from n s = EmptyString.
Proof.
  intros H. unfold substr_from. replace (String.length s - n)%nat with 0%nat by lia. apply str_chars_inj.
  revert n H. induction s as [|c s IH]; intros [|n] H; simpl in *; try done; try lia. apply IH. lia.
Qed.
Lemma append_tail s old : (String.length old ≤ String.length s)%nat → s +:+ substr_from (String.length s) old = s.
Proof. intros H. rewrite substr_from_short by done. apply str_chars_inj. by rewrite str_chars_app, app_nil_r. Qed.

(** A transfer that ends well with an error answer *)
Lemma step_error rcode tt sp now ren e t rc off disk buf :
  transfer e t rc off disk buf → HttpCode_kBadRequest ≤ rcode →
  ∃ e' t', thread_step (EReturned CURLE_OK rcode tt sp now ren) e = Some e' ∧
    http_task_ e' = Some t' ∧ thread_ t' = Quit ∧ file_ t' = None ∧ download_file_path_ t' = tmp_file_path_ e' ∧
    cancel_ t' = false ∧
    files e' = <[tmp_file_path_ e := disk ++ buf]> (files e) ∧ tmp_file_path_ e' = tmp_file_path_ e ∧
    dpi_err_code (download_progress_info_ e') = http_error rcode ∧ is_started_ e' = is_started_ e.
Proof.
  intros (Ht & Hth & Hf & Hp & Hd & Hc & Hl) Hr. unfold thread_step. rewrite Ht, Hth.
  unfold Perform. simpl (_ || _). cbv iota. unfold finish.
  rewrite (CloseFile_some _ _ buf) by done. simpl. rewrite Hl.
  unfold TaskUpdate_result, UpdateResult. simpl. unfold HttpCode_kBadRequest in Hr.
  assert (rcode =? 0 = false) as -> by (apply Z.eqb_neq; lia).
  rewrite andb_false_r. rewrite (proj2 (Z.leb_le HttpCode_kBadRequest rcode)), orb_true_r by done.
  eexists _, _. split; [done|]. case_match; simpl; split_and!; try done;
    rewrite Hp; by apply append_file_insert.
Qed.
Lemma TaskUpdate_result_started r ren e e' : TaskUpdate_result r ren e = Some e' → is_started_ e' = is_started_ e.
Proof. unfold TaskUpdate_result, RenameTempFile. intros H. repeat case_match; by simplify_eq/=. Qed.
Lemma write_step_started data acc fl e e' : thread_step (EWrite data acc fl) e = Some e' → is_started_ e' = is_started_ e.
Proof. unfold thread_step. intros H. repeat case_match; by simplify_eq/=. Qed.
(** Resuming after the end of a try *)
Lemma ResumeBreakPoint_after now e t c :
  http_task_ e = Some t → thread_ t = Quit → file_ t = None → download_file_path_ t = tmp_file_path_ e →
  cancel_ t = false → files e !! tmp_file_path_ e = Some c → Z.of_nat (length c) < 2 ^ 63 →
  ∃ e', ResumeBreakPoint true [] now e = Some (true, e') ∧ files e' = files e ∧ resume_offset e' = Some (length c).
Proof.
  intros Ht Hth Hf Hp Hc Hd Hlen. unfold ResumeBreakPoint, CreateTempFile. rewrite Ht, Hf. cbv beta iota.
  assert (append_file (download_file_path_ t) [] (files e) = files e) as ->.
  { rewrite Hp, (append_file_insert _ _ _ c) by done. by rewrite app_nil_r, insert_id. }
  simpl. rewrite bool_decide_true by (by rewrite Hd; eexists). unfold Reset_http. simpl. rewrite Hth. simpl.
  match goal with |- context [attempt ?r ?n ?t0 ?fs] =>
    destruct (attempt_buffer r n t0 fs c []) as (t' & -> & Hth' & _); [done|simpl; by rewrite Hp|] end.
  eexists. split; [done|]. simpl. split.
  - rewrite Hp, app_nil_r. by apply insert_id.
  - unfold resume_offset. simpl. rewrite Hth'. rewrite to_int64_id; [by rewrite Nat2Z.id|]. apply in_int64_spec. lia.
Qed.
(** A file that is removed, and the path that is remembered *)
Lemma DeleteFinalFinishFile_removed e :
  final_file_path_ e = EmptyString →
  let q := dp_save_path (param_ e) +:+ "/" +:+ file_name_ e in
  DeleteFinalFinishFile true e = (true, set_files (delete q (files e)) (set_final q e)).
Proof.
  intros He q. unfold DeleteFinalFinishFile, FinalFileExist. rewrite He. cbn -[q]. fold q.
  case_bool_decide as Hq; [done|]. destruct e. simpl in *. unfold set_files, set_final. simpl.
  rewrite delete_id; [done|]. by apply eq_None_not_Some.
Qed.
(** A download that was given its parameters *)
Lemma SetParam_fresh param fs e :
  SetParam param (CurlDownloadTaskImpl_new fs) = Some e →
  ∃ t, http_task_ e = Some t ∧ thread_ t = NoThread ∧ cancel_ t = false ∧ file_ t = None ∧ listener_ t = true ∧
    download_file_path_ t = tmp_file_path_ e ∧ final_file_path_ e = EmptyString ∧ files e = fs ∧ param_ e = param.
Proof.
  unfold SetParam. destruct (GetTempFilePath _) as [[path e0]|] eqn:E; [|done]. intros [= <-].
  unfold GetTempFilePath in E. destruct (memcpy_name _ _) as [name|]; [|done]. injection E as <- <-.
  unfold InitTask. simpl. eexists. split; [done|]. unfold SetDownloadPath.
  match goal with |- context [str_empty ?p] => assert (str_empty p = false) as Hne end.
  { apply not_true_iff_false. rewrite str_empty_true. intros H%(f_equal str_chars).
    rewrite str_chars_app in H. by destruct (str_chars _) in H. }
  rewrite Hne. by split_and!.
Qed.
