(* ===== verification/NetCurlClaims.v ===== *)
(** * The http engine: what it guarantees and what it does not

    A download whose server delivers the content it is asked for, over any number
    of writes, reports and tries, ends with the content in the temporary file,
    which is then given a name that was not in use ([download_exact],
    [renaming_gets_free_name]); no other file is ever changed by the thread
    ([download_keeps_files]).  But a try that fails while bytes wait in the buffer
    makes the next one deliver them again ([retry_repeats_buffer]), the page of an
    error answer stays in the file and is resumed after ([error_answer_stays]), and
    cancelling deletes whatever file has the name asked for
    ([cancel_deletes_namesake]). *)

From S2P Require Import Prelude CppBase BaseRef DownloadTypes NetCurl NetCurlSpec.

(** C15. A download started on a temporary file that holds the beginning of the
    content, from a server that delivers what it is asked for: whatever the sizes
    of the writes, the reports and the tries in between that fail with nothing in
    the buffer, its end renames a temporary file that is the content. *)
Theorem download_exact content now e t evs e1 rcode tt sp now' renamed :
  http_task_ e = Some t → thread_ t = NoThread → file_ t = None → download_file_path_ t = tmp_file_path_ e →
  cancel_ t = false → listener_ t = true →
  stored e `prefix_of` content → Z.of_nat (length content) < 2 ^ 63 →
  Start true now e = Some (DownloadErrorCode.kNormal, e1) →
  delivered content (length (stored e)) evs e1 = Some (length content) →
  HttpCode_kOk ≤ rcode < HttpCode_kBadRequest →
  ∃ e2 t2, thread_run (evs ++ [EReturned CURLE_OK rcode tt sp now' renamed]) e1 = RenameTempFile renamed e2 ∧
    http_task_ e2 = Some t2 ∧ thread_ t2 = Quit ∧ status_ t2 = Status.kSuccess ∧ file_ t2 = None ∧
    files e2 = <[tmp_file_path_ e := content]> (files e) ∧ tmp_file_path_ e2 = tmp_file_path_ e ∧
    dpi_err_code (download_progress_info_ e2) = DownloadErrorCode.kNormal.
Proof.
  intros Ht Hth Hf Hp Hc Hl Hpre Hlen Hs Hd Hr.
  destruct (Start_transfer now e t) as (e1' & t1 & Hs' & Htr & Hf1 & Hp1); [done..|].
  rewrite Hs in Hs'. injection Hs' as <-.
  destruct (delivered_run _ _ _ _ _ _ _ _ _ _ Hd Htr) as (e3 & t3 & rc3 & off3 & d3 & b3 & Hrun & Htr3 & Heq & _ & Hf3 & Hp3).
  { rewrite app_nil_r. destruct Hpre as [rest ->]. by rewrite take_app_length. }
  { by apply prefix_length. }
  { done. }
  destruct (step_done rcode tt sp now' renamed e3 t3 rc3 off3 d3 b3 Htr3 Hr)
    as (e2 & t2 & Hstep & ? & ? & ? & ? & Hf2 & Hp2 & ?).
  exists e2, t2. rewrite (thread_run_app _ _ _ _ Hrun). simpl. rewrite Hstep. split; [by destruct (RenameTempFile _ _)|].
  split_and!; try done; [|by rewrite Hp2, Hp3].
  by rewrite Hf2, Hp3, Hp1, Hf3, Hp1, Hf1, !insert_insert_eq, Heq, firstn_all.
Qed.

(** C26. When the download is done the temporary file gets the name asked for, or
    that name with a number that no file has: the loop over the numbers ends, the
    file that is named was not there, nothing else changes, and the name reported
    is the one given; the buffer of the name is the only thing in the way. *)
Theorem renaming_gets_free_name e content :
  noslash (file_name_ e) → files e !! tmp_file_path_ e = Some content →
  ∃ final, files e !! final = None ∧
    (files e !! (dp_save_path (param_ e) +:+ "/" +:+ file_name_ e) = None →
     final = dp_save_path (param_ e) +:+ "/" +:+ file_name_ e) ∧
    (is_Some (RenameTempFile true e) ↔ (String.length (filename final) < kMaxPath)%nat) ∧
    ∀ e', RenameTempFile true e = Some e' →
      files e' = <[final := content]> (delete (tmp_file_path_ e) (files e)) ∧ final_file_path_ e' = final ∧
      (String.length (file_name_ e) ≤ String.length (filename final) → file_name_ e' = filename final)%nat ∧
      dpi_total_progress (download_progress_info_ e') = d_hundred.
Proof.
  intros Hn Hc. set (path := dp_save_path (param_ e) +:+ "/" +:+ file_name_ e).
  assert (¬ noslash path) as Hpath.
  { unfold path, noslash. rewrite str_chars_app, elem_of_app. intros H. apply H. right. simpl. by left. }
  destruct (free_name_total (stem (file_name_ e)) path (files e) (stem_noslash _) Hpath) as [final Hfinal].
  exists final. split; [by eapply free_name_free|]. split.
  { intros Hnone. simpl in Hfinal. fold path in Hnone. rewrite Hnone in Hfinal. congruence. }
  unfold RenameTempFile. fold path. rewrite Hfinal. simpl. rewrite Hc. unfold memcpy_name.
  destruct (Nat.ltb_spec (String.length (filename final)) kMaxPath) as [Hlt|Hge].
  - split; [split; [done | by eexists]|]. intros e' [= <-]. split_and!; try done. intros Hlen. simpl.
    apply append_tail. lia.
  - split; [split; [by intros [? [=]] | lia]|]. by intros e' [=].
Qed.

(** C21. The thread loses no file: after any events, every file but the temporary
    one is as it was, and the temporary file still begins with the bytes it had,
    under its own name or as a file that was not there. *)
Theorem download_keeps_files e t evs e' :
  http_task_ e = Some t → download_file_path_ t = tmp_file_path_ e → thread_run evs e = Some e' →
  (∀ p c, p ≠ tmp_file_path_ e → files e !! p = Some c → files e' !! p = Some c) ∧
  ∀ c, files e !! tmp_file_path_ e = Some c →
    ∃ more, files e' !! tmp_file_path_ e = Some (c ++ more) ∨
      files e !! final_file_path_ e' = None ∧ files e' !! final_file_path_ e' = Some (c ++ more).
Proof.
  intros Ht Hp Hrun. destruct (run_files _ _ _ _ Hrun Ht Hp) as (fs & _ & Hg & Hor).
  destruct (grown_lookup _ _ _ Hg) as [Hother Hself]. destruct Hor as [->|(content & Hc & Hnone & ->)].
  - split; [intros p c Hne Hl; by rewrite (Hother p Hne)|]. intros c Hl. destruct (Hself c Hl) as [more ?]. exists more. by left.
  - assert (final_file_path_ e' ≠ tmp_file_path_ e) as Hne by congruence. split.
    + intros p c Hpt Hl. rewrite lookup_insert_ne; [by rewrite lookup_delete_ne, (Hother p Hpt)|].
      intros <-. rewrite Hother in Hnone by done. congruence.
    + intros c Hl. destruct (Hself c Hl) as [more Hm]. exists more. right. rewrite lookup_insert_eq.
      rewrite <-(Hother _ Hne). split; congruence.
Qed.

(** A try that fails while [buf] waits in the buffer: the next one resumes
    after the file as it was on the disk, the buffer goes to the file all the same,
    and the server sends it again; the file that is renamed has [buf] twice, and is
    not the content. *)
Theorem retry_repeats_buffer content e t rc off disk buf code rcode tt sp now ren fl rcode' tt' sp' now' ren' :
  transfer e t rc off disk buf → rc ≠ 1 → disk ++ buf `prefix_of` content → Z.of_nat (length content) < 2 ^ 63 →
  code ≠ CURLE_OK → code ≠ CURLE_ABORTED_BY_CALLBACK → code ≠ CURLE_PARTIAL_FILE →
  HttpCode_kOk ≤ rcode' < HttpCode_kBadRequest →
  ∃ e1 e2, thread_step (EReturned code rcode tt sp now ren) e = Some e1 ∧
    resume_offset e1 = Some (length disk) ∧
    thread_run [EWrite (drop (length disk) content) (length (drop (length disk) content)) fl;
                EReturned CURLE_OK rcode' tt' sp' now' ren'] e1 = RenameTempFile ren' e2 ∧
    files e2 !! tmp_file_path_ e2 = Some (disk ++ buf ++ drop (length disk) content) ∧
    dpi_err_code (download_progress_info_ e2) = DownloadErrorCode.kNormal ∧
    (disk ++ buf ++ drop (length disk) content = content ↔ buf = []).
Proof.
  intros Htr Hrc Hpre Hlen H0 H42 H18 Hr.
  destruct (step_retry code rcode tt sp now ren e t rc off disk buf) as (e1 & t1 & E1 & Htr1 & Hf1 & Hp1); [done..|].
  destruct (step_write (drop (length disk) content) _ fl e1 t1 _ _ _ _ Htr1 eq_refl)
    as (e3 & t3 & d3 & b3 & E3 & Htr3 & Heq & Hf3 & Hp3).
  destruct (step_done rcode' tt' sp' now' ren' e3 t3 _ _ d3 b3 Htr3 Hr) as (e2 & t2 & E2 & _ & _ & _ & _ & Hf2 & Hp2 & Herr).
  exists e1, e2. split; [done|]. split; [|split; [simpl; rewrite E3, E2; by destruct (RenameTempFile _ _)|]].
  - destruct Htr1 as (Ht1 & Hth1 & _). unfold resume_offset. rewrite Ht1, Hth1.
    apply prefix_length in Hpre. rewrite length_app in Hpre. rewrite to_int64_id; [by rewrite Nat2Z.id|].
    apply in_int64_spec. lia.
  - split; [|split; [done|]].
    + rewrite Hp2, Hf2, lookup_insert_eq, Heq, app_nil_r. by rewrite <-(assoc_L (++)).
    + destruct Hpre as [rest ->]. rewrite <-(assoc_L (++)), drop_app_length. split; [|by intros ->].
      intros H%app_inv_head. apply (f_equal length) in H. rewrite !length_app in H. destruct buf; simpl in *; [done|lia].
Qed.

(** An error answer of the server ends a try like a success does, so its page
    stays in the temporary file: the error is reported, and when the download is
    resumed it asks for what is behind the page. *)
Theorem error_answer_stays e t rc off disk buf page fl rcode tt sp now renamed now' :
  transfer e t rc off disk buf → HttpCode_kBadRequest ≤ rcode → is_started_ e = true →
  Z.of_nat (length (disk ++ buf ++ page)) < 2 ^ 63 →
  ∃ e' e'', thread_run [EWrite page (length page) fl; EReturned CURLE_OK rcode tt sp now renamed] e = Some e' ∧
    files e' = <[tmp_file_path_ e := disk ++ buf ++ page]> (files e) ∧
    dpi_err_code (download_progress_info_ e') = http_error rcode ∧
    Resume false true true [] now' e' = Some (true, e'') ∧
    files e'' = files e' ∧ dpi_err_code (download_progress_info_ e'') = DownloadErrorCode.kNormal ∧
    resume_offset e'' = Some (length (disk ++ buf ++ page)).
Proof.
  intros Htr Hr Hst Hlen.
  destruct (step_write page _ fl e t _ _ _ _ Htr eq_refl) as (e1 & t1 & d1 & b1 & E1 & Htr1 & Heq & Hf1 & Hp1).
  destruct (step_error rcode tt sp now renamed e1 t1 _ _ d1 b1 Htr1 Hr)
    as (e' & t' & E' & Ht' & Hth' & Hfile' & Hp' & Hc' & Hf' & Htmp' & Herr & Hst').
  rewrite Heq, Hp1, Hf1, insert_insert_eq, <-(assoc_L (++)) in Hf'.
  assert (is_started_ e' = true) as Hst2.
  { rewrite Hst'. pose proof (write_step_started _ _ _ _ _ E1). congruence. }
  destruct (ResumeBreakPoint_after now' e' t' (disk ++ buf ++ page)) as (e2 & E2 & Hf2 & Hoff); [done..| | |].
  { by rewrite Hf', Htmp', Hp1, lookup_insert_eq. }
  { done. }
  exists e', (upd_progress_info (set_err_code DownloadErrorCode.kNormal) e2).
  split; [simpl; by rewrite E1, E'|]. split_and!; try done.
  unfold Resume. rewrite Hst2. simpl. by rewrite E2.
Qed.

(** Cancelling a download together with its file deletes the file of the name
    that was asked for, whether or not this download made it: a download that was
    never started takes an older file of that name with it. *)
Theorem cancel_deletes_namesake param fs e :
  SetParam param (CurlDownloadTaskImpl_new fs) = Some e →
  ∃ e', Cancel true true true [] e = Some (true, e') ∧
    files e' = delete (tmp_file_path_ e) (delete (dp_save_path param +:+ "/" +:+ file_name_ e) fs) ∧
    http_task_ e' = set_cancel true <$> http_task_ e.
Proof.
  intros (t & Ht & Hth & Hc & Hf & Hl & Hp & Hfin & <- & <-)%SetParam_fresh.
  unfold Cancel. rewrite Ht, (DeleteFinalFinishFile_removed e Hfin). unfold Cancel_http. simpl. rewrite Ht, Hc.
  unfold on_http. simpl. rewrite Ht. simpl. rewrite Hth. simpl. unfold CloseFile, flush, write_out. simpl. rewrite Hf. simpl.
  unfold DeleteLocalTempFile. simpl. rewrite Hp.
  match goal with |- context [?fs !! ?p] => destruct (fs !! p) eqn:Hq end; simpl.
  - eexists. split; [done|]. split; [done|]. simpl. do 2 f_equal. by destruct t; simpl in *; subst.
  - eexists. split; [done|]. split; [by rewrite (delete_id _ (tmp_file_path_ e))|]. simpl. do 2 f_equal.
    by destruct t; simpl in *; subst.
Qed.

(** The connection that closes early: the thread ends there.  The error is not
    reported, what waits in the buffer is not written out, and nothing happens any
    more until the download is resumed. *)
Lemma partial_file_stalls e t rc off disk buf rcode tt sp now ren :
  transfer e t rc off disk buf →
  ∃ e', thread_step (EReturned CURLE_PARTIAL_FILE rcode tt sp now ren) e = Some e' ∧
    files e' = files e ∧ download_progress_info_ e' = download_progress_info_ e ∧
    (file_ <$> http_task_ e') = Some (Some buf) ∧ ∀ ev, thread_step ev e' = None.
Proof.
  intros (Ht & Hth & Hf & Hp & Hd & Hc & Hl). unfold thread_step. rewrite Ht, Hth.
  unfold Perform. simpl. rewrite Hc. simpl. eexists. split; [done|]. simpl. rewrite Hf. by split_and!.
Qed.
(** A name, given or taken from the url, that does not fit its array *)
Lemma SetParam_defined_iff param fs :
  is_Some (SetParam param (CurlDownloadTaskImpl_new fs)) ↔
  (String.length (if str_empty (dp_file_name param) then GetFileNameFromUrl (dp_url param) else dp_file_name param)
    < kMaxPath)%nat.
Proof.
  unfold SetParam, GetTempFilePath, memcpy_name. simpl.
  destruct (Nat.ltb_spec (String.length (if str_empty (dp_file_name param) then GetFileNameFromUrl (dp_url param)
    else dp_file_name param)) kMaxPath); split; try done; try lia; by (intros [? [=]] || (intros; by eexists)).
Qed.

(** ** A download of four bytes *)
Definition demo_content : bytes := Byte.x61 :: Byte.x62 :: Byte.x63 :: [Byte.x64].
Definition demo_param : DownloadParam := mkDownloadParam "7" "http://host/d/a.bin?x=1" "/s" EmptyString.
Definition demo_fs : gmap string bytes := <["/s/a.bin" := [Byte.x30]]> ∅.
Definition or_new {A} (f : A → CurlDownloadTaskImpl) (o : option A) : CurlDownloadTaskImpl :=
  from_option f (CurlDownloadTaskImpl_new ∅) o.
Definition demo_task : CurlDownloadTaskImpl := or_new id (SetParam demo_param (CurlDownloadTaskImpl_new demo_fs)).
Definition demo_http : HttpDownloadTask := default HttpDownloadTask_new (http_task_ demo_task).
Definition demo_started : CurlDownloadTaskImpl := or_new snd (Start true 0 demo_task).
Definition demo_tmp : string := "/s/a.bin.7.nas.tmp".
(** Two writes, a report, a try that fails with an empty buffer, the rest *)
Definition demo_events : list curl_event :=
  [EWrite [Byte.x61; Byte.x62] 2 1; EProgress 4 2 0 1200; EWrite [Byte.x63] 1 3;
   EReturned 56 0 0 0 2000 false; EWrite [Byte.x64] 1 0].
Definition demo_done : curl_event := EReturned CURLE_OK 206 5000000 4096 3000 true.
Definition demo_ended : CurlDownloadTaskImpl := or_new id (thread_run (demo_events ++ [demo_done]) demo_started).

Lemma demo_started_eq : Start true 0 demo_task = Some (DownloadErrorCode.kNormal, demo_started).
Proof. vm_compute. reflexivity. Qed.
Lemma demo_http_eq : http_task_ demo_task = Some demo_http.
Proof. vm_compute. reflexivity. Qed.
(** The name asked for is in use, so the file gets a number. *)
Example download_gets_number :
  files demo_ended = <["/s/a (1).bin" := demo_content]> demo_fs ∧ file_name_ demo_ended = "a (1).bin".
Proof. vm_compute. split; reflexivity. Qed.

Lemma download_exact_witness :
  ∃ e2, thread_run (demo_events ++ [demo_done]) demo_started = RenameTempFile true e2 ∧
    files e2 !! demo_tmp = Some demo_content.
Proof.
  destruct (download_exact demo_content 0 demo_task demo_http demo_events demo_started 206 5000000 4096 3000 true)
    as (e2 & t2 & Hrun & _ & _ & _ & _ & Hf & _ & _);
    try (vm_compute; reflexivity).
  - exists demo_content. vm_compute. reflexivity.
  - vm_compute. split; [discriminate | reflexivity].
  - exists e2. split; [exact Hrun|]. rewrite Hf. vm_compute. reflexivity.
Defined.

(** The try ends while ["b"] waits in the buffer. *)
Definition half_events : list curl_event := [EWrite [Byte.x61; Byte.x62] 2 1].
Definition demo_half : CurlDownloadTaskImpl := or_new id (thread_run half_events demo_started).
Definition half_http : HttpDownloadTask := default HttpDownloadTask_new (http_task_ demo_half).
Lemma demo_half_transfer : transfer demo_half half_http 3 0 [Byte.x61] [Byte.x62].
Proof. unfold transfer. split_and!; vm_compute; reflexivity. Qed.
Lemma retry_repeats_buffer_witness :
  ∃ e1 e2, thread_step (EReturned 56 0 0 0 2000 false) demo_half = Some e1 ∧
    thread_run [EWrite [Byte.x62; Byte.x63; Byte.x64] 3 0; demo_done] e1 = RenameTempFile true e2 ∧
    files e2 !! tmp_file_path_ e2 = Some [Byte.x61; Byte.x62; Byte.x62; Byte.x63; Byte.x64].
Proof.
  destruct (retry_repeats_buffer demo_content demo_half half_http 3 0 [Byte.x61] [Byte.x62] 56 0 0 0 2000 false 0
    206 5000000 4096 3000 true) as (e1 & e2 & H1 & _ & H2 & H3 & _).
  - exact demo_half_transfer.
  - discriminate.
  - exists [Byte.x63; Byte.x64]. reflexivity.
  - reflexivity.
  - discriminate.
  - discriminate.
  - discriminate.
  - vm_compute. split; [discriminate | reflexivity].
  - exists e1, e2. split; [exact H1|]. split; [exact H2 | exact H3].
Defined.

Lemma renaming_gets_free_name_witness :
  ∃ final, files demo_half !! final = None ∧ final ≠ "/s/a.bin" ∧
    (is_Some (RenameTempFile true demo_half) ↔ (String.length (filename final) < kMaxPath)%nat).
Proof.
  destruct (renaming_gets_free_name demo_half [Byte.x61]) as (final & Hfree & _ & Hdef & _).
  - intros H. vm_compute in H. by repeat (apply elem_of_cons in H as [H|H]; [discriminate|]); apply elem_of_nil in H.
  - vm_compute. reflexivity.
  - exists final. split; [exact Hfree|]. split; [|exact Hdef]. intros ->. vm_compute in Hfree. discriminate.
Defined.

Lemma download_keeps_files_witness :
  thread_run (demo_events ++ [demo_done]) demo_started = Some demo_ended ∧
  files demo_ended !! "/s/a.bin" = Some [Byte.x30].
Proof.
  assert (thread_run (demo_events ++ [demo_done]) demo_started = Some demo_ended) as Hrun by (vm_compute; reflexivity).
  split; [exact Hrun|].
  apply (download_keeps_files demo_started (default HttpDownloadTask_new (http_task_ demo_started))
    (demo_events ++ [demo_done]) demo_ended).
  - vm_compute. reflexivity.
  - vm_compute. reflexivity.
  - exact Hrun.
  - vm_compute. discriminate.
  - vm_compute. reflexivity.
Defined.

(** A page of one byte comes instead of the rest. *)
Lemma error_answer_stays_witness :
  ∃ e' e'', thread_run [EWrite [Byte.x21] 1 0; EReturned CURLE_OK 503 0 0 2000 true] demo_half = Some e' ∧
    dpi_err_code (download_progress_info_ e') = http_error 503 ∧
    Resume false true true [] 5000 e' = Some (true, e'') ∧ resume_offset e'' = Some 3%nat.
Proof.
  destruct (error_answer_stays demo_half half_http 3 0 [Byte.x61] [Byte.x62] [Byte.x21] 0 503 0 0 2000 true 5000)
    as (e' & e'' & H1 & _ & H2 & H3 & _ & _ & H4).
  - exact demo_half_transfer.
  - vm_compute. discriminate.
  - vm_compute. reflexivity.
  - vm_compute. reflexivity.
  - exists e', e''. split; [exact H1|]. split; [exact H2|]. split; [exact H3 | exact H4].
Defined.

Lemma cancel_deletes_namesake_witness :
  ∃ e', Cancel true true true [] demo_task = Some (true, e') ∧ demo_fs !! "/s/a.bin" = Some [Byte.x30] ∧
    files e' !! "/s/a.bin" = None.
Proof.
  destruct (cancel_deletes_namesake demo_param demo_fs demo_task) as (e' & H & Hf & _).
  - vm_compute. reflexivity.
  - exists e'. split; [exact H|]. split; [reflexivity|]. rewrite Hf. vm_compute. reflexivity.
Defined.

(** Cancelling while the download finishes: the file is made after the place for
    it was cleared, and stays. *)
Example cancel_leaves_late_file :
  files (or_new snd (Cancel true true true [demo_done] (or_new id (thread_run demo_events demo_started)))) =
  <["/s/a.bin" := demo_content]> ∅.
Proof. vm_compute. reflexivity. Qed.
(** [Reset] clears the error before the thread it stops reports one. *)
Example Reset_reports_abort :
  dpi_err_code (download_progress_info_ (or_new id (Reset [EReturned 42 0 0 0 0 true] demo_half))) = 1142.
Proof. vm_compute. reflexivity. Qed.
(** A url whose last part is longer than the array of the name *)
Example SetParam_overflows :
  let name := str_of (replicate kMaxPath "a"%char) in
  SetParam (mkDownloadParam "7" ("http://host/" +:+ name) "/s" EmptyString) (CurlDownloadTaskImpl_new ∅) = None.
Proof. vm_compute. reflexivity. Qed.
