(* ===== verification/NetEnv.v ===== *)
(** * The server over the http engine

    An environment whose http engine is [NetCurl], over the file system that the
    server uses too: every call of the interface is the engine's operation on the
    object behind the handle, what happens on the threads of the engine are events
    between the server's.  The other two engines are not loaded.  An engine call
    that is undefined ends the process: [ne_dead].  The environment satisfies
    [EnvLaws], so what is proved about the server holds over this engine.  What
    libcurl makes of a pause from another thread, and what a thread still does
    when it is joined, are the environment's ([ne_race], [ne_join]). *)

From S2P Require Import Prelude CppBase BaseRef PathUnit DownloadTypes ErrorDesc TaskInfo.
From S2P Require Import InfoStore SystemConfig ServerWorld TaskRefCount TaskObj TaskSpec.
From S2P Require Import TaskFactory UserInfo UserSelfMgr UserSelfMgrSpec UserSelfMgrOps.
From S2P Require Import UserSelfMgrCreate DownloadMgr DownloadMgrSpec ServerClaims.
From S2P Require NetCurl NetCurlSpec.
Import (notations) Prelude.
#[local] Open Scope prog_scope.

Abbreviation Impl := NetCurl.CurlDownloadTaskImpl.
Abbreviation bytes := NetCurl.bytes.

(** The steady clock counts milliseconds; [ne_web]: what is behind a url;
    [ne_disk]: whether files can be opened for writing; [ne_race]: whether the
    process gets over a [curl_easy_pause] on a transfer that runs; [ne_join]:
    what a thread that was told to stop does before it ends. *)
Record NetState := mkNet {
  ne_next : N; ne_clock : Z; ne_web : gmap string bytes; ne_disk : bool;
  ne_files : gmap string bytes; ne_tasks : gmap N Impl; ne_dead : bool;
  ne_race : bool; ne_join : list NetCurl.curl_event
}.
Definition NetState_init (web files : gmap string bytes) : NetState := mkNet 1 1000000 web true files ∅ false true
  [NetCurl.EReturned NetCurl.CURLE_ABORTED_BY_CALLBACK 0 0 0 0 false].
Definition set_ne_files v s := mkNet (ne_next s) (ne_clock s) (ne_web s) (ne_disk s) v (ne_tasks s) (ne_dead s) (ne_race s) (ne_join s).
Definition set_ne_clock v s := mkNet (ne_next s) v (ne_web s) (ne_disk s) (ne_files s) (ne_tasks s) (ne_dead s) (ne_race s) (ne_join s).
Definition set_ne_disk v s := mkNet (ne_next s) (ne_clock s) (ne_web s) v (ne_files s) (ne_tasks s) (ne_dead s) (ne_race s) (ne_join s).
Definition set_ne_tasks v s := mkNet (ne_next s) (ne_clock s) (ne_web s) (ne_disk s) (ne_files s) v (ne_dead s) (ne_race s) (ne_join s).
Definition set_ne_race v s := mkNet (ne_next s) (ne_clock s) (ne_web s) (ne_disk s) (ne_files s) (ne_tasks s) (ne_dead s) v (ne_join s).
Definition set_ne_join v s := mkNet (ne_next s) (ne_clock s) (ne_web s) (ne_disk s) (ne_files s) (ne_tasks s) (ne_dead s) (ne_race s) v.
Definition die (s : NetState) : NetState :=
  mkNet (ne_next s) (ne_clock s) (ne_web s) (ne_disk s) (ne_files s) (ne_tasks s) true (ne_race s) (ne_join s).

(** An operation on the object behind a handle; [d] is what a call returns that
    does not return. *)
Definition on_task {A} (d : A) (f : Impl → option (A * Impl)) (h : Handle) (s : NetState) : A * NetState :=
  if ne_dead s then (d, s)
  else match ne_tasks s !! h with
       | None => (d, die s)
       | Some t =>
           match f (NetCurl.set_files (ne_files s) t) with
           | Some (a, t) => (a, set_ne_files (NetCurl.files t) (set_ne_tasks (<[h := t]> (ne_tasks s)) s))
           | None => (d, die s)
           end
       end.
Definition unit_op (f : Impl → option Impl) (t : Impl) : option (unit * Impl) := (λ t, (tt, t)) <$> f t.
(** [CURLINFO_CONTENT_LENGTH_DOWNLOAD_T] and the response code of a request for
    the head, as often as it is asked *)
Definition answers (s : NetState) (url : string) : list (Z * Z * Z) :=
  replicate 2 match ne_web s !! url with
              | Some c => (NetCurl.CURLE_OK, Z.of_nat (length c), 200)
              | None => (NetCurl.CURLE_OK, -1, 404)
              end.
Definition parse_link (s : NetState) (url : string) (t : Impl) : option (Z * FileBaseInfo * Impl) :=
  match NetCurl.ParseTask_Parse 2 0 (answers s url) with
  | Some (size, err) => NetCurl.ParseLink err size t
  | None => None
  end.

Definition net_factory (s : NetState) : option Handle * NetState :=
  (Some (ne_next s),
   mkNet (ne_next s + 1) (ne_clock s) (ne_web s) (ne_disk s) (ne_files s)
     (<[ne_next s := NetCurl.CurlDownloadTaskImpl_new ∅]> (ne_tasks s)) (ne_dead s) (ne_race s) (ne_join s)).
Definition net_same {A B} (b : B) (e : A) : B * A := (b, e).
Definition under (dir p : string) : bool := bool_decide (substr 0 (S (String.length dir)) p = dir +:+ "/").

#[local] Instance net_env : Env := {|
  env := NetState;
  i_Start h s := on_task 0 (NetCurl.Start (ne_disk s) (ne_clock s)) h s;
  i_Pause h s := on_task false (NetCurl.Pause (ne_race s) (ne_clock s)) h s;
  i_Resume h is_failed s := on_task false (NetCurl.Resume (ne_race s) is_failed (ne_disk s) (ne_join s) (ne_clock s)) h s;
  i_Cancel h is_delete s := on_task false (NetCurl.Cancel is_delete true true (ne_join s)) h s;
  i_GetProgressInfo h info s := on_task info (λ t, Some (NetCurl.GetProgressInfo info t)) h s;
  i_Valid h is_finished s := on_task false (NetCurl.Valid is_finished) h s;
  i_GetTaskHash h s := on_task None (λ t, Some (Some (NetCurl.GetTaskHash t), t)) h s;
  c_SetParam h p s := on_task tt (unit_op (NetCurl.SetParam p)) h s;
  c_ParseLink h url s := on_task (0, FileBaseInfo_init) (parse_link s url) h s;
  c_ResumeBreakPoint h s := on_task false (NetCurl.ResumeBreakPoint (ne_disk s) (ne_join s) (ne_clock s)) h s;
  c_SetMaxDownloadSpeed h v s := on_task tt (unit_op (NetCurl.Impl_SetMaxDownloadSpeed v)) h s;
  c_Reset h s := on_task tt (unit_op (NetCurl.Reset (ne_join s))) h s;
  c_TryReStart h s := on_task tt (unit_op (NetCurl.TryReStart (ne_disk s) (ne_join s) (ne_clock s))) h s;
  m_SetParam _ _ := net_same tt;
  m_ParseLink _ _ := net_same (false, FileBaseInfo_init);
  m_CheckCondition _ _ := net_same 0;
  b_SetParam _ _ := net_same tt;
  b_SetTorrentAddedCallback _ := net_same tt;
  b_GetTorrentFileBaseInfo _ := net_same FileBaseInfo_init;
  b_CheckCondition _ _ := net_same 0;
  b_IsValid _ _ := net_same false;
  b_GetSeedingInfo _ := net_same None;
  b_GetTorrentList _ := net_same None;
  b_GetTorrentShareRatio _ := net_same 0;
  b_GetSeedingTime _ := net_same 0;
  b_GetUploadRate _ := net_same 0;
  b_IsChecking _ := net_same false;
  b_IsDownloading _ := net_same false;
  t_CreateMagnetUri _ := net_same None;
  g_SetParseCallback _ := net_same tt;
  IsLoadedNetMule _ := false;
  IsLoadedNetBt _ := false;
  IsLoadedNetCurl _ := true;
  CreateCurlDownloadTask := net_factory;
  CreateMuleDownloadTask := net_same None;
  CreateTorrentFileDownloadTask := net_same None;
  CreateMagnetDownloadTask := net_same None;
  ReleaseTask h s := (tt, set_ne_tasks (delete h (ne_tasks s)) s);
  PathExists p s := bool_decide (is_Some (ne_files s !! p));
  DirectoryExists _ _ := true;
  CreateDirectory _ := net_same true;
  base_DeleteFile p s := (true, set_ne_files (delete p (ne_files s)) s);
  DeletePathRecursively p s :=
    (true, set_ne_files (filter (λ kv, under p kv.1 = false) (delete p (ne_files s))) s);
  base_CopyFile a b s :=
    match ne_files s !! a with Some c => (true, set_ne_files (<[b := c]> (ne_files s)) s) | None => (false, s) end;
  GetFileSize p s := match ne_files s !! p with Some c => Z.of_nat (length c) | None => 0 end;
  OpenForWrite _ := net_same true;
  GenerateRandomV4 := net_same "0b8f6a2e-7c1d-4f0e-9a55-3d2c1b0a9f8e";
  TimeNow s := (ne_clock s, s);
  GetTorrentFileSavePath := net_same "/var/nas/torrents";
  GetUserSourceDataDir u := net_same ("/data/" +:+ u);
  RandInt a _ := net_same a;
  ProtectedPaths := ["/etc"]
|}.

#[export] Instance net_env_laws : EnvLaws net_env.
Proof.
  split.
  - intros [] e; simpl; try done; intros _; by eexists.
  - by intros [] e.
  - intros e e'. apply Nat.leb_le. vm_compute. reflexivity.
  - intros a b e H. simpl. lia.
Qed.

(** ** The running server *)
Inductive NetEvent :=
  | Server (ev : Event)                          (** a request, a timer, a setting *)
  | Thread (h : Handle) (ev : NetCurl.curl_event) (** on the thread of an engine object *)
  | Posted                                        (** the oldest closure posted by a task *)
  | Wait (ms : Z)                                 (** time passes *)
  | Disk (writable : bool)                        (** the file system changes *)
  | Race (withstood : bool)                       (** what libcurl is in for *)
  | Join (evs : list NetCurl.curl_event).         (** what the next joined thread still does *)

Arguments Thread h%_N_scope ev.

Definition net_thread (h : Handle) (ev : NetCurl.curl_event) (s : NetState) : NetState :=
  (on_task tt (unit_op (NetCurl.thread_step ev)) h s).2.
Definition world_of (s : DS) : World := ds_w s.
(** The server's event that an event amounts to *)
Definition as_event (ev : NetEvent) (s : DS) : Event :=
  let e := w_env (world_of s) in
  match ev with
  | Server ev => ev
  | Thread h ev => EvEngines (net_thread h ev e)
  | Posted => EvPosted 0
  | Wait ms => EvEngines (set_ne_clock (ne_clock e + ms) e)
  | Disk b => EvEngines (set_ne_disk b e)
  | Race b => EvEngines (set_ne_race b e)
  | Join evs => EvEngines (set_ne_join evs e)
  end.
Definition net_event (ev : NetEvent) (s : DS) : option DS := snd <$> run_event (as_event ev s) s.
Fixpoint net_run (evs : list NetEvent) (s : DS) : option DS :=
  match evs with
  | [] => Some s
  | ev :: evs => match net_event ev s with Some s => net_run evs s | None => None end
  end.
Fixpoint net_valid (evs : list NetEvent) (s : DS) : Prop :=
  match evs with
  | [] => True
  | ev :: evs => valid_event (as_event ev s) s ∧
      ∀ s', net_event ev s = Some s' → net_valid evs s'
  end.

#[local] Close Scope prog_scope.

(** ** The server over the http engine: what holds, and where they disagree

    Every call of the interface is survived by a download that has its parameters,
    save starting it while its thread was not joined and pausing a transfer that
    runs where libcurl does not get over it ([engine_calls_survive]); a
    download runs from the request to the finished file
    ([http_download_delivered]).  The server starts a download that it resumed by
    restoring it, and dies ([restored_download_kills_server]); it waits for ever for
    one that it queued when it was retried ([queued_retry_stalls]). *)
Import NetCurl.

Lemma str_empty_nonempty s : s ≠ EmptyString → str_empty s = false.
Proof. intros H. by apply bool_decide_eq_false. Qed.

(** ** A download that has its parameters *)
Definition name_of (e : CurlDownloadTaskImpl) : string :=
  if str_empty (file_name_ e) then GetFileNameFromUrl (dp_url (param_ e)) else file_name_ e.
Definition shaped (e : CurlDownloadTaskImpl) : Prop :=
  ∃ t, http_task_ e = Some t ∧ download_file_path_ t = tmp_file_path_ e ∧ tmp_file_path_ e ≠ EmptyString ∧
    (String.length (name_of e) < kMaxPath)%nat.
Definition unjoined (e : CurlDownloadTaskImpl) : bool :=
  match http_task_ e with
  | Some t => match thread_ t with NoThread => false | _ => true end
  | None => false
  end.
Definition transferring (e : CurlDownloadTaskImpl) : bool :=
  match http_task_ e with
  | Some t => match thread_ t with Performing _ _ => true | _ => false end
  | None => false
  end.
(** The name and the paths do not change. *)
Definition same_names (e e' : CurlDownloadTaskImpl) : Prop :=
  param_ e' = param_ e ∧ file_name_ e' = file_name_ e ∧ tmp_file_path_ e' = tmp_file_path_ e.
Lemma shaped_names e e' t :
  shaped e → same_names e e' → http_task_ e' = Some t → download_file_path_ t = tmp_file_path_ e → shaped e'.
Proof.
  intros (t0 & _ & _ & Hne & Hn) (Hp & Hf & Ht) He' Hpt. exists t. unfold name_of in *. rewrite Hp, Hf, Ht. auto.
Qed.
Lemma same_names_trans e1 e2 e3 : same_names e1 e2 → same_names e2 e3 → same_names e1 e3.
Proof. unfold same_names. intros (?&?&?) (?&?&?). split_and!; congruence. Qed.

(** A thread that was told to stop may still be given data and asked for
    progress, and ends with any error, however libcurl is stopped; that it
    completes the download in that moment is left out. *)
Fixpoint stops (evs : list curl_event) : bool :=
  match evs with
  | [] => false
  | EReturned code _ _ _ _ _ :: _ => negb (code =? CURLE_OK)
  | _ :: evs => stops evs
  end.

Lemma flush_kept t fs :
  curl_code_ (flush t fs).1 = curl_code_ t ∧ download_file_path_ (flush t fs).1 = download_file_path_ t.
Proof. unfold flush, write_out. by destruct (file_ t). Qed.
Lemma WriteFuncCallback_kept data n k t fs :
  let '(_, t', _) := WriteFuncCallback data n k t fs in
  cancel_ t' = cancel_ t ∧ download_file_path_ t' = download_file_path_ t ∧ thread_ t' = thread_ t.
Proof. unfold WriteFuncCallback, write_out. by destruct data, (file_ t). Qed.
(** The end of a thread that was told to stop *)
Lemma Perform_stopped code rcode tt sp now ren rc t e :
  code ≠ CURLE_OK → cancel_ t = true → ∃ e' t', Perform code rcode tt sp now ren rc t e = Some e' ∧
    http_task_ e' = Some t' ∧ thread_ t' = Quit ∧ download_file_path_ t' = download_file_path_ t ∧ same_names e e'.
Proof.
  intros Hc Ht. unfold Perform. simpl. rewrite Ht, orb_true_r. unfold finish, CloseFile. simpl.
  rewrite (proj2 (Z.eqb_neq _ _)) by done.
  match goal with |- context [flush ?t0 ?fs0] => pose proof (flush_kept t0 fs0) as [Hcode Hq]; destruct (flush t0 fs0) as [t2 fs] end.
  simpl in *. unfold TaskUpdate_result, UpdateResult. simpl. rewrite Hcode, (proj2 (Z.eqb_neq _ _)) by done.
  destruct (listener_ t2); simpl; eexists _, _; (split; [done|]); (split; [done|]); unfold same_names; simpl; split_and!; congruence.
Qed.
Lemma thread_stops evs e t :
  stops evs = true → http_task_ e = Some t → cancel_ t = true → ∃ e' t', WaitThreadQuit evs e = Some e' ∧
    http_task_ e' = Some t' ∧ thread_ t' = NoThread ∧ download_file_path_ t' = download_file_path_ t ∧ same_names e e'.
Proof.
  revert e t. induction evs as [|ev evs IH]; intros e t Hs Ht Hc; [done|]. unfold WaitThreadQuit. fold WaitThreadQuit.
  rewrite Ht. destruct (thread_ t) as [|rc off|] eqn:Hth.
  - eexists _, _. split; [done|]. by split_and!.
  - unfold thread_step. rewrite Ht, Hth. destruct ev as [data n k|dl dn ct now|code rcode tt sp now ren].
    + pose proof (WriteFuncCallback_kept data n k t (files e)) as Hw. destruct (WriteFuncCallback _ _ _ _ _) as [[m t1] fs].
      destruct Hw as (Hc1 & Hp1 & _). rewrite <-Hc1 in Hc. destruct (IH (with_task (t1, fs) e) t1) as (e' & t' & ? & ? & ? & Hp & Hn); [done..|].
      exists e', t'. split_and!; [done..|congruence|exact Hn].
    + unfold ProgressFuncCallback. rewrite Hc. by apply IH.
    + simpl in Hs. apply negb_true_iff, Z.eqb_neq in Hs.
      destruct (Perform_stopped code rcode tt sp now ren rc t e Hs Hc) as (e1 & t1 & -> & Ht1 & Hth1 & Hp1 & Hn1).
      assert (WaitThreadQuit evs e1 = Some (set_http (Some (set_thread NoThread t1)) e1)) as ->
        by (destruct evs; simpl; by rewrite Ht1, Hth1).
      eexists _, _. split; [done|]. by split_and!.
  - eexists _, _. split; [done|]. by split_and!.
Qed.
(** Joining a thread that was told to stop *)
Lemma join_stopped evs e :
  stops evs = true → shaped e → ∃ e' t', WaitThreadQuit evs (on_http (set_cancel true) e) = Some e' ∧
    http_task_ e' = Some t' ∧ thread_ t' = NoThread ∧ download_file_path_ t' = tmp_file_path_ e ∧ same_names e e'.
Proof.
  intros Hj (t & Ht & Hp & _). destruct (thread_stops evs (on_http (set_cancel true) e) (set_cancel true t)) as (e' & t' & ? & ? & ? & Hq & Hn);
    [done|unfold on_http; simpl; by rewrite Ht|done|]. exists e', t'. split_and!; [done..|by rewrite Hq|exact Hn].
Qed.

(** Starting, whether or not the file can be opened *)
Lemma CreateTempFile_path opened t fs :
  let '(_, t', _) := CreateTempFile opened t fs in
  download_file_path_ t' = download_file_path_ t ∧ thread_ t' = thread_ t.
Proof. unfold CreateTempFile. by destruct (file_ t), opened. Qed.
Lemma attempt_path rc now t fs : download_file_path_ (attempt rc now t fs).1 = download_file_path_ t.
Proof.
  unfold attempt, SetFileSize.
  match goal with |- context [flush ?t0 ?fs0] => pose proof (NetCurlSpec.flush_path t0 fs0) as H; destruct (flush t0 fs0) as [t1 fs1] end.
  exact H.
Qed.
Lemma Start_survives opened now e :
  shaped e → unjoined e = false → ∃ r e', Start opened now e = Some (r, e') ∧ shaped e'.
Proof.
  intros Hs Hu. pose proof Hs as (t & Ht & Hp & _). unfold Start, unjoined in *. rewrite Ht in *.
  pose proof (CreateTempFile_path opened t (files e)) as Hc. destruct (CreateTempFile _ _ _) as [[r t1] fs].
  destruct Hc as [Hc1 Hc2]. destruct (r =? DownloadErrorCode.kNormal).
  - unfold Start_http. rewrite Hc2. destruct (thread_ t); [|done|done].
    eexists _, _. split; [done|]. eapply shaped_names; [done|done|done|]. rewrite attempt_path. congruence.
  - eexists _, _. split; [done|]. eapply shaped_names; [done|done|done|simpl; congruence].
Qed.
Lemma Reset_http_survives evs e :
  stops evs = true → shaped e → ∃ e' t', Reset_http evs e = Some e' ∧ http_task_ e' = Some t' ∧ thread_ t' = NoThread ∧
    download_file_path_ t' = tmp_file_path_ e ∧ same_names e e'.
Proof.
  intros He Hs. destruct (join_stopped evs e He Hs) as (e' & t' & Hj & Ht & Hth & Hp & Hn). unfold Reset_http. rewrite Hj.
  eexists _, (set_cancel false (set_thread NoThread t')). split; [done|]. unfold on_http, same_names in *. simpl. rewrite Ht.
  destruct Hn as (?&?&?). by split_and!.
Qed.
Lemma ResumeBreakPoint_survives opened now evs e :
  stops evs = true → shaped e → ∃ r e', ResumeBreakPoint opened evs now e = Some (r, e') ∧ shaped e'.
Proof.
  intros He Hs. pose proof Hs as (t & Ht & Hp & _). unfold ResumeBreakPoint. rewrite Ht.
  pose proof (CreateTempFile_path opened t (files e)) as Hc. destruct (CreateTempFile _ _ _) as [[r t1] fs].
  destruct Hc as [Hc1 Hc2]. assert (shaped (with_task (t1, fs) e)) as Hs1.
  { eapply shaped_names; [done|done|done|simpl; congruence]. }
  destruct (_ && _); [|by eexists _, _].
  destruct (Reset_http_survives evs _ He Hs1) as (e2 & t2 & -> & Ht2 & Hth2 & Hp2 & Hn2).
  unfold on_http. simpl. rewrite Ht2. simpl. unfold Start_http. simpl (thread_ _). rewrite Hth2.
  eexists _, _. split; [done|]. eapply (shaped_names (with_task (t1, fs) e)); [done|exact Hn2|done|].
  rewrite attempt_path. exact Hp2.
Qed.
Lemma TryReStart_survives opened now evs e :
  stops evs = true → shaped e → ∃ e', TryReStart opened evs now e = Some e' ∧ shaped e'.
Proof.
  intros He Hs. unfold TryReStart. destruct (is_http_task_resume_ e); cbn [negb].
  - destruct (_ <? _); [|by eexists]. destruct (join_stopped evs e He Hs) as (e' & t' & -> & Ht & Hth & Hp & Hn).
    assert (tmp_file_path_ e' ≠ EmptyString) as Hne by (destruct Hn as (_ & _ & ->); by destruct Hs as (? & _ & _ & ? & _)).
    destruct (Start_survives opened now (InitTask e')) as (r & e2 & -> & ?);
      [|unfold unjoined; simpl; unfold SetDownloadPath; by destruct (str_empty _)|by eexists].
    eapply shaped_names; [exact Hs|exact Hn|done|]. simpl. unfold SetDownloadPath.
    rewrite str_empty_nonempty by done. simpl. by destruct Hn as (_ & _ & ->).
  - eexists. split; [done|]. by destruct Hs as (t & ? & ? & ? & ?); exists t.
Qed.

(** ** The interface *)
Inductive Call :=
  | CStart | CPause | CResume (is_failed : bool) | CCancel (is_delete_local_file : bool)
  | CGetProgressInfo (info : DownloadProgressInfo) | CValid (is_finished : bool) | CGetTaskHash
  | CParseLink (link : string) | CResumeBreakPoint | CSetMaxDownloadSpeed (max_download_speed : Z)
  | CReset | CTryReStart.
Definition call (h : Handle) (c : Call) (s : NetState) : NetState :=
  match c with
  | CStart => (i_Start h s).2
  | CPause => (i_Pause h s).2
  | CResume is_failed => (i_Resume h is_failed s).2
  | CCancel is_delete => (i_Cancel h is_delete s).2
  | CGetProgressInfo info => (i_GetProgressInfo h info s).2
  | CValid is_finished => (i_Valid h is_finished s).2
  | CGetTaskHash => (i_GetTaskHash h s).2
  | CParseLink link => (c_ParseLink h link s).2
  | CResumeBreakPoint => (c_ResumeBreakPoint h s).2
  | CSetMaxDownloadSpeed v => (c_SetMaxDownloadSpeed h v s).2
  | CReset => (c_Reset h s).2
  | CTryReStart => (c_TryReStart h s).2
  end.
Definition task_at (h : Handle) (s : NetState) : CurlDownloadTaskImpl :=
  default (CurlDownloadTaskImpl_new ∅) (ne_tasks s !! h).
(** What a call needs *)
Definition allowed (h : Handle) (c : Call) (s : NetState) : bool :=
  match c with
  | CStart => negb (unjoined (task_at h s))
  | CPause => ne_race s || negb (transferring (task_at h s))
  | CResume is_failed => ne_race s || is_failed || negb (is_started_ (task_at h s)) || negb (transferring (task_at h s))
  | CSetMaxDownloadSpeed v => in_int64 (v * 1024)
  | _ => true
  end.
Fixpoint calls (h : Handle) (cs : list Call) (s : NetState) : bool * NetState :=
  match cs with
  | [] => (true, s)
  | c :: cs => let '(b, s') := calls h cs (call h c s) in (allowed h c s && b, s')
  end.
Definition alive (h : Handle) (s : NetState) : Prop :=
  ne_dead s = false ∧ stops (ne_join s) = true ∧ ∃ t, ne_tasks s !! h = Some t ∧ shaped t.

Lemma shaped_files fs t : shaped t → shaped (set_files fs t).
Proof. by intros (x & ? & ? & ? & ?); exists x. Qed.
Lemma on_task_alive {A} (d : A) (f : CurlDownloadTaskImpl → option (A * CurlDownloadTaskImpl)) h s :
  alive h s → (∀ t, ne_tasks s !! h = Some t → shaped (set_files (ne_files s) t) →
    ∃ a t', f (set_files (ne_files s) t) = Some (a, t') ∧ shaped t') →
  alive h (on_task d f h s).2.
Proof.
  intros (Hd & Hj & t & Ht & Hs) Hf. unfold on_task. rewrite Hd, Ht.
  destruct (Hf t Ht) as (a & t' & -> & Hs'); [by apply shaped_files|]. simpl. split; [done|]. split; [done|].
  exists t'. split; [apply lookup_insert_eq | done].
Qed.
(** Operations that touch neither the thread nor the names *)
Lemma shaped_kept e e' : shaped e → same_names e e' → http_task_ e' = http_task_ e → shaped e'.
Proof. intros Hs Hn Hh. pose proof Hs as (t & Ht & Hp & _). eapply shaped_names; eauto. congruence. Qed.
Lemma GetProgressInfo_kept info e :
  same_names e (GetProgressInfo info e).2 ∧ http_task_ (GetProgressInfo info e).2 = http_task_ e.
Proof. unfold GetProgressInfo. cbv zeta. unfold same_names. repeat case_match; simpl; split_and!; done. Qed.
Lemma FinalFileExist_kept e :
  same_names e (FinalFileExist e).2 ∧ http_task_ (FinalFileExist e).2 = http_task_ e ∧ files (FinalFileExist e).2 = files e.
Proof. unfold FinalFileExist, same_names. by destruct (str_empty _). Qed.
Lemma Valid_survives fin e : shaped e → ∃ r e', Valid fin e = Some (r, e') ∧ shaped e'.
Proof.
  intros Hs. destruct fin; simpl.
  - destruct (FinalFileExist_kept e) as (? & ? & _). destruct (FinalFileExist e) as [r e'].
    eexists _, _. split; [done|]. by eapply shaped_kept.
  - unfold TempFileExist. pose proof Hs as (t & _ & _ & Hne & _).
    rewrite str_empty_nonempty by done. by eexists _, _.
Qed.
Lemma ParseLink_survives parsed size e : shaped e → ∃ r e', ParseLink parsed size e = Some (r, e') ∧ shaped e'.
Proof.
  intros Hs. pose proof Hs as (t & Ht & Hp & Hne & Hn). unfold ParseLink, memcpy_name. fold (name_of e).
  rewrite (proj2 (Nat.ltb_lt _ _)) by done. eexists _, _. split; [done|]. exists t. split_and!; try done.
  unfold name_of in *. simpl. destruct (str_empty (file_name_ e)) eqn:He.
  - apply str_empty_true in He. rewrite He, NetCurlSpec.append_tail by (simpl; lia).
    destruct (str_empty _) eqn:He2; done.
  - rewrite NetCurlSpec.append_tail by done. by rewrite He.
Qed.
Lemma ParseTask_answers s url : is_Some (ParseTask_Parse 2 0 (answers s url)).
Proof. unfold answers. destruct (ne_web s !! url) as [c|]; [|by vm_compute; eexists]. simpl. repeat case_match; by eexists. Qed.
Lemma CloseFile_path t fs : download_file_path_ (CloseFile t fs).1 = download_file_path_ t.
Proof. unfold CloseFile. pose proof (NetCurlSpec.flush_path t fs). by destruct (flush t fs). Qed.
Lemma Cancel_http_survives del rt evs e :
  stops evs = true → shaped e → ∃ r e', Cancel_http del rt evs e = Some (r, e') ∧ shaped e'.
Proof.
  intros He Hs. pose proof Hs as (t & Ht & Hp & _).
  assert (∃ e1 t1, (if cancel_ t then Some e else WaitThreadQuit evs (on_http (set_cancel true) e)) = Some e1 ∧
    http_task_ e1 = Some t1 ∧ download_file_path_ t1 = tmp_file_path_ e ∧ same_names e e1) as (e1 & t1 & Hj & Ht1 & Hp1 & Hn).
  { destruct (cancel_ t); [by exists e, t|]. destruct (join_stopped evs e He Hs) as (e1 & t1 & ? & ? & _ & ? & ?).
    by exists e1, t1. }
  unfold Cancel_http. rewrite Ht, Hj, Ht1.
  pose proof (CloseFile_path t1 (files e1)) as Hc. destruct (CloseFile t1 (files e1)) as [t2 fs]. simpl in Hc.
  destruct del; [destruct (DeleteLocalTempFile rt t2 fs) as [r fs2]|];
    (eexists _, _; split; [done|]; eapply (shaped_names e); [done|exact Hn|done|]; simpl; congruence).
Qed.
Lemma Cancel_survives del evs e : stops evs = true → shaped e → ∃ r e', Cancel del true true evs e = Some (r, e') ∧ shaped e'.
Proof.
  intros He Hs. unfold Cancel. pose proof Hs as (t & Ht & _). rewrite Ht.
  destruct del; [|by apply Cancel_http_survives].
  unfold DeleteFinalFinishFile. destruct (FinalFileExist_kept e) as (Hn & Hh & _).
  destruct (FinalFileExist e) as [found e1]. simpl in *. assert (shaped e1) as Hs1 by by eapply shaped_kept.
  destruct found; (apply Cancel_http_survives; [done|]); [by apply shaped_files | done].
Qed.

(** Every call *)
(** Pausing and resuming what runs *)
Lemma easy_pause_kept b e t : http_task_ e = Some t → b || negb (transferring e) = true → curl_easy_pause b t = Some t.
Proof. unfold transferring, curl_easy_pause. intros ->. destruct (thread_ t); [done| |done]. by destruct b. Qed.
Lemma Pause_survives b now e : shaped e → b || negb (transferring e) = true → ∃ r e', Pause b now e = Some (r, e') ∧ shaped e'.
Proof.
  intros Hs Hb. pose proof Hs as (t & Ht & Hp & Hrest). unfold Pause. rewrite Ht, (easy_pause_kept b e t) by done.
  eexists _, _. split; [done|]. by exists t.
Qed.
Lemma Resume_survives b is_failed opened evs now e :
  stops evs = true → shaped e → b || is_failed || negb (is_started_ e) || negb (transferring e) = true →
  ∃ r e', Resume b is_failed opened evs now e = Some (r, e') ∧ shaped e'.
Proof.
  intros He Hs Hb. unfold Resume. destruct (is_started_ e); cbn [negb] in *; [|by apply ResumeBreakPoint_survives].
  destruct is_failed.
  - destruct (ResumeBreakPoint_survives opened now evs e He Hs) as (r & e' & -> & ?).
    destruct r; eexists _, _; (split; [done|]); [|done]. by apply (shaped_kept e').
  - rewrite !orb_false_r in Hb. pose proof Hs as (t & Ht & Hp & Hrest). rewrite Ht, (easy_pause_kept b e t) by done.
    eexists _, _. split; [done|]. by exists t.
Qed.
Lemma call_survives h c s : alive h s → allowed h c s = true → alive h (call h c s).
Proof.
  intros Hs Ha. pose proof Hs as (_ & He & _).
  destruct c as [| |is_failed|del|info|fin| |link| |v| |]; cbn [call allowed] in *;
    apply on_task_alive; try done; intros t Ht Hsh.
  - unfold task_at in Ha. rewrite Ht in Ha. apply negb_true_iff in Ha. by apply Start_survives.
  - unfold task_at in Ha. rewrite Ht in Ha. by apply Pause_survives.
  - unfold task_at in Ha. rewrite Ht in Ha. by apply Resume_survives.
  - by apply Cancel_survives.
  - destruct (GetProgressInfo_kept info (set_files (ne_files s) t)) as [? ?].
    destruct (GetProgressInfo info _) as [i e']. eexists _, _. split; [done|]. by eapply shaped_kept.
  - by apply Valid_survives.
  - by eexists _, _.
  - unfold parse_link. destruct (ParseTask_answers s link) as [[size err] ->]. by apply ParseLink_survives.
  - by apply ResumeBreakPoint_survives.
  - unfold unit_op, Impl_SetMaxDownloadSpeed. rewrite Ha. simpl. eexists _, _. split; [done|].
    destruct Hsh as (x & Hx & Hp & Hne & Hn). unfold on_http. simpl in *. rewrite Hx. by eexists.
  - unfold unit_op, Reset. destruct Hsh as (x & Hx & Hrest).
    match goal with |- context [Reset_http _ ?e0] =>
      assert (shaped e0) as Hs0 by (by exists x); destruct (Reset_http_survives (ne_join s) e0 He Hs0) as (e' & t' & Hr & Ht' & _ & Hp' & Hn') end.
    simpl in *. rewrite Hx, Hr. simpl. eexists _, _. split; [done|]. by eapply shaped_names.
  - unfold unit_op. destruct (TryReStart_survives (ne_disk s) (ne_clock s) (ne_join s) _ He Hsh) as (e' & -> & ?).
    by eexists _, _.
Qed.
(** A thread object that is replaced while it runs, or before it is joined, ends
    the process. *)
Lemma Start_unjoined_dies opened now e : shaped e → unjoined e = true → opened = true → Start opened now e = None.
Proof.
  intros (t & Ht & _) Hu ->. unfold unjoined, Start in *. rewrite Ht in *.
  pose proof (CreateTempFile_path true t (files e)) as Hc. unfold CreateTempFile in *.
  destruct (file_ t); unfold Start_http; simpl; by destruct (thread_ t).
Qed.
(** The http engine survives every sequence of calls of its interface on a
    download that has its parameters and keeps it that way, whatever a thread that
    is told to stop still does before it ends with an error; what a call needs is
    that a limit fits in 64 bits, that a download is started only when its thread
    was joined, and that libcurl gets over the pause of a transfer that runs.
    Starting a download whose thread was not joined, where its file can be opened,
    ends the process.  ([SetParam], which replaces the object, is not among the
    calls.) *)
Theorem engine_calls_survive h s :
  alive h s →
  (∀ cs, (calls h cs s).1 = true → alive h (calls h cs s).2) ∧
  (ne_disk s = true → unjoined (task_at h s) = true → ne_dead (call h CStart s) = true).
Proof.
  intros Hs. split.
  - intros cs. revert s Hs. induction cs as [|c cs IH]; intros s Hs; simpl; [done|].
    specialize (IH (call h c s)). destruct (calls h cs (call h c s)) as [b s'] eqn:E. simpl in *.
    rewrite andb_true_iff. intros [Ha ->]. apply IH; [|done]. by apply call_survives.
  - destruct Hs as (Hd & _ & t & Ht & Hsh). unfold task_at. rewrite Ht. simpl. intros Hdisk Hu.
    unfold on_task. rewrite Hd, Ht. by rewrite (Start_unjoined_dies _ _ _ (shaped_files _ _ Hsh) Hu Hdisk).
Qed.

(** ** The server with this engine *)
(** Every valid sequence of events runs: on its side of the interface the server
    does nothing undefined. *)
Lemma net_run_safe evs s : dm_ok s → net_valid evs s → ∃ s', net_run evs s = Some s' ∧ dm_ok s'.
Proof.
  revert s. induction evs as [|ev evs IH]; intros s Hs; simpl; [by exists s|]. intros [Hv Hrest].
  destruct (wp_run _ _ _ (wp_run_event _ _ Hs Hv)) as ([] & s1 & Hr & Hs1).
  unfold net_event in *. rewrite Hr in *. simpl in *. apply IH; [done|]. by apply Hrest.
Qed.
(** ** Runs *)
Definition net_content : bytes := Byte.x61 :: Byte.x62 :: Byte.x63 :: [Byte.x64].
Definition net_cf : ContextField := mkContextField "token" "alice" "op-1".
Definition net_start : DS :=
  mkDS (mkManager ∅ 0 ∅)
    (mkWorld (NetState_init (<["http://host/a.bin" := net_content]> ∅) ∅) ∅ [] [] [] SystemCloudConfig_init).
Definition net_source (id url name : string) : SourceData := mkSourceData id url "/s" name "4".
Definition req (r : Request) : NetEvent := Server (EvRequest r net_cf).
Definition tick : NetEvent := Server (EvTick "alice").
Definition one_at_a_time : NetEvent := Server (EvUserSetting "alice" "task_limit_count" "1").
Definition create (id url name : string) : NetEvent := req (RCreateLink [net_source id url name]).
(** What a run shows: each task's status, whether the server started it, whether the
    engine's thread runs it; the files; whether the process is still there *)
Definition running (s : DS) (h : option Handle) : option thread :=
  h ← h; t ← ne_tasks (w_env (ds_w s)) !! h; thread_ <$> http_task_ t.
Definition shown (s : DS) : list (string * TaskStatus * option bool * option thread) :=
  match managers s !! "alice" with
  | Some m => (λ kt, (kt.1, status_of kt.2, ti_is_started <$> t_info kt.2, running s (t_impl kt.2))) <$> map_to_list (m_task_list m)
  | None => []
  end.
Definition shown_files (s : DS) : list (string * bytes) := map_to_list (ne_files (w_env (ds_w s))).
Definition ran (evs : list NetEvent) : DS := default net_start (net_run evs net_start).
Lemma ran_eq evs s : net_run evs net_start = Some s → ran evs = s.
Proof. unfold ran. by intros ->. Qed.
Definition runs (evs : list NetEvent) : bool := match net_run evs net_start with Some _ => true | None => false end.
Lemma ran_defined evs : runs evs = true → net_run evs net_start = Some (ran evs).
Proof. unfold runs, ran. by destruct (net_run evs net_start). Qed.

(** A request, a transfer in two pieces with a report, and the timer *)
Definition first_download : list NetEvent :=
  [create "t1" "http://host/a.bin" "a.bin"; one_at_a_time;
   Thread 1 (EWrite [Byte.x61; Byte.x62] 2 0); Thread 1 (EProgress 4 2 0 1001500); Thread 1 (EWrite [Byte.x63; Byte.x64] 2 0);
   tick; Thread 1 (EReturned CURLE_OK 200 0 0 1002000 true); tick].
Example http_download_delivered :
  shown (ran first_download) = [("t1", TaskStatus.kFinished, Some true, Some Quit)] ∧
  shown_files (ran first_download) = [("/s/a.bin", net_content)].
Proof. vm_compute. split; reflexivity. Qed.

(** A download that cannot be started fails without having been started; put into
    the recycle bin and restored it is resumed, which starts the engine but not the
    server's mark; paused and resumed it is started again. *)
Definition failed_start : list NetEvent :=
  [create "t1" "http://host/a.bin" "a.bin"; one_at_a_time; create "t2" "http://host/b.bin" "b.bin";
   Thread 1 (EWrite net_content 4 0); tick; Thread 1 (EReturned CURLE_OK 200 0 0 1002000 true);
   Disk false; tick; tick; tick; Disk true].
Example failed_start_shown :
  shown (ran failed_start) =
    [("t1", TaskStatus.kFinished, Some true, Some Quit); ("t2", TaskStatus.kFailed, Some false, Some NoThread)].
Proof. vm_compute. reflexivity. Qed.
Definition restored_failed : list NetEvent :=
  [req (RDelete ["t2"] false); req (RRestore ["t2"]); Posted; req (RPause ["t2"]); req (RResume ["t2"])].

(** The server and the http engine disagree about what was started.  Restoring a
    failed download resumes it, which starts the engine's thread without the
    server noting it; paused and resumed it is started again, and the thread that
    still runs is replaced: on its side of the interface the server does nothing
    undefined in the whole run, but the process is ended.  With the same events
    but the last it is not. *)
Example restored_download_kills_server :
  runs (failed_start ++ restored_failed) = true ∧
  ne_dead (w_env (ds_w (ran (failed_start ++ restored_failed)))) = true ∧
  ne_dead (w_env (ds_w (ran (failed_start ++ take 4 restored_failed)))) = false.
Proof. vm_compute. split_and!; reflexivity. Qed.
(** These runs pause transfers, and libcurl gets over it.  Where it does not, the
    first pause of a running download is the end. *)
Example pause_of_running_kills :
  ne_dead (w_env (ds_w (ran [create "t1" "http://host/a.bin" "a.bin"; Race false]))) = false ∧
  ne_dead (w_env (ds_w (ran [create "t1" "http://host/a.bin" "a.bin"; Race false; req (RPause ["t1"])]))) = true.
Proof. vm_compute. split; reflexivity. Qed.

(** A download that fails within two minutes of a pause and is retried when the
    limit is reached is queued; when its turn comes it is resumed as one that was
    paused, so nothing is transferred, and it is shown as downloading for ever. *)
Definition queued_retry : list NetEvent :=
  [create "t1" "http://host/a.bin" "a.bin"; one_at_a_time; req (RPause ["t1"]); req (RResume ["t1"]); Posted;
   Thread 1 (EReturned 56 0 0 0 1002000 false); Thread 1 (EReturned 56 0 0 0 1003000 false);
   Thread 1 (EReturned 56 0 0 0 1004000 false); tick; tick;
   create "t2" "http://host/b.bin" "b.bin"; req (RRetry ["t1"]); req (RDelete ["t2"] false); tick; Posted].
Example queued_retry_stalls :
  let stalled := [("t1", TaskStatus.kDownloading, Some true, Some NoThread); ("t2", TaskStatus.kDeleted, Some true, Some (Performing 3 0))] in
  shown (ran queued_retry) = stalled ∧
  shown (ran (queued_retry ++ [tick; Wait 1000000000; tick; tick; tick])) = stalled.
Proof. vm_compute. split; reflexivity. Qed.

(** The engine's object behind the first download, while its thread runs *)
Definition demo_net : NetState := w_env (ds_w (ran [create "t1" "http://host/a.bin" "a.bin"])).
Lemma engine_calls_survive_witness :
  alive 1%N (calls 1%N [CPause; CResume false; CGetProgressInfo (DownloadProgressInfo_init d_zero); CReset; CStart; CCancel true] demo_net).2 ∧
  ne_dead (call 1%N CStart demo_net) = true.
Proof.
  assert (alive 1%N demo_net) as Halive.
  { split; [vm_compute; reflexivity|]. split; [vm_compute; reflexivity|]. exists (task_at 1%N demo_net). split; [vm_compute; reflexivity|].
    exists (default HttpDownloadTask_new (http_task_ (task_at 1%N demo_net))).
    split; [vm_compute; reflexivity|]. split; [vm_compute; reflexivity|]. split; [vm_compute; discriminate|].
    apply Nat.ltb_lt. vm_compute. reflexivity. }
  destruct (engine_calls_survive 1%N demo_net Halive) as [Hcalls Hdies]. split.
  - apply Hcalls. vm_compute. reflexivity.
  - apply Hdies; vm_compute; reflexivity.
Defined.
