(* ===== verification/NasConfig.v ===== *)
(** * Configuration files and directories

    [common/json_cfg/json_cfg.cc]: a file whose root is a JSON dictionary, read and
    written as a whole; [common/nas_config.cc]: where the service is installed, and
    the directories derived from it.  The POSIX build is modelled.  The text of a
    file is opaque: only the JSON reader and writer of Chromium look into it
    ([JsonLib]); the file system is a map of files and a set of directories.  A JSON
    null, which no getter returns, has no [Value]. *)

From S2P Require Import Prelude CppBase BaseRef PathUnit.
From stdpp Require Import gmap.

(** ** The libraries *)
(** What JSON can hold: texts in UTF-8, 32-bit integers *)
Fixpoint json_value (utf8 : string → bool) (v : Value) : bool :=
  match v with
  | VString s => utf8 s
  | VInt z => in_int32 z
  | VBool _ | VDouble _ => true
  | VDoubleString _ => false
  | VList l => forallb (json_value utf8) l
  | VDict d => forallb (λ kv, utf8 kv.1 && json_value utf8 kv.2) d
  end.
Class JsonLib := {
  text : Type;
  (** [base::JSONReader::Read], [base::JSONWriter::Write] of a dictionary *)
  JSONReader_Read : text → option Value;
  JSONWriter_Write : Dict → option text;
  (** [base::IsStringUTF8] *)
  utf8 : string → bool
}.
Class JsonLaws (J : JsonLib) : Prop := {
  (** what JSON can hold is written, and reads back as the same entries *)
  json_roundtrip : ∀ d, json_value utf8 (VDict d) = true →
    ∃ t d', JSONWriter_Write d = Some t ∧ JSONReader_Read t = Some (VDict d') ∧ ∀ k, dict_get k d' = dict_get k d;
  (** the reader accepts nothing else *)
  json_read : ∀ t v, JSONReader_Read t = Some v → json_value utf8 v = true
}.
(** [base::Value::Dict::Set] *)
Fixpoint dict_set (k : string) (v : Value) (d : Dict) : Dict :=
  match d with
  | [] => [(k, v)]
  | (k', v') :: d => if bool_decide (k' = k) then (k, v) :: d else (k', v') :: dict_set k v d
  end.

Section Config.
Context `{bl : BaseLib} `{J : JsonLib}.

(** [PathExists] is true of a file and of a directory. *)
Record Disk := mkDisk { d_files : gmap string text; d_dirs : gset string }.
Definition PathExists (p : string) (s : Disk) : bool :=
  bool_decide (is_Some (d_files s !! p)) || bool_decide (p ∈ d_dirs s).

(** ** [class JsonFile] *)
Record JsonFile := mkJsonFile { file_path_ : string; root_ : Value }.
Definition JsonFile_new (file_path : string) (s : Disk) : JsonFile :=
  mkJsonFile file_path
    (default (VDict []) (content ← d_files s !! file_path; JSONReader_Read content)).
Definition GetIfDict (v : Value) : option Dict := match v with VDict d => Some d | _ => None end.
Definition GetIfInt (v : Value) : option Z := match v with VInt z => Some z | _ => None end.
Definition GetIfBool (v : Value) : option bool := match v with VBool b => Some b | _ => None end.
Definition GetIfString (v : Value) : option string := match v with VString x => Some x | _ => None end.
Definition FindInt (k : string) (d : Dict) : option Z := dict_get k d ≫= GetIfInt.
Definition FindBool (k : string) (d : Dict) : option bool := dict_get k d ≫= GetIfBool.
Definition FindString (k : string) (d : Dict) : option string := dict_get k d ≫= GetIfString.
(** [FindByDottedPath]: the parts between the dots are keys of nested dictionaries. *)
Fixpoint split_dots (l acc : list ascii) : list string :=
  match l with
  | [] => [str_of (reverse acc)]
  | c :: l => if bool_decide (c = "."%char) then str_of (reverse acc) :: split_dots l [] else split_dots l (c :: acc)
  end.
Fixpoint find_keys (ks : list string) (d : Dict) : option Value :=
  match ks with
  | [] => None
  | [k] => dict_get k d
  | k :: ks => match dict_get k d with Some (VDict d') => find_keys ks d' | _ => None end
  end.
Definition FindByDottedPath (path : string) (d : Dict) : option Value := find_keys (split_dots (str_chars path) []) d.
(** The shape that the getters share: [value] is what the caller's variable holds. *)
Definition get {A} (find : Dict → option A) (value default_value : A) (use_default : bool) (j : JsonFile) : bool * A :=
  match GetIfDict (root_ j) ≫= find with
  | Some v => (true, v)
  | None => if use_default then (true, default_value) else (false, value)
  end.
Definition GetInt (key : string) : Z → Z → bool → JsonFile → bool * Z := get (FindInt key).
Definition GetIntByPath (key : string) : Z → Z → bool → JsonFile → bool * Z :=
  get (λ d, FindByDottedPath key d ≫= GetIfInt).
Definition GetBool (key : string) : bool → bool → bool → JsonFile → bool * bool := get (FindBool key).
Definition GetString (key : string) : string → string → bool → JsonFile → bool * string := get (FindString key).
Definition GetStringByPath (path : string) : string → string → bool → JsonFile → bool * string :=
  get (λ d, FindByDottedPath path d ≫= GetIfString).
Definition Set_ (key : string) (value : Value) (j : JsonFile) : JsonFile :=
  match GetIfDict (root_ j) with
  | Some d => mkJsonFile (file_path_ j) (VDict (dict_set key value d))
  | None => j
  end.
Definition SetInt (key : string) (value : Z) : JsonFile → JsonFile := Set_ key (VInt value).
Definition SetString (key value : string) : JsonFile → JsonFile := Set_ key (VString value).
(** [writable]: whether the file can be written *)
Definition WriteFile (writable : bool) (j : JsonFile) (s : Disk) : bool * Disk :=
  match GetIfDict (root_ j) ≫= JSONWriter_Write with
  | Some content =>
      if writable then (true, mkDisk (<[file_path_ j := content]> (d_files s)) (d_dirs s)) else (false, s)
  | None => (false, s)
  end.
Definition NasConfigSetString (file_name key value : string) (writable : bool) (s : Disk) : Disk :=
  (WriteFile writable (SetString key value (JsonFile_new file_name s)) s).2.
Definition NasConfigSetInt (file_name key : string) (value : Z) (writable : bool) (s : Disk) : Disk :=
  (WriteFile writable (SetInt key value (JsonFile_new file_name s)) s).2.
Definition NasConfigGetString (file_name key value default_value : string) (use_default : bool) (s : Disk) : bool * string :=
  GetString key value default_value use_default (JsonFile_new file_name s).
Definition NasConfigGetStringByPath (file_name path value default_value : string) (use_default : bool) (s : Disk) : bool * string :=
  GetStringByPath path value default_value use_default (JsonFile_new file_name s).
Definition NasConfigGetInt (file_name key : string) (value default_value : Z) (use_default : bool) (s : Disk) : bool * Z :=
  GetInt key value default_value use_default (JsonFile_new file_name s).
Definition NasConfigGetIntByPath (file_name path : string) (value default_value : Z) (use_default : bool) (s : Disk) : bool * Z :=
  GetIntByPath path value default_value use_default (JsonFile_new file_name s).
Definition NasConfigGetBool (file_name key : string) (value default_value use_default : bool) (s : Disk) : bool * bool :=
  GetBool key value default_value use_default (JsonFile_new file_name s).

(** ** [nas_config.cc] *)
Record NasConf := mkNasConf { version : string; entry_dir : string; user_data_dir : string; sid : string }.
Definition NasConf_init : NasConf := mkNasConf EmptyString EmptyString EmptyString EmptyString.
(** [ReadNasConf]: what is missing stays. *)
Definition ReadNasConf (config_path : string) (nas_conf : NasConf) (s : Disk) : NasConf :=
  let read key old := (NasConfigGetString config_path key old EmptyString false s).2 in
  mkNasConf (read "version" (version nas_conf)) (read "entry_dir" (entry_dir nas_conf))
    (read "user_data_dir" (user_data_dir nas_conf)) (read "sid" (sid nas_conf)).

(** The executable's directory, the user's data directory of the platform,
    [base::FilePath::DirName] and [ReplaceExtension], whether a directory can be
    made and the parents that are made with it *)
Record Place := mkPlace {
  dir_exe : string;
  g_get_user_data_dir : string;
  DirName : string → string;
  ReplaceExtension : string → string → string;
  ReplaceSubstrings : string → string → string → string;
  can_create : string → bool;
  with_parents : string → gset string
}.
Context (pl : Place).

Definition CreateDirectoryAndGetError (p : string) (s : Disk) : bool * Disk :=
  if can_create pl p then (true, mkDisk (d_files s) ({[p]} ∪ with_parents pl p ∪ d_dirs s)) else (false, s).
Definition GetNasHomeDir (s : Disk) : string * Disk :=
  let cache_path := g_get_user_data_dir pl +:+ "/nas" in
  let '(ok, s) := CreateDirectoryAndGetError cache_path s in (if ok then cache_path else EmptyString, s).
Definition NasHomePathAppend (component : string) (s : Disk) : string * Disk :=
  let '(home, s) := GetNasHomeDir s in
  let path := FilePath_Append home component in
  if PathExists path s then (path, s)
  else let '(ok, s) := CreateDirectoryAndGetError path s in (if ok then path else EmptyString, s).
Definition GetNasConfigDir (s : Disk) : string * Disk := GetNasHomeDir s.
Definition GetNasLogDir (s : Disk) : string * Disk := NasHomePathAppend "log" s.
Definition GetNasDumpDir (s : Disk) : string * Disk := NasHomePathAppend "dump" s.

Definition kMaxDirDeepLevel : nat := 20.
Definition kInstallEntryFile : string := "nas.json".
(** [GetNasAppInstallDir]: the loop, with the levels that are left; a directory whose
    path has at most three characters is the last but is not looked into unless it
    is the first. *)
Fixpoint find_install_dir (max_dir_level : nat) (current_dir : string) (s : Disk) : string :=
  match max_dir_level with
  | O => EmptyString
  | S max_dir_level =>
      if PathExists (FilePath_Append current_dir kInstallEntryFile) s then current_dir
      else
        let current_dir := DirName pl current_dir in
        if (0 <? max_dir_level)%nat && (3 <? String.length current_dir)%nat
        then find_install_dir max_dir_level current_dir s else EmptyString
  end.
Definition GetNasAppInstallDir (s : Disk) : string := find_install_dir kMaxDirDeepLevel (dir_exe pl) s.
Definition read_install_conf (s : Disk) : NasConf :=
  let nas_json_path := FilePath_Append (GetNasAppInstallDir s) kInstallEntryFile in
  if PathExists nas_json_path s then ReadNasConf nas_json_path NasConf_init s else NasConf_init.
Definition GetNasEntryDir (s : Disk) : string := entry_dir (read_install_conf s).
Definition GetDataDir (s : Disk) : string := user_data_dir (read_install_conf s).
Definition GetUserSourceDataDir (user_id : string) (create_if_not_exists : bool) (s : Disk) : string * Disk :=
  let user_source_data_dir :=
    FilePath_Append (FilePath_Append (GetDataDir s) "user_data") (BaseFilePathFromU8 user_id) in
  if PathExists user_source_data_dir s then (user_source_data_dir, s)
  else
    let '(result, s) := if create_if_not_exists then CreateDirectoryAndGetError user_source_data_dir s else (false, s) in
    (if result then user_source_data_dir else EmptyString, s).
Definition CreateSubDir (parent sub_name : string) (s : Disk) : string * Disk :=
  let full_path := FilePath_Append parent sub_name in
  if PathExists full_path s then (full_path, s)
  else let '(result, s) := CreateDirectoryAndGetError full_path s in (if result then full_path else EmptyString, s).
Definition GetPublicSourceDataDir (s : Disk) : string * Disk := CreateSubDir (GetDataDir s) "user_data/public" s.
Definition GetGlobalConfigDir (s : Disk) : string * Disk := CreateSubDir (GetDataDir s) "global_config" s.
Definition GetAppConfigDir (s : Disk) : string * Disk := CreateSubDir (GetDataDir s) "app_config" s.
Definition GetNasCacheDir (s : Disk) : string * Disk := CreateSubDir (GetDataDir s) "cache" s.

(** Severities of the log, and [GetMinLogLevel] *)
Definition LOG_INFO : Z := 0.
Definition LOG_WARNING : Z := 1.
Definition LOG_ERROR : Z := 2.
Definition GetMinLogLevel (log_file_name : string) (s : Disk) : Z :=
  let log_switch_dir :=
    FilePath_Append (FilePath_Append (FilePath_Append (GetNasAppInstallDir s) (GetNasEntryDir s)) "services") "log" in
  let log_file_path := FilePath_Append log_switch_dir log_file_name in
  if PathExists (ReplaceExtension pl log_file_path "log.info.on") s then LOG_INFO
  else if PathExists (ReplaceExtension pl log_file_path "log.warning.on") s then LOG_WARNING
  else LOG_ERROR.

(** [while (level--)] *)
Definition levels_up (level : nat) : string := Nat.iter level (DirName pl) (dir_exe pl).
Definition GetNasWebResourceDir (relative_level : nat) : string :=
  FilePath_Append (FilePath_Append (levels_up relative_level) "openresty") "html".
Definition GetWebDirectAccessDir (relative_level : nat) : string :=
  FilePath_Append (GetNasWebResourceDir relative_level) "public".
Definition GetNasJsonFilePath (level : nat) : string := FilePath_Append (levels_up level) "nas.json".
Definition ReadNasConf_level (level : nat) (nas_conf : NasConf) (s : Disk) : NasConf :=
  ReadNasConf (GetNasJsonFilePath level) nas_conf s.
Definition Get7zFilePath (level : nat) : string := FilePath_Append (levels_up level) "7z.so".
Definition Get7zaFilePath (level : nat) : string := FilePath_Append (levels_up level) "7za".
Definition IsAutoTestModel (s : Disk) : bool := PathExists (FilePath_Append (dir_exe pl) "auto_test_on") s.

(** [ConvertNasEnvironment]: the names between ['#'] *)
Definition expand (name : string) (value result : string) : string :=
  if str_contains name result then ReplaceSubstrings pl result name value else result.
Definition ConvertNasEnvironment (input user_id : string) (s : Disk) : string :=
  if str_empty input || negb (str_contains "#" input) then input
  else
    let slashes p := ReplaceChars p "\" "/" in
    let result := expand "#homenasdata#" (slashes (GetDataDir s)) input in
    let result := expand "#homeuserdata#" (slashes (GetUserSourceDataDir EmptyString false s).1) result in
    expand "#userid#" user_id result.
End Config.

#[local] Open Scope Z_scope.

(** ** Configuration files and directories: their theorems

    Writing a setting is an insertion into the map of the file and changes nothing
    else ([config_refines_map]); the installation is found in the nearest directory
    above the executable ([install_dir_nearest]); a directory that is returned
    exists ([user_dir_exists]). *)
Section Claims.
Context `{bl : BaseLib} `{J : JsonLib} {laws : JsonLaws J}.
Implicit Types s : Disk.

(** The entries of a file, as every reader sees them *)
Definition view (s : Disk) (f : string) : option Dict := GetIfDict (root_ (JsonFile_new f s)).
Definition entry (s : Disk) (f k : string) : option Value := view s f ≫= dict_get k.

Lemma get_entry {A} (find : Value → option A) k value default_value use_default f s :
  get (λ d, dict_get k d ≫= find) value default_value use_default (JsonFile_new f s) =
  match entry s f k ≫= find with
  | Some v => (true, v)
  | None => if use_default then (true, default_value) else (false, value)
  end.
Proof. unfold get, entry, view. by destruct (GetIfDict _). Qed.

Lemma dict_get_set k v d k' : dict_get k' (dict_set k v d) = if bool_decide (k' = k) then Some v else dict_get k' d.
Proof.
  induction d as [|[k0 v0] d IH]; simpl.
  - repeat case_bool_decide; congruence.
  - destruct (decide (k0 = k)) as [->|Hne].
    + rewrite (bool_decide_true (k = k)) by done. simpl. repeat case_bool_decide; congruence.
    + rewrite (bool_decide_false (k0 = k)) by done. simpl. rewrite IH. repeat case_bool_decide; congruence.
Qed.
Lemma json_value_set k v d :
  json_value utf8 (VDict d) = true → utf8 k = true → json_value utf8 v = true →
  json_value utf8 (VDict (dict_set k v d)) = true.
Proof.
  intros Hd Hk Hv. simpl in *. induction d as [|[k0 v0] d IH]; simpl in *.
  - by rewrite Hk, Hv.
  - rewrite !andb_true_iff in Hd. destruct Hd as [[H1 H2] H3]. case_bool_decide; simpl.
    + by rewrite Hk, Hv, H3.
    + by rewrite H1, H2, IH.
Qed.
(** The root of a file is what JSON can hold. *)
Lemma root_json f s : json_value utf8 (root_ (JsonFile_new f s)) = true.
Proof.
  unfold JsonFile_new. simpl. destruct (d_files s !! f) as [t|]; simpl; [|done].
  destruct (JSONReader_Read t) as [v|] eqn:E; simpl; [|done]. by eapply json_read.
Qed.
Lemma GetIfDict_some v d : GetIfDict v = Some d → v = VDict d.
Proof. destruct v; simpl; congruence. Qed.

(** What a set and a write do to a file *)
Definition NasConfigSet (f key : string) (v : Value) (writable : bool) (s : Disk) : Disk :=
  (WriteFile writable (Set_ key v (JsonFile_new f s)) s).2.
Lemma NasConfigSet_entry f key v s :
  utf8 key = true → json_value utf8 v = true → is_Some (view s f) →
  let s' := NasConfigSet f key v true s in
  d_dirs s' = d_dirs s ∧ (∀ g k, entry s' g k = if bool_decide (g = f ∧ k = key) then Some v else entry s g k) ∧
  is_Some (view s' f) ∧ ∀ g, g ≠ f → view s' g = view s g.
Proof.
  intros Hk Hv [d Hd]. pose proof (root_json f s) as Hj. unfold view in Hd.
  pose proof (GetIfDict_some _ _ Hd) as Hroot. rewrite Hroot in Hj.
  unfold NasConfigSet, Set_. rewrite Hd. unfold WriteFile. simpl.
  destruct (json_roundtrip (dict_set key v d)) as (t & d' & -> & Hread & Hget); [by apply json_value_set|].
  simpl. set (s' := mkDisk (<[f:=t]> (d_files s)) (d_dirs s)).
  assert (view s' f = Some d') as Hf.
  { unfold view, JsonFile_new. simpl. rewrite lookup_insert_eq. simpl. by rewrite Hread. }
  assert (∀ g, g ≠ f → view s' g = view s g) as Hg.
  { intros g Hg. unfold view, JsonFile_new. simpl. by rewrite lookup_insert_ne. }
  split_and!; [done| |by rewrite Hf|done]. intros g k. unfold entry. destruct (decide (g = f)) as [->|Hgf].
  - rewrite Hf. unfold view. rewrite Hd. simpl. rewrite Hget, dict_get_set.
    case_bool_decide as H1; case_bool_decide as H2; naive_solver.
  - rewrite bool_decide_false by tauto. by rewrite Hg.
Qed.
Lemma NasConfigSet_nothing f key v writable s :
  writable = false ∨ view s f = None → NasConfigSet f key v writable s = s.
Proof.
  unfold NasConfigSet, Set_, WriteFile, view. intros [->|H].
  - destruct (GetIfDict (root_ (JsonFile_new f s))) as [d|] eqn:E; simpl; [by destruct (JSONWriter_Write _)|].
    simpl in E. by rewrite E.
  - rewrite H. by rewrite H.
Qed.

(** C25. A configuration file is a map: when its root is a dictionary (also when the
    file is missing or is not JSON, which counts as empty) and it can be written,
    writing a setting inserts it, for every getter and every other key and file;
    otherwise nothing changes.  What was written is what is read. *)
Theorem config_refines_map f key value writable s :
  utf8 key = true → utf8 value = true →
  let s' := NasConfigSetString f key value writable s in
  d_dirs s' = d_dirs s ∧
  match view s f, writable with
  | Some _, true =>
      (∀ g k, entry s' g k = if bool_decide (g = f ∧ k = key) then Some (VString value) else entry s g k) ∧
      (∀ old def use, NasConfigGetString f key old def use s' = (true, value)) ∧
      ∀ k use, k ≠ key →
        (∀ old def, NasConfigGetString f k old def use s' = NasConfigGetString f k old def use s) ∧
        (∀ old def, NasConfigGetInt f k old def use s' = NasConfigGetInt f k old def use s) ∧
        (∀ old def, NasConfigGetBool f k old def use s' = NasConfigGetBool f k old def use s)
  | _, _ => s' = s
  end.
Proof.
  intros Hk Hv s'. change s' with (NasConfigSet f key (VString value) writable s).
  assert (∀ writable, writable = false ∨ view s f = None → NasConfigSet f key (VString value) writable s = s) as Hno
    by (intros w; apply NasConfigSet_nothing).
  destruct (view s f) as [d|] eqn:Hd; [destruct writable|]; [|rewrite Hno by auto; done..].
  destruct (NasConfigSet_entry f key (VString value) s Hk Hv) as (Hdirs & Hentry & _ & _); [by rewrite Hd|].
  split; [done|]. split; [exact Hentry|]. split.
  - intros old def use. unfold NasConfigGetString, GetString, FindString. rewrite get_entry, Hentry.
    by rewrite bool_decide_true.
  - intros k use Hne. unfold NasConfigGetString, NasConfigGetInt, NasConfigGetBool, GetString, GetInt, GetBool,
      FindString, FindInt, FindBool. split_and!; intros old def;
      rewrite !get_entry, Hentry; by rewrite bool_decide_false by tauto.
Qed.

(** ** Directories *)
Section Directories.
Context (pl : Place).

Definition above (i : nat) (p : string) : string := Nat.iter i (DirName pl) p.
(** The loop looks into the [i]-th directory above. *)
Definition looked (n i : nat) (p : string) : Prop :=
  (i < n)%nat ∧ ∀ j, (0 < j ≤ i)%nat → (3 < String.length (above j p))%nat.
Definition installed (s : Disk) (p : string) : bool := PathExists (FilePath_Append p kInstallEntryFile) s.
Lemma above_shift i p : above i (DirName pl p) = above (S i) p.
Proof. induction i as [|i IH]; [done|]. unfold above in *. simpl in *. by rewrite IH. Qed.
Lemma looked_shift n i p : looked (S n) (S i) p ↔ (3 < String.length (DirName pl p))%nat ∧ looked n i (DirName pl p).
Proof.
  unfold looked. split.
  - intros [Hi H]. split; [by apply (H 1%nat); lia|]. split; [lia|]. intros j Hj. rewrite above_shift. apply H. lia.
  - intros (H1 & Hi & H). split; [lia|]. intros [|[|j]] Hj; [lia|done|]. rewrite <-above_shift. apply H. lia.
Qed.
Lemma find_install_dir_spec n p s :
  (∃ i, looked n i p ∧ installed s (above i p) = true ∧ (∀ j, (j < i)%nat → installed s (above j p) = false) ∧
     find_install_dir pl n p s = above i p) ∨
  (∀ i, looked n i p → installed s (above i p) = false) ∧ find_install_dir pl n p s = EmptyString.
Proof.
  revert p. induction n as [|n IH]; intros p; simpl; [right; split; [intros i [? _]; lia | done]|].
  fold (installed s p). destruct (installed s p) eqn:Hp.
  { left. exists 0%nat. split_and!; [split; intros; lia|done|intros; lia|done]. }
  destruct (Nat.ltb_spec 3 (String.length (DirName pl p))) as [Hlen|Hlen].
  - destruct (Nat.ltb_spec 0 n) as [Hn|Hn]; simpl.
    + destruct (IH (DirName pl p)) as [(i & Hi & Hd & Hlt & ->)|[Hnone ->]].
      * left. exists (S i). rewrite <-above_shift. split_and!; [by apply looked_shift|done| |done].
        intros [|j] Hj; [done|]. rewrite <-above_shift. apply Hlt. lia.
      * right. split; [|done]. intros [|i] Hi; [done|]. rewrite <-above_shift. by apply Hnone, (looked_shift n i p).
    + right. split; [|done]. intros [|i] [Hi _]; [done|lia].
  - rewrite andb_false_r. right. split; [|done]. intros [|i] Hi; [done|]. apply looked_shift in Hi. lia.
Qed.

(** The installation directory is the nearest directory at or above the
    executable's that has a nas.json, among the first twenty and below the root;
    if there is none it is empty. *)
Theorem install_dir_nearest s :
  (∃ i, looked 20 i (dir_exe pl) ∧ installed s (above i (dir_exe pl)) = true ∧
     (∀ j, (j < i)%nat → installed s (above j (dir_exe pl)) = false) ∧
     GetNasAppInstallDir pl s = above i (dir_exe pl)) ∨
  (∀ i, looked 20 i (dir_exe pl) → installed s (above i (dir_exe pl)) = false) ∧ GetNasAppInstallDir pl s = EmptyString.
Proof. apply find_install_dir_spec. Qed.

(** A directory that is returned exists, and nothing but it and its parents was made. *)
Definition dir_made (p : string) (s s' : Disk) : Prop :=
  d_files s' = d_files s ∧ d_dirs s ⊆ d_dirs s' ∧ d_dirs s' ⊆ {[p]} ∪ with_parents pl p ∪ d_dirs s ∧ (p ≠ EmptyString → PathExists p s' = true).
Lemma create_made p s : let '(ok, s') := CreateDirectoryAndGetError pl p s in dir_made (if ok : bool then p else EmptyString) s s'.
Proof.
  unfold CreateDirectoryAndGetError, dir_made. destruct (can_create pl p); simpl.
  - split_and!; try set_solver. intros _. unfold PathExists. simpl. rewrite (bool_decide_true (p ∈ _)) by set_solver.
    apply orb_true_r.
  - by split_and!; try set_solver.
Qed.
Lemma same_made p s : PathExists p s = true → dir_made p s s.
Proof. intros H. by split_and!; try set_solver. Qed.
Lemma user_dir_exists user_id create_if_not_exists s :
  let '(p, s') := GetUserSourceDataDir pl user_id create_if_not_exists s in dir_made p s s'.
Proof.
  unfold GetUserSourceDataDir. destruct (PathExists _ s) eqn:E; [by apply same_made|].
  destruct create_if_not_exists; [|by split_and!; try set_solver].
  pose proof (create_made (FilePath_Append (FilePath_Append (GetDataDir pl s) "user_data") (BaseFilePathFromU8 user_id)) s) as H.
  by destruct (CreateDirectoryAndGetError _ _ _).
Qed.
Lemma sub_dir_exists parent sub_name s : let '(p, s') := CreateSubDir pl parent sub_name s in dir_made p s s'.
Proof.
  unfold CreateSubDir. destruct (PathExists _ s) eqn:E; [by apply same_made|].
  pose proof (create_made (FilePath_Append parent sub_name) s) as H. by destruct (CreateDirectoryAndGetError _ _ _).
Qed.
(** A text without ['#'] is not touched. *)
Lemma ConvertNasEnvironment_plain input user_id s :
  str_contains "#" input = false → ConvertNasEnvironment pl input user_id s = input.
Proof. intros H. unfold ConvertNasEnvironment. by rewrite H, orb_true_r. Qed.
End Directories.
End Claims.

(** ** A concrete reader and writer *)
#[local] Instance ref_json : JsonLib := {|
  text := Value;
  JSONReader_Read v := if json_value (λ _, true) v then Some v else None;
  JSONWriter_Write d := if json_value (λ _, true) (VDict d) then Some (VDict d) else None;
  utf8 _ := true
|}.
#[local] Instance ref_json_laws : JsonLaws ref_json.
Proof.
  split.
  - intros d H. exists (VDict d), d. unfold JSONWriter_Write, JSONReader_Read. simpl in *. by rewrite H.
  - intros t v. simpl. case_match eqn:E; [|done]. by intros [= ->].
Qed.
Definition conf_disk : Disk := mkDisk (<["/opt/nas/nas.json" := VDict [("entry_dir", VString "v1"); ("limit", VInt 5)]]> ∅) ∅.
Lemma config_refines_map_witness :
  let s' := NasConfigSetString "/opt/nas/nas.json" "entry_dir" "v2" true conf_disk in
  NasConfigGetString "/opt/nas/nas.json" "entry_dir" EmptyString EmptyString false s' = (true, "v2") ∧
  NasConfigGetInt "/opt/nas/nas.json" "limit" 0 0 false s' = (true, 5).
Proof.
  destruct (config_refines_map "/opt/nas/nas.json" "entry_dir" "v2" true conf_disk eq_refl eq_refl) as (_ & Hset).
  assert (is_Some (view conf_disk "/opt/nas/nas.json")) as [d Hd] by (vm_compute; by eexists).
  rewrite Hd in Hset. destruct Hset as (_ & Hread & Hother). split; [apply Hread|].
  destruct (Hother "limit" false ltac:(discriminate)) as (_ & Hint & _). etrans; [apply Hint|]. vm_compute. reflexivity.
Defined.
(** A file that is not JSON is replaced by one that has the setting alone. *)
Example broken_file_replaced :
  let s := mkDisk (<["f" := VDoubleString d_zero]> ∅) ∅ in
  d_files (NasConfigSetString "f" "k" "v" true s) !! "f" = Some (VDict [("k", VString "v")]).
Proof. reflexivity. Qed.
