(* ===== verification/ProtectedPaths.v ===== *)
(** * Protected directories, and names that are not in use

    [common/path/path_protected.cc]: the directories of the installation, which
    [ProtectedPath] collects when the server starts, and the test of a path against
    them; [file_path_unit.cc]: a name that is not in use.  The POSIX build: there are
    no profiles. *)

From S2P Require Import Prelude CppBase BaseRef PathUnit NasConfig.
From stdpp Require Import gmap.
#[local] Open Scope Z_scope.

Section Protected.
Context `{bl : BaseLib} `{J : JsonLib} (pl : Place).

(** ** [class ProtectedPath]: the state is the list [protected_paths_] *)
Definition ProtectedPath_Init (protected_paths_ : list string) (s : Disk) : list string * Disk :=
  let install := GetNasAppInstallDir pl s in
  let '(home, s) := GetNasHomeDir pl s in
  let '(app, s) := GetAppConfigDir pl s in
  let '(global, s) := GetGlobalConfigDir pl s in
  (UnifiedSlash <$> protected_paths_ ++ (BaseFilePathToU8 <$> [install; home; app; global]), s).
Definition ProtectedPath_Uninit (protected_paths_ : list string) : list string := [].
End Protected.

(** ** [class ProtectedPathCheck] *)
Record ProtectedPathCheck := mkCheck {
  profile_path_list_ : list string;
  root_path_ : string;
  root_is_profile_ : bool;
  root_is_protected_ : bool
}.
Section Check.
Context `{bl : BaseLib} (protected_paths_ : list string).
Implicit Type c : ProtectedPathCheck.

Definition ProtectedPathCheck_new : ProtectedPathCheck := mkCheck [] EmptyString false true.
Definition CheckIsProfilePath (path_u8 : string) c : bool := IsProfilePath path_u8 (profile_path_list_ c).
Definition ProtectedPathCheck_of (path_u8 : string) : ProtectedPathCheck :=
  let profiles := profile_path_list_ ProtectedPathCheck_new in
  let root := UnifiedSlash path_u8 in
  mkCheck profiles root (IsProfilePath root profiles) (IsProtected protected_paths_ root profiles).
Definition IsPathProtected (path_u8 : string) c : bool :=
  IsProtected protected_paths_ path_u8 (profile_path_list_ c).
Definition IsRootProtected c : bool := IsPathProtected (root_path_ c) c.
Definition IsSubProtected (sub_file_name_u8 : string) c : bool :=
  if root_is_profile_ c then false
  else if root_is_protected_ c then true
  else IsPathProtected ((root_path_ c +:+ "/") +:+ sub_file_name_u8) c.
Definition CheckIsProtectedInPath (path_u8 : string) c : bool :=
  if CheckIsProfilePath path_u8 c then false else IsPathProtected path_u8 c.
Definition IsPathProtectedEx (path_u8 : string) c : bool :=
  IsProtectedEx protected_paths_ path_u8 (profile_path_list_ c).
Definition IsRootProtectedEx c : bool := IsPathProtectedEx (root_path_ c) c.
Definition IsSubProtectedEx (sub_file_name_u8 : string) c : bool :=
  if root_is_profile_ c then false
  else if root_is_protected_ c then true
  else IsPathProtectedEx ((root_path_ c +:+ "/") +:+ sub_file_name_u8) c.

(** ** Lemmas *)
Context {bll : BaseLibLaws bl}.
Lemma string_app_assoc (a b c : string) : (a +:+ b) +:+ c = a +:+ (b +:+ c).
Proof. apply str_chars_inj. by rewrite !str_chars_app, app_assoc. Qed.
Lemma below_sub q p sub : below_or_at q p → below_or_at q ((p +:+ "/") +:+ sub).
Proof.
  intros [->|[r ->]]; right; [by exists sub|]. exists ((r +:+ "/") +:+ sub). by rewrite !string_app_assoc.
Qed.
Lemma IsProtected_no_profiles p :
  IsProtected protected_paths_ p [] = true ↔ ∃ q, q ∈ protected_paths_ ∧ below_or_at q p.
Proof. unfold IsProtected. simpl. apply existsb_below. Qed.
Lemma IsProtected_sub p sub : IsProtected protected_paths_ p [] = true →
  IsProtected protected_paths_ ((p +:+ "/") +:+ sub) [] = true.
Proof. rewrite !IsProtected_no_profiles. intros (q & Hq & Hb). exists q. split; [done|by apply below_sub]. Qed.
End Check.

(** The test of a file below a directory uses what the constructor found out about
    the directory; it agrees with the test of the whole path, for both tests. *)
Theorem sub_check_agrees `{bl : BaseLib} (Hbase : BaseLibLaws bl) paths root sub :
  let c := ProtectedPathCheck_of paths root in
  let whole := (UnifiedSlash root +:+ "/") +:+ sub in
  IsSubProtected paths sub c = IsPathProtected paths whole c ∧
  IsSubProtectedEx paths sub c = IsPathProtectedEx paths whole c.
Proof.
  unfold IsSubProtected, IsSubProtectedEx, IsPathProtected, IsPathProtectedEx, IsProtectedEx. simpl.
  destruct (IsProtected paths (UnifiedSlash root) []) eqn:E; [|done].
  by rewrite (IsProtected_sub _ _ sub E).
Qed.
Lemma sub_check_agrees_witness :
  IsSubProtected ["/opt/nas"] "f" (ProtectedPathCheck_of ["/opt/nas"] "/opt\nas") = true ∧
  IsPathProtected ["/opt/nas"] "/opt/nas/f" (ProtectedPathCheck_of ["/opt/nas"] "/opt\nas") = true.
Proof.
  destruct (sub_check_agrees base_ref_laws ["/opt/nas"] "/opt\nas" "f") as [H _].
  split; [|etrans; [symmetry; exact H|]]; vm_compute; reflexivity.
Defined.

(** What the server protects after its start: the four directories and all below
    them; and a directory that could not be found or made, whose path is empty,
    protects every absolute path. *)
Theorem protected_after_start `{bl : BaseLib} (Hbase : BaseLibLaws bl) `{J : JsonLib} (pl : Place) s :
  let install := GetNasAppInstallDir pl s in
  let '(home, s1) := GetNasHomeDir pl s in
  let '(app, s2) := GetAppConfigDir pl s1 in
  let '(global, s3) := GetGlobalConfigDir pl s2 in
  let '(paths, s') := ProtectedPath_Init pl [] s in
  s' = s3 ∧
  (∀ p, IsProtectedInPath paths p [] = true ↔
     ∃ q, q ∈ [install; home; app; global] ∧ below_or_at (UnifiedSlash q) p) ∧
  (EmptyString ∈ [install; home; app; global] → ∀ p, IsProtectedInPath paths ("/" +:+ p) [] = true).
Proof.
  unfold ProtectedPath_Init. destruct (GetNasHomeDir pl s) as [home s1]. destruct (GetAppConfigDir pl s1) as [app s2].
  destruct (GetGlobalConfigDir pl s2) as [global s3]. set (l := [_; home; app; global]).
  assert (∀ p, IsProtectedInPath (UnifiedSlash <$> [] ++ (BaseFilePathToU8 <$> l)) p [] = true ↔
     ∃ q, q ∈ l ∧ below_or_at (UnifiedSlash q) p) as Hiff.
  { intros p. rewrite (IsProtectedInPath_spec Hbase). split.
    - intros (_ & q & Hq & Hb). change (q ∈ UnifiedSlash <$> l) in Hq.
      apply list_elem_of_fmap in Hq as (q' & -> & Hq'). by exists q'.
    - intros (q & Hq & Hb). split; [by intros ? ?%not_elem_of_nil|]. exists (UnifiedSlash q).
      split; [|done]. change (UnifiedSlash q ∈ UnifiedSlash <$> l). by apply list_elem_of_fmap_2. }
  split; [done|]. split; [done|]. intros He p. apply Hiff. exists EmptyString. split; [done|].
  rewrite UnifiedSlash_id by (by intros ?%not_elem_of_nil). right. by exists p.
Qed.

#[local] Instance no_json : JsonLib := {|
  text := unit; JSONReader_Read _ := None; JSONWriter_Write _ := None; utf8 _ := true |}.
(** An executable with no installation above it. *)
Definition no_place : Place :=
  mkPlace "/usr/bin" "/root/.data" (λ _, "/") (λ p _, p) (λ s _ _, s) (λ _, true) (λ _, ∅).
Lemma protected_after_start_witness :
  let '(paths, _) := ProtectedPath_Init no_place [] (mkDisk ∅ ∅) in
  IsProtectedInPath paths "/home/me/downloads" [] = true.
Proof.
  pose proof (protected_after_start base_ref_laws no_place (mkDisk ∅ ∅)) as H.
  destruct H as (_ & _ & H). apply (H ltac:(by left) "home/me/downloads").
Defined.

(** ** [GetNoExistFilePath], [GetNoExistFileNameInSpecDir] *)
Section Names.
(** Whether a path exists, and [base::FilePath::InsertBeforeExtension] *)
Context (exists_ : string → bool) (InsertBeforeExtension : string → string → string).
Definition suffix_number (times : Z) : string := " (" +:+ to_string_Z times +:+ ")".
(** The copies of a file are named by a Chinese word, here by its UTF-8 bytes. *)
Definition suffix_copy : string := " - " +:+ str_of ["229"; "137"; "175"; "230"; "156"; "172"]%char.

(** The loops run until a name is free: [None] is a loop that goes on. *)
Fixpoint numbered_path (fuel : nat) (exist_path return_path : string) (times : Z) : option string :=
  match fuel with
  | O => None
  | S fuel =>
      if exists_ return_path
      then numbered_path fuel exist_path (InsertBeforeExtension exist_path (suffix_number times)) (times + 1)
      else Some return_path
  end.
Definition GetNoExistFileNameInSpecDir (fuel : nat) (exist_path : string) : option string :=
  if exists_ exist_path then
    let no_exist_path := InsertBeforeExtension exist_path suffix_copy in
    numbered_path fuel no_exist_path no_exist_path 2
  else Some exist_path.
Definition GetNoExistFilePath (fuel : nat) (exist_path : string) (only_number : bool) : option string :=
  if only_number then numbered_path fuel exist_path exist_path 2
  else GetNoExistFileNameInSpecDir fuel exist_path.

(** The [n]-th name tried. *)
Definition tried (p : string) (n : nat) : string :=
  match n with O => p | S n => InsertBeforeExtension p (suffix_number (Z.of_nat n + 2)) end.
Lemma numbered_path_spec fuel p n :
  numbered_path fuel p (tried p n) (Z.of_nat n + 2) = None →
  ∀ k, (n <= k < n + fuel)%nat → exists_ (tried p k) = true.
Proof.
  revert n. induction fuel as [|fuel IH]; intros n; cbn [numbered_path]; [intros _ k Hk; lia|].
  destruct (exists_ (tried p n)) eqn:E; [|done]. intros Hr k Hk.
  destruct (decide (k = n)) as [->|]; [done|]. apply (IH (S n)); [|lia].
  by replace (Z.of_nat (S n) + 2) with (Z.of_nat n + 2 + 1) by lia.
Qed.
Lemma numbered_path_free fuel p q n r : numbered_path fuel p q n = Some r → exists_ r = false.
Proof.
  revert q n. induction fuel as [|fuel IH]; intros q n; cbn [numbered_path]; [done|].
  destruct (exists_ q) eqn:E; [apply IH|by intros [= <-]].
Qed.

(** Among more numbered names than there are files one is not in use. *)
Lemma numbered_path_total (files : gset string) p :
  (∀ q, exists_ q = true → q ∈ files) →
  (∀ a b, InsertBeforeExtension p a = InsertBeforeExtension p b → a = b) → (∀ a, a ≠ EmptyString → InsertBeforeExtension p a ≠ p) →
  is_Some (numbered_path (S (size files)) p p 2).
Proof.
  intros Hf Hinj Hne. destruct (numbered_path _ _ _ _) as [r|] eqn:E; [by eexists|]. exfalso.
  pose proof (numbered_path_spec _ p 0 E) as Hall.
  assert (NoDup (tried p <$> seq 0 (S (size files)))) as Hnd.
  { apply NoDup_fmap_2_strong; [|apply NoDup_seq]. intros [|a] [|b] _ _; cbn [tried]; try done.
    - intros H. by destruct (Hne (suffix_number (Z.of_nat b + 2))).
    - intros H. by destruct (Hne (suffix_number (Z.of_nat a + 2))).
    - intros H%Hinj. unfold suffix_number in H. f_equal.
      assert (to_string_Z (Z.of_nat a + 2) = to_string_Z (Z.of_nat b + 2)) as G.
      { simplify_eq. apply (f_equal str_chars) in H. rewrite !str_chars_app in H.
        apply app_inv_tail in H. by apply str_chars_inj. }
      unfold to_string_Z in G. apply (inj pretty) in G. lia. }
  assert (length (tried p <$> seq 0 (S (size files))) <= size files)%nat as Hlen.
  { rewrite <-(size_list_to_set (C:=gset string)) by done. apply subseteq_size. intros q Hq.
    apply elem_of_list_to_set, list_elem_of_fmap in Hq as (k & -> & Hk%elem_of_seq). apply Hf, Hall. lia. }
  rewrite length_fmap, length_seq in Hlen. lia.
Qed.
End Names.

(** Either way of naming a copy ends, after at most one more turn than there are
    files, with a name that is not in use. *)
Theorem copy_gets_free_name (exists_ : string → bool) (insert : string → string → string)
    (files : gset string) p only_number :
  (∀ q, exists_ q = true → q ∈ files) →
  (∀ p a b, insert p a = insert p b → a = b) → (∀ p a, a ≠ EmptyString → insert p a ≠ p) →
  ∃ r, GetNoExistFilePath exists_ insert (S (size files)) p only_number = Some r ∧ exists_ r = false.
Proof.
  intros Hf Hinj Hne.
  assert (∀ q, ∃ r, numbered_path exists_ insert (S (size files)) q q 2 = Some r ∧ exists_ r = false) as H.
  { intros q. destruct (numbered_path_total exists_ insert files q) as [r Hr]; [done|by apply Hinj|by apply Hne|].
    exists r. split; [done|by eapply numbered_path_free]. }
  unfold GetNoExistFilePath, GetNoExistFileNameInSpecDir. destruct only_number; [apply H|].
  destruct (exists_ p) eqn:E; [apply H|by exists p].
Qed.
Definition demo_files : gset string := {["a"; "a (2)"]}.
Lemma copy_gets_free_name_witness :
  GetNoExistFilePath (λ q, bool_decide (q ∈ demo_files)) String.append 3 "a" true = Some "a (3)" ∧
  ∃ r, GetNoExistFilePath (λ q, bool_decide (q ∈ demo_files)) String.append (S (size demo_files)) "a" true = Some r ∧
    bool_decide (r ∈ demo_files) = false.
Proof.
  split; [vm_compute; reflexivity|].
  apply (copy_gets_free_name (λ q, bool_decide (q ∈ demo_files)) String.append demo_files "a" true).
  - intros q. by case_bool_decide.
  - intros p a b H. induction p as [|x p IH]; [done|]. apply IH. by injection H.
  - intros p a Ha H. apply Ha. induction p as [|x p IH]; [done|]. apply IH. by injection H.
Defined.

(** ** The directories of the download service

    [utils/utils.cc]: where the service keeps its settings and torrent files, and the
    end of [DownloadManager::Reset] ([download_mgr.cc]), which deletes the torrent
    files.  What the service's [Env] takes as calls of the environment is here over
    the file system of [NasConfig]. *)
Section Dirs.
(** [base::GetTempDir]; [base::FilePath::BaseName] and [FinalExtension] *)
Context `{bl : BaseLib} `{J : JsonLib} (pl : Place) (temp_dir : string).
Context (BaseName FinalExtension : string → string).

Definition GetDownloadConfigDir (s : Disk) : string * Disk :=
  let '(config_dir, s) := GetAppConfigDir pl s in (FilePath_Append config_dir "download_service", s).
(** A directory that cannot be made is replaced by the one for temporary files. *)
Definition made_or_temp (dir_path : string) (s : Disk) : string * Disk :=
  let '(ok, s) := CreateDirectoryAndGetError pl dir_path s in (if ok : bool then dir_path else temp_dir, s).
Definition GetTorrentFileSavePath (s : Disk) : string * Disk :=
  let '(dir_path, s) := GetDownloadConfigDir s in made_or_temp (FilePath_Append dir_path "torrent_file") s.
Definition GetUploadTorrentFileCachePath (s : Disk) : string * Disk :=
  let '(dir_path, s) := GetNasCacheDir pl s in made_or_temp (FilePath_Append dir_path "torrent_file") s.
Definition GetTorrentUploadPath (s : Disk) : string * Disk :=
  let '(dir_path, s) := GetUploadTorrentFileCachePath s in (UnifiedSlash (BaseFilePathToU8 dir_path), s).
Definition GetSuffixByName (file_name : string) : string := FinalExtension (BaseName file_name).

(** [base::DeletePathRecursively] *)
Definition within (dir p : string) : bool := String.eqb p dir || String.prefix (dir +:+ "/") p.
Definition DeletePathRecursively (dir : string) (s : Disk) : Disk :=
  mkDisk (filter (λ kv, within dir kv.1 = false) (d_files s)) (filter (λ p, within dir p = false) (d_dirs s)).
(** The end of [DownloadManager::Reset] *)
Definition delete_torrents (s : Disk) : Disk :=
  let '(dir, s) := GetTorrentFileSavePath s in DeletePathRecursively dir s.

(** ** What a reset deletes *)
Lemma create_keeps_files p s : d_files (CreateDirectoryAndGetError pl p s).2 = d_files s.
Proof. unfold CreateDirectoryAndGetError. by destruct (can_create pl p). Qed.
Lemma app_dir_keeps_files s : d_files (GetAppConfigDir pl s).2 = d_files s.
Proof.
  unfold GetAppConfigDir, CreateSubDir. destruct (PathExists _ s); [done|].
  match goal with |- context [CreateDirectoryAndGetError pl ?p s] =>
    pose proof (create_keeps_files p s) as H; by destruct (CreateDirectoryAndGetError pl p s) end.
Qed.
Lemma lookup_delete dir f s : d_files (DeletePathRecursively dir s) !! f =
  if within dir f then None else d_files s !! f.
Proof.
  unfold DeletePathRecursively. cbn [d_files]. destruct (within dir f) eqn:E.
  - apply map_lookup_filter_None. right. intros x _. cbn. congruence.
  - destruct (d_files s !! f) as [x|] eqn:Hx.
    + by apply map_lookup_filter_Some.
    + apply map_lookup_filter_None. by left.
Qed.
(** A reset deletes the torrent files and no other file, when their directory can be
    made; otherwise it deletes every temporary file of the machine, whatever program
    it belongs to, and keeps the torrent files. *)
Theorem reset_deletes s f :
  let dir := FilePath_Append (FilePath_Append (GetAppConfigDir pl s).1 "download_service") "torrent_file" in
  d_files (delete_torrents s) !! f =
  if within (if can_create pl dir then dir else temp_dir) f then None else d_files s !! f.
Proof.
  cbv zeta. unfold delete_torrents, GetTorrentFileSavePath, GetDownloadConfigDir, made_or_temp.
  pose proof (app_dir_keeps_files s) as Ha. destruct (GetAppConfigDir pl s) as [app s1]. cbn [fst snd] in *.
  set (dir := FilePath_Append (FilePath_Append app _) _). pose proof (create_keeps_files dir s1) as Hc.
  unfold CreateDirectoryAndGetError in *. destruct (can_create pl dir); cbn [snd] in Hc;
    by rewrite lookup_delete, ?Hc, Ha.
Qed.
End Dirs.

#[local] Instance plain_json : JsonLib := {|
  text := string; JSONReader_Read _ := None; JSONWriter_Write _ := None; utf8 _ := true |}.
(** A full or read-only disk: the file of another program goes, the torrent stays. *)
Example reset_deletes_temp_files :
  let pl := mkPlace "/opt/nas/bin" "/root/.data" (λ _, "/") (λ p _, p) (λ s _ _, s) (λ _, false) (λ _, ∅) in
  let s := mkDisk (<["/tmp/of_another_program" := "x"]> {["/data/torrent_file/a.torrent" := "y"]}) ∅ in
  d_files (delete_torrents pl "/tmp" s) = {["/data/torrent_file/a.torrent" := "y"]}.
Proof. vm_compute. reflexivity. Qed.
