(* ===== verification/EngineLoader.v ===== *)
(** * Loading the engines

    [download_helper/download_interface_helper.cc]: the three engine libraries are
    loaded from the directory of the executable and their functions looked up by
    name.  A function is the library and the name; the calls that were made are
    recorded in order.  Which libraries are there, what they export and what their
    factories return are parameters.  The POSIX build is modelled. *)

From S2P Require Import Prelude CppBase BaseRef PathUnit ServerWorld.

(** ** Libraries and functions *)
Inductive Library := NetCurlSo | NetBtSo | NetMuleSo.
#[export] Instance Library_eq_dec : EqDecision Library.
Proof. solve_decision. Defined.
Record Fn := mkFn { fn_library : Library; fn_name : string }.
#[export] Instance Fn_eq_dec : EqDecision Fn.
Proof. solve_decision. Defined.
(** A call, with its arguments where there are any *)
Record EngineCall := mkCall { c_fn : Fn; c_args : list string; c_task : option Handle }.
Definition plain (f : Fn) : EngineCall := mkCall f [] None.

(** The file of a library *)
Definition file_of (l : Library) : string :=
  match l with NetCurlSo => "libnetcurl.so" | NetBtSo => "libnetbt.so" | NetMuleSo => "libnetmule.so" end.
(** An installation: the executable's directory, the directories that exist, where
    the engines keep their configuration, the files that load as a library, what
    each library exports, and what a factory returns after the calls made so far *)
Record Installation := mkInstallation {
  in_dir_exe : string;
  in_DirectoryExists : string → bool;
  in_config_dir : string;
  in_loads : string → bool;
  in_exports : Library → string → bool;
  in_makes : Fn → list EngineCall → option Handle
}.

Record DownloadInterfaceHelper := mkHelper {
  pfn_create_curl_download_task_ : option Fn;
  pfn_create_torrent_file_download_task_ : option Fn;
  pfn_create_magnet_download_task_ : option Fn;
  pfn_create_mule_download_task_ : option Fn;
  pfn_init_ : option Fn;
  pfn_wait_init_bt_finish_ : option Fn;
  pfn_wait_init_mule_finish_ : option Fn;
  pfn_release_curl_task_ : option Fn;
  pfn_release_bt_task_ : option Fn;
  pfn_release_mule_task_ : option Fn;
  pfn_bt_settings_ : option Fn;
  pfn_amule_settings_ : option Fn;
  dir_path_ : string;
  exe_path_ : string;
  pfn_mule_uninit_ : option Fn;
  is_curl_dll_loaded_ : bool;
  is_mule_dll_loaded_ : bool;
  is_bt_dll_loaded_ : bool;
  pfn_curl_init_ : option Fn;
  pfn_curl_uninit_ : option Fn;
  pfn_bt_uninit_ : option Fn;
  h_calls : list EngineCall
}.
Definition Helper_new : DownloadInterfaceHelper :=
  mkHelper None None None None None None None None None None None None EmptyString EmptyString None false false false None None None [].

(** The pointers by name, and setting one *)
Inductive Pfn :=
  | PCreateCurl | PCreateTorrent | PCreateMagnet | PCreateMule | PInit | PWaitBt | PWaitMule
  | PReleaseCurl | PReleaseBt | PReleaseMule | PBtSettings | PMuleSettings | PMuleUninit
  | PCurlInit | PCurlUninit | PBtUninit.
#[export] Instance Pfn_eq_dec : EqDecision Pfn.
Proof. solve_decision. Defined.
Definition pfn (p : Pfn) (h : DownloadInterfaceHelper) : option Fn :=
  match p with
  | PCreateCurl => pfn_create_curl_download_task_ h | PCreateTorrent => pfn_create_torrent_file_download_task_ h
  | PCreateMagnet => pfn_create_magnet_download_task_ h | PCreateMule => pfn_create_mule_download_task_ h
  | PInit => pfn_init_ h | PWaitBt => pfn_wait_init_bt_finish_ h | PWaitMule => pfn_wait_init_mule_finish_ h
  | PReleaseCurl => pfn_release_curl_task_ h | PReleaseBt => pfn_release_bt_task_ h
  | PReleaseMule => pfn_release_mule_task_ h | PBtSettings => pfn_bt_settings_ h
  | PMuleSettings => pfn_amule_settings_ h | PMuleUninit => pfn_mule_uninit_ h
  | PCurlInit => pfn_curl_init_ h | PCurlUninit => pfn_curl_uninit_ h | PBtUninit => pfn_bt_uninit_ h
  end.
Definition upd (b : bool) (v old : option Fn) : option Fn := if b then v else old.
Definition set_pfn (p : Pfn) (v : option Fn) (h : DownloadInterfaceHelper) : DownloadInterfaceHelper :=
  let s q := upd (bool_decide (p = q)) v (pfn q h) in
  mkHelper (s PCreateCurl) (s PCreateTorrent) (s PCreateMagnet) (s PCreateMule) (s PInit) (s PWaitBt) (s PWaitMule)
    (s PReleaseCurl) (s PReleaseBt) (s PReleaseMule) (s PBtSettings) (s PMuleSettings) (dir_path_ h) (exe_path_ h) (s PMuleUninit)
    (is_curl_dll_loaded_ h) (is_mule_dll_loaded_ h) (is_bt_dll_loaded_ h) (s PCurlInit) (s PCurlUninit) (s PBtUninit)
    (h_calls h).
Definition set_flags (curl mule bt : bool) (h : DownloadInterfaceHelper) : DownloadInterfaceHelper :=
  mkHelper (pfn PCreateCurl h) (pfn PCreateTorrent h) (pfn PCreateMagnet h) (pfn PCreateMule h) (pfn PInit h) (pfn PWaitBt h)
    (pfn PWaitMule h) (pfn PReleaseCurl h) (pfn PReleaseBt h) (pfn PReleaseMule h) (pfn PBtSettings h) (pfn PMuleSettings h)
    (dir_path_ h) (exe_path_ h) (pfn PMuleUninit h) curl mule bt (pfn PCurlInit h) (pfn PCurlUninit h) (pfn PBtUninit h) (h_calls h).
Definition set_paths (dir v : string) (h : DownloadInterfaceHelper) : DownloadInterfaceHelper :=
  mkHelper (pfn PCreateCurl h) (pfn PCreateTorrent h) (pfn PCreateMagnet h) (pfn PCreateMule h) (pfn PInit h) (pfn PWaitBt h)
    (pfn PWaitMule h) (pfn PReleaseCurl h) (pfn PReleaseBt h) (pfn PReleaseMule h) (pfn PBtSettings h) (pfn PMuleSettings h)
    dir v (pfn PMuleUninit h) (is_curl_dll_loaded_ h) (is_mule_dll_loaded_ h) (is_bt_dll_loaded_ h) (pfn PCurlInit h)
    (pfn PCurlUninit h) (pfn PBtUninit h) (h_calls h).
Definition record (c : EngineCall) (h : DownloadInterfaceHelper) : DownloadInterfaceHelper :=
  mkHelper (pfn PCreateCurl h) (pfn PCreateTorrent h) (pfn PCreateMagnet h) (pfn PCreateMule h) (pfn PInit h) (pfn PWaitBt h)
    (pfn PWaitMule h) (pfn PReleaseCurl h) (pfn PReleaseBt h) (pfn PReleaseMule h) (pfn PBtSettings h) (pfn PMuleSettings h)
    (dir_path_ h) (exe_path_ h) (pfn PMuleUninit h) (is_curl_dll_loaded_ h) (is_mule_dll_loaded_ h) (is_bt_dll_loaded_ h) (pfn PCurlInit h)
    (pfn PCurlUninit h) (pfn PBtUninit h) (h_calls h ++ [c]).
(** A call through a pointer that was tested *)
Definition call_ptr (p : Pfn) (args : list string) (task : option Handle) (h : DownloadInterfaceHelper) : DownloadInterfaceHelper :=
  match pfn p h with Some f => record (mkCall f args task) h | None => h end.

Section Loader.
Context `{bl : BaseLib} (inst : Installation).

(** [GetFunctionByDll] *)
Definition GetFunctionByDll (p : Pfn) (lib_dll : Library) (func_name : string) (h : DownloadInterfaceHelper) : DownloadInterfaceHelper :=
  set_pfn p (if in_exports inst lib_dll func_name then Some (mkFn lib_dll func_name) else None) h.
(** A lookup and the test after it: the initialisation goes on with the pointer or
    ends with [false]. *)
Definition Step : Type := DownloadInterfaceHelper → bool * DownloadInterfaceHelper.
Definition look (p : Pfn) (lib_dll : Library) (func_name : string) (next : Step) : Step := λ h,
  let h := GetFunctionByDll p lib_dll func_name h in
  match pfn p h with Some _ => next h | None => (false, h) end.
Definition invoke (p : Pfn) (args : list string) (next : Step) : Step := λ h, next (call_ptr p args None h).
(** [GetDllModuleHandle] *)
Definition GetDllModuleHandle (dll_name : Library) (h : DownloadInterfaceHelper) : option Library :=
  if in_loads inst (FilePath_Append (dir_path_ h) (file_of dll_name)) then Some dll_name else None.

Definition InitNetCurl : Step := λ h,
  match GetDllModuleHandle NetCurlSo h with
  | None => (false, h)
  | Some lib_dll =>
      (look PCreateCurl lib_dll "CreateTask"
      (look PReleaseCurl lib_dll "ReleaseTask"
      (look PCurlInit lib_dll "Init"
      (invoke PCurlInit []
      (look PCurlUninit lib_dll "UnInit"
      (λ h, (true, set_flags true (is_mule_dll_loaded_ h) (is_bt_dll_loaded_ h) h))))))) h
  end.
Definition InitNetBt : Step := λ h,
  match GetDllModuleHandle NetBtSo h with
  | None => (false, h)
  | Some lib_dll =>
      (look PInit lib_dll "Init"
      (invoke PInit [exe_path_ h; "--profile=" +:+ BaseFilePathToU8 (in_config_dir inst)]
      (look PWaitBt lib_dll "WaitInitFinish"
      (invoke PWaitBt []
      (look PCreateTorrent lib_dll "CreateTorrentFileTask"
      (look PCreateMagnet lib_dll "CreateMagnetTask"
      (look PReleaseBt lib_dll "ReleaseTask"
      (look PBtSettings lib_dll "CreateBtSettings"
      (look PBtUninit lib_dll "UnInit"
      (λ h, (true, set_flags (is_curl_dll_loaded_ h) (is_mule_dll_loaded_ h) true h))))))))))) h
  end.
Definition InitNetMule : Step := λ h,
  match GetDllModuleHandle NetMuleSo h with
  | None => (false, h)
  | Some lib_dll =>
      (look PInit lib_dll "Init"
      (invoke PInit [exe_path_ h; "--config-dir=" +:+ BaseFilePathToU8 (FilePath_Append (in_config_dir inst) "nasmule")]
      (look PWaitMule lib_dll "WaitInitFinish"
      (invoke PWaitMule []
      (look PCreateMule lib_dll "CreateTask"
      (look PReleaseMule lib_dll "ReleaseTask"
      (look PMuleSettings lib_dll "CreateAuleSettings"
      (look PMuleUninit lib_dll "UnInit"
      (λ h, (true, set_flags (is_curl_dll_loaded_ h) true (is_bt_dll_loaded_ h) h)))))))))) h
  end.
(** [Init]: the result is not set. *)
Definition Init (h : DownloadInterfaceHelper) : bool * DownloadInterfaceHelper :=
  let h := set_paths (FilePath_Append (in_dir_exe inst) "download") (BaseFilePathToU8 (in_dir_exe inst)) h in
  if negb (in_DirectoryExists inst (dir_path_ h)) then (false, h)
  else (false, (InitNetMule (InitNetBt (InitNetCurl h).2).2).2).
Definition UnInit (h : DownloadInterfaceHelper) : bool * DownloadInterfaceHelper :=
  (true, call_ptr PBtUninit [] None (call_ptr PMuleUninit [] None (call_ptr PCurlUninit [] None h))).

(** The factories *)
Definition create (p : Pfn) (h : DownloadInterfaceHelper) : option Handle * DownloadInterfaceHelper :=
  match pfn p h with
  | Some f => (in_makes inst f (h_calls h), record (plain f) h)
  | None => (None, h)
  end.
Definition CreateCurlDownloadTask := create PCreateCurl.
Definition CreateTorrentFileDownloadTask := create PCreateTorrent.
Definition CreateMagnetDownloadTask := create PCreateMagnet.
Definition CreateMuleDownloadTask := create PCreateMule.
Definition release (p : Pfn) (task : option Handle) (h : DownloadInterfaceHelper) : DownloadInterfaceHelper :=
  match task with Some _ => call_ptr p [] task h | None => h end.
Definition ReleaseCurlTask := release PReleaseCurl.
Definition ReleaseTorrentTask := release PReleaseBt.
Definition ReleaseMuleTask := release PReleaseMule.
Definition WaitInitComplete (h : DownloadInterfaceHelper) : DownloadInterfaceHelper :=
  call_ptr PWaitMule [] None (call_ptr PWaitBt [] None h).
(** The settings of an engine, from a pointer that is only tested in debug builds *)
Definition GetBtSettingsInterface := create PBtSettings.
Definition GetAmuleSettingsInterface := create PMuleSettings.
Definition IsLoadedNetCurl (h : DownloadInterfaceHelper) : bool := is_curl_dll_loaded_ h.
Definition IsLoadedNetMule (h : DownloadInterfaceHelper) : bool := is_mule_dll_loaded_ h.
Definition IsLoadedNetBt (h : DownloadInterfaceHelper) : bool := is_bt_dll_loaded_ h.
End Loader.

(** ** Loading the engines: theorems

    An initialisation is a script of lookups and calls that stops at the first name
    its library lacks ([play]).  An engine counts as loaded exactly when its library
    has every name, and is then initialised once, before anything else of it is
    called ([engines_loaded]).  A library that lacks a name leaves the pointers found
    before it in use: [uninitialised_engine_used]. *)
(** ** What the libraries export *)
Definition fname (p : Pfn) : string :=
  match p with
  | PCreateCurl | PCreateMule => "CreateTask"
  | PCreateTorrent => "CreateTorrentFileTask"
  | PCreateMagnet => "CreateMagnetTask"
  | PInit | PCurlInit => "Init"
  | PWaitBt | PWaitMule => "WaitInitFinish"
  | PReleaseCurl | PReleaseBt | PReleaseMule => "ReleaseTask"
  | PBtSettings => "CreateBtSettings"
  | PMuleSettings => "CreateAuleSettings"
  | PMuleUninit | PCurlUninit | PBtUninit => "UnInit"
  end.
(** The library of a pointer; [pfn_init_] serves two. *)
Definition owner (p : Pfn) : option Library :=
  match p with
  | PCreateCurl | PReleaseCurl | PCurlInit | PCurlUninit => Some NetCurlSo
  | PWaitBt | PCreateTorrent | PCreateMagnet | PReleaseBt | PBtSettings | PBtUninit => Some NetBtSo
  | PWaitMule | PCreateMule | PReleaseMule | PMuleSettings | PMuleUninit => Some NetMuleSo
  | PInit => None
  end.
Definition loaded (L : Library) : DownloadInterfaceHelper → bool :=
  match L with NetCurlSo => IsLoadedNetCurl | NetBtSo => IsLoadedNetBt | NetMuleSo => IsLoadedNetMule end.

(** ** Scripts *)
Inductive Item := ILook (p : Pfn) | ICall (p : Pfn) (args : list string).
Section Claims.
Context `{bl : BaseLib} (inst : Installation).
Implicit Types h : DownloadInterfaceHelper.

Fixpoint play (L : Library) (items : list Item) (last : DownloadInterfaceHelper → DownloadInterfaceHelper) : Step :=
  match items with
  | [] => λ h, (true, last h)
  | ILook p :: items => look inst p L (fname p) (play L items last)
  | ICall p args :: items => invoke p args (play L items last)
  end.
Definition script (L : Library) h : list Item :=
  match L with
  | NetCurlSo => [ILook PCreateCurl; ILook PReleaseCurl; ILook PCurlInit; ICall PCurlInit []; ILook PCurlUninit]
  | NetBtSo =>
      [ILook PInit; ICall PInit [exe_path_ h; "--profile=" +:+ BaseFilePathToU8 (in_config_dir inst)];
       ILook PWaitBt; ICall PWaitBt []; ILook PCreateTorrent; ILook PCreateMagnet; ILook PReleaseBt;
       ILook PBtSettings; ILook PBtUninit]
  | NetMuleSo =>
      [ILook PInit; ICall PInit [exe_path_ h; "--config-dir=" +:+ BaseFilePathToU8 (FilePath_Append (in_config_dir inst) "nasmule")];
       ILook PWaitMule; ICall PWaitMule []; ILook PCreateMule; ILook PReleaseMule; ILook PMuleSettings;
       ILook PMuleUninit]
  end.
Definition flag (L : Library) h : DownloadInterfaceHelper :=
  match L with
  | NetCurlSo => set_flags true (is_mule_dll_loaded_ h) (is_bt_dll_loaded_ h) h
  | NetBtSo => set_flags (is_curl_dll_loaded_ h) (is_mule_dll_loaded_ h) true h
  | NetMuleSo => set_flags (is_curl_dll_loaded_ h) true (is_bt_dll_loaded_ h) h
  end.
Definition init (L : Library) : Step :=
  match L with NetCurlSo => InitNetCurl inst | NetBtSo => InitNetBt inst | NetMuleSo => InitNetMule inst end.
Definition loads (L : Library) h : bool := in_loads inst (FilePath_Append (dir_path_ h) (file_of L)).
Lemma init_script L h : init L h = if loads L h then play L (script L h) (flag L) h else (false, h).
Proof. destruct L; unfold init, InitNetCurl, InitNetBt, InitNetMule, GetDllModuleHandle, loads; by destruct (in_loads _ _). Qed.

(** ** The state of the helper *)
Lemma pfn_set p v h q : pfn q (set_pfn p v h) = if bool_decide (p = q) then v else pfn q h.
Proof. by destruct q. Qed.
Lemma loaded_set p v h L : loaded L (set_pfn p v h) = loaded L h.
Proof. by destruct L. Qed.
Lemma loaded_record c h L : loaded L (record c h) = loaded L h.
Proof. by destruct L. Qed.
Lemma pfn_record c h q : pfn q (record c h) = pfn q h.
Proof. by destruct q. Qed.
Lemma pfn_flag L h q : pfn q (flag L h) = pfn q h.
Proof. by destruct L, q. Qed.
Lemma loaded_flag L h L' : loaded L' (flag L h) = bool_decide (L = L') || loaded L' h.
Proof. by destruct L, L'. Qed.
Lemma calls_flag L h : h_calls (flag L h) = h_calls h.
Proof. by destruct L. Qed.
Lemma paths_flag L h : dir_path_ (flag L h) = dir_path_ h.
Proof. by destruct L. Qed.
(** Every pointer is the function it is named after. *)
Definition sane h : Prop :=
  ∀ p f, pfn p h = Some f → fn_name f = fname p ∧ ∀ L, owner p = Some L → fn_library f = L.
(** Every pointer of [ps] is set to the function of [L]. *)
Definition owned (L : Library) (ps : list Pfn) h : Prop := ∀ p, p ∈ ps → pfn p h = Some (mkFn L (fname p)).
(** A script calls only what it has looked up in its library. *)
Fixpoint wf (L : Library) (ps : list Pfn) (items : list Item) : bool :=
  match items with
  | [] => true
  | ILook p :: items => match owner p with Some L' => bool_decide (L' = L) | None => true end && wf L (p :: ps) items
  | ICall p _ :: items => bool_decide (p ∈ ps) && wf L ps items
  end.
Fixpoint lookups (items : list Item) : list Pfn :=
  match items with [] => [] | ILook p :: items => p :: lookups items | ICall _ _ :: items => lookups items end.
Fixpoint calls_of (L : Library) (items : list Item) : list EngineCall :=
  match items with
  | [] => []
  | ILook _ :: items => calls_of L items
  | ICall p args :: items => mkCall (mkFn L (fname p)) args None :: calls_of L items
  end.

Lemma play_spec L items last ps h : wf L ps items = true → owned L ps h → sane h →
  ∃ h' cs, play L items last h = (forallb (λ p, in_exports inst L (fname p)) (lookups items),
      if forallb (λ p, in_exports inst L (fname p)) (lookups items) then last h' else h') ∧
    sane h' ∧ h_calls h' = h_calls h ++ cs ∧ cs `prefix_of` calls_of L items ∧
    (∀ L', loaded L' h' = loaded L' h) ∧ dir_path_ h' = dir_path_ h ∧
    (∀ p, p ∉ lookups items → pfn p h' = pfn p h) ∧
    (forallb (λ p, in_exports inst L (fname p)) (lookups items) = true →
       cs = calls_of L items ∧ owned L (ps ++ lookups items) h').
Proof.
  revert ps h. induction items as [|[p|p args] items IH]; intros ps h Hwf Hown Hsane; simpl in *.
  - exists h, []. rewrite !app_nil_r. split_and!; try done. 
  - apply andb_prop in Hwf as [Ho Hwf]. unfold look, GetFunctionByDll. rewrite pfn_set, bool_decide_true by done.
    set (h1 := set_pfn _ _ h). destruct (in_exports inst L (fname p)) eqn:Hex; simpl.
    + destruct (IH (p :: ps) h1 Hwf) as (h' & cs & -> & Hs & Hc & Hp & Hl & Hd & Hother & Hall).
      { intros q Hq. unfold h1. rewrite pfn_set. case_bool_decide as E; [by subst|]. apply Hown. set_solver. }
      { intros q f. unfold h1. rewrite pfn_set. case_bool_decide as E; [|apply Hsane].
        intros [= <-]. subst q. split; [done|]. intros L' HL. rewrite HL in Ho. by apply bool_decide_eq_true in Ho. }
      exists h', cs. split_and!; try done.
      * intros L'. by rewrite Hl, <-(loaded_set p (Some (mkFn L (fname p))) h).
      * intros q Hq. rewrite Hother by set_solver. unfold h1. rewrite pfn_set. rewrite bool_decide_false; [done|set_solver].
      * intros Hx. destruct (Hall Hx) as [-> Hw]. split; [done|]. intros q Hq. apply Hw. set_solver.
    + exists h1, []. rewrite app_nil_r. split_and!; try done.
      * intros q f. unfold h1. rewrite pfn_set. case_bool_decide; [done|apply Hsane].
      * apply prefix_nil.
      * intros L'. apply loaded_set.
      * intros q Hq. unfold h1. rewrite pfn_set. rewrite bool_decide_false; [done|set_solver].
  - apply andb_prop in Hwf as [Hin Hwf]. apply bool_decide_eq_true in Hin. unfold invoke, call_ptr. rewrite (Hown p Hin).
    set (h1 := record _ h).
    destruct (IH ps h1 Hwf) as (h' & cs & -> & Hs & Hc & Hp & Hl & Hd & Hother & Hall).
    { intros q Hq. unfold h1. rewrite pfn_record. by apply Hown. }
    { intros q f. unfold h1. rewrite pfn_record. apply Hsane. }
    exists h', (mkCall (mkFn L (fname p)) args None :: cs). split_and!; try done.
    + rewrite Hc. unfold h1. simpl. by rewrite <-app_assoc.
    + by apply prefix_cons.
    + intros L'. by rewrite Hl, <-(loaded_record (mkCall (mkFn L (fname p)) args None) h).
    + intros Hx. by destruct (Hall Hx) as [-> Hw].
Qed.

(** ** One engine *)
Definition exported (L : Library) : bool :=
  forallb (λ p, in_exports inst L (fname p)) (lookups (script L Helper_new)).
Definition called (L : Library) (cs : list EngineCall) : Prop := Forall (λ c, fn_library (c_fn c) = L) cs.
Lemma script_wf L h : wf L [] (script L h) = true.
Proof. by destruct L. Qed.
Lemma calls_of_called L items cs : cs `prefix_of` calls_of L items → called L cs.
Proof.
  intros [k Hk]. assert (called L (calls_of L items)) as H.
  { unfold called. clear Hk. induction items as [|[p|p args] items IH]; simpl; [constructor|exact IH|by constructor]. }
  unfold called in *. rewrite Hk in H. by apply Forall_app in H as [].
Qed.
Definition other (L : Library) (p : Pfn) : Prop := p ≠ PInit ∧ owner p ≠ Some L.
Lemma other_lookups L h p : other L p → p ∉ lookups (script L h).
Proof. intros [H1 H2] H. destruct L, p; simpl in *; set_solver. Qed.
Lemma init_spec L h : sane h →
  ∃ b h' cs, init L h = (b, h') ∧ b = loads L h && exported L ∧ sane h' ∧
    h_calls h' = h_calls h ++ cs ∧ called L cs ∧ dir_path_ h' = dir_path_ h ∧
    (∀ L', loaded L' h' = (b && bool_decide (L = L')) || loaded L' h) ∧
    (∀ p, other L p → pfn p h' = pfn p h) ∧
    (b = true → owned L (lookups (script L h)) h' ∧ cs = calls_of L (script L h)).
Proof.
  intros Hsane. rewrite init_script. destruct (loads L h) eqn:Hloads; simpl.
  2:{ exists false, h, []. rewrite app_nil_r. split_and!; try done. constructor. }
  destruct (play_spec L (script L h) (flag L) [] h) as (h' & cs & -> & Hs & Hc & Hp & Hl & Hd & Ho & Hall);
    [apply script_wf|by intros p ?%not_elem_of_nil|done|].
  assert (lookups (script L h) = lookups (script L Helper_new)) as Hsame by by destruct L.
  fold (exported L) in *. rewrite Hsame in *. fold (exported L) in *.
  assert (∀ p, other L p → p ∉ lookups (script L Helper_new)) as Hoth by (intros p; apply other_lookups).
  destruct (exported L).
  - destruct (Hall eq_refl) as [-> Hown]. exists true, (flag L h'), (calls_of L (script L h)). split_and!; try done.
    + intros p f. rewrite pfn_flag. apply Hs.
    + by rewrite calls_flag.
    + by apply calls_of_called with (script L h).
    + by rewrite paths_flag.
    + intros L'. by rewrite loaded_flag, Hl.
    + intros p Hpo. rewrite pfn_flag. auto.
    + intros _. split; [|done]. intros p Hpin. rewrite pfn_flag. by apply Hown.
  - exists false, h', cs. split_and!; try done; [by apply calls_of_called with (script L h)|auto].
Qed.

(** ** The whole initialisation *)
(** The engine can be used: its library loads and exports every name. *)
Definition complete (L : Library) : bool :=
  let dir := FilePath_Append (in_dir_exe inst) "download" in
  in_DirectoryExists inst dir && (in_loads inst (FilePath_Append dir (file_of L)) && exported L).
Definition pointers (L : Library) : list Pfn := filter (λ p, p ≠ PInit) (lookups (script L Helper_new)).
(** It was initialised once, before anything else of it was called. *)
Definition initialised (L : Library) (cs : list EngineCall) : Prop :=
  ∃ pre c post, cs = pre ++ c :: post ∧ c_fn c = mkFn L "Init" ∧
    Forall (λ c, fn_library (c_fn c) ≠ L) pre ∧ Forall (λ c, c_fn c ≠ mkFn L "Init") post.
Definition started : DownloadInterfaceHelper :=
  set_paths (FilePath_Append (in_dir_exe inst) "download") (BaseFilePathToU8 (in_dir_exe inst)) Helper_new.
Lemma Init_unfold : Init inst Helper_new =
  (false, if in_DirectoryExists inst (dir_path_ started)
          then (init NetMuleSo (init NetBtSo (init NetCurlSo started).2).2).2 else started).
Proof. unfold Init. fold started. by destruct (in_DirectoryExists _ _). Qed.
Lemma called_other L L' cs : called L' cs → L ≠ L' → Forall (λ c, fn_library (c_fn c) ≠ L) cs.
Proof. intros H Hne. eapply Forall_impl; [exact H|]. simpl. congruence. Qed.
Lemma script_initialised L h pre post :
  Forall (λ c, fn_library (c_fn c) ≠ L) pre → Forall (λ c, fn_library (c_fn c) ≠ L) post →
  initialised L (pre ++ calls_of L (script L h) ++ post).
Proof.
  intros Hpre Hpost.
  assert (∃ c cs, calls_of L (script L h) = c :: cs ∧ c_fn c = mkFn L "Init" ∧ Forall (λ c, c_fn c ≠ mkFn L "Init") cs)
    as (c & cs & -> & Hc & Hcs) by (destruct L; simpl; eexists _, _; (split; [reflexivity|split; [reflexivity|]]); repeat (constructor; [discriminate|]); constructor).
  exists pre, c, (cs ++ post). split_and!; [done..|]. apply Forall_app. split; [done|].
  eapply Forall_impl; [exact Hpost|]. intros c' H E. simpl in H. by rewrite E in H.
Qed.
Lemma owned_pointers L h h' :
  owned L (lookups (script L Helper_new)) h → (∀ p, p ∈ pointers L → pfn p h' = pfn p h) → owned L (pointers L) h'.
Proof. intros H Heq p Hp. rewrite Heq by done. apply H. unfold pointers in Hp. by apply list_elem_of_filter in Hp as []. Qed.
Lemma pointer_other L L' p : L ≠ L' → p ∈ pointers L → other L' p.
Proof.
  intros Hne Hp. assert (p ≠ PInit ∧ owner p = Some L) as [H1 H2]; [|split; congruence].
  destruct L; vm_compute in Hp; set_solver.
Qed.
Lemma init_same L h : lookups (script L h) = lookups (script L Helper_new).
Proof. by destruct L. Qed.

Lemma Init_spec : let h := (Init inst Helper_new).2 in
  sane h ∧ (∀ L, loaded L h = complete L) ∧
  ∀ L, complete L = true → owned L (pointers L) h ∧ initialised L (h_calls h).
Proof.
  rewrite Init_unfold. unfold complete. cbv zeta. cbn [snd].
  change (FilePath_Append (in_dir_exe inst) "download") with (dir_path_ started).
  assert (sane started) as H0 by (intros [] f; done).
  destruct (in_DirectoryExists inst (dir_path_ started)); cbn [andb]; [|by split_and!; [|intros []|]].
  destruct (init_spec NetCurlSo started H0) as (b1 & h1 & c1 & -> & Hb1 & H1 & Hc1 & Hk1 & Hd1 & Hl1 & Ho1 & Hw1). cbn [snd].
  destruct (init_spec NetBtSo h1 H1) as (b2 & h2 & c2 & -> & Hb2 & H2 & Hc2 & Hk2 & Hd2 & Hl2 & Ho2 & Hw2). cbn [snd].
  destruct (init_spec NetMuleSo h2 H2) as (b3 & h3 & c3 & -> & Hb3 & H3 & Hc3 & Hk3 & Hd3 & Hl3 & Ho3 & Hw3). cbn [snd].
  rewrite Hc2, Hc1 in Hc3. unfold loads in *. rewrite Hd2, Hd1 in Hb3. rewrite Hd1 in Hb2.
  rewrite init_same in Hw1, Hw2, Hw3.
  split; [done|]. split.
  - intros L. rewrite Hl3, Hl2, Hl1, Hb1, Hb2, Hb3. replace (loaded L started) with false by by destruct L.
    destruct L; repeat case_bool_decide; try done; by rewrite ?andb_false_r, ?andb_true_r, ?orb_false_r.
  - intros [] HL; fold (loads NetCurlSo started) in *.
    + rewrite HL in Hb1. destruct (Hw1 Hb1) as [Hown ->]. split.
      * eapply owned_pointers; [exact Hown|]. intros p Hp. rewrite Ho3, Ho2; [done|by apply (pointer_other NetCurlSo)..].
      * rewrite Hc3, <-!app_assoc. apply (script_initialised NetCurlSo started []); [constructor|].
        apply Forall_app; split; by eapply called_other.
    + rewrite HL in Hb2. destruct (Hw2 Hb2) as [Hown ->]. split.
      * eapply owned_pointers; [exact Hown|]. intros p Hp. rewrite Ho3; [done|by apply (pointer_other NetBtSo)].
      * rewrite Hc3, <-!app_assoc. apply (script_initialised NetBtSo h1 c1); by eapply called_other.
    + rewrite HL in Hb3. destruct (Hw3 Hb3) as [Hown ->]. split.
      * eapply owned_pointers; [exact Hown|done].
      * rewrite Hc3. rewrite <-(app_nil_r (calls_of _ _)). apply script_initialised; [|constructor].
        apply Forall_app; split; by eapply called_other.
Qed.

(** ** The calls of the server *)
Inductive HelperOp :=
  | OCreateCurl | OCreateTorrent | OCreateMagnet | OCreateMule
  | OReleaseCurl (task : option Handle) | OReleaseTorrent (task : option Handle) | OReleaseMule (task : option Handle)
  | OWaitInitComplete | OBtSettings | OAmuleSettings | OUnInit.
Definition op (o : HelperOp) h : DownloadInterfaceHelper :=
  match o with
  | OCreateCurl => (CreateCurlDownloadTask inst h).2
  | OCreateTorrent => (CreateTorrentFileDownloadTask inst h).2
  | OCreateMagnet => (CreateMagnetDownloadTask inst h).2
  | OCreateMule => (CreateMuleDownloadTask inst h).2
  | OReleaseCurl task => ReleaseCurlTask task h
  | OReleaseTorrent task => ReleaseTorrentTask task h
  | OReleaseMule task => ReleaseMuleTask task h
  | OWaitInitComplete => WaitInitComplete h
  | OBtSettings => (GetBtSettingsInterface inst h).2
  | OAmuleSettings => (GetAmuleSettingsInterface inst h).2
  | OUnInit => (UnInit h).2
  end.
Definition run_ops (os : list HelperOp) h : DownloadInterfaceHelper := foldl (λ h o, op o h) h os.

(** Later states have the same pointers; nothing more is initialised. *)
Definition later h h' : Prop :=
  (∀ p, pfn p h' = pfn p h) ∧ (∀ L, loaded L h' = loaded L h) ∧
  ∃ cs, h_calls h' = h_calls h ++ cs ∧ Forall (λ c, fn_name (c_fn c) ≠ "Init") cs.
Lemma later_refl h : later h h.
Proof. split_and!; [done..|]. exists []. rewrite app_nil_r. by split; [|constructor]. Qed.
Lemma later_trans h1 h2 h3 : later h1 h2 → later h2 h3 → later h1 h3.
Proof.
  intros (H1 & H2 & c1 & H3 & H4) (H5 & H6 & c2 & H7 & H8).
  split; [intros p; by rewrite H5|]. split; [intros L; by rewrite H6|].
  exists (c1 ++ c2). rewrite H7, H3, <-app_assoc. split; [done|]. by apply Forall_app.
Qed.
Lemma sane_later h h' : later h h' → sane h → sane h'.
Proof. intros (H & _) Hs p f. rewrite H. apply Hs. Qed.
Lemma record_later p c h : sane h → pfn p h = Some (c_fn c) → fname p ≠ "Init" → later h (record c h).
Proof.
  intros Hs Hp Hn. split_and!; [apply pfn_record|apply loaded_record|]. exists [c]. split; [done|].
  constructor; [|constructor]. destruct (Hs _ _ Hp) as [-> _]. done.
Qed.
Lemma call_ptr_later p args task h : sane h → fname p ≠ "Init" → later h (call_ptr p args task h).
Proof.
  intros Hs Hn. unfold call_ptr. destruct (pfn p h) as [f|] eqn:E; [|apply later_refl]. by eapply record_later.
Qed.
Lemma create_later p h : sane h → fname p ≠ "Init" → later h (create inst p h).2.
Proof. intros Hs Hn. unfold create. destruct (pfn p h) as [f|] eqn:E; [|apply later_refl]. by eapply record_later. Qed.
Lemma release_later p task h : sane h → fname p ≠ "Init" → later h (release p task h).
Proof. intros Hs Hn. destruct task; [by apply call_ptr_later|apply later_refl]. Qed.
Lemma op_later o h : sane h → later h (op o h).
Proof.
  intros Hs. destruct o; simpl; try (by apply create_later || apply release_later).
  - eapply later_trans; [by apply (call_ptr_later PWaitBt [] None)|]. apply call_ptr_later; [|done].
    eapply sane_later; [|exact Hs]. by apply call_ptr_later.
  - assert (∀ p h, sane h → fname p ≠ "Init" → later h (call_ptr p [] None h) ∧ sane (call_ptr p [] None h)) as H.
    { intros p h' Hh Hp. split; [by apply call_ptr_later|]. eapply sane_later; [by apply call_ptr_later|done]. }
    destruct (H PCurlUninit h Hs) as [L1 S1]; [done|]. destruct (H PMuleUninit _ S1) as [L2 S2]; [done|].
    destruct (H PBtUninit _ S2) as [L3 S3]; [done|]. eapply later_trans; [exact L1|]. by eapply later_trans.
Qed.
Lemma run_later os h : sane h → later h (run_ops os h).
Proof.
  revert h. induction os as [|o os IH]; intros h Hs; [apply later_refl|]. simpl.
  eapply later_trans; [by apply op_later|]. apply IH. eapply sane_later; [by apply op_later|done].
Qed.
Lemma initialised_later L cs cs' : initialised L cs → Forall (λ c, fn_name (c_fn c) ≠ "Init") cs' → initialised L (cs ++ cs').
Proof.
  intros (pre & c & post & -> & Hc & Hpre & Hpost) H. exists pre, c, (post ++ cs'). rewrite <-app_assoc.
  split_and!; [done..|]. apply Forall_app. split; [done|]. eapply Forall_impl; [exact H|]. intros c' H1 E. simpl in H1. by rewrite E in H1.
Qed.

(** C18. After the initialisation and whatever calls the server then makes, an engine
    is reported as loaded exactly when the download directory has its library and
    the library exports every name; a loaded engine has every pointer set to the
    function of that name, its factories return what the library's do, and it was
    initialised once, before anything else of it was called. *)
Theorem engines_loaded os :
  let h := run_ops os (Init inst Helper_new).2 in
  (∀ L, loaded L h = complete L) ∧
  ∀ L, complete L = true →
    owned L (pointers L) h ∧ initialised L (h_calls h) ∧
    ∀ p, p ∈ pointers L → (create inst p h).1 = in_makes inst (mkFn L (fname p)) (h_calls h).
Proof.
  destruct Init_spec as (Hs & Hl & Hc). destruct (run_later os _ Hs) as (Hp & Hl' & cs & Hcs & Hn).
  split; [intros L; by rewrite Hl'|]. intros L HL. destruct (Hc L HL) as [Hown Hini].
  assert (owned L (pointers L) (run_ops os (Init inst Helper_new).2)) as Hown' by (intros p ?; rewrite Hp; auto).
  split_and!; [done|rewrite Hcs; by apply initialised_later|]. intros p Hpp. unfold create. by rewrite (Hown' p Hpp).
Qed.
End Claims.

(** ** A concrete installation: only the http engine is complete *)
Definition an_installation (lacks : Library → string → bool) : Installation := {|
  in_dir_exe := "/opt/nas/bin";
  in_DirectoryExists _ := true;
  in_config_dir := "/data/config";
  in_loads p := negb (String.eqb p "/opt/nas/bin/download/libnetbt.so");
  in_exports L name := negb (lacks L name);
  in_makes f cs := Some (N.of_nat (length cs))
|}.
Definition no_mule_uninit (L : Library) (name : string) : bool := bool_decide (L = NetMuleSo) && String.eqb name "UnInit".
Lemma engines_loaded_witness :
  let h := run_ops (an_installation no_mule_uninit) [OCreateCurl] (Init (bl := base_ref) (an_installation no_mule_uninit) Helper_new).2 in
  loaded NetCurlSo h = true ∧ loaded NetBtSo h = false ∧ loaded NetMuleSo h = false ∧
  initialised NetCurlSo (h_calls h) ∧ is_Some (CreateCurlDownloadTask (an_installation no_mule_uninit) h).1.
Proof.
  destruct (engines_loaded (bl := base_ref) (an_installation no_mule_uninit) [OCreateCurl]) as [Hl Hc].
  set (h := run_ops _ _ _) in *. destruct (Hc NetCurlSo eq_refl) as (_ & Hi & Hm).
  split; [rewrite Hl; reflexivity|]. split; [rewrite Hl; reflexivity|]. split; [rewrite Hl; reflexivity|].
  split; [exact Hi|]. unfold CreateCurlDownloadTask. rewrite Hm; [eexists; reflexivity|].
  unfold pointers. apply list_elem_of_filter. split; [discriminate|]. left.
Defined.
(** A library that lacks [Init] does not count as loaded, but its factory is used,
    on an engine that was never initialised. *)
Example uninitialised_engine_used :
  let i := an_installation (λ L name, String.eqb name "Init") in
  let h := (Init (bl := base_ref) i Helper_new).2 in
  IsLoadedNetCurl h = false ∧ (CreateCurlDownloadTask i h).1 = Some 0%N ∧ h_calls h = [].
Proof. vm_compute. done. Qed.
(** [Init] reports a failure also when every engine is loaded. *)
Example Init_always_fails :
  let r := Init (bl := base_ref) (an_installation (λ _ _, false)) Helper_new in r.1 = false ∧ IsLoadedNetCurl r.2 = true.
Proof. vm_compute. done. Qed.
(** [UnInit] keeps the pointers: a task can be made of an engine that was shut down. *)
Example task_after_UnInit :
  let i := an_installation (λ _ _, false) in
  let h := (UnInit (Init (bl := base_ref) i Helper_new).2).2 in
  IsLoadedNetCurl h = true ∧ (CreateCurlDownloadTask i h).1 = Some 5%N.
Proof. vm_compute. done. Qed.
