(* ===== verification/NasThread.v ===== *)
(** * Named threads

    [common/nas_thread.cc]: a [NasThread] object owns a thread with a name; the
    objects are registered in a global list, under a lock.  An operation that takes
    the lock twice is two steps, between which another thread of the program may
    run. *)

From S2P Require Import Prelude CppBase.
From stdpp Require Import gmap.
#[local] Open Scope Z_scope.

(** [NasThreadData]: the name and the id of the running thread *)
Record NasThreadData := mkThread { th_name : string; th_id : Z }.
(** The objects by address: [data_], null when nothing runs; the list [all_thread];
    the ids that the system has given *)
Record Threads := mkThreads {
  objects : gmap nat (option NasThreadData);
  all_thread : list nat;
  next_id : Z
}.
Definition Threads_init : Threads := mkThreads ∅ [] 1.

Definition data_ (nt : nat) (s : Threads) : option NasThreadData := objects s !! nt ≫= id.
Definition set_data (nt : nat) (d : option NasThreadData) (s : Threads) : Threads :=
  mkThreads (<[nt := d]> (objects s)) (all_thread s) (next_id s).
Definition set_all (l : list nat) (s : Threads) : Threads := mkThreads (objects s) l (next_id s).

(** The loop of [GetThread]: [None] is the dereference of a null [data_]. *)
Fixpoint find_thread (p : NasThreadData → bool) (l : list nat) (s : Threads) : option (option nat) :=
  match l with
  | [] => Some None
  | nt :: l => d ← data_ nt s; if p d then Some (Some nt) else find_thread p l s
  end.
Definition GetThread_id (thread_id : Z) (s : Threads) : option (option nat) :=
  find_thread (λ d, th_id d =? thread_id) (all_thread s) s.
Definition GetThread (name : string) (s : Threads) : option (option nat) :=
  if str_empty name then Some None else find_thread (λ d, String.eqb (th_name d) name) (all_thread s) s.
(** [PlatformThread::CurrentId] is the argument. *)
Definition GetCurrentThread (current : Z) (s : Threads) : option (option nat) := GetThread_id current s.

(** [Init], in its steps: the test of the name, then the start and the registration *)
Definition Init_check (name : string) (s : Threads) : option bool :=
  if str_empty name then Some false
  else found ← GetThread name s; Some (match found with Some _ => false | None => true end).
Definition Init_start (nt : nat) (name : string) (s : Threads) : Threads :=
  mkThreads (<[nt := Some (mkThread name (next_id s))]> (objects s)) (all_thread s ++ [nt]) (next_id s + 1).
(** The constructor: the object exists, with a thread or without. *)
Definition NasThread_new (nt : nat) (name : string) (s : Threads) : option (bool * Threads) :=
  let s := set_data nt None s in
  ok ← Init_check name s;
  Some (ok, if ok : bool then Init_start nt name s else s).

(** [Uninit], in its steps: the thread stops and its data goes, then the object
    leaves the list *)
Definition Uninit_stop (nt : nat) (s : Threads) : Threads := set_data nt None s.
Fixpoint erase_first (nt : nat) (l : list nat) : list nat :=
  match l with [] => [] | x :: l => if bool_decide (x = nt) then l else x :: erase_first nt l end.
Definition Uninit_erase (nt : nat) (s : Threads) : Threads := set_all (erase_first nt (all_thread s)) s.
Definition Uninit (nt : nat) (s : Threads) : Threads :=
  match data_ nt s with None => s | Some _ => Uninit_erase nt (Uninit_stop nt s) end.
Definition Stop (nt : nat) (s : Threads) : Threads := Uninit nt s.
(** The destructor *)
Definition NasThread_delete (nt : nat) (s : Threads) : Threads :=
  let s := Uninit nt s in mkThreads (delete nt (objects s)) (all_thread s) (next_id s).

Definition Valid (nt : nat) (s : Threads) : bool := match data_ nt s with Some _ => true | None => false end.
(** [PostTask] reports whether the task was posted; [TaskRunner] is null without a
    thread. *)
Definition PostTask (nt : nat) (s : Threads) : bool := Valid nt s.
Definition TaskRunner (nt : nat) (s : Threads) : option Z := th_id <$> data_ nt s.
Definition IsCurrentThread (nt : nat) (current : Z) (s : Threads) : bool :=
  match data_ nt s with Some d => th_id d =? current | None => false end.
Definition kInvalidThreadId : Z := 0.
Definition Id (nt : nat) (s : Threads) : Z := match data_ nt s with Some d => th_id d | None => kInvalidThreadId end.
Definition Name (nt : nat) (s : Threads) : string := match data_ nt s with Some d => th_name d | None => EmptyString end.

(** ** The registry is a map from names to threads *)
Inductive ThreadOp := ONew (nt : nat) (name : string) | OStop (nt : nat) | ODelete (nt : nat).
(** A constructor takes a fresh address. *)
Definition fresh_op (o : ThreadOp) (s : Threads) : bool :=
  match o with ONew nt _ => bool_decide (objects s !! nt = None) | _ => true end.
Definition op (o : ThreadOp) (s : Threads) : option Threads :=
  match o with
  | ONew nt name => snd <$> NasThread_new nt name s
  | OStop nt => Some (Stop nt s)
  | ODelete nt => Some (NasThread_delete nt s)
  end.
Fixpoint run_ops (os : list ThreadOp) (s : Threads) : option Threads :=
  match os with [] => Some s | o :: os => if fresh_op o s then s ← op o s; run_ops os s else None end.
Fixpoint fresh_ops (os : list ThreadOp) (s : Threads) : bool :=
  match os with
  | [] => true
  | o :: os => fresh_op o s && match op o s with Some s => fresh_ops os s | None => true end
  end.

(** The list holds the objects with a thread, once each; names and ids are their own. *)
Record registered (s : Threads) : Prop := {
  reg_nodup : NoDup (all_thread s);
  reg_live nt : nt ∈ all_thread s ↔ is_Some (data_ nt s);
  reg_names i j d e : data_ i s = Some d → data_ j s = Some e → th_name d = th_name e → i = j;
  reg_ids i j d e : data_ i s = Some d → data_ j s = Some e → th_id d = th_id e → i = j;
  reg_next i d : data_ i s = Some d → th_id d < next_id s;
  reg_named i d : data_ i s = Some d → str_empty (th_name d) = false
}.

Lemma data_set nt d s j : data_ j (set_data nt d s) = if bool_decide (j = nt) then d else data_ j s.
Proof.
  unfold data_, set_data. simpl. case_bool_decide; [subst; by rewrite lookup_insert_eq|].
  by rewrite lookup_insert_ne.
Qed.
Lemma data_start nt name s j :
  data_ j (Init_start nt name s) = if bool_decide (j = nt) then Some (mkThread name (next_id s)) else data_ j s.
Proof.
  unfold data_, Init_start. simpl. case_bool_decide; [subst; by rewrite lookup_insert_eq|].
  by rewrite lookup_insert_ne.
Qed.
Lemma elem_of_erase nt l j : NoDup l → j ∈ erase_first nt l ↔ j ∈ l ∧ j ≠ nt.
Proof.
  induction 1 as [|x l Hx Hl IH]; simpl; [set_solver|].
  case_bool_decide; [subst; set_solver|]. rewrite !elem_of_cons, IH. set_solver.
Qed.
Lemma nodup_erase nt l : NoDup l → NoDup (erase_first nt l).
Proof.
  induction 1 as [|x l Hx Hl IH]; simpl; [constructor|]. case_bool_decide; [done|].
  constructor; [|done]. rewrite elem_of_erase by done. tauto.
Qed.
(** The search finds the first match and dereferences nothing null. *)
Lemma find_thread_spec p l s : (∀ nt, nt ∈ l → is_Some (data_ nt s)) →
  (∃ nt d, find_thread p l s = Some (Some nt) ∧ nt ∈ l ∧ data_ nt s = Some d ∧ p d = true) ∨
  find_thread p l s = Some None ∧ ∀ nt d, nt ∈ l → data_ nt s = Some d → p d = false.
Proof.
  induction l as [|x l IH]; intros H; simpl; [right; set_solver|].
  destruct (H x) as [d Hd]; [set_solver|]. rewrite Hd. simpl. destruct (p d) eqn:Hp.
  - left. exists x, d. split_and!; [done|set_solver|done|done].
  - destruct IH as [(nt & e & -> & Hin & He & Hpe)|[-> Hno]]; [set_solver| |].
    + left. exists nt, e. split_and!; [done|set_solver|done|done].
    + right. split; [done|]. intros nt e [->|Hin]%elem_of_cons He; [congruence|eauto].
Qed.
Lemma GetThread_spec name s : registered s → str_empty name = false →
  (∃ nt d, GetThread name s = Some (Some nt) ∧ data_ nt s = Some d ∧ th_name d = name) ∨
  GetThread name s = Some None ∧ ∀ nt d, data_ nt s = Some d → th_name d ≠ name.
Proof.
  intros R Hne. unfold GetThread. rewrite Hne.
  destruct (find_thread_spec (λ d, String.eqb (th_name d) name) (all_thread s) s) as [(nt & d & -> & _ & Hd & E)|[-> Hno]].
  - intros nt. apply (reg_live s R).
  - left. exists nt, d. by apply String.eqb_eq in E.
  - right. split; [done|]. intros nt d Hd E. specialize (Hno nt d).
    rewrite (reg_live s R), Hd in Hno. specialize (Hno ltac:(by eexists) eq_refl). by apply String.eqb_neq in Hno.
Qed.

Lemma registered_init : registered Threads_init.
Proof. split; simpl; try by intros; simplify_option_eq. - constructor. - intros nt. split; [set_solver|by intros [? ?]]. Qed.
(** Objects without data make no difference. *)
Lemma registered_null nt s : registered s → data_ nt s = None → registered (set_data nt None s).
Proof.
  intros [H1 H2 H3 H4 H5 H6] Hn.
  assert (∀ j, data_ j (set_data nt None s) = data_ j s) as E.
  { intros j. rewrite data_set. case_bool_decide; congruence. }
  split; intros *; rewrite ?E; try done; eauto.
Qed.
Lemma registered_start nt name s : registered s → data_ nt s = None → str_empty name = false →
  (∀ j d, data_ j s = Some d → th_name d ≠ name) → registered (Init_start nt name s).
Proof.
  intros [H1 H2 H3 H4 H5 H6] Hn Hname Hno. split.
  - simpl. apply NoDup_app. split_and!; [done| |repeat constructor; set_solver].
    intros j Hj ->%list_elem_of_singleton. apply H2 in Hj. rewrite Hn in Hj. by destruct Hj.
  - intros j. rewrite data_start. simpl. rewrite elem_of_app, list_elem_of_singleton, H2.
    case_bool_decide; [subst; split; eauto|]. split; [intros [?|?]; done|auto].
  - intros i j d e. rewrite !data_start. repeat case_bool_decide; intros; simplify_eq/=; eauto; exfalso; naive_solver.
  - intros i j d e. rewrite !data_start. repeat case_bool_decide; intros; simplify_eq/=; eauto; exfalso;
      match goal with H : data_ _ s = Some _ |- _ => apply H5 in H; simpl in *; lia end.
  - intros i d. rewrite data_start. simpl. case_bool_decide; intros; simplify_eq/=; [lia|].
    match goal with H : data_ _ s = Some _ |- _ => apply H5 in H; lia end.
  - intros i d. rewrite data_start. case_bool_decide; intros; simplify_eq/=; eauto.
Qed.
Lemma registered_uninit nt s : registered s → registered (Uninit nt s) ∧ data_ nt (Uninit nt s) = None ∧
  ∀ j, j ≠ nt → data_ j (Uninit nt s) = data_ j s.
Proof.
  intros [H1 H2 H3 H4 H5 H6]. unfold Uninit. destruct (data_ nt s) as [d|] eqn:Hd; [|done].
  assert (∀ j, data_ j (Uninit_erase nt (Uninit_stop nt s)) = if bool_decide (j = nt) then None else data_ j s) as E
    by (intros j; apply data_set).
  split; [|split; [by rewrite E, bool_decide_true|intros j Hj; by rewrite E, bool_decide_false]].
  split; intros *; rewrite ?E; try (repeat case_bool_decide; intros; try done; eauto; fail).
  - by apply nodup_erase.
  - simpl. rewrite elem_of_erase, H2 by done. case_bool_decide; [subst|]; split; try tauto; by intros [].
Qed.
Lemma registered_delete nt s : registered s → registered (NasThread_delete nt s).
Proof.
  intros R. destruct (registered_uninit nt s R) as ([H1 H2 H3 H4 H5 H6] & Hn & _). unfold NasThread_delete.
  assert (∀ j, data_ j (mkThreads (delete nt (objects (Uninit nt s))) (all_thread (Uninit nt s)) (next_id (Uninit nt s)))
          = data_ j (Uninit nt s)) as E.
  { intros j. unfold data_ in *. simpl. destruct (decide (j = nt)) as [->|Hj]; [by rewrite lookup_delete_eq, Hn|].
    by rewrite lookup_delete_ne. }
  split; intros *; rewrite ?E; simpl; try done; eauto.
Qed.
Definition unused (name : string) (s : Threads) : Prop := ∀ j d, data_ j s = Some d → th_name d ≠ name.
Lemma NasThread_new_spec nt name s : registered s → objects s !! nt = None →
  ∃ ok s', NasThread_new nt name s = Some (ok, s') ∧ registered s' ∧
    (ok = true ↔ str_empty name = false ∧ unused name s) ∧ (ok = true → data_ nt s' = Some (mkThread name (next_id s))) ∧
    (ok = false → data_ nt s' = None) ∧ ∀ j, j ≠ nt → data_ j s' = data_ j s.
Proof.
  intros R Hfresh. assert (data_ nt s = None) as Hn by (unfold data_; by rewrite Hfresh).
  pose proof (registered_null nt s R Hn) as R0. set (s0 := set_data nt None s) in *.
  assert (∀ j, data_ j s0 = data_ j s) as E0.
  { intros j. unfold s0. rewrite data_set. case_bool_decide; congruence. }
  unfold NasThread_new, Init_check. fold s0. destruct (str_empty name) eqn:Hname; simpl.
  { exists false, s0. split_and!; try done; [by split; [|intros [? _]]|by rewrite E0]. }
  destruct (GetThread_spec name s0 R0 Hname) as [(k & d & -> & Hd & Hdn)|[-> Hno]]; simpl.
  - exists false, s0. rewrite E0 in Hd. split_and!; try done; [|by rewrite E0].
    split; [done|]. intros [_ Hun]. by destruct (Hun k d).
  - exists true, (Init_start nt name s0). split_and!; try done.
    + by apply registered_start; [|rewrite E0| |].
    + split; [|done]. intros _. split; [done|]. intros j d. rewrite <-E0. apply Hno.
    + intros _. by rewrite data_start, bool_decide_true.
    + intros j Hj. by rewrite data_start, bool_decide_false, E0.
Qed.
Lemma run_registered os s : registered s → fresh_ops os s = true → ∃ s', run_ops os s = Some s' ∧ registered s'.
Proof.
  revert s. induction os as [|o os IH]; intros s R Hf; simpl in *; [by exists s|].
  apply andb_prop in Hf as [Ho Hf]. rewrite Ho.
  assert (∃ s', op o s = Some s' ∧ registered s') as (s' & E & R'); [|rewrite E in *; by apply IH].
  destruct o as [nt name|nt|nt]; simpl in *.
  - apply bool_decide_eq_true in Ho. destruct (NasThread_new_spec nt name s R Ho) as (ok & s' & -> & R' & _). by exists s'.
  - eexists. split; [done|]. by apply registered_uninit.
  - eexists. split; [done|]. by apply registered_delete.
Qed.

(** As long as one operation runs at a time, a name belongs to at most one
    thread: after any creations, stops and deletions no search dereferences null, a
    search by name or by id finds the object that runs this thread and no other, and
    a constructor starts a thread exactly when its name is new and not empty. *)
Theorem threads_found_by_name os :
  fresh_ops os Threads_init = true →
  ∃ s, run_ops os Threads_init = Some s ∧
    (∀ name nt, GetThread name s = Some (Some nt) ↔ str_empty name = false ∧ Name nt s = name) ∧
    (∀ i nt, GetThread_id i s = Some (Some nt) ↔ Valid nt s = true ∧ Id nt s = i) ∧
    (∀ nt name, objects s !! nt = None → ∃ ok s', NasThread_new nt name s = Some (ok, s') ∧
       Valid nt s' = ok ∧ (ok = true ↔ str_empty name = false ∧ unused name s)).
Proof.
  intros Hf. destruct (run_registered os _ registered_init Hf) as (s & E & R). exists s. split; [done|]. split_and!.
  - intros name nt. unfold Name. destruct (str_empty name) eqn:Hname.
    { unfold GetThread. rewrite Hname. split; [done|by intros []]. }
    destruct (GetThread_spec name s R Hname) as [(k & d & -> & Hd & Hdn)|[-> Hno]].
    + split; [intros [= <-]; by rewrite Hd|]. intros [_ H]. destruct (data_ nt s) as [e|] eqn:He; [|rewrite <-H in Hname; discriminate Hname].
      do 2 f_equal. eapply (reg_names s R); [exact Hd|exact He|congruence].
    + split; [done|]. intros [_ H]. destruct (data_ nt s) as [e|] eqn:He; [|rewrite <-H in Hname; discriminate Hname]. by destruct (Hno nt e).
  - intros i nt. unfold Valid, Id, GetThread_id.
    destruct (find_thread_spec (λ d, th_id d =? i) (all_thread s) s) as [(k & d & -> & _ & Hd & Hp)|[-> Hno]].
    { intros j. apply (reg_live s R). }
    + apply Z.eqb_eq in Hp. split; [intros [= <-]; by rewrite Hd|]. intros [Hv H]. destruct (data_ nt s) as [e|] eqn:He; [|done].
      do 2 f_equal. eapply (reg_ids s R); [exact Hd|exact He|congruence].
    + split; [done|]. intros [Hv H]. destruct (data_ nt s) as [e|] eqn:He; [|done].
      assert (nt ∈ all_thread s) as Hin by (apply (reg_live s R); by eexists).
      pose proof (Hno nt e Hin He) as Hp. simpl in Hp. apply Z.eqb_neq in Hp. done.
  - intros nt name Hfresh. destruct (NasThread_new_spec nt name s R Hfresh) as (ok & s' & -> & _ & Hok & Ht & Hn & _).
    exists ok, s'. split; [done|]. split; [|done]. unfold Valid. destruct ok; [by rewrite Ht|by rewrite Hn].
Qed.
Lemma threads_found_by_name_witness : ∃ s,
  run_ops [ONew 0 "download_mgr_thread"; ONew 1 "user_1"; ONew 2 "user_1"; OStop 1; ONew 3 "user_1"] Threads_init = Some s ∧
  GetThread "user_1" s = Some (Some 3%nat) ∧ Valid 2 s = false.
Proof.
  destruct (threads_found_by_name
    [ONew 0 "download_mgr_thread"; ONew 1 "user_1"; ONew 2 "user_1"; OStop 1; ONew 3 "user_1"] eq_refl) as (s & E & Hname & _).
  exists s. split; [exact E|]. vm_compute in E. injection E as E. split; [apply Hname|]; subst s; vm_compute; [by split|reflexivity].
Defined.

(** Two threads of the program can both pass the test before either registers. *)
Example same_name_twice :
  let s := set_data 1 None (set_data 0 None Threads_init) in
  Init_check "t" s = Some true ∧
  let s := Init_start 1 "t" (Init_start 0 "t" s) in Valid 0 s && Valid 1 s = true ∧ Name 0 s = Name 1 s.
Proof. vm_compute. done. Qed.
(** Between the two steps of [Uninit] a search dereferences null. *)
Example search_during_Uninit :
  let s := Init_start 0 "t" (set_data 0 None Threads_init) in
  GetThread "u" s = Some None ∧ GetThread "u" (Uninit_stop 0 s) = None ∧ GetThread "u" (Uninit 0 s) = Some None.
Proof. vm_compute. done. Qed.
(** After a stop there is no runner to post to. *)
Example no_runner_after_Stop :
  let s := Init_start 0 "download_mgr_thread" (set_data 0 None Threads_init) in
  is_Some (TaskRunner 0 s) ∧ TaskRunner 0 (Stop 0 s) = None ∧ PostTask 0 (Stop 0 s) = false.
Proof. vm_compute. split_and!; [by eexists|done|done]. Qed.
