(* ===== verification/StoreLife.v ===== *)
(** * The life of the store

    [common/db/sqlite_store_base.cc] opens and closes the database file on the
    background thread; [db/download_store_helper.cc] owns the store and its two
    threads.  A thread is the queue of the tasks posted to it; stopping it runs what
    is queued and refuses what is posted later, as [base::Thread::Stop] documents.
    [None] is a failed [CHECK] or the dereference of a null pointer. *)

From S2P Require Import Prelude CppBase BaseRef DownloadTypes TaskInfo InfoStore.

(** What the file system and SQLite answer while the database is opened *)
Record Opening := mkOpening { dir_exists : bool; dir_created : bool; file_opens : bool }.
(** An empty database file *)
Definition no_tables : Database := mkDatabase ∅ None.

(** The tasks of the background thread, and of the client thread *)
Inductive BackgroundTask := BInit | BClose (callback : option nat) | BStore (t : StoreTask) | BKill.
Inductive ClientTask := COnCleared (ok : bool) | COnClosed (callback : nat).

(** [class SqliteStoreBase], with the file at [path_]: the connection [db_] writes
    through to the file. *)
Record SqliteStore := mkSqlite {
  store_ : Store;
  initialized_ : bool;
  corruption_detected_ : bool;
  before_commit_callback_ : option nat;
  commits : list nat
}.
Definition SqliteStore_new : SqliteStore := mkSqlite (mkStore None ∅) false false None [].
Definition set_store (v : Store) (b : SqliteStore) : SqliteStore :=
  mkSqlite v (initialized_ b) (corruption_detected_ b) (before_commit_callback_ b) (commits b).
Definition set_initialized (v : bool) (b : SqliteStore) : SqliteStore :=
  mkSqlite (store_ b) v (corruption_detected_ b) (before_commit_callback_ b) (commits b).
Definition with_db (db : option Database) (b : SqliteStore) : SqliteStore := set_store (mkStore db (st_users (store_ b))) b.
Definition SetBeforeCommitCallback (callback : option nat) (b : SqliteStore) : SqliteStore :=
  mkSqlite (store_ b) (initialized_ b) (corruption_detected_ b) callback (commits b).

Section Life.
Context `{sb : SqlBackend}.

(** A file is [None] when there is none at the path. *)
Definition File := option Database.
(** [Reset]: an open database is razed. *)
Definition Reset (b : SqliteStore) (f : File) : SqliteStore * File :=
  (with_db None b, match st_db (store_ b) with Some _ => Some no_tables | None => f end).
(** [CreateDatabaseSchema], [DoInitializeDatabase] and [DoCommit] of
    [DownloadInfoStore] *)
Definition CreateDatabaseSchema : bool := true.
Definition DoInitializeDatabase : bool := true.
Definition InitializeDatabase (o : Opening) (b : SqliteStore) (f : File) : bool * SqliteStore * File :=
  if initialized_ b || corruption_detected_ b then
    (match st_db (store_ b) with Some _ => true | None => false end, b, f)
  else if negb (dir_exists o) && negb (dir_created o) then (false, b, f)
  else if negb (file_opens o) then let '(b, f) := Reset (with_db None b) f in (false, b, f)
  else
    let db := default no_tables f in
    let b := with_db (Some db) b in
    let f := Some db in
    if negb CreateDatabaseSchema then let '(b, f) := Reset b f in (false, b, f)
    else
      let b := set_initialized DoInitializeDatabase b in
      if negb (initialized_ b) then let '(b, f) := Reset b f in (false, b, f) else (true, b, f).
Definition Commit (b : SqliteStore) : SqliteStore :=
  match before_commit_callback_ b with
  | Some c => mkSqlite (store_ b) (initialized_ b) (corruption_detected_ b) (before_commit_callback_ b) (commits b ++ [c])
  | None => b
  end.
Definition DoCloseInBackground (b : SqliteStore) : SqliteStore := with_db None (Commit b).
(** The first statement of the handler returns: errors are ignored. *)
Definition DatabaseErrorCallback (b : SqliteStore) : SqliteStore := b.
Definition KillDatabase (b : SqliteStore) (f : File) : SqliteStore * File :=
  match st_db (store_ b) with Some _ => (with_db None b, Some no_tables) | None => (b, f) end.
(** Whether every table that [ClearTableData] names could be emptied *)
Definition tables_cleared (s : Store) : bool :=
  match st_db s with
  | Some db =>
      forallb (λ u, plain u && bool_decide (is_Some (db_task_tables db !! u))) (elements (st_users s)) &&
      bool_decide (is_Some (db_user_table db))
  | None => false
  end.

(** A task of the background thread: what it posts to the client thread *)
Definition run_background (o : Opening) (t : BackgroundTask) (b : SqliteStore) (f : File)
    : option (list ClientTask * SqliteStore * File) :=
  match t with
  | BInit => let '(_, b, f) := InitializeDatabase o b f in Some ([], b, f)
  | BClose callback =>
      Some (match callback with Some c => [COnClosed c] | None => [] end, DoCloseInBackground b, f)
  | BStore t =>
      s ← run_store_task t (store_ b);
      let answer :=
        match t, st_db (store_ b) with ClearTableData, Some _ => [COnCleared (tables_cleared (store_ b))] | _, _ => [] end in
      Some (answer, set_store s b, match st_db s with Some db => Some db | None => f end)
  | BKill => let '(b, f) := KillDatabase b f in Some ([], b, f)
  end.

(** ** [class DownloadStoreHelper] *)
Record Helper := mkStoreHelper {
  download_info_store_ : option SqliteStore;
  cache_running : bool;
  cache_queue : list ClientTask;
  backend_running : bool;
  backend_queue : list BackgroundTask;
  answers : list ClientTask;
  db_file : File
}.
Definition Helper_new (f : File) : Helper := mkStoreHelper None false [] false [] [] f.

Definition PostBackgroundTask (t : BackgroundTask) (h : Helper) : Helper :=
  mkStoreHelper (download_info_store_ h) (cache_running h) (cache_queue h) (backend_running h)
    (if backend_running h then backend_queue h ++ [t] else backend_queue h) (answers h) (db_file h).
Definition PostClientTask (t : ClientTask) (h : Helper) : Helper :=
  mkStoreHelper (download_info_store_ h) (cache_running h)
    (if cache_running h then cache_queue h ++ [t] else cache_queue h) (backend_running h) (backend_queue h) (answers h)
    (db_file h).
(** The first task of each thread *)
Definition cache_step (h : Helper) : Helper :=
  match cache_queue h with
  | [] => h
  | t :: q => mkStoreHelper (download_info_store_ h) (cache_running h) q (backend_running h) (backend_queue h) (answers h ++ [t]) (db_file h)
  end.
Definition backend_step (o : Opening) (h : Helper) : option Helper :=
  match backend_queue h, download_info_store_ h with
  | [], _ => Some h
  | _ :: _, None => None
  | t :: q, Some b =>
      '(cs, b, f) ← run_background o t b (db_file h);
      Some (foldl (λ h c, PostClientTask c h)
        (mkStoreHelper (Some b) (cache_running h) (cache_queue h) (backend_running h) q (answers h) f) cs)
  end.
Definition cache_stop (h : Helper) : Helper :=
  let h := Nat.iter (length (cache_queue h)) cache_step h in
  mkStoreHelper (download_info_store_ h) false (cache_queue h) (backend_running h) (backend_queue h) (answers h) (db_file h).
Fixpoint backend_drain (o : Opening) (n : nat) (h : Helper) : option Helper :=
  match n with O => Some h | S n => h ← backend_step o h; backend_drain o n h end.
Definition backend_stop (o : Opening) (h : Helper) : option Helper :=
  h ← backend_drain o (length (backend_queue h)) h;
  Some (mkStoreHelper (download_info_store_ h) (cache_running h) (cache_queue h) false (backend_queue h) (answers h) (db_file h)).
(** The last reference to the store goes; the destructor checks that it is closed. *)
Definition drop_store (h : Helper) : option Helper :=
  match download_info_store_ h with
  | Some b =>
      match st_db (store_ b) with
      | Some _ => None
      | None => Some (mkStoreHelper None (cache_running h) (cache_queue h) (backend_running h) (backend_queue h) (answers h) (db_file h))
      end
  | None => Some h
  end.

(** [Init], called once; the constructor of the store posts its initialisation. *)
Definition Helper_Init (h : Helper) : Helper :=
  PostBackgroundTask BInit (mkStoreHelper (Some SqliteStore_new) true [] true [] (answers h) (db_file h)).
(** [Close], called off the background thread *)
Definition Close (callback : option nat) (h : Helper) : Helper := PostBackgroundTask (BClose callback) h.
Definition Helper_UnInit (o : Opening) (h : Helper) : option Helper :=
  let h := match download_info_store_ h with Some _ => Close None h | None => h end in
  let h := cache_stop h in
  h ← backend_stop o h; drop_store h.
Definition Helper_Reset (h : Helper) : Helper :=
  match download_info_store_ h with Some _ => PostBackgroundTask (BStore ClearTableData) h | None => h end.
(** [AddTaskInfo], [UpdateTaskInfo], [DeleteTaskInfo], [AddUserInfo],
    [UpdateUserInfo]: a null store is not tested. *)
Definition Helper_post (t : StoreTask) (h : Helper) : option Helper :=
  match download_info_store_ h with Some _ => Some (PostBackgroundTask (BStore t) h) | None => None end.
Definition Helper_AddTaskInfo (user_id : string) (i : TaskInfo) (h : Helper) : option Helper :=
  h ← Helper_post (MakeSureTaskInfoTableExist user_id) h; Helper_post (AddTaskInfo user_id i) h.
Definition Helper_UpdateTaskInfo (user_id : string) (i : TaskInfo) : Helper → option Helper := Helper_post (UpdateTaskInfo user_id i).
Definition Helper_DeleteTaskInfo (user_id task_id : string) : Helper → option Helper := Helper_post (DeleteTaskInfo user_id task_id).
Definition Helper_AddUserInfo (user_id : string) (i : DownloadStatisticsInfo) (h : Helper) : option Helper :=
  h ← Helper_post MakeSureUserInfoTableExist h; Helper_post (AddUserInfo user_id i) h.
Definition Helper_UpdateUserInfo (user_id : string) (i : DownloadStatisticsInfo) : Helper → option Helper := Helper_post (UpdateUserInfo user_id i).
(** [SyncWaitBackgroundTaskCompleted]: what was posted before runs first; when the
    thread is stopped the wait does not end. *)
Definition SyncWaitBackgroundTaskCompleted {A} (o : Opening) (task : Store → A * Store) (h : Helper) : option (A * Helper) :=
  if backend_running h then
    h ← backend_drain o (length (backend_queue h)) h;
    b ← download_info_store_ h;
    let '(a, s) := task (store_ b) in
    Some (a, mkStoreHelper (Some (set_store s b)) (cache_running h) (cache_queue h) (backend_running h) (backend_queue h) (answers h) (db_file h))
  else None.
Context `{bl : BaseLib}.
Definition Helper_GetTaskInfoList (o : Opening) (user_id : string) (h : Helper) : option (option (list TaskInfo) * Helper) :=
  SyncWaitBackgroundTaskCompleted o (λ s, (GetTaskInfoList user_id s, s)) h.
Definition Helper_GetAllUsersInfo (o : Opening) (h : Helper) : option (list (string * DownloadStatisticsInfo) * Helper) :=
  SyncWaitBackgroundTaskCompleted o GetAllUsersInfo h.
End Life.

(** ** The life of the store: theorems

    Whatever the order in which the two threads run, stopping the service runs every
    posted task in order, leaves their effect in the file, closes the store before it
    is destroyed, and a restart reads it back ([restart_keeps_tasks]). *)
Section Claims.
Context `{sb : SqlBackend} `{bl : BaseLib}.

Definition opens (o : Opening) : bool := (dir_exists o || dir_created o) && file_opens o.
(** A task that can be stored: its progress and speeds fit the columns. *)
Definition storable (t : StoreTask) : bool :=
  match t with AddTaskInfo _ i => bool_decide (is_Some (AddTaskInfo_row i)) | _ => true end.
Lemma run_storable t s : storable t = true → is_Some (st_db s) → ∃ s', run_store_task t s = Some s' ∧ is_Some (st_db s').
Proof.
  intros Ht [db Hdb]. destruct s as [d us]. simpl in Hdb. subst d.
  destruct t as [u|u i|u i|u id| |u i|u i|]; simpl run_store_task;
    unfold MakeSureTaskInfoTableExist_closure, AddTaskInfo_closure, UpdateTaskInfo_closure, DeleteTaskInfo_closure,
      MakeSureUserInfoTableExist_closure, AddUserInfo_closure, UpdateUserInfo_closure, ClearTableData_closure; simpl.
  2: simpl in Ht; apply bool_decide_eq_true in Ht as [r Hr]; rewrite Hr.
  all: repeat first [case_match | progress simpl]; eexists; (split; [reflexivity|by eexists]).
Qed.
Lemma drain_storable q s : forallb storable q = true → is_Some (st_db s) → ∃ s', drain q s = Some s' ∧ is_Some (st_db s').
Proof.
  revert s. induction q as [|t q IH]; intros s Hq Hs; simpl in *; [by exists s|].
  apply andb_prop in Hq as [Ht Hq]. destruct (run_storable t s Ht Hs) as (s1 & -> & H1). simpl. by apply IH.
Qed.
Lemma drain_snoc q t s : drain (q ++ [t]) s = s' ← drain q s; run_store_task t s'.
Proof.
  revert s. induction q as [|t' q IH]; intros s; simpl; [by destruct (run_store_task t s)|].
  destruct (run_store_task t' s); simpl; [apply IH|done].
Qed.

(** ** Interleavings *)
(** The server posts, or waits for a read; the threads run their first task. *)
Inductive Event := EPost (t : StoreTask) | EReset | ERead (user_id : string) | EBackend | ECache.
Definition event (o : Opening) (e : Event) (h : Helper) : option Helper :=
  match e with
  | EPost t => Helper_post t h
  | EReset => Some (Helper_Reset h)
  | ERead u => snd <$> Helper_GetTaskInfoList o u h
  | EBackend => backend_step o h
  | ECache => Some (cache_step h)
  end.
Fixpoint events (o : Opening) (es : list Event) (h : Helper) : option Helper :=
  match es with [] => Some h | e :: es => h ← event o e h; events o es h end.
Fixpoint posted (es : list Event) : list StoreTask :=
  match es with
  | [] => []
  | EPost t :: es => t :: posted es
  | EReset :: es => ClearTableData :: posted es
  | _ :: es => posted es
  end.
Definition stored (f : File) : Store := mkStore (Some (default no_tables f)) ∅.

(** [q] was posted so far: a part has run, the rest is queued, and [more] after it. *)
Definition at_work (f : File) (q : list StoreTask) (more : list BackgroundTask) (h : Helper) : Prop :=
  backend_running h = true ∧
  ∃ b, download_info_store_ h = Some b ∧
    ((b = SqliteStore_new ∧ backend_queue h = BInit :: (BStore <$> q) ++ more ∧ db_file h = f) ∨
     ∃ done pend, q = done ++ pend ∧ backend_queue h = (BStore <$> pend) ++ more ∧ initialized_ b = true ∧
       before_commit_callback_ b = None ∧ drain done (stored f) = Some (store_ b) ∧ db_file h = st_db (store_ b)).

(** Posting to the client thread changes nothing else. *)
Lemma post_clients cs h : let h' := foldl (λ h c, PostClientTask c h) h cs in
  backend_running h' = backend_running h ∧ download_info_store_ h' = download_info_store_ h ∧
  backend_queue h' = backend_queue h ∧ db_file h' = db_file h.
Proof.
  revert h. induction cs as [|c cs IH]; intros h; simpl; [done|]. destruct (IH (PostClientTask c h)) as (-> & -> & -> & ->). done.
Qed.
Lemma at_work_same f q more h h' :
  backend_running h' = backend_running h → download_info_store_ h' = download_info_store_ h →
  backend_queue h' = backend_queue h → db_file h' = db_file h → at_work f q more h → at_work f q more h'.
Proof. unfold at_work. by intros -> -> -> ->. Qed.
Lemma at_work_post f q t h : at_work f q [] h → at_work f (q ++ [t]) [] (PostBackgroundTask (BStore t) h).
Proof.
  intros (Hr & b & Hb & H). split; [done|]. exists b. split; [done|]. simpl. rewrite Hr.
  destruct H as [(-> & Hq & Hf)|(d & p & -> & Hq & Hrest)].
  - left. rewrite Hq, fmap_app, !app_nil_r. done.
  - right. exists d, (p ++ [t]). rewrite Hq, fmap_app, !app_nil_r, <-app_assoc. by destruct Hrest.
Qed.
Lemma at_work_close f q c h : at_work f q [] h → at_work f q [BClose c] (Close c h).
Proof.
  intros (Hr & b & Hb & H). split; [done|]. exists b. split; [done|]. simpl. rewrite Hr.
  destruct H as [(-> & Hq & Hf)|(d & p & -> & Hq & Hrest)].
  - left. by rewrite Hq, app_nil_r.
  - right. exists d, p. by rewrite Hq, app_nil_r.
Qed.
(** A step of the background thread runs the next posted task. *)
Lemma at_work_step o f q more h t0 rest : opens o = true → forallb storable q = true →
  at_work f q more h → backend_queue h = t0 :: rest → (t0 = BInit ∨ ∃ t, t0 = BStore t) → Forall (λ t, t ≠ BInit ∧ ∀ s, t ≠ BStore s) more →
  ∃ h', backend_step o h = Some h' ∧ at_work f q more h' ∧ backend_queue h' = rest.
Proof.
  intros Ho Hsafe (Hr & b & Hb & H) Hq0 Ht0 Hmore. unfold backend_step. rewrite Hq0, Hb.
  destruct H as [(-> & Hq & Hf)|(d & p & -> & Hq & Hi & Hc & Hd & Hf)]; rewrite Hq0 in Hq.
  - injection Hq as -> ->. unfold run_background, InitializeDatabase. unfold opens in Ho.
    apply andb_prop in Ho as [Hdir Hopen]. rewrite Hopen.
    replace (negb (dir_exists o) && negb (dir_created o)) with false by (by destruct (dir_exists o), (dir_created o)).
    simpl. eexists. split; [done|]. split; [|done]. split; [done|]. eexists. split; [done|]. right.
    exists [], q. rewrite Hf. by split_and!.
  - destruct p as [|t p]; simpl in Hq.
    { exfalso. destruct more as [|t more]; [done|]. injection Hq as -> ->. apply Forall_cons in Hmore as [[H1 H2] _].
      destruct Ht0 as [->|[s ->]]; [done|by apply (H2 s)]. }
    injection Hq as -> ->. rewrite forallb_app in Hsafe. apply andb_prop in Hsafe as [Hs1 Hs2].
    simpl in Hs2. apply andb_prop in Hs2 as [Hst _].
    destruct (drain_storable d (stored f) Hs1) as (s1 & E1 & Hdb); [by eexists|]. rewrite Hd in E1. injection E1 as <-.
    destruct (run_storable t (store_ b) Hst Hdb) as (s2 & Hrun & Hdb2). simpl. rewrite Hrun. simpl.
    eexists. split; [done|].
    match goal with |- at_work _ _ _ (foldl _ ?h0 ?cs) ∧ _ => destruct (post_clients cs h0) as (H1 & H2 & H3 & H4) end.
    split; [|by rewrite H3]. eapply at_work_same; [exact H1|exact H2|exact H3|exact H4|].
    split; [done|]. eexists. split; [done|]. right. exists (d ++ [t]), p. rewrite <-app_assoc.
    split_and!; try done; simpl; [by rewrite drain_snoc, Hd|]. by destruct Hdb2 as [db ->].
Qed.
(** Running the queue ends with every posted task run. *)
Lemma at_work_drain o f q more h : opens o = true → forallb storable q = true →
  Forall (λ t, t ≠ BInit ∧ ∀ s, t ≠ BStore s) more → at_work f q more h →
  ∃ n h', length (backend_queue h) = (n + length more)%nat ∧ backend_drain o n h = Some h' ∧ at_work f q more h' ∧ backend_queue h' = more.
Proof.
  intros Ho Hsafe Hmore. remember (length (backend_queue h)) as m eqn:Hm. revert h Hm. induction m as [|m IH]; intros h Hm Hw.
  - exists 0%nat, h. destruct (backend_queue h) as [|] eqn:E; [|done]. pose proof Hw as (_ & b & _ & H).
    destruct H as [(_ & Hq & _)|(d & p & _ & Hq & _)]; rewrite ?E in Hq; [done|]. destruct p, more; try done.
  - pose proof Hw as (_ & b & _ & H). destruct (backend_queue h) as [|t0 rest] eqn:E; [done|].
    assert ((t0 = BInit ∨ ∃ t, t0 = BStore t) ∨ t0 :: rest = more) as [Ht0|Hend].
    { destruct H as [(_ & Hq & _)|(d & p & _ & Hq & _)]; rewrite ?E in Hq; [injection Hq as -> _; auto|].
      destruct p as [|t p]; [by right|]. injection Hq as -> _. left. right. by eexists. }
    + destruct (at_work_step o f q more h t0 rest Ho Hsafe Hw E Ht0 Hmore) as (h1 & Hstep & Hw1 & Hq1).
      destruct (IH h1) as (n & h2 & Hn & Hdr & Hw2 & Hq2); [rewrite Hq1; simpl in Hm; congruence|done|].
      exists (S n), h2. simpl. rewrite Hstep. simpl. split; [lia|]. by split; [exact Hdr|split].
    + exists 0%nat, h. subst more. split; [done|]. split; [done|]. by split.
Qed.

Lemma drain_S o n h h' : backend_drain o n h = Some h' → ∀ m, backend_drain o (n + m) h = backend_drain o m h'.
Proof.
  revert h. induction n as [|n IH]; intros h E m; simpl in *; [by injection E as ->|].
  destruct (backend_step o h) as [h1|]; simpl in *; [by apply IH|done].
Qed.
(** A read waits for everything that was posted, and changes nothing. *)
Lemma at_work_read o f q u h : opens o = true → forallb storable q = true → at_work f q [] h →
  ∃ s h', drain q (stored f) = Some s ∧ Helper_GetTaskInfoList o u h = Some (GetTaskInfoList u s, h') ∧ at_work f q [] h'.
Proof.
  intros Ho Hsafe Hw. destruct (at_work_drain o f q [] h Ho Hsafe) as (n & h1 & Hn & Hdr & Hw1 & Hq1); [constructor|done|].
  simpl in Hn. rewrite Nat.add_0_r in Hn. unfold Helper_GetTaskInfoList, SyncWaitBackgroundTaskCompleted.
  destruct Hw as (-> & _). rewrite Hn, Hdr. simpl. pose proof Hw1 as (Hr & b & Hb & H). rewrite Hb. simpl.
  destruct H as [(_ & Hq & _)|(d & p & -> & Hq & Hi & Hc & Hd & Hf)]; [by rewrite Hq1 in Hq|].
  rewrite Hq1 in Hq. destruct p; [|done]. rewrite app_nil_r in *.
  exists (store_ b). eexists. split; [done|]. split; [done|]. split; [done|]. exists b. simpl.
  split; [by destruct b|]. right. exists d, []. rewrite Hq1. by rewrite app_nil_r.
Qed.
Lemma at_work_event o f q e h : opens o = true → forallb storable (q ++ posted [e]) = true → at_work f q [] h →
  ∃ h', event o e h = Some h' ∧ at_work f (q ++ posted [e]) [] h'.
Proof.
  intros Ho Hsafe Hw. rewrite forallb_app in Hsafe. apply andb_prop in Hsafe as [Hq _].
  destruct e as [t| |u| |]; simpl; rewrite ?app_nil_r.
  - pose proof Hw as (_ & b & Hb & _). unfold Helper_post. rewrite Hb. eexists. split; [done|]. by apply at_work_post.
  - pose proof Hw as (_ & b & Hb & _). unfold Helper_Reset. rewrite Hb. eexists. split; [done|]. by apply at_work_post.
  - destruct (at_work_read o f q u h Ho Hq Hw) as (s & h' & _ & -> & Hw'). by exists h'.
  - destruct (backend_queue h) as [|t0 rest] eqn:E.
    + exists h. unfold backend_step. by rewrite E.
    + assert (t0 = BInit ∨ ∃ t, t0 = BStore t) as Ht0.
      { pose proof Hw as (_ & b & _ & H). destruct H as [(_ & Hb & _)|(d & p & _ & Hb & _)]; rewrite ?E, app_nil_r in Hb.
        - injection Hb as -> _. auto.
        - destruct p as [|t p]; [done|]. injection Hb as -> _. right. by eexists. }
      destruct (at_work_step o f q [] h t0 rest Ho Hq Hw E Ht0) as (h' & -> & Hw' & _); [constructor|]. by exists h'.
  - eexists. split; [done|]. unfold cache_step. destruct (cache_queue h); [done|]. by eapply at_work_same.
Qed.
Lemma at_work_events o f es q h : opens o = true → forallb storable (q ++ posted es) = true → at_work f q [] h →
  ∃ h', events o es h = Some h' ∧ at_work f (q ++ posted es) [] h'.
Proof.
  intros Ho. revert q h. induction es as [|e es IH]; intros q h Hsafe Hw; [exists h; by rewrite app_nil_r|].
  assert (posted (e :: es) = posted [e] ++ posted es) as Hp by by destruct e.
  rewrite Hp, app_assoc in *. pose proof Hsafe as Hs. rewrite forallb_app in Hs. apply andb_prop in Hs as [Hs _].
  destruct (at_work_event o f q e h Ho Hs Hw) as (h1 & E & Hw1).
  cbn [events]. rewrite E. cbn [mbind option_bind]. by apply IH.
Qed.
Lemma at_work_Init f : at_work f [] [] (Helper_Init (Helper_new f)).
Proof. split; [done|]. eexists. split; [done|]. by left. Qed.
Lemma cache_step_same h : backend_running (cache_step h) = backend_running h ∧
  download_info_store_ (cache_step h) = download_info_store_ h ∧ backend_queue (cache_step h) = backend_queue h ∧
  db_file (cache_step h) = db_file h.
Proof. unfold cache_step. by destruct (cache_queue h). Qed.
Lemma cache_stop_same h : backend_running (cache_stop h) = backend_running h ∧
  download_info_store_ (cache_stop h) = download_info_store_ h ∧ backend_queue (cache_stop h) = backend_queue h ∧
  db_file (cache_stop h) = db_file h.
Proof.
  unfold cache_stop. simpl. induction (length (cache_queue h)) as [|n IH]; simpl; [done|].
  destruct (cache_step_same (Nat.iter n cache_step h)) as (-> & -> & -> & ->). done.
Qed.

Lemma backend_step_cache o h h' : backend_step o h = Some h' → cache_running h' = cache_running h.
Proof.
  intros E. unfold backend_step in E.
  destruct (backend_queue h), (download_info_store_ h); try (by injection E as <-); try done.
  destruct (run_background _ _ _ _) as [[[cs b1] f']|]; simpl in E; [|done]. injection E as <-.
  assert (∀ cs h, cache_running (foldl (λ h c, PostClientTask c h) h cs) = cache_running h) as ->; [|done].
  clear. induction cs as [|c cs IH]; intros h; simpl; [done|]. by rewrite IH.
Qed.
Lemma backend_drain_cache o n h h' : backend_drain o n h = Some h' → cache_running h' = cache_running h.
Proof.
  revert h. induction n as [|n IH]; intros h E; simpl in E; [by injection E as ->|].
  destruct (backend_step o h) as [h1|] eqn:E1; simpl in E; [|done]. by rewrite (IH _ E), (backend_step_cache _ _ _ E1).
Qed.

(** Stopping runs what is queued, then closes the store. *)
Lemma at_work_UnInit o f q h : opens o = true → forallb storable q = true → at_work f q [] h →
  ∃ h' s, Helper_UnInit o h = Some h' ∧ drain q (stored f) = Some s ∧ db_file h' = st_db s ∧
    download_info_store_ h' = None ∧ backend_queue h' = [] ∧ backend_running h' = false ∧ cache_running h' = false.
Proof.
  intros Ho Hsafe Hw. unfold Helper_UnInit. pose proof Hw as (_ & b0 & Hb0 & _). rewrite Hb0.
  apply (at_work_close f q None) in Hw. set (h0 := Close None h) in *.
  destruct (cache_stop_same h0) as (C1 & C2 & C3 & C4).
  assert (cache_running (cache_stop h0) = false) as Hcr by done.
  pose proof (at_work_same _ _ _ _ _ C1 C2 C3 C4 Hw) as Hw1. clear C1 C2 C3 C4. set (h1 := cache_stop h0) in *.
  destruct (at_work_drain o f q [BClose None] h1 Ho Hsafe) as (n & h2 & Hn & Hdr & Hw2 & Hq2);
    [by repeat constructor|done|].
  pose proof (backend_drain_cache o n h1 h2 Hdr) as Hcr2. rewrite Hcr in Hcr2.
  unfold backend_stop. rewrite Hn, (drain_S _ _ _ _ Hdr). simpl. unfold backend_step. rewrite Hq2.
  destruct Hw2 as (_ & b & Hb & [(_ & Hq & _)|(d & p & -> & Hq & Hi & Hc & Hd & Hf)]); rewrite Hq2 in Hq; [done|].
  destruct p; [|done]. rewrite Hb. rewrite app_nil_r. unfold run_background, DoCloseInBackground, Commit. rewrite Hc. simpl.
  eexists _, (store_ b). split; [done|]. by split_and!.
Qed.

(** C11. A restart keeps what the server stored: from any file that opens, whatever
    tasks are posted, resets and reads included, and however the threads interleave,
    stopping succeeds, with the store closed before it is destroyed; the file then
    has the effect of every posted task in posting order, and a store opened on it
    later reads back each user's tasks as the stopped one would have. *)
Theorem restart_keeps_tasks o o' f es :
  opens o = true → opens o' = true → forallb storable (posted es) = true →
  ∃ h s, (h ← events o es (Helper_Init (Helper_new f)); Helper_UnInit o h) = Some h ∧
    drain (posted es) (stored f) = Some s ∧ db_file h = st_db s ∧
    download_info_store_ h = None ∧ backend_queue h = [] ∧
    ∀ u, ∃ h', Helper_GetTaskInfoList o' u (Helper_Init (Helper_new (db_file h))) = Some (GetTaskInfoList u s, h').
Proof.
  intros Ho Ho' Hsafe. destruct (at_work_events o f es [] _ Ho Hsafe (at_work_Init f)) as (h1 & -> & Hw). simpl.
  destruct (at_work_UnInit o f (posted es) h1 Ho Hsafe Hw) as (h & s & -> & Hd & Hf & Hn & Hq & _).
  exists h, s. split_and!; [done..|]. intros u.
  destruct (at_work_read o' (db_file h) [] u _ Ho' eq_refl (at_work_Init _)) as (s' & h' & [= <-] & -> & _).
  exists h'. rewrite Hf. destruct (drain_storable _ (stored f) Hsafe) as (s2 & E & [db Hdb]); [by eexists|].
  rewrite Hd in E. injection E as <-. unfold GetTaskInfoList, stored. by rewrite Hdb.
Qed.

(** Opening is tried once: a store that was closed stays closed. *)
Lemma closed_stays_closed o b f : initialized_ b = true → st_db (store_ b) = None → InitializeDatabase o b f = (false, b, f).
Proof. intros H1 H2. unfold InitializeDatabase. by rewrite H1, H2. Qed.
End Claims.

(** ** Concrete runs *)
Definition good : Opening := mkOpening true true true.
Definition saved_task (id : string) : TaskInfo :=
  TaskInfo_new (mkTaskParam id "http://h/f" "/data" "f" 0 DownloadType.kHttp EmptyString EmptyString true false None).
Definition some_events : list Event :=
  [EPost (MakeSureTaskInfoTableExist "u"); EPost (AddTaskInfo "u" (saved_task "a")); EBackend;
   EPost (AddTaskInfo "u" (saved_task "b")); ERead "u"; EPost (DeleteTaskInfo "u" "a")].
Lemma restart_keeps_tasks_witness : ∃ h s,
  (h ← events (bl := base_ref) good some_events (Helper_Init (Helper_new None)); Helper_UnInit good h) = Some h ∧
  db_file h = st_db s ∧ r_id <$> default [] (db ← st_db s; db_task_tables db !! "u") = ["b"].
Proof.
  destruct (restart_keeps_tasks (bl := base_ref) good good None some_events eq_refl eq_refl eq_refl) as (h & s & E & Hd & Hf & _).
  exists h, s. split; [exact E|]. split; [exact Hf|]. vm_compute in Hd. injection Hd as Hd. subst s. vm_compute. reflexivity.
Defined.
(** When the file cannot be opened a new task dereferences a null database, and the
    saved tasks read as none. *)
Example unopened_store_kills_server :
  let bad := mkOpening true true false in
  let h := Helper_Init (Helper_new (Some no_tables)) in
  events (bl := base_ref) bad [EPost (AddTaskInfo "u" (saved_task "a")); EBackend; EBackend] h = None ∧
  fst <$> Helper_GetTaskInfoList (bl := base_ref) bad "u" h = Some (Some []).
Proof. vm_compute. done. Qed.
(** Without a database [ClearTableData] never calls back. *)
Example clear_unanswered :
  let run o := answers <$> events (bl := base_ref) o [EReset; EBackend; EBackend; ECache] (Helper_Init (Helper_new None)) in
  run good = Some [COnCleared false] ∧ run (mkOpening false false true) = Some [].
Proof. vm_compute. done. Qed.
(** A helper that was stopped dereferences a null store. *)
Example post_after_UnInit :
  (h ← Helper_UnInit good (Helper_Init (Helper_new None)); Helper_DeleteTaskInfo "u" "a" h) = None.
Proof. vm_compute. done. Qed.
