(* ===== verification/GrpcStubTables.v ===== *)
(** * Requests to the other services

    [common/grpc_stub]: a request has an id ([request_handler_id.hpp]); a stub is
    the client of one service, and its [Dispatch] selects the method of the service
    that a request id calls.  The tables of the thirteen stubs. *)

From S2P Require Import Prelude CppBase.

(** [enum class HandlerRequestId], with the values that its enumerators get *)
Inductive HandlerRequestId :=
  | kServicePing | kServiceStatus | kServiceStop | kDeviceId | kVerifyRequest | kDeviceBind
  | kExchangeBind | kRetsetDeviveBind | kCodeLogin | kAccessTokenLogin | kLogout
  | kGetAllTokens | kAddNasUserInfo | kGetNasBaseInfo | kGetUserPayPlan | kGetCurPayPlan
  | kSelectPayPlan | kGetCurUserInfo | kMessageCenterId | kMessagePubSub | kMessageHistory
  | kMessageDelId | kMessageDelType | kMessageAdd | kFileService | kDiskSize | kFileCreate
  | kFileList | kFolderDetails | kFileDelete | kFileRename | kFileMove | kFileCopy
  | kFileSearch | kFileOperatorCacel | kFavoriteAdd | kFavoriteList | kFavoriteMove
  | kFavoriteCancel | kCreateShareLink | kDeleteShareLink | kDeleteInvalidShareLink
  | kListShareLink | kGetShareLink | kResetShareLink | kListTaskRecords | kDeleteTaskRecords
  | kPathListExists | kGetIDByPath | kGetPathByID | kFilePack | kFileUnPack | kArciveInfo
  | kGetSpecifiedTypeFiles | kMeidaService | kVideoInfo | kVideoPlayByFile | kVideoPlay
  | kVideoPlayTs | kVideoSubtitle | kVideoPlayTransCode | kVideoPlayCancel
  | kVideoQueryPlayTaskInfo | kPictureService | kPictureThumbnailPath
  | kPictureWallpaperCollectionList | kPictureWallpaperAddCollection
  | kPictureWallpaperDelCollection | kPictureWallpaperFileList | kPictureWallpaperAddFile
  | kPictureWallpaperDelFile | kPictureWallpaperSetSetting | kPictureWallpaperGetSetting
  | kPictureFileTranscode | kPictureGalleryGetMetaInfo | kDownloadService
  | kCreateLinkDownloadTask | kCreateTorrentDownloadTask | kUploadTorrentFile | kPause
  | kPauseAll | kResume | kResumeAll | kDelete | kDeleteCategory | kRetry | kRetryAll | kClean
  | kCleanCategory | kRestore | kRestoreAll | kGetTaskInfo | kGetLinkInfo | kGetTorrentInfo
  | kGetTorrentUploadPath | kQueryUpdateInfo | kDownloadUpdatePackage
  | kCancelDownloadUpdatePackage | kInstallUpdatePackage | kCheckInstallResult
  | kStorageService | kPutStorage | kGetStorage | kListStorage | kDeleteStorage
  | kResetStorage | kSystemInfoService | kHadrewareInfo | kNetInfo | kGetBaseStaticInfo
  | kSetBaseStaticInfo | kGetTimeStaticInfo | kGetCacheInfo | kCleanCache | kRestartOS
  | kShutdownOs | kFeedback | kDlnaService | kListDlnaDevice | kCreateDlnaTask
  | kCancelDlnaTask | kChangeDlnaTaskPlayUrl | kPlayDlnaTask | kPauseDlnaTask | kSeekDlnaTask
  | kSetDlnaTaskVolume | kResetGrpcService | kStopGrpcService | kRegisterService
  | kModifyRegister | kQueryServiceInfo | kQueryServiceStatus | kLaunchInitPhp | kHealthCheck.
#[export] Instance HandlerRequestId_eq_dec : EqDecision HandlerRequestId.
Proof. solve_decision. Defined.
Definition HandlerRequestId_value (i : HandlerRequestId) : Z :=
  match i with
  | kServicePing => 1 | kServiceStatus => 2 | kServiceStop => 3 | kDeviceId => 100
  | kVerifyRequest => 101 | kDeviceBind => 102 | kExchangeBind => 103
  | kRetsetDeviveBind => 104 | kCodeLogin => 105 | kAccessTokenLogin => 106 | kLogout => 107
  | kGetAllTokens => 108 | kAddNasUserInfo => 109 | kGetNasBaseInfo => 110
  | kGetUserPayPlan => 111 | kGetCurPayPlan => 112 | kSelectPayPlan => 113
  | kGetCurUserInfo => 114 | kMessageCenterId => 200 | kMessagePubSub => 201
  | kMessageHistory => 202 | kMessageDelId => 203 | kMessageDelType => 204
  | kMessageAdd => 205 | kFileService => 300 | kDiskSize => 301 | kFileCreate => 302
  | kFileList => 303 | kFolderDetails => 304 | kFileDelete => 305 | kFileRename => 306
  | kFileMove => 307 | kFileCopy => 308 | kFileSearch => 309 | kFileOperatorCacel => 310
  | kFavoriteAdd => 311 | kFavoriteList => 312 | kFavoriteMove => 313 | kFavoriteCancel => 314
  | kCreateShareLink => 315 | kDeleteShareLink => 316 | kDeleteInvalidShareLink => 317
  | kListShareLink => 318 | kGetShareLink => 319 | kResetShareLink => 320
  | kListTaskRecords => 321 | kDeleteTaskRecords => 322 | kPathListExists => 323
  | kGetIDByPath => 324 | kGetPathByID => 325 | kFilePack => 326 | kFileUnPack => 327
  | kArciveInfo => 328 | kGetSpecifiedTypeFiles => 329 | kMeidaService => 400
  | kVideoInfo => 401 | kVideoPlayByFile => 402 | kVideoPlay => 403 | kVideoPlayTs => 404
  | kVideoSubtitle => 405 | kVideoPlayTransCode => 406 | kVideoPlayCancel => 407
  | kVideoQueryPlayTaskInfo => 408 | kPictureService => 500 | kPictureThumbnailPath => 501
  | kPictureWallpaperCollectionList => 502 | kPictureWallpaperAddCollection => 503
  | kPictureWallpaperDelCollection => 504 | kPictureWallpaperFileList => 505
  | kPictureWallpaperAddFile => 506 | kPictureWallpaperDelFile => 507
  | kPictureWallpaperSetSetting => 508 | kPictureWallpaperGetSetting => 509
  | kPictureFileTranscode => 510 | kPictureGalleryGetMetaInfo => 511 | kDownloadService => 600
  | kCreateLinkDownloadTask => 601 | kCreateTorrentDownloadTask => 602
  | kUploadTorrentFile => 603 | kPause => 604 | kPauseAll => 605 | kResume => 606
  | kResumeAll => 607 | kDelete => 608 | kDeleteCategory => 609 | kRetry => 610
  | kRetryAll => 611 | kClean => 612 | kCleanCategory => 613 | kRestore => 614
  | kRestoreAll => 615 | kGetTaskInfo => 616 | kGetLinkInfo => 617 | kGetTorrentInfo => 618
  | kGetTorrentUploadPath => 619 | kQueryUpdateInfo => 700 | kDownloadUpdatePackage => 701
  | kCancelDownloadUpdatePackage => 702 | kInstallUpdatePackage => 703
  | kCheckInstallResult => 704 | kStorageService => 800 | kPutStorage => 801
  | kGetStorage => 802 | kListStorage => 803 | kDeleteStorage => 804 | kResetStorage => 805
  | kSystemInfoService => 900 | kHadrewareInfo => 901 | kNetInfo => 902
  | kGetBaseStaticInfo => 903 | kSetBaseStaticInfo => 904 | kGetTimeStaticInfo => 905
  | kGetCacheInfo => 906 | kCleanCache => 907 | kRestartOS => 908 | kShutdownOs => 909
  | kFeedback => 910 | kDlnaService => 1000 | kListDlnaDevice => 1001
  | kCreateDlnaTask => 1002 | kCancelDlnaTask => 1003 | kChangeDlnaTaskPlayUrl => 1004
  | kPlayDlnaTask => 1005 | kPauseDlnaTask => 1006 | kSeekDlnaTask => 1007
  | kSetDlnaTaskVolume => 1008 | kResetGrpcService => 1100 | kStopGrpcService => 1101
  | kRegisterService => 1200 | kModifyRegister => 1201 | kQueryServiceInfo => 1202
  | kQueryServiceStatus => 1203 | kLaunchInitPhp => 1204 | kHealthCheck => 1300
  end.
Definition all_request_ids : list HandlerRequestId :=
  [kServicePing; kServiceStatus; kServiceStop; kDeviceId; kVerifyRequest; kDeviceBind;
   kExchangeBind; kRetsetDeviveBind; kCodeLogin; kAccessTokenLogin; kLogout; kGetAllTokens;
   kAddNasUserInfo; kGetNasBaseInfo; kGetUserPayPlan; kGetCurPayPlan; kSelectPayPlan;
   kGetCurUserInfo; kMessageCenterId; kMessagePubSub; kMessageHistory; kMessageDelId;
   kMessageDelType; kMessageAdd; kFileService; kDiskSize; kFileCreate; kFileList;
   kFolderDetails; kFileDelete; kFileRename; kFileMove; kFileCopy; kFileSearch;
   kFileOperatorCacel; kFavoriteAdd; kFavoriteList; kFavoriteMove; kFavoriteCancel;
   kCreateShareLink; kDeleteShareLink; kDeleteInvalidShareLink; kListShareLink; kGetShareLink;
   kResetShareLink; kListTaskRecords; kDeleteTaskRecords; kPathListExists; kGetIDByPath;
   kGetPathByID; kFilePack; kFileUnPack; kArciveInfo; kGetSpecifiedTypeFiles; kMeidaService;
   kVideoInfo; kVideoPlayByFile; kVideoPlay; kVideoPlayTs; kVideoSubtitle;
   kVideoPlayTransCode; kVideoPlayCancel; kVideoQueryPlayTaskInfo; kPictureService;
   kPictureThumbnailPath; kPictureWallpaperCollectionList; kPictureWallpaperAddCollection;
   kPictureWallpaperDelCollection; kPictureWallpaperFileList; kPictureWallpaperAddFile;
   kPictureWallpaperDelFile; kPictureWallpaperSetSetting; kPictureWallpaperGetSetting;
   kPictureFileTranscode; kPictureGalleryGetMetaInfo; kDownloadService;
   kCreateLinkDownloadTask; kCreateTorrentDownloadTask; kUploadTorrentFile; kPause; kPauseAll;
   kResume; kResumeAll; kDelete; kDeleteCategory; kRetry; kRetryAll; kClean; kCleanCategory;
   kRestore; kRestoreAll; kGetTaskInfo; kGetLinkInfo; kGetTorrentInfo; kGetTorrentUploadPath;
   kQueryUpdateInfo; kDownloadUpdatePackage; kCancelDownloadUpdatePackage;
   kInstallUpdatePackage; kCheckInstallResult; kStorageService; kPutStorage; kGetStorage;
   kListStorage; kDeleteStorage; kResetStorage; kSystemInfoService; kHadrewareInfo; kNetInfo;
   kGetBaseStaticInfo; kSetBaseStaticInfo; kGetTimeStaticInfo; kGetCacheInfo; kCleanCache;
   kRestartOS; kShutdownOs; kFeedback; kDlnaService; kListDlnaDevice; kCreateDlnaTask;
   kCancelDlnaTask; kChangeDlnaTaskPlayUrl; kPlayDlnaTask; kPauseDlnaTask; kSeekDlnaTask;
   kSetDlnaTaskVolume; kResetGrpcService; kStopGrpcService; kRegisterService; kModifyRegister;
   kQueryServiceInfo; kQueryServiceStatus; kLaunchInitPhp; kHealthCheck].

(** A method of a service: the types of the request and of the answer, the function
    that prepares the call, the seconds it may take when there is a limit *)
Record Method := mkMethod { m_request : string; m_response : string; m_prepare : string; m_deadline : option Z }.
#[export] Instance Method_eq_dec : EqDecision Method.
Proof. solve_decision. Defined.

(** [AuthServiceStub::Dispatch] *)
Definition AuthServiceStub_Dispatch (handler_id_ : HandlerRequestId) : option Method :=
  match handler_id_ with
  | kDeviceBind => Some (mkMethod "auth_service::v1::EmptyParam" "auth_service::v1::OpResult" "PrepareAsyncDeviceBind" None)
  | kExchangeBind => Some (mkMethod "auth_service::v1::BindUpdateRequest" "auth_service::v1::OpResult" "PrepareAsyncDeviceBindUpdate" None)
  | kRetsetDeviveBind => Some (mkMethod "auth_service::v1::EmptyParam" "auth_service::v1::OpResult" "PrepareAsyncResetNasSetting" None)
  | kCodeLogin => Some (mkMethod "auth_service::v1::LoginCode" "auth_service::v1::LoginInfo" "PrepareAsyncJumpLogin" None)
  | kAccessTokenLogin => Some (mkMethod "auth_service::v1::EmptyParam" "auth_service::v1::LoginInfo" "PrepareAsyncSecondLogin" None)
  | kLogout => Some (mkMethod "auth_service::v1::EmptyParam" "auth_service::v1::OpResult" "PrepareAsyncLogout" None)
  | kGetAllTokens => Some (mkMethod "auth_service::v1::EmptyParam" "auth_service::v1::VerifyTokensResponse" "PrepareAsyncGetLoginToken" None)
  | kVerifyRequest => Some (mkMethod "auth_service::v1::EmptyParam" "auth_service::v1::VerifyTokenResponse" "PrepareAsyncVerifyToken" None)
  | kAddNasUserInfo => Some (mkMethod "auth_service::v1::UserInfoList" "auth_service::v1::OpResult" "PrepareAsyncAddNasUserInfo" None)
  | kGetNasBaseInfo => Some (mkMethod "auth_service::v1::EmptyParam" "auth_service::v1::NasBaseInfo" "PrepareAsyncGetNasBaseInfo" None)
  | kGetUserPayPlan => Some (mkMethod "auth_service::v1::RequestPayList" "auth_service::v1::ProxyCenterResponse" "PrepareAsyncGetUserPayPlan" None)
  | kSelectPayPlan => Some (mkMethod "auth_service::v1::RequestSelectPlanId" "auth_service::v1::ProxyCenterResponse" "PrepareAsyncSelectPayPlan" None)
  | kGetCurPayPlan => Some (mkMethod "auth_service::v1::EmptyParam" "auth_service::v1::ProxyCenterResponse" "PrepareAsyncGetCurPayPlan" None)
  | kGetCurUserInfo => Some (mkMethod "auth_service::v1::EmptyParam" "auth_service::v1::UserInfo" "PrepareAsyncGetUserInfo" None)
  | _ => None
  end.
(** [DlnaServerStub::Dispatch] *)
Definition DlnaServerStub_Dispatch (handler_id_ : HandlerRequestId) : option Method :=
  match handler_id_ with
  | kListDlnaDevice => Some (mkMethod "dlna::v1::ListScreenCastingDevicesRequest" "dlna::v1::ListScreenCastingDevicesResponse" "PrepareAsyncListScreenCastingDevices" None)
  | kCreateDlnaTask => Some (mkMethod "dlna::v1::CreateScreenCastingTaskRequest" "dlna::v1::CreateScreenCastingTaskResponse" "PrepareAsyncCreateScreenCastingTask" None)
  | kCancelDlnaTask => Some (mkMethod "dlna::v1::CancelScreenCastingTaskRequest" "dlna::v1::CancelScreenCastingTaskResponse" "PrepareAsyncCancelScreenCastingTask" None)
  | kChangeDlnaTaskPlayUrl => Some (mkMethod "dlna::v1::ChangeScreenCastingTaskPlayUrlRequest" "dlna::v1::ChangeScreenCastingTaskPlayUrlResponse" "PrepareAsyncChangeScreenCastingTaskPlayUrl" None)
  | kPlayDlnaTask => Some (mkMethod "dlna::v1::PlayScreenCastingTaskRequest" "dlna::v1::PlayScreenCastingTaskResponse" "PrepareAsyncPlayScreenCastingTask" None)
  | kPauseDlnaTask => Some (mkMethod "dlna::v1::PauseScreenCastingTaskRequest" "dlna::v1::PauseScreenCastingTaskResponse" "PrepareAsyncPauseScreenCastingTask" None)
  | kSeekDlnaTask => Some (mkMethod "dlna::v1::SeekScreenCastingTaskRequest" "dlna::v1::SeekScreenCastingTaskResponse" "PrepareAsyncSeekScreenCastingTask" None)
  | kSetDlnaTaskVolume => Some (mkMethod "dlna::v1::SetScreenCastingTaskVolumeRequest" "dlna::v1::SetScreenCastingTaskVolumeResponse" "PrepareAsyncSetScreenCastingTaskVolume" None)
  | _ => None
  end.
(** [DownloadServerStub::Dispatch] *)
Definition DownloadServerStub_Dispatch (handler_id_ : HandlerRequestId) : option Method :=
  match handler_id_ with
  | kCreateLinkDownloadTask => Some (mkMethod "download::v1::CreateLinkDownloadTaskRequest" "download::v1::CreateLinkDownloadTaskResponse" "PrepareAsyncCreateLinkDownloadTask" None)
  | kCreateTorrentDownloadTask => Some (mkMethod "download::v1::CreateTorrentDownloadTaskRequest" "download::v1::CreateTorrentDownloadTaskReply" "PrepareAsyncCreateTorrentDownloadTask" None)
  | kUploadTorrentFile => Some (mkMethod "download::v1::UploadTorrentFileRequest" "download::v1::UploadTorrentFileReply" "PrepareAsyncUploadTorrentFile" None)
  | kPause => Some (mkMethod "download::v1::PauseRequest" "download::v1::PauseReply" "PrepareAsyncPause" None)
  | kPauseAll => Some (mkMethod "download::v1::PauseAllRequest" "download::v1::PauseAllReply" "PrepareAsyncPauseAll" None)
  | kResume => Some (mkMethod "download::v1::ResumeRequest" "download::v1::ResumeReply" "PrepareAsyncResume" None)
  | kResumeAll => Some (mkMethod "download::v1::ResumeAllRequest" "download::v1::ResumeAllReply" "PrepareAsyncResumeAll" None)
  | kDelete => Some (mkMethod "download::v1::DeleteRequest" "download::v1::DeleteReply" "PrepareAsyncDelete" None)
  | kDeleteCategory => Some (mkMethod "download::v1::DeleteCategoryRequest" "download::v1::DeleteCategoryReply" "PrepareAsyncDeleteCategory" None)
  | kRetry => Some (mkMethod "download::v1::RetryRequest" "download::v1::RetryReply" "PrepareAsyncRetry" None)
  | kRetryAll => Some (mkMethod "download::v1::RetryAllRequest" "download::v1::RetryAllReply" "PrepareAsyncRetryAll" None)
  | kClean => Some (mkMethod "download::v1::CleanRequest" "download::v1::CleanReply" "PrepareAsyncClean" None)
  | kCleanCategory => Some (mkMethod "download::v1::CleanCategoryRequest" "download::v1::CleanCategoryReply" "PrepareAsyncCleanCategory" None)
  | kRestore => Some (mkMethod "download::v1::RestoreRequest" "download::v1::RestoreReply" "PrepareAsyncRestore" None)
  | kRestoreAll => Some (mkMethod "download::v1::RestoreAllRequest" "download::v1::RestoreAllReply" "PrepareAsyncRestoreAll" None)
  | kGetTaskInfo => Some (mkMethod "download::v1::GetRequest" "download::v1::GetReply" "PrepareAsyncGet" None)
  | kGetLinkInfo => Some (mkMethod "download::v1::ParseLinkRequest" "download::v1::ParseLinkReply" "PrepareAsyncParseLink" None)
  | kGetTorrentInfo => Some (mkMethod "download::v1::ParseTorrentRequest" "download::v1::ParseTorrentReply" "PrepareAsyncParseTorrent" None)
  | kGetTorrentUploadPath => Some (mkMethod "download::v1::GetTorrentUploadPathRequest" "download::v1::GetTorrentUploadPathReply" "PrepareAsyncGetTorrentUploadPath" None)
  | _ => None
  end.
(** [FileServerStub::Dispatch] *)
Definition FileServerStub_Dispatch (handler_id_ : HandlerRequestId) : option Method :=
  match handler_id_ with
  | kDiskSize => Some (mkMethod "file::v1::GetDiskSizeRequest" "file::v1::GetDiskSizeResponse" "PrepareAsyncGetDiskSize" None)
  | kFileCreate => Some (mkMethod "file::v1::CreateRequest" "file::v1::CreateResponse" "PrepareAsyncCreate" None)
  | kFileList => Some (mkMethod "file::v1::ListFilesAndDirectoriesRequest" "file::v1::ListFilesAndDirectoriesResponse" "PrepareAsyncListFilesAndDirectories" None)
  | kFolderDetails => Some (mkMethod "file::v1::GetPathAttributeRequest" "file::v1::GetPathAttributeResponse" "PrepareAsyncGetPathAttribute" None)
  | kFileDelete => Some (mkMethod "file::v1::DeleteRequest" "file::v1::DeleteResponse" "PrepareAsyncDelete" None)
  | kFileRename => Some (mkMethod "file::v1::RenameRequest" "file::v1::RenameResponse" "PrepareAsyncRename" None)
  | kFileMove => Some (mkMethod "file::v1::MoveRequest" "file::v1::MoveResponse" "PrepareAsyncMove" None)
  | kFileCopy => Some (mkMethod "file::v1::CopyRequest" "file::v1::CopyResponse" "PrepareAsyncCopy" None)
  | kFileSearch => Some (mkMethod "file::v1::SearchFileRequest" "file::v1::SearchFileResponse" "PrepareAsyncSearchFile" None)
  | kFileOperatorCacel => Some (mkMethod "file::v1::CancelFileOperateRequest" "file::v1::CancelFileOperateResponse" "PrepareAsyncCancelFileOperate" None)
  | kFavoriteAdd => Some (mkMethod "file::v1::AddMyCollectionRequest" "file::v1::AddMyCollectionResponse" "PrepareAsyncAddMyCollection" None)
  | kFavoriteList => Some (mkMethod "file::v1::GetMyCollectionRequest" "file::v1::GetMyCollectionResponse" "PrepareAsyncGetMyCollection" None)
  | kFavoriteMove => Some (mkMethod "file::v1::MoveMyCollectionRequest" "file::v1::MoveMyCollectionResponse" "PrepareAsyncMoveMyCollection" None)
  | kFavoriteCancel => Some (mkMethod "file::v1::CancelMyCollectionRequest" "file::v1::CancelMyCollectionResponse" "PrepareAsyncCancelMyCollection" None)
  | kCreateShareLink => Some (mkMethod "file::v1::CreateShareLinkRequest" "file::v1::CreateShareLinkResponse" "PrepareAsyncCreateShareLink" None)
  | kDeleteShareLink => Some (mkMethod "file::v1::DeleteShareLinkRequest" "file::v1::DeleteShareLinkResponse" "PrepareAsyncDeleteShareLink" None)
  | kDeleteInvalidShareLink => Some (mkMethod "file::v1::DeleteInvalidShareLinkRequest" "file::v1::DeleteInvalidShareLinkResponse" "PrepareAsyncDeleteInvalidShareLink" None)
  | kGetShareLink => Some (mkMethod "file::v1::GetShareLinkRequest" "file::v1::GetShareLinkResponse" "PrepareAsyncGetShareLink" None)
  | kListShareLink => Some (mkMethod "file::v1::ListShareLinkRequest" "file::v1::ListShareLinkResponse" "PrepareAsyncListShareLink" None)
  | kResetShareLink => Some (mkMethod "file::v1::ResetShareLinkRequest" "file::v1::ResetShareLinkResponse" "PrepareAsyncResetShareLink" None)
  | kListTaskRecords => Some (mkMethod "file::v1::ListTaskRecordsRequest" "file::v1::ListTaskRecordsResponse" "PrepareAsyncListTaskRecords" None)
  | kDeleteTaskRecords => Some (mkMethod "file::v1::DeleteTaskRecordsRequest" "file::v1::DeleteTaskRecordsResponse" "PrepareAsyncDeleteTaskRecords" None)
  | kPathListExists => Some (mkMethod "file::v1::PathListExistsRequest" "file::v1::PathListExistsResponse" "PrepareAsyncPathListExists" None)
  | kGetIDByPath => Some (mkMethod "file::v1::GetIDByPathRequest" "file::v1::GetIDByPathResponse" "PrepareAsyncGetIDByPath" None)
  | kGetPathByID => Some (mkMethod "file::v1::GetPathByIDRequest" "file::v1::GetPathByIDResponse" "PrepareAsyncGetPathByID" None)
  | kFilePack => Some (mkMethod "file::v1::PackFileRequest" "file::v1::PackFileResponse" "PrepareAsyncPackFile" None)
  | kFileUnPack => Some (mkMethod "file::v1::UnpackFileRequest" "file::v1::UnpackFileResponse" "PrepareAsyncUnpackFile" None)
  | kArciveInfo => Some (mkMethod "file::v1::ReadArchiveInfoRequest" "file::v1::ReadArchiveInfoResponse" "PrepareAsyncReadArchiveInfo" None)
  | kGetSpecifiedTypeFiles => Some (mkMethod "file::v1::ListSpecifiedTpyeFilesRequest" "file::v1::ListSpecifiedTpyeFilesResponse" "PrepareAsyncListSpecifiedTpyeFiles" None)
  | _ => None
  end.
(** [GrpcGeneralControlStub::Dispatch] *)
Definition GrpcGeneralControlStub_Dispatch (handler_id_ : HandlerRequestId) : option Method :=
  match handler_id_ with
  | kResetGrpcService => Some (mkMethod "ResetRequest" "ResetResponse" "PrepareAsyncReset" (Some 30))
  | kStopGrpcService => Some (mkMethod "StopRequest" "StopResponse" "PrepareAsyncStop" None)
  | _ => None
  end.
(** [GrpcHealthCheckStub::Dispatch] *)
Definition GrpcHealthCheckStub_Dispatch (handler_id_ : HandlerRequestId) : option Method :=
  match handler_id_ with
  | kHealthCheck => Some (mkMethod "grpc::health::v1::HealthCheckRequest" "grpc::health::v1::HealthCheckResponse" "PrepareAsyncCheck" None)
  | _ => None
  end.
(** [MediaServerStub::Dispatch] *)
Definition MediaServerStub_Dispatch (handler_id_ : HandlerRequestId) : option Method :=
  match handler_id_ with
  | kVideoInfo => Some (mkMethod "media::v1::GetMediaInfoRequest" "media::v1::GetMediaInfoResponse" "PrepareAsyncGetMediaInfo" None)
  | kVideoPlay => Some (mkMethod "media::v1::StartPlayRequest" "media::v1::StartPlayResponse" "PrepareAsyncStartPlay" None)
  | kVideoPlayByFile => Some (mkMethod "media::v1::StartPlayByFileRequest" "media::v1::StartPlayByFileResponse" "PrepareAsyncStartPlayByFile" None)
  | kVideoPlayTs => Some (mkMethod "media::v1::GetPlayTsRequest" "media::v1::GetPlayTsResponse" "PrepareAsyncGetPlayTs" None)
  | kVideoSubtitle => Some (mkMethod "media::v1::GetSubtitleRequest" "media::v1::GetSubtitleResponse" "PrepareAsyncGetSubtitle" None)
  | kVideoPlayTransCode => Some (mkMethod "media::v1::QueryTranscodeInfoRequest" "media::v1::QueryTranscodeInfoResponse" "PrepareAsyncQueryTranscodeInfo" None)
  | kVideoQueryPlayTaskInfo => Some (mkMethod "media::v1::QueryPlayTaskInfoRequest" "media::v1::QueryPlayTaskInfoResponse" "PrepareAsyncQueryPlayTaskInfo" None)
  | kVideoPlayCancel => Some (mkMethod "media::v1::CancelPlayRequest" "media::v1::CancelPlayResponse" "PrepareAsyncCancelPlay" None)
  | _ => None
  end.
(** [MessageCenterStub::Dispatch] *)
Definition MessageCenterStub_Dispatch (handler_id_ : HandlerRequestId) : option Method :=
  match handler_id_ with
  | kMessageHistory => Some (mkMethod "messages_center::GetMessageDetailRequest" "messages_center::GetMessageDetailResopnse" "PrepareAsyncGetMessageDetail" None)
  | kMessageDelId => Some (mkMethod "messages_center::MessageIds" "messages_center::MessageResponse" "PrepareAsyncDelMessageByIds" None)
  | kMessageDelType => Some (mkMethod "messages_center::DelMessageByTypeRequest" "messages_center::MessageResponse" "PrepareAsyncDelMessageByType" None)
  | kMessageAdd => Some (mkMethod "messages_center::UserMessage" "messages_center::MessageResponse" "PrepareAsyncPublishToMessageCenter" None)
  | _ => None
  end.
(** [OperateRecordStub::Dispatch] *)
Definition OperateRecordStub_Dispatch (handler_id_ : HandlerRequestId) : option Method :=
  match handler_id_ with
  | kListTaskRecords => Some (mkMethod "file::v1::ListTaskRecordsRequest" "file::v1::ListTaskRecordsResponse" "PrepareAsyncListTaskRecords" None)
  | kDeleteTaskRecords => Some (mkMethod "file::v1::DeleteTaskRecordsRequest" "file::v1::DeleteTaskRecordsResponse" "PrepareAsyncDeleteTaskRecords" None)
  | _ => None
  end.
(** [PictureServiceStub::Dispatch] *)
Definition PictureServiceStub_Dispatch (handler_id_ : HandlerRequestId) : option Method :=
  match handler_id_ with
  | kPictureThumbnailPath => Some (mkMethod "picture::v1::ThumbFilePathRequest" "picture::v1::ThumbFilePathResponse" "PrepareAsyncThumbFilePath" None)
  | kPictureWallpaperCollectionList => Some (mkMethod "picture::v1::WallpaperCollectionListRequest" "picture::v1::WallpaperCollectionListResponse" "PrepareAsyncWallpaperCollectionList" None)
  | kPictureWallpaperAddCollection => Some (mkMethod "picture::v1::WallpaperAddCollectionRequest" "picture::v1::WallpaperAddCollectionResponse" "PrepareAsyncWallpaperAddCollection" None)
  | kPictureWallpaperDelCollection => Some (mkMethod "picture::v1::WallpaperDeleteCollectionRequest" "picture::v1::WallpaperDeleteCollectionResponse" "PrepareAsyncWallpaperDeleteCollection" None)
  | kPictureWallpaperFileList => Some (mkMethod "picture::v1::WallpaperFileListRequest" "picture::v1::WallpaperFileListResponse" "PrepareAsyncWallpaperFileList" None)
  | kPictureWallpaperAddFile => Some (mkMethod "picture::v1::WallpaperAddFileRequest" "picture::v1::WallpaperAddFileResponse" "PrepareAsyncWallpaperAddFile" None)
  | kPictureWallpaperDelFile => Some (mkMethod "picture::v1::WallpaperDeleteFileRequest" "picture::v1::WallpaperDeleteFileResponse" "PrepareAsyncWallpaperDeleteFile" None)
  | kPictureWallpaperSetSetting => Some (mkMethod "picture::v1::WallpaperSetSettingRequest" "picture::v1::WallpaperSetSettingResponse" "PrepareAsyncWallpaperSetSetting" None)
  | kPictureWallpaperGetSetting => Some (mkMethod "picture::v1::WallpaperGetSettingRequest" "picture::v1::WallpaperGetSettingResponse" "PrepareAsyncWallpaperGetSetting" None)
  | kPictureFileTranscode => Some (mkMethod "picture::v1::TranscodeImageRequest" "picture::v1::TranscodeImageResponse" "PrepareAsyncTranscodeImage" None)
  | kPictureGalleryGetMetaInfo => Some (mkMethod "picture::v1::QueryPictureFileInfoRequest" "picture::v1::QueryPictureFileInfoResponse" "PrepareAsyncQueryPictureFileInfo" None)
  | _ => None
  end.
(** [StorageServiceStub::Dispatch] *)
Definition StorageServiceStub_Dispatch (handler_id_ : HandlerRequestId) : option Method :=
  match handler_id_ with
  | kPutStorage => Some (mkMethod "storage::v1::PutStorageRequest" "storage::v1::PutStorageResponse" "PrepareAsyncPutStorage" None)
  | kGetStorage => Some (mkMethod "storage::v1::GetStorageRequest" "storage::v1::GetStorageResponse" "PrepareAsyncGetStorage" None)
  | kListStorage => Some (mkMethod "storage::v1::ListStorageRequest" "storage::v1::ListStorageResponse" "PrepareAsyncListStorage" None)
  | kResetStorage => Some (mkMethod "storage::v1::ResetStorageRequest" "storage::v1::ResetStorageResponse" "PrepareAsyncResetStorage" None)
  | _ => None
  end.
(** [SystemInfoServiceStub::Dispatch] *)
Definition SystemInfoServiceStub_Dispatch (handler_id_ : HandlerRequestId) : option Method :=
  match handler_id_ with
  | kHadrewareInfo => Some (mkMethod "system_info::v1::GetHardwareInfoRequest" "system_info::v1::GetHardwareInfoResponse" "PrepareAsyncGetHardwareInfo" None)
  | kNetInfo => Some (mkMethod "system_info::v1::GetNetInfoRequest" "system_info::v1::GetNetInfoResponse" "PrepareAsyncGetNetInfo" None)
  | kGetBaseStaticInfo => Some (mkMethod "system_info::v1::GetBaseStaticsInfoRequest" "system_info::v1::GetBaseStaticInfoResponse" "PrepareAsyncGetBaseStaticInfo" None)
  | kSetBaseStaticInfo => Some (mkMethod "system_info::v1::SetBaseStaticsInfoRequest" "system_info::v1::SetBaseStaticInfoResponse" "PrepareAsyncSetBaseStaticInfo" None)
  | kGetTimeStaticInfo => Some (mkMethod "system_info::v1::GetTimeStaticsInfoRequest" "system_info::v1::GetTimeStaticsInfoResponse" "PrepareAsyncGetTimeStaticInfo" None)
  | kGetCacheInfo => Some (mkMethod "system_info::v1::GetCacheInfoRequest" "system_info::v1::GetCacheInfoResponse" "PrepareAsyncGetCacheInfo" None)
  | kCleanCache => Some (mkMethod "system_info::v1::CleanCacheRequest" "system_info::v1::CleanCacheResponse" "PrepareAsyncCleanCache" None)
  | kShutdownOs => Some (mkMethod "system_info::v1::ShutdownNativeOsRequest" "system_info::v1::ShutdownNativeOsResponse" "PrepareAsyncShutdownNativeOs" None)
  | kRestartOS => Some (mkMethod "system_info::v1::RestartNativeOsRequest" "system_info::v1::RestartNativeOsResponse" "PrepareAsyncRestartNativeOs" None)
  | kFeedback => Some (mkMethod "system_info::v1::UploadFeedBackRequest" "system_info::v1::UploadFeedBackResponse" "PrepareAsyncUploadFeedBack" None)
  | _ => None
  end.
(** [UpdateServerStub::Dispatch] *)
Definition UpdateServerStub_Dispatch (handler_id_ : HandlerRequestId) : option Method :=
  match handler_id_ with
  | kQueryUpdateInfo => Some (mkMethod "update_service::v1::UpdateInfoRequest" "update_service::v1::UpdateInfoResponse" "PrepareAsyncQueryUpdateInfo" None)
  | kDownloadUpdatePackage => Some (mkMethod "update_service::v1::DownloadUpdatePackageRequest" "update_service::v1::OpResult" "PrepareAsyncDownloadUpdatePackage" None)
  | kCancelDownloadUpdatePackage => Some (mkMethod "update_service::v1::EmptyParam" "update_service::v1::OpResult" "PrepareAsyncCancelDownloadUpdatePackage" None)
  | kInstallUpdatePackage => Some (mkMethod "update_service::v1::EmptyParam" "update_service::v1::OpResult" "PrepareAsyncInstallUpdatePackage" None)
  | kCheckInstallResult => Some (mkMethod "update_service::v1::UpdateResultRequest" "update_service::v1::UpdateResultResponse" "PrepareAsyncCheckUpdateResult" None)
  | _ => None
  end.

(** The classes of stubs *)
Inductive StubClass := CAuthServiceStub | CDlnaServerStub | CDownloadServerStub | CFileServerStub | CGrpcGeneralControlStub | CGrpcHealthCheckStub | CMediaServerStub | CMessageCenterStub | COperateRecordStub | CPictureServiceStub | CStorageServiceStub | CSystemInfoServiceStub | CUpdateServerStub.
#[export] Instance StubClass_eq_dec : EqDecision StubClass.
Proof. solve_decision. Defined.
Definition all_stub_classes : list StubClass :=
  [CAuthServiceStub; CDlnaServerStub; CDownloadServerStub; CFileServerStub; CGrpcGeneralControlStub; CGrpcHealthCheckStub; CMediaServerStub; CMessageCenterStub; COperateRecordStub; CPictureServiceStub; CStorageServiceStub; CSystemInfoServiceStub; CUpdateServerStub].
Definition Dispatch_table (c : StubClass) : HandlerRequestId → option Method :=
  match c with
  | CAuthServiceStub => AuthServiceStub_Dispatch
  | CDlnaServerStub => DlnaServerStub_Dispatch
  | CDownloadServerStub => DownloadServerStub_Dispatch
  | CFileServerStub => FileServerStub_Dispatch
  | CGrpcGeneralControlStub => GrpcGeneralControlStub_Dispatch
  | CGrpcHealthCheckStub => GrpcHealthCheckStub_Dispatch
  | CMediaServerStub => MediaServerStub_Dispatch
  | CMessageCenterStub => MessageCenterStub_Dispatch
  | COperateRecordStub => OperateRecordStub_Dispatch
  | CPictureServiceStub => PictureServiceStub_Dispatch
  | CStorageServiceStub => StorageServiceStub_Dispatch
  | CSystemInfoServiceStub => SystemInfoServiceStub_Dispatch
  | CUpdateServerStub => UpdateServerStub_Dispatch
  end.
(** [service_package_name_]; two constructors take it as an argument. *)
Definition service_package_name (c : StubClass) (service_name : string) : string :=
  match c with
  | CAuthServiceStub => "auth_service.v1"
  | CDlnaServerStub => "dlna.v1"
  | CDownloadServerStub => "download.v1"
  | CFileServerStub => "file.v1"
  | CGrpcGeneralControlStub => service_name
  | CGrpcHealthCheckStub => service_name
  | CMediaServerStub => "media.v1"
  | CMessageCenterStub => "messages_center.v1"
  | COperateRecordStub => "file.v1"
  | CPictureServiceStub => "picture.v1"
  | CStorageServiceStub => "system_info.v1"
  | CSystemInfoServiceStub => "system_info.v1"
  | CUpdateServerStub => "update.v1"
  end.
