(* ===== verification/GrpcClient.v ===== *)
(** * Calling the other services

    [grpc_stub_env.cc]: the channels to the services, watched and replaced when they
    fail, and the thread that takes the completions from the queue of grpc;
    [grpc_stub_base.h], [grpc_hold_state_channel.cc] and the stubs: one call, from the
    request to its answer; [grpc_client_context.hpp] and [common/call_result.cc]: what
    a service writes into the metadata of an answer and what its client reads.

    What grpc and the lookup of addresses do are events: they complete an operation,
    or answer a lookup, whenever they like.  [None] is the use of a completion queue
    that was shut down. *)

From S2P Require Import Prelude CppBase ErrorDesc GrpcStubTables.
From stdpp Require Import gmap.
#[local] Open Scope Z_scope.

Definition Chan : Type := nat.
Inductive ChannelState := GRPC_CHANNEL_IDLE | GRPC_CHANNEL_CONNECTING | GRPC_CHANNEL_READY
  | GRPC_CHANNEL_TRANSIENT_FAILURE | GRPC_CHANNEL_SHUTDOWN.

(** A call: the stub that was made for it, its request id and parameter, the headers *)
Record Call := mkCall {
  call_id : nat;
  stub_class : StubClass;
  service_name_ : string;
  handler_id_ : HandlerRequestId;
  call_param : string;
  request_header_ : list (string * string)
}.
Definition service_of (c : Call) : string := service_package_name (stub_class c) (service_name_ c).
(** The callbacks that wait for a channel: a stub, or a reconnection *)
Inductive ChannelCallback := CbStub (c : Call) | CbReconnect (service_name : string).
(** The tags in the completion queue: a call, or the watch of a channel *)
Inductive Tag := TCall (c : Call) (m : Method) (metadata : list (string * string)) | TState (service_name : string) (channel : Chan).
(** Why a handler was destroyed without being run *)
Inductive Loss := NoChannel | NoMethod | LookupDropped.

Record GrpcStubEnv := mkStubEnv {
  queue_open : bool;
  get_service_ip_port_callback_ : bool;
  channel_mgr_ : gmap string Chan;
  is_stoped_ : bool;
  lookups : list (string * ChannelCallback);
  tags : list Tag;
  next_channel : Chan;
  answered : list (Call * (bool * string));
  lost : list (Call * Loss)
}.
Definition set_channels v e := mkStubEnv (queue_open e) (get_service_ip_port_callback_ e) v (is_stoped_ e) (lookups e) (tags e)
  (next_channel e) (answered e) (lost e).
Definition set_lookups v e := mkStubEnv (queue_open e) (get_service_ip_port_callback_ e) (channel_mgr_ e) (is_stoped_ e) v (tags e)
  (next_channel e) (answered e) (lost e).
Definition set_tags v e := mkStubEnv (queue_open e) (get_service_ip_port_callback_ e) (channel_mgr_ e) (is_stoped_ e) (lookups e) v
  (next_channel e) (answered e) (lost e).
Definition set_next_channel v e := mkStubEnv (queue_open e) (get_service_ip_port_callback_ e) (channel_mgr_ e) (is_stoped_ e) (lookups e)
  (tags e) v (answered e) (lost e).
Definition answer (c : Call) (r : bool * string) e := mkStubEnv (queue_open e) (get_service_ip_port_callback_ e) (channel_mgr_ e)
  (is_stoped_ e) (lookups e) (tags e) (next_channel e) (answered e ++ [(c, r)]) (lost e).
Definition lose (c : Call) (why : Loss) e := mkStubEnv (queue_open e) (get_service_ip_port_callback_ e) (channel_mgr_ e)
  (is_stoped_ e) (lookups e) (tags e) (next_channel e) (answered e) (lost e ++ [(c, why)]).

(** [Start] *)
Definition Start : GrpcStubEnv := mkStubEnv true true ∅ false [] [] 0%nat [] [].

(** ** Channels *)
Definition AddChannel (service_name : string) (channel : Chan) e := set_channels (<[service_name := channel]> (channel_mgr_ e)) e.
Definition RemoveChannel (service_name : string) e := set_channels (delete service_name (channel_mgr_ e)) e.
Definition GetChannel (service_name : string) e : option Chan := channel_mgr_ e !! service_name.

(** [AsyncClientCall::Call] *)
Definition Call_Call (c : Call) (m : Method) (metadata : list (string * string)) e : option GrpcStubEnv :=
  if queue_open e then Some (set_tags (tags e ++ [TCall c m metadata]) e) else None.
(** [Dispatch] of the stubs: a request id without a case destroys the handler. *)
Definition Dispatch (c : Call) e : option GrpcStubEnv :=
  match Dispatch_table (stub_class c) (handler_id_ c) with
  | Some m => Call_Call c m (request_header_ c) e
  | None => Some (lose c NoMethod e)
  end.
(** The callbacks of [AsyncInitStub] and of [StateChange] *)
Definition run_callback (cb : ChannelCallback) (channel : option Chan) e : option GrpcStubEnv :=
  match cb, channel with
  | CbStub c, Some _ => Dispatch c e
  | CbStub c, None => Some (lose c NoChannel e)
  | CbReconnect _, _ => Some e
  end.
Definition AsyncCreateChannelAndRegister (service_name : string) (cb : ChannelCallback) e : option GrpcStubEnv :=
  if get_service_ip_port_callback_ e then Some (set_lookups (lookups e ++ [(service_name, cb)]) e)
  else run_callback cb None e.
Definition RegisterOnStateChange (service_name : string) (channel : Chan) e : GrpcStubEnv :=
  if is_stoped_ e then e else set_tags (tags e ++ [TState service_name channel]) e.
(** The callback of the lookup *)
Definition on_ip_port (service_name : string) (cb : ChannelCallback) e : option GrpcStubEnv :=
  let channel := next_channel e in
  let e := set_next_channel (S channel) e in
  let e := AddChannel service_name channel e in
  let e := RegisterOnStateChange service_name channel e in
  run_callback cb (Some channel) e.
Definition GetUsableChannel (service_name : string) (cb : ChannelCallback) e : option GrpcStubEnv :=
  match GetChannel service_name e with
  | None => AsyncCreateChannelAndRegister service_name cb e
  | Some channel => run_callback cb (Some channel) e
  end.
Definition StateChange (service_name : string) (channel : Chan) (state : ChannelState) e : option GrpcStubEnv :=
  match state with
  | GRPC_CHANNEL_CONNECTING | GRPC_CHANNEL_READY => Some (RegisterOnStateChange service_name channel e)
  | GRPC_CHANNEL_IDLE | GRPC_CHANNEL_TRANSIENT_FAILURE =>
      if is_stoped_ e then Some e else AsyncCreateChannelAndRegister service_name (CbReconnect service_name) e
  | GRPC_CHANNEL_SHUTDOWN => Some e
  end.
(** [GrpcHoldStateChannel::GetChannel]; nothing assigns [channel_]. *)
Definition GrpcHoldStateChannel_GetChannel (channel_ : option Chan) (service_name : string) (cb : ChannelCallback) e
    : option GrpcStubEnv :=
  match channel_ with None => GetUsableChannel service_name cb e | Some _ => run_callback cb channel_ e end.
Definition AsyncInitStub (c : Call) e : option GrpcStubEnv := GrpcHoldStateChannel_GetChannel None (service_of c) (CbStub c) e.
(** [AsyncHandler]: [Handler] copies the headers into a new context. *)
Definition AsyncHandler (c : Call) e : option GrpcStubEnv := AsyncInitStub c e.

(** ** The thread of the completion queue *)
(** How an operation ended: the status of a call with its answer as JSON, or the
    state of a channel *)
Inductive Completion := Finished (ok : bool) (response : string) | Changed (state : ChannelState).
(** [HandleResponse] *)
Definition HandleResponse (t : Tag) (r : Completion) e : option GrpcStubEnv :=
  match t, r with
  | TCall c _ _, Finished ok response => Some (answer c (ok, if ok then response else EmptyString) e)
  | TState s ch, Changed state => StateChange s ch state e
  | _, _ => None
  end.
(** [End], up to the wait for the thread, and after it *)
Definition End_begin e := mkStubEnv false (get_service_ip_port_callback_ e) (channel_mgr_ e) true (lookups e) (tags e)
  (next_channel e) (answered e) (lost e).
Definition End_finish e := mkStubEnv (queue_open e) false ∅ (is_stoped_ e) (lookups e) (tags e)
  (next_channel e) (answered e) (lost e).

Inductive ClientEvent :=
  | EvCall (c : Call)
  | EvLookupDone (i : nat)
  | EvLookupDropped (i : nat)
  | EvComplete (i : nat) (r : Completion)
  | EvEnd
  | EvEnded.
Definition fits (t : Tag) (r : Completion) : bool :=
  match t, r with TCall _ _ _, Finished _ _ | TState _ _, Changed _ => true | _, _ => false end.
(** The events that can happen *)
Definition possible (ev : ClientEvent) e : bool :=
  match ev with
  | EvCall _ => true
  | EvLookupDone i | EvLookupDropped i => bool_decide (is_Some (lookups e !! i))
  | EvComplete i r => match tags e !! i with Some t => fits t r | None => false end
  | EvEnd => negb (is_stoped_ e)
  | EvEnded => is_stoped_ e && bool_decide (tags e = [])
  end.
Definition client_step (ev : ClientEvent) e : option GrpcStubEnv :=
  match ev with
  | EvCall c => AsyncHandler c e
  | EvLookupDone i =>
      '(s, cb) ← lookups e !! i; on_ip_port s cb (set_lookups (delete i (lookups e)) e)
  | EvLookupDropped i =>
      '(s, cb) ← lookups e !! i;
      let e := set_lookups (delete i (lookups e)) e in
      Some (match cb with CbStub c => lose c LookupDropped e | CbReconnect _ => e end)
  | EvComplete i r => t ← tags e !! i; HandleResponse t r (set_tags (delete i (tags e)) e)
  | EvEnd => Some (End_begin e)
  | EvEnded => Some (End_finish e)
  end.
Fixpoint client_run (evs : list ClientEvent) e : option GrpcStubEnv :=
  match evs with [] => Some e | ev :: evs => e ← client_step ev e; client_run evs e end.
Fixpoint client_valid (evs : list ClientEvent) e : bool :=
  match evs with
  | [] => true
  | ev :: evs => possible ev e && match client_step ev e with Some e => client_valid evs e | None => true end
  end.
Definition issued (evs : list ClientEvent) : list Call :=
  omap (λ ev, match ev with EvCall c => Some c | _ => None end) evs.

(** ** The metadata of an answer *)
(** [base::Base64Encode] and [base::Base64Decode] *)
Class MetaCodec := { Base64Encode : string → string; Base64Decode : string → option string }.
Class MetaCodecLaws (C : MetaCodec) : Prop := { base64_decode_encode : ∀ s, Base64Decode (Base64Encode s) = Some s }.

(** [atoi] of a number that fits an [int]; [None] when it does not *)
Fixpoint digits_value (l : list ascii) (acc : Z) : Z :=
  match l with
  | [] => acc
  | c :: l =>
      let d := Z.of_N (N_of_ascii c) - 48 in
      if (0 <=? d) && (d <=? 9) then digits_value l (acc * 10 + d) else acc
  end.
Definition is_space (c : ascii) : bool := let n := N_of_ascii c in bool_decide (n = 32%N ∨ (9 <= n <= 13)%N).
Fixpoint skip_spaces (l : list ascii) : list ascii :=
  match l with c :: l' => if is_space c then skip_spaces l' else l | [] => [] end.
Definition atoi (s : string) : option Z :=
  let z :=
    match skip_spaces (str_chars s) with
    | c :: l =>
        if bool_decide (c = "-"%char) then - digits_value l 0
        else if bool_decide (c = "+"%char) then digits_value l 0
        else digits_value (c :: l) 0
    | [] => 0
    end in
  if in_int32 z then Some z else None.

Section Metadata.
Context `{codec : MetaCodec} `{bl : BaseLib}.
Definition Metadata : Type := list (string * string).
(** [WrapperSetResult]: [None] is a null context. *)
Definition SetResult (source : ErrorSource) (r : CallResult) (context_ : option Metadata) : option Metadata :=
  md ← context_;
  let h := SetErrorMsg (cr_msg r) (SetErrorNo (cr_errcode r) (ErrorHandle_new source)) in
  Some (md ++ [("errno", to_string_Z (eh_final_error_no h)); ("msg-bin", Base64Encode (cr_msg r))]).
Definition AddMateData (key value : string) (context_ : option Metadata) : option Metadata :=
  md ← context_; Some (md ++ [(ToLowerASCII key, value)]).

(** [GrpcClientContext]; the server's metadata is a multimap: by key, and in the
    order of insertion among equal keys.  Its keys and values are
    [grpc::string_ref]s, whose [data()] is not terminated: read as a C string it
    goes on into what lies behind it in memory, which the model is given for each
    entry, up to the next NUL ([None]: there is none that may be read). *)
Definition Behind : Type := nat → option string * option string.
Definition next (behind : Behind) : Behind := λ i, behind (S i).
Definition c_data (s : string) (behind : option string) : option string :=
  if bool_decide (c_str s = s) then (λ rest, s +:+ c_str rest) <$> behind else Some (c_str s).
Fixpoint GetErrorNo (behind : Behind) (md : Metadata) : option Z :=
  match md with
  | [] => Some (-100)
  | (k, v) :: md =>
      key ← c_data k (behind 0%nat).1; value ← c_data v (behind 0%nat).2;
      if String.eqb k "errno" then atoi value else GetErrorNo (next behind) md
  end.
Fixpoint GetErrorMsg_loop (md : Metadata) (exist_key : bool) : string :=
  match md with
  | [] => if exist_key then EmptyString else "service unavailable"
  | (k, v) :: md =>
      if String.eqb k "msg-bin" then
        match Base64Decode v with Some de_value => de_value | None => GetErrorMsg_loop md true end
      else GetErrorMsg_loop md exist_key
  end.
Definition GetErrorMsg (md : Metadata) : string := GetErrorMsg_loop md false.
(** [base::CompareCaseInsensitiveASCII] is zero for equal texts. *)
Definition CompareCaseInsensitiveASCII (a b : string) : Z :=
  let a := ToLowerASCII a in
  let b := ToLowerASCII b in
  if String.eqb a b then 0 else if String.ltb a b then -1 else 1.
Definition not_int (z : Z) : bool := z =? 0.
Fixpoint GrpcMetaToHttpHeader (behind : Behind) (md : Metadata) : option Metadata :=
  match md with
  | [] => Some []
  | (k, v) :: md =>
      key ← c_data k (behind 0%nat).1;
      here ← (if not_int (CompareCaseInsensitiveASCII key "errno") && not_int (CompareCaseInsensitiveASCII key "msg-bin")
              then value ← c_data v (behind 0%nat).2; Some [(key, value)] else Some []);
      rest ← GrpcMetaToHttpHeader (next behind) md;
      Some (here ++ rest)
  end.
End Metadata.
