(* ===== verification/GrpcClientClaims.v ===== *)
(** * Calling the other services: theorems

    Every call is in one place at a time, so that its handler runs at most once
    ([calls_settled_once]); the channel in use of a service is watched or being
    replaced ([channels_stay_watched]); the result that a service writes is the one
    its client reads ([results_cross_the_wire]). *)

From S2P Require Import Prelude CppBase BaseRef ErrorDesc GrpcStubTables GrpcClient.
From S2P Require GrpcCall DownloadRpc.
From stdpp Require Import gmap pretty.
#[local] Open Scope Z_scope.

(** ** The tables *)
Definition handled_by (i : HandlerRequestId) : list StubClass :=
  filter (λ c, is_Some (Dispatch_table c i)) all_stub_classes.
Definition agree (i : HandlerRequestId) (c d : StubClass) : bool :=
  match Dispatch_table c i, Dispatch_table d i with
  | Some m, Some n => bool_decide (m = n) && (bool_decide (c = d) || (bool_decide (c ∈ [CFileServerStub; COperateRecordStub]) && bool_decide (d ∈ [CFileServerStub; COperateRecordStub])))
  | _, _ => true
  end.
Lemma all_agree : forallb (λ i, forallb (λ c, forallb (agree i c) all_stub_classes) all_stub_classes) all_request_ids = true.
Proof. vm_compute. reflexivity. Qed.
Lemma in_all_ids i : i ∈ all_request_ids.
Proof. apply (bool_decide_unpack (i ∈ all_request_ids)). destruct i; vm_compute; exact I. Qed.
Lemma in_all_classes c : c ∈ all_stub_classes.
Proof. apply (bool_decide_unpack (c ∈ all_stub_classes)). destruct c; vm_compute; exact I. Qed.
(** A request id calls the same method of the same service whichever stub it is given to. *)
Lemma routes_agree i c d m n service_name : Dispatch_table c i = Some m → Dispatch_table d i = Some n →
  m = n ∧ service_package_name c service_name = service_package_name d service_name.
Proof.
  intros Hc Hd. pose proof all_agree as H. rewrite forallb_forall in H.
  specialize (H i (proj1 (list_elem_of_In _ _) (in_all_ids i))). rewrite forallb_forall in H.
  specialize (H c (proj1 (list_elem_of_In _ _) (in_all_classes c))). rewrite forallb_forall in H.
  specialize (H d (proj1 (list_elem_of_In _ _) (in_all_classes d))). unfold agree in H. rewrite Hc, Hd in H.
  apply andb_prop in H as [H1 H2]. apply bool_decide_eq_true in H1. split; [done|].
  apply orb_prop in H2 as [H2|H2]; [apply bool_decide_eq_true in H2; by subst|].
  apply andb_prop in H2 as [H2 H3]. apply bool_decide_eq_true in H2, H3.
  assert (∀ x, x ∈ [CFileServerStub; COperateRecordStub] → service_package_name x service_name = "file.v1") as E by set_solver.
  by rewrite (E c H2), (E d H3).
Qed.
(** The request ids that no stub has a method for, and those that two have *)
Example unrouted_ids : filter (λ i, handled_by i = []) all_request_ids =
  [kServicePing; kServiceStatus; kServiceStop; kDeviceId; kMessageCenterId; kMessagePubSub; kFileService; kMeidaService;
   kPictureService; kDownloadService; kStorageService; kDeleteStorage; kSystemInfoService; kDlnaService; kRegisterService;
   kModifyRegister; kQueryServiceInfo; kQueryServiceStatus; kLaunchInitPhp].
Proof. vm_compute. done. Qed.
Example twice_routed_ids : filter (λ i, 2 ≤ length (handled_by i))%nat all_request_ids = [kListTaskRecords; kDeleteTaskRecords].
Proof. vm_compute. done. Qed.

(** The methods of the download service, by the name that [CreateCallDatas] serves *)
Definition rpc_name (m : DownloadRpc.RpcMethod) : string :=
  match m with
  | DownloadRpc.CreateLinkDownloadTaskCallData => "CreateLinkDownloadTask"
  | DownloadRpc.ParseLinkCallData => "ParseLink"
  | DownloadRpc.UploadTorrentFileCallData => "UploadTorrentFile"
  | DownloadRpc.CreateTorrentDownloadTaskCallData => "CreateTorrentDownloadTask"
  | DownloadRpc.ParseTorrentCallData => "ParseTorrent"
  | DownloadRpc.PauseCallData => "Pause"
  | DownloadRpc.PauseAllCallData => "PauseAll"
  | DownloadRpc.ResumeCallData => "Resume"
  | DownloadRpc.ResumeAllCallData => "ResumeAll"
  | DownloadRpc.DeleteCallData => "Delete"
  | DownloadRpc.DeleteCategoryCallData => "DeleteCategory"
  | DownloadRpc.GetCallData => "Get"
  | DownloadRpc.RetryCallData => "Retry"
  | DownloadRpc.RetryAllCallData => "RetryAll"
  | DownloadRpc.RestoreCallData => "Restore"
  | DownloadRpc.RestoreAllCallData => "RestoreAll"
  | DownloadRpc.CleanCallData => "Clean"
  | DownloadRpc.CleanCategoryCallData => "CleanCategory"
  | DownloadRpc.GetTorrentUploadPathCallData => "GetTorrentUploadPath"
  end.
(** The request id of a method *)
Definition rpc_request_id (m : DownloadRpc.RpcMethod) : HandlerRequestId :=
  match m with
  | DownloadRpc.CreateLinkDownloadTaskCallData => kCreateLinkDownloadTask
  | DownloadRpc.CreateTorrentDownloadTaskCallData => kCreateTorrentDownloadTask
  | DownloadRpc.UploadTorrentFileCallData => kUploadTorrentFile
  | DownloadRpc.PauseCallData => kPause
  | DownloadRpc.PauseAllCallData => kPauseAll
  | DownloadRpc.ResumeCallData => kResume
  | DownloadRpc.ResumeAllCallData => kResumeAll
  | DownloadRpc.DeleteCallData => kDelete
  | DownloadRpc.DeleteCategoryCallData => kDeleteCategory
  | DownloadRpc.RetryCallData => kRetry
  | DownloadRpc.RetryAllCallData => kRetryAll
  | DownloadRpc.CleanCallData => kClean
  | DownloadRpc.CleanCategoryCallData => kCleanCategory
  | DownloadRpc.RestoreCallData => kRestore
  | DownloadRpc.RestoreAllCallData => kRestoreAll
  | DownloadRpc.GetCallData => kGetTaskInfo
  | DownloadRpc.ParseLinkCallData => kGetLinkInfo
  | DownloadRpc.ParseTorrentCallData => kGetTorrentInfo
  | DownloadRpc.GetTorrentUploadPathCallData => kGetTorrentUploadPath
  end.
(** The stub and the server of the download service have the same methods. *)
Lemma download_methods_served m :
  (∃ i n, DownloadServerStub_Dispatch i = Some n ∧ m_prepare n = "PrepareAsync" +:+ m) ↔
  ∃ r, GrpcCall.EStart r ∈ DownloadRpc.CreateCallDatas ∧ rpc_name r = m.
Proof.
  split.
  - intros (i & n & Hi & Hn).
    assert (∃ r, DownloadServerStub_Dispatch i = Some n → m_prepare n = "PrepareAsync" +:+ rpc_name r) as [r Hr].
    { clear Hn. destruct i; try (exists DownloadRpc.GetCallData; discriminate);
        [exists DownloadRpc.CreateLinkDownloadTaskCallData|exists DownloadRpc.CreateTorrentDownloadTaskCallData
        |exists DownloadRpc.UploadTorrentFileCallData|exists DownloadRpc.PauseCallData|exists DownloadRpc.PauseAllCallData
        |exists DownloadRpc.ResumeCallData|exists DownloadRpc.ResumeAllCallData|exists DownloadRpc.DeleteCallData
        |exists DownloadRpc.DeleteCategoryCallData|exists DownloadRpc.RetryCallData|exists DownloadRpc.RetryAllCallData
        |exists DownloadRpc.CleanCallData|exists DownloadRpc.CleanCategoryCallData|exists DownloadRpc.RestoreCallData
        |exists DownloadRpc.RestoreAllCallData|exists DownloadRpc.GetCallData|exists DownloadRpc.ParseLinkCallData
        |exists DownloadRpc.ParseTorrentCallData|exists DownloadRpc.GetTorrentUploadPathCallData];
        by intros [= <-]. }
    exists r. specialize (Hr Hi). rewrite Hr in Hn. split; [|by injection Hn].
    unfold DownloadRpc.CreateCallDatas. apply list_elem_of_fmap_2. destruct r; set_solver.
  - intros (r & _ & <-). exists (rpc_request_id r). destruct r; eexists; split; reflexivity.
Qed.

(** ** Calls *)
Definition waiting_call (l : string * ChannelCallback) : option Call :=
  match l.2 with CbStub c => Some c | CbReconnect _ => None end.
Definition running_call (t : Tag) : option Call := match t with TCall c _ _ => Some c | TState _ _ => None end.
(** All the calls of a state: waiting for a channel, running, answered, given up *)
Definition calls_of (e : GrpcStubEnv) : list Call :=
  omap waiting_call (lookups e) ++ omap running_call (tags e) ++ (answered e).*1 ++ (lost e).*1.
Record sound (e : GrpcStubEnv) : Prop := {
  sound_tags c m md : TCall c m md ∈ tags e → Dispatch_table (stub_class c) (handler_id_ c) = Some m;
  sound_lost c : (c, NoMethod) ∈ lost e → Dispatch_table (stub_class c) (handler_id_ c) = None;
  sound_answered c r : (c, r) ∈ answered e → is_Some (Dispatch_table (stub_class c) (handler_id_ c));
  sound_queue : queue_open e = negb (is_stoped_ e)
}.
(** [e'] has the calls of [e] and those of [new]. *)
Definition adds (new : list Call) (e e' : GrpcStubEnv) : Prop :=
  sound e' ∧ is_stoped_ e' = is_stoped_ e ∧ calls_of e' ≡ₚ calls_of e ++ new.

Lemma adds_lose c why e : sound e → (why = NoMethod → Dispatch_table (stub_class c) (handler_id_ c) = None) → adds [c] e (lose c why e).
Proof.
  intros [H1 H2 H3 H4] Hwhy. split; [split; simpl; try done|split; [done|]].
  - intros d [H|H]%elem_of_app; [auto|]. apply list_elem_of_singleton in H. injection H as -> <-. auto.
  - unfold calls_of. simpl. rewrite fmap_app. simpl. by rewrite !app_assoc.
Qed.
(** A step that ends adds [new], and it ends unless grpc is shut down. *)
Definition steps_to (r : option GrpcStubEnv) (new : list Call) (e : GrpcStubEnv) : Prop :=
  (is_stoped_ e = false → is_Some r) ∧ ∀ e', r = Some e' → adds new e e'.
Lemma steps_some e' new e : adds new e e' → steps_to (Some e') new e.
Proof. intros H. split; [by eexists|]. by intros ? [= <-]. Qed.
Lemma adds_refl e : sound e → adds [] e e.
Proof. intros H. split; [done|split; [done|by rewrite app_nil_r]]. Qed.
(** What leaves the calls and the queue alone *)
Lemma steps_from r new e0 e : is_stoped_ e = is_stoped_ e0 → calls_of e ≡ₚ calls_of e0 → steps_to r new e → steps_to r new e0.
Proof.
  intros Hr Hc [H1 H2]. split; [by rewrite <-Hr|]. intros e' ->. destruct (H2 e' eq_refl) as (Ha & Hb & Hp).
  split; [done|]. split; [congruence|]. by rewrite Hp, Hc.
Qed.
Lemma steps_Dispatch c e : sound e → steps_to (Dispatch c e) [c] e.
Proof.
  intros Hs. unfold Dispatch. destruct (Dispatch_table _ _) as [m|] eqn:E; [|by apply steps_some, adds_lose].
  pose proof Hs as [H1 H2 H3 H4]. unfold Call_Call. rewrite H4.
  destruct (is_stoped_ e) eqn:Hr; simpl; [split; [congruence|done]|]. apply steps_some.
  split; [split; simpl; try done|split; [done|]].
  - intros d n md [H|H]%elem_of_app; [eauto|]. apply list_elem_of_singleton in H. congruence.
  - by rewrite Hr.
  - unfold calls_of. simpl. rewrite omap_app. simpl. solve_Permutation.
Qed.
Definition callback_calls (cb : ChannelCallback) : list Call := match cb with CbStub c => [c] | CbReconnect _ => [] end.
Lemma steps_callback cb ch e : sound e → steps_to (run_callback cb ch e) (callback_calls cb) e.
Proof.
  intros Hs. destruct cb as [c|s], ch as [ch|]; simpl; [by apply steps_Dispatch|..]; apply steps_some;
    [by apply adds_lose|by apply adds_refl..].
Qed.
Lemma steps_lookup s cb e : sound e → steps_to (AsyncCreateChannelAndRegister s cb e) (callback_calls cb) e.
Proof.
  intros Hs. unfold AsyncCreateChannelAndRegister. destruct (get_service_ip_port_callback_ e); [|by apply steps_callback].
  apply steps_some. pose proof Hs as [H1 H2 H3 H4]. split; [by split|split; [done|]].
  unfold calls_of. simpl. rewrite omap_app. destruct cb; simpl; rewrite ?app_nil_r; [solve_Permutation|done].
Qed.
Lemma steps_GetUsable s cb e : sound e → steps_to (GetUsableChannel s cb e) (callback_calls cb) e.
Proof. intros Hs. unfold GetUsableChannel. destruct (GetChannel s e); [by apply steps_callback|by apply steps_lookup]. Qed.
Lemma Register_same s ch e : sound e → let e' := RegisterOnStateChange s ch e in
  sound e' ∧ is_stoped_ e' = is_stoped_ e ∧ calls_of e' = calls_of e.
Proof.
  intros Hs. unfold RegisterOnStateChange. destruct (is_stoped_ e) eqn:Hr; [done|]. pose proof Hs as [H1 H2 H3 H4].
  split_and!; [split; simpl; try done|done|unfold calls_of; simpl; by rewrite omap_app, app_nil_r].
  - intros c m md [H|H]%elem_of_app; [eauto|]. by apply list_elem_of_singleton in H.
Qed.
Lemma steps_on_ip_port s cb e : sound e → steps_to (on_ip_port s cb e) (callback_calls cb) e.
Proof.
  intros Hs. unfold on_ip_port. set (e1 := AddChannel _ _ _). assert (sound e1) as H1 by by destruct Hs.
  destruct (Register_same s (next_channel e) e1 H1) as (H2 & H3 & H4).
  eapply steps_from; [exact H3|by rewrite H4|]. by apply steps_callback.
Qed.
Lemma steps_StateChange s ch st e : sound e → steps_to (StateChange s ch st e) [] e.
Proof.
  intros Hs. destruct st; simpl.
  2, 3: destruct (Register_same s ch e Hs) as (H1 & H2 & H3); apply steps_some; split; [done|split; [done|by rewrite H3, app_nil_r]].
  3: by apply steps_some, adds_refl.
  all: destruct (is_stoped_ e); [by apply steps_some, adds_refl|apply (steps_lookup s (CbReconnect s) e Hs)].
Qed.

(** ** Every event *)
Definition no_end (ev : ClientEvent) : bool := match ev with EvEnd | EvEnded => false | _ => true end.
Definition event_calls (ev : ClientEvent) : list Call := match ev with EvCall c => [c] | _ => [] end.
Lemma omap_delete {A B} (f : A → option B) (l : list A) i x : l !! i = Some x →
  omap f l ≡ₚ omap f (delete i l) ++ match f x with Some y => [y] | None => [] end.
Proof. intros H. rewrite (delete_Permutation l i x H) at 1. simpl. destruct (f x); [solve_Permutation|by rewrite app_nil_r]. Qed.
Lemma step_settles ev e : sound e → possible ev e = true →
  (is_stoped_ e = false → no_end ev = true → ∃ e', client_step ev e = Some e' ∧ is_stoped_ e' = false) ∧
  ∀ e', client_step ev e = Some e' → sound e' ∧ calls_of e' ≡ₚ calls_of e ++ event_calls ev.
Proof.
  intros Hs Hp.
  assert (∀ r new, steps_to r new e → (is_stoped_ e = false → ∃ e', r = Some e' ∧ is_stoped_ e' = false) ∧
    ∀ e', r = Some e' → sound e' ∧ calls_of e' ≡ₚ calls_of e ++ new) as Hto.
  { intros r new [H1 H2]. split.
    - intros Hr. destruct (H1 Hr) as [e' ->]. exists e'. destruct (H2 e' eq_refl) as (_ & -> & _). done.
    - intros e' ->. destruct (H2 e' eq_refl) as (? & _ & ?). done. }
  destruct ev as [c|i|i|i r| |]; simpl in *.
  - destruct (Hto _ _ (steps_GetUsable (service_of c) (CbStub c) e Hs)) as [H1 H2]. split; [intros Hr _; by apply H1|done].
  - apply bool_decide_eq_true in Hp as [[s cb] Hi]. rewrite Hi. simpl.
    set (e1 := set_lookups _ e). assert (sound e1) as Hs1 by by destruct Hs.
    destruct (steps_on_ip_port s cb e1 Hs1) as [H1 H2].
    assert (calls_of e ≡ₚ calls_of e1 ++ callback_calls cb) as Hc.
    { unfold calls_of, e1. simpl. rewrite (omap_delete _ _ _ _ Hi). unfold waiting_call at 2. simpl.
      destruct cb; simpl; rewrite ?app_nil_r; [solve_Permutation|done]. }
    split.
    + intros Hr _. destruct (H1 Hr) as [e' He]. exists e'. split; [done|]. destruct (H2 e' He) as (_ & -> & _). done.
    + intros e' He. destruct (H2 e' He) as (Ha & _ & Hb). split; [done|]. by rewrite Hb, app_nil_r, Hc.
  - apply bool_decide_eq_true in Hp as [[s cb] Hi]. rewrite Hi. simpl. set (e1 := set_lookups _ e).
    assert (sound e1) as Hs1 by by destruct Hs.
    assert (calls_of e ≡ₚ calls_of e1 ++ callback_calls cb) as Hc.
    { unfold calls_of, e1. simpl. rewrite (omap_delete _ _ _ _ Hi). unfold waiting_call at 2. simpl.
      destruct cb; simpl; rewrite ?app_nil_r; [solve_Permutation|done]. }
    destruct cb as [c|s'].
    + destruct (adds_lose c LookupDropped e1 Hs1) as (H1 & H2 & H3); [done|]. split.
      * intros Hr _. eexists. split; [done|]. by rewrite H2.
      * intros e' [= <-]. split; [done|]. by rewrite H3, app_nil_r, Hc.
    + split; [intros Hr _; by eexists|]. intros e' [= <-]. split; [done|]. rewrite app_nil_r, Hc. simpl. by rewrite app_nil_r.
  - destruct (tags e !! i) as [t|] eqn:Hi; [|done]. simpl. set (e1 := set_tags _ e).
    pose proof Hs as [H1 H2 H3 H4].
    assert (∀ c m md, TCall c m md ∈ tags e1 → TCall c m md ∈ tags e) as Hin.
    { intros c m md H. unfold e1 in H. simpl in H. rewrite (delete_Permutation _ _ _ Hi). by right. }
    assert (sound e1) as Hs1 by (split; simpl; eauto).
    assert (calls_of e ≡ₚ calls_of e1 ++ match running_call t with Some y => [y] | None => [] end) as Hc.
    { unfold calls_of, e1. simpl. rewrite (omap_delete _ _ _ _ Hi).
      destruct (running_call t); simpl; rewrite ?app_nil_r; [solve_Permutation|done]. }
    destruct t as [c m md|s ch], r as [ok resp|st]; try done; simpl in *.
    + split; [intros Hr _; by eexists|]. intros e' [= <-]. split.
      * destruct Hs1 as [G1 G2 G3 G4]. split; [exact G1|exact G2| |exact G4].
        intros d r [H|H]%elem_of_app; [by eapply G3|]. apply list_elem_of_singleton in H. injection H as -> _.
        eexists. eapply (H1 c m md). by apply list_elem_of_lookup_2 in Hi.
      * rewrite app_nil_r, Hc. unfold calls_of, answer. simpl. rewrite fmap_app. simpl. solve_Permutation.
    + rewrite app_nil_r in Hc. destruct (steps_StateChange s ch st e1 Hs1) as [H5 H6]. split.
      * intros Hr _. destruct (H5 Hr) as [e' He]. exists e'. split; [done|]. destruct (H6 e' He) as (_ & -> & _). done.
      * intros e' He. destruct (H6 e' He) as (Ha & _ & Hb). split; [done|]. by rewrite Hb, Hc.
  - split; [done|]. intros e' [= <-]. split; [by destruct Hs|]. by rewrite app_nil_r.
  - split; [done|]. intros e' [= <-]. split; [by destruct Hs|]. by rewrite app_nil_r.
Qed.
Lemma sound_Start : sound Start.
Proof. split; simpl; [intros c m md H|intros c H|intros c r H|done]; by apply not_elem_of_nil in H. Qed.
Lemma run_settles evs e : sound e → client_valid evs e = true →
  (is_stoped_ e = false → forallb no_end evs = true → is_Some (client_run evs e)) ∧
  ∀ e', client_run evs e = Some e' → sound e' ∧ calls_of e' ≡ₚ calls_of e ++ issued evs.
Proof.
  revert e. induction evs as [|ev evs IH]; intros e Hs Hv; cbn [client_run client_valid forallb] in *.
  { split; [by eexists|]. intros e' [= <-]. by rewrite app_nil_r. }
  apply andb_prop in Hv as [Hp Hv]. destruct (step_settles ev e Hs Hp) as [H1 H2].
  assert (issued (ev :: evs) = event_calls ev ++ issued evs) as Hi by by destruct ev. rewrite Hi.
  destruct (client_step ev e) as [e1|] eqn:E; cbn [mbind option_bind].
  - destruct (H2 e1 eq_refl) as [Hs1 Hc1]. destruct (IH e1 Hs1 Hv) as [H3 H4]. split.
    + intros Hr Hn. apply andb_prop in Hn as [Hn1 Hn2]. apply H3; [|done]. destruct (H1 Hr Hn1) as (? & [= <-] & ?). done.
    + intros e' He. destruct (H4 e' He) as [Ha Hb]. split; [done|]. by rewrite Hb, Hc1, app_assoc.
  - split; [|done]. intros Hr Hn. apply andb_prop in Hn as [Hn1 _]. by destruct (H1 Hr Hn1) as (? & ? & _).
Qed.

(** C20. Every call is in exactly one place: waiting for a channel, in the queue of
    grpc, answered, or given up, whatever the order of lookups, completions and
    failures; so no handler runs twice.  A call that was answered has a method, one
    that was given up for its request id has none.  Until [End] nothing uses a queue
    that was shut down. *)
Theorem calls_settled_once evs :
  client_valid evs Start = true →
  (forallb no_end evs = true → is_Some (client_run evs Start)) ∧
  ∀ e, client_run evs Start = Some e →
    issued evs ≡ₚ calls_of e ∧
    (∀ c r, (c, r) ∈ answered e → is_Some (Dispatch_table (stub_class c) (handler_id_ c))) ∧
    (∀ c, (c, NoMethod) ∈ lost e → Dispatch_table (stub_class c) (handler_id_ c) = None).
Proof.
  intros Hv. destruct (run_settles evs Start sound_Start Hv) as [H1 H2]. split; [by apply H1|].
  intros e He. destruct (H2 e He) as [Hs Hc]. split; [by rewrite Hc|]. split; [apply (sound_answered e Hs)|apply (sound_lost e Hs)].
Qed.

(** ** Channels *)
(** Nothing that ends the watching: no shutdown of the client or of a channel, and
    every lookup is answered *)
Definition kept_up (ev : ClientEvent) : bool :=
  match ev with EvEnd | EvEnded | EvLookupDropped _ | EvComplete _ (Changed GRPC_CHANNEL_SHUTDOWN) => false | _ => true end.
Definition watched (s : string) (ch : Chan) (e : GrpcStubEnv) : Prop := TState s ch ∈ tags e ∨ (s, CbReconnect s) ∈ lookups e.
Definition all_watched (e : GrpcStubEnv) : Prop :=
  is_stoped_ e = false ∧ get_service_ip_port_callback_ e = true ∧
  (∀ s s', (s, CbReconnect s') ∈ lookups e → s = s') ∧ ∀ s ch, channel_mgr_ e !! s = Some ch → watched s ch e.
(** A later state that keeps what watches a channel *)
Definition keeps (e e' : GrpcStubEnv) : Prop :=
  is_stoped_ e' = is_stoped_ e ∧ get_service_ip_port_callback_ e' = get_service_ip_port_callback_ e ∧
  channel_mgr_ e' = channel_mgr_ e ∧ tags e ⊆ tags e' ∧ lookups e' = lookups e.
Lemma keeps_watched e e' : keeps e e' → all_watched e → all_watched e'.
Proof.
  intros (H1 & H2 & H3 & H4 & H5) (W1 & W2 & W3 & W4). split; [congruence|]. split; [congruence|].
  unfold watched. rewrite H3, H5. split; [done|]. intros s ch E. destruct (W4 s ch E) as [Ht|Hl]; [left; by apply H4|by right].
Qed.
Lemma Dispatch_keeps c e e' : Dispatch c e = Some e' → keeps e e'.
Proof.
  unfold Dispatch, Call_Call. destruct (Dispatch_table _ _); [destruct (queue_open e); [|done]|]; intros [= <-];
    (split_and!; try done); simpl; set_solver.
Qed.
Lemma callback_keeps cb ch e e' : run_callback cb ch e = Some e' → keeps e e'.
Proof.
  destruct cb as [c|s], ch as [ch|]; simpl; [apply Dispatch_keeps|..]; intros [= <-]; by split_and!.
Qed.
Lemma lookup_watched s cb e e' : (∀ s', cb = CbReconnect s' → s = s') →
  AsyncCreateChannelAndRegister s cb e = Some e' → all_watched e → all_watched e'.
Proof.
  intros Hcb E W. unfold AsyncCreateChannelAndRegister in E. destruct (get_service_ip_port_callback_ e) eqn:Hg.
  - injection E as <-. destruct W as (W1 & W2 & W3 & W4). split_and!; try done; simpl.
    + intros s1 s2 [H|H]%elem_of_app; [auto|]. apply list_elem_of_singleton in H. injection H as <- <-. by apply Hcb.
    + intros s1 ch H. destruct (W4 s1 ch H) as [?|?]; [by left|right; simpl; set_solver].
  - apply callback_keeps in E. by eapply keeps_watched.
Qed.
Lemma step_watched ev e e' : possible ev e = true → kept_up ev = true → client_step ev e = Some e' → all_watched e → all_watched e'.
Proof.
  intros Hp Hk E W. destruct ev as [c|i|i|i r| |]; try done; simpl in *.
  - unfold AsyncHandler, AsyncInitStub, GrpcHoldStateChannel_GetChannel, GetUsableChannel in E.
    destruct (GetChannel _ e); [apply callback_keeps in E; by eapply keeps_watched|].
    eapply lookup_watched; [|exact E|exact W]. done.
  - apply bool_decide_eq_true in Hp as [[s cb] Hi]. rewrite Hi in E. simpl in E. unfold on_ip_port in E.
    apply callback_keeps in E. eapply keeps_watched; [exact E|]. clear E e'. destruct W as (W1 & W2 & W3 & W4).
    unfold RegisterOnStateChange. simpl. rewrite W1. split_and!; [done|done|..]; simpl.
    + intros s1 s2 H. apply W3. rewrite (delete_Permutation _ _ _ Hi). by right.
    + intros s1 ch. destruct (decide (s1 = s)) as [->|Hne].
      * rewrite lookup_insert_eq. intros [= <-]. left. simpl. set_solver.
      * rewrite lookup_insert_ne by done. intros H. destruct (W4 s1 ch H) as [Ht|Hl]; [left; simpl; set_solver|right; simpl].
        rewrite (delete_Permutation _ _ _ Hi) in Hl. apply elem_of_cons in Hl as [Hl|Hl]; [|done]. injection Hl as -> _. done.
  - destruct (tags e !! i) as [t|] eqn:Hi; [|done]. simpl in E.
    assert (t ∈ tags e) as Hin by by apply list_elem_of_lookup_2 in Hi.
    destruct t as [c m md|s ch], r as [ok resp|st]; try done; simpl in E.
    + injection E as <-. destruct W as (W1 & W2 & W3 & W4). split_and!; try done. intros s1 ch1 H.
      destruct (W4 s1 ch1 H) as [Ht|Hl]; [left; simpl|by right]. rewrite (delete_Permutation _ _ _ Hi) in Ht.
      apply elem_of_cons in Ht as [Ht|Ht]; done.
    + destruct W as (W1 & W2 & W3 & W4).
      assert (∀ s1 ch1, channel_mgr_ e !! s1 = Some ch1 → watched s1 ch1 (set_tags (delete i (tags e)) e) ∨ (s1 = s ∧ ch1 = ch)) as Hw.
      { intros s1 ch1 H. destruct (W4 s1 ch1 H) as [Ht|Hl]; [|left; by right]. rewrite (delete_Permutation _ _ _ Hi) in Ht.
        apply elem_of_cons in Ht as [Ht|Ht]; [injection Ht as -> ->; by right|left; by left]. }
      assert (∀ e1, e1 = RegisterOnStateChange s ch (set_tags (delete i (tags e)) e) → all_watched e1) as Hreg.
      { intros e1 ->. unfold RegisterOnStateChange. simpl. rewrite W1. split_and!; try done. intros s1 ch1 H.
        destruct (Hw s1 ch1 H) as [[Ht|Hl]|[-> ->]]; [left; simpl in *; set_solver|by right|left; simpl; set_solver]. }
      assert (AsyncCreateChannelAndRegister s (CbReconnect s) (set_tags (delete i (tags e)) e) = Some e' → all_watched e') as Hrec.
      { unfold AsyncCreateChannelAndRegister. simpl. rewrite W2. intros [= <-]. split_and!; try done; simpl.
        - intros s1 s2 [H|H]%elem_of_app; [auto|]. apply list_elem_of_singleton in H. congruence.
        - intros s1 ch1 H. destruct (Hw s1 ch1 H) as [[Ht|Hl]|[-> ->]]; [by left|right; simpl in *; set_solver|right; simpl; set_solver]. }
      destruct st; simpl in E, Hk; [rewrite W1 in E; by apply Hrec|injection E as <-; by apply Hreg|injection E as <-; by apply Hreg
        |rewrite W1 in E; by apply Hrec|done].
Qed.
(** C23. Until the client is shut down, as long as lookups are answered and no channel
    is shut down, the channel that is in use for a service is being watched, or its
    replacement is on its way: a service is never left on a channel that failed. *)
Theorem channels_stay_watched evs e :
  client_valid evs Start = true → forallb kept_up evs = true → client_run evs Start = Some e →
  ∀ s ch, GetChannel s e = Some ch → watched s ch e.
Proof.
  intros Hv Hk He. enough (all_watched e) as (_ & _ & _ & H) by exact H.
  assert (all_watched Start) as W.
  { split_and!; try done. intros s s' H. by apply not_elem_of_nil in H. }
  revert Hv Hk He W. generalize Start. induction evs as [|ev evs IH]; intros e0 Hv Hk He W; cbn [client_run client_valid forallb] in *.
  { by injection He as <-. }
  apply andb_prop in Hv as [Hp Hv]. apply andb_prop in Hk as [Hk1 Hk2].
  destruct (client_step ev e0) as [e1|] eqn:E; [|done]. cbn [mbind option_bind] in He.
  apply (IH e1 Hv Hk2 He). by eapply step_watched.
Qed.

(** ** Concrete runs *)
Definition a_call (n : nat) (c : StubClass) (i : HandlerRequestId) : Call := mkCall n c EmptyString i "{}" [].
Definition pause_call (n : nat) : Call := a_call n CDownloadServerStub kPause.
Lemma calls_settled_once_witness : ∃ e,
  client_run [EvCall (pause_call 0); EvLookupDone 0; EvCall (a_call 1 CDownloadServerStub kDiskSize); EvComplete 1 (Finished true "{}")] Start
    = Some e ∧ [pause_call 0; a_call 1 CDownloadServerStub kDiskSize] ≡ₚ calls_of e.
Proof.
  destruct (calls_settled_once [EvCall (pause_call 0); EvLookupDone 0; EvCall (a_call 1 CDownloadServerStub kDiskSize);
    EvComplete 1 (Finished true "{}")] eq_refl) as [H1 H2].
  destruct (H1 eq_refl) as [e He]. exists e. split; [exact He|]. exact (proj1 (H2 e He)).
Defined.
Lemma channels_stay_watched_witness : ∃ e,
  client_run [EvCall (pause_call 0); EvLookupDone 0; EvComplete 0 (Changed GRPC_CHANNEL_TRANSIENT_FAILURE)] Start = Some e ∧
  watched "download.v1" 0%nat e.
Proof.
  eexists. split; [vm_compute; reflexivity|].
  eapply (channels_stay_watched [EvCall (pause_call 0); EvLookupDone 0; EvComplete 0 (Changed GRPC_CHANNEL_TRANSIENT_FAILURE)]);
    vm_compute; reflexivity.
Defined.
(** Two calls that wait for the same service make two channels; when the first, which
    is in use no more, fails, it replaces the second. *)
Example unused_channel_replaces :
  (e ← client_run [EvCall (pause_call 0); EvCall (pause_call 1); EvLookupDone 0; EvLookupDone 0] Start;
   Some (GetChannel "download.v1" e)) = Some (Some 1%nat) ∧
  (e ← client_run [EvCall (pause_call 0); EvCall (pause_call 1); EvLookupDone 0; EvLookupDone 0;
     EvComplete 0 (Changed GRPC_CHANNEL_TRANSIENT_FAILURE); EvLookupDone 0] Start;
   Some (GetChannel "download.v1" e)) = Some (Some 2%nat).
Proof. vm_compute. done. Qed.
(** A call for a request id that its stub does not know, or for a service without an
    address, is never answered. *)
Example never_answered :
  lost <$> client_run [EvCall (a_call 0 CStorageServiceStub kDeleteStorage); EvLookupDone 0; EvCall (pause_call 1); EvLookupDropped 0] Start
    = Some [(a_call 0 CStorageServiceStub kDeleteStorage, NoMethod); (pause_call 1, LookupDropped)].
Proof. vm_compute. done. Qed.
(** An address that arrives after the end uses a queue that was shut down. *)
Example address_after_End : client_run [EvCall (pause_call 0); EvEnd; EvEnded; EvLookupDone 0] Start = None.
Proof. vm_compute. done. Qed.

(** ** Results *)
Section Results.
Context `{codec : MetaCodec} {laws : MetaCodecLaws codec}.
(** What ends a number *)
Definition starts_with_digit (s : string) : bool :=
  match str_chars s with c :: _ => let d := Z.of_N (N_of_ascii c) - 48 in (0 <=? d) && (d <=? 9) | [] => false end.
Lemma digits_value_parse s rest acc z : starts_with_digit rest = false → parse_digits acc s = Some z →
  digits_value (str_chars s ++ str_chars rest) acc = z ∧ c_str s = s.
Proof.
  intros Hr. revert acc. induction s as [|c s IH]; intros acc H; simpl in *.
  { injection H as <-. split; [|done]. unfold starts_with_digit in Hr. destruct (str_chars rest); [done|]. simpl in *. by rewrite Hr. }
  unfold digit_of in H. destruct ((48 <=? Z.of_nat (nat_of_ascii c)) && (Z.of_nat (nat_of_ascii c) <=? 57)) eqn:E; simpl in H; [|done].
  apply andb_prop in E as [E1 E2]. unfold nat_of_ascii in *. rewrite N_nat_Z in *.
  replace ((0 <=? Z.of_N (N_of_ascii c) - 48) && (Z.of_N (N_of_ascii c) - 48 <=? 9)) with true by lia.
  rewrite bool_decide_false by (intros ->; vm_compute in E1; done).
  destruct (IH (acc * 10 + (Z.of_N (N_of_ascii c) - 48))) as [-> ->]; [|done]. rewrite <-H. f_equal. lia.
Qed.
Lemma atoi_to_string z rest : 0 <= z <= int32_max → starts_with_digit rest = false →
  atoi (to_string_Z z +:+ rest) = Some z ∧ c_str (to_string_Z z) = to_string_Z z.
Proof.
  intros Hz Hr. unfold to_string_Z. assert (pretty z = pretty (Z.to_N z)) as ->.
  { unfold pretty at 1, pretty_Z. destruct z; [done|done|lia]. }
  pose proof (parse_nonempty_pretty (Z.to_N z)) as Hp. destruct (pretty (Z.to_N z)) as [|c s] eqn:E; [done|].
  unfold parse_nonempty in Hp. destruct (digits_value_parse _ rest _ _ Hr Hp) as [Hd Hc0]. split; [|exact Hc0]. unfold atoi.
  simpl in Hp. unfold digit_of in Hp.
  destruct ((48 <=? Z.of_nat (nat_of_ascii c)) && (Z.of_nat (nat_of_ascii c) <=? 57)) eqn:Hc; [|done].
  apply andb_prop in Hc as [C1 C2]. unfold nat_of_ascii in C1, C2. rewrite N_nat_Z in C1, C2.
  assert (is_space c = false) as Hsp by (unfold is_space; apply bool_decide_eq_false; lia).
  rewrite str_chars_app. change (str_chars (String c s)) with (c :: str_chars s) in *. cbn [app skip_spaces]. rewrite Hsp.
  rewrite !bool_decide_false by (intros ->; vm_compute in C1; done).
  change (c :: str_chars s ++ str_chars rest) with ((c :: str_chars s) ++ str_chars rest). rewrite Hd, Z2N.id by lia.
  unfold in_int32, int32_min in *. by replace ((_ <=? z) && (z <=? int32_max)) with true by lia.
Qed.
(** Every string of the metadata has a NUL somewhere behind it, and behind the error
    number comes no digit. *)
Definition readable (behind : Behind) (md : Metadata) : Prop := ∀ i k v, md !! i = Some (k, v) →
  is_Some (behind i).1 ∧ ∃ rest, (behind i).2 = Some rest ∧ (k = "errno" → starts_with_digit (c_str rest) = false).
Lemma readable_next behind kv md : readable behind (kv :: md) → readable (next behind) md.
Proof. intros H i k v Hi. by apply (H (S i) k v). Qed.
Lemma c_data_some s b : is_Some b → is_Some (c_data s b).
Proof. intros [rest ->]. unfold c_data. case_bool_decide; by eexists. Qed.
Lemma GetErrorNo_elem behind md z : NoDup md.*1 → readable behind md → 0 <= z <= int32_max →
  ("errno", to_string_Z z) ∈ md → GetErrorNo behind md = Some z.
Proof.
  intros Hn Hb Hz. revert behind Hb. induction md as [|[k x] md IH]; intros behind Hb H; [by apply not_elem_of_nil in H|]. simpl in *.
  apply NoDup_cons in Hn as [Hk Hn]. destruct (Hb 0%nat k x eq_refl) as [Hb1 (rest & Hb2 & Hd)].
  destruct (c_data_some k _ Hb1) as [key ->]. rewrite Hb2. simpl.
  destruct (String.eqb_spec k "errno") as [->|Hne].
  - apply elem_of_cons in H as [H|H]; [|exfalso; apply Hk; by apply (list_elem_of_fmap_2 fst _ _ H)].
    injection H as <-. destruct (atoi_to_string z (c_str rest) Hz (Hd eq_refl)) as [Ha Hc].
    unfold c_data. rewrite bool_decide_eq_true_2 by done. simpl. exact Ha.
  - destruct (c_data_some x (Some rest)) as [value ->]; [by eexists|]. simpl.
    apply elem_of_cons in H as [H|H]; [by simplify_eq|]. apply IH; [done|by eapply readable_next|done].
Qed.
Lemma GetErrorMsg_elem md v b : NoDup md.*1 → ("msg-bin", Base64Encode v) ∈ md → GetErrorMsg_loop md b = v.
Proof.
  revert b. induction md as [|[k x] md IH]; intros b Hn H; [by apply not_elem_of_nil in H|]. simpl in *.
  apply NoDup_cons in Hn as [Hk Hn]. destruct (String.eqb_spec k "msg-bin") as [->|Hne].
  - apply elem_of_cons in H as [H|H]; [simplify_eq; by rewrite base64_decode_encode|].
    exfalso. apply Hk. by apply (list_elem_of_fmap_2 fst _ _ H).
  - apply elem_of_cons in H as [H|H]; [by simplify_eq|]. by apply IH.
Qed.
Lemma source_bits_range source :
  0 <= Z.land (to_uint32 (Z.shiftl (to_uint32 (ErrorSource.ErrorSource_value source)) 16)) kErrorSourceMaskCode <= 27 * 65536.
Proof. destruct source; split; vm_compute; discriminate. Qed.
Lemma error_no_range source e : 0 <= e < 65536 →
  0 <= eh_final_error_no (SetErrorNo e (ErrorHandle_new source)) <= int32_max.
Proof.
  intros He. unfold SetErrorNo. rewrite HasErrorSource_small by done. simpl. destruct (e =? kRequestSuccess); simpl; [unfold int32_max; lia|].
  pose proof (source_bits_range source) as Hb. set (b := Z.land _ _) in *. clearbody b.
  unfold to_uint32. rewrite Z.mod_small by lia. unfold int32_max. lia.
Qed.

(** C22. The result that a service writes into the metadata of an answer is the one its
    client reads, in whatever order the metadata arrives: the error number of the
    service, with its source, and the message, which may be any text.  The error code is
    at least 0 and below 65536, and the metadata had neither entry before.  The client
    reads keys and values as C strings although they are not terminated: in memory each
    has a NUL somewhere behind it, and behind the error number comes no digit; where one
    does, another number is read ([digit_behind_changes_error]). *)
Theorem results_cross_the_wire source r md md' :
  0 <= cr_errcode r < 65536 → NoDup ("errno" :: "msg-bin" :: md.*1) →
  SetResult source r (Some md) = Some md' → ∀ md'' behind, md'' ≡ₚ md' → readable behind md'' →
  GetErrorNo behind md'' = Some (eh_final_error_no (SetErrorNo (cr_errcode r) (ErrorHandle_new source))) ∧ GetErrorMsg md'' = cr_msg r.
Proof.
  intros He Hn [= <-] md'' behind Hp Hb.
  assert (NoDup md''.*1) as Hn'.
  { rewrite Hp, fmap_app. simpl. eapply NoDup_Permutation_proper; [|exact Hn]. solve_Permutation. }
  split.
  - apply GetErrorNo_elem; [done..|by apply error_no_range|]. rewrite Hp. apply elem_of_app. right. left.
  - apply GetErrorMsg_elem; [done|]. rewrite Hp. apply elem_of_app. right. right. left.
Qed.
End Results.

(** No header of a service reaches the answer: the comparison is zero for equal texts,
    so that a header would have to have both names. *)
Lemma no_header_copied `{bl : BaseLib} {laws : BaseLibLaws bl} behind md headers :
  GrpcMetaToHttpHeader behind md = Some headers → headers = [].
Proof.
  revert behind headers. induction md as [|[k v] md IH]; intros behind headers; simpl; [by intros [= <-]|].
  destruct (c_data k _) as [key|]; simpl; [|done].
  assert (not_int (CompareCaseInsensitiveASCII key "errno") && not_int (CompareCaseInsensitiveASCII key "msg-bin") = false) as ->.
  { unfold not_int, CompareCaseInsensitiveASCII. simpl. rewrite !ToLowerASCII_ok.
    destruct (String.eqb_spec (string_map ascii_lower key) (string_map ascii_lower "errno")) as [->|H1]; [|by destruct (String.ltb _ _)].
    vm_compute. done. }
  simpl. destruct (GrpcMetaToHttpHeader (next behind) md) as [rest|] eqn:Hr; simpl; [|done].
  intros [= <-]. by eapply IH.
Qed.
Definition plain_codec : MetaCodec := {| Base64Encode s := s; Base64Decode := Some |}.
(** Nothing behind any string but its terminator *)
Definition terminated : Behind := λ _, (Some EmptyString, Some EmptyString).
Lemma results_cross_the_wire_witness :
  let r := mkCallResult 7 "no such task" in
  GetErrorNo terminated [("msg-bin", "no such task"); ("errno", "1507335"); ("x", "1")] = Some 1507335 ∧
  GetErrorMsg (codec := plain_codec) [("msg-bin", "no such task"); ("errno", "1507335"); ("x", "1")] = "no such task".
Proof.
  assert (MetaCodecLaws plain_codec) as laws by by split.
  assert (NoDup ("errno" :: "msg-bin" :: [("x", "1")].*1)) as Hn by (apply (bool_decide_unpack (NoDup _)); vm_compute; exact I).
  destruct (results_cross_the_wire (codec := plain_codec) ErrorSource.kDownloadService (mkCallResult 7 "no such task") [("x", "1")]
    [("x", "1"); ("errno", "1507335"); ("msg-bin", "no such task")] ltac:(simpl; lia) Hn eq_refl
    [("msg-bin", "no such task"); ("errno", "1507335"); ("x", "1")] terminated) as [H1 H2]; [solve_Permutation| |].
  - intros i k v _. split; [by eexists|]. by exists EmptyString.
  - split; [rewrite H1; vm_compute; reflexivity|exact H2].
Defined.
(** A digit behind the error number belongs to it; without a NUL behind a string the
    read has no end. *)
Example digit_behind_changes_error :
  GetErrorNo (λ _, (Some EmptyString, Some "2 ...")) [("errno", "7")] = Some 72 ∧
  GetErrorNo (λ _, (Some EmptyString, None)) [("errno", "7")] = None.
Proof. vm_compute. done. Qed.
(** When the result is set twice the client reads the first. *)
Example first_result_read :
  let set r := SetResult (codec := plain_codec) ErrorSource.kDownloadService r in
  (md ← set (mkCallResult 2 "b") (set (mkCallResult 1 "a") (Some [])); GetErrorNo terminated md) = Some 1507329.
Proof. vm_compute. done. Qed.
