(* ===== verification/MessageCenter.v ===== *)
(** * Clients of two services

    [common/send_to_message_center.cc]: messages are published one after the other on
    a thread of their own; [common/auth_service_client.cc]: calls of the auth service.
    Both look the service up when they have no stub and drop the stub when a call
    fails.  The answers of the service manager and of the services are arguments. *)

From S2P Require Import Prelude CppBase DownloadTypes.

(** [Create...Stub]: the stub is the address it was made for. *)
Definition Stub : Type := string.
Definition CreateStub (ip_port : string) (stub_ : option Stub) : option Stub :=
  if str_empty ip_port then stub_ else Some ip_port.

(** ** [class SendToMessageCenter] *)
Inductive CenterMessage :=
  | PubSub (channel app operator_id content : string)
  | UserMessage (user app title sub_title : string) (template_id : Z) (type action status : string) (level : Z) (content : string).
Record SendToMessageCenter := mkSender {
  app_ : string;
  stub_ : option Stub;
  tasks : list CenterMessage;
  running : bool;
  delivered : list CenterMessage;
  dropped : list CenterMessage
}.
Definition set_tasks v s := mkSender (app_ s) (stub_ s) v (running s) (delivered s) (dropped s).
(** The constructor, with the address that the service manager knows *)
Definition SendToMessageCenter_new (app ip_port : string) : SendToMessageCenter :=
  mkSender app (CreateStub ip_port None) [] true [] [].
Definition PostTask (m : CenterMessage) (s : SendToMessageCenter) : SendToMessageCenter :=
  if running s then set_tasks (tasks s ++ [m]) s else s.
(** The requests that the functions build *)
Definition Publish (content_json : string) (context_field : ContextField) (channel : string) (s : SendToMessageCenter) : SendToMessageCenter :=
  PostTask (PubSub channel (app_ s) (cf_call_id context_field) content_json) s.
Definition AsyncPublish (content_json : string) (context_field : ContextField) (s : SendToMessageCenter) : SendToMessageCenter :=
  Publish content_json context_field (cf_nas_token context_field) s.
Definition AsyncPublishByXEndpointId (content_json x_endpoint_id : string) (context_field : ContextField) (s : SendToMessageCenter)
    : SendToMessageCenter :=
  Publish content_json context_field x_endpoint_id s.
Definition AsyncPublishByUserId (content_json : string) (context_field : ContextField) (s : SendToMessageCenter) : SendToMessageCenter :=
  Publish content_json context_field (cf_user_id context_field) s.
Definition PublishToMessageCenter (title sub_title : string) (template_id : Z) (type action status : string) (level : Z)
    (content_json : string) (context_field : ContextField) (s : SendToMessageCenter) : SendToMessageCenter :=
  PostTask (UserMessage (cf_user_id context_field) (app_ s) title sub_title template_id type action status level content_json) s.
(** A task on the thread: [ip_port] is what the service manager answers when asked,
    [ok] the status of the call.  A failed message is posted again. *)
Definition run_task (ip_port : string) (ok : bool) (s : SendToMessageCenter) : SendToMessageCenter :=
  match tasks s with
  | [] => s
  | m :: q =>
      let stub := match stub_ s with Some a => Some a | None => CreateStub ip_port None end in
      match stub with
      | None => mkSender (app_ s) None q (running s) (delivered s) (dropped s ++ [m])
      | Some a =>
          if ok then mkSender (app_ s) (Some a) q (running s) (delivered s ++ [m]) (dropped s)
          else mkSender (app_ s) None (q ++ [m]) (running s) (delivered s) (dropped s)
      end
  end.
(** [UnInit] waits until the thread is idle. *)
Definition UnInit (s : SendToMessageCenter) : option SendToMessageCenter :=
  match tasks s with
  | [] => Some (mkSender (app_ s) (stub_ s) [] false (delivered s) (dropped s))
  | _ => None
  end.

(** ** [class AuthServiceClient] *)
Record AuthServiceClient := mkAuth {
  services_mgr_stub_ : bool;
  address_ : string;
  auth_stub_ : option Stub
}.
Definition CreateAuthServiceStub (ip_port : string) (s : AuthServiceClient) : bool * AuthServiceClient :=
  let auth_service_address :=
    if services_mgr_stub_ s then Some ip_port
    else if negb (str_empty (address_ s)) then Some (address_ s) else None in
  match auth_service_address with
  | None => (false, s)
  | Some a =>
      let st := CreateStub a (auth_stub_ s) in
      (match st with Some _ => true | None => false end, mkAuth (services_mgr_stub_ s) (address_ s) st)
  end.
Definition AuthServiceClient_Init (services_mgr_stub : bool) (ip_port : string) (s : AuthServiceClient) : AuthServiceClient :=
  (CreateAuthServiceStub ip_port (mkAuth services_mgr_stub (address_ s) (auth_stub_ s))).2.
Definition SetAddress (address : string) (s : AuthServiceClient) : AuthServiceClient :=
  mkAuth (services_mgr_stub_ s) address (auth_stub_ s).
(** The shape of [GetAllUser], [GetNasBaseInfo], [CleanNasBaseInfo] and
    [UpdateNasBaseInfo]: [call] is the service's answer, without one the call failed. *)
Definition auth_call {A} (ip_port : string) (call : Stub → option A) (s : AuthServiceClient) : option A * AuthServiceClient :=
  let '(has_stub, s) := match auth_stub_ s with Some _ => (true, s) | None => CreateAuthServiceStub ip_port s end in
  match has_stub, auth_stub_ s with
  | true, Some a =>
      match call a with
      | Some r => (Some r, s)
      | None => (None, mkAuth (services_mgr_stub_ s) (address_ s) None)
      end
  | _, _ => (None, s)
  end.
Definition GetAllUser {A} := @auth_call A.
Definition GetNasBaseInfo {A} := @auth_call A.
Definition CleanNasBaseInfo {A} := @auth_call A.
Definition UpdateNasBaseInfo {A} := @auth_call A.

(** ** Messages are kept *)
Inductive SenderEvent := SPost (m : CenterMessage) | SRun (ip_port : string) (ok : bool).
Definition sender_step (s : SendToMessageCenter) (e : SenderEvent) : SendToMessageCenter :=
  match e with SPost m => PostTask m s | SRun ip_port ok => run_task ip_port ok s end.
Definition sender_run (es : list SenderEvent) (s : SendToMessageCenter) : SendToMessageCenter := foldl sender_step s es.
Definition sent (es : list SenderEvent) : list CenterMessage :=
  omap (λ e, match e with SPost m => Some m | SRun _ _ => None end) es.
(** No call fails. *)
Definition reliable (es : list SenderEvent) : bool := forallb (λ e, match e with SRun ip_port ok => ok && negb (str_empty ip_port) | SPost _ => true end) es.

Lemma run_running ip_port ok s : running (run_task ip_port ok s) = running s.
Proof. unfold run_task. repeat (case_match; try done). Qed.
Lemma run_conserves ip_port ok s : let all s := delivered s ++ dropped s ++ tasks s in
  all (run_task ip_port ok s) ≡ₚ all s.
Proof.
  simpl. unfold run_task. destruct (tasks s) as [|m q] eqn:E; [by rewrite E|].
  destruct (match stub_ s with Some a => Some a | None => _ end); [destruct ok|]; simpl; solve_Permutation.
Qed.
(** C27. Every message that is posted is delivered, dropped because the service has no
    address, or queued, and is in one of these places only; when no call fails and the
    service has an address, messages are delivered in the order they were posted. *)
Theorem messages_kept es app ip_port :
  let s := sender_run es (SendToMessageCenter_new app ip_port) in
  sent es ≡ₚ delivered s ++ dropped s ++ tasks s ∧
  (reliable es = true → dropped s = [] ∧ sent es = delivered s ++ tasks s).
Proof.
  set (s0 := SendToMessageCenter_new app ip_port).
  assert (∀ es s, running s = true → let s' := sender_run es s in
    running s' = true ∧ delivered s' ++ dropped s' ++ tasks s' ≡ₚ (delivered s ++ dropped s ++ tasks s) ++ sent es ∧
    (reliable es = true → dropped s = [] → dropped s' = [] ∧ delivered s' ++ tasks s' = (delivered s ++ tasks s) ++ sent es)) as H.
  { clear. induction es as [|e es IH]; intros s Hr; [simpl; rewrite !app_nil_r; done|]. unfold sender_run. cbn [foldl].
    fold (sender_run es (sender_step s e)).
    assert (running (sender_step s e) = true) as Hr1.
    { destruct e as [m|a ok]; simpl; [unfold PostTask; by rewrite Hr|by rewrite run_running]. }
    destruct (IH _ Hr1) as (H1 & H2 & H3). split; [done|]. split.
    - rewrite H2. destruct e as [m|a ok]; simpl.
      + unfold PostTask. rewrite Hr. simpl. solve_Permutation.
      + by rewrite run_conserves.
    - intros Hrel Hd. unfold reliable in Hrel. cbn [forallb] in Hrel. apply andb_prop in Hrel as [He Hrel].
      fold (reliable es) in Hrel. destruct e as [m|a ok]; simpl in *.
      + destruct (H3 Hrel) as [H4 H5]; [unfold PostTask; by rewrite Hr|]. split; [done|]. rewrite H5.
        unfold PostTask. rewrite Hr. simpl. by rewrite <-!app_assoc.
      + apply andb_prop in He as [-> Ha]. apply negb_true_iff in Ha.
        assert (dropped (run_task a true s) = [] ∧ delivered (run_task a true s) ++ tasks (run_task a true s) = delivered s ++ tasks s) as [H4 H5].
        { unfold run_task. destruct (tasks s) as [|m q] eqn:E; [by rewrite E, app_nil_r|]. unfold CreateStub. rewrite Ha.
          destruct (stub_ s); simpl; by rewrite <-app_assoc. }
        destruct (H3 Hrel H4) as [H6 H7]. split; [done|]. by rewrite H7, H5. }
  destruct (H es s0 eq_refl) as (_ & H1 & H2). split; [by rewrite H1|].
  intros Hrel. destruct (H2 Hrel eq_refl) as [H3 H4]. split; [done|]. by rewrite H4.
Qed.
Definition msg (n : string) : CenterMessage := PubSub "t" "download" "1" n.
Lemma messages_kept_witness :
  let s := sender_run [SPost (msg "a"); SPost (msg "b"); SRun "h:1" true] (SendToMessageCenter_new "download" EmptyString) in
  [msg "a"; msg "b"] = delivered s ++ tasks s.
Proof.
  exact (proj2 (proj2 (messages_kept [SPost (msg "a"); SPost (msg "b"); SRun "h:1" true] "download" EmptyString) eq_refl)).
Defined.
(** A message whose call fails goes behind the later ones. *)
Example failed_message_overtaken :
  delivered (sender_run [SPost (msg "a"); SPost (msg "b"); SRun "h:1" false; SRun "h:1" true; SRun "h:1" true]
    (SendToMessageCenter_new "download" "h:1")) = [msg "b"; msg "a"].
Proof. reflexivity. Qed.
(** While a service that has an address refuses the calls, the thread is never idle,
    and stopping it does not end. *)
Lemma refused_never_idle n m app : let s := Nat.iter n (run_task "h:1" false) (PostTask m (SendToMessageCenter_new app "h:1")) in
  tasks s = [m] ∧ UnInit s = None.
Proof.
  simpl. assert (tasks (Nat.iter n (run_task "h:1" false) (PostTask m (SendToMessageCenter_new app "h:1"))) = [m]) as E.
  { induction n as [|n IH]; [done|]. simpl. unfold run_task at 1. rewrite IH. by destruct (stub_ _). }
  split; [done|]. unfold UnInit. by rewrite E.
Qed.
(** A failed call drops the stub, so that the next one looks the service up again. *)
Lemma auth_retries {A} a b (call : Stub → option A) s : services_mgr_stub_ s = true → str_empty b = false →
  auth_stub_ s = Some a → call a = None → ∃ s', GetAllUser b call s = (None, s') ∧ fst (GetAllUser b call s') = call b.
Proof.
  intros Hm Hb Hs Hc. unfold GetAllUser, auth_call. rewrite Hs. simpl. rewrite Hs, Hc. eexists. split; [done|]. simpl.
  unfold CreateAuthServiceStub. simpl. rewrite Hm. unfold CreateStub. rewrite Hb. simpl. by destruct (call b).
Qed.
